(* ===== verification/_CoqProject ===== *)
-Q . S2P
Prelude.v
GoFloat.v
GoFloatFacts.v
GoFloatExact.v
GoStrings.v
GoText.v
GoFmt.v
ExpiryMap.v
DeltaTracker.v
Entities.v
RecordAverages.v
LongerRecords.v
Retention.v
AlertStore.v
StatusAlerts.v
SystemAlerts.v
Notify.v
Digest.v
AlertsAPI.v
RequestManager.v
SystemData.v
HubStart.v
SystemManager.v
ConnectionManager.v
AgentConnect.v
ConfigSync.v
ConfigExport.v
Heartbeat.v
Realtime.v
HubAccess.v
HubPages.v
CollectionRules.v
AdminUsers.v
AdminSettings.v
AgentUpdate.v
Transport.v
SshClients.v
AgentHandlers.v
AgentSocket.v
HubSocket.v
SelfUpdate.v
UpdateCommands.v
AgentNetwork.v
AgentCpu.v
AgentPlatform.v
AgentDisk.v
AgentSensors.v
DockerStats.v
DockerQueue.v
DockerLogs.v
AgentSession.v
Systemd.v
SystemdWorker.v
AgentSystem.v
BatteryDarwin.v
BatteryWindows.v
BatteryOS.v
SmartRaw.v
SensorsWindows.v
SmartDevices.v
PollRecords.v
Migrations.v
SmartHealth.v
SmartCollect.v
Gpu.v
GpuParse.v
GpuSysfs.v
AgentStart.v
