(* ===== verification/Prelude.v ===== *)
(** * Bantay: a verification library for the hub and the agent

    Bantay monitors servers.  A _hub_ (a PocketBase application) keeps systems,
    statistics and alerts in a database and notifies users; an _agent_ on every
    monitored machine connects to the hub over a WebSocket, or serves it over
    SSH, and answers its polls with statistics.  This library translates the
    hub's core and the agent's data collection into Rocq functions and step relations,
    and proves the properties that make them correct.

    ** How the parts interact

    An agent connects ([AgentConnect]) and the system manager starts polling it
    ([SystemManager]); requests and responses share the WebSocket
    ([RequestManager]).  Every poll writes statistics and saves the system's
    record, and saving it triggers threshold alerts ([SystemAlerts]) and, when
    the status changed, status alerts ([StatusAlerts]).  Both read the alerts
    through a cache and write them back with their history ([AlertStore]), and
    hand messages to the notification component ([Notify]), which a daily digest
    uses too ([Digest]).  Data of older agents is migrated and SMART devices are
    fetched at intervals ([SystemData]).  Users edit their alerts through [AlertsAPI].  Timed
    jobs condense statistics ([RecordAverages], [LongerRecords]) and delete old
    records ([Retention]).  At start the systems can come from a file
    ([ConfigSync]), which [ConfigExport] writes, and an external monitor is told
    of their state ([Heartbeat]).  On the other side the agent keeps its connection up
    ([ConnectionManager]) and turns counters of the operating system into rates
    ([DeltaTracker]): processors ([AgentCpu]), interfaces ([AgentNetwork]), disks
    ([AgentDisk]), containers ([DockerStats], with their logs in [DockerLogs]),
    services ([Systemd]), temperatures ([AgentSensors]) and the health of drives
    ([SmartCollect], over the device list of [SmartDevices] with the arrays and flash
    of [SmartHealth], and the numbers of [SmartRaw]).  [AgentSystem] composes
    these into the answer to a poll and keeps answers for a while; [AgentHandlers]
    decides which requests an agent obeys, [Transport] carries them with their
    answers, over WebSocket with SSH as fallback.  Browsers that watch a system get
    its data every second ([Realtime]), and agents older than the hub get a new
    binary ([AgentUpdate]).

    The hub's database is made by migrations ([Migrations]); [HubStart] orders what a start
    does: the systems of the file, the rules of the collections ([CollectionRules]), routes,
    jobs and updaters.  Requests of users pass the middlewares of [HubAccess]; administrators
    manage accounts ([AdminUsers]) and settings ([AdminSettings]).  A connection's life on the
    hub, with the grace period after its end, is [HubSocket], and what a poll writes is
    [PollRecords].  The agent reads its command line and constructs its parts ([AgentStart]),
    answers requests ([AgentSession]), samples GPUs ([Gpu] with the collectors of [GpuParse]
    and [GpuSysfs]) and the battery ([AgentPlatform] on Linux, [BatteryDarwin] and
    [BatteryWindows] elsewhere, with one interface in [BatteryOS]), and both programs can
    replace themselves by a release ([SelfUpdate], run by the commands of [UpdateCommands]).

    Four parts have a file for what happens below: the goroutines that ask the container
    engine ([DockerQueue], which gives [DockerStats] the orders it is proved for), the worker
    that refreshes the services ([SystemdWorker] over [Systemd]), the SSH clients behind a
    request ([SshClients], which refines [Transport]) and the agent's end of the WebSocket
    ([AgentSocket], under the guard of [AgentHandlers]).  On Windows temperatures come from a
    program of their own ([SensorsWindows]).  Browsers get the hub's page from [HubPages].

    ** Files (each has a Module of its name) and the source they model

    - [Prelude]: widths, durations, notations, tactics, loops over slices, the
      unspecified order of [range] over a map ([RangeOrder]), and the interface
      of PocketBase's in-memory store ([KVStore], a finite map as instance).
    - [GoFloat], [GoStrings], [GoFmt]: the parts of the language and its library
      the code uses: IEEE 754 numbers ([SpecFloat]), strings, formatting.
      [MakeLink] of [internal/hub/hub.go] is in [GoStrings].  [GoText] has the
      numbers, paths and patterns of strings, [GoFloatFacts] the bounds of
      rounded arithmetic.
    - [Entities]: [internal/entities/system/system.go] and the statistics of
      [internal/entities/container/container.go].
    - [ExpiryMap]: [internal/hub/expirymap/expirymap.go].
    - [DeltaTracker]: [agent/deltatracker/deltatracker.go].
    - [RecordAverages], [LongerRecords]: [internal/records/records.go].
    - [Retention]: [internal/records/records_deletion.go].
    - [AlertStore]: [alerts_cache.go], [alerts_history.go], [setAlertTriggered]
      of [alerts.go] (all in [internal/alerts]) and [deactivateAlerts] of
      [internal/hub/systems/system_manager.go].
    - [StatusAlerts]: [internal/alerts/alerts_status.go].
    - [SystemAlerts]: [internal/alerts/alerts_system.go].
    - [Notify]: delivery in [alerts.go], [recipients.go], [alerts_smart.go] and
      the test notification of [alerts_api.go].
    - [Digest]: [internal/alerts/digest.go].
    - [AlertsAPI]: the two handlers of [internal/alerts/alerts_api.go].
    - [RequestManager]: [internal/hub/ws/request_manager.go].
    - [SystemManager]: [internal/hub/systems/system_manager.go] and the updater
      of [system.go].
    - [SystemData]: the data of agents in [internal/hub/systems/system.go] and
      [system_smart.go]: deprecated fields, ids, SMART cooldown.
    - [ConnectionManager]: [agent/connection_manager.go], with the events of
      [agent/client.go] and [agent/server.go].
    - [AgentConnect]: [internal/hub/agent_connect.go] and [getUniversalToken] of
      [internal/hub/api.go].
    - [ConfigSync]: [SyncSystems] of [internal/hub/config/config.go].
    - [ConfigExport]: [generateYAML] of the same file.
    - [Heartbeat]: [internal/hub/heartbeat/heartbeat.go].
    - [Realtime]: [internal/hub/systems/system_realtime.go].
    - [AgentUpdate]: [internal/hub/systems/agent_update.go] and
      [agent/handler_push_binary.go].
    - [Transport]: [internal/hub/transport], the requests and fetches of
      [internal/hub/systems/system.go], and [agent/response.go].
    - [AgentHandlers]: [agent/client.go], the registry of [agent/handlers.go], the
      requests, keys and addresses of [agent/server.go], [agent/fingerprint.go] and
      [agent/data_dir.go].
    - [AgentNetwork]: [agent/network.go] and [GetEnv] of [agent/utils/utils.go].
    - [AgentCpu]: [agent/cpu.go].
    - [AgentDisk]: [agent/disk.go] and the units of [agent/utils/utils.go].
    - [DockerStats]: polling in [agent/docker.go] and the figures of
      [internal/entities/container/container.go].
    - [DockerLogs]: logs and endpoints in [agent/docker.go].
    - [Systemd]: [agent/systemd.go] and [internal/entities/systemd/systemd.go].
    - [AgentSensors]: [agent/sensors.go].
    - [AgentSystem]: [agent/system.go], [agent/agent_cache.go] and [gatherStats] of
      [agent/agent.go].
    - [SmartRaw]: the raw values of [internal/entities/smart/smart.go], with Go's
      syntax of numbers.
    - [SmartDevices]: the device list of [agent/smart.go]: configuration, merging,
      exclusion.
    - [SmartHealth]: [agent/mdraid_linux.go], [agent/emmc_linux.go] and
      [agent/emmc_common.go].
    - [SmartCollect]: the rest of [agent/smart.go]: smartctl's commands, its output,
      scans and refreshes.
    - [GoFloatExact]: integers in [float64], for the counters of [Gpu].
    - [HubStart]: [internal/hub/hub.go] and [Initialize] of [system_manager.go].
    - [HubAccess]: middlewares, routes and the handlers of systems' data of
      [internal/hub/api.go].
    - [CollectionRules]: [internal/hub/collections.go].
    - [AdminUsers]: accounts in [internal/hub/admin.go] and [internal/users/users.go].
    - [AdminSettings]: the rest of [internal/hub/admin.go], and releases in
      [internal/hub/api.go].
    - [PollRecords]: what [internal/hub/systems/system.go] and [system_smart.go] write.
    - [HubSocket]: [internal/hub/ws/ws.go] and [handlers.go].
    - [Migrations]: [internal/migrations]; the module [Schema] is the snapshot of the
      collections, one definition each, [FirstRun] the first settings and accounts.
    - [SelfUpdate]: [internal/ghupdate], [agent/update.go], [internal/hub/update.go] and the
      flags and keys of [internal/cmd/agent/agent.go].
    - [AgentStart]: the rest of [internal/cmd/agent/agent.go], [NewAgent] and the constructors
      of the managers, the options of [agent/client.go], [StartServer].
    - [AgentSession]: the handlers of [agent/handlers.go], the sessions of [agent/server.go],
      details of containers and services.
    - [AgentPlatform]: modules [Battery] ([agent/battery/battery_linux.go]) and [Health]
      ([agent/health/health.go]).
    - [DockerQueue]: [queue], [dequeue] and the batches of [getDockerStats] in
      [agent/docker.go].
    - [SystemdWorker]: [startWorker] and the refresh of [agent/systemd.go], unit by unit.
    - [SshClients]: [internal/hub/transport/ssh.go], the SSH clients and the requests of
      [internal/hub/systems/system.go], [createSSHClientConfig] of [system_manager.go],
      [internal/common/common-ssh.go] and the greeting of [agent/server.go].
    - [AgentSocket]: events, closing and answers of [agent/client.go].
    - [BatteryDarwin], [BatteryWindows]: [agent/battery/battery_darwin.go] and
      [battery_windows.go]; [BatteryOS]: the interface [BatteryPlatform] of the three
      systems, and the battery in the report of [AgentSystem].
    - [SensorsWindows]: [agent/sensors_windows.go] (module [Lhm]) and the attempts of
      [getTempsWithTimeout] in [agent/sensors.go] (module [Attempts]).
    - [HubPages]: [internal/hub/server.go], [server_production.go] and the health command of
      [internal/cmd/hub/hub.go].
    - [UpdateCommands]: [Update] of [agent/update.go] and of [internal/hub/update.go], and in
      the module [FetchSmartctl] [agent/tools/fetchsmartctl/main.go].
    - [Gpu]: accumulators and the choice of collectors of [agent/gpu.go]; [GpuParse]: the
      tools of [gpu.go], [gpu_intel.go], [gpu_nvtop.go] and [gpu_darwin.go]; [GpuSysfs]:
      [gpu_amd_linux.go], [gpu_drm_fdinfo_linux.go] and [gpu_nvml.go].

    ** How code becomes definitions

    State is passed explicitly; an error is [None], a boolean or an alternative,
    and what was written before the error stays written, as in the source.  The
    clock is an argument of each operation that reads it.  A database is a type
    with a class of operations (the queries the code issues, [None] when they
    fail) and a class of laws (what the collections promise); the theorems are
    proved against the classes and every file ends with an instance, which the
    witnesses evaluate.  Third-party code (URL and SemVer parsing, CBOR, YAML,
    mail and SSH) is a parameter or an outcome given to the operation.
    Concurrency is a step relation: goroutines interleave at channel operations,
    sleeps and critical sections ([RequestManager], [SystemManager] with the two halves of
    [AddSystem], [HubSocket], [AgentSocket], [DockerQueue], [SystemdWorker], [AgentUpdate],
    [Realtime] down to single accesses of its shared map, [ConnectionManager] to the looks of the
    goroutines of [connect] at the state, [StatusAlerts] with timers that may fire after they were
    stopped).  Objects the source shares live in a heap ([SystemManager],
    [RequestManager], [AgentSystem]); the statistics struct that [SystemAlerts] decodes into is
    one value threaded through the loop, because the source never resets it.

    ** What the theorems show

    - alerts: between pauses of a system notifications alternate and agree with the
      database; thresholds are judged exactly, on single values and on the averages of all
      metrics; the cache shows the database, except after an alert was moved to another
      system, and the history shows the triggered state at all times; quiet hours,
      recipients and deliveries are exact;
    - records: averages are bounded and exact where the arithmetic is; the jobs add only
      justified records and delete only old ones, and never starve each other;
    - connections: a response reaches its own request only; agents are admitted only with
      the right token and fingerprint, which is pinned at first use; a system has one
      updater, if operations on it do not overlap while it is added, and its outages are
      reported once; a disconnected agent retries, except in two cases that the library
      exhibits;
    - collection: rates are the growth of the counters over the interval, and none where
      that is implausible, percentages are numbers from 0 to 100, there is one root
      filesystem, the containers and services reported are those that exist, logs are
      decoded in bounded space and come back whole; memory figures add up, and an answer is
      sent again only to polls of its own interval;
    - drives: one whose data is known is not woken from standby, output is parsed when any
      parser can, scans keep data of listed devices only and verified types stay, annotated
      raw values are read exactly;
    - requests: an agent obeys a hub only after a signed challenge; what a handler answers
      arrives unchanged or the request fails, on every way and try, and a fetch from an
      agent of today leaves nothing of earlier data; clients that watch a system are served
      when requests do not overlap;
    - updates: an agent gets one binary at a time, the one for its architecture, and at most
      one an hour when the goroutines of polls start before the next poll; an installation
      can be cut short anywhere without losing both binaries;
    - configuration: a sync makes the systems those of the file and a second one changes
      nothing, when the keys are unambiguous; importing an export changes nothing, when the
      file can express the systems; a heartbeat reports the systems and alerts there are;
    - access: every route of the hub and every rule of every collection is passed only by
      those who may, the HTTP handlers give data of a system to its users only (the realtime
      subscription does not look at them), an administrator remains; the values that the
      schema allows are those the code handles;
    - polls and connections: the records of a poll are written all or none, if PocketBase's
      transactions are; a system is told to go down at most once per connection, after the
      grace period; an SSH session gets one answer;
    - GPUs: a poll reports the averages since the last of its interval, of usage, power and
      engines, for the samples of every collector, caches of names change nothing, and usage
      stays within bounds;
    - programs: a self-update leaves the old or the new program at every moment, and the
      agent starts unless its settings for containers cannot be used;
    - goroutines: a batch of containers serves each one once, with five requests at most at
      a time, and ends; a refresh of the services ends as it would without polls; of the
      agent's connections one at most is alive;
    - SSH clients: a request with clients that have identities answers as the abstract one
      does, system and transport share one client, requests lose no connection, and versions
      in greetings are read back;
    - other systems: batteries of macOS and Windows are percentages with a named state when
      the system's figures are sane, handles are closed, at most one program reads the
      sensors, and the page of the hub has the tags of its template only.

    Where the code does not do what it means to, a theorem or an evaluated example says so
    ([ConnectionManager.stranded_reachable], [ConnectionManager.stranded_by_race],
    [HubData.system_data_members_only], [AgentUpdate.late_push],
    [AlertStore.cache_stays_synced], [ConnectionManager.deadlocked_reachable],
    [AgentConnect.first_use_race], [AgentConnect.disable_leaves_second_token],
    [ConfigSync.key_collision], [ConfigSync.duplicate_entry_grows],
    [SystemManager.AddSystem_race], [SystemAlerts.count_wraps],
    [SystemAlerts.stale_bandwidth], [AlertStore.Update_unloaded_partial],
    [ExpiryMap.GetByValue_hides_live], [RecordAverages.AverageSystemStats_drops_PowerPkg],
    [Digest.digest_without_recipients], [AgentDisk.root_lost],
    [DockerStats.bad_answer_ends_polling], [DockerStats.stale_figures],
    [DockerLogs.strip_leaves_escape], [Realtime.stalled_reachable], [Realtime.clients_wrap],
    [Transport.stale_fields], [Transport.empty_smart_is_error], [Transport.asked_twice],
    [AgentHandlers.verified_survives_reconnect], [AgentSensors.whitelist_misses_second],
    [AgentSystem.cache_wraps], [AgentSystem.reused_answer_drifts],
    [AgentSystem.requested_details_missing], [AgentSystem.hub_polls_lack_services],
    [SmartCollect.scan_wakes_disk], [SmartRaw.raw_ex],
    [ConfigExport.unassigned_becomes_first_user], [ConfigExport.portless_replaced],
    [Heartbeat.pending_is_ok], [Heartbeat.long_interval_panics],
    [SystemManager.replaced_updater_sets_down], [AdminUsers.regular_user_not_editable],
    [AdminUsers.admins_delete_each_other], [AdminUsers.first_user_half_created],
    [AdminSettings.refused_update_saved], [AdminSettings.failed_check_hides_release],
    [Gpu.fdinfo_first], [GpuParse.rocm_gives_up], [GpuParse.intel_short_row],
    [GpuParse.nvtop_slot_taken], [GpuSysfs.amd_revisions_confused],
    [GpuSysfs.one_client_counted_twice], [PollRecords.details_update_panics],
    [PollRecords.service_ids_collide], [AgentSession.older_hub_gets_two],
    [SelfUpdate.program_lost], [SelfUpdate.tar_escapes],
    [SelfUpdate.other_projects_program], [SelfUpdate.bad_tag_panics],
    [Health.health_blind_on_linux], [FirstRun.provisioned_hub_has_no_admin],
    [FirstRun.address_alone_locks_out], [Schema.alert_on_foreign_system],
    [AgentStart.flag_ignored], [DockerQueue.stolen_place], [SshClients.down_polls_leak],
    [AgentSocket.answer_without_connection_panics], [Windows.win_hangs],
    [BatteryWindows.Examples.ghost_hides_battery], [Lhm.lhm_gives_up],
    [Attempts.not_alone_after_timeout], [HubPages.health_wrong_url],
    [UpdateCommands.installed_hub_not_restarted]).

    ** Bounds

    All loops are structural recursions on the data they visit, so every
    operation is total, except for routines with fuel: [print_nat] has as much as
    the number itself, the shortest decimal of [%g] 40 digits, more than the 17
    that identify a [float64]; the frames of a log, the escapes of a log and the
    escapes of a service name one unit per byte, each step consuming at least one
    (proved enough by [DockerLogs.log_stream_bounded] and
    [DockerLogs.strip_fuel_enough]); the loop over the batteries of Windows one unit per turn,
    enough when the list of batteries ends ([Windows.win_loop_returns]; when it does not, no
    fuel is enough, [Windows.win_hangs]).  Averages assume fewer than 2^53 records, so
    that their number is a [float64].

    ** Not modelled

    Registration alone: the binding of hooks with PocketBase and of its commands, the TLS
    settings of clients.  The structures of smartctl's JSON that no code reads, and the
    command lines with which the tools of GPUs are started.  Code that is not part of the
    released programs: helpers of the tests and the development server
    ([internal/hub/server_development.go]).  The web interface, which is not Go. *)

From Stdlib Require Export ZArith Lia.
From stdpp Require Export base gmap strings list fin_maps option sorting.

#[export] Set Default Goal Selector "!".

(** ** Notation: Go's fixed-width integers and durations *)

Declare Scope go_scope.
Delimit Scope go_scope with go.

(** [uint8], [uint16], [uint32] and [uint64] values are [Z] values in range;
    every arithmetic step that can leave the range is followed by a wrap. *)
Definition wrap (w : Z) (x : Z) : Z := (x `mod` 2 ^ w)%Z.

Abbreviation u8 := (wrap 8).
Abbreviation u16 := (wrap 16).
Abbreviation u32 := (wrap 32).
Abbreviation u64 := (wrap 64).

Notation "x '+u64' y" := (u64 (x + y)%Z) (at level 50, left associativity) : go_scope.
Notation "x '+u8' y" := (u8 (x + y)%Z) (at level 50, left associativity) : go_scope.

Definition in_range (w x : Z) : Prop := (0 ≤ x < 2 ^ w)%Z.

(** [time.Duration] and [time.Time] in nanoseconds. *)
Definition Millisecond : Z := 1000000.
Definition Second : Z := 1000000000.
Definition Minute : Z := (60 * Second)%Z.
Definition Hour : Z := (60 * Minute)%Z.

(** ** Automation *)

Create HintDb bantay discriminated.

(** Case analysis on the guard of every [if] and [match] in the goal. *)
Ltac split_guards :=
  repeat (case_match || case_decide || case_bool_decide); simplify_eq/=.

(** Boolean comparisons on [Z] become propositions for [lia]. *)
Ltac zbool :=
  repeat match goal with
  | H : (_ <? _)%Z = true |- _ => apply Z.ltb_lt in H
  | H : (_ <? _)%Z = false |- _ => apply Z.ltb_ge in H
  | H : (_ <=? _)%Z = true |- _ => apply Z.leb_le in H
  | H : (_ <=? _)%Z = false |- _ => apply Z.leb_gt in H
  | H : (_ =? _)%Z = true |- _ => apply Z.eqb_eq in H
  | H : (_ =? _)%Z = false |- _ => apply Z.eqb_neq in H
  | H : _ && _ = true |- _ => apply andb_true_iff in H as [? ?]
  | H : _ || _ = false |- _ => apply orb_false_iff in H as [? ?]
  | H : negb _ = true |- _ => apply negb_true_iff in H
  | H : negb _ = false |- _ => apply negb_false_iff in H
  end.

(** ** Integers *)

Lemma wrap_range w x : (0 ≤ w)%Z → in_range w (wrap w x).
Proof. intros Hw. unfold in_range, wrap. apply Z.mod_pos_bound. lia. Qed.

Lemma wrap_small w x : in_range w x → wrap w x = x.
Proof. intros ?. unfold wrap. by apply Z.mod_small. Qed.

Lemma wrap_wrap_add w x y : wrap w (wrap w x + y) = wrap w (x + y).
Proof. unfold wrap. apply Zplus_mod_idemp_l. Qed.

#[export] Hint Resolve wrap_range wrap_small : bantay.

(** ** Lists: loops over slices *)

Section fold_left.
Context {A B : Type} (f : A → B → A).

(** An invariant of a loop body is an invariant of the loop. *)
Lemma fold_left_inv (P : A → Prop) (l : list B) (a : A) :
  P a → (∀ a b, b ∈ l → P a → P (f a b)) → P (fold_left f l a).
Proof.
  revert a. induction l as [|b l IH]; intros a Ha Hstep; [done|]. simpl.
  apply IH; [apply Hstep; [apply elem_of_cons; by left|done]|].
  intros a' b' Hb'. apply Hstep. apply elem_of_cons; by right.
Qed.

(** An observation of the state that every step transforms by [g]. *)
Lemma fold_left_proj {C : Type} (p : A → C) (g : C → B → C) (l : list B) (a : A) :
  (∀ a b, p (f a b) = g (p a) b) → p (fold_left f l a) = fold_left g l (p a).
Proof.
  intros Hp. revert a. induction l as [|b l IH]; intros a; [done|].
  simpl. by rewrite IH, Hp.
Qed.
End fold_left.

(** ** Filters *)

Lemma filter_sublist_bool {A} (p : A → bool) (l : list A) :
  List.filter p l `sublist_of` l.
Proof. induction l as [|x l IH]; simpl; [done|]. destruct (p x); by constructor. Qed.

Lemma filter_perm_bool {A} (p : A → bool) (l k : list A) :
  l ≡ₚ k → List.filter p l ≡ₚ List.filter p k.
Proof.
  induction 1 as [|x l k _ IH|x y l|? l ? _ IH1 _ IH2]; simpl; [done| | |by etrans].
  - destruct (p x); by rewrite IH.
  - destruct (p x), (p y); by constructor || reflexivity.
Qed.

(** ** Keys of rows *)

Lemma NoDup_fmap_sublist {A B} (f : A → B) (l k : list A) :
  l `sublist_of` k → NoDup (f <$> k) → NoDup (f <$> l).
Proof. intros Hs Hnd. eapply sublist_NoDup; [exact Hnd|]. by apply fmap_sublist. Qed.

(** Rows with unique keys are determined by their key. *)
Lemma NoDup_fmap_elem {A B} (f : A → B) (l : list A) x y :
  NoDup (f <$> l) → x ∈ l → y ∈ l → f x = f y → x = y.
Proof.
  induction l as [|z l IH]; rewrite ?fmap_cons; intros Hnd Hx Hy Hf.
  { by apply elem_of_nil in Hx. }
  apply NoDup_cons in Hnd as [Hz Hnd].
  apply elem_of_cons in Hx as [->|Hx], Hy as [->|Hy]; [done| | |by apply IH].
  - exfalso. apply Hz. rewrite Hf. by apply list_elem_of_fmap_2.
  - exfalso. apply Hz. rewrite <- Hf. by apply list_elem_of_fmap_2.
Qed.

(** A list that holds one value. *)
Lemma singleton_list {A} (l : list A) (x : A) : NoDup l → (∀ r, r ∈ l ↔ r = x) → l = [x].
Proof.
  intros Hnd Hl. apply Permutation_singleton_r, NoDup_Permutation; [done|apply NoDup_singleton|].
  intros r. by rewrite list_elem_of_singleton.
Qed.

(** ** Sums and bounds of integer lists *)

Definition Zsum (l : list Z) : Z := foldr Z.add 0%Z l.

Lemma Zsum_app l k : Zsum (l ++ k) = (Zsum l + Zsum k)%Z.
Proof. induction l as [|x l IH]; simpl; lia. Qed.

Lemma Zsum_bounds (lo hi : Z) (l : list Z) :
  Forall (λ x, lo ≤ x ≤ hi)%Z l → (lo * Z.of_nat (length l) ≤ Zsum l ≤ hi * Z.of_nat (length l))%Z.
Proof. induction 1 as [|x l ? ? IH]; simpl; [lia|]. nia. Qed.

(** The truncated mean of a list lies between its bounds. *)
Lemma mean_bounds (lo hi : Z) (l : list Z) :
  l ≠ [] → Forall (λ x, lo ≤ x ≤ hi)%Z l →
  (lo ≤ Zsum l / Z.of_nat (length l) ≤ hi)%Z.
Proof.
  intros Hne Hl. apply Zsum_bounds in Hl as [Hlo Hhi].
  assert (0 < Z.of_nat (length l))%Z by (destruct l; simpl in *; [done|lia]).
  split; [apply Z.div_le_lower_bound; lia|].
  apply Z.div_le_upper_bound; lia.
Qed.

(** ** Go maps: [range] visits every entry once, in an unspecified order *)

(** The order a [for k, v := range m] loop takes is not specified by the
    language; it is a parameter here, and the theorems hold for every one. *)
Class RangeOrder (K : Type) `{Countable K} := {
  range_list : ∀ {V}, gmap K V → list (K * V);
  range_list_perm : ∀ {V} (m : gmap K V), range_list m ≡ₚ map_to_list m;
}.

#[export] Instance default_range_order `{Countable K} : RangeOrder K | 100 :=
  {| range_list V m := map_to_list m; range_list_perm V m := reflexivity _ |}.

Section range.
Context {K : Type} `{HK : Countable K} {RO : RangeOrder K}.

Lemma elem_of_range_list {V} (m : gmap K V) k v :
  (k, v) ∈ range_list m ↔ m !! k = Some v.
Proof. by rewrite range_list_perm, elem_of_map_to_list. Qed.

Lemma NoDup_fst_range_list {V} (m : gmap K V) : NoDup (range_list m).*1.
Proof. rewrite range_list_perm. apply NoDup_fst_map_to_list. Qed.

Lemma length_range_list {V} (m : gmap K V) : length (range_list m) = size m.
Proof. by rewrite range_list_perm, length_map_to_list. Qed.

(** [for k, v := range m { acc[k] = f(acc[k], v) }] *)
Definition range_upd {A V} (f : option A → V → A) (acc : gmap K A) (m : gmap K V)
    : gmap K A :=
  fold_left (λ acc '(k, v), <[k := f (acc !! k) v]> acc) (range_list m) acc.

Lemma fold_upd_lookup {A V} (f : option A → V → A) (l : list (K * V)) (acc : gmap K A) k :
  NoDup l.*1 →
  fold_left (λ acc '(k, v), <[k := f (acc !! k) v]> acc) l acc !! k =
  match list_to_map (M := gmap K V) l !! k with
  | Some v => Some (f (acc !! k) v)
  | None => acc !! k
  end.
Proof.
  revert acc. induction l as [|[k' v'] l IH]; intros acc Hnd; simpl in *.
  { by rewrite lookup_empty. }
  apply NoDup_cons in Hnd as [Hk' Hnd]. rewrite IH by done.
  destruct (decide (k = k')) as [->|Hne].
  - rewrite (not_elem_of_list_to_map_1 l k') by done.
    by rewrite !lookup_insert_eq.
  - by rewrite !lookup_insert_ne by done.
Qed.

(** The result does not depend on the iteration order. *)
Lemma range_upd_lookup {A V} (f : option A → V → A) (acc : gmap K A) (m : gmap K V) k :
  range_upd f acc m !! k =
  match m !! k with Some v => Some (f (acc !! k) v) | None => acc !! k end.
Proof.
  unfold range_upd. rewrite fold_upd_lookup by apply NoDup_fst_range_list.
  replace (list_to_map (range_list m)) with m; [done|].
  symmetry. etrans; [|apply list_to_map_to_list].
  apply list_to_map_proper; [apply NoDup_fst_range_list|apply range_list_perm].
Qed.
End range.

(** ** The key/value store of the hub's framework

    PocketBase's [tools/store] is third-party code: a concurrency-safe map.
    The hub's components use the operations below; what they rely on is that
    [GetAll] shows the effect of each of them on one finite map. *)
Class KVStore (M : Type → Type) := {
  st_new : ∀ {V}, M V;
  st_getOk : ∀ {V}, M V → string → option V;
  st_set : ∀ {V}, M V → string → V → M V;
  st_remove : ∀ {V}, M V → string → M V;
  st_removeAll : ∀ {V}, M V → M V;
  st_getAll : ∀ {V}, M V → gmap string V;
}.

Class KVStoreLaws (M : Type → Type) `{KVStore M} := {
  st_getAll_new : ∀ V, st_getAll (V := V) st_new = ∅;
  st_getOk_spec : ∀ V (s : M V) k, st_getOk s k = st_getAll s !! k;
  st_getAll_set : ∀ V (s : M V) k v, st_getAll (st_set s k v) = <[k := v]> (st_getAll s);
  st_getAll_remove : ∀ V (s : M V) k, st_getAll (st_remove s k) = delete k (st_getAll s);
  st_getAll_removeAll : ∀ V (s : M V), st_getAll (st_removeAll s) = ∅;
}.

(** A plain finite map meets the contract. *)
#[export] Instance gmap_store : KVStore (gmap string) := {|
  st_new V := ∅;
  st_getOk V s k := s !! k;
  st_set V s k v := <[k := v]> s;
  st_remove V s k := delete k s;
  st_removeAll V s := ∅;
  st_getAll V s := s;
|}.

#[export] Instance gmap_store_laws : KVStoreLaws (gmap string).
Proof. by split. Qed.

Definition st_has {M} `{KVStore M} {V} (s : M V) (k : string) : bool :=
  match st_getOk s k with Some _ => true | None => false end.

(** Rewriting with the store's laws. *)
Ltac store_simpl :=
  repeat first
    [ rewrite st_getOk_spec | rewrite st_getAll_set | rewrite st_getAll_remove
    | rewrite st_getAll_new | rewrite st_getAll_removeAll ].
