(* ===== verification/GoFloat.v ===== *)
(** * Go's [float64] and [float32]

    Go's floating-point types are IEEE 754 binary64 and binary32.  They are
    modelled by the Standard Library's executable specification [spec_float]
    with the precision and exponent range of each width, so that rounding,
    infinities, NaN and signed zeros behave as in the program.  The file holds
    the operations the hub and the agent use ([+], [-], [*], [/], comparisons,
    [max], [math.Round], conversions) and the order theory the components'
    proofs share. *)

From Stdlib Require Export SpecFloat.
From S2P Require Import Prelude.

Abbreviation f64 := spec_float.
Abbreviation f32 := spec_float.

(** ** Arithmetic *)

Definition f64_add : f64 → f64 → f64 := SFadd 53 1024.
Definition f64_sub : f64 → f64 → f64 := SFsub 53 1024.
Definition f64_mul : f64 → f64 → f64 := SFmul 53 1024.
Definition f64_div : f64 → f64 → f64 := SFdiv 53 1024.

Definition f32_add : f32 → f32 → f32 := SFadd 24 128.
Definition f32_div : f32 → f32 → f32 := SFdiv 24 128.

(** [float64(n)] and [float32(n)] for an integer [n], rounded to nearest even. *)
Definition f64_of_Z (z : Z) : f64 := binary_normalize 53 1024 z 0 false.
Definition f32_of_Z (z : Z) : f32 := binary_normalize 24 128 z 0 false.

Definition f64_zero : f64 := S754_zero false.

(** [float32(x)] and [float64(y)] between the two widths. *)
Definition f32_of_f64 (x : f64) : f32 :=
  match x with S754_finite s m e => binary_round 24 128 s m e | _ => x end.
Definition f64_of_f32 (x : f32) : f64 :=
  match x with S754_finite s m e => binary_round 53 1024 s m e | _ => x end.

(** ** Comparisons: [<], [<=], [==] of Go, false on NaN *)

Definition f64_lt (x y : f64) : bool := SFltb x y.
Definition f64_le (x y : f64) : bool := SFleb x y.
Definition f64_eq (x y : f64) : bool := SFeqb x y.

Definition is_nan (x : f64) : bool := match x with S754_nan => true | _ => false end.

(** The builtin [max]: NaN if an argument is NaN, and [max(-0, 0) = 0]. *)
Definition f64_max (x y : f64) : f64 :=
  if is_nan x || is_nan y then S754_nan
  else if f64_lt x y then y
  else if f64_lt y x then x
  else match x, y with S754_zero true, S754_zero false => y | _, _ => x end.

Definition f64_max3 (x y z : f64) : f64 := f64_max (f64_max x y) z.

(** ** Rounding and truncation *)

(** [math.Round]: to the nearest integer, halves away from zero. *)
Definition f64_round (x : f64) : f64 :=
  match x with
  | S754_finite s m e =>
      if (0 <=? e)%Z then x
      else match ((Zpos m * 2 + 2 ^ (- e)) / 2 ^ (- e + 1))%Z with
           | Zpos q => binary_round 53 1024 s q 0
           | _ => S754_zero s
           end
  | _ => x
  end.

(** The integer part, toward zero; [None] for infinities and NaN. *)
Definition f64_trunc (x : f64) : option Z :=
  match x with
  | S754_zero _ => Some 0%Z
  | S754_finite s m e =>
      let a := if (0 <=? e)%Z then (Zpos m * 2 ^ e)%Z else (Zpos m / 2 ^ (- e))%Z in
      Some (if s then (- a)%Z else a)
  | _ => None
  end.

(** [uint64(x)] and [uint8(x)]: the language fixes the result only when the
    truncated value fits; otherwise it depends on the implementation, which is
    a parameter. *)
Class FloatConv := { conv_oob : Z → f64 → Z }.

Definition f64_to_uint `{FloatConv} (w : Z) (x : f64) : Z :=
  match f64_trunc x with
  | Some z => if (0 <=? z)%Z && (z <? 2 ^ w)%Z then z else wrap w (conv_oob w x)
  | None => wrap w (conv_oob w x)
  end.

(** [int(x)], a 64-bit signed integer. *)
Definition f64_to_int `{FloatConv} (x : f64) : Z :=
  match f64_trunc x with
  | Some z => if (- 2 ^ 63 <=? z)%Z && (z <? 2 ^ 63)%Z then z else conv_oob 63 x
  | None => conv_oob 63 x
  end.

#[export] Instance zero_float_conv : FloatConv | 100 := {| conv_oob _ _ := 0%Z |}.

(** [twoDecimals]: [math.Round(value*100) / 100]; the hub's record manager and
    the agent's utilities define the same function. *)
Definition twoDecimals (value : f64) : f64 :=
  f64_div (f64_round (f64_mul value (f64_of_Z 100))) (f64_of_Z 100).

(** ** Order theory

    [SFcompare] is the lexicographic comparison of the triples [rank]. *)

Section order.
Local Open Scope Z_scope.

Definition rank (x : f64) : option (Z * Z * Z) :=
  match x with
  | S754_nan => None
  | S754_infinity true => Some (-2, 0, 0)
  | S754_finite true m e => Some (-1, - e, - Zpos m)
  | S754_zero _ => Some (0, 0, 0)
  | S754_finite false m e => Some (1, e, Zpos m)
  | S754_infinity false => Some (2, 0, 0)
  end.

Definition lex3 (a b : Z * Z * Z) : comparison :=
  match a, b with
  | (a1, a2, a3), (b1, b2, b3) =>
      match a1 ?= b1 with
      | Eq => match a2 ?= b2 with Eq => a3 ?= b3 | c => c end
      | c => c
      end
  end.

Definition lt3 (a b : Z * Z * Z) : Prop :=
  match a, b with
  | (a1, a2, a3), (b1, b2, b3) =>
      a1 < b1 ∨ (a1 = b1 ∧ (a2 < b2 ∨ (a2 = b2 ∧ a3 < b3)))
  end.

Lemma SFcompare_rank x y :
  SFcompare x y =
  match rank x, rank y with Some a, Some b => Some (lex3 a b) | _, _ => None end.
Proof.
  destruct x as [[]|[]| |[] m e], y as [[]|[]| |[] m' e']; try done; cbn -[Z.compare].
  rewrite Z.compare_opp, (Z.compare_antisym e e').
  by destruct (e ?= e').
Qed.

Lemma lex3_spec a b :
  match lex3 a b with Lt => lt3 a b | Eq => a = b | Gt => lt3 b a end.
Proof.
  destruct a as [[a1 a2] a3], b as [[b1 b2] b3]. unfold lex3, lt3.
  destruct (Z.compare_spec a1 b1); [|lia|lia].
  destruct (Z.compare_spec a2 b2); [|lia|lia].
  destruct (Z.compare_spec a3 b3); [|lia|lia]. by subst.
Qed.

Lemma lt3_irrefl a : ¬ lt3 a a.
Proof. destruct a as [[] ?]; simpl; lia. Qed.
Lemma lt3_asym a b : lt3 a b → ¬ lt3 b a.
Proof. destruct a as [[] ?], b as [[] ?]; simpl; lia. Qed.

Lemma f64_lt_rank x y :
  f64_lt x y = true ↔ ∃ a b, rank x = Some a ∧ rank y = Some b ∧ lt3 a b.
Proof.
  unfold f64_lt, SFltb. rewrite SFcompare_rank. split.
  - destruct (rank x) as [a|], (rank y) as [b|]; try done.
    pose proof (lex3_spec a b). destruct (lex3 a b); eauto; done.
  - intros (a&b&->&->&Hlt). pose proof (lex3_spec a b) as Hs.
    destruct (lex3 a b); [|done|].
    + subst. by apply lt3_irrefl in Hlt.
    + by apply lt3_asym in Hlt.
Qed.

Lemma f64_le_rank x y :
  f64_le x y = true ↔ ∃ a b, rank x = Some a ∧ rank y = Some b ∧ (lt3 a b ∨ a = b).
Proof.
  unfold f64_le, SFleb. rewrite SFcompare_rank. split.
  - destruct (rank x) as [a|], (rank y) as [b|]; try done.
    pose proof (lex3_spec a b). destruct (lex3 a b); eauto 7; done.
  - intros (a&b&->&->&Hle). pose proof (lex3_spec a b) as Hs.
    destruct (lex3 a b); [done|done|]. destruct Hle as [Hlt| ->].
    + by apply lt3_asym in Hlt.
    + by apply lt3_irrefl in Hs.
Qed.

Lemma f64_eq_rank x y :
  f64_eq x y = true ↔ ∃ a, rank x = Some a ∧ rank y = Some a.
Proof.
  unfold f64_eq, SFeqb. rewrite SFcompare_rank. split.
  - destruct (rank x) as [a|], (rank y) as [b|]; try done.
    pose proof (lex3_spec a b). destruct (lex3 a b); [subst; eauto|done|done].
  - intros (a&->&->). pose proof (lex3_spec a a) as Hs.
    destruct (lex3 a a); [done|by apply lt3_irrefl in Hs..].
Qed.

Lemma is_nan_rank x : is_nan x = true ↔ rank x = None.
Proof. by destruct x as [[]|[]| |[]]. Qed.
Lemma not_nan_rank x : is_nan x = false ↔ ∃ a, rank x = Some a.
Proof. destruct x as [[]|[]| |[]]; split; try naive_solver. Qed.
End order.

(** Reduce a goal on float comparisons to integer triples and [lia]. *)
Ltac f64_order :=
  repeat match goal with
  | H : f64_lt _ _ = true |- _ => apply f64_lt_rank in H
  | H : f64_le _ _ = true |- _ => apply f64_le_rank in H
  | H : f64_eq _ _ = true |- _ => apply f64_eq_rank in H
  | H : is_nan _ = false |- _ => apply not_nan_rank in H
  | H : is_nan _ = true |- _ => apply is_nan_rank in H
  | H : f64_lt _ _ ≠ true |- _ => rewrite f64_lt_rank in H
  | H : f64_le _ _ ≠ true |- _ => rewrite f64_le_rank in H
  | H : f64_lt _ _ = false |- _ => apply not_true_iff_false in H
  | H : f64_le _ _ = false |- _ => apply not_true_iff_false in H
  | |- f64_lt _ _ = true => apply f64_lt_rank
  | |- f64_le _ _ = true => apply f64_le_rank
  | |- f64_lt _ _ = false => apply not_true_iff_false; intros ?
  | |- f64_le _ _ = false => apply not_true_iff_false; intros ?
  end;
  destruct_and?; destruct_or?;
  repeat match goal with H : ∃ _, _ |- _ => destruct H end;
  destruct_and?; simplify_eq;
  repeat match goal with
  | p : (Z * Z * Z)%type |- _ => destruct p as [[? ?] ?]
  end.

Lemma f64_le_refl x : is_nan x = false → f64_le x x = true.
Proof. intros ?. f64_order. eauto 7. Qed.

Lemma f64_lt_le x y : f64_lt x y = true → f64_le x y = true.
Proof. intros ?. f64_order. eauto 7. Qed.

Lemma f64_le_trans x y z : f64_le x y = true → f64_le y z = true → f64_le x z = true.
Proof.
  intros ??. f64_order. do 2 eexists. split_and!; [done..|].
  simpl in *. naive_solver lia.
Qed.

Lemma f64_lt_not_le x y : f64_lt x y = true → f64_le y x = false.
Proof. intros ?. f64_order. simpl in *. naive_solver lia. Qed.

Lemma f64_le_not_lt x y : f64_le x y = true → f64_lt y x = false.
Proof. intros ?. f64_order. simpl in *. naive_solver lia. Qed.

(** Away from NaN, [<] and [>=] are complementary. *)
Lemma f64_lt_negb_le x y :
  is_nan x = false → is_nan y = false → f64_lt x y = negb (f64_le y x).
Proof.
  intros [a Ha]%not_nan_rank [b Hb]%not_nan_rank.
  destruct (f64_lt x y) eqn:Hlt.
  - by rewrite (f64_lt_not_le _ _ Hlt).
  - destruct (f64_le y x) eqn:Hle; [done|]. exfalso.
    apply not_true_iff_false in Hlt, Hle. rewrite f64_lt_rank in Hlt.
    rewrite f64_le_rank in Hle. pose proof (lex3_spec a b) as Hs.
    destruct (lex3 a b); naive_solver.
Qed.

Lemma f64_lt_nan x y : f64_lt x y = true → is_nan x = false ∧ is_nan y = false.
Proof. by destruct x, y. Qed.
Lemma f64_le_nan x y : f64_le x y = true → is_nan x = false ∧ is_nan y = false.
Proof. by destruct x, y. Qed.

Lemma f64_max_nan x y : is_nan (f64_max x y) = is_nan x || is_nan y.
Proof.
  unfold f64_max. destruct (is_nan x || is_nan y) eqn:Hn; [done|].
  apply orb_false_iff in Hn as [Hx Hy].
  repeat case_match; try done; by destruct x as [[]| | |].
Qed.

Lemma f64_max_ub_l x y :
  is_nan x = false → is_nan y = false → f64_le x (f64_max x y) = true.
Proof.
  intros Hx Hy. unfold f64_max. rewrite Hx, Hy. simpl.
  destruct (f64_lt x y) eqn:H1; [by apply f64_lt_le|].
  destruct (f64_lt y x) eqn:H2; [by apply f64_le_refl|].
  destruct x as [[]| | |], y as [[]| | |]; try done; by apply f64_le_refl.
Qed.

Lemma f64_max_ub_r x y :
  is_nan x = false → is_nan y = false → f64_le y (f64_max x y) = true.
Proof.
  intros Hx Hy. unfold f64_max. rewrite Hx, Hy. simpl.
  destruct (f64_lt x y) eqn:H1; [by apply f64_le_refl|].
  destruct (f64_lt y x) eqn:H2; [by apply f64_lt_le|].
  rewrite f64_lt_negb_le in H1 by done. apply negb_false_iff in H1.
  destruct x as [[]| | |], y as [[]| | |]; done.
Qed.

Lemma f64_max_choice x y :
  is_nan x = false → is_nan y = false → f64_max x y = x ∨ f64_max x y = y.
Proof.
  intros Hx Hy. unfold f64_max. rewrite Hx, Hy. simpl.
  repeat case_match; auto.
Qed.

Lemma f64_max_lub x y z :
  f64_le x z = true → f64_le y z = true → f64_le (f64_max x y) z = true.
Proof.
  intros Hx Hy. pose proof (f64_le_nan _ _ Hx) as [? _].
  pose proof (f64_le_nan _ _ Hy) as [? _].
  destruct (f64_max_choice x y) as [-> | ->]; done.
Qed.

#[export] Hint Resolve f64_le_refl f64_lt_le f64_le_trans f64_max_ub_l f64_max_ub_r
  f64_max_lub : bantay.

(** ** Conversions *)

Lemma f64_to_uint_range `{FloatConv} w x : (0 ≤ w)%Z → in_range w (f64_to_uint w x).
Proof.
  intros Hw. unfold f64_to_uint.
  destruct (f64_trunc x) as [z|]; [|by apply wrap_range].
  destruct ((0 <=? z)%Z && (z <? 2 ^ w)%Z) eqn:Hz; [|by apply wrap_range].
  zbool. unfold in_range. lia.
Qed.

Example twoDecimals_ex :
  twoDecimals (f64_div (f64_of_Z 2) (f64_of_Z 3)) = f64_div (f64_of_Z 67) (f64_of_Z 100).
Proof. reflexivity. Qed.

(** ** Small integers are exact *)

Section exact.
Local Open Scope Z_scope.

Lemma digits2_pos_iter_xO k m :
  Zpos (digits2_pos (Pos.iter xO m k)) = Zpos (digits2_pos m) + Zpos k.
Proof.
  induction k as [|k IH] using Pos.peano_ind; [simpl; lia|].
  rewrite Pos.iter_succ. simpl. rewrite !Pos2Z.inj_succ. rewrite IH. lia.
Qed.

Lemma iter_xO_Z k m : Zpos (Pos.iter xO m k) = Zpos m * 2 ^ Zpos k.
Proof.
  induction k as [|k IH] using Pos.peano_ind; [change (2 ^ 1) with 2; simpl; lia|].
  rewrite Pos.iter_succ, Pos2Z.inj_succ, Z.pow_succ_r, Pos2Z.inj_xO, IH by lia. lia.
Qed.

Lemma digits2_pos_lower m : 2 ^ (Zpos (digits2_pos m) - 1) <= Zpos m.
Proof.
  induction m as [m IH|m IH|]; [| |done]; simpl digits2_pos;
    rewrite Pos2Z.inj_succ;
    replace (Z.succ (Zpos (digits2_pos m)) - 1)
      with (Z.succ (Zpos (digits2_pos m) - 1)) by lia;
    rewrite Z.pow_succ_r by lia; lia.
Qed.

Lemma digits2_pos_bound m w : Zpos m < 2 ^ w → 0 <= w → Zpos (digits2_pos m) <= w.
Proof.
  intros Hm Hw. pose proof (digits2_pos_lower m) as Hl.
  destruct (Z.le_gt_cases (Zpos (digits2_pos m)) w) as [|Hgt]; [done|].
  assert (2 ^ w <= 2 ^ (Zpos (digits2_pos m) - 1)) by (apply Z.pow_le_mono_r; lia). lia.
Qed.

(** A mantissa of exactly 53 digits at a normal exponent is left alone. *)
Lemma shr_fexp_53 m e :
  Zpos (digits2_pos m) = 53 → -1074 <= e →
  shr_fexp 53 1024 (Zpos m) e loc_Exact = (Build_shr_record (Zpos m) false false, e).
Proof.
  intros Hd He. unfold shr_fexp.
  replace (fexp 53 1024 (Zdigits2 (Zpos m) + e) - e) with 0; [done|].
  unfold fexp, emin, Zdigits2. rewrite Hd. lia.
Qed.

Lemma binary_round_aux_53 s m e :
  Zpos (digits2_pos m) = 53 → -1074 <= e <= 971 →
  binary_round_aux 53 1024 s (Zpos m) e loc_Exact = S754_finite s m e.
Proof.
  intros Hd He. unfold binary_round_aux. rewrite shr_fexp_53 by lia.
  cbn [shr_m loc_of_shr_record round_nearest_even]. rewrite shr_fexp_53 by lia.
  cbn [shr_m]. by rewrite (proj2 (Z.leb_le e (1024 - 53))) by lia.
Qed.

(** Integers below [2^53] convert to [float64] and back without loss. *)
Lemma f64_trunc_of_Z n : 0 <= n < 2 ^ 53 → f64_trunc (f64_of_Z n) = Some n.
Proof.
  intros [H0 Hn]. destruct n as [|m|]; [done| |lia].
  unfold f64_of_Z, binary_normalize, binary_round.
  pose proof (digits2_pos_bound m 53 Hn ltac:(lia)) as Hd.
  assert (fexp 53 1024 (Zpos (digits2_pos m) + 0) = Zpos (digits2_pos m) - 53) as ->.
  { unfold fexp, emin. lia. }
  unfold shl_align.
  destruct (Zpos (digits2_pos m) - 53 - 0) as [|p|p] eqn:Hs; [|lia|].
  - rewrite binary_round_aux_53 by lia. simpl. f_equal. lia.
  - rewrite binary_round_aux_53; [|rewrite digits2_pos_iter_xO; lia|lia].
    replace (Zpos (digits2_pos m) - 53) with (Zneg p) by lia.
    unfold f64_trunc. change (0 <=? Zneg p) with false. cbn iota.
    rewrite iter_xO_Z. change (- Zneg p) with (Zpos p).
    rewrite Z.div_mul; [done|]. apply Z.pow_nonzero; lia.
Qed.

Lemma f64_to_uint_of_Z `{FloatConv} w n :
  0 <= n < 2 ^ 53 → 53 <= w → f64_to_uint w (f64_of_Z n) = n.
Proof.
  intros Hn Hw. unfold f64_to_uint. rewrite f64_trunc_of_Z by done.
  assert (2 ^ 53 <= 2 ^ w) by (apply Z.pow_le_mono_r; lia).
  rewrite (proj2 (Z.leb_le 0 n)), (proj2 (Z.ltb_lt n (2 ^ w))) by lia. done.
Qed.

Lemma f64_to_int_of_Z `{FloatConv} n :
  0 <= n < 2 ^ 53 → f64_to_int (f64_of_Z n) = n.
Proof.
  intros Hn. unfold f64_to_int. rewrite f64_trunc_of_Z by done.
  rewrite (proj2 (Z.leb_le _ n)), (proj2 (Z.ltb_lt n _)) by lia. done.
Qed.

Lemma f64_of_Z_pos_neq0 n : 0 < n < 2 ^ 53 → f64_eq (f64_of_Z n) f64_zero = false.
Proof.
  intros Hn. apply not_true_iff_false. intros (a&Ha&Hz)%f64_eq_rank.
  pose proof (f64_trunc_of_Z n ltac:(lia)) as Ht. simpl in Hz. simplify_eq.
  destruct (f64_of_Z n) as [[]|[]| |[]]; simpl in *; simplify_eq; lia.
Qed.
End exact.
