(* ===== verification/GoFloatFacts.v ===== *)
(** * Facts about [float64] arithmetic

    Rounding yields a number in canonical form, never NaN; it yields a non-zero
    number when the exact result is a multiple of the smallest subnormal, and a
    finite one when it stays below [2^1023].  From this follow the facts the
    agent's percentages need: a difference of distinct numbers is not zero, a
    quotient by a finite non-zero number is not NaN, a canonical number between 0
    and 100 rounds to an integer in that range, and a part of a whole is at most
    100 percent of it, rounding included. *)

From S2P Require Import Prelude GoFloat.

Local Open Scope Z_scope.

Abbreviation valid64 := (valid_binary 53 1024).

(** ** Digits *)

Lemma Zdigits2_bounds m : 0 < m → 2 ^ (Zdigits2 m - 1) ≤ m < 2 ^ Zdigits2 m ∧ 0 < Zdigits2 m.
Proof.
  destruct m as [|p|]; [lia| |lia]. intros _. split; [split|]; simpl; [|clear|lia].
  - apply digits2_pos_lower.
  - induction p as [p IH|p IH|]; [| |done]; simpl digits2_pos; rewrite Pos2Z.inj_succ,
      Z.pow_succ_r by lia; lia.
Qed.

Lemma Zdigits2_unique m d : 0 < d → 2 ^ (d - 1) ≤ m < 2 ^ d → Zdigits2 m = d.
Proof.
  intros Hd Hm. assert (0 < m) as H0.
  { assert (0 < 2 ^ (d - 1)) by (apply Z.pow_pos_nonneg; lia). lia. }
  destruct (Zdigits2_bounds m H0) as [[Hl Hu] Hp].
  destruct (Z.lt_trichotomy (Zdigits2 m) d) as [Hlt|[Heq|Hgt]]; [|done|].
  - assert (2 ^ Zdigits2 m ≤ 2 ^ (d - 1)) by (apply Z.pow_le_mono_r; lia). lia.
  - assert (2 ^ d ≤ 2 ^ (Zdigits2 m - 1)) by (apply Z.pow_le_mono_r; lia). lia.
Qed.

(** ** Shifts *)

Lemma shr_1_m mrs : 0 ≤ shr_m mrs → shr_m (shr_1 mrs) = shr_m mrs / 2.
Proof.
  destruct mrs as [[|p|p] r s]; simpl; [done| |lia]. intros _.
  destruct p as [p|p|]; simpl; [|by rewrite (Pos2Z.inj_xO p), Z.mul_comm, Z.div_mul|done].
  rewrite (Pos2Z.inj_xI p). apply Z.div_unique with 1; lia.
Qed.

Lemma iter_shr_m p mrs :
  0 ≤ shr_m mrs → shr_m (iter_pos shr_1 p mrs) = shr_m mrs / 2 ^ Zpos p.
Proof.
  revert mrs. induction p as [p IH|p IH|]; intros mrs H0; simpl;
    try (assert (0 < 2 ^ Zpos p) by (apply Z.pow_pos_nonneg; lia)).
  - assert (0 ≤ shr_m (shr_1 mrs)) by (rewrite shr_1_m by done; apply Z.div_pos; lia).
    rewrite IH; [rewrite IH, shr_1_m by done|rewrite IH by done; apply Z.div_pos; lia].
    rewrite !Z.div_div by lia. f_equal. rewrite Pos2Z.inj_xI.
    replace (2 * Zpos p + 1) with (1 + Zpos p + Zpos p) by lia. rewrite !Z.pow_add_r by lia. ring.
  - rewrite IH; [rewrite IH by done|rewrite IH by done; apply Z.div_pos; lia].
    rewrite Z.div_div, <- Z.pow_add_r by lia. do 2 f_equal. lia.
  - by rewrite shr_1_m.
Qed.

Lemma shr_m_of_loc m l : shr_m (shr_record_of_loc m l) = m.
Proof. by destruct l as [|[]]. Qed.

(** ** Rounding *)

Lemma fexp_64 e : fexp 53 1024 e = Z.max (e - 53) (-1074).
Proof. done. Qed.

(** One shift to the exponent a mantissa should have. *)
Lemma shr_fexp_spec m e l :
  0 ≤ m →
  let k := Z.max 0 (Z.max (Zdigits2 m + e - 53) (-1074) - e) in
  let '(mrs, e') := shr_fexp 53 1024 m e l in
  shr_m mrs = m / 2 ^ k ∧ e' = e + k.
Proof.
  intros Hm. cbv zeta. unfold shr_fexp. rewrite fexp_64. unfold shr.
  destruct (Z.max (Zdigits2 m + e - 53) (-1074) - e) as [|p|p] eqn:Hk.
  - rewrite shr_m_of_loc, Z.div_1_r. simpl. lia.
  - rewrite iter_shr_m, shr_m_of_loc by (by rewrite shr_m_of_loc).
    rewrite Z.max_r by lia. done.
  - rewrite shr_m_of_loc, Z.max_l, Z.div_1_r by lia. lia.
Qed.

Lemma round_cases q l : round_nearest_even q l = q ∨ round_nearest_even q l = q + 1.
Proof. destruct l as [|[]]; simpl; auto. destruct (Z.even q); auto. Qed.

(** The quotient of a mantissa by a power of two keeps the leading digits. *)
Lemma div_digits m k :
  0 < m → 0 ≤ k < Zdigits2 m → Zdigits2 (m / 2 ^ k) = Zdigits2 m - k ∧ 0 < m / 2 ^ k.
Proof.
  intros Hm Hk. destruct (Zdigits2_bounds m Hm) as [[Hl Hu] _].
  assert (0 < 2 ^ k) by (apply Z.pow_pos_nonneg; lia).
  assert (2 ^ (Zdigits2 m - k - 1) ≤ m / 2 ^ k < 2 ^ (Zdigits2 m - k)) as Hb.
  { split.
    - apply Z.div_le_lower_bound; [lia|]. rewrite <- Z.pow_add_r by lia.
      by replace (k + (Zdigits2 m - k - 1)) with (Zdigits2 m - 1) by lia.
    - apply Z.div_lt_upper_bound; [lia|]. rewrite <- Z.pow_add_r by lia.
      by replace (k + (Zdigits2 m - k)) with (Zdigits2 m) by lia. }
  assert (0 < 2 ^ (Zdigits2 m - k - 1)) by (apply Z.pow_pos_nonneg; lia).
  split; [apply Zdigits2_unique; lia|lia].
Qed.

(** The second shift, after the mantissa [q] in place was possibly incremented. *)
Lemma second_shift q q' e :
  0 ≤ q → q' = q ∨ q' = q + 1 →
  (q = 0 ∧ e = -1074) ∨ (0 < q ∧ Z.max (Zdigits2 q + e - 53) (-1074) = e) →
  let '(mrs, e') := shr_fexp 53 1024 q' e loc_Exact in
  0 ≤ shr_m mrs ∧ (0 < q → 0 < shr_m mrs) ∧ e ≤ e' ≤ e + 1 ∧
  (0 < shr_m mrs → Z.max (Zdigits2 (shr_m mrs) + e' - 53) (-1074) = e').
Proof.
  intros Hq Hq' He. pose proof (shr_fexp_spec q' e loc_Exact ltac:(lia)) as Hs. cbv zeta in Hs.
  destruct (shr_fexp _ _ _ _ _) as [mrs e']. destruct Hs as [-> ->].
  destruct He as [[-> ->]|[Hq0 He]].
  { destruct Hq' as [->| ->]; simpl; rewrite ?Z.div_1_r; simpl; lia. }
  destruct (Zdigits2_bounds q Hq0) as [[Hl Hu] Hd].
  assert (Zdigits2 q' = Zdigits2 q ∨ (Zdigits2 q' = Zdigits2 q + 1 ∧ q' = 2 ^ Zdigits2 q)) as Hc.
  { destruct Hq' as [->| ->]; [by left|].
    destruct (Z.eq_dec (q + 1) (2 ^ Zdigits2 q)) as [E|E].
    - right. split; [|done]. apply Zdigits2_unique; [lia|].
      replace (Zdigits2 q + 1 - 1) with (Zdigits2 q) by lia.
      rewrite Z.pow_add_r by lia. lia.
    - left. apply Zdigits2_unique; lia. }
  destruct Hc as [Hc|[Hc E]]; rewrite Hc.
  - replace (Z.max 0 _) with 0 by lia. rewrite Z.div_1_r, Hc. split_and!; lia.
  - set (k := Z.max 0 _). assert (k = 0 ∨ k = 1) as [Hk|Hk] by lia; rewrite Hk.
    + rewrite Z.div_1_r, Hc. split_and!; lia.
    + assert (q' / 2 ^ 1 = 2 ^ (Zdigits2 q - 1)) as ->.
      { rewrite E. replace (Zdigits2 q) with (1 + (Zdigits2 q - 1)) at 1 by lia.
        rewrite Z.pow_add_r, Z.mul_comm, Z.div_mul by lia. done. }
      assert (0 < 2 ^ (Zdigits2 q - 1)) by (apply Z.pow_pos_nonneg; lia).
      assert (Zdigits2 (2 ^ (Zdigits2 q - 1)) = Zdigits2 q) as ->; [|split_and!; lia].
      apply Zdigits2_unique; [lia|]. split; [lia|]. apply Z.pow_lt_mono_r; lia.
Qed.

(** Rounding a positive mantissa that is not too short for its exponent. *)
Lemma binary_round_aux_spec s mx ex l :
  0 ≤ mx → (0 < mx → ex ≤ Z.max (Zdigits2 mx + ex - 53) (-1074)) →
  (mx = 0 → ex ≤ -1074) →
  let r := binary_round_aux 53 1024 s mx ex l in
  valid64 r = true ∧
  (r = S754_zero s ∨ r = S754_infinity s ∨ ∃ m e, r = S754_finite s m e) ∧
  (-1074 ≤ ex → 0 < mx → r ≠ S754_zero s) ∧
  (Zdigits2 mx + ex ≤ 1023 → 0 < mx → r ≠ S754_infinity s).
Proof.
  intros Hm Hex Hex0. cbv zeta. unfold binary_round_aux.
  pose proof (shr_fexp_spec mx ex l Hm) as Hs. cbv zeta in Hs.
  destruct (shr_fexp _ _ mx ex l) as [mrs e']. destruct Hs as [Hq He'].
  set (q := shr_m mrs) in *. set (k := Z.max 0 _) in *.
  assert (0 ≤ q) as Hq0 by (rewrite Hq; apply Z.div_pos; lia).
  assert ((q = 0 ∧ e' = -1074) ∨ (0 < q ∧ Z.max (Zdigits2 q + e' - 53) (-1074) = e')) as Hcan.
  { destruct (Z.eq_dec mx 0) as [->|Hmx].
    { left. rewrite Z.div_0_l in Hq by lia. simpl in *. lia. }
    destruct (Zdigits2_bounds mx ltac:(lia)) as [_ Hd].
    destruct (Z.lt_ge_cases k (Zdigits2 mx)) as [Hlt|Hge].
    - right. destruct (div_digits mx k ltac:(lia) ltac:(lia)) as [Hdq ?].
      rewrite <- Hq in *. split; [done|]. rewrite Hdq. lia.
    - left. split; [|lia]. rewrite Hq. apply Z.div_small. split; [lia|].
      destruct (Zdigits2_bounds mx ltac:(lia)) as [[_ Hu] _].
      assert (2 ^ Zdigits2 mx ≤ 2 ^ k) by (apply Z.pow_le_mono_r; lia). lia. }
  pose proof (second_shift q (round_nearest_even q (loc_of_shr_record mrs)) e' Hq0
    (round_cases _ _) Hcan) as H2.
  destruct (shr_fexp _ _ _ e' _) as [mrs2 e2]. destruct H2 as (Hn&Hpos&He2&Hv).
  assert (-1074 ≤ ex → 0 < mx → 0 < q) as Hqpos.
  { intros ??. destruct Hcan as [[-> ?]|[? _]]; [|done]. exfalso.
    destruct (Zdigits2_bounds mx ltac:(lia)) as [_ Hd].
    destruct (div_digits mx k ltac:(lia) ltac:(lia)) as [_ ?]. lia. }
  destruct (shr_m mrs2) as [|m|m] eqn:Hm2; [| |lia].
  - split_and!; [done|by left| |done]. intros ?? _. specialize (Hpos (Hqpos ltac:(done) ltac:(done))). lia.
  - destruct (Z.leb_spec e2 (1024 - 53)) as [Hle|Hgt].
    + split_and!; [|right; right; eauto|done|done]. simpl. unfold bounded, canonical_mantissa.
      specialize (Hv ltac:(lia)). simpl in Hv.
      rewrite fexp_64, Hv, Z.eqb_refl. apply Z.leb_le. lia.
    + split_and!; [done|by right; left|done|]. intros ? ? _.
      destruct (Zdigits2_bounds mx ltac:(lia)) as [_ Hd].
      specialize (Hv ltac:(lia)). simpl in Hv.
      destruct Hcan as [[? ->]|[? Hc]]; lia.
Qed.

(** ** Numbers made from a mantissa and an exponent *)

Lemma binary_round_spec s m e :
  let r := binary_round 53 1024 s m e in
  valid64 r = true ∧
  (r = S754_zero s ∨ r = S754_infinity s ∨ ∃ m' e', r = S754_finite s m' e') ∧
  (-1074 ≤ e → r ≠ S754_zero s) ∧
  (Zdigits2 (Zpos m) + e ≤ 1023 → r ≠ S754_infinity s).
Proof.
  cbv zeta. unfold binary_round. rewrite fexp_64. unfold shl_align.
  set (f := Z.max _ _).
  destruct (f - e) as [|p|p] eqn:Hf.
  - destruct (binary_round_aux_spec s (Zpos m) e loc_Exact) as (?&?&?&?); [lia|simpl; lia|lia|].
    split_and!; auto with lia.
  - destruct (binary_round_aux_spec s (Zpos m) e loc_Exact) as (?&?&?&?); [lia|simpl; lia|lia|].
    split_and!; auto with lia.
  - assert (Zdigits2 (Zpos (Pos.iter xO m p)) = Zdigits2 (Zpos m) + Zpos p) as Hd.
    { apply digits2_pos_iter_xO. }
    destruct (binary_round_aux_spec s (Zpos (Pos.iter xO m p)) f loc_Exact) as (?&?&Hz&Hi);
      [lia|rewrite Hd; simpl; lia|lia|].
    split_and!; [done|done|intros _; apply Hz; lia|intros ?; apply Hi; rewrite ?Hd; lia].
Qed.

Lemma f64_of_Z_valid z : valid64 (f64_of_Z z) = true.
Proof.
  unfold f64_of_Z, binary_normalize. destruct z; [done|apply binary_round_spec..].
Qed.

(** ** Order and value *)

(** The value of a finite number in units of [2^f]. *)
Definition units (f : Z) (x : f64) : Z :=
  match x with
  | S754_finite s m e => (if s then -1 else 1) * (Zpos m * 2 ^ (e - f))
  | _ => 0
  end.

Definition exponent (x : f64) : Z := match x with S754_finite _ _ e => e | _ => -1074 end.

Lemma valid_bounds s m e :
  valid64 (S754_finite s m e) = true →
  Zpos m < 2 ^ 53 ∧ -1074 ≤ e ∧ (-1074 < e → 2 ^ 52 ≤ Zpos m) ∧ e ≤ 971 ∧
  Zdigits2 (Zpos m) ≤ 53.
Proof.
  simpl. unfold bounded, canonical_mantissa. rewrite fexp_64. intros [Hc He]%andb_true_iff.
  apply Z.eqb_eq in Hc. apply Z.leb_le in He.
  destruct (Zdigits2_bounds (Zpos m) ltac:(lia)) as [[Hl Hu] Hd]. simpl in *.
  assert (Zpos (digits2_pos m) ≤ 53) by lia.
  assert (2 ^ Zpos (digits2_pos m) ≤ 2 ^ 53) by (apply Z.pow_le_mono_r; lia).
  split_and!; try lia. intros ?. replace (Zpos (digits2_pos m)) with 53 in Hl by lia. done.
Qed.

(** Two canonical positive numbers compare as their values do. *)
Lemma pos_lt_units f sx mx ex sy my ey :
  valid64 (S754_finite sx mx ex) = true → valid64 (S754_finite sy my ey) = true →
  f ≤ ex → f ≤ ey → ey < ex ∨ (ey = ex ∧ Zpos my < Zpos mx) →
  Zpos my * 2 ^ (ey - f) < Zpos mx * 2 ^ (ex - f).
Proof.
  intros (Hx&?&Hx'&_)%valid_bounds (Hy&?&_)%valid_bounds ?? [Hlt|[-> Hlt]].
  - specialize (Hx' ltac:(lia)). assert (0 < 2 ^ (ey - f)) by (apply Z.pow_pos_nonneg; lia).
    assert (2 ^ (ex - f) = 2 ^ (ex - ey - 1) * 2 ^ 1 * 2 ^ (ey - f)) as ->.
    { rewrite <- !Z.pow_add_r by lia. f_equal. lia. }
    assert (0 < 2 ^ (ex - ey - 1)) by (apply Z.pow_pos_nonneg; lia).
    rewrite !Z.mul_assoc. apply Z.mul_lt_mono_pos_r; [done|].
    change (2 ^ 53) with (2 * 2 ^ 52) in Hy. nia.
  - assert (0 < 2 ^ (ex - f)) by (apply Z.pow_pos_nonneg; lia). nia.
Qed.

Lemma f64_lt_units f x y :
  valid64 x = true → valid64 y = true → f ≤ exponent x → f ≤ exponent y →
  (∀ s, x ≠ S754_infinity s) → (∀ s, y ≠ S754_infinity s) →
  f64_lt y x = true → units f y < units f x.
Proof.
  intros Hx Hy Hfx Hfy Hix Hiy (a&b&Ha&Hb&Hlt)%f64_lt_rank.
  assert (∀ m e, f ≤ e → 0 < Zpos m * 2 ^ (e - f)).
  { intros m e ?. apply Z.mul_pos_pos; [lia|]. apply Z.pow_pos_nonneg; lia. }
  destruct x as [sx|sx| |sx mx ex]; [|by destruct (Hix sx)|done|];
    (destruct y as [sy|sy| |sy my ey]; [|by destruct (Hiy sy)|done|]); simpl in *;
    try destruct sx; try destruct sy; simplify_eq/=; try lia;
    try (pose proof (H my ey ltac:(lia)); lia); try (pose proof (H mx ex ltac:(lia)); lia).
  - enough (Zpos mx * 2 ^ (ex - f) < Zpos my * 2 ^ (ey - f)) by lia.
    apply (pos_lt_units f true my ey true mx ex); try done; lia.
  - enough (Zpos my * 2 ^ (ey - f) < Zpos mx * 2 ^ (ex - f)) by lia.
    apply (pos_lt_units f true mx ex true my ey); try done; lia.
Qed.

(** A number of ordinary size, below [2^1000]. *)
Definition moderate (x : f64) : bool :=
  valid64 x &&
  match x with
  | S754_zero _ => true
  | S754_finite _ m e => Zdigits2 (Zpos m) + e <=? 1000
  | _ => false
  end.

Lemma shl_align_units m e f : f ≤ e → Zpos (fst (shl_align m e f)) = Zpos m * 2 ^ (e - f).
Proof.
  intros ?. unfold shl_align. destruct (f - e) as [|p|p] eqn:Hd; [|lia|].
  - replace (e - f) with 0 by lia. simpl. lia.
  - simpl. rewrite iter_xO_Z. do 2 f_equal. lia.
Qed.

Lemma units_bound f m e :
  f ≤ e → Zpos m * 2 ^ (e - f) < 2 ^ (Zdigits2 (Zpos m) + e - f).
Proof.
  intros ?. destruct (Zdigits2_bounds (Zpos m) ltac:(lia)) as [[_ Hu] ?].
  replace (Zdigits2 (Zpos m) + e - f) with (Zdigits2 (Zpos m) + (e - f)) by lia.
  rewrite Z.pow_add_r by lia. assert (0 < 2 ^ (e - f)) by (apply Z.pow_pos_nonneg; lia). nia.
Qed.

(** ** Arithmetic on canonical numbers *)

(** A magnitude below [2 ^ n] units has as few digits. *)
Lemma digits_below p n : 0 ≤ n → Zpos p < 2 ^ n → Zdigits2 (Zpos p) ≤ n.
Proof.
  intros Hn Hp. destruct (Zdigits2_bounds (Zpos p) ltac:(lia)) as [[Hl _] _].
  destruct (Z.le_gt_cases (Zdigits2 (Zpos p)) n) as [|Hgt]; [done|].
  assert (2 ^ n ≤ 2 ^ (Zdigits2 (Zpos p) - 1)) by (apply Z.pow_le_mono_r; lia). lia.
Qed.

(** The sign of a difference is kept by rounding, and so is that it is finite. *)
Lemma round_finite s p e :
  -1074 ≤ e → Zdigits2 (Zpos p) + e ≤ 1023 →
  ∃ m e', binary_round 53 1024 s p e = S754_finite s m e' ∧ valid64 (S754_finite s m e') = true.
Proof.
  intros He Hd. destruct (binary_round_spec s p e) as (Hv&Hf&Hz&Hi).
  specialize (Hz ltac:(lia)). specialize (Hi Hd).
  destruct Hf as [?|[?|(m&e'&E)]]; [congruence|congruence|]. rewrite E in Hv |- *. eauto.
Qed.

(** A difference of ordinary numbers is a finite canonical number, and positive when the
    first is the larger. *)
Lemma f64_sub_spec x y :
  moderate x = true → moderate y = true →
  valid64 (f64_sub x y) = true ∧ is_nan (f64_sub x y) = false ∧
  (∀ s, f64_sub x y ≠ S754_infinity s) ∧
  (f64_lt y x = true → ∃ m e, f64_sub x y = S754_finite false m e).
Proof.
  unfold moderate. intros [Hx Hxm]%andb_true_iff [Hy Hym]%andb_true_iff.
  destruct x as [sx|sx| |sx mx ex]; [|done|done|];
    (destruct y as [sy|sy| |sy my ey]; [|done|done|]).
  { by destruct sx, sy. }
  { split_and!; [done..|]. destruct sy; simpl; [eauto|done]. }
  { split_and!; [done..|]. destruct sx; simpl; [done|eauto]. }
  apply Z.leb_le in Hxm, Hym. unfold f64_sub, SFsub.
  set (ez := Z.min ex ey).
  rewrite !shl_align_units by (unfold ez; lia).
  pose proof (f64_lt_units ez (S754_finite sx mx ex) (S754_finite sy my ey) Hx Hy) as Hlt.
  apply valid_bounds in Hx as (_&Hex&_), Hy as (_&Hey&_).
  pose proof (units_bound ez mx ex ltac:(lia)) as Hbx.
  pose proof (units_bound ez my ey ltac:(lia)) as Hby.
  destruct (Zdigits2_bounds (Zpos mx) ltac:(lia)) as [_ Hdx].
  destruct (Zdigits2_bounds (Zpos my) ltac:(lia)) as [_ Hdy].
  set (X := Zpos mx * 2 ^ (ex - ez)) in *. set (Y := Zpos my * 2 ^ (ey - ez)) in *.
  assert (X < 2 ^ (1000 - ez)).
  { eapply Z.lt_le_trans; [exact Hbx|]. apply Z.pow_le_mono_r; lia. }
  assert (Y < 2 ^ (1000 - ez)).
  { eapply Z.lt_le_trans; [exact Hby|]. apply Z.pow_le_mono_r; lia. }
  assert (0 < X) by (apply Z.mul_pos_pos; [lia|apply Z.pow_pos_nonneg; lia]).
  assert (0 < Y) by (apply Z.mul_pos_pos; [lia|apply Z.pow_pos_nonneg; lia]).
  assert (units ez (S754_finite sx mx ex) = cond_Zopp sx X) as EX.
  { unfold units, cond_Zopp. destruct sx; fold X; lia. }
  assert (units ez (S754_finite sy my ey) = cond_Zopp sy Y) as EY.
  { unfold units, cond_Zopp. destruct sy; fold Y; lia. }
  rewrite EX, EY in Hlt.
  set (D := cond_Zopp sx X - cond_Zopp sy Y) in *.
  assert (2 ^ (1001 - ez) = 2 * 2 ^ (1000 - ez)) as Hpow.
  { replace (1001 - ez) with (1 + (1000 - ez)) by lia. by rewrite Z.pow_add_r by lia. }
  assert (Z.abs D < 2 ^ (1001 - ez)) as HD by (unfold D, cond_Zopp; destruct sx, sy; lia).
  assert (∀ p, Zpos p < 2 ^ (1001 - ez) → Zdigits2 (Zpos p) + ez ≤ 1023) as Hdig.
  { intros p Hp. apply digits_below in Hp; lia. }
  unfold binary_normalize. destruct D as [|p|p] eqn:ED.
  - split_and!; [done..|]. intros Hl. apply Hlt in Hl; [lia|simpl; lia..|done|done].
  - destruct (round_finite false p ez ltac:(lia) (Hdig p ltac:(lia))) as (m&e&->&Hv).
    split_and!; [done|done|by intros ? ?|eauto].
  - destruct (round_finite true p ez ltac:(lia) (Hdig p ltac:(lia))) as (m&e&->&Hv).
    split_and!; [done|done|by intros ? ?|].
    intros Hl. apply Hlt in Hl; [lia|simpl; lia..|done|done].
Qed.

(** A quotient by a finite non-zero number. *)
Lemma f64_div_spec x s m e :
  valid64 x = true → is_nan x = false → valid64 (S754_finite s m e) = true →
  valid64 (f64_div x (S754_finite s m e)) = true ∧ is_nan (f64_div x (S754_finite s m e)) = false.
Proof.
  intros Hx Hn Hy. destruct x as [sx|sx| |sx mx ex]; [done|done|done|]. clear Hn.
  unfold f64_div, SFdiv, SFdiv_core_binary.
  apply valid_bounds in Hx as (_&_&_&_&Hdx), Hy as (_&_&_&_&Hdy).
  set (d1 := Zdigits2 (Zpos mx)) in *. set (d2 := Zdigits2 (Zpos m)) in *.
  rewrite fexp_64. set (e' := Z.min _ _). set (sh := ex - e - e').
  assert (0 ≤ sh) as Hsh by lia.
  assert (match sh with Z0 => Zpos mx | Zpos _ => Z.shiftl (Zpos mx) sh | Zneg _ => 0 end
          = Zpos mx * 2 ^ sh) as ->.
  { destruct sh eqn:E; [simpl; lia| |lia]. by rewrite Z.shiftl_mul_pow2 by lia. }
  pose proof (Z.div_eucl_eq (Zpos mx * 2 ^ sh) (Zpos m) ltac:(lia)) as _.
  assert (0 < 2 ^ sh) by (apply Z.pow_pos_nonneg; lia).
  destruct (Z.div_eucl (Zpos mx * 2 ^ sh) (Zpos m)) as [q r] eqn:Hqr.
  assert (q = Zpos mx * 2 ^ sh / Zpos m) as Hq by (unfold Z.div; by rewrite Hqr).
  assert (0 ≤ q) by (rewrite Hq; apply Z.div_pos; lia).
  destruct (Zdigits2_bounds (Zpos mx) ltac:(lia)) as [[Hl1 Hu1] Hd1]. fold d1 in Hl1, Hu1, Hd1.
  destruct (Zdigits2_bounds (Zpos m) ltac:(lia)) as [[Hl2 Hu2] Hd2]. fold d2 in Hl2, Hu2, Hd2.
  assert (2 ^ (d1 - 1 + sh) ≤ Zpos mx * 2 ^ sh) as Hlow.
  { rewrite Z.pow_add_r by lia. nia. }
  assert (Zpos mx * 2 ^ sh < (q + 1) * 2 ^ d2) as Hup.
  { assert (Zpos mx * 2 ^ sh < Zpos m * (q + 1)); [|nia].
    pose proof (Z.mul_succ_div_gt (Zpos mx * 2 ^ sh) (Zpos m)). lia. }
  assert (valid64 (binary_round_aux 53 1024 (xorb sx s) q e' (new_location (Zpos m) r)) = true ∧
    (binary_round_aux 53 1024 (xorb sx s) q e' (new_location (Zpos m) r) = S754_zero (xorb sx s) ∨
     binary_round_aux 53 1024 (xorb sx s) q e' (new_location (Zpos m) r) = S754_infinity (xorb sx s) ∨
     ∃ m' e'', binary_round_aux 53 1024 (xorb sx s) q e' (new_location (Zpos m) r) =
       S754_finite (xorb sx s) m' e'')) as [Hv Hform].
  { destruct (binary_round_aux_spec (xorb sx s) q e' (new_location (Zpos m) r)) as (?&?&_&_);
      [done| | |done].
    - intros Hq0. destruct (Zdigits2_bounds q Hq0) as [[_ Huq] ?].
      assert (2 ^ (d1 - 1 + sh) < 2 ^ (Zdigits2 q + d2)) as Hlt.
      { rewrite (Z.pow_add_r 2 (Zdigits2 q)) by lia. nia. }
      apply Z.pow_lt_mono_r_iff in Hlt; lia.
    - intros Hq0. rewrite Hq0 in Hup. assert (2 ^ (d1 - 1 + sh) < 2 ^ d2) as Hlt by lia.
      apply Z.pow_lt_mono_r_iff in Hlt; lia. }
  split; [done|]. destruct Hform as [->|[->|(?&?&->)]]; done.
Qed.

Lemma f64_mul_spec x s m e :
  valid64 x = true → is_nan x = false → valid64 (S754_finite s m e) = true →
  valid64 (f64_mul x (S754_finite s m e)) = true ∧ is_nan (f64_mul x (S754_finite s m e)) = false.
Proof.
  intros Hx Hn Hy. destruct x as [sx|sx| |sx mx ex]; [done|done|done|]. clear Hn.
  unfold f64_mul, SFmul.
  apply valid_bounds in Hx as (_&Hex&Hx52&_&_), Hy as (_&Hey&Hy52&_&_).
  destruct (Zdigits2_bounds (Zpos (mx * m)) ltac:(lia)) as [[_ Hu] ?].
  destruct (binary_round_aux_spec (xorb sx s) (Zpos (mx * m)) (ex + e) loc_Exact)
    as (Hv&Hf&_&_); [lia| |lia|].
  - intros _. destruct (Z.le_gt_cases (ex + e) (-1074)) as [|Hgt]; [lia|].
    assert (2 ^ 52 ≤ Zpos (mx * m)) as Hbig.
    { destruct (Z.eq_dec ex (-1074)) as [->|]; [specialize (Hy52 ltac:(lia))|specialize (Hx52 ltac:(lia))]; nia. }
    assert (2 ^ 52 < 2 ^ Zdigits2 (Zpos (mx * m))) as Hd by lia.
    apply Z.pow_lt_mono_r_iff in Hd; lia.
  - split; [done|]. destruct Hf as [->|[->|(?&?&->)]]; done.
Qed.

(** ** Between 0 and 100 *)

(** [math.Max] and [math.Min] *)
Definition is_inf (sgn : bool) (x : f64) : bool :=
  match x with S754_infinity s => Bool.eqb s sgn | _ => false end.
Definition signbit (x : f64) : bool :=
  match x with S754_zero s | S754_infinity s | S754_finite s _ _ => s | S754_nan => false end.

Definition math_Max (x y : f64) : f64 :=
  if is_inf false x || is_inf false y then S754_infinity false
  else if is_nan x || is_nan y then S754_nan
  else if f64_eq x f64_zero && f64_eq x y then if signbit x then y else x
  else if f64_lt y x then x else y.

Definition math_Min (x y : f64) : f64 :=
  if is_inf true x || is_inf true y then S754_infinity true
  else if is_nan x || is_nan y then S754_nan
  else if f64_eq x f64_zero && f64_eq x y then if signbit x then x else y
  else if f64_lt x y then x else y.

Definition f64_100 : f64 := f64_of_Z 100.

Lemma f64_100_eq : f64_100 = S754_finite false 7036874417766400 (-46).
Proof. reflexivity. Qed.

(** Clamping a number that is not NaN. *)
Lemma clamp_range v :
  is_nan v = false → valid64 v = true →
  let r := math_Min f64_100 (math_Max f64_zero v) in
  f64_le f64_zero r = true ∧ f64_le r f64_100 = true ∧ valid64 r = true.
Proof.
  intros Hn Hv. rewrite f64_100_eq. cbv zeta.
  assert (math_Max f64_zero v = if f64_lt f64_zero v then v else f64_zero) as ->.
  { unfold math_Max. rewrite Hn. simpl. by destruct v as [[]|[]| |[]]. }
  destruct (f64_lt f64_zero v) eqn:Hz; [|by vm_compute].
  unfold math_Min. rewrite Hn.
  assert (is_inf true v = false) as -> by (by destruct v as [[]|[]| |[]]).
  set (c := S754_finite false 7036874417766400 (-46)).
  assert (f64_eq c f64_zero = false) as -> by reflexivity.
  cbn [is_inf is_nan c orb andb].
  destruct (f64_lt c v) eqn:Hc; [split_and!; reflexivity|].
  split_and!; [by apply f64_lt_le| |done].
  rewrite f64_lt_negb_le in Hc by done. by apply negb_false_iff in Hc.
Qed.

(** [uint8(math.Round(x))] of a number between 0 and 100. *)
Lemma round_percent `{FloatConv} x :
  valid64 x = true → f64_le f64_zero x = true → f64_le x f64_100 = true →
  0 ≤ f64_to_uint 8 (f64_round x) ≤ 100.
Proof.
  intros Hv H0 H100. destruct x as [s|s| |s m e]; [vm_compute; intuition discriminate| |done|].
  { by destruct s. }
  destruct s; [done|]. rewrite f64_100_eq in H100.
  apply f64_le_rank in H100 as (a&b&Ha&Hb&Hlt). simpl in Ha, Hb. simplify_eq.
  apply valid_bounds in Hv as (Hm&_&_&_&_).
  assert (e ≤ -46 ∧ Zpos m ≤ 100 * 2 ^ (- e)) as [He Hme].
  { destruct Hlt as [Hlt|Heq]; [|by simplify_eq; vm_compute]. simpl in Hlt.
    destruct (Z.eq_dec e (-46)) as [->|]; [split; [lia|]; change (100 * 2 ^ (- -46)) with 7036874417766400; lia|].
    split; [lia|]. assert (2 ^ 47 ≤ 2 ^ (- e)) by (apply Z.pow_le_mono_r; lia). lia. }
  unfold f64_round. rewrite (proj2 (Z.leb_gt 0 e)) by lia.
  set (q := _ / _). assert (0 < 2 ^ (- e)) by (apply Z.pow_pos_nonneg; lia).
  assert (0 ≤ q ≤ 100) as Hq.
  { unfold q. rewrite Z.pow_add_r by lia. split; [apply Z.div_pos; lia|].
    apply Z.lt_succ_r. apply Z.div_lt_upper_bound; lia. }
  assert (f64_to_uint 8 (match q with Zpos p => binary_round 53 1024 false p 0 | _ => S754_zero false end)
    = f64_to_uint 8 (f64_of_Z q)) as ->.
  { unfold f64_of_Z, binary_normalize. destruct q; [done|done|lia]. }
  unfold f64_to_uint. rewrite f64_trunc_of_Z by lia.
  rewrite (proj2 (Z.leb_le 0 q)), (proj2 (Z.ltb_lt q (2 ^ 8))) by lia. done.
Qed.

(** ** Rounding below a bound that is a number *)

(** Shifting zeros out loses nothing. *)
Lemma iter_shr_multiple p a :
  0 ≤ a → iter_pos shr_1 p (Build_shr_record (a * 2 ^ Zpos p) false false) = Build_shr_record a false false.
Proof.
  revert a. induction p as [p IH|p IH|]; intros a Ha; cbn [iter_pos];
    try (assert (0 < 2 ^ Zpos p) by (apply Z.pow_pos_nonneg; lia)).
  - replace (a * 2 ^ Zpos p~1) with (2 * (a * 2 ^ Zpos p * 2 ^ Zpos p)).
    + assert (∀ b, 0 ≤ b → shr_1 (Build_shr_record (2 * b) false false) = Build_shr_record b false false) as ->
        by (intros [|b|b] ?; [done|done|lia]); [|nia].
      by rewrite !IH by nia.
    + rewrite (Pos2Z.inj_xI p). replace (2 * Zpos p + 1) with (1 + Zpos p + Zpos p) by lia.
      rewrite !Z.pow_add_r by lia. ring.
  - assert (a * 2 ^ Zpos p~0 = a * 2 ^ Zpos p * 2 ^ Zpos p) as ->; [|by rewrite !IH by nia].
    rewrite (Pos2Z.inj_xO p), <- Z.add_diag.
    rewrite !Z.pow_add_r by lia. ring.
  - rewrite Z.mul_comm. by destruct a.
Qed.

(** [m * 2^e] plus a location is at most [B]. *)
Definition at_most (B m e : Z) (l : location) : Prop :=
  0 ≤ m ∧ e ≤ 0 ∧ m ≤ B * 2 ^ (- e) ∧ (m = B * 2 ^ (- e) → l = loc_Exact).

Lemma shr_fexp_at_most B m e l :
  0 < B < 2 ^ 53 → at_most B m e l →
  let '(mrs, e') := shr_fexp 53 1024 m e l in at_most B (shr_m mrs) e' (loc_of_shr_record mrs).
Proof.
  intros HB (Hm&He&Hle&Hl). pose proof (shr_fexp_spec m e l Hm) as Hs. cbv zeta in Hs.
  destruct (shr_fexp _ _ _ _ _) as [mrs e'] eqn:Heq. destruct Hs as [Hq He'].
  set (k := Z.max 0 _) in *.
  assert (e' ≤ 0) as He0.
  { destruct (Z.eq_dec m 0) as [->|]; [simpl in k; lia|].
    destruct (Zdigits2_bounds m ltac:(lia)) as [[Hlo _] ?].
    assert (0 < 2 ^ (- e)) by (apply Z.pow_pos_nonneg; lia).
    assert (2 ^ (Zdigits2 m - 1) < 2 ^ (53 + - e)) as Hd by (rewrite (Z.pow_add_r 2 53) by lia; nia).
    apply Z.pow_lt_mono_r_iff in Hd; lia. }
  assert (0 < 2 ^ k) by (apply Z.pow_pos_nonneg; lia).
  assert (2 ^ (- e) = 2 ^ (- e') * 2 ^ k) as Hpow by (rewrite <- Z.pow_add_r by lia; f_equal; lia).
  split_and!; [rewrite Hq; apply Z.div_pos; lia|done| |].
  - rewrite Hq. apply Z.div_le_upper_bound; [done|]. nia.
  - rewrite Hq. intros Hmax. assert (m = B * 2 ^ (- e') * 2 ^ k) as Hm'.
    { assert (2 ^ k * (m / 2 ^ k) ≤ m) by (by apply Z.mul_div_le). nia. }
    rewrite Hl in Heq by nia. revert Heq. unfold shr_fexp. rewrite fexp_64. unfold shr.
    destruct (Z.max (Zdigits2 m + e - 53) (-1074) - e) as [|p|p] eqn:Hk; [by intros [= <- <-]| |by intros [= <- <-]].
    assert (k = Zpos p) as Hkp by lia. rewrite Hkp in Hm'. rewrite Hm'. cbn [shr_record_of_loc].
    rewrite iter_shr_multiple by nia. by intros [= <- <-].
Qed.

Definition f64_at_most (B : Z) (x : f64) : Prop :=
  match x with
  | S754_zero _ => True
  | S754_finite false m e => e ≤ 0 ∧ Zpos m ≤ B * 2 ^ (- e)
  | _ => False
  end.

Lemma round_at_most B m e l :
  0 < B < 2 ^ 53 → at_most B m e l → f64_at_most B (binary_round_aux 53 1024 false m e l).
Proof.
  intros HB H. unfold binary_round_aux. pose proof (shr_fexp_at_most B m e l HB H) as H1.
  destruct (shr_fexp _ _ m e l) as [mrs e1]. destruct H1 as (Hm&He&Hle&Hl).
  assert (at_most B (round_nearest_even (shr_m mrs) (loc_of_shr_record mrs)) e1 loc_Exact) as H2.
  { destruct (round_cases (shr_m mrs) (loc_of_shr_record mrs)) as [Hr|Hr]; rewrite Hr; split_and!; try done; try lia.
    destruct (Z.eq_dec (shr_m mrs) (B * 2 ^ (- e1))) as [Heq|]; [|lia].
    rewrite Hl in Hr by done. simpl in Hr. lia. }
  pose proof (shr_fexp_at_most B _ _ _ HB H2) as H3.
  destruct (shr_fexp _ _ _ e1 _) as [mrs2 e2]. destruct H3 as (Hm2&He2&Hle2&_).
  destruct (shr_m mrs2) as [|p|p]; [done| |lia].
  rewrite (proj2 (Z.leb_le e2 (1024 - 53))) by lia. simpl. lia.
Qed.

(** A whole number below [2^53] is represented exactly. *)
Lemma f64_of_Z_exact n :
  0 < n < 2 ^ 53 → ∃ m e, f64_of_Z n = S754_finite false m e ∧ e ≤ 0 ∧ Zpos m = n * 2 ^ (- e) ∧ Zdigits2 (Zpos m) = 53.
Proof.
  intros [H0 Hn]. destruct n as [|m|]; [lia| |lia]. clear H0.
  unfold f64_of_Z, binary_normalize, binary_round.
  pose proof (digits2_pos_bound m 53 Hn ltac:(lia)) as Hd.
  rewrite fexp_64, Z.max_l by lia. unfold shl_align.
  destruct (Zpos (digits2_pos m) + 0 - 53 - 0) as [|p|p] eqn:Hs; [|lia|].
  - rewrite binary_round_aux_53 by lia. exists m, 0. split_and!; [done|lia|simpl; lia|simpl; lia].
  - rewrite binary_round_aux_53; [|rewrite digits2_pos_iter_xO; lia|lia].
    replace (Zpos (digits2_pos m) + 0 - 53) with (Zneg p) by lia.
    exists (Pos.iter xO m p), (Zneg p). split_and!; [done|lia|apply iter_xO_Z|].
    unfold Zdigits2. rewrite digits2_pos_iter_xO. lia.
Qed.

Lemma new_location_0 m : new_location m 0 = loc_Exact.
Proof. unfold new_location. by destruct (Z.even m). Qed.

(** A ratio of whole numbers is at most 1. *)
Lemma f64_div_at_most_1 c f :
  0 ≤ c ≤ f → 0 < f < 2 ^ 53 → f64_at_most 1 (f64_div (f64_of_Z c) (f64_of_Z f)).
Proof.
  intros Hc Hf. destruct (f64_of_Z_exact f Hf) as (m2&e2&->&He2&Hm2&Hd2).
  destruct (Z.eq_dec c 0) as [->|]; [done|].
  destruct (f64_of_Z_exact c ltac:(lia)) as (m1&e1&->&He1&Hm1&Hd1).
  unfold f64_div, SFdiv, SFdiv_core_binary. rewrite fexp_64, Hd1, Hd2.
  set (e' := Z.min _ _). set (sh := e1 - e2 - e').
  assert (0 ≤ sh) as Hsh by lia.
  assert (e1 ≤ e2) as He12.
  { destruct (Z.le_gt_cases e1 e2) as [|Hgt]; [done|]. exfalso.
    destruct (Zdigits2_bounds (Zpos m1) ltac:(lia)) as [[Hl1 _] _], (Zdigits2_bounds (Zpos m2) ltac:(lia)) as [[_ Hu2] _].
    rewrite Hd1 in Hl1. rewrite Hd2 in Hu2.
    assert (0 < 2 ^ (- e1)) by (apply Z.pow_pos_nonneg; lia).
    assert (2 ^ (- e2) = 2 ^ (e1 - e2 - 1) * (2 * 2 ^ (- e1))) as E.
    { rewrite <- Z.pow_succ_r, <- Z.pow_add_r by lia. f_equal. lia. }
    assert (0 < 2 ^ (e1 - e2 - 1)) by (apply Z.pow_pos_nonneg; lia).
    change (2 ^ (53 - 1)) with (2 ^ 52) in Hl1. change (2 ^ 53) with (2 * 2 ^ 52) in Hu2. nia. }
  assert (match sh with Z0 => Zpos m1 | Zpos _ => Z.shiftl (Zpos m1) sh | Zneg _ => 0 end
          = Zpos m1 * 2 ^ sh) as ->.
  { destruct sh eqn:E; [simpl; lia| |lia]. by rewrite Z.shiftl_mul_pow2 by lia. }
  assert (Zpos m1 * 2 ^ sh ≤ Zpos m2 * 2 ^ (- e')) as Hle.
  { rewrite Hm1, Hm2, <- !Z.mul_assoc, <- !Z.pow_add_r by lia.
    replace (- e1 + sh) with (- e2 + - e') by lia.
    apply Z.mul_le_mono_nonneg_r; [apply Z.pow_nonneg|]; lia. }
  pose proof (Z.div_eucl_eq (Zpos m1 * 2 ^ sh) (Zpos m2) ltac:(lia)) as Hqr.
  pose proof (Z.mod_pos_bound (Zpos m1 * 2 ^ sh) (Zpos m2) ltac:(lia)) as Hr. unfold Z.modulo in Hr.
  assert (0 < 2 ^ sh) by (apply Z.pow_pos_nonneg; lia).
  pose proof (Z.div_pos (Zpos m1 * 2 ^ sh) (Zpos m2) ltac:(lia) ltac:(lia)) as Hq. unfold Z.div in Hq.
  destruct (Z.div_eucl _ _) as [q r]. apply round_at_most; [lia|]. rewrite ?Z.mul_1_l.
  split_and!; [done|lia|nia|]. intros Hmax. replace r with 0 by nia. apply new_location_0.
Qed.

(** [uint8(float64(c) / float64(f) * 100)], a part of a whole in percent. *)
Lemma percent_of_whole `{FloatConv} c f :
  0 ≤ c ≤ f → 0 < f < 2 ^ 53 →
  0 ≤ f64_to_uint 8 (f64_mul (f64_div (f64_of_Z c) (f64_of_Z f)) f64_100) ≤ 100.
Proof.
  intros Hc Hf. pose proof (f64_div_at_most_1 c f Hc Hf) as H1. rewrite f64_100_eq.
  assert (f64_at_most 100 (f64_mul (f64_div (f64_of_Z c) (f64_of_Z f)) (S754_finite false 7036874417766400 (-46)))) as H2.
  { destruct (f64_div _ _) as [s|s| |[] m e]; try done. destruct H1 as [He Hm]. apply round_at_most; [lia|].
    assert (2 ^ (- (e + -46)) = 2 ^ (- e) * 70368744177664) as E.
    { change 70368744177664 with (2 ^ 46). rewrite <- Z.pow_add_r by lia. f_equal. lia. }
    unfold at_most. rewrite Pos2Z.inj_mul, E. split_and!; [lia|lia|nia|done]. }
  destruct (f64_mul _ _) as [s|s| |[] m e]; try done.
  destruct H2 as [He Hm]. unfold f64_to_uint, f64_trunc.
  assert (0 ≤ (if 0 <=? e then Zpos m * 2 ^ e else Zpos m / 2 ^ (- e)) ≤ 100) as Ha.
  { assert (0 < 2 ^ (- e)) by (apply Z.pow_pos_nonneg; lia).
    destruct (Z.leb_spec 0 e); [replace e with 0 in * by lia; simpl in *; lia|].
    split; [apply Z.div_pos; lia|]. apply Z.div_le_upper_bound; lia. }
  rewrite (proj2 (Z.leb_le 0 _)), (proj2 (Z.ltb_lt _ (2 ^ 8))) by lia. done.
Qed.
