(* ===== verification/GoFloatExact.v ===== *)
(** * Exact arithmetic on integers in [float64]

    Sums and differences of integers below [2^53] are exact, which is why counters that are
    kept as [float64] lose nothing. *)

From S2P Require Import Prelude GoFloat GoFloatFacts.
Local Open Scope Z_scope.

Lemma iter_to_pos m p : Pos.iter xO m p = Z.to_pos (Zpos m * 2 ^ Zpos p).
Proof. by rewrite <- iter_xO_Z. Qed.

(** A number of 53 digits with zeros after it. *)
Lemma round_shifted s m e j :
  Zpos (digits2_pos m) = 53 → -1074 ≤ e ≤ 971 →
  binary_round 53 1024 s (Pos.iter xO m j) (e - Zpos j) = S754_finite s m e.
Proof.
  intros Hd He.
  assert (shr_fexp 53 1024 (Zpos (Pos.iter xO m j)) (e - Zpos j) loc_Exact =
    (Build_shr_record (Zpos m) false false, e)) as E.
  { unfold shr_fexp, Zdigits2. rewrite digits2_pos_iter_xO, Hd, fexp_64.
    replace (Z.max _ _ - (e - Zpos j)) with (Zpos j) by lia.
    cbn [shr shr_record_of_loc]. rewrite iter_xO_Z, iter_shr_multiple by lia. f_equal. lia. }
  unfold binary_round. rewrite digits2_pos_iter_xO, Hd, fexp_64.
  replace (Z.max _ _) with e by lia.
  unfold shl_align. replace (e - (e - Zpos j)) with (Zpos j) by lia.
  unfold binary_round_aux. rewrite E. cbn [shr_m loc_of_shr_record round_nearest_even].
  rewrite shr_fexp_53 by lia. cbn [shr_m]. by rewrite (proj2 (Z.leb_le e (1024 - 53))) by lia.
Qed.

(** A number of at most 53 digits, brought to 53. *)
Lemma round_short s m e k :
  0 ≤ k → Zpos (digits2_pos m) + k = 53 → -1074 ≤ e - k ≤ 971 →
  binary_round 53 1024 s m e = S754_finite s (Z.to_pos (Zpos m * 2 ^ k)) (e - k).
Proof.
  intros Hk Hd He. unfold binary_round. rewrite fexp_64.
  replace (Z.max (Zpos (digits2_pos m) + e - 53) (-1074)) with (e - k) by lia.
  unfold shl_align. replace (e - k - e) with (- k) by lia.
  destruct k as [|p|p]; [|cbn [Z.opp]|lia].
  - rewrite Z.sub_0_r in *. rewrite Z.mul_1_r. cbn [Z.to_pos]. apply binary_round_aux_53; lia.
  - rewrite <- iter_to_pos. apply binary_round_aux_53; [rewrite digits2_pos_iter_xO; lia|lia].
Qed.

Lemma pow2_pos k : 0 ≤ k → 0 < 2 ^ k.
Proof. intros. apply Z.pow_pos_nonneg; lia. Qed.

Lemma to_pos_digits m k :
  0 ≤ k → Zpos (digits2_pos (Z.to_pos (Zpos m * 2 ^ k))) = Zpos (digits2_pos m) + k.
Proof.
  intros Hk. destruct k as [|p|p]; [rewrite Z.mul_1_r; simpl; lia| |lia].
  by rewrite <- iter_to_pos, digits2_pos_iter_xO.
Qed.

(** An integer of at most 53 digits scaled by a power of two and back. *)
Lemma round_scaled s m k :
  Zpos m < 2 ^ 53 → 0 ≤ k ≤ 1000 →
  binary_round 53 1024 s (Z.to_pos (Zpos m * 2 ^ k)) (- k) = binary_round 53 1024 s m 0.
Proof.
  intros Hm Hk. pose proof (digits2_pos_bound m 53 Hm ltac:(lia)) as Hd.
  pose proof (pow2_pos k ltac:(lia)). pose proof (to_pos_digits m k ltac:(lia)) as Hdk.
  set (d := Zpos (digits2_pos m)) in *. assert (0 < d) by (unfold d; lia).
  rewrite (round_short s m 0 (53 - d)) by (unfold d in *; lia).
  destruct (Z.le_gt_cases (d + k) 53) as [Hle|Hgt].
  - rewrite (round_short s _ _ (53 - d - k)) by lia. f_equal; [|lia]. f_equal.
    rewrite Z2Pos.id, <- Z.mul_assoc, <- Z.pow_add_r by lia. f_equal. f_equal. lia.
  - pose proof (pow2_pos (53 - d) ltac:(lia)).
    pose proof (round_shifted s (Z.to_pos (Zpos m * 2 ^ (53 - d))) (0 - (53 - d))
      (Z.to_pos (k - (53 - d)))) as E.
    rewrite to_pos_digits, iter_to_pos, !Z2Pos.id in E by (unfold d in *; nia || lia).
    rewrite <- Z.mul_assoc, <- Z.pow_add_r in E by lia.
    replace (53 - d + (k - (53 - d))) with k in E by lia.
    replace (0 - (53 - d) - (k - (53 - d))) with (- k) in E by lia.
    apply E; unfold d in *; lia.
Qed.

(** [float64] of an integer. *)
Lemma f64_of_Z_shape n :
  0 < n < 2 ^ 53 → ∃ k, 0 ≤ k ≤ 53 ∧ f64_of_Z n = S754_finite false (Z.to_pos (n * 2 ^ k)) (- k).
Proof.
  intros Hn. destruct n as [|m|m]; [lia| |lia].
  pose proof (digits2_pos_bound m 53 ltac:(lia) ltac:(lia)) as Hd.
  exists (53 - Zpos (digits2_pos m)). split; [lia|]. unfold f64_of_Z, binary_normalize.
  rewrite (round_short false m 0 (53 - Zpos (digits2_pos m))) by lia. f_equal.
Qed.

Lemma normalize_scaled n k :
  0 ≤ n < 2 ^ 53 → 0 ≤ k ≤ 1000 → binary_normalize 53 1024 (n * 2 ^ k) (- k) false = f64_of_Z n.
Proof.
  intros Hn Hk. destruct n as [|m|m]; [done| |lia].
  pose proof (pow2_pos k ltac:(lia)). pose proof (round_scaled false m k ltac:(lia) Hk) as E.
  unfold f64_of_Z. destruct (Zpos m * 2 ^ k) as [|p|p] eqn:Ep; [nia| |nia]. exact E.
Qed.

(** Operands at a common exponent. *)
Lemma aligned n k f :
  0 < n → 0 ≤ k → f ≤ - k →
  Zpos (fst (shl_align (Z.to_pos (n * 2 ^ k)) (- k) f)) = n * 2 ^ (- f).
Proof.
  intros Hn Hk Hf. pose proof (pow2_pos k Hk). rewrite shl_align_units, Z2Pos.id by nia.
  rewrite <- Z.mul_assoc, <- Z.pow_add_r by lia. do 2 f_equal. lia.
Qed.

Lemma f64_add_Z a b :
  0 ≤ a → 0 ≤ b → a + b < 2 ^ 53 → f64_add (f64_of_Z a) (f64_of_Z b) = f64_of_Z (a + b).
Proof.
  intros Ha Hb Hab. destruct (Z.eq_dec a 0) as [->|Ha0].
  { rewrite Z.add_0_l. destruct (Z.eq_dec b 0) as [->|Hb0]; [done|].
    destruct (f64_of_Z_shape b ltac:(lia)) as (k&_&E). by rewrite E. }
  destruct (f64_of_Z_shape a ltac:(lia)) as (ka&Hka&Ea).
  destruct (Z.eq_dec b 0) as [->|Hb0]; [by rewrite Z.add_0_r, Ea|].
  destruct (f64_of_Z_shape b ltac:(lia)) as (kb&Hkb&Eb).
  rewrite Ea, Eb. unfold f64_add, SFadd. cbn [cond_Zopp].
  rewrite !aligned by lia. rewrite <- Z.mul_add_distr_r.
  rewrite <- (normalize_scaled (a + b) (- Z.min (- ka) (- kb))) by lia. f_equal. lia.
Qed.

Lemma f64_sub_Z a b :
  0 ≤ b ≤ a → a < 2 ^ 53 → f64_sub (f64_of_Z a) (f64_of_Z b) = f64_of_Z (a - b).
Proof.
  intros Hb Ha. destruct (Z.eq_dec b 0) as [->|Hb0].
  { rewrite Z.sub_0_r. destruct (Z.eq_dec a 0) as [->|Ha0]; [done|].
    destruct (f64_of_Z_shape a ltac:(lia)) as (k&_&E). by rewrite E. }
  destruct (f64_of_Z_shape a ltac:(lia)) as (ka&Hka&Ea).
  destruct (f64_of_Z_shape b ltac:(lia)) as (kb&Hkb&Eb).
  rewrite Ea, Eb. unfold f64_sub, SFsub. cbn [cond_Zopp].
  rewrite !aligned by lia. rewrite <- Z.mul_sub_distr_r.
  rewrite <- (normalize_scaled (a - b) (- Z.min (- ka) (- kb))) by lia. f_equal. lia.
Qed.
