(* ===== verification/GoStrings.v ===== *)
(** * Strings

    The functions of Go's [strings], [strconv] and [net/url] packages that the
    modelled code uses, on byte strings.  Case conversion and white space are
    those of ASCII, which is what alert names, host names, sensor names and
    e-mail addresses use. *)

From Stdlib Require Export Ascii String.
From S2P Require Import Prelude.

Local Open Scope string_scope.

(** [strings.HasPrefix], [strings.CutPrefix], [strings.HasSuffix], [strings.TrimSuffix] *)
Fixpoint CutPrefix (s p : string) {struct p} : option string :=
  match p, s with
  | EmptyString, _ => Some s
  | String a p, String b s => if Ascii.eqb a b then CutPrefix s p else None
  | String _ _, EmptyString => None
  end.

Definition HasPrefix (s p : string) : bool :=
  match CutPrefix s p with Some _ => true | None => false end.

Fixpoint TrimSuffix (s x : string) : string :=
  if String.eqb s x then "" else
  match s with
  | EmptyString => ""
  | String a s' => String a (TrimSuffix s' x)
  end.

(** [strings.Contains] *)
Fixpoint Contains (s n : string) : bool :=
  HasPrefix s n ||
  match s with EmptyString => false | String _ s => Contains s n end.

Definition containsAny (s : string) (needles : list string) : bool :=
  existsb (Contains s) needles.

(** [strings.ToLower] *)
Definition lower_ascii (a : ascii) : ascii :=
  let n := nat_of_ascii a in
  if (65 <=? n)%nat && (n <=? 90)%nat then ascii_of_nat (n + 32) else a.

Fixpoint ToLower (s : string) : string :=
  match s with
  | EmptyString => ""
  | String a s => String (lower_ascii a) (ToLower s)
  end.

(** [strings.TrimSpace] *)
Definition is_space (a : ascii) : bool :=
  let n := nat_of_ascii a in ((9 <=? n)%nat && (n <=? 13)%nat) || (n =? 32)%nat.

Fixpoint trim_left (s : string) : string :=
  match s with
  | EmptyString => ""
  | String a s' => if is_space a then trim_left s' else s
  end.

Fixpoint trim_right (s : string) : string :=
  match s with
  | EmptyString => ""
  | String a s' =>
      match trim_right s' with
      | EmptyString => if is_space a then "" else String a ""
      | t => String a t
      end
  end.

Definition TrimSpace (s : string) : string := trim_right (trim_left s).

(** [strings.Split] by a one-byte separator; [strings.Cut] likewise. *)
Fixpoint Split (sep : ascii) (s : string) : list string :=
  match s with
  | EmptyString => [""]
  | String a s' =>
      if Ascii.eqb a sep then "" :: Split sep s'
      else match Split sep s' with
           | w :: ws => String a w :: ws
           | [] => [String a ""]
           end
  end.

Definition comma : ascii := ",".

(** Decimal printing ([%d]) of a natural number. *)
Fixpoint digits_aux (fuel n : nat) (acc : string) : string :=
  match fuel with
  | O => acc
  | S fuel =>
      let acc' := String (ascii_of_nat (48 + n mod 10)) acc in
      if (n / 10 =? 0)%nat then acc' else digits_aux fuel (n / 10) acc'
  end.

Definition print_nat (n : nat) : string := digits_aux (S n) n "".

(** [url.PathEscape] *)
Definition unreserved (a : ascii) : bool :=
  let n := nat_of_ascii a in
  ((48 <=? n)%nat && (n <=? 57)%nat) || ((65 <=? n)%nat && (n <=? 90)%nat) ||
  ((97 <=? n)%nat && (n <=? 122)%nat) ||
  existsb (Ascii.eqb a)
    ["-"; "_"; "."; "~"; "$"; "&"; "+"; ":"; "="; "@"]%char.

Definition hex_digit (n : nat) : ascii :=
  ascii_of_nat (if (n <? 10)%nat then 48 + n else 55 + n).

Fixpoint PathEscape (s : string) : string :=
  match s with
  | EmptyString => ""
  | String a s =>
      if unreserved a then String a (PathEscape s)
      else let n := nat_of_ascii a in
           String "%" (String (hex_digit (n / 16)) (String (hex_digit (n mod 16)) (PathEscape s)))
  end.

(** [Hub.MakeLink]: the application URL followed by escaped path segments. *)
Definition MakeLink (appURL : string) (parts : list string) : string :=
  fold_left (λ base part, if String.eqb part "" then base
                          else base ++ "/" ++ PathEscape part)
    parts (TrimSuffix appURL "/").

(** ** Lemmas *)

Lemma CutPrefix_spec s p t : CutPrefix s p = Some t ↔ s = p ++ t.
Proof.
  revert s. induction p as [|a p IH]; intros s; simpl.
  - split; [by intros [= ->]|by intros ->].
  - destruct s as [|b s]; [done|]. destruct (Ascii.eqb_spec a b) as [->|Hne].
    + rewrite IH. split; [by intros ->|by intros [= ->]].
    + split; [done|]. by intros [= ->].
Qed.

Lemma HasPrefix_spec s p : HasPrefix s p = true ↔ ∃ t, s = p ++ t.
Proof.
  unfold HasPrefix. setoid_rewrite <- CutPrefix_spec.
  destruct (CutPrefix s p); split; [by eauto|done|done|by intros [? ?]].
Qed.

Lemma string_length_app s t : String.length (s ++ t) = String.length s + String.length t.
Proof. induction s as [|a s IH]; simpl; [done|]. by rewrite IH. Qed.

Lemma TrimSuffix_app s x : TrimSuffix (s ++ x) x = s.
Proof.
  induction s as [|a s IH].
  - change ("" ++ x) with x. destruct x as [|c x]; [done|].
    change (TrimSuffix (String c x) (String c x)) with
      (if String.eqb (String c x) (String c x) then ""
       else String c (TrimSuffix x (String c x))).
    by rewrite String.eqb_refl.
  - change (TrimSuffix (String a s ++ x) x) with
      (if String.eqb (String a (s ++ x)) x then "" else String a (TrimSuffix (s ++ x) x)).
    destruct (String.eqb_spec (String a (s ++ x)) x) as [Heq|Hne]; [|by rewrite IH].
    exfalso. apply (f_equal String.length) in Heq. simpl in Heq.
    rewrite string_length_app in Heq. lia.
Qed.

Lemma ToLower_idemp s : ToLower (ToLower s) = ToLower s.
Proof.
  induction s as [|a s IH]; simpl; [done|]. rewrite IH. f_equal.
  destruct a as [[] [] [] [] [] [] [] []]; reflexivity.
Qed.

Lemma trim_right_idemp s : trim_right (trim_right s) = trim_right s.
Proof.
  induction s as [|a s IH]; simpl; [done|].
  destruct (trim_right s) as [|b t] eqn:Ht; simpl in *.
  - destruct (is_space a) eqn:Ha; simpl; [done|by rewrite Ha].
  - by rewrite IH.
Qed.

Example MakeLink_ex :
  MakeLink "https://hub.lan/" ["system"; "a b/c"] = "https://hub.lan/system/a%20b%2Fc".
Proof. reflexivity. Qed.
