(* ===== verification/GoText.v ===== *)
(** * Strings, numbers and paths the agent parses

    More of Go's library, on byte strings: [strings] ([Cut], [Fields], [SplitN],
    [HasSuffix], ...), [strconv] ([ParseUint], [ParseInt], [Atoi]), [path] and
    [path/filepath] on Unix ([Base], [Clean], [Dir], [Join], [Match]).  White space
    is that of ASCII.  The pattern language of [path.Match] is parsed by a
    transition function over its characters, so that a malformed pattern is a
    value ([None]) and a match is a recursion on the parsed pattern. *)

From S2P Require Import Prelude GoStrings.

Local Open Scope string_scope.

(** ** [strings] *)

(** [strings.Cut]: around the first occurrence of [sep]. *)
Fixpoint Cut (s sep : string) : option (string * string) :=
  match CutPrefix s sep with
  | Some t => Some ("", t)
  | None =>
      match s with
      | EmptyString => None
      | String a s' => '(b, t) ← Cut s' sep; Some (String a b, t)
      end
  end.

Fixpoint HasSuffix (s x : string) : bool :=
  String.eqb s x || match s with EmptyString => false | String _ s' => HasSuffix s' x end.

Definition TrimPrefix (s p : string) : string := default s (CutPrefix s p).

(** [strings.Fields]: the maximal runs of bytes that are not white space. *)
Fixpoint fields_aux (s word : string) : list string :=
  match s with
  | EmptyString => if String.eqb word "" then [] else [word]
  | String a s' =>
      if is_space a then if String.eqb word "" then fields_aux s' "" else word :: fields_aux s' ""
      else fields_aux s' (word ++ String a "")
  end.
Definition Fields (s : string) : list string := fields_aux s "".

(** [strings.Join] *)
Fixpoint Join (l : list string) (sep : string) : string :=
  match l with
  | [] => ""
  | [x] => x
  | x :: l' => x ++ sep ++ Join l' sep
  end.

(** [strings.ToUpper] *)
Definition upper_ascii (a : ascii) : ascii :=
  let n := nat_of_ascii a in
  if (97 <=? n)%nat && (n <=? 122)%nat then ascii_of_nat (n - 32) else a.
Fixpoint ToUpper (s : string) : string :=
  match s with EmptyString => "" | String a s => String (upper_ascii a) (ToUpper s) end.

(** [strings.ReplaceAll] of a one-byte string by another string. *)
Fixpoint replace_char (s : string) (c : ascii) (r : string) : string :=
  match s with
  | EmptyString => ""
  | String a s' => (if Ascii.eqb a c then r else String a "") ++ replace_char s' c r
  end.

(** [strings.EqualFold] on ASCII *)
Definition EqualFold (s t : string) : bool := String.eqb (ToLower s) (ToLower t).

(** [strings.Split] by a separator that is not empty; the fuel is the length of the text. *)
Fixpoint split_fuel (fuel : nat) (s sep : string) : list string :=
  match fuel, Cut s sep with
  | S fuel, Some (x, r) => x :: split_fuel fuel r sep
  | _, _ => [s]
  end.
Definition SplitBy (s sep : string) : list string := split_fuel (String.length s) s sep.

(** ** [strconv] *)

Definition digit_val (a : ascii) : option Z :=
  let n := Z.of_nat (nat_of_ascii a) in
  if (48 <=? n)%Z && (n <=? 57)%Z then Some (n - 48)%Z else None.

(** The digits of [s] appended to those of [acc]. *)
Fixpoint parse_digits (s : string) (acc : Z) : option Z :=
  match s with
  | EmptyString => Some acc
  | String a s' => d ← digit_val a; parse_digits s' (acc * 10 + d)%Z
  end.

(** [strconv.ParseUint(s, 10, w)]; [None] is an error (syntax or range). *)
Definition ParseUint (w : Z) (s : string) : option Z :=
  if String.eqb s "" then None
  else n ← parse_digits s 0; if (n <? 2 ^ w)%Z then Some n else None.

(** [strconv.ParseInt(s, 10, w)] *)
Definition ParseInt (w : Z) (s : string) : option Z :=
  let '(neg, t) :=
    match s with
    | String "+" t => (false, t)
    | String "-" t => (true, t)
    | _ => (false, s)
    end%char in
  n ← ParseUint 64 t;
  if neg then if (n <=? 2 ^ (w - 1))%Z then Some (- n)%Z else None
  else if (n <? 2 ^ (w - 1))%Z then Some n else None.

Definition Atoi : string → option Z := ParseInt 64.

Lemma parse_digits_mono s acc n : (0 ≤ acc)%Z → parse_digits s acc = Some n → (acc ≤ n)%Z.
Proof.
  revert acc. induction s as [|a s IH]; intros acc Hacc; simpl; [intros [= <-]; lia|].
  unfold digit_val. case_match eqn:Hd; simpl; [|done]. zbool.
  intros Hn%IH; lia.
Qed.

(** A parsed number fits its width. *)
Lemma ParseUint_range w s n : ParseUint w s = Some n → in_range w n.
Proof.
  unfold ParseUint. case_match; [done|]. destruct (parse_digits s 0) eqn:Hd; simpl; [|done].
  intros ?. split_guards. zbool. apply parse_digits_mono in Hd; [|done]. unfold in_range. lia.
Qed.

Lemma ParseInt_range w s n : (0 < w)%Z → ParseInt w s = Some n → (- 2 ^ (w - 1) ≤ n < 2 ^ (w - 1))%Z.
Proof.
  intros Hw. assert (0 < 2 ^ (w - 1))%Z by (apply Z.pow_pos_nonneg; lia).
  unfold ParseInt. destruct (match s with String "+" t => _ | _ => _ end)%char as [neg t].
  destruct (ParseUint 64 t) as [m|] eqn:Hm; simpl; [|done].
  apply ParseUint_range in Hm as [? ?]. intros ?. split_guards; zbool; lia.
Qed.

(** ** Paths *)

Definition slash : ascii := "/".

(** [filepath.Base] *)
Definition Base (p : string) : string :=
  if String.eqb p "" then "."
  else default "/" (last (List.filter (λ c, negb (String.eqb c "")) (Split slash p))).

(** The components that [filepath.Clean] keeps, innermost first. *)
Definition clean_step (rooted : bool) (out : list string) (c : string) : list string :=
  if String.eqb c "" || String.eqb c "." then out
  else if String.eqb c ".." then
    match out with
    | x :: out' => if String.eqb x ".." then c :: out else out'
    | [] => if rooted then [] else [c]
    end
  else c :: out.

Definition clean_parts (rooted : bool) (parts : list string) : string :=
  let body := Join (rev (fold_left (clean_step rooted) parts [])) "/" in
  if rooted then "/" ++ body else if String.eqb body "" then "." else body.

Definition Clean (p : string) : string := clean_parts (HasPrefix p "/") (Split slash p).

(** [filepath.Dir] *)
Definition Dir (p : string) : string :=
  clean_parts (HasPrefix p "/") (removelast (Split slash p)).

(** [filepath.Join] *)
Definition JoinPath (l : list string) : string :=
  match List.filter (λ c, negb (String.eqb c "")) l with
  | [] => ""
  | l' => Clean (Join l' "/")
  end.

Example Base_ex : map Base [""; "/"; "/dev/sda1"; "a//"; "c"] = ["."; "/"; "sda1"; "a"; "c"].
Proof. reflexivity. Qed.
Example Dir_ex : map Dir [""; "/"; "/extra-filesystems/x"; "/a/b/../c"; "c"; "/x"] =
  ["."; "/"; "/extra-filesystems"; "/a"; "."; "/"].
Proof. reflexivity. Qed.
Example JoinPath_ex : JoinPath ["/extra-filesystems"; "../x/./y"] = "/x/y".
Proof. reflexivity. Qed.

(** ** [path.Match] *)

Inductive glob :=
| Star                                          (* any run of bytes but slashes *)
| Any                                           (* one byte but a slash *)
| Lit (c : ascii)
| Class (negated : bool) (ranges : list (ascii * ascii)).

(** Where the scanner stands in a pattern. *)
Inductive glob_mode :=
| MTop
| MEsc                                                          (* after a backslash *)
| MOpen                                                         (* after an open bracket *)
| MRange (neg : bool) (rs : list (ascii * ascii))               (* before a range *)
| MRangeEsc (neg : bool) (rs : list (ascii * ascii))
| MLo (neg : bool) (rs : list (ascii * ascii)) (lo : ascii)     (* after its lower bound *)
| MHi (neg : bool) (rs : list (ascii * ascii)) (lo : ascii)     (* after its dash *)
| MHiEsc (neg : bool) (rs : list (ascii * ascii)) (lo : ascii).

(** A byte where a range may begin; [rs] are the ranges before it. *)
Definition range_step (neg : bool) (rs : list (ascii * ascii)) (a : ascii)
    : option (glob_mode * list glob) :=
  if Ascii.eqb a "]" then
    match rs with [] => None | _ => Some (MTop, [Class neg rs]) end
  else if Ascii.eqb a "-" then None
  else if Ascii.eqb a "\" then Some (MRangeEsc neg rs, [])
  else Some (MLo neg rs a, []).

Definition glob_step (m : glob_mode) (a : ascii) : option (glob_mode * list glob) :=
  match m with
  | MTop =>
      if Ascii.eqb a "*" then Some (MTop, [Star])
      else if Ascii.eqb a "?" then Some (MTop, [Any])
      else if Ascii.eqb a "[" then Some (MOpen, [])
      else if Ascii.eqb a "\" then Some (MEsc, [])
      else Some (MTop, [Lit a])
  | MEsc => Some (MTop, [Lit a])
  | MOpen => if Ascii.eqb a "^" then Some (MRange true [], []) else range_step false [] a
  | MRange neg rs => range_step neg rs a
  | MRangeEsc neg rs => Some (MLo neg rs a, [])
  | MLo neg rs lo =>
      if Ascii.eqb a "-" then Some (MHi neg rs lo, []) else range_step neg ((lo, lo) :: rs) a
  | MHi neg rs lo =>
      if Ascii.eqb a "]" || Ascii.eqb a "-" then None
      else if Ascii.eqb a "\" then Some (MHiEsc neg rs lo, [])
      else Some (MRange neg ((lo, a) :: rs), [])
  | MHiEsc neg rs lo => Some (MRange neg ((lo, a) :: rs), [])
  end.

Fixpoint glob_parse (m : glob_mode) (p : string) : option (list glob) :=
  match p with
  | EmptyString => match m with MTop => Some [] | _ => None end
  | String a p' => '(m', out) ← glob_step m a; gs ← glob_parse m' p'; Some (out ++ gs)%list
  end.

Definition ascii_le (a b : ascii) : bool := (nat_of_ascii a <=? nat_of_ascii b)%nat.
Definition in_class (neg : bool) (rs : list (ascii * ascii)) (a : ascii) : bool :=
  xorb neg (existsb (λ '(lo, hi), ascii_le lo a && ascii_le a hi) rs).

Fixpoint glob_match (gs : list glob) (s : string) : bool :=
  match gs with
  | [] => String.eqb s ""
  | Star :: gs' =>
      (fix star s :=
         glob_match gs' s ||
         match s with
         | EmptyString => false
         | String a s' => negb (Ascii.eqb a slash) && star s'
         end) s
  | Any :: gs' =>
      match s with String a s' => negb (Ascii.eqb a slash) && glob_match gs' s' | _ => false end
  | Lit c :: gs' =>
      match s with String a s' => Ascii.eqb a c && glob_match gs' s' | _ => false end
  | Class neg rs :: gs' =>
      match s with String a s' => in_class neg rs a && glob_match gs' s' | _ => false end
  end.

(** The boolean of [path.Match]; a malformed pattern gives an error and [false]. *)
Definition Match (pattern name : string) : bool :=
  match glob_parse MTop pattern with Some gs => glob_match gs name | None => false end.

Example Match_ex :
  map (λ '(p, s), Match p s)
    [("eth*", "eth0"); ("*", "a/b"); ("e?h[0-9]", "eth7"); ("[^a]*", "b"); ("[a", "a"); ("\*", "*");
     ("*p*q", "xpxq"); ("[]a]", "a"); ("[\]]", "]")]
  = [true; false; true; true; false; true; true; false; true].
Proof. reflexivity. Qed.

Lemma string_app_nil (t : string) : "" ++ t = t.
Proof. reflexivity. Qed.
Lemma string_app_cons (a : ascii) (u t : string) : String a u ++ t = String a (u ++ t).
Proof. reflexivity. Qed.

Lemma string_app_assoc (s t u : string) : (s ++ t) ++ u = s ++ (t ++ u).
Proof.
  induction s as [|c s IH]; [done|]. by rewrite !string_app_cons, IH.
Qed.

Lemma string_app_inv_l (x s t : string) : x ++ s = x ++ t → s = t.
Proof.
  induction x as [|a x IH]; [by rewrite !string_app_nil|].
  rewrite !string_app_cons. intros [= ?]. auto.
Qed.

Lemma string_app_inv_r (s t x : string) : s ++ x = t ++ x → s = t.
Proof. intros Hs. by rewrite <- (TrimSuffix_app s x), Hs, TrimSuffix_app. Qed.

(** Strings that end in different bytes differ. *)
Lemma string_app_last (s t : string) a b : s ++ String a "" = t ++ String b "" → a = b.
Proof.
  revert t. induction s as [|c s IH]; intros [|d t] E; rewrite ?string_app_cons in E.
  - by injection E.
  - injection E as _ E. by destruct t.
  - injection E as _ E. by destruct s.
  - injection E as _ E. by apply (IH t).
Qed.

(** A leading star matches after any run of bytes that holds no slash. *)
Lemma glob_match_star gs s :
  glob_match (Star :: gs) s = true ↔
  ∃ u t, s = u ++ t ∧ (∀ a, In a (list_ascii_of_string u) → a ≠ slash) ∧ glob_match gs t = true.
Proof.
  induction s as [|a s IH].
  - simpl. rewrite orb_false_r. split.
    + intros ?. exists "", "". done.
    + intros (u&t&Hs&_&?). destruct u; [|done]. rewrite string_app_nil in Hs. by subst.
  - change (glob_match (Star :: gs) (String a s)) with
      (glob_match gs (String a s) || (negb (Ascii.eqb a slash) && glob_match (Star :: gs) s)).
    rewrite orb_true_iff, andb_true_iff, IH. split.
    + intros [?|[Ha (u&t&->&Hu&?)]].
      * exists "", (String a s). done.
      * exists (String a u), t. split_and!; [done| |done].
        intros b [<-|Hb]; [|by apply Hu]. intros E. by rewrite E, Ascii.eqb_refl in Ha.
    + intros (u&t&Hs&Hu&?). destruct u as [|b u]; [rewrite string_app_nil in Hs; subst; by left|].
      rewrite string_app_cons in Hs. injection Hs as -> ->. right. split; [|exists u, t; split_and!; [done| |done]].
      * apply negb_true_iff. apply Ascii.eqb_neq. apply Hu. by left.
      * intros c Hc. apply Hu. by right.
Qed.

(** A pattern without special bytes matches itself only. *)
Definition plain (a : ascii) : bool :=
  negb (existsb (Ascii.eqb a) ["*"; "?"; "["; "\"]%char).

Lemma glob_parse_plain p :
  forallb plain (list_ascii_of_string p) = true →
  glob_parse MTop p = Some (map Lit (list_ascii_of_string p)).
Proof.
  induction p as [|a p IH]; [done|]. simpl. rewrite andb_true_iff. intros [Ha Hp].
  unfold plain in Ha. simpl in Ha. unfold glob_step.
  destruct (Ascii.eqb a "*"), (Ascii.eqb a "?"), (Ascii.eqb a "["), (Ascii.eqb a "\"); try done.
  simpl. by rewrite IH.
Qed.

Lemma glob_match_lits p s :
  glob_match (map Lit (list_ascii_of_string p)) s = String.eqb s p.
Proof.
  revert s. induction p as [|c p IH]; intros s; [done|]. simpl.
  destruct s as [|a s]; [done|]. rewrite IH. simpl. by destruct (Ascii.eqb a c).
Qed.

Lemma Match_plain p s :
  forallb plain (list_ascii_of_string p) = true → Match p s = String.eqb s p.
Proof. intros Hp. unfold Match. by rewrite glob_parse_plain, glob_match_lits. Qed.

(** ** [strconv.Unquote] *)

Section quote.
Local Open Scope Z_scope.

Definition hex_val (a : ascii) : option nat :=
  let n := nat_of_ascii a in
  if (48 <=? n)%nat && (n <=? 57)%nat then Some (n - 48)%nat
  else if (97 <=? n)%nat && (n <=? 102)%nat then Some (n - 87)%nat
  else if (65 <=? n)%nat && (n <=? 70)%nat then Some (n - 55)%nat
  else None.

Definition simple_escape (a : ascii) : option ascii :=
  ascii_of_nat <$>
    (if Ascii.eqb a "a" then Some 7 else if Ascii.eqb a "b" then Some 8
     else if Ascii.eqb a "f" then Some 12 else if Ascii.eqb a "n" then Some 10
     else if Ascii.eqb a "r" then Some 13 else if Ascii.eqb a "t" then Some 9
     else if Ascii.eqb a "v" then Some 11 else if Ascii.eqb a "\" then Some 92
     else if Nat.eqb (nat_of_ascii a) 34 then Some 34 else None)%nat.

(** The hexadecimal value of [n] digits, and the text after them. *)
Fixpoint hex_digits (n : nat) (s : string) (acc : Z) : option (Z * string) :=
  match n with
  | O => Some (acc, s)
  | S n =>
      match s with
      | String a s' => d ← hex_val a; hex_digits n s' (acc * 16 + Z.of_nat d)
      | EmptyString => None
      end
  end.

Definition byte_str (v : Z) : string := String (ascii_of_nat (Z.to_nat v)) "".

(** The UTF-8 encoding of a code point; [None] when it is not one. *)
Definition utf8 (v : Z) : option string :=
  if v <? 128 then Some (byte_str v)
  else if v <? 2048 then Some (byte_str (192 + v / 64) ++ byte_str (128 + v `mod` 64))%string
  else if (55296 <=? v) && (v <? 57344) then None
  else if v <? 65536 then
    Some (byte_str (224 + v / 4096) ++ byte_str (128 + v / 64 `mod` 64)
          ++ byte_str (128 + v `mod` 64))%string
  else if v <? 1114112 then
    Some (byte_str (240 + v / 262144) ++ byte_str (128 + v / 4096 `mod` 64)
          ++ byte_str (128 + v / 64 `mod` 64) ++ byte_str (128 + v `mod` 64))%string
  else None.

Definition octal_val (a : ascii) : option Z :=
  let n := Z.of_nat (nat_of_ascii a) in
  if (48 <=? n) && (n <=? 55) then Some (n - 48) else None.

(** What stands after a backslash: the bytes it means and the text after it. *)
Definition escape (s : string) : option (string * string) :=
  match s with
  | EmptyString => None
  | String c t =>
      if Ascii.eqb c "x" then '(v, r) ← hex_digits 2 t 0; Some (byte_str v, r)
      else if Ascii.eqb c "u" then '(v, r) ← hex_digits 4 t 0; b ← utf8 v; Some (b, r)
      else if Ascii.eqb c "U" then '(v, r) ← hex_digits 8 t 0; b ← utf8 v; Some (b, r)
      else match octal_val c with
           | Some a =>
               match t with
               | String c1 (String c2 r) =>
                   b ← octal_val c1; c ← octal_val c2;
                   let v := a * 64 + b * 8 + c in
                   if 255 <? v then None else Some (byte_str v, r)
               | _ => None
               end
           | None => e ← simple_escape c; Some (String e "", t)
           end
  end.

(** The body of an interpreted string literal ([strconv.Unquote] between double quotes); [None]
    is a syntax error.  The fuel is the length of the text. *)
Fixpoint unquote_fuel (fuel : nat) (s : string) : option string :=
  match fuel, s with
  | S fuel, String a s' =>
      if Nat.eqb (nat_of_ascii a) 34 || Nat.eqb (nat_of_ascii a) 10 then None
      else if Ascii.eqb a "\" then
        '(b, t) ← escape s'; r ← unquote_fuel fuel t; Some (b ++ r)%string
      else r ← unquote_fuel fuel s'; Some (String a r)
  | _, _ => Some ""%string
  end.
Definition unquote (s : string) : option string := unquote_fuel (String.length s) s.
End quote.
