(* ===== verification/GoFmt.v ===== *)
(** * Number formatting ([fmt], [strconv])

    The verbs the program formats numbers with: [%d] and [%v] on integers,
    [%.2f] and [%g] on [float64].  A finite float is [m * 2^e] exactly, so the
    decimal digits are computed on integers. *)

From Stdlib Require Import Ascii DecimalString.
From S2P Require Import Prelude GoFloat.

(** [%d] *)
Definition print_Z (z : Z) : string := NilZero.string_of_int (Z.to_int z).

(** [n / d] rounded to the nearest integer, halves to even. *)
Definition div_half_even (n d : Z) : Z :=
  let q := (n / d)%Z in
  let r := (n mod d)%Z in
  match (2 * r ?= d)%Z with
  | Lt => q
  | Gt => (q + 1)%Z
  | Eq => if Z.even q then q else (q + 1)%Z
  end.

Definition sign_str (s : bool) : string := if s then "-" else "".

(** [fmt.Sprintf("%.2f", x)] *)
Definition fmt_2f (x : f64) : string :=
  match x with
  | S754_nan => "NaN"
  | S754_infinity s => if s then "-Inf" else "+Inf"
  | S754_zero s => sign_str s +:+ "0.00"
  | S754_finite s m e =>
      let q := if (0 <=? e)%Z then (Zpos m * 100 * 2 ^ e)%Z
               else div_half_even (Zpos m * 100) (2 ^ (- e)) in
      let c := (q mod 100)%Z in
      sign_str s +:+ print_Z (q / 100) +:+ "." +:+ (if (c <? 10)%Z then "0" else "") +:+ print_Z c
  end%string.

(** ** [%g]: the shortest digits that read back as the same number *)

Section shortest.
Local Open Scope Z_scope.

(** The numbers that round to [m * 2^e] lie between these bounds (over [2^(e-2)]), which
    belong to them when [m] is even.  Below a power of two the spacing is half. *)
Definition lower4 (m e : Z) : Z := if (m =? 2 ^ 52) && (-1074 <? e) then 4 * m - 1 else 4 * m - 2.
Definition upper4 (m : Z) : Z := 4 * m + 2.

(** Compare [d * 10^k] with [c * 2^f]. *)
Definition cmp_dec (d k c f : Z) : comparison :=
  let l := d * 10 ^ Z.max 0 k * 2 ^ Z.max 0 (- f) in
  let r := c * 2 ^ Z.max 0 f * 10 ^ Z.max 0 (- k) in
  (l ?= r).

Definition inside (m e d k : Z) : bool :=
  let even := Z.even m in
  match cmp_dec d k (lower4 m e) (e - 2), cmp_dec d k (upper4 m) (e - 2) with
  | Gt, Lt => true
  | Eq, Lt | Gt, Eq => even
  | _, _ => false
  end.

(** [m * 2^e] in units of [10^k], rounded. *)
Definition scaled (m e k : Z) : Z :=
  div_half_even (m * 2 ^ Z.max 0 e * 10 ^ Z.max 0 (- k)) (2 ^ Z.max 0 (- e) * 10 ^ Z.max 0 k).

(** The coarsest decimal unit, from [10^k] down, with a multiple that reads back. *)
Fixpoint shortest (fuel : nat) (m e k : Z) : Z * Z :=
  match fuel with
  | O => (scaled m e k, k)
  | S fuel => if inside m e (scaled m e k) k then (scaled m e k, k) else shortest fuel m e (k - 1)
  end.

(** The decimal exponent of the leading digit, from above. *)
Definition top_exp (m e : Z) : Z :=
  let b := Z.log2 m + e in (if 0 <=? b then b * 31 / 100 else b * 30 / 100) + 2.
End shortest.

Fixpoint zeros (n : nat) : string := match n with O => "" | S n => String "0"%char (zeros n) end.

(** Digits [ds] with the decimal point after [n] of them. *)
Fixpoint point_after (n : nat) (ds : string) : string :=
  match n, ds with
  | O, EmptyString => ""
  | O, _ => String "."%char ds
  | S n, EmptyString => String "0"%char (point_after n "")
  | S n, String c ds => String c (point_after n ds)
  end.

(** The layout of [%g]: exponent form when the exponent is below -4 or at least 6. *)
Definition layout_g (ds : string) (dp : Z) : string :=
  let x := (dp - 1)%Z in
  if (x <? -4)%Z || (6 <=? x)%Z then
    let ex := Z.abs x in
    point_after 1 ds +:+ "e" +:+ (if (x <? 0)%Z then "-" else "+") +:+
    (if (ex <? 10)%Z then "0" else "") +:+ print_Z ex
  else if (dp <=? 0)%Z then "0." +:+ zeros (Z.to_nat (- dp)) +:+ ds
  else point_after (Z.to_nat dp) ds.

(** [fmt.Sprintf("%g", x)]; 40 steps reach 17 significant digits from the first unit. *)
Definition fmt_g (x : f64) : string :=
  match x with
  | S754_nan => "NaN"
  | S754_infinity s => if s then "-Inf" else "+Inf"
  | S754_zero s => sign_str s +:+ "0"
  | S754_finite s m e =>
      let '(d, k) := shortest 40 (Zpos m) e (top_exp (Zpos m) e) in
      let ds := print_Z d in
      sign_str s +:+ layout_g ds (Z.of_nat (String.length ds) + k)
  end%string.

Example fmt_ex :
  fmt_2f (f64_div (f64_of_Z 1) (f64_of_Z 3)) = "0.33" ∧ fmt_2f (f64_of_Z 85) = "85.00" ∧
  fmt_2f (f64_div (f64_of_Z 1) (f64_of_Z 8)) = "0.12" ∧
  fmt_2f (f64_div (f64_of_Z (-5)) (f64_of_Z 2)) = "-2.50" ∧
  fmt_g (f64_of_Z 85) = "85" ∧ fmt_g (f64_div (f64_of_Z 1) (f64_of_Z 10)) = "0.1" ∧
  fmt_g (f64_div (f64_of_Z 1) (f64_of_Z 3)) = "0.3333333333333333" ∧
  fmt_g (f64_of_Z 1500000) = "1.5e+06" ∧ fmt_g (f64_of_Z 100) = "100" ∧
  fmt_g (f64_div (f64_of_Z 3) (f64_of_Z 100000)) = "3e-05".
Proof. vm_compute. done. Qed.
