(* ===== verification/ExpiryMap.v ===== *)
(** * Expiring maps ([internal/hub/expirymap/expirymap.go])

    The hub keeps universal tokens and SMART fetch states in a map whose
    entries expire.  The model keeps the store of the source (a third-party
    key/value store behind [KVStore]) and takes the clock reading of each
    [time.Now()] call as an argument.  The abstract contract is a finite map
    that, at every instant, shows the entries that have not expired; every
    operation is proved to refine it. *)

From S2P Require Import Prelude.

Module ExpiryMap.
Section expirymap.
Context {M : Type → Type} `{KVStoreLaws M} {RO : RangeOrder string}.
Context {T : Type} `{EqDecision T}.
Local Open Scope Z_scope.

(** ** Data *)

Record val := { value : T; expires : Z }.

Record ExpiryMap := {
  store : M val;
  stopped : bool;   (* [stopChan] closed, once, through [stopOnce] *)
}.

Definition with_store (m : ExpiryMap) (s : M val) : ExpiryMap :=
  {| store := s; stopped := stopped m |}.

(** [t.Before(now)] *)
Definition expired (now : Z) (v : val) : bool := expires v <? now.

(** ** Operations *)

Definition New : ExpiryMap := {| store := st_new; stopped := false |}.

Definition Set_ (now : Z) (m : ExpiryMap) (key : string) (v : T) (ttl : Z) : ExpiryMap :=
  with_store m (st_set (store m) key {| value := v; expires := now + ttl |}).

(** Lookup with lazy removal of an expired entry. *)
Definition GetOk (now : Z) (m : ExpiryMap) (key : string) : option T * ExpiryMap :=
  match st_getOk (store m) key with
  | None => (None, m)
  | Some v =>
      if expired now v then (None, with_store m (st_remove (store m) key))
      else (Some (value v), m)
  end.

(** The loop of [GetByValue] over the snapshot [GetAll()]: it stops at the
    first entry with the value, expired or not. *)
Fixpoint GetByValue_loop (now : Z) (m : ExpiryMap) (x : T) (l : list (string * val))
    : option (string * T) * ExpiryMap :=
  match l with
  | [] => (None, m)
  | (key, v) :: l =>
      if decide (value v = x) then
        if expired now v then (None, with_store m (st_remove (store m) key))
        else (Some (key, value v), m)
      else GetByValue_loop now m x l
  end.

Definition GetByValue (now : Z) (m : ExpiryMap) (x : T) : option (string * T) * ExpiryMap :=
  GetByValue_loop now m x (range_list (st_getAll (store m))).

Definition Remove (m : ExpiryMap) (key : string) : ExpiryMap :=
  with_store m (st_remove (store m) key).

Fixpoint RemovebyValue_loop (m : ExpiryMap) (x : T) (l : list (string * val))
    : option T * ExpiryMap :=
  match l with
  | [] => (None, m)
  | (key, v) :: l =>
      if decide (value v = x) then
        (Some (value v), with_store m (st_remove (store m) key))
      else RemovebyValue_loop m x l
  end.

Definition RemovebyValue (m : ExpiryMap) (x : T) : option T * ExpiryMap :=
  RemovebyValue_loop m x (range_list (st_getAll (store m))).

Definition cleanup (now : Z) (m : ExpiryMap) : ExpiryMap :=
  fold_left
    (λ m '(key, v), if expired now v then with_store m (st_remove (store m) key) else m)
    (range_list (st_getAll (store m))) m.

Definition UpdateExpiration (now : Z) (m : ExpiryMap) (key : string) (ttl : Z) : ExpiryMap :=
  match st_getOk (store m) key with
  | Some v =>
      with_store m (st_set (store m) key {| value := value v; expires := now + ttl |})
  | None => m
  end.

Definition StopCleaner (m : ExpiryMap) : ExpiryMap :=
  {| store := store m; stopped := true |}.

(** [startCleaner]: each tick of the interval cleans up until the stop
    channel is closed; [select] may take either branch when both are ready. *)
Inductive cleaner_step : ExpiryMap → ExpiryMap → Prop :=
| cleaner_tick now m : cleaner_step m (cleanup now m).

Inductive cleaner_done : ExpiryMap → Prop :=
| cleaner_stop m : stopped m = true → cleaner_done m.

(** ** Abstract contract: the entries alive at an instant *)

Definition entries (m : ExpiryMap) : gmap string val := st_getAll (store m).

Definition live (now : Z) (m : ExpiryMap) : gmap string T :=
  omap (λ v, if expired now v then None else Some (value v)) (entries m).

(** Two maps no reader can tell apart at or after [now]. *)
Definition same_from (now : Z) (m m' : ExpiryMap) : Prop :=
  ∀ t, now ≤ t → live t m = live t m'.

#[export] Instance same_from_equiv now : Equivalence (same_from now).
Proof.
  split.
  - intros m t _. done.
  - intros m m' Hm t Ht. by rewrite Hm.
  - intros m1 m2 m3 H12 H23 t Ht. by rewrite H12, H23.
Qed.

(** ** Lemmas *)

Lemma live_lookup now m k :
  live now m !! k =
  match entries m !! k with
  | Some v => if expired now v then None else Some (value v)
  | None => None
  end.
Proof. unfold live. rewrite lookup_omap. by destruct (entries m !! k). Qed.

Lemma expired_mono t t' v : t ≤ t' → expired t v = true → expired t' v = true.
Proof. unfold expired. intros ??. zbool. apply Z.ltb_lt. lia. Qed.

(** Dropping an entry that has expired is invisible from then on. *)
Lemma remove_expired_same now m k v :
  entries m !! k = Some v → expired now v = true →
  same_from now m (with_store m (st_remove (store m) k)).
Proof.
  intros Hk Hv t Ht. apply map_eq. intros k'. rewrite !live_lookup.
  unfold entries in *. simpl. rewrite st_getAll_remove.
  destruct (decide (k = k')) as [->|Hne].
  - rewrite lookup_delete_eq, Hk. by rewrite (expired_mono _ _ _ Ht Hv).
  - by rewrite lookup_delete_ne.
Qed.

Lemma cleanup_fold_entries now l m k :
  entries (fold_left (λ m '(key, v),
    if expired now v then with_store m (st_remove (store m) key) else m) l m) !! k =
  if existsb (λ '(key, v), bool_decide (key = k) && expired now v) l
  then None else entries m !! k.
Proof.
  revert m. induction l as [|[k' v'] l IH]; intros m; simpl; [done|].
  rewrite IH. destruct (expired now v') eqn:Hv.
  - unfold entries. simpl. rewrite st_getAll_remove. case_bool_decide; simpl; subst.
    + rewrite lookup_delete_eq. by case_match.
    + by rewrite lookup_delete_ne.
  - by rewrite andb_false_r.
Qed.

(** [cleanup] keeps exactly the entries that have not expired. *)
Lemma cleanup_entries now m :
  entries (cleanup now m) = filter (λ kv, expired now kv.2 = false) (entries m).
Proof.
  apply map_eq. intros k. unfold cleanup. rewrite cleanup_fold_entries.
  rewrite map_lookup_filter.
  destruct (existsb _ _) eqn:Hex.
  - apply existsb_exists in Hex as ([k' v]&Hin&Hkv). zbool.
    apply bool_decide_eq_true in H1 as ->.
    apply list_elem_of_In, elem_of_range_list in Hin. unfold entries. rewrite Hin. simpl.
    rewrite option_guard_False; [done|]. simpl. congruence.
  - unfold entries. destruct (st_getAll (store m) !! k) as [v|] eqn:Hk; simpl; [|done].
    rewrite option_guard_True; [done|]. simpl.
    destruct (expired now v) eqn:Hv; [|done].
    apply not_true_iff_false in Hex. exfalso. apply Hex. apply existsb_exists.
    exists (k, v). rewrite <- list_elem_of_In, elem_of_range_list.
    split; [done|]. by rewrite bool_decide_eq_true_2, Hv.
Qed.

Lemma GetByValue_loop_sound now m x l k y :
  (GetByValue_loop now m x l).1 = Some (k, y) →
  y = x ∧ ∃ v, (k, v) ∈ l ∧ value v = x ∧ expired now v = false.
Proof.
  induction l as [|[k' v'] l IH]; simpl; [done|].
  destruct (decide (value v' = x)) as [Hx|Hx].
  - destruct (expired now v') eqn:Hv; simpl; intros; simplify_eq.
    split; [done|]. exists v'. by rewrite elem_of_cons; eauto.
  - intros [-> (v&?&?)]%IH. split; [done|]. exists v.
    split; [apply elem_of_cons; by right|done].
Qed.

Lemma GetByValue_loop_complete now m x l :
  (∃ k v, (k, v) ∈ l ∧ value v = x) →
  (∀ k v, (k, v) ∈ l → value v = x → expired now v = false) →
  ∃ k, (GetByValue_loop now m x l).1 = Some (k, x).
Proof.
  induction l as [|[k' v'] l IH]; intros (k&v&Hin&Hv) Hfresh.
  { by apply elem_of_nil in Hin. }
  simpl. destruct (decide (value v' = x)) as [Hx|Hx].
  - rewrite (Hfresh k' v'), Hx; [by exists k'|apply elem_of_cons; by left|done].
  - apply elem_of_cons in Hin as [?|Hin]; [by simplify_eq|].
    apply IH; [by eauto|]. intros k0 v0 Hin0. apply (Hfresh k0). apply elem_of_cons; by right.
Qed.

Lemma GetByValue_loop_same now m x l :
  (∀ k v, (k, v) ∈ l → entries m !! k = Some v) →
  same_from now m (GetByValue_loop now m x l).2.
Proof.
  induction l as [|[k' v'] l IH]; intros Hl; simpl; [reflexivity|].
  destruct (decide (value v' = x)).
  - destruct (expired now v') eqn:Hv; simpl; [|reflexivity].
    eapply remove_expired_same; [|done]. apply Hl, elem_of_cons. by left.
  - apply IH. intros k v Hin. apply Hl, elem_of_cons. by right.
Qed.

(** ** Properties *)

(** The value read is the live one; shared with the users of the map. *)
Lemma GetOk_value now m k : (GetOk now m k).1 = live now m !! k.
Proof.
  rewrite live_lookup. unfold GetOk. store_simpl. unfold entries.
  destruct (st_getAll (store m) !! k) as [v|]; [|done]. by destruct (expired now v).
Qed.

(** A lookup changes nothing for a reader of the same instant, and a removal only its key. *)
Lemma GetOk_live now m k : live now (GetOk now m k).2 = live now m.
Proof.
  unfold GetOk. store_simpl.
  destruct (st_getAll (store m) !! k) as [v|] eqn:Hk; [|done].
  destruct (expired now v) eqn:Hv; [|done]. symmetry.
  by apply (remove_expired_same now m k v Hk Hv).
Qed.

Lemma live_Remove now m k : live now (Remove m k) = delete k (live now m).
Proof.
  apply map_eq. intros k'. rewrite lookup_delete, !live_lookup. unfold entries, Remove. simpl.
  rewrite st_getAll_remove, lookup_delete. by case_decide.
Qed.

(** [GetOk] returns exactly the value alive at the time of the call, and its lazy
    removal is invisible to every later reader. *)
Theorem GetOk_refines now m k :
  (GetOk now m k).1 = live now m !! k ∧ same_from now m (GetOk now m k).2.
Proof.
  split; [apply GetOk_value|]. unfold GetOk. store_simpl. unfold entries.
  destruct (st_getAll (store m) !! k) as [v|] eqn:Hk; [|reflexivity].
  destruct (expired now v) eqn:Hv; [|reflexivity]. by eapply remove_expired_same.
Qed.

(** [Set] makes the value visible under its key until its deadline (inclusive), not
    after, and leaves every other key alone at every instant. *)
Theorem Set_refines now m k v ttl t :
  live t (Set_ now m k v ttl) =
  if t <=? now + ttl then <[k := v]> (live t m) else delete k (live t m).
Proof.
  apply map_eq. intros k'.
  assert (live t (Set_ now m k v ttl) !! k' =
    if decide (k = k') then (if t <=? now + ttl then Some v else None)
    else live t m !! k') as ->.
  { rewrite !live_lookup. unfold entries, Set_. simpl. rewrite st_getAll_set.
    case_decide; subst.
    - rewrite lookup_insert_eq. unfold expired. simpl.
      destruct (now + ttl <? t) eqn:?, (t <=? now + ttl) eqn:?; zbool; done || lia.
    - by rewrite lookup_insert_ne. }
  destruct (t <=? now + ttl); [rewrite lookup_insert|rewrite lookup_delete]; done.
Qed.

(** Background [cleanup] never changes what a later reader sees, and leaves no
    expired entry behind. *)
Theorem cleanup_refines now m :
  same_from now m (cleanup now m) ∧
  map_Forall (λ _ v, expired now v = false) (entries (cleanup now m)).
Proof.
  rewrite cleanup_entries. split.
  - intros t Ht. apply map_eq. intros k. rewrite !live_lookup, cleanup_entries.
    rewrite map_lookup_filter. destruct (entries m !! k) as [v|]; simpl; [|done].
    destruct (expired now v) eqn:Hv.
    + rewrite option_guard_False by done. by rewrite (expired_mono _ _ _ Ht Hv).
    + by rewrite option_guard_True.
  - intros k v. rewrite map_lookup_filter_Some. naive_solver.
Qed.

(** A successful [GetByValue] names a live entry with the value, and a live entry is
    always found when no entry with that value has expired. *)
Theorem GetByValue_spec now m x :
  (∀ k y, (GetByValue now m x).1 = Some (k, y) → y = x ∧ live now m !! k = Some x) ∧
  ((∃ k, live now m !! k = Some x) →
   (∀ k v, entries m !! k = Some v → value v = x → expired now v = false) →
   ∃ k, (GetByValue now m x).1 = Some (k, x)) ∧
  same_from now m (GetByValue now m x).2.
Proof.
  unfold GetByValue. split_and!.
  - intros k y (->&v&Hin&Hv&He)%GetByValue_loop_sound. split; [done|].
    apply elem_of_range_list in Hin. rewrite live_lookup. unfold entries.
    by rewrite Hin, He, Hv.
  - intros [k Hk] Hfresh. rewrite live_lookup in Hk. unfold entries in *.
    destruct (st_getAll (store m) !! k) as [v|] eqn:Hkv; [|done].
    destruct (expired now v) eqn:He; simplify_eq.
    apply GetByValue_loop_complete.
    + exists k, v. by rewrite elem_of_range_list.
    + intros k0 v0 Hin%elem_of_range_list. eauto.
  - apply GetByValue_loop_same. intros k v. unfold entries. apply elem_of_range_list.
Qed.

(** [UpdateExpiration] moves the deadline of a stored key and creates none. *)
Theorem UpdateExpiration_entries now m k ttl :
  entries (UpdateExpiration now m k ttl) =
  alter (λ v, {| value := value v; expires := now + ttl |}) k (entries m).
Proof.
  apply map_eq. intros k'. unfold UpdateExpiration, entries. store_simpl.
  rewrite lookup_alter.
  destruct (st_getAll (store m) !! k) as [v|] eqn:Hk; simpl; store_simpl; case_decide;
    subst; rewrite ?lookup_insert_eq, ?Hk; try done.
  by rewrite lookup_insert_ne.
Qed.

Lemma RemovebyValue_loop_spec m x l :
  (∀ k v, (k, v) ∈ l → entries m !! k = Some v) →
  match (RemovebyValue_loop m x l).1 with
  | Some y => y = x ∧ ∃ k v, (k, v) ∈ l ∧ value v = x ∧
              entries (RemovebyValue_loop m x l).2 = delete k (entries m)
  | None => (∀ k v, (k, v) ∈ l → value v ≠ x) ∧ (RemovebyValue_loop m x l).2 = m
  end.
Proof.
  induction l as [|[k' v'] l IH]; intros Hl; simpl.
  { split; [|done]. intros k v Hin. by apply elem_of_nil in Hin. }
  destruct (decide (value v' = x)) as [Hx|Hx]; simpl.
  - split; [done|]. exists k', v'. rewrite elem_of_cons. unfold entries. simpl.
    rewrite st_getAll_remove. auto.
  - assert (∀ k v, (k, v) ∈ l → entries m !! k = Some v) as Hl'.
    { intros k v Hin. apply Hl, elem_of_cons. by right. }
    specialize (IH Hl'). destruct (RemovebyValue_loop m x l).1.
    + destruct IH as (?&k&v&?&?&?). split; [done|]. exists k, v.
      rewrite elem_of_cons. auto.
    + destruct IH as [Hn ?]. split; [|done]. intros k v [?|Hin]%elem_of_cons;
        [by simplify_eq|]. by eapply Hn.
Qed.

(** [RemovebyValue] drops exactly one entry holding the value, expired or not, and
    reports failure only when there is none. *)
Lemma RemovebyValue_spec m x :
  match (RemovebyValue m x).1 with
  | Some y => y = x ∧ ∃ k v, entries m !! k = Some v ∧ value v = x ∧
              entries (RemovebyValue m x).2 = delete k (entries m)
  | None => (∀ k v, entries m !! k = Some v → value v ≠ x) ∧ (RemovebyValue m x).2 = m
  end.
Proof.
  unfold RemovebyValue.
  pose proof (RemovebyValue_loop_spec m x (range_list (st_getAll (store m)))) as Hs.
  destruct (RemovebyValue_loop m x _).1; setoid_rewrite elem_of_range_list in Hs;
    by apply Hs.
Qed.
End expirymap.

(** An expired entry with the same value hides a live one: [GetByValue] stops at it. *)
Example GetByValue_hides_live :
  let m := Set_ 0 (Set_ 0 (New (M := gmap string)) "a" 7%nat 1) "b" 7%nat 100 in
  live 50 m !! "b" = Some 7%nat ∧ (GetByValue 50 m 7%nat).1 = None.
Proof. vm_compute. done. Qed.

(** ** Witnesses *)

Definition two : ExpiryMap (T := nat) (M := gmap string) :=
  Set_ 0 (Set_ 0 New "a" 7%nat 1) "b" 8%nat 100.

Lemma GetOk_refines_witness :
  (GetOk 50 two "b").1 = Some 8%nat ∧ (GetOk 50 two "a").1 = None.
Proof.
  split.
  - etransitivity; [exact (proj1 (GetOk_refines 50 two "b"))|reflexivity].
  - etransitivity; [exact (proj1 (GetOk_refines 50 two "a"))|reflexivity].
Defined.

Lemma Set_refines_witness : live 10 (Set_ 5 two "c" 9%nat 5) = <["c" := 9%nat]> (live 10 two).
Proof. exact (Set_refines 5 two "c" 9%nat 5 10). Defined.

Lemma cleanup_refines_witness :
  map_Forall (λ _ v, expired 50 v = false) (entries (cleanup 50 two)).
Proof. exact (proj2 (cleanup_refines 50 two)). Defined.

Lemma GetByValue_spec_witness : live 50 two !! "b" = Some 8%nat.
Proof. by apply (proj1 (GetByValue_spec 50 two 8%nat) "b" 8%nat). Defined.
End ExpiryMap.
