(* ===== verification/DeltaTracker.v ===== *)
(** * Delta tracker ([agent/deltatracker/deltatracker.go])

    A generic tracker of differences between two collection cycles, used by
    the agent for network and disk counters.  [Numeric] is the type
    constraint of the source; its instances are Go's [uint64] (with
    wrap-around subtraction) and [float64]. *)

From S2P Require Import Prelude GoFloat.

(** The operations the tracker uses of a numeric type. *)
Class Numeric (V : Type) := {
  num_zero : V;
  num_sub : V → V → V;
}.

Module DeltaTracker.
Section deltatracker.
Context {K : Type} `{Countable K} {RO : RangeOrder K} {V : Type} `{Numeric V}.

Record DeltaTracker := {
  current : gmap K V;
  previous : gmap K V;
}.

Definition NewDeltaTracker : DeltaTracker := {| current := ∅; previous := ∅ |}.

Definition Set_ (t : DeltaTracker) (id : K) (value : V) : DeltaTracker :=
  {| current := <[id := value]> (current t); previous := previous t |}.

Definition Deltas (t : DeltaTracker) : gmap K V :=
  fold_left
    (λ deltas '(id, currentVal),
       match previous t !! id with
       | Some previousVal => <[id := num_sub currentVal previousVal]> deltas
       | None => <[id := num_zero]> deltas
       end)
    (range_list (current t)) ∅.

Definition Previous (t : DeltaTracker) (id : K) : option V := previous t !! id.

Definition Delta (t : DeltaTracker) (id : K) : V :=
  match current t !! id with
  | None => num_zero
  | Some currentVal =>
      match previous t !! id with
      | None => num_zero
      | Some previousVal => num_sub currentVal previousVal
      end
  end.

Definition Cycle (t : DeltaTracker) : DeltaTracker :=
  {| current := ∅; previous := current t |}.

Lemma Deltas_fold_lookup t (l : list (K * V)) (acc : gmap K V) k :
  NoDup l.*1 →
  fold_left
    (λ deltas '(id, currentVal),
       match previous t !! id with
       | Some previousVal => <[id := num_sub currentVal previousVal]> deltas
       | None => <[id := num_zero]> deltas
       end) l acc !! k =
  match list_to_map (M := gmap K V) l !! k with
  | Some v => Some (match previous t !! k with Some p => num_sub v p | None => num_zero end)
  | None => acc !! k
  end.
Proof.
  revert acc. induction l as [|[k' v'] l IH]; intros acc Hnd; simpl in *.
  { by rewrite lookup_empty. }
  apply NoDup_cons in Hnd as [Hk' Hnd]. rewrite IH by done.
  destruct (decide (k = k')) as [->|Hne].
  - rewrite (not_elem_of_list_to_map_1 l k') by done. rewrite lookup_insert_eq.
    destruct (previous t !! k'); by rewrite lookup_insert_eq.
  - rewrite lookup_insert_ne by done.
    by destruct (previous t !! k'); rewrite lookup_insert_ne.
Qed.

(** [Deltas] has exactly the keys recorded in the current cycle, each with the
    value [Delta] returns for it, whatever order the map is walked in. *)
Theorem Deltas_agree t k :
  Deltas t !! k = match current t !! k with Some _ => Some (Delta t k) | None => None end.
Proof.
  unfold Deltas. rewrite Deltas_fold_lookup by apply NoDup_fst_range_list.
  replace (list_to_map (range_list (current t))) with (current t).
  - unfold Delta. by destruct (current t !! k).
  - symmetry. etrans; [|apply list_to_map_to_list].
    apply list_to_map_proper; [apply NoDup_fst_range_list|apply range_list_perm].
Qed.
End deltatracker.

(** ** [uint64] counters *)

#[export] Instance uint64_numeric : Numeric Z :=
  {| num_zero := 0%Z; num_sub x y := u64 (x - y) |}.

#[export] Instance float64_numeric : Numeric f64 :=
  {| num_zero := f64_zero; num_sub := f64_sub |}.

(** A counter read as [c] in one cycle and as [c + d] (mod 2^64, so also across a
    counter wrap) in the next has delta [d]; a key first seen this cycle has delta 0. *)
Theorem Delta_counter `{Countable K} (t : DeltaTracker (K := K) (V := Z)) (id : K) (c d : Z) :
  in_range 64 d →
  Delta (Set_ (Cycle (Set_ t id (u64 c))) id (u64 (c + d))) id = d ∧
  (previous t !! id = None → Delta (Set_ t id (u64 c)) id = 0%Z).
Proof.
  intros Hd. unfold Delta. simpl. rewrite !lookup_insert_eq. split.
  - simpl. unfold wrap. rewrite <- Zminus_mod. replace (c + d - c)%Z with d by lia.
    by apply wrap_small.
  - by intros ->.
Qed.

Lemma Delta_counter_witness :
  Delta (Set_ (Cycle (Set_ NewDeltaTracker "eth0" (u64 (2 ^ 64 - 10)))) "eth0"
           (u64 (2 ^ 64 - 10 + 25))) "eth0" = 25%Z.
Proof.
  refine (proj1 (Delta_counter NewDeltaTracker "eth0" (2 ^ 64 - 10) 25 _)).
  unfold in_range. lia.
Defined.
End DeltaTracker.
