(* ===== verification/Entities.v ===== *)
(** * Data exchanged by agents and the hub ([internal/entities])

    The structs of [entities/system/system.go] and
    [entities/container/container.go], one [Module] per struct so that the
    fields keep the source's names.  A Go slice or map that may be [nil] is an
    [option]; a fixed-size array is a tuple or a [vec]; [float64] is [f64];
    unsigned integers are [Z] values in range. *)

From stdpp Require Export vector.
From S2P Require Import Prelude GoFloat.

(** [\[6\]float64] *)
Abbreviation arr6 := (vec f64 6).
Definition zero6 : arr6 := vreplicate 6 f64_zero.

Module GPUData.
Record t := mk {
  Name : string;
  Temperature : f64;
  MemoryUsed : f64;
  MemoryTotal : f64;
  Usage : f64;
  Power : f64;
  Count : f64;
  Engines : option (gmap string f64);
  PowerPkg : f64;
}.
(** [GPUData{Name: name}] *)
Definition named (name : string) : t :=
  mk name f64_zero f64_zero f64_zero f64_zero f64_zero f64_zero None f64_zero.
End GPUData.

Module FsStats.
Record t := mk {
  Time : Z;
  Root : bool;
  Mountpoint : string;
  Name : string;
  DiskTotal : f64;
  DiskUsed : f64;
  TotalRead : Z;
  TotalWrite : Z;
  DiskReadPs : f64;
  DiskWritePs : f64;
  MaxDiskReadPS : f64;
  MaxDiskWritePS : f64;
  DiskReadBytes : Z;
  DiskWriteBytes : Z;
  MaxDiskReadBytes : Z;
  MaxDiskWriteBytes : Z;
  DiskIoStats : arr6;
  MaxDiskIoStats : arr6;
}.
Definition zero : t :=
  mk 0 false "" "" f64_zero f64_zero 0 0 f64_zero f64_zero f64_zero f64_zero 0 0 0 0
    zero6 zero6.
End FsStats.

Module Stats.
Record t := mk {
  Cpu : f64;
  MaxCpu : f64;
  Mem : f64;
  MaxMem : f64;
  MemUsed : f64;
  MemPct : f64;
  MemBuffCache : f64;
  MemZfsArc : f64;
  Swap : f64;
  SwapUsed : f64;
  DiskTotal : f64;
  DiskUsed : f64;
  DiskPct : f64;
  DiskReadPs : f64;
  DiskWritePs : f64;
  MaxDiskReadPs : f64;
  MaxDiskWritePs : f64;
  NetworkSent : f64;
  NetworkRecv : f64;
  MaxNetworkSent : f64;
  MaxNetworkRecv : f64;
  Temperatures : option (gmap string f64);
  ExtraFs : option (gmap string FsStats.t);
  GPU : option (gmap string GPUData.t);
  Bandwidth : Z * Z;
  MaxBandwidth : Z * Z;
  LoadAvg : f64 * f64 * f64;
  Battery : Z * Z;
  NetworkInterfaces : option (gmap string (Z * Z * Z * Z));
  DiskIO : Z * Z;
  MaxDiskIO : Z * Z;
  CpuBreakdown : option (list f64);
  CpuCoresUsage : option (list Z);
  DiskIoStats : arr6;
  MaxDiskIoStats : arr6;
}.

(** The zero value of the struct. *)
Definition zero : t := {|
  Cpu := f64_zero; MaxCpu := f64_zero; Mem := f64_zero; MaxMem := f64_zero;
  MemUsed := f64_zero; MemPct := f64_zero; MemBuffCache := f64_zero;
  MemZfsArc := f64_zero; Swap := f64_zero; SwapUsed := f64_zero;
  DiskTotal := f64_zero; DiskUsed := f64_zero; DiskPct := f64_zero;
  DiskReadPs := f64_zero; DiskWritePs := f64_zero; MaxDiskReadPs := f64_zero;
  MaxDiskWritePs := f64_zero; NetworkSent := f64_zero; NetworkRecv := f64_zero;
  MaxNetworkSent := f64_zero; MaxNetworkRecv := f64_zero; Temperatures := None;
  ExtraFs := None; GPU := None; Bandwidth := (0, 0)%Z; MaxBandwidth := (0, 0)%Z;
  LoadAvg := (f64_zero, f64_zero, f64_zero); Battery := (0, 0)%Z;
  NetworkInterfaces := None; DiskIO := (0, 0)%Z; MaxDiskIO := (0, 0)%Z;
  CpuBreakdown := None; CpuCoresUsage := None;
  DiskIoStats := zero6; MaxDiskIoStats := zero6;
|}.
End Stats.

(** [container.Stats] *)
Module ContainerStats.
Record t := mk {
  Name : string;
  Cpu : f64;
  Mem : f64;
  NetworkSent : f64;
  NetworkRecv : f64;
  Bandwidth : Z * Z;
  Health : Z;
  Status : string;
  Id : string;
  Image : string;
  Ports : string;
  CpuSystem : Z;
  CpuContainer : Z;
  PrevNet : Z * Z;        (* [prevNetStats{Sent, Recv}] *)
  PrevReadTime : Z;
}.
(** [container.Stats{Name: name}] *)
Definition named (name : string) : t :=
  mk name f64_zero f64_zero f64_zero f64_zero (0, 0)%Z 0 "" "" "" "" 0 0 (0, 0)%Z 0.
End ContainerStats.

(** [system.Info] *)
Module Info.
Record t := mk {
  Hostname : string;
  KernelVersion : string;
  Cores : Z;
  Threads : Z;
  CpuModel : string;
  Uptime : Z;
  Cpu : f64;
  MemPct : f64;
  DiskPct : f64;
  Bandwidth : f64;
  AgentVersion : string;
  Podman : bool;
  GpuPct : f64;
  DashboardTemp : f64;
  Os : Z;
  BandwidthBytes : Z;
  LoadAvg : f64 * f64 * f64;
  ConnectionType : Z;
  ExtraFsPct : option (gmap string f64);
  Services : option (list Z);
  Battery : Z * Z;
  LinkSpeeds : option (gmap string Z);
  MemTotal : f64;
  DiskSize : f64;
}.
Definition zero : t := {|
  Hostname := ""; KernelVersion := ""; Cores := 0; Threads := 0; CpuModel := "";
  Uptime := 0; Cpu := f64_zero; MemPct := f64_zero; DiskPct := f64_zero;
  Bandwidth := f64_zero; AgentVersion := ""; Podman := false; GpuPct := f64_zero;
  DashboardTemp := f64_zero; Os := 0; BandwidthBytes := 0;
  LoadAvg := (f64_zero, f64_zero, f64_zero); ConnectionType := 0;
  ExtraFsPct := None; Services := None; Battery := (0, 0)%Z; LinkSpeeds := None;
  MemTotal := f64_zero; DiskSize := f64_zero;
|}.
End Info.

(** [system.Details] *)
Module Details.
Record t := mk {
  Hostname : string;
  Kernel : string;
  Cores : Z;
  Threads : Z;
  CpuModel : string;
  Os : Z;
  OsName : string;
  Arch : string;
  Podman : bool;
  MemoryTotal : Z;
  SmartInterval : Z;
}.
End Details.

(** [system.CombinedData]; systemd services are carried opaquely. *)
Module CombinedData.
Record t {Service : Type} := mk {
  Stats : Stats.t;
  Info : Info.t;
  Containers : list ContainerStats.t;
  SystemdServices : list Service;
  Details : option Details.t;
}.
Arguments t : clear implicits.
End CombinedData.
