(* ===== verification/RecordAverages.v ===== *)
(** * Averaging of stored statistics ([internal/records/records.go])

    [AverageSystemStatsSlice] condenses a run of [system_stats] records into
    one longer record: means of the gauges, means of the byte counters, peaks,
    and per-key means of the maps.  [AverageContainerStatsSlice] does the same
    for container statistics.  The loops are folds over the slice; the local
    accumulators of the source are the fields of [Acc]. *)

From S2P Require Import Prelude GoFloat Entities.

Module RecordAverages.
Section averages.
Context {RO : RangeOrder string} {FC : FloatConv}.
Local Open Scope Z_scope.

(** ** Accumulation *)

Record Acc := {
  sum : Stats.t;
  batterySum : Z;             (* [int], since [uint8] is too small for the sum *)
  cpuCoresSums : list Z;
  cpuBreakdownSums : list f64;
  tempCount : f64;
}.

Definition acc0 : Acc := {|
  sum := Stats.zero; batterySum := 0; cpuCoresSums := [];
  cpuBreakdownSums := []; tempCount := f64_zero |}.

(** [if len(sums) < len(vs) { sums = append(sums, make(...)...) }] *)
Definition extend {A B} (zero : A) (sums : list A) (vs : list B) : list A :=
  if (length sums <? length vs)%nat
  then sums ++ replicate (length vs - length sums) zero else sums.

(** [for j, v := range vs { sums[j] += v }], with [len(vs) <= len(sums)]. *)
Fixpoint add_prefix {A B} (add : A → B → A) (sums : list A) (vs : list B) : list A :=
  match vs, sums with
  | v :: vs, s :: sums => add s v :: add_prefix add sums vs
  | _, _ => sums
  end.

Definition acc_slice {A B} (zero : A) (add : A → B → A) (sums : list A)
    (o : option (list B)) : list A :=
  match o with
  | None => sums
  | Some vs => add_prefix add (extend zero sums vs) vs
  end.

Definition add2 (a b : Z * Z) : Z * Z := (a.1 +u64 b.1, a.2 +u64 b.2)%go.
Definition max3_2 (a b c : Z * Z) : Z * Z :=
  (Z.max (Z.max a.1 b.1) c.1, Z.max (Z.max a.2 b.2) c.2).
Definition add6 (a b : arr6) : arr6 := vzip_with f64_add a b.
Definition max3_6 (a b c : arr6) : arr6 := vzip_with f64_max (vzip_with f64_max a b) c.

(** [sum.NetworkInterfaces\[key\] = {...}]; a missing key reads as zeros. *)
Definition acc_interface (o : option (Z * Z * Z * Z)) (value : Z * Z * Z * Z)
    : Z * Z * Z * Z :=
  let '(s0, s1, s2, s3) := default (0, 0, 0, 0) o in
  let '(v0, v1, v2, v3) := value in
  ((s0 +u64 v0)%go, (s1 +u64 v1)%go, Z.max s2 v2, Z.max s3 v3).

Definition acc_float (o : option f64) (value : f64) : f64 :=
  f64_add (default f64_zero o) value.

Definition acc_fs (o : option FsStats.t) (value : FsStats.t) : FsStats.t :=
  let fs := default FsStats.zero o in
  {| FsStats.Time := FsStats.Time fs; FsStats.Root := FsStats.Root fs;
     FsStats.Mountpoint := FsStats.Mountpoint fs; FsStats.Name := FsStats.Name fs;
     FsStats.DiskTotal := f64_add (FsStats.DiskTotal fs) (FsStats.DiskTotal value);
     FsStats.DiskUsed := f64_add (FsStats.DiskUsed fs) (FsStats.DiskUsed value);
     FsStats.TotalRead := FsStats.TotalRead fs;
     FsStats.TotalWrite := FsStats.TotalWrite fs;
     FsStats.DiskReadPs := f64_add (FsStats.DiskReadPs fs) (FsStats.DiskReadPs value);
     FsStats.DiskWritePs := f64_add (FsStats.DiskWritePs fs) (FsStats.DiskWritePs value);
     FsStats.MaxDiskReadPS :=
       f64_max3 (FsStats.MaxDiskReadPS fs) (FsStats.MaxDiskReadPS value)
         (FsStats.DiskReadPs value);
     FsStats.MaxDiskWritePS :=
       f64_max3 (FsStats.MaxDiskWritePS fs) (FsStats.MaxDiskWritePS value)
         (FsStats.DiskWritePs value);
     FsStats.DiskReadBytes := (FsStats.DiskReadBytes fs +u64 FsStats.DiskReadBytes value)%go;
     FsStats.DiskWriteBytes :=
       (FsStats.DiskWriteBytes fs +u64 FsStats.DiskWriteBytes value)%go;
     FsStats.MaxDiskReadBytes :=
       Z.max (Z.max (FsStats.MaxDiskReadBytes fs) (FsStats.MaxDiskReadBytes value))
         (FsStats.DiskReadBytes value);
     FsStats.MaxDiskWriteBytes :=
       Z.max (Z.max (FsStats.MaxDiskWriteBytes fs) (FsStats.MaxDiskWriteBytes value))
         (FsStats.DiskWriteBytes value);
     FsStats.DiskIoStats := add6 (FsStats.DiskIoStats fs) (FsStats.DiskIoStats value);
     FsStats.MaxDiskIoStats :=
       max3_6 (FsStats.MaxDiskIoStats fs) (FsStats.MaxDiskIoStats value)
         (FsStats.DiskIoStats value);
  |}.

Definition acc_gpu (o : option GPUData.t) (value : GPUData.t) : GPUData.t :=
  let gpu := default (GPUData.named (GPUData.Name value)) o in
  {| GPUData.Name := GPUData.Name gpu;
     GPUData.Temperature := f64_add (GPUData.Temperature gpu) (GPUData.Temperature value);
     GPUData.MemoryUsed := f64_add (GPUData.MemoryUsed gpu) (GPUData.MemoryUsed value);
     GPUData.MemoryTotal := f64_add (GPUData.MemoryTotal gpu) (GPUData.MemoryTotal value);
     GPUData.Usage := f64_add (GPUData.Usage gpu) (GPUData.Usage value);
     GPUData.Power := f64_add (GPUData.Power gpu) (GPUData.Power value);
     GPUData.Count := f64_add (GPUData.Count gpu) (GPUData.Count value);
     GPUData.Engines :=
       match GPUData.Engines value with
       | None => GPUData.Engines gpu
       | Some es => Some (range_upd acc_float (default ∅ (GPUData.Engines gpu)) es)
       end;
     GPUData.PowerPkg := GPUData.PowerPkg gpu;
  |}.

(** A map of the record that is skipped when [nil] and created on first use. *)
Definition acc_map {A V} (f : option A → V → A) (acc : option (gmap string A))
    (o : option (gmap string V)) : option (gmap string A) :=
  match o with
  | None => acc
  | Some m => Some (range_upd f (default ∅ acc) m)
  end.

(** The body of the accumulation loop. *)
Definition accumulate (a : Acc) (stats : Stats.t) : Acc :=
  let s := sum a in
  {| sum := {|
       Stats.Cpu := f64_add (Stats.Cpu s) (Stats.Cpu stats);
       Stats.MaxCpu := f64_max3 (Stats.MaxCpu s) (Stats.MaxCpu stats) (Stats.Cpu stats);
       Stats.Mem := f64_add (Stats.Mem s) (Stats.Mem stats);
       Stats.MaxMem := f64_max3 (Stats.MaxMem s) (Stats.MaxMem stats) (Stats.MemUsed stats);
       Stats.MemUsed := f64_add (Stats.MemUsed s) (Stats.MemUsed stats);
       Stats.MemPct := f64_add (Stats.MemPct s) (Stats.MemPct stats);
       Stats.MemBuffCache := f64_add (Stats.MemBuffCache s) (Stats.MemBuffCache stats);
       Stats.MemZfsArc := f64_add (Stats.MemZfsArc s) (Stats.MemZfsArc stats);
       Stats.Swap := f64_add (Stats.Swap s) (Stats.Swap stats);
       Stats.SwapUsed := f64_add (Stats.SwapUsed s) (Stats.SwapUsed stats);
       Stats.DiskTotal := f64_add (Stats.DiskTotal s) (Stats.DiskTotal stats);
       Stats.DiskUsed := f64_add (Stats.DiskUsed s) (Stats.DiskUsed stats);
       Stats.DiskPct := f64_add (Stats.DiskPct s) (Stats.DiskPct stats);
       Stats.DiskReadPs := f64_add (Stats.DiskReadPs s) (Stats.DiskReadPs stats);
       Stats.DiskWritePs := f64_add (Stats.DiskWritePs s) (Stats.DiskWritePs stats);
       Stats.MaxDiskReadPs :=
         f64_max3 (Stats.MaxDiskReadPs s) (Stats.MaxDiskReadPs stats) (Stats.DiskReadPs stats);
       Stats.MaxDiskWritePs :=
         f64_max3 (Stats.MaxDiskWritePs s) (Stats.MaxDiskWritePs stats)
           (Stats.DiskWritePs stats);
       Stats.NetworkSent := f64_add (Stats.NetworkSent s) (Stats.NetworkSent stats);
       Stats.NetworkRecv := f64_add (Stats.NetworkRecv s) (Stats.NetworkRecv stats);
       Stats.MaxNetworkSent :=
         f64_max3 (Stats.MaxNetworkSent s) (Stats.MaxNetworkSent stats)
           (Stats.NetworkSent stats);
       Stats.MaxNetworkRecv :=
         f64_max3 (Stats.MaxNetworkRecv s) (Stats.MaxNetworkRecv stats)
           (Stats.NetworkRecv stats);
       Stats.Temperatures :=
         acc_map acc_float (Stats.Temperatures s) (Stats.Temperatures stats);
       Stats.ExtraFs := acc_map acc_fs (Stats.ExtraFs s) (Stats.ExtraFs stats);
       Stats.GPU := acc_map acc_gpu (Stats.GPU s) (Stats.GPU stats);
       Stats.Bandwidth := add2 (Stats.Bandwidth s) (Stats.Bandwidth stats);
       Stats.MaxBandwidth :=
         max3_2 (Stats.MaxBandwidth s) (Stats.MaxBandwidth stats) (Stats.Bandwidth stats);
       Stats.LoadAvg :=
         let '(l0, l1, l2) := Stats.LoadAvg s in
         let '(v0, v1, v2) := Stats.LoadAvg stats in
         (f64_add l0 v0, f64_add l1 v1, f64_add l2 v2);
       Stats.Battery := ((Stats.Battery s).1, (Stats.Battery stats).2);
       (* created even when the record has none *)
       Stats.NetworkInterfaces :=
         Some (range_upd acc_interface (default ∅ (Stats.NetworkInterfaces s))
                 (default ∅ (Stats.NetworkInterfaces stats)));
       Stats.DiskIO := add2 (Stats.DiskIO s) (Stats.DiskIO stats);
       Stats.MaxDiskIO :=
         max3_2 (Stats.MaxDiskIO s) (Stats.MaxDiskIO stats) (Stats.DiskIO stats);
       Stats.CpuBreakdown := Stats.CpuBreakdown s;
       Stats.CpuCoresUsage := Stats.CpuCoresUsage s;
       Stats.DiskIoStats := add6 (Stats.DiskIoStats s) (Stats.DiskIoStats stats);
       Stats.MaxDiskIoStats :=
         max3_6 (Stats.MaxDiskIoStats s) (Stats.MaxDiskIoStats stats)
           (Stats.DiskIoStats stats);
     |};
     batterySum := batterySum a + (Stats.Battery stats).1;
     cpuCoresSums :=
       acc_slice 0 (λ s v, (s +u64 v)%go) (cpuCoresSums a) (Stats.CpuCoresUsage stats);
     cpuBreakdownSums :=
       acc_slice f64_zero f64_add (cpuBreakdownSums a) (Stats.CpuBreakdown stats);
     tempCount :=
       match Stats.Temperatures stats with
       | Some _ => f64_add (tempCount a) (f64_of_Z 1)
       | None => tempCount a
       end;
  |}.

(** ** Averages *)

(** [twoDecimals(x / count)] *)
Definition mean (count x : f64) : f64 := twoDecimals (f64_div x count).
Definition mean2 (count : f64) (p : Z * Z) : Z * Z :=
  (p.1 / f64_to_uint 64 count, p.2 / f64_to_uint 64 count).

Definition avg_interface (count : f64) (v : Z * Z * Z * Z) : Z * Z * Z * Z :=
  let '(v0, v1, v2, v3) := v in
  (v0 / f64_to_uint 64 count, v1 / f64_to_uint 64 count, v2, v3).

Definition avg_fs (count : f64) (fs : FsStats.t) : FsStats.t :=
  {| FsStats.Time := FsStats.Time fs; FsStats.Root := FsStats.Root fs;
     FsStats.Mountpoint := FsStats.Mountpoint fs; FsStats.Name := FsStats.Name fs;
     FsStats.DiskTotal := mean count (FsStats.DiskTotal fs);
     FsStats.DiskUsed := mean count (FsStats.DiskUsed fs);
     FsStats.TotalRead := FsStats.TotalRead fs;
     FsStats.TotalWrite := FsStats.TotalWrite fs;
     FsStats.DiskReadPs := mean count (FsStats.DiskReadPs fs);
     FsStats.DiskWritePs := mean count (FsStats.DiskWritePs fs);
     FsStats.MaxDiskReadPS := FsStats.MaxDiskReadPS fs;
     FsStats.MaxDiskWritePS := FsStats.MaxDiskWritePS fs;
     FsStats.DiskReadBytes := FsStats.DiskReadBytes fs / f64_to_uint 64 count;
     FsStats.DiskWriteBytes := FsStats.DiskWriteBytes fs / f64_to_uint 64 count;
     FsStats.MaxDiskReadBytes := FsStats.MaxDiskReadBytes fs;
     FsStats.MaxDiskWriteBytes := FsStats.MaxDiskWriteBytes fs;
     FsStats.DiskIoStats := vmap (mean count) (FsStats.DiskIoStats fs);
     FsStats.MaxDiskIoStats := FsStats.MaxDiskIoStats fs;
  |}.

Definition avg_gpu (count : f64) (gpu : GPUData.t) : GPUData.t :=
  {| GPUData.Name := GPUData.Name gpu;
     GPUData.Temperature := mean count (GPUData.Temperature gpu);
     GPUData.MemoryUsed := mean count (GPUData.MemoryUsed gpu);
     GPUData.MemoryTotal := mean count (GPUData.MemoryTotal gpu);
     GPUData.Usage := mean count (GPUData.Usage gpu);
     GPUData.Power := mean count (GPUData.Power gpu);
     GPUData.Count := mean count (GPUData.Count gpu);
     GPUData.Engines := fmap (M := gmap string) (mean count) <$> GPUData.Engines gpu;
     GPUData.PowerPkg := GPUData.PowerPkg gpu;
  |}.

(** Everything after the accumulation loop. *)
Definition average (a : Acc) (count : f64) : Stats.t :=
  let s := sum a in
  {| Stats.Cpu := mean count (Stats.Cpu s);
     Stats.MaxCpu := Stats.MaxCpu s;
     Stats.Mem := mean count (Stats.Mem s);
     Stats.MaxMem := Stats.MaxMem s;
     Stats.MemUsed := mean count (Stats.MemUsed s);
     Stats.MemPct := mean count (Stats.MemPct s);
     Stats.MemBuffCache := mean count (Stats.MemBuffCache s);
     Stats.MemZfsArc := mean count (Stats.MemZfsArc s);
     Stats.Swap := mean count (Stats.Swap s);
     Stats.SwapUsed := mean count (Stats.SwapUsed s);
     Stats.DiskTotal := mean count (Stats.DiskTotal s);
     Stats.DiskUsed := mean count (Stats.DiskUsed s);
     Stats.DiskPct := mean count (Stats.DiskPct s);
     Stats.DiskReadPs := mean count (Stats.DiskReadPs s);
     Stats.DiskWritePs := mean count (Stats.DiskWritePs s);
     Stats.MaxDiskReadPs := Stats.MaxDiskReadPs s;
     Stats.MaxDiskWritePs := Stats.MaxDiskWritePs s;
     Stats.NetworkSent := mean count (Stats.NetworkSent s);
     Stats.NetworkRecv := mean count (Stats.NetworkRecv s);
     Stats.MaxNetworkSent := Stats.MaxNetworkSent s;
     Stats.MaxNetworkRecv := Stats.MaxNetworkRecv s;
     Stats.Temperatures :=
       match Stats.Temperatures s with
       | Some m =>
           Some (if f64_lt f64_zero (tempCount a)
                 then (λ x, twoDecimals (f64_div x (tempCount a))) <$> m else m)
       | None => None
       end;
     Stats.ExtraFs := fmap (M := gmap string) (avg_fs count) <$> Stats.ExtraFs s;
     Stats.GPU := fmap (M := gmap string) (avg_gpu count) <$> Stats.GPU s;
     Stats.Bandwidth := mean2 count (Stats.Bandwidth s);
     Stats.MaxBandwidth := Stats.MaxBandwidth s;
     Stats.LoadAvg :=
       let '(l0, l1, l2) := Stats.LoadAvg s in (mean count l0, mean count l1, mean count l2);
     Stats.Battery :=
       (u8 (Z.quot (batterySum a) (f64_to_int count)), (Stats.Battery s).2);
     Stats.NetworkInterfaces :=
       fmap (M := gmap string) (avg_interface count) <$> Stats.NetworkInterfaces s;
     Stats.DiskIO := mean2 count (Stats.DiskIO s);
     Stats.MaxDiskIO := Stats.MaxDiskIO s;
     Stats.CpuBreakdown :=
       match cpuBreakdownSums a with
       | [] => Stats.CpuBreakdown s
       | l => Some (mean count <$> l)
       end;
     Stats.CpuCoresUsage :=
       match cpuCoresSums a with
       | [] => Stats.CpuCoresUsage s
       | l => Some ((λ c, f64_to_uint 8 (f64_round (f64_div (f64_of_Z c) count))) <$> l)
       end;
     Stats.DiskIoStats := vmap (mean count) (Stats.DiskIoStats s);
     Stats.MaxDiskIoStats := Stats.MaxDiskIoStats s;
  |}.

Definition AverageSystemStatsSlice (records : list Stats.t) : Stats.t :=
  let count := f64_of_Z (Z.of_nat (length records)) in
  if f64_eq count f64_zero then Stats.zero
  else average (fold_left accumulate records acc0) count.

(** ** Containers *)

(** One container entry added to the running sums of its name. *)
Definition acc_container (o : option ContainerStats.t) (stat : ContainerStats.t)
    : ContainerStats.t :=
  let s := default (ContainerStats.named (ContainerStats.Name stat)) o in
  let sentBytes := (ContainerStats.Bandwidth stat).1 in
  let recvBytes := (ContainerStats.Bandwidth stat).2 in
  let mb x := f64_mul (f64_mul x (f64_of_Z 1024)) (f64_of_Z 1024) in
  (* records of agents older than 0.18.3 carry megabytes instead of bytes *)
  let legacy :=
    (sentBytes =? 0) && (recvBytes =? 0) &&
    (negb (f64_eq (ContainerStats.NetworkSent stat) f64_zero) ||
     negb (f64_eq (ContainerStats.NetworkRecv stat) f64_zero)) in
  let sent := if legacy then f64_to_uint 64 (mb (ContainerStats.NetworkSent stat))
              else sentBytes in
  let recv := if legacy then f64_to_uint 64 (mb (ContainerStats.NetworkRecv stat))
              else recvBytes in
  {| ContainerStats.Name := ContainerStats.Name s;
     ContainerStats.Cpu := f64_add (ContainerStats.Cpu s) (ContainerStats.Cpu stat);
     ContainerStats.Mem := f64_add (ContainerStats.Mem s) (ContainerStats.Mem stat);
     ContainerStats.NetworkSent := ContainerStats.NetworkSent s;
     ContainerStats.NetworkRecv := ContainerStats.NetworkRecv s;
     ContainerStats.Bandwidth :=
       (((ContainerStats.Bandwidth s).1 +u64 sent)%go,
        ((ContainerStats.Bandwidth s).2 +u64 recv)%go);
     ContainerStats.Health := ContainerStats.Health s;
     ContainerStats.Status := ContainerStats.Status s;
     ContainerStats.Id := ContainerStats.Id s;
     ContainerStats.Image := ContainerStats.Image s;
     ContainerStats.Ports := ContainerStats.Ports s;
     ContainerStats.CpuSystem := ContainerStats.CpuSystem s;
     ContainerStats.CpuContainer := ContainerStats.CpuContainer s;
     ContainerStats.PrevNet := ContainerStats.PrevNet s;
     ContainerStats.PrevReadTime := ContainerStats.PrevReadTime s;
  |}.

Definition add_container (sums : gmap string ContainerStats.t) (stat : ContainerStats.t)
    : gmap string ContainerStats.t :=
  <[ContainerStats.Name stat := acc_container (sums !! ContainerStats.Name stat) stat]> sums.

Definition sum_containers (records : list (list ContainerStats.t))
    : gmap string ContainerStats.t :=
  fold_left (λ sums containerStats, fold_left add_container containerStats sums) records ∅.

Definition avg_container (count : f64) (value : ContainerStats.t) : ContainerStats.t :=
  let z := ContainerStats.named (ContainerStats.Name value) in
  {| ContainerStats.Name := ContainerStats.Name value;
     ContainerStats.Cpu := mean count (ContainerStats.Cpu value);
     ContainerStats.Mem := mean count (ContainerStats.Mem value);
     ContainerStats.NetworkSent := ContainerStats.NetworkSent z;
     ContainerStats.NetworkRecv := ContainerStats.NetworkRecv z;
     ContainerStats.Bandwidth :=
       (f64_to_uint 64 (f64_div (f64_of_Z (ContainerStats.Bandwidth value).1) count),
        f64_to_uint 64 (f64_div (f64_of_Z (ContainerStats.Bandwidth value).2) count));
     ContainerStats.Health := ContainerStats.Health z;
     ContainerStats.Status := ContainerStats.Status z;
     ContainerStats.Id := ContainerStats.Id z;
     ContainerStats.Image := ContainerStats.Image z;
     ContainerStats.Ports := ContainerStats.Ports z;
     ContainerStats.CpuSystem := ContainerStats.CpuSystem z;
     ContainerStats.CpuContainer := ContainerStats.CpuContainer z;
     ContainerStats.PrevNet := ContainerStats.PrevNet z;
     ContainerStats.PrevReadTime := ContainerStats.PrevReadTime z;
  |}.

Definition AverageContainerStatsSlice (records : list (list ContainerStats.t))
    : list ContainerStats.t :=
  match records with
  | [] => []
  | _ =>
      let count := f64_of_Z (Z.of_nat (length records)) in
      (λ kv, avg_container count kv.2) <$> range_list (sum_containers records)
  end.

(** ** Lemmas: the loop, one field at a time *)

Definition totals (records : list Stats.t) : Acc := fold_left accumulate records acc0.

Lemma totals_proj {C} (p : Acc → C) (g : C → Stats.t → C) records :
  (∀ a r, p (accumulate a r) = g (p a) r) →
  p (totals records) = fold_left g records (p acc0).
Proof. intros Hp. unfold totals. by apply fold_left_proj. Qed.

Lemma AverageSystemStatsSlice_unfold records :
  records ≠ [] → Z.of_nat (length records) < 2 ^ 53 →
  AverageSystemStatsSlice records =
  average (totals records) (f64_of_Z (Z.of_nat (length records))).
Proof.
  intros Hne Hlen. unfold AverageSystemStatsSlice.
  rewrite f64_of_Z_pos_neq0; [done|]. destruct records; simpl in *; [done|lia].
Qed.

(** A running [max] of three is an upper bound of both observations and is one of them. *)
Lemma running_max_spec (p v : Stats.t → f64) (l : list Stats.t) (m0 : f64) :
  is_nan m0 = false →
  (∀ r, r ∈ l → is_nan (p r) = false ∧ is_nan (v r) = false) →
  let m := fold_left (λ m r, f64_max3 m (p r) (v r)) l m0 in
  f64_le m0 m = true ∧
  (∀ r, r ∈ l → f64_le (p r) m = true ∧ f64_le (v r) m = true) ∧
  (m = m0 ∨ ∃ r, r ∈ l ∧ (m = p r ∨ m = v r)).
Proof.
  revert m0. induction l as [|r l IH]; intros m0 H0 Hl; simpl.
  { split_and!; [by apply f64_le_refl| |by left]. intros r Hr. by apply elem_of_nil in Hr. }
  destruct (Hl r) as [Hp Hv]; [apply elem_of_cons; by left|].
  assert (is_nan (f64_max m0 (p r)) = false) as Hn by (by rewrite f64_max_nan, H0, Hp).
  assert (is_nan (f64_max3 m0 (p r) (v r)) = false) as Hn3.
  { unfold f64_max3. by rewrite f64_max_nan, Hn, Hv. }
  destruct (IH (f64_max3 m0 (p r) (v r)) Hn3) as (Hle&Hub&Hch).
  { intros r' Hr'. apply Hl, elem_of_cons. by right. }
  assert (f64_le (f64_max m0 (p r)) (f64_max3 m0 (p r) (v r)) = true) as Hstep
    by (by apply f64_max_ub_l).
  split_and!.
  - eapply f64_le_trans; [|exact Hle]. eapply f64_le_trans; [|exact Hstep].
    by apply f64_max_ub_l.
  - intros r' [->|Hr']%elem_of_cons; [|by apply Hub]. split.
    + eapply f64_le_trans; [|exact Hle]. eapply f64_le_trans; [|exact Hstep].
      by apply f64_max_ub_r.
    + eapply f64_le_trans; [|exact Hle]. by apply f64_max_ub_r.
  - destruct Hch as [->|(r'&?&?)].
    + unfold f64_max3. destruct (f64_max_choice _ _ Hn Hv) as [-> | ->].
      * destruct (f64_max_choice _ _ H0 Hp) as [-> | ->]; [by left|right].
        exists r. rewrite elem_of_cons. auto.
      * right. exists r. rewrite elem_of_cons. auto.
    + right. exists r'. rewrite elem_of_cons. auto.
Qed.

(** A wrapping sum is the wrapped sum. *)
Lemma wrapping_sum (c : Stats.t → Z) (l : list Stats.t) (z : Z) :
  in_range 64 z →
  fold_left (λ s r, u64 (s + c r)) l z = u64 (z + Zsum (c <$> l)).
Proof.
  revert z. induction l as [|r l IH]; intros z Hz.
  { simpl. rewrite Z.add_0_r. by rewrite wrap_small. }
  rewrite fmap_cons. simpl. rewrite IH by (by apply wrap_range).
  rewrite wrap_wrap_add. f_equal. lia.
Qed.

(** ** Properties: system statistics *)

(** The peak fields with the gauge each of them follows. *)
Definition peaks : list ((Stats.t → f64) * (Stats.t → f64)) :=
  [ (Stats.MaxCpu, Stats.Cpu); (Stats.MaxMem, Stats.MemUsed);
    (Stats.MaxNetworkSent, Stats.NetworkSent); (Stats.MaxNetworkRecv, Stats.NetworkRecv);
    (Stats.MaxDiskReadPs, Stats.DiskReadPs); (Stats.MaxDiskWritePs, Stats.DiskWritePs) ].

Lemma peak_total p v records :
  (p, v) ∈ peaks →
  p (average (totals records) (f64_of_Z (Z.of_nat (length records)))) =
  fold_left (λ m r, f64_max3 m (p r) (v r)) records f64_zero.
Proof.
  unfold peaks. rewrite !elem_of_cons, elem_of_nil.
  intros Hpv. destruct_or?; simplify_eq;
    match goal with |- ?p (average _ _) = _ => apply (totals_proj (λ a, p (sum a))) end;
    done.
Qed.

(** Every peak field of an averaged record is an upper bound of the peaks and of the
    gauge values of all the records it replaces, and is one of those values (or 0). *)
Theorem AverageSystemStats_peaks records p v :
  (p, v) ∈ peaks → records ≠ [] → Z.of_nat (length records) < 2 ^ 53 →
  (∀ r, r ∈ records → is_nan (p r) = false ∧ is_nan (v r) = false) →
  let m := p (AverageSystemStatsSlice records) in
  (∀ r, r ∈ records → f64_le (p r) m = true ∧ f64_le (v r) m = true) ∧
  (m = f64_zero ∨ ∃ r, r ∈ records ∧ (m = p r ∨ m = v r)).
Proof.
  intros Hpv Hne Hlen Hn. rewrite AverageSystemStatsSlice_unfold by done.
  rewrite (peak_total p v) by done. by apply running_max_spec.
Qed.

(** The byte counters that are averaged by integer division. *)
Definition counters : list (Stats.t → Z) :=
  [ λ r, (Stats.Bandwidth r).1; λ r, (Stats.Bandwidth r).2;
    λ r, (Stats.DiskIO r).1; λ r, (Stats.DiskIO r).2 ].

Lemma counter_total c records :
  c ∈ counters →
  c (average (totals records) (f64_of_Z (Z.of_nat (length records)))) =
  fold_left (λ s r, u64 (s + c r)) records 0 /
    f64_to_uint 64 (f64_of_Z (Z.of_nat (length records))).
Proof.
  unfold counters. rewrite !elem_of_cons, elem_of_nil.
  intros Hc. destruct_or?; simplify_eq; cbn [Stats.Bandwidth Stats.DiskIO average mean2 fst snd];
    f_equal; [ apply (totals_proj (λ a, (Stats.Bandwidth (sum a)).1))
    | apply (totals_proj (λ a, (Stats.Bandwidth (sum a)).2))
    | apply (totals_proj (λ a, (Stats.DiskIO (sum a)).1))
    | apply (totals_proj (λ a, (Stats.DiskIO (sum a)).2)) ]; done.
Qed.

(** A byte counter of an averaged record is the truncated mean of the records'
    counters whenever their sum fits in 64 bits, and so lies between any common lower
    and upper bound of them. *)
Theorem AverageSystemStats_counters records c lo hi :
  c ∈ counters → records ≠ [] → Z.of_nat (length records) < 2 ^ 53 →
  Forall (λ x, lo ≤ x ≤ hi) (c <$> records) → 0 ≤ lo → Zsum (c <$> records) < 2 ^ 64 →
  c (AverageSystemStatsSlice records) =
    Zsum (c <$> records) / Z.of_nat (length records) ∧
  lo ≤ c (AverageSystemStatsSlice records) ≤ hi.
Proof.
  intros Hc Hne Hlen Hb Hlo Hfit. rewrite AverageSystemStatsSlice_unfold by done.
  rewrite counter_total by done.
  rewrite f64_to_uint_of_Z by lia. rewrite wrapping_sum by (unfold in_range; lia).
  pose proof (Zsum_bounds _ _ _ Hb) as Hs. rewrite length_fmap in Hs.
  rewrite Z.add_0_l, wrap_small by (unfold in_range; nia).
  split; [done|]. rewrite <- (length_fmap c records). apply mean_bounds; [|done].
  by destruct records.
Qed.

(** The battery level of an averaged record is the truncated mean of the levels (the
    [uint8] conversion never truncates), and the charge state is that of the last record. *)
Theorem AverageSystemStats_battery records r :
  Z.of_nat (length (records ++ [r])) < 2 ^ 53 →
  Forall (λ s, in_range 8 (Stats.Battery s).1) (records ++ [r]) →
  Stats.Battery (AverageSystemStatsSlice (records ++ [r])) =
    (Zsum ((λ s, (Stats.Battery s).1) <$> records ++ [r]) /
       Z.of_nat (length (records ++ [r])), (Stats.Battery r).2).
Proof.
  intros Hlen Hb. assert (records ++ [r] ≠ []) as Hne by (by destruct records).
  rewrite AverageSystemStatsSlice_unfold by done. cbn [Stats.Battery average].
  rewrite f64_to_int_of_Z by lia. f_equal.
  - assert (∀ l z, fold_left (λ b s, b + (Stats.Battery s).1) l z =
      z + Zsum ((λ s, (Stats.Battery s).1) <$> l)) as Hsum.
    { induction l as [|s l IH]; intros z; [simpl; lia|].
      rewrite fmap_cons. simpl. rewrite IH. lia. }
    rewrite (totals_proj batterySum (λ b s, b + (Stats.Battery s).1)) by done.
    rewrite Hsum. cbn [batterySum acc0]. rewrite Z.add_0_l.
    assert (Forall (λ x, 0 ≤ x ≤ 255) ((λ s, (Stats.Battery s).1) <$> records ++ [r])) as Hf.
    { apply Forall_fmap. eapply Forall_impl; [exact Hb|]. unfold in_range. simpl. lia. }
    pose proof (Zsum_bounds _ _ _ Hf) as Hs.
    rewrite Z.quot_div_nonneg; [|lia|rewrite length_app; simpl; lia].
    apply wrap_small. unfold in_range.
    assert ((λ s, (Stats.Battery s).1) <$> records ++ [r] ≠ []) as Hne' by (by destruct records).
    pose proof (mean_bounds 0 255 _ Hne' Hf) as Hm.
    rewrite length_fmap in Hm. lia.
  - unfold totals. rewrite fold_left_app. done.
Qed.

(** *** Per-key means *)

Lemma totals_map {A V} (p : Stats.t → option (gmap string A))
    (q : Stats.t → option (gmap string V)) (f : option A → V → A) records k :
  (∀ a r, p (sum (accumulate a r)) = acc_map f (p (sum a)) (q r)) →
  p Stats.zero = None →
  p (sum (totals records)) ≫= lookup k =
  fold_left (λ o v, Some (f o v)) (omap (λ r, q r ≫= lookup k) records) None.
Proof.
  intros Hstep H0.
  pose proof (totals_proj (λ a, p (sum a)) (λ o r, acc_map f o (q r)) records Hstep) as ->.
  cbn [sum acc0]. rewrite H0.
  enough (∀ o, fold_left (λ o r, acc_map f o (q r)) records o ≫= lookup k =
    fold_left (λ o v, Some (f o v)) (omap (λ r, q r ≫= lookup k) records) (o ≫= lookup k))
    as Hgen by apply Hgen.
  induction records as [|r l IH]; intros o; simpl; [done|]. rewrite IH.
  destruct (q r) as [m|]; simpl; [|done]. rewrite range_upd_lookup.
  destruct (m !! k); simpl; by destruct o; rewrite ?lookup_empty.
Qed.

(** [tempCount]: how many records carried temperatures, counted in [float64]. *)
Definition temp_count (records : list Stats.t) : f64 :=
  fold_left (λ c r, match Stats.Temperatures r with
                    | Some _ => f64_add c (f64_of_Z 1) | None => c end) records f64_zero.

(** The averaged temperature of a sensor is the rounded mean of its readings over the
    records that carried any temperatures; a sensor appears exactly when some record had it. *)
Theorem AverageSystemStats_temperatures records k :
  records ≠ [] → Z.of_nat (length records) < 2 ^ 53 →
  f64_lt f64_zero (temp_count records) = true →
  Stats.Temperatures (AverageSystemStatsSlice records) ≫= lookup k =
  match omap (λ r, Stats.Temperatures r ≫= lookup k) records with
  | [] => None
  | vs => Some (twoDecimals (f64_div (fold_left f64_add vs f64_zero) (temp_count records)))
  end.
Proof.
  intros Hne Hlen Hc. rewrite AverageSystemStatsSlice_unfold by done.
  cbn [Stats.Temperatures average].
  assert (tempCount (totals records) = temp_count records) as -> by (by apply totals_proj).
  rewrite Hc.
  pose proof (totals_map Stats.Temperatures Stats.Temperatures acc_float records k
    ltac:(done) ltac:(done)) as Ht.
  assert (∀ vs (o : option f64), vs ≠ [] ∨ o ≠ None →
    fold_left (λ o v, Some (acc_float o v)) vs o =
    Some (fold_left f64_add vs (default f64_zero o))) as Hfold.
  { induction vs as [|v vs IH]; intros o Ho; simpl.
    - destruct o; [done|]. naive_solver.
    - rewrite IH by (by right). done. }
  destruct (omap _ records) as [|v vs] eqn:Ho.
  - destruct (Stats.Temperatures (sum _)) as [m|]; simpl in *; [|done].
    by rewrite lookup_fmap, Ht.
  - rewrite Hfold in Ht by (by left).
    destruct (Stats.Temperatures (sum _)) as [m|]; simpl in *; [|done].
    by rewrite lookup_fmap, Ht.
Qed.

(** The package power of a GPU is not carried into longer records. *)
Theorem AverageSystemStats_drops_PowerPkg records id g :
  records ≠ [] → Z.of_nat (length records) < 2 ^ 53 →
  Stats.GPU (AverageSystemStatsSlice records) ≫= lookup id = Some g →
  GPUData.PowerPkg g = f64_zero.
Proof.
  intros Hne Hlen. rewrite AverageSystemStatsSlice_unfold by done.
  cbn [Stats.GPU average].
  pose proof (totals_map Stats.GPU Stats.GPU acc_gpu records id
    ltac:(done) ltac:(done)) as Ht.
  assert (∀ vs (o : option GPUData.t) g,
    (∀ g, o = Some g → GPUData.PowerPkg g = f64_zero) →
    fold_left (λ o v, Some (acc_gpu o v)) vs o = Some g → GPUData.PowerPkg g = f64_zero) as Hf.
  { induction vs as [|v vs IH]; intros o g' Ho; simpl; [eauto|]. apply IH.
    intros g0 [= <-]. simpl. destruct o; simpl; eauto. }
  destruct (Stats.GPU (sum _)) as [m|]; simpl in *; [|done].
  rewrite lookup_fmap. destruct (m !! id) as [g0|] eqn:Hg; simpl; [|done].
  intros [= <-]. simpl. by eapply (Hf _ None).
Qed.

(** ** Properties: containers *)

Lemma fold_container_lookup l sums n :
  fold_left add_container l sums !! n =
  fold_left (λ o s, Some (acc_container o s))
    (filter (λ s, ContainerStats.Name s = n) l) (sums !! n).
Proof.
  revert sums. induction l as [|c l IH]; intros sums; simpl; [done|].
  rewrite IH. unfold add_container. rewrite filter_cons. case_decide as Hn.
  - simpl. by rewrite <- Hn, lookup_insert_eq.
  - by rewrite lookup_insert_ne.
Qed.

(** All entries of all records are summed in order, whatever record they come from. *)
Lemma sum_containers_lookup records n :
  sum_containers records !! n =
  fold_left (λ o s, Some (acc_container o s))
    (filter (λ s, ContainerStats.Name s = n) (concat records)) None.
Proof.
  unfold sum_containers. rewrite <- (lookup_empty (M := gmap string) (A := ContainerStats.t) n).
  generalize (∅ : gmap string ContainerStats.t) as sums.
  induction records as [|l records IH]; intros sums; simpl; [done|].
  by rewrite IH, filter_app, fold_left_app, fold_container_lookup.
Qed.

Lemma sum_container_name l o n s :
  Forall (λ s, ContainerStats.Name s = n) l →
  (∀ s, o = Some s → ContainerStats.Name s = n) →
  fold_left (λ o s, Some (acc_container o s)) l o = Some s → ContainerStats.Name s = n.
Proof.
  intros Hl. revert o. induction Hl as [|c l Hc _ IH]; intros o Ho; simpl; [by apply Ho|].
  apply IH. intros s' [= <-]. simpl. destruct o; simpl; eauto.
Qed.

Lemma sum_containers_names records n s :
  sum_containers records !! n = Some s → ContainerStats.Name s = n.
Proof.
  rewrite sum_containers_lookup. apply sum_container_name; [|done].
  rewrite Forall_forall. intros c. rewrite list_elem_of_filter. tauto.
Qed.

(** An averaged container record has exactly one entry per container name that
    occurs in the records, and that entry averages the in-order sum of all the entries
    with the name over the number of records. *)
Theorem AverageContainerStats_spec records :
  let result := AverageContainerStatsSlice records in
  NoDup (ContainerStats.Name <$> result) ∧
  (∀ n, n ∈ (ContainerStats.Name <$> result) ↔
        n ∈ (ContainerStats.Name <$> concat records)) ∧
  (∀ e, e ∈ result → ∃ s,
     fold_left (λ o s, Some (acc_container o s))
       (filter (λ s, ContainerStats.Name s = ContainerStats.Name e) (concat records)) None
     = Some s ∧ e = avg_container (f64_of_Z (Z.of_nat (length records))) s).
Proof.
  set (count := f64_of_Z (Z.of_nat (length records))).
  assert (AverageContainerStatsSlice records =
    (λ kv, avg_container count kv.2) <$> range_list (sum_containers records)) as ->.
  { destruct records; [|done]. simpl. unfold sum_containers. simpl.
    pose proof (range_list_perm (∅ : gmap string ContainerStats.t)) as Hp.
    rewrite map_to_list_empty in Hp. by apply Permutation_nil_r in Hp as ->. }
  assert (ContainerStats.Name <$> ((λ kv, avg_container count kv.2) <$>
    range_list (sum_containers records)) = (range_list (sum_containers records)).*1) as Hnames.
  { rewrite <- list_fmap_compose. apply list_fmap_ext. intros i [n s] Hi. simpl.
    eapply sum_containers_names, elem_of_range_list, list_elem_of_lookup_2, Hi. }
  cbv zeta. rewrite Hnames. split_and!.
  - apply NoDup_fst_range_list.
  - intros n. rewrite list_elem_of_fmap. split.
    + intros ([n' s]&->&Hin%elem_of_range_list). rewrite sum_containers_lookup in Hin. simpl.
      destruct (filter _ (concat records)) as [|c l] eqn:Hf; [done|].
      assert (c ∈ filter (λ s, ContainerStats.Name s = n') (concat records)) as Hc.
      { rewrite Hf. apply elem_of_cons. by left. }
      apply list_elem_of_filter in Hc as [<- Hc]. by apply list_elem_of_fmap_2.
    + intros (c&->&Hc)%list_elem_of_fmap.
      assert (c ∈ filter (λ s, ContainerStats.Name s = ContainerStats.Name c)
        (concat records)) as Hf by (by apply list_elem_of_filter).
      destruct (sum_containers records !! ContainerStats.Name c) as [s|] eqn:Hs.
      * exists (ContainerStats.Name c, s). by rewrite elem_of_range_list.
      * exfalso. rewrite sum_containers_lookup in Hs.
        destruct (filter _ (concat records)) as [|c' l]; [by apply elem_of_nil in Hf|].
        simpl in Hs. revert Hs. generalize (acc_container None c').
        clear. induction l as [|c'' l IH]; intros a; simpl; [done|apply IH].
  - intros e ([n s]&->&Hin%elem_of_range_list)%list_elem_of_fmap. exists s. simpl.
    rewrite (sum_containers_names _ _ _ Hin). by rewrite <- sum_containers_lookup.
Qed.
End averages.

(** ** Witnesses *)

Definition sample (cpu bw : Z) : Stats.t :=
  {| Stats.Cpu := f64_of_Z cpu; Stats.MaxCpu := f64_zero; Stats.Mem := f64_of_Z 16;
     Stats.MaxMem := f64_zero; Stats.MemUsed := f64_of_Z 8; Stats.MemPct := f64_of_Z 50;
     Stats.MemBuffCache := f64_zero; Stats.MemZfsArc := f64_zero; Stats.Swap := f64_zero;
     Stats.SwapUsed := f64_zero; Stats.DiskTotal := f64_of_Z 100;
     Stats.DiskUsed := f64_of_Z 40; Stats.DiskPct := f64_of_Z 40;
     Stats.DiskReadPs := f64_zero; Stats.DiskWritePs := f64_zero;
     Stats.MaxDiskReadPs := f64_zero; Stats.MaxDiskWritePs := f64_zero;
     Stats.NetworkSent := f64_zero; Stats.NetworkRecv := f64_zero;
     Stats.MaxNetworkSent := f64_zero; Stats.MaxNetworkRecv := f64_zero;
     Stats.Temperatures := Some {[ "cpu" := f64_of_Z cpu ]}; Stats.ExtraFs := None;
     Stats.GPU := None; Stats.Bandwidth := (bw, bw); Stats.MaxBandwidth := (0, 0)%Z;
     Stats.LoadAvg := (f64_zero, f64_zero, f64_zero); Stats.Battery := (cpu, 1)%Z;
     Stats.NetworkInterfaces := None; Stats.DiskIO := (bw, 0)%Z;
     Stats.MaxDiskIO := (0, 0)%Z; Stats.CpuBreakdown := None; Stats.CpuCoresUsage := None;
     Stats.DiskIoStats := zero6; Stats.MaxDiskIoStats := zero6 |}.

Lemma AverageSystemStats_peaks_witness :
  let m := Stats.MaxCpu (AverageSystemStatsSlice [sample 10 5; sample 90 7]) in
  f64_le (f64_of_Z 90) m = true.
Proof.
  refine (proj2 (proj1 (AverageSystemStats_peaks [sample 10 5; sample 90 7]
    Stats.MaxCpu Stats.Cpu _ _ _ _) (sample 90 7) _)); try done.
  - apply elem_of_cons. by left.
  - intros r [->|[->|[]%elem_of_nil]%elem_of_cons]%elem_of_cons; done.
  - rewrite !elem_of_cons. auto.
Defined.

Lemma AverageSystemStats_counters_witness :
  (Stats.Bandwidth (AverageSystemStatsSlice [sample 10 5; sample 90 8])).1 = 6%Z.
Proof.
  refine (proj1 (AverageSystemStats_counters [sample 10 5; sample 90 8]
    (λ r, (Stats.Bandwidth r).1) 5 8 _ _ _ _ _ _)); try (vm_compute; done).
  - apply elem_of_cons. by left.
  - repeat constructor; vm_compute; done.
Defined.

Lemma AverageSystemStats_battery_witness :
  Stats.Battery (AverageSystemStatsSlice ([sample 10 5] ++ [sample 91 8])) = (50, 1)%Z.
Proof.
  refine (AverageSystemStats_battery [sample 10 5] (sample 91 8) _ _).
  - done.
  - repeat constructor; vm_compute; done.
Defined.

Lemma AverageSystemStats_temperatures_witness :
  Stats.Temperatures (AverageSystemStatsSlice [sample 10 5; sample 91 8]) ≫= lookup "cpu" =
  Some (twoDecimals (f64_div (f64_of_Z 101) (f64_of_Z 2))).
Proof.
  refine (AverageSystemStats_temperatures [sample 10 5; sample 91 8] "cpu" _ _ _); done.
Defined.
End RecordAverages.
