(* ===== verification/LongerRecords.v ===== *)
(** * Creation of longer records ([internal/records/records.go])

    A periodic job condenses 1-minute records into 10-minute ones, those into
    20-minute ones and so on.  The database is third-party code: [StatsDB] is
    the set of queries the job issues and [StatsDBLaws] what it relies on
    (each query is about the rows a table holds; a save appends one row).
    Every query may fail, as in the source. *)

From S2P Require Import Prelude GoFloat Entities RecordAverages.

Inductive collection := system_stats | container_stats.
#[export] Instance collection_eq_dec : EqDecision collection.
Proof. solve_decision. Defined.

(** What is written to the [stats] column. *)
Inductive payload :=
| PSystem (s : Stats.t)
| PContainers (l : list ContainerStats.t).

Record row {Blob : Type} := Row {
  row_id : string;
  row_system : string;
  row_type : string;
  row_created : Z;
  row_stats : Blob;
}.
Arguments row : clear implicits.
Arguments Row {Blob}.

Class StatsDB (DB Blob : Type) := {
  (* [FindCachedCollectionByNameOrId] *)
  has_collection : DB → collection → bool;
  (* SELECT id FROM systems WHERE status='up' *)
  up_systems : DB → list string;
  (* COUNT / SELECT id ... WHERE system AND type AND created > t; [None] on error *)
  count_newer : DB → collection → string → string → Z → option nat;
  select_newer : DB → collection → string → string → Z → option (list string);
  (* SELECT stats ... WHERE id *)
  read_stats : DB → collection → string → option Blob;
  save_stats : DB → collection → string → string → payload → option DB;
  (* [encoding/json] *)
  encode_stats : payload → Blob;
  decode_system : Blob → option Stats.t;
  decode_containers : Blob → option (list ContainerStats.t);
  (* the rows of a table *)
  rows : DB → collection → list (row Blob);
}.

Definition newer {Blob} (sys typ : string) (t : Z) (r : row Blob) : Prop :=
  row_system r = sys ∧ row_type r = typ ∧ (t < row_created r)%Z.
#[export] Instance newer_dec {Blob} sys typ t (r : row Blob) : Decision (newer sys typ t r).
Proof. unfold newer. apply _. Defined.

Class StatsDBLaws (DB Blob : Type) `{StatsDB DB Blob} := {
  count_newer_spec : ∀ db c sys typ t n,
    count_newer db c sys typ t = Some n → n = length (filter (newer sys typ t) (rows db c));
  select_newer_spec : ∀ db c sys typ t ids,
    select_newer db c sys typ t = Some ids →
    ids ≡ₚ row_id <$> filter (newer sys typ t) (rows db c);
  save_stats_spec : ∀ db c sys typ p db',
    save_stats db c sys typ p = Some db' →
    up_systems db' = up_systems db ∧
    (∀ c', c' ≠ c → rows db' c' = rows db c') ∧
    ∃ r, rows db' c = rows db c ++ [r] ∧ row_system r = sys ∧ row_type r = typ ∧
         row_stats r = encode_stats p;
}.

Module LongerRecords.
Section longer.
Context {DB Blob : Type} `{StatsDBLaws DB Blob}.
Context {RO : RangeOrder string} {FC : FloatConv}.
Local Open Scope Z_scope.

Record LongerRecordData := {
  shorterType : string;
  longerType : string;
  longerTimeDuration : Z;
  minShorterRecords : nat;
}.

Definition longerRecordData : list LongerRecordData :=
  [ {| shorterType := "1m"; minShorterRecords := 9; longerType := "10m";
       longerTimeDuration := -10 * Minute |};
    {| shorterType := "10m"; minShorterRecords := 2; longerType := "20m";
       longerTimeDuration := -20 * Minute |};
    {| shorterType := "20m"; minShorterRecords := 6; longerType := "120m";
       longerTimeDuration := -120 * Minute |};
    {| shorterType := "120m"; minShorterRecords := 4; longerType := "480m";
       longerTimeDuration := -480 * Minute |} ].

(** A record that cannot be read or decoded is skipped. *)
Definition AverageSystemStats (db : DB) (records : list string) : Stats.t :=
  RecordAverages.AverageSystemStatsSlice
    (omap (λ id, read_stats db system_stats id ≫= decode_system) records).

(** Here one unreadable record empties the whole result. *)
Definition AverageContainerStats (db : DB) (records : list string)
    : list ContainerStats.t :=
  match mapM (λ id, read_stats db container_stats id ≫= decode_containers) records with
  | Some allStats => RecordAverages.AverageContainerStatsSlice allStats
  | None => []
  end.

Definition average_payload (db : DB) (c : collection) (ids : list string) : payload :=
  match c with
  | system_stats => PSystem (AverageSystemStats db ids)
  | container_stats => PContainers (AverageContainerStats db ids)
  end.

(** Does a recent longer record exist?  A failing count is treated as yes; 10-minute
    records are created on every run and are not checked. *)
Definition longer_exists (now : Z) (db : DB) (sys : string) (rd : LongerRecordData)
    (c : collection) : bool :=
  if bool_decide (longerType rd = "10m") then false
  else match count_newer db c sys (longerType rd) (now + (longerTimeDuration rd + Minute)) with
       | None => true
       | Some n => (0 <? n)%nat
       end.

(** The body of the innermost loop.  [now1] and [now2] are the two [time.Now()]
    readings of the iteration. *)
Definition create_one (now1 now2 : Z) (sys : string) (rd : LongerRecordData)
    (db : DB) (c : collection) : DB :=
  if longer_exists now1 db sys rd c then db
  else match select_newer db c sys (shorterType rd) (now2 + longerTimeDuration rd) with
       | None => db
       | Some ids =>
           if (length ids <? minShorterRecords rd)%nat then db
           else match save_stats db c sys (longerType rd) (average_payload db c ids) with
                | Some db' => db'
                | None => db     (* logged *)
                end
       end.

(** The clock readings of each (system, period) iteration. *)
Definition clock := string → LongerRecordData → Z * Z.

Definition CreateLongerRecords (now : clock) (db : DB) : DB :=
  if has_collection db system_stats && has_collection db container_stats then
    fold_left (λ db sys,
      fold_left (λ db rd,
        fold_left (create_one (now sys rd).1 (now sys rd).2 sys rd)
          [system_stats; container_stats] db)
        longerRecordData db)
      (up_systems db) db
  else db.

(** ** Lemmas *)

(** What one iteration may add. *)
Definition justified (now : clock) (db : DB) (c : collection) (r : row Blob) : Prop :=
  ∃ rd ids,
    rd ∈ longerRecordData ∧ row_type r = longerType rd ∧
    ids ≡ₚ row_id <$> filter
      (newer (row_system r) (shorterType rd)
         ((now (row_system r) rd).2 + longerTimeDuration rd)) (rows db c) ∧
    (minShorterRecords rd <= length ids)%nat ∧
    row_stats r = encode_stats (average_payload db c ids) ∧
    (longerType rd ≠ "10m" →
     filter (newer (row_system r) (longerType rd)
       ((now (row_system r) rd).1 + (longerTimeDuration rd + Minute))) (rows db c) = []).

Lemma create_one_spec now sys rd db c :
  rd ∈ longerRecordData →
  let db' := create_one (now sys rd).1 (now sys rd).2 sys rd db c in
  db' = db ∨
  (up_systems db' = up_systems db ∧ (∀ c', c' ≠ c → rows db' c' = rows db c') ∧
   ∃ r, rows db' c = rows db c ++ [r] ∧ row_system r = sys ∧ justified now db c r).
Proof.
  intros Hrd. unfold create_one. destruct (longer_exists _ _ _ _ _) eqn:Hex; [by left|].
  destruct (select_newer _ _ _ _ _) as [ids|] eqn:Hsel; [|by left].
  destruct (length ids <? minShorterRecords rd)%nat eqn:Hlen; [by left|].
  destruct (save_stats _ _ _ _ _) as [db'|] eqn:Hsave; [right|by left].
  apply save_stats_spec in Hsave as (Hup&Hother&r&Hr&Hsys&Htyp&Hst).
  split_and!; [done..|]. exists r. split_and!; [done..|]. subst sys.
  exists rd, ids. split_and!; [done..| | |done|].
  - by apply select_newer_spec in Hsel.
  - apply Nat.ltb_ge in Hlen. lia.
  - intros Hne. unfold longer_exists in Hex. rewrite bool_decide_eq_false_2 in Hex by done.
    destruct (count_newer _ _ _ _ _) as [n|] eqn:Hn; [|done].
    apply count_newer_spec in Hn. apply Nat.ltb_ge in Hex.
    apply length_zero_iff_nil. lia.
Qed.

(** The job only appends, and only rows that were justified when they were added. *)
Inductive grows (now : clock) : DB → DB → Prop :=
| grows_refl db : grows now db db
| grows_add db0 db db' c r :
    grows now db0 db → r.(row_system) ∈ up_systems db0 →
    up_systems db' = up_systems db → (∀ c', c' ≠ c → rows db' c' = rows db c') →
    rows db' c = rows db c ++ [r] → justified now db c r → grows now db0 db'.

Lemma CreateLongerRecords_grows now db : grows now db (CreateLongerRecords now db).
Proof.
  unfold CreateLongerRecords. destruct (_ && _); [|constructor].
  apply fold_left_inv; [constructor|]. intros db1 sys Hsys Hg1.
  apply fold_left_inv; [done|]. intros db2 rd Hrd Hg2.
  apply fold_left_inv; [done|]. intros db3 c _ Hg3.
  destruct (create_one_spec now sys rd db3 c Hrd) as [->|(?&?&r&?&Hs&?)]; [done|].
  econstructor; [exact Hg3|by rewrite Hs|done..].
Qed.

Lemma grows_rows now db db' c : grows now db db' → rows db c `prefix_of` rows db' c.
Proof.
  induction 1 as [|db0 db1 db2 c' r _ IH _ _ Hother Hr _]; [done|].
  etrans; [exact IH|]. destruct (decide (c = c')) as [->|Hne].
  - rewrite Hr. by apply prefix_app_r.
  - by rewrite Hother.
Qed.

(** ** Properties *)

(** C19: the job never removes or rewrites a record, and every record it adds belongs to a
    system that was up, has the longer type of one of the four periods, condenses at least
    the required number of shorter records of the past period present at that moment, and
    (except for 10-minute records) finds no longer record of its period already there. *)
Theorem CreateLongerRecords_sound now db c :
  ∃ added, rows (CreateLongerRecords now db) c = rows db c ++ added ∧
    Forall (λ r, row_system r ∈ up_systems db ∧
      ∃ dbr, grows now db dbr ∧ justified now dbr c r) added.
Proof.
  pose proof (CreateLongerRecords_grows now db) as Hg.
  induction Hg as [db|db0 db1 db2 c' r Hg [added [Hadd Hall]] Hsys _ Hother Hr Hj].
  { exists []. rewrite app_nil_r. by split. }
  destruct (decide (c = c')) as [->|Hne].
  - exists (added ++ [r]). rewrite Hr, Hadd, app_assoc. split; [done|].
    apply Forall_app. split; [done|]. apply Forall_singleton. eauto.
  - exists added. by rewrite Hother.
Qed.

(** A recent longer record blocks the creation of another one: when one of the type is
    younger than its period less a minute, the iteration leaves the database unchanged. *)
Theorem create_one_idempotent now1 now2 sys rd db c r :
  longerType rd ≠ "10m" → r ∈ rows db c →
  newer sys (longerType rd) (now1 + (longerTimeDuration rd + Minute)) r →
  create_one now1 now2 sys rd db c = db.
Proof.
  intros Hne Hin Hnew. unfold create_one, longer_exists.
  rewrite bool_decide_eq_false_2 by done.
  destruct (count_newer _ _ _ _ _) as [n|] eqn:Hn; [|done].
  apply count_newer_spec in Hn.
  assert (r ∈ filter (newer sys (longerType rd)
    (now1 + (longerTimeDuration rd + Minute))) (rows db c)) as Hr
    by (by apply list_elem_of_filter).
  destruct (filter _ (rows db c)); [by apply elem_of_nil in Hr|]. by subst n.
Qed.
End longer.

(** ** A database that meets the contract *)

Record table_db := {
  tbl_up : list string;
  tbl_rows : collection → list (row payload);
  tbl_clock : Z;
}.

#[export] Instance table_db_ops : StatsDB table_db payload := {|
  has_collection _ _ := true;
  up_systems db := tbl_up db;
  count_newer db c sys typ t := Some (length (filter (newer sys typ t) (tbl_rows db c)));
  select_newer db c sys typ t := Some (row_id <$> filter (newer sys typ t) (tbl_rows db c));
  read_stats db c id :=
    row_stats <$> list_find (λ r, row_id r = id) (tbl_rows db c) ≫= λ '(_, r), Some r;
  save_stats db c sys typ p := Some {|
    tbl_up := tbl_up db;
    tbl_rows c' := if decide (c' = c)
      then tbl_rows db c ++ [Row "new" sys typ (tbl_clock db) p] else tbl_rows db c';
    tbl_clock := tbl_clock db |};
  encode_stats p := p;
  decode_system p := match p with PSystem s => Some s | _ => None end;
  decode_containers p := match p with PContainers l => Some l | _ => None end;
  rows := tbl_rows;
|}.

#[export] Instance table_db_laws : StatsDBLaws table_db payload.
Proof.
  split.
  - by intros db c sys typ t n [= <-].
  - by intros db c sys typ t ids [= <-].
  - intros db c sys typ p db' [= <-]. split_and!; [done| |].
    + intros c' Hne. simpl. by rewrite decide_False.
    + eexists. simpl. rewrite decide_True by done. done.
Qed.

(** Nine 1-minute records of a system that is up become one 10-minute record. *)
Example CreateLongerRecords_runs :
  let one i := Row "r" "s1" "1m" (Z.of_nat i * Minute) (PSystem (RecordAverages.sample 10 5)) in
  let db := {| tbl_up := ["s1"];
               tbl_rows c := match c with
                             | system_stats => one <$> seq 1 9 | container_stats => [] end;
               tbl_clock := (10 * Minute)%Z |} in
  let db' := CreateLongerRecords (λ _ _, (10 * Minute, 10 * Minute)%Z) db in
  (row_type <$> tbl_rows db' system_stats) = replicate 9 "1m" ++ ["10m"] ∧
  tbl_rows db' container_stats = [].
Proof. vm_compute. done. Qed.

Definition db_recent : table_db := {|
  tbl_up := ["s1"];
  tbl_rows c := [Row "a" "s1" "20m" (100 * Minute) (PContainers [])];
  tbl_clock := (105 * Minute)%Z |}.

Lemma create_one_idempotent_witness :
  let rd := {| shorterType := "10m"; minShorterRecords := 2; longerType := "20m";
               longerTimeDuration := (-20 * Minute)%Z |} in
  create_one (105 * Minute) (105 * Minute) "s1" rd db_recent system_stats = db_recent.
Proof.
  intros rd.
  refine (create_one_idempotent (105 * Minute) (105 * Minute) "s1" rd db_recent system_stats
    (Row "a" "s1" "20m" (100 * Minute) (PContainers [])) _ _ _).
  - done.
  - apply elem_of_cons. by left.
  - split_and!; done.
Defined.

(** Nine one-minute records and one of ten minutes, read at minute 110. *)
Definition db_busy : table_db := {|
  tbl_up := ["s1"];
  tbl_rows c := match c with
    | system_stats => Row "t" "s1" "10m" (99 * Minute) (PSystem (RecordAverages.sample 10 5)) ::
        ((λ i, Row "r" "s1" "1m" (Z.of_nat (100 + i) * Minute) (PSystem (RecordAverages.sample 10 5))) <$> seq 1 9)
    | container_stats => [] end;
  tbl_clock := (110 * Minute)%Z |}.

(** A 10-minute record is added and, with it and the one before, a 20-minute record. *)
Lemma CreateLongerRecords_sound_witness :
  ∃ added, rows (CreateLongerRecords (λ _ _, (110 * Minute, 110 * Minute)%Z) db_busy)
             system_stats = rows db_busy system_stats ++ added ∧
    row_type <$> added = ["10m"; "20m"] ∧
    Forall (λ r, row_system r = "s1" ∧ ∃ dbr,
      grows (λ _ _, (110 * Minute, 110 * Minute)%Z) db_busy dbr ∧
      justified (λ _ _, (110 * Minute, 110 * Minute)%Z) dbr system_stats r) added.
Proof.
  destruct (CreateLongerRecords_sound (λ _ _, (110 * Minute, 110 * Minute)%Z) db_busy
    system_stats) as (added&Hr&Hall).
  exists added. split; [exact Hr|]. split.
  - apply (f_equal (fmap row_type)) in Hr. rewrite fmap_app in Hr.
    apply (app_inv_head (row_type <$> rows db_busy system_stats)). rewrite <- Hr.
    vm_compute. reflexivity.
  - eapply Forall_impl; [exact Hall|]. intros r [Hs Hj]. split; [|exact Hj].
    by apply list_elem_of_singleton in Hs.
Defined.
End LongerRecords.
