(* ===== verification/Retention.v ===== *)
(** * Deletion of old records ([internal/records/records_deletion.go])

    The cleanup job issues one DELETE statement per table.  The database is a
    parameter ([RetentionDB]): what the job relies on is that a DELETE with a
    condition keeps exactly the rows that do not satisfy it, and that a GROUP BY
    query counts the rows of each user.  Statements may fail, as in the source. *)

From S2P Require Import Prelude GoFloat Entities LongerRecords.

(** Rows of the other tables the job cleans. *)
Record container_row := { cr_id : string; cr_updated : Z (* Unix milliseconds *) }.
Record service_row := { sr_id : string; sr_updated : Z }.
Record quiet_row := { qr_type : string; qr_end : Z }.
Record history_row := { hr_id : string; hr_user : string; hr_created : Z }.
#[export] Instance history_row_eq_dec : EqDecision history_row.
Proof. solve_decision. Defined.

(** [DELETE FROM table WHERE cond]: [None] is a database error. *)
Class RetentionDB (DB Blob : Type) := {
  del_stats : DB → collection → (row Blob → bool) → option DB;
  del_containers : DB → (container_row → bool) → option DB;
  del_services : DB → (service_row → bool) → option DB;
  del_quiet : DB → (quiet_row → bool) → option DB;
  del_history : DB → (history_row → bool) → option DB;
  (* SELECT user ... GROUP BY user HAVING count > n *)
  users_over : DB → nat → option (list string);
  (* SELECT id ... WHERE user ORDER BY created DESC LIMIT n *)
  newest_ids : DB → string → nat → list string;
  r_stats : DB → collection → list (row Blob);
  r_containers : DB → list container_row;
  r_services : DB → list service_row;
  r_quiet : DB → list quiet_row;
  r_history : DB → list history_row;
}.

Definition of_user (u : string) (r : history_row) : Prop := hr_user r = u.
#[export] Instance of_user_dec u r : Decision (of_user u r).
Proof. unfold of_user. apply _. Defined.

Class RetentionDBLaws (DB Blob : Type) `{RetentionDB DB Blob} := {
  del_stats_spec : ∀ db c p db', del_stats db c p = Some db' →
    r_stats db' c = List.filter (λ r, negb (p r)) (r_stats db c) ∧
    (∀ c', c' ≠ c → r_stats db' c' = r_stats db c');
  del_history_spec : ∀ db p db', del_history db p = Some db' →
    r_history db' = List.filter (λ r, negb (p r)) (r_history db);
  del_containers_spec : ∀ db p db', del_containers db p = Some db' →
    r_containers db' = List.filter (λ r, negb (p r)) (r_containers db) ∧
    ∀ c, r_stats db' c = r_stats db c;
  del_services_spec : ∀ db p db', del_services db p = Some db' →
    r_services db' = List.filter (λ r, negb (p r)) (r_services db) ∧
    ∀ c, r_stats db' c = r_stats db c;
  del_quiet_spec : ∀ db p db', del_quiet db p = Some db' →
    r_quiet db' = List.filter (λ r, negb (p r)) (r_quiet db) ∧
    ∀ c, r_stats db' c = r_stats db c;
  del_history_stats : ∀ db p db', del_history db p = Some db' →
    ∀ c, r_stats db' c = r_stats db c;
  users_over_spec : ∀ db n us, users_over db n = Some us →
    NoDup us ∧ ∀ u, u ∈ us ↔ (n < length (filter (of_user u) (r_history db)))%nat;
  (* [id] is the primary key *)
  newest_ids_spec : ∀ db u n, NoDup (hr_id <$> r_history db) →
    length (newest_ids db u n) = Nat.min n (length (filter (of_user u) (r_history db))) ∧
    NoDup (newest_ids db u n) ∧
    (∀ i, i ∈ newest_ids db u n → ∃ r, r ∈ r_history db ∧ hr_id r = i ∧ hr_user r = u) ∧
    (∀ r r', r ∈ r_history db → r' ∈ r_history db → hr_user r = u → hr_user r' = u →
       hr_id r ∈ newest_ids db u n → hr_id r' ∉ newest_ids db u n →
       (hr_created r' ≤ hr_created r)%Z);
}.

Module Retention.
Section retention.
Context {DB Blob : Type} `{RetentionDBLaws DB Blob}.
Local Open Scope Z_scope.

(** ** Statistics *)

Record RecordDeletionData := { recordType : string; retention : Z }.

Definition recordData : list RecordDeletionData :=
  [ {| recordType := "1m"; retention := Hour |};
    {| recordType := "10m"; retention := 12 * Hour |};
    {| recordType := "20m"; retention := 24 * Hour |};
    {| recordType := "120m"; retention := 7 * 24 * Hour |};
    {| recordType := "480m"; retention := 30 * 24 * Hour |} ].

(** The WHERE clause: one parameterised condition per record type, joined with OR. *)
Definition old_stats (now : Z) (r : row Blob) : bool :=
  existsb (λ rd, bool_decide (row_type r = recordType rd) &&
                 (row_created r <? now + - retention rd)) recordData.

(** The database and whether the function succeeded: what was deleted before an error
    stays deleted. *)
Definition deleteOldSystemStats (now : Z) (db : DB) : DB * bool :=
  match del_stats db system_stats (old_stats now) with
  | None => (db, false)
  | Some db1 =>
      match del_stats db1 container_stats (old_stats now) with
      | None => (db1, false)
      | Some db2 => (db2, true)
      end
  end.

(** ** Containers, services, quiet hours *)

(** [Time.UnixMilli] *)
Definition UnixMilli (t : Z) : Z := t / Millisecond.

Definition deleteOldSystemdServiceRecords (now : Z) (db : DB) : option DB :=
  del_services db (λ r, sr_updated r <? UnixMilli (now + -20 * Minute)).

Definition deleteOldContainerRecords (now : Z) (db : DB) : option DB :=
  del_containers db (λ r, cr_updated r <? UnixMilli (now + -10 * Minute)).

Definition deleteOldQuietHours (now : Z) (db : DB) : option DB :=
  del_quiet db (λ r, bool_decide (qr_type r = "one-time") && (qr_end r <? now)).

(** ** Alert history *)

Fixpoint trim_users (countToKeep : nat) (users : list string) (db : DB) : DB * bool :=
  match users with
  | [] => (db, true)
  | u :: users =>
      match del_history db (λ r, bool_decide (hr_user r = u) &&
              bool_decide (hr_id r ∉ newest_ids db u countToKeep)) with
      | None => (db, false)
      | Some db' => trim_users countToKeep users db'
      end
  end.

Definition deleteOldAlertsHistory (db : DB) (countToKeep countBeforeDeletion : nat)
    : DB * bool :=
  match users_over db countBeforeDeletion with
  | None => (db, false)
  | Some users => trim_users countToKeep users db
  end.

(** ** The job: each failure is logged and the next step runs on *)

(** A single statement that fails leaves the data as it was. *)
Definition or_keep (f : DB → option DB) (db : DB) : DB := default db (f db).

(** [now] gives the clock reading of each step. *)
Definition DeleteOldRecords (now : nat → Z) (db : DB) : DB :=
  let db := (deleteOldSystemStats (now 0%nat) db).1 in
  let db := or_keep (deleteOldContainerRecords (now 1%nat)) db in
  let db := or_keep (deleteOldSystemdServiceRecords (now 2%nat)) db in
  let db := (deleteOldAlertsHistory db 200 250).1 in
  or_keep (deleteOldQuietHours (now 3%nat)) db.

(** ** Lemmas *)

Lemma old_stats_spec now r :
  old_stats now r = true ↔
  ∃ rd, rd ∈ recordData ∧ row_type r = recordType rd ∧ row_created r < now - retention rd.
Proof.
  unfold old_stats. rewrite existsb_exists. setoid_rewrite list_elem_of_In.
  split; intros (rd&Hin&Hrd); exists rd.
  - zbool. apply bool_decide_eq_true in H1. split_and!; [done..|lia].
  - destruct Hrd as [Ht Hc]. split; [done|].
    rewrite bool_decide_eq_true_2 by done. apply Z.ltb_lt. lia.
Qed.

Lemma deleteOldSystemStats_rows now db db' c :
  deleteOldSystemStats now db = (db', true) →
  r_stats db' c = List.filter (λ r, negb (old_stats now r)) (r_stats db c).
Proof.
  unfold deleteOldSystemStats. destruct (del_stats db _ _) as [db1|] eqn:H1; [|done].
  destruct (del_stats db1 _ _) as [db2|] eqn:H2; [|done]. intros [= <-].
  apply del_stats_spec in H1 as [H1 H1o], H2 as [H2 H2o].
  destruct c; [by rewrite H2o, H1|by rewrite H2, H1o].
Qed.

Lemma filter_subset {A} (p q : A → bool) (l : list A) :
  (∀ x, p x = true → q x = true) →
  List.filter p (List.filter q l) = List.filter p l.
Proof.
  intros Hpq. induction l as [|x l IH]; simpl; [done|].
  destruct (q x) eqn:Hq; simpl; [by rewrite IH|]. rewrite IH.
  destruct (p x) eqn:Hp; [|done]. by rewrite (Hpq _ Hp) in Hq.
Qed.

Lemma filter_swap {A} (p q q' : A → bool) (l : list A) :
  (∀ x, p x = true → q x = q' x) →
  List.filter p (List.filter q l) = List.filter q' (List.filter p l).
Proof.
  intros Hq. induction l as [|x l IH]; simpl; [done|].
  destruct (p x) eqn:Hp; simpl.
  - rewrite <- (Hq x Hp). destruct (q x); simpl; rewrite ?Hp; by rewrite IH.
  - destruct (q x); simpl; rewrite ?Hp; by rewrite IH.
Qed.

Lemma filter_bool {A} (P : A → Prop) `{∀ x, Decision (P x)} (l : list A) :
  filter P l = List.filter (λ x, bool_decide (P x)) l.
Proof.
  induction l as [|x l IH]; [done|]. rewrite filter_cons. simpl.
  by case_decide; case_bool_decide; rewrite ?IH.
Qed.

(** Each period's window lies inside the retention of the records it condenses. *)
Lemma window_retained rd :
  rd ∈ LongerRecords.longerRecordData →
  ∃ rt, rt ∈ recordData ∧ recordType rt = LongerRecords.shorterType rd ∧
        - LongerRecords.longerTimeDuration rd <= retention rt ∧
        ∀ rt', rt' ∈ recordData → recordType rt' = recordType rt → rt' = rt.
Proof.
  unfold LongerRecords.longerRecordData. rewrite !elem_of_cons, elem_of_nil.
  assert (∀ rt rt', rt ∈ recordData → rt' ∈ recordData →
    recordType rt' = recordType rt → rt' = rt) as Huniq.
  { unfold recordData. intros rt rt'. rewrite !elem_of_cons, !elem_of_nil.
    intros. destruct_or?; by simplify_eq. }
  intros Hrd; destruct_or?; simplify_eq; simpl;
    [ exists {| recordType := "1m"; retention := Hour |}
    | exists {| recordType := "10m"; retention := 12 * Hour |}
    | exists {| recordType := "20m"; retention := 24 * Hour |}
    | exists {| recordType := "120m"; retention := 7 * 24 * Hour |} ];
    (split_and!; [unfold recordData; rewrite !elem_of_cons; tauto|done|done|]);
    intros; apply Huniq; try done; unfold recordData; rewrite !elem_of_cons; tauto.
Qed.

(** ** Properties *)

(** The statistics cleanup keeps a record exactly when its type has no retention rule
    or it is no older than the retention of its type. *)
Theorem deleteOldSystemStats_exact now db db' c r :
  deleteOldSystemStats now db = (db', true) →
  r ∈ r_stats db' c ↔
  r ∈ r_stats db c ∧
  ∀ rd, rd ∈ recordData → row_type r = recordType rd → now - retention rd <= row_created r.
Proof.
  intros Hdel. rewrite (deleteOldSystemStats_rows _ _ _ _ Hdel), !list_elem_of_In.
  rewrite filter_In, negb_true_iff, <- not_true_iff_false, old_stats_spec.
  split; intros [Hin Hr]; (split; [done|]).
  - intros rd Hrd Ht. apply Z.nlt_ge. intros ?. apply Hr. eauto.
  - intros (rd&Hrd&Ht&?). specialize (Hr rd Hrd Ht). lia.
Qed.

(** C20: cleaning up first never starves the creation of longer records: at the same
    instant, the shorter records of every period are all still there. *)
Theorem retention_keeps_windows now db db' c sys rd :
  rd ∈ LongerRecords.longerRecordData →
  deleteOldSystemStats now db = (db', true) →
  filter (newer sys (LongerRecords.shorterType rd)
    (now + LongerRecords.longerTimeDuration rd)) (r_stats db' c) =
  filter (newer sys (LongerRecords.shorterType rd)
    (now + LongerRecords.longerTimeDuration rd)) (r_stats db c).
Proof.
  intros Hrd Hdel. rewrite (deleteOldSystemStats_rows _ _ _ _ Hdel), !filter_bool.
  apply filter_subset. intros r Hnew%bool_decide_eq_true.
  apply negb_true_iff, not_true_iff_false. rewrite old_stats_spec.
  intros (rt'&Hrt'&Ht&Hold).
  destruct (window_retained rd Hrd) as (rt&Hrt&Hty&Hdur&Huniq).
  destruct Hnew as (_&Hr&Hc).
  assert (rt' = rt) as -> by (apply Huniq; congruence). lia.
Qed.

Lemma trim_users_sublist keep users db db' :
  trim_users keep users db = (db', true) → r_history db' `sublist_of` r_history db.
Proof.
  revert db. induction users as [|u users IH]; intros db; simpl; [by intros [= <-]|].
  destruct (del_history db _) as [db1|] eqn:H1; [|done]. intros H2. apply del_history_spec in H1.
  etrans; [exact (IH _ H2)|]. rewrite H1. apply filter_sublist_bool.
Qed.

Lemma trim_users_other keep users db db' u :
  u ∉ users → trim_users keep users db = (db', true) →
  filter (of_user u) (r_history db') = filter (of_user u) (r_history db).
Proof.
  intros Hu. revert db. induction users as [|u' us IH]; intros db; simpl; [by intros [= <-]|].
  apply not_elem_of_cons in Hu as [Hne Hu].
  destruct (del_history db _) as [db1|] eqn:H1; [|done]. intros H2. rewrite (IH Hu _ H2).
  apply del_history_spec in H1. rewrite H1, !filter_bool. apply filter_subset.
  intros r Hr%bool_decide_eq_true. unfold of_user in Hr.
  rewrite bool_decide_eq_false_2 by congruence. done.
Qed.

Lemma trim_users_own keep users db db' u :
  u ∈ users → NoDup users → trim_users keep users db = (db', true) →
  ∃ db1, r_history db1 `sublist_of` r_history db ∧
    filter (of_user u) (r_history db1) = filter (of_user u) (r_history db) ∧
    filter (of_user u) (r_history db') =
    filter (λ r, hr_id r ∈ newest_ids db1 u keep) (filter (of_user u) (r_history db)).
Proof.
  revert db. induction users as [|u' us IH]; intros db Hu Hnd; simpl.
  { by apply elem_of_nil in Hu. }
  apply NoDup_cons in Hnd as [Hu' Hnd].
  destruct (del_history db _) as [db1|] eqn:H1; [|done]. intros H2.
  apply elem_of_cons in Hu as [->|Hu].
  - exists db. split_and!; [done..|]. rewrite (trim_users_other _ _ _ _ _ Hu' H2).
    apply del_history_spec in H1. rewrite H1, !filter_bool.
    apply filter_swap. intros r Hr%bool_decide_eq_true.
    rewrite (bool_decide_eq_true_2 (hr_user r = u')) by done. simpl.
    case_bool_decide; [by rewrite bool_decide_eq_false_2|].
    rewrite bool_decide_eq_true_2; [done|].
    destruct (decide (hr_id r ∈ newest_ids db u' keep)); tauto.
  - destruct (IH db1 Hu Hnd H2) as (db2&Hsub&Hsame&Hown).
    apply del_history_spec in H1.
    assert (filter (of_user u) (r_history db1) = filter (of_user u) (r_history db)) as Heq.
    { rewrite H1, !filter_bool. apply filter_subset.
      intros r Hr%bool_decide_eq_true. unfold of_user in Hr.
      rewrite bool_decide_eq_false_2 by (intros Heq; apply Hu'; congruence). done. }
    exists db2. rewrite <- Heq. split_and!; [|done..].
    etrans; [exact Hsub|]. rewrite H1. apply filter_sublist_bool.
Qed.

(** A user with at most [before] (250) history entries keeps all of them. *)
Theorem deleteOldAlertsHistory_untouched db db' keep before u :
  deleteOldAlertsHistory db keep before = (db', true) →
  (length (filter (of_user u) (r_history db)) <= before)%nat →
  filter (of_user u) (r_history db') = filter (of_user u) (r_history db).
Proof.
  unfold deleteOldAlertsHistory. destruct (users_over db before) as [us|] eqn:Hus; [|done].
  intros Htrim Hle.
  apply users_over_spec in Hus as [_ Hus].
  eapply trim_users_other; [|done]. rewrite Hus. lia.
Qed.

(** A user over the limit is cut to exactly [keep] (200) entries, and no deleted entry
    of the user is newer than a kept one. *)
Theorem deleteOldAlertsHistory_trims db db' keep before u :
  NoDup (hr_id <$> r_history db) →
  deleteOldAlertsHistory db keep before = (db', true) →
  (before < length (filter (of_user u) (r_history db)))%nat → (keep <= before)%nat →
  length (filter (of_user u) (r_history db')) = keep ∧
  ∀ r r', r ∈ filter (of_user u) (r_history db') → r' ∈ filter (of_user u) (r_history db) →
    r' ∉ r_history db' → hr_created r' <= hr_created r.
Proof.
  intros Hnd. unfold deleteOldAlertsHistory.
  destruct (users_over db before) as [us|] eqn:Hus; [|done]. intros Htrim Hlt Hk.
  apply users_over_spec in Hus as [Hndu Hus].
  assert (u ∈ us) as Hu by (by rewrite Hus).
  destruct (trim_users_own _ _ _ _ _ Hu Hndu Htrim) as (db1&Hsub&Hsame&Hown).
  assert (NoDup (hr_id <$> r_history db1)) as Hnd1.
  { by eapply NoDup_fmap_sublist. }
  destruct (newest_ids_spec db1 u keep Hnd1) as (Hlen&Hndi&Hin&Hnew).
  rewrite Hsame in Hlen. rewrite Hown. split.
  - transitivity (length (newest_ids db1 u keep)); [|rewrite Hlen; lia].
    rewrite <- (length_fmap hr_id). apply Permutation_length, NoDup_Permutation; [|done|].
    + eapply NoDup_fmap_sublist; [|exact Hnd]. etrans; apply sublist_filter.
    + intros i. rewrite list_elem_of_fmap. setoid_rewrite list_elem_of_filter. split.
      * intros (r&->&?&?). done.
      * intros Hi. destruct (Hin i Hi) as (r&Hr&<-&Hru). exists r. split_and!; [done..|].
        rewrite <- Hsame. by apply list_elem_of_filter.
  - intros r r' Hr Hr' Hno.
    apply list_elem_of_filter in Hr as [Hr1 Hr2].
    rewrite <- Hsame in Hr2, Hr'.
    apply list_elem_of_filter in Hr2 as [? ?]. pose proof Hr' as Hr0.
    apply list_elem_of_filter in Hr' as [? ?].
    eapply Hnew; [| |done|done|exact Hr1|]; [done..|].
    intros Hi. apply Hno. eapply (list_elem_of_filter (of_user u)).
    rewrite Hown. rewrite list_elem_of_filter. by rewrite <- Hsame.
Qed.
End retention.

(** ** A database that meets the contract *)

Record table_db := {
  t_stats : collection → list (row payload);
  t_containers : list container_row;
  t_services : list service_row;
  t_quiet : list quiet_row;
  t_history : list history_row;
}.

Definition newest_first (r r' : history_row) : Prop := (hr_created r' ≤ hr_created r)%Z.
#[export] Instance newest_first_dec : RelDecision newest_first.
Proof. intros r r'. unfold newest_first. apply _. Defined.
#[export] Instance newest_first_total : Total newest_first.
Proof. intros r r'. unfold newest_first. lia. Qed.
#[export] Instance newest_first_trans : Transitive newest_first.
Proof. intros ???. unfold newest_first. lia. Qed.

Definition sorted_history (db : table_db) (u : string) : list history_row :=
  merge_sort newest_first (filter (of_user u) (t_history db)).

#[export] Instance table_db_ops : RetentionDB table_db payload := {|
  del_stats db c p := Some {|
    t_stats c' := if decide (c' = c) then List.filter (λ r, negb (p r)) (t_stats db c)
                  else t_stats db c';
    t_containers := t_containers db; t_services := t_services db; t_quiet := t_quiet db;
    t_history := t_history db |};
  del_containers db p := Some {|
    t_stats := t_stats db; t_containers := List.filter (λ r, negb (p r)) (t_containers db);
    t_services := t_services db; t_quiet := t_quiet db; t_history := t_history db |};
  del_services db p := Some {|
    t_stats := t_stats db; t_containers := t_containers db;
    t_services := List.filter (λ r, negb (p r)) (t_services db); t_quiet := t_quiet db;
    t_history := t_history db |};
  del_quiet db p := Some {|
    t_stats := t_stats db; t_containers := t_containers db; t_services := t_services db;
    t_quiet := List.filter (λ r, negb (p r)) (t_quiet db); t_history := t_history db |};
  del_history db p := Some {|
    t_stats := t_stats db; t_containers := t_containers db; t_services := t_services db;
    t_quiet := t_quiet db; t_history := List.filter (λ r, negb (p r)) (t_history db) |};
  users_over db n := Some (filter
    (λ u, (n < length (filter (of_user u) (t_history db)))%nat)
    (remove_dups (hr_user <$> t_history db)));
  newest_ids db u n := hr_id <$> take n (sorted_history db u);
  r_stats := t_stats; r_containers := t_containers; r_services := t_services;
  r_quiet := t_quiet; r_history := t_history;
|}.

Lemma elem_of_sorted_history db u r :
  r ∈ sorted_history db u ↔ r ∈ t_history db ∧ hr_user r = u.
Proof.
  unfold sorted_history. rewrite merge_sort_Permutation, list_elem_of_filter.
  unfold of_user. tauto.
Qed.

Lemma sorted_split n db u r r' :
  r ∈ take n (sorted_history db u) → r' ∈ sorted_history db u →
  r' ∉ take n (sorted_history db u) → newest_first r r'.
Proof.
  intros Hr Hr' Hno.
  assert (StronglySorted newest_first (sorted_history db u)) as Hs
    by (apply StronglySorted_merge_sort; apply _).
  rewrite <- (take_drop n (sorted_history db u)) in Hs, Hr'.
  apply elem_of_app in Hr' as [?|Hr']; [done|].
  revert Hr Hr' Hs. generalize (drop n (sorted_history db u)).
  generalize (take n (sorted_history db u)). clear.
  intros l k Hr Hr'. induction l as [|x l IH]; simpl; [by apply elem_of_nil in Hr|].
  inversion 1 as [|?? Hl Hx]; subst. apply elem_of_cons in Hr as [->|Hr]; [|by apply IH].
  rewrite Forall_forall in Hx. apply Hx, elem_of_app. by right.
Qed.

#[export] Instance table_db_laws : RetentionDBLaws table_db payload.
Proof.
  split; try (by intros ??? [= <-]); try (by intros db p db' [= <-]; split).
  - intros db c p db' [= <-]. simpl. rewrite decide_True by done. split; [done|].
    intros c' ?. by rewrite decide_False.
  - intros db n us [= <-]. split; [apply NoDup_filter, NoDup_remove_dups|].
    intros u. rewrite list_elem_of_filter, elem_of_remove_dups. split; [tauto|].
    intros Hu. split; [done|]. destruct (filter (of_user u) (t_history db)) as [|r l] eqn:Hf.
    { simpl in *. rewrite Hf in Hu. simpl in Hu. lia. }
    assert (r ∈ filter (of_user u) (t_history db)) as Hr.
    { rewrite Hf. apply elem_of_cons. by left. }
    apply list_elem_of_filter in Hr as [<- Hr]. by apply list_elem_of_fmap_2.
  - intros db u n Hnd. simpl in *.
    assert (take n (sorted_history db u) `sublist_of` sorted_history db u) as Hsub
      by apply sublist_take.
    assert (NoDup (hr_id <$> sorted_history db u)) as Hnds.
    { unfold sorted_history. rewrite merge_sort_Permutation.
      eapply NoDup_fmap_sublist; [apply sublist_filter|done]. }
    split_and!.
    + rewrite length_fmap, length_take. unfold sorted_history.
      by rewrite (merge_sort_Permutation newest_first (filter _ _)).
    + by eapply NoDup_fmap_sublist.
    + intros i (r&->&Hr)%list_elem_of_fmap. exists r.
      eapply elem_of_sublist in Hr; [|exact Hsub]. apply elem_of_sorted_history in Hr. tauto.
    + intros r r' Hr Hr' Hu Hu' (r0&Heq&Hr0)%list_elem_of_fmap Hno.
      assert (r0 = r) as ->.
      { pose proof (elem_of_sublist _ _ _ Hr0 Hsub) as [??]%elem_of_sorted_history.
        by eapply (NoDup_fmap_elem hr_id (t_history db)). }
      apply (sorted_split n db u r r'); [done|by apply elem_of_sorted_history|].
      intros Hin. apply Hno. by apply list_elem_of_fmap_2.
Qed.

(** ** Witnesses *)

Definition stat_row (t : string) (created : Z) : row payload :=
  Row "r1" "s1" t created (PSystem Stats.zero).

Definition tdb : table_db := {|
  t_stats c := match c with
               | system_stats => [stat_row "1m" 0; stat_row "1m" (2 * Hour); stat_row "10m" 0]
               | container_stats => []
               end;
  t_containers := []; t_services := []; t_quiet := [];
  t_history := [ {| hr_id := "h1"; hr_user := "u1"; hr_created := 1 |};
                 {| hr_id := "h2"; hr_user := "u1"; hr_created := 3 |};
                 {| hr_id := "h3"; hr_user := "u1"; hr_created := 2 |};
                 {| hr_id := "h4"; hr_user := "u2"; hr_created := 1 |} ] |}.

Definition tdb_kept : table_db := (deleteOldSystemStats (Blob := payload) (2 * Hour) tdb).1.
Definition tdb_trimmed : table_db := (deleteOldAlertsHistory (Blob := payload) tdb 1 2).1.

Lemma deleteOldSystemStats_exact_witness :
  stat_row "1m" (2 * Hour) ∈ r_stats tdb_kept system_stats ∧
  stat_row "1m" 0 ∉ r_stats tdb_kept system_stats.
Proof.
  pose proof (λ r, deleteOldSystemStats_exact (2 * Hour) tdb tdb_kept system_stats r eq_refl) as He.
  split.
  - apply He. split; [apply elem_of_cons; right; apply elem_of_cons; by left|].
    intros rd Hrd Ht. unfold recordData in Hrd. rewrite !elem_of_cons, elem_of_nil in Hrd.
    destruct_or?; simplify_eq; vm_compute; discriminate.
  - rewrite He. intros [_ Hr].
    apply (Hr {| recordType := "1m"; retention := Hour |}); [by apply elem_of_cons; left|done|].
    reflexivity.
Defined.

Lemma retention_keeps_windows_witness :
  let keep := newer "s1" "1m" (2 * Hour + -10 * Minute)%Z in
  filter keep (r_stats tdb_kept system_stats) = filter keep (r_stats tdb system_stats) ∧
  length (filter keep (r_stats tdb_kept system_stats)) = 1%nat.
Proof.
  split; [|vm_compute; reflexivity].
  refine (retention_keeps_windows (2 * Hour) tdb tdb_kept system_stats "s1"
    {| LongerRecords.shorterType := "1m"; LongerRecords.longerType := "10m";
       LongerRecords.longerTimeDuration := -10 * Minute;
       LongerRecords.minShorterRecords := 9 |} _ eq_refl).
  apply elem_of_cons. by left.
Defined.

Lemma deleteOldAlertsHistory_untouched_witness :
  filter (of_user "u2") (r_history tdb_trimmed) = filter (of_user "u2") (r_history tdb).
Proof.
  apply (deleteOldAlertsHistory_untouched tdb tdb_trimmed 1 2 "u2").
  - vm_compute. reflexivity.
  - vm_compute. lia.
Defined.

Lemma deleteOldAlertsHistory_trims_witness :
  length (filter (of_user "u1") (r_history tdb_trimmed)) = 1%nat.
Proof.
  refine (proj1 (deleteOldAlertsHistory_trims tdb tdb_trimmed 1 2 "u1" _ _ _ _)).
  - apply (bool_decide_unpack _). vm_compute. done.
  - vm_compute. reflexivity.
  - vm_compute. lia.
  - lia.
Defined.
End Retention.
