(* ===== verification/AlertStore.v ===== *)
(** * Alert records, their cache and their history
    ([internal/alerts/alerts_cache.go], [alerts_history.go], [alerts.go])

    Alerts live in the database (third-party, behind [AlertsDB]).  The hub keeps
    an in-memory cache of them, [AlertsCache], in sync through record hooks, and
    writes a history entry whenever an alert changes its triggered state.  The
    hooks run inside every save, so [saveRecord] and [deleteRecord] below are
    the database operation followed by the hooks in their binding order. *)

From S2P Require Import Prelude GoFloat.

(** A row of the [alerts] collection. *)
Record AlertRecord := {
  ar_id : string;
  ar_system : string;
  ar_user : string;
  ar_name : string;
  ar_value : f64;
  ar_triggered : bool;
  ar_min : Z;
}.

(** A row of the [alerts_history] collection. *)
Record HistoryRow := {
  h_id : string;
  h_alert : string;
  h_user : string;
  h_system : string;
  h_name : string;
  h_value : f64;
  h_resolved : option Z;
}.

(** The queries the alert manager issues; [None] is an error (or no row). *)
Class AlertsDB (DB : Type) := {
  findAllAlerts : DB → option (list AlertRecord);
  findAlertsOf : DB → string → option (list AlertRecord);
  findAlert : DB → string → option AlertRecord;
  saveAlert : DB → AlertRecord → option DB;
  deleteAlert : DB → string → option DB;
  findOpenHistory : DB → string → option HistoryRow;
  saveHistory : DB → HistoryRow → option DB;
  createHistory : DB → AlertRecord → option DB;
  alerts : DB → gmap string AlertRecord;
  history : DB → list HistoryRow;
}.

Definition open_row (id : string) (r : HistoryRow) : bool :=
  bool_decide (h_alert r = id) && match h_resolved r with None => true | Some _ => false end.

Definition open_count {DB} `{AlertsDB DB} (db : DB) (id : string) : nat :=
  length (List.filter (open_row id) (history db)).

Class AlertsDBLaws (DB : Type) `{AlertsDB DB} := {
  alerts_key : ∀ db id r, alerts db !! id = Some r → ar_id r = id;
  findAllAlerts_spec : ∀ db l, findAllAlerts db = Some l → l ≡ₚ (map_to_list (alerts db)).*2;
  findAlertsOf_spec : ∀ db sys l, findAlertsOf db sys = Some l →
    l ≡ₚ (map_to_list (filter (λ kr, ar_system kr.2 = sys) (alerts db))).*2;
  findAlert_spec : ∀ db id r, findAlert db id = Some r → alerts db !! id = Some r;
  saveAlert_spec : ∀ db r db', saveAlert db r = Some db' →
    alerts db' = <[ar_id r := r]> (alerts db) ∧ history db' = history db;
  deleteAlert_spec : ∀ db id db', deleteAlert db id = Some db' →
    alerts db' = delete id (alerts db) ∧ history db' = history db;
  (* the first row with [alert_id = id && resolved = null] *)
  findOpenHistory_spec : ∀ db id r, findOpenHistory db id = Some r →
    ∃ l k, history db = l ++ r :: k ∧ open_row id r = true ∧
           Forall (λ r', open_row id r' = false) l;
  (* a row is saved in place *)
  saveHistory_spec : ∀ db r db', saveHistory db r = Some db' →
    alerts db' = alerts db ∧
    ∀ l k r0, history db = l ++ r0 :: k → h_id r0 = h_id r →
      Forall (λ r', h_id r' ≠ h_id r) l → history db' = l ++ r :: k;
  createHistory_spec : ∀ db a db', createHistory db a = Some db' →
    alerts db' = alerts db ∧
    ∃ i, i ∉ h_id <$> history db ∧ history db' = history db ++
      [{| h_id := i; h_alert := ar_id a; h_user := ar_user a; h_system := ar_system a;
          h_name := ar_name a; h_value := ar_value a; h_resolved := None |}];
}.

Module AlertStore.
Section alertstore.
Context {DB : Type} `{AlertsDBLaws DB}.
Context {M : Type → Type} `{KVStoreLaws M} {RO : RangeOrder string}.

(** ** The cache *)

Record CachedAlertData := {
  Id : string;
  SystemID : string;
  UserID : string;
  Name : string;
  Value : f64;
  Triggered : bool;
  Min : Z;
}.

Definition PopulateFromRecord (r : AlertRecord) : CachedAlertData := {|
  Id := ar_id r; SystemID := ar_system r; UserID := ar_user r; Name := ar_name r;
  Value := ar_value r; Triggered := ar_triggered r; Min := u8 (ar_min r) |}.

Record AlertsCache := {
  store : M (M CachedAlertData);
  populated : bool;
}.

Definition NewAlertsCache : AlertsCache := {| store := st_new; populated := false |}.

Definition with_store (c : AlertsCache) (s : M (M CachedAlertData)) : AlertsCache :=
  {| store := s; populated := populated c |}.

(** The per-system store is shared: writing to it is writing to the map entry. *)
Definition Update (c : AlertsCache) (record : AlertRecord) : AlertsCache :=
  let systemID := ar_system record in
  if String.eqb systemID "" then c
  else
    let systemStore :=
      match st_getOk (store c) systemID with Some s => s | None => st_new end in
    with_store c (st_set (store c) systemID
      (st_set systemStore (ar_id record) (PopulateFromRecord record))).

Definition Delete (c : AlertsCache) (record : AlertRecord) : AlertsCache :=
  let systemID := ar_system record in
  if String.eqb systemID "" then c
  else match st_getOk (store c) systemID with
       | Some s => with_store c (st_set (store c) systemID (st_remove s (ar_id record)))
       | None => c
       end.

(** [true] in the second component when the query failed. *)
Definition PopulateFromDB (db : DB) (c : AlertsCache) (force : bool) : AlertsCache * bool :=
  if negb force && populated c then (c, false)
  else match findAllAlerts db with
       | None => (c, true)
       | Some records =>
           let c1 := fold_left Update records (with_store c (st_removeAll (store c))) in
           ({| store := store c1; populated := true |}, false)
       end.

Definition load_store (records : list AlertRecord) : M CachedAlertData :=
  fold_left (λ s r, st_set s (ar_id r) (PopulateFromRecord r)) records st_new.

Definition GetSystemAlerts (db : DB) (c : AlertsCache) (systemID : string)
    : list CachedAlertData * AlertsCache :=
  match st_getOk (store c) systemID with
  | Some s => ((range_list (st_getAll s)).*2, c)
  | None =>
      match findAlertsOf db systemID with
      | None => ([], c)
      | Some records =>
          let s := load_store records in
          ((range_list (st_getAll s)).*2, with_store c (st_set (store c) systemID s))
      end
  end.

Definition GetAlert (c : AlertsCache) (systemID alertID : string) : option CachedAlertData :=
  match st_getOk (store c) systemID with
  | Some s => st_getOk s alertID
  | None => None
  end.

Definition GetAlertsByName (db : DB) (c : AlertsCache) (systemID alertName : string)
    : list CachedAlertData * AlertsCache :=
  let '(all, c') := GetSystemAlerts db c systemID in
  (List.filter (λ a, String.eqb (Name a) alertName) all, c').

Definition GetAlertsExcludingNames (db : DB) (c : AlertsCache) (systemID : string)
    (excludedNames : list string) : list CachedAlertData * AlertsCache :=
  let '(all, c') := GetSystemAlerts db c systemID in
  (List.filter (λ a, negb (existsb (String.eqb (Name a)) excludedNames)) all, c').

Definition Refresh (c : AlertsCache) (alert : CachedAlertData) : option CachedAlertData :=
  if String.eqb (Id alert) "" then None else GetAlert c (SystemID alert) (Id alert).

(** ** History *)

Definition resolve (r : HistoryRow) (now : Z) : HistoryRow :=
  {| h_id := h_id r; h_alert := h_alert r; h_user := h_user r; h_system := h_system r;
     h_name := h_name r; h_value := h_value r; h_resolved := Some now |}.

Definition resolveAlertHistoryRecord (now : Z) (db : DB) (alertRecordID : string) : DB :=
  match findOpenHistory db alertRecordID with
  | None => db
  | Some r => default db (saveHistory db (resolve r now))
  end.

Definition createAlertHistoryRecord (db : DB) (alertRecord : AlertRecord) : DB :=
  default db (createHistory db alertRecord).

Definition updateHistoryOnAlertUpdate (now : Z) (db : DB) (original new : AlertRecord) : DB :=
  if Bool.eqb (ar_triggered original) (ar_triggered new) then db
  else if ar_triggered new then createAlertHistoryRecord db new
  else resolveAlertHistoryRecord now db (ar_id new).

Definition resolveHistoryOnAlertDelete (now : Z) (db : DB) (record : AlertRecord) : DB :=
  if ar_triggered record then resolveAlertHistoryRecord now db (ar_id record) else db.

(** ** Saves and deletions with their hooks

    [NewAlertManager] binds the cache's hooks first, then the history's. *)

Record Hub := { db : DB; cache : AlertsCache }.

Definition updateRecord (now : Z) (h : Hub) (original new : AlertRecord) : option Hub :=
  db1 ← saveAlert (db h) new;
  Some {| db := updateHistoryOnAlertUpdate now db1 original new;
          cache := Update (cache h) new |}.

Definition createRecord (h : Hub) (new : AlertRecord) : option Hub :=
  db1 ← saveAlert (db h) new;
  Some {| db := db1; cache := Update (cache h) new |}.

Definition deleteRecord (now : Z) (h : Hub) (record : AlertRecord) : option Hub :=
  db1 ← deleteAlert (db h) (ar_id record);
  Some {| db := resolveHistoryOnAlertDelete now db1 record;
          cache := Delete (cache h) record |}.

Definition set_triggered (r : AlertRecord) (b : bool) : AlertRecord := {|
  ar_id := ar_id r; ar_system := ar_system r; ar_user := ar_user r; ar_name := ar_name r;
  ar_value := ar_value r; ar_triggered := b; ar_min := ar_min r |}.

(** [AlertManager.setAlertTriggered] *)
Definition setAlertTriggered (now : Z) (h : Hub) (alert : CachedAlertData) (triggered : bool)
    : option Hub :=
  alertRecord ← findAlert (db h) (Id alert);
  updateRecord now h alertRecord (set_triggered alertRecord triggered).

(** [deactivateAlerts] of the system manager ([internal/hub/systems/system_manager.go]): the
    triggered alerts of a system, saved one by one; the boolean is [err == nil]. *)
Fixpoint deactivate_loop (now : Z) (l : list AlertRecord) (h : Hub) : Hub * bool :=
  match l with
  | [] => (h, true)
  | r :: l =>
      match updateRecord now h r (set_triggered r false) with
      | None => (h, false)
      | Some h => deactivate_loop now l h
      end
  end.

Definition deactivateAlerts (now : Z) (h : Hub) (systemID : string) : Hub * bool :=
  match findAlertsOf (db h) systemID with
  | None => (h, false)
  | Some l => deactivate_loop now (List.filter ar_triggered l) h
  end.

(** ** The contract: the cache shows the database *)

Definition db_view (d : DB) (sys : string) : gmap string CachedAlertData :=
  PopulateFromRecord <$> filter (λ kr, ar_system kr.2 = sys) (alerts d).

Definition cache_view (c : AlertsCache) (sys : string) : gmap string CachedAlertData :=
  match st_getOk (store c) sys with Some s => st_getAll s | None => ∅ end.

Definition synced (c : AlertsCache) (d : DB) : Prop :=
  ∀ sys, sys ≠ "" → cache_view c sys = db_view d sys.

Lemma db_view_lookup d sys id :
  db_view d sys !! id =
  match alerts d !! id with
  | Some r => if decide (ar_system r = sys) then Some (PopulateFromRecord r) else None
  | None => None
  end.
Proof.
  unfold db_view. rewrite lookup_fmap, map_lookup_filter.
  destruct (alerts d !! id) as [r|]; simpl; [|done].
  case_decide; [by rewrite option_guard_True|by rewrite option_guard_False].
Qed.

Lemma Update_view c r sys :
  cache_view (Update c r) sys =
  if decide (sys = ar_system r ∧ sys ≠ "")
  then <[ar_id r := PopulateFromRecord r]> (cache_view c sys) else cache_view c sys.
Proof.
  unfold Update, cache_view. destruct (String.eqb_spec (ar_system r) "") as [He|He].
  { rewrite decide_False; [done|]. rewrite He. naive_solver. }
  simpl. store_simpl. destruct (decide (sys = ar_system r)) as [->|Hne].
  - rewrite lookup_insert_eq, decide_True by done. rewrite st_getAll_set.
    destruct (st_getAll (store c) !! ar_system r); store_simpl; done.
  - rewrite lookup_insert_ne by done. rewrite decide_False by naive_solver. done.
Qed.

Lemma Delete_view c r sys :
  cache_view (Delete c r) sys =
  if decide (sys = ar_system r ∧ sys ≠ "")
  then delete (ar_id r) (cache_view c sys) else cache_view c sys.
Proof.
  unfold Delete, cache_view. destruct (String.eqb_spec (ar_system r) "") as [He|He].
  { rewrite decide_False; [done|]. rewrite He. naive_solver. }
  store_simpl. destruct (st_getAll (store c) !! ar_system r) as [s|] eqn:Hs.
  - simpl. store_simpl. destruct (decide (sys = ar_system r)) as [->|Hne].
    + rewrite lookup_insert_eq, Hs, decide_True by done. by rewrite st_getAll_remove.
    + rewrite lookup_insert_ne by done. rewrite decide_False by naive_solver. done.
  - destruct (decide (sys = ar_system r)) as [->|Hne].
    + store_simpl. rewrite Hs, decide_True by done. by rewrite delete_empty.
    + rewrite decide_False by naive_solver. done.
Qed.

Lemma synced_Update c d d' r :
  synced c d → alerts d' = <[ar_id r := r]> (alerts d) →
  (∀ r0, alerts d !! ar_id r = Some r0 → ar_system r0 = ar_system r) →
  synced (Update c r) d'.
Proof.
  intros Hs Hd Hsame sys Hsys. rewrite Update_view, (Hs sys Hsys).
  apply map_eq. intros id. rewrite db_view_lookup, Hd.
  destruct (decide (sys = ar_system r)) as [->|Hne].
  - rewrite decide_True by done. destruct (decide (id = ar_id r)) as [->|Hid].
    + by rewrite !lookup_insert_eq, decide_True.
    + rewrite !lookup_insert_ne by done. apply db_view_lookup.
  - rewrite decide_False by naive_solver. rewrite db_view_lookup.
    destruct (decide (id = ar_id r)) as [->|Hid]; [|by rewrite lookup_insert_ne].
    rewrite lookup_insert_eq, decide_False by done.
    destruct (alerts d !! ar_id r) as [r0|] eqn:Hr0; [|done].
    rewrite decide_False; [done|]. by rewrite (Hsame _ eq_refl).
Qed.

Lemma synced_Delete c d d' r :
  synced c d → alerts d' = delete (ar_id r) (alerts d) → alerts d !! ar_id r = Some r →
  synced (Delete c r) d'.
Proof.
  intros Hs Hd Hr sys Hsys. rewrite Delete_view, (Hs sys Hsys).
  apply map_eq. intros id. rewrite db_view_lookup, Hd.
  destruct (decide (id = ar_id r)) as [->|Hid].
  - rewrite lookup_delete_eq. case_decide as Hc; [apply lookup_delete_eq|].
    rewrite db_view_lookup, Hr, decide_False; [done|]. naive_solver.
  - rewrite lookup_delete_ne by done.
    case_decide; [rewrite lookup_delete_ne by done|]; apply db_view_lookup.
Qed.

Lemma synced_alerts c d d' : synced c d → alerts d' = alerts d → synced c d'.
Proof. intros Hs Hd sys Hsys. rewrite (Hs sys Hsys). unfold db_view. by rewrite Hd. Qed.

(** ** Loading *)

Lemma records_map d (l : list AlertRecord) :
  l ≡ₚ (map_to_list (alerts d)).*2 →
  NoDup (ar_id <$> l) ∧ list_to_map ((λ r, (ar_id r, r)) <$> l) = alerts d.
Proof.
  intros Hl.
  assert ((λ r, (ar_id r, r)) <$> (map_to_list (alerts d)).*2 = map_to_list (alerts d)) as Hk.
  { rewrite <- list_fmap_compose. rewrite <- (list_fmap_id (map_to_list _)) at 2.
    apply list_fmap_ext. intros i [k r] Hi. simpl.
    apply list_elem_of_lookup_2, elem_of_map_to_list, alerts_key in Hi. by subst. }
  assert (NoDup (ar_id <$> l)) as Hnd.
  { rewrite Hl, <- list_fmap_compose.
    assert (ar_id ∘ snd <$> map_to_list (alerts d) = (map_to_list (alerts d)).*1) as ->;
      [|apply NoDup_fst_map_to_list].
    apply list_fmap_ext. intros i [k r] Hi. simpl.
    by apply list_elem_of_lookup_2, elem_of_map_to_list, alerts_key in Hi. }
  split; [done|]. rewrite <- (list_to_map_to_list (alerts d)). apply list_to_map_proper.
  - rewrite <- list_fmap_compose. by apply Hnd.
  - by rewrite <- Hk, Hl.
Qed.

Lemma fold_Update_view l c sys id :
  sys ≠ "" → NoDup (ar_id <$> l) →
  cache_view (fold_left Update l c) sys !! id =
  match list_to_map (M := gmap string AlertRecord) ((λ r, (ar_id r, r)) <$> l) !! id with
  | Some r => if decide (ar_system r = sys) then Some (PopulateFromRecord r)
              else cache_view c sys !! id
  | None => cache_view c sys !! id
  end.
Proof.
  intros Hsys. revert c. induction l as [|r l IH]; intros c Hnd; simpl.
  { by rewrite lookup_empty. }
  rewrite fmap_cons in Hnd. apply NoDup_cons in Hnd as [Hr Hnd].
  rewrite (IH _ Hnd), Update_view. destruct (decide (id = ar_id r)) as [->|Hne].
  - rewrite lookup_insert_eq. rewrite not_elem_of_list_to_map_1; [|by rewrite <- list_fmap_compose].
    destruct (decide (ar_system r = sys)) as [Hs|Hs].
    + rewrite decide_True by done. by rewrite lookup_insert_eq.
    + by rewrite decide_False by naive_solver.
  - rewrite lookup_insert_ne by done. destruct (decide _); [|done].
    by rewrite lookup_insert_ne.
Qed.

Lemma load_store_lookup l id :
  NoDup (ar_id <$> l) →
  st_getAll (load_store l) !! id =
  PopulateFromRecord <$> list_to_map (M := gmap string AlertRecord) ((λ r, (ar_id r, r)) <$> l) !! id.
Proof.
  unfold load_store. intros Hnd.
  enough (∀ s : M CachedAlertData,
    st_getAll (fold_left (λ s r, st_set s (ar_id r) (PopulateFromRecord r)) l s) !! id =
    match list_to_map (M := gmap string AlertRecord) ((λ r, (ar_id r, r)) <$> l) !! id with
    | Some r => Some (PopulateFromRecord r) | None => st_getAll s !! id end) as Hgen.
  { rewrite Hgen. destruct (list_to_map _ !! id); [done|].
    by rewrite st_getAll_new, lookup_empty. }
  induction l as [|r l IH]; intros s; simpl; [by rewrite lookup_empty|].
  rewrite fmap_cons in Hnd. apply NoDup_cons in Hnd as [Hr Hnd]. rewrite (IH Hnd), st_getAll_set.
  destruct (decide (id = ar_id r)) as [->|Hne].
  - rewrite lookup_insert_eq, not_elem_of_list_to_map_1; [|by rewrite <- list_fmap_compose].
    by rewrite lookup_insert_eq.
  - by rewrite !lookup_insert_ne.
Qed.

(** The history never touches the alert records. *)
Lemma updateHistory_alerts now d r0 r : alerts (updateHistoryOnAlertUpdate now d r0 r) = alerts d.
Proof.
  unfold updateHistoryOnAlertUpdate, createAlertHistoryRecord, resolveAlertHistoryRecord.
  destruct (Bool.eqb _ _); [done|]. destruct (ar_triggered r).
  - destruct (createHistory d r) eqn:Hc; [|done]. simpl.
    by apply createHistory_spec in Hc as [-> _].
  - destruct (findOpenHistory d (ar_id r)); [|done].
    destruct (saveHistory _ _) eqn:Hs; [|done]. simpl. by apply saveHistory_spec in Hs as [-> _].
Qed.

Lemma resolveHistory_alerts now d id : alerts (resolveAlertHistoryRecord now d id) = alerts d.
Proof.
  unfold resolveAlertHistoryRecord. destruct (findOpenHistory d id); [|done].
  destruct (saveHistory _ _) eqn:Hs; [|done]. simpl. by apply saveHistory_spec in Hs as [-> _].
Qed.

(** ** Properties of the cache *)

Lemma populate_view d c c' sys :
  PopulateFromDB d c true = (c', false) → sys ≠ "" → cache_view c' sys = db_view d sys.
Proof.
  unfold PopulateFromDB. simpl. destruct (findAllAlerts d) as [l|] eqn:Hl; [|done].
  intros [= <-] Hsys. apply findAllAlerts_spec in Hl.
  destruct (records_map d l Hl) as [Hnd Hmap].
  set (c0 := with_store c (st_removeAll (store c))).
  change (cache_view (fold_left Update l c0) sys = db_view d sys).
  apply map_eq. intros id. rewrite fold_Update_view by done. rewrite Hmap, db_view_lookup.
  assert (cache_view c0 sys !! id = None) as ->.
  { unfold cache_view, c0. simpl. store_simpl. by rewrite lookup_empty. }
  by destruct (alerts d !! id).
Qed.

(** After a (successful) forced population the cache shows exactly the alerts of the
    database, for every system. *)
Theorem PopulateFromDB_synced d c c' :
  PopulateFromDB d c true = (c', false) → synced c' d.
Proof. intros Hp sys. by apply populate_view with (c := c). Qed.

Lemma updateRecord_synced now h r0 r h' :
  synced (cache h) (db h) → alerts (db h) !! ar_id r = Some r0 →
  ar_system r = ar_system r0 → updateRecord now h r0 r = Some h' →
  synced (cache h') (db h').
Proof.
  intros Hs Hr0 Hsys (d1&Hd1&[= <-])%bind_Some. simpl.
  apply saveAlert_spec in Hd1 as [Hd1 _].
  eapply synced_alerts; [|apply updateHistory_alerts].
  eapply synced_Update; [done..|]. intros r1 ?. naive_solver.
Qed.

(** The effect of [setAlertTriggered] on the records. *)
Lemma setAlertTriggered_effect now h a b h' :
  setAlertTriggered now h a b = Some h' →
  ∃ r, alerts (db h) !! Id a = Some r ∧ ar_id r = Id a ∧
       alerts (db h') = <[Id a := set_triggered r b]> (alerts (db h)) ∧
       updateRecord now h r (set_triggered r b) = Some h'.
Proof.
  intros (r&Hr&Hu)%bind_Some. apply findAlert_spec in Hr.
  pose proof (alerts_key _ _ _ Hr) as Hk. exists r. split_and!; [done..| |done].
  apply bind_Some in Hu as (d1&Hd1&[= <-]). simpl. rewrite updateHistory_alerts.
  apply saveAlert_spec in Hd1 as [-> _]. simpl. by rewrite Hk.
Qed.

Lemma setAlertTriggered_synced now h a b h' :
  synced (cache h) (db h) → setAlertTriggered now h a b = Some h' →
  synced (cache h') (db h').
Proof.
  intros Hs (r&Hr&Hk&_&Hu)%setAlertTriggered_effect.
  eapply (updateRecord_synced now h r (set_triggered r b)); [done| |done..].
  simpl. by rewrite Hk.
Qed.

(** An update shows in the cache, and when it moves the alert to another system the entry of the
    system before stays: [Update] knows the new record only. *)
Lemma updateRecord_view now h r0 r h' sys :
  synced (cache h) (db h) → alerts (db h) !! ar_id r = Some r0 →
  updateRecord now h r0 r = Some h' → sys ≠ "" →
  cache_view (cache h') sys =
    if decide (sys = ar_system r0 ∧ ar_system r ≠ ar_system r0)
    then <[ar_id r := PopulateFromRecord r0]> (db_view (db h') sys) else db_view (db h') sys.
Proof.
  intros Hs Hr0 (d1&Hd1&[= <-])%bind_Some Hsys. simpl.
  apply saveAlert_spec in Hd1 as [Hd1 _]. rewrite Update_view, (Hs sys Hsys).
  apply map_eq. intros id.
  assert (∀ d, db_view (updateHistoryOnAlertUpdate now d r0 r) sys = db_view d sys) as Hv.
  { intros d. unfold db_view. by rewrite updateHistory_alerts. }
  rewrite Hv. destruct (decide (id = ar_id r)) as [->|Hid].
  - repeat case_decide; rewrite ?lookup_insert_eq, ?db_view_lookup, ?Hd1, ?lookup_insert_eq, ?Hr0;
      repeat case_decide; naive_solver congruence.
  - repeat case_decide; rewrite ?lookup_insert_ne by done;
      rewrite !db_view_lookup, Hd1, lookup_insert_ne by done; done.
Qed.

(** C10: once in sync, the cache stays in sync with the database through every creation and
    deletion of an alert, every write of [setAlertTriggered] and every update that leaves the alert
    at its system.  After an update that moves it, the cache differs from the database in exactly one
    entry: the alert as it was, under the system it was moved away from. *)
Theorem cache_stays_synced now h :
  synced (cache h) (db h) →
  (∀ r h', alerts (db h) !! ar_id r = None → createRecord h r = Some h' →
     synced (cache h') (db h')) ∧
  (∀ r0 r h', alerts (db h) !! ar_id r = Some r0 → updateRecord now h r0 r = Some h' →
     (ar_system r = ar_system r0 → synced (cache h') (db h')) ∧
     ∀ sys, sys ≠ "" → cache_view (cache h') sys =
       if decide (sys = ar_system r0 ∧ ar_system r ≠ ar_system r0)
       then <[ar_id r := PopulateFromRecord r0]> (db_view (db h') sys) else db_view (db h') sys) ∧
  (∀ r h', alerts (db h) !! ar_id r = Some r → deleteRecord now h r = Some h' →
     synced (cache h') (db h')) ∧
  (∀ a b h', setAlertTriggered now h a b = Some h' → synced (cache h') (db h')).
Proof.
  intros Hs. split_and!; [| | |eauto using setAlertTriggered_synced].
  - intros r h' Hr (d1&Hd1&[= <-])%bind_Some. simpl.
    apply saveAlert_spec in Hd1 as [Hd1 _]. eapply synced_Update; [done..|].
    intros r0 Hr0. congruence.
  - eauto using updateRecord_synced, updateRecord_view.
  - intros r h' Hr (d1&Hd1&[= <-])%bind_Some. simpl.
    apply deleteAlert_spec in Hd1 as [Hd1 _].
    eapply (synced_alerts _ d1); [by eapply synced_Delete|].
    unfold resolveHistoryOnAlertDelete. destruct (ar_triggered r); [|done].
    apply resolveHistory_alerts.
Qed.

(** One save of [deactivateAlerts]. *)
Lemma deactivate_one now h r h' :
  alerts (db h) !! ar_id r = Some r → updateRecord now h r (set_triggered r false) = Some h' →
  alerts (db h') = <[ar_id r := set_triggered r false]> (alerts (db h)) ∧
  (synced (cache h) (db h) → synced (cache h') (db h')).
Proof.
  intros Hr Hu. split.
  - apply bind_Some in Hu as (d1&Hd1&[= <-]). simpl. rewrite updateHistory_alerts.
    by apply saveAlert_spec in Hd1 as [-> _].
  - intros Hs. by eapply (updateRecord_synced now h r (set_triggered r false)).
Qed.

Lemma deactivate_loop_spec now l : ∀ h h',
  NoDup (ar_id <$> l) → (∀ r, r ∈ l → alerts (db h) !! ar_id r = Some r) →
  deactivate_loop now l h = (h', true) →
  (∀ id, alerts (db h') !! id =
     if decide (id ∈ ar_id <$> l)
     then (λ r, set_triggered r false) <$> alerts (db h) !! id else alerts (db h) !! id) ∧
  (synced (cache h) (db h) → synced (cache h') (db h')).
Proof.
  induction l as [|r l IH]; intros h h' Hnd Hl Hloop.
  { injection Hloop as <-. split; [|done]. intros id. by rewrite decide_False by apply not_elem_of_nil. }
  simpl in Hloop. destruct (updateRecord now h r (set_triggered r false)) as [h1|] eqn:Hu; [|done].
  rewrite fmap_cons in *. apply NoDup_cons in Hnd as [Hr Hnd].
  destruct (deactivate_one _ _ _ _ (Hl r (list_elem_of_here r l)) Hu) as [Ha1 Hs1].
  destruct (IH h1 h' Hnd) as [Ha' Hs']; [|exact Hloop|].
  - intros r' Hr'. rewrite Ha1, lookup_insert_ne; [by apply Hl, list_elem_of_further|].
    intros E. apply Hr. rewrite E. by apply list_elem_of_fmap_2.
  - split; [|auto]. intros id. rewrite Ha', Ha1, lookup_insert.
    destruct (decide (ar_id r = id)) as [<-|Hne].
    + rewrite decide_False by done. rewrite (decide_True (P := ar_id r ∈ _)) by (by left).
      by rewrite (Hl r (list_elem_of_here r l)).
    + apply decide_ext. rewrite elem_of_cons. naive_solver.
Qed.

(** The alerts that are reset: the triggered ones of the system, each once. *)
Lemma deactivated_list h sys l :
  findAlertsOf (db h) sys = Some l →
  NoDup (ar_id <$> List.filter ar_triggered l) ∧
  ∀ r, r ∈ List.filter ar_triggered l ↔
    alerts (db h) !! ar_id r = Some r ∧ ar_system r = sys ∧ ar_triggered r = true.
Proof.
  intros Hq%findAlertsOf_spec.
  assert (Hin : ∀ r, r ∈ List.filter ar_triggered l ↔
    alerts (db h) !! ar_id r = Some r ∧ ar_system r = sys ∧ ar_triggered r = true).
  { intros r. rewrite list_elem_of_In, List.filter_In, <- list_elem_of_In, Hq, list_elem_of_fmap.
    split.
    - intros [([k r']&->&Hr) Ht]. apply elem_of_map_to_list, map_lookup_filter_Some in Hr as [Hr E].
      simpl in *. by rewrite (alerts_key _ _ _ Hr).
    - intros (Hr&E&Ht). split; [|done]. exists (ar_id r, r).
      by rewrite elem_of_map_to_list, map_lookup_filter_Some. }
  split; [|done].
  apply NoDup_fmap_2_strong.
  - intros r1 r2 [G1 _]%Hin [G2 _]%Hin E. congruence.
  - apply NoDup_ListNoDup, List.NoDup_filter, NoDup_ListNoDup. rewrite Hq.
    apply NoDup_fmap_2_strong; [|apply NoDup_map_to_list].
    intros [k1 r1] [k2 r2] G1%elem_of_map_to_list G2%elem_of_map_to_list E. simpl in E. subst.
    apply map_lookup_filter_Some in G1 as [G1 _], G2 as [G2 _].
    by rewrite <- (alerts_key _ _ _ G1), <- (alerts_key _ _ _ G2).
Qed.

(** Whether or not all saves succeed, an alert is left alone or it was a triggered one of the list
    and is reset. *)
Lemma deactivate_loop_frame now l : ∀ h h' ok,
  NoDup (ar_id <$> l) → (∀ r, r ∈ l → alerts (db h) !! ar_id r = Some r) →
  deactivate_loop now l h = (h', ok) →
  (∀ id, alerts (db h') !! id = alerts (db h) !! id ∨
     ∃ r, r ∈ l ∧ ar_id r = id ∧ alerts (db h') !! id = Some (set_triggered r false)) ∧
  (synced (cache h) (db h) → synced (cache h') (db h')).
Proof.
  induction l as [|r l IH]; intros h h' ok Hnd Hl Hloop; [simplify_eq/=; auto|].
  simpl in Hloop. destruct (updateRecord now h r (set_triggered r false)) as [h1|] eqn:Hu; [|simplify_eq; auto].
  rewrite fmap_cons in *. apply NoDup_cons in Hnd as [Hr Hnd].
  destruct (deactivate_one _ _ _ _ (Hl r (list_elem_of_here r l)) Hu) as [Ha1 Hs1].
  destruct (IH h1 h' ok Hnd) as [Ha' Hs']; [|exact Hloop|].
  - intros r' Hr'. rewrite Ha1, lookup_insert_ne; [by apply Hl, list_elem_of_further|].
    intros E. apply Hr. rewrite E. by apply list_elem_of_fmap_2.
  - split; [|auto]. intros id. destruct (Ha' id) as [E|(r'&Hr'&Hid&E)].
    + rewrite E, Ha1, lookup_insert. case_decide as Hd; [|by left].
      right. exists r. split_and!; [by left|done|done].
    + right. exists r'. split_and!; [by right|done|done].
Qed.

Lemma deactivateAlerts_frame now h sys h' ok :
  deactivateAlerts now h sys = (h', ok) →
  (∀ id, alerts (db h') !! id = alerts (db h) !! id ∨
     ∃ r, alerts (db h) !! id = Some r ∧ ar_system r = sys ∧ ar_triggered r = true ∧
          alerts (db h') !! id = Some (set_triggered r false)) ∧
  (synced (cache h) (db h) → synced (cache h') (db h')).
Proof.
  unfold deactivateAlerts. destruct (findAlertsOf (db h) sys) as [l|] eqn:Hq; [|intros; simplify_eq; auto].
  destruct (deactivated_list h sys l Hq) as [Hnd Hin]. intros Hloop.
  destruct (deactivate_loop_frame now _ h h' ok Hnd) as [Ha Hs]; [by intros r [? _]%Hin|done|].
  split; [|done]. intros id. destruct (Ha id) as [?|(r&Hr%Hin&<-&E)]; [by left|right].
  destruct Hr as (?&?&?). eauto.
Qed.

(** A system that is paused (or started anew) has none of its alerts triggered afterwards: the
    triggered ones are reset, every other alert is left alone, and the cache stays in sync. *)
Theorem deactivateAlerts_exact now h sys h' :
  deactivateAlerts now h sys = (h', true) →
  (∀ id, alerts (db h') !! id =
     (λ r, if bool_decide (ar_system r = sys) then set_triggered r false else r)
       <$> alerts (db h) !! id) ∧
  (synced (cache h) (db h) → synced (cache h') (db h')).
Proof.
  unfold deactivateAlerts. destruct (findAlertsOf (db h) sys) as [l|] eqn:Hq; [|done].
  destruct (deactivated_list h sys l Hq) as [Hnd Hin]. intros Hloop.
  destruct (deactivate_loop_spec now (List.filter ar_triggered l) h h' Hnd) as [Ha Hs]; [|done|].
  - intros r Hr. by apply Hin.
  - split; [|done]. intros id. rewrite Ha.
    destruct (alerts (db h) !! id) as [r|] eqn:Hr; [|by case_decide]. simpl.
    pose proof (alerts_key _ _ _ Hr) as Hk. case_decide as Hd.
    + apply list_elem_of_fmap in Hd as (r'&E&Hr'%Hin). destruct Hr' as (Hr'&Hsys&_).
      rewrite <- E, Hr in Hr'. simplify_eq. by rewrite bool_decide_true.
    + case_bool_decide as Hsys; [|done]. destruct (ar_triggered r) eqn:Ht.
      * destruct Hd. rewrite <- Hk. apply list_elem_of_fmap_2, Hin. by rewrite Hk.
      * destruct r. simpl in *. by subst.
Qed.

Lemma GetSystemAlerts_view d c sys :
  synced c d → sys ≠ "" →
  (GetSystemAlerts d c sys).1 ≡ₚ (map_to_list (db_view d sys)).*2 ∧
  synced (GetSystemAlerts d c sys).2 d.
Proof.
  intros Hs Hsys. pose proof (Hs sys Hsys) as Hv. unfold cache_view in Hv.
  unfold GetSystemAlerts. destruct (st_getOk (store c) sys) as [s|] eqn:Hst; simpl.
  { rewrite Hv. by rewrite range_list_perm. }
  destruct (findAlertsOf d sys) as [l|] eqn:Hl; simpl; [|by rewrite <- Hv, map_to_list_empty].
  assert (st_getAll (load_store l) = db_view d sys) as Hload.
  { apply findAlertsOf_spec in Hl.
    assert (l ≡ₚ []) as Hnil.
    { rewrite Hl. unfold db_view in Hv.
      symmetry in Hv. apply fmap_empty_inv in Hv. by rewrite Hv, map_to_list_empty. }
    apply Permutation_nil_r in Hnil as ->. unfold load_store. simpl.
    by rewrite st_getAll_new. }
  rewrite Hload, range_list_perm. split; [done|].
  intros sys' Hsys'. unfold cache_view. simpl. store_simpl.
  destruct (decide (sys' = sys)) as [->|Hne].
  - by rewrite lookup_insert_eq, Hload.
  - rewrite lookup_insert_ne by done. pose proof (Hs sys' Hsys') as Hv'.
    unfold cache_view in Hv'. by rewrite st_getOk_spec in Hv'.
Qed.

(** In sync, [GetAlertsByName] and [GetAlertsExcludingNames] return exactly the
    alerts the database holds for the system with, respectively without, the given names
    (also when the cache has to load them, and when that query fails), in some order, and
    keep the cache in sync. *)
Theorem GetAlerts_exact d c sys :
  synced c d → sys ≠ "" →
  (∀ name, (GetAlertsByName d c sys name).1 ≡ₚ
     List.filter (λ a, String.eqb (Name a) name) (map_to_list (db_view d sys)).*2 ∧
     synced (GetAlertsByName d c sys name).2 d) ∧
  (∀ names, (GetAlertsExcludingNames d c sys names).1 ≡ₚ
     List.filter (λ a, negb (existsb (String.eqb (Name a)) names))
       (map_to_list (db_view d sys)).*2 ∧
     synced (GetAlertsExcludingNames d c sys names).2 d).
Proof.
  intros Hs Hsys. pose proof (GetSystemAlerts_view d c sys Hs Hsys) as [Hp Hs'].
  unfold GetAlertsByName, GetAlertsExcludingNames.
  destruct (GetSystemAlerts d c sys) as [all c'] eqn:Hg. simpl in *.
  split; intros ?; split; try done; by apply filter_perm_bool.
Qed.

(** What the callers of the cache use: a filtered read holds the database's records. *)
Lemma GetSystemAlerts_filter d c sys (p : CachedAlertData → bool) :
  synced c d → sys ≠ "" →
  synced (GetSystemAlerts d c sys).2 d ∧
  NoDup (Id <$> List.filter p (GetSystemAlerts d c sys).1) ∧
  (∀ a, a ∈ List.filter p (GetSystemAlerts d c sys).1 ↔
     ∃ r, alerts d !! Id a = Some r ∧ a = PopulateFromRecord r ∧
          ar_system r = sys ∧ p a = true).
Proof.
  intros Hs Hsys. destruct (GetSystemAlerts_view d c sys Hs Hsys) as [Hp Hs'].
  destruct (GetSystemAlerts d c sys) as [all c'] eqn:Hg. simpl in *. split; [done|].
  assert (∀ id a, db_view d sys !! id = Some a ↔
    ∃ r, alerts d !! id = Some r ∧ a = PopulateFromRecord r ∧ ar_system r = sys) as Hview.
  { intros id a. rewrite db_view_lookup. destruct (alerts d !! id) as [r|]; [|naive_solver].
    case_decide; naive_solver. }
  assert (Id <$> all ≡ₚ (map_to_list (db_view d sys)).*1) as Hids.
  { rewrite Hp, <- list_fmap_compose. apply reflexive_eq, list_fmap_ext.
    intros i [id a] Hi%list_elem_of_lookup_2%elem_of_map_to_list. simpl.
    apply Hview in Hi as (r&Hr&->&_). by apply alerts_key in Hr. }
  split.
  - eapply NoDup_fmap_sublist; [apply filter_sublist_bool|]. rewrite Hids.
    apply NoDup_fst_map_to_list.
  - intros a. rewrite list_elem_of_In, filter_In, <- list_elem_of_In, Hp.
    rewrite list_elem_of_fmap. split.
    + intros [([id a']&->&Hin%elem_of_map_to_list) Hpa].
      apply Hview in Hin as (r&Hr&Ha&Hsy).
      simpl in *. pose proof (alerts_key _ _ _ Hr) as Hk. exists r. subst a'. simpl.
      by rewrite Hk.
    + intros (r&Hr&->&Hsy&Hpa). split; [|done]. simpl in Hr.
      exists (ar_id r, PopulateFromRecord r). split; [done|].
      apply elem_of_map_to_list, Hview. eauto.
Qed.

Lemma GetAlertsByName_spec d c sys name :
  synced c d → sys ≠ "" →
  synced (GetAlertsByName d c sys name).2 d ∧
  NoDup (Id <$> (GetAlertsByName d c sys name).1) ∧
  (∀ a, a ∈ (GetAlertsByName d c sys name).1 ↔
     ∃ r, alerts d !! Id a = Some r ∧ a = PopulateFromRecord r ∧
          ar_system r = sys ∧ ar_name r = name).
Proof.
  intros Hs Hsys. unfold GetAlertsByName.
  destruct (GetSystemAlerts_filter d c sys (λ a, String.eqb (Name a) name) Hs Hsys)
    as (Hs'&Hnd&Hin).
  destruct (GetSystemAlerts d c sys) as [all c']. simpl in *. split_and!; [done..|].
  intros a. rewrite Hin. setoid_rewrite String.eqb_eq. naive_solver.
Qed.

Lemma GetAlertsExcludingNames_spec d c sys names :
  synced c d → sys ≠ "" →
  synced (GetAlertsExcludingNames d c sys names).2 d ∧
  NoDup (Id <$> (GetAlertsExcludingNames d c sys names).1) ∧
  (∀ a, a ∈ (GetAlertsExcludingNames d c sys names).1 ↔
     ∃ r, alerts d !! Id a = Some r ∧ a = PopulateFromRecord r ∧
          ar_system r = sys ∧ ar_name r ∉ names).
Proof.
  intros Hs Hsys. unfold GetAlertsExcludingNames.
  destruct (GetSystemAlerts_filter d c sys
    (λ a, negb (existsb (String.eqb (Name a)) names)) Hs Hsys) as (Hs'&Hnd&Hin).
  destruct (GetSystemAlerts d c sys) as [all c']. simpl in *. split_and!; [done..|].
  assert (∀ n, negb (existsb (String.eqb n) names) = true ↔ n ∉ names) as Hex.
  { intros n. rewrite negb_true_iff, <- not_true_iff_false, existsb_exists.
    setoid_rewrite String.eqb_eq. setoid_rewrite <- list_elem_of_In. naive_solver. }
  intros a. rewrite Hin. setoid_rewrite Hex. naive_solver.
Qed.

(** A refreshed alert is the database's current record. *)
Lemma Refresh_spec d c a a' :
  synced c d → SystemID a ≠ "" → Refresh c a = Some a' →
  ∃ r, alerts d !! Id a = Some r ∧ a' = PopulateFromRecord r ∧ ar_system r = SystemID a.
Proof.
  intros Hs Hsys. unfold Refresh, GetAlert. destruct (String.eqb (Id a) ""); [done|].
  pose proof (Hs _ Hsys) as Hv. unfold cache_view in Hv.
  destruct (st_getOk (store c) (SystemID a)) as [s|]; [|done].
  rewrite st_getOk_spec, Hv, db_view_lookup.
  destruct (alerts d !! Id a) as [r|]; [|done]. case_decide; [|done].
  intros [= <-]. eauto.
Qed.

(** ** Properties of the history *)

(** An alert has one open history entry while it is triggered and none otherwise. *)
Definition history_ok (d : DB) : Prop :=
  NoDup (h_id <$> history d) ∧
  ∀ id, open_count d id =
    match alerts d !! id with Some r => if ar_triggered r then 1 else 0 | None => 0 end.

(** No history query fails. *)
Definition reliable : Prop :=
  (∀ d a, is_Some (createHistory d a)) ∧ (∀ d r, is_Some (saveHistory d r)) ∧
  (∀ d id, open_count d id ≠ 0 → is_Some (findOpenHistory d id)).

Lemma create_open_count d a d' id :
  createHistory d a = Some d' →
  open_count d' id = open_count d id + (if decide (ar_id a = id) then 1 else 0).
Proof.
  intros (_&i&_&Hh)%createHistory_spec. unfold open_count.
  rewrite Hh, List.filter_app, length_app. f_equal. simpl. unfold open_row at 1. simpl.
  destruct (decide (ar_id a = id)).
  - by rewrite bool_decide_eq_true_2.
  - by rewrite bool_decide_eq_false_2.
Qed.

Lemma filter_open_none id l :
  Forall (λ r, open_row id r = false) l → List.filter (open_row id) l = [].
Proof. induction 1 as [|r l Hr _ IH]; simpl; [done|]. by rewrite Hr. Qed.

Lemma resolve_open_count now d id id' :
  reliable → NoDup (h_id <$> history d) →
  NoDup (h_id <$> history (resolveAlertHistoryRecord now d id)) ∧
  open_count (resolveAlertHistoryRecord now d id) id' =
  if decide (id' = id) then Nat.pred (open_count d id) else open_count d id'.
Proof.
  intros (_&Hsave&Hfind) Hnd. unfold resolveAlertHistoryRecord.
  destruct (findOpenHistory d id) as [r|] eqn:Hf.
  - destruct (Hsave d (resolve r now)) as [d' Hd']. rewrite Hd'. simpl.
    apply findOpenHistory_spec in Hf as (l&k&Hh&Hr&Hl).
    apply saveHistory_spec in Hd' as [_ Hin]. specialize (Hin l k r Hh eq_refl).
    assert (Forall (λ r', h_id r' ≠ h_id (resolve r now)) l) as Hids.
    { rewrite Hh, fmap_app in Hnd. apply NoDup_app in Hnd as (_&Hnd&_).
      rewrite Forall_forall. intros r' Hr' Heq.
      apply (Hnd (h_id r')); [by apply list_elem_of_fmap_2|].
      rewrite fmap_cons. apply elem_of_cons. by left. }
    rewrite (Hin Hids). split.
    { rewrite Hh in Hnd. by rewrite fmap_app in *. }
    unfold open_count. rewrite (Hin Hids), Hh, !List.filter_app, !length_app. simpl.
    assert (open_row id' (resolve r now) = false) as ->.
    { unfold open_row. simpl. apply andb_false_r. }
    destruct (decide (id' = id)) as [->|Hne].
    + rewrite Hr. rewrite (filter_open_none id l) by done. simpl. done.
    + assert (open_row id' r = false) as ->; [|done].
      unfold open_row in *. apply andb_true_iff in Hr as [Hr _].
      apply bool_decide_eq_true in Hr as ->. by rewrite bool_decide_eq_false_2.
  - split; [done|]. destruct (decide (id' = id)) as [->|]; [|done].
    destruct (decide (open_count d id = 0)) as [Hz|Hz]; [by rewrite Hz|].
    destruct (Hfind d id Hz) as [? ?]. congruence.
Qed.

(** What the update hook does to the open entries. *)
Lemma updateHistory_open_count now d r0 r id :
  reliable → NoDup (h_id <$> history d) →
  open_count d (ar_id r) = (if ar_triggered r0 then 1 else 0) →
  let d' := updateHistoryOnAlertUpdate now d r0 r in
  NoDup (h_id <$> history d') ∧
  open_count d' id = if decide (id = ar_id r) then (if ar_triggered r then 1 else 0)
                     else open_count d id.
Proof.
  intros Hrel Hnd Hr. unfold updateHistoryOnAlertUpdate, createAlertHistoryRecord.
  destruct (Bool.eqb (ar_triggered r0) (ar_triggered r)) eqn:Heq.
  { apply eqb_prop in Heq. split; [done|]. case_decide; [|done]. subst.
    by rewrite Hr, Heq. }
  apply eqb_false_iff in Heq. destruct (ar_triggered r).
  - destruct (proj1 Hrel d r) as [d' Hd']. rewrite Hd'. simpl.
    rewrite (create_open_count _ _ _ _ Hd').
    apply createHistory_spec in Hd' as (_&i&Hi&->). split.
    + rewrite fmap_app. apply NoDup_app. split_and!; [done| |apply NoDup_singleton].
      intros x Hx ->%list_elem_of_singleton. done.
    + destruct (decide (id = ar_id r)) as [->|Hne].
      * rewrite decide_True by done. rewrite Hr. by destruct (ar_triggered r0).
      * rewrite decide_False by done. lia.
  - destruct (resolve_open_count now d (ar_id r) id Hrel Hnd) as [? ->].
    split; [done|]. rewrite Hr. by destruct (ar_triggered r0).
Qed.

Lemma history_ok_update now h r0 r h' :
  reliable → history_ok (db h) → alerts (db h) !! ar_id r = Some r0 →
  updateRecord now h r0 r = Some h' → history_ok (db h').
Proof.
  intros Hrel [Hnd Hok] Hr0 (d1&Hd1&[= <-])%bind_Some. simpl.
  apply saveAlert_spec in Hd1 as [Ha Hh].
  assert (∀ id, open_count d1 id = open_count (db h) id) as Hoc
    by (intros; unfold open_count; by rewrite Hh).
  pose proof (Hok (ar_id r)) as Hr. rewrite Hr0, <- Hoc in Hr. rewrite <- Hh in Hnd.
  split; [by apply (updateHistory_open_count now d1 r0 r "")|]. intros id.
  destruct (updateHistory_open_count now d1 r0 r id Hrel Hnd Hr) as [_ ->].
  rewrite updateHistory_alerts, Ha, Hoc.
  destruct (decide (id = ar_id r)) as [->|Hne]; [by rewrite lookup_insert_eq|].
  rewrite lookup_insert_ne by done. apply Hok.
Qed.

Lemma history_ok_delete now h r h' :
  reliable → history_ok (db h) → alerts (db h) !! ar_id r = Some r →
  deleteRecord now h r = Some h' → history_ok (db h').
Proof.
  intros Hrel [Hnd Hok] Hr (d1&Hd1&[= <-])%bind_Some. simpl.
  apply deleteAlert_spec in Hd1 as [Ha Hh]. unfold resolveHistoryOnAlertDelete.
  assert (∀ id, open_count d1 id = open_count (db h) id) as Hoc
    by (intros; unfold open_count; by rewrite Hh).
  pose proof (Hok (ar_id r)) as Hor. rewrite Hr in Hor. rewrite <- Hh in Hnd.
  destruct (ar_triggered r) eqn:Ht.
  - split; [by apply (resolve_open_count now d1 (ar_id r) "")|].
    intros id. rewrite resolveHistory_alerts, Ha.
    destruct (resolve_open_count now d1 (ar_id r) id Hrel Hnd) as [_ ->].
    rewrite !Hoc. destruct (decide (id = ar_id r)) as [->|Hne].
    + by rewrite lookup_delete_eq, Hor.
    + by rewrite lookup_delete_ne.
  - split; [done|]. intros id. rewrite Hoc, Ha.
    destruct (decide (id = ar_id r)) as [->|Hne].
    + by rewrite lookup_delete_eq, Hor.
    + by rewrite lookup_delete_ne.
Qed.

(** With a reliable database, an alert has exactly one open history entry while it is
    triggered and none while it is not; updates and deletions of alerts preserve this. *)
Theorem history_tracks_triggered now h :
  reliable → history_ok (db h) →
  (∀ r0 r h', alerts (db h) !! ar_id r = Some r0 →
     updateRecord now h r0 r = Some h' → history_ok (db h')) ∧
  (∀ r h', alerts (db h) !! ar_id r = Some r → deleteRecord now h r = Some h' →
     history_ok (db h')) ∧
  (∀ a b h', setAlertTriggered now h a b = Some h' → history_ok (db h')).
Proof.
  intros Hrel Hok. split_and!.
  - intros r0 r h'. by apply history_ok_update.
  - intros r h'. by apply history_ok_delete.
  - intros a b h' (r&Hr&Hu)%bind_Some. apply findAlert_spec in Hr.
    pose proof (alerts_key _ _ _ Hr) as Hk.
    apply (history_ok_update now h r (set_triggered r b) h'); [done..| |done].
    simpl. by rewrite Hk.
Qed.
End alertstore.

(** ** An in-memory database that meets the contract and never fails *)

Record mem_db := {
  m_alerts : gmap string AlertRecord;
  m_history : list HistoryRow;
  m_systems : gmap string (string * string);   (* name and status *)
}.

Fixpoint replace_row (r : HistoryRow) (l : list HistoryRow) : list HistoryRow :=
  match l with
  | [] => []
  | r0 :: l => if String.eqb (h_id r0) (h_id r) then r :: l else r0 :: replace_row r l
  end.

Definition keyed (d : mem_db) : gmap string AlertRecord :=
  filter (λ kr, ar_id kr.2 = kr.1) (m_alerts d).

#[export] Instance mem_db_ops : AlertsDB mem_db := {|
  findAllAlerts d := Some (map_to_list (keyed d)).*2;
  findAlertsOf d sys :=
    Some (map_to_list (filter (λ kr, ar_system kr.2 = sys) (keyed d))).*2;
  findAlert d id := keyed d !! id;
  saveAlert d r := Some {| m_alerts := <[ar_id r := r]> (m_alerts d); m_history := m_history d;
    m_systems := m_systems d |};
  deleteAlert d id := Some {| m_alerts := delete id (m_alerts d); m_history := m_history d;
    m_systems := m_systems d |};
  findOpenHistory d id := List.find (open_row id) (m_history d);
  saveHistory d r := Some {| m_alerts := m_alerts d; m_history := replace_row r (m_history d);
    m_systems := m_systems d |};
  createHistory d a := Some {|
    m_alerts := m_alerts d;
    m_history := m_history d ++
      [{| h_id := infinite_fresh (h_id <$> m_history d); h_alert := ar_id a;
          h_user := ar_user a; h_system := ar_system a; h_name := ar_name a;
          h_value := ar_value a; h_resolved := None |}];
    m_systems := m_systems d |};
  alerts := keyed;
  history := m_history;
|}.

Lemma find_open_split id l r :
  List.find (open_row id) l = Some r →
  ∃ l1 l2, l = l1 ++ r :: l2 ∧ open_row id r = true ∧
           Forall (λ r', open_row id r' = false) l1.
Proof.
  induction l as [|r0 l IH]; simpl; [done|]. destruct (open_row id r0) eqn:Hr0.
  - intros [= ->]. by exists [], l.
  - intros (l1&l2&->&?&?)%IH. exists (r0 :: l1), l2. split_and!; [done..|by constructor].
Qed.

Lemma replace_row_spec r r0 l1 l2 :
  h_id r0 = h_id r → Forall (λ r', h_id r' ≠ h_id r) l1 →
  replace_row r (l1 ++ r0 :: l2) = l1 ++ r :: l2.
Proof.
  intros Hid. induction 1 as [|r1 l1 Hr1 _ IH]; simpl.
  - by rewrite Hid, String.eqb_refl.
  - rewrite (proj2 (String.eqb_neq _ _) Hr1). by rewrite IH.
Qed.

#[export] Instance mem_db_laws : AlertsDBLaws mem_db.
Proof.
  split; simpl.
  - intros d id r. unfold keyed. rewrite map_lookup_filter_Some. tauto.
  - by intros d l [= <-].
  - by intros d sys l [= <-].
  - done.
  - intros d r d' [= <-]. split; [|done]. unfold keyed. simpl. by rewrite map_filter_insert_True.
  - intros d id d' [= <-]. split; [|done]. unfold keyed. simpl. by rewrite map_filter_delete.
  - intros d id r. apply find_open_split.
  - intros d r d' [= <-]. split; [done|]. intros l k r0 Hh Hid Hl. simpl in *. rewrite Hh.
    by apply replace_row_spec.
  - intros d a d' [= <-]. split; [done|]. eexists. split; [apply infinite_is_fresh|done].
Qed.

Lemma mem_db_reliable : reliable (DB := mem_db).
Proof.
  split_and!; [by eexists..|]. intros d id Hn. simpl.
  destruct (List.find (open_row id) (m_history d)) as [r|] eqn:Hf; [by eexists|].
  exfalso. apply Hn. unfold open_count. simpl. rewrite filter_open_none; [done|].
  rewrite Forall_forall. intros r Hr. by eapply List.find_none in Hf; [|apply list_elem_of_In].
Qed.

(** ** Witnesses *)

Definition cpu_alert (id sys : string) (trig : bool) : AlertRecord := {|
  ar_id := id; ar_system := sys; ar_user := "u1"; ar_name := "CPU";
  ar_value := f64_of_Z 80; ar_triggered := trig; ar_min := 10 |}.

Definition db1 : mem_db := {|
  m_alerts := {[ "a1" := cpu_alert "a1" "s1" false; "a2" := cpu_alert "a2" "s2" false ]};
  m_history := []; m_systems := ∅ |}.

Definition cache1 : AlertsCache (M := gmap string) :=
  (PopulateFromDB db1 NewAlertsCache true).1.

Definition hub1 : Hub (DB := mem_db) (M := gmap string) := {| db := db1; cache := cache1 |}.

Lemma PopulateFromDB_synced_witness : synced cache1 db1.
Proof. apply (PopulateFromDB_synced db1 NewAlertsCache cache1). reflexivity. Defined.

Lemma cache1_synced : synced cache1 db1.
Proof. intros sys. by apply populate_view with (c := NewAlertsCache). Qed.

Lemma GetAlerts_exact_witness :
  (GetAlertsByName db1 cache1 "s1" "CPU").1 ≡ₚ
  [PopulateFromRecord (cpu_alert "a1" "s1" false)].
Proof.
  refine (proj1 (proj1 (GetAlerts_exact db1 cache1 "s1" cache1_synced _) "CPU")). done.
Defined.

Lemma cache_stays_synced_witness :
  (∃ h', setAlertTriggered 0 hub1 (PopulateFromRecord (cpu_alert "a1" "s1" false)) true = Some h' ∧
         synced (cache h') (db h')) ∧
  ∃ h', updateRecord 0 hub1 (cpu_alert "a1" "s1" false) (cpu_alert "a1" "s2" false) = Some h' ∧
        cache_view (cache h') "s1" =
          <["a1" := PopulateFromRecord (cpu_alert "a1" "s1" false)]> (db_view (db h') "s1").
Proof.
  destruct (cache_stays_synced 0 hub1 cache1_synced) as (_&Hu&_&Ht).
  split; eexists; (split; [reflexivity|]).
  - refine (Ht (PopulateFromRecord (cpu_alert "a1" "s1" false)) true _ _). reflexivity.
  - exact (proj2 (Hu (cpu_alert "a1" "s1" false) (cpu_alert "a1" "s2" false) _ eq_refl eq_refl) "s1" ltac:(done)).
Defined.

Lemma db1_history_ok : history_ok (db hub1).
Proof.
  split; [apply NoDup_nil_2|]. intros id. simpl. unfold open_count. simpl.
  unfold keyed. simpl. destruct (filter _ _ !! id) as [r|] eqn:Hr; [|done].
  apply map_lookup_filter_Some in Hr as [Hr _].
  apply lookup_insert_Some in Hr as [[_ <-]|[_ Hr]]; [done|].
  by apply lookup_singleton_Some in Hr as [_ <-].
Qed.

Lemma history_tracks_triggered_witness :
  ∃ h', setAlertTriggered 0 hub1 (PopulateFromRecord (cpu_alert "a1" "s1" false)) true = Some h' ∧
        history_ok (db h').
Proof.
  eexists. split; [reflexivity|].
  refine (proj2 (proj2 (history_tracks_triggered 0 hub1 mem_db_reliable db1_history_ok))
    (PopulateFromRecord (cpu_alert "a1" "s1" false)) true _ _).
  reflexivity.
Defined.

(** A store created by [Update] for a system that was never loaded hides the system's
    other alerts from [GetSystemAlerts]. *)
Example Update_unloaded_partial :
  let c := Update (NewAlertsCache (M := gmap string)) (cpu_alert "a1" "s1" true) in
  let d := {| m_alerts := {[ "a1" := cpu_alert "a1" "s1" true;
                             "a3" := cpu_alert "a3" "s1" false ]}; m_history := []; m_systems := ∅ |} in
  length (GetSystemAlerts d c "s1").1 = 1 ∧ size (db_view (DB := mem_db) d "s1") = 2.
Proof. vm_compute. done. Qed.
End AlertStore.
