(* ===== verification/StatusAlerts.v ===== *)
(** * Status alerts ([internal/alerts/alerts_status.go])

    When a system goes down, each of its Status alerts is parked for its delay;
    if the timer fires first a down notification is sent, if the system comes
    back first the parked alert is dropped silently.  The state is the alert
    hub (database and cache, [AlertStore]), the map of pending alerts and the
    notifications handed to [SendAlert]; an error of [SendAlert] is only logged
    by every caller, so it does not appear in the state.  Timers are events:
    [processPendingAlert] may run at any time, also late after a cancellation.  Pausing a
    system and starting it anew are events too: both reset its alerts without a word
    ([deactivateAlerts]). *)

From S2P Require Import Prelude GoFloat GoStrings AlertStore.

(** [AlertMessageData] *)
Module AlertMessageData.
Record t := mk {
  UserID : string;
  SystemID : string;
  Title : string;
  Message : string;
  Link : string;
  LinkText : string;
}.
End AlertMessageData.

(** The [systems] table as the status queries see it: name and status by id. *)
Class SystemsDB (DB : Type) `{AlertsDB DB} := {
  systemRow : DB → string → option (string * string);
  (* Status alerts with the triggered flag on systems with the status:
     alert id, system id, system name *)
  queryStatus : DB → bool → string → option (list (string * string * string));
}.

Class SystemsDBLaws (DB : Type) `{SystemsDB DB} := {
  systemRow_id : ∀ d, systemRow d "" = None;
  queryStatus_spec : ∀ d b st l aid sid name,
    queryStatus d b st = Some l →
    (aid, sid, name) ∈ l ↔
    ∃ r, alerts d !! aid = Some r ∧ ar_name r = "Status" ∧ ar_triggered r = b ∧
         ar_system r = sid ∧ systemRow d sid = Some (name, st);
}.

Module StatusAlerts.
Import AlertStore.
Section status.
Context {DB : Type} {ADB : AlertsDB DB} {ADBL : AlertsDBLaws DB}.
Context {SDB : SystemsDB DB} {SDBL : SystemsDBLaws DB}.
Context {M : Type → Type} {KV : KVStore M} {KVL : KVStoreLaws M} {RO : RangeOrder string}.
Context (appURL : string).
Local Open Scope string_scope.

Record alertInfo := {
  systemName : string;
  alertData : CachedAlertData;
  expireTime : Z;           (* the timer is armed for this instant *)
}.

(** A call of [SendAlert], with the alert and status it is about. *)
Record notification := {
  n_alert : string;
  n_down : bool;
  n_msg : AlertMessageData.t;
}.

Record AlertManager := {
  hub : Hub (DB := DB) (M := M);
  pendingAlerts : gmap string alertInfo;
  outbox : list notification;
  stopped : bool;           (* [stopOnce] has run *)
}.

Definition with_hub (am : AlertManager) (h : Hub) : AlertManager :=
  {| hub := h; pendingAlerts := pendingAlerts am; outbox := outbox am;
     stopped := stopped am |}.
Definition with_pending (am : AlertManager) (p : gmap string alertInfo) : AlertManager :=
  {| hub := hub am; pendingAlerts := p; outbox := outbox am; stopped := stopped am |}.

(** ** Sending *)

Definition emoji (up : bool) : string := if up then "✅" else "🔴".

Definition status_message (down : bool) (name : string) (a : CachedAlertData)
    : AlertMessageData.t :=
  let title := "Connection to " ++ name ++ " is " ++ (if down then "down" else "up")
                 ++ " " ++ emoji (negb down) in
  {| AlertMessageData.UserID := UserID a;
     AlertMessageData.SystemID := SystemID a;
     AlertMessageData.Title := title;
     AlertMessageData.Message := TrimSuffix title (emoji (negb down));
     AlertMessageData.Link := MakeLink appURL ["system"; SystemID a];
     AlertMessageData.LinkText := "View " ++ name |}.

(** The triggered state is saved before anything is sent; [None] is its error. *)
Definition sendStatusAlert (now : Z) (am : AlertManager) (down : bool) (name : string)
    (a : CachedAlertData) : option AlertManager :=
  h' ← setAlertTriggered now (hub am) a down;
  Some {| hub := h'; pendingAlerts := pendingAlerts am;
          outbox := (outbox am ++ [{| n_alert := Id a; n_down := down;
                                      n_msg := status_message down name a |}])%list;
          stopped := stopped am |}.

(** ** Pending alerts *)

Definition schedulePendingStatusAlert (now : Z) (am : AlertManager) (name : string)
    (a : CachedAlertData) (delay : Z) : bool * AlertManager :=
  match pendingAlerts am !! Id a with
  | Some _ => (false, am)
  | None =>
      (true, with_pending am (<[Id a := {| systemName := name; alertData := a;
                                           expireTime := (now + delay)%Z |}]> (pendingAlerts am)))
  end.

Definition delay_of (a : CachedAlertData) : Z := (Z.max 1 (Min a) * Minute)%Z.

Definition handleSystemDown (now : Z) (am : AlertManager) (name : string)
    (l : list CachedAlertData) : AlertManager :=
  fold_left (λ am a, (schedulePendingStatusAlert now am name a (delay_of a)).2) l am.

Definition cancelPendingAlert (am : AlertManager) (alertID : string) : bool * AlertManager :=
  match pendingAlerts am !! alertID with
  | None => (false, am)
  | Some _ => (true, with_pending am (delete alertID (pendingAlerts am)))
  end.

Definition handleSystemUp_one (now : Z) (name : string) (am : AlertManager)
    (a : CachedAlertData) : AlertManager :=
  let '(cancelled, am') := cancelPendingAlert am (Id a) in
  if cancelled then am'
  else if Triggered a then default am (sendStatusAlert now am false name a)
  else am.

Definition handleSystemUp (now : Z) (am : AlertManager) (name : string)
    (l : list CachedAlertData) : AlertManager :=
  fold_left (handleSystemUp_one now name) l am.

Definition HandleStatusAlerts (now : Z) (am : AlertManager) (newStatus sysId name : string)
    : AlertManager :=
  if negb (String.eqb newStatus "up") && negb (String.eqb newStatus "down") then am
  else
    let '(l, c') := GetAlertsByName (db (hub am)) (cache (hub am)) sysId "Status" in
    let am := with_hub am {| db := db (hub am); cache := c' |} in
    match l with
    | [] => am
    | _ => if String.eqb newStatus "down" then handleSystemDown now am name l
           else handleSystemUp now am name l
    end.

Definition CancelPendingStatusAlerts (am : AlertManager) (systemID : string) : AlertManager :=
  fold_left (λ am '(key, info),
      if String.eqb (SystemID (alertData info)) systemID
      then (cancelPendingAlert am key).2 else am)
    (range_list (pendingAlerts am)) am.

(** The timer callback. *)
Definition processPendingAlert (now : Z) (am : AlertManager) (alertID : string) : AlertManager :=
  match pendingAlerts am !! alertID with
  | None => am
  | Some info =>
      let am := with_pending am (delete alertID (pendingAlerts am)) in
      match Refresh (cache (hub am)) (alertData info) with
      | None => am
      | Some a =>
          if Triggered a then am
          else default am (sendStatusAlert now am true (systemName info) a)
      end
  end.

(** Cancels every timer and empties the map (once). *)
Definition Stop (am : AlertManager) : AlertManager :=
  if stopped am then am
  else {| hub := hub am; pendingAlerts := ∅; outbox := outbox am; stopped := true |}.

(** ** Startup *)

(** [None]: an error; what was resolved before it stays resolved. *)
Fixpoint resolve_loop (now : Z) (ids : list string) (h : Hub) : Hub * bool :=
  match ids with
  | [] => (h, true)
  | id :: ids =>
      match findAlert (db h) id with
      | None => (h, false)
      | Some r =>
          match updateRecord now h r (set_triggered r false) with
          | None => (h, false)
          | Some h' => resolve_loop now ids h'
          end
      end
  end.

Definition resolveStatusAlerts (now : Z) (h : Hub) : Hub * bool :=
  match queryStatus (db h) true "up" with
  | None => (h, false)
  | Some l => resolve_loop now ((λ x, x.1.1) <$> l) h
  end.

Definition restore_one (now : Z) (am : AlertManager) (item : string * string * string)
    : AlertManager :=
  let '(aid, sid, name) := item in
  match GetAlert (cache (hub am)) sid aid with
  | None => am
  | Some a => (schedulePendingStatusAlert now am name a (delay_of a)).2
  end.

Definition restorePendingStatusAlerts (now : Z) (am : AlertManager) : AlertManager :=
  match queryStatus (db (hub am)) false "down" with
  | None => am
  | Some l =>
      let c' := (PopulateFromDB (db (hub am)) (cache (hub am)) false).1 in
      fold_left (restore_one now) l (with_hub am {| db := db (hub am); cache := c' |})
  end.

(** ** Events *)

(** What [onRecordAfterUpdateSuccess] of [internal/hub/systems/system_manager.go] does to alerts when
    a system is paused, and when it is started anew ([pending] without a WebSocket); errors are
    ignored. *)
Definition system_paused (now : Z) (am : AlertManager) (sysId : string) : AlertManager :=
  CancelPendingStatusAlerts (with_hub am (deactivateAlerts now (hub am) sysId).1) sysId.
Definition system_resumed (now : Z) (am : AlertManager) (sysId : string) : AlertManager :=
  with_hub am (deactivateAlerts now (hub am) sysId).1.

Inductive event :=
| EvStatus (newStatus sysId name : string)   (* a system record changed its status *)
| EvTimer (alertID : string)                 (* a timer fires *)
| EvPaused (sysId : string)                  (* a system is paused *)
| EvResumed (sysId : string)                 (* a system is started anew *)
| EvStop.

Definition step (now : Z) (am : AlertManager) (ev : event) : AlertManager :=
  match ev with
  | EvStatus st sysId name => HandleStatusAlerts now am st sysId name
  | EvTimer id => processPendingAlert now am id
  | EvPaused sysId => system_paused now am sysId
  | EvResumed sysId => system_resumed now am sysId
  | EvStop => Stop am
  end.

Definition valid_event (ev : event) : Prop :=
  match ev with EvStatus _ sysId _ => sysId ≠ "" | _ => True end.

(** Runs of events that satisfy [P]. *)
Inductive steps (P : event → Prop) : AlertManager → AlertManager → Prop :=
| steps_refl am : steps P am am
| steps_step am am' now ev :
    steps P am am' → valid_event ev → P ev → steps P am (step now am' ev).

Definition any_event (_ : event) : Prop := True.

(** Neither a pause nor a new start of the system. *)
Definition undisturbed (sys : string) (ev : event) : Prop :=
  match ev with EvPaused sysId | EvResumed sysId => sysId ≠ sys | _ => True end.

(** ** The contract: down and up notifications of an alert alternate *)

(** The triggered state a log of notifications leads to from [b]; [None] when two
    consecutive notifications of an alert say the same. *)
Fixpoint run_log (b : bool) (l : list bool) : option bool :=
  match l with
  | [] => Some b
  | d :: l => if Bool.eqb d b then None else run_log d l
  end.

Definition log (am : AlertManager) (id : string) : list bool :=
  n_down <$> List.filter (λ n, String.eqb (n_alert n) id) (outbox am).

Notation records am := (alerts (db (hub am))).

(** The cache and the pending alerts are sound in every state. *)
Record Sound (am : AlertManager) : Prop := {
  inv_synced : synced (cache (hub am)) (db (hub am));
  inv_pending : map_Forall (λ id info, Id (alertData info) = id ∧
                                       SystemID (alertData info) ≠ "") (pendingAlerts am);
}.

(** Since the state [am0], the notifications of the alerts of [sys] alternate. *)
Record Inv (sys : string) (am0 am : AlertManager) : Prop := {
  inv_sound : Sound am;
  inv_log : ∀ id r, records am !! id = Some r → ar_system r = sys →
    ∃ r0 l, records am0 !! id = Some r0 ∧ ar_system r0 = sys ∧ log am id = (log am0 id ++ l)%list ∧
      run_log (ar_triggered r0) l = Some (ar_triggered r);
}.

Lemma run_log_app b l d t :
  run_log b l = Some t → d ≠ t → run_log b (l ++ [d]) = Some d.
Proof.
  revert b. induction l as [|x l IH]; intros b; simpl.
  - intros [= ->] Hd. by rewrite (proj2 (eqb_false_iff _ _) Hd).
  - destruct (Bool.eqb x b); [done|]. apply IH.
Qed.

(** Sending keeps the contract when the notification reverses the triggered state. *)
Lemma send_inv sys am0 now am down name a r am' :
  Inv sys am0 am → records am !! Id a = Some r → ar_triggered r = negb down →
  sendStatusAlert now am down name a = Some am' →
  Inv sys am0 am' ∧ pendingAlerts am' = pendingAlerts am ∧
  (∀ id, id ≠ Id a → records am' !! id = records am !! id).
Proof.
  intros [[Hs Hp] Hl] Hr Ht (h'&Hh&[= <-])%bind_Some. simpl.
  pose proof (setAlertTriggered_synced _ _ _ _ _ Hs Hh) as Hs'.
  apply setAlertTriggered_effect in Hh as (r'&Hr'&_&Ha&_). simplify_eq.
  split_and!; [|done|by intros id Hid; rewrite Ha, lookup_insert_ne].
  split; [by split|]. intros id r0. simpl. rewrite Ha.
  unfold log. simpl. rewrite List.filter_app, fmap_app. simpl.
  destruct (decide (id = Id a)) as [->|Hne].
  - rewrite lookup_insert_eq. intros [= <-] Hsys. rewrite String.eqb_refl. simpl.
    destruct (Hl _ _ Hr Hsys) as (r0&l&?&?&E&Hrun). exists r0, (l ++ [down])%list.
    split_and!; [done|done|by unfold log in E; rewrite E, app_assoc|].
    eapply run_log_app; [done|]. rewrite Ht. by destruct down.
  - rewrite lookup_insert_ne by done. intros Hr0.
    rewrite (proj2 (String.eqb_neq (Id a) id)) by done. simpl. rewrite app_nil_r. by apply Hl.
Qed.

Lemma inv_with_pending sys am0 am p :
  Inv sys am0 am → p ⊆ pendingAlerts am → Inv sys am0 (with_pending am p).
Proof.
  intros [[Hs Hp] Hl] Hsub. split; [|done]. split; [done|]. simpl.
  intros id info Hi. apply Hp. by eapply lookup_weaken.
Qed.

Lemma inv_cancel sys am0 am id : Inv sys am0 am → Inv sys am0 (cancelPendingAlert am id).2.
Proof.
  intros HI. unfold cancelPendingAlert. destruct (pendingAlerts am !! id); [|done]. simpl.
  apply inv_with_pending; [done|]. apply delete_subseteq.
Qed.

Lemma inv_schedule sys am0 now am name a delay :
  Inv sys am0 am → SystemID a ≠ "" →
  Inv sys am0 (schedulePendingStatusAlert now am name a delay).2.
Proof.
  intros [[Hs Hp] Hl] Ha. unfold schedulePendingStatusAlert.
  destruct (pendingAlerts am !! Id a) eqn:Hpa; [split; [by split|done]|]. simpl.
  split; [|done]. split; [done|]. simpl. apply map_Forall_insert_2; [done|done].
Qed.

Lemma inv_up_loop sys am0 now name l am :
  Inv sys am0 am → NoDup (Id <$> l) →
  (∀ a, a ∈ l → ∃ r, records am !! Id a = Some r ∧ a = PopulateFromRecord r) →
  Inv sys am0 (handleSystemUp now am name l).
Proof.
  unfold handleSystemUp. revert am.
  induction l as [|a l IH]; intros am HI Hnd Hl; [done|]. simpl.
  rewrite fmap_cons in Hnd. apply NoDup_cons in Hnd as [Ha Hnd].
  destruct (Hl a) as (r&Hr&Har); [apply elem_of_cons; by left|].
  assert (∀ am', (∀ id, id ≠ Id a → records am' !! id = records am !! id) →
    ∀ a', a' ∈ l → ∃ r, records am' !! Id a' = Some r ∧ a' = PopulateFromRecord r) as Hrest.
  { intros am' Hsame a' Ha'. rewrite Hsame.
    - apply Hl, elem_of_cons. by right.
    - intros Heq. apply Ha. rewrite <- Heq. by apply list_elem_of_fmap_2. }
  unfold handleSystemUp_one at 2. pose proof (inv_cancel sys am0 am (Id a) HI) as Hc.
  unfold cancelPendingAlert in *. destruct (pendingAlerts am !! Id a).
  { apply IH; [done..|]. by apply Hrest. }
  destruct (Triggered a) eqn:Ht; [|apply IH; [done..|by apply Hrest]].
  destruct (sendStatusAlert now am false name a) as [am'|] eqn:Hsend; simpl.
  - assert (ar_triggered r = negb false) as Htr by (by rewrite Har in Ht).
    destruct (send_inv _ _ _ _ _ _ _ _ _ HI Hr Htr Hsend) as (HI'&_&Hsame).
    apply IH; [done..|]. by apply Hrest.
  - apply IH; [done..|]. by apply Hrest.
Qed.

Lemma inv_status sys am0 now am st sysId name :
  Inv sys am0 am → sysId ≠ "" → Inv sys am0 (HandleStatusAlerts now am st sysId name).
Proof.
  intros HI Hsys. unfold HandleStatusAlerts. destruct (_ && _); [done|].
  destruct (GetAlertsByName_spec (db (hub am)) (cache (hub am)) sysId "Status"
    (inv_synced _ (inv_sound _ _ _ HI)) Hsys) as (Hs'&Hnd&Hin).
  destruct (GetAlertsByName _ _ _ _) as [l c'] eqn:Hg. simpl in *.
  set (am1 := with_hub am _).
  assert (Inv sys am0 am1) as HI1.
  { destruct HI as [[Hs Hp] Hl]. split; [|exact Hl]. split; [exact Hs'|exact Hp]. }
  destruct l as [|a l]; [done|]. destruct (String.eqb st "down").
  - unfold handleSystemDown. apply fold_left_inv; [done|].
    intros am2 a2 Ha2 HI2. apply inv_schedule; [done|].
    apply Hin in Ha2 as (r&_&->&<-&_). done.
  - apply inv_up_loop; [done..|]. intros a2 Ha2.
    apply Hin in Ha2 as (r&Hr&Har&_). eauto.
Qed.

Lemma inv_timer sys am0 now am id : Inv sys am0 am → Inv sys am0 (processPendingAlert now am id).
Proof.
  intros HI. unfold processPendingAlert.
  destruct (pendingAlerts am !! id) as [info|] eqn:Hp; [|done].
  assert (Inv sys am0 (with_pending am (delete id (pendingAlerts am)))) as HI'.
  { apply inv_with_pending; [done|]. apply delete_subseteq. }
  pose proof (inv_sound _ _ _ HI) as Hso.
  destruct (inv_pending _ Hso id info Hp) as [Hid Hsys].
  destruct (Refresh _ _) as [a|] eqn:Href; [|done]. destruct (Triggered a) eqn:Ht; [done|].
  destruct (sendStatusAlert _ _ true _ a) as [am'|] eqn:Hsend; simpl; [|done].
  eapply Refresh_spec in Href as (r&Hr&->&_); [|apply (inv_synced _ Hso)|done].
  simpl in *. eapply (send_inv sys am0 now _ true); [exact HI'| |exact Ht|exact Hsend].
  simpl. by rewrite (alerts_key _ _ _ Hr).
Qed.

Lemma cancel_all_inv sys am0 am sysId : Inv sys am0 am → Inv sys am0 (CancelPendingStatusAlerts am sysId).
Proof.
  intros HI. unfold CancelPendingStatusAlerts. apply fold_left_inv; [done|].
  intros am' [key info] _ HI'. destruct (String.eqb _ _); [|done]. by apply inv_cancel.
Qed.

(** Resetting the alerts of another system. *)
Lemma inv_resumed sys am0 now am sysId :
  Inv sys am0 am → sysId ≠ sys → Inv sys am0 (system_resumed now am sysId).
Proof.
  intros [[Hs Hp] Hl] Hne. unfold system_resumed.
  destruct (deactivateAlerts now (hub am) sysId) as [h' ok] eqn:E.
  apply deactivateAlerts_frame in E as [Hf Hs']. split; [split; [by apply Hs'|done]|].
  simpl. intros id r Hr Hsys. destruct (Hf id) as [E|(r'&Hr'&Hsys'&_&E)].
  - rewrite E in Hr. by apply Hl.
  - rewrite E in Hr. by simplify_eq/=.
Qed.

Lemma status_inv_step sys am0 now am ev :
  Inv sys am0 am → valid_event ev → undisturbed sys ev → Inv sys am0 (step now am ev).
Proof.
  intros HI Hev Hu. destruct ev as [st sysId name|id|sysId|sysId|]; simpl in *.
  - by apply inv_status.
  - by apply inv_timer.
  - apply cancel_all_inv. by apply (inv_resumed sys am0 now am sysId).
  - by apply inv_resumed.
  - unfold Stop. destruct (stopped am); [done|]. destruct HI as [[? _] ?]. split; [|done].
    split; [done|]. simpl. apply map_Forall_empty.
Qed.

(** A system that no event disturbs exists for every event; its contract gives soundness. *)
Lemma sound_start sys am : Sound am → Inv sys am am.
Proof.
  intros Hs. split; [done|]. intros id r Hr Hsys. exists r, []. by rewrite app_nil_r.
Qed.

Lemma sound_step now am ev : Sound am → valid_event ev → Sound (step now am ev).
Proof.
  intros Hs Hev.
  assert (∃ sys, undisturbed sys ev) as [sys Hu].
  { destruct ev as [| |sysId|sysId|]; try (by exists ""); exists (sysId ++ "x"); simpl;
      intros E; apply (f_equal String.length) in E; rewrite string_length_app in E; simpl in E; lia. }
  by apply (inv_sound sys am), status_inv_step; [apply sound_start| |].
Qed.

Lemma steps_inv P sys am0 am am' :
  (∀ ev, P ev → undisturbed sys ev) → Inv sys am0 am → steps P am am' → Inv sys am0 am'.
Proof. intros HP HI Hst. induction Hst; [done|]. apply status_inv_step; auto. Qed.

Lemma steps_sound P am am' : Sound am → steps P am am' → Sound am'.
Proof. intros Hs Hst. induction Hst; [done|]. by apply sound_step; auto. Qed.

(** A pause or a new start sends nothing. *)
Lemma reset_silent now am sys ev :
  ev = EvPaused sys ∨ ev = EvResumed sys → outbox (step now am ev) = outbox am.
Proof.
  intros [->| ->]; [|done]. simpl. unfold system_paused, CancelPendingStatusAlerts.
  apply (fold_left_inv _ (λ am', outbox am' = outbox am)); [done|].
  intros am' [key info] _ <-. unfold cancelPendingAlert. by repeat case_match.
Qed.

Lemma reset_records now am sys ev :
  ev = EvPaused sys ∨ ev = EvResumed sys →
  records (step now am ev) = alerts (db (deactivateAlerts now (hub am) sys).1).
Proof.
  intros [->| ->]; [|done]. simpl. unfold system_paused, CancelPendingStatusAlerts.
  apply (fold_left_inv _ (λ am', records am' = alerts (db (deactivateAlerts now (hub am) sys).1))); [done|].
  intros am' [key info] _ <-. unfold cancelPendingAlert. by repeat case_match.
Qed.

(** C1: after any run of status changes, timer firings (also stale ones), pauses, new starts and
    shutdowns, as long as a system is neither paused nor started anew, the notifications of each
    of its alerts alternate between down and up, beginning with what differs from the triggered flag
    at the outset, and the last one agrees with the flag in the database.  A pause or new start of the
    system sends nothing and changes alerts in one way only: it clears triggered flags of the system's
    own, all of them when no save fails; after it a second down notification is due without an up one
    in between. *)
Theorem status_notifications_alternate am am1 am2 sys :
  synced (cache (hub am)) (db (hub am)) → pendingAlerts am = ∅ →
  steps any_event am am1 → steps (undisturbed sys) am1 am2 →
  (∀ id r2, records am2 !! id = Some r2 → ar_system r2 = sys →
    ∃ r1 l, records am1 !! id = Some r1 ∧ ar_system r1 = sys ∧
      log am2 id = (log am1 id ++ l)%list ∧ run_log (ar_triggered r1) l = Some (ar_triggered r2)) ∧
  (∀ now ev, ev = EvPaused sys ∨ ev = EvResumed sys →
    outbox (step now am2 ev) = outbox am2 ∧
    (∀ id, records (step now am2 ev) !! id = records am2 !! id ∨
      ∃ r, records am2 !! id = Some r ∧ ar_system r = sys ∧ ar_triggered r = true ∧
           records (step now am2 ev) !! id = Some (set_triggered r false)) ∧
    ((deactivateAlerts now (hub am2) sys).2 = true →
      ∀ id r, records (step now am2 ev) !! id = Some r → ar_system r = sys → ar_triggered r = false)).
Proof.
  intros Hs Hp H1 H2. assert (Sound am1) as Hs1.
  { eapply steps_sound; [|exact H1]. split; [done|]. rewrite Hp. apply map_Forall_empty. }
  pose proof (steps_inv _ sys am1 am1 am2 (λ _ H, H) (sound_start sys am1 Hs1) H2) as HI.
  split; [exact (inv_log _ _ _ HI)|]. intros now ev Hev.
  split; [by eapply reset_silent|]. rewrite (reset_records now am2 sys ev Hev).
  destruct (deactivateAlerts now (hub am2) sys) as [h' ok] eqn:E. cbn [fst snd]. split.
  - by apply (deactivateAlerts_frame now (hub am2) sys h' ok).
  - intros -> id r Hr Hsys. apply deactivateAlerts_exact in E as [E _]. rewrite E in Hr.
    apply fmap_Some in Hr as (r0&_&->). case_bool_decide as Hd; [done|]. by simpl in Hsys.
Qed.

(** ** Functional behaviour *)

Lemma down_loop_pending now name l am :
  NoDup (Id <$> l) →
  hub (handleSystemDown now am name l) = hub am ∧
  outbox (handleSystemDown now am name l) = outbox am ∧
  ∀ id, pendingAlerts (handleSystemDown now am name l) !! id =
    match pendingAlerts am !! id with
    | Some info => Some info
    | None => (λ a, {| systemName := name; alertData := a;
                       expireTime := (now + delay_of a)%Z |}) <$>
              List.find (λ a, String.eqb (Id a) id) l
    end.
Proof.
  unfold handleSystemDown. revert am.
  induction l as [|a l IH]; intros am Hnd.
  { split_and!; [done..|]. intros id. simpl. by destruct (pendingAlerts am !! id). }
  rewrite fmap_cons in Hnd. apply NoDup_cons in Hnd as [Ha Hnd]. simpl.
  destruct (IH (schedulePendingStatusAlert now am name a (delay_of a)).2 Hnd) as (->&->&Hp).
  split_and!; [by unfold schedulePendingStatusAlert; case_match..|].
  intros id. rewrite Hp. unfold schedulePendingStatusAlert.
  destruct (pendingAlerts am !! Id a) as [info|] eqn:Hpa; simpl.
  - destruct (pendingAlerts am !! id) eqn:Hid; [done|].
    by rewrite (proj2 (String.eqb_neq (Id a) id)) by congruence.
  - destruct (String.eqb_spec (Id a) id) as [<-|Hne].
    + by rewrite lookup_insert_eq, Hpa.
    + by rewrite lookup_insert_ne.
Qed.

(** When a system goes down each of its Status alerts that is not already pending is
    parked for max(1, min) minutes, an already pending one keeps its deadline, nothing is
    sent and no other alert is touched. *)
Theorem system_down_schedules now am sysId name :
  synced (cache (hub am)) (db (hub am)) → sysId ≠ "" →
  let am' := HandleStatusAlerts now am "down" sysId name in
  outbox am' = outbox am ∧ db (hub am') = db (hub am) ∧
  ∀ id, pendingAlerts am' !! id =
    match pendingAlerts am !! id with
    | Some info => Some info
    | None =>
        match records am !! id with
        | Some r =>
            if bool_decide (ar_system r = sysId ∧ ar_name r = "Status")
            then Some {| systemName := name; alertData := PopulateFromRecord r;
                         expireTime := (now + Z.max 1 (u8 (ar_min r)) * Minute)%Z |}
            else None
        | None => None
        end
    end.
Proof.
  intros Hs Hsys. unfold HandleStatusAlerts. simpl.
  destruct (GetAlertsByName_spec (db (hub am)) (cache (hub am)) sysId "Status" Hs Hsys)
    as (Hs'&Hnd&Hin).
  destruct (GetAlertsByName _ _ _ _) as [l c'] eqn:Hg. simpl in *.
  set (am1 := with_hub am _).
  assert ((match l with [] => am1 | _ => handleSystemDown now am1 name l end) =
    handleSystemDown now am1 name l) as -> by (by destruct l).
  destruct (down_loop_pending now name l am1 Hnd) as (->&->&Hp).
  split_and!; [done..|]. intros id. rewrite Hp. simpl.
  destruct (pendingAlerts am !! id); [done|].
  destruct (List.find (λ a, String.eqb (Id a) id) l) as [a|] eqn:Hf; simpl.
  - apply List.find_some in Hf as [Hi%list_elem_of_In%Hin <-%String.eqb_eq].
    destruct Hi as (r&Hr&->&Hsy&Hn). rewrite Hr. by rewrite bool_decide_eq_true_2.
  - destruct (records am !! id) as [r|] eqn:Hr; [|done]. case_bool_decide as Hd; [|done].
    destruct Hd as [Hsy Hn]. exfalso. pose proof (alerts_key _ _ _ Hr) as Hk.
    eapply List.find_none in Hf; [|apply list_elem_of_In, (Hin (PopulateFromRecord r))].
    + by apply String.eqb_neq in Hf.
    + exists r. simpl. by rewrite Hk.
Qed.

Lemma up_loop_quiet now name l am :
  NoDup (Id <$> l) →
  (∀ a, a ∈ l → is_Some (pendingAlerts am !! Id a)) →
  hub (handleSystemUp now am name l) = hub am ∧
  outbox (handleSystemUp now am name l) = outbox am ∧
  (∀ a, a ∈ l → pendingAlerts (handleSystemUp now am name l) !! Id a = None).
Proof.
  unfold handleSystemUp. revert am. induction l as [|a l IH]; intros am Hnd Hp.
  { split_and!; [done..|]. intros a Ha. by apply elem_of_nil in Ha. }
  rewrite fmap_cons in Hnd. apply NoDup_cons in Hnd as [Ha Hnd]. simpl.
  destruct (Hp a) as [info Hi]; [apply elem_of_cons; by left|].
  unfold handleSystemUp_one at 2 4 6. unfold cancelPendingAlert. rewrite Hi. simpl.
  set (am1 := with_pending am _).
  destruct (IH am1 Hnd) as (->&->&Hgone).
  { intros a' Ha'. simpl. rewrite lookup_delete_ne; [apply Hp, elem_of_cons; by right|].
    intros Heq. apply Ha. rewrite Heq. by apply list_elem_of_fmap_2. }
  split_and!; [done..|]. intros a' [->|Ha']%elem_of_cons; [|by apply Hgone].
  apply (fold_left_inv _ (λ am', pendingAlerts am' !! Id a = None)).
  - simpl. apply lookup_delete_eq.
  - intros am' a'' _ Hn. unfold handleSystemUp_one, cancelPendingAlert.
    destruct (pendingAlerts am' !! Id a'') eqn:Hpa; simpl.
    + by apply lookup_delete_None; right.
    + destruct (Triggered a''); [|done].
      destruct (sendStatusAlert _ _ _ _ _) as [am''|] eqn:Hsend; [|done].
      by apply bind_Some in Hsend as (?&_&[= <-]).
Qed.

(** A system that goes down and is up again before any timer fires causes no
    notification and leaves no pending alert of its own behind. *)
Theorem flapping_is_silent now1 now2 am sysId name :
  synced (cache (hub am)) (db (hub am)) → sysId ≠ "" →
  let am' := HandleStatusAlerts now2 (HandleStatusAlerts now1 am "down" sysId name)
               "up" sysId name in
  outbox am' = outbox am ∧ db (hub am') = db (hub am) ∧
  ∀ id r, records am !! id = Some r → ar_system r = sysId → ar_name r = "Status" →
    pendingAlerts am' !! id = None.
Proof.
  intros Hs Hsys. unfold HandleStatusAlerts. simpl.
  destruct (GetAlertsByName_spec (db (hub am)) (cache (hub am)) sysId "Status" Hs Hsys)
    as (Hs'&Hnd&Hin).
  destruct (GetAlertsByName _ _ _ _) as [l c'] eqn:Hg. simpl in *.
  set (am1 := with_hub am {| db := db (hub am); cache := c' |}).
  assert ((match l with [] => am1 | _ => handleSystemDown now1 am1 name l end) =
    handleSystemDown now1 am1 name l) as -> by (by destruct l).
  destruct (down_loop_pending now1 name l am1 Hnd) as (Hh&Ho&Hp).
  set (am2 := handleSystemDown now1 am1 name l) in *. rewrite Hh. simpl.
  destruct (GetAlertsByName_spec (db (hub am)) c' sysId "Status" Hs' Hsys) as (_&Hnd2&Hin2).
  destruct (GetAlertsByName _ c' _ _) as [l2 c2] eqn:Hg2. simpl in *.
  set (am3 := with_hub am2 _).
  assert ((match l2 with [] => am3 | _ => handleSystemUp now2 am3 name l2 end) =
    handleSystemUp now2 am3 name l2) as -> by (by destruct l2).
  destruct (up_loop_quiet now2 name l2 am3 Hnd2) as (->&->&Hgone).
  - intros a Ha. simpl. rewrite Hp. destruct (pendingAlerts am !! Id a); [by eexists|].
    apply fmap_is_Some. apply Hin2, Hin in Ha.
    destruct (List.find (λ a0, String.eqb (Id a0) (Id a)) l) eqn:Hf; [by eexists|].
    eapply List.find_none in Hf; [|by apply list_elem_of_In]. simpl in Hf.
    by rewrite String.eqb_refl in Hf.
  - split_and!; [done..|]. intros id r Hr Hsy Hn. pose proof (alerts_key _ _ _ Hr) as Hk.
    rewrite <- Hk. apply (Hgone (PopulateFromRecord r)), Hin2. exists r. simpl. by rewrite Hk.
Qed.

(** *** Restart *)

Lemma populate_keeps_synced d c force :
  synced c d → synced (PopulateFromDB d c force).1 d.
Proof.
  intros Hs. destruct (PopulateFromDB d c force) as [c' err] eqn:Hp. simpl.
  unfold PopulateFromDB in Hp. destruct (negb force && populated c) eqn:Hf; [by simplify_eq|].
  destruct (findAllAlerts d) as [l|] eqn:Hl; [|by simplify_eq].
  intros sys Hsys. apply (populate_view d c); [|done].
  unfold PopulateFromDB. simpl. rewrite Hl. by simplify_eq.
Qed.

Lemma restore_loop_db now l am : hub (fold_left (restore_one now) l am) = hub am.
Proof.
  apply (fold_left_inv _ (λ am', hub am' = hub am)); [done|].
  intros am' [[aid sid] nm] _ Hh. unfold restore_one, schedulePendingStatusAlert.
  by repeat case_match.
Qed.

Lemma GetAlert_Id d c sys id a :
  synced c d → sys ≠ "" → GetAlert c sys id = Some a → Id a = id.
Proof.
  intros Hs Hsys. pose proof (Hs _ Hsys) as Hv. unfold GetAlert, cache_view in *.
  destruct (st_getOk _ sys) as [s|]; [|done]. rewrite st_getOk_spec, Hv, db_view_lookup.
  destruct (alerts d !! id) as [r|] eqn:Hr; [|done]. case_decide; [|done].
  intros [= <-]. by apply alerts_key in Hr.
Qed.

Lemma GetAlert_record d c id r :
  synced c d → ar_system r ≠ "" → alerts d !! id = Some r →
  GetAlert c (ar_system r) id = Some (PopulateFromRecord r).
Proof.
  intros Hs Hsys Hr. pose proof (Hs _ Hsys) as Hv. unfold GetAlert, cache_view in *.
  destruct (st_getOk _ (ar_system r)) as [s|].
  - by rewrite st_getOk_spec, Hv, db_view_lookup, Hr, decide_True.
  - apply (f_equal (lookup id)) in Hv.
    by rewrite lookup_empty, db_view_lookup, Hr, decide_True in Hv.
Qed.

Lemma restore_loop now l am id r name :
  synced (cache (hub am)) (db (hub am)) →
  records am !! id = Some r → ar_system r ≠ "" → pendingAlerts am !! id = None →
  (∀ sid nm, (id, sid, nm) ∈ l → sid = ar_system r ∧ nm = name) →
  (∀ aid sid nm, (aid, sid, nm) ∈ l → sid ≠ "") →
  let am' := fold_left (restore_one now) l am in
  hub am' = hub am ∧ outbox am' = outbox am ∧
  pendingAlerts am' !! id =
    if existsb (λ it, String.eqb it.1.1 id) l
    then Some {| systemName := name; alertData := PopulateFromRecord r;
                 expireTime := (now + Z.max 1 (u8 (ar_min r)) * Minute)%Z |}
    else None.
Proof.
  intros Hs Hr Hsys. pose proof (alerts_key _ _ _ Hr) as Hk.
  set (info := {| systemName := name |}).
  enough (∀ am0, hub am0 = hub am →
    (pendingAlerts am0 !! id = None ∨ pendingAlerts am0 !! id = Some info) →
    (∀ sid nm, (id, sid, nm) ∈ l → sid = ar_system r ∧ nm = name) →
    (∀ aid sid nm, (aid, sid, nm) ∈ l → sid ≠ "") →
    hub (fold_left (restore_one now) l am0) = hub am ∧
    outbox (fold_left (restore_one now) l am0) = outbox am0 ∧
    pendingAlerts (fold_left (restore_one now) l am0) !! id =
      if existsb (λ it, String.eqb it.1.1 id) l then Some info
      else pendingAlerts am0 !! id) as Hgen.
  { intros Hn Hl Hne. destruct (Hgen am eq_refl (or_introl Hn) Hl Hne) as (?&?&Hlk).
    split_and!; [done..|]. by rewrite Hlk, Hn. }
  induction l as [|[[aid sid] nm] l IH]; intros am0 Hh Hp Hl Hsid; [done|].
  cbn [fold_left existsb fst].
  assert (∀ sid nm, (id, sid, nm) ∈ l → sid = ar_system r ∧ nm = name) as Hl'.
  { intros ?? Hi. apply Hl, elem_of_cons. by right. }
  assert (∀ aid sid nm, (aid, sid, nm) ∈ l → sid ≠ "") as Hsid'.
  { intros ??? Hi. eapply Hsid, elem_of_cons. by right. }
  set (am1 := restore_one now am0 (aid, sid, nm)).
  assert (hub am1 = hub am ∧ outbox am1 = outbox am0 ∧
    pendingAlerts am1 !! id =
      if String.eqb aid id then Some info else pendingAlerts am0 !! id) as (Hh1&Ho1&Hp1).
  { unfold am1, restore_one. rewrite Hh.
    destruct (String.eqb_spec aid id) as [->|Hne].
    - destruct (Hl sid nm) as [-> ->]; [apply elem_of_cons; by left|].
      rewrite (GetAlert_record _ _ _ _ Hs Hsys Hr).
      unfold schedulePendingStatusAlert. simpl. rewrite Hk.
      destruct Hp as [Hp|Hp]; rewrite Hp; simpl; [|done]. by rewrite lookup_insert_eq.
    - destruct (GetAlert _ sid aid) as [a|] eqn:Ha; [|done].
      unfold schedulePendingStatusAlert. destruct (pendingAlerts am0 !! Id a); [done|].
      simpl. rewrite lookup_insert_ne; [done|]. intros Heq. apply Hne. rewrite <- Heq.
      symmetry. eapply GetAlert_Id; [exact Hs| |exact Ha]. eapply Hsid, elem_of_cons. by left. }
  destruct (IH am1) as (?&Ho&Hp2); [done| |done..|].
  { rewrite Hp1. destruct (String.eqb aid id); auto. }
  split_and!; [done|by rewrite Ho, Ho1|]. rewrite Hp2, Hp1.
  by destruct (String.eqb aid id), (existsb _ l).
Qed.

(** After a hub restart (nothing pending, cache in sync), exactly the untriggered
    Status alerts of systems that are down are parked again, with a fresh delay, and
    nothing is sent. *)
Theorem restore_requeues now am l :
  synced (cache (hub am)) (db (hub am)) → pendingAlerts am = ∅ →
  queryStatus (db (hub am)) false "down" = Some l →
  let am' := restorePendingStatusAlerts now am in
  db (hub am') = db (hub am) ∧
  ∀ id r, records am !! id = Some r → ar_system r ≠ "" →
    outbox am' = outbox am ∧
    pendingAlerts am' !! id =
      match systemRow (db (hub am)) (ar_system r) with
      | Some (name, st) =>
          if bool_decide (ar_name r = "Status" ∧ ar_triggered r = false ∧ st = "down")
          then Some {| systemName := name; alertData := PopulateFromRecord r;
                       expireTime := (now + Z.max 1 (u8 (ar_min r)) * Minute)%Z |}
          else None
      | None => None
      end.
Proof.
  intros Hs Hp Hq. unfold restorePendingStatusAlerts. rewrite Hq.
  set (am1 := with_hub am _).
  assert (synced (cache (hub am1)) (db (hub am1))) as Hs1 by (by apply populate_keeps_synced).
  split; [by rewrite restore_loop_db|].
  intros id r Hr Hsys. pose proof (λ aid sid nm, queryStatus_spec _ _ _ _ aid sid nm Hq) as Hl.
  set (name := match systemRow (db (hub am)) (ar_system r) with
               | Some (name, _) => name | None => "" end).
  destruct (restore_loop now l am1 id r name Hs1 Hr Hsys) as (_&->&->).
  - simpl. rewrite Hp. apply lookup_empty.
  - intros sid nm (r'&Hr'&_&_&<-&Hrow)%Hl. simplify_eq. split; [done|].
    unfold name. by rewrite Hrow.
  - intros aid sid nm (?&_&_&_&_&Hrow)%Hl ->. by rewrite systemRow_id in Hrow.
  - split; [done|]. destruct (existsb _ l) eqn:Hex.
    + apply existsb_exists in Hex as ([[aid sid] nm]&Hi%list_elem_of_In&Heq).
      apply String.eqb_eq in Heq. simpl in Heq. subst aid.
      apply Hl in Hi as (r'&Hr'&Hn&Ht&<-&Hrow). simplify_eq.
      unfold name. rewrite Hrow. by rewrite bool_decide_eq_true_2.
    + destruct (systemRow _ (ar_system r)) as [[nm st]|] eqn:Hrow; [|done].
      case_bool_decide as Hd; [|done]. destruct Hd as (Hn&Ht&->). exfalso.
      assert ((id, ar_system r, nm) ∈ l) as Hi by (apply Hl; eauto 10).
      apply not_true_iff_false in Hex. apply Hex, existsb_exists.
      exists (id, ar_system r, nm). split; [by apply list_elem_of_In|].
      apply String.eqb_refl.
Qed.
End status.
(** ** Witnesses *)

#[export] Instance mem_db_systems : SystemsDB mem_db := {|
  systemRow d id := if decide (id = "") then None else m_systems d !! id;
  queryStatus d b st := Some (omap (λ kr : string * AlertRecord,
    let r := kr.2 in
    if bool_decide (ar_name r = "Status" ∧ ar_triggered r = b ∧ ar_system r ≠ "") then
      match m_systems d !! ar_system r with
      | Some (name, st') =>
          if bool_decide (st' = st) then Some (kr.1, ar_system r, name) else None
      | None => None
      end
    else None) (map_to_list (alerts d)));
|}.

#[export] Instance mem_db_systems_laws : SystemsDBLaws mem_db.
Proof.
  split; [done|]. intros d b st l aid sid name [= <-].
  rewrite list_elem_of_omap. split.
  - intros ([k r]&Hr%elem_of_map_to_list&Heq). simpl in *.
    case_bool_decide as Hc; [|done]. destruct Hc as (?&?&?).
    destruct (m_systems d !! ar_system r) as [[nm st']|] eqn:Hs; [|done].
    case_bool_decide; simplify_eq. exists r. by rewrite decide_False.
  - intros (r&Hr&Hn&Ht&<-&Hs). exists (aid, r). split; [by apply elem_of_map_to_list|].
    simpl in *. case_decide; [done|]. rewrite bool_decide_eq_true_2 by done.
    rewrite Hs. by rewrite bool_decide_eq_true_2.
Qed.

Definition status_alert (id sys : string) (trig : bool) : AlertRecord := {|
  ar_id := id; ar_system := sys; ar_user := "u1"; ar_name := "Status";
  ar_value := f64_of_Z 0; ar_triggered := trig; ar_min := 2 |}.

Definition sdb : mem_db := {|
  m_alerts := {[ "a1" := status_alert "a1" "s1" false; "a2" := status_alert "a2" "s2" true ]};
  m_history := [];
  m_systems := {[ "s1" := ("web", "down"); "s2" := ("mail", "up") ]} |}.

Definition am0 : AlertManager (DB := mem_db) (M := gmap string) := {|
  hub := {| db := sdb; cache := (PopulateFromDB sdb NewAlertsCache true).1 |};
  pendingAlerts := ∅; outbox := []; stopped := false |}.

Lemma am0_synced : synced (cache (hub am0)) (db (hub am0)).
Proof. intros sys. by apply populate_view with (c := NewAlertsCache). Qed.

Definition url : string := "https://bantay.example".

Lemma system_down_schedules_witness :
  pendingAlerts (HandleStatusAlerts url 0 am0 "down" "s1" "web") !! "a1" =
  Some {| systemName := "web"; alertData := PopulateFromRecord (status_alert "a1" "s1" false);
          expireTime := (2 * Minute)%Z |}.
Proof.
  pose proof (system_down_schedules url 0 am0 "s1" "web" am0_synced) as Hd.
  destruct Hd as (_&_&Hp); [done|]. rewrite Hp. vm_compute. reflexivity.
Defined.

Lemma flapping_is_silent_witness :
  let am' := HandleStatusAlerts url Second (HandleStatusAlerts url 0 am0 "down" "s1" "web")
               "up" "s1" "web" in
  outbox am' = [] ∧ pendingAlerts am' !! "a1" = None.
Proof.
  destruct (flapping_is_silent url 0 Second am0 "s1" "web" am0_synced) as (Ho&_&Hp); [done|].
  split; [exact Ho|]. by apply (Hp "a1" (status_alert "a1" "s1" false)).
Defined.

Definition am_down : AlertManager (DB := mem_db) (M := gmap string) :=
  step url (2 * Minute) (step url 0 am0 (EvStatus "down" "s1" "web")) (EvTimer "a1").

Definition am_up : AlertManager (DB := mem_db) (M := gmap string) :=
  step url (3 * Minute) am_down (EvStatus "up" "s1" "web").

(** Down, and then paused. *)
Definition am_paused : AlertManager (DB := mem_db) (M := gmap string) :=
  step url (3 * Minute) am_down (EvPaused "s1").

(** After the pause the system comes up silently and goes down again. *)
Definition am_down_again : AlertManager (DB := mem_db) (M := gmap string) :=
  step url (9 * Minute) (step url (6 * Minute) (step url (5 * Minute) am_paused
    (EvStatus "up" "s1" "web")) (EvStatus "down" "s1" "web")) (EvTimer "a1").

Lemma am_paused_steps : steps url any_event am0 am_paused.
Proof. unfold am_paused, am_down. repeat (apply steps_step; [|done..]). apply steps_refl. Qed.

(** Two down notifications with a pause in between, and each side of it alternates. *)
Lemma status_notifications_alternate_witness :
  log am_up "a1" = [true; false] ∧ log am_down_again "a1" = [true; true] ∧
  (∃ r, alerts (db (hub am_paused)) !! "a1" = Some r ∧ ar_triggered r = false ∧ outbox am_paused = outbox am_down) ∧
  (∃ l, log am_down_again "a1" = (log am_paused "a1" ++ l)%list ∧ run_log false l = Some true).
Proof.
  assert (steps url (undisturbed "s1") am0 am_down) as Hd.
  { unfold am_down. repeat (apply steps_step; [|done..]). apply steps_refl. }
  assert (steps url (undisturbed "s1") am_paused am_down_again) as Ha.
  { unfold am_down_again. repeat (apply steps_step; [|done..]). apply steps_refl. }
  split_and!; [vm_compute; reflexivity..| |].
  - destruct (status_notifications_alternate url am0 am0 am_down "s1" am0_synced eq_refl
      (steps_refl _ _ _) Hd) as [_ Hp].
    destruct (Hp (3 * Minute)%Z (EvPaused "s1") (or_introl eq_refl)) as (Ho&_&Hc).
    exists (status_alert "a1" "s1" false). split_and!; [vm_compute; reflexivity| |exact Ho].
    apply (Hc ltac:(vm_compute; reflexivity) "a1"); vm_compute; reflexivity.
  - destruct (status_notifications_alternate url am0 am_paused am_down_again "s1" am0_synced eq_refl
      am_paused_steps Ha) as [Hl _].
    destruct (Hl "a1" (status_alert "a1" "s1" true)) as (r1&l&Hr1&_&E&Hrun); [vm_compute; reflexivity..|].
    exists l. split; [exact E|].
    assert (Some r1 = Some (status_alert "a1" "s1" false)) as [= ->]
      by (rewrite <- Hr1; vm_compute; reflexivity).
    exact Hrun.
Defined.

Lemma restore_requeues_witness :
  pendingAlerts (restorePendingStatusAlerts 0 am0) !! "a1" =
    Some {| systemName := "web"; alertData := PopulateFromRecord (status_alert "a1" "s1" false);
            expireTime := (2 * Minute)%Z |} ∧
  pendingAlerts (restorePendingStatusAlerts 0 am0) !! "a2" = None.
Proof.
  pose proof (restore_requeues 0 am0 [("a1", "s1", "web")] am0_synced eq_refl) as Hr.
  destruct Hr as [_ Hr]; [vm_compute; reflexivity|]. split.
  - destruct (Hr "a1" (status_alert "a1" "s1" false)) as [_ ->]; vm_compute; done.
  - destruct (Hr "a2" (status_alert "a2" "s2" true)) as [_ ->]; vm_compute; done.
Defined.
End StatusAlerts.
