(* ===== verification/SystemAlerts.v ===== *)
(** * Threshold alerts ([internal/alerts/alerts_system.go])

    After every update of a system the hub compares the new values with the
    thresholds of the system's alerts.  An alert whose state would change is
    sent at once when its window is one minute; otherwise its value is averaged
    over the stored one-minute records of the window and sent if the average
    also crosses the threshold.

    The stored records come from the database ([AlertStatsDB]); the JSON decoder
    is used on one struct that is reused from record to record, so a record is
    modelled by the keys it has ([stats_json]) and decoding is an update of the
    struct.  Goroutines started by the handler ([go am.sendSystemAlert]) are
    returned as a list, to be run in any order. *)

From S2P Require Import Prelude GoFloat GoStrings GoFmt Entities AlertStore StatusAlerts.

(** The keys of a stored [system_stats.stats] document that alerts read. *)
Record stats_json := {
  j_cpu : option f64;
  j_mp : option f64;
  j_dp : option f64;
  j_b : option (Z * Z);
  j_g : option (gmap string f64);
  j_t : option (gmap string f32);
  j_la : option (f64 * f64 * f64);
  j_bat : option (Z * Z);
  j_efs : option (gmap string (f64 * f64));
}.

(** [SELECT stats, created ... WHERE system AND type='1m' AND created > t ORDER BY created];
    the inner [None] is a document that does not decode. *)
Class AlertStatsDB (DB : Type) := {
  minuteStats : DB → string → Z → option (list (Z * option stats_json));
  minuteRows : DB → string → list (Z * option stats_json);
}.

Class AlertStatsDBLaws (DB : Type) `{AlertStatsDB DB} := {
  minuteStats_spec : ∀ db sys t l, minuteStats db sys t = Some l →
    l = List.filter (λ r, (t <? r.1)%Z) (minuteRows db sys);
  minuteRows_sorted : ∀ db sys, StronglySorted (λ a b, (a.1 ≤ b.1)%Z) (minuteRows db sys);
}.

(** [SystemAlertStats], the struct the documents are decoded into. *)
Module SystemAlertStats.
Record t := {
  Cpu : f64;
  Mem : f64;
  Disk : f64;
  Bandwidth : Z * Z;
  GPU : gmap string f64;
  Temperatures : gmap string f32;
  LoadAvg : f64 * f64 * f64;
  Battery : Z * Z;
  ExtraFs : gmap string (f64 * f64);   (* [DiskTotal], [DiskUsed] *)
}.
Definition zero : t := {|
  Cpu := f64_zero; Mem := f64_zero; Disk := f64_zero; Bandwidth := (0, 0)%Z; GPU := ∅;
  Temperatures := ∅; LoadAvg := (f64_zero, f64_zero, f64_zero); Battery := (0, 0)%Z;
  ExtraFs := ∅ |}.
End SystemAlertStats.

Module SystemAlerts.
Import AlertStore StatusAlerts.

Abbreviation alert_stats := SystemAlertStats.t.

(** [json.Unmarshal(doc, &stats)]: an absent key keeps the field's value, a map is merged
    key by key. *)
Definition unmarshal (j : stats_json) (s : alert_stats) : alert_stats := {|
  SystemAlertStats.Cpu := default (SystemAlertStats.Cpu s) (j_cpu j);
  SystemAlertStats.Mem := default (SystemAlertStats.Mem s) (j_mp j);
  SystemAlertStats.Disk := default (SystemAlertStats.Disk s) (j_dp j);
  SystemAlertStats.Bandwidth := default (SystemAlertStats.Bandwidth s) (j_b j);
  SystemAlertStats.GPU := default ∅ (j_g j) ∪ SystemAlertStats.GPU s;
  SystemAlertStats.Temperatures := default ∅ (j_t j) ∪ SystemAlertStats.Temperatures s;
  SystemAlertStats.LoadAvg := default (SystemAlertStats.LoadAvg s) (j_la j);
  SystemAlertStats.Battery := default (SystemAlertStats.Battery s) (j_bat j);
  SystemAlertStats.ExtraFs := default ∅ (j_efs j) ∪ SystemAlertStats.ExtraFs s |}.

Definition isLowAlert (name : string) : bool := String.eqb name "Battery".

Record SystemRecord := {
  sys_id : string;
  sys_name : string;
  sys_updated : Z;
}.

(** [SystemAlertData]; the system record is an argument of the functions below. *)
Record SystemAlertData := {
  alertData : CachedAlertData;
  name : string;
  unit_ : string;
  val : f64;
  threshold : f64;
  triggered : bool;
  time : Z;
  count : Z;
  min : Z;
  mapSums : option (gmap string f32);
  descriptor : string;
}.

Section system_alerts.
Context {DB : Type} {ADB : AlertsDB DB} {ADBL : AlertsDBLaws DB}.
Context {SDB : AlertStatsDB DB} {SDBL : AlertStatsDBLaws DB}.
Context {M : Type → Type} {KV : KVStore M} {KVL : KVStoreLaws M} {RO : RangeOrder string}.
Context {Service : Type} (appURL : string).
Local Open Scope string_scope.
Local Open Scope Z_scope.

Definition f32_zero : f32 := S754_zero false.
Definition MiB : f64 := f64_of_Z (1024 * 1024).
Definition f64_100 : f64 := f64_of_Z 100.

(** The used percentage of a filesystem. *)
Definition used_pct (used total : f64) : f64 := f64_mul (f64_div used total) f64_100.

(** ** First pass: the current values *)

(** The value and unit an alert of the name is compared with; [None] skips the alert. *)
Definition current_value (data : CombinedData.t Service) (name : string)
    : option (f64 * string) :=
  let info := CombinedData.Info data in
  let stats := CombinedData.Stats data in
  let '(l1, l5, l15) := Info.LoadAvg info in
  if String.eqb name "CPU" then Some (Info.Cpu info, "%")
  else if String.eqb name "Memory" then Some (Info.MemPct info, "%")
  else if String.eqb name "Bandwidth" then
    Some (f64_div (f64_of_Z (Info.BandwidthBytes info)) MiB, " MB/s")
  else if String.eqb name "Disk" then
    Some (fold_left (λ m '(_, fs),
            let p := used_pct (FsStats.DiskUsed fs) (FsStats.DiskTotal fs) in
            if f64_lt m p then p else m)
          (range_list (default ∅ (Stats.ExtraFs stats))) (Info.DiskPct info), "%")
  else if String.eqb name "Temperature" then
    if f64_lt (Info.DashboardTemp info) (f64_of_Z 1) then None
    else Some (Info.DashboardTemp info, "°C")
  else if String.eqb name "LoadAvg1" then Some (l1, "")
  else if String.eqb name "LoadAvg5" then Some (l5, "")
  else if String.eqb name "LoadAvg15" then Some (l15, "")
  else if String.eqb name "GPU" then Some (Info.GpuPct info, "%")
  else if String.eqb name "Battery" then
    if (Stats.Battery stats).1 =? 0 then None
    else Some (f64_of_Z (Stats.Battery stats).1, "%")
  else Some (f64_zero, "%").

(** The alert is on the side of the threshold its triggered state says. *)
Definition unchanged (low trig : bool) (v t : f64) : bool :=
  if low then (negb trig && f64_le t v) || (trig && f64_lt v t)
  else (negb trig && f64_le v t) || (trig && f64_lt t v).

Definition crossed (low : bool) (v t : f64) : bool := if low then f64_lt v t else f64_lt t v.

Record pass := {
  sends : list SystemAlertData;       (* goroutines started *)
  validAlerts : list SystemAlertData;
  oldestTime : Z;
}.

Definition new_alert (a : CachedAlertData) (v : f64) (u : string) (trig : bool) (t : Z)
    : SystemAlertData := {|
  alertData := a; name := Name a; unit_ := u; val := v; threshold := Value a;
  triggered := trig; time := t; count := 0; min := Z.max 1 (Min a); mapSums := None;
  descriptor := "" |}.

Definition first_pass_one (now : Z) (data : CombinedData.t Service) (p : pass)
    (a : CachedAlertData) : pass :=
  match current_value data (Name a) with
  | None => p
  | Some (v, u) =>
      let low := isLowAlert (Name a) in
      if unchanged low (Triggered a) v (Value a) then p
      else
        let m := Z.max 1 (Min a) in
        if m =? 1 then
          {| sends := (sends p ++ [new_alert a v u (crossed low v (Value a)) 0])%list;
             validAlerts := validAlerts p; oldestTime := oldestTime p |}
        else
          let t := now + - m * Minute in
          {| sends := sends p;
             validAlerts := (validAlerts p ++ [new_alert a v u (Triggered a) t])%list;
             oldestTime := if t <? oldestTime p then t else oldestTime p |}
  end.

Definition first_pass (now : Z) (data : CombinedData.t Service) (l : list CachedAlertData)
    : pass :=
  fold_left (first_pass_one now data) l
    {| sends := []; validAlerts := []; oldestTime := now |}.

(** ** Second pass: averages over the stored records *)

Definition with_val (a : SystemAlertData) (v : f64) : SystemAlertData := {|
  alertData := alertData a; name := name a; unit_ := unit_ a; val := v;
  threshold := threshold a; triggered := triggered a; time := time a; count := count a;
  min := min a; mapSums := mapSums a; descriptor := descriptor a |}.
Definition with_sums (a : SystemAlertData) (m : gmap string f32) : SystemAlertData := {|
  alertData := alertData a; name := name a; unit_ := unit_ a; val := val a;
  threshold := threshold a; triggered := triggered a; time := time a; count := count a;
  min := min a; mapSums := Some m; descriptor := descriptor a |}.
(** [alert.count++] on a [uint8] *)
Definition incr (a : SystemAlertData) : SystemAlertData := {|
  alertData := alertData a; name := name a; unit_ := unit_ a; val := val a;
  threshold := threshold a; triggered := triggered a; time := time a;
  count := (count a +u8 1)%go;
  min := min a; mapSums := mapSums a; descriptor := descriptor a |}.

Definition add_sum (m : gmap string f32) (k : string) (v : f32) : gmap string f32 :=
  <[k := f32_add (default f32_zero (m !! k)) v]> m.

(** The metrics that are added to [alert.val]. *)
Definition metric (name : string) : option (alert_stats → f64) :=
  if String.eqb name "CPU" then Some SystemAlertStats.Cpu
  else if String.eqb name "Memory" then Some SystemAlertStats.Mem
  else if String.eqb name "Bandwidth" then
    Some (λ s, f64_div (f64_of_Z (u64 ((SystemAlertStats.Bandwidth s).1 +
                                       (SystemAlertStats.Bandwidth s).2))) MiB)
  else if String.eqb name "LoadAvg1" then Some (λ s, (SystemAlertStats.LoadAvg s).1.1)
  else if String.eqb name "LoadAvg5" then Some (λ s, (SystemAlertStats.LoadAvg s).1.2)
  else if String.eqb name "LoadAvg15" then Some (λ s, (SystemAlertStats.LoadAvg s).2)
  else if String.eqb name "Battery" then
    Some (λ s, f64_of_Z (SystemAlertStats.Battery s).1)
  else None.

(** The [switch] over the alert's name and [alert.count++]; [continue] leaves the alert. *)
Definition add_sample (s : alert_stats) (a : SystemAlertData) : SystemAlertData :=
  match metric (name a) with
  | Some f => incr (with_val a (f64_add (val a) (f s)))
  | None =>
      if String.eqb (name a) "Disk" then
        let m := add_sum (default ∅ (mapSums a)) "root" (f32_of_f64 (SystemAlertStats.Disk s)) in
        incr (with_sums a (fold_left (λ m '(key, (total, used)),
            if f64_lt f64_zero total then add_sum m key (f32_of_f64 (used_pct used total)) else m)
          (range_list (SystemAlertStats.ExtraFs s)) m))
      else if String.eqb (name a) "Temperature" then
        incr (with_sums a (fold_left (λ m '(key, temp), add_sum m key temp)
          (range_list (SystemAlertStats.Temperatures s)) (default ∅ (mapSums a))))
      else if String.eqb (name a) "GPU" then
        if bool_decide (SystemAlertStats.GPU s = ∅) then a
        else incr (with_val a (f64_add (val a)
               (fold_left (λ m '(_, u), if f64_lt m u then u else m)
                 (range_list (SystemAlertStats.GPU s)) f64_zero)))
      else a
  end.

(** The record is inside the alert's window. *)
Definition in_window (created : Z) (a : SystemAlertData) : bool :=
  negb (created + -10 * Second <? time a).

Definition sample_one (first : bool) (created : Z) (s : alert_stats) (a : SystemAlertData)
    : SystemAlertData :=
  let a := if first then with_val a f64_zero else a in
  if in_window created a then add_sample s a else a.

(** The loop over the records, from a struct [s]; [None] when a document does not decode. *)
Fixpoint sample_loop (first : bool) (rows : list (Z * option stats_json)) (s : alert_stats)
    (l : list SystemAlertData) : option (list SystemAlertData) :=
  match rows with
  | [] => Some l
  | (created, None) :: _ => None
  | (created, Some j) :: rows =>
      let s := unmarshal j s in
      sample_loop false rows s (sample_one first created s <$> l)
  end.

Definition with_result (a : SystemAlertData) (v : f64) (d : string) : SystemAlertData := {|
  alertData := alertData a; name := name a; unit_ := unit_ a; val := v;
  threshold := threshold a; triggered := triggered a; time := time a; count := count a;
  min := min a; mapSums := mapSums a; descriptor := d |}.

Definition finish (a : SystemAlertData) : SystemAlertData :=
  let n := f32_of_Z (count a) in
  if String.eqb (name a) "Disk" then
    let '(m, d) := fold_left (λ '(m, d) '(key, v),
        if f64_lt m v then (v, "Usage of " +:+ key) else (m, d))
      (range_list (default ∅ (mapSums a))) (f32_zero, descriptor a) in
    with_result a (f64_of_f32 (f32_div m n)) d
  else if String.eqb (name a) "Temperature" then
    let '(m, d) := fold_left (λ '(m, d) '(key, v),
        let t := f32_div v n in
        if f64_lt m t then (t, "Highest sensor " +:+ key) else (m, d))
      (range_list (default ∅ (mapSums a))) (f32_zero, descriptor a) in
    with_result a (f64_of_f32 m) d
  else with_val a (f64_div (val a) (f64_of_Z (count a))).

(** [float32(alert.min) / 1.2] *)
Definition minCount (a : SystemAlertData) : f32 :=
  f32_div (f32_of_Z (min a)) (f32_div (f32_of_Z 12) (f32_of_Z 10)).

Definition with_triggered (a : SystemAlertData) (b : bool) : SystemAlertData := {|
  alertData := alertData a; name := name a; unit_ := unit_ a; val := val a;
  threshold := threshold a; triggered := b; time := time a; count := count a;
  min := min a; mapSums := mapSums a; descriptor := descriptor a |}.

(** The alert to send after its average was computed, if any. *)
Definition decide_send (a : SystemAlertData) : option SystemAlertData :=
  if f64_le (minCount a) (f32_of_Z (count a)) then
    if isLowAlert (name a) then
      if negb (triggered a) && f64_lt (val a) (threshold a) then Some (with_triggered a true)
      else if triggered a && f64_le (threshold a) (val a) then Some (with_triggered a false)
      else None
    else
      if negb (triggered a) && f64_lt (threshold a) (val a) then Some (with_triggered a true)
      else if triggered a && f64_le (val a) (threshold a) then Some (with_triggered a false)
      else None
  else None.

Definition second_pass (rows : list (Z * option stats_json)) (valid : list SystemAlertData)
    : list SystemAlertData :=
  match rows with
  | [] => []
  | (oldest, _) :: _ =>
      match List.filter (λ a, oldest <? time a) valid with
      | [] => []
      | l => match sample_loop true rows SystemAlertStats.zero l with
             | None => []
             | Some l => omap (λ a, decide_send (finish a)) l
             end
      end
  end.

(** ** The handler *)

(** The goroutines it starts and the manager (whose cache may have been filled). *)
Definition HandleSystemAlerts (am : AlertManager (DB := DB) (M := M)) (sys : SystemRecord)
    (data : CombinedData.t Service) : list SystemAlertData * AlertManager :=
  let '(l, c') := GetAlertsExcludingNames (db (hub am)) (cache (hub am)) (sys_id sys)
                    ["Status"] in
  let am := with_hub am {| db := db (hub am); cache := c' |} in
  match l with
  | [] => ([], am)
  | _ =>
      let p := first_pass (sys_updated sys) data l in
      match minuteStats (db (hub am)) (sys_id sys) (oldestTime p + - Second * 90) with
      | None => (sends p, am)
      | Some rows => ((sends p ++ second_pass rows (validAlerts p))%list, am)
      end
  end.

(** ** Sending *)

Definition alert_label (name : string) : string :=
  let name := if String.eqb name "Disk" then name +:+ " usage" else name in
  match CutPrefix name "LoadAvg" with
  | Some after => after +:+ "m Load"
  | None => name
  end.

Definition system_message (sys : SystemRecord) (alert : SystemAlertData) : AlertMessageData.t :=
  let label := alert_label (name alert) in
  let title := if negb (String.eqb label "CPU") && negb (String.eqb label "GPU")
               then ToLower label else label in
  let low := isLowAlert label in
  let above := if triggered alert then negb low else low in
  let desc := if String.eqb (descriptor alert) "" then label else descriptor alert in
  {| AlertMessageData.UserID := UserID (alertData alert);
     AlertMessageData.SystemID := sys_id sys;
     AlertMessageData.Title :=
       sys_name sys +:+ " " +:+ title +:+ (if above then " above threshold" else " below threshold");
     AlertMessageData.Message :=
       desc +:+ " averaged " +:+ fmt_2f (val alert) +:+ unit_ alert +:+ " for the previous " +:+
       print_Z (min alert) +:+ " " +:+ (if 1 <? min alert then "minutes" else "minute") +:+ ".";
     AlertMessageData.Link := MakeLink appURL ["system"; sys_id sys];
     AlertMessageData.LinkText := "View " +:+ sys_name sys |}.

Definition sendSystemAlert (now : Z) (sys : SystemRecord) (am : AlertManager (DB := DB) (M := M))
    (alert : SystemAlertData) : AlertManager :=
  match setAlertTriggered now (hub am) (alertData alert) (triggered alert) with
  | None => am
  | Some h' =>
      {| hub := h'; pendingAlerts := pendingAlerts am;
         outbox := (outbox am ++ [{| n_alert := Id (alertData alert);
                                     n_down := triggered alert;
                                     n_msg := system_message sys alert |}])%list;
         stopped := stopped am |}
  end.

(** The goroutines of one update, run in the order [l]. *)
Definition run_sends (now : Z) (sys : SystemRecord) (am : AlertManager (DB := DB) (M := M))
    (l : list SystemAlertData) : AlertManager :=
  fold_left (sendSystemAlert now sys) l am.

(** ** Lemmas *)

(** An alert that the first pass sees crossing its threshold: value, unit. *)
Definition candidate (data : CombinedData.t Service) (a : CachedAlertData)
    : option (f64 * string) :=
  vu ← current_value data (Name a);
  if unchanged (isLowAlert (Name a)) (Triggered a) vu.1 (Value a) then None else Some vu.

Definition immediate (data : CombinedData.t Service) (a : CachedAlertData)
    : option SystemAlertData :=
  vu ← candidate data a;
  if Z.max 1 (Min a) =? 1
  then Some (new_alert a vu.1 vu.2 (crossed (isLowAlert (Name a)) vu.1 (Value a)) 0) else None.

Definition deferred (now : Z) (data : CombinedData.t Service) (a : CachedAlertData)
    : option SystemAlertData :=
  vu ← candidate data a;
  if Z.max 1 (Min a) =? 1 then None
  else Some (new_alert a vu.1 vu.2 (Triggered a) (now + - Z.max 1 (Min a) * Minute)).

Lemma first_pass_spec now data l :
  sends (first_pass now data l) = omap (immediate data) l ∧
  validAlerts (first_pass now data l) = omap (deferred now data) l.
Proof.
  unfold first_pass.
  enough (∀ p, sends (fold_left (first_pass_one now data) l p) =
      (sends p ++ omap (immediate data) l)%list ∧
    validAlerts (fold_left (first_pass_one now data) l p) =
      (validAlerts p ++ omap (deferred now data) l)%list) as Hgen by apply Hgen.
  induction l as [|a l IH]; intros p; simpl; [by rewrite !app_nil_r|].
  destruct (IH (first_pass_one now data p a)) as [-> ->]. clear IH.
  unfold first_pass_one, immediate, deferred, candidate.
  destruct (current_value data (Name a)) as [[v u]|]; simpl; [|done].
  destruct (unchanged _ _ _ _); simpl; [done|].
  destruct (Z.max 1 (Min a) =? 1); simpl; by rewrite <- ?app_assoc.
Qed.

(** Away from NaN, a candidate is an alert whose state differs from its value's side. *)
Lemma unchanged_crossed low trig v t :
  is_nan v = false → is_nan t = false →
  unchanged low trig v t = Bool.eqb trig (crossed low v t).
Proof.
  intros Hv Ht. unfold unchanged, crossed.
  destruct low; [rewrite (f64_lt_negb_le v t) by done|rewrite (f64_lt_negb_le t v) by done];
    destruct trig; simpl; by destruct (f64_le _ _).
Qed.

(** What the second pass never changes of an alert. *)
Definition frame (a : SystemAlertData) :=
  (alertData a, name a, threshold a, triggered a, time a, min a).

Lemma add_sample_frame s a : frame (add_sample s a) = frame a.
Proof. unfold add_sample. by repeat case_match. Qed.

Lemma sample_one_frame first c s a : frame (sample_one first c s a) = frame a.
Proof.
  unfold sample_one. destruct first, (in_window _ _); rewrite ?add_sample_frame; done.
Qed.

Lemma finish_frame a : frame (finish a) = frame a.
Proof. unfold finish. by repeat case_match. Qed.

Lemma decide_send_spec a a' :
  decide_send a = Some a' → a' = with_triggered a (negb (triggered a)).
Proof. unfold decide_send. destruct (triggered a); repeat case_match; naive_solver. Qed.

(** The values the reused struct takes, record by record. *)
Fixpoint decoded (s : alert_stats) (rows : list (Z * option stats_json))
    : option (list (Z * alert_stats)) :=
  match rows with
  | [] => Some []
  | (_, None) :: _ => None
  | (c, Some j) :: rows =>
      let s := unmarshal j s in
      l ← decoded s rows; Some ((c, s) :: l)
  end.

Fixpoint run_samples (first : bool) (l : list (Z * alert_stats)) (a : SystemAlertData)
    : SystemAlertData :=
  match l with
  | [] => a
  | (c, s) :: l => run_samples false l (sample_one first c s a)
  end.

(** The loop over records and alerts is, per alert, a loop over the decoded records. *)
Lemma sample_loop_spec first rows s l :
  sample_loop first rows s l = (λ ov, run_samples first ov <$> l) <$> decoded s rows.
Proof.
  revert first s l. induction rows as [|[c [j|]] rows IH]; intros first s l; simpl;
    [by rewrite list_fmap_id| |done].
  rewrite IH. destruct (decoded _ rows) as [ov|]; simpl; [|done].
  f_equal. by rewrite <- list_fmap_compose.
Qed.

Lemma run_samples_frame first l a : frame (run_samples first l a) = frame a.
Proof.
  revert first a. induction l as [|[c s] l IH]; intros first a; simpl; [done|].
  by rewrite IH, sample_one_frame.
Qed.

Lemma finish_run_frame first l a : frame (finish (run_samples first l a)) = frame a.
Proof. by rewrite finish_frame, run_samples_frame. Qed.

Lemma second_pass_unfold oldest d rows valid :
  second_pass ((oldest, d) :: rows) valid =
  match decoded SystemAlertStats.zero ((oldest, d) :: rows) with
  | None => []
  | Some ov => omap (λ a, decide_send (finish (run_samples true ov a)))
                 (List.filter (λ a, oldest <? time a) valid)
  end.
Proof.
  unfold second_pass. set (rs := (oldest, d) :: rows).
  destruct (List.filter _ valid) as [|a l]; [by destruct (decoded _ _)|].
  rewrite sample_loop_spec. destruct (decoded _ rs) as [ov|]; simpl; [|done].
  destruct (decide_send _); [f_equal|]; induction l as [|b l IH]; simpl; try done;
    by rewrite IH.
Qed.

Lemma second_pass_elem rows valid a' :
  a' ∈ second_pass rows valid ↔
  ∃ oldest d rows' ov a, rows = (oldest, d) :: rows' ∧ a ∈ valid ∧ (oldest <? time a) = true ∧
    decoded SystemAlertStats.zero rows = Some ov ∧
    decide_send (finish (run_samples true ov a)) = Some a'.
Proof.
  destruct rows as [|[oldest d] rows].
  { split; [by intros ?%elem_of_nil|naive_solver]. }
  rewrite second_pass_unfold. destruct (decoded _ _) as [ov|] eqn:Hov.
  - rewrite list_elem_of_omap. setoid_rewrite list_elem_of_In at 1. setoid_rewrite filter_In.
    setoid_rewrite <- list_elem_of_In. naive_solver.
  - split; [by intros ?%elem_of_nil|naive_solver].
Qed.

(** ** Properties *)

(** The alerts the handler considers: those of the system, Status excepted. *)
Definition considered (d : DB) (sysId : string) (c : CachedAlertData) : Prop :=
  ∃ r, alerts d !! Id c = Some r ∧ c = PopulateFromRecord r ∧
       ar_system r = sysId ∧ ar_name r ≠ "Status".

Lemma HandleSystemAlerts_elem am sys data a :
  synced (cache (hub am)) (db (hub am)) → sys_id sys ≠ "" →
  a ∈ (HandleSystemAlerts am sys data).1 →
  ∃ c, considered (db (hub am)) (sys_id sys) c ∧
    (immediate data c = Some a ∨
     ∃ rows ov a0, deferred (sys_updated sys) data c = Some a0 ∧
       decoded SystemAlertStats.zero rows = Some ov ∧
       decide_send (finish (run_samples true ov a0)) = Some a).
Proof.
  intros Hs Hsys. unfold HandleSystemAlerts.
  destruct (GetAlertsExcludingNames_spec (db (hub am)) (cache (hub am)) (sys_id sys)
    ["Status"] Hs Hsys) as (_&_&Hin).
  destruct (GetAlertsExcludingNames _ _ _ _) as [l c'] eqn:Hg. simpl in Hin.
  assert (∀ c, c ∈ l → considered (db (hub am)) (sys_id sys) c) as Hc.
  { intros c (r&?&?&?&Hn)%Hin. exists r. split_and!; [done..|].
    intros Heq. apply Hn, elem_of_cons. by left. }
  set (p := first_pass (sys_updated sys) data l).
  destruct (first_pass_spec (sys_updated sys) data l) as [Hsend Hvalid].
  assert (a ∈ sends p ∨ (∃ rows, a ∈ second_pass rows (validAlerts p)) → ∃ c, c ∈ l ∧
    (immediate data c = Some a ∨
     ∃ rows ov a0, deferred (sys_updated sys) data c = Some a0 ∧
       decoded SystemAlertStats.zero rows = Some ov ∧
       decide_send (finish (run_samples true ov a0)) = Some a)) as Hcases.
  { unfold p. rewrite Hsend, Hvalid. intros [(c&?&?)%list_elem_of_omap|[rows Hr]]; [eauto|].
    apply second_pass_elem in Hr as (?&?&?&ov&a0&_&Ha0&_&Hov&Hd).
    apply list_elem_of_omap in Ha0 as (c&Hcl&Hdef). exists c. split; [done|]. right.
    by exists rows, ov, a0. }
  intros Ha. destruct l as [|c0 l]; [by apply elem_of_nil in Ha|]. fold p in Ha. simpl in Ha.
  destruct Hcases as (c&?&?); [|by eauto].
  destruct (minuteStats _ _ _); [apply elem_of_app in Ha as [?|?]; eauto|eauto].
Qed.

(** Every alert the handler sends belongs to the system, is not a Status alert, and
    reverses the alert's triggered state: no notification repeats the state the alert is in.
    (Values and thresholds that are not numbers excepted.) *)
Theorem sent_alerts_flip am sys data :
  synced (cache (hub am)) (db (hub am)) → sys_id sys ≠ "" →
  (∀ n v u, current_value data n = Some (v, u) → is_nan v = false) →
  (∀ c, considered (db (hub am)) (sys_id sys) c → is_nan (Value c) = false) →
  ∀ a, a ∈ (HandleSystemAlerts am sys data).1 →
    considered (db (hub am)) (sys_id sys) (alertData a) ∧
    triggered a = negb (Triggered (alertData a)).
Proof.
  intros Hs Hsys Hv Ht a (c&Hc&Hcase)%HandleSystemAlerts_elem; [|done..].
  destruct Hcase as [Hi|(rows&ov&a0&Hd&Hov&Hsend)].
  - apply bind_Some in Hi as ([v u]&Hcand&Hi). case_match; simplify_eq. split; [done|]. simpl.
    apply bind_Some in Hcand as ([v' u']&Hcur&Hu). case_match eqn:Hun; simplify_eq.
    simpl in *. rewrite unchanged_crossed in Hun by eauto.
    by destruct (Triggered c), (crossed _ _ _).
  - apply decide_send_spec in Hsend as ->. simpl.
    pose proof (finish_run_frame true ov a0) as [= -> _ _ -> _ _].
    apply bind_Some in Hd as ([v u]&_&Hd). by case_match; simplify_eq.
Qed.

Lemma HandleSystemAlerts_immediate am sys data c a :
  synced (cache (hub am)) (db (hub am)) → sys_id sys ≠ "" →
  considered (db (hub am)) (sys_id sys) c → immediate data c = Some a →
  a ∈ (HandleSystemAlerts am sys data).1.
Proof.
  intros Hs Hsys (r&Hr&Hc&Hrs&Hn) Ha. unfold HandleSystemAlerts.
  destruct (GetAlertsExcludingNames_spec (db (hub am)) (cache (hub am)) (sys_id sys)
    ["Status"] Hs Hsys) as (_&_&Hin).
  destruct (GetAlertsExcludingNames _ _ _ _) as [l c'] eqn:Hg. simpl in Hin.
  assert (c ∈ l) as Hcl.
  { apply Hin. exists r. split_and!; [done..|]. by intros ?%list_elem_of_singleton. }
  destruct (first_pass_spec (sys_updated sys) data l) as [Hsend _].
  assert (a ∈ sends (first_pass (sys_updated sys) data l)) as Has.
  { rewrite Hsend. apply list_elem_of_omap. eauto. }
  destruct l as [|c0 l]; [by apply elem_of_nil in Hcl|]. simpl.
  destruct (minuteStats _ _ _); [apply elem_of_app; by left|done].
Qed.

Lemma deferred_alertData now data c a :
  deferred now data c = Some a → alertData a = c ∧ 1 < Min c.
Proof. intros ([v u]&_&Hd)%bind_Some. case_match; zbool; simplify_eq. split; [done|lia]. Qed.

(** C12: an alert with a one-minute window is sent exactly when the current value lies on the
    other side of its threshold than its triggered state says (below it for Battery). *)
Theorem immediate_alerts_exact am sys data c :
  synced (cache (hub am)) (db (hub am)) → sys_id sys ≠ "" →
  considered (db (hub am)) (sys_id sys) c → Min c <= 1 → is_nan (Value c) = false →
  (∀ v u, current_value data (Name c) = Some (v, u) → is_nan v = false) →
  (∃ a, a ∈ (HandleSystemAlerts am sys data).1 ∧ alertData a = c) ↔
  ∃ v u, current_value data (Name c) = Some (v, u) ∧
         crossed (isLowAlert (Name c)) v (Value c) = negb (Triggered c).
Proof.
  intros Hs Hsys Hc Hmin Ht Hv. split.
  - intros (a&Ha&Hac). apply HandleSystemAlerts_elem in Ha as (c0&_&Hcase); [|done..].
    destruct Hcase as [Hi|(rows&ov&a0&Hd&_&Hsend)].
    + apply bind_Some in Hi as ([v u]&Hcand&Hi). case_match; simplify_eq. simpl in *.
      apply bind_Some in Hcand as ([v' u']&Hcur&Hu). case_match eqn:Hun; simplify_eq.
      simpl in *. rewrite unchanged_crossed in Hun by eauto. exists v, u. split; [done|].
      by destruct (Triggered c0), (crossed _ _ _).
    + apply decide_send_spec in Hsend as ->. simpl in Hac.
      pose proof (finish_run_frame true ov a0) as [= Hf _ _ _ _ _].
      apply deferred_alertData in Hd as [Had ?]. rewrite Hf, Had in Hac.
      rewrite <- Hac in Hmin. lia.
  - intros (v&u&Hcur&Hx).
    exists (new_alert c v u (crossed (isLowAlert (Name c)) v (Value c)) 0). split; [|done].
    apply HandleSystemAlerts_immediate with c; [done..|].
    unfold immediate, candidate. rewrite Hcur. simpl. rewrite unchanged_crossed by eauto.
    rewrite Hx. replace (Z.max 1 (Min c) =? 1) with true by (symmetry; apply Z.eqb_eq; lia).
    destruct (Triggered c); simpl; by rewrite Hx.
Qed.

(** *** Averages *)








(** *** The sums of the loop *)

Abbreviation add_kv := (λ m kv, add_sum m kv.1 kv.2).
















(** [n] samples are enough for a window of [m] minutes: one every 72 seconds. *)
Definition enough (m n : Z) : bool :=
  f64_le (f32_div (f32_of_Z m) (f32_div (f32_of_Z 12) (f32_of_Z 10))) (f32_of_Z n).
#[local] Arguments enough : simpl never.




Abbreviation alert_id := (λ a : SystemAlertData, Id (alertData a)).

Lemma immediate_alertData data c a :
  immediate data c = Some a → alertData a = c ∧ Z.max 1 (Min c) = 1.
Proof. intros ([v u]&_&Hi)%bind_Some. case_match; zbool; simplify_eq. done. Qed.

Lemma NoDup_omap_key {A B} (f : A → option B) (ka : A → string) (kb : B → string) l :
  (∀ x y, f x = Some y → kb y = ka x) → NoDup (ka <$> l) → NoDup (kb <$> omap f l).
Proof.
  intros Hk. induction l as [|x l IH]; intros Hnd; [constructor|].
  rewrite fmap_cons in Hnd. apply NoDup_cons in Hnd as [Hx Hnd]. simpl.
  destruct (f x) as [y|] eqn:Hy; [|by apply IH]. rewrite fmap_cons. constructor; [|by apply IH].
  intros (y'&Heq&(x'&Hx'&Hy')%list_elem_of_omap)%list_elem_of_fmap. apply Hx.
  rewrite <- (Hk _ _ Hy), Heq, (Hk _ _ Hy'). by apply list_elem_of_fmap_2.
Qed.

Lemma second_pass_NoDup rows valid :
  NoDup (alert_id <$> valid) → NoDup (alert_id <$> second_pass rows valid).
Proof.
  intros Hnd. destruct rows as [|[oldest d] rows]; [constructor|]. rewrite second_pass_unfold.
  destruct (decoded _ _) as [ov|]; [|constructor]. eapply NoDup_omap_key.
  - intros a a' ->%decide_send_spec. simpl.
    by pose proof (finish_run_frame true ov a) as [= -> _ _ _ _ _].
  - eapply NoDup_fmap_sublist; [apply filter_sublist_bool|done].
Qed.

(** No alert is sent twice for one update. *)
Lemma HandleSystemAlerts_NoDup am sys data :
  synced (cache (hub am)) (db (hub am)) → sys_id sys ≠ "" →
  NoDup (alert_id <$> (HandleSystemAlerts am sys data).1).
Proof.
  intros Hs Hsys. unfold HandleSystemAlerts.
  destruct (GetAlertsExcludingNames_spec (db (hub am)) (cache (hub am)) (sys_id sys)
    ["Status"] Hs Hsys) as (_&Hnd&_).
  destruct (GetAlertsExcludingNames _ _ _ _) as [l c'] eqn:Hg. simpl in Hnd.
  destruct l as [|c l0] eqn:Hl; [constructor|]. rewrite <- Hl in *. clear Hl c l0.
  set (p := first_pass _ _ _). simpl.
  destruct (first_pass_spec (sys_updated sys) data l) as [Hsend Hvalid]. fold p in Hsend, Hvalid.
  assert (NoDup (alert_id <$> sends p)) as Hn1.
  { rewrite Hsend. eapply NoDup_omap_key; [|exact Hnd]. by intros ?? [-> _]%immediate_alertData. }
  destruct (minuteStats _ _ _) as [rows|]; [|done]. simpl. rewrite fmap_app.
  apply NoDup_app. split_and!; [done| |].
  - intros id (a&->&Ha)%list_elem_of_fmap (a'&Heq&Ha')%list_elem_of_fmap.
    apply second_pass_elem in Ha' as (?&?&?&ov&a0&_&Ha0&_&_&->%decide_send_spec).
    simpl in Heq. pose proof (finish_run_frame true ov a0) as [= Hf _ _ _ _ _].
    rewrite Hf in Heq. rewrite Hvalid in Ha0. rewrite Hsend in Ha.
    apply list_elem_of_omap in Ha as (c1&Hc1&[Had1 ?]%immediate_alertData),
      Ha0 as (c2&Hc2&[Had2 ?]%deferred_alertData).
    rewrite Had1, Had2 in Heq. assert (c1 = c2) as -> by (by eapply (NoDup_fmap_elem Id l)). lia.
  - apply second_pass_NoDup. rewrite Hvalid. eapply NoDup_omap_key; [|exact Hnd].
    by intros ?? [-> _]%deferred_alertData.
Qed.


(** ** The notifications of one update *)

(** A database that finds what it has and accepts every save. *)
Definition writable : Prop :=
  (∀ d id r, alerts d !! id = Some r → findAlert d id = Some r) ∧
  (∀ d r, is_Some (saveAlert d r)).

Lemma setAlertTriggered_total now h a b r :
  writable → alerts (db h) !! Id a = Some r → is_Some (setAlertTriggered now h a b).
Proof.
  intros [Hf Hw] Hr. unfold setAlertTriggered. rewrite (Hf _ _ _ Hr). simpl.
  unfold updateRecord. destruct (Hw (db h) (set_triggered r b)) as [d1 ->]. by eexists.
Qed.

Lemma run_sends_effect now sys am l :
  writable → NoDup (alert_id <$> l) →
  (∀ a, a ∈ l → is_Some (alerts (db (hub am)) !! Id (alertData a))) →
  let am' := run_sends now sys am l in
  (∀ a, a ∈ l → ∃ r, alerts (db (hub am)) !! Id (alertData a) = Some r ∧
     alerts (db (hub am')) !! Id (alertData a) = Some (set_triggered r (triggered a))) ∧
  (∀ id, id ∉ alert_id <$> l → alerts (db (hub am')) !! id = alerts (db (hub am)) !! id) ∧
  n_msg <$> outbox am' = ((n_msg <$> outbox am) ++ (system_message sys <$> l))%list.
Proof.
  intros Hw. revert am. induction l as [|a l IH]; intros am Hnd Hl; simpl.
  { split_and!; [|done|by rewrite app_nil_r]. intros a Ha. by apply elem_of_nil in Ha. }
  rewrite fmap_cons in Hnd. apply NoDup_cons in Hnd as [Ha Hnd].
  destruct (Hl a) as [r Hr]; [apply elem_of_cons; by left|].
  destruct (setAlertTriggered_total now (hub am) (alertData a) (triggered a) r Hw Hr) as [h' Hh'].
  set (am1 := sendSystemAlert now sys am a).
  assert (hub am1 = h' ∧
    n_msg <$> outbox am1 = ((n_msg <$> outbox am) ++ [system_message sys a])%list) as [Hh Ho].
  { unfold am1, sendSystemAlert. rewrite Hh'. simpl. by rewrite fmap_app. }
  apply setAlertTriggered_effect in Hh' as (r'&Hr'&_&Hal&_). simplify_eq.
  assert (∀ id, id ≠ Id (alertData a) →
    alerts (db (hub am1)) !! id = alerts (db (hub am)) !! id) as Hne.
  { intros id Hid. by rewrite Hal, lookup_insert_ne. }
  assert (∀ a', a' ∈ l → Id (alertData a') ≠ Id (alertData a)) as Hdiff.
  { intros a' Ha' Heq. apply Ha. rewrite <- Heq. by apply (list_elem_of_fmap_2 alert_id). }
  destruct (IH am1 Hnd) as (H1&H2&H3).
  { intros a' Ha'. rewrite Hne by auto. apply Hl, elem_of_cons. by right. }
  split_and!.
  - intros a' [->|Ha']%elem_of_cons.
    + exists r. split; [done|]. by rewrite H2, Hal, lookup_insert_eq.
    + destruct (H1 a' Ha') as (r'&Hr1&Hr2). exists r'. by rewrite <- Hne by auto.
  - intros id [Hid Hid']%not_elem_of_cons. by rewrite H2, Hne.
  - rewrite H3, Ho, <- app_assoc. done.
Qed.

(** Whatever order the goroutines of an update run in, afterwards the database records
    the new state of exactly the alerts that were sent, and one notification per sent alert
    has been handed on. *)
Theorem system_alerts_commit now am sys data l :
  synced (cache (hub am)) (db (hub am)) → sys_id sys ≠ "" → writable →
  l ≡ₚ (HandleSystemAlerts am sys data).1 →
  let am' := run_sends now sys (HandleSystemAlerts am sys data).2 l in
  (∀ a, a ∈ l → ∃ r, alerts (db (hub am)) !! Id (alertData a) = Some r ∧
     alerts (db (hub am')) !! Id (alertData a) = Some (set_triggered r (triggered a))) ∧
  (∀ id, id ∉ alert_id <$> l → alerts (db (hub am')) !! id = alerts (db (hub am)) !! id) ∧
  n_msg <$> outbox am' = ((n_msg <$> outbox am) ++ (system_message sys <$> l))%list.
Proof.
  intros Hs Hsys Hw Hl.
  assert (db (hub (HandleSystemAlerts am sys data).2) = db (hub am) ∧
    outbox (HandleSystemAlerts am sys data).2 = outbox am) as [Hdb Ho].
  { unfold HandleSystemAlerts. by repeat case_match. }
  rewrite <- Hdb, <- Ho. apply run_sends_effect; [done| |].
  - rewrite Hl. by apply HandleSystemAlerts_NoDup.
  - intros a. rewrite Hl. intros (c&(r&Hr&_)&Hcase)%HandleSystemAlerts_elem; [|done..].
    rewrite Hdb. enough (alertData a = c) as -> by eauto.
    destruct Hcase as [[-> _]%immediate_alertData|(?&ov&a0&[Hd _]%deferred_alertData&_&Hsd)];
      [done|]. apply decide_send_spec in Hsd as ->. simpl.
    by pose proof (finish_run_frame true ov a0) as [= -> _ _ _ _ _].
Qed.
End system_alerts.

(** ** Witnesses *)

(** The stored records of the example system; the other systems have none. *)
Definition stats_of (rows : list (Z * option stats_json)) : AlertStatsDB mem_db := {|
  minuteStats _ sys t :=
    Some (List.filter (λ r, (t <? r.1)%Z) (if String.eqb sys "s1" then rows else []));
  minuteRows _ sys := if String.eqb sys "s1" then rows else [];
|}.

Definition cpu_doc (v : Z) : stats_json := {|
  j_cpu := Some (f64_of_Z v); j_mp := None; j_dp := None; j_b := None; j_g := None;
  j_t := None; j_la := None; j_bat := None; j_efs := None |}.

(** A CPU alert at 80% over [m] minutes. *)
Definition cpu80 (m : Z) : AlertRecord := {|
  ar_id := "a1"; ar_system := "s1"; ar_user := "u1"; ar_name := "CPU";
  ar_value := f64_of_Z 80; ar_triggered := false; ar_min := m |}.

Definition am_cpu (m : Z) : AlertManager (DB := mem_db) (M := gmap string) :=
  let d := {| m_alerts := {[ "a1" := cpu80 m ]}; m_history := []; m_systems := ∅ |} in
  {| hub := {| db := d; cache := (PopulateFromDB d NewAlertsCache true).1 |};
     pendingAlerts := ∅; outbox := []; stopped := false |}.

Lemma am_cpu_synced m : synced (cache (hub (am_cpu m))) (db (hub (am_cpu m))).
Proof. intros sys. by apply populate_view with (c := NewAlertsCache). Qed.

Definition busy (v : Z) : CombinedData.t Datatypes.unit := {|
  CombinedData.Stats := Stats.zero;
  CombinedData.Info := Info.mk "" "" 0 0 "" 0 (f64_of_Z v) f64_zero f64_zero f64_zero "" false
    f64_zero f64_zero 0 0 (f64_zero, f64_zero, f64_zero) 0 None None (0, 0)%Z None f64_zero
    f64_zero;
  CombinedData.Containers := []; CombinedData.SystemdServices := [];
  CombinedData.Details := None |}.

Definition web : SystemRecord := {|
  sys_id := "s1"; sys_name := "web"; sys_updated := (100 * Minute)%Z |}.

Lemma busy_not_nan n v u : current_value (busy 90) n = Some (v, u) → is_nan v = false.
Proof.
  unfold current_value. simpl.
  repeat case_match; intros; simplify_eq; vm_compute; reflexivity.
Qed.

Lemma considered_cpu m c : considered (db (hub (am_cpu m))) "s1" c → c = PopulateFromRecord (cpu80 m).
Proof.
  intros (r&Hr&->&_). simpl in Hr. unfold keyed in Hr. simpl in Hr.
  apply map_lookup_filter_Some in Hr as [Hr _].
  by apply lookup_singleton_Some in Hr as [_ <-].
Qed.

Lemma cpu_considered m : considered (db (hub (am_cpu m))) "s1" (PopulateFromRecord (cpu80 m)).
Proof. exists (cpu80 m). split_and!; [|done..]. vm_compute. reflexivity. Qed.

Definition sent_now : list SystemAlertData :=
  (HandleSystemAlerts (SDB := stats_of []) (am_cpu 1) web (busy 90)).1.

Lemma sent_alerts_flip_witness :
  length sent_now = 1%nat ∧ ∀ a, a ∈ sent_now → triggered a = true.
Proof.
  split; [vm_compute; reflexivity|]. intros a Ha.
  destruct (sent_alerts_flip (SDB := stats_of []) (am_cpu 1) web (busy 90) (am_cpu_synced 1))
    with (a := a) as [Hc Ht]; [done|exact busy_not_nan| |exact Ha|].
  - intros c ->%considered_cpu. vm_compute. reflexivity.
  - apply considered_cpu in Hc. rewrite Ht, Hc. reflexivity.
Defined.

Lemma immediate_alerts_exact_witness :
  ∃ a, a ∈ sent_now ∧ alertData a = PopulateFromRecord (cpu80 1).
Proof.
  apply (immediate_alerts_exact (SDB := stats_of []) (am_cpu 1) web (busy 90)
    (PopulateFromRecord (cpu80 1)) (am_cpu_synced 1)).
  - done.
  - apply cpu_considered.
  - done.
  - reflexivity.
  - intros v u. apply busy_not_nan.
  - exists (f64_of_Z 90), "%". split; vm_compute; reflexivity.
Defined.

Lemma mem_db_writable : writable (DB := mem_db).
Proof. split; [done|]. intros d r. by eexists. Qed.

Lemma system_alerts_commit_witness :
  let am' := run_sends url 0 web (HandleSystemAlerts (SDB := stats_of []) (am_cpu 1) web
               (busy 90)).2 sent_now in
  length (outbox am') = 1%nat ∧
  ∀ a, a ∈ sent_now → ∃ r,
    alerts (db (hub am')) !! Id (alertData a) = Some (set_triggered r (triggered a)).
Proof.
  destruct (system_alerts_commit (SDB := stats_of []) url 0 (am_cpu 1) web (busy 90) sent_now
    (am_cpu_synced 1)) as (H1&_&H3); [done|exact mem_db_writable|reflexivity|].
  split.
  - apply (f_equal length) in H3. rewrite length_fmap in H3. exact H3.
  - intros a (r&_&Hr)%H1. by exists r.
Defined.



(** *** The sample counter *)

(** 299 samples at 50% in a 25-minute window (one every five seconds): the 8-bit count is 43,
    the "average" 347.67%, and the alert at 80% is sent although no sample but the current
    one is above 50%. *)
Example count_wraps :
  let rows := ((0, Some (cpu_doc 50)) ::
    ((λ i, (Z.of_nat i * 5 * Second, Some (cpu_doc 50))) <$> seq 3 299))%Z in
  let a := new_alert (PopulateFromRecord (cpu80 25)) (f64_of_Z 90) "%" false 1 in
  (λ a, (fmt_2f (val a), count a, triggered a)) <$> second_pass rows [a] =
  [("347.67", 43%Z, true)].
Proof. vm_compute. reflexivity. Qed.

(** *** Stale fields *)

Definition bw_doc (b : option (Z * Z)) : stats_json := {|
  j_cpu := None; j_mp := None; j_dp := None; j_b := b; j_g := None;
  j_t := None; j_la := None; j_bat := None; j_efs := None |}.

(** The documents of an idle interface have no "b" key; each is counted with the bandwidth of
    the last busy record, so 100 MB/s in one record out of three averages to 100 MB/s. *)
Example stale_bandwidth :
  let mb := (100 * 1024 * 1024)%Z in
  let rows := [(0, Some (bw_doc (Some (mb, 0)))); (20 * Second, Some (bw_doc (Some (mb, 0))));
               (40 * Second, Some (bw_doc None)); (60 * Second, Some (bw_doc None))]%Z in
  let r := {| ar_id := "a1"; ar_system := "s1"; ar_user := "u1"; ar_name := "Bandwidth";
              ar_value := f64_of_Z 80; ar_triggered := false; ar_min := 2 |} in
  let a := new_alert (PopulateFromRecord r) (f64_of_Z 90) " MB/s" false 1 in
  (λ a, fmt_2f (val a)) <$> second_pass rows [a] = ["100.00"].
Proof. vm_compute. reflexivity. Qed.
End SystemAlerts.
