(* ===== verification/Notify.v ===== *)
(** * Delivery of notifications
    ([internal/alerts/alerts.go], [recipients.go], [alerts_smart.go], [alerts_api.go])

    What happens to an alert message once a component has decided to send it:
    quiet hours, the user's webhooks, the recipients of the e-mail.  The SMART
    alerts and the test notification, which call the same code, are here too.

    The database queries are behind [NotifyDB]; URL parsing, the JSON codec of
    the settings row and name resolution are parameters; sending is recorded as
    a list of effects, and whether a delivery succeeds is a parameter. *)

From S2P Require Import Prelude GoFloat GoStrings AlertStore StatusAlerts.

(** A row of [quiet_hours]; times are UTC instants in nanoseconds. *)
Record quiet_window := {
  qw_user : string;
  qw_system : string;
  qw_type : string;
  qw_start : Z;
  qw_end : Z;
}.

(** [UserNotificationSettings] *)
Module UserNotificationSettings.
Record t := { Emails : list string; Webhooks : list string }.
End UserNotificationSettings.

(** [BantayAlertParams]; a [nil] slice is [None]. *)
Module BantayAlertParams.
Record t := mk {
  AlertRecipientUserIds : option (list string);
  AlertRecipientEmails : option (list string);
  DailyDigestEnabled : bool;
  DailyDigestHour : Z;
  DailyDigestLastSent : string;
}.
End BantayAlertParams.

Class NotifyDB (DB : Type) := {
  (* [FindAllRecords("quiet_hours", filter)] *)
  findQuiet : DB → (quiet_window → bool) → option (list quiet_window);
  quietRows : DB → list quiet_window;
  (* the decoded [settings] of the user's [user_settings] record *)
  userSettings : DB → string → option UserNotificationSettings.t;
  (* account e-mails of the users found *)
  usersByIds : DB → list string → option (list string);
  (* value of the row "bantay_settings" of [_params] *)
  paramsRow : DB → option string;
  writeParams : DB → string → option DB;
  (* name and users of a system *)
  systemUsers : DB → string → option (string * list string);
}.

Class NotifyDBLaws (DB : Type) `{NotifyDB DB} := {
  findQuiet_spec : ∀ db p l, findQuiet db p = Some l → l ≡ₚ List.filter p (quietRows db);
  writeParams_spec : ∀ db v db', writeParams db v = Some db' → paramsRow db' = Some v;
}.

Module Notify.

Definition nl : string := String (ascii_of_nat 10) "".

(** ** Quiet hours *)

Section quiet.
Local Open Scope Z_scope.

(** [Time.Clock] of a UTC instant, seconds dropped. *)
Definition Clock (t : Z) : Z * Z := ((t / Hour) mod 24, (t / Minute) mod 60).

Definition minutes_of (t : Z) : Z := let '(h, m) := Clock t in h * 60 + m.

Definition window_active (now : Z) (w : quiet_window) : bool :=
  if String.eqb (qw_type w) "daily" then
    let startMinutes := minutes_of (qw_start w) in
    let endMinutes := minutes_of (qw_end w) in
    let nowMinutes := minutes_of now in
    if endMinutes <? startMinutes
    then (startMinutes <=? nowMinutes) || (nowMinutes <? endMinutes)
    else (startMinutes <=? nowMinutes) && (nowMinutes <? endMinutes)
  else ((qw_start w <? now) || (now =? qw_start w)) && (now <? qw_end w).

(** The filter: the user's global windows, and those of the system if one is given. *)
Definition window_matches (userID systemID : string) (w : quiet_window) : bool :=
  String.eqb (qw_user w) userID &&
  if String.eqb systemID "" then String.eqb (qw_system w) ""
  else String.eqb (qw_system w) "" || String.eqb (qw_system w) systemID.

Definition IsNotificationSilenced {DB} `{NotifyDB DB} (now : Z) (db : DB)
    (userID systemID : string) : bool :=
  match findQuiet db (window_matches userID systemID) with
  | None => false
  | Some windows => existsb (window_active now) windows
  end.

Lemma minutes_of_spec t : minutes_of t = (t / Minute) mod 1440 ∧ 0 <= minutes_of t < 1440.
Proof.
  unfold minutes_of, Clock. set (q := t / Minute).
  replace (t / Hour) with (q / 60).
  2: { unfold q, Hour. by rewrite Z.div_div. }
  pose proof (Z.mod_pos_bound q 60 eq_refl). pose proof (Z.mod_pos_bound (q / 60) 24 eq_refl).
  split; [|lia]. change 1440 with (60 * 24). rewrite (Z.rem_mul_r q 60 24) by lia. lia.
Qed.

(** A daily window as an arc of the clock: it covers an instant when the way from its start
    to the instant is shorter than the way from its start to its end. *)
Definition on_arc (start_ end_ now : Z) : Prop :=
  (now - start_) mod 1440 < (end_ - start_) mod 1440.

Lemma window_active_daily now w :
  qw_type w = "daily" →
  window_active now w = true ↔
  on_arc (qw_start w / Minute) (qw_end w / Minute) (now / Minute).
Proof.
  intros Ht. unfold window_active, on_arc. rewrite Ht. simpl.
  rewrite !(Zminus_mod (_ / Minute)).
  destruct (minutes_of_spec (qw_start w)) as [<- Hs], (minutes_of_spec (qw_end w)) as [<- He],
    (minutes_of_spec now) as [<- Hn].
  set (s := minutes_of (qw_start w)) in *. set (e := minutes_of (qw_end w)) in *.
  set (n := minutes_of now) in *.
  assert (∀ x, -1440 < x < 1440 → x mod 1440 = if x <? 0 then x + 1440 else x) as Hmod.
  { intros x Hx. destruct (x <? 0) eqn:Hx0; zbool.
    - rewrite <- (Z_mod_plus_full x 1 1440). apply Z.mod_small. lia.
    - apply Z.mod_small. lia. }
  rewrite !Hmod by lia.
  destruct (n - s <? 0) eqn:?, (e - s <? 0) eqn:?; zbool;
    destruct (e <? s) eqn:?; zbool; try lia;
    rewrite ?orb_true_iff, ?andb_true_iff, ?Z.leb_le, ?Z.ltb_lt; lia.
Qed.

(** A notification is silenced exactly when one of the user's windows that is global or
    for the system covers the present instant: a daily window covers an arc of the clock,
    through midnight if need be, end excluded; any other window an interval of time. *)
Theorem IsNotificationSilenced_exact {DB} `{NotifyDBLaws DB} now db userID systemID l :
  findQuiet db (window_matches userID systemID) = Some l →
  IsNotificationSilenced now db userID systemID = true ↔
  ∃ w, w ∈ quietRows db ∧ qw_user w = userID ∧
    (qw_system w = "" ∨ systemID ≠ "" ∧ qw_system w = systemID) ∧
    if String.eqb (qw_type w) "daily"
    then on_arc (qw_start w / Minute) (qw_end w / Minute) (now / Minute)
    else qw_start w <= now < qw_end w.
Proof.
  intros Hl. unfold IsNotificationSilenced. rewrite Hl.
  assert (∀ w, window_active now w = true ↔
    if String.eqb (qw_type w) "daily"
    then on_arc (qw_start w / Minute) (qw_end w / Minute) (now / Minute)
    else qw_start w <= now < qw_end w) as Hact.
  { intros w. destruct (String.eqb_spec (qw_type w) "daily") as [Ht|Ht].
    - by apply window_active_daily.
    - unfold window_active. rewrite (proj2 (String.eqb_neq _ _) Ht).
      rewrite andb_true_iff, orb_true_iff, Z.eqb_eq, !Z.ltb_lt. lia. }
  assert (∀ w, window_matches userID systemID w = true ↔ qw_user w = userID ∧
    (qw_system w = "" ∨ systemID ≠ "" ∧ qw_system w = systemID)) as Hmatch.
  { intros w. unfold window_matches. rewrite andb_true_iff, String.eqb_eq.
    destruct (String.eqb_spec systemID "");
      rewrite ?orb_true_iff, !String.eqb_eq; naive_solver. }
  rewrite existsb_exists. setoid_rewrite <- list_elem_of_In.
  setoid_rewrite (findQuiet_spec _ _ _ Hl). setoid_rewrite list_elem_of_In.
  setoid_rewrite filter_In. setoid_rewrite Hact. setoid_rewrite Hmatch. naive_solver.
Qed.
End quiet.

(** ** Settings and recipients *)

Section recipients.
Context {DB : Type} {NDB : NotifyDB DB} {NDBL : NotifyDBLaws DB}.
(** [json.Unmarshal] of the row into the params, and [json.Marshal]. *)
Context (decodeParams : string → BantayAlertParams.t → BantayAlertParams.t)
        (encodeParams : BantayAlertParams.t → string).
(** The environment variable [BANTAY_ALERT_RECIPIENT]. *)
Context (env_recipient : string).
Import BantayAlertParams.

Definition LoadBantayAlertParams (db : DB) : BantayAlertParams.t :=
  let p := mk (Some []) None false 0 "" in
  match paramsRow db with
  | None => p
  | Some raw =>
      if String.eqb raw "" then p
      else
        let p := decodeParams raw p in
        mk (Some (default [] (AlertRecipientUserIds p))) (AlertRecipientEmails p)
           (DailyDigestEnabled p) (DailyDigestHour p) (DailyDigestLastSent p)
  end.

(** [nil] slices are written as empty ones. *)
Definition normalize (p : BantayAlertParams.t) : BantayAlertParams.t :=
  mk (Some (default [] (AlertRecipientUserIds p))) (Some (default [] (AlertRecipientEmails p)))
     (DailyDigestEnabled p) (DailyDigestHour p) (DailyDigestLastSent p).

Definition SaveBantayAlertParams (db : DB) (p : BantayAlertParams.t) : option DB :=
  writeParams db (encodeParams (normalize p)).

(** The closure [add] on the pair of the set [seen] and the slice [out]. *)
Definition add (st : gset string * list string) (addr : string) : gset string * list string :=
  let '(seen, out) := st in
  let addr := TrimSpace addr in
  if String.eqb addr "" then st
  else
    let key := ToLower addr in
    if bool_decide (key ∈ seen) then st
    else ({[key]} ∪ seen, out ++ [addr]).

Definition add_all (l : list string) (st : gset string * list string) :=
  fold_left add l st.

(** The addresses of the picked users' accounts; none when the query fails. *)
Definition account_emails (db : DB) (p : BantayAlertParams.t) : list string :=
  match default [] (AlertRecipientUserIds p) with
  | [] => []
  | ids => default [] (usersByIds db ids)
  end.

Definition resolveGlobalRecipientEmails (db : DB) : list string :=
  let p := LoadBantayAlertParams db in
  let st := add_all (account_emails db p) (∅, []) in
  let st := add_all (default [] (AlertRecipientEmails p)) st in
  match st.2 with
  | _ :: _ => st.2
  | [] =>
      let v := TrimSpace env_recipient in
      if String.eqb v "" then [] else (add_all (Split comma v) st).2
  end.

(** *** Lemmas *)

(** What [out] is after adding the addresses [l]: [seen] holds the keys of [out], which are
    distinct, and every non-blank address of [l] is represented. *)
Definition collected (l : list string) (st : gset string * list string) : Prop :=
  (∀ k, k ∈ st.1 ↔ k ∈ ToLower <$> st.2) ∧ NoDup (ToLower <$> st.2) ∧
  (∀ a, a ∈ st.2 → ∃ x, x ∈ l ∧ a = TrimSpace x ∧ a ≠ "") ∧
  (∀ x, x ∈ l → TrimSpace x ≠ "" → ToLower (TrimSpace x) ∈ ToLower <$> st.2).

Lemma add_collected l st x : collected l st → collected (l ++ [x]) (add st x).
Proof.
  destruct st as [seen out]. intros (Hs&Hnd&Hin&Hall). unfold add. simpl in *.
  assert (∀ a, (∃ y, y ∈ l ∧ a = TrimSpace y ∧ a ≠ "") →
    ∃ y, y ∈ (l ++ [x])%list ∧ a = TrimSpace y ∧ a ≠ "") as Hmono.
  { intros a (y&?&?&?). exists y. rewrite elem_of_app. auto. }
  destruct (String.eqb_spec (TrimSpace x) "") as [Hx|Hx].
  { split_and!; [done|done|by eauto|]. simpl.
    intros y [Hy|Hy%list_elem_of_singleton]%elem_of_app Hne; [by apply Hall|by subst]. }
  case_bool_decide as Hseen.
  { split_and!; [done|done|by eauto|]. simpl.
    intros y [Hy|Hy%list_elem_of_singleton]%elem_of_app Hne; [by apply Hall|].
    subst. by apply Hs. }
  unfold collected. simpl. rewrite fmap_app. split_and!.
  - intros k. rewrite elem_of_union, elem_of_singleton, elem_of_app, Hs. simpl.
    rewrite list_elem_of_singleton. tauto.
  - apply NoDup_app. split_and!; [done| |apply NoDup_singleton].
    intros k Hk ->%list_elem_of_singleton. apply Hseen. by apply Hs.
  - intros a [Ha| ->%list_elem_of_singleton]%elem_of_app; [by eauto|].
    exists x. rewrite elem_of_app, list_elem_of_singleton. auto.
  - intros y [Hy| ->%list_elem_of_singleton]%elem_of_app Hne; rewrite elem_of_app; [by left; auto|].
    right. by apply list_elem_of_singleton.
Qed.

Lemma add_all_collected l k st : collected l st → collected (l ++ k) (add_all k st).
Proof.
  revert l st. induction k as [|x k IH]; intros l st Hst; simpl; [by rewrite app_nil_r|].
  replace (l ++ x :: k)%list with ((l ++ [x]) ++ k)%list by (by rewrite <- app_assoc).
  by apply IH, add_collected.
Qed.

Lemma collected_nil : collected [] (∅, []).
Proof.
  split_and!; simpl; [set_solver|constructor| |]; by intros ? ?%elem_of_nil.
Qed.

Definition configured (db : DB) : list string :=
  let p := LoadBantayAlertParams db in
  (account_emails db p ++ default [] (AlertRecipientEmails p))%list.

(** The global recipient list names every configured address once: no blank entry, no two
    entries that differ only in case, nothing that was not configured; the environment
    variable counts exactly when the settings hold no usable address. *)
Theorem recipients_exact db :
  let out := resolveGlobalRecipientEmails db in
  let usable x := TrimSpace x ≠ "" in
  let source := if bool_decide (Exists usable (configured db)) then configured db
                else if String.eqb (TrimSpace env_recipient) "" then []
                else Split comma (TrimSpace env_recipient) in
  NoDup (ToLower <$> out) ∧
  (∀ a, a ∈ out → ∃ x, x ∈ source ∧ a = TrimSpace x ∧ a ≠ "") ∧
  (∀ x, x ∈ source → usable x → ToLower (TrimSpace x) ∈ ToLower <$> out).
Proof.
  intros out usable source. unfold source, out, resolveGlobalRecipientEmails.
  set (p := LoadBantayAlertParams db).
  set (st := add_all (default [] (AlertRecipientEmails p)) (add_all (account_emails db p) (∅, []))).
  assert (collected (configured db) st) as Hst.
  { unfold configured. fold p. apply add_all_collected.
    rewrite <- (app_nil_l (account_emails db p)). apply add_all_collected, collected_nil. }
  destruct Hst as (Hs&Hnd&Hin&Hall).
  destruct st.2 as [|a0 l0] eqn:Hout.
  - assert (¬ Exists usable (configured db)) as Hno.
    { intros (x&Hx&Hu)%Exists_exists. by apply (Hall x), elem_of_nil in Hx. }
    rewrite bool_decide_eq_false_2 by done.
    destruct (String.eqb (TrimSpace env_recipient) "").
    { split_and!; [constructor| |]; by intros ? ?%elem_of_nil. }
    assert (collected (Split comma (TrimSpace env_recipient))
      (add_all (Split comma (TrimSpace env_recipient)) st)) as (_&?&?&?); [|done].
    change (Split comma (TrimSpace env_recipient)) with
      ([] ++ Split comma (TrimSpace env_recipient))%list at 1.
    apply add_all_collected. destruct st as [seen out']. simpl in *. subst out'.
    split_and!; simpl; [exact Hs|constructor| |]; by intros ? ?%elem_of_nil.
  - rewrite bool_decide_eq_true_2; [done|].
    destruct (Hin a0) as (x&Hx&->&Hne); [apply elem_of_cons; by left|].
    apply Exists_exists. eauto.
Qed.

(** What is saved is what is read back, with [nil] lists read as empty ones. *)
Theorem params_roundtrip db db' p :
  (∀ p0 q, decodeParams (encodeParams (normalize q)) p0 = normalize q) →
  (∀ q, encodeParams q ≠ "") →
  SaveBantayAlertParams db p = Some db' →
  LoadBantayAlertParams db' = normalize p.
Proof.
  intros Hcodec Hne Hw. unfold LoadBantayAlertParams.
  rewrite (writeParams_spec _ _ _ Hw). rewrite (proj2 (String.eqb_neq _ _) (Hne _)).
  by rewrite Hcodec.
Qed.
End recipients.

(** ** Sending *)

(** [url.URL] as the code uses it: scheme, host name, query and the rest. *)
Record URL := {
  Scheme : string;
  Hostname : string;
  Query : gmap string (list string);
  Rest : string;
}.

(** [url.Values] *)
Definition Values_Add (q : gmap string (list string)) (k v : string) : gmap string (list string) :=
  <[k := (default [] (q !! k) ++ [v])%list]> q.
Definition Values_Get (q : gmap string (list string)) (k : string) : string :=
  match q !! k with Some (v :: _) => v | _ => "" end.
Definition Values_Has (q : gmap string (list string)) (k : string) : bool :=
  match q !! k with Some _ => true | None => false end.

Definition supportsTitle : list string :=
  ["bark"; "discord"; "gotify"; "ifttt"; "join"; "lark"; "ntfy"; "opsgenie"; "pushbullet";
   "pushover"; "slack"; "teams"; "telegram"; "zulip"].

(** [mailer.Message] *)
Record Message := {
  To_ : list string;
  Subject : string;
  Text : string;
  From_ : string * string;      (* address, name *)
}.

(** What leaves the hub. *)
Inductive effect :=
| Shoutrrr (url message : string)   (* [shoutrrr.Send(url, message)] *)
| Mail (m : Message).

Section send.
Context {DB : Type} {NDB : NotifyDB DB} {NDBL : NotifyDBLaws DB}.
Context (decodeParams : string → BantayAlertParams.t → BantayAlertParams.t).
Context (env_recipient : string).
Context (url_parse : string → option URL) (url_string : URL → string).
(** Whether a delivery succeeds. *)
Context (delivered : effect → bool).
Context (appURL : string) (sender : string * string).
Local Open Scope string_scope.

Definition has_title (scheme : string) : bool := existsb (String.eqb scheme) supportsTitle.

(** The request made of a parsed URL: its query with title and link, and the message. *)
Definition shoutrrr_request (u : URL) (title message link linkText : string)
    : gmap string (list string) * string :=
  let scheme := Scheme u in
  let q := Query u in
  let '(q, message) :=
    if has_title scheme then (Values_Add q "title" title, message)
    else if String.eqb scheme "mattermost" then (q, "##### " ++ title ++ nl ++ nl ++ message)
    else if String.eqb scheme "generic" && Values_Has q "template" then
      let key := Values_Get q "titlekey" in
      let key := if String.eqb key "" then "title" else key in
      (Values_Add q ("$" ++ key) title, message)
    else (q, title ++ nl ++ nl ++ message) in
  if String.eqb scheme "ntfy" then
    (Values_Add q "Actions" ("view, " ++ linkText ++ ", " ++ link), message)
  else if String.eqb scheme "lark" then (Values_Add q "link" link, message)
  else if String.eqb scheme "bark" then (Values_Add q "url" link, message)
  else (q, message ++ nl ++ nl ++ link).

(** The effects and whether an error is returned. *)
Definition SendShoutrrrAlert (notificationUrl title message link linkText : string)
    : list effect * bool :=
  match url_parse notificationUrl with
  | None => ([], true)
  | Some u =>
      let '(q, message) := shoutrrr_request u title message link linkText in
      let e := Shoutrrr (url_string {| Scheme := Scheme u; Hostname := Hostname u; Query := q;
                                       Rest := Rest u |}) message in
      ([e], negb (delivered e))
  end.

Definition email_list (db : DB) (settings : UserNotificationSettings.t) : list string :=
  match resolveGlobalRecipientEmails decodeParams env_recipient db with
  | [] => UserNotificationSettings.Emails settings
  | override => override
  end.

Definition mail_of (firedAt : string) (to : list string) (data : AlertMessageData.t) : Message := {|
  To_ := to;
  Subject := "[" ++ firedAt ++ "] " ++ AlertMessageData.Title data;
  Text := "Time: " ++ firedAt ++ nl ++ nl ++ AlertMessageData.Message data ++ nl ++ nl ++
          AlertMessageData.Link data;
  From_ := sender |}.

(** [firedAt] is the formatted local time; the boolean is the returned error. *)
Definition SendAlert (now : Z) (firedAt : string) (db : DB) (data : AlertMessageData.t)
    : list effect * bool :=
  if IsNotificationSilenced now db (AlertMessageData.UserID data) (AlertMessageData.SystemID data)
  then ([], false)
  else
    match userSettings db (AlertMessageData.UserID data) with
    | None => ([], true)
    | Some settings =>
        let hooks := List.flat_map (λ w, (SendShoutrrrAlert w (AlertMessageData.Title data)
            (AlertMessageData.Message data) (AlertMessageData.Link data)
            (AlertMessageData.LinkText data)).1)
          (UserNotificationSettings.Webhooks settings) in
        match email_list db settings with
        | [] => (hooks, false)
        | to =>
            let e := Mail (mail_of firedAt to data) in
            ((hooks ++ [e])%list, negb (delivered e))
        end
    end.

(** ** SMART alerts *)

Definition smartStateSeverity (state : string) : Z :=
  if String.eqb state "PASSED" then 1
  else if String.eqb state "WARNING" then 2
  else if String.eqb state "FAILED" then 3
  else 0.

Definition shouldSendSmartDeviceAlert (oldState newState : string) : bool :=
  ((1 <=? smartStateSeverity oldState) &&
   (smartStateSeverity oldState <? smartStateSeverity newState))%Z.

Definition smartStateEmoji (state : string) : string :=
  if String.eqb state "WARNING" then "🟠" else "🔴".

Definition smartStateLabel (state : string) : string :=
  if String.eqb state "FAILED" then "failure" else ToLower state.

(** A row of [smart_devices]. *)
Record SmartDevice := {
  sd_system : string;
  sd_name : string;
  sd_model : string;
  sd_state : string;
}.

Definition smart_message (systemName userID : string) (r : SmartDevice) : AlertMessageData.t := {|
  AlertMessageData.UserID := userID;
  AlertMessageData.SystemID := sd_system r;
  AlertMessageData.Title :=
    "SMART " ++ smartStateLabel (sd_state r) ++ " on " ++ systemName ++ ": " ++ sd_name r ++ " " ++
    smartStateEmoji (sd_state r);
  AlertMessageData.Message :=
    if String.eqb (sd_model r) "" then
      "Disk " ++ sd_name r ++ " SMART status changed to " ++ sd_state r
    else "Disk " ++ sd_name r ++ " (" ++ sd_model r ++ ") SMART status changed to " ++ sd_state r;
  AlertMessageData.Link := MakeLink appURL ["system"; sd_system r];
  AlertMessageData.LinkText := "View " ++ systemName |}.

(** The effects of the update hook of [smart_devices]; failures are logged only. *)
Definition handleSmartDeviceAlert (now : Z) (firedAt : string) (db : DB)
    (original r : SmartDevice) : list effect :=
  if negb (shouldSendSmartDeviceAlert (sd_state original) (sd_state r)) then []
  else if String.eqb (sd_system r) "" then []
  else
    match systemUsers db (sd_system r) with
    | None => []
    | Some (systemName, userIDs) =>
        List.flat_map (λ userID, (SendAlert now firedAt db (smart_message systemName userID r)).1)
          userIDs
    end.

(** *** Properties *)

Lemma SendShoutrrrAlert_hooks url title message link linkText e :
  e ∈ (SendShoutrrrAlert url title message link linkText).1 → ∃ u m, e = Shoutrrr u m.
Proof.
  unfold SendShoutrrrAlert. destruct (url_parse url) as [u|]; [|by intros ?%elem_of_nil].
  destruct (shoutrrr_request _ _ _ _ _). intros ->%list_elem_of_singleton. eauto.
Qed.

(** An alert that is not silenced reaches every webhook of the user whose URL parses, in
    order, whatever happens to the others, and then one e-mail: to the global recipients if
    there are any, else to the user's own list; a silenced alert reaches nobody. *)
Theorem SendAlert_effects now firedAt db data settings :
  userSettings db (AlertMessageData.UserID data) = Some settings →
  let out := (SendAlert now firedAt db data).1 in
  let silenced := IsNotificationSilenced now db (AlertMessageData.UserID data)
                    (AlertMessageData.SystemID data) in
  (silenced = true → out = []) ∧
  (silenced = false →
   (∃ hooks mails, out = (hooks ++ mails)%list ∧
      List.length hooks = List.length (List.filter
        (λ w, match url_parse w with Some _ => true | None => false end)
        (UserNotificationSettings.Webhooks settings)) ∧
      (∀ e, e ∈ hooks → ∃ u m, e = Shoutrrr u m) ∧
      mails = match email_list db settings with
              | [] => []
              | to => [Mail (mail_of firedAt to data)]
              end)).
Proof.
  intros Hset out silenced. unfold out, silenced, SendAlert.
  destruct (IsNotificationSilenced _ _ _ _); [done|]. split; [done|]. intros _. rewrite Hset.
  set (f := λ w, (SendShoutrrrAlert w _ _ _ _).1).
  exists (List.flat_map f (UserNotificationSettings.Webhooks settings)).
  exists (match email_list db settings with
          | [] => [] | to => [Mail (mail_of firedAt to data)] end).
  split_and!; [by destruct (email_list db settings); rewrite ?app_nil_r| | |done].
  - induction (UserNotificationSettings.Webhooks settings) as [|w l IH]; simpl; [done|].
    rewrite length_app, IH. unfold f at 1, SendShoutrrrAlert.
    destruct (url_parse w); [|done]. by destruct (shoutrrr_request _ _ _ _ _).
  - intros e He%list_elem_of_In. apply in_flat_map in He as (w&_&He%list_elem_of_In).
    by eapply SendShoutrrrAlert_hooks.
Qed.

(** The SMART states a device goes through, oldest first: only a step that worsens a known
    state is announced. *)
Lemma shouldSend_spec o n :
  shouldSendSmartDeviceAlert o n = true ↔
  (o = "PASSED" ∧ (n = "WARNING" ∨ n = "FAILED")) ∨ (o = "WARNING" ∧ n = "FAILED").
Proof using Type.
  clear.
  unfold shouldSendSmartDeviceAlert, smartStateSeverity.
  destruct (String.eqb_spec o "PASSED"), (String.eqb_spec o "WARNING"),
    (String.eqb_spec o "FAILED"), (String.eqb_spec n "PASSED"), (String.eqb_spec n "WARNING"),
    (String.eqb_spec n "FAILED"); subst; simpl; naive_solver.
Qed.

(** A SMART notification leaves the hub only when a device of a known system goes from
    PASSED to WARNING or FAILED, or from WARNING to FAILED. *)
Theorem smart_alert_only_worsening now firedAt db original r :
  handleSmartDeviceAlert now firedAt db original r ≠ [] →
  ((sd_state original = "PASSED" ∧ (sd_state r = "WARNING" ∨ sd_state r = "FAILED")) ∨
   (sd_state original = "WARNING" ∧ sd_state r = "FAILED")) ∧
  sd_system r ≠ "" ∧ is_Some (systemUsers db (sd_system r)).
Proof.
  unfold handleSmartDeviceAlert. intros Hne.
  destruct (shouldSendSmartDeviceAlert _ _) eqn:Hs; simpl in Hne; [|done].
  destruct (String.eqb_spec (sd_system r) "") as [|Hsys]; [done|].
  destruct (systemUsers db (sd_system r)); [|done].
  split_and!; [by apply shouldSend_spec|done|by eexists].
Qed.
End send.

(** ** Test notifications *)

(** [net.IP]: 4 or 16 bytes. *)
Definition IP := list Z.

Section internal.
Local Open Scope Z_scope.

Definition zeros (n : nat) : IP := replicate n 0.

Definition To4 (ip : IP) : option IP :=
  if (List.length ip =? 4)%nat then Some ip
  else if (List.length ip =? 16)%nat && bool_decide (take 12 ip = (zeros 10 ++ [255; 255])%list)
  then Some (drop 12 ip) else None.

Definition byte (ip : IP) (i : nat) : Z := default 0 (ip !! i).

Definition IsPrivate (ip : IP) : bool :=
  match To4 ip with
  | Some ip4 =>
      (byte ip4 0 =? 10) || ((byte ip4 0 =? 172) && (Z.land (byte ip4 1) 240 =? 16)) ||
      ((byte ip4 0 =? 192) && (byte ip4 1 =? 168))
  | None => (List.length ip =? 16)%nat && (Z.land (byte ip 0) 254 =? 252)
  end.

Definition IsLoopback (ip : IP) : bool :=
  match To4 ip with
  | Some ip4 => byte ip4 0 =? 127
  | None => bool_decide (ip = (zeros 15 ++ [1])%list)
  end.

Definition IsUnspecified (ip : IP) : bool :=
  match To4 ip with
  | Some ip4 => bool_decide (ip4 = zeros 4)
  | None => bool_decide (ip = zeros 16)
  end.

Definition isInternalIP (ip : IP) : bool := IsPrivate ip || IsLoopback ip || IsUnspecified ip.
End internal.

Section test_notification.
Context (url_parse : string → option URL) (url_string : URL → string).
Context (delivered : effect → bool) (appURL : string).
(** [net.ParseIP] and [net.LookupIP] *)
Context (ParseIP : string → option IP) (LookupIP : string → option (list IP)).

(** [None]: the URL does not parse. *)
Definition isInternalURL (rawURL : string) : option bool :=
  match url_parse rawURL with
  | None => None
  | Some u =>
      let host := Hostname u in
      if String.eqb host "" then Some false
      else if String.eqb (ToLower host) "localhost" then Some true
      else match ParseIP host with
           | Some ip => Some (isInternalIP ip)
           | None =>
               if negb (Contains host ".") then Some false
               else match LookupIP host with
                    | None => Some false
                    | Some ips => Some (existsb isInternalIP ips)
                    end
           end
  end.

Inductive response := BadRequest | Forbidden | OK (err : bool).

(** The effects and the response; [admin] is a superuser or a user with the role "admin". *)
Definition SendTestNotification (admin : bool) (url : string) : list effect * response :=
  if String.eqb url "" then ([], BadRequest)
  else
    let send := let '(es, err) := SendShoutrrrAlert url_parse url_string delivered url
                  "Test Alert" "This is a notification from Bantay." appURL "View Beszel" in
                (es, OK err) in
    if admin then send
    else match isInternalURL url with
         | None => ([], BadRequest)
         | Some true => ([], Forbidden)
         | Some false => send
         end.

(** A test notification by a user who is not an admin leaves the hub only for a URL whose
    host is not localhost, not a private, loopback or unspecified address, and, if it looks
    like a host name, does not resolve to one. *)
Theorem test_notification_guard url :
  (SendTestNotification false url).1 ≠ [] →
  ∃ u, url_parse url = Some u ∧
    (Hostname u = "" ∨
     ToLower (Hostname u) ≠ "localhost" ∧
     match ParseIP (Hostname u) with
     | Some ip => isInternalIP ip = false
     | None => ∀ ips, Contains (Hostname u) "." = true → LookupIP (Hostname u) = Some ips →
                 Forall (λ ip, isInternalIP ip = false) ips
     end).
Proof.
  unfold SendTestNotification. destruct (String.eqb url ""); [done|].
  unfold isInternalURL. intros Hne.
  destruct (url_parse url) as [u|] eqn:Hu; [|done]. exists u. split; [done|].
  destruct (String.eqb_spec (Hostname u) "") as [|Hh]; [by left|right].
  destruct (String.eqb_spec (ToLower (Hostname u)) "localhost") as [|Hl]; [done|].
  split; [done|]. destruct (ParseIP (Hostname u)) as [ip|]; [by destruct (isInternalIP ip)|].
  intros ips Hc Hips. rewrite Hc, Hips in Hne. simpl in Hne.
  destruct (existsb isInternalIP ips) eqn:Hex; [done|].
  apply Forall_forall. intros ip Hip. apply not_true_iff_false. intros Hi.
  apply not_true_iff_false in Hex. apply Hex, existsb_exists. exists ip.
  by rewrite <- list_elem_of_In.
Qed.
End test_notification.

(** ** Witnesses *)

Record note_db := { nd_quiet : list quiet_window; nd_params : option string }.

#[export] Instance note_db_ops : NotifyDB note_db := {|
  findQuiet d p := Some (List.filter p (nd_quiet d));
  quietRows := nd_quiet;
  userSettings d u :=
    if String.eqb u "u1" then
      Some {| UserNotificationSettings.Emails := ["a@b.c"];
              UserNotificationSettings.Webhooks := ["ntfy://x"; "bad"] |}
    else None;
  usersByIds _ ids := Some ((λ i, i +:+ "@hub.lan") <$> ids);
  paramsRow := nd_params;
  writeParams d v := Some {| nd_quiet := nd_quiet d; nd_params := Some v |};
  systemUsers _ id := if String.eqb id "s1" then Some ("web", ["u1"]) else None;
|}.

#[export] Instance note_db_laws : NotifyDBLaws note_db.
Proof. split; [by intros d p l [= <-]|by intros d v d' [= <-]]. Qed.

(** Every night from 23:00 to 01:00. *)
Definition night : quiet_window := {|
  qw_user := "u1"; qw_system := ""; qw_type := "daily";
  qw_start := (23 * Hour)%Z; qw_end := (25 * Hour)%Z |}.

Definition ndb : note_db := {| nd_quiet := [night]; nd_params := None |}.

Lemma IsNotificationSilenced_exact_witness :
  IsNotificationSilenced (48 * Hour + 30 * Minute) ndb "u1" "s1" = true ∧
  IsNotificationSilenced (49 * Hour) ndb "u1" "s1" = false.
Proof.
  pose proof (λ now, IsNotificationSilenced_exact now ndb "u1" "s1" _ eq_refl) as Hs. split.
  - apply Hs. exists night. split_and!; [apply elem_of_cons; by left|done|by left|].
    vm_compute. reflexivity.
  - apply not_true_iff_false. rewrite Hs. intros (w&Hw&_&_&Ha).
    apply list_elem_of_singleton in Hw as ->. vm_compute in Ha. discriminate.
Defined.

(** A codec that round-trips: the settings as the binary digits of their code. *)
#[export] Instance params_eq_dec : EqDecision BantayAlertParams.t.
Proof. solve_decision. Defined.
#[export] Instance params_countable : Countable BantayAlertParams.t.
Proof.
  refine (inj_countable'
    (λ p, (BantayAlertParams.AlertRecipientUserIds p, BantayAlertParams.AlertRecipientEmails p,
           BantayAlertParams.DailyDigestEnabled p, BantayAlertParams.DailyDigestHour p,
           BantayAlertParams.DailyDigestLastSent p))
    (λ '(a, b, c, d, e), BantayAlertParams.mk a b c d e) _).
  by intros [].
Defined.

Fixpoint bits_of (p : positive) : string :=
  match p with
  | xH => "1"
  | xO p => String "0"%char (bits_of p)
  | xI p => String "1"%char (bits_of p)
  end.

Fixpoint of_bits (s : string) : positive :=
  match s with
  | EmptyString | String _ EmptyString => xH
  | String c s => if Ascii.eqb c "0" then xO (of_bits s) else xI (of_bits s)
  end.

Lemma of_bits_of p : of_bits (bits_of p) = p.
Proof.
  induction p as [p IH|p IH|]; simpl; [| |done]; destruct (bits_of p) eqn:Hb;
    try (by destruct p); by rewrite IH.
Qed.

Definition bin_encode (p : BantayAlertParams.t) : string := bits_of (encode p).
Definition bin_decode (raw : string) (p : BantayAlertParams.t) : BantayAlertParams.t :=
  default p (decode (of_bits raw)).

Definition some_params : BantayAlertParams.t :=
  BantayAlertParams.mk None (Some ["ops@hub.lan"]) true 7 "2026-01-01".

Lemma params_roundtrip_witness :
  let db' := default ndb (SaveBantayAlertParams bin_encode ndb some_params) in
  LoadBantayAlertParams bin_decode db' = normalize some_params.
Proof.
  apply (params_roundtrip bin_decode bin_encode ndb).
  - intros p0 q. unfold bin_decode, bin_encode. rewrite of_bits_of, decode_encode. reflexivity.
  - intros q. unfold bin_encode. by destruct (encode q).
  - reflexivity.
Defined.

Definition demo_decode (raw : string) (p : BantayAlertParams.t) : BantayAlertParams.t :=
  if String.eqb raw "row" then
    BantayAlertParams.mk None (Some [" A@b.c "; "a@B.c"; ""]) true 7 ""
  else p.

(** The two spellings of an address count once. *)
Lemma recipients_exact_witness :
  let db := {| nd_quiet := []; nd_params := Some "row" |} in
  NoDup (ToLower <$> resolveGlobalRecipientEmails demo_decode "" db) ∧
  resolveGlobalRecipientEmails demo_decode "" db = ["A@b.c"].
Proof.
  split; [|reflexivity].
  exact (proj1 (recipients_exact demo_decode "" {| nd_quiet := []; nd_params := Some "row" |})).
Defined.

Definition demo_parse (s : string) : option URL :=
  if String.eqb s "bad" then None
  else Some {| Scheme := "ntfy"; Hostname := s; Query := ∅; Rest := "" |}.

Lemma SendAlert_effects_witness :
  let data := AlertMessageData.mk "u1" "s1" "T" "M" "L" "LT" in
  List.length (SendAlert demo_decode "" demo_parse Rest (λ _, true) ("", "") (12 * Hour) "now"
            ndb data).1 = 2%nat.
Proof.
  intros data.
  destruct (SendAlert_effects demo_decode "" demo_parse Rest (λ _, true) ("", "") (12 * Hour) "now"
    ndb data {| UserNotificationSettings.Emails := ["a@b.c"];
                UserNotificationSettings.Webhooks := ["ntfy://x"; "bad"] |}) as [_ Hsend];
    [vm_compute; reflexivity|].
  destruct Hsend as (hooks&mails&->&Hl&_&->); [vm_compute; reflexivity|].
  rewrite length_app, Hl. vm_compute. reflexivity.
Defined.

Lemma smart_alert_only_worsening_witness :
  shouldSendSmartDeviceAlert "WARNING" "FAILED" = true.
Proof.
  assert (Hw := smart_alert_only_worsening demo_decode "" demo_parse Rest (λ _, true) ""
    ("", "") (12 * Hour) "now" ndb
    {| sd_system := "s1"; sd_name := "sda"; sd_model := ""; sd_state := "WARNING" |}
    {| sd_system := "s1"; sd_name := "sda"; sd_model := ""; sd_state := "FAILED" |}).
  apply (proj2 (shouldSend_spec _ _)), Hw. vm_compute. discriminate.
Defined.

Lemma test_notification_guard_witness :
  ToLower "hub.lan" ≠ "localhost".
Proof.
  destruct (test_notification_guard demo_parse Rest (λ _, true) "" (λ _, None)
    (λ _, Some [[8; 8; 8; 8]%Z]) "hub.lan") as (u&Hu&Hcase).
  - vm_compute. discriminate.
  - injection Hu as <-. destruct Hcase as [|[Hl _]]; [discriminate|exact Hl].
Defined.
End Notify.
