(* ===== verification/Digest.v ===== *)
(** * The daily digest ([internal/alerts/digest.go])

    Once a minute the scheduler looks at the clock; at the configured hour it
    mails one summary of the triggered alerts to the global recipients and
    stores the date, so that neither the next tick nor a restart repeats it.
    A clock reading is a value of [wall], the local time as the code formats
    it; the store of the settings is that of [Notify]. *)

From S2P Require Import Prelude GoFloat GoStrings GoFmt AlertStore StatusAlerts Notify.

(** [activeAlertRow] *)
Record activeAlertRow := {
  a_SystemID : string;
  a_SystemName : string;
  a_AlertName : string;
  a_Threshold : f64;
}.

(** The query over [alerts] and [systems]: triggered alerts ordered by names. *)
Class DigestDB (DB : Type) := {
  activeAlerts : DB → option (list activeAlertRow);
}.

Module Digest.
Import Notify BantayAlertParams.
Local Open Scope string_scope.

(** A reading of the local clock. *)
Record wall := {
  w_hour : Z;
  w_date : string;       (* "2006-01-02" *)
  w_stamp : string;      (* "2006-01-02 15:04:05 MST" *)
}.

(** ** The body *)

Definition pluralize (n : nat) (singular plural : string) : string :=
  print_Z (Z.of_nat n) ++ " " ++ (if (n =? 1)%nat then singular else plural).

Definition formatAlertLine (a : activeAlertRow) : string :=
  let n := a_AlertName a in
  let t := fmt_g (a_Threshold a) in
  if String.eqb n "Status" then "System down"
  else if String.eqb n "Battery" then "Battery below " ++ t ++ "%"
  else if String.eqb n "Temperature" then "Temperature above " ++ t ++ "°C"
  else if existsb (String.eqb n) ["CPU"; "Memory"; "Disk"; "GPU"] then n ++ " above " ++ t ++ "%"
  else if String.eqb n "Bandwidth" then "Bandwidth above " ++ t ++ " MB/s"
  else if HasPrefix n "LoadAvg" then n ++ " above " ++ t
  else n ++ " alert (threshold " ++ t ++ ")".

Definition safeTempHint (systemName : string) : string :=
  let n := ToLower systemName in
  if containsAny n ["rpi"; "raspberry"; "pi3"; "pi4"; "pi5"; "rpi3"; "rpi4"; "rpi5"] then
    "Raspberry Pi: throttles at 80–85°C, hard limit ~85°C"
  else if containsAny n ["synology"; "qnap"; "truenas"; "freenas"; "nas"] then
    "NAS chassis: ≤45°C ambient; HDDs ≤45°C for full lifespan"
  else if containsAny n ["switch"; "router"; "ap-"; "unifi"; "mikrotik"; "omada"] then
    "Network gear: typically rated for ≤40–45°C ambient"
  else if containsAny n ["edgepi"; "jetson"] then
    "Embedded SoC: throttles ~85°C, hard limit ~95°C"
  else if containsAny n ["elitedesk"; "optiplex"; "thinkcentre"; "nuc"; "minipc"; "mini-pc"] then
    "Mini/SFF PC: CPU ≤80°C sustained; verify chassis airflow"
  else "Generic CPU/server: ≤80°C sustained, throttles 90–100°C".

Definition temperatureReference : string := String.concat nl [
  "Reference — safe operating temperatures:";
  "  CPU desktop/server : ≤80°C sustained · throttle 90–100°C · damage >100°C";
  "  Raspberry Pi       : ≤80°C (RPi 3/4 throttle 80°C, RPi 5 throttle 85°C)";
  "  GPU consumer       : ≤83°C (NVIDIA/AMD)";
  "  GPU datacenter     : ≤90°C (A100/H100/MI series)";
  "  HDD                : 25–45°C ideal · ≤50°C to preserve lifespan (Backblaze)";
  "  SSD / NVMe         : 30–50°C ideal · throttles ~70°C · max 70–80°C";
  "  Server room / NAS  : 18–27°C ambient (ASHRAE A1 recommended), max 32°C";
  "  Network switches   : ≤40–45°C ambient (vendor-specific)" ].

(** *** Grouping by system *)

(** [sysGroup] *)
Record sysGroup := { g_name : string; g_alerts : list activeAlertRow }.

(** The map [bySystem] and the slice [order]. *)
Definition group_one (st : gmap string sysGroup * list string) (r : activeAlertRow)
    : gmap string sysGroup * list string :=
  let '(bySystem, order) := st in
  let '(g, order) := match bySystem !! a_SystemID r with
                     | Some g => (g, order)
                     | None => ({| g_name := a_SystemName r; g_alerts := [] |},
                                (order ++ [a_SystemID r])%list)
                     end in
  (<[a_SystemID r := {| g_name := g_name g; g_alerts := (g_alerts g ++ [r])%list |}]> bySystem,
   order).

(** [sort.SliceStable]: the one stable order, by insertion. *)
Fixpoint insert_stable {A} (less : A → A → bool) (x : A) (l : list A) : list A :=
  match l with
  | [] => [x]
  | y :: l' => if less x y then x :: l else y :: insert_stable less x l'
  end.
Definition SliceStable {A} (less : A → A → bool) (l : list A) : list A :=
  fold_left (λ acc x, insert_stable less x acc) l [].

Definition group_of (m : gmap string sysGroup) (id : string) : sysGroup :=
  default {| g_name := ""; g_alerts := [] |} (m !! id).

Definition less_name (m : gmap string sysGroup) (i j : string) : bool :=
  String.ltb (ToLower (g_name (group_of m i))) (ToLower (g_name (group_of m j))).

(** The groups in the order they are printed. *)
Definition groups (rows : list activeAlertRow) : list (string * sysGroup) :=
  let '(m, order) := fold_left group_one rows (∅, []) in
  (λ id, (id, group_of m id)) <$> SliceStable (less_name m) order.

Definition print_alert (gname : string) (a : activeAlertRow) : string :=
  "    - " ++ formatAlertLine a ++ nl ++
  (if String.eqb (a_AlertName a) "Temperature" then
     let hint := safeTempHint gname in
     if String.eqb hint "" then "" else "      (" ++ hint ++ ")" ++ nl
   else "").

Definition print_group (appURL : string) (ig : string * sysGroup) : string :=
  "• " ++ g_name ig.2 ++ nl ++
  String.concat "" (print_alert (g_name ig.2) <$> g_alerts ig.2) ++
  "    " ++ MakeLink appURL ["system"; ig.1] ++ nl ++ nl.

Definition formatDigestBody (appURL : string) (rows : list activeAlertRow) : string * bool :=
  let gs := groups rows in
  (pluralize (List.length gs) "system" "systems" ++ " with active alerts:" ++ nl ++ nl ++
   String.concat "" (print_group appURL <$> gs) ++
   "Open dashboard: " ++ MakeLink appURL [],
   existsb (λ ig, existsb (λ a, String.eqb (a_AlertName a) "Temperature") (g_alerts ig.2)) gs).

(** ** Scheduling *)

Section digest.
Context {DB : Type} {NDB : NotifyDB DB} {NDBL : NotifyDBLaws DB} {DDB : DigestDB DB}.
Context (decodeParams : string → BantayAlertParams.t → BantayAlertParams.t)
        (encodeParams : BantayAlertParams.t → string).
Context (env_recipient appURL : string) (sender : string * string).
(** Whether the mail server accepts the message at that time. *)
Context (delivered : wall → Message → bool).

Definition digest_mail (now : wall) (emails : list string) (rows : list activeAlertRow) : Message :=
  let '(body, hasTemp) := formatDigestBody appURL rows in
  let body := if hasTemp then body ++ nl ++ nl ++ temperatureReference else body in
  {| To_ := emails;
     Subject := "[" ++ w_stamp now ++ "] Daily Bantay digest — " ++
                pluralize (List.length rows) "active alert" "active alerts";
     Text := "Time: " ++ w_stamp now ++ nl ++ nl ++ body;
     From_ := sender |}.

(** The messages delivered, and whether an error is returned. *)
Definition sendDailyDigest (now : wall) (db : DB) : list Message * bool :=
  match activeAlerts db with
  | None => ([], true)
  | Some [] => ([], false)
  | Some rows =>
      match resolveGlobalRecipientEmails decodeParams env_recipient db with
      | [] => ([], false)
      | emails =>
          let m := digest_mail now emails rows in
          if delivered now m then ([m], false) else ([], true)
      end
  end.

Definition with_last_sent (p : BantayAlertParams.t) (d : string) : BantayAlertParams.t :=
  mk (AlertRecipientUserIds p) (AlertRecipientEmails p) (DailyDigestEnabled p)
     (DailyDigestHour p) d.

(** One tick of the scheduler. *)
Definition maybeSendDailyDigest (now : wall) (db : DB) : list Message * DB :=
  let params := LoadBantayAlertParams decodeParams db in
  if negb (DailyDigestEnabled params) then ([], db)
  else if negb (w_hour now =? DailyDigestHour params)%Z then ([], db)
  else if String.eqb (DailyDigestLastSent params) (w_date now) then ([], db)
  else
    let '(ms, err) := sendDailyDigest now db in
    if err then (ms, db)
    else (ms, default db (SaveBantayAlertParams encodeParams db (with_last_sent params (w_date now)))).

Fixpoint ticks (l : list wall) (db : DB) : list Message * DB :=
  match l with
  | [] => ([], db)
  | now :: l =>
      let '(ms, db) := maybeSendDailyDigest now db in
      let '(ms', db) := ticks l db in
      ((ms ++ ms')%list, db)
  end.

(** *** Properties *)

Section once.
Hypothesis codec : ∀ p0 q, decodeParams (encodeParams (normalize q)) p0 = normalize q.
Hypothesis encoded : ∀ q, encodeParams q ≠ "".
Hypothesis writes : ∀ db v, is_Some (writeParams db v).

Lemma save_load db p :
  LoadBantayAlertParams decodeParams (default db (SaveBantayAlertParams encodeParams db p)) =
  normalize p.
Proof.
  unfold SaveBantayAlertParams. destruct (writes db (encodeParams (normalize p))) as [db' Hw].
  rewrite Hw. simpl. unfold LoadBantayAlertParams. rewrite (writeParams_spec _ _ _ Hw).
  rewrite (proj2 (String.eqb_neq _ _) (encoded _)). by rewrite codec.
Qed.

Lemma done_today l db d :
  DailyDigestLastSent (LoadBantayAlertParams decodeParams db) = d →
  Forall (λ t, w_date t = d) l → ticks l db = ([], db).
Proof.
  intros Hd. induction 1 as [|t l Ht _ IH]; simpl; [done|].
  unfold maybeSendDailyDigest. rewrite Hd, Ht, String.eqb_refl.
  destruct (DailyDigestEnabled _), (w_hour t =? _)%Z; simpl; by rewrite IH.
Qed.

(** Over all the ticks of a day at most one digest is delivered; a failed delivery is
    retried at the next tick, a delivered one (or a day with nothing to say) is not. *)
Theorem digest_at_most_once l db d :
  Forall (λ t, w_date t = d) l → (List.length (ticks l db).1 <= 1)%nat.
Proof.
  intros Hl. induction Hl as [|t l Ht Hl IH]; simpl; [lia|].
  unfold maybeSendDailyDigest.
  destruct (DailyDigestEnabled _); simpl; [|by destruct (ticks l db)].
  destruct (w_hour t =? _)%Z; simpl; [|by destruct (ticks l db)].
  destruct (String.eqb _ _); [by destruct (ticks l db)|].
  assert (∀ ms, sendDailyDigest t db = (ms, true) → ms = []) as Herr.
  { unfold sendDailyDigest. intros ms. repeat case_match; by intros [= <-]. }
  assert (List.length (sendDailyDigest t db).1 ≤ 1)%nat as Hlen.
  { unfold sendDailyDigest. repeat case_match; simpl; lia. }
  destruct (sendDailyDigest t db) as [ms [|]] eqn:Hs.
  - rewrite (Herr ms eq_refl). by destruct (ticks l db).
  - rewrite done_today with (d := d); [simpl in *; rewrite app_nil_r; done| |done].
    rewrite save_load. simpl. done.
Qed.
End once.
End digest.

(** ** Grouping *)

(** What the loop has built from the rows read so far. *)
Definition grouped (rows : list activeAlertRow) (st : gmap string sysGroup * list string) : Prop :=
  NoDup st.2 ∧
  (∀ id, id ∈ st.2 ↔ is_Some (st.1 !! id)) ∧
  (∀ id, g_alerts (group_of st.1 id) = List.filter (λ r, String.eqb (a_SystemID r) id) rows).

Lemma group_one_grouped rows st r : grouped rows st → grouped (rows ++ [r]) (group_one st r).
Proof.
  destruct st as [m order]. intros (Hnd&Hin&Hal). unfold group_one. simpl in *.
  set (id := a_SystemID r).
  assert (∀ g o, g_alerts g = g_alerts (group_of m id) → NoDup o →
    (∀ k, k ∈ o ↔ k = id ∨ k ∈ order) →
    grouped (rows ++ [r])
      (<[id := {| g_name := g_name g; g_alerts := (g_alerts g ++ [r])%list |}]> m, o)) as Hgen.
  { intros g o Hg Ho Hk. split_and!; simpl; [done| |].
    - intros k. rewrite Hk, lookup_insert_is_Some, Hin.
      destruct (decide (id = k)); naive_solver.
    - intros k. unfold group_of. rewrite List.filter_app. simpl.
      destruct (String.eqb_spec id k) as [<-|Hne].
      + rewrite lookup_insert_eq. simpl. rewrite Hg, Hal. fold id. by rewrite String.eqb_refl.
      + rewrite lookup_insert_ne by done. fold id. rewrite (proj2 (String.eqb_neq _ _) Hne).
        rewrite app_nil_r. apply Hal. }
  destruct (m !! id) as [g|] eqn:Hm.
  - apply Hgen; [unfold group_of; by rewrite Hm|done|].
    intros k. split; [auto|]. intros [->|?]; [|done]. apply Hin. by rewrite Hm.
  - apply Hgen; [unfold group_of; by rewrite Hm| |].
    + apply NoDup_app. split_and!; [done| |apply NoDup_singleton].
      intros k Hk ->%list_elem_of_singleton. apply Hin in Hk as [? ?]. by rewrite Hm in *.
    + intros k. rewrite elem_of_app, list_elem_of_singleton. tauto.
Qed.

Lemma fold_grouped rows : grouped rows (fold_left group_one rows (∅, [])).
Proof.
  enough (∀ l rows st, grouped rows st → grouped (rows ++ l) (fold_left group_one l st)) as Hg.
  { apply (Hg rows []). split_and!; [constructor| |done].
    intros id. simpl. rewrite lookup_empty. split; [by intros ?%elem_of_nil|by intros [? ?]]. }
  induction l as [|r l IH]; intros rs st Hst; simpl; [by rewrite app_nil_r|].
  replace (rs ++ r :: l)%list with ((rs ++ [r]) ++ l)%list by (by rewrite <- app_assoc).
  by apply IH, group_one_grouped.
Qed.

Section sort.
Context {A : Type} (less : A → A → bool).
Abbreviation le x y := (less y x = false).

Lemma insert_stable_perm x l : insert_stable less x l ≡ₚ x :: l.
Proof.
  induction l as [|y l IH]; simpl; [done|]. destruct (less x y); [done|].
  rewrite IH. apply Permutation_swap.
Qed.

Lemma SliceStable_perm l : SliceStable less l ≡ₚ l.
Proof.
  unfold SliceStable. enough (∀ acc, fold_left (λ acc x, insert_stable less x acc) l acc ≡ₚ
    (acc ++ l)%list) as Hg by apply Hg.
  induction l as [|x l IH]; intros acc; simpl; [by rewrite app_nil_r|].
  rewrite IH, insert_stable_perm. by rewrite <- Permutation_middle.
Qed.

Hypothesis trans : ∀ x y z, le x y → le y z → le x z.
Hypothesis asym : ∀ x y, less x y = true → le x y.

Lemma insert_stable_sorted x l :
  StronglySorted (λ x y, le x y) l → StronglySorted (λ x y, le x y) (insert_stable less x l).
Proof.
  induction 1 as [|y l Hl IH Hy]; simpl; [by repeat constructor|].
  destruct (less x y) eqn:Hxy.
  - constructor; [by constructor|]. constructor; [by apply asym|].
    eapply Forall_impl; [exact Hy|]. intros z Hz. by eapply trans; [apply asym|].
  - constructor; [done|]. rewrite Forall_forall in *. intros z.
    rewrite insert_stable_perm, elem_of_cons. intros [->|?]; auto.
Qed.

Lemma SliceStable_sorted l : StronglySorted (λ x y, le x y) (SliceStable less l).
Proof.
  unfold SliceStable.
  apply (fold_left_inv _ (StronglySorted (λ x y, le x y))); [constructor|].
  intros acc x _. apply insert_stable_sorted.
Qed.
End sort.

Lemma ltb_lt s t : String.ltb s t = true ↔ String.compare s t = Lt.
Proof. unfold String.ltb. by destruct (String.compare s t). Qed.

Lemma ltb_asym s t : String.ltb s t = true → String.ltb t s = false.
Proof.
  rewrite ltb_lt. intros Hl. unfold String.ltb. rewrite String.compare_antisym, Hl. done.
Qed.

Lemma ascii_compare_Lt a b : Ascii.compare a b = Lt ↔ (N_of_ascii a < N_of_ascii b)%N.
Proof. unfold Ascii.compare. apply N.compare_lt_iff. Qed.

Lemma ltb_ge_trans s t u : String.ltb t s = false → String.ltb u t = false → String.ltb u s = false.
Proof.
  revert t u. induction s as [|a s IH]; intros t u; [by destruct u|].
  destruct t as [|b t]; [done|]. destruct u as [|c u]; [done|].
  specialize (IH t u). unfold String.ltb in *. simpl. unfold Ascii.compare.
  destruct (N.compare_spec (N_of_ascii b) (N_of_ascii a)),
    (N.compare_spec (N_of_ascii c) (N_of_ascii b)),
    (N.compare_spec (N_of_ascii c) (N_of_ascii a)); intros; done || lia || auto.
Qed.

(** The digest shows every triggered alert exactly once, under its own system, each system
    once, in the case-insensitive order of the systems' names. *)
Theorem digest_groups rows :
  let gs := groups rows in
  NoDup gs.*1 ∧
  Forall (λ ig, g_alerts ig.2 = List.filter (λ r, String.eqb (a_SystemID r) ig.1) rows) gs ∧
  (∀ r, r ∈ rows → a_SystemID r ∈ gs.*1) ∧
  StronglySorted (λ x y, String.ltb (ToLower (g_name y.2)) (ToLower (g_name x.2)) = false) gs.
Proof.
  intros gs. unfold gs, groups. destruct (fold_grouped rows) as (Hnd&Hin&Hal).
  destruct (fold_left group_one rows (∅, [])) as [m order]. simpl in *.
  set (l := SliceStable (less_name m) order).
  assert (((λ id, (id, group_of m id)) <$> l).*1 = l) as Hfst.
  { rewrite <- list_fmap_compose. apply list_fmap_id. }
  rewrite Hfst. unfold l. split_and!.
  - by rewrite SliceStable_perm.
  - apply Forall_fmap, Forall_forall. intros id _. apply Hal.
  - intros r Hr. rewrite SliceStable_perm. apply Hin.
    destruct (m !! a_SystemID r) eqn:Hm; [by eexists|]. exfalso.
    pose proof (Hal (a_SystemID r)) as Hf. unfold group_of in Hf. rewrite Hm in Hf. simpl in Hf.
    assert (r ∈ List.filter (λ r0, String.eqb (a_SystemID r0) (a_SystemID r)) rows) as Hc.
    { apply list_elem_of_In, filter_In. split; [by apply list_elem_of_In|].
      apply String.eqb_refl. }
    rewrite <- Hf in Hc. by apply elem_of_nil in Hc.
  - apply (StronglySorted_fmap _ (λ x y, less_name m y x = false)); [done|].
    apply SliceStable_sorted; unfold less_name.
    + intros x y z. apply ltb_ge_trans.
    + intros x y. apply ltb_asym.
Qed.

(** ** Witnesses *)

Definition drow (sys name alert : string) : activeAlertRow := {|
  a_SystemID := sys; a_SystemName := name; a_AlertName := alert; a_Threshold := f64_of_Z 80 |}.

#[export] Instance note_db_digest : DigestDB note_db := {|
  activeAlerts _ := Some [drow "s2" "Zeta" "CPU"; drow "s1" "alpha" "Temperature";
                          drow "s2" "Zeta" "Status"] |}.

(** Digests at seven, to one address. *)
Definition ddb : note_db := {|
  nd_quiet := [];
  nd_params := Some (bin_encode (mk (Some []) (Some ["ops@hub.lan"]) true 7 "")) |}.

Definition seven : wall := {| w_hour := 7; w_date := "2026-01-02"; w_stamp := "2026-01-02 07:00:00 UTC" |}.

Lemma digest_at_most_once_witness :
  List.length (ticks bin_decode bin_encode "" "http://hub" ("", "") (λ _ _, true)
    [seven; seven; seven] ddb).1 = 1%nat ∧
  (List.length (ticks bin_decode bin_encode "" "http://hub" ("", "") (λ _ _, true)
    [seven; seven; seven] ddb).1 <= 1)%nat.
Proof.
  split; [vm_compute; reflexivity|].
  apply (digest_at_most_once bin_decode bin_encode "" "http://hub" ("", "") (λ _ _, true)) with "2026-01-02".
  - intros p0 q. unfold bin_decode, bin_encode. by rewrite of_bits_of, decode_encode.
  - intros q. unfold bin_encode. by destruct (encode q).
  - intros db v. by eexists.
  - by repeat constructor.
Defined.

Example digest_groups_ex :
  (groups [drow "s2" "Zeta" "CPU"; drow "s1" "alpha" "Temperature"; drow "s2" "Zeta" "Status"]).*1 =
  ["s1"; "s2"].
Proof. vm_compute. reflexivity. Qed.

(** With no global recipient configured nothing is sent, to anybody, and the day still counts
    as done. *)
Example digest_without_recipients :
  let db := {| nd_quiet := []; nd_params := Some (bin_encode (mk (Some []) None true 7 "")) |} in
  let '(ms, db') := maybeSendDailyDigest bin_decode bin_encode "" "http://hub" ("", "")
                      (λ _ _, true) seven db in
  ms = [] ∧ DailyDigestLastSent (LoadBantayAlertParams bin_decode db') = "2026-01-02".
Proof. vm_compute. done. Qed.
End Digest.
