(* ===== verification/AlertsAPI.v ===== *)
(** * Alert requests of users ([internal/alerts/alerts_api.go])

    The two handlers that create, change and delete the alerts of a user over
    several systems.  Each runs in one transaction: an error leaves the
    database as it was, and the record hooks (cache and history, [AlertStore])
    run once it is committed, in the order of the writes. *)

From S2P Require Import Prelude GoFloat AlertStore.

(** Queries of the handlers.  A lookup distinguishes an error ([None]) from no row
    ([Some None]); a new record gets an id that is not in use. *)
Class UserAlertsDB (DB : Type) `{AlertsDB DB} := {
  findUserAlert : DB → string → string → string → option (option AlertRecord);
  newAlertId : DB → string;
}.

Class UserAlertsDBLaws (DB : Type) `{UserAlertsDB DB} := {
  findUserAlert_some : ∀ d sys name user r, findUserAlert d sys name user = Some (Some r) →
    alerts d !! ar_id r = Some r ∧ ar_system r = sys ∧ ar_name r = name ∧ ar_user r = user;
  findUserAlert_none : ∀ d sys name user, findUserAlert d sys name user = Some None →
    ∀ id r, alerts d !! id = Some r → ¬ (ar_system r = sys ∧ ar_name r = name ∧ ar_user r = user);
  newAlertId_fresh : ∀ d, alerts d !! newAlertId d = None;
}.

Module AlertsAPI.
Import AlertStore.

(** The body of the upsert request. *)
Record UpsertRequest := {
  u_min : Z;
  u_value : f64;
  u_name : string;
  u_systems : list string;
  u_overwrite : bool;
}.

Inductive response := BadRequest | InternalError | Success (count : Z).

(** A committed write, with the record before it. *)
Inductive write :=
| WCreate (r : AlertRecord)
| WUpdate (original r : AlertRecord)
| WDelete (r : AlertRecord).

Section api.
Context {DB : Type} {ADB : AlertsDB DB} {ADBL : AlertsDBLaws DB}.
Context {UDB : UserAlertsDB DB} {UDBL : UserAlertsDBLaws DB}.
Context {M : Type → Type} {KV : KVStore M} {KVL : KVStoreLaws M} {RO : RangeOrder string}.

Definition with_limits (r : AlertRecord) (value : f64) (min : Z) : AlertRecord := {|
  ar_id := ar_id r; ar_system := ar_system r; ar_user := ar_user r; ar_name := ar_name r;
  ar_value := value; ar_triggered := ar_triggered r; ar_min := min |}.

(** One system of the request, inside the transaction. *)
Definition upsert_one (userID : string) (req : UpsertRequest) (d : DB) (systemId : string)
    : option (DB * list write) :=
  match findUserAlert d systemId (u_name req) userID with
  | None => None
  | Some found =>
      match found with
      | Some r =>
          if negb (u_overwrite req) then Some (d, [])
          else
            let r' := with_limits r (u_value req) (u_min req) in
            d' ← saveAlert d r'; Some (d', [WUpdate r r'])
      | None =>
          let r' := {| ar_id := newAlertId d; ar_system := systemId; ar_user := userID;
                       ar_name := u_name req; ar_value := u_value req; ar_triggered := false;
                       ar_min := u_min req |} in
          d' ← saveAlert d r'; Some (d', [WCreate r'])
      end
  end.

Definition delete_one (userID name : string) (d : DB) (systemId : string)
    : option (DB * list write) :=
  match findUserAlert d systemId name userID with
  | None => None
  | Some None => Some (d, [])
  | Some (Some r) => d' ← deleteAlert d (ar_id r); Some (d', [WDelete r])
  end.

(** The loop of a transaction. *)
Fixpoint txn (f : DB → string → option (DB * list write)) (l : list string) (d : DB)
    : option (DB * list write) :=
  match l with
  | [] => Some (d, [])
  | s :: l =>
      '(d1, w1) ← f d s;
      '(d2, w2) ← txn f l d1;
      Some (d2, (w1 ++ w2)%list)
  end.

(** The hooks of a committed write. *)
Definition run_hook (now : Z) (h : Hub (DB := DB) (M := M)) (w : write) : Hub :=
  match w with
  | WCreate r => {| db := db h; cache := Update (cache h) r |}
  | WUpdate r0 r => {| db := updateHistoryOnAlertUpdate now (db h) r0 r;
                       cache := Update (cache h) r |}
  | WDelete r => {| db := resolveHistoryOnAlertDelete now (db h) r; cache := Delete (cache h) r |}
  end.

Definition commit (now : Z) (h : Hub (DB := DB) (M := M)) (d : DB) (ws : list write) : Hub :=
  fold_left (run_hook now) ws {| db := d; cache := cache h |}.

Definition UpsertUserAlerts (now : Z) (h : Hub (DB := DB) (M := M)) (userID : string)
    (body : option UpsertRequest) : Hub * response :=
  match body with
  | None => (h, BadRequest)
  | Some req =>
      if String.eqb userID "" || String.eqb (u_name req) "" || bool_decide (u_systems req = [])
      then (h, BadRequest)
      else match txn (upsert_one userID req) (u_systems req) (db h) with
           | None => (h, InternalError)
           | Some (d, ws) => (commit now h d ws, Success 0)
           end
  end.

(** [numDeleted] is a [uint16]. *)
Definition DeleteUserAlerts (now : Z) (h : Hub (DB := DB) (M := M)) (userID : string)
    (body : option (string * list string)) : Hub * response :=
  match body with
  | None => (h, BadRequest)
  | Some (name, systems) =>
      if String.eqb userID "" || String.eqb name "" || bool_decide (systems = [])
      then (h, BadRequest)
      else match txn (delete_one userID name) systems (db h) with
           | None => (h, InternalError)
           | Some (d, ws) => (commit now h d ws, Success (u16 (Z.of_nat (length ws))))
           end
  end.

(** ** The hooks after a commit *)

Definition cache_after (c : AlertsCache (M := M)) (ws : list write) : AlertsCache :=
  fold_left (λ c w, match w with
                    | WCreate r | WUpdate _ r => Update c r
                    | WDelete r => Delete c r
                    end) ws c.

Lemma commit_spec now h d ws :
  cache (commit now h d ws) = cache_after (cache h) ws ∧
  alerts (db (commit now h d ws)) = alerts d.
Proof.
  unfold commit, cache_after. set (h1 := {| db := d; cache := cache h |}).
  change (cache h) with (cache h1). change (alerts d) with (alerts (db h1)). clearbody h1.
  revert h1. induction ws as [|w ws IH]; intros h1; [done|]. simpl.
  destruct (IH (run_hook now h1 w)) as [-> ->]. split; [by destruct w|].
  destruct w; simpl; [done|apply updateHistory_alerts|].
  unfold resolveHistoryOnAlertDelete. destruct (ar_triggered r); [|done].
  apply resolveHistory_alerts.
Qed.

(** A step that keeps the cache in sync keeps it over the whole transaction. *)
Definition keeps_sync (f : DB → string → option (DB * list write)) : Prop :=
  ∀ c d s d' ws, synced c d → f d s = Some (d', ws) → synced (cache_after c ws) d'.

Lemma txn_sync f l c d d' ws :
  keeps_sync f → synced c d → txn f l d = Some (d', ws) → synced (cache_after c ws) d'.
Proof.
  intros Hf. revert c d d' ws. induction l as [|s l IH]; intros c d d' ws Hs; simpl.
  { by intros [= <- <-]. }
  intros ([d1 w1]&H1&([d2 w2]&H2&[= <- <-])%bind_Some)%bind_Some.
  unfold cache_after. rewrite fold_left_app. eapply (IH _ d1); [|done]. by eapply Hf.
Qed.

Lemma upsert_sync userID req : keeps_sync (upsert_one userID req).
Proof.
  intros c d s d' ws Hs. unfold upsert_one.
  destruct (findUserAlert _ _ _ _) as [[r|]|] eqn:Hf; [| |done].
  - destruct (negb _); [by intros [= <- <-]|].
    apply findUserAlert_some in Hf as (Hr&_). intros (d1&Hd&[= <- <-])%bind_Some.
    apply saveAlert_spec in Hd as [Hd _]. simpl.
    eapply synced_Update; [done|done|]. simpl. intros r0 ?. by simplify_eq.
  - intros (d1&Hd&[= <- <-])%bind_Some. apply saveAlert_spec in Hd as [Hd _]. simpl.
    eapply synced_Update; [done|done|]. simpl. by rewrite newAlertId_fresh.
Qed.

Lemma delete_sync userID name : keeps_sync (delete_one userID name).
Proof.
  intros c d s d' ws Hs. unfold delete_one.
  destruct (findUserAlert _ _ _ _) as [[r|]|] eqn:Hf; [|by intros [= <- <-]|done].
  apply findUserAlert_some in Hf as (Hr&_). intros (d1&Hd&[= <- <-])%bind_Some.
  apply deleteAlert_spec in Hd as [Hd _]. simpl. by eapply synced_Delete.
Qed.

(** ** Upserts *)

(** The alert is one the request is about. *)
Definition requested (userID name : string) (systems : list string) (r : AlertRecord) : Prop :=
  ar_user r = userID ∧ ar_name r = name ∧ ar_system r ∈ systems.

(** What a step may do to the alerts that exist. *)
Definition upsert_frame (userID : string) (req : UpsertRequest) (systems : list string)
    (d d' : DB) : Prop :=
  ∀ id r, alerts d !! id = Some r → ∃ r', alerts d' !! id = Some r' ∧
    (r' = r ∨ u_overwrite req = true ∧ requested userID (u_name req) systems r ∧
              r' = with_limits r (u_value req) (u_min req)).

(** The system has the alert, with the requested limits if they are to be written. *)
Definition upserted (userID : string) (req : UpsertRequest) (d : DB) (s : string) : Prop :=
  ∃ id r, alerts d !! id = Some r ∧ requested userID (u_name req) [s] r ∧
    (u_overwrite req = true → ar_value r = u_value req ∧ ar_min r = u_min req).

Lemma upsert_one_spec userID req d s d' ws :
  upsert_one userID req d s = Some (d', ws) →
  upsert_frame userID req [s] d d' ∧ upserted userID req d' s.
Proof.
  unfold upsert_one. destruct (findUserAlert _ _ _ _) as [[r|]|] eqn:Hf; [| |done].
  - apply findUserAlert_some in Hf as (Hr&Hs&Hn&Hu).
    assert (requested userID (u_name req) [s] r) as Hreq.
    { split_and!; [done..|]. by apply list_elem_of_singleton. }
    destruct (u_overwrite req) eqn:Ho; simpl.
    + intros (d1&Hd&[= <- <-])%bind_Some. apply saveAlert_spec in Hd as [Hd _]. simpl in Hd. split.
      * intros id r0 Hr0. rewrite Hd. destruct (decide (id = ar_id r)) as [->|Hne].
        -- simplify_eq. rewrite lookup_insert_eq. eauto 10.
        -- rewrite lookup_insert_ne by done. eauto.
      * exists (ar_id r), (with_limits r (u_value req) (u_min req)).
        rewrite Hd, lookup_insert_eq. done.
    + intros [= <- <-]. split; [by intros id r0 ?; eauto|].
      exists (ar_id r), r. by rewrite Ho.
  - intros (d1&Hd&[= <- <-])%bind_Some. apply saveAlert_spec in Hd as [Hd _]. simpl in Hd. split.
    + intros id r0 Hr0. rewrite Hd. rewrite lookup_insert_ne; [by eauto|].
      intros <-. by rewrite newAlertId_fresh in Hr0.
    + eexists _, _. rewrite Hd, lookup_insert_eq. split_and!; [done| |done].
      split_and!; simpl; [done..|]. by apply list_elem_of_singleton.
Qed.

Lemma upsert_frame_trans userID req l1 l2 d1 d2 d3 :
  upsert_frame userID req l1 d1 d2 → upsert_frame userID req l2 d2 d3 →
  upsert_frame userID req (l1 ++ l2) d1 d3.
Proof.
  intros H1 H2 id r Hr. destruct (H1 id r Hr) as (r1&Hr1&Hc1).
  destruct (H2 id r1 Hr1) as (r2&Hr2&Hc2). exists r2. split; [done|].
  unfold requested in *.
  destruct Hc1 as [->|(Ho&(?&?&?)&->)].
  - destruct Hc2 as [->|(?&(?&?&?)&->)]; [by left|right].
    split_and!; [done..| |done]. apply elem_of_app. by right.
  - right. split_and!; [done..|apply elem_of_app; by left|].
    by destruct Hc2 as [->|(?&_&->)].
Qed.

Lemma upserted_frame userID req l d d' s :
  upserted userID req d s → upsert_frame userID req l d d' → upserted userID req d' s.
Proof.
  intros (id&r&Hr&Hreq&Hv) Hfr. destruct (Hfr id r Hr) as (r'&Hr'&Hc). exists id, r'.
  split; [done|]. destruct Hc as [->|(?&_&->)]; [done|]. done.
Qed.

Lemma upsert_txn userID req l d d' ws :
  txn (upsert_one userID req) l d = Some (d', ws) →
  upsert_frame userID req l d d' ∧ ∀ s, s ∈ l → upserted userID req d' s.
Proof.
  revert d ws. induction l as [|s l IH]; intros d ws; simpl.
  { intros [= <- <-]. split; [by intros ???; eauto|]. by intros ? ?%elem_of_nil. }
  intros ([d1 w1]&H1&([d2 w2]&H2&[= <- <-])%bind_Some)%bind_Some.
  apply upsert_one_spec in H1 as [Hf1 Hu1]. destruct (IH _ _ H2) as [Hf2 Hu2].
  split; [by apply (upsert_frame_trans _ _ [s] l _ d1)|].
  intros s' [->|?]%elem_of_cons; [by eapply upserted_frame|auto].
Qed.

(** After a successful upsert every requested system has the alert of the user (with the
    new limits when overwriting), no other alert has changed, none is lost, triggered flags
    are kept, and the cache still shows the database. *)
Theorem UpsertUserAlerts_spec now h userID req h' n :
  synced (cache h) (db h) →
  UpsertUserAlerts now h userID (Some req) = (h', Success n) →
  synced (cache h') (db h') ∧
  (∀ s, s ∈ u_systems req → upserted userID req (db h') s) ∧
  upsert_frame userID req (u_systems req) (db h) (db h').
Proof.
  intros Hs. unfold UpsertUserAlerts. destruct (_ || _); [done|].
  destruct (txn _ _ _) as [[d ws]|] eqn:Ht; [|done]. intros [= <- _].
  destruct (commit_spec now h d ws) as [Hc Hd].
  destruct (upsert_txn _ _ _ _ _ _ Ht) as [Hf Hu]. split_and!.
  - rewrite Hc. eapply synced_alerts; [|exact Hd]. eapply txn_sync; [apply upsert_sync|done..].
  - intros s. unfold upserted. rewrite Hd. apply Hu.
  - unfold upsert_frame. rewrite Hd. apply Hf.
Qed.

(** ** Deletions *)

(** The unique index of the table: one alert per user, system and name. *)
Definition unique_alerts (d : DB) : Prop :=
  ∀ id r id' r', alerts d !! id = Some r → alerts d !! id' = Some r' →
    ar_user r = ar_user r' → ar_system r = ar_system r' → ar_name r = ar_name r' → id = id'.

Lemma delete_one_spec userID name d s d' ws :
  unique_alerts d → delete_one userID name d s = Some (d', ws) →
  (∀ id r, alerts d' !! id = Some r ↔ alerts d !! id = Some r ∧ ¬ requested userID name [s] r) ∧
  (size (alerts d) = length ws + size (alerts d'))%nat.
Proof.
  intros Hun. unfold delete_one, requested. setoid_rewrite list_elem_of_singleton.
  destruct (findUserAlert _ _ _ _) as [[r|]|] eqn:Hf; [| |done].
  - apply findUserAlert_some in Hf as (Hr&Hs&Hn&Hu).
    intros (d1&Hd&[= <- <-])%bind_Some. apply deleteAlert_spec in Hd as [Hd _].
    rewrite Hd. split.
    + intros id r'. rewrite lookup_delete_Some. split.
      * intros [Hne Hr']. split; [done|]. intros (?&?&?). apply Hne.
        apply (Hun _ r _ r'); congruence.
      * intros [Hr' Hno]. split; [|done]. intros <-. apply Hno. by simplify_eq.
    + simpl. rewrite map_size_delete, Hr.
      assert (size (alerts d) ≠ 0); [|simpl; lia].
      apply (map_size_ne_0_lookup_2 _ (ar_id r)). by eexists.
  - intros [= <- <-]. pose proof (findUserAlert_none _ _ _ _ Hf) as Hno. split; [|done].
    intros id r. split; [|tauto]. intros Hr. split; [done|]. intros (?&?&?).
    by apply (Hno id r Hr).
Qed.

Lemma delete_txn userID name l d d' ws :
  unique_alerts d → txn (delete_one userID name) l d = Some (d', ws) →
  (∀ id r, alerts d' !! id = Some r ↔ alerts d !! id = Some r ∧ ¬ requested userID name l r) ∧
  (size (alerts d) = length ws + size (alerts d'))%nat.
Proof.
  revert d ws. induction l as [|s l IH]; intros d ws Hun; simpl.
  { intros [= <- <-]. split; [|done]. intros id r. split; [|tauto].
    intros Hr. split; [done|]. intros (_&_&Hin). by apply elem_of_nil in Hin. }
  intros ([d1 w1]&H1&([d2 w2]&H2&[= <- <-])%bind_Some)%bind_Some.
  destruct (delete_one_spec _ _ _ _ _ _ Hun H1) as [Hd1 Hn1].
  assert (unique_alerts d1) as Hun1.
  { intros id r id' r' [Hr _]%Hd1 [Hr' _]%Hd1. by apply Hun. }
  destruct (IH _ _ Hun1 H2) as [Hd2 Hn2]. split; [|rewrite length_app; lia].
  intros id r. rewrite Hd2, Hd1. unfold requested.
  setoid_rewrite elem_of_cons. setoid_rewrite elem_of_nil. tauto.
Qed.

(** A successful deletion removes exactly the user's alerts of that name on the requested
    systems, reports how many it removed, and leaves the cache in sync. *)
Theorem DeleteUserAlerts_spec now h userID name systems h' n :
  synced (cache h) (db h) → unique_alerts (db h) →
  DeleteUserAlerts now h userID (Some (name, systems)) = (h', Success n) →
  synced (cache h') (db h') ∧
  (∀ id r, alerts (db h') !! id = Some r ↔
     alerts (db h) !! id = Some r ∧ ¬ requested userID name systems r) ∧
  n = u16 (Z.of_nat (size (alerts (db h))) - Z.of_nat (size (alerts (db h')))).
Proof.
  intros Hs Hun. unfold DeleteUserAlerts. destruct (_ || _); [done|].
  destruct (txn _ _ _) as [[d ws]|] eqn:Ht; [|done]. intros [= <- <-].
  destruct (commit_spec now h d ws) as [Hc Hd].
  destruct (delete_txn _ _ _ _ _ _ Hun Ht) as [Hdel Hn]. split_and!.
  - rewrite Hc. eapply synced_alerts; [|exact Hd]. eapply txn_sync; [apply delete_sync|done..].
  - intros id r. rewrite Hd. apply Hdel.
  - rewrite Hd. f_equal. lia.
Qed.
End api.

(** ** Witnesses *)

#[export] Instance mem_db_users : UserAlertsDB mem_db := {|
  findUserAlert d sys name user :=
    Some (snd <$> List.find (λ kr : string * AlertRecord,
      bool_decide (ar_system kr.2 = sys ∧ ar_name kr.2 = name ∧ ar_user kr.2 = user))
      (map_to_list (keyed d)));
  newAlertId d := fresh (dom (m_alerts d));
|}.

#[export] Instance mem_db_users_laws : UserAlertsDBLaws mem_db.
Proof.
  split.
  - intros d sys name user r [= Hf]. apply fmap_Some in Hf as ([k r']&Hf&->).
    apply List.find_some in Hf as [Hin%list_elem_of_In%elem_of_map_to_list Hb].
    apply bool_decide_eq_true in Hb. simpl in *.
    assert (ar_id r' = k) as ->; [|tauto]. by apply map_lookup_filter_Some in Hin as [_ ?].
  - intros d sys name user [= Hf%fmap_None] id r Hr Hreq.
    eapply List.find_none in Hf; [|apply list_elem_of_In, elem_of_map_to_list; exact Hr].
    by apply bool_decide_eq_false in Hf.
  - intros d. simpl. unfold keyed. apply map_lookup_filter_None. left.
    apply not_elem_of_dom, is_fresh.
Qed.

Definition req1 : UpsertRequest := {|
  u_min := 5; u_value := f64_of_Z 70; u_name := "CPU"; u_systems := ["s1"; "s3"];
  u_overwrite := true |}.

Definition hub_up : Hub (DB := mem_db) (M := gmap string) :=
  (UpsertUserAlerts 0 hub1 "u1" (Some req1)).1.

Lemma UpsertUserAlerts_spec_witness :
  synced (cache hub_up) (db hub_up) ∧ upserted "u1" req1 (db hub_up) "s3".
Proof.
  destruct (UpsertUserAlerts_spec 0 hub1 "u1" req1 hub_up 0 cache1_synced) as (Hs&Hu&_).
  - vm_compute. reflexivity.
  - split; [exact Hs|]. apply Hu. apply elem_of_cons. right. by apply elem_of_cons; left.
Defined.

Definition hub_del : Hub (DB := mem_db) (M := gmap string) :=
  (DeleteUserAlerts 0 hub1 "u1" (Some ("CPU", ["s1"]))).1.

Lemma hub1_unique : unique_alerts (db hub1).
Proof.
  intros id r id' r' Hr Hr'. simpl in *. unfold keyed in *.
  apply map_lookup_filter_Some in Hr as [Hr _], Hr' as [Hr' _]. simpl in *.
  apply lookup_insert_Some in Hr as [[<- <-]|[_ Hr]], Hr' as [[<- <-]|[_ Hr']];
    try apply lookup_singleton_Some in Hr as [<- <-];
    try apply lookup_singleton_Some in Hr' as [<- <-]; done.
Qed.

Lemma DeleteUserAlerts_spec_witness :
  alerts (db hub_del) !! "a1" = None ∧ size (alerts (db hub_del)) = 1%nat.
Proof.
  destruct (DeleteUserAlerts_spec 0 hub1 "u1" "CPU" ["s1"] hub_del 1 cache1_synced hub1_unique)
    as (_&Hd&_).
  - vm_compute. reflexivity.
  - split; [|vm_compute; reflexivity].
    destruct (alerts (db hub_del) !! "a1") as [r|] eqn:Hr; [|done]. exfalso.
    apply Hd in Hr as [Hr Hno]. apply Hno. vm_compute in Hr. injection Hr as <-.
    split_and!; [done..|]. by apply elem_of_cons; left.
Defined.
End AlertsAPI.
