(* ===== verification/RequestManager.v ===== *)
(** * Requests to an agent ([internal/hub/ws/request_manager.go], [ws.go])

    The hub talks to a connected agent over one WebSocket; requests are
    numbered and answered in any order.  The requests live in a heap, since the
    map [pendingReqs], the goroutine of the sender, the watcher of the context
    and the reader of the socket share them; each critical section of the code
    is one step, so the steps interleave as the goroutines may.

    The socket and the CBOR decoder are third-party: whether a write succeeds is
    an argument, and [response_id] gives the id found in a message ([None] for a
    message that does not decode or carries none). *)

From S2P Require Import Prelude.

Module RequestManager.
Section manager.
Context {Msg : Type} (response_id : Msg → option Z).
Context {RO : RangeOrder Z}.
Local Open Scope Z_scope.

(** A request; the channel has room for one message. *)
Record PendingRequest := {
  ID : Z;
  ResponseCh : list Msg;
  Done : bool;                 (* the context is over *)
  Deadline : Z;
  CreatedAt : Z;
}.

(** A goroutine of [handleResponse] between the lookup and its end. *)
Inductive handler :=
| Selecting (m : Msg) (p : nat) (id : Z)   (* in the [select] *)
| Delivered (id : Z).                      (* before [deleteRequest(id)] *)

Record RequestManager := {
  heap : gmap nat PendingRequest;
  pendingReqs : gmap Z nat;
  nextID : Z;                            (* [atomic.Uint32] *)
  conn : bool;                           (* [conn != nil] *)
  handlers : list handler;
  arrived : list Msg;                    (* messages read from the socket *)
  closed : list Msg;                     (* messages released *)
  inbox : list (nat * Msg);              (* messages put on a request's channel *)
}.

Definition NewRequestManager (c : bool) : RequestManager := {|
  heap := ∅; pendingReqs := ∅; nextID := 0; conn := c; handlers := []; arrived := [];
  closed := []; inbox := [] |}.

Definition upd_heap (rm : RequestManager) (h : gmap nat PendingRequest) : RequestManager := {|
  heap := h; pendingReqs := pendingReqs rm; nextID := nextID rm; conn := conn rm;
  handlers := handlers rm; arrived := arrived rm; closed := closed rm; inbox := inbox rm |}.
Definition upd_pending (rm : RequestManager) (m : gmap Z nat) : RequestManager := {|
  heap := heap rm; pendingReqs := m; nextID := nextID rm; conn := conn rm;
  handlers := handlers rm; arrived := arrived rm; closed := closed rm; inbox := inbox rm |}.
Definition upd_handlers (rm : RequestManager) (hs : list handler) : RequestManager := {|
  heap := heap rm; pendingReqs := pendingReqs rm; nextID := nextID rm; conn := conn rm;
  handlers := hs; arrived := arrived rm; closed := closed rm; inbox := inbox rm |}.
Definition Close_message (rm : RequestManager) (m : Msg) : RequestManager := {|
  heap := heap rm; pendingReqs := pendingReqs rm; nextID := nextID rm; conn := conn rm;
  handlers := handlers rm; arrived := arrived rm; closed := (closed rm ++ [m])%list;
  inbox := inbox rm |}.

(** [req.Cancel()] *)
Definition cancel (r : PendingRequest) : PendingRequest := {|
  ID := ID r; ResponseCh := ResponseCh r; Done := true; Deadline := Deadline r;
  CreatedAt := CreatedAt r |}.

Definition cancelRequest (rm : RequestManager) (reqID : Z) : RequestManager :=
  match pendingReqs rm !! reqID with
  | None => rm
  | Some p =>
      upd_pending (upd_heap rm (alter cancel p (heap rm))) (delete reqID (pendingReqs rm))
  end.

Definition deleteRequest (rm : RequestManager) (reqID : Z) : RequestManager :=
  upd_pending rm (delete reqID (pendingReqs rm)).

(** [nil] connections refuse; [ok] is the outcome of encoding and writing. *)
Definition sendMessage (rm : RequestManager) (ok : bool) : bool := conn rm && ok.

(** The first critical section: a fresh number, a fresh request, its entry. *)
Definition register (rm : RequestManager) (now : Z) (deadline : option Z)
    : RequestManager * nat * Z :=
  let reqID := u32 (nextID rm + 1) in
  let p := fresh (dom (heap rm)) in
  let req := {| ID := reqID; ResponseCh := []; Done := false;
                Deadline := default (now + 5 * Second) deadline; CreatedAt := now |} in
  ({| heap := <[p := req]> (heap rm); pendingReqs := <[reqID := p]> (pendingReqs rm);
      nextID := reqID; conn := conn rm; handlers := handlers rm; arrived := arrived rm;
      closed := closed rm; inbox := inbox rm |}, p, reqID).

(** [SendRequest]: the request handle, or [None] when the message could not be sent. *)
Definition SendRequest (rm : RequestManager) (now : Z) (deadline : option Z) (ok : bool)
    : RequestManager * option nat :=
  let '(rm, p, reqID) := register rm now deadline in
  if sendMessage rm ok then (rm, Some p) else (cancelRequest rm reqID, None).

(** The oldest pending request, by [CreatedAt]. *)
Definition oldest (rm : RequestManager) : option nat :=
  fold_left (λ acc '(_, p),
      match acc with
      | None => Some p
      | Some q =>
          match heap rm !! p, heap rm !! q with
          | Some rp, Some rq => if CreatedAt rp <? CreatedAt rq then Some p else acc
          | _, _ => acc
          end
      end)
    (range_list (pendingReqs rm)) None.

(** The request a message is meant for, and the id that will be deleted. *)
Definition route (rm : RequestManager) (m : Msg) : option (nat * Z) :=
  match response_id m with
  | Some i => p ← pendingReqs rm !! i; Some (p, i)
  | None => p ← oldest rm; r ← heap rm !! p; Some (p, ID r)
  end.

(** [handleResponse] and [routeLegacyResponse] up to their [select]. *)
Definition handleResponse (rm : RequestManager) (m : Msg) : RequestManager :=
  let rm := {| heap := heap rm; pendingReqs := pendingReqs rm; nextID := nextID rm;
               conn := conn rm; handlers := handlers rm; arrived := (arrived rm ++ [m])%list;
               closed := closed rm; inbox := inbox rm |} in
  match route rm m with
  | None => Close_message rm m
  | Some (p, id) => upd_handlers rm (Selecting m p id :: handlers rm)
  end.

(** The two branches of the [select]. *)
Definition push (m : Msg) (r : PendingRequest) : PendingRequest := {|
  ID := ID r; ResponseCh := (ResponseCh r ++ [m])%list; Done := Done r; Deadline := Deadline r;
  CreatedAt := CreatedAt r |}.
Definition pop (r : PendingRequest) : PendingRequest := {|
  ID := ID r; ResponseCh := tail (ResponseCh r); Done := Done r; Deadline := Deadline r;
  CreatedAt := CreatedAt r |}.

Definition deliver (rm : RequestManager) (m : Msg) (p : nat) (id : Z) (rest : list handler)
    : RequestManager := {|
  heap := alter (push m) p (heap rm); pendingReqs := pendingReqs rm; nextID := nextID rm;
  conn := conn rm; handlers := Delivered id :: rest; arrived := arrived rm;
  closed := closed rm; inbox := (inbox rm ++ [(p, m)])%list |}.

(** [Close] cancels every pending request. *)
Definition Close (rm : RequestManager) : RequestManager :=
  upd_pending
    (upd_heap rm (fold_left (λ h '(_, p), alter cancel p h) (range_list (pendingReqs rm)) (heap rm)))
    ∅.

(** ** Interleavings *)

Inductive step : RequestManager → RequestManager → Prop :=
| step_send rm now deadline ok :
    step rm (SendRequest rm now deadline ok).1
| step_register rm now deadline :             (* sent, answered before [SendRequest] returns *)
    step rm (register rm now deadline).1.1
| step_send_failed rm id :
    step rm (cancelRequest rm id)
| step_message rm m :
    step rm (handleResponse rm m)
| step_deliver rm hs1 hs2 m p id r :
    handlers rm = (hs1 ++ Selecting m p id :: hs2)%list →
    heap rm !! p = Some r → ResponseCh r = [] →
    step rm (deliver rm m p id (hs1 ++ hs2))
| step_drop rm hs1 hs2 m p id r :
    handlers rm = (hs1 ++ Selecting m p id :: hs2)%list →
    heap rm !! p = Some r → Done r = true →
    step rm (Close_message (upd_handlers rm (hs1 ++ hs2)) m)
| step_delete rm hs1 hs2 id :
    handlers rm = (hs1 ++ Delivered id :: hs2)%list →
    step rm (deleteRequest (upd_handlers rm (hs1 ++ hs2)) id)
| step_over rm p :                            (* timeout, or the caller cancels *)
    step rm (upd_heap rm (alter cancel p (heap rm)))
| step_receive rm p :                         (* the caller takes the answer *)
    step rm (upd_heap rm (alter (λ r, cancel (pop r)) p (heap rm)))
| step_cleanup rm p r :                       (* [cleanupRequest] *)
    heap rm !! p = Some r → Done r = true →
    step rm (cancelRequest rm (ID r))
| step_close rm : step rm (Close rm).

Inductive reachable (c : bool) : RequestManager → Prop :=
| reachable_new : reachable c (NewRequestManager c)
| reachable_step rm rm' : reachable c rm → step rm rm' → reachable c rm'.

(** ** Invariant *)

Definition selecting (h : handler) : option Msg :=
  match h with Selecting m _ _ => Some m | Delivered _ => None end.

(** The message may be answered to the request [p]: its id, if any, is the request's. *)
Definition meant_for (h : gmap nat PendingRequest) (m : Msg) (p : nat) : Prop :=
  ∃ r, h !! p = Some r ∧ ∀ i, response_id m = Some i → ID r = i.

Record Inv (rm : RequestManager) : Prop := {
  inv_pending : ∀ id p, pendingReqs rm !! id = Some p → ∃ r, heap rm !! p = Some r ∧ ID r = id;
  inv_selecting : ∀ m p id, Selecting m p id ∈ handlers rm → meant_for (heap rm) m p;
  inv_inbox : ∀ p m, (p, m) ∈ inbox rm → meant_for (heap rm) m p;
  inv_channel : ∀ p r, heap rm !! p = Some r → (length (ResponseCh r) <= 1)%nat;
  inv_messages : arrived rm ≡ₚ (closed rm ++ omap selecting (handlers rm) ++ (inbox rm).*2)%list;
}.

(** A heap whose requests keep their numbers. *)
Definition extends (h h' : gmap nat PendingRequest) : Prop :=
  ∀ p r, h !! p = Some r → ∃ r', h' !! p = Some r' ∧ ID r' = ID r.

Lemma extends_alter h p f : (∀ r, ID (f r) = ID r) → extends h (alter f p h).
Proof.
  intros Hf q r Hr. rewrite lookup_alter. case_decide; subst; rewrite ?Hr; simpl; eauto.
Qed.

Lemma meant_for_extends h h' m p : meant_for h m p → extends h h' → meant_for h' m p.
Proof.
  intros (r&Hr&Hi) Hx. destruct (Hx p r Hr) as (r'&Hr'&Hid). exists r'. split; [done|].
  intros i Hm. rewrite Hid. auto.
Qed.

Lemma pending_extends (pm : gmap Z nat) h h' :
  (∀ id p, pm !! id = Some p → ∃ r, h !! p = Some r ∧ ID r = id) → extends h h' →
  ∀ id p, pm !! id = Some p → ∃ r, h' !! p = Some r ∧ ID r = id.
Proof.
  intros Hp Hx id p (r&Hr&Hid)%Hp. destruct (Hx p r Hr) as (r'&Hr'&Hid'). exists r'.
  split; [done|congruence].
Qed.

(** Changing requests without their numbers and dropping pending entries. *)
Lemma inv_shrink rm h pm :
  Inv rm → extends (heap rm) h →
  (∀ p r, h !! p = Some r → (length (ResponseCh r) <= 1)%nat) → pm ⊆ pendingReqs rm →
  Inv (upd_pending (upd_heap rm h) pm).
Proof.
  intros [Hp Hs Hi Hc Hm] Hx Hch Hsub. split; simpl; [| | |done|done].
  - intros id p Hid. eapply pending_extends; [exact Hp|done|]. by eapply lookup_weaken.
  - intros m p id Hin. eapply meant_for_extends; [by eapply Hs|done].
  - intros p m Hin. eapply meant_for_extends; [by apply Hi|done].
Qed.

Lemma channel_alter (h : gmap nat PendingRequest) p f :
  (∀ q r, h !! q = Some r → (length (ResponseCh r) <= 1)%nat) →
  (∀ r, (length (ResponseCh r) <= 1)%nat → (length (ResponseCh (f r)) <= 1)%nat) →
  ∀ q r, alter f p h !! q = Some r → (length (ResponseCh r) <= 1)%nat.
Proof.
  intros Hc Hf q r. rewrite lookup_alter. case_decide; subst; [|by apply Hc].
  intros (r0&Hr0&->)%fmap_Some. eauto.
Qed.

Lemma inv_cancelRequest rm id : Inv rm → Inv (cancelRequest rm id).
Proof.
  intros HI. unfold cancelRequest. destruct (pendingReqs rm !! id) as [p|]; [|done].
  apply inv_shrink; [done|by apply extends_alter| |apply delete_subseteq].
  apply channel_alter; [apply HI|done].
Qed.

Lemma inv_register rm now deadline : Inv rm → Inv (register rm now deadline).1.1.
Proof.
  intros [Hp Hs Hi Hc Hm]. unfold register. simpl. set (p := fresh (dom (heap rm))).
  assert (heap rm !! p = None) as Hfresh by apply not_elem_of_dom, is_fresh.
  set (req := {| ID := _ |}).
  assert (extends (heap rm) (<[p := req]> (heap rm))) as Hx.
  { intros q r Hr. exists r. by rewrite lookup_insert_ne by congruence. }
  split; simpl; [| | | |done].
  - intros id q. rewrite lookup_insert_Some. intros [[<- <-]|[_ Hq]].
    + exists req. by rewrite lookup_insert_eq.
    + by eapply pending_extends.
  - intros m q id Hin. eapply meant_for_extends; [by eapply Hs|done].
  - intros q m Hin. eapply meant_for_extends; [by apply Hi|done].
  - intros q r. rewrite lookup_insert_Some. intros [[_ <-]|[_ Hq]]; [simpl; lia|eauto].
Qed.

(** [oldest] picks a pending request that no other is older than. *)
Lemma oldest_spec rm p :
  Inv rm → oldest rm = Some p →
  ∃ r id, heap rm !! p = Some r ∧ pendingReqs rm !! id = Some p ∧
    ∀ id' p' r', pendingReqs rm !! id' = Some p' → heap rm !! p' = Some r' →
      CreatedAt r <= CreatedAt r'.
Proof.
  intros HI Ho. unfold oldest in Ho.
  assert (∀ l acc, (∀ id q, (id, q) ∈ l → pendingReqs rm !! id = Some q) →
    (∀ q, acc = Some q → ∃ id, pendingReqs rm !! id = Some q) →
    fold_left (λ acc '(_, p), match acc with
      | None => Some p
      | Some q => match heap rm !! p, heap rm !! q with
                  | Some rp, Some rq => if CreatedAt rp <? CreatedAt rq then Some p else acc
                  | _, _ => acc
                  end
      end) l acc = Some p →
    (∃ id, pendingReqs rm !! id = Some p) ∧
    (∀ r, heap rm !! p = Some r →
      (∀ q rq, acc = Some q → heap rm !! q = Some rq → CreatedAt r <= CreatedAt rq) ∧
      (∀ id q rq, (id, q) ∈ l → heap rm !! q = Some rq → CreatedAt r <= CreatedAt rq)))
    as Hgen.
  { clear Ho. induction l as [|[id q] l IH]; intros acc Hl Hacc; simpl.
    { intros ->. split; [by apply Hacc|]. intros r Hr. split.
      - intros q rq [= ->] Hq. simplify_eq. lia.
      - by intros ??? ?%elem_of_nil. }
    set (acc' := match acc with None => Some q | Some _ => _ end). intros Hf.
    assert (pendingReqs rm !! id = Some q) as Hq by (apply Hl, elem_of_cons; by left).
    destruct (inv_pending _ HI _ _ Hq) as (rq&Hrq&_).
    destruct (IH acc') as [Hex Hmin]; [| |done|].
    { intros ???. apply Hl, elem_of_cons. by right. }
    { intros q' Hq'. unfold acc' in Hq'. repeat case_match; simplify_eq; eauto. }
    split; [done|]. intros r Hr. destruct (Hmin r Hr) as [H1 H2].
    assert (CreatedAt r <= CreatedAt rq ∧
      ∀ q0 r0, acc = Some q0 → heap rm !! q0 = Some r0 → CreatedAt r <= CreatedAt r0) as [Ha Hb].
    { destruct acc as [q0|]; [|split; [by eapply H1|done]].
      destruct (Hacc q0 eq_refl) as [id0 (r0&Hr0&_)%(inv_pending _ HI)].
      unfold acc' in H1. rewrite Hrq, Hr0 in H1.
      destruct (CreatedAt rq <? CreatedAt r0) eqn:Hlt; zbool.
      - pose proof (H1 q rq eq_refl Hrq). split; [done|]. intros q1 r1 [= <-] ?. simplify_eq. lia.
      - pose proof (H1 q0 r0 eq_refl Hr0). split; [lia|]. intros q1 r1 [= <-] ?. by simplify_eq. }
    split; [done|]. intros id' q' rq' [[= -> ->]|Hin]%elem_of_cons Hq'; [by simplify_eq|eauto]. }
  destruct (Hgen (range_list (pendingReqs rm)) None) as [[id Hid] Hmin]; [| |done|].
  { intros id q. apply elem_of_range_list. }
  { done. }
  destruct (inv_pending _ HI _ _ Hid) as (r&Hr&_). exists r, id. split_and!; [done..|].
  intros id' p' r' Hp' Hr'. apply (proj2 (Hmin r Hr) id' p'); [|done].
  by apply elem_of_range_list.
Qed.

Lemma oldest_None rm : oldest rm = None → pendingReqs rm = ∅.
Proof.
  unfold oldest. intros Ho. apply map_empty. intros id.
  destruct (pendingReqs rm !! id) as [p|] eqn:Hp; [exfalso|done].
  apply elem_of_range_list in Hp. revert Ho.
  destruct (range_list (pendingReqs rm)) as [|[i q] l]; [by apply elem_of_nil in Hp|]. simpl.
  match goal with |- fold_left ?f l _ = _ → _ => assert (is_Some (fold_left f l (Some q))) as [? ->]; [|done] end.
  apply (fold_left_inv _ is_Some); [done|]. intros a [j r] _ [q' ->]. by repeat case_match.
Qed.

Lemma route_spec rm m p id :
  Inv rm → route rm m = Some (p, id) →
  meant_for (heap rm) m p ∧ ∃ r, heap rm !! p = Some r ∧ ID r = id.
Proof.
  intros HI. unfold route. destruct (response_id m) as [i|] eqn:Hm.
  - intros (q&Hq&[= <- <-])%bind_Some. destruct (inv_pending _ HI _ _ Hq) as (r&Hr&Hid).
    split; [|by exists r]. exists r. split; [done|]. intros j Hj. congruence.
  - intros (q&Hq&(r&Hr&[= <- <-])%bind_Some)%bind_Some. split; [|by exists r].
    exists r. split; [done|]. intros j Hj. congruence.
Qed.

Lemma inv_handleResponse rm m : Inv rm → Inv (handleResponse rm m).
Proof.
  intros HI. unfold handleResponse. set (rm1 := {| heap := heap rm |}).
  change (route rm1 m) with (route rm m).
  destruct (route rm m) as [[p id]|] eqn:Hr; destruct HI as [Hp Hs Hi Hc Hm] eqn:HI'.
  - split; simpl; [done| |done|done|].
    + intros m' p' id' [[= -> -> ->]|?]%elem_of_cons; [|by eapply Hs].
      by apply (route_spec rm _ p id).
    + rewrite Hm. simpl. rewrite Permutation_app_comm. simpl. apply Permutation_middle.
  - split; simpl; [done..|]. rewrite Hm, <- !app_assoc. f_equiv.
    rewrite app_assoc, (Permutation_app_comm _ [m]). done.
Qed.

Lemma omap_middle (hs1 hs2 : list handler) h :
  omap selecting (hs1 ++ h :: hs2) ≡ₚ
  (option_list (selecting h) ++ omap selecting (hs1 ++ hs2))%list.
Proof.
  rewrite !omap_app. simpl. destruct (selecting h); simpl; [|done].
  symmetry. apply Permutation_middle.
Qed.

Lemma elem_of_middle {A} (x h : A) hs1 hs2 : x ∈ (hs1 ++ hs2)%list → x ∈ (hs1 ++ h :: hs2)%list.
Proof. rewrite !elem_of_app, elem_of_cons. tauto. Qed.

Lemma inv_deliver rm hs1 hs2 m p id r :
  Inv rm → handlers rm = (hs1 ++ Selecting m p id :: hs2)%list →
  heap rm !! p = Some r → ResponseCh r = [] → Inv (deliver rm m p id (hs1 ++ hs2)).
Proof.
  intros [Hp Hs Hi Hc Hm] Hh Hr Hch. rewrite Hh in Hs, Hm.
  assert (extends (heap rm) (alter (push m) p (heap rm))) as Hx by (by apply extends_alter).
  split; simpl.
  - by eapply pending_extends.
  - intros m' p' id' [|Hin]%elem_of_cons; [done|].
    eapply meant_for_extends; [|done]. by eapply Hs, elem_of_middle.
  - intros p' m' [Hin|[= -> ->]%list_elem_of_singleton]%elem_of_app;
      (eapply meant_for_extends; [|done]); [by apply Hi|].
    apply (Hs m p id), elem_of_app. right. by apply elem_of_cons; left.
  - intros q r'. rewrite lookup_alter. case_decide; subst; [|by apply Hc].
    rewrite Hr. intros [= <-]. simpl. by rewrite Hch.
  - rewrite Hm, omap_middle, fmap_app. simpl. f_equiv.
    rewrite app_assoc, (Permutation_app_comm _ [m]). done.
Qed.

Lemma inv_drop rm hs1 hs2 m p id :
  Inv rm → handlers rm = (hs1 ++ Selecting m p id :: hs2)%list →
  Inv (Close_message (upd_handlers rm (hs1 ++ hs2)) m).
Proof.
  intros [Hp Hs Hi Hc Hm] Hh. rewrite Hh in Hs, Hm. split; simpl; [done| |done|done|].
  - intros m' p' id' Hin. by eapply Hs, elem_of_middle.
  - rewrite Hm, omap_middle. simpl. rewrite <- app_assoc. done.
Qed.

Lemma inv_delete rm hs1 hs2 id :
  Inv rm → handlers rm = (hs1 ++ Delivered id :: hs2)%list →
  Inv (deleteRequest (upd_handlers rm (hs1 ++ hs2)) id).
Proof.
  intros [Hp Hs Hi Hc Hm] Hh. rewrite Hh in Hs, Hm. split; simpl; [| |done|done|].
  - intros i q [_ Hq]%lookup_delete_Some. eauto.
  - intros m' p' id' Hin. by eapply Hs, elem_of_middle.
  - rewrite Hm, omap_middle. done.
Qed.

Lemma close_heap (l : list (Z * nat)) h :
  (∀ p r, h !! p = Some r → (length (ResponseCh r) <= 1)%nat) →
  let h' := fold_left (λ h '(_, p), alter cancel p h) l h in
  extends h h' ∧ ∀ p r, h' !! p = Some r → (length (ResponseCh r) <= 1)%nat.
Proof.
  revert h. induction l as [|[id p] l IH]; intros h Hc; simpl;
    [split; [by intros p r Hr; eauto|done]|].
  destruct (IH (alter cancel p h)) as [Hx Hch]; [by apply channel_alter|].
  split; [|done]. intros q r Hr.
  destruct (extends_alter h p cancel ltac:(done) q r Hr) as (r1&Hr1&Hid1).
  destruct (Hx q r1 Hr1) as (r2&Hr2&Hid2). exists r2. split; [done|congruence].
Qed.

Lemma close_done (l : list (Z * nat)) (h : gmap nat PendingRequest) id p r :
  (id, p) ∈ l → h !! p = Some r →
  ∃ r', fold_left (λ h '(_, p), alter cancel p h) l h !! p = Some r' ∧ Done r' = true.
Proof.
  revert h r. induction l as [|[i q] l IH]; intros h r Hin Hr; [by apply elem_of_nil in Hin|].
  simpl. apply elem_of_cons in Hin as [[= <- <-]|Hin].
  - apply (fold_left_inv _ (λ h : gmap nat PendingRequest, ∃ r, h !! p = Some r ∧ Done r = true)).
    + exists (cancel r). by rewrite lookup_alter_eq, Hr.
    + intros h' [j q] _ (r'&Hr'&Hd). rewrite lookup_alter.
      case_decide; subst; rewrite Hr'; simpl; eauto.
  - destruct (decide (p = q)) as [->|Hne].
    + apply (IH _ (cancel r)); [done|]. by rewrite lookup_alter_eq, Hr.
    + apply (IH _ r); [done|]. by rewrite lookup_alter_ne.
Qed.

Lemma request_inv_step rm rm' : Inv rm → step rm rm' → Inv rm'.
Proof.
  intros HI. destruct 1 as [rm now deadline ok|rm now deadline|rm id|rm m|
    rm hs1 hs2 m p id r|rm hs1 hs2 m p id r|rm hs1 hs2 id|rm p|rm p|rm p r|rm].
  - unfold SendRequest. pose proof (inv_register rm now deadline HI) as HI'.
    destruct (register rm now deadline) as [[rm1 p] id]. simpl in HI'.
    destruct (sendMessage rm1 ok); [done|]. by apply inv_cancelRequest.
  - by apply inv_register.
  - by apply inv_cancelRequest.
  - by apply inv_handleResponse.
  - by eapply inv_deliver.
  - by eapply inv_drop.
  - by eapply inv_delete.
  - apply (inv_shrink rm _ (pendingReqs rm)); [done|by apply extends_alter| |done].
    apply channel_alter; [apply HI|done].
  - apply (inv_shrink rm _ (pendingReqs rm)); [done|by apply extends_alter| |done].
    apply channel_alter; [apply HI|]. intros r. simpl. destruct (ResponseCh r); simpl; lia.
  - by apply inv_cancelRequest.
  - unfold Close. destruct (close_heap (range_list (pendingReqs rm)) (heap rm)) as [Hx Hc];
      [apply HI|]. apply inv_shrink; [done..|]. apply map_empty_subseteq.
Qed.

Lemma requests_inv c rm : reachable c rm → Inv rm.
Proof.
  induction 1 as [|rm rm' _ IH Hstep]; [|by eapply request_inv_step].
  split; simpl; try done; by intros ??? ?%elem_of_nil || intros ?? ?%elem_of_nil.
Qed.

(** *** Properties *)

(** C2: whatever the interleaving, a message that carries an id is only ever put on the channel
    of the request with that id, no channel holds more than one message, and every message
    read from the socket is in exactly one place: released, waiting for its request, or
    delivered. *)
Theorem responses_reach_their_request c rm :
  reachable c rm →
  (∀ p m, (p, m) ∈ inbox rm → ∃ r, heap rm !! p = Some r ∧
     ∀ i, response_id m = Some i → ID r = i) ∧
  (∀ p r, heap rm !! p = Some r → (length (ResponseCh r) <= 1)%nat) ∧
  arrived rm ≡ₚ (closed rm ++ omap selecting (handlers rm) ++ (inbox rm).*2)%list.
Proof. intros [Hp Hs Hi Hc Hm]%requests_inv. done. Qed.

(** A message without id goes to the pending request that has waited longest; one with an
    id goes to the pending request of that id; it is released when there is none. *)
Theorem handleResponse_routes c rm m :
  reachable c rm →
  match route rm m with
  | Some (p, id) =>
      handlers (handleResponse rm m) = Selecting m p id :: handlers rm ∧
      match response_id m with
      | Some i => id = i ∧ pendingReqs rm !! i = Some p
      | None => ∃ r, heap rm !! p = Some r ∧ ID r = id ∧ pendingReqs rm !! id = Some p ∧
                  ∀ id' p' r', pendingReqs rm !! id' = Some p' → heap rm !! p' = Some r' →
                    CreatedAt r <= CreatedAt r'
      end
  | None =>
      closed (handleResponse rm m) = (closed rm ++ [m])%list ∧
      match response_id m with
      | Some i => pendingReqs rm !! i = None
      | None => pendingReqs rm = ∅
      end
  end.
Proof.
  intros HI%requests_inv. unfold handleResponse. set (rm1 := {| heap := heap rm |}).
  change (route rm1 m) with (route rm m). destruct (route rm m) as [[p id]|] eqn:Hr.
  - split; [done|]. unfold route in Hr. destruct (response_id m) as [i|].
    + by apply bind_Some in Hr as (q&Hq&[= <- <-]).
    + apply bind_Some in Hr as (q&Hq&(r&Hr&[= <- <-])%bind_Some).
      destruct (oldest_spec _ _ HI Hq) as (r'&id&Hr'&Hid&Hmin).
      assert (r' = r) as -> by congruence. exists r. destruct (inv_pending _ HI _ _ Hid) as (r0&Hr0&Hid0).
      assert (r0 = r) as -> by congruence. rewrite Hid0. done.
  - split; [done|]. unfold route in Hr. destruct (response_id m) as [i|].
    + apply bind_None in Hr as [?|(?&_&?)]; done.
    + apply bind_None in Hr as [?|(p&Ho&Hr)]; [by apply oldest_None|].
      destruct (oldest_spec _ _ HI Ho) as (r&_&Hh&_). rewrite Hh in Hr. done.
Qed.

(** A request that could not be sent leaves no trace among the pending ones, one that was
    sent is pending under its own number with a deadline at most the caller's (five seconds
    from now if the caller set none); shutting down ends and forgets every request. *)
Theorem SendRequest_pending c rm now deadline ok :
  reachable c rm →
  let '(rm', res) := SendRequest rm now deadline ok in
  match res with
  | Some p => ∃ r, heap rm' !! p = Some r ∧ pendingReqs rm' = <[ID r := p]> (pendingReqs rm) ∧
                ID r = u32 (nextID rm + 1) ∧ Done r = false ∧ heap rm !! p = None ∧
                Deadline r = default (now + 5 * Second) deadline
  | None => pendingReqs rm' = delete (u32 (nextID rm + 1)) (pendingReqs rm)
  end ∧
  pendingReqs (Close rm) = ∅ ∧
  (∀ id p, pendingReqs rm !! id = Some p →
     ∃ r, heap (Close rm) !! p = Some r ∧ Done r = true).
Proof.
  intros HI%requests_inv. destruct (SendRequest rm now deadline ok) as [rm' res] eqn:Hs.
  unfold SendRequest, register in Hs. split_and!; [|done|].
  - set (p := fresh _) in Hs. destruct (sendMessage _ _); simplify_eq; simpl.
    + eexists. rewrite lookup_insert_eq. split_and!; try done. apply not_elem_of_dom, is_fresh.
    + unfold cancelRequest. simpl. rewrite lookup_insert_eq. simpl. by rewrite delete_insert_eq.
  - intros id p Hp. destruct (inv_pending _ HI _ _ Hp) as (r&Hr&_).
    apply (close_done (range_list (pendingReqs rm)) (heap rm) id p r); [|done].
    by apply elem_of_range_list.
Qed.
End manager.

(** ** Witnesses: messages are their ids *)

(** Two requests, the second one answered first. *)
Definition rm2 : RequestManager (Msg := option Z) :=
  (SendRequest (SendRequest (NewRequestManager true) 10 None true).1 20 None true).1.

Lemma rm2_reachable : reachable id true rm2.
Proof. do 2 (eapply reachable_step; [|apply step_send]). apply reachable_new. Qed.

Definition rm3 : RequestManager (Msg := option Z) :=
  deliver (handleResponse id rm2 (Some 2%Z)) (Some 2%Z)
    (default 0%nat (pendingReqs rm2 !! 2%Z)) 2 [].

Lemma responses_reach_their_request_witness :
  reachable id true rm3 ∧
  ∃ r, heap rm3 !! default 0%nat (pendingReqs rm2 !! 2%Z) = Some r ∧ ID r = 2%Z.
Proof.
  assert (reachable id true rm3) as Hr.
  { eapply reachable_step; [eapply reachable_step; [apply rm2_reachable|apply (step_message id _ (Some 2%Z))]|].
    eapply (step_deliver id _ [] []); vm_compute; reflexivity. }
  split; [exact Hr|].
  destruct (responses_reach_their_request id true rm3 Hr) as (Hi&_&_).
  destruct (Hi (default 0%nat (pendingReqs rm2 !! 2%Z)) (Some 2%Z)) as (r&Hh&Hid).
  - vm_compute. apply elem_of_cons. by left.
  - exists r. split; [exact Hh|]. by apply Hid.
Defined.

Lemma handleResponse_routes_witness :
  route id rm2 None = Some (default 0%nat (pendingReqs rm2 !! 1%Z), 1%Z) ∧
  handlers (handleResponse id rm2 None) =
    [Selecting None (default 0%nat (pendingReqs rm2 !! 1%Z)) 1%Z].
Proof.
  assert (route id rm2 None = Some (default 0%nat (pendingReqs rm2 !! 1%Z), 1%Z)) as Hr
    by (vm_compute; reflexivity).
  split; [exact Hr|]. pose proof (handleResponse_routes id true rm2 None rm2_reachable) as Hm.
  rewrite Hr in Hm. exact (proj1 Hm).
Defined.

Lemma SendRequest_pending_witness : pendingReqs (Close rm2) = ∅.
Proof.
  pose proof (SendRequest_pending id true rm2 30 None false rm2_reachable) as Hs.
  destruct (SendRequest rm2 30 None false) as [rm' res]. exact (proj1 (proj2 Hs)).
Defined.
End RequestManager.
