(* ===== verification/SystemData.v ===== *)
(** * Data that agents send ([internal/hub/systems/system.go], [system_smart.go])

    What the hub does with a poll's answer besides saving it: fields of older
    agents are moved to their present places, container traffic is totalled,
    record ids are derived by hashing, and the SMART devices of a system are
    fetched at intervals, with a cooldown kept in an expiring map.

    The clock is an argument; what the agent answers and whether it could be
    saved are outcomes given to the operations. *)

From S2P Require Import Prelude GoFloat GoStrings Entities ExpiryMap.

(** The outcome of the last SMART fetch, kept in the expiring map. *)
Module smartFetchState.
Record t := { LastAttempt : Z; Successful : bool }.   (* milliseconds *)
End smartFetchState.

Module SystemData.
Import ExpiryMap.
Local Open Scope Z_scope.

(** ** Deprecated fields *)

Section migrate.
Context {FC : FloatConv} {Service : Type}.

(** [uint64(x * 1024 * 1024)] *)
Definition mib_bytes (x : f64) : Z :=
  f64_to_uint 64 (f64_mul (f64_mul x (f64_of_Z 1024)) (f64_of_Z 1024)).
(** [uint64(x * 1024 * 1024 * 1024)] *)
Definition gib_bytes (x : f64) : Z :=
  f64_to_uint 64 (f64_mul (f64_mul (f64_mul x (f64_of_Z 1024)) (f64_of_Z 1024)) (f64_of_Z 1024)).

Definition set_network (s : Stats.t) (bw : Z * Z) : Stats.t := {|
  Stats.Cpu := Stats.Cpu s; Stats.MaxCpu := Stats.MaxCpu s; Stats.Mem := Stats.Mem s;
  Stats.MaxMem := Stats.MaxMem s; Stats.MemUsed := Stats.MemUsed s;
  Stats.MemPct := Stats.MemPct s; Stats.MemBuffCache := Stats.MemBuffCache s;
  Stats.MemZfsArc := Stats.MemZfsArc s; Stats.Swap := Stats.Swap s;
  Stats.SwapUsed := Stats.SwapUsed s; Stats.DiskTotal := Stats.DiskTotal s;
  Stats.DiskUsed := Stats.DiskUsed s; Stats.DiskPct := Stats.DiskPct s;
  Stats.DiskReadPs := Stats.DiskReadPs s; Stats.DiskWritePs := Stats.DiskWritePs s;
  Stats.MaxDiskReadPs := Stats.MaxDiskReadPs s; Stats.MaxDiskWritePs := Stats.MaxDiskWritePs s;
  Stats.NetworkSent := f64_zero; Stats.NetworkRecv := f64_zero;
  Stats.MaxNetworkSent := Stats.MaxNetworkSent s; Stats.MaxNetworkRecv := Stats.MaxNetworkRecv s;
  Stats.Temperatures := Stats.Temperatures s; Stats.ExtraFs := Stats.ExtraFs s;
  Stats.GPU := Stats.GPU s; Stats.Bandwidth := bw; Stats.MaxBandwidth := Stats.MaxBandwidth s;
  Stats.LoadAvg := Stats.LoadAvg s; Stats.Battery := Stats.Battery s;
  Stats.NetworkInterfaces := Stats.NetworkInterfaces s; Stats.DiskIO := Stats.DiskIO s;
  Stats.MaxDiskIO := Stats.MaxDiskIO s; Stats.CpuBreakdown := Stats.CpuBreakdown s;
  Stats.CpuCoresUsage := Stats.CpuCoresUsage s; Stats.DiskIoStats := Stats.DiskIoStats s;
  Stats.MaxDiskIoStats := Stats.MaxDiskIoStats s |}.

Definition set_disk_io (s : Stats.t) (io : Z * Z) : Stats.t := {|
  Stats.Cpu := Stats.Cpu s; Stats.MaxCpu := Stats.MaxCpu s; Stats.Mem := Stats.Mem s;
  Stats.MaxMem := Stats.MaxMem s; Stats.MemUsed := Stats.MemUsed s;
  Stats.MemPct := Stats.MemPct s; Stats.MemBuffCache := Stats.MemBuffCache s;
  Stats.MemZfsArc := Stats.MemZfsArc s; Stats.Swap := Stats.Swap s;
  Stats.SwapUsed := Stats.SwapUsed s; Stats.DiskTotal := Stats.DiskTotal s;
  Stats.DiskUsed := Stats.DiskUsed s; Stats.DiskPct := Stats.DiskPct s;
  Stats.DiskReadPs := f64_zero; Stats.DiskWritePs := f64_zero;
  Stats.MaxDiskReadPs := Stats.MaxDiskReadPs s; Stats.MaxDiskWritePs := Stats.MaxDiskWritePs s;
  Stats.NetworkSent := Stats.NetworkSent s; Stats.NetworkRecv := Stats.NetworkRecv s;
  Stats.MaxNetworkSent := Stats.MaxNetworkSent s; Stats.MaxNetworkRecv := Stats.MaxNetworkRecv s;
  Stats.Temperatures := Stats.Temperatures s; Stats.ExtraFs := Stats.ExtraFs s;
  Stats.GPU := Stats.GPU s; Stats.Bandwidth := Stats.Bandwidth s;
  Stats.MaxBandwidth := Stats.MaxBandwidth s; Stats.LoadAvg := Stats.LoadAvg s;
  Stats.Battery := Stats.Battery s; Stats.NetworkInterfaces := Stats.NetworkInterfaces s;
  Stats.DiskIO := io; Stats.MaxDiskIO := Stats.MaxDiskIO s;
  Stats.CpuBreakdown := Stats.CpuBreakdown s; Stats.CpuCoresUsage := Stats.CpuCoresUsage s;
  Stats.DiskIoStats := Stats.DiskIoStats s; Stats.MaxDiskIoStats := Stats.MaxDiskIoStats s |}.

Definition set_bandwidth (i : Info.t) (b : Z) : Info.t := {|
  Info.Hostname := Info.Hostname i; Info.KernelVersion := Info.KernelVersion i;
  Info.Cores := Info.Cores i; Info.Threads := Info.Threads i; Info.CpuModel := Info.CpuModel i;
  Info.Uptime := Info.Uptime i; Info.Cpu := Info.Cpu i; Info.MemPct := Info.MemPct i;
  Info.DiskPct := Info.DiskPct i; Info.Bandwidth := f64_zero;
  Info.AgentVersion := Info.AgentVersion i; Info.Podman := Info.Podman i;
  Info.GpuPct := Info.GpuPct i; Info.DashboardTemp := Info.DashboardTemp i; Info.Os := Info.Os i;
  Info.BandwidthBytes := b; Info.LoadAvg := Info.LoadAvg i;
  Info.ConnectionType := Info.ConnectionType i; Info.ExtraFsPct := Info.ExtraFsPct i;
  Info.Services := Info.Services i; Info.Battery := Info.Battery i;
  Info.LinkSpeeds := Info.LinkSpeeds i; Info.MemTotal := Info.MemTotal i;
  Info.DiskSize := Info.DiskSize i |}.

Definition clear_details (i : Info.t) : Info.t := {|
  Info.Hostname := ""; Info.KernelVersion := ""; Info.Cores := 0; Info.Threads := Info.Threads i;
  Info.CpuModel := ""; Info.Uptime := Info.Uptime i; Info.Cpu := Info.Cpu i;
  Info.MemPct := Info.MemPct i; Info.DiskPct := Info.DiskPct i;
  Info.Bandwidth := Info.Bandwidth i; Info.AgentVersion := Info.AgentVersion i;
  Info.Podman := false; Info.GpuPct := Info.GpuPct i; Info.DashboardTemp := Info.DashboardTemp i;
  Info.Os := 0; Info.BandwidthBytes := Info.BandwidthBytes i; Info.LoadAvg := Info.LoadAvg i;
  Info.ConnectionType := Info.ConnectionType i; Info.ExtraFsPct := Info.ExtraFsPct i;
  Info.Services := Info.Services i; Info.Battery := Info.Battery i;
  Info.LinkSpeeds := Info.LinkSpeeds i; Info.MemTotal := Info.MemTotal i;
  Info.DiskSize := Info.DiskSize i |}.

(** The four migrations. *)
Definition migrate_network (s : Stats.t) : Stats.t :=
  if (fst (Stats.Bandwidth s) =? 0) && (snd (Stats.Bandwidth s) =? 0)
  then set_network s (mib_bytes (Stats.NetworkSent s), mib_bytes (Stats.NetworkRecv s))
  else s.

Definition migrate_bandwidth (i : Info.t) : Info.t :=
  if Info.BandwidthBytes i =? 0 then set_bandwidth i (mib_bytes (Info.Bandwidth i)) else i.

Definition migrate_disk_io (s : Stats.t) : Stats.t :=
  if (fst (Stats.DiskIO s) =? 0) && (snd (Stats.DiskIO s) =? 0)
  then set_disk_io s (mib_bytes (Stats.DiskReadPs s), mib_bytes (Stats.DiskWritePs s))
  else s.

Definition details_of (i : Info.t) (mem : f64) : Details.t := {|
  Details.Hostname := Info.Hostname i; Details.Kernel := Info.KernelVersion i;
  Details.Cores := Info.Cores i; Details.Threads := Info.Threads i;
  Details.CpuModel := Info.CpuModel i; Details.Os := Info.Os i; Details.OsName := "";
  Details.Arch := ""; Details.Podman := Info.Podman i; Details.MemoryTotal := gib_bytes mem;
  Details.SmartInterval := 0 |}.

Definition migrateDeprecatedFields (cd : CombinedData.t Service) (createDetails : bool)
    : CombinedData.t Service :=
  let stats := migrate_disk_io (migrate_network (CombinedData.Stats cd)) in
  let info := migrate_bandwidth (CombinedData.Info cd) in
  let '(info, details) :=
    match CombinedData.Details cd with
    | None =>
        if String.eqb (Info.Hostname info) "" then (info, None)
        else (clear_details info,
              if createDetails then Some (details_of info (Stats.Mem stats)) else None)
    | Some d => (info, Some d)
    end in
  {| CombinedData.Stats := stats; CombinedData.Info := info;
     CombinedData.Containers := CombinedData.Containers cd;
     CombinedData.SystemdServices := CombinedData.SystemdServices cd;
     CombinedData.Details := details |}.

(** The traffic of a container, as [createContainerRecords] stores it. *)
Definition netBytes (c : ContainerStats.t) : Z :=
  let n := (fst (ContainerStats.Bandwidth c) +u64 snd (ContainerStats.Bandwidth c))%go in
  if n =? 0
  then mib_bytes (f64_add (ContainerStats.NetworkSent c) (ContainerStats.NetworkRecv c))
  else n.

(** *** Lemmas *)

Lemma mib_bytes_zero : mib_bytes f64_zero = 0.
Proof. by vm_compute. Qed.

Lemma migrate_network_idemp s : migrate_network (migrate_network s) = migrate_network s.
Proof.
  unfold migrate_network. destruct ((fst (Stats.Bandwidth s) =? 0) && _) eqn:E; simpl; [|by rewrite E].
  clear E. rewrite mib_bytes_zero. destruct ((_ =? 0) && _) eqn:E'; [|done].
  apply andb_true_iff in E' as [Ea%Z.eqb_eq Eb%Z.eqb_eq]. by rewrite Ea, Eb.
Qed.

Lemma migrate_disk_io_idemp s : migrate_disk_io (migrate_disk_io s) = migrate_disk_io s.
Proof.
  unfold migrate_disk_io. destruct ((fst (Stats.DiskIO s) =? 0) && _) eqn:E; simpl; [|by rewrite E].
  clear E. rewrite mib_bytes_zero. destruct ((_ =? 0) && _) eqn:E'; [|done].
  apply andb_true_iff in E' as [Ea%Z.eqb_eq Eb%Z.eqb_eq]. by rewrite Ea, Eb.
Qed.

Lemma migrate_bandwidth_idemp i : migrate_bandwidth (migrate_bandwidth i) = migrate_bandwidth i.
Proof.
  unfold migrate_bandwidth. destruct (Info.BandwidthBytes i =? 0) eqn:E; simpl; [|by rewrite E].
  clear E. rewrite mib_bytes_zero. destruct (_ =? 0) eqn:E'; [|done]. apply Z.eqb_eq in E'. by rewrite E'.
Qed.

(** The two migrations of the statistics touch different fields. *)
Lemma migrate_stats_comm s :
  migrate_network (migrate_disk_io s) = migrate_disk_io (migrate_network s).
Proof.
  unfold migrate_network, migrate_disk_io.
  destruct ((fst (Stats.Bandwidth s) =? 0) && _) eqn:E1, ((fst (Stats.DiskIO s) =? 0) && _) eqn:E2;
    simpl; rewrite ?E1, ?E2; done.
Qed.

Lemma clear_bandwidth i : clear_details (migrate_bandwidth i) = migrate_bandwidth (clear_details i).
Proof. unfold migrate_bandwidth. simpl. by destruct (_ =? 0). Qed.

Lemma migrate_stats_idemp s :
  migrate_disk_io (migrate_network (migrate_disk_io (migrate_network s))) =
  migrate_disk_io (migrate_network s).
Proof. by rewrite migrate_stats_comm, migrate_network_idemp, migrate_disk_io_idemp. Qed.

Lemma untouched_stats s :
  Stats.Bandwidth s ≠ (0, 0) → Stats.DiskIO s ≠ (0, 0) →
  migrate_disk_io (migrate_network s) = s.
Proof.
  intros Hb Hd. unfold migrate_network. destruct (_ && _) eqn:E.
  { apply andb_true_iff in E as [E1%Z.eqb_eq E2%Z.eqb_eq]. destruct (Stats.Bandwidth s).
    simpl in *. by subst. }
  clear E. unfold migrate_disk_io. destruct (_ && _) eqn:E'; [|done].
  apply andb_true_iff in E' as [E1%Z.eqb_eq E2%Z.eqb_eq]. destruct (Stats.DiskIO s).
  simpl in *. by subst.
Qed.

(** *** Properties *)

(** Migrating is idempotent (whether or not details are asked for the second time), and
    leaves the data of a present-day agent alone: traffic that is there is kept, and details
    that were sent are not replaced. *)
Theorem migrate_idempotent (cd : CombinedData.t Service) b b' :
  let m := migrateDeprecatedFields cd b in
  migrateDeprecatedFields m b' = m ∧
  (Stats.Bandwidth (CombinedData.Stats cd) ≠ (0, 0) → Stats.DiskIO (CombinedData.Stats cd) ≠ (0, 0) →
   CombinedData.Stats m = CombinedData.Stats cd) ∧
  (is_Some (CombinedData.Details cd) → CombinedData.Details m = CombinedData.Details cd) ∧
  (CombinedData.Details m ≠ None ∨ Info.Hostname (CombinedData.Info m) = "").
Proof.
  intros m. unfold m, migrateDeprecatedFields.
  destruct (CombinedData.Details cd) as [d|]; simpl;
    [|destruct (String.eqb (Info.Hostname (migrate_bandwidth (CombinedData.Info cd))) "") eqn:Hh;
      simpl]; rewrite migrate_stats_idemp.
  - rewrite migrate_bandwidth_idemp. split_and!; [done| |done|by left].
    apply untouched_stats.
  - rewrite migrate_bandwidth_idemp, Hh. split_and!; [done|apply untouched_stats|by intros [? ?]|].
    right. by apply String.eqb_eq.
  - split_and!; [|apply untouched_stats|by intros [? ?]|by right].
    destruct b; simpl; rewrite clear_bandwidth, migrate_bandwidth_idemp, <- clear_bandwidth; done.
Qed.
End migrate.

Lemma migrate_idempotent_witness :
  let cd : CombinedData.t unit := {|
    CombinedData.Stats := Stats.zero; CombinedData.Info := set_bandwidth Info.zero 7;
    CombinedData.Containers := []; CombinedData.SystemdServices := [];
    CombinedData.Details := Some (details_of Info.zero f64_zero) |} in
  CombinedData.Details (migrateDeprecatedFields cd true) = CombinedData.Details cd.
Proof.
  intros cd. refine (proj1 (proj2 (proj2 (migrate_idempotent cd true false))) _). by eexists.
Defined.

(** ** Ids *)

(** FNV-1a, 32 bits. *)
Definition fnv_byte (h : Z) (a : ascii) : Z :=
  u32 (Z.lxor h (Z.of_nat (nat_of_ascii a)) * 16777619).

Fixpoint fnv_write (h : Z) (s : string) : Z :=
  match s with
  | EmptyString => h
  | String a s => fnv_write (fnv_byte h a) s
  end.

(** [%x]: at most eight digits, without leading zeros. *)
Fixpoint hex_aux (fuel : nat) (n : Z) (acc : string) : string :=
  match fuel with
  | O => acc
  | S fuel =>
      let d := Z.to_nat (n mod 16) in
      let acc := String (ascii_of_nat (if (d <? 10)%nat then 48 + d else 87 + d)) acc in
      if n / 16 =? 0 then acc else hex_aux fuel (n / 16) acc
  end.

Definition makeStableHashId (l : list string) : string :=
  hex_aux 8 (fold_left fnv_write l 2166136261) "".

Lemma fnv_write_app h s t : fnv_write h (s ++ t) = fnv_write (fnv_write h s) t.
Proof. revert h. induction s as [|a s IH]; intros h; simpl; [done|]. apply IH. Qed.

(** The parts run together: only their concatenation counts. *)
Lemma makeStableHashId_concat s t : makeStableHashId [s; t] = makeStableHashId [(s ++ t)%string].
Proof. unfold makeStableHashId. simpl. by rewrite fnv_write_app. Qed.

Example makeStableHashId_ex :
  makeStableHashId [""] = "811c9dc5" ∧ makeStableHashId ["a"] = "e40c292c" ∧
  makeStableHashId ["foobar"] = "bf9cf968".
Proof. by vm_compute. Qed.

(** ** Power metrics of a SMART device *)

Record SmartAttribute := {
  ID : Z; Name : string; Value : Z; Worst : Z; Threshold : Z; RawValue : Z; RawString : string;
  WhenFailed : string }.

Definition is_hours (a : SmartAttribute) : bool :=
  let n := ToLower (Name a) in Contains n "poweronhours" || Contains n "power_on_hours".
Definition is_cycles (a : SmartAttribute) : bool :=
  let n := ToLower (Name a) in
  (Contains n "power" && Contains n "cycle") || Contains n "startstopcycles".

(** The loop, which stops when both are known. *)
Fixpoint metrics_loop (l : list SmartAttribute) (hours cycles : Z) : Z * Z :=
  match l with
  | [] => (hours, cycles)
  | a :: l =>
      let hours := if (hours =? 0) && is_hours a then RawValue a else hours in
      let cycles := if (cycles =? 0) && is_cycles a then RawValue a else cycles in
      if (0 <? hours) && (0 <? cycles) then (hours, cycles) else metrics_loop l hours cycles
  end.

Definition extractPowerMetrics (l : list SmartAttribute) : Z * Z := metrics_loop l 0 0.

(** The reference: the first non-zero value of an attribute of the kind. *)
Definition first_nonzero (p : SmartAttribute → bool) (l : list SmartAttribute) : Z :=
  default 0 (head (List.filter (λ x, negb (x =? 0)) (RawValue <$> List.filter p l))).

Lemma first_nonzero_cons p a l :
  first_nonzero p (a :: l) =
  if p a && negb (RawValue a =? 0) then RawValue a else first_nonzero p l.
Proof. unfold first_nonzero. simpl. destruct (p a); simpl; [|done]. by destruct (RawValue a =? 0). Qed.

Lemma metrics_loop_spec l : ∀ h c,
  Forall (λ a, 0 ≤ RawValue a) l → 0 ≤ h → 0 ≤ c →
  metrics_loop l h c = (if h =? 0 then first_nonzero is_hours l else h,
                        if c =? 0 then first_nonzero is_cycles l else c).
Proof.
  induction l as [|a l IH]; intros h c Hl Hh Hc; simpl.
  { unfold first_nonzero. simpl. destruct (h =? 0) eqn:?, (c =? 0) eqn:?; zbool; by subst. }
  apply Forall_cons in Hl as [Ha Hl]. rewrite !first_nonzero_cons.
  set (h' := if (h =? 0) && is_hours a then RawValue a else h).
  set (c' := if (c =? 0) && is_cycles a then RawValue a else c).
  assert (∀ x p, 0 ≤ x → (if x =? 0 then if p a && negb (RawValue a =? 0) then RawValue a
              else first_nonzero p l else x) =
            (if (if (x =? 0) && p a then RawValue a else x) =? 0 then first_nonzero p l
             else if (x =? 0) && p a then RawValue a else x)) as Hstep.
  { intros x p Hx. destruct (x =? 0) eqn:E; simpl; [|by rewrite E]. destruct (p a); simpl; [|by rewrite E].
    by destruct (RawValue a =? 0). }
  rewrite !Hstep by done. fold h' c'.
  assert (0 ≤ h' ∧ 0 ≤ c') as [Hh' Hc'] by (unfold h', c'; destruct (_ && _), (_ && _); done).
  destruct ((0 <? h') && (0 <? c')) eqn:E; [|by apply IH].
  zbool. rewrite !(proj2 (Z.eqb_neq _ _)) by lia. done.
Qed.

(** The loop finds, in one pass that stops early, the first non-zero power-on hours and the
    first non-zero power cycles among the attributes. *)
Theorem extractPowerMetrics_spec l :
  Forall (λ a, in_range 64 (RawValue a)) l →
  extractPowerMetrics l = (first_nonzero is_hours l, first_nonzero is_cycles l).
Proof.
  intros Hl. unfold extractPowerMetrics. rewrite metrics_loop_spec; [done| |lia|lia].
  eapply Forall_impl; [exact Hl|]. by intros a [? _].
Qed.

Definition attr (name : string) (raw : Z) : SmartAttribute := {|
  ID := 0; Name := name; Value := 0; Worst := 0; Threshold := 0; RawValue := raw; RawString := "";
  WhenFailed := "" |}.

Lemma extractPowerMetrics_spec_witness :
  let l := [attr "Power_On_Hours" 0; attr "Power_Cycle_Count" 5; attr "PowerOnHours" 9] in
  extractPowerMetrics l = (9, 5).
Proof.
  etransitivity; [apply extractPowerMetrics_spec|reflexivity].
  repeat constructor; vm_compute; intros; discriminate.
Defined.

(** ** The SMART cooldown *)

Section smart.
Context {M : Type → Type} {KV : KVStore M} {KVL : KVStoreLaws M}.
Notation fetch_map := (ExpiryMap (M := M) (T := smartFetchState.t)).

(** What the cooldown uses of a [System]. *)
Record System := {
  Id : string;
  detailsFetched : bool;
  smartFetching : bool;
  smartInterval : Z;
}.

Definition smartFetchInterval (sys : System) : Z :=
  if 0 <? smartInterval sys then smartInterval sys else Hour.

(** [time.Time.UnixMilli] and back. *)
Definition UnixMilli (t : Z) : Z := t / Millisecond.
Definition of_milli (ms : Z) : Z := ms * Millisecond.

(** [err] is the error of the fetch or of saving; [deviceCount] the devices of the answer. *)
Definition recordSmartFetchResult (now : Z) (sys : System) (err : bool) (deviceCount : nat)
    (m : fetch_map) : fetch_map :=
  let interval := smartFetchInterval sys in
  let success := negb err && (0 <? deviceCount)%nat in
  Set_ now m (Id sys)
    {| smartFetchState.LastAttempt := UnixMilli now; smartFetchState.Successful := success |}
    (interval + Minute).

Definition shouldFetchSmart (now : Z) (sys : System) (m : fetch_map) : bool * fetch_map :=
  match GetOk now m (Id sys) with
  | (None, m) => (true, m)
  | (Some state, m) =>
      (negb (now <? of_milli (smartFetchState.LastAttempt state) + smartFetchInterval sys), m)
  end.

(** [FetchAndSaveSmartDevices]: [fetched] is the answer of the agent (the number of devices),
    [saved] whether they could be saved. *)
Definition FetchAndSaveSmartDevices (now : Z) (sys : System) (fetched : option nat) (saved : bool)
    (m : fetch_map) : fetch_map :=
  match fetched with
  | None => recordSmartFetchResult now sys true 0 m
  | Some n => recordSmartFetchResult now sys (negb saved) n m
  end.

(** A reconnecting agent is not made to wait for a fetch that failed. *)
Definition resetFailedSmartFetchState (now : Z) (id : string) (m : fetch_map) : fetch_map :=
  match GetOk now m id with
  | (Some state, m) => if smartFetchState.Successful state then m else Remove m id
  | (None, m) => m
  end.

(** The part of [update] after the records were written: [ok] is [err == nil], [details] what the
    agent sent, [background] is [backgroundSmartFetchEnabled()].  The last component says that a
    fetch was started. *)
Definition after_update (now : Z) (background : bool) (sys : System) (details : option Details.t)
    (ok : bool) (m : fetch_map) : System * fetch_map * bool :=
  let '(sys, m) :=
    match details with
    | Some d =>
        if ok then
          if 0 <? Details.SmartInterval d then
            ({| Id := Id sys; detailsFetched := true; smartFetching := smartFetching sys;
                smartInterval := Details.SmartInterval d |},
             UpdateExpiration now m (Id sys) (Details.SmartInterval d + Minute))
          else ({| Id := Id sys; detailsFetched := true; smartFetching := smartFetching sys;
                   smartInterval := smartInterval sys |}, m)
        else (sys, m)
    | None => (sys, m)
    end in
  if background && detailsFetched sys then
    let sys := {| Id := Id sys; detailsFetched := detailsFetched sys;
                  smartFetching := smartFetching sys;
                  smartInterval := if smartInterval sys <=? 0 then Hour else smartInterval sys |} in
    let '(should, m) := shouldFetchSmart now sys m in
    if should && negb (smartFetching sys) then
      ({| Id := Id sys; detailsFetched := detailsFetched sys; smartFetching := true;
          smartInterval := smartInterval sys |}, m, true)
    else (sys, m, false)
  else (sys, m, false).

(** *** Lemmas *)

Lemma interval_pos sys : 0 < smartFetchInterval sys.
Proof using Type. clear. unfold smartFetchInterval. destruct (0 <? _) eqn:E; zbool; [done|by vm_compute]. Qed.

Lemma milli_trunc t : of_milli (UnixMilli t) ≤ t < of_milli (UnixMilli t) + Millisecond.
Proof using Type.
  clear. unfold of_milli, UnixMilli.
  pose proof (Z.div_mod t Millisecond ltac:(by vm_compute)).
  pose proof (Z.mod_pos_bound t Millisecond ltac:(by vm_compute)). lia.
Qed.

(** What a later reader sees of a recorded fetch. *)
Lemma recorded_live t sys err n m now :
  t ≤ now →
  live now (recordSmartFetchResult t sys err n m) !! Id sys =
    if now <=? t + (smartFetchInterval sys + Minute)
    then Some {| smartFetchState.LastAttempt := UnixMilli t;
                 smartFetchState.Successful := negb err && (0 <? n)%nat |}
    else None.
Proof using KVL.
  intros Ht. rewrite live_lookup. unfold recordSmartFetchResult, entries, Set_. simpl.
  rewrite st_getAll_set, lookup_insert_eq. simpl. unfold expired. simpl.
  destruct (_ <? now) eqn:E1, (now <=? _) eqn:E2; zbool; done || lia.
Qed.

Lemma shouldFetch_value now sys m :
  (shouldFetchSmart now sys m).1 =
  match live now m !! Id sys with
  | None => true
  | Some st => negb (now <? of_milli (smartFetchState.LastAttempt st) + smartFetchInterval sys)
  end.
Proof using KVL.
  unfold shouldFetchSmart. pose proof (GetOk_value now m (Id sys)) as Hv.
  destruct (GetOk now m (Id sys)) as [[st|] m']; simpl in *; by rewrite <- Hv.
Qed.

(** *** Properties *)

(** After a fetch at [t] the next one is due exactly when the interval has passed since [t]
    (taken to the millisecond): not before, and from then on.  When the agent reconnects in
    between, a fetch that failed or found no device is due at once, and one that succeeded
    keeps its cooldown. *)
Theorem smart_cooldown t now sys fetched saved m :
  t ≤ now →
  let m' := FetchAndSaveSmartDevices t sys fetched saved m in
  let due := negb (now <? of_milli (UnixMilli t) + smartFetchInterval sys) in
  (shouldFetchSmart now sys m').1 = due ∧
  (shouldFetchSmart now sys (resetFailedSmartFetchState now (Id sys) m')).1 =
    match fetched with
    | Some n => if saved && (0 <? n)%nat then due else true
    | None => true
    end.
Proof using KVL.
  intros Ht. intros m' due.
  assert (∃ err n, m' = recordSmartFetchResult t sys err n m ∧
    negb err && (0 <? n)%nat = match fetched with Some n => saved && (0 <? n)%nat | None => false end)
    as (err&n&Hm'&Hsucc).
  { unfold m', FetchAndSaveSmartDevices. destruct fetched as [n|]; [|by exists true, 0%nat].
    exists (negb saved), n. by rewrite negb_involutive. }
  pose proof (recorded_live t sys err n m now Ht) as Hlive. rewrite <- Hm', Hsucc in Hlive.
  pose proof (milli_trunc t) as Hms. pose proof (interval_pos sys) as Hpos.
  assert (Hlate : t + (smartFetchInterval sys + Minute) < now → due = true).
  { intros Hx. unfold due. apply negb_true_iff, Z.ltb_ge. assert (0 < Minute) by by vm_compute. lia. }
  split.
  - rewrite shouldFetch_value, Hlive. destruct (now <=? _) eqn:E; [done|]. zbool.
    symmetry. by apply Hlate.
  - rewrite shouldFetch_value. unfold resetFailedSmartFetchState.
    pose proof (GetOk_value now m' (Id sys)) as Hv. pose proof (GetOk_live now m' (Id sys)) as Hsame.
    destruct (GetOk now m' (Id sys)) as [o m1]. simpl in Hv, Hsame. subst o.
    destruct (now <=? _) eqn:E in Hlive; rewrite Hlive; simpl.
    + destruct fetched as [n'|]; simpl; [destruct (saved && _); simpl|];
        rewrite ?live_Remove, ?lookup_delete_eq, ?Hsame, ?Hlive; done.
    + zbool. rewrite Hsame, Hlive, Hlate by done.
      by destruct fetched as [n'|]; [destruct (saved && _)|].
Qed.
End smart.

Definition sys1 : System := {|
  Id := "s1"; detailsFetched := true; smartFetching := false; smartInterval := Hour |}.

(** A failed fetch: not due after a minute, but due at once when the agent reconnects. *)
Lemma smart_cooldown_witness :
  let m' := FetchAndSaveSmartDevices 0 sys1 None false (New (M := gmap string)) in
  (shouldFetchSmart Minute sys1 m').1 = false ∧
  (shouldFetchSmart Minute sys1 (resetFailedSmartFetchState Minute "s1" m')).1 = true.
Proof.
  exact (smart_cooldown (M := gmap string) 0 Minute sys1 None false New ltac:(by vm_compute)).
Defined.

(** The first update of an agent that sends its details starts a fetch, the next does not. *)
Example after_update_ex :
  let d := Some (details_of Info.zero f64_zero) in
  let s0 := {| Id := "s1"; detailsFetched := false; smartFetching := false; smartInterval := 0 |} in
  let '(s1, m1, f1) := after_update 0 true s0 d true (New (M := gmap string)) in
  let '(_, _, f2) := after_update Minute true s1 None true m1 in
  f1 = true ∧ f2 = false ∧ smartInterval s1 = Hour.
Proof. by vm_compute. Qed.
End SystemData.
