(* ===== verification/HubStart.v ===== *)
(** * The start of the hub ([internal/hub/hub.go], [Initialize] of
    [internal/hub/systems/system_manager.go])

    The steps of a start run in the hooks of PocketBase's [OnServe], one after the other until
    one fails; the key with which the hub signs in to agents is made once and kept in a file; the
    updaters of the systems start at intervals. *)

From S2P Require Import Prelude GoStrings GoText.

Module HubStart.
Local Open Scope string_scope.
Local Open Scope Z_scope.
Local Open Scope list_scope.

(** ** Hooks *)

Inductive start_step :=
  | SaveSettings | CollectionRules | SyncSystems | Middlewares | ApiRoutes | CronJobs | StartServer
  | InitSystems | Heartbeat | Serve.
#[export] Instance start_step_eq : EqDecision start_step.
Proof. solve_decision. Defined.

(** [initialize], which is the hook of [NewHub] unless the app is set up already. *)
Definition initialize : list start_step := [SaveSettings; CollectionRules].
(** The hook of [StartHub]. *)
Definition StartHub (heartbeat : bool) : list start_step :=
  [SyncSystems; Middlewares; ApiRoutes; CronJobs; StartServer; InitSystems] ++
  (if heartbeat then [Heartbeat] else []).
Definition onAfterBootstrapAndMigrations (bootstrapped : bool) : list start_step * list start_step :=
  if bootstrapped then (initialize, []) else ([], initialize).

(** Steps until one fails. *)
Fixpoint run_steps (fails : start_step → bool) (l : list start_step) : list start_step * bool :=
  match l with
  | [] => ([], true)
  | s :: l => if fails s then ([s], false) else let '(done_, ok) := run_steps fails l in (s :: done_, ok)
  end.

(** A start: at once what needs no server, then the hooks in the order they were bound, each of which
    calls the next; serving is the last.  An error of the first part is ignored. *)
Definition start_hub (fails : start_step → bool) (bootstrapped heartbeat : bool) : list start_step * bool :=
  let '(now, hook) := onAfterBootstrapAndMigrations bootstrapped in
  let '(first, _) := run_steps fails now in
  let '(rest, ok) := run_steps fails (hook ++ StartHub heartbeat ++ [Serve]) in
  (first ++ rest, ok).

Lemma run_steps_prefix fails l s :
  s ∈ (run_steps fails l).1 → ∃ l1 l2, l = l1 ++ s :: l2 ∧ Forall (λ x, fails x = false) l1.
Proof.
  induction l as [|x l IH]; simpl; [by intros ?%elem_of_nil|]. destruct (fails x) eqn:E; simpl.
  - intros ->%list_elem_of_singleton. by exists [], l.
  - destruct (run_steps fails l) as [d ok]. simpl in *. intros [->|Hs]%elem_of_cons; [by exists [], l|].
    destruct (IH Hs) as (l1&l2&->&Hl). exists (x :: l1), l2. split; [done|]. by constructor.
Qed.

(** A hub serves only after every step, so also after the rules of the collections and the routes
    with their checks are in place. *)
Theorem serves_after_setup fails heartbeat :
  Serve ∈ (start_hub fails false heartbeat).1 →
  Forall (λ s, fails s = false) (initialize ++ StartHub heartbeat).
Proof.
  unfold start_hub, onAfterBootstrapAndMigrations. cbn [run_steps].
  pose proof (run_steps_prefix fails (initialize ++ StartHub heartbeat ++ [Serve]) Serve) as H.
  destruct (run_steps fails _) as [d ok]. cbn [fst app] in *. intros Hs. destruct (H Hs) as (l1&l2&Hl&Hf).
  assert (l1 = initialize ++ StartHub heartbeat) as <-; [|done].
  clear -Hl. unfold initialize, StartHub in *. destruct heartbeat; simpl in *;
    do 12 (try (destruct l1 as [|? l1]; simplify_eq/=; try done)).
Qed.

(** ** Jobs *)

Definition registerCronJobs : list (string * string) :=
  [("delete old records", "8 * * * *"); ("create longer records", "*/10 * * * *")].

(** ** The key *)

Section key.
Context {Key : Type}.
(** [ssh.ParsePrivateKey], [ssh.MarshalPrivateKey] with its PEM form, and the authorized key line. *)
Context (ParsePrivateKey : string → option Key) (Marshal : Key → option string) (AuthorizedKey : Key → string).

Inductive read := Content (s : string) | Missing | ReadFailed.

Definition newline : string := String "010" "".
Definition pub_of (k : Key) : string := TrimSuffix (AuthorizedKey k) newline.

(** The file after the call, the key, and the public key that the hub shows. *)
Definition GetSSHKey (signer : option Key) (file : read) (generated : option Key) (write : bool) (pubKey : string)
    : read * option Key * string :=
  match signer with
  | Some k => (file, Some k, pubKey)
  | None =>
      match file with
      | Content s =>
          match ParsePrivateKey s with
          | None => (file, None, pubKey)
          | Some k => (file, Some k, pub_of k)
          end
      | ReadFailed => (file, None, pubKey)
      | Missing =>
          match generated with
          | None => (file, None, pubKey)
          | Some k =>
              match Marshal k with
              | None => (file, None, pubKey)
              | Some s => if write then (Content s, Some k, pub_of k) else (file, None, pubKey)
              end
          end
      end
  end.

(** The calls of a hub's life, and of its restarts. *)
Fixpoint calls (file : read) (pubKey : string) (l : list (option Key * bool)) : list (option Key) * read :=
  match l with
  | [] => ([], file)
  | (g, w) :: l =>
      let '(file, k, pubKey) := GetSSHKey None file g w pubKey in
      let '(ks, file) := calls file pubKey l in (k :: ks, file)
  end.

(** A hub has one key for ever: all calls that succeed, in this run and in later ones, give the
    same key, and a file that exists is never written. *)
Theorem ssh_key_permanent file pubKey l k1 k2 ks file' :
  (∀ k s, Marshal k = Some s → ParsePrivateKey s = Some k) →
  calls file pubKey l = (ks, file') → Some k1 ∈ ks → Some k2 ∈ ks →
  k1 = k2 ∧ (∀ s, file = Content s → file' = file).
Proof using Type.
  intros Hrt. assert (Hc : ∀ l s pubKey, (calls (Content s) pubKey l).2 = Content s ∧
    ∀ k, Some k ∈ (calls (Content s) pubKey l).1 → ParsePrivateKey s = Some k).
  { clear l. induction l as [|[g w] l IH]; intros s pk; simpl; [split; [done|]; by intros k ?%elem_of_nil|].
    destruct (ParsePrivateKey s) as [k0|] eqn:E; simpl.
    - destruct (IH s (pub_of k0)) as [H1 H2]. destruct (calls _ _ l) as [ks0 f0]. simpl in *.
      split; [done|]. intros k [[= <-]|Hin]%elem_of_cons; [done|]. rewrite <- E. by apply H2.
    - destruct (IH s pk) as [H1 H2]. destruct (calls _ _ l) as [ks0 f0]. simpl in *.
      split; [done|]. intros k [?|Hin]%elem_of_cons; [done|]. rewrite <- E. by apply H2. }
  revert file pubKey ks. induction l as [|[g w] l IH]; intros file pubKey ks.
  { intros [= <- <-] ?%elem_of_nil. done. }
  destruct file as [s| |].
  - intros H H1 H2. destruct (Hc ((g, w) :: l) s pubKey) as [Hf Hk]. rewrite H in Hf, Hk. simpl in Hf, Hk.
    apply Hk in H1, H2. split; [congruence|]. intros s' [= <-]. done.
  - simpl. intros H H1 H2. split; [|done].
    assert (Hsame : ∀ f' k p, GetSSHKey None Missing g w pubKey = (f', k, p) →
      k = None ∧ f' = Missing ∨ ∃ s k0, f' = Content s ∧ k = Some k0 ∧ ParsePrivateKey s = Some k0).
    { simpl. intros f' k p E. destruct g as [k0|]; [|left; naive_solver].
      destruct (Marshal k0) as [s|] eqn:Em; [|left; naive_solver].
      destruct w; [|left; naive_solver]. injection E as <- <- <-. right. exists s, k0. auto. }
    simpl in Hsame. destruct (match g with Some _ => _ | None => _ end) as [[f' k] p] eqn:E.
    destruct (Hsame _ _ _ eq_refl) as [[-> ->]|(s&k0&->&->&Hp)].
    + destruct (calls Missing p l) as [ks0 f0] eqn:El. injection H as <- <-.
      apply elem_of_cons in H1 as [|H1]; [done|]. apply elem_of_cons in H2 as [|H2]; [done|].
      by destruct (IH _ _ _ El H1 H2).
    + destruct (Hc l s p) as [_ Hk]. destruct (calls (Content s) p l) as [ks0 f0]. injection H as <- <-.
      simpl in Hk. assert (∀ k, Some k ∈ Some k0 :: ks0 → k = k0) as Hall.
      { intros k [[= <-]|Hin]%elem_of_cons; [done|]. apply Hk in Hin. congruence. }
      by rewrite (Hall k1 H1), (Hall k2 H2).
  - simpl. destruct (calls ReadFailed pubKey l) as [ks0 f0] eqn:El. intros [= <- <-] H1 H2.
    apply elem_of_cons in H1 as [|H1]; [done|]. apply elem_of_cons in H2 as [|H2]; [done|].
    split; [by destruct (IH _ _ _ El H1 H2)|done].
Qed.
End key.

(** ** The updaters *)

Definition interval : Z := 5000.
(** [Initialize]: when each system that is not paused is added, in milliseconds. *)
Definition stagger (n : nat) : Z := Z.min (interval / Z.max 1 (Z.of_nat n)) 2000.
Definition Initialize (systems : list (string * string)) : list (Z * string) :=
  let l := List.filter (λ p, negb (String.eqb p.2 "paused")) systems in
  imap (λ i p, (stagger (List.length l) * (Z.of_nat i + 1), p.1)) l.

(** Every system that is not paused is started, within one interval. *)
Lemma Initialize_spec systems :
  (Initialize systems).*2 = (List.filter (λ p, negb (String.eqb p.2 "paused")) systems).*1 ∧
  Forall (λ p, 0 ≤ p.1 ≤ interval) (Initialize systems).
Proof.
  unfold Initialize. set (l := List.filter _ _). split.
  - rewrite fmap_imap. apply list_eq. intros i. rewrite list_lookup_imap, list_lookup_fmap.
    by destruct (l !! i).
  - apply Forall_lookup. intros i [t id] H. rewrite list_lookup_imap in H.
    destruct (l !! i) as [[k v]|] eqn:Hi; [|done]. simpl in H. injection H as <- _. simpl.
    apply lookup_lt_Some in Hi. unfold stagger, interval.
    assert (0 ≤ 5000 / Z.max 1 (Z.of_nat (List.length l))) by (apply Z.div_pos; lia).
    assert (Z.max 1 (Z.of_nat (List.length l)) * (5000 / Z.max 1 (Z.of_nat (List.length l))) ≤ 5000)
      by (apply Z.mul_div_le; lia).
    nia.
Qed.

(** ** Examples *)

Definition ex_marshal (k : bool) : option string := Some (if k then "a" else "b").
Definition ex_parse (s : string) : option bool :=
  if String.eqb s "a" then Some true else if String.eqb s "b" then Some false else None.
(** Two runs: the second finds the key of the first. *)
Definition ex_calls : list (option bool) * read :=
  calls ex_parse ex_marshal (λ _, "") Missing "" [(Some true, true); (Some false, true)].

Lemma ssh_key_permanent_witness : ex_calls.1 = [Some true; Some true] ∧ true = true.
Proof.
  split; [reflexivity|].
  apply (ssh_key_permanent ex_parse ex_marshal (λ _, "") Missing "" [(Some true, true); (Some false, true)]
    true true ex_calls.1 ex_calls.2).
  - intros [] s [= <-]; reflexivity.
  - reflexivity.
  - left.
  - left.
Defined.
End HubStart.
