(* ===== verification/SystemManager.v ===== *)
(** * Lifecycle of the monitored systems
    ([internal/hub/systems/system_manager.go], [system.go])

    The manager keeps a [System] object per monitored system, with a goroutine
    that polls the agent, and follows the records of the [systems] collection
    through record hooks.  Objects are shared between the store, the updater
    goroutines and the hooks, so they live in a heap and the store maps ids to
    addresses.  A record saved by the manager itself runs the same hooks, as in
    the source.

    The alert component is reached through the interface [HubLike] (the Go
    interface of the same name); the collection through [SystemsTable]. *)

From S2P Require Import Prelude GoFloat GoStrings Entities.

(** A record of the [systems] collection. *)
Record SystemRow := {
  s_id : string;
  s_host : string;
  s_port : string;
  s_status : string;
  s_info : Info.t;
}.

Class SystemsTable (DB : Type) := {
  findSystem : DB → string → option SystemRow;
  saveSystem : DB → SystemRow → option DB;
  systemRows : DB → gmap string SystemRow;
}.

Class SystemsTableLaws (DB : Type) `{SystemsTable DB} := {
  findSystem_spec : ∀ d id r, findSystem d id = Some r → systemRows d !! id = Some r ∧ s_id r = id;
  saveSystem_spec : ∀ d r d', saveSystem d r = Some d' → systemRows d' = <[s_id r := r]> (systemRows d);
  systemRows_key : ∀ d id r, systemRows d !! id = Some r → s_id r = id;
}.

(** What the manager asks of the hub's alert component, whose state is [A].
    [HandleSystemAlerts] is given the data of the system's last update; [deactivateAlerts] is a
    function of the manager's own file that only touches alerts, modelled in [AlertStore]. *)
Class HubLike (A : Type) := {
  HandleSystemAlerts : A → SystemRow → A;
  HandleStatusAlerts : A → string → SystemRow → A;
  CancelPendingStatusAlerts : A → string → A;
  deactivateAlerts : A → string → A;
}.

Module SystemManager.
Section manager.
Context {DB : Type} {SDB : SystemsTable DB} {SDBL : SystemsTableLaws DB}.
Context {M : Type → Type} {KV : KVStore M} {KVL : KVStoreLaws M}.
Context {A : Type} {HL : HubLike A}.

(** The status values. *)
Definition up : string := "up".
Definition down : string := "down".
Definition paused : string := "paused".
Definition pending : string := "pending".

(** [System]; a WebSocket connection is known by a number, and the SSH client by its being
    there.  Dialling the SSH client ([runSSHOperation], [createSSHClient]) is part of the
    transport, whose outcome is an argument of [update]: the operations below only close it,
    and none of them branches on it but to close it. *)
Record System := {
  Id : string;
  Host : string;
  Port : string;
  Status : string;
  client : bool;
  WsConn : option nat;
  cancelled : bool;          (* [cancel] was called *)
  started : bool;            (* [StartUpdater] runs (or ran) *)
}.

Definition with_status (s : System) (st : string) : System := {|
  Id := Id s; Host := Host s; Port := Port s; Status := st; client := client s;
  WsConn := WsConn s; cancelled := cancelled s; started := started s |}.

Record SystemManager := {
  heap : gmap nat System;
  systems : M nat;
  db : DB;
  alerts : A;
  closedWs : gset nat;       (* connections that were closed *)
}.

Definition upd_heap (sm : SystemManager) (h : gmap nat System) : SystemManager := {|
  heap := h; systems := systems sm; db := db sm; alerts := alerts sm; closedWs := closedWs sm |}.
Definition upd_db (sm : SystemManager) (d : DB) : SystemManager := {|
  heap := heap sm; systems := systems sm; db := d; alerts := alerts sm; closedWs := closedWs sm |}.
Definition upd_alerts (sm : SystemManager) (a : A) : SystemManager := {|
  heap := heap sm; systems := systems sm; db := db sm; alerts := a; closedWs := closedWs sm |}.

Definition NewSystemManager (d : DB) (a : A) : SystemManager := {|
  heap := ∅; systems := st_new; db := d; alerts := a; closedWs := ∅ |}.

(** The object stored under the id. *)
Definition GetSystem (sm : SystemManager) (id : string) : option (nat * System) :=
  p ← st_getOk (systems sm) id; s ← heap sm !! p; Some (p, s).

(** [NewSystem]: a fresh object. *)
Definition NewSystem (sm : SystemManager) (id : string) (conn : option nat) : SystemManager * nat :=
  let p := fresh (dom (heap sm)) in
  (upd_heap sm (<[p := {| Id := id; Host := ""; Port := ""; Status := ""; client := false;
                          WsConn := conn; cancelled := false; started := false |}]> (heap sm)), p).

(** ** Adding and removing *)

Definition stop (s : System) : System := {|
  Id := Id s; Host := Host s; Port := Port s; Status := Status s; client := false;
  WsConn := WsConn s; cancelled := true; started := started s |}.

(** The second component is [false] when the system is not found. *)
Definition RemoveSystem (sm : SystemManager) (id : string) : SystemManager * bool :=
  match st_getOk (systems sm) id with
  | None => (sm, false)
  | Some p =>
      let ws := match heap sm !! p with
                | Some s => match WsConn s with Some c => {[c]} | None => ∅ end
                | None => ∅
                end in
      ({| heap := alter stop p (heap sm); systems := st_remove (systems sm) id; db := db sm;
          alerts := alerts sm; closedWs := ws ∪ closedWs sm |}, true)
  end.

Definition start (s : System) : System := {|
  Id := Id s; Host := Host s; Port := Port s; Status := Status s; client := client s;
  WsConn := WsConn s; cancelled := cancelled s; started := true |}.

(** [AddSystem] in its two halves: the check of the store, and the registration. *)
Definition AddSystem_check (sm : SystemManager) (s : System) : bool :=
  negb (st_has (systems sm) (Id s)) &&
  negb (String.eqb (Id s) "" || String.eqb (Host s) "").

Definition AddSystem_commit (sm : SystemManager) (p : nat) (s : System) : SystemManager := {|
  heap := <[p := start s]> (heap sm); systems := st_set (systems sm) (Id s) p; db := db sm;
  alerts := alerts sm; closedWs := closedWs sm |}.

Definition AddSystem (sm : SystemManager) (p : nat) : SystemManager * bool :=
  match heap sm !! p with
  | None => (sm, false)
  | Some s => if AddSystem_check sm s then (AddSystem_commit sm p s, true) else (sm, false)
  end.

(** [AddRecord] up to the call of [AddSystem]: an object made for the occasion, or the one given. *)
Definition AddRecord_prepare (sm : SystemManager) (r : SystemRow) (system : option nat)
    : SystemManager * nat :=
  let sm := if st_has (systems sm) (s_id r) then (RemoveSystem sm (s_id r)).1 else sm in
  let '(sm, p) := match system with
                  | Some p => (sm, p)
                  | None => NewSystem sm (s_id r) None
                  end in
  (upd_heap sm (alter (λ s, {| Id := Id s; Host := s_host r; Port := s_port r;
                               Status := s_status r; client := client s;
                               WsConn := WsConn s; cancelled := cancelled s;
                               started := started s |}) p (heap sm)), p).

Definition AddRecord (sm : SystemManager) (r : SystemRow) (system : option nat)
    : SystemManager * bool :=
  let '(sm, p) := AddRecord_prepare sm r system in AddSystem sm p.

Definition AddWebSocketSystem (sm : SystemManager) (id : string) (conn : nat)
    : SystemManager * bool :=
  match findSystem (db sm) id with
  | None => (sm, false)
  | Some r =>
      let '(sm, p) := NewSystem sm id (Some conn) in
      AddRecord sm r (Some p)
  end.

(** ** Record hooks *)

(** Before a create and before an update. *)
Definition onRecordCreate (r : SystemRow) : SystemRow := {|
  s_id := s_id r; s_host := s_host r; s_port := s_port r; s_status := pending;
  s_info := Info.zero |}.

Definition onRecordUpdate (r : SystemRow) : SystemRow :=
  if String.eqb (s_status r) paused then
    {| s_id := s_id r; s_host := s_host r; s_port := s_port r; s_status := s_status r;
       s_info := Info.zero |}
  else r.

Definition closeSSH (s : System) : System := {|
  Id := Id s; Host := Host s; Port := Port s; Status := Status s; client := false;
  WsConn := WsConn s; cancelled := cancelled s; started := started s |}.

(** After an update: the goroutine [system.update()] of a resumed system is a later step. *)
Definition onRecordAfterUpdateSuccess (sm : SystemManager) (r : SystemRow) : SystemManager :=
  let newStatus := s_status r in
  let found := st_getOk (systems sm) (s_id r) in
  let prevStatus := match found with
                    | Some p => match heap sm !! p with Some s => Status s | None => pending end
                    | None => pending
                    end in
  let sm := match found with
            | Some p => upd_heap sm (alter (λ s, with_status s newStatus) p (heap sm))
            | None => sm
            end in
  if String.eqb newStatus paused then
    let sm := match found with
              | Some p => upd_heap sm (alter closeSSH p (heap sm))
              | None => sm
              end in
    upd_alerts sm (CancelPendingStatusAlerts (deactivateAlerts (alerts sm) (s_id r)) (s_id r))
  else if String.eqb newStatus pending then
    let ws := p ← found; s ← heap sm !! p; WsConn s in
    match ws with
    | Some _ => sm
    | None =>
        let sm := (AddRecord sm r None).1 in
        upd_alerts sm (deactivateAlerts (alerts sm) (s_id r))
    end
  else
    match found with
    | None => (AddRecord sm r None).1
    | Some _ =>
        let sm := if String.eqb newStatus up
                  then upd_alerts sm (HandleSystemAlerts (alerts sm) r) else sm in
        if (String.eqb newStatus down && String.eqb prevStatus up) ||
           (String.eqb newStatus up && String.eqb prevStatus down)
        then upd_alerts sm (HandleStatusAlerts (alerts sm) newStatus r)
        else sm
    end.

(** Saving a record from inside the hub. *)
Definition saveRecord (sm : SystemManager) (r : SystemRow) : SystemManager * bool :=
  let r := onRecordUpdate r in
  match saveSystem (db sm) r with
  | None => (sm, false)
  | Some d => (onRecordAfterUpdateSuccess (upd_db sm d) r, true)
  end.

Definition onRecordAfterDeleteSuccess (sm : SystemManager) (id : string) : SystemManager :=
  (RemoveSystem sm id).1.

(** ** The updater *)

(** [getRecord]: a system without record is removed. *)
Definition getRecord (sm : SystemManager) (s : System) : SystemManager * option SystemRow :=
  match findSystem (db sm) (Id s) with
  | Some r => (sm, Some r)
  | None => ((RemoveSystem sm (Id s)).1, None)
  end.

Definition row_status (r : SystemRow) (st : string) : SystemRow := {|
  s_id := s_id r; s_host := s_host r; s_port := s_port r; s_status := st; s_info := s_info r |}.

Definition setDown (sm : SystemManager) (p : nat) : SystemManager :=
  match heap sm !! p with
  | None => sm
  | Some s =>
      if String.eqb (Status s) down || String.eqb (Status s) paused then sm
      else match getRecord sm s with
           | (sm, None) => sm
           | (sm, Some r) => (saveRecord sm (row_status r down)).1
           end
  end.

(** [handlePaused]: [pong] is the outcome of the ping. *)
Definition handlePaused (sm : SystemManager) (s : System) (pong : bool) : SystemManager :=
  match WsConn s with
  | None => (RemoveSystem sm (Id s)).1
  | Some _ => if pong then sm else (RemoveSystem sm (Id s)).1
  end.

(** The transaction of [createRecords] as far as the manager sees it: [info] is the new data,
    [ok] whether the statistics could be written.  The boolean is [err == nil]. *)
Definition createRecords (sm : SystemManager) (s : System) (info : Info.t) (ok : bool)
    : SystemManager * bool :=
  match getRecord sm s with
  | (sm, None) => (sm, false)
  | (sm, Some r) =>
      if ok then saveRecord sm {| s_id := s_id r; s_host := s_host r; s_port := s_port r;
                                  s_status := up; s_info := info |}
      else (sm, false)
  end.

(** [update]: [pong] is the outcome of a ping, [data] the agent's answer ([None] when it
    cannot be reached).  The boolean is [err == nil]. *)
Definition update (sm : SystemManager) (p : nat) (pong : bool) (data : option Info.t) (ok : bool)
    : SystemManager * bool :=
  match heap sm !! p with
  | None => (sm, true)
  | Some s =>
      if String.eqb (Status s) paused then (handlePaused sm s pong, true)
      else match data with
           | None => (sm, false)
           | Some info => createRecords sm s info ok
           end
  end.

(** A tick of the updater: a failed update sets the system down. *)
Definition tick (sm : SystemManager) (p : nat) (pong : bool) (data : option Info.t) (ok : bool)
    : SystemManager :=
  let '(sm, good) := update sm p pong data ok in
  if good then sm else setDown sm p.

Definition set_ws (s : System) (c : option nat) : System := {|
  Id := Id s; Host := Host s; Port := Port s; Status := Status s; client := client s;
  WsConn := c; cancelled := cancelled s; started := started s |}.

(** The branch [<-downChan] of the updater's loop. *)
Definition connection_lost (sm : SystemManager) (p : nat) : SystemManager :=
  setDown (upd_heap sm (alter (λ s, set_ws s None) p (heap sm))) p.

(** What wakes the updater: its start (after the wait of a system without WebSocket), a tick of
    its ticker, the jitter of a new WebSocket, and the connection's [DownChan].  The outcomes of
    the polls are those of [update]. *)
Inductive wake :=
| Started (pong : bool) (data : option Info.t) (ok : bool)
| Ticked (pong : bool) (data : option Info.t) (ok : bool)
| Jitter (pong : bool) (data : option Info.t) (ok : bool)
| DownChan.

(** [StartUpdater]: its first update and the branches of its loop. *)
Definition StartUpdater (sm : SystemManager) (p : nat) (w : wake) : SystemManager :=
  match w with
  | Started pong data ok =>
      match heap sm !! p with
      | Some s => if negb (String.eqb (Status s) paused) && negb (cancelled s)
                  then tick sm p pong data ok else sm
      | None => sm
      end
  | Ticked pong data ok | Jitter pong data ok => tick sm p pong data ok
  | DownChan => connection_lost sm p
  end.

(** [onTokenRotated]: the WebSocket of the system must authenticate again. *)
Definition onTokenRotated (sm : SystemManager) (id : string) : SystemManager :=
  match GetSystem sm id with
  | None => sm
  | Some (p, s) =>
      match WsConn s with
      | None => sm
      | Some _ => (RemoveSystem (setDown sm p) id).1
      end
  end.

(** ** Runs *)

(** An operation on the system [id], from begin to end: users save and delete records; agents
    connect; updaters run (a goroutine that was cancelled may still be woken before it sees the
    cancellation, so [step_updater] does not ask). *)
Inductive step : string → SystemManager → SystemManager → Prop :=
| step_create sm r d :
    saveSystem (db sm) (onRecordCreate r) = Some d →
    step (s_id r) sm (AddRecord (upd_db sm d) (onRecordCreate r) None).1
| step_save sm r : step (s_id r) sm (saveRecord sm r).1
| step_delete sm id d : step id sm (onRecordAfterDeleteSuccess (upd_db sm d) id)
| step_connect sm id c : step id sm (AddWebSocketSystem sm id c).1
| step_load sm r :                       (* [Initialize] *)
    step (s_id r) sm (AddSystem (upd_heap (NewSystem sm (s_id r) None).1
               (alter (λ s, {| Id := Id s; Host := s_host r; Port := s_port r;
                               Status := s_status r; client := client s; WsConn := WsConn s;
                               cancelled := cancelled s; started := started s |})
                  (NewSystem sm (s_id r) None).2 (heap (NewSystem sm (s_id r) None).1)))
             (NewSystem sm (s_id r) None).2).1
| step_updater sm p s w : heap sm !! p = Some s → step (Id s) sm (StartUpdater sm p w)
| step_resume sm p s pong data ok : heap sm !! p = Some s → step (Id s) sm (update sm p pong data ok).1
| step_rotate sm id : step id sm (onTokenRotated sm id).

(** The beginning of an [AddRecord] for a record, or for the system of a new connection. *)
Definition AddRecord_start (sm : SystemManager) (r : SystemRow) (conn : option nat) : SystemManager * nat :=
  match conn with
  | None => AddRecord_prepare sm r None
  | Some c => let '(sm, p) := NewSystem sm (s_id r) (Some c) in AddRecord_prepare sm r (Some p)
  end.

(** The check and the registration of [AddSystem] are two accesses of the store without a lock.
    [adding] has the objects that passed the check and are not registered yet; other operations run
    in between.  [free id] says whether an operation on [id] may begin. *)
Record managing := { mgr : SystemManager; adding : gset nat }.

Inductive run_step (free : managing → string → Prop) : managing → managing → Prop :=
| run_operation m id sm' :
    free m id → step id (mgr m) sm' → run_step free m {| mgr := sm'; adding := adding m |}
| run_check m d r conn sm' p s :         (* up to the check; [d]: the record may just have been saved *)
    free m (s_id r) → AddRecord_start (upd_db (mgr m) d) r conn = (sm', p) →
    heap sm' !! p = Some s → AddSystem_check sm' s = true →
    run_step free m {| mgr := sm'; adding := {[p]} ∪ adding m |}
| run_commit m p s :                     (* the rest of [AddSystem] *)
    p ∈ adding m → heap (mgr m) !! p = Some s →
    run_step free m {| mgr := AddSystem_commit (mgr m) p s; adding := adding m ∖ {[p]} |}
| run_alerts m a :                       (* what hooks do to alerts afterwards *)
    run_step free m {| mgr := upd_alerts (mgr m) a; adding := adding m |}.

(** Operations on one system do not overlap: none begins while one is inside [AddSystem]. *)
Definition apart (m : managing) (id : string) : Prop :=
  ∀ p s, p ∈ adding m → heap (mgr m) !! p = Some s → Id s ≠ id.
Definition overlapping (m : managing) (id : string) : Prop := True.

Inductive reachable (free : managing → string → Prop) (d : DB) (a : A) : managing → Prop :=
| reachable_new : reachable free d a {| mgr := NewSystemManager d a; adding := ∅ |}
| reachable_step m m' : reachable free d a m → run_step free m m' → reachable free d a m'.

(** ** Invariant: one live updater per system *)

Definition stored (sm : SystemManager) : gmap string nat := st_getAll (systems sm).

Definition live (s : System) : Prop := started s = true ∧ cancelled s = false.

Record Inv (sm : SystemManager) : Prop := {
  inv_stored : ∀ id p, stored sm !! id = Some p → ∃ s, heap sm !! p = Some s ∧ Id s = id ∧
                 live s ∧ Id s ≠ "" ∧ Host s ≠ "";
  inv_live : ∀ p s, heap sm !! p = Some s → live s → stored sm !! Id s = Some p;
}.

(** Changes of an object that its updater and its place in the store do not see. *)
Definition keeps (f : System → System) : Prop :=
  ∀ s, Id (f s) = Id s ∧ started (f s) = started s ∧ cancelled (f s) = cancelled s ∧
       Host (f s) = Host s.

Lemma inv_alter sm p f : keeps f → Inv sm → Inv (upd_heap sm (alter f p (heap sm))).
Proof.
  intros Hf [Hs Hl]. split; simpl.
  - intros id q (s&Hq&Hid&Hlive&Hne&Hh)%Hs. rewrite lookup_alter. case_decide; subst.
    + exists (f s). rewrite Hq. destruct (Hf s) as (E1&E2&E3&E4).
      unfold live. by rewrite E1, E2, E3, E4.
    + by exists s.
  - intros q s. rewrite lookup_alter. case_decide; subst; [|by apply Hl].
    intros (s0&Hq&->)%fmap_Some. destruct (Hf s0) as (E1&E2&E3&_). unfold live.
    rewrite E1, E2, E3. by apply Hl.
Qed.

Lemma inv_upd_db sm d : Inv sm → Inv (upd_db sm d).
Proof. by intros [Hs Hl]. Qed.
Lemma inv_upd_alerts sm a : Inv sm → Inv (upd_alerts sm a).
Proof. by intros [Hs Hl]. Qed.

Lemma inv_Remove sm id : Inv sm → Inv (RemoveSystem sm id).1.
Proof.
  intros HI. destruct HI as [Hs Hl] eqn:HI'. unfold RemoveSystem.
  destruct (st_getOk (systems sm) id) as [p|] eqn:Hp; [|done]. simpl.
  rewrite st_getOk_spec in Hp. fold (stored sm) in Hp.
  destruct (Hs _ _ Hp) as (sp&Hhp&Hidp&_).
  split; unfold stored; simpl; rewrite st_getAll_remove; fold (stored sm).
  - intros id' q [Hne Hq]%lookup_delete_Some. destruct (Hs _ _ Hq) as (s&Hh&Hid&Hrest).
    exists s. rewrite lookup_alter_ne; [done|]. intros ->. simplify_eq.
  - intros q s. rewrite lookup_alter. case_decide as Hpq; subst.
    + intros (s0&Hq&->)%fmap_Some [_ Hc]. done.
    + intros Hq Hlive. pose proof (Hl _ _ Hq Hlive) as Hst.
      rewrite lookup_delete_ne; [done|]. intros Heq. rewrite <- Heq, Hp in Hst. simplify_eq.
Qed.

Lemma inv_New sm id c : Inv sm → Inv (NewSystem sm id c).1.
Proof.
  intros [Hs Hl]. unfold NewSystem. set (p := fresh _).
  assert (heap sm !! p = None) as Hfresh by apply not_elem_of_dom, is_fresh.
  split; simpl.
  - intros id' q (s&Hq&Hrest)%Hs. exists s. by rewrite lookup_insert_ne by congruence.
  - intros q s. rewrite lookup_insert_Some. intros [[_ <-]|[_ Hq]]; [by intros [? _]|by apply Hl].
Qed.

(** Registering an object that is neither running nor stopped. *)
Lemma inv_Add sm p s :
  Inv sm → heap sm !! p = Some s → started s = false → cancelled s = false →
  Inv (AddSystem sm p).1.
Proof.
  intros HI Hp Hst Hca. destruct HI as [Hs Hl] eqn:HI'. unfold AddSystem. rewrite Hp.
  destruct (AddSystem_check sm s) eqn:Hc; [|done]. unfold AddSystem_check, st_has in Hc. zbool.
  rewrite st_getOk_spec in *. fold (stored sm) in *.
  destruct (stored sm !! Id s) eqn:Hn; [done|].
  split; unfold stored; simpl; rewrite st_getAll_set; fold (stored sm).
  - intros id q. rewrite lookup_insert_Some. intros [[<- <-]|[Hne Hq]].
    + exists (start s). rewrite lookup_insert_eq. unfold live. simpl.
      split_and!; try done; by apply String.eqb_neq.
    + destruct (Hs _ _ Hq) as (s'&Hq'&Hid'&Hlive&Hrest). exists s'.
      rewrite lookup_insert_ne; [done|]. intros ->. destruct Hlive. congruence.
  - intros q s'. rewrite lookup_insert_Some. intros [[<- <-]|[Hne Hq]] Hlive.
    + simpl. by rewrite lookup_insert_eq.
    + pose proof (Hl _ _ Hq Hlive) as Hst'. rewrite lookup_insert_ne; [done|].
      intros Heq. rewrite <- Heq in Hst'. congruence.
Qed.

(** An object at [p] that may be given to [AddRecord] for the id. *)
Definition unused (sm : SystemManager) (p : nat) : Prop :=
  ∃ s, heap sm !! p = Some s ∧ started s = false ∧ cancelled s = false.

Lemma unused_New sm id c : unused (NewSystem sm id c).1 (NewSystem sm id c).2.
Proof. eexists. simpl. by rewrite lookup_insert_eq. Qed.

Lemma unused_Remove sm p id : Inv sm → unused sm p → unused (RemoveSystem sm id).1 p.
Proof.
  intros HI (s&Hp&Hst&Hca). exists s. unfold RemoveSystem.
  destruct (st_getOk (systems sm) id) as [q|] eqn:Hq; [|done]. simpl.
  rewrite lookup_alter_ne; [done|]. intros ->. rewrite st_getOk_spec in Hq.
  destruct (inv_stored _ HI _ _ Hq) as (s'&Hp'&_&[Hst' _]&_). congruence.
Qed.

(** Filling in an unused object. *)
Lemma inv_fill sm p f :
  (∀ s, started (f s) = started s ∧ cancelled (f s) = cancelled s) →
  Inv sm → unused sm p →
  Inv (upd_heap sm (alter f p (heap sm))) ∧ unused (upd_heap sm (alter f p (heap sm))) p.
Proof.
  intros Hf [Hs Hl] (s&Hp&Hst&Hca). destruct (Hf s) as [E1 E2]. split.
  - split; simpl.
    + intros id q (s'&Hq&Hid&Hlive&Hrest)%Hs. exists s'. rewrite lookup_alter_ne; [done|].
      intros ->. destruct Hlive. congruence.
    + intros q s'. rewrite lookup_alter. case_decide; subst; [|by apply Hl].
      rewrite Hp. intros [= <-] [Hs' _]. congruence.
  - exists (f s). simpl. rewrite lookup_alter_eq, Hp. by rewrite E1, E2.
Qed.

Lemma inv_prepare sm r o :
  Inv sm → (∀ p, o = Some p → unused sm p) →
  Inv (AddRecord_prepare sm r o).1 ∧ unused (AddRecord_prepare sm r o).1 (AddRecord_prepare sm r o).2.
Proof.
  intros HI Ho. unfold AddRecord_prepare.
  set (sm1 := if st_has (systems sm) (s_id r) then (RemoveSystem sm (s_id r)).1 else sm).
  assert (Inv sm1) as HI1 by (unfold sm1; destruct (st_has _ _); [by apply inv_Remove|done]).
  assert (∀ p, o = Some p → unused sm1 p) as Ho1.
  { intros p Hp. unfold sm1. destruct (st_has _ _); [apply unused_Remove|]; auto. }
  destruct (match o with Some p => (sm1, p) | None => NewSystem sm1 (s_id r) None end)
    as [sm2 p] eqn:Hsm2.
  assert (Inv sm2 ∧ unused sm2 p) as [HI2 Hu].
  { destruct o as [q|]; simplify_eq; [auto|].
    pose proof (unused_New sm1 (s_id r) None) as Hu. pose proof (inv_New sm1 (s_id r) None HI1).
    rewrite Hsm2 in *. done. }
  by apply inv_fill.
Qed.

Lemma inv_AddRecord sm r o :
  Inv sm → (∀ p, o = Some p → unused sm p) → Inv (AddRecord sm r o).1.
Proof.
  intros HI Ho. unfold AddRecord. destruct (inv_prepare sm r o HI Ho) as [HI' (s&Hs&Hst&Hca)].
  destruct (AddRecord_prepare sm r o) as [sm' p]. by eapply inv_Add.
Qed.

Lemma inv_start sm r c :
  Inv sm → Inv (AddRecord_start sm r c).1 ∧ unused (AddRecord_start sm r c).1 (AddRecord_start sm r c).2.
Proof.
  intros HI. destruct c as [c|]; [|by apply inv_prepare]. unfold AddRecord_start.
  pose proof (unused_New sm (s_id r) (Some c)) as Hu. pose proof (inv_New sm (s_id r) (Some c) HI) as HI'.
  destruct (NewSystem sm (s_id r) (Some c)) as [sm1 p]. apply inv_prepare; [done|]. by intros q [= <-].
Qed.

Lemma inv_hook sm r : Inv sm → Inv (onRecordAfterUpdateSuccess sm r).
Proof.
  intros HI. unfold onRecordAfterUpdateSuccess.
  set (sm1 := match st_getOk (systems sm) (s_id r) with Some p => _ | None => sm end).
  assert (Inv sm1) as HI1.
  { unfold sm1. destruct (st_getOk _ _); [|done]. by apply inv_alter. }
  assert (∀ sm' o, Inv sm' → o = None → Inv (AddRecord sm' r o).1) as Hadd.
  { intros sm' o ? ->. by apply inv_AddRecord. }
  destruct (String.eqb (s_status r) paused).
  { apply inv_upd_alerts. destruct (st_getOk _ _); [by apply inv_alter|done]. }
  destruct (String.eqb (s_status r) pending).
  { destruct (_ ≫= _); [done|]. by apply inv_upd_alerts, Hadd. }
  destruct (st_getOk _ _); [|by apply Hadd].
  destruct (String.eqb (s_status r) up); destruct (_ || _); by repeat apply inv_upd_alerts.
Qed.

Lemma inv_save sm r : Inv sm → Inv (saveRecord sm r).1.
Proof.
  intros HI. unfold saveRecord. destruct (saveSystem _ _); [|done].
  by apply inv_hook, inv_upd_db.
Qed.

Lemma inv_getRecord sm s : Inv sm → Inv (getRecord sm s).1.
Proof. intros HI. unfold getRecord. destruct (findSystem _ _); [done|by apply inv_Remove]. Qed.

Lemma inv_setDown sm p : Inv sm → Inv (setDown sm p).
Proof.
  intros HI. unfold setDown. destruct (heap sm !! p) as [s|]; [|done]. destruct (_ || _); [done|].
  pose proof (inv_getRecord sm s HI). destruct (getRecord sm s) as [sm' [r|]]; [|done].
  by apply inv_save.
Qed.

Lemma inv_update sm p pong data ok : Inv sm → Inv (update sm p pong data ok).1.
Proof.
  intros HI. unfold update. destruct (heap sm !! p) as [s|]; [|done].
  destruct (String.eqb (Status s) paused).
  { unfold handlePaused. destruct (WsConn s); [destruct pong; [done|]|]; by apply inv_Remove. }
  destruct data as [info|]; [|done]. unfold createRecords.
  pose proof (inv_getRecord sm s HI). destruct (getRecord sm s) as [sm' [r|]]; [|done].
  destruct ok; [by apply inv_save|done].
Qed.

Lemma inv_tick sm p pong data ok : Inv sm → Inv (tick sm p pong data ok).
Proof.
  intros HI. unfold tick. pose proof (inv_update sm p pong data ok HI).
  destruct (update sm p pong data ok) as [sm1 [|]]; [done|by apply inv_setDown].
Qed.

Lemma manager_inv_step id sm sm' : Inv sm → step id sm sm' → Inv sm'.
Proof.
  intros HI. destruct 1 as [sm r d _|sm r|sm id d|sm id c|sm r|sm p s w _|
    sm p s pong data ok _|sm id].
  - by apply inv_AddRecord; [apply inv_upd_db|].
  - by apply inv_save.
  - by apply inv_Remove, inv_upd_db.
  - unfold AddWebSocketSystem. destruct (findSystem _ _) as [r|]; [|done].
    pose proof (unused_New sm id (Some c)). pose proof (inv_New sm id (Some c) HI).
    destruct (NewSystem sm id (Some c)) as [sm1 p]. apply inv_AddRecord; [done|].
    by intros q [= <-].
  - destruct (inv_fill (NewSystem sm (s_id r) None).1 (NewSystem sm (s_id r) None).2
      (λ s, {| Id := Id s; Host := s_host r; Port := s_port r; Status := s_status r;
               client := client s; WsConn := WsConn s; cancelled := cancelled s;
               started := started s |})) as [HI1 (s&Hs&Hst&Hca)];
      [done|by apply inv_New|apply unused_New|]. by eapply inv_Add.
  - destruct w; simpl; [|by apply inv_tick..|].
    + destruct (heap sm !! p); [|done]. destruct (_ && _); [by apply inv_tick|done].
    + unfold connection_lost. by apply inv_setDown, inv_alter.
  - by apply inv_update.
  - unfold onTokenRotated. destruct (GetSystem sm id) as [[p s]|]; [|done].
    destruct (WsConn s); [|done]. by apply inv_Remove, inv_setDown.
Qed.

(** *** What an operation on one system leaves alone *)

(** Objects of other systems, the ids of all, and the store at the ids of others. *)
Definition framed (id : string) (sm sm' : SystemManager) : Prop :=
  (∀ q s, heap sm !! q = Some s → ∃ s', heap sm' !! q = Some s' ∧ Id s' = Id s ∧ (Id s ≠ id → s' = s)) ∧
  (∀ j, j ≠ id → stored sm' !! j = stored sm !! j).

Lemma framed_refl id sm : framed id sm sm.
Proof. split; [|done]. eauto. Qed.
Lemma framed_trans id sm1 sm2 sm3 : framed id sm1 sm2 → framed id sm2 sm3 → framed id sm1 sm3.
Proof.
  intros [H1 S1] [H2 S2]. split; [|intros j Hj; by rewrite S2, S1].
  intros q s (s1&Hs1&E1&K1)%H1. destruct (H2 _ _ Hs1) as (s2&Hs2&E2&K2). exists s2.
  split_and!; [done|congruence|]. intros Hne. rewrite K2 by congruence. auto.
Qed.
Hint Resolve framed_refl : core.

Lemma framed_alter id sm sm0 p f s :
  heap sm !! p = Some s → Id s = id → (∀ s, Id (f s) = Id s) → framed id sm0 sm →
  framed id sm0 (upd_heap sm (alter f p (heap sm))).
Proof.
  intros Hp Hid Hf F. eapply framed_trans; [exact F|]. split; [|done]. intros q t Hq. simpl.
  rewrite lookup_alter. case_decide; [|eauto]. subst q. rewrite Hq. simplify_eq/=.
  eexists. by split_and!.
Qed.

Lemma framed_alerts id sm0 sm a : framed id sm0 sm → framed id sm0 (upd_alerts sm a).
Proof. done. Qed.

Lemma stored_id sm id p : Inv sm → st_getOk (systems sm) id = Some p → ∃ s, heap sm !! p = Some s ∧ Id s = id.
Proof. intros HI Hp. rewrite st_getOk_spec in Hp. destruct (inv_stored _ HI _ _ Hp) as (s&?&?&_). eauto. Qed.

Lemma framed_Remove sm id : Inv sm → framed id sm (RemoveSystem sm id).1.
Proof.
  intros HI. unfold RemoveSystem. destruct (st_getOk (systems sm) id) as [p|] eqn:Hp; [|done].
  destruct (stored_id sm id p HI Hp) as (s&Hs&Hid). split; simpl.
  - intros q t Hq. rewrite lookup_alter. case_decide; [|eauto]. subst q. rewrite Hq. simplify_eq/=.
    eexists. by split_and!.
  - intros j Hj. unfold stored. simpl. rewrite st_getAll_remove. by rewrite lookup_delete_ne.
Qed.

Lemma framed_New sm id j c : framed j sm (NewSystem sm id c).1.
Proof.
  split; [|done]. intros q s Hq. exists s. simpl. rewrite lookup_insert_ne; [done|].
  intros <-. pose proof (is_fresh (dom (heap sm))) as Hf. apply Hf, elem_of_dom. eauto.
Qed.

Lemma framed_Add sm p s : heap sm !! p = Some s → framed (Id s) sm (AddSystem_commit sm p s).
Proof.
  intros Hp. split; simpl.
  - intros q t Hq. rewrite lookup_insert. case_decide; [|eauto]. subst q. simplify_eq/=.
    eexists. by split_and!.
  - intros j Hj. unfold stored. simpl. rewrite st_getAll_set. by rewrite lookup_insert_ne.
Qed.

Lemma framed_AddSystem sm p s : heap sm !! p = Some s → framed (Id s) sm (AddSystem sm p).1.
Proof. intros Hp. unfold AddSystem. rewrite Hp. destruct (AddSystem_check sm s); [by apply framed_Add|done]. Qed.

(** The object that is filled in has the id of the record. *)
Lemma framed_prepare sm r o :
  Inv sm → (∀ p, o = Some p → ∃ s, heap sm !! p = Some s ∧ Id s = s_id r ∧ started s = false) →
  framed (s_id r) sm (AddRecord_prepare sm r o).1 ∧
  ∃ s, heap (AddRecord_prepare sm r o).1 !! (AddRecord_prepare sm r o).2 = Some s ∧ Id s = s_id r.
Proof.
  intros HI Ho. unfold AddRecord_prepare.
  set (sm1 := if st_has (systems sm) (s_id r) then (RemoveSystem sm (s_id r)).1 else sm).
  assert (framed (s_id r) sm sm1) as F1 by (unfold sm1; destruct (st_has _ _); [by apply framed_Remove|done]).
  assert (∀ p, o = Some p → ∃ s, heap sm1 !! p = Some s ∧ Id s = s_id r) as Ho1.
  { intros p Hp. destruct (Ho p Hp) as (s&Hs&Hid&Hst). unfold sm1. destruct (st_has _ _); [|eauto].
    unfold RemoveSystem. destruct (st_getOk _ _) as [q|]; [|eauto]. simpl. rewrite lookup_alter.
    case_decide; [subst q; exists (stop s)|exists s]; by rewrite Hs. }
  assert (∃ sm2 p s, match o with Some p => (sm1, p) | None => NewSystem sm1 (s_id r) None end = (sm2, p) ∧
    framed (s_id r) sm sm2 ∧ heap sm2 !! p = Some s ∧ Id s = s_id r) as (sm2&p&s&->&F2&Hp&Hid).
  { destruct o as [p|].
    - destruct (Ho1 p eq_refl) as (s&?&?). by exists sm1, p, s.
    - eexists _, _, _. split_and!; [apply surjective_pairing| |simpl; apply lookup_insert_eq|done].
      eapply framed_trans; [done|]. apply framed_New. }
  split; [by eapply framed_alter|]. eexists. simpl. rewrite lookup_alter_eq, Hp. done.
Qed.

Lemma framed_AddRecord sm r o :
  Inv sm → (∀ p, o = Some p → ∃ s, heap sm !! p = Some s ∧ Id s = s_id r ∧ started s = false) →
  framed (s_id r) sm (AddRecord sm r o).1.
Proof.
  intros HI Ho. unfold AddRecord. destruct (framed_prepare sm r o HI Ho) as [F (s&Hs&Hid)].
  destruct (AddRecord_prepare sm r o) as [sm' p]. simpl in *. eapply framed_trans; [exact F|].
  rewrite <- Hid. by apply framed_AddSystem.
Qed.

Lemma framed_hook sm r : Inv sm → framed (s_id r) sm (onRecordAfterUpdateSuccess sm r).
Proof.
  intros HI. unfold onRecordAfterUpdateSuccess.
  set (sm1 := match st_getOk (systems sm) (s_id r) with Some p => _ | None => sm end).
  assert (Inv sm1 ∧ framed (s_id r) sm sm1 ∧ (∀ p, st_getOk (systems sm) (s_id r) = Some p →
    ∃ s, heap sm1 !! p = Some s ∧ Id s = s_id r)) as (HI1&F1&Hst).
  { unfold sm1. destruct (st_getOk (systems sm) (s_id r)) as [p|] eqn:Hp; [|done].
    destruct (stored_id sm _ p HI Hp) as (s&Hs&Hid). split_and!; [by apply inv_alter|by eapply framed_alter|].
    intros q [= <-]. eexists. simpl. by rewrite lookup_alter_eq, Hs. }
  assert (framed (s_id r) sm (AddRecord sm1 r None).1) as FA.
  { eapply framed_trans; [exact F1|]. by apply framed_AddRecord. }
  destruct (String.eqb (s_status r) paused).
  { apply framed_alerts. destruct (st_getOk _ _) as [p|]; [|done].
    destruct (Hst p eq_refl) as (s&?&?). by eapply framed_alter. }
  destruct (String.eqb (s_status r) pending); [by destruct (_ ≫= _); [done|]; apply framed_alerts|].
  destruct (st_getOk _ _); [|done].
  destruct (String.eqb (s_status r) up); destruct (_ || _); by repeat apply framed_alerts.
Qed.

Lemma framed_save sm r : Inv sm → framed (s_id r) sm (saveRecord sm r).1.
Proof.
  intros HI. unfold saveRecord. destruct (saveSystem _ _) as [d|]; [|done].
  assert (s_id (onRecordUpdate r) = s_id r) as <- by (unfold onRecordUpdate; by destruct (String.eqb _ _)).
  apply (framed_hook (upd_db sm d)). by apply inv_upd_db.
Qed.

(** What follows the reading of the record. *)
Lemma framed_getRecord sm s :
  Inv sm → framed (Id s) sm (getRecord sm s).1 ∧ ∀ r, (getRecord sm s).2 = Some r → s_id r = Id s.
Proof.
  intros HI. unfold getRecord. destruct (findSystem _ _) as [r|] eqn:Hf; simpl.
  - split; [done|]. intros ? [= <-]. by apply findSystem_spec in Hf as [_ ?].
  - split; [by apply framed_Remove|done].
Qed.

Lemma framed_setDown sm p s : Inv sm → heap sm !! p = Some s → framed (Id s) sm (setDown sm p).
Proof.
  intros HI Hp. unfold setDown. rewrite Hp. destruct (_ || _); [done|].
  pose proof (framed_getRecord sm s HI) as [F Hr]. pose proof (inv_getRecord sm s HI).
  destruct (getRecord sm s) as [sm' [r|]]; [|done]. simpl in *. eapply framed_trans; [exact F|].
  rewrite <- (Hr r eq_refl). by apply (framed_save sm' (row_status r down)).
Qed.

Lemma framed_update sm p s pong data ok :
  Inv sm → heap sm !! p = Some s → framed (Id s) sm (update sm p pong data ok).1.
Proof.
  intros HI Hp. unfold update. rewrite Hp. destruct (String.eqb (Status s) paused).
  { unfold handlePaused. destruct (WsConn s); [destruct pong; [done|]|]; by apply framed_Remove. }
  destruct data as [info|]; [|done]. unfold createRecords.
  pose proof (framed_getRecord sm s HI) as [F Hr]. pose proof (inv_getRecord sm s HI).
  destruct (getRecord sm s) as [sm' [r|]]; [|done]. simpl in *. destruct ok; [|done].
  eapply framed_trans; [exact F|]. rewrite <- (Hr r eq_refl).
  by apply (framed_save sm' {| s_id := s_id r; s_host := s_host r; s_port := s_port r; s_status := up; s_info := info |}).
Qed.

Lemma framed_tick sm p s pong data ok :
  Inv sm → heap sm !! p = Some s → framed (Id s) sm (tick sm p pong data ok).
Proof.
  intros HI Hp. unfold tick. pose proof (framed_update sm p s pong data ok HI Hp) as F.
  pose proof (inv_update sm p pong data ok HI) as HI'.
  destruct (update sm p pong data ok) as [sm1 [|]]; [done|]. simpl in *.
  destruct (proj1 F _ _ Hp) as (s1&Hs1&E&_). eapply framed_trans; [exact F|]. rewrite <- E. by apply framed_setDown.
Qed.

Lemma step_framed id sm sm' : Inv sm → step id sm sm' → framed id sm sm'.
Proof.
  intros HI. destruct 1 as [sm r d _|sm r|sm id d|sm id c|sm r|sm p s w Hp|sm p s pong data ok Hp|sm id].
  - by apply (framed_AddRecord (upd_db sm d) (onRecordCreate r) None); [apply inv_upd_db|].
  - by apply framed_save.
  - by apply (framed_Remove (upd_db sm d)), inv_upd_db.
  - unfold AddWebSocketSystem. destruct (findSystem _ _) as [r|] eqn:Hf; [|done].
    apply findSystem_spec in Hf as [_ <-].
    eapply framed_trans; [apply (framed_New sm (s_id r) _ (Some c))|].
    pose proof (inv_New sm (s_id r) (Some c) HI). apply framed_AddRecord; [done|].
    intros q [= <-]. eexists. simpl. by rewrite lookup_insert_eq.
  - match goal with |- framed _ _ (AddSystem ?x ?q).1 =>
      assert (∃ s, heap x !! q = Some s ∧ Id s = s_id r) as (s&Hs&E);
      [|assert (framed (s_id r) sm x) as F] end.
    { eexists. simpl. rewrite lookup_alter_eq, lookup_insert_eq. done. }
    { eapply framed_alter; [simpl; apply lookup_insert_eq|done|done|apply framed_New]. }
    eapply framed_trans; [exact F|]. pose proof (framed_AddSystem _ _ _ Hs) as F'. by rewrite E in F'.
  - destruct w; simpl; [|by apply framed_tick..|].
    + rewrite Hp. destruct (_ && _); [by apply framed_tick|done].
    + unfold connection_lost.
      assert (framed (Id s) sm (upd_heap sm (alter (λ s, set_ws s None) p (heap sm)))) as F
        by by eapply framed_alter.
      eapply framed_trans; [exact F|]. destruct (proj1 F _ _ Hp) as (s'&Hs'&<-&_).
      apply framed_setDown; [by apply inv_alter|done].
  - by apply framed_update.
  - unfold onTokenRotated, GetSystem. destruct (st_getOk (systems sm) id) as [p|] eqn:Hst; [|done].
    destruct (stored_id sm id p HI Hst) as (s&Hs&Hid). simpl. rewrite Hs. simpl.
    destruct (WsConn s); [|done]. rewrite <- Hid. eapply framed_trans; [by apply framed_setDown|].
    by apply framed_Remove, inv_setDown.
Qed.

(** *** Runs without overlaps on one system *)

(** An object between check and registration: its id is not in the store, and no other such object
    has it. *)
Definition pending_add (m : managing) (p : nat) : Prop :=
  ∃ s, heap (mgr m) !! p = Some s ∧ started s = false ∧ cancelled s = false ∧ Id s ≠ "" ∧ Host s ≠ "" ∧
    stored (mgr m) !! Id s = None ∧
    ∀ q t, q ∈ adding m → heap (mgr m) !! q = Some t → Id t = Id s → q = p.

Record managed (m : managing) : Prop := {
  managed_inv : Inv (mgr m);
  managed_adding : ∀ p, p ∈ adding m → pending_add m p;
}.

(** An operation on a system that is not being added leaves those that are alone. *)
Lemma managed_framed m id sm' :
  managed m → apart m id → Inv sm' → framed id (mgr m) sm' → managed {| mgr := sm'; adding := adding m |}.
Proof.
  intros [HI Ha] Hf HI' [Hh Hs]. split; [done|]. intros p Hp. simpl in *.
  destruct (Ha p Hp) as (s&Hps&Hst&Hca&Hne&Hho&Hno&Huniq). pose proof (Hf p s Hp Hps) as Hid.
  destruct (Hh _ _ Hps) as (s'&Hs'&_&Es). rewrite (Es Hid) in Hs'. exists s. simpl.
  split_and!; try done; [by rewrite Hs|].
  intros q t Hq Ht E. destruct (Ha q Hq) as (t0&Ht0&_). destruct (Hh _ _ Ht0) as (t'&Ht'&_&Et).
  rewrite (Et (Hf q t0 Hq Ht0)) in Ht'. rewrite Ht' in Ht. injection Ht as ->. by apply (Huniq q t).
Qed.

Lemma managed_step m m' : managed m → run_step apart m m' → managed m'.
Proof.
  intros Hm. pose proof Hm as [HI Ha].
  destruct 1 as [m id sm' Hf Hst|m d r c sm' p s Hf Hpre Hp Hc|m p s Hin Hp|m a].
  - apply (managed_framed m id); [done|done|by eapply manager_inv_step|by apply step_framed].
  - assert (Inv (upd_db (mgr m) d)) as HId by by apply inv_upd_db.
    destruct (inv_start (upd_db (mgr m) d) r c HId) as [HI' Hu]. rewrite Hpre in HI', Hu. simpl in *.
    assert (framed (s_id r) (mgr m) sm' ∧ Id s = s_id r) as [F Hid].
    { unfold AddRecord_start in Hpre. destruct c as [c|].
      - destruct (NewSystem (upd_db (mgr m) d) (s_id r) (Some c)) as [sm1 q] eqn:E.
        destruct (framed_prepare sm1 r (Some q)) as [F (s'&Hs'&E')].
        { pose proof (inv_New _ (s_id r) (Some c) HId) as H'. by rewrite E in H'. }
        { intros ? [= <-]. injection E as <- <-. eexists. simpl. by rewrite lookup_insert_eq. }
        rewrite Hpre in *. simpl in *. split; [|congruence]. eapply framed_trans; [|exact F].
        pose proof (framed_New (upd_db (mgr m) d) (s_id r) (s_id r) (Some c)) as FN. by rewrite E in FN.
      - destruct (framed_prepare (upd_db (mgr m) d) r None) as [F (s'&Hs'&E')]; [done..|].
        rewrite Hpre in *. simpl in *. split; [exact F|congruence]. }
    destruct (managed_framed m (s_id r) sm' Hm Hf HI' F) as [_ Ha'].
    destruct Hu as (s0&Hs0&Hst&Hca). simplify_eq.
    unfold AddSystem_check, st_has in Hc. zbool. rewrite st_getOk_spec in *. fold (stored sm') in *.
    destruct (stored sm' !! Id s) eqn:Hno; [done|].
    assert (∀ q t, q ∈ adding m → heap sm' !! q = Some t → Id t ≠ Id s) as Hother.
    { intros q t Hq Ht. destruct (Ha q Hq) as (t0&Ht0&_). destruct (proj1 F _ _ Ht0) as (t'&Ht'&_&Et).
      pose proof (Hf q t0 Hq Ht0) as Hn. rewrite (Et Hn), Ht in Ht'. injection Ht' as <-. congruence. }
    split; [done|]. simpl. intros q [->%elem_of_singleton|Hq]%elem_of_union.
    + exists s. simpl. split_and!; try done; [by apply String.eqb_neq..|].
      intros q t [->%elem_of_singleton|Hq]%elem_of_union Ht E; [done|]. by destruct (Hother q t Hq Ht).
    + destruct (Ha' q Hq) as (t&Ht&?&?&?&?&?&Hu). exists t. simpl in *. split_and!; try done.
      intros q' t' [->%elem_of_singleton|Hq']%elem_of_union Ht' E; [|by apply (Hu q' t')].
      simplify_eq. by destruct (Hother q t Hq Ht).
  - destruct (Ha p Hin) as (s0&Hs0&Hst&Hca&Hne&Hho&Hno&Huniq). simplify_eq.
    assert (AddSystem (mgr m) p = (AddSystem_commit (mgr m) p s, true)) as E.
    { unfold AddSystem. rewrite Hp. unfold AddSystem_check, st_has. rewrite st_getOk_spec.
      fold (stored (mgr m)). rewrite Hno, (proj2 (String.eqb_neq _ _) Hne), (proj2 (String.eqb_neq _ _) Hho). done. }
    pose proof (inv_Add (mgr m) p s HI Hp Hst Hca) as HI'. rewrite E in HI'. simpl in HI'.
    pose proof (framed_Add (mgr m) p s Hp) as [Hh Hs]. split; [done|]. simpl.
    intros q [Hq Hqp]%elem_of_difference. rewrite elem_of_singleton in Hqp.
    destruct (Ha q Hq) as (t&Ht&?&?&?&?&Hno'&Hu).
    assert (Id t ≠ Id s) as Hd by (intros Et; by apply Hqp, (Huniq q t)).
    exists t. simpl. rewrite lookup_insert_ne by done. split_and!; try done.
    { by rewrite (Hs _ Hd). }
    intros q' t' [Hq' _]%elem_of_difference Ht' Et. rewrite lookup_insert in Ht'.
    case_decide; [simplify_eq/=; congruence|]. by apply (Hu q' t').
  - split; [by apply inv_upd_alerts|]. exact Ha.
Qed.

Lemma manager_inv d a m : reachable apart d a m → managed m.
Proof.
  induction 1 as [|m m' _ IH Hs]; [|by eapply managed_step].
  split; [|done]. split; unfold stored; simpl.
  - intros id p. by rewrite st_getAll_new, lookup_empty.
  - intros p s Hp. by rewrite lookup_empty in Hp.
Qed.

(** *** Properties *)


(** ** Polling as a two-state machine *)

(** What comes of a poll: the agent answered and the answer was written; it did not (or the answer
    could not be written) and the system is set down; it did not, and the status could not be written
    either; or the record could not be read. *)
Inductive outcome := Answered (info : Info.t) | Missed | Stuck | Lost.

Definition up_row (r : SystemRow) (info : Info.t) : SystemRow := {|
  s_id := s_id r; s_host := s_host r; s_port := s_port r; s_status := up; s_info := info |}.

Definition down_outcome (d : DB) (status id : string) : outcome :=
  if String.eqb status down then Missed
  else match findSystem d id with
       | None => Lost
       | Some r => match saveSystem d (row_status r down) with Some _ => Missed | None => Stuck end
       end.

(** [data] is the agent's answer, [ok] whether its statistics could be written. *)
Definition poll_outcome (d : DB) (status id : string) (data : option Info.t) (ok : bool) : outcome :=
  match data with
  | None => down_outcome d status id
  | Some info =>
      match findSystem d id with
      | None => Lost
      | Some r =>
          if ok then match saveSystem d (up_row r info) with
                     | Some _ => Answered info
                     | None => down_outcome d status id
                     end
          else down_outcome d status id
      end
  end.

Abbreviation poll := (option Info.t * bool)%type.

Definition outcome_at (sm : SystemManager) (p : nat) (q : poll) : outcome :=
  match heap sm !! p with Some s => poll_outcome (db sm) (Status s) (Id s) q.1 q.2 | None => Stuck end.

Definition run_polls (p : nat) (polls : list poll) (sm : SystemManager) : SystemManager :=
  fold_left (λ sm q, tick sm p true q.1 q.2) polls sm.

Fixpoint outcomes (sm : SystemManager) (p : nat) (polls : list poll) : list outcome :=
  match polls with
  | [] => []
  | q :: polls => outcome_at sm p q :: outcomes (tick sm p true q.1 q.2) p polls
  end.

(** What polling promises of one system: its status, its record and the calls made to the alert
    component. *)
Record polled := { o_status : string; o_row : SystemRow; o_alerts : A }.

Definition spec_poll (o : polled) (x : outcome) : polled :=
  match x with
  | Answered info =>
      let r := up_row (o_row o) info in
      let a := HandleSystemAlerts (o_alerts o) r in
      {| o_status := up; o_row := r;
         o_alerts := if String.eqb (o_status o) down then HandleStatusAlerts a up r else a |}
  | Missed =>
      if String.eqb (o_status o) down then o
      else let r := row_status (o_row o) down in
           {| o_status := down; o_row := r;
              o_alerts := if String.eqb (o_status o) up
                          then HandleStatusAlerts (o_alerts o) down r else o_alerts o |}
  | Stuck | Lost => o
  end.

Lemma spec_outage o n :
  o_status o = up →
  fold_left spec_poll (repeat Missed (S n)) o =
    {| o_status := down; o_row := row_status (o_row o) down;
       o_alerts := HandleStatusAlerts (o_alerts o) down (row_status (o_row o) down) |}.
Proof using Type.
  clear. intros Hup. simpl fold_left. rewrite Hup. simpl String.eqb. cbn iota.
  by induction n.
Qed.

(** A store in which the system is known under [p] as [s], with record [r]. *)
Definition known (sm : SystemManager) (id : string) (p : nat) (s : System) (r : SystemRow) : Prop :=
  st_getOk (systems sm) id = Some p ∧ heap sm !! p = Some s ∧ Id s = id ∧
  systemRows (db sm) !! id = Some r ∧ s_id r = id.

Lemma with_status_same s : with_status s (Status s) = s.
Proof using Type. clear. by destruct s. Qed.
Lemma with_status_twice s x y : with_status (with_status s x) y = with_status s y.
Proof using Type. clear. by destruct s. Qed.

(** Saving a record with status up or down for a known system. *)
Lemma known_save sm id p s r r' d :
  known sm id p s r → s_id r' = id → s_status r' = up ∨ s_status r' = down →
  saveSystem (db sm) r' = Some d →
  let a1 := if String.eqb (s_status r') up then HandleSystemAlerts (alerts sm) r'
            else alerts sm in
  known (saveRecord sm r').1 id p (with_status s (s_status r')) r' ∧
  (saveRecord sm r').2 = true ∧
  alerts (saveRecord sm r').1 =
    (if (String.eqb (s_status r') down && String.eqb (Status s) up) ||
        (String.eqb (s_status r') up && String.eqb (Status s) down)
     then HandleStatusAlerts a1 (s_status r') r' else a1).
Proof using SDBL.
  intros (Hst&Hh&Hid&Hrow&Hr) Hr' Hstat Hd. unfold saveRecord.
  assert (onRecordUpdate r' = r') as ->.
  { unfold onRecordUpdate. by destruct Hstat as [-> | ->]. }
  rewrite Hd. simpl.
  apply saveSystem_spec in Hd. unfold onRecordAfterUpdateSuccess. simpl.
  rewrite Hr', Hst. simpl. rewrite Hh. simpl.
  assert (∀ a, known (upd_alerts (upd_heap (upd_db sm d)
                (alter (λ s, with_status s (s_status r')) p (heap sm))) a)
                id p (with_status s (s_status r')) r') as Hk.
  { intros a. split_and!; simpl; try done.
    - by rewrite lookup_alter_eq, Hh.
    - by rewrite Hd, Hr', lookup_insert_eq. }
  destruct Hstat as [E|E]; rewrite E in *; simpl;
    [destruct (String.eqb (Status s) down)|destruct (String.eqb (Status s) up)];
    (split; [|done]); solve [apply Hk | apply (Hk (alerts sm))].
Qed.

Lemma save_fails sm r : s_status r = up ∨ s_status r = down → saveSystem (db sm) r = None → saveRecord sm r = (sm, false).
Proof using Type.
  intros Hs E. unfold saveRecord. assert (onRecordUpdate r = r) as -> by (unfold onRecordUpdate; by destruct Hs as [-> | ->]).
  by rewrite E.
Qed.

(** What [setDown] does, by [down_outcome]. *)
Lemma setDown_outcome sm id p s r :
  known sm id p s r → Status s ≠ paused → down_outcome (db sm) (Status s) id ≠ Lost →
  let o := spec_poll {| o_status := Status s; o_row := r; o_alerts := alerts sm |}
             (down_outcome (db sm) (Status s) id) in
  known (setDown sm p) id p (with_status s (o_status o)) (o_row o) ∧
  alerts (setDown sm p) = o_alerts o ∧ o_status o ≠ paused.
Proof using SDBL.
  intros Hk Hnp. pose proof Hk as (Hst&Hh&Hid&Hrow&Hr). unfold setDown, down_outcome, getRecord. rewrite Hh, Hid.
  rewrite (proj2 (String.eqb_neq (Status s) paused) Hnp), orb_false_r.
  destruct (String.eqb (Status s) down) eqn:Hd; [simpl; rewrite Hd; simpl; by rewrite with_status_same|].
  destruct (findSystem (db sm) id) as [r0|] eqn:Hf; [|done].
  apply findSystem_spec in Hf as [Hf _]. assert (r0 = r) as -> by congruence.
  destruct (saveSystem (db sm) (row_status r down)) as [d|] eqn:Hs; intros _; simpl; rewrite ?Hd.
  - destruct (known_save sm id p s r (row_status r down) d Hk Hr) as (Hk'&_&Ha); [by right|done|].
    simpl in *. rewrite orb_false_r in Ha. by rewrite Ha.
  - rewrite save_fails by (by right || done). simpl. by rewrite with_status_same.
Qed.

Lemma tick_poll sm id p s r q :
  known sm id p s r → Status s ≠ paused → outcome_at sm p q ≠ Lost →
  let o := spec_poll {| o_status := Status s; o_row := r; o_alerts := alerts sm |} (outcome_at sm p q) in
  known (tick sm p true q.1 q.2) id p (with_status s (o_status o)) (o_row o) ∧
  alerts (tick sm p true q.1 q.2) = o_alerts o ∧ o_status o ≠ paused.
Proof using SDBL.
  destruct q as [data ok]. intros Hk Hnp. pose proof Hk as (Hst&Hh&Hid&Hrow&Hr).
  unfold outcome_at, tick, update. rewrite Hh, Hid. rewrite (proj2 (String.eqb_neq _ _) Hnp).
  cbn [fst snd]. destruct data as [info|]; [|by apply setDown_outcome].
  unfold poll_outcome, createRecords, getRecord. rewrite Hid.
  destruct (findSystem (db sm) id) as [r0|] eqn:Hf; [|done].
  apply findSystem_spec in Hf as [Hf _]. assert (r0 = r) as -> by congruence.
  destruct ok; [|by apply setDown_outcome]. fold (up_row r info).
  destruct (saveSystem (db sm) (up_row r info)) as [d|] eqn:Hs.
  - intros _. destruct (known_save sm id p s r (up_row r info) d Hk Hr) as (Hk'&Hok&Ha); [by left|done|].
    destruct (saveRecord sm (up_row r info)) as [sm' b]. simpl in *. subst b. by rewrite Ha.
  - rewrite save_fails by (by left || done). by apply setDown_outcome.
Qed.

Lemma polls_run polls : ∀ sm id p s r,
  known sm id p s r → Status s ≠ paused → Forall (λ x, x ≠ Lost) (outcomes sm p polls) →
  let o := fold_left spec_poll (outcomes sm p polls)
             {| o_status := Status s; o_row := r; o_alerts := alerts sm |} in
  known (run_polls p polls sm) id p (with_status s (o_status o)) (o_row o) ∧
  alerts (run_polls p polls sm) = o_alerts o.
Proof using SDBL.
  induction polls as [|q polls IH]; intros sm id p s r Hk Hnp Hl; simpl.
  { by rewrite with_status_same. }
  apply Forall_cons in Hl as [Hx Hl].
  destruct (tick_poll sm id p s r q Hk Hnp Hx) as (Hk'&Ha&Hnp').
  destruct (IH _ _ _ _ _ Hk' Hnp' Hl) as [Hk'' Ha'].
  rewrite with_status_twice in Hk''. simpl in *. rewrite Ha in *.
  by destruct (spec_poll _ (outcome_at sm p q)).
Qed.

(** A system whose record cannot be read is removed, without a word. *)
Lemma tick_lost sm id p s r q :
  known sm id p s r → Status s ≠ paused → outcome_at sm p q = Lost →
  GetSystem (tick sm p true q.1 q.2) id = None ∧ alerts (tick sm p true q.1 q.2) = alerts sm ∧
  db (tick sm p true q.1 q.2) = db sm.
Proof using SDBL KVL.
  destruct q as [data ok]. intros (Hst&Hh&Hid&Hrow&Hr) Hnp.
  unfold outcome_at, tick, update. rewrite Hh, Hid, (proj2 (String.eqb_neq _ _) Hnp). cbn [fst snd].
  set (sm1 := (RemoveSystem sm id).1).
  assert (GetSystem sm1 id = None ∧ alerts sm1 = alerts sm ∧ db sm1 = db sm ∧
    (RemoveSystem sm1 id).1 = sm1 ∧ heap sm1 !! p = Some (stop s)) as (H1&H2&H3&H4&H5).
  { unfold sm1, RemoveSystem, GetSystem. rewrite Hst. simpl. rewrite !st_getOk_spec, st_getAll_remove, lookup_delete_eq.
    rewrite lookup_alter_eq, Hh. done. }
  assert (findSystem (db sm) id = None → setDown sm p = sm ∨ setDown sm p = sm1) as Hdown.
  { intros E. unfold setDown, getRecord. rewrite Hh, Hid, E. destruct (_ || _); auto. }
  assert (down_outcome (db sm) (Status s) id = Lost → findSystem (db sm) id = None ∧ setDown sm p = sm1) as Hd.
  { unfold down_outcome, setDown, getRecord. rewrite Hh, Hid, (proj2 (String.eqb_neq (Status s) paused) Hnp), orb_false_r.
    destruct (String.eqb (Status s) down); [done|]. destruct (findSystem _ _) as [r0|]; [by destruct (saveSystem _ _)|done]. }
  destruct data as [info|]; [|by intros [_ ->]%Hd].
  unfold poll_outcome, createRecords, getRecord. rewrite Hid. destruct (findSystem (db sm) id) as [r0|] eqn:Hf.
  - assert (down_outcome (db sm) (Status s) id ≠ Lost) as Hn by (intros [? _]%Hd; congruence).
    destruct ok; [destruct (saveSystem _ _)|]; done.
  - intros _. fold sm1. unfold setDown, getRecord. rewrite H5. simpl. rewrite Hid, H3, Hf, H4. by destruct (_ || _).
Qed.

(** C6: the polls of a system that is not paused, with nothing else in between, are the two-state
    machine [spec_poll] on their outcomes.  A poll is answered when the agent's answer arrives and is
    written, and missed when it does not or is not; errors of the database on the way change nothing, except
    that a system whose record cannot be read is removed.  Whatever the sequence, the status kept in
    memory, the record and the calls made to the alert component are those of the machine: an outage of
    any length is reported down once, and its end is reported up once, after the threshold alerts. *)
Theorem polling_refines dd aa m id p s r polls :
  reachable apart dd aa m → GetSystem (mgr m) id = Some (p, s) → systemRows (db (mgr m)) !! id = Some r →
  Status s ≠ paused →
  let sm' := run_polls p polls (mgr m) in
  let xs := outcomes (mgr m) p polls in
  let o := fold_left spec_poll xs {| o_status := Status s; o_row := r; o_alerts := alerts (mgr m) |} in
  (Forall (λ x, x ≠ Lost) xs →
   GetSystem sm' id = Some (p, with_status s (o_status o)) ∧
   systemRows (db sm') !! id = Some (o_row o) ∧ alerts sm' = o_alerts o) ∧
  (∀ n info, Status s = up → xs = repeat Missed (S n) ++ [Answered info] →
     let down_row := row_status r down in
     alerts sm' = HandleStatusAlerts
                    (HandleSystemAlerts (HandleStatusAlerts (alerts (mgr m)) down down_row) (up_row r info))
                    up (up_row r info)) ∧
  (∀ q, outcome_at (mgr m) p q = Lost → let sm'' := tick (mgr m) p true q.1 q.2 in
     GetSystem sm'' id = None ∧ alerts sm'' = alerts (mgr m) ∧ db sm'' = db (mgr m)).
Proof using SDBL KVL.
  intros [Hre _]%manager_inv Hget Hrow Hnp. unfold GetSystem in Hget.
  destruct (st_getOk (systems (mgr m)) id) as [q|] eqn:Hst; [|done]. simpl in Hget.
  destruct (heap (mgr m) !! q) as [s0|] eqn:Hh; [|done]. simplify_eq/=.
  assert (Id s = id) as Hid.
  { destruct (stored_id _ _ _ Hre Hst) as (s'&Hh'&Hid). congruence. }
  assert (known (mgr m) id p s r) as Hk by (split_and!; [done..|by eapply systemRows_key]).
  split_and!.
  - intros Hl. destruct (polls_run polls _ _ _ _ _ Hk Hnp Hl) as [(H1&H2&_&H3&_) Ha].
    unfold GetSystem. rewrite H1. simpl. rewrite H2. done.
  - intros n info Hup Hp.
    assert (Forall (λ x, x ≠ Lost) (outcomes (mgr m) p polls)) as Hl.
    { rewrite Hp. constructor; [done|]. apply Forall_app. split; [|by repeat constructor].
      apply Forall_forall. intros x Hx%list_elem_of_In%repeat_spec. by subst x. }
    destruct (polls_run polls _ _ _ _ _ Hk Hnp Hl) as [_ Ha]. rewrite Ha, Hp.
    change (Missed :: ?l ++ ?k) with ((Missed :: l) ++ k).
    rewrite fold_left_app, (spec_outage _ n) by done. simpl. done.
  - intros q. by apply (tick_lost (mgr m) id p s r).
Qed.
End manager.

(** ** A concrete table and a log of the calls to the alert component *)

(** Rows in the order they were written; the latest of an id counts. *)
Definition rows_table := list SystemRow.
Definition rows_of (d : rows_table) : gmap string SystemRow :=
  list_to_map ((λ r, (s_id r, r)) <$> d).

#[local] Instance rows_systems : SystemsTable rows_table := {|
  findSystem d id := rows_of d !! id;
  saveSystem d r := Some (r :: d);
  systemRows := rows_of;
|}.

#[local] Instance rows_systems_laws : SystemsTableLaws rows_table.
Proof.
  assert (∀ d id r, rows_of d !! id = Some r → s_id r = id) as Hk.
  { intros d id r Hr. apply elem_of_list_to_map_2 in Hr.
    apply list_elem_of_fmap in Hr as (r'&Heq&_). by simplify_eq. }
  split; [|by intros d r d' [= <-]|done].
  intros d id r Hr. split; [done|by apply (Hk d)].
Qed.

#[local] Instance log_alerts : HubLike (list (string * string)) := {|
  HandleSystemAlerts a r := a ++ [("system alerts", s_id r)];
  HandleStatusAlerts a st r := a ++ [(st, s_id r)];
  CancelPendingStatusAlerts a id := a ++ [("cancel", id)];
  deactivateAlerts a id := a ++ [("deactivate", id)];
|}.

Definition row1 : SystemRow :=
  {| s_id := "s1"; s_host := "h"; s_port := "1"; s_status := ""; s_info := Info.zero |}.

Definition sm0 : SystemManager (DB := rows_table) (M := gmap string) (A := list (string * string))
  := NewSystemManager [] [].
(* the record is created, then an agent connects, then it answers a poll *)
Definition sm1 := (AddRecord (upd_db sm0 [onRecordCreate row1]) (onRecordCreate row1) None).1.
Definition sm2 := (AddWebSocketSystem sm1 "s1" 7).1.
Definition sm3 := StartUpdater sm2 1 (Started true (Some Info.zero) true).

Definition alone (sm : SystemManager (DB := rows_table) (M := gmap string) (A := list (string * string)))
  : managing := {| mgr := sm; adding := ∅ |}.

Lemma sm3_reachable : reachable apart [] [] (alone sm3).
Proof.
  assert (∀ sm id, apart (alone sm) id) as Ha by (intros sm id p s []%not_elem_of_empty).
  unfold sm3, sm2, sm1.
  eapply reachable_step; [|eapply (run_operation apart (alone sm2)); [apply Ha|by eapply step_updater]].
  eapply reachable_step; [|eapply (run_operation apart (alone sm1)); [apply Ha|by apply step_connect]].
  eapply reachable_step; [apply reachable_new|].
  eapply (run_operation apart (alone sm0)); [apply Ha|by eapply (step_create _ row1)].
Qed.


(** Two polls without an answer, one whose answer cannot be written, and one that succeeds. *)
Definition four_polls : list (option Info.t * bool) :=
  [(None, true); (None, true); (Some Info.zero, false); (Some Info.zero, true)].

Lemma polling_refines_witness :
  outcomes sm3 1 four_polls = repeat Missed 3 ++ [Answered Info.zero] ∧
  alerts (run_polls 1 four_polls sm3) =
    [("system alerts", "s1"); ("down", "s1"); ("system alerts", "s1"); ("up", "s1")].
Proof.
  assert (outcomes sm3 1 four_polls = repeat Missed 3 ++ [Answered Info.zero]) as E by (by vm_compute).
  split; [exact E|].
  refine (eq_trans (proj1 (proj2 (polling_refines [] [] (alone sm3) "s1" 1
    {| Id := "s1"; Host := "h"; Port := "1"; Status := up; client := false; WsConn := Some 7;
       cancelled := false; started := true |}
    {| s_id := "s1"; s_host := "h"; s_port := "1"; s_status := up; s_info := Info.zero |}
    four_polls sm3_reachable _ _ _)) 2 Info.zero _ E) _);
    solve [done | by vm_compute].
Defined.

(** When two goroutines interleave check and registration, both objects get an updater and only the
    second is known to the manager: the record is saved as [pending], which adds the system anew, while
    an agent connects. *)
Definition racing (sm : SystemManager (DB := rows_table) (M := gmap string) (A := list (string * string)))
    (l : gset nat) : managing := {| mgr := sm; adding := l |}.
Definition race1 := (AddRecord_start (upd_db sm0 [onRecordCreate row1]) (onRecordCreate row1) None).1.
Definition race2 := (AddRecord_start (upd_db race1 [onRecordCreate row1]) (onRecordCreate row1) (Some 7)).1.
Definition obj (c : option nat) : System := {|
  Id := "s1"; Host := "h"; Port := "1"; Status := pending; client := false; WsConn := c;
  cancelled := false; started := false |}.
Definition race3 := AddSystem_commit race2 0 (obj None).
Definition race4 := AddSystem_commit race3 1 (obj (Some 7)).

Example AddSystem_race :
  reachable overlapping [] [] (racing race4 ({[1]} ∖ {[1]})) ∧
  st_getOk (systems race4) "s1" = Some 1 ∧
  (started <$> heap race4 !! 0) = Some true ∧ (cancelled <$> heap race4 !! 0) = Some false ∧
  (started <$> heap race4 !! 1) = Some true ∧ (cancelled <$> heap race4 !! 1) = Some false.
Proof.
  assert (run_step overlapping (racing sm0 ∅) (racing race1 {[0]})) as H1.
  { rewrite <- (union_empty_r_L {[0]}).
    by refine (run_check overlapping (racing sm0 ∅) [onRecordCreate row1] (onRecordCreate row1) None race1 0 (obj None) _ _ _ _). }
  assert (run_step overlapping (racing race1 {[0]}) (racing race2 ({[1]} ∪ {[0]}))) as H2.
  { by refine (run_check overlapping (racing race1 {[0]}) [onRecordCreate row1] (onRecordCreate row1) (Some 7) race2 1
      (obj (Some 7)) _ _ _ _). }
  assert (run_step overlapping (racing race2 ({[1]} ∪ {[0]})) (racing race3 {[1]})) as H3.
  { assert ({[1]} = ({[1]} ∪ {[0]} : gset nat) ∖ {[0]}) as -> by set_solver.
    by refine (run_commit overlapping (racing race2 ({[1]} ∪ {[0]})) 0 (obj None) _ _). }
  assert (run_step overlapping (racing race3 {[1]}) (racing race4 ({[1]} ∖ {[1]}))) as H4.
  { by refine (run_commit overlapping (racing race3 {[1]}) 1 (obj (Some 7)) _ _). }
  split; [|by vm_compute].
  eauto using reachable_step, reachable_new.
Qed.

(** The agent connects again while a poll over its old connection is under way: the poll, whose
    connection the manager has closed, fails, and its updater, although cancelled, sets the
    system down that the new connection has just reported up. *)
Definition sm4 := StartUpdater (AddWebSocketSystem sm3 "s1" 8).1 2 (Started true (Some Info.zero) true).
Example replaced_updater_sets_down :
  (cancelled <$> heap sm4 !! 1) = Some true ∧ (s_status <$> systemRows (db sm4) !! "s1") = Some up ∧
  let sm := tick sm4 1 true None true in
  (s_status <$> systemRows (db sm) !! "s1") = Some down ∧
  last (alerts sm) = Some ("down", "s1").
Proof. by vm_compute. Qed.
End SystemManager.
