(* ===== verification/ConnectionManager.v ===== *)
(** * The agent's connection state machine ([agent/connection_manager.go])

    The agent is reached over a WebSocket it opens itself, or over the SSH
    server it runs meanwhile.  [ConnectionManager.Start] is an event loop fed by
    a channel of capacity one; WebSocket read loops, SSH sessions and
    [StopServer] (which the loop itself calls) send on that channel.  The model
    interleaves the loop, the reconnecting goroutines ([connect], which reads the
    state before its dial and again after it), the server goroutine
    ([StartServer]) and the senders; a send on a full channel is a step that is
    not enabled.

    Of [agent/client.go] and [agent/server.go] the model keeps the events they
    send and [lastConnectAttempt]; dialling is an outcome given to the step.
    Health files and logging are left out. *)

From S2P Require Import Prelude GoStrings.

Module ConnectionManager.

Inductive ConnectionState := Disconnected | WebSocketConnected | SSHConnected.
#[export] Instance ConnectionState_eq_dec : EqDecision ConnectionState.
Proof. solve_decision. Defined.

Inductive ConnectionEvent := WebSocketConnect | WebSocketDisconnect | SSHConnect | SSHDisconnect.

Inductive ConnectionType := ConnectionTypeNone | ConnectionTypeSSH | ConnectionTypeWebSocket.

(** Where the goroutine of [Start] is: in its [select], in the dial of a tick, inside [StopServer]
    about to send [SSHDisconnect] (the flag says that the agent shuts down afterwards), or gone. *)
Inductive loop_state := Selecting | Ticking | Stopping (exit : bool) | Exited.

Record WebSocketClient := { lastConnectAttempt : option Z }.

(** Errors: those of [net.OpError] with the text of the inner error, and the others. *)
Inductive connErr := OpError (inner : string) | OtherError (msg : string).

(** Where a goroutine of [connect] is: not begun, before its attempt, in the dial, before it looks
    at the error and the state, about to start server and ticker, before its deferred function. *)
Inductive phase := Spawned | Begun | Dialing | Checking (err : option connErr) | Arming | Deferring.

Record t := {
  State : ConnectionState;
  eventChan : option ConnectionEvent;    (* capacity one *)
  wsClient : option WebSocketClient;
  wsTicker : bool;                       (* there and not stopped *)
  isConnecting : bool;
  connType : ConnectionType;
  server : bool;                         (* [agent.server != nil] *)
  loop : loop_state;
  procs : list phase;                    (* the goroutines of [connect] *)
  starting : nat;                        (* [go c.agent.StartServer] *)
  links : nat;                           (* WebSocket read loops *)
  sessions : nat;                        (* SSH sessions that have not sent their event *)
  dialled : bool;    (* since the agent was last disconnected a [connect] ended on a successful dial *)
  missed : bool;     (* that disconnection was left to goroutines that were past their check *)
}.

(** ** Field updates *)
Definition set_State (c : t) (s : ConnectionState) (ct : ConnectionType) : t := {|
  State := s; eventChan := eventChan c; wsClient := wsClient c; wsTicker := wsTicker c;
  isConnecting := isConnecting c; connType := ct; server := server c; loop := loop c;
  procs := procs c; starting := starting c; links := links c;
  sessions := sessions c; dialled := dialled c; missed := missed c |}.
Definition set_chan (c : t) (e : option ConnectionEvent) : t := {|
  State := State c; eventChan := e; wsClient := wsClient c; wsTicker := wsTicker c;
  isConnecting := isConnecting c; connType := connType c; server := server c; loop := loop c;
  procs := procs c; starting := starting c; links := links c;
  sessions := sessions c; dialled := dialled c; missed := missed c |}.
Definition set_flags (c : t) (ticker connecting : bool) : t := {|
  State := State c; eventChan := eventChan c; wsClient := wsClient c; wsTicker := ticker;
  isConnecting := connecting; connType := connType c; server := server c; loop := loop c;
  procs := procs c; starting := starting c; links := links c;
  sessions := sessions c; dialled := dialled c; missed := missed c |}.
Definition set_loop (c : t) (sv : bool) (l : loop_state) : t := {|
  State := State c; eventChan := eventChan c; wsClient := wsClient c; wsTicker := wsTicker c;
  isConnecting := isConnecting c; connType := connType c; server := sv; loop := l;
  procs := procs c; starting := starting c; links := links c;
  sessions := sessions c; dialled := dialled c; missed := missed c |}.
Definition set_procs (c : t) (ps : list phase) : t := {|
  State := State c; eventChan := eventChan c; wsClient := wsClient c; wsTicker := wsTicker c;
  isConnecting := isConnecting c; connType := connType c; server := server c; loop := loop c;
  procs := ps; starting := starting c; links := links c;
  sessions := sessions c; dialled := dialled c; missed := missed c |}.
Definition set_counts (c : t) (st lk ss : nat) : t := {|
  State := State c; eventChan := eventChan c; wsClient := wsClient c; wsTicker := wsTicker c;
  isConnecting := isConnecting c; connType := connType c; server := server c; loop := loop c;
  procs := procs c; starting := st; links := lk; sessions := ss; dialled := dialled c;
  missed := missed c |}.
Definition set_client (c : t) (w : option WebSocketClient) : t := {|
  State := State c; eventChan := eventChan c; wsClient := w; wsTicker := wsTicker c;
  isConnecting := isConnecting c; connType := connType c; server := server c; loop := loop c;
  procs := procs c; starting := starting c; links := links c;
  sessions := sessions c; dialled := dialled c; missed := missed c |}.
Definition set_ghosts (c : t) (d m : bool) : t := {|
  State := State c; eventChan := eventChan c; wsClient := wsClient c; wsTicker := wsTicker c;
  isConnecting := isConnecting c; connType := connType c; server := server c; loop := loop c;
  procs := procs c; starting := starting c; links := links c;
  sessions := sessions c; dialled := d; missed := m |}.

(** ** Operations *)

Definition newConnectionManager : t := {|
  State := Disconnected; eventChan := None; wsClient := None; wsTicker := false;
  isConnecting := false; connType := ConnectionTypeNone; server := false; loop := Exited;
  procs := []; starting := 0; links := 0; sessions := 0; dialled := false; missed := false |}.

Definition startWsTicker (c : t) : t := set_flags c true (isConnecting c).
Definition stopWsTicker (c : t) : t := set_flags c false (isConnecting c).

(** [env] is the value of [EXIT_ON_DNS_ERROR]. *)
Definition shouldExitOnErr (env : string) (err : connErr) : bool :=
  if String.eqb env "true" then
    match err with OpError inner => Contains inner "lookup" | OtherError _ => false end
  else false.

Definition recently (now : Z) (w : WebSocketClient) : bool :=
  match lastConnectAttempt w with Some a => (now - a <? 5 * Second)%Z | None => false end.

(** [startWebSocketConnection] up to the dial of [wsClient.Connect]: an error, or the dial begins. *)
Definition startWebSocketConnection (now : Z) (c : t) : t * option connErr :=
  if decide (State c ≠ Disconnected) then (c, Some (OtherError "already connected"))
  else match wsClient c with
  | None => (c, Some (OtherError "WebSocket client not initialized"))
  | Some w =>
      if recently now w then (c, Some (OtherError "already connecting"))
      else (set_client c (Some {| lastConnectAttempt := Some now |}), None)
  end.

(** The end of the dial: a read loop, or the error.  Closing a connection ends its read loop, which
    the model lets happen at any time. *)
Definition ws_dialled (dial : option connErr) (c : t) : t :=
  match dial with
  | None => set_counts c (starting c) (S (links c)) (sessions c)
  | Some _ => c
  end.

Definition startSSHServer (c : t) : t :=
  if decide (State c = Disconnected) then set_counts c (S (starting c)) (links c) (sessions c) else c.

(** [connect] looks at the error and at the state: the agent exits ([None]), or the goroutine is to
    start server and ticker or not. *)
Definition connect_check (env : string) (err : option connErr) (c : t) : option (t * bool) :=
  match err with
  | None => Some (set_ghosts c true (missed c), false)
  | Some e => if shouldExitOnErr env e then None else Some (c, bool_decide (State c = Disconnected))
  end.

Definition connect_arm (c : t) : t := startWsTicker (startSSHServer c).

(** The whole of [connect] without anything in between, as [Start] runs it before its loop. *)
Definition connect (env : string) (now : Z) (dial : option connErr) (c : t) : t :=
  let c := set_flags c (wsTicker c) true in
  let '(c, err) := startWebSocketConnection now c in
  let '(c, err) := match err with None => (ws_dialled dial c, dial) | Some e => (c, Some e) end in
  match connect_check env err c with
  | None => set_loop c false Exited
  | Some (c, arm) => let c := if arm then connect_arm c else c in set_flags c (wsTicker c) false
  end.

(** The first [Start] up to its loop (a second one returns an error at once and changes
    nothing).  [client] is the WebSocket client, if one could be made. *)
Definition Start (env : string) (now : Z) (client : option WebSocketClient)
    (dial : option connErr) : t :=
  let c := newConnectionManager in
  let c := set_loop (set_client c client) false Selecting in
  connect env now dial (startWsTicker c).

(** [StopServer] up to its send: a running server is closed. *)
Definition StopServer (c : t) (exit : bool) : t :=
  if server c then set_loop c false (Stopping exit)
  else if exit then set_loop c false Exited else c.

(** A goroutine that has its look at the state before it. *)
Definition pending (p : phase) : bool := match p with Deferring => false | _ => true end.
Definition armed (c : t) : bool := existsb pending (procs c).

Definition handleStateChange (c : t) (newState : ConnectionState) : t :=
  if decide (State c = newState) then c
  else match newState with
  | WebSocketConnected =>
      let c := stopWsTicker (set_State c WebSocketConnected ConnectionTypeWebSocket) in
      if server c then StopServer c false else set_flags c (wsTicker c) false
  | SSHConnected =>
      set_flags (stopWsTicker (set_State c SSHConnected ConnectionTypeSSH)) false false
  | Disconnected =>
      let c := set_State c Disconnected ConnectionTypeNone in
      if isConnecting c then set_ghosts c false (negb (armed c))
      else
        let c := set_ghosts (set_flags c (wsTicker c) true) false false in
        set_procs c (procs c ++ [Spawned])
  end.

Definition handleEvent (c : t) (event : ConnectionEvent) : t :=
  match event with
  | WebSocketConnect => handleStateChange c WebSocketConnected
  | SSHConnect => handleStateChange c SSHConnected
  | WebSocketDisconnect =>
      if decide (State c = WebSocketConnected) then handleStateChange c Disconnected else c
  | SSHDisconnect =>
      if decide (State c = SSHConnected) then handleStateChange c Disconnected else c
  end.

(** ** Interleavings *)

(** A step of the [i]th goroutine of [connect], which is in phase [p]; the agent may exit. *)
Definition to (c : t) (i : nat) (p : phase) : t := set_procs c (<[i := p]> (procs c)).

Inductive connect_step (env : string) (c : t) (i : nat) : phase → t → Prop :=
| connect_begin : connect_step env c i Spawned (to (set_flags c (wsTicker c) true) i Begun)
| connect_attempt now c1 err :           (* after the sleep *)
    startWebSocketConnection now c = (c1, err) →
    connect_step env c i Begun (to c1 i (match err with None => Dialing | _ => Checking err end))
| connect_dialled dial :
    connect_step env c i Dialing (to (ws_dialled dial c) i (Checking dial))
| connect_exit err :                     (* [os.Exit] *)
    connect_check env err c = None → connect_step env c i (Checking err) (set_loop c false Exited)
| connect_checked err c1 arm :
    connect_check env err c = Some (c1, arm) →
    connect_step env c i (Checking err) (to c1 i (if arm then Arming else Deferring))
| connect_armed : connect_step env c i Arming (to (connect_arm c) i Deferring)
| connect_end :
    connect_step env c i Deferring (set_procs (set_flags c (wsTicker c) false) (delete i (procs c))).

Inductive step (env : string) : t → t → Prop :=
| step_event c e :
    loop c = Selecting → eventChan c = Some e → step env c (handleEvent (set_chan c None) e)
| step_tick c now c1 err :
    loop c = Selecting → wsTicker c = true → startWebSocketConnection now c = (c1, err) →
    step env c (set_loop c1 (server c1) (match err with None => Ticking | Some _ => Selecting end))
| step_ticked c dial :
    loop c = Ticking →
    step env c (set_loop (ws_dialled dial c) (server c) Selecting)
| step_signal c : loop c = Selecting → step env c (StopServer c true)
| step_stopped c b :                     (* the send of [StopServer] *)
    loop c = Stopping b → eventChan c = None →
    step env c (set_loop (set_flags (set_chan c (Some SSHDisconnect)) (wsTicker c)
                   (if b then isConnecting c else false))
                 (server c) (if b then Exited else Selecting))
| step_connect c i p c' :
    loop c ≠ Exited → procs c !! i = Some p → connect_step env c i p c' → step env c c'
| step_serve c n (ok : bool) :           (* [StartServer], [ok] when it can listen *)
    loop c ≠ Exited → starting c = S n →
    step env c (set_loop (set_counts c n (links c) (sessions c)) (server c || ok) (loop c))
| step_accept c :
    loop c ≠ Exited → server c = true →
    step env c (set_counts c (starting c) (links c) (S (sessions c)))
| step_session c n :                     (* [handleSession] *)
    loop c ≠ Exited → sessions c = S n → eventChan c = None →
    step env c (set_chan (set_counts c (starting c) (links c) n) (Some SSHConnect))
| step_auth c n :                        (* [handleAuthChallenge] *)
    loop c ≠ Exited → links c = S n → eventChan c = None →
    step env c (set_chan c (Some WebSocketConnect))
| step_close c n :                       (* [OnClose] *)
    loop c ≠ Exited → links c = S n → eventChan c = None →
    step env c (set_chan (set_counts c (starting c) n (sessions c)) (Some WebSocketDisconnect)).

Inductive reachable (env : string) : t → Prop :=
| reachable_start now client dial : reachable env (Start env now client dial)
| reachable_step c c' : reachable env c → step env c c' → reachable env c'.

(** ** Invariant *)

Definition type_of (s : ConnectionState) : ConnectionType :=
  match s with
  | Disconnected => ConnectionTypeNone
  | SSHConnected => ConnectionTypeSSH
  | WebSocketConnected => ConnectionTypeWebSocket
  end.

Record Inv (c : t) : Prop := {
  inv_type : connType c = type_of (State c);
  inv_connecting : isConnecting c = true → procs c ≠ [];
  inv_retry : State c = Disconnected →
    wsTicker c = true ∨ armed c = true ∨ dialled c = true ∨ missed c = true;
}.

Definition Good (c : t) : Prop := loop c ≠ Exited → Inv c.

(** What an attempt, a dial and the look at the state leave as it is. *)
Definition quiet (c c' : t) : Prop :=
  State c' = State c ∧ connType c' = connType c ∧ isConnecting c' = isConnecting c ∧
  wsTicker c' = wsTicker c ∧ procs c' = procs c ∧ missed c' = missed c ∧
  eventChan c' = eventChan c ∧ loop c' = loop c ∧ (dialled c = true → dialled c' = true).

Lemma attempt_quiet now c : quiet c (startWebSocketConnection now c).1.
Proof.
  unfold startWebSocketConnection. case_decide; [done|].
  destruct (wsClient c) as [w|]; [|done]. by destruct (recently now w).
Qed.

Lemma dialled_quiet dial c : quiet c (ws_dialled dial c).
Proof. by destruct dial. Qed.

Lemma check_quiet env err c c1 arm : connect_check env err c = Some (c1, arm) → quiet c c1.
Proof.
  destruct err as [e|]; simpl; [|by intros [= <- _]].
  destruct (shouldExitOnErr env e); [done|]. by intros [= <- _].
Qed.

Lemma quiet_inv c c' : quiet c c' → Inv c → Inv c'.
Proof.
  intros (HS&HT&HI&HW&Hp&Hm&_&_&Hd) [Ht Hc Hr]. unfold armed in *.
  split; unfold armed; rewrite ?HS, ?HT, ?HI, ?HW, ?Hp, ?Hm; naive_solver.
Qed.

Lemma insert_ne i p (l : list phase) : l ≠ [] → <[i := p]> l ≠ [].
Proof. by destruct l, i. Qed.

Lemma armed_insert i p (l : list phase) :
  existsb pending l = true → pending p = true → existsb pending (<[i := p]> l) = true.
Proof.
  revert i. induction l as [|q l IH]; intros [|i]; simpl; try done.
  - intros _ ->. done.
  - intros [->|H]%orb_prop Hp; simpl; [done|]. by rewrite IH, orb_true_r.
Qed.

Lemma armed_lookup i p (l : list phase) : l !! i = Some p → pending p = true → existsb pending l = true.
Proof. intros Hl Hp. apply existsb_exists. exists p. split; [by eapply list_elem_of_In, list_elem_of_lookup_2|done]. Qed.

(** A goroutine goes on to a phase before its look at the state. *)
Lemma pending_inv c c1 i p q :
  procs c !! i = Some p → pending p = true → pending q = true → quiet c c1 → Inv c → Inv (to c1 i q).
Proof.
  intros Hi Hp Hq Hqu HI. pose proof (quiet_inv c c1 Hqu HI) as [Ht Hc Hr].
  destruct Hqu as (_&_&_&_&Hpr&_). split; simpl; [done|intros ?; by apply insert_ne, Hc|].
  intros _. right. left. unfold armed, to. simpl. rewrite Hpr.
  apply armed_insert; [by eapply armed_lookup|done].
Qed.

(** A goroutine that is past its look at the state. *)
Lemma passed_inv c i p :
  Inv c → (State c = Disconnected → wsTicker c = true ∨ dialled c = true) → Inv (to c i p).
Proof.
  intros [Ht Hc Hr] H. split; simpl; [done|intros ?; by apply insert_ne, Hc|]. naive_solver.
Qed.

Lemma armed_delete i (l : list phase) :
  l !! i = Some Deferring → existsb pending (delete i l) = existsb pending l.
Proof.
  revert i. induction l as [|q l IH]; intros [|i]; simpl; try done; [by intros [= ->]|].
  intros Hi. by rewrite IH.
Qed.

Lemma good_connect_step env c i p c' :
  procs c !! i = Some p → connect_step env c i p c' → Inv c → Good c'.
Proof.
  intros Hi Hs HI Hl. destruct Hs as [|now c1 err E|dial|err E|err c1 arm E| |].
  - destruct HI as [Ht Hc Hr]. split; simpl; [done| |].
    + intros _. apply insert_ne. by destruct (procs c).
    + intros _. right. left. apply armed_insert; [by eapply armed_lookup|done].
  - pose proof (attempt_quiet now c) as Hq. rewrite E in Hq.
    eapply pending_inv; [exact Hi|done| |exact Hq|done]. by destruct err.
  - eapply pending_inv; [exact Hi|done|done|apply dialled_quiet|done].
  - done.
  - pose proof (check_quiet _ _ _ _ _ E) as Hq. destruct arm; [by eapply pending_inv|].
    apply passed_inv; [by eapply quiet_inv|]. destruct Hq as (HS&_).
    destruct err as [e|]; simpl in E; [|injection E as <-; by right].
    destruct (shouldExitOnErr env e); [done|]. injection E as <- Ed.
    intros Hd. by rewrite Hd in Ed.
  - destruct HI as [Ht Hc Hr]. unfold connect_arm, startSSHServer.
    apply passed_inv; [case_decide; split; simpl; auto|]. by left.
  - destruct HI as [Ht Hc Hr]. split; simpl; [done|done|]. unfold armed in *. simpl.
    by rewrite armed_delete.
Qed.

Lemma good_state_change c s : Inv c → Inv (handleStateChange c s).
Proof.
  intros [Ht Hc Hr]. unfold handleStateChange, StopServer. case_decide; [done|].
  destruct s; simpl.
  - destruct (isConnecting c) eqn:E; split; simpl; auto.
    + intros _. unfold armed. simpl. destruct (existsb pending (procs c)); auto.
    + intros _. by destruct (procs c).
    + intros _. right. left. unfold armed. simpl. rewrite existsb_app. simpl. by rewrite orb_true_r.
  - destruct (server c); simpl; split; simpl; done.
  - by split.
Qed.

Lemma good_event c e : Inv c → Inv (handleEvent c e).
Proof.
  intros HI. destruct e; simpl; try case_decide; auto using good_state_change.
Qed.

Lemma good_start env now client dial : Good (Start env now client dial).
Proof.
  intros Hl. unfold Start, connect in *.
  destruct (startWebSocketConnection _ _) as [c1 err] eqn:E.
  pose proof (attempt_quiet now (set_flags (startWsTicker (set_loop (set_client newConnectionManager
    client) false Selecting)) true true)) as Hq. simpl in E. rewrite E in Hq. simpl in Hq.
  set (ce := match err with None => _ | Some e => _ end) in *.
  assert (quiet c1 ce.1) as Hq2 by (destruct err; [done|apply dialled_quiet]).
  destruct ce as [c2 err2]. simpl in Hq2.
  destruct (connect_check env err2 c2) as [[c3 arm]|] eqn:Ec; [|done].
  pose proof (check_quiet _ _ _ _ _ Ec) as Hq3.
  destruct Hq as (S1&T1&_&W1&P1&_), Hq2 as (S2&T2&_&W2&P2&_), Hq3 as (S3&T3&_&W3&P3&_).
  simpl in S1, T1, W1. assert (State c3 = Disconnected) as HS by congruence.
  assert (connType c3 = ConnectionTypeNone) as HT by congruence.
  assert (wsTicker c3 = true) as HW by congruence.
  destruct arm; simpl; [|split; simpl; rewrite ?HS; auto].
  unfold connect_arm, startSSHServer. case_decide; split; simpl; rewrite ?HS; auto.
Qed.

Lemma good_step env c c' : Good c → step env c c' → Good c'.
Proof.
  intros HG Hs Hl'. destruct Hs as [c e Hl Hch|c now c1 err Hl Hw E|c dial Hl|c Hl|c b Hl Hch|
    c i p c' Hl Hi Hc|c n ok Hl Hn|c Hl Hsv|c n Hl Hn Hch|c n Hl Hn Hch|c n Hl Hn Hch];
    assert (Inv c) as HI by (apply HG; congruence); pose proof HI as [Ht Hc' Hr].
  - by apply good_event.
  - pose proof (attempt_quiet now c) as Hq. rewrite E in Hq.
    by destruct (quiet_inv _ _ Hq HI).
  - by destruct (quiet_inv _ _ (dialled_quiet dial c) HI).
  - revert Hl'. unfold StopServer. by destruct (server c).
  - destruct b; [done|]. by split.
  - by eapply good_connect_step.
  - by split.
  - by split.
  - by split.
  - by split.
  - by split.
Qed.

Lemma reachable_good env c : reachable env c → Good c.
Proof. induction 1; [by apply good_start|by eapply good_step]. Qed.

(** *** Properties *)

(** C18: while the agent runs, under every interleaving of its loop, its reconnecting goroutines and
    the senders of events: the connection type it reports is the one of its state; the flag
    [isConnecting] is up only while a goroutine of [connect] is there; and a disconnected agent is
    going to try again (its ticker runs, or a goroutine of [connect] has its look at the state
    before it), with two exceptions: since it was last disconnected a goroutine of [connect] ended
    on a dial that succeeded (whatever became of that connection), or it was disconnected while a
    goroutine of [connect] was past its look at the state and so was relied on in vain.  Both
    exceptions can strand the agent for good ([stranded_reachable], [stranded_by_race],
    [stranded_stays]). *)
Theorem disconnected_retries env c :
  reachable env c → loop c ≠ Exited →
  connType c = type_of (State c) ∧ (isConnecting c = true → procs c ≠ []) ∧
  (State c = Disconnected →
     wsTicker c = true ∨ armed c = true ∨ dialled c = true ∨ missed c = true).
Proof. intros Hr Hl. destruct (reachable_good _ _ Hr Hl). auto. Qed.

(** ** Runs *)

Definition client0 : WebSocketClient := {| lastConnectAttempt := None |}.
Definition refused : option connErr := Some (OtherError "connection refused").

(** Extends the run [H] by a step: side conditions by evaluation. *)
Tactic Notation "run_step" hyp(H) uconstr(ctor) :=
  match type of H with
  | reachable ?env ?c =>
      let Hs := fresh in
      eassert (step env c _) as Hs by (eapply ctor; vm_compute; solve [reflexivity | discriminate]);
      let H' := fresh in
      pose proof (reachable_step _ _ _ H Hs) as H'; clear H Hs; vm_compute in H'; rename H' into H
  end.

(** The first goroutine of [connect] takes a step. *)
Tactic Notation "run_connect" hyp(H) uconstr(ctor) :=
  match type of H with
  | reachable ?env ?c =>
      let Hs := fresh in
      eassert (step env c _) as Hs
        by (eapply (step_connect env c 0); [vm_compute; discriminate|vm_compute; reflexivity|
              eapply ctor; vm_compute; reflexivity]);
      let H' := fresh in
      pose proof (reachable_step _ _ _ H Hs) as H'; clear H Hs; vm_compute in H'; rename H' into H
  end.

(** The connection is authenticated and lost: a goroutine is there to reconnect. *)
Lemma disconnected_retries_witness :
  ∃ c, reachable "" c ∧ State c = Disconnected ∧ wsTicker c = false ∧ armed c = true.
Proof.
  pose proof (reachable_start "" 0%Z (Some client0) None) as H. vm_compute in H.
  run_step H step_auth.
  run_step H step_event.
  run_step H step_close.
  run_step H step_event.
  match type of H with reachable _ ?c =>
    exists c; split; [exact H|]; split; [reflexivity|]; split; [reflexivity|];
    destruct (disconnected_retries "" c H) as (_&_&[E|[E|[E|E]]])
  end; [discriminate|reflexivity|discriminate E|exact E|discriminate E|discriminate E].
Defined.

(** A connection that is lost before it was authenticated, after the ticker was stopped: its
    [WebSocketDisconnect] finds the state already disconnected and is ignored. *)
Definition stranded (c : t) : Prop :=
  State c = Disconnected ∧ loop c = Selecting ∧ eventChan c = None ∧ wsTicker c = false ∧
  server c = false ∧ procs c = [] ∧ starting c = 0%nat ∧ links c = 0%nat ∧ sessions c = 0%nat.

(** Nothing but a signal happens to a stranded agent: it does not dial, and it does not serve. *)
Theorem stranded_stays env c c' : stranded c → step env c c' → c' = StopServer c true.
Proof.
  intros (?&?&?&?&?&Hp&?&?&?) Hs. destruct Hs; simplify_eq; try congruence; try done.
  by rewrite Hp in *.
Qed.

Lemma stranded_reachable : ∃ c, reachable "" c ∧ stranded c.
Proof.
  pose proof (reachable_start "" 0%Z (Some client0) None) as H. vm_compute in H.
  run_step H step_auth.
  run_step H step_event.
  run_step H step_close.                 (* the connection is lost *)
  run_step H step_event.
  run_connect H connect_begin.
  run_connect H (connect_attempt "" _ 0 (10 * Second)%Z).
  run_connect H (connect_dialled "" _ 0 None).
  run_connect H connect_checked.
  run_connect H connect_end.
  run_step H step_close.                 (* lost again, before it was authenticated *)
  run_step H step_event.                 (* ignored *)
  eexists. split; [exact H|by vm_compute].
Qed.

(** Two connections; the goroutine that the loss of the first started begins when the second is
    authenticated, finds the agent connected, and the second is lost before it ends. *)
Lemma stranded_by_race : ∃ c, reachable "" c ∧ stranded c ∧ dialled c = false.
Proof.
  pose proof (reachable_start "" 0%Z (Some client0) None) as H. vm_compute in H.
  run_step H (step_tick "" _ (10 * Second)%Z).
  run_step H (step_ticked "" _ None).
  run_step H step_auth.
  run_step H step_event.
  run_step H step_close.                 (* the first is lost *)
  run_step H step_event.
  run_step H step_auth.
  run_step H step_event.                 (* the second is up *)
  run_connect H connect_begin.
  run_connect H (connect_attempt "" _ 0 (10 * Second)%Z).
  run_connect H connect_checked.         (* it finds the agent connected *)
  run_step H step_close.
  run_step H step_event.                 (* the loop leaves reconnecting to it *)
  run_connect H connect_end.
  eexists. split; [exact H|by vm_compute].
Qed.

(** [StopServer] sends on the channel that only its caller, the loop, receives from.  When
    another event arrived in the meantime the loop waits for itself. *)
Definition deadlocked (c : t) : Prop := (∃ b, loop c = Stopping b) ∧ is_Some (eventChan c).

Lemma deadlocked_quiet c c1 : quiet c c1 → deadlocked c → deadlocked c1.
Proof. intros (_&_&_&_&_&_&He&Hl&_) [[b Hb] Hs]. split; [exists b; congruence|by rewrite He]. Qed.

Theorem deadlocked_stays env c c' :
  deadlocked c → step env c c' → deadlocked c' ∨ loop c' = Exited.
Proof.
  intros HD Hs. pose proof HD as [[b Hl] [e He]].
  destruct Hs as [| | | | |c i p c' _ _ Hs| | | | |]; try congruence; try (by left; split; [exists b|exists e]).
  destruct Hs as [|now c1 err E|dial|err E|err c1 arm E| |]; try (by left).
  - left. pose proof (attempt_quiet now c) as Hq. rewrite E in Hq. by apply (deadlocked_quiet c c1).
  - left. by apply (deadlocked_quiet c _ (dialled_quiet dial c)).
  - by right.
  - left. by apply (deadlocked_quiet c c1 (check_quiet _ _ _ _ _ E)).
  - left. unfold connect_arm, startSSHServer. case_decide; exact HD.
Qed.

Lemma deadlocked_reachable : ∃ c, reachable "" c ∧ deadlocked c.
Proof.
  pose proof (reachable_start "" 0%Z (Some client0) refused) as H. vm_compute in H.
  run_step H (step_serve "" _ 0 true).
  run_step H (step_tick "" _ (10 * Second)%Z).
  run_step H (step_ticked "" _ None).
  run_step H step_auth.
  run_step H step_event.                 (* the loop is about to send *)
  run_step H step_close.                 (* another event comes first *)
  eexists. split; [exact H|]. split; by eexists.
Qed.
End ConnectionManager.
