(* ===== verification/AgentConnect.v ===== *)
(** * Agents connecting to the hub ([internal/hub/agent_connect.go], [getUniversalToken] of
    [internal/hub/api.go])

    An agent opens a WebSocket with a token.  The token belongs to a system (a
    row of [fingerprints]) or is a universal token of a user, kept in an
    expiring map or, permanent ones, in [universal_tokens].  After the upgrade
    the hub asks for the agent's fingerprint and decides which system the
    connection belongs to, or creates one.

    The collections are behind [ConnectDB]; SemVer parsing, the WebSocket
    upgrade and the challenge ([GetFingerprint]) are outcomes given to the
    model. *)

From S2P Require Import Prelude GoStrings ExpiryMap.

Record FingerprintRecord := {
  Id : string; SystemId : string; Fingerprint : string; Token : string }.

Module FingerprintResponse.
Record t := { Fingerprint : string; Hostname : string; Port : string; Name : string }.
End FingerprintResponse.

Class ConnectDB (DB : Type) := {
  (* [fingerprints] *)
  queryFingerprints : DB → string → option (list FingerprintRecord);
  findFingerprint : DB → string → option FingerprintRecord;
  newFingerprintId : DB → string;
  saveFingerprint : DB → FingerprintRecord → option DB;
  fingerprints : DB → gmap string FingerprintRecord;
  (* [systems]: name, host, port and users of the new record; its id *)
  insertSystem : DB → string → string → string → list string → option (DB * string);
  owners : DB → gmap string (list string);
  (* [universal_tokens]: the token of a user *)
  findUniversalByToken : DB → string → option string;
  findUniversalByUser : DB → string → option string;
  saveUniversal : DB → string → string → option DB;
  deleteUniversal : DB → string → option DB;
  universal : DB → gmap string string;
}.

Class ConnectDBLaws (DB : Type) `{ConnectDB DB} := {
  fingerprints_id : ∀ d, fingerprints d !! "" = None;
  fingerprints_key : ∀ d id r, fingerprints d !! id = Some r → Id r = id;
  queryFingerprints_spec : ∀ d tok l, queryFingerprints d tok = Some l →
    NoDup l ∧ ∀ r, r ∈ l ↔ fingerprints d !! Id r = Some r ∧ Token r = tok;
  findFingerprint_spec : ∀ d id r, findFingerprint d id = Some r → fingerprints d !! id = Some r;
  newFingerprintId_fresh : ∀ d, newFingerprintId d ≠ "" ∧ fingerprints d !! newFingerprintId d = None;
  saveFingerprint_spec : ∀ d r d', saveFingerprint d r = Some d' →
    fingerprints d' = <[Id r := r]> (fingerprints d) ∧ owners d' = owners d ∧
    universal d' = universal d;
  insertSystem_spec : ∀ d n h p us d' id, insertSystem d n h p us = Some (d', id) →
    owners d !! id = None ∧ owners d' = <[id := us]> (owners d) ∧
    fingerprints d' = fingerprints d ∧ universal d' = universal d;
  findUniversalByToken_spec : ∀ d tok u, findUniversalByToken d tok = Some u →
    universal d !! u = Some tok;
  findUniversalByUser_spec : ∀ d u, findUniversalByUser d u = universal d !! u;
  saveUniversal_spec : ∀ d u tok d', saveUniversal d u tok = Some d' →
    universal d' = <[u := tok]> (universal d);
  deleteUniversal_spec : ∀ d u d', deleteUniversal d u = Some d' →
    universal d' = delete u (universal d);
}.

Module AgentConnect.
Import ExpiryMap.

(** ** [net.SplitHostPort] *)

(** Position of the first and of the last occurrence of a byte. *)
Fixpoint IndexByte (s : string) (c : ascii) : option nat :=
  match s with
  | EmptyString => None
  | String a s => if Ascii.eqb a c then Some 0%nat else S <$> IndexByte s c
  end.

Fixpoint LastIndexByte (s : string) (c : ascii) : option nat :=
  match s with
  | EmptyString => None
  | String a s =>
      match LastIndexByte s c with
      | Some i => Some (S i)
      | None => if Ascii.eqb a c then Some 0%nat else None
      end
  end.

Definition from (i : nat) (s : string) : string := substring i (String.length s) s.

(** The host; [None] for every error. *)
Definition SplitHostPort (hostport : string) : option string :=
  i ← LastIndexByte hostport ":";
  '(host, j, k) ←
    match hostport with
    | String "[" _ =>
        e ← IndexByte hostport "]";
        if decide (S e = i) then Some (substring 1 (e - 1) hostport, 1%nat, S e) else None
    | _ =>
        let host := substring 0 i hostport in
        match IndexByte host ":" with Some _ => None | None => Some (host, 0%nat, 0%nat) end
    end;
  match IndexByte (from j hostport) "[", IndexByte (from k hostport) "]" with
  | None, None => Some host
  | _, _ => None
  end.

Section connect.
Context {DB : Type} `{CDB : ConnectDB DB} {CDBL : ConnectDBLaws DB}.
Context {M : Type → Type} {KV : KVStore M} {KVL : KVStoreLaws M} {RO : RangeOrder string}.

Notation tokens := (ExpiryMap (M := M) (T := string)).

(** A request: its headers (by [Header.Get]) and the peer's address. *)
Record Request := { Header : string → string; RemoteAddr : string }.

Definition getRealIP (r : Request) : string :=
  let cf := Header r "CF-Connecting-IP" in
  let xff := Header r "X-Forwarded-For" in
  if negb (String.eqb cf "") then cf
  else if negb (String.eqb xff "") then
    match Split comma xff with ip :: _ => TrimSpace ip | [] => "" end
  else match SplitHostPort (RemoteAddr r) with Some ip => ip | None => RemoteAddr r end.

(** [agentConnectRequest] once its token was looked up. *)
Record agentConnectRequest := {
  req : Request; token : string; isUniversalToken : bool; userId : string }.

Definition validateAgentHeaders (r : Request) : option (string * string) :=
  let token := Header r "X-Token" in
  let agentVersion := Header r "X-Beszel" in
  if String.eqb agentVersion "" || String.eqb token "" || (64 <? String.length token)%nat
  then None else Some (token, agentVersion).

Definition getFingerprintRecordsByToken (d : DB) (token : string) : list FingerprintRecord :=
  default [] (queryFingerprints d token).

(** The answer to the HTTP request. *)
Inductive answer :=
| Rejected (code : Z) (message : string)
| Upgraded (acr : agentConnectRequest) (fpRecords : list FingerprintRecord).

(** [agentConnect]: [parses] says which versions SemVer accepts, [upgrade] whether the
    connection could be upgraded.  The expiring map changes by its lazy removal. *)
Definition agentConnect (now : Z) (parses : string → bool) (upgrade : bool) (d : DB) (m : tokens)
    (r : Request) : tokens * answer :=
  match validateAgentHeaders r with
  | None => (m, Rejected 400 "")
  | Some (token, agentVersion) =>
      let '(found, m) := GetOk now m token in
      let '(userId, isUniversal) :=
        match found with
        | Some u => (u, true)
        | None =>
            match findUniversalByToken d token with
            | Some u => if String.eqb u "" then ("", false) else (u, true)
            | None => ("", false)
            end
        end in
      let fpRecords := getFingerprintRecordsByToken d token in
      if (List.length fpRecords =? 0)%nat && negb isUniversal then (m, Rejected 401 "Invalid token")
      else if negb (parses agentVersion) then (m, Rejected 401 "Invalid agent version")
      else if negb upgrade then (m, Rejected 500 "WebSocket upgrade failed")
      else (m, Upgraded {| req := r; token := token; isUniversalToken := isUniversal;
                           userId := userId |} fpRecords)
  end.

(** ** The system of a connection *)

Definition SetFingerprint (d : DB) (fp : FingerprintRecord) (fingerprint : string) : option DB :=
  record ← (if String.eqb (Id fp) ""
            then Some {| Id := newFingerprintId d; SystemId := SystemId fp; Fingerprint := "";
                         Token := "" |}
            else findFingerprint d (Id fp));
  saveFingerprint d {| Id := Id record; SystemId := SystemId record; Fingerprint := fingerprint;
                       Token := Token fp |}.

(** [createSystem], from the agent's answer. *)
Definition createSystem (d : DB) (acr : agentConnectRequest) (a : FingerprintResponse.t)
    : option (DB * string) :=
  let remoteAddr := getRealIP (req acr) in
  let hostname := if String.eqb (FingerprintResponse.Hostname a) "" then remoteAddr
                  else FingerprintResponse.Hostname a in
  let port := if String.eqb (FingerprintResponse.Port a) "" then "45876"
              else FingerprintResponse.Port a in
  let name := if String.eqb (FingerprintResponse.Name a) "" then hostname
              else FingerprintResponse.Name a in
  insertSystem d name remoteAddr port [userId acr].

Definition set_fp (r : FingerprintRecord) (f : string) : FingerprintRecord :=
  {| Id := Id r; SystemId := SystemId r; Fingerprint := f; Token := Token r |}.

(** A database, which may have changed even on failure, and the record or the error. *)
Definition outcome : Type := DB * (FingerprintRecord + string).

Definition createNewSystemForUniversalToken (d : DB) (acr : agentConnectRequest)
    (a : FingerprintResponse.t) : outcome :=
  if negb (isUniversalToken acr) || String.eqb (userId acr) "" then (d, inr "invalid token")
  else match createSystem d acr a with
  | None => (d, inr "create failed")
  | Some (d, systemId) =>
      let fp := {| Id := ""; SystemId := systemId; Fingerprint := ""; Token := token acr |} in
      match SetFingerprint d fp (FingerprintResponse.Fingerprint a) with
      | None => (d, inr "save failed")
      | Some d => (d, inl (set_fp fp (FingerprintResponse.Fingerprint a)))
      end
  end.

Definition handleNoRecords (d : DB) (acr : agentConnectRequest) (a : FingerprintResponse.t)
    : outcome :=
  if negb (isUniversalToken acr) || String.eqb (userId acr) ""
  then (d, inr "no matching fingerprints")
  else createNewSystemForUniversalToken d acr a.

Definition handleSingleRecord (d : DB) (fp : FingerprintRecord) (a : FingerprintResponse.t)
    : outcome :=
  if String.eqb (Fingerprint fp) "" then
    match SetFingerprint d fp (FingerprintResponse.Fingerprint a) with
    | None => (d, inr "save failed")
    | Some d => (d, inl (set_fp fp (FingerprintResponse.Fingerprint a)))
    end
  else if negb (String.eqb (Fingerprint fp) (FingerprintResponse.Fingerprint a))
  then (d, inr "fingerprint mismatch")
  else (d, inl fp).

Definition handleMultipleRecordsOrUniversalToken (d : DB) (acr : agentConnectRequest)
    (fps : list FingerprintRecord) (a : FingerprintResponse.t) : outcome :=
  match find (λ r, String.eqb (Fingerprint r) (FingerprintResponse.Fingerprint a)) fps with
  | Some r => (d, inl r)
  | None =>
      if isUniversalToken acr then createNewSystemForUniversalToken d acr a
      else (d, inr "fingerprint mismatch")
  end.

Definition findOrCreateSystemForToken (d : DB) (acr : agentConnectRequest)
    (fps : list FingerprintRecord) (a : FingerprintResponse.t) : outcome :=
  match fps with
  | [] => handleNoRecords d acr a
  | [fp] => if negb (isUniversalToken acr) then handleSingleRecord d fp a
            else handleMultipleRecordsOrUniversalToken d acr fps a
  | _ => handleMultipleRecordsOrUniversalToken d acr fps a
  end.

(** [verifyWsConn]: [answered] is what [GetFingerprint] returned.  The result is the system
    handed to [AddWebSocketSystem]; the connection is closed when there is none. *)
Definition verifyWsConn (d : DB) (acr : agentConnectRequest) (fps : list FingerprintRecord)
    (answered : option FingerprintResponse.t) : DB * option string :=
  match answered with
  | None => (d, None)
  | Some a =>
      match findOrCreateSystemForToken d acr fps a with
      | (d, inl fp) => (d, Some (SystemId fp))
      | (d, inr _) => (d, None)
      end
  end.

(** ** Universal tokens *)

Inductive response :=
| Forbidden
| Failed
| TokenState (token : string) (active permanent : bool).

(** The two helpers of the handler, for the user's record. *)
Definition deletePermanent (d : DB) (userID : string) : option DB :=
  match findUniversalByUser d userID with
  | None => Some d
  | Some _ => deleteUniversal d userID
  end.

Definition upsertPermanent (d : DB) (userID token : string) : option DB :=
  saveUniversal d userID token.

(** [getUniversalToken]: [token], [enable] and [permanent] are the query's values, [uuid] the
    token that is generated when one is needed. *)
Definition getUniversalToken (now : Z) (uuid : string) (superuser : bool) (userID : string)
    (token enable permanent : string) (d : DB) (m : tokens) : DB * tokens * response :=
  if superuser then (d, m, Forbidden)
  else if String.eqb enable "0" then
    (default d (deletePermanent d userID), (RemovebyValue m userID).2, TokenState token false false)
  else if String.eqb enable "1" then
    let token := if String.eqb token "" then uuid else token in
    if String.eqb permanent "1" then
      let m := (RemovebyValue m userID).2 in
      match upsertPermanent d userID token with
      | None => (d, m, Failed)
      | Some d => (d, m, TokenState token true true)
      end
    else (default d (deletePermanent d userID), Set_ now m token userID (60 * Minute),
          TokenState token true false)
  else
    match findUniversalByUser d userID with
    | Some dbToken =>
        if String.eqb token "" || String.eqb token dbToken
        then (d, m, TokenState dbToken true true)
        else (d, m, TokenState token false false)
    | None =>
        let '(existing, m) :=
          if String.eqb token "" then GetByValue now m userID else (None, m) in
        match existing with
        | Some (t, _) => (d, m, TokenState t true false)
        | None =>
            let token := if String.eqb token "" then uuid else token in
            let '(activeUser, m) := GetOk now m token in
            (d, m, TokenState token (bool_decide (activeUser = Some userID)) false)
        end
    end.

(** ** Lemmas *)

(** What an upgraded request says about its token. *)
Lemma upgraded_spec now parses up d m r m' acr fps :
  agentConnect now parses up d m r = (m', Upgraded acr fps) →
  req acr = r ∧ token acr = Header r "X-Token" ∧
  fps = getFingerprintRecordsByToken d (token acr) ∧
  (isUniversalToken acr = true →
     live now m !! token acr = Some (userId acr) ∨ universal d !! userId acr = Some (token acr)) ∧
  (isUniversalToken acr = false → live now m !! token acr = None).
Proof using CDBL KVL.
  unfold agentConnect, validateAgentHeaders. destruct (_ || _ || _); [done|].
  pose proof (GetOk_value now m (Header r "X-Token")) as Hv.
  destruct (GetOk now m _) as [found m1]. simpl in Hv.
  destruct found as [u|].
  - destruct (_ && _), (parses (Header r "X-Beszel")), up; intros; simplify_eq/=; split_and!; auto; done.
  - destruct (findUniversalByToken d _) as [u|] eqn:Hu;
      [apply findUniversalByToken_spec in Hu; destruct (String.eqb u "")|];
      destruct (_ && _), (parses (Header r "X-Beszel")), up; intros; simplify_eq/=; split_and!; auto; done.
Qed.

Lemma set_existing d fp f d' :
  fingerprints d !! Id fp = Some fp → SetFingerprint d fp f = Some d' →
  fingerprints d' = <[Id fp := set_fp fp f]> (fingerprints d).
Proof using CDBL.
  intros Hfp. unfold SetFingerprint. destruct (String.eqb (Id fp) "") eqn:Hid.
  { apply String.eqb_eq in Hid. rewrite Hid, fingerprints_id in Hfp. done. }
  simpl. destruct (findFingerprint d (Id fp)) as [r|] eqn:Hf; [|done].
  apply findFingerprint_spec in Hf. simplify_eq/=. intros Hs.
  by apply saveFingerprint_spec in Hs as [-> _].
Qed.

(** The record that stands for an agent's identity under a token. *)
Definition identity (id sys f tok : string) : FingerprintRecord :=
  {| Id := id; SystemId := sys; Fingerprint := f; Token := tok |}.

Lemma create_spec d acr a d' fp :
  createNewSystemForUniversalToken d acr a = (d', inl fp) →
  isUniversalToken acr = true ∧ userId acr ≠ "" ∧
  owners d !! SystemId fp = None ∧ owners d' !! SystemId fp = Some [userId acr] ∧
  ∃ id, fingerprints d !! id = None ∧
        fingerprints d' = <[id := identity id (SystemId fp) (FingerprintResponse.Fingerprint a)
                                   (token acr)]> (fingerprints d).
Proof using CDBL.
  unfold createNewSystemForUniversalToken, createSystem.
  destruct (isUniversalToken acr); [|done]. destruct (String.eqb (userId acr) "") eqn:Hu; [done|].
  apply String.eqb_neq in Hu. simpl.
  destruct (insertSystem d _ _ _ _) as [[d1 sys]|] eqn:Hi; [|done].
  apply insertSystem_spec in Hi as (Ho&Ho1&Hf1&_). unfold SetFingerprint. simpl.
  destruct (saveFingerprint d1 _) as [d2|] eqn:Hs; [|done]. intros [= <- <-].
  apply saveFingerprint_spec in Hs as (Hf2&Ho2&_). simpl in *.
  split_and!; try done.
  - by rewrite Ho2, Ho1, lookup_insert_eq.
  - exists (newFingerprintId d1). destruct (newFingerprintId_fresh d1) as [_ Hn].
    rewrite Hf1 in *. done.
Qed.

(** The cases in which a connection gets a system. *)
Lemma verify_cases d acr fps a d' sys :
  verifyWsConn d acr fps (Some a) = (d', Some sys) →
  (∃ fp, fps = [fp] ∧ isUniversalToken acr = false ∧ Fingerprint fp = "" ∧ SystemId fp = sys ∧
         SetFingerprint d fp (FingerprintResponse.Fingerprint a) = Some d') ∨
  (∃ fp, fp ∈ fps ∧ Fingerprint fp = FingerprintResponse.Fingerprint a ∧ SystemId fp = sys ∧
         d' = d) ∨
  (∃ fp, createNewSystemForUniversalToken d acr a = (d', inl fp) ∧ SystemId fp = sys ∧
         ∀ r, r ∈ fps → Fingerprint r ≠ FingerprintResponse.Fingerprint a).
Proof using Type.
  unfold verifyWsConn. destruct (findOrCreateSystemForToken d acr fps a) as [d1 [fp|e]] eqn:Hf;
    [|done]. intros [= <- <-].
  assert (Hmulti : handleMultipleRecordsOrUniversalToken d acr fps a = (d1, inl fp) →
    (∃ r, r ∈ fps ∧ Fingerprint r = FingerprintResponse.Fingerprint a ∧
          SystemId r = SystemId fp ∧ d1 = d) ∨
    (∃ r, createNewSystemForUniversalToken d acr a = (d1, inl r) ∧ SystemId r = SystemId fp ∧
          ∀ r, r ∈ fps → Fingerprint r ≠ FingerprintResponse.Fingerprint a)).
  { unfold handleMultipleRecordsOrUniversalToken.
    destruct (find _ fps) as [r|] eqn:Hfind.
    - apply find_some in Hfind as [Hin Heq]. apply String.eqb_eq in Heq.
      intros [= <- <-]. left. exists r. by rewrite list_elem_of_In.
    - destruct (isUniversalToken acr); [|done]. intros Hc. right. exists fp. split_and!; try done.
      intros r Hin. apply list_elem_of_In in Hin.
      pose proof (find_none _ _ Hfind r Hin) as Hn. by apply String.eqb_neq. }
  unfold findOrCreateSystemForToken in Hf. destruct fps as [|r [|r' fps]]; [| |by right; apply Hmulti].
  - unfold handleNoRecords in Hf. destruct (_ || _); [done|]. right. right. exists fp.
    split_and!; try done. intros r Hr. by apply elem_of_nil in Hr.
  - destruct (isUniversalToken acr) eqn:Hu; simpl in Hf; [by right; apply Hmulti|].
    unfold handleSingleRecord in Hf. destruct (String.eqb (Fingerprint r) "") eqn:He.
    + apply String.eqb_eq in He. destruct (SetFingerprint d r _) as [d2|] eqn:Hs; [|done].
      simplify_eq/=. left. by exists r.
    + destruct (String.eqb (Fingerprint r) (FingerprintResponse.Fingerprint a)) eqn:Hm;
        simplify_eq/=.
      apply String.eqb_eq in Hm. right. left. exists fp. by rewrite list_elem_of_singleton.
Qed.

(** *** Properties *)

(** A fingerprint that is set is stored with the token of the record. *)
Lemma set_stored d fp f d' :
  Id fp ≠ "" → SetFingerprint d fp f = Some d' →
  ∃ rec, fingerprints d' !! Id fp = Some rec ∧ Fingerprint rec = f ∧ Token rec = Token fp.
Proof using CDBL.
  intros Hid. unfold SetFingerprint. rewrite (proj2 (String.eqb_neq _ _) Hid). simpl.
  destruct (findFingerprint d (Id fp)) as [r|] eqn:Hf; [|done]. simpl.
  apply findFingerprint_spec, fingerprints_key in Hf as E. intros [Hs _]%saveFingerprint_spec. simpl in *.
  rewrite Hs, E, lookup_insert_eq. eexists. split_and!; [done|done|done].
Qed.

(** C3: an agent that is attached to a system came with a token that, when the request arrived, was
    - the token of a fingerprint record of that system with the agent's fingerprint; then nothing is
      written; or
    - the token of that system's record alone, without a fingerprint yet (first use): any fingerprint
      is taken, and stored; or
    - a live universal token of some user, with no record of the token for the fingerprint; then the
      system is new, belongs to that user alone, and has the fingerprint.
    The records are those of the time of the request, the writes come later ([d2]): two agents that
    connect for the first time at once both take the second way ([first_use_race]). *)
Theorem admitted_is_authorised now parses up d m r m' acr fps d2 d2' a sys :
  agentConnect now parses up d m r = (m', Upgraded acr fps) →
  verifyWsConn d2 acr fps (Some a) = (d2', Some sys) →
  (∃ fp, fingerprints d !! Id fp = Some fp ∧ Token fp = Header r "X-Token" ∧ SystemId fp = sys ∧
     Fingerprint fp = FingerprintResponse.Fingerprint a ∧ d2' = d2) ∨
  (∃ fp, fingerprints d !! Id fp = Some fp ∧ Token fp = Header r "X-Token" ∧ SystemId fp = sys ∧
     Fingerprint fp = "" ∧
     (∀ fp', fingerprints d !! Id fp' = Some fp' → Token fp' = Header r "X-Token" → fp' = fp) ∧
     ∃ rec, fingerprints d2' !! Id fp = Some rec ∧ Token rec = Header r "X-Token" ∧
       Fingerprint rec = FingerprintResponse.Fingerprint a) ∨
  (∃ u, u ≠ "" ∧
     (live now m !! Header r "X-Token" = Some u ∨ universal d !! u = Some (Header r "X-Token")) ∧
     (∀ fp, fp ∈ fps → Fingerprint fp ≠ FingerprintResponse.Fingerprint a) ∧
     owners d2 !! sys = None ∧ owners d2' !! sys = Some [u] ∧
     ∃ id, fingerprints d2 !! id = None ∧
       fingerprints d2' = <[id := identity id sys (FingerprintResponse.Fingerprint a) (Header r "X-Token")]>
                            (fingerprints d2)).
Proof using CDBL KVL.
  intros (_&Htok&Hfps&Huni&_)%upgraded_spec Hver.
  assert (∀ fp, fp ∈ fps → fingerprints d !! Id fp = Some fp ∧ Token fp = Header r "X-Token")
    as Hin.
  { subst fps. unfold getFingerprintRecordsByToken.
    destruct (queryFingerprints d (token acr)) as [l|] eqn:Hq; simpl;
      [|intros fp Hfp; by apply elem_of_nil in Hfp].
    apply queryFingerprints_spec in Hq as [_ Hl]. intros fp [??]%Hl. by rewrite <- Htok. }
  apply verify_cases in Hver as [(fp&Hone&Hnu&He&Hsys&Hset)|[(fp&Hfp&He&Hsys&Hd)|(fp&Hc&Hsys&Hno)]].
  - right. left. exists fp. subst fps. destruct (Hin fp) as [Hr Ht]; [rewrite Hone; by apply list_elem_of_singleton|].
    split_and!; try done.
    + intros fp' Hfp' Htok'. unfold getFingerprintRecordsByToken in Hone.
      destruct (queryFingerprints d (token acr)) as [l|] eqn:Hq; [|done]. simpl in Hone. subst l.
      apply queryFingerprints_spec in Hq as [_ Hl]. apply list_elem_of_singleton, Hl.
      by rewrite Htok.
    + assert (Id fp ≠ "") as Hid by (intros E; by rewrite E, fingerprints_id in Hr).
      destruct (set_stored _ _ _ _ Hid Hset) as (rec&?&?&?). exists rec. split_and!; [done|congruence|done].
  - left. exists fp. destruct (Hin fp Hfp). auto.
  - right. right. apply create_spec in Hc as (Hu&Hne&Ho&Ho'&Hid). subst sys.
    exists (userId acr). rewrite <- Htok. auto 10.
Qed.

(** The answer for a fingerprint under a token that belongs to one system. *)
Lemma verify_single d acr fp a :
  isUniversalToken acr = false → Fingerprint fp ≠ "" →
  verifyWsConn d acr [fp] (Some a) =
    (d, if String.eqb (Fingerprint fp) (FingerprintResponse.Fingerprint a)
        then Some (SystemId fp) else None).
Proof using Type.
  intros Hu Hf. unfold verifyWsConn. simpl. rewrite Hu. simpl. unfold handleSingleRecord.
  rewrite (proj2 (String.eqb_neq _ _) Hf). by destruct (String.eqb (Fingerprint fp) _).
Qed.

(** Trust on first use.  Once an agent with a (non-empty) fingerprint was admitted with the
    token of one system, that fingerprint is pinned: every later connection with the token is
    attached to the same system when it shows the same fingerprint and refused when it shows
    another one, in both cases without any change to the database. *)
Theorem fingerprint_pinned d acr fp a d' sys fps' acr' a' :
  queryFingerprints d (token acr) = Some [fp] → isUniversalToken acr = false →
  FingerprintResponse.Fingerprint a ≠ "" →
  verifyWsConn d acr [fp] (Some a) = (d', Some sys) →
  queryFingerprints d' (token acr) = Some fps' →
  token acr' = token acr → isUniversalToken acr' = false →
  verifyWsConn d' acr' fps' (Some a') =
    (d', if String.eqb (FingerprintResponse.Fingerprint a) (FingerprintResponse.Fingerprint a')
         then Some sys else None).
Proof using CDBL.
  intros [_ Hl]%queryFingerprints_spec Hu Ha Hver Hq' Htok' Hu'.
  assert (fingerprints d !! Id fp = Some fp ∧ Token fp = token acr) as [Hfp Htok]
    by (apply Hl, list_elem_of_singleton; done).
  assert (fps' = [set_fp fp (FingerprintResponse.Fingerprint a)] ∧ SystemId fp = sys) as [-> <-].
  { apply verify_cases in Hver as [(r&[= <-]&_&He&Hs&Hset)|[(r&Hr&He&Hs&->)|(r&Hc&_)]].
    - split; [|done]. apply set_existing in Hset; [|done].
      apply queryFingerprints_spec in Hq' as [Hnd Hl']. apply singleton_list; [done|].
      intros r. rewrite Hl', Hset, lookup_insert_Some. split.
      + intros [[[_ <-]|[Hne Hr]] Ht]; [done|]. destruct Hne.
        by apply (f_equal Id (x := fp)), eq_sym, list_elem_of_singleton, Hl.
      + intros ->. simpl. auto.
    - apply list_elem_of_singleton in Hr. subst r. split; [|done].
      assert (set_fp fp (FingerprintResponse.Fingerprint a) = fp) as ->
        by (rewrite <- He; by destruct fp).
      apply queryFingerprints_spec in Hq' as [Hnd Hl']. apply singleton_list; [done|].
      intros r. by rewrite Hl', <- Hl, list_elem_of_singleton.
    - apply create_spec in Hc as [? _]. congruence. }
  by rewrite verify_single.
Qed.

(** A universal token does not create a second system for an agent it has already
    registered: the same token and fingerprint lead to the same system again, without any
    change to the database. *)
Theorem universal_reconnect d acr fps a d' sys fps' acr' :
  queryFingerprints d (token acr) = Some fps → isUniversalToken acr = true →
  verifyWsConn d acr fps (Some a) = (d', Some sys) →
  queryFingerprints d' (token acr) = Some fps' →
  token acr' = token acr → isUniversalToken acr' = true →
  verifyWsConn d' acr' fps' (Some a) = (d', Some sys).
Proof using CDBL.
  intros Hq Hu Hver Hq' Htok Hu'.
  assert (Hagain : ∀ dd l r, r ∈ l → Fingerprint r = FingerprintResponse.Fingerprint a →
    (∀ r', r' ∈ l → Fingerprint r' = FingerprintResponse.Fingerprint a → r' = r) →
    verifyWsConn dd acr' l (Some a) = (dd, Some (SystemId r))).
  { intros dd l r Hin Hf Huniq. unfold verifyWsConn, findOrCreateSystemForToken.
    assert (handleMultipleRecordsOrUniversalToken dd acr' l a = (dd, inl r)) as Hm.
    { unfold handleMultipleRecordsOrUniversalToken. destruct (find _ l) as [r'|] eqn:Hfind.
      - apply find_some in Hfind as [Hin' He]. apply String.eqb_eq in He.
        rewrite (Huniq r'); [done|by apply list_elem_of_In|done].
      - apply list_elem_of_In in Hin. pose proof (find_none _ _ Hfind r Hin) as Hn. simpl in Hn.
        apply String.eqb_neq in Hn. done. }
    destruct l as [|x [|y l]]; [by apply elem_of_nil in Hin| |by rewrite Hm].
    rewrite Hu'. simpl. by rewrite Hm. }
  pose proof Hver as Hc.
  apply verify_cases in Hc as [(r&_&Hn&_)|[(r&Hr&He&Hs&->)|(r&Hc&<-&Hno)]]; [congruence| |].
  - simplify_eq. revert Hver. unfold verifyWsConn, findOrCreateSystemForToken.
    destruct fps as [|x [|y l]]; [by apply elem_of_nil in Hr|..];
      rewrite ?Hu, ?Hu'; simpl; unfold handleMultipleRecordsOrUniversalToken;
      destruct (find _ _) eqn:Hfind; simpl; try done;
      apply list_elem_of_In in Hr; pose proof (find_none _ _ Hfind r Hr) as Hx;
      apply String.eqb_neq in Hx; done.
  - apply create_spec in Hc as (_&_&_&_&id&Hid&Hins).
    apply queryFingerprints_spec in Hq as [_ Hl]. apply queryFingerprints_spec in Hq' as [_ Hl'].
    apply (Hagain d' fps' (identity id (SystemId r) (FingerprintResponse.Fingerprint a)
                             (token acr))); [|done|].
    + apply Hl'. simpl. by rewrite Hins, lookup_insert_eq.
    + intros r' [Hr' Ht]%Hl' He. rewrite Hins, lookup_insert_Some in Hr'.
      destruct Hr' as [[_ <-]|[_ Hr']]; [done|]. destruct (Hno r'); [by apply Hl|done].
Qed.

(** When a user with at most one temporary token switches universal tokens off and the
    permanent one could be deleted, no token is accepted in that user's name any more. *)
Theorem disable_revokes now uuid u tok perm d m d' m' resp :
  getUniversalToken now uuid false u tok "0" perm d m = (d', m', resp) →
  is_Some (deletePermanent d u) →
  (∀ k1 k2 v1 v2, entries m !! k1 = Some v1 → entries m !! k2 = Some v2 →
     value v1 = u → value v2 = u → k1 = k2) →
  ∀ now' parses up r m'' acr fps,
    agentConnect now' parses up d' m' r = (m'', Upgraded acr fps) →
    isUniversalToken acr = true → userId acr ≠ u.
Proof using CDBL KVL.
  unfold getUniversalToken. simpl. intros [= <- <- _] [d1 Hdel] Hone now' parses up r m'' acr fps.
  rewrite Hdel. simpl. intros (_&_&_&Huni&_)%upgraded_spec Hu Heq.
  destruct (Huni Hu) as [Hlive|Hperm]; rewrite Heq in *.
  - rewrite live_lookup in Hlive. pose proof (RemovebyValue_spec m u) as Hrem.
    destruct (RemovebyValue m u).1 as [y|].
    + destruct Hrem as (->&k&v&Hk&Hv&He). rewrite He, lookup_delete in Hlive.
      case_decide as Hne; [done|]. destruct (entries m !! token acr) as [v'|] eqn:Hv'; [|done].
      simpl in Hlive. destruct (expired now' v'); [done|]. simplify_eq.
      by eapply Hne, Hone.
    + destruct Hrem as [Hno E]. rewrite E in Hlive. destruct (entries m !! token acr) as [v'|] eqn:Hv'; [|done].
      simpl in Hlive. destruct (expired now' v'); [done|]. simplify_eq. by eapply Hno.
  - unfold deletePermanent in Hdel. rewrite findUniversalByUser_spec in Hdel.
    destruct (universal d !! u) eqn:Hd; simplify_eq.
    apply deleteUniversal_spec in Hdel. rewrite Hdel, lookup_delete_eq in Hperm. done.
Qed.
End connect.

(** ** A concrete database *)

Record mem := {
  m_rows : list FingerprintRecord;       (* the latest of an id counts *)
  m_owners : gmap string (list string);
  m_universal : gmap string string;
}.

Definition rows (d : mem) : gmap string FingerprintRecord :=
  delete "" (list_to_map ((λ r, (Id r, r)) <$> m_rows d)).

Lemma rows_key d id r : rows d !! id = Some r → Id r = id.
Proof.
  unfold rows. rewrite lookup_delete_Some. intros [_ Hr%elem_of_list_to_map_2].
  apply list_elem_of_fmap in Hr as (r'&Heq&_). by simplify_eq.
Qed.

Definition rows_with (d : mem) (tok : string) : list FingerprintRecord :=
  List.filter (λ r, String.eqb (Token r) tok) ((map_to_list (rows d)).*2).

#[local] Instance mem_connect : ConnectDB mem := {|
  queryFingerprints d tok := Some (rows_with d tok);
  findFingerprint d id := rows d !! id;
  newFingerprintId d := fresh ({[""]} ∪ dom (rows d));
  saveFingerprint d r :=
    if String.eqb (Id r) "" then None
    else Some {| m_rows := r :: m_rows d; m_owners := m_owners d; m_universal := m_universal d |};
  fingerprints := rows;
  insertSystem d _ _ _ us :=
    let id := fresh (dom (m_owners d)) in
    Some ({| m_rows := m_rows d; m_owners := <[id := us]> (m_owners d);
             m_universal := m_universal d |}, id);
  owners := m_owners;
  findUniversalByToken d tok :=
    fst <$> find (λ '(_, t), String.eqb t tok) (map_to_list (m_universal d));
  findUniversalByUser d u := m_universal d !! u;
  saveUniversal d u tok :=
    Some {| m_rows := m_rows d; m_owners := m_owners d; m_universal := <[u := tok]> (m_universal d) |};
  deleteUniversal d u :=
    Some {| m_rows := m_rows d; m_owners := m_owners d; m_universal := delete u (m_universal d) |};
  universal := m_universal;
|}.

Lemma rows_with_spec d tok :
  NoDup (rows_with d tok) ∧ ∀ r, r ∈ rows_with d tok ↔ rows d !! Id r = Some r ∧ Token r = tok.
Proof.
  assert (NoDup ((map_to_list (rows d)).*2)) as Hnd.
  { apply (NoDup_fmap_1 Id). rewrite <- list_fmap_compose.
    rewrite (list_fmap_ext (Id ∘ snd) fst); [apply NoDup_fst_map_to_list|].
    intros i [k r] Hi. simpl. eapply rows_key, elem_of_map_to_list, list_elem_of_lookup_2, Hi. }
  split.
  - unfold rows_with. apply NoDup_ListNoDup, List.NoDup_filter, NoDup_ListNoDup, Hnd.
  - intros r. unfold rows_with. rewrite list_elem_of_In, List.filter_In, <- list_elem_of_In.
    rewrite String.eqb_eq, list_elem_of_fmap. split.
    + intros [([k r']&->&Hr%elem_of_map_to_list) Ht]. simpl. by rewrite (rows_key _ _ _ Hr).
    + intros [Hr Ht]. split; [|done]. exists (Id r, r). by rewrite elem_of_map_to_list.
Qed.

#[local] Instance mem_connect_laws : ConnectDBLaws mem.
Proof.
  split; simpl.
  - intros d. apply lookup_delete_eq.
  - apply rows_key.
  - intros d tok l [= <-]. apply rows_with_spec.
  - done.
  - intros d. pose proof (is_fresh ({[""]} ∪ dom (rows d))) as Hf.
    rewrite not_elem_of_union, not_elem_of_singleton, not_elem_of_dom in Hf. done.
  - intros d r d'. destruct (String.eqb (Id r) "") eqn:He; [done|]. intros [= <-].
    apply String.eqb_neq in He. split; [|done]. unfold rows. simpl.
    by rewrite delete_insert_ne.
  - intros d n h p us d' id [= <- <-]. split; [|done]. apply not_elem_of_dom, is_fresh.
  - intros d tok u. destruct (find _ _) as [[u' t]|] eqn:Hf; [|done]. intros [= <-].
    apply find_some in Hf as [Hin He]. apply String.eqb_eq in He. subst t.
    by apply elem_of_map_to_list, list_elem_of_In.
  - done.
  - by intros d u tok d' [= <-].
  - by intros d u d' [= <-].
Qed.

Definition fp1 : FingerprintRecord := identity "f1" "s1" "" "tok".
Definition d0 : mem := {|
  m_rows := [fp1]; m_owners := {["s1" := ["admin"]]}; m_universal := {["u1" := "uni"]} |}.
Definition request (tok : string) : Request := {|
  Header h := if String.eqb h "X-Token" then tok
              else if String.eqb h "X-Beszel" then "1.0.0" else "";
  RemoteAddr := "10.0.0.9:5000" |}.
Definition no_tokens : ExpiryMap (M := gmap string) (T := string) := New.
Definition agent (f : string) : FingerprintResponse.t := {|
  FingerprintResponse.Fingerprint := f; FingerprintResponse.Hostname := "web";
  FingerprintResponse.Port := ""; FingerprintResponse.Name := "" |}.
Definition acr_of (tok : string) (uni : bool) (u : string) : agentConnectRequest := {|
  req := request tok; token := tok; isUniversalToken := uni; userId := u |}.

Example SplitHostPort_ex :
  SplitHostPort "10.0.0.9:5000" = Some "10.0.0.9" ∧ SplitHostPort "[::1]:80" = Some "::1" ∧
  SplitHostPort "::1" = None ∧ SplitHostPort "host" = None ∧ SplitHostPort "[::1]" = None.
Proof. by vm_compute. Qed.

(** A universal token, and a first use. *)
Lemma admitted_is_authorised_witness :
  (∃ u, u ≠ "" ∧ owners (verifyWsConn d0 (acr_of "uni" true "u1") [] (Some (agent "A"))).1 !! "0" =
    Some [u]) ∧
  ∃ rec, fingerprints (verifyWsConn d0 (acr_of "tok" false "") [fp1] (Some (agent "A"))).1 !! "f1" = Some rec ∧
    Fingerprint rec = "A".
Proof.
  split.
  - destruct (admitted_is_authorised 0 (λ _, true) true d0 no_tokens (request "uni") no_tokens
      (acr_of "uni" true "u1") [] d0
      (verifyWsConn d0 (acr_of "uni" true "u1") [] (Some (agent "A"))).1 (agent "A") "0")
      as [(fp&Hfp&Ht&_)|[(fp&Hfp&Ht&_)|(u&Hu&_&_&_&Ho&_)]];
      [vm_compute; reflexivity|vm_compute; reflexivity| | |exact (ex_intro _ u (conj Hu Ho))];
      exfalso; unfold fingerprints, mem_connect, rows in Hfp;
      apply lookup_delete_Some in Hfp as [_ Hfp%elem_of_list_to_map_2];
      apply list_elem_of_singleton in Hfp; by simplify_eq.
  - destruct (admitted_is_authorised 0 (λ _, true) true d0 no_tokens (request "tok") no_tokens
      (acr_of "tok" false "") [fp1] d0
      (verifyWsConn d0 (acr_of "tok" false "") [fp1] (Some (agent "A"))).1 (agent "A") "s1")
      as [(fp&Hfp&_&_&He&_)|[(fp&Hfp&_&_&_&_&rec&Hrec&_&E)|(u&_&_&_&Ho&_)]];
      [vm_compute; reflexivity|vm_compute; reflexivity| | |vm_compute in Ho; discriminate];
      unfold fingerprints, mem_connect, rows in Hfp;
      apply lookup_delete_Some in Hfp as [_ Hfp%elem_of_list_to_map_2];
      apply list_elem_of_singleton in Hfp; simplify_eq.
    exists rec. split; [exact Hrec|exact E].
Defined.

Definition d1 : mem := (verifyWsConn d0 (acr_of "tok" false "") [fp1] (Some (agent "A"))).1.

Lemma fingerprint_pinned_witness :
  verifyWsConn d1 (acr_of "tok" false "") (rows_with d1 "tok") (Some (agent "B")) = (d1, None).
Proof.
  refine (fingerprint_pinned d0 (acr_of "tok" false "") fp1 (agent "A") d1 "s1" _ _ (agent "B")
    _ _ _ _ _ _ _); solve [done | by vm_compute].
Defined.

Definition d2 : mem := (verifyWsConn d0 (acr_of "uni" true "u1") [] (Some (agent "A"))).1.

Lemma universal_reconnect_witness :
  verifyWsConn d2 (acr_of "uni" true "u1") (rows_with d2 "uni") (Some (agent "A")) = (d2, Some "0").
Proof.
  refine (universal_reconnect d0 (acr_of "uni" true "u1") [] (agent "A") d2 "0" _ _ _ _ _ _ _ _);
    solve [done | by vm_compute].
Defined.

Definition one_token : ExpiryMap (M := gmap string) (T := string) :=
  Set_ 0 no_tokens "t1" "u1" (60 * Minute).

(** Another user's token still works, in that user's name. *)
Definition d3 : mem := {|
  m_rows := [fp1]; m_owners := ∅; m_universal := {["u1" := "uni"; "u2" := "uni2"]} |}.

Lemma disable_revokes_witness : userId (acr_of "uni2" true "u2") ≠ "u1".
Proof.
  refine (disable_revokes 1 "x" "u1" "" "" d3 one_token
            (getUniversalToken 1 "x" false "u1" "" "0" "" d3 one_token).1.1
            (getUniversalToken 1 "x" false "u1" "" "0" "" d3 one_token).1.2
            (TokenState "" false false) _ _ _
            1 (λ _, true) true (request "uni2") New (acr_of "uni2" true "u2") [] _ _);
    [reflexivity|by eexists| |vm_compute; reflexivity|reflexivity].
  unfold one_token, entries. simpl. intros k1 k2 v1 v2.
  rewrite !lookup_insert_Some, !lookup_empty. naive_solver.
Defined.

(** The records are read before the fingerprint is asked for.  Two agents that connect for the
    first time at the same moment are both admitted, and the second one replaces the pinned
    fingerprint of the first. *)
Example first_use_race :
  let '(da, ra) := verifyWsConn d0 (acr_of "tok" false "") [fp1] (Some (agent "A")) in
  let '(db, rb) := verifyWsConn da (acr_of "tok" false "") [fp1] (Some (agent "B")) in
  ra = Some "s1" ∧ rb = Some "s1" ∧ Fingerprint <$> (rows db !! "f1") = Some "B".
Proof. by vm_compute. Qed.

(** Switching universal tokens off removes one temporary token of the user only. *)
Example disable_leaves_second_token :
  let m := Set_ 1 one_token "t2" "u1" (60 * Minute) in
  let '(d, m, _) := getUniversalToken 2 "x" false "u1" "" "0" "" d0 m in
  live 3 m !! "t1" = Some "u1" ∨ live 3 m !! "t2" = Some "u1".
Proof. vm_compute. first [by left | by right]. Qed.
End AgentConnect.
