(* ===== verification/ConfigSync.v ===== *)
(** * Systems from [config.yml] ([internal/hub/config/config.go])

    At start the hub makes its [systems] collection agree with a YAML file: a
    system of the file that exists is updated, a new one is created with a
    fingerprint record, and systems that are not in the file are deleted.  The
    writes are not in a transaction: a failed one leaves the earlier ones.

    YAML decoding is given to the model as its outcome; the collections are
    behind [ConfigDB]. *)

From S2P Require Import Prelude GoStrings GoFmt.

Module systemConfig.
Record t := { Name : string; Host : string; Port : Z; Token : string; Users : list string }.
End systemConfig.
Notation systemConfig := systemConfig.t.

(** A record of [systems], and what the code uses of a [users] record. *)
Record SystemRecord := {
  r_id : string; r_name : string; r_host : string; r_port : string; r_users : list string }.
Record UserRecord := { u_id : string; u_email : string }.

Class ConfigDB (DB : Type) := {
  allUsers : DB → option (list UserRecord);
  allSystems : DB → option (list SystemRecord);
  updateSystem : DB → SystemRecord → option DB;
  insertSystem : DB → string → string → string → list string → option (DB * string);
  deleteSystem : DB → string → option DB;
  (* the fingerprint record of a system: fingerprint and token *)
  findFingerprint : DB → string → option (string * string);
  saveFingerprint : DB → string → string * string → option DB;
  systems : DB → gmap string SystemRecord;
  fingerprints : DB → gmap string (string * string);
}.

(** [systems] has unique ids, [fingerprints] one record per system (a unique index), and
    fingerprint records are deleted with their system. *)
Class ConfigDBLaws (DB : Type) `{ConfigDB DB} := {
  allSystems_spec : ∀ d l, allSystems d = Some l →
    ∀ r, r ∈ l ↔ systems d !! r_id r = Some r;
  systems_key : ∀ d id r, systems d !! id = Some r → r_id r = id;
  updateSystem_spec : ∀ d r d', updateSystem d r = Some d' →
    systems d' = <[r_id r := r]> (systems d) ∧ fingerprints d' = fingerprints d ∧
    allUsers d' = allUsers d;
  insertSystem_spec : ∀ d n h p us d' id, insertSystem d n h p us = Some (d', id) →
    systems d !! id = None ∧
    systems d' = <[id := {| r_id := id; r_name := n; r_host := h; r_port := p; r_users := us |}]>
                   (systems d) ∧
    fingerprints d' = fingerprints d ∧ allUsers d' = allUsers d;
  deleteSystem_spec : ∀ d id d', deleteSystem d id = Some d' →
    systems d' = delete id (systems d) ∧ fingerprints d' = delete id (fingerprints d) ∧
    allUsers d' = allUsers d;
  findFingerprint_spec : ∀ d sys, findFingerprint d sys = fingerprints d !! sys;
  saveFingerprint_spec : ∀ d sys p d', saveFingerprint d sys p = Some d' →
    systems d' = systems d ∧ fingerprints d' = <[sys := p]> (fingerprints d) ∧
    allUsers d' = allUsers d;
}.

Module ConfigSync.
Section sync.
Context {DB : Type} {CDB : ConfigDB DB} {CDBL : ConfigDBLaws DB} {RO : RangeOrder string}.

(** ** Defaults *)

(** The map from e-mail to user id; the last of an e-mail counts. *)
Definition userEmailToID (users : list UserRecord) : gmap string string :=
  fold_left (λ m u, <[u_email u := u_id u]> m) users ∅.

Definition with_defaults (users : list UserRecord) (c : systemConfig) : systemConfig := {|
  systemConfig.Name := systemConfig.Name c;
  systemConfig.Host := systemConfig.Host c;
  systemConfig.Port := if (systemConfig.Port c =? 0)%Z then 45876 else systemConfig.Port c;
  systemConfig.Token := systemConfig.Token c;
  systemConfig.Users :=
    match users, systemConfig.Users c with
    | firstUser :: _, [] => [u_id firstUser]
    | _, emails => omap (λ e, userEmailToID users !! e) emails
    end |}.

(** ** Matching *)

Definition portString (p : Z) : string := print_Z p.
Definition config_key (c : systemConfig) : string :=
  systemConfig.Name c ++ systemConfig.Host c ++ portString (systemConfig.Port c).
Definition record_key (r : SystemRecord) : string := r_name r ++ r_host r ++ r_port r.

Definition existingSystemsMap (l : list SystemRecord) : gmap string SystemRecord :=
  fold_left (λ m r, <[record_key r := r]> m) l ∅.

Definition createFingerprintRecord (d : DB) (systemID token : string) : option DB :=
  saveFingerprint d systemID ("", token).

Definition updateFingerprintToken (d : DB) (systemID token : string) : option DB :=
  match findFingerprint d systemID with
  | None => createFingerprintRecord d systemID token
  | Some (fp, _) => saveFingerprint d systemID (fp, token)
  end.

(** One system of the file; [false] when a write failed. *)
Definition sync_one (uuid : string) (c : systemConfig) (d : DB) (m : gmap string SystemRecord)
    : DB * gmap string SystemRecord * bool :=
  let key := config_key c in
  match m !! key with
  | Some r =>
      match updateSystem d {| r_id := r_id r; r_name := systemConfig.Name c; r_host := r_host r;
                              r_port := portString (systemConfig.Port c);
                              r_users := systemConfig.Users c |} with
      | None => (d, m, false)
      | Some d =>
          if String.eqb (systemConfig.Token c) "" then (d, delete key m, true)
          else match updateFingerprintToken d (r_id r) (systemConfig.Token c) with
               | None => (d, m, false)
               | Some d => (d, delete key m, true)
               end
      end
  | None =>
      match insertSystem d (systemConfig.Name c) (systemConfig.Host c)
              (portString (systemConfig.Port c)) (systemConfig.Users c) with
      | None => (d, m, false)
      | Some (d, id) =>
          let token := if String.eqb (systemConfig.Token c) "" then uuid
                       else systemConfig.Token c in
          match createFingerprintRecord d id token with
          | None => (d, m, false)
          | Some d => (d, m, true)
          end
      end
  end.

(** The systems of the file, from the [i]-th on; [uuid i] is the token generated for it. *)
Fixpoint sync_loop (uuid : nat → string) (i : nat) (l : list systemConfig) (d : DB)
    (m : gmap string SystemRecord) : DB * gmap string SystemRecord * bool :=
  match l with
  | [] => (d, m, true)
  | c :: l =>
      match sync_one (uuid i) c d m with
      | (d, m, true) => sync_loop uuid (S i) l d m
      | r => r
      end
  end.

Fixpoint delete_loop (l : list (string * SystemRecord)) (d : DB) : DB * bool :=
  match l with
  | [] => (d, true)
  | (_, r) :: l =>
      match deleteSystem d (r_id r) with
      | None => (d, false)
      | Some d => delete_loop l d
      end
  end.

(** [SyncSystems]: [file] is [None] when there is no file, and [Some None] when it does not
    parse.  The boolean is [err == nil]. *)
Definition SyncSystems (uuid : nat → string) (file : option (option (list systemConfig))) (d : DB)
    : DB * bool :=
  match file with
  | None => (d, true)
  | Some None => (d, false)
  | Some (Some []) => (d, true)
  | Some (Some l) =>
      match allUsers d with
      | None => (d, false)
      | Some users =>
          let l := with_defaults users <$> l in
          match allSystems d with
          | None => (d, false)
          | Some existing =>
              match sync_loop uuid 0 l d (existingSystemsMap existing) with
              | (d, m, true) => delete_loop (range_list m) d
              | (d, _, false) => (d, false)
              end
          end
      end
  end.

(** ** Specification *)

(** The record a system of the file ends up with. *)
Definition record_of (id : string) (c : systemConfig) : SystemRecord := {|
  r_id := id; r_name := systemConfig.Name c; r_host := systemConfig.Host c;
  r_port := portString (systemConfig.Port c); r_users := systemConfig.Users c |}.

(** [id] is the system of the [j]-th entry [c] after a sync from [d0] to [d]: a system that was
    there before keeps its id, its fingerprint and, unless the file gives one, its token; a
    new one has no fingerprint yet, and the token of the file or a generated one. *)
Definition owns (uuid : nat → string) (d0 d : DB) (j : nat) (c : systemConfig) (id : string)
    : Prop :=
  systems d !! id = Some (record_of id c) ∧
  match systems d0 !! id with
  | Some r0 =>
      record_key r0 = config_key c ∧
      fingerprints d !! id =
        if String.eqb (systemConfig.Token c) "" then fingerprints d0 !! id
        else Some (default "" (fst <$> fingerprints d0 !! id), systemConfig.Token c)
  | None =>
      (∀ id' r0, systems d0 !! id' = Some r0 → record_key r0 ≠ config_key c) ∧
      fingerprints d !! id =
        Some ("", if String.eqb (systemConfig.Token c) "" then uuid j else systemConfig.Token c)
  end.

(** No two systems have the same key. *)
Definition distinct (d : DB) : Prop :=
  ∀ id1 id2 r1 r2, systems d !! id1 = Some r1 → systems d !! id2 = Some r2 →
    record_key r1 = record_key r2 → id1 = id2.

(** A key that matches comes from the same name and host. *)
Definition unambiguous (d : DB) (l : list systemConfig) : Prop :=
  ∀ id r c, systems d !! id = Some r → c ∈ l → record_key r = config_key c →
    r_host r = systemConfig.Host c.

Lemma existingSystemsMap_lookup l k r :
  existingSystemsMap l !! k = Some r → r ∈ l ∧ record_key r = k.
Proof using Type.
  clear. unfold existingSystemsMap. rewrite <- (rev_involutive l). set (l' := rev l). clearbody l'.
  revert r. induction l' as [|x l' IH]; intros r; simpl.
  { by rewrite lookup_empty. }
  rewrite fold_left_app. simpl. rewrite lookup_insert_Some, elem_of_app, list_elem_of_singleton.
  intros [[<- <-]|[_ Hr]]; [auto|]. destruct (IH _ Hr). auto.
Qed.

Lemma existingSystemsMap_complete l r :
  r ∈ l → (∀ r', r' ∈ l → record_key r' = record_key r → r' = r) →
  existingSystemsMap l !! record_key r = Some r.
Proof using Type.
  clear. intros Hin Huniq.
  destruct (existingSystemsMap l !! record_key r) as [r'|] eqn:Hr.
  { apply existingSystemsMap_lookup in Hr as [??]. by rewrite (Huniq r'). }
  exfalso. revert Hr Hin. unfold existingSystemsMap. clear.
  rewrite <- (rev_involutive l). generalize (rev l). clear l. intros l'.
  induction l' as [|x l' IH]; simpl; intros Hr Hin; [by apply elem_of_nil in Hin|].
  rewrite fold_left_app in Hr. simpl in Hr. apply lookup_insert_None in Hr as [Hr Hne].
  apply elem_of_app in Hin as [Hin|Hin%list_elem_of_singleton]; [by apply IH|congruence].
Qed.

(** ** The loop *)

Record SyncInv (uuid : nat → string) (d0 d : DB) (m : gmap string SystemRecord)
    (seen : list systemConfig) : Prop := {
  si_pending : ∀ k r, m !! k = Some r →
    record_key r = k ∧ systems d0 !! r_id r = Some r ∧ systems d !! r_id r = Some r ∧
    fingerprints d !! r_id r = fingerprints d0 !! r_id r ∧ k ∉ config_key <$> seen;
  si_systems : ∀ id r, systems d !! id = Some r →
    m !! record_key r = Some r ∨ ∃ j c, seen !! j = Some c ∧ owns uuid d0 d j c id;
  si_seen : ∀ j c, seen !! j = Some c → ∃ id, owns uuid d0 d j c id;
  si_old : ∀ id r, systems d0 !! id = Some r →
    is_Some (systems d !! id) ∧
    (m !! record_key r = Some r ∨ record_key r ∈ config_key <$> seen);
  si_distinct : distinct d;
}.

Lemma owns_frame uuid d0 d d' j c id :
  systems d' !! id = systems d !! id → fingerprints d' !! id = fingerprints d !! id →
  owns uuid d0 d j c id → owns uuid d0 d' j c id.
Proof using Type.
  clear. intros Hs Hf [H1 H2]. split; [congruence|]. destruct (systems d0 !! id); intuition congruence.
Qed.

Lemma sync_init uuid d l :
  allSystems d = Some l → distinct d → SyncInv uuid d d (existingSystemsMap l) [].
Proof using CDBL.
  intros Hl Hd. pose proof (allSystems_spec _ _ Hl) as Hspec.
  assert (∀ id r, systems d !! id = Some r → existingSystemsMap l !! record_key r = Some r) as Hm.
  { intros id r Hr. pose proof (systems_key _ _ _ Hr) as Hid.
    apply existingSystemsMap_complete; [by apply Hspec; rewrite Hid|].
    intros r' Hr'%Hspec Hk. pose proof (Hd _ _ _ _ Hr' Hr Hk) as E.
    rewrite E in Hr'. congruence. }
  split.
  - intros k r [Hin Hk]%existingSystemsMap_lookup. apply Hspec in Hin. simpl.
    split_and!; try done. apply not_elem_of_nil.
  - intros id r Hr. left. by eapply Hm.
  - done.
  - intros id r Hr. split; [by eexists|]. left. by eapply Hm.
  - done.
Qed.

Lemma keys_snoc (seen : list systemConfig) c k :
  k ∈ config_key <$> seen ++ [c] ↔ k ∈ config_key <$> seen ∨ k = config_key c.
Proof using Type. clear. rewrite fmap_app, elem_of_app. simpl. by rewrite list_elem_of_singleton. Qed.

Lemma seen_key (seen : list systemConfig) j c : seen !! j = Some c → config_key c ∈ config_key <$> seen.
Proof using Type. clear. intros Hj. by eapply list_elem_of_fmap_2, list_elem_of_lookup_2. Qed.

(** A step that gives the record [id0] to the entry [c], and touches no other system. *)
Lemma sync_step uuid d0 d d' m seen c id0 :
  SyncInv uuid d0 d m seen → config_key c ∉ config_key <$> seen →
  (∀ id r, systems d !! id = Some r → record_key r = config_key c ↔ id = id0) →
  systems d' = <[id0 := record_of id0 c]> (systems d) →
  (∀ id, id ≠ id0 → fingerprints d' !! id = fingerprints d !! id) →
  owns uuid d0 d' (List.length seen) c id0 →
  SyncInv uuid d0 d' (delete (config_key c) m) (seen ++ [c]).
Proof using CDBL.
  intros [Hp Hs Hn Ho Hd] Hc Hid0 Hs' Hf' Hown.
  assert (Hframe : ∀ j c' id, id ≠ id0 → owns uuid d0 d j c' id → owns uuid d0 d' j c' id).
  { intros j c' id Hne. apply owns_frame; [|by apply Hf']. by rewrite Hs', lookup_insert_ne. }
  split.
  - intros k r [Hne Hr]%lookup_delete_Some. destruct (Hp _ _ Hr) as (Hk&H0&H1&H2&H3).
    assert (r_id r ≠ id0) as Hid by (rewrite <- (Hid0 _ _ H1); congruence).
    rewrite Hs', lookup_insert_ne, Hf', keys_snoc by done. split_and!; try done. intros [?|?]; done.
  - intros id r Hr. destruct (decide (id = id0)) as [->|Hne].
    + right. exists (List.length seen), c. by rewrite list_lookup_middle.
    + rewrite Hs', lookup_insert_ne in Hr by done. destruct (Hs _ _ Hr) as [Hm|(j&c'&Hj&Hj')].
      * left. rewrite lookup_delete_ne; [done|]. intros E. by apply Hne, (Hid0 _ _ Hr).
      * right. exists j, c'. split; [by apply lookup_app_l_Some|auto].
  - intros j c' [Hj|[Hj Hc']]%lookup_app_Some.
    + destruct (Hn _ _ Hj) as [id Hid]. exists id. apply Hframe; [|done]. intros ->.
      destruct Hid as [Hrow _]. pose proof (proj2 (Hid0 _ _ Hrow) eq_refl) as E.
      apply Hc. rewrite <- E. by eapply (seen_key seen j c').
    + exists id0. apply list_lookup_singleton_Some in Hc' as [E <-].
      by replace j with (List.length seen) by lia.
  - intros id r Hr. destruct (Ho _ _ Hr) as [Hsome Hor]. split.
    + rewrite Hs', lookup_insert. by case_decide.
    + rewrite keys_snoc. destruct (decide (record_key r = config_key c)); [by auto|].
      rewrite lookup_delete_ne by done. tauto.
  - intros id1 id2 r1 r2. rewrite Hs', !lookup_insert_Some.
    intros [[<- <-]|[N1 H1]] [[<- <-]|[N2 H2]] Hk; try done.
    + symmetry. by apply (Hid0 _ _ H2).
    + by apply (Hid0 _ _ H1).
    + by eapply Hd.
Qed.

Lemma sync_one_inv uuid d0 d m seen c d' m' :
  SyncInv uuid d0 d m seen → config_key c ∉ config_key <$> seen →
  (∀ id r, systems d0 !! id = Some r → record_key r = config_key c →
     r_host r = systemConfig.Host c) →
  sync_one (uuid (List.length seen)) c d m = (d', m', true) →
  SyncInv uuid d0 d' m' (seen ++ [c]).
Proof using CDBL.
  intros HI Hc Hhost. unfold sync_one. destruct (m !! config_key c) as [r|] eqn:Hm.
  - destruct (si_pending _ _ _ _ _ HI _ _ Hm) as (Hk&H0&H1&H2&_).
    rewrite (Hhost _ _ H0 Hk). fold (record_of (r_id r) c).
    destruct (updateSystem d _) as [d1|] eqn:Hu; [|done].
    apply updateSystem_spec in Hu as (Hs1&Hf1&_). simpl in Hs1.
    assert (∀ id r', systems d !! id = Some r' → record_key r' = config_key c ↔ id = r_id r) as Hid.
    { intros id r' Hr'. split; [|intros ->; congruence].
      intros E. eapply (si_distinct _ _ _ _ _ HI); [done..|congruence]. }
    destruct (String.eqb (systemConfig.Token c) "") eqn:Ht.
    + intros [= <- <-]. eapply sync_step; [done..| |]; [by intros; rewrite Hf1|].
      split; [by rewrite Hs1, lookup_insert_eq|]. by rewrite H0, Ht, Hf1.
    + destruct (updateFingerprintToken d1 _ _) as [d2|] eqn:Hup; [|done]. intros [= <- <-].
      assert (systems d2 = systems d1 ∧ fingerprints d2 =
        <[r_id r := (default "" (fst <$> fingerprints d0 !! r_id r), systemConfig.Token c)]>
          (fingerprints d1)) as [Hs2 Hf2].
      { unfold updateFingerprintToken, createFingerprintRecord in Hup.
        rewrite findFingerprint_spec, Hf1, H2 in Hup.
        destruct (fingerprints d0 !! r_id r) as [[fp tk]|];
          apply saveFingerprint_spec in Hup as (?&?&_); auto. }
      eapply sync_step; [done..| | |]; [by rewrite Hs2| |].
      * intros id Hne. by rewrite Hf2, lookup_insert_ne, Hf1.
      * split; [by rewrite Hs2, Hs1, lookup_insert_eq|].
        by rewrite H0, Ht, Hf2, lookup_insert_eq.
  - destruct (insertSystem d _ _ _ _) as [[d1 id0]|] eqn:Hi; [|done].
    apply insertSystem_spec in Hi as (Hn0&Hs1&Hf1&_).
    destruct (createFingerprintRecord d1 _ _) as [d2|] eqn:Hcr; [|done]. intros [= <- <-].
    apply saveFingerprint_spec in Hcr as (Hs2&Hf2&_).
    rewrite <- (delete_id m (config_key c)) by done.
    assert (∀ id r', systems d !! id = Some r' → record_key r' ≠ config_key c) as Hno.
    { intros id r' Hr' E. destruct (si_systems _ _ _ _ _ HI _ _ Hr') as [Hm'|(j&c'&Hj&Hrow&_)].
      - congruence.
      - rewrite Hr' in Hrow. simplify_eq. apply Hc. rewrite <- E. by eapply (seen_key seen j c'). }
    apply (sync_step uuid d0 d d2 m seen c id0); [done..| | | |].
    + intros id r' Hr'. split; [by intros E; destruct (Hno _ _ Hr')|intros ->; congruence].
    + by rewrite Hs2, Hs1.
    + intros id Hne. by rewrite Hf2, lookup_insert_ne, Hf1.
    + split; [by rewrite Hs2, Hs1, lookup_insert_eq|].
      destruct (systems d0 !! id0) as [r0|] eqn:H0.
      { destruct (si_old _ _ _ _ _ HI _ _ H0) as [[? Hx] _]. congruence. }
      rewrite Hf2, lookup_insert_eq. split; [|done]. intros id r Hr E.
      destruct (si_old _ _ _ _ _ HI _ _ Hr) as [_ [Hm'|Hin]]; [congruence|].
      apply Hc. by rewrite <- E.
Qed.

Lemma sync_loop_inv uuid d0 l : ∀ seen d m d' m',
  SyncInv uuid d0 d m seen → NoDup (config_key <$> seen ++ l) → unambiguous d0 l →
  sync_loop uuid (List.length seen) l d m = (d', m', true) → SyncInv uuid d0 d' m' (seen ++ l).
Proof using CDBL.
  induction l as [|c l IH]; intros seen d m d' m' HI Hnd Hun; simpl.
  { intros [= <- <-]. by rewrite app_nil_r. }
  assert (config_key c ∉ config_key <$> seen) as Hc.
  { rewrite fmap_app, NoDup_app in Hnd. destruct Hnd as (_&Hdis&_). intros Hin.
    apply (Hdis _ Hin). simpl. apply elem_of_cons. by left. }
  destruct (sync_one _ _ _ _) as [[d1 m1] [|]] eqn:H1; [|done]. intros H2.
  eapply sync_one_inv in H1; [|done..|].
  2: { intros id r Hr. eapply Hun; [done|]. apply elem_of_cons. by left. }
  replace (seen ++ c :: l) with ((seen ++ [c]) ++ l) in * by (by rewrite <- app_assoc).
  eapply (IH (seen ++ [c])); [done|done| |].
  - intros id r c' Hr Hin. eapply Hun; [done|]. apply elem_of_cons. by right.
  - rewrite length_app. simpl. by rewrite Nat.add_1_r.
Qed.

(** Deleting what is left. *)
Lemma delete_loop_spec l : ∀ d d',
  delete_loop l d = (d', true) →
  (∀ id, id ∈ (λ p, r_id p.2) <$> l → systems d' !! id = None) ∧
  (∀ id, id ∉ (λ p, r_id p.2) <$> l →
     systems d' !! id = systems d !! id ∧ fingerprints d' !! id = fingerprints d !! id).
Proof using CDBL.
  induction l as [|[k r] l IH]; intros d d'; simpl.
  { intros [= <-]. split; [intros id Hid; by apply elem_of_nil in Hid|done]. }
  destruct (deleteSystem d (r_id r)) as [d1|] eqn:Hd; [|done]. intros Hl.
  apply deleteSystem_spec in Hd as (Hs&Hf&_). destruct (IH _ _ Hl) as [Hin Hout].
  split.
  - intros id Hid. destruct (decide (id ∈ (λ p, r_id p.2) <$> l)) as [?|Hn]; [by apply Hin|].
    apply elem_of_cons in Hid as [->|?]; [|done].
    by rewrite (proj1 (Hout _ Hn)), Hs, lookup_delete_eq.
  - intros id [Hne Hid]%not_elem_of_cons. destruct (Hout _ Hid) as [-> ->].
    by rewrite Hs, Hf, !lookup_delete_ne by done.
Qed.

(** The whole sync, over the entries with their defaults. *)
Lemma sync_result uuid l existing d d1 m d' :
  allSystems d = Some existing → distinct d → NoDup (config_key <$> l) → unambiguous d l →
  sync_loop uuid 0 l d (existingSystemsMap existing) = (d1, m, true) →
  delete_loop (range_list m) d1 = (d', true) →
  (∀ j c, l !! j = Some c → ∃ id, owns uuid d d' j c id) ∧
  (∀ id r, systems d' !! id = Some r → ∃ j c, l !! j = Some c ∧ owns uuid d d' j c id) ∧
  distinct d'.
Proof using CDBL.
  intros Hex Hd Hnd Hun H1 H2.
  pose proof (sync_loop_inv uuid d l [] d _ d1 m (sync_init uuid d existing Hex Hd) Hnd Hun H1)
    as [Hp Hs Hn Ho Hd1].
  apply delete_loop_spec in H2 as [Hgone Hkept].
  assert (Hleft : ∀ id, id ∈ (λ p, r_id p.2) <$> range_list m →
    ∃ k r, m !! k = Some r ∧ r_id r = id).
  { intros id ([k r]&->&Hin)%list_elem_of_fmap. apply elem_of_range_list in Hin. eauto. }
  assert (Hmine : ∀ j c id, l !! j = Some c → owns uuid d d1 j c id →
    id ∉ (λ p, r_id p.2) <$> range_list m).
  { intros j c id Hj [Hrow _] (k&r&Hm&<-)%Hleft. destruct (Hp _ _ Hm) as (Hk&_&Hr&_&Hnk).
    rewrite Hrow in Hr. injection Hr as Hr. apply Hnk. rewrite <- Hk, <- Hr.
    by eapply (seen_key l j c). }
  assert (Hold : ∀ id r, systems d' !! id = Some r → systems d1 !! id = Some r).
  { intros id r Hr. destruct (decide (id ∈ (λ p, r_id p.2) <$> range_list m)) as [Hin|Hin].
    - by rewrite (Hgone _ Hin) in Hr.
    - by rewrite <- (proj1 (Hkept _ Hin)). }
  assert (Hframe : ∀ j c id, l !! j = Some c → owns uuid d d1 j c id → owns uuid d d' j c id).
  { intros j c id Hj Hid. destruct (Hkept _ (Hmine _ _ _ Hj Hid)). by eapply owns_frame. }
  split_and!.
  - intros j c Hj. destruct (Hn _ _ Hj) as [id Hid]. eauto.
  - intros id r Hr. destruct (Hs _ _ (Hold _ _ Hr)) as [Hm|(j&c&Hj&Hid)]; [|eauto].
    exfalso. destruct (Hp _ _ Hm) as (_&_&Hr1&_). pose proof (systems_key _ _ _ (Hold _ _ Hr)) as E.
    rewrite (Hgone id) in Hr; [done|]. rewrite list_elem_of_fmap.
    exists (record_key r, r). by rewrite elem_of_range_list.
  - intros id1 id2 r1 r2 R1 R2. by apply (Hd1 id1 id2 r1 r2); apply Hold.
Qed.

(** The phases of a successful run. *)
Lemma SyncSystems_inv uuid l d d' :
  l ≠ [] → SyncSystems uuid (Some (Some l)) d = (d', true) →
  ∃ users existing d1 m, allUsers d = Some users ∧ allSystems d = Some existing ∧
    sync_loop uuid 0 (with_defaults users <$> l) d (existingSystemsMap existing) = (d1, m, true) ∧
    delete_loop (range_list m) d1 = (d', true).
Proof using Type.
  clear. intros Hne. unfold SyncSystems. destruct l as [|c l]; [done|].
  destruct (allUsers d) as [users|]; [|done]. destruct (allSystems d) as [existing|]; [|done].
  destruct (sync_loop _ _ _ _ _) as [[d1 m] [|]] eqn:H1; [|done]. intros H2.
  exists users, existing, d1, m. auto.
Qed.

(** A synced database has unambiguous keys, and a second sync gives each entry the system it
    has. *)
Lemma synced_unambiguous uuid d d' l :
  NoDup (config_key <$> l) →
  (∀ id r, systems d' !! id = Some r → ∃ j c, l !! j = Some c ∧ owns uuid d d' j c id) →
  unambiguous d' l.
Proof using Type.
  clear. intros Hnd Hb id r c Hr Hin E. destruct (Hb _ _ Hr) as (j&c'&Hj&Hrow&_).
  rewrite Hr in Hrow. injection Hrow as ->. simpl.
  apply list_elem_of_lookup in Hin as [j' Hj']. f_equal.
  assert (j = j') as <-; [|congruence].
  eapply (NoDup_lookup (config_key <$> l)); [done|..]; rewrite list_lookup_fmap.
  - by rewrite Hj.
  - rewrite Hj'. simpl. by rewrite <- E.
Qed.

Lemma synced_same uuid uuid2 d d' d'' (l : list systemConfig) j c id :
  distinct d' → (∀ j c, l !! j = Some c → ∃ id, owns uuid2 d' d'' j c id) →
  l !! j = Some c → owns uuid d d' j c id → owns uuid2 d' d'' j c id.
Proof using Type.
  clear. intros Hc Ha2 Hj [Hrow _]. destruct (Ha2 _ _ Hj) as [id2 Hown2]. pose proof Hown2 as [_ H2].
  destruct (systems d' !! id2) as [r2|] eqn:Hr2.
  - destruct H2 as [Hk _]. assert (id = id2) as ->; [|done]. by eapply Hc.
  - destruct H2 as [Hno _]. by destruct (Hno _ _ Hrow).
Qed.

(** *** Properties *)

(** C17: after a successful sync the systems are exactly those of the file: every entry has its
    system and every system is that of an entry, with its name, host, port and users; one that
    existed keeps its id, its fingerprint and (unless the file gives one) its token, and no
    two systems have the same key.  It holds when the keys of the file and of the existing
    systems are distinct and a matching key means the same host. *)
Theorem SyncSystems_exact uuid l d d' users :
  allUsers d = Some users → distinct d →
  NoDup (config_key <$> (with_defaults users <$> l)) → unambiguous d (with_defaults users <$> l) →
  l ≠ [] → SyncSystems uuid (Some (Some l)) d = (d', true) →
  (∀ j c, l !! j = Some c → ∃ id, owns uuid d d' j (with_defaults users c) id) ∧
  (∀ id r, systems d' !! id = Some r →
     ∃ j c, l !! j = Some c ∧ owns uuid d d' j (with_defaults users c) id) ∧
  distinct d'.
Proof using CDBL.
  intros Hu Hd Hnd Hun Hne Hs. destruct (SyncSystems_inv _ _ _ _ Hne Hs)
    as (users'&existing&d1&m&Hu'&Hex&H1&H2). simplify_eq.
  destruct (sync_result _ _ _ _ _ _ _ Hex Hd Hnd Hun H1 H2) as (Ha&Hb&Hc). split_and!; [..|done].
  - intros j c Hj. apply Ha. by rewrite list_lookup_fmap, Hj.
  - intros id r Hr. destruct (Hb _ _ Hr) as (j&c&Hj&Hown). rewrite list_lookup_fmap in Hj.
    destruct (l !! j) as [c0|] eqn:Hj0; [|done]. simplify_eq/=. eauto.
Qed.

(** Syncing the same file again changes nothing: the systems, their fingerprints and their
    tokens stay as they are (whatever tokens would be generated). *)
Theorem SyncSystems_idempotent uuid uuid2 l d d' d'' users :
  allUsers d = Some users → allUsers d' = Some users → distinct d →
  NoDup (config_key <$> (with_defaults users <$> l)) → unambiguous d (with_defaults users <$> l) →
  l ≠ [] → SyncSystems uuid (Some (Some l)) d = (d', true) →
  SyncSystems uuid2 (Some (Some l)) d' = (d'', true) →
  systems d'' = systems d' ∧
  ∀ id, is_Some (systems d' !! id) → fingerprints d'' !! id = fingerprints d' !! id.
Proof using CDBL.
  intros Hu Hu' Hd Hnd Hun Hne Hs Hs'.
  destruct (SyncSystems_inv _ _ _ _ Hne Hs) as (?&ex1&d1&m1&?&Hex1&A1&A2). simplify_eq.
  destruct (SyncSystems_inv _ _ _ _ Hne Hs') as (?&ex2&d2&m2&?&Hex2&B1&B2). simplify_eq.
  set (cfg := with_defaults users <$> l) in *.
  destruct (sync_result _ _ _ _ _ _ _ Hex1 Hd Hnd Hun A1 A2) as (Ha&Hb&Hc).
  pose proof (synced_unambiguous _ _ _ _ Hnd Hb) as Hun'.
  destruct (sync_result _ _ _ _ _ _ _ Hex2 Hc Hnd Hun' B1 B2) as (Ha2&Hb2&Hc2).
  assert (Hsame : ∀ j c id, cfg !! j = Some c → owns uuid d d' j c id → owns uuid2 d' d'' j c id)
    by (intros j c id; by apply synced_same).
  assert (Hfwd : ∀ id r, systems d' !! id = Some r → systems d'' !! id = Some r).
  { intros id r Hr. destruct (Hb _ _ Hr) as (j&c&Hj&Hown).
    destruct (Hsame _ _ _ Hj Hown) as [Hrow _]. destruct Hown as [Hrow' _]. congruence. }
  split.
  - apply map_eq. intros id. destruct (systems d' !! id) as [r|] eqn:Hr; [by apply Hfwd|].
    destruct (systems d'' !! id) as [r|] eqn:Hr''; [|done]. exfalso.
    destruct (Hb2 _ _ Hr'') as (j&c&Hj&Hrow2&_). destruct (Ha _ _ Hj) as [id1 [Hrow1 _]].
    assert (id1 = id) as ->; [|congruence].
    eapply Hc2; [by apply Hfwd|exact Hr''|]. rewrite Hr'' in Hrow2. by injection Hrow2 as ->.
  - intros id [r Hr]. destruct (Hb _ _ Hr) as (j&c&Hj&Hown).
    destruct (Hsame _ _ _ Hj Hown) as [_ H2]. rewrite Hr in H2. destruct H2 as [_ ->].
    destruct (String.eqb (systemConfig.Token c) "") eqn:Ht; [done|].
    destruct Hown as [_ H1]. destruct (systems d !! id); destruct H1 as [_ H1];
      rewrite Ht in H1; by rewrite H1.
Qed.
End sync.

(** ** A concrete database *)

Record mem := {
  m_users : list UserRecord;
  m_systems : gmap string SystemRecord;  (* the id is that of the key *)
  m_fingerprints : gmap string (string * string);
}.

Definition with_id (id : string) (r : SystemRecord) : SystemRecord := {|
  r_id := id; r_name := r_name r; r_host := r_host r; r_port := r_port r; r_users := r_users r |}.

Definition rows (d : mem) : gmap string SystemRecord :=
  map_imap (λ id r, Some (with_id id r)) (m_systems d).

Lemma rows_lookup d id : rows d !! id = with_id id <$> m_systems d !! id.
Proof. unfold rows. rewrite map_lookup_imap. by destruct (m_systems d !! id). Qed.

#[local] Instance mem_config : ConfigDB mem := {|
  allUsers d := Some (m_users d);
  allSystems d := Some ((map_to_list (rows d)).*2);
  updateSystem d r :=
    Some {| m_users := m_users d; m_systems := <[r_id r := r]> (m_systems d);
            m_fingerprints := m_fingerprints d |};
  insertSystem d n h p us :=
    let id := fresh (dom (m_systems d)) in
    Some ({| m_users := m_users d;
             m_systems := <[id := {| r_id := id; r_name := n; r_host := h; r_port := p;
                                     r_users := us |}]> (m_systems d);
             m_fingerprints := m_fingerprints d |}, id);
  deleteSystem d id :=
    Some {| m_users := m_users d; m_systems := delete id (m_systems d);
            m_fingerprints := delete id (m_fingerprints d) |};
  findFingerprint d sys := m_fingerprints d !! sys;
  saveFingerprint d sys p :=
    Some {| m_users := m_users d; m_systems := m_systems d;
            m_fingerprints := <[sys := p]> (m_fingerprints d) |};
  systems := rows;
  fingerprints := m_fingerprints;
|}.

#[local] Instance mem_config_laws : ConfigDBLaws mem.
Proof.
  assert (∀ d id r, rows d !! id = Some r → r_id r = id) as Hkey.
  { intros d id r. rewrite rows_lookup. by intros (r'&_&->)%fmap_Some. }
  assert (∀ (m : gmap string SystemRecord) id r us fps, r_id r = id →
    rows {| m_users := us; m_systems := <[id := r]> m; m_fingerprints := fps |} =
    <[id := r]> (rows {| m_users := us; m_systems := m; m_fingerprints := fps |})) as Hins.
  { intros m id r us fps <-. apply map_eq. intros id'. rewrite rows_lookup. simpl.
    rewrite !lookup_insert, rows_lookup. case_decide; [subst; by destruct r|done]. }
  split; simpl.
  - intros d l [= <-] r. rewrite list_elem_of_fmap. split.
    + intros ([k r']&->&Hr%elem_of_map_to_list). simpl. by rewrite (Hkey _ _ _ Hr).
    + intros Hr. exists (r_id r, r). by rewrite elem_of_map_to_list.
  - done.
  - intros d r d' [= <-]. by rewrite Hins.
  - intros d n h p us d' id [= <- <-]. rewrite Hins by done. split_and!; try done.
    rewrite rows_lookup. by rewrite (not_elem_of_dom_1 _ _ (is_fresh (dom (m_systems d)))).
  - intros d id d' [= <-]. split; [|done]. apply map_eq. intros id'. rewrite rows_lookup. simpl.
    rewrite !lookup_delete, rows_lookup. by case_decide.
  - done.
  - by intros d sys p d' [= <-].
Qed.

Definition entry (name host tok : string) : systemConfig := {|
  systemConfig.Name := name; systemConfig.Host := host; systemConfig.Port := 0;
  systemConfig.Token := tok; systemConfig.Users := [] |}.
Definition row (id name host : string) : SystemRecord := {|
  r_id := id; r_name := name; r_host := host; r_port := "45876"; r_users := [] |}.

(** One system is kept, one deleted, one created. *)
Definition before : mem := {|
  m_users := [{| u_id := "u1"; u_email := "a@b.c" |}];
  m_systems := {["s1" := row "s1" "web" "10.0.0.1"; "s2" := row "s2" "old" "10.0.0.2"]};
  m_fingerprints := {["s1" := ("fp", "tok")]} |}.
Definition file : list systemConfig := [entry "web" "10.0.0.1" ""; entry "db" "10.0.0.3" "t3"].
Definition after : mem := (SyncSystems (λ _, "uuid") (Some (Some file)) before).1.
Definition again : mem := (SyncSystems (λ _, "other") (Some (Some file)) after).1.

(** The hypotheses, for the example. *)
Lemma before_ok :
  distinct before ∧ NoDup (config_key <$> (with_defaults (m_users before) <$> file)) ∧
  unambiguous before (with_defaults (m_users before) <$> file).
Proof.
  assert (∀ id r, systems before !! id = Some r →
    id = "s1" ∧ r = row "s1" "web" "10.0.0.1" ∨ id = "s2" ∧ r = row "s2" "old" "10.0.0.2") as Hr.
  { intros id r. simpl. rewrite rows_lookup. simpl. intros (r'&Hr'&->)%fmap_Some.
    rewrite lookup_insert_Some, lookup_singleton_Some in Hr'. naive_solver. }
  split_and!.
  - intros id1 id2 r1 r2 [[-> ->]|[-> ->]]%Hr [[-> ->]|[-> ->]]%Hr; done.
  - apply (bool_decide_unpack _). by vm_compute.
  - intros id r c [[-> ->]|[-> ->]]%Hr Hc; simpl in Hc;
      repeat (apply elem_of_cons in Hc as [-> | Hc]; [done|]); by apply elem_of_nil in Hc.
Qed.

Lemma SyncSystems_exact_witness : distinct after.
Proof.
  exact (proj2 (proj2 (SyncSystems_exact (λ _, "uuid") file before after (m_users before) eq_refl
    (proj1 before_ok) (proj1 (proj2 before_ok)) (proj2 (proj2 before_ok)) ltac:(done)
    ltac:(by vm_compute)))).
Defined.

Lemma SyncSystems_idempotent_witness : systems again = systems after.
Proof.
  exact (proj1 (SyncSystems_idempotent (λ _, "uuid") (λ _, "other") file before after again
    (m_users before) eq_refl ltac:(by vm_compute)
    (proj1 before_ok) (proj1 (proj2 before_ok)) (proj2 (proj2 before_ok)) ltac:(done)
    ltac:(by vm_compute) ltac:(by vm_compute))).
Defined.

Example after_ex :
  r_name <$> rows after = {["s1" := "web"; "0" := "db"]} ∧
  m_fingerprints after = {["s1" := ("fp", "tok"); "0" := ("", "t3")]}.
Proof. by vm_compute. Qed.

(** The keys are concatenations: a system whose name and host run together to the same text is
    taken for the entry, and keeps its own host under the entry's name. *)
Example key_collision :
  let d := {| m_users := []; m_systems := {["s1" := row "s1" "a" "bc"]}; m_fingerprints := ∅ |} in
  let d' := (SyncSystems (λ _, "uuid") (Some (Some [entry "ab" "c" ""])) d).1 in
  rows d' = {["s1" := row "s1" "ab" "bc"]}.
Proof. by vm_compute. Qed.

(** An entry that is in the file twice creates one more system at every start. *)
Example duplicate_entry_grows :
  let d0 := {| m_users := []; m_systems := ∅; m_fingerprints := ∅ |} in
  let sync d := (SyncSystems (λ _, "uuid") (Some (Some [entry "a" "b" ""; entry "a" "b" ""])) d).1 in
  size (rows (sync d0)) = 2%nat ∧ size (rows (sync (sync d0))) = 3%nat ∧
  size (rows (sync (sync (sync d0)))) = 4%nat.
Proof. by vm_compute. Qed.
End ConfigSync.
