(* ===== verification/ConfigExport.v ===== *)
(** * Exporting [config.yml] ([internal/hub/config/config.go])

    An administrator can download the systems of the hub as the YAML file that
    [SyncSystems] (ConfigSync) reads.  The file names users by e-mail address, where the
    collection has ids, and takes the token from the fingerprint records.

    [yaml.Marshal], [yaml.Unmarshal] and [cast.ToUint16] are third-party code and
    parameters here; the collections are behind [ExportDB]. *)

From Stdlib Require Import DecimalString DecimalZ.
From S2P Require Import Prelude GoStrings GoFmt ConfigSync.

Class ExportDB (DB : Type) := {
  systemsByName : DB → option (list SystemRecord);      (* sorted by name *)
  usersByIds : DB → list string → option (list UserRecord);
  (* the system and the token of every fingerprint record *)
  allFingerprints : DB → option (list (string * string));
}.

(** What the queries return, on the contents of the collections. *)
Class ExportDBLaws (DB : Type) `{ConfigDB DB, ExportDB DB} := {
  systemsByName_spec : ∀ d l, systemsByName d = Some l →
    NoDup l ∧ ∀ r, r ∈ l ↔ systems d !! r_id r = Some r;
  usersByIds_spec : ∀ d users ids l, allUsers d = Some users → NoDup (u_id <$> users) →
    usersByIds d ids = Some l → NoDup (u_id <$> l) ∧ ∀ u, u ∈ l ↔ u ∈ users ∧ u_id u ∈ ids;
  allFingerprints_spec : ∀ d l, allFingerprints d = Some l →
    NoDup l.*1 ∧ ∀ sys tok, (sys, tok) ∈ l ↔ snd <$> fingerprints d !! sys = Some tok;
}.

Module ConfigExport.
Section export.
Context {DB : Type} {CDB : ConfigDB DB} {CDBL : ConfigDBLaws DB}.
Context {EDB : ExportDB DB} {EDBL : ExportDBLaws DB} {RO : RangeOrder string}.
Context (ToUint16 : string → Z).
Context (Marshal : list systemConfig → option string).
Context (Unmarshal : string → option (list systemConfig)).

(** ** Operations *)

Definition userEmailMap (l : list UserRecord) : gmap string string :=
  fold_left (λ m u, <[u_id u := u_email u]> m) l ∅.

Definition getUserEmailMap (d : DB) (userIDs : list string) : option (gmap string string) :=
  userEmailMap <$> usersByIds d userIDs.

Definition systemTokenMap (l : list (string * string)) : gmap string string :=
  fold_left (λ m p, <[p.1 := p.2]> m) l ∅.

(** The entry of one system. *)
Definition export_one (emails tokens : gmap string string) (r : SystemRecord) : systemConfig := {|
  systemConfig.Name := r_name r;
  systemConfig.Host := r_host r;
  systemConfig.Port := ToUint16 (r_port r);
  systemConfig.Token := default "" (tokens !! r_id r);
  systemConfig.Users := omap (λ id, emails !! id) (r_users r) |}.

(** The configuration that is written. *)
Definition export_config (d : DB) : option (list systemConfig) :=
  l ← systemsByName d;
  emails ← getUserEmailMap d (mjoin (r_users <$> l));
  fps ← allFingerprints d;
  Some (export_one emails (systemTokenMap fps) <$> l).

Definition yaml_header : string :=
  "# Values for port, users, and token are optional." ++ String "010" EmptyString ++
  "# Defaults are port 45876, the first created user, and a generated UUID token." ++
  String "010" (String "010" EmptyString).

Definition generateYAML (d : DB) : option string :=
  c ← export_config d; s ← Marshal c; Some (yaml_header ++ s)%string.

(** [GetYamlConfig]: status 200 with the text, or the error. *)
Definition GetYamlConfig (d : DB) : option (Z * string) :=
  s ← generateYAML d; Some (200%Z, s).

(** ** Lemmas *)

Lemma fold_insert_Some {A} (f g : A → string) (l : list A) x :
  NoDup (f <$> l) → x ∈ l →
  fold_left (λ m y, <[f y := g y]> m) l (∅ : gmap string string) !! f x = Some (g x).
Proof using Type.
  clear. induction l as [|y l IH] using rev_ind; intros Hnd Hx; [by apply elem_of_nil in Hx|].
  rewrite fold_left_app. simpl. rewrite fmap_app in Hnd.
  apply NoDup_app in Hnd as (Hnd&Hne&_). rewrite lookup_insert. case_decide as E.
  - apply elem_of_app in Hx as [Hx|Hx%list_elem_of_singleton]; [|by subst].
    exfalso. apply (Hne (f x)); [by apply list_elem_of_fmap_2|]. rewrite <- E.
    by apply list_elem_of_singleton.
  - apply elem_of_app in Hx as [Hx|Hx%list_elem_of_singleton]; [by apply IH|by subst].
Qed.

Lemma fold_insert_None {A} (f g : A → string) (l : list A) k :
  k ∉ f <$> l → fold_left (λ m y, <[f y := g y]> m) l (∅ : gmap string string) !! k = None.
Proof using Type.
  clear. induction l as [|y l IH] using rev_ind; intros Hk; [done|].
  rewrite fold_left_app. simpl. rewrite fmap_app, not_elem_of_app in Hk. destruct Hk as [Hl Hy].
  rewrite lookup_insert_ne; [by apply IH|]. intros <-. by apply Hy, list_elem_of_singleton.
Qed.

(** A list of ids that are all of users comes back from the e-mail addresses. *)
Lemma users_roundtrip users l (ids : list string) :
  NoDup (u_email <$> users) → NoDup (u_id <$> l) →
  (∀ u, u ∈ l → u ∈ users) → (∀ id, id ∈ ids → ∃ u, u ∈ l ∧ u_id u = id) →
  omap (λ e, ConfigSync.userEmailToID users !! e) (omap (λ id, userEmailMap l !! id) ids) = ids ∧
  (ids ≠ [] → omap (λ id, userEmailMap l !! id) ids ≠ []).
Proof using Type.
  clear. intros Hem Hid Hsub. induction ids as [|id ids IH]; intros Hall; [done|].
  destruct (Hall id) as (u&Hu&<-); [left|].
  destruct IH as [IH _]; [intros id Hin; apply Hall; by right|].
  assert (userEmailMap l !! u_id u = Some (u_email u)) as E1 by (by apply fold_insert_Some).
  assert (ConfigSync.userEmailToID users !! u_email u = Some (u_id u)) as E2
    by (apply fold_insert_Some; auto).
  simpl. rewrite E1. simpl. rewrite E2. split; [|done].
  f_equal. exact IH.
Qed.

(** ** The round trip *)

(** What the file can express: a system has users, all of them known, and a port. *)
Definition exportable (users : list UserRecord) (r : SystemRecord) : Prop :=
  r_users r ≠ [] ∧ (∀ id, id ∈ r_users r → id ∈ u_id <$> users) ∧
  ∃ p, (0 < p < 65536)%Z ∧ r_port r = print_Z p.

(** The laws of the third-party code: a document that was written is read back, whatever
    comment lines are before it, and a port is read as it is printed. *)
Definition yaml_reads_back : Prop :=
  ∀ l s, Marshal l = Some s → Unmarshal (yaml_header ++ s)%string = Some l.
Definition ports_read_back : Prop :=
  ∀ p, (0 ≤ p < 65536)%Z → ToUint16 (print_Z p) = p.

(** The exported entries, with defaults, are those of the records. *)
Lemma export_one_defaults users l emails tokens r :
  ports_read_back → NoDup (u_email <$> users) → NoDup (u_id <$> l) → emails = userEmailMap l →
  (∀ u, u ∈ l → u ∈ users) → (∀ id, id ∈ r_users r → ∃ u, u ∈ l ∧ u_id u = id) →
  exportable users r →
  ConfigSync.record_of (r_id r) (ConfigSync.with_defaults users (export_one emails tokens r)) = r ∧
  systemConfig.Token (ConfigSync.with_defaults users (export_one emails tokens r)) =
    default "" (tokens !! r_id r).
Proof using Type.
  clear. intros Hport Hem Hid -> Hsub Hall (Hne&_&p&Hp&Ep).
  destruct (users_roundtrip users l (r_users r) Hem Hid Hsub Hall) as [Hrt Hnz].
  split; [|done]. unfold ConfigSync.record_of, ConfigSync.with_defaults, export_one. simpl.
  rewrite Ep, Hport by lia. rewrite (proj2 (Z.eqb_neq p 0)) by lia.
  unfold ConfigSync.portString. rewrite <- Ep.
  specialize (Hnz Hne).
  destruct users as [|u users]; [|destruct (omap _ (r_users r)) as [|e es] eqn:He; [done|]];
    (destruct r; simpl in *; f_equal; first [exact Hrt | by rewrite <- Hrt, ?He]).
Qed.

Lemma generateYAML_inv d text :
  generateYAML d = Some text →
  ∃ l us fps s, systemsByName d = Some l ∧ usersByIds d (mjoin (r_users <$> l)) = Some us ∧
    allFingerprints d = Some fps ∧
    Marshal (export_one (userEmailMap us) (systemTokenMap fps) <$> l) = Some s ∧
    text = (yaml_header ++ s)%string.
Proof using Type.
  clear. unfold generateYAML, export_config, getUserEmailMap.
  destruct (systemsByName d) as [l|]; [simpl|done].
  destruct (usersByIds d _) as [us|] eqn:Hus; [simpl|done].
  destruct (allFingerprints d) as [fps|]; [simpl|done].
  destruct (Marshal _) as [s|] eqn:Hs; [|done]. intros [= <-]. by exists l, us, fps, s.
Qed.

(** The token of a system's entry is the one of its fingerprint record. *)
Lemma systemTokenMap_spec d fps id :
  allFingerprints d = Some fps →
  default "" (systemTokenMap fps !! id) = default "" (snd <$> fingerprints d !! id).
Proof using EDBL.
  intros Hf. destruct (allFingerprints_spec _ _ Hf) as [Hnd Hin]. unfold systemTokenMap.
  destruct (snd <$> fingerprints d !! id) as [tok|] eqn:E.
  - apply Hin in E. by rewrite (fold_insert_Some fst snd fps (id, tok) Hnd E : _ !! id = Some tok).
  - rewrite fold_insert_None; [done|]. intros ([i tok]&->&Hi)%list_elem_of_fmap.
    apply Hin in Hi. simpl in *. congruence.
Qed.

(** Every system of the collection has an entry that stands for it. *)
Lemma exported_entries d text users :
  yaml_reads_back → ports_read_back → allUsers d = Some users →
  NoDup (u_id <$> users) → NoDup (u_email <$> users) →
  (∀ id r, systems d !! id = Some r → exportable users r) → generateYAML d = Some text →
  ∃ l cs, systemsByName d = Some l ∧ Unmarshal text = Some cs ∧
    Forall2 (λ r c,
      ConfigSync.record_of (r_id r) (ConfigSync.with_defaults users c) = r ∧
      systemConfig.Token (ConfigSync.with_defaults users c) =
        default "" (snd <$> fingerprints d !! r_id r)) l cs.
Proof using EDBL.
  intros Hy Hp Hu Hui Hem Hex (l&us&fps&s&Hl&Hus&Hfps&Hs&->)%generateYAML_inv.
  exists l. eexists. split_and!; [done|by apply Hy|].
  destruct (usersByIds_spec _ _ _ _ Hu Hui Hus) as [Hid Hin].
  destruct (systemsByName_spec _ _ Hl) as [_ Hl'].
  apply Forall2_fmap_r, Forall_Forall2_diag, Forall_forall. intros r Hr.
  rewrite <- (systemTokenMap_spec d fps) by done. pose proof (Hex _ _ (proj1 (Hl' r) Hr)) as Hexr.
  eapply export_one_defaults; try done.
  - intros u Hu'. by apply Hin.
  - intros id Hidr. destruct Hexr as (_&Hk&_). apply Hk in Hidr as Hid'.
    apply list_elem_of_fmap in Hid' as (u&->&Hu'). exists u. split; [|done]. apply Hin.
    split; [done|]. apply list_elem_of_join. exists (r_users r). split; [done|].
    by apply list_elem_of_fmap_2.
Qed.

(** An entry's key is that of its system. *)
Lemma entry_key id r c : ConfigSync.record_of id c = r → ConfigSync.config_key c = ConfigSync.record_key r.
Proof using Type. clear. by intros <-. Qed.

Section synced.
Context (uuid : nat → string) (d d' : DB) (users : list UserRecord).
Context (l : list SystemRecord) (cs : list systemConfig).
Hypothesis Hl : ∀ r, r ∈ l ↔ systems d !! r_id r = Some r.
Hypothesis Hdist : ConfigSync.distinct d.
Hypothesis Hent : Forall2 (λ r c, ConfigSync.record_of (r_id r) (ConfigSync.with_defaults users c) = r)
  l cs.

Lemma entries_keys :
  ConfigSync.config_key <$> (ConfigSync.with_defaults users <$> cs) = ConfigSync.record_key <$> l.
Proof using Hent.
  clear -Hent. induction Hent as [|r c l' cs' E H IH]; [done|]. rewrite !fmap_cons. f_equal; [|exact (IH H)].
  by eapply entry_key.
Qed.

Lemma entries_distinct :
  NoDup l → NoDup (ConfigSync.config_key <$> (ConfigSync.with_defaults users <$> cs)).
Proof using CDBL Hdist Hent Hl.
  rewrite entries_keys. intros Hnd. apply NoDup_fmap_2_strong; [|done].
  intros r1 r2 H1%Hl H2%Hl E. pose proof (Hdist _ _ _ _ H1 H2 E) as Ei. congruence.
Qed.

Lemma entries_unambiguous : ConfigSync.unambiguous d (ConfigSync.with_defaults users <$> cs).
Proof using CDBL Hdist Hent Hl.
  intros id r c Hr (c0&->&Hc)%list_elem_of_fmap E. apply list_elem_of_lookup in Hc as [j Hj].
  destruct (Forall2_lookup_r _ _ _ _ _ Hent Hj) as (r0&Hr0&E0).
  apply list_elem_of_lookup_2, Hl in Hr0. rewrite (entry_key _ _ _ E0) in E.
  pose proof (Hdist _ _ _ _ Hr Hr0 E) as ->. rewrite Hr in Hr0. injection Hr0 as ->.
  by rewrite <- E0 at 1.
Qed.

(** After a sync of the entries, each belongs to the system it stands for. *)
Lemma entry_owner j r c id :
  l !! j = Some r → cs !! j = Some c →
  ConfigSync.owns uuid d d' j (ConfigSync.with_defaults users c) id → id = r_id r.
Proof using Hdist Hent Hl.
  intros Hr Hc [_ Hown]. destruct (Forall2_lookup_l _ _ _ _ _ Hent Hr) as (c'&Hc'&E).
  rewrite Hc in Hc'. injection Hc' as <-. apply list_elem_of_lookup_2, Hl in Hr.
  apply entry_key in E. destruct (systems d !! id) as [r0|] eqn:H0.
  - destruct Hown as [Hk _]. rewrite E in Hk. by eapply Hdist.
  - destruct Hown as [Hk _]. by destruct (Hk _ _ Hr).
Qed.
End synced.

(** A token that is the one of the record changes nothing. *)
Lemma same_token (fp : option (string * string)) tok :
  tok = default "" (snd <$> fp) →
  (if String.eqb tok "" then fp else Some (default "" (fst <$> fp), tok)) = fp.
Proof using Type. clear. intros ->. by destruct fp as [[? tok]|]; simpl; [destruct (String.eqb tok "")|]. Qed.

(** C26: importing an export changes nothing: after the exported file is synced, the systems are
    the same records under the same ids, with the same fingerprints and tokens.  It holds when
    every system has a port and users, the users have e-mail addresses of their own, and no two
    systems have the same key; [yaml] reads back what it wrote and [cast] a printed port. *)
Theorem export_import uuid d d' users text :
  yaml_reads_back → ports_read_back → allUsers d = Some users →
  NoDup (u_id <$> users) → NoDup (u_email <$> users) →
  (∀ id r, systems d !! id = Some r → exportable users r) → ConfigSync.distinct d →
  generateYAML d = Some text → ConfigSync.SyncSystems uuid (Some (Unmarshal text)) d = (d', true) →
  systems d' = systems d ∧
  ∀ id, is_Some (systems d !! id) → fingerprints d' !! id = fingerprints d !! id.
Proof using CDBL EDBL.
  intros Hy Hp Hu Hui Hem Hex Hd Hg Hs.
  destruct (exported_entries _ _ _ Hy Hp Hu Hui Hem Hex Hg) as (l&cs&Hl&Hcs&Hall).
  destruct (systemsByName_spec _ _ Hl) as [Hnd Hin]. rewrite Hcs in Hs.
  destruct cs as [|c0 cs0]; [by injection Hs as <-|]. set (cs := c0 :: cs0) in *.
  assert (Hent := Forall2_impl _ _ _ _ Hall (λ r c H, proj1 H)).
  destruct (ConfigSync.SyncSystems_inv uuid cs d d' ltac:(done) Hs)
    as (us&ex&d1&m&Hus&Hexi&H1&H2). rewrite Hu in Hus. injection Hus as <-.
  destruct (ConfigSync.sync_result _ _ _ _ _ _ _ Hexi Hd
    (entries_distinct d users l cs Hin Hd Hent Hnd)
    (entries_unambiguous d users l cs Hin Hd Hent) H1 H2) as (Ha&Hb&Hc).
  assert (Hkeep : ∀ id r, systems d !! id = Some r →
    systems d' !! id = Some r ∧ fingerprints d' !! id = fingerprints d !! id).
  { intros id r Hr. pose proof (systems_key _ _ _ Hr) as Ei. subst id.
    pose proof (proj1 (list_elem_of_lookup _ _) (proj2 (Hin r) Hr)) as [j Hj].
    destruct (Forall2_lookup_l _ _ _ _ _ Hall Hj) as (c&Hcj&Er&Et).
    destruct (Ha j (ConfigSync.with_defaults users c)) as [id Hown];
      [by rewrite list_lookup_fmap, Hcj|].
    pose proof (entry_owner uuid d d' users l cs Hin Hd Hent _ _ _ _ Hj Hcj Hown) as ->.
    destruct Hown as [Hrow Hfp]. rewrite Hr in Hfp. destruct Hfp as [_ Hfp].
    split; [by rewrite Hrow; f_equal|]. rewrite Hfp. by apply same_token. }
  split; [|intros id [r Hr]; by apply (Hkeep id r)].
  apply map_eq. intros id. destruct (systems d !! id) as [r|] eqn:Hr; [by apply Hkeep|].
  destruct (systems d' !! id) as [r'|] eqn:Hr'; [|done]. exfalso.
  destruct (Hb _ _ Hr') as (j&c&Hj&Hown). rewrite list_lookup_fmap in Hj.
  destruct (cs !! j) as [c'|] eqn:Hcj; [|done]. injection Hj as <-.
  destruct (Forall2_lookup_r _ _ _ _ _ Hall Hcj) as (r&Hrj&_).
  pose proof (entry_owner uuid d d' users l cs Hin Hd Hent _ _ _ _ Hrj Hcj Hown) as ->.
  apply list_elem_of_lookup_2, Hin in Hrj. congruence.
Qed.
End export.

(** ** A concrete export *)

#[local] Existing Instance ConfigSync.mem_config.
#[local] Existing Instance ConfigSync.mem_config_laws.

Definition name_le (a b : SystemRecord) : Prop := Is_true (String.leb (r_name a) (r_name b)).
#[local] Instance name_le_dec : RelDecision name_le.
Proof. intros a b. apply _. Defined.

#[local] Instance mem_export : ExportDB ConfigSync.mem := {|
  systemsByName d := Some (merge_sort name_le (map_to_list (ConfigSync.rows d)).*2);
  usersByIds d ids := Some (filter (λ u, u_id u ∈ ids) (ConfigSync.m_users d));
  allFingerprints d := Some ((λ p, (p.1, p.2.2)) <$> map_to_list (ConfigSync.m_fingerprints d));
|}.

#[local] Instance mem_export_laws : ExportDBLaws ConfigSync.mem.
Proof.
  split; simpl.
  - intros d l [= <-]. rewrite merge_sort_Permutation. split.
    + apply (NoDup_fmap_1 r_id). rewrite <- list_fmap_compose.
      erewrite (list_fmap_ext _ fst); [apply NoDup_fst_map_to_list|].
      intros i [k r] Hr%list_elem_of_lookup_2%elem_of_map_to_list. simpl.
      exact (systems_key d k r Hr).
    + intros r. rewrite merge_sort_Permutation. exact (allSystems_spec d _ eq_refl r).
  - intros d users ids l [= <-] Hnd [= <-]. split.
    + eapply NoDup_fmap_sublist; [apply sublist_filter|done].
    + intros u. rewrite list_elem_of_filter. tauto.
  - intros d l [= <-]. split.
    + rewrite <- list_fmap_compose. apply NoDup_fst_map_to_list.
    + intros sys tok. rewrite list_elem_of_fmap. split.
      * intros ([k [fp t]]&[= -> ->]&Hk%elem_of_map_to_list). simpl in *. by rewrite Hk.
      * intros ([fp t]&E&->)%fmap_Some. exists (sys, (fp, t)). by rewrite elem_of_map_to_list.
Qed.

(** A document format: the entries as a number, in binary. *)
#[local] Instance systemConfig_eq_dec : EqDecision systemConfig.
Proof. solve_decision. Defined.
#[local] Instance systemConfig_countable : Countable systemConfig.
Proof.
  refine (inj_countable'
    (λ c, (systemConfig.Name c, systemConfig.Host c, systemConfig.Port c, systemConfig.Token c,
           systemConfig.Users c))
    (λ '(n, h, p, t, u), {| systemConfig.Name := n; systemConfig.Host := h;
       systemConfig.Port := p; systemConfig.Token := t; systemConfig.Users := u |}) _).
  by intros [].
Defined.

Fixpoint bits (p : positive) : string :=
  match p with
  | xH => ""
  | xO p => String "0" (bits p)
  | xI p => String "1" (bits p)
  end.
Fixpoint of_bits (s : string) : positive :=
  match s with
  | EmptyString => xH
  | String "0" s => xO (of_bits s)
  | String _ s => xI (of_bits s)
  end.
Fixpoint after_prefix (h s : string) : string :=
  match h, s with
  | String _ h, String _ s => after_prefix h s
  | _, _ => s
  end.

Definition Marshal (l : list systemConfig) : option string := Some (bits (encode l)).
Definition Unmarshal (s : string) : option (list systemConfig) :=
  decode (of_bits (after_prefix yaml_header s)).
Definition ToUint16 (s : string) : Z :=
  match NilZero.int_of_string s with
  | Some i => wrap 16 (Z.of_int i)
  | None => 0
  end.

Lemma Marshal_reads_back : yaml_reads_back Marshal Unmarshal.
Proof.
  intros l s [= <-]. unfold Unmarshal.
  assert (∀ h t, after_prefix h (h ++ t)%string = t) as -> by (induction h; done).
  assert (∀ p, of_bits (bits p) = p) as -> by (induction p; simpl; congruence).
  apply decode_encode.
Qed.

Lemma ToUint16_reads_back : ports_read_back ToUint16.
Proof.
  intros p Hp. unfold ToUint16, print_Z. rewrite NilZero.isi.
  - rewrite DecimalZ.of_to. apply wrap_small. unfold in_range. lia.
  - intros E. pose proof (DecimalZ.of_to p) as H. rewrite E in H. by subst.
  - intros E. pose proof (DecimalZ.of_to p) as H. rewrite E in H. by subst.
Qed.

Definition srow (id name host port : string) (us : list string) : SystemRecord := {|
  r_id := id; r_name := name; r_host := host; r_port := port; r_users := us |}.
Definition u1 : UserRecord := {| u_id := "u1"; u_email := "a@b.c" |}.
Definition u2 : UserRecord := {| u_id := "u2"; u_email := "d@e.f" |}.

Definition hub (rows : gmap string SystemRecord) : ConfigSync.mem := {|
  ConfigSync.m_users := [u1; u2]; ConfigSync.m_systems := rows;
  ConfigSync.m_fingerprints := {["s1" := ("fp", "tok")]} |}.
Definition export (d : ConfigSync.mem) : option string := generateYAML ToUint16 Marshal d.
Definition import (text : option string) (d : ConfigSync.mem) : ConfigSync.mem :=
  (ConfigSync.SyncSystems (λ _, "uuid") (Unmarshal <$> text) d).1.

Definition two : ConfigSync.mem :=
  hub {["s1" := srow "s1" "web" "10.0.0.1" "45876" ["u2"];
        "s2" := srow "s2" "db" "10.0.0.2" "45999" ["u1"; "u2"]]}.

Lemma two_rows id r : systems two !! id = Some r →
  id = "s1" ∧ r = srow "s1" "web" "10.0.0.1" "45876" ["u2"] ∨
  id = "s2" ∧ r = srow "s2" "db" "10.0.0.2" "45999" ["u1"; "u2"].
Proof.
  simpl. rewrite ConfigSync.rows_lookup. simpl. intros (r'&Hr'&->)%fmap_Some.
  rewrite lookup_insert_Some, lookup_singleton_Some in Hr'. naive_solver.
Qed.

Lemma two_exportable id r : systems two !! id = Some r → exportable [u1; u2] r.
Proof.
  intros [[-> ->]|[-> ->]]%two_rows; (split_and!; [done|set_solver|]).
  - by exists 45876%Z.
  - by exists 45999%Z.
Qed.

Lemma two_distinct : ConfigSync.distinct two.
Proof. intros id1 id2 r1 r2 [[-> ->]|[-> ->]]%two_rows [[-> ->]|[-> ->]]%two_rows; done. Qed.

Lemma users_distinct : NoDup (u_id <$> [u1; u2]) ∧ NoDup (u_email <$> [u1; u2]).
Proof. split; apply (bool_decide_unpack _); by vm_compute. Qed.

Lemma export_import_witness :
  ∃ text, export two = Some text ∧ systems (import (Some text) two) = systems two.
Proof.
  eexists (default "" (export two)). split; [by vm_compute|].
  exact (proj1 (export_import ToUint16 Marshal Unmarshal (λ _, "uuid") two
    (import (Some (default "" (export two))) two) [u1; u2] (default "" (export two))
    Marshal_reads_back ToUint16_reads_back eq_refl
    (proj1 users_distinct) (proj2 users_distinct) two_exportable two_distinct ltac:(by vm_compute) ltac:(by vm_compute))).
Defined.

(** The entries, by name. *)
Example export_ex :
  export_config ToUint16 two = Some
    [{| systemConfig.Name := "db"; systemConfig.Host := "10.0.0.2"; systemConfig.Port := 45999;
        systemConfig.Token := ""; systemConfig.Users := ["a@b.c"; "d@e.f"] |};
     {| systemConfig.Name := "web"; systemConfig.Host := "10.0.0.1"; systemConfig.Port := 45876;
        systemConfig.Token := "tok"; systemConfig.Users := ["d@e.f"] |}].
Proof. by vm_compute. Qed.

(** A system nobody is assigned to is exported without users, and the import gives it to the
    first user. *)
Example unassigned_becomes_first_user :
  let d := hub {["s1" := srow "s1" "web" "10.0.0.1" "45876" []]} in
  ConfigSync.rows (import (export d) d) =
    {["s1" := srow "s1" "web" "10.0.0.1" "45876" ["u1"]]}.
Proof. by vm_compute. Qed.

(** A system without a port (one that is reached over a Unix socket) does not survive: the
    entry gets the default port, so the system is deleted, its fingerprint with it, and another
    is created. *)
Example portless_replaced :
  let d := hub {["s1" := srow "s1" "web" "/run/agent.sock" "" ["u1"]]} in
  let d' := import (export d) d in
  ConfigSync.rows d' = {["0" := srow "0" "web" "/run/agent.sock" "45876" ["u1"]]} ∧
  ConfigSync.m_fingerprints d' = {["0" := ("", "tok")]}.
Proof. by vm_compute. Qed.
End ConfigExport.
