(* ===== verification/Heartbeat.v ===== *)
(** * Outbound heartbeat ([internal/hub/heartbeat/heartbeat.go])

    The hub can report to an external monitor: at start and at an interval it sends a request
    whose body says how many systems are up, which are down and which alerts are triggered.

    The SQL queries are behind [HeartbeatDB], whose laws say what they select; the
    HTTP client, [http.NewRequest] and JSON encoding are parameters. *)

From S2P Require Import Prelude GoStrings GoText GoFmt GoFloat.

Module HeartbeatData.

Definition defaultInterval : Z := 60.

Record SystemsSummary := { Total : Z; Up : Z; Down : Z; Paused : Z; Pending : Z }.
Record SystemInfo := { ID : string; Name : string; Host : string }.
Record AlertInfo := { SystemID : string; SystemName : string; AlertName : string; Threshold : f64 }.

Record Payload := {
  Status : string; Timestamp : string; Msg : string; Systems : SystemsSummary;
  DownSystems : list SystemInfo; Alerts : list AlertInfo; Version : string }.

Record Config := { URL : string; Interval : Z; Method : string }.

(** ** Configuration *)

Definition is_get (m : string) : bool := String.eqb m "GET" || String.eqb m "HEAD".

(** [New]: [None] when the heartbeat is off; [getEnv] gives [None] for a variable that is not
    set. *)
Definition New (app : bool) (getEnv : string → option string) : option Config :=
  let url := TrimSpace (default "" (getEnv "HEARTBEAT_URL")) in
  if negb app || String.eqb url "" then None
  else
    let interval :=
      match getEnv "HEARTBEAT_INTERVAL" with
      | Some v =>
          match Atoi v with
          | Some parsed => if (0 <? parsed)%Z then parsed else defaultInterval
          | None => defaultInterval
          end
      | None => defaultInterval
      end in
    let method :=
      match getEnv "HEARTBEAT_METHOD" with
      | Some v => let v := ToUpper (TrimSpace v) in if is_get v then v else "POST"
      | None => "POST"
      end in
    Some {| URL := url; Interval := interval; Method := method |}.

Definition normalizeMethod (method : string) : string :=
  let upper := ToUpper (TrimSpace method) in
  if is_get upper || String.eqb upper "POST" then upper else "POST".

(** ** The queries *)

(** What the queries read of [systems] and [alerts]. *)
Record SystemRow := { s_info : SystemInfo; s_status : string }.
Record AlertRow := { a_system : string; a_name : string; a_value : f64; a_triggered : bool }.

Definition count_status (st : string) (l : list SystemRow) : Z :=
  Z.of_nat (List.length (filter (λ r, s_status r = st) l)).

Definition is_down (r : SystemRow) : bool := String.eqb (s_status r) "down".

(** The rows of the join of triggered alerts with their systems. *)
Definition triggered_join (sys : list SystemRow) (al : list AlertRow) : list AlertInfo :=
  a ← al;
  if a_triggered a then
    s ← filter (λ s, ID (s_info s) = a_system a) sys;
    [{| SystemID := a_system a; SystemName := Name (s_info s); AlertName := a_name a;
        Threshold := a_value a |}]
  else [].
End HeartbeatData.

Import HeartbeatData.

Class HeartbeatDB (DB : Type) := {
  hb_systems : DB → list SystemRow;
  hb_alerts : DB → list AlertRow;
  statusCounts : DB → option (list (string * Z));
  downSystems : DB → option (list SystemInfo);
  triggeredAlerts : DB → option (list AlertInfo);
}.

(** Rows come in any order; [GROUP BY] gives a row per status that occurs. *)
Class HeartbeatDBLaws (DB : Type) `{HeartbeatDB DB} := {
  statusCounts_spec : ∀ d l, statusCounts d = Some l →
    ∃ sts, NoDup sts ∧ (∀ st, st ∈ sts ↔ st ∈ s_status <$> hb_systems d) ∧
      l = (λ st, (st, count_status st (hb_systems d))) <$> sts;
  downSystems_spec : ∀ d l, downSystems d = Some l →
    l ≡ₚ s_info <$> List.filter is_down (hb_systems d);
  triggeredAlerts_spec : ∀ d l, triggeredAlerts d = Some l →
    l ≡ₚ triggered_join (hb_systems d) (hb_alerts d);
}.

Module Heartbeat.
Section send.
Context {DB : Type} {HDB : HeartbeatDB DB} {HDBL : HeartbeatDBLaws DB}.

(** ** The payload *)

Definition add_count (s : SystemsSummary) (sc : string * Z) : SystemsSummary :=
  let '(st, n) := sc in
  let case x := String.eqb st x in
  {| Total := Total s + n;
     Up := if case "up" then n else Up s;
     Down := if case "down" then n else Down s;
     Paused := if case "paused" then n else Paused s;
     Pending := if case "pending" then n else Pending s |}.

Definition summarize (l : list (string * Z)) : SystemsSummary :=
  fold_left add_count l {| Total := 0; Up := 0; Down := 0; Paused := 0; Pending := 0 |}.

(** [buildPayload]; [None] is an error.  A failing query of the alerts is not one. *)
Definition buildPayload (now version : string) (d : DB) : option Payload :=
  systemCounts ← statusCounts d;
  let summary := summarize systemCounts in
  down ← (if (0 <? Down summary)%Z then downSystems d else Some []);
  let alerts := default [] (triggeredAlerts d) in
  let '(status, msg) :=
    if (0 <? Down summary)%Z then
      ("error", print_Z (Down summary) ++ " system(s) down: " ++ Join (Name <$> down) ", ")%string
    else if (0 <? Z.of_nat (List.length alerts))%Z then
      ("warn", print_Z (Z.of_nat (List.length alerts)) ++ " alert(s) triggered")%string
    else ("ok", "All systems operational") in
  Some {| Status := status; Timestamp := now; Msg := msg; Systems := summary;
          DownSystems := down; Alerts := alerts; Version := version |}.

(** ** Sending *)

Context (Marshal : Payload → option string) (NewRequest : string → string → bool).

(** A request: method, URL and body. *)
Record request := { q_method : string; q_url : string; q_body : option string }.
Inductive send_error := PayloadError | MarshalError | RequestError | TransportError | StatusError (code : Z).

(** [send]: the request that went out, if any, and the error.  [Do] answers with the status
    code, or fails. *)
Definition send (Do : request → option Z) (now version : string) (cfg : Config) (d : DB)
    : option request * option send_error :=
  let method := normalizeMethod (Method cfg) in
  let finish (method : string) (body : option string) :=
    if NewRequest method (URL cfg) then
      let q := {| q_method := method; q_url := URL cfg; q_body := body |} in
      match Do q with
      | None => (Some q, Some TransportError)
      | Some code => (Some q, if (400 <=? code)%Z then Some (StatusError code) else None)
      end
    else (None, Some RequestError) in
  if is_get method then finish method None
  else
    match buildPayload now version d with
    | None => (None, Some PayloadError)
    | Some p =>
        match Marshal p with
        | None => (None, Some MarshalError)
        | Some body => finish "POST" (Some body)
        end
    end.

(** ** The loop *)

(** [time.Duration(hb.config.Interval) * time.Second], a signed 64-bit product. *)
Definition period (cfg : Config) : Z :=
  let w := wrap 64 (Interval cfg * Second) in if (w <? 2 ^ 63)%Z then w else w - 2 ^ 64.

(** The loop's events: a tick, at which the database is as given, or the close of [stop]. *)
Inductive event := Tick (now : string) (d : DB) | Stop.

Fixpoint Start_loop (Do : request → option Z) (version : string) (cfg : Config) (l : list event)
    : list (option request * option send_error) :=
  match l with
  | [] | Stop :: _ => []
  | Tick now d :: l => send Do now version cfg d :: Start_loop Do version cfg l
  end.

(** [Start]: a first heartbeat, then one a tick.  [None] in the second component is the panic of
    [time.NewTicker] on a period that is not positive. *)
Definition Start (Do : request → option Z) (version : string) (cfg : Config)
    (now : string) (d : DB) (l : list event)
    : (option request * option send_error) * option (list (option request * option send_error)) :=
  (send Do now version cfg d,
   if (0 <? period cfg)%Z then Some (Start_loop Do version cfg l) else None).

(** ** Counting *)

Lemma last_count (f : string → Z) (x : string) (sts : list string) (z : Z) :
  fold_left (λ u sc, if String.eqb sc.1 x then sc.2 else u) ((λ st, (st, f st)) <$> sts) z =
  if decide (x ∈ sts) then f x else z.
Proof using Type.
  clear. revert z. induction sts as [|st sts IH]; intros z; simpl; [done|].
  rewrite IH. destruct (String.eqb_spec st x) as [->|Hne]; repeat case_decide; set_solver.
Qed.

Lemma Zsum_fmap_cons {A} (f : A → Z) x l : Zsum (f <$> x :: l) = (f x + Zsum (f <$> l))%Z.
Proof using Type. done. Qed.

Lemma total_count (f : string → Z) (sts : list string) (z : Z) :
  fold_left (λ t sc, (t + sc.2)%Z) ((λ st, (st, f st)) <$> sts) z = (z + Zsum (f <$> sts))%Z.
Proof using Type.
  clear. revert z. induction sts as [|st sts IH]; intros z; [simpl; lia|].
  rewrite Zsum_fmap_cons, fmap_cons. simpl fold_left. rewrite IH. lia.
Qed.

Lemma count_cons st r l :
  count_status st (r :: l) = ((if String.eqb (s_status r) st then 1 else 0) + count_status st l)%Z.
Proof using Type.
  clear. unfold count_status. rewrite filter_cons.
  destruct (String.eqb_spec (s_status r) st); case_decide; simpl; try done; lia.
Qed.

Lemma count_pos st l : (0 < count_status st l)%Z ↔ st ∈ s_status <$> l.
Proof using Type.
  clear. induction l as [|r l IH]; [by rewrite elem_of_nil|].
  rewrite count_cons, fmap_cons, elem_of_cons, <- IH.
  assert (0 ≤ count_status st l)%Z by (unfold count_status; lia).
  destruct (String.eqb_spec (s_status r) st) as [E|E]; [split; [auto|lia]|].
  split; [intros ?; right; lia|]. intros [?|?]; [congruence|lia].
Qed.

Lemma sum_indicator (x : string) (sts : list string) :
  NoDup sts → x ∈ sts → Zsum ((λ st, if String.eqb x st then 1 else 0)%Z <$> sts) = 1%Z.
Proof using Type.
  clear. assert (∀ l, x ∉ l → Zsum ((λ st, if String.eqb x st then 1 else 0)%Z <$> l) = 0%Z) as H0.
  { induction l as [|y l IH]; intros H; [done|]. apply not_elem_of_cons in H as [Hne H].
    rewrite Zsum_fmap_cons, (IH H). by destruct (String.eqb_spec x y). }
  induction 1 as [|y l Hy Hnd IH]; intros Hx; [by apply elem_of_nil in Hx|].
  rewrite Zsum_fmap_cons. destruct (String.eqb_spec x y) as [->|Hne].
  - by rewrite (H0 l Hy).
  - apply elem_of_cons in Hx as [?|Hx]; [done|]. by rewrite IH.
Qed.

(** The counts by status add up. *)
Lemma sum_counts (sts : list string) (l : list SystemRow) :
  NoDup sts → (∀ st, st ∈ s_status <$> l → st ∈ sts) →
  Zsum ((λ st, count_status st l) <$> sts) = Z.of_nat (List.length l).
Proof using Type.
  clear. intros Hnd. induction l as [|r l IH]; intros Hin.
  { clear. induction sts as [|st sts IH]; [done|]. by rewrite Zsum_fmap_cons, IH. }
  transitivity (Zsum ((λ st, if String.eqb (s_status r) st then 1 else 0)%Z <$> sts) +
    Zsum ((λ st, count_status st l) <$> sts))%Z.
  - clear. induction sts as [|st sts IH]; [done|].
    rewrite !Zsum_fmap_cons, IH, count_cons. lia.
  - rewrite sum_indicator, IH; simpl; [lia|..|done|]; set_solver.
Qed.

Lemma summarize_spec d l :
  statusCounts d = Some l →
  let n st := count_status st (hb_systems d) in
  summarize l = {| Total := Z.of_nat (List.length (hb_systems d)); Up := n "up"; Down := n "down";
                   Paused := n "paused"; Pending := n "pending" |}.
Proof using HDBL.
  intros (sts&Hnd&Hin&->)%statusCounts_spec n.
  assert (∀ x, (if decide (x ∈ sts) then n x else 0%Z) = n x) as Hif.
  { intros x. case_decide as Hx; [done|]. rewrite Hin, <- count_pos in Hx.
    subst n. simpl in *. assert (0 ≤ count_status x (hb_systems d))%Z by (unfold count_status; lia). lia. }
  destruct (summarize _) as [t u dn pa pe] eqn:E. unfold summarize in E.
  assert (∀ (p : SystemsSummary → Z) x, (∀ s sc, p (add_count s sc) =
      if String.eqb sc.1 x then sc.2 else p s) →
    p {| Total := 0; Up := 0; Down := 0; Paused := 0; Pending := 0 |} = 0%Z →
    p {| Total := t; Up := u; Down := dn; Paused := pa; Pending := pe |} = n x) as Hp.
  { intros p x Hstep H0. rewrite <- E.
    rewrite (fold_left_proj add_count p (λ z sc, if String.eqb sc.1 x then sc.2 else z) _ _ Hstep).
    rewrite (last_count n), H0. apply Hif. }
  assert (t = Z.of_nat (List.length (hb_systems d))) as ->.
  { change t with (Total {| Total := t; Up := u; Down := dn; Paused := pa; Pending := pe |}).
    rewrite <- E. rewrite (fold_left_proj add_count Total (λ z sc, z + sc.2)%Z) by (by intros ? []).
    rewrite (total_count n). simpl. apply sum_counts; [done|]. intros st. apply Hin. }
  f_equal.
  - by apply (Hp Up "up"); [intros ? []|].
  - by apply (Hp Down "down"); [intros ? []|].
  - by apply (Hp Paused "paused"); [intros ? []|].
  - by apply (Hp Pending "pending"); [intros ? []|].
Qed.

(** ** Properties *)

(** The configuration [New] accepts: a positive interval and a method that [send] keeps. *)
Lemma New_spec app getEnv cfg :
  New app getEnv = Some cfg →
  URL cfg ≠ "" ∧ (0 < Interval cfg)%Z ∧
  normalizeMethod (Method cfg) = Method cfg ∧ Method cfg ∈ ["GET"; "HEAD"; "POST"].
Proof using Type.
  clear. unfold New. destruct (String.eqb_spec (TrimSpace (default "" (getEnv "HEARTBEAT_URL"))) "")
    as [|Hne]; [by rewrite orb_true_r|]. rewrite orb_false_r. destruct app; [|done]. intros [= <-].
  simpl. split_and!; [done|..].
  - destruct (getEnv "HEARTBEAT_INTERVAL") as [v|]; [|reflexivity].
    destruct (Atoi v) as [n|]; [|reflexivity].
    destruct (Z.ltb_spec 0 n); [lia|reflexivity].
  - destruct (getEnv "HEARTBEAT_METHOD") as [v|]; [|reflexivity]. unfold is_get.
    destruct (String.eqb_spec (ToUpper (TrimSpace v)) "GET") as [->|]; [reflexivity|].
    destruct (String.eqb_spec (ToUpper (TrimSpace v)) "HEAD") as [->|]; reflexivity.
  - destruct (getEnv "HEARTBEAT_METHOD") as [v|]; [|set_solver]. unfold is_get.
    destruct (String.eqb_spec (ToUpper (TrimSpace v)) "GET") as [->|]; [set_solver|].
    destruct (String.eqb_spec (ToUpper (TrimSpace v)) "HEAD") as [->|]; set_solver.
Qed.

(** The payload says what the collections say: the counts are those of the systems by
    status, the down systems are listed, and the status is [error] exactly when a system is
    down, and otherwise [warn] exactly when a triggered alert of a system was found, else [ok].
    The alerts are all of them, unless their query failed. *)
Theorem payload_faithful now version d p :
  buildPayload now version d = Some p →
  let n st := count_status st (hb_systems d) in
  let down := ∃ r, r ∈ hb_systems d ∧ s_status r = "down" in
  Systems p = {| Total := Z.of_nat (List.length (hb_systems d)); Up := n "up"; Down := n "down";
                 Paused := n "paused"; Pending := n "pending" |} ∧
  DownSystems p ≡ₚ s_info <$> List.filter is_down (hb_systems d) ∧
  (Status p = "error" ↔ down) ∧
  (Status p = "warn" ↔ ¬ down ∧ Alerts p ≠ []) ∧
  (Status p = "ok" ↔ ¬ down ∧ Alerts p = []) ∧
  match triggeredAlerts d with
  | Some _ => Alerts p ≡ₚ triggered_join (hb_systems d) (hb_alerts d)
  | None => Alerts p = []
  end.
Proof using HDBL.
  clear Marshal NewRequest. unfold buildPayload.
  destruct (statusCounts d) as [l|] eqn:Hl; [simpl|done].
  rewrite (summarize_spec _ _ Hl). cbn zeta. intros Hp. set (n st := count_status st (hb_systems d)).
  set (down := ∃ r, r ∈ hb_systems d ∧ s_status r = "down").
  assert (Hdown : down ↔ (0 < n "down")%Z).
  { unfold n. rewrite count_pos, list_elem_of_fmap. unfold down. naive_solver. }
  assert (Hnone : ¬ down → List.filter is_down (hb_systems d) = []).
  { intros Hno. destruct (List.filter is_down (hb_systems d)) as [|r k] eqn:E; [done|]. exfalso.
    destruct (proj1 (filter_In is_down r (hb_systems d))) as [Hr Hd]; [rewrite E; by left|].
    apply Hno. exists r. split; [by apply list_elem_of_In|]. by apply String.eqb_eq. }
  assert (Halerts : match triggeredAlerts d with
    | Some _ => default [] (triggeredAlerts d) ≡ₚ triggered_join (hb_systems d) (hb_alerts d)
    | None => default [] (triggeredAlerts d) = []
    end) by (destruct (triggeredAlerts d) eqn:Ha; [by apply triggeredAlerts_spec|done]).
  simpl Down in Hp. fold (n "down") in Hp.
  destruct (Z.ltb_spec 0 (n "down")) as [Hlt|Hge].
  - destruct (downSystems d) as [ds|] eqn:Hds; simpl in Hp; [|done]. injection Hp as <-. simpl.
    split_and!; [done|by apply downSystems_spec| | | |done]; naive_solver.
  - assert (¬ down) as Hno by (rewrite Hdown; lia). simpl in Hp. rewrite (Hnone Hno).
    destruct (default [] (triggeredAlerts d)) as [|a al]; simpl in Hp; injection Hp as <-; simpl;
      (split_and!; [done|done| | | |done]); naive_solver.
Qed.
End send.

(** ** A concrete hub *)

Record mem := { m_systems : list SystemRow; m_alerts : list AlertRow; m_alerts_ok : bool }.

#[local] Instance mem_heartbeat : HeartbeatDB mem := {|
  hb_systems := m_systems;
  hb_alerts := m_alerts;
  statusCounts d := Some ((λ st, (st, count_status st (m_systems d))) <$>
                          remove_dups (s_status <$> m_systems d));
  downSystems d := Some (s_info <$> List.filter is_down (m_systems d));
  triggeredAlerts d :=
    if m_alerts_ok d then Some (triggered_join (m_systems d) (m_alerts d)) else None;
|}.

#[local] Instance mem_heartbeat_laws : HeartbeatDBLaws mem.
Proof.
  split; simpl.
  - intros d l [= <-]. exists (remove_dups (s_status <$> m_systems d)).
    split_and!; [apply NoDup_remove_dups| |done]. intros st. by rewrite elem_of_remove_dups.
  - by intros d l [= <-].
  - intros d l. destruct (m_alerts_ok d); [by intros [= <-]|done].
Qed.

Definition sys (name status : string) : SystemRow := {|
  s_info := {| ID := name; Name := name; Host := "h" |}; s_status := status |}.
Definition cpu (system : string) (triggered : bool) : AlertRow := {|
  a_system := system; a_name := "CPU"; a_value := f64_of_Z 80; a_triggered := triggered |}.

Definition hub3 : mem := {|
  m_systems := [sys "web" "up"; sys "db" "down"; sys "old" "paused"; sys "nas" "down"];
  m_alerts := [cpu "web" true; cpu "db" false; cpu "gone" true]; m_alerts_ok := true |}.

Example payload_ex :
  (λ p, (Status p, Msg p, ID <$> DownSystems p, SystemID <$> Alerts p)) <$>
    buildPayload "t" "v" hub3 =
  Some ("error", "2 system(s) down: db, nas", ["db"; "nas"], ["web"]).
Proof. by vm_compute. Qed.

Lemma payload_faithful_witness :
  ∃ p, buildPayload "t" "v" hub3 = Some p ∧ Status p = "error".
Proof.
  destruct (buildPayload "t" "v" hub3) as [p|] eqn:E; [|by vm_compute in E].
  exists p. split; [done|]. apply (payload_faithful "t" "v" hub3 p E).
  exists (sys "db" "down"). by split; [right; left|].
Defined.

(** A hub all of whose systems are still pending reports that all systems are operational. *)
Example pending_is_ok :
  (λ p, (Status p, Msg p, Pending (Systems p))) <$>
    buildPayload "t" "v" {| m_systems := [sys "web" "pending"]; m_alerts := []; m_alerts_ok := true |} =
  Some ("ok", "All systems operational", 1%Z).
Proof. by vm_compute. Qed.

(** When the alerts cannot be read, the report does not say so. *)
Example failed_query_is_ok :
  Status <$> buildPayload "t" "v"
    {| m_systems := [sys "web" "up"]; m_alerts := [cpu "web" true]; m_alerts_ok := false |} =
  Some "ok".
Proof. by vm_compute. Qed.

(** An interval is accepted whose period overflows, and the ticker panics. *)
Example long_interval_panics :
  let env k := if String.eqb k "HEARTBEAT_URL" then Some "https://m.example"
               else if String.eqb k "HEARTBEAT_INTERVAL" then Some "9223372037" else None in
  (λ cfg, (Interval cfg, period cfg)) <$> New true env =
    Some (9223372037, -9223372036709551616)%Z ∧
  (λ cfg, (Start (λ _, Some "{}") (λ _ _, true) (λ _, Some 200%Z) "v" cfg "t" hub3 []).2) <$>
    New true env = Some None.
Proof. by vm_compute. Qed.
End Heartbeat.
