(* ===== verification/Realtime.v ===== *)
(** * Realtime statistics ([internal/hub/systems/system_realtime.go])

    A browser that shows a system subscribes to it; while somebody does, a worker
    of the hub fetches the system's data every second and sends it to the clients.
    The package's variables are the state; the handlers of the requests and the
    workers are goroutines.  A handler is a list of actions, one per access of the
    variables: the map is used without the mutex, the worker flag and the channel
    within it, so goroutines interleave between them.

    PocketBase is third-party: a client holds a set of subscription keys, and the
    query of a key ([options.Query["system"]]) is part of the key, [system_of]. *)

From S2P Require Import Prelude GoStrings.

Module Realtime.
Local Open Scope Z_scope.

Record subscriptionInfo := { subscription : string; connectedClients : Z }.

(** A worker is between two looks at its channels, or waits in the [select] on the
    channel that [tickerStopChan] was when it got there. *)
Inductive worker := Fetching | Selecting (c : nat).
#[export] Instance worker_eq : EqDecision worker.
Proof. solve_decision. Defined.

(** The package's variables; channels are numbered, 0 is [nil]. *)
Record vars := {
  activeSubscriptions : gmap string subscriptionInfo;
  workerRunning : bool;
  tickerStopChan : nat;
  workers : list worker;
}.

Definition vars0 : vars := {|
  activeSubscriptions := ∅; workerRunning := false; tickerStopChan := 0; workers := [] |}.

Definition with_subs (v : vars) (m : gmap string subscriptionInfo) : vars := {|
  activeSubscriptions := m; workerRunning := workerRunning v; tickerStopChan := tickerStopChan v;
  workers := workers v |}.

Definition with_workers (v : vars) (ws : list worker) : vars := {|
  activeSubscriptions := activeSubscriptions v; workerRunning := workerRunning v;
  tickerStopChan := tickerStopChan v; workers := ws |}.

(** [strings.HasPrefix(k, "rt_metrics")] *)
Definition rt_key (k : string) : bool := HasPrefix k "rt_metrics".

(** What a handler does, access by access. *)
Inductive action :=
| Add (k : string)      (* the entry of a new subscription *)
| Added                 (* [onRealtimeSubscriptionAdded] *)
| Remove (k : string)   (* the entry of one that ended *)
| Check                 (* the guard of [checkSubscriptions] *)
| Stop.                 (* its critical section *)

Section realtime.
Context {RO : RangeOrder string} (system_of : string → string).

Definition add_subscription (k : string) (v : vars) : vars :=
  let systemId := system_of k in
  let info := default {| subscription := k; connectedClients := 0 |}
                (activeSubscriptions v !! systemId) in
  with_subs v (<[systemId := {| subscription := subscription info;
                                connectedClients := u8 (connectedClients info + 1) |}]>
                 (activeSubscriptions v)).

Definition onRealtimeSubscriptionAdded (v : vars) : vars :=
  if workerRunning v then v
  else {| activeSubscriptions := activeSubscriptions v; workerRunning := true;
          tickerStopChan := S (tickerStopChan v); workers := Fetching :: workers v |}.

Definition remove_subscription (k : string) (v : vars) : vars :=
  let systemId := system_of k in
  match activeSubscriptions v !! systemId with
  | None => v
  | Some info =>
      let n := u8 (connectedClients info - 1) in
      if n <=? 0 then with_subs v (delete systemId (activeSubscriptions v))
      else with_subs v (<[systemId := {| subscription := subscription info;
                                         connectedClients := n |}]> (activeSubscriptions v))
  end.

(** The guard of [checkSubscriptions] lets it go on. *)
Definition nothing_active (v : vars) : bool :=
  workerRunning v && bool_decide (activeSubscriptions v = ∅).

(** A send that does not block reaches a worker that waits on the channel, if any. *)
Fixpoint receive (c : nat) (ws : list worker) : list worker :=
  match ws with
  | [] => []
  | w :: ws' => if decide (w = Selecting c) then ws' else w :: receive c ws'
  end.

Definition stop_worker (v : vars) : vars := {|
  activeSubscriptions := activeSubscriptions v; workerRunning := false;
  tickerStopChan := tickerStopChan v;
  workers := if (tickerStopChan v =? 0)%nat then workers v
             else receive (tickerStopChan v) (workers v) |}.

(** One access, and what the handler does next because of it. *)
Definition exec (a : action) (v : vars) : vars * list action :=
  match a with
  | Add k => (add_subscription k v, [])
  | Added => (onRealtimeSubscriptionAdded v, [])
  | Remove k => (remove_subscription k v, [])
  | Check => (v, if nothing_active v then [Stop] else [])
  | Stop => (stop_worker v, [])
  end.

(** [removeRealtimeSubscription], [checkSubscriptions] included. *)
Definition removeRealtimeSubscription (k : string) : list action :=
  if rt_key k then [Remove k; Check] else [].

Definition subscribe_one (k : string) : list action := if rt_key k then [Add k; Added] else [].

(** [range] over a client's subscriptions *)
Definition keys (s : gset string) : list string := (range_list (gset_to_gmap tt s)).*1.

Definition onRealtimeSubscribeRequest (oldSubs newSubs : gset string) : list action :=
  flat_map subscribe_one (keys (newSubs ∖ oldSubs)) ++
  flat_map removeRealtimeSubscription (keys (oldSubs ∖ newSubs)).

(** After [e.Next()] the client is gone. *)
Definition onRealtimeConnectRequest (subs : gset string) : list action :=
  flat_map removeRealtimeSubscription (keys subs).

(** ** One round of a worker *)

(** [client.HasSubscription] *)
Definition HasSubscription (name : string) (client : nat * gset string) : bool :=
  bool_decide (name ∈ client.2).

(** [notify]: the clients that get the message. *)
Definition notify {Data} (clients : gmap nat (gset string)) (name : string) (data : Data)
    : list (nat * string * Data) :=
  map (λ '(c, _), (c, name, data))
    (filter (HasSubscription name) (map_to_list clients)).

(** [fetch] is [GetSystem] and the answer of the agent, [None] when there is none. *)
Definition fetchRealtimeDataAndNotify {Data} (fetch : string → option Data)
    (clients : gmap nat (gset string)) (v : vars) : list (nat * string * Data) :=
  flat_map (λ '(systemId, info),
      match fetch systemId with
      | None => []
      | Some data => notify clients (subscription info) data
      end)
    (range_list (activeSubscriptions v)).

(** [startRealtimeWorker]: a worker that finished a round waits on the present channel; at a
    tick it starts the next round, or returns when nobody is subscribed. *)
Definition round_done (v : vars) : worker := Selecting (tickerStopChan v).
Definition tick (v : vars) : list worker :=
  if bool_decide (activeSubscriptions v = ∅) then [] else [Fetching].

(** ** All goroutines *)

Record hub := {
  rt : vars;
  clients : gmap nat (gset string);
  threads : list (list action);
}.

Definition hub0 : hub := {| rt := vars0; clients := ∅; threads := [] |}.

Definition subs_of (h : hub) (c : nat) : gset string := default ∅ (clients h !! c).

(** With [serial], a request starts only when the handlers of earlier ones are done. *)
Inductive step (serial : bool) (h : hub) : hub → Prop :=
| step_subscribe c newSubs :
    (serial = true → threads h = []) →
    step serial h {| rt := rt h; clients := <[c := newSubs]> (clients h);
                     threads := onRealtimeSubscribeRequest (subs_of h c) newSubs :: threads h |}
| step_disconnect c :
    (serial = true → threads h = []) →
    step serial h {| rt := rt h; clients := delete c (clients h);
                     threads := onRealtimeConnectRequest (subs_of h c) :: threads h |}
| step_handler l1 a rest l2 v more :
    threads h = l1 ++ (a :: rest) :: l2 → exec a (rt h) = (v, more) →
    step serial h {| rt := v; clients := clients h; threads := l1 ++ (more ++ rest) :: l2 |}
| step_return l1 l2 :
    threads h = l1 ++ [] :: l2 →
    step serial h {| rt := rt h; clients := clients h; threads := l1 ++ l2 |}
| step_round l1 l2 :
    workers (rt h) = l1 ++ Fetching :: l2 →
    step serial h {| rt := with_workers (rt h) (l1 ++ round_done (rt h) :: l2);
                     clients := clients h; threads := threads h |}
| step_tick l1 c l2 :
    workers (rt h) = l1 ++ Selecting c :: l2 →
    step serial h {| rt := with_workers (rt h) (l1 ++ tick (rt h) ++ l2);
                     clients := clients h; threads := threads h |}.

(** ** What the map counts *)

(** The subscriptions of a client that watch a system, and those of all clients. *)
Definition watches (id k : string) : Prop := rt_key k = true ∧ system_of k = id.
#[local] Instance watches_dec id k : Decision (watches id k).
Proof. unfold watches. apply _. Defined.

Definition watching (id : string) (subs : gset string) : Z := Z.of_nat (size (filter (watches id) subs)).
Definition watchers (m : gmap nat (gset string)) (id : string) : Z :=
  Zsum (map (λ cs, watching id cs.2) (map_to_list m)).

Definition count (v : vars) (id : string) : Z :=
  match activeSubscriptions v !! id with Some info => connectedClients info | None => 0 end.

Lemma Zsum_perm l k : l ≡ₚ k → Zsum l = Zsum k.
Proof. induction 1; simpl; lia. Qed.

Lemma watchers_delete m c id :
  watchers m id = watching id (default ∅ (m !! c)) + watchers (delete c m) id.
Proof.
  destruct (m !! c) as [s|] eqn:Hc.
  - unfold watchers. rewrite <- (insert_delete_id m c s Hc) at 1.
    assert (map_to_list (<[c := s]> (delete c m)) ≡ₚ (c, s) :: map_to_list (delete c m)) as Hp
      by (apply map_to_list_insert, lookup_delete_eq).
    rewrite (Zsum_perm _ _ (Permutation_map _ Hp)). done.
  - rewrite delete_id by done. simpl. unfold watching.
    assert (filter (watches id) (∅ : gset string) = ∅) as -> by set_solver.
    rewrite size_empty. lia.
Qed.

Lemma watchers_insert m c s id :
  watchers (<[c := s]> m) id = watchers m id - watching id (default ∅ (m !! c)) + watching id s.
Proof.
  rewrite (watchers_delete (<[c := s]> m) c id), (watchers_delete m c id).
  rewrite lookup_insert_eq, delete_insert_eq. simpl. lia.
Qed.

Lemma watching_nonneg id s : 0 ≤ watching id s.
Proof. unfold watching. lia. Qed.

Lemma watchers_nonneg m id : 0 ≤ watchers m id.
Proof.
  unfold watchers. induction (map_to_list m) as [|x l IH]; simpl; [lia|].
  pose proof (watching_nonneg id x.2). lia.
Qed.

Lemma watching_diff id new old :
  watching id new - watching id old = watching id (new ∖ old) - watching id (old ∖ new).
Proof.
  assert (∀ a b, watching id a = watching id (a ∖ b) + watching id (a ∩ b)) as Hs.
  { intros a b. unfold watching.
    assert (filter (watches id) a = filter (watches id) (a ∖ b) ∪ filter (watches id) (a ∩ b))
      as -> by (apply set_eq; intros k; destruct (decide (k ∈ b)); set_solver).
    rewrite size_union by set_solver. lia. }
  assert (watching id (new ∩ old) = watching id (old ∩ new)) as Hc.
  { unfold watching. do 2 f_equal. apply set_eq. set_solver. }
  rewrite (Hs new old), (Hs old new). lia.
Qed.

(** Actions still to come on a system's entry. *)
Definition adds (id : string) (l : list action) : Z :=
  Zsum (map (λ a, match a with
                  | Add k => if decide (system_of k = id) then 1 else 0
                  | _ => 0 end) l).
Definition removes (id : string) (l : list action) : Z :=
  Zsum (map (λ a, match a with
                  | Remove k => if decide (system_of k = id) then 1 else 0
                  | _ => 0 end) l).

Lemma adds_app id l k : adds id (l ++ k) = adds id l + adds id k.
Proof. unfold adds. by rewrite map_app, Zsum_app. Qed.
Lemma removes_app id l k : removes id (l ++ k) = removes id l + removes id k.
Proof. unfold removes. by rewrite map_app, Zsum_app. Qed.

Lemma keys_perm s : keys s ≡ₚ elements s.
Proof.
  unfold keys. rewrite range_list_perm. apply NoDup_Permutation.
  - apply NoDup_fst_map_to_list.
  - apply NoDup_elements.
  - intros k. rewrite elem_of_elements, list_elem_of_fmap. split.
    + intros ([k' u]&->&H%elem_of_map_to_list). by apply lookup_gset_to_gmap_Some in H as [? _].
    + intros Hk. exists (k, tt). split; [done|].
      by apply elem_of_map_to_list, lookup_gset_to_gmap_Some.
Qed.

Lemma watching_keys id s :
  watching id s = Zsum (map (λ k, if decide (watches id k) then 1 else 0) (keys s)).
Proof.
  rewrite (Zsum_perm _ _ (Permutation_map _ (keys_perm s))). unfold watching.
  replace (size (filter (watches id) s)) with (List.length (filter (watches id) (elements s))).
  - induction (elements s) as [|k l IH]; [done|]. simpl. rewrite filter_cons.
    case_decide; simpl; lia.
  - unfold size, set_size. simpl. apply Permutation_length, NoDup_Permutation.
    + apply NoDup_filter, NoDup_elements.
    + apply NoDup_elements.
    + intros k. rewrite list_elem_of_filter, !elem_of_elements, elem_of_filter. done.
Qed.

Lemma subscribe_counts id l :
  adds id (flat_map subscribe_one l) = Zsum (map (λ k, if decide (watches id k) then 1 else 0) l) ∧
  removes id (flat_map subscribe_one l) = 0.
Proof.
  induction l as [|k l [IH1 IH2]]; [done|]. simpl. rewrite adds_app, removes_app, IH1, IH2.
  unfold subscribe_one, adds, removes.
  destruct (decide (watches id k)) as [[E ?]|Hn]; [rewrite E|destruct (rt_key k) eqn:E]; simpl;
    try case_decide; first [lia|by destruct Hn|done].
Qed.

Lemma remove_counts id l :
  removes id (flat_map removeRealtimeSubscription l) =
    Zsum (map (λ k, if decide (watches id k) then 1 else 0) l) ∧
  adds id (flat_map removeRealtimeSubscription l) = 0.
Proof.
  induction l as [|k l [IH1 IH2]]; [done|]. simpl. rewrite adds_app, removes_app, IH1, IH2.
  unfold removeRealtimeSubscription, adds, removes.
  destruct (decide (watches id k)) as [[E ?]|Hn]; [rewrite E|destruct (rt_key k) eqn:E]; simpl;
    try case_decide; first [lia|by destruct Hn|done].
Qed.

(** ** Requests one at a time *)

Definition no_add (a : action) : Prop := match a with Add _ | Added => False | _ => True end.

(** The actions of a handler before its next subscription key, and at any point. *)
Inductive between : list action → Prop :=
| between_nil : between []
| between_add k l : rt_key k = true → between l → between (Add k :: Added :: l)
| between_remove k l : Forall no_add l → between l → between (Remove k :: Check :: l).

Inductive midway : list action → Prop :=
| midway_between l : between l → midway l
| midway_added l : between l → midway (Added :: l)
| midway_check l : Forall no_add l → between l → midway (Check :: l)
| midway_stop l : Forall no_add l → between l → midway (Stop :: l).

(** What holds of the worker where a handler stands. *)
Definition worker_inv (v : vars) (acts : list action) : Prop :=
  match acts with
  | Added :: _ =>
      activeSubscriptions v ≠ ∅ ∧ (workerRunning v = true → workers v ≠ [])
  | Check :: _ => activeSubscriptions v ≠ ∅ → workerRunning v = true ∧ workers v ≠ []
  | Stop :: _ => activeSubscriptions v = ∅
  | _ => workerRunning v = bool_decide (activeSubscriptions v ≠ ∅) ∧
         (activeSubscriptions v ≠ ∅ → workers v ≠ [])
  end.

Definition entries_ok (v : vars) : Prop := ∀ id info,
  activeSubscriptions v !! id = Some info →
  1 ≤ connectedClients info ∧ watches id (subscription info).

Record inv (h : hub) (acts : list action) : Prop := {
  inv_threads : threads h = [acts] ∨ (threads h = [] ∧ acts = []);
  inv_shape : midway acts;
  inv_entries : entries_ok (rt h);
  inv_count : ∀ id, count (rt h) id + adds id acts - removes id acts = watchers (clients h) id;
  inv_small : ∀ id, count (rt h) id + adds id acts ≤ 255;
  inv_worker : worker_inv (rt h) acts;
}.

Lemma between_removes l : between (flat_map removeRealtimeSubscription l).
Proof.
  induction l as [|k l IH]; simpl; [constructor|].
  unfold removeRealtimeSubscription at 1. destruct (rt_key k); [|done]. simpl. constructor; [|done].
  clear. induction l as [|k l IH]; simpl; [constructor|]. apply Forall_app. split; [|done].
  unfold removeRealtimeSubscription. destruct (rt_key k); repeat constructor.
Qed.

Lemma between_subscribe l1 l2 :
  between (flat_map subscribe_one l1 ++ flat_map removeRealtimeSubscription l2).
Proof.
  induction l1 as [|k l IH]; simpl; [apply between_removes|].
  unfold subscribe_one at 1. destruct (rt_key k) eqn:E; [|done]. simpl. by constructor.
Qed.

Lemma worker_inv_between v l :
  between l → worker_inv v l ↔
    workerRunning v = bool_decide (activeSubscriptions v ≠ ∅) ∧
    (activeSubscriptions v ≠ ∅ → workers v ≠ []).
Proof. by destruct 1. Qed.

Lemma no_adds id l : Forall no_add l → adds id l = 0.
Proof. induction 1 as [|[] l]; by try done. Qed.

Lemma count_lookup v id info :
  activeSubscriptions v !! id = Some info → count v id = connectedClients info.
Proof. unfold count. by intros ->. Qed.

Lemma add_spec k v :
  entries_ok v → rt_key k = true → count v (system_of k) < 255 →
  entries_ok (add_subscription k v) ∧
  (∀ id, count (add_subscription k v) id =
     count v id + if decide (system_of k = id) then 1 else 0).
Proof.
  intros He Hk Hc. unfold add_subscription, count in *. simpl.
  assert (u8 (connectedClients (default {| subscription := k; connectedClients := 0 |}
    (activeSubscriptions v !! system_of k)) + 1) =
    match activeSubscriptions v !! system_of k with
    | Some info => connectedClients info | None => 0 end + 1) as Hn.
  { destruct (activeSubscriptions v !! system_of k) as [info|] eqn:E; simpl; [|done].
    apply He in E as [? _]. apply wrap_small. unfold in_range. lia. }
  split.
  - intros id info. simpl. destruct (decide (system_of k = id)) as [<-|Hne].
    + rewrite lookup_insert_eq. intros [= <-]. simpl. rewrite Hn.
      destruct (activeSubscriptions v !! system_of k) as [info|] eqn:E; simpl.
      * apply He in E as [??]. split; [lia|done].
      * split; [lia|done].
    + rewrite lookup_insert_ne by done. apply He.
  - intros id. destruct (decide (system_of k = id)) as [<-|Hne].
    + rewrite lookup_insert_eq. simpl. by rewrite Hn.
    + rewrite lookup_insert_ne by done. lia.
Qed.

Lemma remove_spec k v :
  entries_ok v → 1 ≤ count v (system_of k) ≤ 255 →
  entries_ok (remove_subscription k v) ∧
  (∀ id, count (remove_subscription k v) id =
     count v id - if decide (system_of k = id) then 1 else 0).
Proof.
  intros He Hc. unfold remove_subscription, count in *.
  destruct (activeSubscriptions v !! system_of k) as [info|] eqn:E; [|lia].
  rewrite (wrap_small 8 (connectedClients info - 1)) by (unfold in_range; lia).
  destruct (Z.leb_spec (connectedClients info - 1) 0) as [Hz|Hz]; simpl; split.
  - intros id i. simpl. intros [_ Hi]%lookup_delete_Some. by apply He.
  - intros id. destruct (decide (system_of k = id)) as [<-|Hne].
    + rewrite lookup_delete_eq, E. lia.
    + rewrite lookup_delete_ne by done. lia.
  - intros id i. simpl. destruct (decide (system_of k = id)) as [<-|Hne].
    + rewrite lookup_insert_eq. intros [= <-]. simpl. split; [lia|]. by apply He in E as [_ ?].
    + rewrite lookup_insert_ne by done. apply He.
  - intros id. destruct (decide (system_of k = id)) as [<-|Hne].
    + rewrite lookup_insert_eq, E. simpl. lia.
    + rewrite lookup_insert_ne by done. lia.
Qed.

Definition state_ok (v : vars) (acts : list action) (m : gmap nat (gset string)) : Prop :=
  midway acts ∧ entries_ok v ∧
  (∀ id, count v id + adds id acts - removes id acts = watchers m id) ∧
  (∀ id, count v id + adds id acts ≤ 255) ∧ worker_inv v acts.

Lemma active_count v id : activeSubscriptions v = ∅ → count v id = 0.
Proof. unfold count. intros ->. by rewrite lookup_empty. Qed.

Lemma exec_add_ok k l v m :
  between l → rt_key k = true → state_ok v (Add k :: Added :: l) m →
  state_ok (add_subscription k v) (Added :: l) m.
Proof.
  intros Hl Hk (Hm&He&Hc&Hs&Hw). unfold adds, removes in Hc, Hs. simpl in Hc, Hs.
  fold (adds) in Hc, Hs.
  destruct (add_spec k v He Hk) as [He' Hc'].
  { specialize (Hs (system_of k)). rewrite decide_True in Hs by done.
    assert (∀ l, 0 ≤ adds (system_of k) l) as Hpos.
    { clear. induction l as [|[] l IH]; unfold adds in *; simpl; try case_decide; lia. }
    specialize (Hpos l). unfold adds in Hpos. lia. }
  split; [by constructor|]. split; [done|]. split.
  { intros id. specialize (Hc id). rewrite Hc'. unfold adds, removes. simpl. lia. }
  split.
  { intros id. specialize (Hs id). rewrite Hc'. unfold adds. simpl. lia. }
  destruct Hw as [Hr Hw]. split; [apply insert_non_empty|]. intros Hrun. simpl in *.
  apply Hw. rewrite Hrun in Hr. symmetry in Hr. by apply bool_decide_eq_true in Hr.
Qed.

Lemma exec_added_ok l v m :
  between l → state_ok v (Added :: l) m → state_ok (onRealtimeSubscriptionAdded v) l m.
Proof.
  intros Hl (_&He&Hc&Hs&Hne&Hw).
  assert (activeSubscriptions (onRealtimeSubscriptionAdded v) = activeSubscriptions v) as E
    by (unfold onRealtimeSubscriptionAdded; by destruct (workerRunning v)).
  split; [by constructor|]. split; [intros id i; rewrite E; apply He|].
  unfold count in *. rewrite E. split; [exact Hc|]. split; [exact Hs|].
  apply worker_inv_between; [done|]. rewrite E. rewrite bool_decide_eq_true_2 by done.
  unfold onRealtimeSubscriptionAdded. destruct (workerRunning v) eqn:Hr; [auto|done].
Qed.

Lemma exec_remove_ok k l v m :
  between l → Forall no_add l → state_ok v (Remove k :: Check :: l) m →
  state_ok (remove_subscription k v) (Check :: l) m.
Proof.
  intros Hl Hna (Hm&He&Hc&Hs&Hr&Hw).
  assert (∀ id, adds id (Remove k :: Check :: l) = 0) as Ha
    by (intros id; by apply no_adds; repeat constructor).
  assert (∀ id, removes id (Remove k :: Check :: l) =
    (if decide (system_of k = id) then 1 else 0) + removes id l) as Hrm by done.
  assert (∀ l id, 0 ≤ removes id l) as Hpos.
  { clear. induction l as [|[] l IH]; intros id; unfold removes in *; simpl;
      try specialize (IH id); try case_decide; lia. }
  pose proof (Hc (system_of k)) as Hk. rewrite Ha, Hrm, decide_True in Hk by done.
  pose proof (watchers_nonneg m (system_of k)). pose proof (Hpos l (system_of k)).
  pose proof (Hs (system_of k)) as Hsk. rewrite Ha in Hsk.
  destruct (remove_spec k v He) as [He' Hc']; [lia|].
  split; [by apply midway_check|]. split; [done|]. split.
  { intros id. rewrite Hc'. specialize (Hc id). rewrite Ha, Hrm in Hc.
    change (adds id (Check :: l)) with (adds id l). change (removes id (Check :: l)) with (removes id l).
    rewrite no_adds by done. lia. }
  split.
  { intros id. rewrite Hc'. specialize (Hs id). rewrite Ha in Hs.
    change (adds id (Check :: l)) with (adds id l). rewrite no_adds by done. case_decide; lia. }
  assert (activeSubscriptions v ≠ ∅) as Hne by (intros E; rewrite active_count in * by done; lia).
  intros _. rewrite bool_decide_eq_true_2 in Hr by done. unfold remove_subscription.
  repeat case_match; simpl; auto.
Qed.

Lemma exec_ok a l v m :
  state_ok v (a :: l) m → let '(v', more) := exec a v in state_ok v' (more ++ l) m.
Proof.
  intros Hok. pose proof Hok as (Hm&He&Hc&Hs&Hw). inversion Hm as [? Hb| ? Hb| ? Hn Hb| ? Hn Hb]; subst.
  - inversion Hb; subst; simpl.
    + by apply exec_add_ok.
    + by apply exec_remove_ok.
  - by apply exec_added_ok.
  - simpl. unfold nothing_active. destruct (workerRunning v) eqn:Hr, (bool_decide_reflect
      (activeSubscriptions v = ∅)) as [E|E]; simpl; (split; [by constructor|]);
      split_and!; try done; try (apply worker_inv_between; [done|]); rewrite ?Hr.
    + rewrite bool_decide_eq_true_2 by done. split; [done|]. by apply Hw in E as [_ ?].
    + rewrite bool_decide_eq_false_2 by (by intros []). split; [done|]. by intros [].
    + apply Hw in E as [? _]. congruence.
  - simpl in *. split; [by constructor|]. split; [exact He|]. split; [exact Hc|]. split; [exact Hs|].
    apply worker_inv_between; [done|]. simpl. rewrite bool_decide_eq_false_2 by (by intros []).
    split; [done|]. by intros [].
Qed.

(** Steps of requests one at a time, with fewer than 128 watchers of each system. *)
Definition few (h : hub) : Prop := ∀ id, watchers (clients h) id ≤ 127.
Definition calm_step (h h' : hub) : Prop := step true h h' ∧ few h'.

Definition hub_ok (h : hub) : Prop :=
  few h ∧ ∃ acts, (threads h = [acts] ∨ threads h = [] ∧ acts = []) ∧
    state_ok (rt h) acts (clients h).

Lemma one_thread {A} (l1 l2 : list A) x y : l1 ++ x :: l2 = [y] → l1 = [] ∧ l2 = [] ∧ x = y.
Proof. destruct l1 as [|z [|? ?]]; naive_solver. Qed.

Lemma start_ok h acts (m : gmap nat (gset string)) :
  few h → (∀ id, watchers m id ≤ 127) → state_ok (rt h) [] (clients h) → between acts →
  (∀ id, watchers m id = watchers (clients h) id + adds id acts - removes id acts) →
  (∀ id, adds id acts ≤ 127) →
  hub_ok {| rt := rt h; clients := m; threads := [acts] |}.
Proof.
  intros Hf Hf' (_&He&Hc&Hs&Hw) Hb Hm Ha.
  split; [exact Hf'|]. exists acts. split; [by left|]. simpl.
  split; [by constructor|]. split; [done|].
  assert (∀ id, count (rt h) id = watchers (clients h) id) as Hcount.
  { intros id. specialize (Hc id). change (adds id []) with 0 in Hc.
    change (removes id []) with 0 in Hc. lia. }
  split_and!.
  - intros id. rewrite Hm, Hcount. lia.
  - intros id. rewrite Hcount. specialize (Hf id). specialize (Ha id). lia.
  - apply worker_inv_between; [done|]. by apply (worker_inv_between (rt h) []) in Hw; [|constructor].
Qed.

Lemma watching_mono id s t : s ⊆ t → watching id s ≤ watching id t.
Proof. intros Hst. unfold watching. apply inj_le, subseteq_size. set_solver. Qed.

Lemma subscribe_ok h c new :
  few h → state_ok (rt h) [] (clients h) → (∀ id, watchers (<[c := new]> (clients h)) id ≤ 127) →
  hub_ok {| rt := rt h; clients := <[c := new]> (clients h);
            threads := [onRealtimeSubscribeRequest (subs_of h c) new] |}.
Proof.
  intros Hf Hok Hm. unfold onRealtimeSubscribeRequest.
  apply start_ok; try done; [apply between_subscribe| |]; intros id;
    pose proof (watching_diff id new (subs_of h c)) as Hd;
    destruct (subscribe_counts id (keys (new ∖ subs_of h c))) as [Ha Ha'];
    destruct (remove_counts id (keys (subs_of h c ∖ new))) as [Hr Hr'];
    rewrite <- watching_keys in Ha, Hr; rewrite adds_app, ?removes_app, Ha, Hr', ?Ha', ?Hr.
  - rewrite watchers_insert. unfold subs_of in *. lia.
  - specialize (Hm id). rewrite (watchers_delete _ c), lookup_insert_eq in Hm. simpl in Hm.
    pose proof (watchers_nonneg (delete c (<[c := new]> (clients h))) id).
    pose proof (watching_mono id (new ∖ subs_of h c) new ltac:(set_solver)). lia.
Qed.

Lemma disconnect_ok h c :
  few h → state_ok (rt h) [] (clients h) → (∀ id, watchers (delete c (clients h)) id ≤ 127) →
  hub_ok {| rt := rt h; clients := delete c (clients h);
            threads := [onRealtimeConnectRequest (subs_of h c)] |}.
Proof.
  intros Hf Hok Hm. unfold onRealtimeConnectRequest.
  apply start_ok; try done; [apply between_removes| |]; intros id;
    destruct (remove_counts id (keys (subs_of h c))) as [Hr Hr'];
    rewrite <- watching_keys in Hr; rewrite Hr', ?Hr; [|lia].
  rewrite (watchers_delete (clients h) c). unfold subs_of. lia.
Qed.

(** Workers come and go without disturbing a handler. *)
Lemma workers_ok v ws acts m :
  (workers v ≠ [] → activeSubscriptions v ≠ ∅ → ws ≠ []) →
  state_ok v acts m → state_ok (with_workers v ws) acts m.
Proof.
  intros Hws (Hm&He&Hc&Hs&Hw). split_and!; try done.
  destruct acts as [|[]]; simpl in *; naive_solver.
Qed.

Lemma calm_step_ok h h' : calm_step h h' → hub_ok h → hub_ok h'.
Proof.
  intros [Hst Hf'] [Hf (acts&Ht&Hok)]. inversion Hst as [c new Hser|c Hser|l1 a rest l2 v more E Hex|
    l1 l2 E|l1 l2 E|l1 c l2 E]; subst h'.
  - rewrite (Hser eq_refl) in *. destruct Ht as [?|[_ ->]]; [done|]. by apply subscribe_ok.
  - rewrite (Hser eq_refl) in *. destruct Ht as [?|[_ ->]]; [done|]. by apply disconnect_ok.
  - destruct Ht as [Ht|[Ht _]]; rewrite Ht in E; [|by destruct l1].
    symmetry in E. apply one_thread in E as (->&->&<-). split; [done|].
    apply exec_ok in Hok. rewrite Hex in Hok. exists (more ++ rest)%list. auto.
  - destruct Ht as [Ht|[Ht _]]; rewrite Ht in E; [|by destruct l1].
    symmetry in E. apply one_thread in E as (->&->&<-). split; [done|]. exists []. simpl. auto.
  - split; [done|]. exists acts. split; [done|]. apply workers_ok; [|done]. by destruct l1.
  - split; [done|]. exists acts. split; [done|]. apply workers_ok; [|done]. intros _ Hne.
    unfold tick. rewrite bool_decide_eq_false_2 by done. by destruct l1.
Qed.

Lemma calm_ok h : rtc calm_step hub0 h → hub_ok h.
Proof.
  revert h. apply rtc_ind_r; [|intros h h' _; apply calm_step_ok].
  split; [intros id; unfold few, watchers; simpl; rewrite map_to_list_empty; simpl; lia|].
  exists []. split; [by right|]. split_and!; try done; repeat constructor.
Qed.

Lemma few_total h :
  Zsum (map (λ cs, Z.of_nat (size cs.2)) (map_to_list (clients h))) ≤ 127 → few h.
Proof.
  intros Ht id. etrans; [|exact Ht]. unfold watchers. clear Ht.
  induction (map_to_list (clients h)) as [|[c s] l IH]; simpl; [lia|].
  assert (watching id s ≤ Z.of_nat (size s)); [|lia].
  unfold watching. apply inj_le, subseteq_size. set_solver.
Qed.

(** C11: when the handlers of requests do not overlap and no system ever has more than 127 watchers
    (the counter has 8 bits, and a request adds before it removes; see [clients_wrap]), then
    whatever the workers do in between, once a handler is done the map has an entry for exactly
    the watched systems, with the number of their watchers; the worker flag is up exactly when
    somebody watches, and then there is a worker.  Without the first proviso the hub can stall
    ([stalled_reachable]). *)
Theorem realtime_served h :
  rtc calm_step hub0 h → threads h = [] →
  (∀ id, match activeSubscriptions (rt h) !! id with
         | Some info => connectedClients info = watchers (clients h) id ∧
                        0 < watchers (clients h) id ∧ watches id (subscription info)
         | None => watchers (clients h) id = 0
         end) ∧
  workerRunning (rt h) = bool_decide (activeSubscriptions (rt h) ≠ ∅) ∧
  (activeSubscriptions (rt h) ≠ ∅ → workers (rt h) ≠ []).
Proof.
  intros Hr Ht. destruct (calm_ok h Hr) as [_ (acts&[E|[_ ->]]&(_&He&Hc&_&Hw))].
  { rewrite Ht in E. done. }
  split; [|done]. intros id. specialize (Hc id). unfold count in Hc.
  change (adds id []) with 0 in Hc. change (removes id []) with 0 in Hc.
  destruct (activeSubscriptions (rt h) !! id) as [info|] eqn:E; [|lia].
  apply He in E as [??]. split_and!; [lia|lia|done].
Qed.

Lemma watchers_pos m c subs k id :
  m !! c = Some subs → k ∈ subs → watches id k → 0 < watchers m id.
Proof.
  intros Hc Hk Hw. rewrite (watchers_delete m c), Hc. simpl.
  pose proof (watchers_nonneg (delete c m) id).
  assert (size (filter (watches id) subs) ≠ 0%nat); [|unfold watching; lia].
  intros E%size_empty_inv. set_solver.
Qed.

Lemma elem_of_notify {Data} m name (data : Data) c k d :
  (c, k, d) ∈ notify m name data ↔ k = name ∧ d = data ∧ k ∈ default ∅ (m !! c).
Proof.
  unfold notify. rewrite list_elem_of_fmap. split.
  - intros ([c' subs]&[= -> -> ->]&[Hk%bool_decide_unpack Hin]%list_elem_of_filter).
    apply elem_of_map_to_list in Hin. by rewrite Hin.
  - intros (->&->&Hk). destruct (m !! c) as [subs|] eqn:E; [|set_solver].
    simpl in Hk. exists (c, subs). split; [done|]. apply list_elem_of_filter.
    split; [by apply bool_decide_pack|].
    by apply elem_of_map_to_list.
Qed.

Lemma NoDup_notify {Data} m name (data : Data) : NoDup (notify m name data).
Proof.
  unfold notify. apply NoDup_fmap_2_strong.
  - intros [c1 s1] [c2 s2] H1 H2 [= ->]. f_equal.
    apply list_elem_of_filter in H1 as [_ H1%elem_of_map_to_list].
    apply list_elem_of_filter in H2 as [_ H2%elem_of_map_to_list]. congruence.
  - apply NoDup_filter, NoDup_map_to_list.
Qed.

(** When a key is determined by the system it asks for, one round of a worker sends every
    client one message for each of its subscriptions to a system that answers, and no other. *)
Theorem realtime_delivery {Data} (fetch : string → option Data) h :
  rtc calm_step hub0 h → threads h = [] →
  (∀ k k', rt_key k = true → rt_key k' = true → system_of k = system_of k' → k = k') →
  let msgs := fetchRealtimeDataAndNotify fetch (clients h) (rt h) in
  NoDup msgs ∧
  ∀ c k d, (c, k, d) ∈ msgs ↔
    k ∈ subs_of h c ∧ rt_key k = true ∧ fetch (system_of k) = Some d.
Proof.
  intros Hr Ht Hkey. cbv zeta. destruct (calm_ok h Hr) as [_ (acts&[E|[_ ->]]&(_&He&Hc&_&_))].
  { rewrite Ht in E. done. }
  unfold fetchRealtimeDataAndNotify.
  assert (∀ id info, (id, info) ∈ range_list (activeSubscriptions (rt h)) → watches id (subscription info))
    as Hsub by (intros id info [_ ?]%elem_of_range_list%He; done).
  split.
  - assert (NoDup (range_list (activeSubscriptions (rt h))).*1) as Hnd by apply NoDup_fst_range_list.
    revert Hsub Hnd. generalize (range_list (activeSubscriptions (rt h))).
    induction l as [|[id info] l IH]; intros Hsub Hnd; [constructor|]. simpl in *.
    apply NoDup_cons in Hnd as [Hid Hnd]. apply NoDup_app. split_and!.
    + destruct (fetch id); [apply NoDup_notify|constructor].
    + intros [[c k] d] Hin Hin'. destruct (fetch id) as [data|]; [|by apply elem_of_nil in Hin].
      apply elem_of_notify in Hin as (->&_&_).
      apply list_elem_of_In, in_flat_map in Hin' as ([id' info']&Hl%list_elem_of_In&Hin').
      destruct (fetch id'); [|done]. apply list_elem_of_In, elem_of_notify in Hin' as (E&_&_).
      destruct (Hsub id info) as [_ H1]; [by left|]. destruct (Hsub id' info') as [_ H2]; [by right|].
      apply Hid. apply list_elem_of_fmap. exists (id', info'). simpl. split; [congruence|done].
    + apply IH; [|done]. intros. apply Hsub. by right.
  - intros c k d. rewrite list_elem_of_In, in_flat_map. split.
    + intros ([id info]&Hl%list_elem_of_In&Hin). apply Hsub in Hl as [Hk Hs].
      destruct (fetch id) as [data|] eqn:Hf; [|done].
      apply list_elem_of_In, elem_of_notify in Hin as (->&->&?). split_and!; [done..|]. congruence.
    + intros (Hk&Hrt&Hf). unfold subs_of in Hk. destruct (clients h !! c) as [subs|] eqn:Hcl;
        [|set_solver].
      pose proof (watchers_pos _ _ _ _ (system_of k) Hcl Hk (conj Hrt eq_refl)) as Hpos.
      specialize (Hc (system_of k)). change (adds (system_of k) []) with 0 in Hc.
      change (removes (system_of k) []) with 0 in Hc. unfold count in Hc.
      destruct (activeSubscriptions (rt h) !! system_of k) as [info|] eqn:E; [|lia].
      exists (system_of k, info). split; [by apply list_elem_of_In, elem_of_range_list|].
      rewrite Hf. apply list_elem_of_In, elem_of_notify. rewrite Hcl.
      apply He in E as [_ [Hs1 Hs2]]. split_and!; [by apply Hkey|done..].
Qed.

(** ** Requests at the same time *)

(** Nobody polls although somebody watches, and the flag says that a worker runs. *)
Definition stalled (h : hub) : Prop :=
  threads h = [] ∧ activeSubscriptions (rt h) ≠ ∅ ∧ workerRunning (rt h) = true ∧
  workers (rt h) = [].

Definition watched_step (h h' : hub) : Prop :=
  step false h h' ∧ activeSubscriptions (rt h') ≠ ∅.

Definition no_stop (a : action) : Prop := match a with Stop => False | _ => True end.

Lemma request_no_stop old new :
  Forall no_stop (onRealtimeSubscribeRequest old new) ∧ Forall no_stop (onRealtimeConnectRequest old).
Proof.
  assert (∀ l, Forall no_stop (flat_map removeRealtimeSubscription l)) as Hr.
  { induction l as [|k l IH]; simpl; [constructor|]. apply Forall_app. split; [|done].
    unfold removeRealtimeSubscription. destruct (rt_key k); repeat constructor. }
  split; [|apply Hr]. apply Forall_app. split; [|apply Hr].
  generalize (keys (new ∖ old)). induction l as [|k l IH]; simpl; [constructor|].
  apply Forall_app. split; [|done]. unfold subscribe_one. destruct (rt_key k); repeat constructor.
Qed.

(** The state that lasts. *)
Definition dead (h : hub) : Prop :=
  activeSubscriptions (rt h) ≠ ∅ ∧ workerRunning (rt h) = true ∧ workers (rt h) = [] ∧
  Forall (Forall no_stop) (threads h).

Lemma dead_step h h' : watched_step h h' → dead h → dead h'.
Proof.
  intros [Hst Hne'] (Hne&Hr&Hw&Ht). inversion Hst as [c new _|c _|l1 a rest l2 v more E Hex|
    l1 l2 E|l1 l2 E|l1 c l2 E]; subst h'; unfold dead; simpl in *; try rewrite Hw in E;
    try (by destruct l1).
  - split_and!; try done. constructor; [apply request_no_stop|done].
  - split_and!; try done. constructor; [apply (request_no_stop _ ∅)|done].
  - rewrite E in Ht. apply Forall_app in Ht as [Ht1 [Hta Ht2]%Forall_cons].
    apply Forall_cons in Hta as [Hna Hta]. split; [done|].
    assert (workerRunning v = true ∧ workers v = [] ∧ more = []) as (?&?&->).
    { destruct a; simpl in Hex; simplify_eq/=; try done.
      - unfold onRealtimeSubscriptionAdded. by rewrite Hr.
      - unfold remove_subscription. repeat case_match; simpl; auto.
      - unfold nothing_active. rewrite bool_decide_eq_false_2 by done. by rewrite andb_false_r. }
    split_and!; try done. apply Forall_app. auto.
  - rewrite E in Ht. apply Forall_app in Ht as [? [? ?]%Forall_cons]. split_and!; try done.
    by apply Forall_app.
Qed.

(** A stalled hub stays stalled: as long as somebody watches, no request that comes, in
    whatever order, starts a worker again, and no data is sent. *)
Theorem stalled_stays h h' : stalled h → rtc watched_step h h' → workers (rt h') = [].
Proof.
  intros (Ht&Hne&Hr&Hw) Hst.
  assert (dead h) as Hd by (split_and!; try done; by rewrite Ht).
  assert (dead h') as (_&_&?&_); [|done]. clear -Hst Hd.
  induction Hst as [|x y z Hxy _ IH]; [done|]. by apply IH, (dead_step x y).
Qed.
End realtime.

(** ** Runs *)

Definition ex_key : string := "rt_metrics/a".
Definition ex_subs : gset string := {[ex_key]}.
Definition ex_vars (n : Z) (ws : list worker) : vars := {|
  activeSubscriptions := {[ex_key := {| subscription := ex_key; connectedClients := n |}]};
  workerRunning := true; tickerStopChan := 1; workers := ws |}.

(** One client is subscribed and its handler is done. *)
Definition ex_one : hub := {|
  rt := ex_vars 1 [Fetching]; clients := {[1%nat := ex_subs]}; threads := [] |}.

Lemma ex_one_reached serial (P : hub → Prop) :
  (∀ h, Zsum (map (λ cs, Z.of_nat (size cs.2)) (map_to_list (clients h))) ≤ 127 → P h) →
  rtc (λ h h', step (λ k, k) serial h h' ∧ P h') hub0 ex_one.
Proof.
  intros HP.
  eapply rtc_l. { split; [by apply (step_subscribe _ _ _ 1%nat ex_subs)|]. apply HP. by vm_compute. }
  eapply rtc_l. { split; [by apply (step_handler _ _ _ [] (Add ex_key) [Added] [])|]. apply HP. by vm_compute. }
  eapply rtc_l. { split; [by apply (step_handler _ _ _ [] Added [] [])|]. apply HP. by vm_compute. }
  eapply rtc_l. { split; [by apply (step_return _ _ _ [] [])|]. apply HP. by vm_compute. }
  apply rtc_refl.
Qed.

Lemma ex_one_calm : rtc (calm_step (λ k, k)) hub0 ex_one.
Proof. apply ex_one_reached. intros h. apply few_total. Qed.

Lemma realtime_served_witness :
  watchers (λ k, k) (clients ex_one) ex_key = 1 ∧ workers (rt ex_one) ≠ [].
Proof.
  destruct (realtime_served (λ k, k) ex_one ex_one_calm eq_refl) as (H1&_&H2). split.
  - specialize (H1 ex_key). by destruct H1 as [H1 _].
  - apply H2. done.
Defined.

Lemma realtime_delivery_witness :
  (1%nat, ex_key, 42) ∈
    fetchRealtimeDataAndNotify (λ _, Some 42) (clients ex_one) (rt ex_one).
Proof.
  apply (realtime_delivery (λ k, k) (λ _, Some 42) ex_one ex_one_calm eq_refl); [done|].
  split_and!; [|reflexivity..]. by apply elem_of_singleton.
Defined.

(** The counter has 8 bits: after 257 clients subscribed, the first that leaves takes the entry
    of the other 256 with it. *)
Example clients_wrap :
  activeSubscriptions (remove_subscription (λ k, k) ex_key
    (Nat.iter 257 (add_subscription (λ k, k) ex_key) vars0)) = ∅.
Proof. reflexivity. Qed.

(** The last client leaves, the worker sees that nobody is left and returns, and before the
    handler looks again another client arrives. *)
Definition ex_stalled : hub := {|
  rt := ex_vars 1 []; clients := {[2%nat := ex_subs]}; threads := [] |}.

Example stalled_reachable : rtc (step (λ k, k) false) hub0 ex_stalled ∧ stalled ex_stalled.
Proof.
  split; [|split_and!; done].
  transitivity ex_one.
  { eapply rtc_subrel; [|by apply (ex_one_reached false (λ _, True))]. by intros ?? [? _]. }
  eapply rtc_l; [by apply (step_round _ _ _ [] [])|].
  eapply rtc_l; [by apply (step_disconnect _ _ _ 1%nat)|].
  eapply rtc_l; [by apply (step_handler _ _ _ [] (Remove ex_key) [Check] [])|].
  eapply rtc_l; [by apply (step_tick _ _ _ [] 1%nat [])|].
  eapply rtc_l; [by apply (step_subscribe _ _ _ 2%nat ex_subs)|].
  eapply rtc_l; [by apply (step_handler _ _ _ [] (Add ex_key) [Added] [[Check]])|].
  eapply rtc_l; [by apply (step_handler _ _ _ [] Added [] [[Check]])|].
  eapply rtc_l; [by apply (step_handler _ _ _ [[]] Check [] [])|].
  eapply rtc_l; [by apply (step_return _ _ _ [] [[]])|].
  eapply rtc_l; [by apply (step_return _ _ _ [] [])|].
  apply rtc_refl.
Qed.

(** A third client that comes then is counted, and gets nothing. *)
Definition ex_third : hub := {|
  rt := ex_vars 2 []; clients := {[2%nat := ex_subs; 3%nat := ex_subs]}; threads := [[]] |}.

Lemma stalled_stays_witness :
  stalled ex_stalled ∧ count (rt ex_third) ex_key = 2 ∧ workers (rt ex_third) = [].
Proof.
  assert (stalled ex_stalled) as Hs by (split_and!; done). split; [exact Hs|].
  split; [by vm_compute|]. apply (stalled_stays (λ k, k) ex_stalled ex_third Hs).
  eapply rtc_l. { split; [by apply (step_subscribe _ _ _ 3%nat ex_subs)|done]. }
  eapply rtc_l. { split; [by apply (step_handler _ _ _ [] (Add ex_key) [Added] [])|done]. }
  eapply rtc_l. { split; [by apply (step_handler _ _ _ [] Added [] [])|done]. }
  apply rtc_refl.
Defined.
End Realtime.
