(* ===== verification/HubAccess.v ===== *)
(** * Who may do what ([internal/hub/api.go], [internal/hub/collections.go])

    Requests to the hub's own API pass middlewares that authenticate and authorize them; the
    handlers that ask an agent for data check that the user is one of the system's.  The
    collections themselves are guarded by rules, which PocketBase evaluates.

    [apis.RequireAuth], record look-ups by e-mail, tokens, the fetches from an agent and the
    meaning of PocketBase's rules are parameters; the collections are behind [AccessDB]. *)

From Stdlib Require Import Ascii.
From S2P Require Import Prelude GoStrings GoText Realtime.

(** [utils.GetEnv] of the hub, over the process environment. *)
Definition GetEnv (env : gmap string string) (key : string) : option string :=
  match env !! ("BESZEL_HUB_" ++ key)%string with
  | Some v => Some v
  | None => env !! key
  end.
Definition getEnv (env : gmap string string) (key : string) : string := default "" (GetEnv env key).

Module HubAccess.

(** What the code uses of the authenticated record. *)
Record AuthRecord := { auth_id : string; auth_role : string; auth_superuser : bool }.

(** ** Middlewares *)

Inductive denial := Unauthorized | Forbidden.

(** [None] lets the request through. *)
Definition customAuthMiddleware (fn : AuthRecord → bool) (auth : option AuthRecord) : option denial :=
  match auth with
  | None => Some Unauthorized
  | Some a => if fn a then None else Some Forbidden
  end.

Definition requireAdminRole : option AuthRecord → option denial :=
  customAuthMiddleware (λ a, String.eqb (auth_role a) "admin").
Definition excludeReadOnlyRole : option AuthRecord → option denial :=
  customAuthMiddleware (λ a, negb (String.eqb (auth_role a) "readonly")).

(** [http.Header]: keys are canonical when they are tokens. *)
Definition is_token_char (a : ascii) : bool :=
  let n := nat_of_ascii a in
  ((97 <=? n) && (n <=? 122) || (65 <=? n) && (n <=? 90) || (48 <=? n) && (n <=? 57))%nat
  || existsb (Ascii.eqb a) ["!"; "#"; "$"; "%"; "&"; "'"; "*"; "+"; "-"; "."; "^"; "_"; "`"; "|"; "~"]%char.

Fixpoint all_chars (p : ascii → bool) (s : string) : bool :=
  match s with EmptyString => true | String a s => p a && all_chars p s end.

Fixpoint canonical (upper : bool) (s : string) : string :=
  match s with
  | EmptyString => ""
  | String a s =>
      String (if upper then upper_ascii a else lower_ascii a) (canonical (Ascii.eqb a "-") s)
  end.
Definition CanonicalHeaderKey (s : string) : string :=
  if all_chars is_token_char s then canonical true s else s.

Definition Header : Type := gmap string string.
Definition header_get (h : Header) (k : string) : string := default "" (h !! CanonicalHeaderKey k).
Definition header_set (h : Header) (k v : string) : Header := <[CanonicalHeaderKey k := v]> h.

Record event := { e_auth : option AuthRecord; e_method : string; e_path : string; e_header : Header }.

Section middlewares.
Context (FindAuthRecordByEmail : string → option AuthRecord).
Context (NewAuthToken : AuthRecord → option string).
Context (RequireAuth : option AuthRecord → option denial).

(** The closure of [registerMiddlewares]: a request that is not authenticated becomes one of the
    user with this address. *)
Definition authorizeRequestWithEmail (e : event) (email : string) : event :=
  match e_auth e with
  | Some _ => e
  | None =>
      if String.eqb email "" then e
      else
        let isAuthRefresh :=
          String.eqb (e_path e) "/api/collections/users/auth-refresh" &&
          String.eqb (e_method e) "POST" in
        let auth := FindAuthRecordByEmail email in
        let header :=
          match auth with
          | Some a =>
              if isAuthRefresh then
                header_set (e_header e) "Authorization" (default "" (NewAuthToken a))
              else e_header e
          | None => e_header e
          end in
        {| e_auth := auth; e_method := e_method e; e_path := e_path e; e_header := header |}
  end.

Definition registerMiddlewares (env : gmap string string) (e : event) : event :=
  let autoLogin := getEnv env "AUTO_LOGIN" in
  let e := if String.eqb autoLogin "" then e else authorizeRequestWithEmail e autoLogin in
  let trustedHeader := getEnv env "TRUSTED_AUTH_HEADER" in
  if String.eqb trustedHeader "" then e
  else authorizeRequestWithEmail e (header_get (e_header e) trustedHeader).

(** ** Routes *)

Inductive handler :=
  | CreateFirstUser | FirstRun | GetInfo | GetUpdate | SendTestNotification
  | GetHeartbeatStatus | TestHeartbeat | GetYamlConfig
  | ListUsers | CreateUser | UpdateUser | DeleteUser | SendUserPasswordReset
  | ListBackups | CreateBackup | RestoreBackup | DeleteBackup
  | GetSMTP | UpdateSMTP | TestSMTP | ListLogs | ClearLogs | RestartAgent
  | HandleAgentConnect | GetUniversalToken | UpsertUserAlerts | DeleteUserAlerts
  | RefreshSmartData | GetSystemdInfo | GetContainerLogs | GetContainerInfo.

#[export] Instance handler_eq_dec : EqDecision handler.
Proof using Type. solve_decision. Defined.

Inductive bound := NoRole | RequireAdmin | ExcludeReadOnly.
#[export] Instance bound_eq_dec : EqDecision bound.
Proof using Type. solve_decision. Defined.

(** [r_group] is whether the route is of the group [apiAuth]. *)
Record api_route := {
  r_group : bool; r_method : string; r_path : string; r_handler : handler; r_bound : bound }.

Definition noAuth m p h : api_route :=
  {| r_group := false; r_method := m; r_path := p; r_handler := h; r_bound := NoRole |}.
Definition apiAuth m p h b : api_route :=
  {| r_group := true; r_method := m; r_path := p; r_handler := h; r_bound := b |}.

(** [registerApiRoutes]; the number of users is 0 when they cannot be counted. *)
Definition registerApiRoutes (env : gmap string string) (totalUsers : option Z) : list api_route :=
  (if (default 0 totalUsers =? 0)%Z then [noAuth "POST" "/create-user" CreateFirstUser] else []) ++
  [noAuth "GET" "/first-run" FirstRun;
   apiAuth "GET" "/info" GetInfo NoRole;
   apiAuth "GET" "/getkey" GetInfo NoRole] ++
  (if String.eqb (getEnv env "CHECK_UPDATES") "true" then [apiAuth "GET" "/update" GetUpdate NoRole]
   else []) ++
  [apiAuth "POST" "/test-notification" SendTestNotification NoRole;
   apiAuth "GET" "/heartbeat-status" GetHeartbeatStatus RequireAdmin;
   apiAuth "POST" "/test-heartbeat" TestHeartbeat RequireAdmin;
   apiAuth "GET" "/config-yaml" GetYamlConfig RequireAdmin;
   apiAuth "GET" "/admin/users" ListUsers RequireAdmin;
   apiAuth "POST" "/admin/users" CreateUser RequireAdmin;
   apiAuth "PATCH" "/admin/users/{id}" UpdateUser RequireAdmin;
   apiAuth "DELETE" "/admin/users/{id}" DeleteUser RequireAdmin;
   apiAuth "POST" "/admin/users/{id}/reset-password" SendUserPasswordReset RequireAdmin;
   apiAuth "GET" "/admin/backups" ListBackups RequireAdmin;
   apiAuth "POST" "/admin/backups" CreateBackup RequireAdmin;
   apiAuth "POST" "/admin/backups/{key}/restore" RestoreBackup RequireAdmin;
   apiAuth "DELETE" "/admin/backups/{key}" DeleteBackup RequireAdmin;
   apiAuth "GET" "/admin/settings/smtp" GetSMTP RequireAdmin;
   apiAuth "PUT" "/admin/settings/smtp" UpdateSMTP RequireAdmin;
   apiAuth "POST" "/admin/settings/smtp/test" TestSMTP RequireAdmin;
   apiAuth "GET" "/admin/logs" ListLogs RequireAdmin;
   apiAuth "DELETE" "/admin/logs" ClearLogs RequireAdmin;
   apiAuth "POST" "/admin/agents/restart" RestartAgent RequireAdmin;
   noAuth "GET" "/agent-connect" HandleAgentConnect;
   apiAuth "GET" "/universal-token" GetUniversalToken ExcludeReadOnly;
   apiAuth "POST" "/user-alerts" UpsertUserAlerts NoRole;
   apiAuth "DELETE" "/user-alerts" DeleteUserAlerts NoRole;
   apiAuth "POST" "/smart/refresh" RefreshSmartData ExcludeReadOnly;
   apiAuth "GET" "/systemd/info" GetSystemdInfo NoRole] ++
  (if String.eqb (getEnv env "CONTAINER_DETAILS") "false" then []
   else [apiAuth "GET" "/containers/logs" GetContainerLogs NoRole;
         apiAuth "GET" "/containers/info" GetContainerInfo NoRole]).

Definition run_bound (b : bound) (auth : option AuthRecord) : option denial :=
  match b with
  | NoRole => None
  | RequireAdmin => requireAdminRole auth
  | ExcludeReadOnly => excludeReadOnlyRole auth
  end.

(** A request for a route: the middlewares of the router, the group and the route, in this
    order; the handler runs when none denies it. *)
Definition serve (env : gmap string string) (rt : api_route) (e : event)
    : denial + handler * option AuthRecord :=
  let auth := e_auth (registerMiddlewares env e) in
  match (if r_group rt then RequireAuth auth else None) with
  | Some d => inl d
  | None =>
      match run_bound (r_bound rt) auth with
      | Some d => inl d
      | None => inr (r_handler rt, auth)
      end
  end.

#[export] Instance route_eq_dec : EqDecision api_route.
Proof using Type. clear. solve_decision. Defined.

(** ** Access to the API *)

Definition public : list handler := [CreateFirstUser; FirstRun; HandleAgentConnect].
Definition admin_only : list handler :=
  [GetHeartbeatStatus; TestHeartbeat; GetYamlConfig; ListUsers; CreateUser; UpdateUser; DeleteUser;
   SendUserPasswordReset; ListBackups; CreateBackup; RestoreBackup; DeleteBackup; GetSMTP;
   UpdateSMTP; TestSMTP; ListLogs; ClearLogs; RestartAgent].
Definition not_readonly : list handler := [GetUniversalToken; RefreshSmartData].

(** What the account needs for a handler. *)
Definition may_run (h : handler) (auth : option AuthRecord) : Prop :=
  if decide (h ∈ public) then True
  else match auth with
       | None => False
       | Some a =>
           (h ∈ admin_only → auth_role a = "admin") ∧
           (h ∈ not_readonly → auth_role a ≠ "readonly")
       end.

Lemma requireAdminRole_None auth :
  requireAdminRole auth = None ↔ ∃ a, auth = Some a ∧ auth_role a = "admin".
Proof using Type.
  clear. unfold requireAdminRole, customAuthMiddleware. destruct auth as [a|]; [|naive_solver].
  destruct (String.eqb_spec (auth_role a) "admin"); naive_solver.
Qed.

Lemma excludeReadOnlyRole_None auth :
  excludeReadOnlyRole auth = None ↔ ∃ a, auth = Some a ∧ auth_role a ≠ "readonly".
Proof using Type.
  clear. unfold excludeReadOnlyRole, customAuthMiddleware. destruct auth as [a|]; [|naive_solver].
  destruct (String.eqb_spec (auth_role a) "readonly"); naive_solver.
Qed.

(** A route's guards are those its handler needs. *)
Definition guarded (rt : api_route) : bool :=
  let h := r_handler rt in
  bool_decide (h ∈ public) ||
  (r_group rt &&
   match r_bound rt with
   | NoRole => bool_decide (h ∉ admin_only) && bool_decide (h ∉ not_readonly)
   | RequireAdmin => bool_decide (h ∉ not_readonly)
   | ExcludeReadOnly => bool_decide (h ∉ admin_only)
   end).

Lemma routes_guarded env n : Forall guarded (registerApiRoutes env n).
Proof using Type.
  clear. unfold registerApiRoutes.
  destruct (default 0 n =? 0)%Z, (String.eqb (getEnv env "CHECK_UPDATES") "true"),
    (String.eqb (getEnv env "CONTAINER_DETAILS") "false");
    apply (bool_decide_unpack _); vm_compute; exact I.
Qed.

(** C27: whatever the environment, a handler of the API runs only for an account that may run it:
    all but three need an account, the administrative ones the role admin, and tokens and SMART
    refreshes an account that is not read-only. *)
Theorem api_access env n rt e h auth :
  (RequireAuth None ≠ None) → rt ∈ registerApiRoutes env n →
  serve env rt e = inr (h, auth) → may_run h auth.
Proof using Type.
  intros HR Hrt. pose proof (proj1 (Forall_forall _ _) (routes_guarded env n) rt Hrt) as Hg.
  unfold serve. generalize (e_auth (registerMiddlewares env e)). intros au.
  destruct (if r_group rt then RequireAuth au else None) eqn:Hau; [done|].
  destruct (run_bound (r_bound rt) au) eqn:Hb; [done|]. intros [= <- <-].
  unfold may_run. destruct (decide (r_handler rt ∈ public)) as [|Hp]; [done|].
  unfold guarded in Hg. rewrite bool_decide_eq_false_2 in Hg by done. simpl in Hg.
  destruct (r_group rt); [simpl in Hg|done]. destruct au as [a|]; [|done].
  destruct (r_bound rt); cbn [run_bound] in Hb.
  - apply andb_prop_elim in Hg as [H1%bool_decide_unpack H2%bool_decide_unpack]. by split.
  - apply bool_decide_unpack in Hg. apply requireAdminRole_None in Hb as (?&[= <-]&Hr).
    by split.
  - apply bool_decide_unpack in Hg. apply excludeReadOnlyRole_None in Hb as (?&[= <-]&Hr).
    by split.
Qed.
End middlewares.

(** ** Systems and their users *)

(** A column of relations, as the database stores it: a JSON array of ids. *)
Definition dquote : ascii := "034".
Fixpoint json_items (ids : list string) : string :=
  match ids with
  | [] => ""
  | [x] => String dquote (x ++ String dquote "")
  | x :: l => String dquote (x ++ String dquote ("," ++ json_items l))
  end.
Definition json_array (ids : list string) : string := "[" ++ json_items ids ++ "]".

(** Ids of records: fifteen characters of [a-z0-9]. *)
Definition id_char (a : ascii) : bool :=
  let n := nat_of_ascii a in ((97 <=? n) && (n <=? 122) || (48 <=? n) && (n <=? 57))%nat.
Definition record_id (x : string) : Prop := String.length x = 15%nat ∧ all_chars id_char x = true.

(** Text without a quote does not reach over one. *)
Lemma prefix_before_quote t r x :
  all_chars id_char x = true → HasPrefix (t ++ String dquote r) x = true → HasPrefix t x = true.
Proof.
  intros Hx Hp. apply HasPrefix_spec in Hp as [z E]. apply HasPrefix_spec. revert x Hx E.
  induction t as [|a t IH]; intros x Hx E.
  - destruct x as [|b x]; [by exists ""|]. rewrite string_app_nil, string_app_cons in E.
    injection E as <- _. done.
  - destruct x as [|b x]; [by exists (String a t)|]. rewrite !string_app_cons in E.
    injection E as -> E. simpl in Hx. apply andb_prop in Hx as [_ Hx].
    destruct (IH x Hx E) as [w ->]. by exists w.
Qed.

Lemma Contains_quote s r x :
  all_chars id_char x = true → x ≠ "" → Contains (s ++ String dquote r) x = true →
  Contains s x = true ∨ Contains r x = true.
Proof.
  intros Hx Hne. induction s as [|a s IH].
  - rewrite string_app_nil. simpl. intros [Hp|Hc]%orb_prop; [|by right].
    apply (prefix_before_quote "" r) in Hp; [|done]. by destruct x.
  - rewrite string_app_cons. simpl. rewrite <- (string_app_cons a s (String dquote r)).
    intros [Hp|Hc]%orb_prop.
    + apply prefix_before_quote in Hp; [|done]. left. by rewrite Hp.
    + destruct (IH Hc) as [H|H]; [left|by right]. by rewrite H, orb_true_r.
Qed.

Lemma Contains_length s x : Contains s x = true → (String.length x ≤ String.length s)%nat.
Proof.
  induction s as [|a s IH]; simpl.
  - rewrite orb_false_r. intros [t E]%HasPrefix_spec. by destruct x.
  - intros [[t E]%HasPrefix_spec|Hc]%orb_prop; [|specialize (IH Hc); lia].
    apply (f_equal String.length) in E. rewrite string_length_app in E. simpl in E. lia.
Qed.

Lemma string_app_nil_r (s : string) : (s ++ "")%string = s.
Proof. induction s as [|a s IH]; [done|]. by rewrite string_app_cons, IH. Qed.

Lemma Contains_same_length s x :
  Contains s x = true → String.length s = String.length x → s = x.
Proof.
  destruct s as [|a s]; simpl.
  - rewrite orb_false_r. intros [t E]%HasPrefix_spec ?. by destruct x.
  - intros [[t E]%HasPrefix_spec|Hc]%orb_prop Hl.
    + assert (t = "") as ->; [|by rewrite E, string_app_nil_r]. apply (f_equal String.length) in E.
      rewrite string_length_app in E. simpl in E. destruct t; [done|simpl in E; lia].
    + apply Contains_length in Hc. lia.
Qed.

Lemma json_items_cons2 x y l :
  json_items (x :: y :: l) = String dquote (x ++ String dquote (String "," (json_items (y :: l)))).
Proof. done. Qed.

Lemma Contains_items ids t x :
  record_id x → (∀ y, y ∈ ids → record_id y) → Contains (json_items ids ++ t) x = true →
  x ∈ ids ∨ Contains t x = true.
Proof.
  intros [Hlen Hx] Hall. assert (Hne : x ≠ "") by (by intros ->).
  assert (Hshort : ∀ a, Contains (String a "") x = true → False).
  { intros a Ha%Contains_length. rewrite Hlen in Ha. simpl in Ha. lia. }
  induction ids as [|y ids IH]; [rewrite string_app_nil; auto|].
  destruct (Hall y) as [Hy _]; [left|].
  assert (Hhead : ∀ r, Contains (String dquote (y ++ String dquote r)) x = true →
    x = y ∨ Contains r x = true).
  { intros r Hc. rewrite <- (string_app_nil (String dquote (y ++ String dquote r))) in Hc.
    apply Contains_quote in Hc as [Hc%Contains_length|Hc];
      [rewrite Hlen in Hc; simpl in Hc; lia| |done|done].
    apply Contains_quote in Hc as [Hc|Hc]; [|by right|done|done]. left. symmetry.
    apply Contains_same_length; congruence. }
  destruct ids as [|z ids].
  - cbn [json_items]. rewrite string_app_cons, string_app_assoc, string_app_cons, string_app_nil.
    intros [->|Hc]%Hhead; [left; left|by right].
  - rewrite json_items_cons2, string_app_cons, string_app_assoc, !string_app_cons.
    intros [->|Hc]%Hhead; [left; left|].
    destruct IH as [IH|IH]; [intros; apply Hall; by right| |left; by right|by right].
    cbn [Contains] in Hc. apply orb_prop in Hc as [Hp|Hc]; [|done]. exfalso.
    destruct (json_items (z :: ids) ++ t)%string as [|q r] eqn:E; [by destruct ids|].
    assert (q = dquote) as -> by (destruct ids; by injection E).
    apply (prefix_before_quote "," r) in Hp; [|done].
    apply (Hshort ","%char). cbn [Contains]. by rewrite Hp.
Qed.

Lemma Contains_prefix x t : Contains (x ++ t) x = true.
Proof.
  assert (HasPrefix (x ++ t) x = true) as H by (apply HasPrefix_spec; by exists t).
  destruct (x ++ t)%string; cbn [Contains]; by rewrite H.
Qed.
Lemma Contains_tail a s x : Contains s x = true → Contains (String a s) x = true.
Proof. intros H. cbn [Contains]. by rewrite H, orb_true_r. Qed.
Lemma Contains_app s t x : Contains t x = true → Contains (s ++ t) x = true.
Proof.
  intros H. induction s as [|a s IH]; [done|]. rewrite string_app_cons. by apply Contains_tail.
Qed.

Lemma items_Contain ids t x : x ∈ ids → Contains (json_items ids ++ t) x = true.
Proof.
  induction 1 as [x ids|x y ids Hx IH].
  - destruct ids as [|z ids]; [cbn [json_items]|rewrite json_items_cons2];
      rewrite string_app_cons, string_app_assoc; apply Contains_tail, Contains_prefix.
  - destruct ids as [|z ids]; [by apply elem_of_nil in Hx|]. rewrite json_items_cons2.
    rewrite string_app_cons, string_app_assoc, !string_app_cons.
    apply Contains_tail, Contains_app. by do 2 apply Contains_tail.
Qed.

(** Searching the column's text for an id finds exactly the ids of the array. *)
Lemma json_array_Contains ids x :
  record_id x → (∀ y, y ∈ ids → record_id y) → Contains (json_array ids) x = true ↔ x ∈ ids.
Proof.
  intros Hx Hall. unfold json_array. split.
  - intros Hc. destruct (Contains_items ids "]" x Hx Hall) as [?|Hc']; [|done|].
    + rewrite string_app_cons, string_app_nil in Hc. cbn [Contains] in Hc.
      apply orb_prop in Hc as [Hp|Hc]; [|done]. exfalso. destruct Hx as [Hlen Hx].
      destruct x as [|a x]; [done|]. apply HasPrefix_spec in Hp as [w E].
      rewrite string_app_cons in E. injection E as <- _. done.
    + apply Contains_length in Hc'. destruct Hx as [Hlen _]. rewrite Hlen in Hc'. simpl in Hc'. lia.
  - intros Hin. rewrite string_app_cons, string_app_nil. by apply Contains_tail, items_Contain.
Qed.
End HubAccess.

Class AccessDB (DB : Type) := {
  (* the column [users] of a system *)
  usersColumn : DB → string → option string;
  (* whether a record of [systemd_services] has this system and name *)
  serviceRecord : DB → string → string → bool;
  systemUsers : DB → gmap string (list string);
}.

Class AccessDBLaws (DB : Type) `{AccessDB DB} := {
  usersColumn_spec : ∀ d id s, usersColumn d id = Some s →
    ∃ ids, systemUsers d !! id = Some ids ∧ s = HubAccess.json_array ids;
  systemUsers_ids : ∀ d id ids x, systemUsers d !! id = Some ids → x ∈ ids → HubAccess.record_id x;
}.

Module HubData.
Import HubAccess.
Section handlers.
Context {DB : Type} {ADB : AccessDB DB} {ADBL : AccessDBLaws DB} (env : gmap string string).

(** [System.HasUser] of [internal/hub/systems/system.go]. *)
Definition HasUser (d : DB) (systemID : string) (user : option AuthRecord) : bool :=
  match user with
  | None => false
  | Some u =>
      if String.eqb (getEnv env "SHARE_ALL_SYSTEMS") "true" then true
      else match usersColumn d systemID with
           | None => false
           | Some column =>
               if String.eqb column "" then false else Contains column (auth_id u)
           end
  end.

(** ** Data of a system *)

(** What an agent is asked for. *)
Inductive fetch :=
  | FetchContainerLogs (systemID containerID : string)
  | FetchContainerInfo (systemID containerID : string)
  | FetchSystemdInfo (systemID serviceName : string)
  | FetchAndSaveSmartDevices (systemID : string).

Inductive response :=
  | BadRequest (msg : string) | NotFound | InternalServerError | OK (key value : string).

(** The systems the manager knows, and the agents' answers. *)
Context (GetSystem : string → bool) (ask : fetch → option string).

Definition is_hex (a : ascii) : bool :=
  let n := nat_of_ascii a in
  ((97 <=? n) && (n <=? 102) || (65 <=? n) && (n <=? 70) || (48 <=? n) && (n <=? 57))%nat.
(** [^[a-fA-F0-9]{12,64}$] *)
Definition containerIDPattern (s : string) : bool :=
  all_chars is_hex s && (12 <=? String.length s)%nat && (String.length s <=? 64)%nat.

(** An answer, and the requests that went to the agent. *)
Definition answer (f : fetch) (key : string) : list fetch * response :=
  ([f], match ask f with Some data => OK key data | None => InternalServerError end).

Definition containerRequestHandler (d : DB) (auth : option AuthRecord) (query : string → string)
    (fetchFunc : string → string → fetch) (responseKey : string) : list fetch * response :=
  let systemID := query "system" in
  let containerID := query "container" in
  if String.eqb systemID "" || String.eqb containerID "" || negb (containerIDPattern containerID)
  then ([], BadRequest "Invalid system or container parameter")
  else if negb (GetSystem systemID) || negb (HasUser d systemID auth) then ([], NotFound)
  else answer (fetchFunc systemID containerID) responseKey.

Definition getContainerLogs d auth query := containerRequestHandler d auth query FetchContainerLogs "logs".




(** ** Who gets it *)




Lemma HasUser_complete d systemID u ids c :
  usersColumn d systemID = Some c → systemUsers d !! systemID = Some ids → auth_id u ∈ ids →
  HasUser d systemID (Some u) = true.
Proof using ADBL.
  intros Hc Hids Hin. unfold HasUser. destruct (String.eqb _ "true"); [done|]. rewrite Hc.
  apply usersColumn_spec in Hc as (ids'&Hids'&->). rewrite Hids in Hids'. injection Hids' as <-.
  assert (Hr : ∀ y, y ∈ ids → record_id y) by (intros y; by eapply systemUsers_ids).
  destruct (String.eqb_spec (json_array ids) "") as [E|_]; [by destruct ids|].
  apply json_array_Contains; auto.
Qed.



End handlers.

(** ** A concrete hub *)

Definition alice : string := "alice0000000000".
Definition bob : string := "bob000000000000".
Definition table : gmap string (list string) := {["web" := [alice; bob]; "db" := [bob]]}.

#[local] Instance unit_access : AccessDB unit := {|
  usersColumn _ id := json_array <$> table !! id;
  serviceRecord _ id name := String.eqb name "nginx";
  systemUsers _ := table;
|}.

#[local] Instance unit_access_laws : AccessDBLaws unit.
Proof.
  split; simpl.
  - intros _ id s (ids&Hids&->)%fmap_Some. eauto.
  - intros _ id ids x. unfold table. rewrite lookup_insert_Some, lookup_singleton_Some.
    intros [[_ <-]|[_ [_ <-]]] Hx; repeat (apply elem_of_cons in Hx as [->|Hx]; [by vm_compute|]);
      by apply elem_of_nil in Hx.
Qed.

Definition user (id role : string) : AuthRecord := {|
  auth_id := id; auth_role := role; auth_superuser := false |}.
Definition ask1 (f : fetch) : option string := Some "text".
Definition query1 (k : string) : string :=
  if String.eqb k "system" then "web" else if String.eqb k "container" then "0123456789ab" else "".


(** Alice is no user of the other system, and a container id is no path. *)
Example denied_ex :
  let other k := if String.eqb k "system" then "db" else query1 k in
  let path k := if String.eqb k "container" then "../../containers/x" else query1 k in
  getContainerLogs ∅ (λ _, true) ask1 tt (Some (user alice "user")) other = ([], NotFound) ∧
  getContainerLogs ∅ (λ _, true) ask1 tt (Some (user alice "user")) path =
    ([], BadRequest "Invalid system or container parameter").
Proof. by vm_compute. Qed.

Lemma api_access_witness :
  may_run ListUsers (Some (user alice "admin")).
Proof.
  apply (api_access (λ _, Some (user alice "admin")) (λ _, None)
    (λ a, if a then None else Some Unauthorized) {["AUTO_LOGIN" := "a@b.c"]} (Some 2%Z)
    (apiAuth "GET" "/admin/users" ListUsers RequireAdmin)
    {| e_auth := None; e_method := "GET"; e_path := "/api/bantay/admin/users"; e_header := ∅ |}).
  - done.
  - apply (bool_decide_unpack _). by vm_compute.
  - by vm_compute.
Defined.
End HubData.
