(* ===== verification/HubPages.v ===== *)
(** * The hub's pages and its health command ([internal/hub/server.go],
    [internal/hub/server_production.go], [internal/cmd/hub/hub.go])

    Every path that is not an asset is answered with one page, in which the hub has put its version and
    its URL as JSON and the path it is served under.  [url.Parse] is third-party code, a parameter;
    the path of the result is all that is used.  Strings are UTF-8, and JSON's treatment of the two line
    separators of Unicode is left out. *)

From S2P Require Import Prelude GoStrings GoText GoFmt.

Module HubPages.
Local Open Scope string_scope.

(** ** JSON *)

Definition dquote : ascii := "034".
Definition backslash : ascii := "092".

Definition hex_digit (n : nat) : ascii := ascii_of_nat (if (n <? 10)%nat then 48 + n else 87 + n).

(** A byte of a string as [json.Marshal] writes it, safe for HTML. *)
Definition json_char (a : ascii) : string :=
  let n := nat_of_ascii a in
  let u := String backslash (String "u" (String "0" (String "0"
             (String (hex_digit (n / 16)) (String (hex_digit (n mod 16)) ""))))) in
  if Ascii.eqb a dquote then String backslash (String dquote "")
  else if Ascii.eqb a backslash then String backslash (String backslash "")
  else if (n =? 8)%nat then String backslash "b"
  else if (n =? 12)%nat then String backslash "f"
  else if (n =? 10)%nat then String backslash "n"
  else if (n =? 13)%nat then String backslash "r"
  else if (n =? 9)%nat then String backslash "t"
  else if (n <? 32)%nat || Ascii.eqb a "<" || Ascii.eqb a ">" || Ascii.eqb a "&" then u
  else String a "".

Fixpoint json_chars (s : string) : string :=
  match s with EmptyString => "" | String a s => json_char a ++ json_chars s end.
Definition json_string (s : string) : string := String dquote (json_chars s ++ String dquote "").

(** ** The page *)

Record PublicAppInfo := { BASE_PATH : string; HUB_VERSION : string; HUB_URL : string; OAUTH_DISABLE_POPUP : bool }.

Definition marshal (info : PublicAppInfo) : string :=
  "{" ++ json_string "BASE_PATH" ++ ":" ++ json_string (BASE_PATH info) ++ ","
      ++ json_string "HUB_VERSION" ++ ":" ++ json_string (HUB_VERSION info) ++ ","
      ++ json_string "HUB_URL" ++ ":" ++ json_string (HUB_URL info)
      ++ (if OAUTH_DISABLE_POPUP info then "," ++ json_string "OAUTH_DISABLE_POPUP" ++ ":true" else "") ++ "}".

Section pages.
Variable ParsePath : string → option string.              (* [url.Parse], and the path of the result *)
Variable GetEnv : string → option string.
Variable Version appURL : string.

(** [None]: the URL does not parse, and the hub panics. *)
Definition getPublicAppInfo : option PublicAppInfo :=
  path ← ParsePath appURL;
  Some {| BASE_PATH := TrimSuffix path "/" ++ "/"; HUB_VERSION := Version; HUB_URL := appURL;
          OAUTH_DISABLE_POPUP := String.eqb (default "" (GetEnv "OAUTH_DISABLE_POPUP")) "true" |}.

(** [strings.ReplaceAll] of a string that is not empty, and [strings.Replace] with the limit 1 *)
Definition ReplaceAll (s old new : string) : string := GoText.Join (SplitBy s old) new.
Definition ReplaceFirst (s old new : string) : string :=
  match Cut s old with Some (x, y) => x ++ new ++ y | None => s end.

Definition info_mark : string := String dquote ("{info}" ++ String dquote "").

Definition modifyIndexHTML (html : string) : option string :=
  info ← getPublicAppInfo;
  Some (ReplaceFirst (ReplaceAll html "./" (BASE_PATH info)) info_mark (marshal info)).

(** ** Routes *)

(** The header that is set for an asset, or the page with the header that is set and the one that
    is removed. *)
Inductive response := Static (cache_control : string) | Page (html : string) (csp : option string) (drop_frame_options : bool).

Definition staticPaths : list string := ["/static/"; "/assets/"].

(** The handler of [GET /{path...}]. *)
Definition startServer (index : string) : option (string → response) :=
  html ← modifyIndexHTML index;
  Some (λ path,
    if existsb (Contains path) staticPaths then Static "public, max-age=2592000"
    else match GetEnv "CSP" with
         | Some csp => Page html (Some csp) true
         | None => Page html None false
         end).

(** *** What goes into the page *)

Fixpoint count (a : ascii) (s : string) : nat :=
  match s with EmptyString => 0 | String b s => (if Ascii.eqb a b then 1 else 0) + count a s end.

Lemma count_app a s t : count a (s ++ t) = count a s + count a t.
Proof. induction s as [|b s IH]; simpl; [done|]. rewrite IH. lia. Qed.

Lemma Cut_app s sep : ∀ x y, Cut s sep = Some (x, y) → s = x ++ sep ++ y.
Proof.
  induction s as [|a s IH]; intros x y; cbn [Cut].
  - destruct (CutPrefix "" sep) eqn:E; [|done]. intros [= <- <-]. rewrite string_app_nil. by apply CutPrefix_spec.
  - destruct (CutPrefix (String a s) sep) eqn:E; [intros [= <- <-]; rewrite string_app_nil; by apply CutPrefix_spec|].
    destruct (Cut s sep) as [[b t]|]; [|done]. cbn. intros [= <- <-]. rewrite string_app_cons. f_equal. by apply IH.
Qed.

Lemma split_fuel_cons fuel s sep : ∃ x l, split_fuel fuel s sep = x :: l.
Proof. destruct fuel; simpl; [eauto|]. destruct (Cut s sep) as [[]|]; eauto. Qed.

(** Replacing one text without a character by another leaves the number of that character. *)
Lemma count_ReplaceAll a s old new :
  count a old = 0 → count a new = 0 → count a (ReplaceAll s old new) = count a s.
Proof.
  intros Ho Hn. unfold ReplaceAll, SplitBy. generalize (String.length s). intros fuel. revert s.
  induction fuel as [|fuel IH]; intros s; [done|]. cbn [split_fuel].
  destruct (Cut s old) as [[x y]|] eqn:E; [|done]. apply Cut_app in E as ->.
  destruct (split_fuel_cons fuel y old) as (z&l&El). specialize (IH y). rewrite El in *.
  change (Join (x :: z :: l) new) with (x ++ new ++ Join (z :: l) new).
  rewrite !count_app, Ho, Hn, IH. done.
Qed.

Lemma count_ReplaceFirst a s old new :
  count a old = 0 → count a new = 0 → count a (ReplaceFirst s old new) = count a s.
Proof.
  intros Ho Hn. unfold ReplaceFirst. destruct (Cut s old) as [[x y]|] eqn:E; [|done].
  apply Cut_app in E as ->. by rewrite !count_app, Ho, Hn.
Qed.

Lemma json_char_safe b : count "<" (json_char b) = 0 ∧ count ">" (json_char b) = 0 ∧ count "&" (json_char b) = 0.
Proof. destruct b as [[] [] [] [] [] [] [] []]; vm_compute; done. Qed.

Definition html_char (a : ascii) : Prop := a = "<"%char ∨ a = ">"%char ∨ a = "&"%char.

Lemma json_string_safe a s : html_char a → count a (json_string s) = 0.
Proof.
  intros Ha. assert (count a (json_chars s) = 0) as Hs.
  { induction s as [|b s IH]; [done|]. simpl. rewrite count_app, IH.
    destruct (json_char_safe b) as (?&?&?). destruct Ha as [->|[->| ->]]; lia. }
  unfold json_string. cbn [count]. rewrite count_app, Hs. destruct Ha as [->|[->| ->]]; reflexivity.
Qed.

(** The JSON text cannot end the script it is put into, whatever the URL of the hub is. *)
Lemma marshal_safe a info : html_char a → count a (marshal info) = 0.
Proof.
  intros Ha. unfold marshal. rewrite !count_app, !json_string_safe by done.
  destruct (OAUTH_DISABLE_POPUP info); rewrite ?count_app, ?json_string_safe by done;
    destruct Ha as [->|[->| ->]]; reflexivity.
Qed.

(** The page has the tags of the file it is made from. *)
Theorem page_tags html page info :
  getPublicAppInfo = Some info → count "<" (BASE_PATH info) = 0 →
  modifyIndexHTML html = Some page → count "<" page = count "<" html.
Proof.
  intros Hi Hb. unfold modifyIndexHTML. rewrite Hi. cbn. intros [= <-].
  rewrite count_ReplaceFirst; [by apply count_ReplaceAll|done|]. apply marshal_safe. by left.
Qed.

(** Every path is answered: assets from the files, everything else with the page, whose headers
    allow what [CSP] says and nothing else when it is set. *)
Lemma routes_answer index serve path :
  startServer index = Some serve →
  match serve path with
  | Static _ => ∃ p, p ∈ staticPaths ∧ Contains path p = true
  | Page html csp drop => modifyIndexHTML index = Some html ∧ csp = GetEnv "CSP" ∧ (drop = true ↔ csp ≠ None) ∧
                          ∀ p, p ∈ staticPaths → Contains path p = false
  end.
Proof.
  unfold startServer. destruct (modifyIndexHTML index) as [html|]; [|done]. intros Hs. injection Hs as <-. cbv beta.
  change (Contains path "/static/" || (Contains path "/assets/" || false)) with (existsb (Contains path) staticPaths).
  destruct (existsb (Contains path) staticPaths) eqn:E.
  - apply existsb_exists in E as (p&Hp&Hc). exists p. split; [by apply list_elem_of_In|done].
  - assert (∀ p, p ∈ staticPaths → Contains path p = false) as Hno.
    { intros p Hp%list_elem_of_In. apply not_true_is_false. intros Hc.
      assert (existsb (Contains path) staticPaths = true) by (apply existsb_exists; eauto). congruence. }
    by destruct (GetEnv "CSP").
Qed.
End pages.

(** ** The command [health] *)

Section health.
(** The status of a GET request within three seconds, [None] for an error. *)
Variable Get : string → option Z.

Definition checkHealth (baseURL : string) : bool :=
  match Get (baseURL ++ "/api/health") with Some status => Z.eqb status 200 | None => false end.

(** What the program does with its arguments: the short cut for the health check, or the commands
    ([StartHub]); [newHealthCmd] is the command that the short cut stands for. *)
Inductive main_result := Healthy (ok : bool) | Commands.

Definition main (args : list string) : main_result :=
  match args with
  | _ :: c :: _ :: url :: _ => if String.eqb c "health" then Healthy (checkHealth url) else Commands
  | _ => Commands
  end.

(** The command with its flag, as the library reads it. *)
Definition newHealthCmd (url : string) : main_result := Healthy (checkHealth url).

(** The short cut is the command for [health --url URL]. *)
Lemma health_shortcut program url : main [program; "health"; "--url"; url] = newHealthCmd url.
Proof. done. Qed.
End health.

(** ** Examples *)

Definition ex_path (u : string) : option string := if String.eqb u "https://h/</script>" then Some "/" else Some "/mon/".
Definition ex_env (k : string) : option string := None.
Definition ex_index : string :=
  "<link href='./static/icon.svg'><script>globalThis.B = " ++ info_mark ++ "</script>".

Lemma page_tags_witness :
  ∃ page, modifyIndexHTML ex_path ex_env "1.0.5" "https://h/</script>" ex_index = Some page ∧ count "<" page = 3.
Proof.
  eexists. split; [reflexivity|].
  rewrite (page_tags ex_path ex_env "1.0.5" "https://h/</script>" ex_index _
    {| BASE_PATH := "/"; HUB_VERSION := "1.0.5"; HUB_URL := "https://h/</script>"; OAUTH_DISABLE_POPUP := false |});
    reflexivity.
Defined.

(** Under a path, the assets of the page are found there. *)
Example page_under_path :
  option_map (λ page, HasPrefix page "<link href='/mon/static/icon.svg'>")
    (modifyIndexHTML ex_path ex_env "1.0.5" "https://h/mon/" ex_index) = Some true.
Proof. vm_compute. reflexivity. Qed.

(** The third argument is taken for the URL whatever the second is: with another flag before
    [--url] the hub that is asked is not the one that was named. *)
Example health_wrong_url :
  main (λ u, if String.eqb u "http://a/api/health" then Some 200%Z else None)
    ["bantay"; "health"; "--dir"; "/data"; "--url"; "http://a"] = Healthy false.
Proof. reflexivity. Qed.
End HubPages.
