(* ===== verification/CollectionRules.v ===== *)
(** * The rules of the collections ([internal/hub/collections.go])

    At start the hub sets who may read and write its collections, by rules that
    PocketBase evaluates for every request of its own API, and the ways users may sign in.

    The meaning of a rule is third-party code: [allows] is a parameter, and the theorem needs
    only that it reads a conjunction of the rules' four conditions as such. *)

From Stdlib Require Import Ascii.
From S2P Require Import Prelude GoStrings GoText HubAccess.
Import HubAccess.

Module CollectionRules.

(** What the code sets of a collection; a rule that is [None] is for superusers only. *)
Record Collection := {
  PasswordAuth_Enabled : bool; PasswordAuth_IdentityFields : list string;
  OTP_Length : Z; OTP_Enabled : bool; MFA_Enabled : bool;
  ListRule : option string; ViewRule : option string; CreateRule : option string;
  UpdateRule : option string; DeleteRule : option string }.

Record collectionRules := {
  list : option string; view : option string; create : option string;
  update : option string; delete : option string }.

Section rules.
(** Whether saving a collection succeeds. *)
Context (saved : string → bool).

Definition Save (d : gmap string Collection) (name : string) (c : Collection)
    : gmap string Collection * bool :=
  if saved name then (<[name := c]> d, true) else (d, false).

Definition with_rules (c : Collection) (r : collectionRules) : Collection := {|
  PasswordAuth_Enabled := PasswordAuth_Enabled c;
  PasswordAuth_IdentityFields := PasswordAuth_IdentityFields c;
  OTP_Length := OTP_Length c; OTP_Enabled := OTP_Enabled c; MFA_Enabled := MFA_Enabled c;
  ListRule := list r; ViewRule := view r; CreateRule := create r; UpdateRule := update r;
  DeleteRule := delete r |}.

Fixpoint applyCollectionRules (d : gmap string Collection) (collectionNames : Datatypes.list string)
    (rules : collectionRules) : gmap string Collection * bool :=
  match collectionNames with
  | [] => (d, true)
  | name :: names =>
      match d !! name with
      | None => (d, false)
      | Some c =>
          match Save d name (with_rules c rules) with
          | (d, true) => applyCollectionRules d names rules
          | r => r
          end
      end
  end.

(** The calls of [applyCollectionRules], each after the other has succeeded. *)
Fixpoint applyAll (d : gmap string Collection)
    (l : Datatypes.list (Datatypes.list string * collectionRules)) : gmap string Collection * bool :=
  match l with
  | [] => (d, true)
  | (names, rules) :: l =>
      match applyCollectionRules d names rules with
      | (d, true) => applyAll d l
      | r => r
      end
  end.

Definition authenticatedRule : string :=
  "@request.auth.id != " ++ String dquote (String dquote "").
Definition notReadonly : string :=
  "@request.auth.role != " ++ String dquote ("readonly" ++ String dquote "").
Definition systemsMemberRule : string := authenticatedRule ++ " && users.id ?= @request.auth.id".
Definition systemMemberRule : string :=
  authenticatedRule ++ " && system.users.id ?= @request.auth.id".

Definition systemsReadRule (share : bool) : string :=
  if share then authenticatedRule else systemsMemberRule.
Definition systemScopedReadRule (share : bool) : string :=
  if share then authenticatedRule else systemMemberRule.
Definition writeRule (read : string) : string := read ++ " && " ++ notReadonly.

Definition rule_calls (share : bool) : Datatypes.list (Datatypes.list string * collectionRules) :=
  let sr := Some (systemsReadRule share) in
  let sw := Some (writeRule (systemsReadRule share)) in
  let r := Some (systemScopedReadRule share) in
  let w := Some (writeRule (systemScopedReadRule share)) in
  [(["systems"], {| list := sr; view := sr; create := sw; update := sw; delete := sw |});
   (["containers"; "container_stats"; "system_stats"; "systemd_services"],
    {| list := r; view := None; create := None; update := None; delete := None |});
   (["smart_devices"], {| list := r; view := r; create := None; update := None; delete := w |});
   (["fingerprints"], {| list := r; view := r; create := w; update := w; delete := w |});
   (["system_details"], {| list := r; view := r; create := None; update := None; delete := None |})].

(** [setCollectionAuthSettings]; the boolean is [err == nil], and what was saved before an error
    stays. *)
Definition setCollectionAuthSettings (env : gmap string string) (d : gmap string Collection)
    : gmap string Collection * bool :=
  match d !! "users", d !! "_superusers" with
  | Some u, Some s =>
      let mfaOtp := getEnv env "MFA_OTP" in
      let all := String.eqb mfaOtp "true" in
      let supers := all || String.eqb mfaOtp "superusers" in
      let u := {|
        PasswordAuth_Enabled := negb (String.eqb (getEnv env "DISABLE_PASSWORD_AUTH") "true");
        PasswordAuth_IdentityFields := ["email"];
        OTP_Length := 6; OTP_Enabled := all; MFA_Enabled := all;
        ListRule := ListRule u; ViewRule := ViewRule u;
        CreateRule := if String.eqb (getEnv env "USER_CREATION") "true"
                      then Some "@request.context = 'oauth2'" else None;
        UpdateRule := UpdateRule u; DeleteRule := DeleteRule u |} in
      let s := {|
        PasswordAuth_Enabled := PasswordAuth_Enabled s;
        PasswordAuth_IdentityFields := PasswordAuth_IdentityFields s;
        OTP_Length := 6; OTP_Enabled := supers; MFA_Enabled := supers;
        ListRule := ListRule s; ViewRule := ViewRule s; CreateRule := CreateRule s;
        UpdateRule := UpdateRule s; DeleteRule := DeleteRule s |} in
      match Save d "_superusers" s with
      | (d, true) =>
          match Save d "users" u with
          | (d, true) => applyAll d (rule_calls (String.eqb (getEnv env "SHARE_ALL_SYSTEMS") "true"))
          | r => r
          end
      | r => r
      end
  | _, _ => (d, false)
  end.

(** ** Lemmas *)

Definition has_rules (c : Collection) (r : collectionRules) : Prop :=
  ListRule c = list r ∧ ViewRule c = view r ∧ CreateRule c = create r ∧ UpdateRule c = update r ∧
  DeleteRule c = delete r.

Lemma applyCollectionRules_spec names rules : ∀ d d',
  applyCollectionRules d names rules = (d', true) →
  (∀ name, name ∈ names → ∃ c, d' !! name = Some c ∧ has_rules c rules) ∧
  (∀ name, name ∉ names → d' !! name = d !! name).
Proof using Type.
  induction names as [|n names IH]; intros d d'; cbn [applyCollectionRules].
  { intros [= <-]. split; [intros n Hn; by apply elem_of_nil in Hn|done]. }
  destruct (d !! n) as [c|] eqn:Hn; [|done]. unfold Save. destruct (saved n); [|done].
  intros H. destruct (IH _ _ H) as [Hin Hout]. split.
  - intros name Hname. destruct (decide (name ∈ names)) as [?|Hno]; [by apply Hin|].
    apply elem_of_cons in Hname as [->|?]; [|done]. exists (with_rules c rules).
    by rewrite (Hout _ Hno), lookup_insert_eq.
  - intros name [Hne Hno]%not_elem_of_cons. by rewrite (Hout _ Hno), lookup_insert_ne.
Qed.

(** After the calls each collection has the rules of its call, when no two calls name one. *)
Lemma applyAll_spec l : ∀ d d',
  NoDup (mjoin l.*1) → applyAll d l = (d', true) →
  (∀ names rules name, (names, rules) ∈ l → name ∈ names →
     ∃ c, d' !! name = Some c ∧ has_rules c rules) ∧
  (∀ name, name ∉ mjoin l.*1 → d' !! name = d !! name).
Proof using Type.
  induction l as [|[ns rs] l IH]; intros d d' Hnd; cbn [applyAll].
  { intros [= <-]. split; [intros ??? H; by apply elem_of_nil in H|done]. }
  destruct (applyCollectionRules d ns rs) as [d1 []] eqn:H1; [|done]. intros H2.
  apply applyCollectionRules_spec in H1 as [Hin1 Hout1]. simpl in Hnd.
  apply NoDup_app in Hnd as (Hns&Hdis&Hl). destruct (IH _ _ Hl H2) as [Hin2 Hout2]. split.
  - intros names rules name [[= -> ->]|Hl']%elem_of_cons Hname; [|by eapply Hin2].
    rewrite (Hout2 name) by (by apply Hdis). by apply Hin1.
  - intros name Hno. simpl in Hno. apply not_elem_of_app in Hno as [? ?].
    by rewrite Hout2, Hout1.
Qed.

(** ** What the rules allow *)

Inductive operation := List | View | Create | Update | Delete.
Definition rule_of (op : operation) (c : Collection) : option string :=
  match op with
  | List => ListRule c | View => ViewRule c | Create => CreateRule c
  | Update => UpdateRule c | Delete => DeleteRule c
  end.
Definition writes (op : operation) : bool :=
  match op with List | View => false | _ => true end.

(** A request to a collection: the account, and whether it is a user of the record's system. *)
Record rule_request := { q_auth : option AuthRecord; q_member : bool }.

(** The conditions, and what they mean. *)
Inductive condition := Authenticated | UserOfRecord | UserOfSystem | NotReadonly.
Definition condition_text (a : condition) : string :=
  match a with
  | Authenticated => authenticatedRule
  | UserOfRecord => "users.id ?= @request.auth.id"
  | UserOfSystem => "system.users.id ?= @request.auth.id"
  | NotReadonly => notReadonly
  end.
Definition holds (q : rule_request) (a : condition) : Prop :=
  match a with
  | Authenticated => is_Some (q_auth q)
  | UserOfRecord | UserOfSystem => q_member q = true
  | NotReadonly => from_option auth_role "" (q_auth q) ≠ "readonly"
  end.

(** A rule that joins conditions allows what all of them allow. *)
Definition reads_conjunctions (allows : string → rule_request → Prop) : Prop :=
  ∀ (l : Datatypes.list condition) q, l ≠ [] →
    allows (Join (condition_text <$> l) " && ") q ↔ Forall (holds q) l.

(** The rules as lists of conditions. *)
Definition conditions (share : bool) (member : condition) (op : operation) : Datatypes.list condition :=
  [Authenticated] ++ (if share then [] else [member]) ++ (if writes op then [NotReadonly] else []).

Definition guarded_collections : Datatypes.list string :=
  ["systems"; "containers"; "container_stats"; "system_stats"; "systemd_services"; "smart_devices";
   "fingerprints"; "system_details"].

(** Every rule that is set is the text of its conditions. *)
Lemma rules_text share name names rules c op r :
  (names, rules) ∈ rule_calls share → name ∈ names → has_rules c rules → rule_of op c = Some r →
  ∃ member, member ≠ NotReadonly ∧ member ≠ Authenticated ∧
    r = Join (condition_text <$> conditions share member op) " && ".
Proof using Type.
  clear. intros Hin _ (H1&H2&H3&H4&H5) Hr. unfold rule_calls in Hin.
  repeat (apply elem_of_cons in Hin as [E|Hin]; [injection E as -> ->|]);
    [..|by apply elem_of_nil in Hin];
    (destruct op; simpl in Hr; simpl in H1, H2, H3, H4, H5;
     [rewrite H1 in Hr|rewrite H2 in Hr|rewrite H3 in Hr|rewrite H4 in Hr|rewrite H5 in Hr];
     try done; injection Hr as <-).
  all: destruct share;
    first [exists UserOfRecord; split_and!; [done|done|by vm_compute]
          |exists UserOfSystem; split_and!; [done|done|by vm_compute]].
Qed.

Lemma rule_calls_names share : mjoin (rule_calls share).*1 = guarded_collections.
Proof using Type. clear. by destruct share. Qed.

(** What a successful call leaves: the rules of the calls on the guarded collections, the other
    collections as they were, and of [users] all rules but that for creation. *)
Lemma settings_spec env d d' :
  setCollectionAuthSettings env d = (d', true) →
  (∀ name, name ∈ guarded_collections → ∃ names rules c,
     (names, rules) ∈ rule_calls (String.eqb (getEnv env "SHARE_ALL_SYSTEMS") "true") ∧
     name ∈ names ∧ d' !! name = Some c ∧ has_rules c rules) ∧
  (∀ name, name ∉ guarded_collections → name ≠ "users" → name ≠ "_superusers" →
     d' !! name = d !! name) ∧
  ∃ u u', d !! "users" = Some u ∧ d' !! "users" = Some u' ∧
    has_rules u' {| list := ListRule u; view := ViewRule u;
      create := if String.eqb (getEnv env "USER_CREATION") "true"
                then Some "@request.context = 'oauth2'" else None;
      update := UpdateRule u; delete := DeleteRule u |}.
Proof using Type.
  unfold setCollectionAuthSettings.
  destruct (d !! "users") as [u|]; [|done]. destruct (d !! "_superusers") as [s|]; [|done].
  unfold Save. destruct (saved "_superusers"); [|done]. destruct (saved "users"); [|done].
  set (share := String.eqb (getEnv env "SHARE_ALL_SYSTEMS") "true"). intros Happ.
  apply applyAll_spec in Happ as [Hin Hout];
    [|rewrite rule_calls_names; by apply (bool_decide_unpack _)].
  rewrite rule_calls_names in Hout. split_and!.
  - intros name Hname. rewrite <- (rule_calls_names share) in Hname.
    apply list_elem_of_join in Hname as (names&Hname&([ns rules]&->&Hcall)%list_elem_of_fmap).
    destruct (Hin _ _ _ Hcall Hname) as (c&Hc&Hrules). by exists ns, rules, c.
  - intros name Hno H1 H2. by rewrite (Hout _ Hno), !lookup_insert_ne.
  - eexists u, _. split_and!; [done| |].
    + rewrite Hout by (apply (bool_decide_eq_false_1 _); by vm_compute). by rewrite lookup_insert_eq.
    + done.
Qed.

(** Every rule of the collections of systems and their data lets only signed-in users through,
    only users of the record's system unless all systems are shared, and for writes only users
    that are not read-only. *)
Lemma guarded_rules allows env d d' name :
  reads_conjunctions allows → setCollectionAuthSettings env d = (d', true) →
  name ∈ guarded_collections → ∃ c, d' !! name = Some c ∧
    ∀ op r q, rule_of op c = Some r → allows r q →
      is_Some (q_auth q) ∧
      (getEnv env "SHARE_ALL_SYSTEMS" ≠ "true" → q_member q = true) ∧
      (writes op = true → from_option auth_role "" (q_auth q) ≠ "readonly").
Proof using Type.
  intros Hal (Hin&_&_)%settings_spec Hname.
  destruct (Hin name Hname) as (ns&rules&c&Hcall&Hns&Hc&Hrules). exists c. split; [done|].
  set (share := String.eqb _ _) in *. intros op r q Hr Ha.
  destruct (rules_text share name ns rules c op r Hcall Hns Hrules Hr) as (m&Hm1&Hm2&->).
  apply Hal in Ha; [|by unfold conditions]. unfold conditions in Ha.
  apply Forall_app in Ha as [H1%Forall_inv [H2 H3]%Forall_app]. split_and!; [exact H1|..].
  - intros Hs. unfold share in H2. rewrite (proj2 (String.eqb_neq _ _) Hs) in H2.
    apply Forall_inv in H2. by destruct m.
  - intros Hw. rewrite Hw in H3. by apply Forall_inv in H3.
Qed.
End rules.

(** ** A concrete hub *)

Definition blank : Collection := {|
  PasswordAuth_Enabled := true; PasswordAuth_IdentityFields := []; OTP_Length := 8;
  OTP_Enabled := false; MFA_Enabled := false; ListRule := None; ViewRule := None;
  CreateRule := None; UpdateRule := None; DeleteRule := None |}.
Definition collections : gmap string Collection :=
  list_to_map ((λ n, (n, blank)) <$> "users" :: "_superusers" :: guarded_collections).

(** A reading of rules: as the conditions whose texts they join. *)
Definition allows_text (r : string) (q : rule_request) : Prop :=
  ∃ l, l ≠ [] ∧ Join (condition_text <$> l) " && " = r ∧ Forall (holds q) l.

Lemma condition_text_inj a a' r r' :
  (condition_text a ++ r)%string = (condition_text a' ++ r')%string → a = a' ∧ r = r'.
Proof.
  intros E. assert (a = a') as <-.
  { destruct a, a'; try done; unfold condition_text, authenticatedRule, notReadonly in E;
      rewrite ?string_app_assoc, !string_app_cons in E; discriminate E. }
  split; [done|]. by apply string_app_inv_l in E.
Qed.

(** Texts none of which begins another are recovered from what joins them. *)
Lemma Join_inj {A} (text : A → string) (l l' : Datatypes.list A) :
  (∀ a a' r r', (text a ++ r)%string = (text a' ++ r')%string → a = a' ∧ r = r') →
  l ≠ [] → l' ≠ [] → Join (text <$> l) " && " = Join (text <$> l') " && " → l = l'.
Proof.
  intros Hinj. revert l'. induction l as [|a l IH]; intros l' Hl Hl'; [done|].
  assert (∀ x y l, Join (x :: y :: l) " && " = (x ++ " && " ++ Join (y :: l) " && ")%string)
    as Hcons by done.
  destruct l' as [|a' l']; [done|]. destruct l as [|b l], l' as [|b' l'];
    rewrite ?fmap_cons, ?Hcons; simpl fmap; cbn [Join]; intros E.
  - rewrite <- (string_app_nil_r (text a)), <- (string_app_nil_r (text a')) in E.
    by apply Hinj in E as [-> _].
  - rewrite <- (string_app_nil_r (text a)) in E. apply Hinj in E as [_ E]. done.
  - rewrite <- (string_app_nil_r (text a')) in E. apply Hinj in E as [_ E]. done.
  - apply Hinj in E as [-> E]. apply string_app_inv_l in E. f_equal. by apply IH.
Qed.

Lemma allows_text_reads : reads_conjunctions allows_text.
Proof.
  intros l q Hl. unfold allows_text. split.
  - intros (l'&Hl'&E&H). by apply (Join_inj _ _ _ condition_text_inj) in E as ->.
  - intros H. by exists l.
Qed.

Definition after_start : gmap string Collection :=
  (setCollectionAuthSettings (λ _, true) ∅ collections).1.

Lemma after_start_ok : setCollectionAuthSettings (λ _, true) ∅ collections = (after_start, true).
Proof.
  unfold after_start. rewrite (surjective_pairing (setCollectionAuthSettings _ _ _)) at 1.
  by f_equal.
Qed.

Example rules_ex :
  UpdateRule <$> after_start !! "systems" =
    Some (Some (Join [authenticatedRule; "users.id ?= @request.auth.id"; notReadonly] " && ")) ∧
  DeleteRule <$> after_start !! "containers" = Some None.
Proof. by vm_compute. Qed.

(** An error leaves the collections that were saved with their new rules and the others with
    the old ones. *)
Example partial_start :
  let d := (setCollectionAuthSettings (λ n, negb (String.eqb n "smart_devices")) ∅ collections).1 in
  (ListRule <$> d !! "containers", ListRule <$> d !! "fingerprints") =
  (Some (Some systemMemberRule), Some None).
Proof. by vm_compute. Qed.
End CollectionRules.
