(* ===== verification/AdminUsers.v ===== *)
(** * Accounts ([internal/hub/admin.go], [internal/users/users.go])

    Administrators manage the users of the hub through handlers of its API; the first user is
    created without one, while the hub has no users.

    [net/mail]'s parser and the collections are behind parameters and [UsersDB]; the hook that
    gives new users a role runs in the creation of a record, where the hub binds it. *)

From Stdlib Require Import Ascii.
From S2P Require Import Prelude GoStrings GoText.

(** What the code reads and sets of a record of [users]. *)
Record User := mkUser {
  u_id : string; u_email : string; u_name : string; u_role : string; u_verified : bool;
  u_password : string; u_created : string }.

(** The error of a save: messages by field, or another error. *)
Inductive save_error := ValidationErrors (m : gmap string string) | OtherError (msg : string).

Class UsersDB (DB : Type) := {
  users : DB → gmap string User;
  superusers : DB → gmap string string;            (* e-mail addresses by id *)
  listUsersRows : DB → option (list User);
  countUsers : DB → option Z;
  findUser : DB → string → option User;
  adminRows : DB → option (list User);             (* those with the role admin *)
  updateRow : DB → User → DB + save_error;
  insertRow : DB → User → (DB * User) + save_error; (* the id and the date are set *)
  removeRow : DB → string → option DB;
  superuserRows : DB → option (list (string * string));
  insertSuperuser : DB → string → string → DB + save_error;
  removeSuperuser : DB → string → option DB;
}.

Definition same_but_id (u u' : User) : Prop :=
  u_email u' = u_email u ∧ u_name u' = u_name u ∧ u_role u' = u_role u ∧
  u_verified u' = u_verified u ∧ u_password u' = u_password u.

Class UsersDBLaws (DB : Type) `{UsersDB DB} := {
  users_key : ∀ d id u, users d !! id = Some u → u_id u = id;
  listUsersRows_spec : ∀ d l, listUsersRows d = Some l →
    NoDup (u_id <$> l) ∧ ∀ u, u ∈ l ↔ users d !! u_id u = Some u;
  countUsers_spec : ∀ d n, countUsers d = Some n → n = Z.of_nat (size (users d));
  findUser_spec : ∀ d id u, findUser d id = Some u → users d !! id = Some u;
  adminRows_spec : ∀ d l, adminRows d = Some l →
    NoDup (u_id <$> l) ∧ ∀ u, u ∈ l ↔ users d !! u_id u = Some u ∧ u_role u = "admin";
  updateRow_spec : ∀ d u d', updateRow d u = inl d' →
    users d' = <[u_id u := u]> (users d) ∧ superusers d' = superusers d;
  insertRow_spec : ∀ d u d' u', insertRow d u = inl (d', u') →
    users d !! u_id u' = None ∧ same_but_id u u' ∧ users d' = <[u_id u' := u']> (users d) ∧
    superusers d' = superusers d;
  removeRow_spec : ∀ d id d', removeRow d id = Some d' →
    users d' = delete id (users d) ∧ superusers d' = superusers d;
  superuserRows_spec : ∀ d l, superuserRows d = Some l → l ≡ₚ map_to_list (superusers d);
  insertSuperuser_spec : ∀ d em pw d', insertSuperuser d em pw = inl d' →
    users d' = users d ∧ ∃ id, superusers d !! id = None ∧ superusers d' = <[id := em]> (superusers d);
  removeSuperuser_spec : ∀ d id d', removeSuperuser d id = Some d' →
    users d' = users d ∧ superusers d' = delete id (superusers d);
}.

Module AdminUsers.

Inductive response :=
  | BadRequest (msg : string) | NotFound (msg : string) | InternalServerError (msg : string)
  | Forbidden (msg : string) | NoContent | Items (l : list User) | Account (u : User)
  | Status (key value : string).

(** Whether the request was carried out. *)
Definition success (r : response) : bool :=
  match r with NoContent | Items _ | Account _ | Status _ _ => true | _ => false end.

(** ** Messages *)

Definition email_taken (emsg : string) : bool :=
  Contains emsg "already" || Contains emsg "duplicate" || Contains emsg "exists" ||
  Contains emsg "unique".

(** The fields in order; [inr] is the early return. *)
Fixpoint field_messages (m : gmap string string) (fields : list string) : list string + string :=
  match fields with
  | [] => inl []
  | f :: fields =>
      let fe := default "" (m !! f) in
      if String.eqb f "email" && email_taken (ToLower fe)
      then inr "A user with that email already exists."
      else match field_messages m fields with
           | inl parts => inl ((f ++ ": " ++ fe)%string :: parts)
           | r => r
           end
  end.

Definition str_le (a b : string) : Prop := Is_true (String.leb a b).
#[export] Instance str_le_dec : RelDecision str_le.
Proof. intros a b. apply _. Defined.

(** [formatSaveError] of an error that is not nil. *)
Definition formatSaveError {RO : RangeOrder string} (err : save_error) (fallback : string) : string :=
  match err with
  | ValidationErrors m =>
      if (size m =? 0)%nat then fallback
      else match field_messages m (merge_sort str_le (range_list m).*1) with
           | inl parts => Join parts "; "
           | inr msg => msg
           end
  | OtherError e =>
      let msg := TrimSpace e in if String.eqb msg "" then fallback else msg
  end.

(** ** Handlers *)

Record createUserRequest := { c_email : string; c_password : string; c_name : string; c_role : string }.
(** A field that is not in the body is [None]. *)
Record updateUserRequest := {
  r_email : option string; r_name : option string; r_role : option string;
  r_password : option string; r_verified : option bool }.

Section handlers.
Context {DB : Type} {UDB : UsersDB DB} {UDBL : UsersDBLaws DB} {RO : RangeOrder string}.
(** [mail.ParseAddress] accepts the text. *)
Context (ParseAddress : string → bool).

(** The hook on the creation of users. *)
Definition InitializeUserRole (u : User) : User :=
  mkUser (u_id u) (u_email u) (u_name u) (if String.eqb (u_role u) "" then "user" else u_role u)
    (u_verified u) (u_password u) (u_created u).

(** The settings of a new user: [chartTime] is what the record gives, [email] that of the account,
    [None] when it is not found.  Nothing else of the record's settings is kept. *)
Record UserSettings := { ChartTime : string; Emails : list string }.
Definition InitializeUserSettings (chartTime email : option string) : option UserSettings :=
  em ← email; Some {| ChartTime := default "1h" chartTime; Emails := [em] |}.

Definition create_record (d : DB) (u : User) : (DB * User) + save_error :=
  insertRow d (InitializeUserRole u).

Definition listUsers (d : DB) : response :=
  match listUsersRows d with
  | None => InternalServerError "Failed to list users."
  | Some l => Items l
  end.

Definition createUser (body : option createUserRequest) (d : DB) : DB * response :=
  match body with
  | None => (d, BadRequest "Invalid request body.")
  | Some req =>
      let email := TrimSpace (c_email req) in
      if String.eqb email "" || String.eqb (c_password req) ""
      then (d, BadRequest "Email and password are required.")
      else if negb (ParseAddress email) then (d, BadRequest "Invalid email address.")
      else if (String.length (c_password req) <? 8)%nat
      then (d, BadRequest "Password must be at least 8 characters.")
      else
        let role := if negb (String.eqb (c_role req) "admin") && negb (String.eqb (c_role req) "readonly")
                    then "" else c_role req in
        match create_record d (mkUser "" email (c_name req) role true (c_password req) "") with
        | inl (d', rec) => (d', Account rec)
        | inr err => (d, BadRequest (formatSaveError err "Failed to create user."))
        end
  end.

Definition countAdmins (d : DB) : option Z := (λ l, Z.of_nat (List.length l)) <$> adminRows d.

(** The guard of the last administrator; a count that fails does not hold anything up. *)
Definition last_admin (d : DB) : bool :=
  match countAdmins d with Some n => (n <=? 1)%Z | None => false end.

(** The steps of [updateUser] on the record, each with its own refusal. *)
Definition set_email (req : updateUserRequest) (rec : User) : User + response :=
  match r_email req with
  | None => inl rec
  | Some em =>
      let em := TrimSpace em in
      if negb (ParseAddress em) then inr (BadRequest "Invalid email address.")
      else inl (mkUser (u_id rec) em (u_name rec) (u_role rec) (u_verified rec) (u_password rec)
                  (u_created rec))
  end.
Definition set_name (req : updateUserRequest) (rec : User) : User :=
  match r_name req with
  | None => rec
  | Some n => mkUser (u_id rec) (u_email rec) (TrimSpace n) (u_role rec) (u_verified rec)
                (u_password rec) (u_created rec)
  end.
Definition set_role (actor id : string) (d : DB) (req : updateUserRequest) (rec : User)
    : User + response :=
  match r_role req with
  | None => inl rec
  | Some role =>
      if negb (String.eqb role "admin") && negb (String.eqb role "readonly") && negb (String.eqb role "")
      then inr (BadRequest "Role must be admin, readonly, or empty.")
      else if String.eqb id actor && negb (String.eqb role (u_role rec))
      then inr (BadRequest "You cannot change your own role. Ask another admin.")
      else if String.eqb (u_role rec) "admin" && negb (String.eqb role "admin") && last_admin d
      then inr (BadRequest "Cannot demote the last remaining admin.")
      else inl (mkUser (u_id rec) (u_email rec) (u_name rec) role (u_verified rec) (u_password rec)
                  (u_created rec))
  end.
Definition set_verified (req : updateUserRequest) (rec : User) : User :=
  match r_verified req with
  | None => rec
  | Some v => mkUser (u_id rec) (u_email rec) (u_name rec) (u_role rec) v (u_password rec)
                (u_created rec)
  end.
Definition set_password (req : updateUserRequest) (rec : User) : User + response :=
  match r_password req with
  | None => inl rec
  | Some pw =>
      if String.eqb pw "" then inl rec
      else if (String.length pw <? 8)%nat
      then inr (BadRequest "Password must be at least 8 characters.")
      else inl (mkUser (u_id rec) (u_email rec) (u_name rec) (u_role rec) (u_verified rec) pw
                  (u_created rec))
  end.

(** The record as it is to be saved. *)
Definition edit (actor id : string) (d : DB) (req : updateUserRequest) (rec : User) : User + response :=
  match set_email req rec with
  | inr r => inr r
  | inl rec =>
      match set_role actor id d req (set_name req rec) with
      | inr r => inr r
      | inl rec => set_password req (set_verified req rec)
      end
  end.

(** [actor] is [e.Auth.Id]. *)
Definition updateUser (actor id : string) (body : option updateUserRequest) (d : DB) : DB * response :=
  if String.eqb id "" then (d, BadRequest "Missing user id.")
  else match findUser d id with
       | None => (d, NotFound "User not found.")
       | Some rec =>
           match body with
           | None => (d, BadRequest "Invalid request body.")
           | Some req =>
               match edit actor id d req rec with
               | inr r => (d, r)
               | inl rec =>
                   match updateRow d rec with
                   | inr err => (d, BadRequest (formatSaveError err "Failed to update user."))
                   | inl d' => (d', Account rec)
                   end
               end
           end
       end.

(** [deleteUser] up to the deletion, and the deletion. *)
Definition delete_check (actor id : string) (d : DB) : option response :=
  if String.eqb id "" then Some (BadRequest "Missing user id.")
  else if String.eqb id actor then Some (BadRequest "You cannot delete your own account.")
  else match findUser d id with
       | None => Some (NotFound "User not found.")
       | Some rec =>
           if String.eqb (u_role rec) "admin" && last_admin d
           then Some (BadRequest "Cannot delete the last remaining admin.") else None
       end.
Definition delete_write (id : string) (d : DB) : DB * response :=
  match removeRow d id with
  | None => (d, InternalServerError "Failed to delete user.")
  | Some d' => (d', NoContent)
  end.
Definition deleteUser (actor id : string) (d : DB) : DB * response :=
  match delete_check actor id d with
  | Some r => (d, r)
  | None => delete_write id d
  end.

(** [sent] is the outcome of the mail. *)
Definition sendUserPasswordReset (id : string) (sent : bool) (d : DB) : response :=
  match findUser d id with
  | None => NotFound "User not found."
  | Some _ =>
      if sent then Status "status" "sent"
      else InternalServerError "Failed to send password reset email. Check SMTP settings."
  end.

(** ** The first user *)

Definition TempAdminEmail : string := "_@b.b".

(** [CreateFirstUser]; the body is an address and a password. *)
Definition CreateFirstUser (body : option (string * string)) (d : DB) : DB * response :=
  match countUsers d with
  | Some n => if (0 <? n)%Z then (d, Forbidden "Forbidden") else
      match superuserRows d with
      | Some [(tmp, em)] =>
          if negb (String.eqb em TempAdminEmail) then (d, Forbidden "Forbidden")
          else match body with
          | None => (d, BadRequest "error")
          | Some (email, password) =>
              if String.eqb email "" || String.eqb password "" then (d, BadRequest "Bad request")
              else match create_record d (mkUser "" email "" "admin" true password "") with
              | inr err => (d, InternalServerError "error")
              | inl (d, _) =>
                  match insertSuperuser d email password with
                  | inr err => (d, InternalServerError "error")
                  | inl d =>
                      match removeSuperuser d tmp with
                      | None => (d, InternalServerError "error")
                      | Some d => (d, Status "msg" "User created")
                      end
                  end
              end
          end
      | _ => (d, Forbidden "Forbidden")
      end
  | None => (d, Forbidden "Forbidden")
  end.

(** ** Lemmas *)

Definition role_ok (actor id : string) (d : DB) (old role : string) : Prop :=
  role ∈ ["admin"; "readonly"; ""] ∧ (id = actor → role = old) ∧
  (old = "admin" → role ≠ "admin" → last_admin d = false).

Definition new_password (req : updateUserRequest) (old : string) : string :=
  match r_password req with Some pw => if String.eqb pw "" then old else pw | None => old end.

(** What an edit may change; a field that is not requested stays. *)
Definition edited (req : updateUserRequest) (rec rec' : User) : Prop :=
  u_id rec' = u_id rec ∧ u_created rec' = u_created rec ∧
  u_email rec' = from_option TrimSpace (u_email rec) (r_email req) ∧
  u_name rec' = from_option TrimSpace (u_name rec) (r_name req) ∧
  u_role rec' = default (u_role rec) (r_role req) ∧
  u_verified rec' = default (u_verified rec) (r_verified req) ∧
  u_password rec' = new_password req (u_password rec).

(** What the request must satisfy. *)
Definition acceptable (actor id : string) (d : DB) (req : updateUserRequest) (rec : User) : Prop :=
  (∀ em, r_email req = Some em → ParseAddress (TrimSpace em) = true) ∧
  (∀ role, r_role req = Some role → role_ok actor id d (u_role rec) role) ∧
  (∀ pw, r_password req = Some pw → pw = "" ∨ (8 ≤ String.length pw)%nat).

Lemma set_email_spec req rec rec' :
  set_email req rec = inl rec' →
  rec' = mkUser (u_id rec) (from_option TrimSpace (u_email rec) (r_email req)) (u_name rec)
           (u_role rec) (u_verified rec) (u_password rec) (u_created rec) ∧
  ∀ em, r_email req = Some em → ParseAddress (TrimSpace em) = true.
Proof using Type.
  clear UDB UDBL RO. unfold set_email.
  destruct (r_email req) as [em|]; [|intros [= <-]; by destruct rec].
  destruct (ParseAddress (TrimSpace em)) eqn:Hp; simpl; [|done]. intros [= <-].
  split; [done|]. by intros ? [= <-].
Qed.

Lemma set_role_spec actor id d req rec rec' :
  set_role actor id d req rec = inl rec' →
  rec' = mkUser (u_id rec) (u_email rec) (u_name rec) (default (u_role rec) (r_role req))
           (u_verified rec) (u_password rec) (u_created rec) ∧
  ∀ role, r_role req = Some role → role_ok actor id d (u_role rec) role.
Proof using Type.
  clear UDBL RO ParseAddress. unfold set_role, role_ok.
  destruct (r_role req) as [role|]; [|intros [= <-]; by destruct rec].
  destruct (negb _ && negb _ && negb _) eqn:Hr; [done|].
  destruct (String.eqb id actor && _) eqn:Hself; [done|].
  destruct (String.eqb (u_role rec) "admin" && _ && _) eqn:Hlast; [done|]. intros [= <-].
  split; [done|]. intros ? [= <-]. split_and!.
  - rewrite !elem_of_cons. destruct (String.eqb_spec role "admin"); [by left|].
    destruct (String.eqb_spec role "readonly"); [by right; left|].
    destruct (String.eqb_spec role ""); [by right; right; left|done].
  - intros ->. rewrite String.eqb_refl in Hself. simpl in Hself.
    by apply negb_false_iff, String.eqb_eq in Hself.
  - intros Ho Hne. rewrite Ho, (proj2 (String.eqb_neq _ _) Hne) in Hlast. exact Hlast.
Qed.

Lemma set_password_spec req rec rec' :
  set_password req rec = inl rec' →
  rec' = mkUser (u_id rec) (u_email rec) (u_name rec) (u_role rec) (u_verified rec)
           (new_password req (u_password rec)) (u_created rec) ∧
  ∀ pw, r_password req = Some pw → pw = "" ∨ (8 ≤ String.length pw)%nat.
Proof using Type.
  clear. unfold set_password, new_password.
  destruct (r_password req) as [pw|]; [|intros [= <-]; by destruct rec].
  destruct (String.eqb_spec pw "") as [->|Hne].
  - intros [= <-]. split; [by destruct rec|]. intros ? [= <-]. by left.
  - destruct (Nat.ltb_spec (String.length pw) 8); [done|]. intros [= <-]. split; [done|].
    intros ? [= <-]. by right.
Qed.

Lemma set_name_eq req rec :
  set_name req rec = mkUser (u_id rec) (u_email rec) (from_option TrimSpace (u_name rec) (r_name req))
    (u_role rec) (u_verified rec) (u_password rec) (u_created rec).
Proof using Type. clear. unfold set_name. destruct (r_name req); by destruct rec. Qed.
Lemma set_verified_eq req rec :
  set_verified req rec = mkUser (u_id rec) (u_email rec) (u_name rec) (u_role rec)
    (default (u_verified rec) (r_verified req)) (u_password rec) (u_created rec).
Proof using Type. clear. unfold set_verified. destruct (r_verified req); by destruct rec. Qed.

Lemma edit_spec actor id d req rec rec' :
  edit actor id d req rec = inl rec' → edited req rec rec' ∧ acceptable actor id d req rec.
Proof using Type.
  clear UDBL RO. unfold edit. destruct (set_email req rec) as [rec1|] eqn:H1; [|done].
  destruct (set_role actor id d req (set_name req rec1)) as [rec2|] eqn:H2; [|done]. intros H3.
  apply set_email_spec in H1 as [-> He]. apply set_role_spec in H2 as [-> Hr].
  apply set_password_spec in H3 as [-> Hp]. rewrite set_name_eq in Hr. split; [|done].
  rewrite set_verified_eq, set_name_eq. split_and!; reflexivity.
Qed.

(** ** Properties *)

Lemma updateUser_spec actor id body d d' r :
  updateUser actor id body d = (d', r) →
  if success r then
    ∃ rec rec' req, body = Some req ∧ users d !! id = Some rec ∧ r = Account rec' ∧
      edited req rec rec' ∧ acceptable actor id d req rec ∧ users d' = <[id := rec']> (users d)
  else d' = d.
Proof using UDBL.
  unfold updateUser. destruct (String.eqb id ""); [by intros [= <- <-]|].
  destruct (findUser d id) as [rec|] eqn:Hf; [|by intros [= <- <-]].
  destruct body as [req|]; [|by intros [= <- <-]]. apply findUser_spec in Hf.
  destruct (edit actor id d req rec) as [rec'|] eqn:He.
  - apply edit_spec in He as [He Ha]. destruct (updateRow d rec') as [d1|] eqn:Hs;
      intros [= <- <-]; [|done]. simpl. exists rec, rec', req. split_and!; try done.
    apply updateRow_spec in Hs as [-> _]. f_equal. destruct He as [-> _]. by eapply users_key.
  - intros [= <- <-]. assert (success r0 = false) as ->; [|done]. clear -He.
    unfold edit, set_email, set_role, set_password in He.
    repeat case_match; simplify_eq; done.
Qed.

(** An edit changes exactly the fields that are requested, of the account named, and only
    when the address, the role and the password are acceptable; nobody changes their own role.
    A request that is refused changes nothing. *)
Theorem updateUser_exact actor id body d d' r :
  updateUser actor id body d = (d', r) →
  if success r then
    ∃ rec rec' req, body = Some req ∧ users d !! id = Some rec ∧ r = Account rec' ∧
      edited req rec rec' ∧ acceptable actor id d req rec ∧ users d' = <[id := rec']> (users d)
  else d' = d.
Proof using UDBL. apply updateUser_spec. Qed.

(** *** Administrators *)

Definition is_admin (d : DB) (id : string) : Prop :=
  ∃ u, users d !! id = Some u ∧ u_role u = "admin".

(** A request about accounts, as an administrator makes it. *)
Inductive account_request :=
  | RCreate (body : option createUserRequest)
  | RUpdate (id : string) (body : option updateUserRequest)
  | RDelete (id : string).

Definition run_request (actor : string) (q : account_request) (d : DB) : DB * response :=
  match q with
  | RCreate body => createUser body d
  | RUpdate id body => updateUser actor id body d
  | RDelete id => deleteUser actor id d
  end.

Inductive admin_step : DB → DB → Prop :=
  | admin_step_intro d actor q : is_admin d actor → admin_step d (run_request actor q d).1.

Lemma createUser_admin body d id : is_admin d id → is_admin (createUser body d).1 id.
Proof using UDBL.
  intros (u&Hu&Hr). unfold createUser, create_record. repeat case_match; simpl; try (by exists u).
  all: match goal with H : insertRow _ _ = _ |- _ => apply insertRow_spec in H as (Hn&_&E&_) end;
    exists u; rewrite E, lookup_insert_ne by congruence; done.
Qed.

(** Whoever makes a request is still an administrator after it. *)
Lemma actor_stays_admin actor q d : is_admin d actor → is_admin (run_request actor q d).1 actor.
Proof using UDBL.
  intros Had. pose proof Had as (u&Hu&Hr). destruct q as [body|id body|id]; simpl.
  - by apply createUser_admin.
  - destruct (updateUser actor id body d) as [d' r] eqn:E. simpl.
    apply updateUser_spec in E. destruct (success r); [|by subst].
    destruct E as (rec&rec'&req&->&Hrec&->&Hed&(_&Hrole&_)&E). unfold is_admin. rewrite E.
    destruct (decide (id = actor)) as [->|Hne].
    + rewrite Hu in Hrec. injection Hrec as <-. exists rec'. split; [by rewrite lookup_insert_eq|].
      destruct Hed as (_&_&_&_&->&_). destruct (r_role req) as [role|]; [|done].
      simpl. rewrite <- Hr. by apply (Hrole role).
    + exists u. by rewrite lookup_insert_ne.
  - unfold deleteUser, delete_check, delete_write. destruct (String.eqb id ""); [done|].
    destruct (String.eqb_spec id actor) as [|Hne]; [done|]. repeat case_match; simpl; try done.
    all: match goal with H : removeRow _ _ = Some _ |- _ => apply removeRow_spec in H as [E _] end;
      exists u; by rewrite E, lookup_delete_ne.
Qed.

Lemma admins_remain d d' : rtc admin_step d d' → (∃ id, is_admin d id) → ∃ id, is_admin d' id.
Proof using UDBL.
  induction 1 as [|d d1 d' Hstep _ IH]; [done|]. intros _. apply IH.
  destruct Hstep as [d actor q Had]. exists actor. by apply actor_stays_admin.
Qed.

(** The first user: only on a hub without users whose only superuser is the temporary one. *)
Lemma CreateFirstUser_spec body d d' r :
  CreateFirstUser body d = (d', r) → success r = true →
  users d = ∅ ∧ (∃ tmp, superusers d = {[tmp := TempAdminEmail]}) ∧
  ∃ email pw u id, body = Some (email, pw) ∧ email ≠ "" ∧ pw ≠ "" ∧
    users d' = {[u_id u := u]} ∧ u_email u = email ∧ u_role u = "admin" ∧ u_password u = pw ∧
    superusers d' = {[id := email]}.
Proof using UDBL.
  unfold CreateFirstUser. destruct (countUsers d) as [n|] eqn:Hn; [|by intros [= <- <-]].
  destruct (Z.ltb_spec 0 n) as [|Hz]; [by intros [= <- <-]|].
  destruct (superuserRows d) as [[|[tmp em] [|]]|] eqn:Hsu; try (by intros [= <- <-]).
  destruct (String.eqb_spec em TempAdminEmail) as [->|]; simpl; [|by intros [= <- <-]].
  destruct body as [[email pw]|]; [|by intros [= <- <-]].
  destruct (String.eqb_spec email "") as [|Hem]; simpl; [by intros [= <- <-]|].
  destruct (String.eqb_spec pw "") as [|Hpw]; [by intros [= <- <-]|].
  unfold create_record. destruct (insertRow d _) as [[d1 u]|] eqn:Hi; [|by intros [= <- <-]].
  destruct (insertSuperuser d1 email pw) as [d2|] eqn:Hs; [|by intros [= <- <-]].
  destruct (removeSuperuser d2 tmp) as [d3|] eqn:Hrm; [|by intros [= <- <-]]. intros [= <- <-] _.
  apply countUsers_spec in Hn. assert (users d = ∅) as Hu0.
  { apply map_size_empty_inv. lia. }
  apply superuserRows_spec in Hsu. symmetry in Hsu. apply Permutation_singleton_r in Hsu.
  assert (superusers d = {[tmp := TempAdminEmail]}) as Hsd.
  { apply map_to_list_inj. by rewrite Hsu, map_to_list_singleton. }
  apply insertRow_spec in Hi as (_&(He&_&Hro&_&Hp)&Hu1&Hs1).
  apply insertSuperuser_spec in Hs as (Hu2&id&Hid&Hs2).
  apply removeSuperuser_spec in Hrm as [Hu3 Hs3].
  split_and!; [done|by exists tmp|]. exists email, pw, u, id. split_and!; try done.
  - by rewrite Hu3, Hu2, Hu1, Hu0, insert_empty.
  - rewrite Hs3, Hs2, Hs1, Hsd. rewrite Hs1, Hsd in Hid. apply lookup_singleton_None in Hid.
    rewrite delete_insert_ne by congruence. by rewrite delete_singleton_eq, insert_empty.
Qed.

(** C29: a hub always has an administrator: once the first user has been created, who is one, any
    sequence of requests of administrators about accounts leaves one; and the temporary
    superuser is gone. *)
Theorem an_admin_remains body d0 d1 r d :
  CreateFirstUser body d0 = (d1, r) → success r = true → rtc admin_step d1 d →
  (∃ id, is_admin d id) ∧ ∀ id em, superusers d1 !! id = Some em → em ≠ TempAdminEmail ∨
    ∃ pw, body = Some (TempAdminEmail, pw).
Proof using UDBL.
  intros Hc Hr Hsteps. apply CreateFirstUser_spec in Hc as (_&_&email&pw&u&id&->&_&_&Hu&_&Hro&_&Hs);
    [|done]. split.
  - apply (admins_remain d1 d Hsteps). exists (u_id u), u. by rewrite Hu, lookup_singleton_eq.
  - intros id' em. rewrite Hs. intros [<- <-]%lookup_singleton_Some.
    destruct (decide (email = TempAdminEmail)) as [->|]; [right; eauto|by left].
Qed.
End handlers.

(** ** A concrete hub *)

(** [m_fails]: superusers cannot be saved. *)
Record mem := { m_users : gmap string User; m_super : gmap string string; m_fails : bool }.

Definition with_uid (id : string) (u : User) : User :=
  mkUser id (u_email u) (u_name u) (u_role u) (u_verified u) (u_password u) (u_created u).
Definition rows (d : mem) : gmap string User := map_imap (λ id u, Some (with_uid id u)) (m_users d).

Lemma user_rows_lookup d id : rows d !! id = with_uid id <$> m_users d !! id.
Proof. unfold rows. rewrite map_lookup_imap. by destruct (m_users d !! id). Qed.
Lemma user_rows_key d id u : rows d !! id = Some u → u_id u = id.
Proof. rewrite user_rows_lookup. by intros (u'&_&->)%fmap_Some. Qed.
Lemma user_rows_insert d id u m b :
  u_id u = id → rows {| m_users := <[id := u]> (m_users d); m_super := m; m_fails := b |} =
    <[id := u]> (rows d).
Proof.
  intros <-. apply map_eq. intros id. rewrite user_rows_lookup. simpl. rewrite !lookup_insert, user_rows_lookup.
  case_decide; [subst; by destruct u|done].
Qed.

#[local] Instance mem_users : UsersDB mem := {|
  users := rows;
  superusers := m_super;
  listUsersRows d := Some (map_to_list (rows d)).*2;
  countUsers d := Some (Z.of_nat (size (rows d)));
  findUser d id := rows d !! id;
  adminRows d := Some (filter (λ u, u_role u = "admin") (map_to_list (rows d)).*2);
  updateRow d u := inl {| m_users := <[u_id u := u]> (m_users d); m_super := m_super d;
                          m_fails := m_fails d |};
  insertRow d u :=
    let id := fresh (dom (m_users d)) in
    inl ({| m_users := <[id := with_uid id u]> (m_users d); m_super := m_super d;
            m_fails := m_fails d |}, with_uid id u);
  removeRow d id := Some {| m_users := delete id (m_users d); m_super := m_super d;
                            m_fails := m_fails d |};
  superuserRows d := Some (map_to_list (m_super d));
  insertSuperuser d em _ :=
    if m_fails d then inr (OtherError "disk full")
    else inl {| m_users := m_users d; m_super := <[fresh (dom (m_super d)) := em]> (m_super d);
                m_fails := m_fails d |};
  removeSuperuser d id := Some {| m_users := m_users d; m_super := delete id (m_super d);
                                  m_fails := m_fails d |};
|}.

Lemma user_rows_list d : NoDup (u_id <$> (map_to_list (rows d)).*2) ∧
  ∀ u, u ∈ (map_to_list (rows d)).*2 ↔ rows d !! u_id u = Some u.
Proof.
  split.
  - rewrite <- list_fmap_compose. erewrite (list_fmap_ext _ fst); [apply NoDup_fst_map_to_list|].
    intros i [k u] Hu%list_elem_of_lookup_2%elem_of_map_to_list. simpl. by apply user_rows_key in Hu.
  - intros u. rewrite list_elem_of_fmap. split.
    + intros ([k u']&->&Hu%elem_of_map_to_list). simpl. by rewrite (user_rows_key _ _ _ Hu).
    + intros Hu. exists (u_id u, u). by rewrite elem_of_map_to_list.
Qed.

#[local] Instance mem_users_laws : UsersDBLaws mem.
Proof.
  split; simpl.
  - apply user_rows_key.
  - intros d l [= <-]. apply user_rows_list.
  - by intros d n [= <-].
  - done.
  - intros d l [= <-]. destruct (user_rows_list d) as [Hnd Hin]. split.
    + eapply NoDup_fmap_sublist; [apply sublist_filter|done].
    + intros u. rewrite list_elem_of_filter, Hin. tauto.
  - intros d u d' [= <-]. by rewrite user_rows_insert.
  - intros d u d' u' [= <- <-]. rewrite user_rows_insert by done. split_and!; try done.
    change (rows d !! fresh (dom (m_users d)) = None). rewrite user_rows_lookup.
    by rewrite (not_elem_of_dom_1 _ _ (is_fresh (dom (m_users d)))).
  - intros d id d' [= <-]. split; [|done]. apply map_eq. intros id'. rewrite user_rows_lookup. simpl.
    rewrite !lookup_delete, user_rows_lookup. by case_decide.
  - by intros d l [= <-].
  - intros d em pw d'. destruct (m_fails d); [done|]. intros [= <-]. split; [done|]. eexists.
    split; [|done]. apply not_elem_of_dom_1, is_fresh.
  - by intros d id d' [= <-].
Qed.

Definition accepts (s : string) : bool := Contains s "@".
Definition start (fails : bool) : mem := {|
  m_users := ∅; m_super := {["tmp" := TempAdminEmail]}; m_fails := fails |}.
Definition first : mem * response := CreateFirstUser (Some ("a@b.c", "secret12")) (start false).

Lemma an_admin_remains_witness :
  (∃ id, is_admin first.1 id) ∧ success first.2 = true.
Proof.
  split; [|by vm_compute].
  exact (proj1 (an_admin_remains accepts (Some ("a@b.c", "secret12")) (start false) first.1 first.2
    first.1 (surjective_pairing first) ltac:(by vm_compute) (rtc_refl _ _))).
Defined.

Definition role_update (role : string) : updateUserRequest := {|
  r_email := None; r_name := None; r_role := Some role; r_password := None; r_verified := None |}.
Definition new_user (email role : string) : createUserRequest := {|
  c_email := email; c_password := "password"; c_name := ""; c_role := role |}.
Definition second (role : string) : mem := (createUser accepts (Some (new_user "d@e.f" role)) first.1).1.
Definition roles (d : mem) : gmap string string := u_role <$> rows d.

Lemma updateUser_exact_witness :
  ∃ rec', (updateUser accepts "0" "1" (Some (role_update "readonly")) (second "admin")).2 =
    Account rec' ∧ u_role rec' = "readonly".
Proof.
  pose proof (updateUser_exact accepts "0" "1" (Some (role_update "readonly")) (second "admin")
    _ _ (surjective_pairing _)) as H.
  assert (success (updateUser accepts "0" "1" (Some (role_update "readonly")) (second "admin")).2 = true)
    as E by (by vm_compute).
  rewrite E in H. destruct H as (rec&rec'&req&Hq&_&Hr&Hed&_). exists rec'. split; [exact Hr|].
  injection Hq as <-. by destruct Hed as (_&_&_&_&->&_).
Defined.

(** A user created without a role gets the role user, which an edit does not accept: sending a
    user's own role back, as the dashboard does when only the name was edited, fails. *)
Example regular_user_not_editable :
  roles (second "") = {["0" := "admin"; "1" := "user"]} ∧
  (updateUser accepts "0" "1" (Some (role_update "user")) (second "")).2 =
    BadRequest "Role must be admin, readonly, or empty.".
Proof. by vm_compute. Qed.

(** The count of administrators is taken before the deletion: two of them that delete each other
    at the same time leave none. *)
Example admins_delete_each_other :
  let d := second "admin" in
  delete_check "0" "1" d = None ∧ delete_check "1" "0" d = None ∧
  roles (delete_write "0" (delete_write "1" d).1).1 = ∅.
Proof. by vm_compute. Qed.

(** When the superuser cannot be saved, the first user is there and no second request is
    accepted; the temporary superuser stays. *)
Example first_user_half_created :
  let '(d, r) := CreateFirstUser (Some ("a@b.c", "secret12")) (start true) in
  r = InternalServerError "error" ∧ roles d = {["0" := "admin"]} ∧
  m_super d = {["tmp" := TempAdminEmail]} ∧
  (CreateFirstUser (Some ("a@b.c", "secret12")) d).2 = Forbidden "Forbidden".
Proof. by vm_compute. Qed.

Example save_error_ex :
  formatSaveError (ValidationErrors {["role" := "bad"; "name" := "too long"]}) "x" =
    "name: too long; role: bad" ∧
  formatSaveError (ValidationErrors {["email" := "Value must be Unique."]}) "x" =
    "A user with that email already exists." ∧
  formatSaveError (OtherError "  ") "x" = "x".
Proof. by vm_compute. Qed.
End AdminUsers.
