(* ===== verification/AdminSettings.v ===== *)
(** * Settings, logs, backups and updates ([internal/hub/admin.go], [internal/hub/api.go])

    The other handlers of administrators: the mail settings with the recipients of alerts and
    the daily digest (whose row [Notify] and [Digest] read), the log pages, backups, the restart
    of an agent, the state of the heartbeat, and the check for releases.

    [net/mail], SMTP, PocketBase's backups and its log query, SemVer and GitHub are parameters
    or outcomes. *)

From S2P Require Import Prelude GoStrings GoText Notify Heartbeat.
Import BantayAlertParams.

(** What the handlers use of the settings. *)
Record Settings := mkSettings {
  smtp_Enabled : bool; smtp_Host : string; smtp_Port : Z; smtp_Username : string;
  smtp_Password : string; smtp_AuthMethod : string; smtp_TLS : bool; smtp_LocalName : string;
  meta_SenderName : string; meta_SenderAddress : string }.

Class SettingsDB (DB : Type) := {
  settings : DB → Settings;
  cloneSettings : DB → option Settings;
  saveSettings : DB → Settings → option DB;
  knownUsers : DB → list string → option (list string);   (* the ids that were found *)
  userIds : DB → gset string;
}.

Class SettingsDBLaws (DB : Type) `{NotifyDB DB, SettingsDB DB} := {
  cloneSettings_spec : ∀ d s, cloneSettings d = Some s → s = settings d;
  saveSettings_spec : ∀ d s d', saveSettings d s = Some d' →
    settings d' = s ∧ paramsRow d' = paramsRow d ∧ userIds d' = userIds d;
  writeParams_settings : ∀ d v d', writeParams d v = Some d' → settings d' = settings d;
  knownUsers_spec : ∀ d ids l, knownUsers d ids = Some l →
    ∀ id, id ∈ l ↔ id ∈ ids ∧ id ∈ userIds d;
}.

Module AdminSettings.

Inductive response (A : Type) :=
  | BadRequest (msg : string) | NotFound (msg : string) | InternalServerError (msg : string)
  | NoContent | OK (a : A).
Arguments BadRequest {A}. Arguments NotFound {A}. Arguments InternalServerError {A}.
Arguments NoContent {A}. Arguments OK {A}.

(** ** Mail settings *)

Record smtpResponse := {
  Enabled : bool; Host : string; Port : Z; Username : string; HasPassword : bool;
  AuthMethod : string; TLS : bool; LocalName : string; SenderName : string; SenderAddress : string;
  RecipientUserIds : option (list string); RecipientEmails : option (list string);
  DigestEnabled : bool; DigestHour : Z }.

Record smtpUpdateRequest := {
  q_Enabled : bool; q_Host : string; q_Port : Z; q_Username : string; q_Password : string;
  q_AuthMethod : string; q_TLS : bool; q_LocalName : string; q_SenderName : string;
  q_SenderAddress : string; q_UserIds : list string; q_Emails : list string;
  q_DigestEnabled : bool; q_DigestHour : Z }.

Section smtp.
Context {DB : Type} {NDB : NotifyDB DB} {NDBL : NotifyDBLaws DB}.
Context {SDB : SettingsDB DB} {SDBL : SettingsDBLaws DB}.
Context (decodeParams : string → BantayAlertParams.t → BantayAlertParams.t)
        (encodeParams : BantayAlertParams.t → string).
Context (ParseAddress : string → bool).

Definition load (d : DB) : BantayAlertParams.t := Notify.LoadBantayAlertParams decodeParams d.

Definition getSMTP (d : DB) : response smtpResponse :=
  let s := settings d in
  let params := load d in
  OK {| Enabled := smtp_Enabled s; Host := smtp_Host s; Port := smtp_Port s;
        Username := smtp_Username s; HasPassword := negb (String.eqb (smtp_Password s) "");
        AuthMethod := smtp_AuthMethod s; TLS := smtp_TLS s; LocalName := smtp_LocalName s;
        SenderName := meta_SenderName s; SenderAddress := meta_SenderAddress s;
        RecipientUserIds := AlertRecipientUserIds params;
        RecipientEmails := AlertRecipientEmails params;
        DigestEnabled := DailyDigestEnabled params; DigestHour := DailyDigestHour params |}.

(** The settings with the request's values; an empty password, sender name or address keeps the
    old one. *)
Definition apply_settings (req : smtpUpdateRequest) (s : Settings) : Settings :=
  let keep new old := if String.eqb new "" then old else new in
  mkSettings (q_Enabled req) (TrimSpace (q_Host req)) (q_Port req) (q_Username req)
    (keep (q_Password req) (smtp_Password s)) (q_AuthMethod req) (q_TLS req) (q_LocalName req)
    (keep (q_SenderName req) (meta_SenderName s))
    (keep (q_SenderAddress req) (meta_SenderAddress s)).

(** The ids that are users; [None] when the query fails. *)
Definition clean_ids (d : DB) (ids : list string) : option (list string) :=
  match ids with
  | [] => Some []
  | _ => validIds ← knownUsers d ids; Some (filter (λ id, id ∈ validIds) ids)
  end.

(** The addresses without blanks and repetitions; [inr] is one that does not parse. *)
Fixpoint clean_emails (seen : gset string) (l : list string) : list string + string :=
  match l with
  | [] => inl []
  | raw :: l =>
      let addr := TrimSpace raw in
      if String.eqb addr "" then clean_emails seen l
      else if negb (ParseAddress addr) then inr addr
      else
        let key := ToLower addr in
        if bool_decide (key ∈ seen) then clean_emails seen l
        else match clean_emails ({[key]} ∪ seen) l with
             | inl out => inl (addr :: out)
             | r => r
             end
  end.

(** The part of [updateSMTP] after the settings were saved. *)
Definition save_recipients (req : smtpUpdateRequest) (d : DB) : DB * response smtpResponse :=
  match clean_ids d (q_UserIds req) with
  | None => (d, BadRequest "Failed to validate recipient users.")
  | Some ids =>
      if negb (List.length ids =? List.length (q_UserIds req))%nat
      then (d, BadRequest "One or more recipient users were not found.")
      else match clean_emails ∅ (q_Emails req) with
      | inr addr => (d, BadRequest ("Invalid recipient email address: " ++ addr))
      | inl emails =>
          if (q_DigestHour req <? 0)%Z || (23 <? q_DigestHour req)%Z
          then (d, BadRequest "Daily digest hour must be between 0 and 23.")
          else
            let params := mk (Some ids) (Some emails) (q_DigestEnabled req) (q_DigestHour req)
                             (DailyDigestLastSent (load d)) in
            match Notify.SaveBantayAlertParams encodeParams d params with
            | None => (d, BadRequest "Failed to save alert recipients.")
            | Some d' => (d', getSMTP d')
            end
      end
  end.

Definition updateSMTP (body : option smtpUpdateRequest) (d : DB) : DB * response smtpResponse :=
  match body with
  | None => (d, BadRequest "Invalid request body.")
  | Some req =>
      if negb (String.eqb (q_SenderAddress req) "") && negb (ParseAddress (q_SenderAddress req))
      then (d, BadRequest "Invalid sender email address.")
      else match cloneSettings d with
      | None => (d, InternalServerError "Failed to clone settings.")
      | Some s =>
          match saveSettings d (apply_settings req s) with
          | None => (d, BadRequest "Failed to save SMTP settings.")
          | Some d' => save_recipients req d'
          end
      end
  end.

(** [testSMTP]: [sent] is the outcome of the mail to the address. *)
Definition testSMTP (body : option string) (sent : string → option string) : response string :=
  match body with
  | None => BadRequest "Invalid request body."
  | Some to =>
      let to := TrimSpace to in
      if String.eqb to "" then BadRequest "Recipient email is required."
      else if negb (ParseAddress to) then BadRequest "Invalid recipient email."
      else match sent to with
           | Some err => BadRequest ("Failed to send test email: " ++ err)
           | None => OK "sent"
           end
  end.

(** ** What is saved *)

Lemma clean_ids_spec d ids l :
  clean_ids d ids = Some l → List.length l = List.length ids →
  l = ids ∧ ∀ id, id ∈ ids → id ∈ userIds d.
Proof using SDBL.
  unfold clean_ids. destruct ids as [|i ids].
  { intros [= <-] _. split; [done|]. intros ? ?%elem_of_nil. done. }
  destruct (knownUsers d (i :: ids)) as [valid|] eqn:Hv; [simpl|done]. intros [= <-] Hlen.
  change (S (List.length ids)) with (List.length (i :: ids)) in Hlen.
  pose proof (knownUsers_spec _ _ _ Hv) as Hk. set (l0 := i :: ids) in *. clearbody l0.
  assert (filter (λ id, id ∈ valid) l0 = l0) as E.
  { clear -Hlen. induction l0 as [|x l0 IH]; [done|]. rewrite filter_cons in *.
    destruct (decide (x ∈ valid)); cbn [List.length] in Hlen; [f_equal; apply IH; congruence|].
    pose proof (length_filter (λ id, id ∈ valid) l0). lia. }
  split; [done|]. intros id Hid. rewrite <- E in Hid. apply list_elem_of_filter in Hid as [Hid _].
  by apply Hk in Hid as [_ ?].
Qed.

(** The addresses that are kept: the first of each spelling, all of them valid. *)
Lemma clean_emails_spec l : ∀ seen out,
  clean_emails seen l = inl out →
  NoDup (ToLower <$> out) ∧
  (∀ a, a ∈ out → ParseAddress a = true ∧ ToLower a ∉ seen ∧ ∃ raw, raw ∈ l ∧ a = TrimSpace raw) ∧
  (∀ raw, raw ∈ l → TrimSpace raw = "" ∨
     ToLower (TrimSpace raw) ∈ seen ∨ ToLower (TrimSpace raw) ∈ ToLower <$> out).
Proof using Type.
  clear. induction l as [|raw l IH]; intros seen out; cbn [clean_emails].
  { intros [= <-]. split_and!; [constructor|by intros ? ?%elem_of_nil|by intros ? ?%elem_of_nil]. }
  destruct (String.eqb_spec (TrimSpace raw) "") as [E|Hne].
  { intros H. destruct (IH _ _ H) as (Hnd&Hin&Hall). split_and!; [done|set_solver|].
    intros r [->|Hr]%elem_of_cons; [by left|by apply Hall]. }
  destruct (ParseAddress (TrimSpace raw)) eqn:Hp; simpl; [|done].
  case_bool_decide as Hs.
  { intros H. destruct (IH _ _ H) as (Hnd&Hin&Hall). split_and!; [done|set_solver|].
    intros r [->|Hr]%elem_of_cons; [by right; left|by apply Hall]. }
  destruct (clean_emails _ l) as [out'|] eqn:H; [|done]. intros [= <-].
  destruct (IH _ _ H) as (Hnd&Hin&Hall). split_and!.
  - rewrite fmap_cons. constructor; [|done]. intros (a&Ha&Hin')%list_elem_of_fmap.
    destruct (Hin _ Hin') as (_&Hno&_). set_solver.
  - intros a [->|Ha]%elem_of_cons; [set_solver|]. destruct (Hin _ Ha) as (?&?&?). set_solver.
  - intros r [->|Hr]%elem_of_cons; [right; right; rewrite fmap_cons; left|].
    destruct (Hall _ Hr) as [?|[Hs'|?]]; [by left| |right; right; rewrite fmap_cons; by right].
    apply elem_of_union in Hs' as [->%elem_of_singleton|?]; [|by right; left].
    right; right. rewrite fmap_cons. left.
Qed.

(** A successful update saves exactly the request: the mail settings with a blank password or
    sender kept, known users and each valid address once as recipients, an hour of the day for
    the digest, and the day of the last digest as it was.  The day and the recipients do not
    change when the request is refused. *)
Theorem updateSMTP_exact body d d' r :
  (∀ p0 q, decodeParams (encodeParams (Notify.normalize q)) p0 = Notify.normalize q) →
  (∀ q, encodeParams q ≠ "") →
  updateSMTP body d = (d', r) →
  match r with
  | OK resp => ∃ req emails, body = Some req ∧ r = getSMTP d' ∧
      settings d' = apply_settings req (settings d) ∧
      load d' = mk (Some (q_UserIds req)) (Some emails) (q_DigestEnabled req) (q_DigestHour req)
                   (DailyDigestLastSent (load d)) ∧
      (∀ id, id ∈ q_UserIds req → id ∈ userIds d) ∧ (0 ≤ q_DigestHour req ≤ 23)%Z ∧
      NoDup (ToLower <$> emails) ∧ (∀ a, a ∈ emails → ParseAddress a = true) ∧
      (∀ raw, raw ∈ q_Emails req → TrimSpace raw ≠ "" → ToLower (TrimSpace raw) ∈ ToLower <$> emails)
  | _ => load d' = load d
  end.
Proof using NDBL SDBL.
  intros Hcodec Hne. unfold updateSMTP. destruct body as [req|]; [|by intros [= <- <-]].
  destruct (_ && _); [by intros [= <- <-]|].
  destruct (cloneSettings d) as [s|] eqn:Hs; [|by intros [= <- <-]].
  apply cloneSettings_spec in Hs as ->.
  destruct (saveSettings d _) as [d1|] eqn:Hsave; [|by intros [= <- <-]].
  apply saveSettings_spec in Hsave as (Hset&Hrow&Hus).
  assert (load d1 = load d) as Hload by (unfold load, Notify.LoadBantayAlertParams; by rewrite Hrow).
  unfold save_recipients. destruct (clean_ids d1 (q_UserIds req)) as [ids|] eqn:Hids;
    [|by intros [= <- <-]].
  destruct (Nat.eqb_spec (List.length ids) (List.length (q_UserIds req))) as [Hlen|]; simpl;
    [|by intros [= <- <-]].
  destruct (clean_emails ∅ (q_Emails req)) as [emails|] eqn:Hem; [|by intros [= <- <-]].
  destruct (Z.ltb_spec (q_DigestHour req) 0); simpl; [by intros [= <- <-]|].
  destruct (Z.ltb_spec 23 (q_DigestHour req)); [by intros [= <- <-]|].
  destruct (Notify.SaveBantayAlertParams _ _ _) as [d2|] eqn:Hw; intros [= <- <-]; [|done].
  apply clean_ids_spec in Hids as [-> Hknown]; [|done].
  apply clean_emails_spec in Hem as (Hnd&Hval&Hall).
  exists req, emails. split_and!; try done; try lia.
  - rewrite <- Hset. by eapply writeParams_settings.
  - unfold load. rewrite (Notify.params_roundtrip decodeParams encodeParams _ _ _ Hcodec Hne Hw).
    unfold Notify.normalize. simpl. by rewrite Hload.
  - intros id Hid. rewrite <- Hus. by apply Hknown.
  - intros a Ha. by apply Hval.
  - intros raw Hraw Hn. destruct (Hall _ Hraw) as [?|[?|?]]; [done|set_solver|done].
Qed.

(** The answer does not depend on the password, but on whether there is one. *)
Lemma password_hidden d1 d2 :
  (∀ pw, mkSettings (smtp_Enabled (settings d1)) (smtp_Host (settings d1)) (smtp_Port (settings d1))
     (smtp_Username (settings d1)) pw (smtp_AuthMethod (settings d1)) (smtp_TLS (settings d1))
     (smtp_LocalName (settings d1)) (meta_SenderName (settings d1)) (meta_SenderAddress (settings d1)) =
   mkSettings (smtp_Enabled (settings d2)) (smtp_Host (settings d2)) (smtp_Port (settings d2))
     (smtp_Username (settings d2)) pw (smtp_AuthMethod (settings d2)) (smtp_TLS (settings d2))
     (smtp_LocalName (settings d2)) (meta_SenderName (settings d2)) (meta_SenderAddress (settings d2))) →
  load d1 = load d2 → smtp_Password (settings d1) ≠ "" → smtp_Password (settings d2) ≠ "" →
  getSMTP d1 = getSMTP d2.
Proof using Type.
  intros He Hl H1 H2. specialize (He ""). injection He as E1 E2 E3 E4 E5 E6 E7 E8 E9. unfold getSMTP.
  rewrite Hl, E1, E2, E3, E4, E5, E6, E7, E8, E9.
  by rewrite (proj2 (String.eqb_neq _ _) H1), (proj2 (String.eqb_neq _ _) H2).
Qed.
End smtp.

(** ** Logs *)

Record logEntry := { l_ID : string; l_Level : Z; l_Message : string; l_Created : string; l_Data : string }.

(** [int] is 64 bits wide and wraps. *)
Definition int64 (z : Z) : Z :=
  let w := wrap 64 z in if (w <? 2 ^ 63)%Z then w else (w - 2 ^ 64)%Z.

(** What a page is read with: filters, offset and limit. *)
Record log_query := { k_level : option Z; k_search : string; k_offset : Z; k_limit : Z }.

(** The value of [strconv.Atoi] when its error is ignored: 0 for text that is no number, the
    nearest [int] for a number that is out of range (found before what follows it). *)
Fixpoint uint_value (s : string) (acc : Z) : option Z :=
  match s with
  | EmptyString => Some acc
  | String a s =>
      match digit_val a with
      | None => None
      | Some d => if (2 ^ 64 <=? acc * 10 + d)%Z then Some (2 ^ 64 - 1)%Z
                  else uint_value s (acc * 10 + d)
      end
  end.
Definition Atoi_value (s : string) : Z :=
  let '(neg, t) :=
    match s with
    | String "+" t => (false, t)
    | String "-" t => (true, t)
    | _ => (false, s)
    end%char in
  if String.eqb t "" then 0%Z
  else match uint_value t 0 with
       | None => 0%Z
       | Some n => if neg then Z.max (- 2 ^ 63) (- n) else Z.min (2 ^ 63 - 1) n
       end.

Definition log_page (q : string → string) : Z * Z :=
  let page := Atoi_value (q "page") in
  let perPage := Atoi_value (q "perPage") in
  (if (page <? 1)%Z then 1%Z else page,
   if (perPage <? 1)%Z || (200 <? perPage)%Z then 50%Z else perPage).

Definition listLogs (run : log_query → option (list logEntry)) (q : string → string)
    : response (Z * Z * list logEntry) :=
  let '(page, perPage) := log_page q in
  let level := Atoi_value (q "level") in
  let k := {| k_level := if String.eqb (q "level") "" then None else Some level;
              k_search := TrimSpace (q "q");
              k_offset := int64 ((page - 1) * perPage); k_limit := perPage |} in
  match run k with
  | None => InternalServerError "Failed to query logs."
  | Some logs => OK (page, perPage, logs)
  end.

Definition clearLogs (deleted : bool) : response unit :=
  if deleted then NoContent else InternalServerError "Failed to clear logs.".

(** Pages are numbered from one, hold at most 200 entries and, up to the 46116860184273879th,
    start where they should. *)
Lemma log_page_bounds q :
  let '(page, perPage) := log_page q in
  (1 ≤ page)%Z ∧ (1 ≤ perPage ≤ 200)%Z ∧
  ((page ≤ 46116860184273879)%Z → int64 ((page - 1) * perPage) = ((page - 1) * perPage)%Z).
Proof.
  unfold log_page. generalize (Atoi_value (q "page")) (Atoi_value (q "perPage")).
  intros p n. assert (Hn : (1 ≤ (if (n <? 1)%Z || (200 <? n)%Z then 50 else n) ≤ 200)%Z).
  { destruct (Z.ltb_spec n 1), (Z.ltb_spec 200 n); simpl; lia. }
  revert Hn. generalize (if (n <? 1)%Z || (200 <? n)%Z then 50%Z else n). intros k Hk.
  assert (Hp : (1 ≤ (if (p <? 1)%Z then 1 else p))%Z) by (destruct (Z.ltb_spec p 1); lia).
  revert Hp. generalize (if (p <? 1)%Z then 1%Z else p). intros m Hm. split_and!; try lia.
  intros Hle. unfold int64. rewrite wrap_small by (unfold in_range; nia).
  rewrite (proj2 (Z.ltb_lt _ _)) by nia. done.
Qed.

(** ** Backups and agents *)

Record file := { f_Key : string; f_Size : Z; f_ModTime : Z; f_IsDir : bool }.
Record backupItem := { b_Key : string; b_Size : Z; b_Modified : Z }.

(** [fsys] is the list of the files: [None] when they cannot be opened, [Some None] when they
    cannot be listed. *)
Definition listBackups (fsys : option (option (list file))) : response (list backupItem) :=
  match fsys with
  | None => InternalServerError "Failed to open backups filesystem."
  | Some None => InternalServerError "Failed to list backups."
  | Some (Some files) =>
      OK ((λ f, {| b_Key := f_Key f; b_Size := f_Size f; b_Modified := f_ModTime f |}) <$>
          List.filter (λ f, negb (f_IsDir f)) files)
  end.

(** What the handlers start, in order. *)
Inductive effect :=
  | CreateBackupNamed (name : string) | StartRestore (key : string) | CancelContext
  | DeleteFile (key : string).

(** A body that does not parse is an empty name. *)
Definition createBackup (body : option string) (created : bool) : list effect * response string :=
  ([CreateBackupNamed (default "" body); CancelContext],
   if created then OK "created"
   else InternalServerError "Failed to create backup. Another backup may be in progress.").

(** The restore is a goroutine of its own, with a context that ends with the handler. *)
Definition restoreBackup (key : string) : list effect * response string :=
  if String.eqb key "" then ([], BadRequest "Missing backup key.")
  else ([StartRestore key; CancelContext], OK "restoring").

Definition deleteBackup (key : string) (opened deleted : bool) : list effect * response unit :=
  if String.eqb key "" then ([], BadRequest "Missing backup key.")
  else if negb opened then ([], InternalServerError "Failed to open backups filesystem.")
  else ([DeleteFile key], if deleted then NoContent else InternalServerError "Failed to delete backup.").

Definition restartAgent (GetSystem restart : string → bool) (systemID : string) : response string :=
  if String.eqb systemID "" then BadRequest "Missing system parameter."
  else if negb (GetSystem systemID) then NotFound "System not found."
  else if restart systemID then OK "restarting"
  else InternalServerError
    "Agent did not acknowledge restart. It may be offline or running an older version.".

(** ** Heartbeat *)

(** The configuration, or [inl] with a message when there is none. *)
Definition getHeartbeatStatus (hb : option HeartbeatData.Config) : string + string * Z * string :=
  match hb with
  | None => inl "Set HEARTBEAT_URL to enable outbound heartbeat monitoring"
  | Some cfg => inr (HeartbeatData.URL cfg, HeartbeatData.Interval cfg, HeartbeatData.Method cfg)
  end.

(** [None] is [err: false]. *)
Definition testHeartbeat (hb : option HeartbeatData.Config)
    (Send : HeartbeatData.Config → option string) : option string :=
  match hb with
  | None => Some "Heartbeat not configured. Set HEARTBEAT_URL environment variable."
  | Some cfg => Send cfg
  end.

(** ** Releases *)

Record infoResponse := { i_Key : string; i_Version : string; i_CheckUpdate : bool }.
Definition getInfo (pubKey version : string) (check_updates : string) : infoResponse :=
  {| i_Key := pubKey; i_Version := version; i_CheckUpdate := String.eqb check_updates "true" |}.

Record UpdateInfo := { lastCheck : option Z; Version : string; Url : string }.

Section releases.
Context {V : Type} (Parse : string → option V) (GT : V → V → bool).

(** [getUpdate] at [now]; [release] is the tag and the address of the latest release, or an
    error.  The response is [None] for an error. *)
Definition getUpdate (current : string) (now : Z) (release : option (string * string))
    (info : UpdateInfo) : UpdateInfo * option UpdateInfo :=
  if (match lastCheck info with Some t => (now - t <? 6 * Hour)%Z | None => false end)
  then (info, Some info)
  else
    let info := {| lastCheck := Some now; Version := Version info; Url := Url info |} in
    match release with
    | None => (info, None)
    | Some (tag, url) =>
        match Parse (TrimPrefix current "v"), Parse (TrimPrefix tag "v") with
        | Some cur, Some latest =>
            let info := if GT latest cur
                        then {| lastCheck := Some now; Version := TrimPrefix tag "v"; Url := url |}
                        else info in
            (info, Some info)
        | _, _ => (info, None)
        end
    end.
End releases.

(** ** Examples *)

Definition query (l : list (string * string)) (k : string) : string :=
  default "" ((list_to_map l : gmap string string) !! k).

Example log_pages_ex :
  log_page (query []) = (1, 50)%Z ∧ log_page (query [("page", "3"); ("perPage", "200")]) = (3, 200)%Z ∧
  log_page (query [("page", "-2"); ("perPage", "201")]) = (1, 50)%Z ∧
  log_page (query [("page", "99999999999999999999"); ("perPage", "x")]) = (2 ^ 63 - 1, 50)%Z.
Proof. by vm_compute. Qed.

(** A page number near the end of the range gives a negative offset. *)
Example offset_wraps :
  let '(page, perPage) := log_page (query [("page", "9223372036854775807")]) in
  int64 ((page - 1) * perPage) = (-100)%Z.
Proof. by vm_compute. Qed.

(** A check that fails is not repeated for six hours; meanwhile the answer is that there is no
    newer release. *)
Example failed_check_hides_release :
  let gt a b := (b <? a)%Z in
  let '(info, r) := getUpdate Atoi gt "v1" 0 None {| lastCheck := None; Version := ""; Url := "" |} in
  r = None ∧
  Version <$> (getUpdate Atoi gt "v1" (5 * Hour) (Some ("v2", "u")) info).2 = Some "" ∧
  Version <$> (getUpdate Atoi gt "v1" (6 * Hour) (Some ("v2", "u")) info).2 = Some "2".
Proof. by vm_compute. Qed.

(** *** A concrete hub *)

Record mem := { m_settings : Settings; m_params : option string; m_ids : gset string }.

#[local] Instance mem_notify : NotifyDB mem := {|
  findQuiet _ _ := Some [];
  quietRows _ := [];
  userSettings _ _ := None;
  usersByIds _ _ := None;
  paramsRow := m_params;
  writeParams d v := Some {| m_settings := m_settings d; m_params := Some v; m_ids := m_ids d |};
  systemUsers _ _ := None;
|}.
#[local] Instance mem_notify_laws : NotifyDBLaws mem.
Proof. split; simpl; [by intros ? ? ? [= <-]|by intros ? ? ? [= <-]]. Qed.

#[local] Instance mem_settings : SettingsDB mem := {|
  settings := m_settings;
  cloneSettings d := Some (m_settings d);
  saveSettings d s := Some {| m_settings := s; m_params := m_params d; m_ids := m_ids d |};
  knownUsers d ids := Some (filter (λ id, id ∈ m_ids d) ids);
  userIds := m_ids;
|}.
#[local] Instance mem_settings_laws : SettingsDBLaws mem.
Proof.
  split; simpl.
  - by intros d s [= <-].
  - by intros d s d' [= <-].
  - by intros d v d' [= <-].
  - intros d ids l [= <-] id. rewrite list_elem_of_filter. tauto.
Qed.

Definition old_settings : Settings :=
  mkSettings true "mail.old" 25 "user" "secret" "PLAIN" false "" "Hub" "hub@a.b".
Definition hub : mem := {|
  m_settings := old_settings;
  m_params := Some (Notify.bin_encode (mk (Some []) (Some []) true 7 "2026-01-02"));
  m_ids := {["u1"]} |}.
Definition request (ids emails : list string) (hour : Z) : smtpUpdateRequest := {|
  q_Enabled := true; q_Host := " mail.new "; q_Port := 587; q_Username := "user"; q_Password := "";
  q_AuthMethod := "LOGIN"; q_TLS := true; q_LocalName := ""; q_SenderName := "";
  q_SenderAddress := "ops@a.b"; q_UserIds := ids; q_Emails := emails; q_DigestEnabled := true;
  q_DigestHour := hour |}.
Definition accepts (s : string) : bool := Contains s "@".
Definition do_update (req : smtpUpdateRequest) : mem * response smtpResponse :=
  updateSMTP Notify.bin_decode Notify.bin_encode accepts (Some req) hub.

Lemma updateSMTP_exact_witness :
  let d' := (do_update (request ["u1"] ["A@b.c"; " "; "a@B.c"] 8)).1 in
  smtp_Password (settings d') = "secret" ∧
  DailyDigestLastSent (load Notify.bin_decode d') = "2026-01-02".
Proof.
  intros d'. pose proof (updateSMTP_exact Notify.bin_decode Notify.bin_encode accepts
    (Some (request ["u1"] ["A@b.c"; " "; "a@B.c"] 8)) hub d'
    (do_update (request ["u1"] ["A@b.c"; " "; "a@B.c"] 8)).2) as H.
  assert (∀ p0 q, Notify.bin_decode (Notify.bin_encode (Notify.normalize q)) p0 = Notify.normalize q)
    as Hc by (intros p0 q; unfold Notify.bin_decode, Notify.bin_encode;
              by rewrite Notify.of_bits_of, decode_encode).
  assert (∀ q, Notify.bin_encode q ≠ "") as Hn
    by (intros q; unfold Notify.bin_encode; by destruct (encode q)).
  specialize (H Hc Hn (surjective_pairing _)).
  assert (∃ resp, (do_update (request ["u1"] ["A@b.c"; " "; "a@B.c"] 8)).2 = OK resp) as [resp E]
    by (eexists; vm_compute; reflexivity).
  rewrite E in H. destruct H as (req&emails&[= <-]&_&Hs&Hl&_). rewrite Hs, Hl. split; by vm_compute.
Defined.

(** A request that is refused because of a recipient has already changed the mail settings. *)
Example refused_update_saved :
  (do_update (request ["u2"] [] 8)).2 = BadRequest "One or more recipient users were not found." ∧
  smtp_Host (settings (do_update (request ["u2"] [] 8)).1) = "mail.new" ∧
  (do_update (request [] [] 24)).2 = BadRequest "Daily digest hour must be between 0 and 23." ∧
  smtp_Host (settings (do_update (request [] [] 24)).1) = "mail.new".
Proof. by vm_compute. Qed.
End AdminSettings.
