(* ===== verification/AgentUpdate.v ===== *)
(** * Updates of agents ([internal/hub/systems/agent_update.go], [agent/handler_push_binary.go])

    The hub pushes a newer binary to an agent that reports an older version; the
    agent checks it, swaps it in and exits.  On the hub every poll decides whether
    to push, and the push runs in a goroutine of its own: polls, pushes and the
    clock interleave in a step relation.  On the agent, every operation on files
    may fail; its outcome is an argument, and every state the file system goes
    through is kept, because the machine may stop in any of them.

    SemVer and SHA-256 are parameters.  A file is its content, by path. *)

From S2P Require Import Prelude GoStrings GoText ExpiryMap.

Module AgentUpdate.
Import ExpiryMap.
Local Open Scope Z_scope.

(** ** The hub *)

Record agentBinary := { Arch : string; Version : string; Sha256 : string; Bytes : list Z }.

Definition isSupportedArch (arch : string) : bool :=
  existsb (String.eqb arch) ["amd64"; "arm64"; "armv7"].

Definition normalizeArch (arch : string) : string :=
  let a := ToLower arch in
  if existsb (String.eqb a) ["amd64"; "x86_64"] then "amd64"
  else if existsb (String.eqb a) ["arm64"; "aarch64"] then "arm64"
  else if existsb (String.eqb a) ["arm"; "armv7"; "armv7l"; "armhf"] then "armv7"
  else "".

(** An entry of the directory of binaries: its name, whether it is a directory, its content. *)
Record DirEntry := { Name : string; IsDir : bool; content : option (list Z) }.

Section hub.
Context {M : Type → Type} `{KVStoreLaws M}.
Context {Ver : Type} (parse : string → option Ver) (LT : Ver → Ver → bool).
Context (sha256 : list Z → string).

Abbreviation cooldown_map := (ExpiryMap (M := M) (T := Z)).

Record agentUpdater := {
  disabled : bool;
  hubVersion : option Ver;
  binaries : gmap string agentBinary;
  cooldown : cooldown_map;
  cooldownTtl : Z;
  pushing : gmap string bool;
  pushedAt : gmap string Z;
}.

(** The loop over the directory. *)
Definition load_entry (version : string) (m : gmap string agentBinary) (e : DirEntry)
    : gmap string agentBinary :=
  if IsDir e then m
  else
    match CutPrefix (Name e) "agent-" with
    | None => m
    | Some arch =>
        if negb (isSupportedArch arch) then m
        else
          match content e with
          | None => m
          | Some data => <[arch := {| Arch := arch; Version := version; Sha256 := sha256 data;
                                      Bytes := data |}]> m
          end
    end.

Definition updater0 (off : bool) (v : option Ver) (m : gmap string agentBinary) : agentUpdater := {|
  disabled := off; hubVersion := v; binaries := m; cooldown := New; cooldownTtl := Hour;
  pushing := ∅; pushedAt := ∅ |}.

(** [dirs] reads a directory. *)
Definition newAgentUpdater (env : gmap string string) (version : string)
    (dirs : string → option (list DirEntry)) : agentUpdater :=
  let v := default "" (env !! "BANTAY_DISABLE_AUTO_UPDATE") in
  if EqualFold v "true" || String.eqb v "1" then updater0 true None ∅
  else
    match parse version with
    | None => updater0 true None ∅
    | Some hubVer =>
        let v := default "" (env !! "BANTAY_AGENT_BINARIES_DIR") in
        let dir := if String.eqb v "" then "/agents" else v in
        match dirs dir with
        | None => updater0 true (Some hubVer) ∅
        | Some entries =>
            let m := fold_left (load_entry version) entries ∅ in
            updater0 (bool_decide (m = ∅)) (Some hubVer) m
        end
    end.

(** What a poll knows of a system: its id, the version of its agent ([None] without data), and
    the architecture of its details ([None] without details). *)
Record System := { Id : string; AgentVersion : option string; details : option string }.

Definition detailsArch (sys : System) : string := default "" (details sys).

Definition with_cooldown (u : agentUpdater) (c : cooldown_map) : agentUpdater := {|
  disabled := disabled u; hubVersion := hubVersion u; binaries := binaries u; cooldown := c;
  cooldownTtl := cooldownTtl u; pushing := pushing u; pushedAt := pushedAt u |}.

Definition with_pushing (u : agentUpdater) (p : gmap string bool) : agentUpdater := {|
  disabled := disabled u; hubVersion := hubVersion u; binaries := binaries u;
  cooldown := cooldown u; cooldownTtl := cooldownTtl u; pushing := p; pushedAt := pushedAt u |}.

(** The agent is older than the hub. *)
Definition outdated (u : agentUpdater) (sys : System) : bool :=
  match AgentVersion sys, hubVersion u with
  | Some v, Some hubVer =>
      negb (String.eqb v "") &&
      match parse v with Some agentVer => LT agentVer hubVer | None => false end
  | _, _ => false
  end.

(** Looking up the cooldown may drop an expired entry. *)
Definition shouldAttempt (now : Z) (u : agentUpdater) (sys : System)
    : agentUpdater * option agentBinary :=
  if disabled u then (u, None)
  else if negb (outdated u sys) then (u, None)
  else
    match binaries u !! normalizeArch (detailsArch sys) with
    | None => (u, None)
    | Some bin =>
        let '(last, c) := GetOk now (cooldown u) (Id sys) in
        let u := with_cooldown u c in
        match last with
        | Some t => if now - t <? cooldownTtl u then (u, None) else (u, Some bin)
        | None => (u, Some bin)
        end
    end.

Definition markAttempted (now : Z) (u : agentUpdater) (systemID : string) : agentUpdater :=
  if disabled u then u
  else {| disabled := disabled u; hubVersion := hubVersion u; binaries := binaries u;
          cooldown := Set_ now (cooldown u) systemID now (cooldownTtl u + 5 * Minute);
          cooldownTtl := cooldownTtl u; pushing := pushing u;
          pushedAt := <[systemID := now]> (pushedAt u) |}.

Definition RecentlyPushed (now : Z) (u : agentUpdater) (systemID : string) (within : Z) : bool :=
  match pushedAt u !! systemID with Some t => now - t <? within | None => false end.

(** The flag of the system, created when it is missing, goes from false to true. *)
Definition claim (u : agentUpdater) (systemID : string) : agentUpdater * bool :=
  let flag := default false (pushing u !! systemID) in
  (with_pushing u (<[systemID := true]> (pushing u)), negb flag).

Definition release (u : agentUpdater) (systemID : string) : agentUpdater :=
  with_pushing u (<[systemID := false]> (pushing u)).

(** ** Polls and pushes *)

Record hub := {
  now : Z;
  updater : agentUpdater;
  spawned : list (string * agentBinary);   (* goroutines that have not claimed yet *)
  inflight : list string;                  (* pushes under way *)
  pushes : list (string * Z * agentBinary);   (* started pushes, the latest first *)
  polled : list System;                    (* what the polls so far knew of their systems *)
}.

(** [pushUpdate] up to the request. *)
Definition pushUpdate_start (h : hub) (systemID : string) (bin : agentBinary)
    (rest : list (string * agentBinary)) : hub :=
  let '(u, claimed) := claim (updater h) systemID in
  if claimed then
    {| now := now h; updater := markAttempted (now h) u systemID; spawned := rest;
       inflight := systemID :: inflight h; pushes := (systemID, now h, bin) :: pushes h;
       polled := polled h |}
  else {| now := now h; updater := u; spawned := rest; inflight := inflight h;
          pushes := pushes h; polled := polled h |}.

(** With [prompt], a system is polled only after the goroutine of its last poll started; without
    it, goroutines start as late as the scheduler likes. *)
Inductive step (prompt : bool) (h : hub) : hub → Prop :=
| step_time t : now h ≤ t →
    step prompt h {| now := t; updater := updater h; spawned := spawned h;
                     inflight := inflight h; pushes := pushes h; polled := polled h |}
| step_poll sys u bin :
    (prompt = true → Id sys ∉ (spawned h).*1) →
    shouldAttempt (now h) (updater h) sys = (u, bin) →
    step prompt h {| now := now h; updater := u;
                     spawned := match bin with Some b => (Id sys, b) :: spawned h
                                             | None => spawned h end;
                     inflight := inflight h; pushes := pushes h; polled := sys :: polled h |}
| step_start l1 id bin l2 :
    spawned h = l1 ++ (id, bin) :: l2 →
    step prompt h (pushUpdate_start h id bin (l1 ++ l2))
| step_finish l1 id l2 :
    inflight h = l1 ++ id :: l2 →
    step prompt h {| now := now h; updater := release (updater h) id; spawned := spawned h;
                     inflight := l1 ++ l2; pushes := pushes h; polled := polled h |}.

Definition hub0 (u : agentUpdater) (t : Z) : hub := {|
  now := t; updater := u; spawned := []; inflight := []; pushes := []; polled := [] |}.

(** ** Lemmas *)

(** What the directory gave: binaries under their own tag, with their own checksum. *)
Definition binaries_ok (version : string) (m : gmap string agentBinary) : Prop :=
  map_Forall (λ arch b, Arch b = arch ∧ isSupportedArch arch = true ∧ Version b = version ∧
                        Sha256 b = sha256 (Bytes b)) m.

Lemma newAgentUpdater_ok env version dirs :
  let u := newAgentUpdater env version dirs in
  binaries_ok version (binaries u) ∧ cooldownTtl u = Hour ∧ entries (cooldown u) = ∅ ∧
  pushing u = ∅.
Proof.
  cbv zeta. unfold newAgentUpdater.
  assert (∀ off v, let u := updater0 off v ∅ in
    binaries_ok version (binaries u) ∧ cooldownTtl u = Hour ∧ entries (cooldown u) = ∅ ∧
    pushing u = ∅) as Hnone.
  { intros off v. split_and!; try done. apply st_getAll_new. }
  destruct (_ || _); [apply Hnone|]. destruct (parse version) as [v|]; [|apply Hnone].
  cbv zeta. destruct (dirs _) as [es|]; [|apply Hnone].
  split_and!; try done; [|apply st_getAll_new]. simpl.
  apply fold_left_inv; [apply map_Forall_empty|]. intros m e _ Hm. unfold load_entry.
  repeat case_match; try done. apply map_Forall_insert_2; [|done].
  by destruct (isSupportedArch _).
Qed.

Lemma shouldAttempt_spec now u sys :
  let '(u', bin) := shouldAttempt now u sys in
  binaries u' = binaries u ∧ cooldownTtl u' = cooldownTtl u ∧ pushing u' = pushing u ∧
  hubVersion u' = hubVersion u ∧
  (bin = None ∨ disabled u = false) ∧ disabled u' = disabled u ∧
  (u' = u ∨ u' = with_cooldown u (GetOk now (cooldown u) (Id sys)).2) ∧
  ∀ b, bin = Some b ↔
    disabled u = false ∧ outdated u sys = true ∧
    binaries u !! normalizeArch (detailsArch sys) = Some b ∧
    (∀ t, live now (cooldown u) !! Id sys = Some t → cooldownTtl u ≤ now - t).
Proof.
  unfold shouldAttempt. pose proof (GetOk_value now (cooldown u) (Id sys)) as Hg.
  destruct (GetOk now (cooldown u) (Id sys)) as [last c]. simpl in Hg. rewrite <- Hg.
  destruct (disabled u) eqn:Hd; [split_and!; auto; naive_solver|].
  destruct (outdated u sys) eqn:Ho; simpl; [|split_and!; auto; naive_solver].
  destruct (binaries u !! _) as [bin|]; [|split_and!; auto; naive_solver].
  destruct last as [t|].
  - destruct (Z.ltb_spec (now - t) (cooldownTtl u)) as [Hlt|Hge]; split_and!; auto; intros b; split.
    + done.
    + intros (_&_&_&Hc). specialize (Hc t eq_refl). lia.
    + intros [= ->]. split_and!; try done. by intros ? [= <-].
    + naive_solver.
  - split_and!; auto. intros b. split; [intros [= ->]; split_and!; done|naive_solver].
Qed.

(** The entries of the cooldown cover the pushes of the last hour. *)
Definition covered (t0 : Z) (u : agentUpdater) (p : string * Z * agentBinary) : Prop :=
  let '(id, t, _) := p in
  t ≤ t0 ∧
  ((∃ t', t ≤ t' ≤ t0 ∧
      entries (cooldown u) !! id = Some {| value := t'; expires := t' + (Hour + 5 * Minute) |}) ∨
   t + (Hour + 5 * Minute) < t0).

Lemma covered_later t0 t1 u p : t0 ≤ t1 → covered t0 u p → covered t1 u p.
Proof. destruct p as [[id t] b]. unfold covered. intros ? [? [(t'&?&?)|?]]; naive_solver lia. Qed.

Lemma covered_same t0 u u' p : cooldown u' = cooldown u → covered t0 u p → covered t0 u' p.
Proof. destruct p as [[id t] b]. unfold covered. by intros ->. Qed.

Lemma covered_GetOk t0 u id p :
  covered t0 u p → covered t0 (with_cooldown u (GetOk t0 (cooldown u) id).2) p.
Proof.
  destruct p as [[id' t] b]. unfold covered. intros [Ht Hc]. split; [done|].
  destruct Hc as [(t'&Ht'&He)|?]; [|by right]. simpl. unfold GetOk.
  rewrite st_getOk_spec. destruct (st_getAll (store (cooldown u)) !! id) as [v|] eqn:Hid; [|eauto].
  destruct (expired t0 v) eqn:Hv; [|eauto]. simpl. unfold entries in *. simpl.
  rewrite st_getAll_remove. destruct (decide (id = id')) as [->|Hne].
  - right. rewrite He in Hid. injection Hid as <-. unfold expired in Hv. simpl in Hv. zbool. lia.
  - left. exists t'. by rewrite lookup_delete_ne.
Qed.

(** An agent is due again an hour after each of its pushes. *)
Definition due (t0 : Z) (ps : list (string * Z * agentBinary)) (id : string) : Prop :=
  ∀ t b, (id, t, b) ∈ ps → t + Hour ≤ t0.

Definition apart (p q : string * Z * agentBinary) : Prop := p.1.1 = q.1.1 → q.1.2 + Hour ≤ p.1.2.

Lemma due_poll t0 u ps sys b :
  cooldownTtl u = Hour → Forall (covered t0 u) ps →
  (shouldAttempt t0 u sys).2 = Some b → due t0 ps (Id sys).
Proof.
  intros Ht Hps Hb t b' Hin. pose proof (shouldAttempt_spec t0 u sys) as Hs.
  destruct (shouldAttempt t0 u sys) as [u' bin]. destruct Hs as (_&_&_&_&_&_&_&Hs).
  apply Hs in Hb as (_&_&_&Hc). rewrite Forall_forall in Hps.
  destruct (Hps _ Hin) as [_ [(t'&Ht'&He)|?]]; [|unfold Minute, Hour, Second in *; lia].
  rewrite live_lookup, He in Hc. simpl in Hc. unfold expired in Hc. simpl in Hc.
  destruct (Z.ltb_spec (t' + (Hour + 5 * Minute)) t0) as [?|?].
  - unfold Minute, Hour, Second in *. lia.
  - specialize (Hc _ eq_refl). lia.
Qed.

(** The flags of [pushing] are those of the pushes under way. *)
Definition claims_ok (h : hub) : Prop :=
  NoDup (inflight h) ∧ ∀ id, id ∈ inflight h ↔ pushing (updater h) !! id = Some true.

(** The poll behind a push: its agent was older than the hub, and the binary is the one under the
    tag of the architecture the agent reported. *)
Definition warranted (u0 : agentUpdater) (seen : list System) (id : string) (bin : agentBinary)
    : Prop :=
  ∃ sys, sys ∈ seen ∧ Id sys = id ∧ outdated u0 sys = true ∧
         binaries u0 !! normalizeArch (detailsArch sys) = Some bin.

Lemma warranted_more u0 sys seen id bin :
  warranted u0 seen id bin → warranted u0 (sys :: seen) id bin.
Proof. intros (sys'&?&?). exists sys'. split; [by right|done]. Qed.

(** What holds under every schedule. *)
Record hub_safe (u0 : agentUpdater) (h : hub) : Prop := {
  safe_binaries : binaries (updater h) = binaries u0;
  safe_version : hubVersion (updater h) = hubVersion u0;
  safe_claims : claims_ok h;
  safe_spawned : Forall (λ p, warranted u0 (polled h) p.1 p.2) (spawned h);
  safe_pushes : Forall (λ p, warranted u0 (polled h) p.1.1 p.2) (pushes h);
}.

(** What the prompt schedules keep besides. *)
Record hub_ok (h : hub) : Prop := {
  ok_ttl : cooldownTtl (updater h) = Hour;
  ok_enabled : spawned h ≠ [] → disabled (updater h) = false;
  ok_spawned : NoDup (spawned h).*1;
  ok_due : Forall (λ p, due (now h) (pushes h) p.1) (spawned h);
  ok_covered : Forall (covered (now h) (updater h)) (pushes h);
  ok_apart : ForallOrdPairs apart (pushes h);
}.

Lemma claim_start_ok h id :
  claims_ok h →
  let '(u, claimed) := claim (updater h) id in
  claimed = bool_decide (id ∉ inflight h) ∧
  ∀ id', id' ∈ (if claimed then id :: inflight h else inflight h) ↔ pushing u !! id' = Some true.
Proof.
  intros [Hnd Hin]. unfold claim. simpl.
  assert (negb (default false (pushing (updater h) !! id)) = bool_decide (id ∉ inflight h)) as E.
  { specialize (Hin id). destruct (pushing (updater h) !! id) as [[]|]; simpl;
      [rewrite bool_decide_eq_false_2|rewrite bool_decide_eq_true_2..]; naive_solver. }
  split; [done|]. intros id'. destruct (decide (id' = id)) as [->|Hne].
  - rewrite lookup_insert_eq, E. case_bool_decide; split; try done; intros _;
      first [by left|by apply dec_stable].
  - rewrite lookup_insert_ne by done. rewrite <- Hin. case_match; [|done].
    rewrite elem_of_cons. naive_solver.
Qed.

Lemma outdated_version u u' sys : hubVersion u' = hubVersion u → outdated u' sys = outdated u sys.
Proof. unfold outdated. by intros ->. Qed.

Lemma push_start_safe u0 h l1 id bin l2 :
  spawned h = l1 ++ (id, bin) :: l2 → hub_safe u0 h →
  hub_safe u0 (pushUpdate_start h id bin (l1 ++ l2)).
Proof.
  intros E [Hb Hv Hc Hs Hp]. rewrite E, Forall_app, Forall_cons in Hs.
  destruct Hs as (Hs1&Hw&Hs2). unfold pushUpdate_start.
  pose proof (claim_start_ok h id Hc) as Hcl. unfold claim in *. simpl in Hcl.
  destruct Hcl as [Hcd Hcl]. destruct (negb _) eqn:Hneg.
  - constructor; unfold markAttempted; simpl; try (destruct (disabled _); done);
      [|by apply Forall_app|by constructor].
    split; [|destruct (disabled _); exact Hcl]. apply NoDup_cons. split; [|apply Hc].
    symmetry in Hcd. by apply bool_decide_eq_true in Hcd.
  - constructor; simpl; try done; [split; [apply Hc|exact Hcl]|by apply Forall_app].
Qed.

Lemma finish_claims h l1 id l2 :
  inflight h = l1 ++ id :: l2 → claims_ok h →
  claims_ok {| now := now h; updater := release (updater h) id; spawned := spawned h;
               inflight := l1 ++ l2; pushes := pushes h; polled := polled h |}.
Proof.
  intros E [Hnd Hc]. rewrite E in Hnd. rewrite <- Permutation_middle in Hnd.
  apply NoDup_cons in Hnd as [Hni Hnd]. split; [done|]. intros id'. simpl.
  destruct (decide (id' = id)) as [->|Hne].
  - rewrite lookup_insert_eq. naive_solver.
  - rewrite lookup_insert_ne by done. rewrite <- Hc, E, !elem_of_app, elem_of_cons. naive_solver.
Qed.

Lemma step_safe b u0 h h' : step b h h' → hub_safe u0 h → hub_safe u0 h'.
Proof.
  intros Hst Hok. destruct Hst as [t Hle|sys u bin Hpr Hsa|l1 id bin l2 E|l1 id l2 E].
  - by destruct Hok.
  - destruct Hok as [Hb Hv Hc Hs Hp].
    pose proof (shouldAttempt_spec (now h) (updater h) sys) as Hspec. rewrite Hsa in Hspec.
    destruct Hspec as (E1&E2&E3&E4&_&_&_&Hbin).
    assert (∀ (A : Type) f g (l : list A), Forall (λ p, warranted u0 (polled h) (f p) (g p)) l →
      Forall (λ p, warranted u0 (sys :: polled h) (f p) (g p)) l) as Hmore.
    { intros A f g l Hl. eapply Forall_impl; [exact Hl|]. intros p. apply warranted_more. }
    constructor; simpl; [congruence..| | |by apply Hmore].
    + unfold claims_ok. simpl. by rewrite E3.
    + destruct bin as [b'|]; [constructor|]; [|by apply Hmore..].
      destruct (proj1 (Hbin b') eq_refl) as (_&Ho&Hl&_). exists sys.
      split_and!; [by left|done|by rewrite <- (outdated_version u0 (updater h))|by rewrite <- Hb].
  - by apply push_start_safe.
  - destruct Hok as [Hb Hv Hc Hs Hp]. constructor; try done. by apply finish_claims.
Qed.

Lemma spawned_remove l1 id bin l2 (P : string * agentBinary → Prop) :
  NoDup (l1 ++ (id, bin) :: l2).*1 → Forall P (l1 ++ (id, bin) :: l2) →
  NoDup (l1 ++ l2).*1 ∧ Forall P (l1 ++ l2) ∧ P (id, bin) ∧ id ∉ (l1 ++ l2).*1.
Proof.
  rewrite !fmap_app, fmap_cons, !Forall_app, !Forall_cons. simpl. intros Hnd.
  rewrite <- Permutation_middle, NoDup_cons in Hnd. naive_solver.
Qed.

Lemma push_start_ok h l1 id bin l2 :
  spawned h = l1 ++ (id, bin) :: l2 → hub_ok h → hub_ok (pushUpdate_start h id bin (l1 ++ l2)).
Proof.
  intros E [Ht He Hs Hd Hcov Ha]. rewrite E in Hs, Hd.
  destruct (spawned_remove _ _ _ _ _ Hs Hd) as (?&Hd'&Hdid&Hni).
  assert (disabled (updater h) = false) as Hen by (apply He; rewrite E; by destruct l1).
  unfold pushUpdate_start, claim. destruct (negb _); [|by constructor].
  constructor; unfold markAttempted; simpl; rewrite ?Hen; simpl; try done.
  - apply Forall_forall. intros [id' b'] Hin t b''. rewrite elem_of_cons. intros [[= -> -> ->]|Hin'].
    + destruct Hni. apply list_elem_of_fmap. by exists (id, b').
    + rewrite Forall_forall in Hd'. by apply (Hd' (id', b') Hin t b'').
  - constructor.
    + split; [lia|]. left. exists (now h). split; [lia|]. unfold entries, Set_. simpl.
      by rewrite st_getAll_set, lookup_insert_eq, Ht.
    + eapply Forall_impl; [exact Hcov|]. intros [[id' t] b'] [Htt Hx]. split; [done|]. simpl in *.
      destruct Hx as [(t'&?&Hx)|?]; [|by right]. left. unfold entries, Set_ in *. simpl.
      rewrite st_getAll_set. destruct (decide (id = id')) as [<-|Hne].
      * exists (now h). split; [lia|]. by rewrite lookup_insert_eq, Ht.
      * exists t'. by rewrite lookup_insert_ne.
  - constructor; [|done]. apply Forall_forall. intros [[id' t] b'] Hin. unfold apart. simpl.
    intros <-. by apply (Hdid t b').
Qed.

Lemma step_ok h h' : step true h h' → hub_ok h → hub_ok h'.
Proof.
  intros Hst Hok. destruct Hst as [t Hle|sys u bin Hpr Hsa|l1 id bin l2 E|l1 id l2 E].
  - destruct Hok as [Ht He Hs Hd Hcov Ha]. constructor; simpl; try done.
    + eapply Forall_impl; [exact Hd|]. intros p Hdue t' b' Hin. specialize (Hdue t' b' Hin). lia.
    + eapply Forall_impl; [exact Hcov|]. intros p. by apply covered_later.
  - destruct Hok as [Ht He Hs Hd Hcov Ha].
    pose proof (shouldAttempt_spec (now h) (updater h) sys) as Hspec.
    pose proof (due_poll (now h) (updater h) (pushes h) sys) as Hdue. rewrite Hsa in Hspec, Hdue.
    destruct Hspec as (E1&E2&E3&_&Hen&E4&Hcd&_).
    constructor; simpl; rewrite ?E2, ?E4; try done.
    + destruct Hen as [->|?]; [exact He|done].
    + destruct bin as [b|]; [|done]. apply NoDup_cons. auto.
    + destruct bin as [b|]; [|done]. constructor; [|done]. by apply (Hdue b).
    + eapply Forall_impl; [exact Hcov|]. intros p Hcp. destruct Hcd as [->| ->]; [done|].
      by apply covered_GetOk.
  - by apply push_start_ok.
  - by destruct Hok.
Qed.

(** C8: under every schedule of polls, push goroutines and ends of pushes, a system never has two
    pushes under way, and every push started goes to a system that some poll knew to run an agent
    older than the hub and carries the file the hub loaded for the architecture that poll knew,
    with the hub's version and the file's checksum. When besides a system is polled only after the
    goroutine of its last poll has started ([prompt]), the pushes of a system start at least an
    hour apart; [late_push] shows that this needs the proviso. *)
Theorem pushes_spaced env version dirs prompt t0 h :
  let u0 := newAgentUpdater env version dirs in
  rtc (step prompt) (hub0 u0 t0) h →
  NoDup (inflight h) ∧
  Forall (λ '(id, _, bin),
    Version bin = version ∧ isSupportedArch (Arch bin) = true ∧ Sha256 bin = sha256 (Bytes bin) ∧
    ∃ sys, sys ∈ polled h ∧ Id sys = id ∧ outdated u0 sys = true ∧
           Arch bin = normalizeArch (detailsArch sys)) (pushes h) ∧
  (prompt = true → ForallOrdPairs apart (pushes h)).
Proof.
  cbv zeta. destruct (newAgentUpdater_ok env version dirs) as (Hb&Ht&Hc&Hp). intros Hr.
  set (u0 := newAgentUpdater env version dirs) in *.
  assert (hub_safe u0 h) as [_ _ [Hnd _] _ Hps].
  { revert h Hr. apply rtc_ind_r; [|intros x y _; apply step_safe].
    constructor; simpl; try done; [|constructor..].
    split; [constructor|]. simpl. rewrite Hp. intros id. by rewrite lookup_empty, elem_of_nil. }
  split_and!; [done| |].
  - eapply Forall_impl; [exact Hps|]. intros [[id t] bin] (sys&?&?&?&Hl).
    destruct (Hb _ _ Hl) as (Ea&?&?&?). simpl in Ea. rewrite Ea. split_and!; try done. by exists sys.
  - intros ->. assert (hub_ok h) as [_ _ _ _ _ Ha]; [|done].
    revert h Hr Hnd Hps. intros h Hr _ _. revert h Hr.
    apply rtc_ind_r; [|intros x y _; apply step_ok]. constructor; simpl; try done; constructor.
Qed.
End hub.
Arguments agentUpdater : clear implicits.
Arguments hub : clear implicits.

(** [isExpectedDisconnect]; [deadline] is [errors.Is(err, context.DeadlineExceeded)]. *)
Definition isExpectedDisconnect (deadline : bool) (err : string) : bool :=
  deadline || Contains err "EOF" || Contains err "broken pipe" ||
  Contains err "session closed" || Contains err "connection reset".

(** ** The agent *)

Abbreviation files := (gmap string (list Z)).

(** What the operating system answers while a binary is installed. *)
Record outcomes := {
  o_mkdir : bool; o_open : bool; o_written : nat;   (* bytes that were written *)
  o_sync : bool; o_close : bool; o_removeTmp : bool; o_removeBak : bool;
  o_rotate : bool; o_promote : bool; o_restore : bool;
}.

Definition tmp_of (path : string) : string := (path ++ ".new")%string.
Definition bak_of (path : string) : string := (path ++ ".bak")%string.

Definition remove_if (ok : bool) (path : string) (fs : files) : files :=
  if ok then delete path fs else fs.

(** [os.Rename] of a file that exists, when it succeeds. *)
Definition rename (from to : string) (fs : files) : files :=
  match fs !! from with
  | Some data => <[to := data]> (delete from fs)
  | None => fs
  end.

(** Rotation and promotion, after the new file is complete. *)
Definition promote (path : string) (o : outcomes) (fs : files) : list files * bool :=
  let tmp := tmp_of path in
  let bak := bak_of path in
  let fs2 := rename tmp path fs in
  if o_promote o then ([fs; fs2], true)
  else
    match fs !! bak with
    | Some _ => ([fs; if o_restore o then rename bak path fs else fs], false)
    | None => ([fs], false)
    end.

(** [installBinary]: every state of the file system in order, and whether it succeeded. *)
Definition installBinary (path : string) (data : list Z) (o : outcomes) (fs : files)
    : list files * bool :=
  let tmp := tmp_of path in
  let bak := bak_of path in
  if negb (o_mkdir o) || negb (o_open o) then ([fs], false)
  else
    let fs1 := <[tmp := []]> fs in
    let fs2 := <[tmp := take (o_written o) data]> fs in
    if (o_written o <? List.length data)%nat || negb (o_sync o) || negb (o_close o) then
      ([fs; fs1; fs2; remove_if (o_removeTmp o) tmp fs2], false)
    else
      let fs3 := remove_if (o_removeBak o) bak fs2 in
      match fs3 !! path with
      | Some _ =>
          if o_rotate o then
            let '(l, ok) := promote path o (rename path bak fs3) in
            ([fs; fs1; fs2; fs3] ++ l, ok)
          else ([fs; fs1; fs2; fs3; remove_if (o_removeTmp o) tmp fs3], false)
      | None =>
          let '(l, ok) := promote path o fs3 in ([fs; fs1; fs2; fs3] ++ l, ok)
      end.

Definition agentArchTag (GOARCH : string) : string :=
  if String.eqb GOARCH "arm" then "armv7" else GOARCH.

(** [exe] is [os.Executable] with its links resolved. *)
Definition resolveInstallPath (GetEnv : string → option string) (exe : option string)
    : option string :=
  match GetEnv "BANTAY_AGENT_INSTALL_PATH" with
  | Some v => if String.eqb v "" then exe else Some v
  | None => exe
  end.

Inductive reply :=
| Refused (fs : files)                     (* an error, nothing written *)
| NotInstalled (states : list files)       (* the installation failed *)
| Installed (states : list files) (exits : bool).

(** [Handle]; [req] is the decoded request, [sent] the outcome of the answer. *)
Definition Handle (sha256 : list Z → string) (GOARCH : string)
    (GetEnv : string → option string) (exe : option string) (o : outcomes) (sent : bool)
    (req : option agentBinary) (fs : files) : reply :=
  match req with
  | None => Refused fs
  | Some req =>
      if negb (String.eqb (Arch req) (agentArchTag GOARCH)) then Refused fs
      else if (List.length (Bytes req) =? 0)%nat then Refused fs
      else if negb (String.eqb (sha256 (Bytes req)) (Sha256 req)) then Refused fs
      else
        match resolveInstallPath GetEnv exe with
        | None => Refused fs
        | Some path =>
            let '(states, ok) := installBinary path (Bytes req) o fs in
            if ok then Installed states sent else NotInstalled states
        end
  end.

(** [schedulePruneOldBackup], when its time comes. *)
Definition pruneOldBackup (path : option string) (ok : bool) (fs : files) : files :=
  match path with
  | None => fs
  | Some path =>
      match fs !! bak_of path with Some _ => remove_if ok (bak_of path) fs | None => fs end
  end.

(** A machine that stops here has an agent to start, or its backup to restore. *)
Definition recoverable (path : string) (old data : list Z) (fs : files) : Prop :=
  fs !! path = Some old ∨ fs !! path = Some data ∨
  (fs !! path = None ∧ fs !! bak_of path = Some old).

Lemma names_differ path :
  tmp_of path ≠ path ∧ bak_of path ≠ path ∧ tmp_of path ≠ bak_of path.
Proof.
  unfold tmp_of, bak_of.
  assert (∀ s t : string, (s ++ t)%string = s → t = ""%string) as Hnil.
  { intros s t Heq. apply (f_equal String.length) in Heq. rewrite string_length_app in Heq.
    destruct t; [done|]. simpl in Heq. lia. }
  split_and!; [by intros ?%Hnil..|]. intros Heq. by apply string_app_inv_l in Heq.
Qed.

(** Lookups in the files of an installation. *)
Ltac files_simpl :=
  unfold remove_if, rename, recoverable in *;
  repeat case_match; simplify_map_eq; auto 10.
Ltac each_state :=
  repeat (apply Forall_cons_2; [solve [files_simpl]|]); apply Forall_nil_2.

Lemma promote_spec path data o fs old :
  fs !! path = None → fs !! tmp_of path = Some data → fs !! bak_of path = Some old →
  let '(states, ok) := promote path o fs in
  ∃ pre s, states = pre ++ [s] ∧ Forall (recoverable path old data) states ∧
  (∀ p, p ≠ path → p ≠ tmp_of path → p ≠ bak_of path →
     Forall (λ s, s !! p = fs !! p) states) ∧
  if ok then s !! path = Some data ∧ s !! bak_of path = Some old
  else s !! path = Some old ∨
       (o_promote o = false ∧ o_restore o = false ∧ s !! path = None ∧ s !! bak_of path = Some old).
Proof.
  destruct (names_differ path) as (Ht&Hb&Htb). intros Hp Hd Ho. unfold promote.
  destruct (o_promote o) eqn:E1.
  - exists [fs], (rename (tmp_of path) path fs). split_and!; [done|..].
    + each_state.
    + intros p ???. each_state.
    + files_simpl.
    + files_simpl.
  - rewrite Ho. eexists [fs], _. split_and!; [done|..].
    + each_state.
    + intros p ???. each_state.
    + files_simpl.
Qed.

Lemma install_spec path data o fs old :
  fs !! path = Some old →
  let '(states, ok) := installBinary path data o fs in
  ∃ pre s, states = pre ++ [s] ∧ Forall (recoverable path old data) states ∧
  (∀ p, p ≠ path → p ≠ tmp_of path → p ≠ bak_of path →
     Forall (λ s, s !! p = fs !! p) states) ∧
  if ok then s !! path = Some data ∧ s !! bak_of path = Some old
  else s !! path = Some old ∨
       (o_promote o = false ∧ o_restore o = false ∧ s !! path = None ∧ s !! bak_of path = Some old).
Proof.
  destruct (names_differ path) as (Ht&Hb&Htb). intros Hold. unfold installBinary.
  destruct (negb (o_mkdir o) || negb (o_open o)).
  { exists [], fs. split_and!; [done|each_state|..|by left].
    intros p ???. each_state. }
  destruct ((o_written o <? List.length data)%nat || negb (o_sync o) || negb (o_close o)) eqn:Hw.
  { eexists [_; _; _], _. split_and!; [done|..].
    - each_state.
    - intros p ???. each_state.
    - left. files_simpl. }
  assert (take (o_written o) data = data) as ->.
  { apply orb_false_iff in Hw as [[Hw%Nat.ltb_ge _]%orb_false_iff _]. by apply firstn_all2. }
  set (fs3 := remove_if (o_removeBak o) (bak_of path) (<[tmp_of path := data]> fs)).
  assert (fs3 !! path = Some old) as H3 by (unfold fs3; files_simpl). rewrite H3.
  destruct (o_rotate o); [|].
  - pose proof (promote_spec path data o (rename path (bak_of path) fs3) old) as Hps.
    destruct (promote path o (rename path (bak_of path) fs3)) as [states ok].
    destruct Hps as (pre&s&->&Hr&Hu&Hres);
      [by unfold rename; rewrite H3; simplify_map_eq..
      |unfold rename; rewrite H3; unfold fs3; files_simpl
      |by unfold rename; rewrite H3; simplify_map_eq|].
    eexists ([_; _; _; fs3] ++ pre)%list, s. split_and!; [by rewrite <- app_assoc| |..|done].
    + apply Forall_app. split; [|done]. unfold fs3. each_state.
    + intros p Hp1 Hp2 Hp3. apply Forall_app. split; [unfold fs3; each_state|].
      eapply Forall_impl; [by apply Hu|]. simpl. intros x ->. unfold rename. rewrite H3.
      unfold fs3. files_simpl.
  - eexists [_; _; _; fs3], _. split_and!; [done|..].
    + unfold fs3. each_state.
    + intros p ???. unfold fs3. each_state.
    + left. unfold fs3. files_simpl.
Qed.

(** C7: whatever fails while a new binary is installed, and wherever the machine stops, the
    path of the agent holds the old binary or the whole new one, or is free while the backup
    holds the old one; success puts the new one in place and the old one into the backup,
    failure keeps the old one unless two renames in a row fail; other files are untouched. *)
Theorem install_crash_safe path data o fs old :
  fs !! path = Some old →
  let '(states, ok) := installBinary path data o fs in
  ∃ pre s, states = pre ++ [s] ∧ Forall (recoverable path old data) states ∧
  (∀ p, p ≠ path → p ≠ tmp_of path → p ≠ bak_of path →
     Forall (λ s, s !! p = fs !! p) states) ∧
  if ok then s !! path = Some data ∧ s !! bak_of path = Some old
  else s !! path = Some old ∨
       (o_promote o = false ∧ o_restore o = false ∧ s !! path = None ∧ s !! bak_of path = Some old).
Proof. apply install_spec. Qed.

(** Nothing goes wrong. *)
Definition all_well (o : outcomes) (data : list Z) : Prop :=
  o_mkdir o = true ∧ o_open o = true ∧ (List.length data ≤ o_written o)%nat ∧
  o_sync o = true ∧ o_close o = true ∧ o_rotate o = true ∧ o_promote o = true.

Lemma install_well path data o fs old :
  all_well o data → fs !! path = Some old → (installBinary path data o fs).2 = true.
Proof.
  intros (E1&E2&Hw&E3&E4&E5&E6) Hold. destruct (names_differ path) as (Ht&Hb&Htb).
  unfold installBinary, promote. rewrite E1, E2, E3, E4, E5, E6.
  rewrite (proj2 (Nat.ltb_ge _ _)) by done. simpl. repeat case_match; done.
Qed.

(** The two sides agree: a binary that the hub chooses for a system is accepted by an agent
    of the architecture the hub takes it for, and installed when no operation fails; the agent
    answers and exits only then. *)
Theorem pushed_binary_accepted {M} `{KVStoreLaws M} {Ver} (parse : string → option Ver) LT sha256
    henv version dirs u u' t sys b GOARCH GetEnv exe o sent path fs old :
  binaries u = binaries (newAgentUpdater (M := M) parse sha256 henv version dirs) →
  shouldAttempt (M := M) parse LT t u sys = (u', Some b) →
  agentArchTag GOARCH = normalizeArch (detailsArch sys) → Bytes b ≠ [] →
  resolveInstallPath GetEnv exe = Some path → fs !! path = Some old → all_well o (Bytes b) →
  ∃ pre s, Handle sha256 GOARCH GetEnv exe o sent (Some b) fs = Installed (pre ++ [s]) sent ∧
    s !! path = Some (Bytes b) ∧ s !! bak_of path = Some old.
Proof.
  intros Hb Hs Harch Hne Hpath Hold Hwell.
  pose proof (shouldAttempt_spec parse LT t u sys) as Hspec. rewrite Hs in Hspec.
  destruct Hspec as (_&_&_&_&_&_&_&Hspec). destruct (proj1 (Hspec b) eq_refl) as (_&_&Hl&_).
  destruct (newAgentUpdater_ok (M := M) parse sha256 henv version dirs) as (Hok&_).
  rewrite Hb in Hl. destruct (Hok _ _ Hl) as (Ha&_&_&Hsha).
  unfold Handle. rewrite Ha, Harch, String.eqb_refl. simpl.
  destruct (Bytes b) as [|x bytes] eqn:Hbytes; [done|]. simpl.
  rewrite Hsha, String.eqb_refl. simpl. rewrite Hpath.
  pose proof (install_well path (x :: bytes) o fs old Hwell Hold) as Hw.
  pose proof (install_spec path (x :: bytes) o fs old Hold) as Hi.
  destruct (installBinary path (x :: bytes) o fs) as [states ok]. simpl in Hw. subst ok.
  destruct Hi as (pre&s&->&_&_&?&?). by exists pre, s.
Qed.

(** ** A hub with one binary and an outdated agent *)

Definition ex_parse (v : string) : option Z :=
  if String.eqb v "1.0.1" then Some 1 else if String.eqb v "1.0.0" then Some 0 else None.
Definition ex_sha (data : list Z) : string := "7f45".
Definition ex_dirs (dir : string) : option (list DirEntry) :=
  Some [{| Name := "README"; IsDir := false; content := Some [] |};
        {| Name := "agent-amd64"; IsDir := false; content := Some [127; 69] |}].
Definition ex_updater : agentUpdater (gmap string) Z := newAgentUpdater ex_parse ex_sha ∅ "1.0.1" ex_dirs.
Definition ex_sys : System := {|
  Id := "s1"; AgentVersion := Some "1.0.0"%string; details := Some "x86_64"%string |}.
Definition ex_bin : agentBinary := {|
  Arch := "amd64"; Version := "1.0.1"; Sha256 := "7f45"; Bytes := [127; 69] |}.

Abbreviation ex_hub := (hub (gmap string) Z).
Definition ex_poll (h : ex_hub) : ex_hub := {|
  now := now h; updater := (shouldAttempt ex_parse Z.ltb (now h) (updater h) ex_sys).1;
  spawned := match (shouldAttempt ex_parse Z.ltb (now h) (updater h) ex_sys).2 with
             | Some b => (Id ex_sys, b) :: spawned h | None => spawned h end;
  inflight := inflight h; pushes := pushes h; polled := ex_sys :: polled h |}.
Definition ex_finish (h : ex_hub) : ex_hub := {|
  now := now h; updater := release (updater h) "s1"; spawned := spawned h; inflight := [];
  pushes := pushes h; polled := polled h |}.
Definition ex_wait (h : ex_hub) (d : Z) : ex_hub := {|
  now := now h + d; updater := updater h; spawned := spawned h; inflight := inflight h;
  pushes := pushes h; polled := polled h |}.
Definition ex_1 : ex_hub := ex_poll (hub0 ex_updater 0).
Definition ex_2 : ex_hub := pushUpdate_start ex_1 "s1" ex_bin [].
Definition ex_2f : ex_hub := ex_finish ex_2.
Definition ex_2p : ex_hub := ex_poll ex_2f.
Definition ex_2w : ex_hub := ex_wait ex_2p Hour.
Definition ex_3 : ex_hub := ex_poll ex_2w.
Definition ex_4 : ex_hub := pushUpdate_start ex_3 "s1" ex_bin [].

Lemma ex_poll_step b h :
  (b = true → Id ex_sys ∉ (spawned h).*1) → step ex_parse Z.ltb b h (ex_poll h).
Proof.
  intros Hn. apply step_poll with (sys := ex_sys)
    (bin := (shouldAttempt ex_parse Z.ltb (now h) (updater h) ex_sys).2); [done|].
  apply surjective_pairing.
Qed.

(** An hour later the same agent, still outdated, gets a second push. *)
Lemma pushes_spaced_witness :
  map (λ p, (p.1.1, p.1.2)) (pushes ex_4) = [("s1"%string, Hour); ("s1"%string, 0)] ∧
  ForallOrdPairs apart (pushes ex_4).
Proof.
  split; [reflexivity|].
  refine (proj2 (proj2 (pushes_spaced ex_parse Z.ltb ex_sha ∅ "1.0.1" ex_dirs true 0 ex_4 _)) eq_refl).
  apply (rtc_l _ _ ex_1); [apply ex_poll_step; intros _; apply not_elem_of_nil|].
  apply (rtc_l _ _ ex_2); [exact (step_start _ _ true ex_1 [] "s1" ex_bin [] eq_refl)|].
  apply (rtc_l _ _ ex_2f); [exact (step_finish _ _ true ex_2 [] "s1" [] eq_refl)|].
  apply (rtc_l _ _ ex_2p); [apply ex_poll_step; intros _; apply not_elem_of_nil|].
  apply (rtc_l _ _ ex_2w).
  { apply (step_time _ _ true ex_2p (now ex_2p + Hour)). unfold Hour, Minute, Second. lia. }
  apply (rtc_l _ _ ex_3); [apply ex_poll_step; intros _; apply not_elem_of_nil|].
  apply (rtc_l _ _ ex_4); [exact (step_start _ _ true ex_3 [] "s1" ex_bin [] eq_refl)|].
  apply rtc_refl.
Defined.

Definition ex_l2 : ex_hub := ex_poll (ex_wait ex_1 Minute).
Definition ex_l3 : ex_hub := pushUpdate_start ex_l2 "s1" ex_bin [("s1"%string, ex_bin)].
Definition ex_l4 : ex_hub := ex_finish ex_l3.
Definition ex_l5 : ex_hub := pushUpdate_start ex_l4 "s1" ex_bin [].

(** Two polls spawn before either goroutine runs; the second starts when the first push is over
    and does not look at the cooldown again: two pushes at the same time of the clock. *)
Example late_push :
  rtc (step ex_parse Z.ltb false) (hub0 ex_updater 0) ex_l5 ∧
  map (λ p, (p.1.1, p.1.2)) (pushes ex_l5) = [("s1"%string, Minute); ("s1"%string, Minute)].
Proof.
  split; [|reflexivity].
  apply (rtc_l _ _ ex_1); [by apply ex_poll_step|].
  apply (rtc_l _ _ (ex_wait ex_1 Minute)).
  { apply (step_time _ _ false ex_1 (now ex_1 + Minute)). unfold Minute, Second. lia. }
  apply (rtc_l _ _ ex_l2); [by apply ex_poll_step|].
  apply (rtc_l _ _ ex_l3); [exact (step_start _ _ false ex_l2 [] "s1" ex_bin [("s1"%string, ex_bin)] eq_refl)|].
  apply (rtc_l _ _ ex_l4); [exact (step_finish _ _ false ex_l3 [] "s1" [] eq_refl)|].
  apply (rtc_l _ _ ex_l5); [exact (step_start _ _ false ex_l4 [] "s1" ex_bin [] eq_refl)|].
  apply rtc_refl.
Qed.

Definition ex_fs : files := {["/opt/agent" := [1; 2; 3]]}.
Definition ex_outcomes (ok : bool) : outcomes := {|
  o_mkdir := true; o_open := true; o_written := 2; o_sync := true; o_close := true;
  o_removeTmp := true; o_removeBak := true; o_rotate := true; o_promote := ok; o_restore := true |}.

(** The promotion fails: the old binary comes back. *)
Lemma install_crash_safe_witness :
  ∃ states s, installBinary "/opt/agent" [127; 69] (ex_outcomes false) ex_fs = (states ++ [s], false) ∧
    Forall (recoverable "/opt/agent" [1; 2; 3] [127; 69]) (states ++ [s]) ∧
    s !! "/opt/agent" = Some [1; 2; 3].
Proof.
  pose proof (install_crash_safe "/opt/agent" [127; 69] (ex_outcomes false) ex_fs [1; 2; 3]
    eq_refl) as Hi.
  destruct (installBinary _ _ _ _) as [states ok] eqn:E. destruct Hi as (pre&s&->&Hr&_&Hf).
  exists pre, s. assert (ok = false) as -> by (by injection E).
  split_and!; [done..|]. destruct Hf as [?|(_&Hx&_)]; [done|discriminate Hx].
Defined.

Lemma pushed_binary_accepted_witness :
  ∃ pre s, Handle ex_sha "amd64" (λ _, None) (Some "/opt/agent"%string) (ex_outcomes true) true
      (Some ex_bin) ex_fs = Installed (pre ++ [s]) true ∧ s !! "/opt/agent" = Some [127; 69].
Proof.
  destruct (pushed_binary_accepted (M := gmap string) ex_parse Z.ltb ex_sha ∅ "1.0.1" ex_dirs
    ex_updater (shouldAttempt ex_parse Z.ltb 0 ex_updater ex_sys).1 0 ex_sys ex_bin "amd64"
    (λ _, None) (Some "/opt/agent"%string) (ex_outcomes true) true "/opt/agent" ex_fs [1; 2; 3])
    as (pre&s&H1&H2&_); try reflexivity; [done|split_and!; try reflexivity; simpl; lia|].
  exists pre, s. split; assumption.
Defined.
End AgentUpdate.
