(* ===== verification/Transport.v ===== *)
(** * Requests over two transports ([internal/hub/transport], [internal/hub/systems/system.go])

    The hub asks an agent over its WebSocket, and over SSH when that fails.  What
    the network does is an argument: one record per try, with the outcome of each
    operation in the order the code performs them.  Every try is logged, so that
    the theorems can count how often a request reached an agent.

    CBOR is third-party, the class [Codec].  A struct is the finite map of its
    fields that are not zero, by the path of their keys: zero fields are left out
    of a message ([omitempty], [omitzero]), and decoding into a struct sets the
    fields of the message and leaves the others as they are.  [CodecLaws] states
    this documented behaviour.  The agent's side of a response is
    [agent/response.go]. *)

From S2P Require Import Prelude GoStrings GoText.

Module Transport.
Local Open Scope Z_scope.

Inductive WebSocketAction :=
| GetData | CheckFingerprint | GetContainerLogs | GetContainerInfo | GetSmartData | GetSystemdInfo
| RestartAgent | PushAgentBinary.

Inductive error :=
| DeadlineExceeded | Canceled | ErrConnClosed | ErrWebSocketNotConnected
| Err (msg : string).

Section transport.
Context {V Raw : Type} `{EqDecision V}.
Abbreviation fields := (gmap (list Z) V).

(** The pointer a caller passes for the answer: its Go type, and what it points to. *)
Inductive dest :=
| Nil
| CombinedData (d : fields) | FingerprintResponse (d : fields) | String_ (s : string)
| SmartData (d : fields) | ServiceDetails (d : fields) | Bool (b : bool).

Record AgentResponse := {
  r_SystemData : option fields;
  r_Fingerprint : option fields;
  r_Error : string;
  r_String : option string;
  r_SmartData : option fields;
  r_ServiceInfo : option fields;
  r_Data : option Raw;               (* [None] when it is empty *)
}.

(** [newAgentResponse]; [Marshal] encodes a boolean, the only other type handlers send. *)
Definition newAgentResponse (Marshal : bool → Raw) (data : dest) : AgentResponse :=
  let none := {| r_SystemData := None; r_Fingerprint := None; r_Error := ""; r_String := None;
                 r_SmartData := None; r_ServiceInfo := None; r_Data := None |} in
  match data with
  | CombinedData v => {| r_SystemData := Some v; r_Fingerprint := None; r_Error := "";
      r_String := None; r_SmartData := None; r_ServiceInfo := None; r_Data := None |}
  | FingerprintResponse v => {| r_SystemData := None; r_Fingerprint := Some v; r_Error := "";
      r_String := None; r_SmartData := None; r_ServiceInfo := None; r_Data := None |}
  | String_ v => {| r_SystemData := None; r_Fingerprint := None; r_Error := "";
      r_String := Some v; r_SmartData := None; r_ServiceInfo := None; r_Data := None |}
  | SmartData v => {| r_SystemData := None; r_Fingerprint := None; r_Error := "";
      r_String := None; r_SmartData := Some v; r_ServiceInfo := None; r_Data := None |}
  | ServiceDetails v => {| r_SystemData := None; r_Fingerprint := None; r_Error := "";
      r_String := None; r_SmartData := None; r_ServiceInfo := Some v; r_Data := None |}
  | Bool b => {| r_SystemData := None; r_Fingerprint := None; r_Error := ""; r_String := None;
      r_SmartData := None; r_ServiceInfo := None; r_Data := Some (Marshal b) |}
  | Nil => none
  end.

(** What arrives of a response: maps that are empty are left out. *)
Definition nonempty (m : option fields) : option fields :=
  match m with Some x => if decide (x = ∅) then None else Some x | None => None end.

Definition wire (r : AgentResponse) : AgentResponse := {|
  r_SystemData := r_SystemData r; r_Fingerprint := r_Fingerprint r; r_Error := r_Error r;
  r_String := r_String r; r_SmartData := nonempty (r_SmartData r);
  r_ServiceInfo := nonempty (r_ServiceInfo r); r_Data := r_Data r |}.

Class Codec := {
  Unmarshal : Raw → dest → dest * option string;   (* the destination after it, and the error *)
  Marshal_bool : bool → Raw;
  encode_response : AgentResponse → Raw;
  decode_response : Raw → AgentResponse + string;  (* into a fresh response *)
  encode_data : fields → Raw;
}.

Class CodecLaws `{Codec} := {
  Unmarshal_bool : ∀ b b', Unmarshal (Marshal_bool b) (Bool b') = (Bool b, None);
  decode_encode : ∀ r, decode_response (encode_response r) = inl (wire r);
  Unmarshal_data : ∀ x d, Unmarshal (encode_data x) (CombinedData d) = (CombinedData (x ∪ d), None);
}.

Context `{Cod : Codec}.

Definition unexpected (action : string) : error := Err ("unexpected dest type for " ++ action).

(** [unmarshalLegacyResponse] *)
Definition unmarshalLegacyResponse (resp : AgentResponse) (action : WebSocketAction) (d : dest)
    : dest * option error :=
  match action with
  | GetData =>
      match d, r_SystemData resp with
      | CombinedData _, Some x => (CombinedData x, None)
      | CombinedData _, None => (d, Some (Err "no system data in response"))
      | _, _ => (d, Some (unexpected "GetData"))
      end
  | CheckFingerprint =>
      match d, r_Fingerprint resp with
      | FingerprintResponse _, Some x => (FingerprintResponse x, None)
      | FingerprintResponse _, None => (d, Some (Err "no fingerprint in response"))
      | _, _ => (d, Some (unexpected "CheckFingerprint"))
      end
  | GetContainerLogs =>
      match d, r_String resp with
      | String_ _, Some x => (String_ x, None)
      | String_ _, None => (d, Some (Err "no logs in response"))
      | _, _ => (d, Some (unexpected "GetContainerLogs"))
      end
  | GetContainerInfo =>
      match d, r_String resp with
      | String_ _, Some x => (String_ x, None)
      | String_ _, None => (d, Some (Err "no info in response"))
      | _, _ => (d, Some (unexpected "GetContainerInfo"))
      end
  | GetSmartData =>
      match d, r_SmartData resp with
      | SmartData _, Some x => (SmartData x, None)
      | SmartData _, None => (d, Some (Err "no SMART data in response"))
      | _, _ => (d, Some (unexpected "GetSmartData"))
      end
  | GetSystemdInfo =>
      match d, r_ServiceInfo resp with
      | ServiceDetails _, Some x => (ServiceDetails x, None)
      | ServiceDetails _, None => (d, Some (Err "no systemd info in response"))
      | _, _ => (d, Some (unexpected "GetSystemdInfo"))
      end
  | RestartAgent | PushAgentBinary => (d, Some (Err "unsupported action"))
  end.

Definition UnmarshalResponse (resp : AgentResponse) (action : WebSocketAction) (d : dest)
    : dest * option error :=
  match d with
  | Nil => (d, Some (Err "nil destination"))
  | _ =>
      match r_Data resp with
      | Some raw =>
          match Unmarshal raw d with
          | (d, None) => (d, None)
          | (d, Some e) => (d, Some (Err ("failed to unmarshal generic response data: " ++ e)))
          end
      | None => unmarshalLegacyResponse resp action d
      end
  end.

(** ** The WebSocket *)

(** What happens to a request on the WebSocket: [SendRequest] fails, or a message comes, or the
    context of the request ends first. *)
Inductive ws_outcome :=
| SendFails (e : error)
| Message (raw : Raw)
| ContextDone (e : error).

Record ws := {
  ws_connected : bool;
  ws_legacy : bool;         (* the agent is older than [MinVersionAgentResponse] *)
  ws_outcomes : ws_outcome;
}.

Definition as_error (r : dest * option string) : dest * option error :=
  (r.1, option_map Err r.2).

Definition WebSocket_Request (w : ws) (action : WebSocketAction) (d : dest)
    : dest * option error :=
  if negb (ws_connected w) then (d, Some ErrWebSocketNotConnected)
  else
    match ws_outcomes w with
    | SendFails e => (d, Some e)
    | ContextDone e => (d, Some e)
    | Message raw =>
        if ws_legacy w then as_error (Unmarshal raw d)
        else
          match decode_response raw with
          | inr e => (d, Some (Err e))
          | inl resp =>
              if negb (String.eqb (r_Error resp) "") then (d, Some (Err (r_Error resp)))
              else UnmarshalResponse resp action d
          end
    end.

(** ** SSH *)

(** One try: each operation's error in order, [None] when it succeeds. *)
Record ssh_try := {
  t_dial : option string;
  t_session : option string;     (* creating the session within the timeout *)
  t_shell : option string;       (* the pipes and the shell *)
  t_encode : option string;
  t_response : AgentResponse + string;
  t_wait : option string;
}.

(** [SSHTransport], as far as requests change it: whether it has a client. *)
Definition SSH_Request (client : bool) (t : ssh_try) (action : WebSocketAction) (d : dest)
    : bool * dest * option error :=
  match (if client then None else t_dial t) with
  | Some e => (false, d, Some (Err e))
  | None =>
      match t_session t with
      | Some e => (true, d, Some (Err e))
      | None =>
          match t_shell t with
          | Some e => (true, d, Some (Err e))
          | None =>
              match t_encode t with
              | Some e => (true, d, Some (Err ("failed to encode request: " ++ e)))
              | None =>
                  match t_response t with
                  | inr e => (true, d, Some (Err ("failed to decode response: " ++ e)))
                  | inl resp =>
                      if negb (String.eqb (r_Error resp) "")
                      then (true, d, Some (Err (r_Error resp)))
                      else
                        match t_wait t with
                        | Some e => (true, d, Some (Err e))
                        | None => let '(d, e) := UnmarshalResponse resp action d in (true, d, e)
                        end
                  end
              end
          end
      end
  end.

(** The text of [io.EOF] is ["EOF"]. *)
Definition isConnectionError (e : error) : bool :=
  match e with
  | Err msg => Contains msg "connection" || Contains msg "EOF" || Contains msg "closed"
  | ErrConnClosed | ErrWebSocketNotConnected => true
  | DeadlineExceeded | Canceled => false
  end.

(** What was tried, in order; [Answered] when a response of the agent was read. *)
Inductive event := ByWebSocket (answered : bool) | BySSH (answered : bool).

Definition ssh_answered (client : bool) (t : ssh_try) : bool :=
  match (if client then None else t_dial t), t_session t, t_shell t, t_encode t, t_response t with
  | None, None, None, None, inl _ => true
  | _, _, _, _, _ => false
  end.

(** [RequestWithRetry]; [tries n] is what happens at the [n]th attempt. *)
Fixpoint RequestWithRetry (retries n : nat) (client : bool) (tries : nat → ssh_try)
    (action : WebSocketAction) (d : dest) : bool * dest * option error * list event :=
  let '(client', d, e) := SSH_Request client (tries n) action d in
  let log := [BySSH (ssh_answered client (tries n))] in
  match e, retries with
  | None, _ => (client', d, None, log)
  | Some e, O => (client', d, Some e, log)
  | Some e, S retries =>
      if isConnectionError e then
        let '(c, d, r, log') := RequestWithRetry retries (S n) false tries action d in
        (c, d, r, log ++ log')
      else (client', d, Some e, log)
  end.

(** ** A system *)

Record System := {
  WsConn : option ws;
  wsClosed : bool;              (* [closeWebSocketConnection] was called *)
  sshTransport : bool;          (* [sshTransport != nil] *)
  tclient : bool;               (* [sshTransport.client != nil] *)
  client : bool;                (* [client != nil] *)
  sys_data : fields;
}.

Definition closeWebSocketConnection (s : System) : System := {|
  WsConn := WsConn s; wsClosed := true; sshTransport := sshTransport s; tclient := tclient s;
  client := client s;
  sys_data := sys_data s |}.

Definition set_ssh (s : System) (t tc c : bool) : System := {|
  WsConn := WsConn s; wsClosed := wsClosed s; sshTransport := t; tclient := tc; client := c;
  sys_data := sys_data s |}.

Definition closeSSHConnection (s : System) : System := set_ssh s (sshTransport s) false false.
Definition set_client (s : System) (c : bool) : System := set_ssh s (sshTransport s) (tclient s) c.

Definition set_data (s : System) (d : fields) : System := {|
  WsConn := WsConn s; wsClosed := wsClosed s; sshTransport := sshTransport s; tclient := tclient s;
  client := client s; sys_data := d |}.

Definition shouldFallbackToSSH (e : error) : bool :=
  match e with
  | DeadlineExceeded | Canceled | ErrConnClosed | ErrWebSocketNotConnected => true
  | Err _ => false
  end.

Definition shouldCloseWebSocket (e : error) : bool :=
  match e with ErrConnClosed | ErrWebSocketNotConnected => true | _ => false end.

Definition ws_answered (w : ws) : bool :=
  match ws_outcomes w with Message _ => true | _ => false end.

(** [ensureSSHTransport] and the request; [config] is the outcome of [createSSHClientConfig]. *)
Definition request_ssh (config : option string) (tries : nat → ssh_try) (s : System)
    (action : WebSocketAction) (d : dest) : System * dest * option error * list event :=
  match (if sshTransport s then None else config) with
  | Some e => (s, d, Some (Err e), [])
  | None =>
      let '(c, d, e, log) := RequestWithRetry 1 0 (client s || tclient s) tries action d in
      (set_ssh s true c c, d, e, log)
  end.

Definition request (config : option string) (tries : nat → ssh_try) (s : System)
    (action : WebSocketAction) (d : dest) : System * dest * option error * list event :=
  match WsConn s with
  | Some w =>
      if ws_connected w then
        let '(d, e) := WebSocket_Request w action d in
        let log := [ByWebSocket (ws_answered w)] in
        match e with
        | None => (s, d, None, log)
        | Some e =>
            if negb (shouldFallbackToSSH e) then (s, d, Some e, log)
            else
              let s := if shouldCloseWebSocket e then closeWebSocketConnection s else s in
              let '(s, d, e, log') := request_ssh config tries s action d in
              (s, d, e, log ++ log')
        end
      else request_ssh config tries s action d
  | None => request_ssh config tries s action d
  end.

(** ** Fetching the data *)

(** One attempt of [runSSHOperation] with the operation of [fetchDataViaSSH]; a new agent
    answers with a response, an older one with the bare data, in CBOR or JSON. *)
Record fetch_try := {
  f_config : option string;            (* [createSSHClientConfig], if there is no config yet *)
  f_dial : option string;
  f_session : option string;
  f_stdout : option string;
  f_shell : option string;
  f_new : bool;                        (* the agent has [MinVersionAgentResponse] and a stdin *)
  f_response : option fields;          (* its response, when it decodes and has data *)
  f_bare : fields + string;            (* what decoding bare data gives *)
  f_wait : option string;
}.

(** The operation: the data, whether it may be retried, and the error. *)
Definition ssh_operation (t : fetch_try) (d : fields) : fields * bool * option string :=
  match f_stdout t, f_shell t with
  | Some e, _ => (d, false, Some e)
  | None, Some e => (d, false, Some e)
  | None, None =>
      match (if f_new t then f_response t else None) with
      | Some x => (x, false, f_wait t)
      | None =>
          match f_bare t with
          | inr e => (∅, true, Some e)
          | inl x => (x ∪ ∅, false, f_wait t)
          end
      end
  end.

(** [createSSHClient] *)
Definition createSSHClient (t : fetch_try) (s : System) : System * option string :=
  match f_config t with
  | Some e => (s, Some e)
  | None =>
      match f_dial t with
      | Some e => (set_client s false, Some e)
      | None => (set_client s true, None)
      end
  end.

(** [runSSHOperation]; [down] is [sys.Status == down]. *)
Fixpoint runSSHOperation (retries n : nat) (down : bool) (tries : nat → fetch_try)
    (s : System) : System * option string :=
  let t := tries n in
  match (if negb (client s) || down then createSSHClient t s else (s, None)) with
  | (s, Some e) => (s, Some e)
  | (s, None) =>
      match f_session t with
      | Some e =>
          match retries with
          | O => (s, Some e)
          | S retries => runSSHOperation retries (S n) down tries (closeSSHConnection s)
          end
      | None =>
          let '(d, retry, e) := ssh_operation t (sys_data s) in
          let s := set_data s d in
          match e with
          | None => (s, None)
          | Some e =>
              if retry then
                let s := closeSSHConnection s in
                match retries with
                | O => (s, Some e)
                | S retries => runSSHOperation retries (S n) down tries s
                end
              else (s, Some e)
          end
      end
  end.

Definition fetchDataViaSSH (down : bool) (tries : nat → fetch_try) (s : System)
    : System * option string :=
  runSSHOperation 1 0 down tries s.

Definition fetchDataViaWebSocket (w : ws) (s : System) : System * option error :=
  if negb (ws_connected w) then (s, Some (Err "no websocket connection"))
  else
    let '(d, e) := WebSocket_Request w GetData (CombinedData (sys_data s)) in
    (match d with CombinedData x => set_data s x | _ => s end, e).

(** The data on success is [sys_data]. *)
Definition fetchDataFromAgent (down : bool) (tries : nat → fetch_try) (s : System)
    : System * option string :=
  match WsConn s with
  | Some w =>
      if ws_connected w then
        let '(s, e) := fetchDataViaWebSocket w s in
        match e with
        | None => (s, None)
        | Some _ => fetchDataViaSSH down tries (closeWebSocketConnection s)
        end
      else fetchDataViaSSH down tries s
  | None => fetchDataViaSSH down tries s
  end.

(** ** Responses *)

(** The action a destination is used for. *)
Definition suits (action : WebSocketAction) (d : dest) : bool :=
  match action, d with
  | GetData, CombinedData _ | CheckFingerprint, FingerprintResponse _
  | GetContainerLogs, String_ _ | GetContainerInfo, String_ _ | GetSmartData, SmartData _
  | GetSystemdInfo, ServiceDetails _ | RestartAgent, Bool _ | PushAgentBinary, Bool _ => true
  | _, _ => false
  end.

(** Two pointers of the same Go type. *)
Definition same_type (d v : dest) : bool :=
  match d, v with
  | CombinedData _, CombinedData _ | FingerprintResponse _, FingerprintResponse _
  | String_ _, String_ _ | SmartData _, SmartData _ | ServiceDetails _, ServiceDetails _
  | Bool _, Bool _ => true
  | _, _ => false
  end.

Definition empty_map (v : dest) : bool :=
  match v with SmartData x | ServiceDetails x => bool_decide (x = ∅) | _ => false end.

Lemma UnmarshalResponse_spec `{!CodecLaws} action d v :
  suits action v = true → same_type d v = true →
  UnmarshalResponse (wire (newAgentResponse Marshal_bool v)) action d =
  if empty_map v
  then (d, Some (Err (match v with SmartData _ => "no SMART data in response"
                                 | _ => "no systemd info in response" end)))
  else (v, None).
Proof.
  intros Hs Ht. destruct v, d; try done; destruct action; try done;
    unfold UnmarshalResponse, newAgentResponse, wire, nonempty; simpl; try done;
    rewrite ?Unmarshal_bool; try done; case_decide; by case_bool_decide.
Qed.

(** The agent is one of today, and whatever of it is read is its answer [v]. *)
Definition ws_honest (w : ws) (v : dest) : Prop :=
  ws_legacy w = false ∧
  ∀ raw, ws_outcomes w = Message raw → raw = encode_response (newAgentResponse Marshal_bool v).

Definition ssh_honest (t : ssh_try) (v : dest) : Prop :=
  ∀ resp, t_response t = inl resp → resp = wire (newAgentResponse Marshal_bool v).

(** Nothing goes wrong in a try over SSH. *)
Definition ssh_answers (t : ssh_try) : Prop :=
  t_dial t = None ∧ t_session t = None ∧ t_shell t = None ∧ t_encode t = None ∧
  (∃ resp, t_response t = inl resp) ∧ t_wait t = None.

(** A try over SSH gets through: the first one, or the second after an error of the first that
    speaks of the connection. *)
Definition ssh_reaches (c : bool) (tries : nat → ssh_try) (action : WebSocketAction) (d : dest)
    : Prop :=
  ssh_answers (tries O) ∨
  (∃ e, (SSH_Request c (tries O) action d).2 = Some e ∧ isConnectionError e = true) ∧
  ssh_answers (tries 1%nat).

(** Some way of [request] gets through: the WebSocket, or SSH without a WebSocket or after an
    error of it that lets the hub fall back. *)
Definition reaches (config : option string) (tries : nat → ssh_try) (s : System)
    (action : WebSocketAction) (d : dest) : Prop :=
  (∃ w raw, WsConn s = Some w ∧ ws_connected w = true ∧ ws_outcomes w = Message raw) ∨
  ((∀ w, WsConn s = Some w → ws_connected w = true →
      ∃ e, (ws_outcomes w = SendFails e ∨ ws_outcomes w = ContextDone e) ∧
           shouldFallbackToSSH e = true) ∧
   (sshTransport s = true ∨ config = None) ∧
   ssh_reaches (client s || tclient s) tries action d).

(** A caller's destination after a try: the answer, or as it was. *)
Definition delivered (v d : dest) (r : dest * option error) : Prop :=
  match r.2 with None => r.1 = v ∧ empty_map v = false | Some _ => r.1 = d end.

Lemma answer_no_error v : r_Error (wire (newAgentResponse Marshal_bool v)) = "".
Proof. by destruct v. Qed.

Lemma ws_failure action d w :
  ws_connected w = true → ∀ e, ws_outcomes w = SendFails e ∨ ws_outcomes w = ContextDone e →
  (WebSocket_Request w action d).2 = Some e.
Proof. intros Hc e Ho. unfold WebSocket_Request. rewrite Hc. by destruct Ho as [-> | ->]. Qed.

Section honest.
Context `{!CodecLaws} (action : WebSocketAction) (d v : dest).
Hypothesis Hsuits : suits action v = true.
Hypothesis Htype : same_type d v = true.

Lemma answer_delivered :
  delivered v d (UnmarshalResponse (wire (newAgentResponse Marshal_bool v)) action d).
Proof.
  rewrite UnmarshalResponse_spec by done. unfold delivered.
  destruct (empty_map v) eqn:E; by simpl.
Qed.

Lemma ws_delivered w : ws_honest w v → delivered v d (WebSocket_Request w action d).
Proof.
  intros [Hl Hm]. unfold WebSocket_Request. rewrite Hl. destruct (negb _); [done|].
  destruct (ws_outcomes w) as [e|raw|e]; [done| |done].
  rewrite (Hm raw), decode_encode, answer_no_error by done. exact answer_delivered.
Qed.

Lemma ws_message_ok w :
  ws_connected w = true → ws_honest w v → empty_map v = false →
  ∀ raw, ws_outcomes w = Message raw →
  (WebSocket_Request w action d).2 = None.
Proof.
  intros Hc [Hl Hraw] He raw Ho. unfold WebSocket_Request.
  rewrite Hc, Hl, Ho, (Hraw raw Ho), decode_encode, answer_no_error. simpl.
  by rewrite UnmarshalResponse_spec, He.
Qed.

Lemma ssh_delivered c t :
  ssh_honest t v → delivered v d ((SSH_Request c t action d).1.2, (SSH_Request c t action d).2).
Proof.
  intros Ht. unfold SSH_Request.
  destruct (if c then None else t_dial t); [done|].
  destruct (t_session t); [done|]. destruct (t_shell t); [done|]. destruct (t_encode t); [done|].
  destruct (t_response t) as [resp|] eqn:Hr; [|done].
  rewrite (Ht resp), answer_no_error by done. cbn [negb String.eqb].
  destruct (t_wait t); [done|]. pose proof answer_delivered as Hd.
  by destruct (UnmarshalResponse _ _ _).
Qed.

Lemma ssh_answered_delivered c t :
  ssh_honest t v → empty_map v = false → ssh_answers t → SSH_Request c t action d = (true, v, None).
Proof.
  intros Ht He (E1&E2&E3&E4&[resp E5]&E6). unfold SSH_Request.
  rewrite E1, E2, E3, E4, E5, E6, (Ht resp), answer_no_error by done. simpl.
  rewrite UnmarshalResponse_spec, He by done. by destruct c.
Qed.

Lemma retry_delivered c tries :
  (∀ n, ssh_honest (tries n) v) →
  let '(_, d', e, _) := RequestWithRetry 1 0 c tries action d in
  delivered v d (d', e) ∧ (empty_map v = false → ssh_reaches c tries action d → e = None).
Proof.
  intros Ht. cbn [RequestWithRetry]. pose proof (ssh_delivered c (tries O) (Ht O)) as H0.
  pose proof (ssh_answered_delivered c (tries O) (Ht O)) as Ha0. unfold ssh_reaches.
  destruct (SSH_Request c (tries O) action d) as [[c0 d0] [e0|]]; [|done].
  unfold delivered in H0. simpl in H0. subst d0.
  destruct (isConnectionError e0) eqn:Hc; simpl.
  - pose proof (ssh_delivered false (tries 1%nat) (Ht _)) as H1.
    pose proof (ssh_answered_delivered false (tries 1%nat) (Ht _)) as Ha1.
    destruct (SSH_Request false (tries 1%nat) action d) as [[c1 d1] [e1|]]; split; try done;
      intros He [Ha|[_ Ha]]; [specialize (Ha0 He Ha)|specialize (Ha1 He Ha)]; naive_solver.
  - split; [done|]. intros He [Ha|[(e&[= <-]&?) _]]; [|congruence].
    specialize (Ha0 He Ha). naive_solver.
Qed.

Lemma request_ssh_delivered config tries s :
  (∀ n, ssh_honest (tries n) v) →
  let '(_, d', e, _) := request_ssh config tries s action d in
  delivered v d (d', e) ∧
  (empty_map v = false → sshTransport s = true ∨ config = None →
   ssh_reaches (client s || tclient s) tries action d → e = None).
Proof.
  intros Ht. unfold request_ssh. destruct (if sshTransport s then None else config) eqn:Hx.
  - split; [done|]. intros _ [E|E]; [by rewrite E in Hx|]. destruct (sshTransport s); congruence.
  - pose proof (retry_delivered (client s || tclient s) tries Ht) as Hr.
    destruct (RequestWithRetry 1 0 _ _ _ _) as [[[c d'] e] log]. naive_solver.
Qed.
End honest.

(** C9: for an agent of today and a caller whose destination has the type of the action, on every
    path of a request (the WebSocket, the fallback to SSH, its second try): the request succeeds
    only with the destination equal to what the agent's handler sent, and fails only with the
    destination untouched; an empty map of SMART devices or service details never arrives (its
    request fails, see [empty_smart_is_error]), and anything else arrives as soon as one of the
    ways gets through. *)
Theorem response_roundtrip `{!CodecLaws} config tries s action d v :
  suits action v = true → same_type d v = true →
  (∀ w, WsConn s = Some w → ws_honest w v) → (∀ n, ssh_honest (tries n) v) →
  let '(_, d', e, _) := request config tries s action d in
  (e = None → d' = v ∧ empty_map v = false) ∧ (e ≠ None → d' = d) ∧
  (empty_map v = false → reaches config tries s action d → e = None).
Proof.
  intros Hs Ht Hw Hssh. unfold request, reaches.
  assert (∀ s', sshTransport s' = sshTransport s → client s' = client s → tclient s' = tclient s →
    let '(_, d', e, _) := request_ssh config tries s' action d in
    (e = None → d' = v ∧ empty_map v = false) ∧ (e ≠ None → d' = d) ∧
    (empty_map v = false → sshTransport s = true ∨ config = None →
     ssh_reaches (client s || tclient s) tries action d → e = None)) as Hr.
  { intros s' E1 E2 E3. pose proof (request_ssh_delivered action d v Hs Ht config tries s' Hssh) as Hq.
    rewrite E1, E2, E3 in Hq. unfold delivered in Hq. simpl in Hq. destruct (request_ssh _ _ _ _ _) as [[[? d'] [e|]] ?]; naive_solver. }
  destruct (WsConn s) as [w|].
  2:{ specialize (Hr s eq_refl eq_refl eq_refl). destruct (request_ssh _ _ _ _ _) as [[[? d'] e] ?].
      destruct Hr as (H1&H2&H3). split_and!; [done..|].
      intros He [(w0&raw&E&Hc0&_)|(_&?&?)]; [congruence|by apply H3]. }
  destruct (ws_connected w) eqn:Hc.
  2:{ specialize (Hr s eq_refl eq_refl eq_refl). destruct (request_ssh _ _ _ _ _) as [[[? d'] e] ?].
      destruct Hr as (H1&H2&H3). split_and!; [done..|].
      intros He [(w0&raw&E&Hc0&_)|(_&?&?)]; [congruence|by apply H3]. }
  pose proof (ws_delivered action d v Hs Ht w (Hw w eq_refl)) as Hd.
  pose proof (ws_message_ok action d v Hs Ht w Hc (Hw w eq_refl)) as Hm.
  pose proof (ws_failure action d w Hc) as Hf.
  destruct (WebSocket_Request w action d) as [d' [e|]]; [|by split_and!].
  unfold delivered in Hd. simpl in Hd, Hm, Hf. subst d'.
  assert (empty_map v = false → ∀ raw, ws_outcomes w ≠ Message raw) as Hno.
  { intros He raw Ho. by specialize (Hm He raw Ho). }
  destruct (shouldFallbackToSSH e) eqn:Hfb; simpl.
  2:{ split_and!; [done..|]. intros He [(w0&raw&[= <-]&_&Ho)|(Hx&_)]; [by destruct (Hno He raw)|].
      destruct (Hx w eq_refl Hc) as (e'&Ho&?). specialize (Hf e' Ho). congruence. }
  specialize (Hr (if shouldCloseWebSocket e then closeWebSocketConnection s else s)).
  destruct (request_ssh _ _ _ _ _) as [[[? d'] e'] ?].
  destruct Hr as (H1&H2&H3); [by destruct (shouldCloseWebSocket e)..|]. split_and!; [done..|].
  intros He [(w0&raw&[= <-]&_&Ho)|(_&?&?)]; [by destruct (Hno He raw)|by apply H3].
Qed.

(** ** How often a request is sent *)

Lemma UnmarshalResponse_err resp action d e :
  (UnmarshalResponse resp action d).2 = Some e → ∃ m, e = Err m.
Proof.
  unfold UnmarshalResponse, unmarshalLegacyResponse, unexpected.
  repeat case_match; simpl; intros; simplify_eq; eauto.
Qed.

Lemma SSH_Request_err c t action d e :
  (SSH_Request c t action d).2 = Some e → ∃ m, e = Err m.
Proof.
  unfold SSH_Request. destruct (if c then None else t_dial t); [naive_solver|].
  destruct (t_session t); [naive_solver|]. destruct (t_shell t); [naive_solver|].
  destruct (t_encode t); [naive_solver|]. destruct (t_response t); [|naive_solver].
  destruct (negb _); [naive_solver|]. destruct (t_wait t); [naive_solver|].
  pose proof (UnmarshalResponse_err a action d e) as Hu.
  by destruct (UnmarshalResponse a action d).
Qed.

Lemma ws_error_answered w action d e :
  ws_connected w = true → (WebSocket_Request w action d).2 = Some e →
  shouldFallbackToSSH e = true → ws_answered w = false.
Proof.
  intros Hc. unfold WebSocket_Request, ws_answered. rewrite Hc. simpl.
  destruct (ws_outcomes w) as [|raw|]; [done| |done].
  destruct (ws_legacy w).
  { unfold as_error. simpl. destruct (Unmarshal raw d) as [? [?|]]; simpl; intros [= <-]; done. }
  destruct (decode_response raw) as [resp|]; [|by intros [= <-]].
  destruct (negb _); [by intros [= <-]|].
  intros Hu%UnmarshalResponse_err. by destruct Hu as [m ->].
Qed.

(** An error that a second try could mend. *)
Definition looks_lost (msg : string) : bool :=
  Contains msg "connection" || Contains msg "EOF" || Contains msg "closed".

Lemma ssh_retry n c tries action d :
  let '(_, _, _, log) := RequestWithRetry 1 n c tries action d in
  ∃ a, log = [BySSH a] ∨
    (∃ b e, log = [BySSH a; BySSH b] ∧ (SSH_Request c (tries n) action d).2 = Some (Err e) ∧
       looks_lost e = true).
Proof.
  cbn [RequestWithRetry].
  pose proof (SSH_Request_err c (tries n) action d) as Hm.
  destruct (SSH_Request c (tries n) action d) as [[c' d'] [e|]]; [|eauto].
  destruct (Hm e eq_refl) as [m ->]. destruct (isConnectionError (Err m)) eqn:Hc; [|eauto].
  destruct (SSH_Request false (tries (S n)) action d') as [[c'' d''] [e|]]; eauto 10.
Qed.

(** A request is tried at most three times, once on the WebSocket and twice over SSH; one
    that was answered on the WebSocket is never sent again, and the second try over SSH comes
    only after an error whose text speaks of a connection, an end of file or something closed. *)
Theorem answered_once config tries s action d :
  let '(_, _, _, log) := request config tries s action d in
  ∃ pre post, log = pre ++ post ∧
    (pre = [] ∨ ∃ a, pre = [ByWebSocket a] ∧ (a = true → post = [])) ∧
    (post = [] ∨ (∃ a, post = [BySSH a]) ∨
     ∃ a b e c d', post = [BySSH a; BySSH b] ∧
       (SSH_Request c (tries O) action d').2 = Some (Err e) ∧ looks_lost e = true).
Proof.
  assert (∀ s d, let '(_, _, _, log) := request_ssh config tries s action d in
    log = [] ∨ (∃ a, log = [BySSH a]) ∨
    ∃ a b e c d', log = [BySSH a; BySSH b] ∧
      (SSH_Request c (tries O) action d').2 = Some (Err e) ∧ looks_lost e = true) as Hssh.
  { intros s' d'. unfold request_ssh. destruct (if sshTransport s' then None else config); [by left|].
    pose proof (ssh_retry 0 (client s' || tclient s') tries action d') as Hr.
    destruct (RequestWithRetry 1 0 _ tries action d') as [[[c x] e] log].
    destruct Hr as [a [->|(b&m&->&?&?)]]; [right; left; eauto|right; right; eauto 10]. }
  unfold request. destruct (WsConn s) as [w|].
  2:{ specialize (Hssh s d). destruct (request_ssh _ _ _ _ _) as [[[? ?] ?] log].
      exists [], log. auto. }
  destruct (ws_connected w) eqn:Hc.
  2:{ specialize (Hssh s d). destruct (request_ssh _ _ _ _ _) as [[[? ?] ?] log].
      exists [], log. auto. }
  pose proof (ws_error_answered w action d) as Ha.
  destruct (WebSocket_Request w action d) as [d' [e|]].
  2:{ exists [ByWebSocket (ws_answered w)], []. eauto 10. }
  destruct (shouldFallbackToSSH e) eqn:Hf; cbn [negb].
  2:{ exists [ByWebSocket (ws_answered w)], []. eauto 10. }
  rewrite (Ha e Hc eq_refl Hf).
  specialize (Hssh (if shouldCloseWebSocket e then closeWebSocketConnection s else s) d').
  destruct (request_ssh _ _ _ _ _) as [[[? ?] ?] log].
  exists [ByWebSocket false], log. split; [done|]. split; [|done]. right. by exists false.
Qed.

(** ** The data of a poll *)

(** The agent of a successful try over SSH sent [x]. *)
Definition ssh_sent (t : fetch_try) : option fields :=
  match (if f_new t then f_response t else None), f_bare t with
  | Some x, _ => Some x
  | None, inl x => Some x
  | None, inr _ => None
  end.

Lemma operation_sent t d x retry :
  ssh_operation t d = (x, retry, None) → ssh_sent t = Some x.
Proof.
  unfold ssh_operation, ssh_sent. destruct (f_stdout t); [done|]. destruct (f_shell t); [done|].
  destruct (if f_new t then f_response t else None) as [y|]; [by intros [= ->]|].
  destruct (f_bare t) as [y|]; [|done]. intros [= <- _ _]. by rewrite (right_id_L ∅ (∪)).
Qed.

Lemma runSSH_sent retries n down tries s s' :
  runSSHOperation retries n down tries s = (s', None) →
  ∃ k, (n ≤ k ≤ n + retries)%nat ∧ ssh_sent (tries k) = Some (sys_data s').
Proof.
  revert n s. induction retries as [|r IH]; intros n s; cbn [runSSHOperation];
    destruct (if negb (client s) || down then createSSHClient (tries n) s else (s, None))
      as [s1 [e|]]; try done; (destruct (f_session (tries n)) as [e|];
      [|destruct (ssh_operation (tries n) (sys_data s1)) as [[x retry] [e|]] eqn:Hop]).
  - done.
  - by destruct retry.
  - intros [= <-]. exists n. split; [lia|]. by apply operation_sent in Hop.
  - intros (k&?&?)%IH. exists k. split; [lia|done].
  - destruct retry; [|done]. intros (k&?&?)%IH. exists k. split; [lia|done].
  - intros [= <-]. exists n. split; [lia|]. by apply operation_sent in Hop.
Qed.

(** The WebSocket's message as agents send it: a response, which may carry its data as raw bytes,
    or, from an agent older than [MinVersionAgentResponse], the bare data. *)
Definition well_sent (w : ws) : Prop :=
  ∀ raw, ws_outcomes w = Message raw →
    if ws_legacy w then ∃ x, raw = encode_data x
    else ∃ r, raw = encode_response r ∧ ∀ y, r_Data r = Some y → ∃ x, y = encode_data x.

(** C14: a poll that succeeds holds what the agent sent in answer to it.  A response that carries
    its system data in the field of its own (every agent of today on the WebSocket), and any
    answer over SSH, replace the data of the hub entirely; only the bare data of an older agent on
    the WebSocket, or data in the generic field of a response, is merged over the data of the last
    poll, so that fields it leaves out keep their old values ([stale_fields]). *)
Theorem fetch_is_fresh `{!CodecLaws} down tries s s' :
  (∀ w, WsConn s = Some w → ws_connected w = true → well_sent w) →
  fetchDataFromAgent down tries s = (s', None) →
  (∃ w r, WsConn s = Some w ∧ ws_legacy w = false ∧ ws_outcomes w = Message (encode_response r) ∧
     r_Data r = None ∧ r_SystemData r = Some (sys_data s')) ∨
  (∃ w x, WsConn s = Some w ∧ sys_data s' = x ∪ sys_data s ∧
     (if ws_legacy w then ws_outcomes w = Message (encode_data x)
      else ∃ r, ws_outcomes w = Message (encode_response r) ∧ r_Data r = Some (encode_data x))) ∨
  (∃ k, (k ≤ 1)%nat ∧ ssh_sent (tries k) = Some (sys_data s')).
Proof.
  intros Hw. unfold fetchDataFromAgent, fetchDataViaSSH.
  assert (∀ s0, runSSHOperation 1 0 down tries s0 = (s', None) →
    ∃ k, (k ≤ 1)%nat ∧ ssh_sent (tries k) = Some (sys_data s')) as Hssh.
  { intros s0 (k&?&?)%runSSH_sent. exists k. split; [lia|done]. }
  destruct (WsConn s) as [w|] eqn:HwE; [|eauto].
  destruct (ws_connected w) eqn:Hc; [|eauto].
  specialize (Hw w eq_refl Hc). unfold well_sent in Hw.
  unfold fetchDataViaWebSocket, WebSocket_Request. rewrite Hc. cbn [negb].
  destruct (ws_outcomes w) as [e|raw|e] eqn:Ho; eauto. specialize (Hw raw eq_refl).
  destruct (ws_legacy w) eqn:Hl.
  { destruct Hw as [x ->]. rewrite Unmarshal_data. simpl. intros [= <-]. right; left.
    exists w, x. by rewrite Hl. }
  destruct Hw as (r&->&Hd). rewrite decode_encode.
  destruct (negb (String.eqb (r_Error (wire r)) "")); [eauto|].
  unfold UnmarshalResponse, unmarshalLegacyResponse. cbn [wire r_Data r_SystemData].
  destruct (r_Data r) as [y|] eqn:Hy.
  - destruct (Hd y eq_refl) as [x ->]. rewrite Unmarshal_data. intros [= <-]. right; left.
    exists w, x. rewrite Hl. eauto.
  - destruct (r_SystemData r) as [x|] eqn:Hx; [|intros Hf; right; right; by eapply Hssh].
    intros [= <-]. left. exists w, r. by rewrite Hl.
Qed.
End transport.

(** ** A codec *)

Inductive toy :=
| TBool (b : bool) | TData (x : gmap (list Z) Z) | TResponse (r : AgentResponse (V := Z) (Raw := toy)).

#[local] Instance toy_codec : Codec (V := Z) (Raw := toy) := {|
  Unmarshal raw d :=
    match raw, d with
    | TBool b, Bool _ => (Bool b, None)
    | TData x, CombinedData y => (CombinedData (x ∪ y), None)
    | _, _ => (d, Some "cbor: cannot unmarshal"%string)
    end;
  Marshal_bool := TBool;
  encode_response := TResponse;
  decode_response raw := match raw with TResponse r => inl (wire r) | _ => inr "cbor"%string end;
  encode_data := TData;
|}.
#[local] Instance toy_laws : CodecLaws (V := Z) (Raw := toy).
Proof. by split. Qed.

Definition ex_data : gmap (list Z) Z := {[ [0; 0] := 12 ]}.
Definition ex_old : gmap (list Z) Z := {[ [0; 0] := 7; [3] := 5 ]}.

Definition ex_ws (legacy : bool) (o : ws_outcome (Raw := toy)) : ws (Raw := toy) := {|
  ws_connected := true; ws_legacy := legacy; ws_outcomes := o |}.
Definition ex_system (w : option (ws (Raw := toy))) : System (V := Z) (Raw := toy) := {|
  WsConn := w; wsClosed := false; sshTransport := true; tclient := true; client := true;
  sys_data := ex_old |}.
Definition ex_try (resp : AgentResponse (V := Z) (Raw := toy)) : ssh_try (V := Z) (Raw := toy) := {|
  t_dial := None; t_session := None; t_shell := None; t_encode := None; t_response := inl resp;
  t_wait := None |}.
Definition ex_message : ws_outcome (Raw := toy) :=
  Message (encode_response (newAgentResponse Marshal_bool (CombinedData ex_data))).
Definition ex_tries (n : nat) : ssh_try (V := Z) (Raw := toy) :=
  ex_try (wire (newAgentResponse Marshal_bool (Bool true))).
Definition ex_fetch (n : nat) : fetch_try (V := Z) := {|
  f_config := None; f_dial := None; f_session := None; f_stdout := None; f_shell := None;
  f_new := true; f_response := Some ex_data; f_bare := inr "EOF"%string; f_wait := None |}.

(** The WebSocket is lost, the first try over SSH ends in an end of file, the second brings the
    answer. *)
Definition ex_lost : System (V := Z) (Raw := toy) := ex_system (Some (ex_ws false (SendFails ErrConnClosed))).
Definition ex_retried (n : nat) : ssh_try (V := Z) (Raw := toy) :=
  match n with
  | O => {| t_dial := None; t_session := None; t_shell := None; t_encode := None;
            t_response := inr "EOF"%string; t_wait := None |}
  | _ => ex_tries n
  end.

Lemma response_roundtrip_witness :
  ∃ s', request None ex_retried ex_lost RestartAgent (Bool false) =
    (s', Bool true, None, [ByWebSocket false; BySSH false; BySSH true]).
Proof.
  pose proof (response_roundtrip None ex_retried ex_lost RestartAgent (Bool false) (Bool true)
    eq_refl eq_refl) as H.
  destruct (request None ex_retried ex_lost RestartAgent (Bool false)) as [[[s' d'] e] log] eqn:E.
  destruct H as (H1&_&H3).
  - intros w [= <-]. split; [reflexivity|]. intros raw H. discriminate H.
  - intros [|n] resp H; [discriminate H|]. by injection H as <-.
  - assert (e = None) as ->.
    { apply H3; [reflexivity|]. right. split_and!; [|by left|].
      - intros w [= <-] _. exists ErrConnClosed. split; [by left|reflexivity].
      - right. split; [by eexists|]. split_and!; try reflexivity. by eexists. }
    destruct (H1 eq_refl) as [-> _]. exists s'. vm_compute in E. by injection E as <- <-.
Defined.

(** A response replaces the data; a bare answer of an older agent is merged over it. *)
Lemma fetch_is_fresh_witness :
  (∃ s', fetchDataFromAgent true ex_fetch (ex_system (Some (ex_ws false ex_message))) = (s', None) ∧
    sys_data s' = ex_data) ∧
  (∃ s', fetchDataFromAgent true ex_fetch (ex_system (Some (ex_ws true (Message (TData ex_data)))))
      = (s', None) ∧ sys_data s' = ex_data ∪ ex_old).
Proof.
  split.
  - destruct (fetchDataFromAgent true ex_fetch (ex_system (Some (ex_ws false ex_message))))
      as [s' [e|]] eqn:E; [discriminate E|]. exists s'. split; [reflexivity|].
    destruct (fetch_is_fresh true ex_fetch (ex_system (Some (ex_ws false ex_message))) s')
      as [(w&r&H1&_&H2&_&H3)|[(w&x&H1&H2&H3)|(k&Hk&H1)]].
    + intros w [= <-] _ raw [= <-]. eexists. split; [reflexivity|]. intros y H. discriminate H.
    + exact E.
    + injection H1 as <-. injection H2 as <-. by injection H3 as <-.
    + injection H1 as <-. destruct H3 as (r&[= <-]&H3). discriminate H3.
    + cbn in H1. by injection H1 as <-.
  - destruct (fetchDataFromAgent true ex_fetch (ex_system (Some (ex_ws true (Message (TData ex_data))))))
      as [s' [e|]] eqn:E; [discriminate E|]. exists s'. split; [reflexivity|].
    destruct (fetch_is_fresh true ex_fetch (ex_system (Some (ex_ws true (Message (TData ex_data))))) s')
      as [(w&r&H1&H2&_)|[(w&x&H1&H2&H3)|(k&Hk&H1)]].
    + intros w [= <-] _ raw [= <-]. by eexists.
    + exact E.
    + injection H1 as <-. discriminate H2.
    + injection H1 as <-. by injection H3 as <-.
    + cbn in H1. injection H1 as H1. vm_compute in E. injection E as <-. discriminate H1.
Defined.

(** An agent that answers without a response leaves what it omits as it was. *)
Example stale_fields :
  sys_data (fetchDataFromAgent false ex_fetch (ex_system (Some (ex_ws true (Message (TData ex_data)))))).1
  = {[ [0; 0] := 12; [3] := 5 ]}.
Proof. reflexivity. Qed.

(** An agent without SMART devices answers an empty map, which the hub takes for an error. *)
Example empty_smart_is_error :
  (request None (λ _, ex_try (wire (newAgentResponse Marshal_bool (SmartData ∅))))
    (ex_system None) GetSmartData (SmartData ∅)).1.2 = Some (Err "no SMART data in response").
Proof. reflexivity. Qed.

(** The agent's own error text can make the hub ask twice. *)
Example asked_twice :
  (request None (λ _, ex_try {| r_SystemData := None; r_Fingerprint := None;
       r_Error := "dial unix /var/run/docker.sock: connect: connection refused"; r_String := None;
       r_SmartData := None; r_ServiceInfo := None; r_Data := None |})
    (ex_system None) GetContainerLogs (String_ "")).2 = [BySSH true; BySSH true].
Proof. reflexivity. Qed.
End Transport.
