(* ===== verification/SshClients.v ===== *)
(** * SSH clients of the hub ([internal/hub/transport/ssh.go], [internal/hub/systems/system.go])

    [Transport] has a system's SSH client as a yes or no.  Here clients have identities: each dial
    that succeeds opens a connection, and the connections that are open are part of the state, so
    that one which nothing points to any more can be seen.  A system has a client of its own, which
    polls use, and a transport with a client, which requests use; [ensureSSHTransport] and [request]
    copy one to the other.  Requests are shown to be those of [Transport]. *)

From S2P Require Import Prelude GoStrings GoText Transport.

Module SshClients.
Import Transport.
Local Open Scope string_scope.
Local Open Scope Z_scope.

Section clients.
Context {V Raw Version : Type} `{EqDecision V}.
Context (Parse : string → option Version) (zero_version : Version).   (* [semver.Parse] *)

(** ** The transport *)

Record SSHTransport := {
  t_client : option nat;
  t_config : bool;                                    (* [config != nil] *)
  t_host : string;
  t_port : string;
  t_agentVersion : Version;
  t_timeout : Z;
}.

Record SSHTransportConfig := {
  c_Host : string; c_Port : string; c_Config : bool; c_AgentVersion : Version; c_Timeout : Z }.

Definition NewSSHTransport (cfg : SSHTransportConfig) : SSHTransport := {|
  t_client := None; t_config := c_Config cfg; t_host := c_Host cfg; t_port := c_Port cfg;
  t_agentVersion := c_AgentVersion cfg;
  t_timeout := if c_Timeout cfg =? 0 then 4 * Second else c_Timeout cfg |}.

Definition SetClient (t : SSHTransport) (c : option nat) : SSHTransport := {|
  t_client := c; t_config := t_config t; t_host := t_host t; t_port := t_port t;
  t_agentVersion := t_agentVersion t; t_timeout := t_timeout t |}.
Definition SetAgentVersion (t : SSHTransport) (v : Version) : SSHTransport := {|
  t_client := t_client t; t_config := t_config t; t_host := t_host t; t_port := t_port t;
  t_agentVersion := v; t_timeout := t_timeout t |}.
Definition GetClient (t : SSHTransport) : option nat := t_client t.
Definition GetAgentVersion (t : SSHTransport) : Version := t_agentVersion t.
Definition has {A} (o : option A) : bool := match o with Some _ => true | None => false end.
Definition IsConnected (t : SSHTransport) : bool := has (t_client t).

(** The connections: the next identity, those that are open, the sessions that came after their
    caller had given up, and the calls of [resetFailedSmartFetchState] ([SystemData.v]). *)
Record network := { next : nat; opened : gset nat; late_sessions : nat; smart_resets : nat }.

Definition close_client (c : option nat) (n : network) : network :=
  match c with
  | Some c => {| next := next n; opened := opened n ∖ {[c]}; late_sessions := late_sessions n;
                 smart_resets := smart_resets n |}
  | None => n
  end.

Definition Close (t : SSHTransport) (n : network) : SSHTransport * network :=
  (SetClient t None, close_client (t_client t) n).

(** [net.JoinHostPort] *)
Definition JoinHostPort (host port : string) : string :=
  if Contains host ":" then "[" ++ host ++ "]:" ++ port else host ++ ":" ++ port.

(** A path is a Unix socket. *)
Definition address (host port : string) : string * string :=
  if HasPrefix host "/" then ("unix", host) else ("tcp", JoinHostPort host port).

(** The version behind the first underscore; an error gives the zero version. *)
Definition extractAgentVersion (versionString : string) : option Version :=
  Parse (match Cut versionString "_" with Some (_, after) => after | None => "" end).
Definition version_of (serverVersion : string) : Version := default zero_version (extractAgentVersion serverVersion).

(** What dialling an address gives: the server's version or an error. *)
Abbreviation dial_t := (string * string → string + string).

Definition dial (d : dial_t) (host port : string) (n : network) : network * (nat * string + string) :=
  match d (address host port) with
  | inl server => ({| next := S (next n); opened := opened n ∪ {[next n]}; late_sessions := late_sessions n;
                      smart_resets := smart_resets n |},
                   inl (next n, server))
  | inr e => (n, inr e)
  end.

Definition connect (d : dial_t) (t : SSHTransport) (n : network) : SSHTransport * network * option string :=
  if negb (t_config t) then (t, n, Some "SSH config not set")
  else match dial d (t_host t) (t_port t) n with
       | (n, inr e) => (t, n, Some e)
       | (n, inl (c, server)) => (SetAgentVersion (SetClient t (Some c)) (version_of server), n, None)
       end.

(** A session within the timeout, an error, or neither; then the session may come later. *)
Inductive session_outcome := Session | SessionError (e : string) | SessionTimeout (later : bool).

Definition createSessionWithTimeout (c : option nat) (timeout_text : string) (o : session_outcome) (n : network)
    : network * option string :=
  match c with
  | None => (n, Some "client not initialized")
  | Some _ =>
      match o with
      | Session => (n, None)
      | SessionError e => (n, Some e)
      | SessionTimeout later =>
          ({| next := next n; opened := opened n;
              late_sessions := if later then S (late_sessions n) else late_sessions n;
              smart_resets := smart_resets n |}, Some timeout_text)
      end
  end.

(** One try of a request: [Transport]'s, with the dial and the session in detail. *)
Record client_try := { y_dial : dial_t; y_session : session_outcome; y_rest : ssh_try (V := V) (Raw := Raw) }.

Context `{!Codec (V := V) (Raw := Raw)}.

(** What follows the session. *)
Definition exchange (y : ssh_try) (action : WebSocketAction) (d : dest) : dest * option error :=
  match t_shell y with
  | Some e => (d, Some (Err e))
  | None =>
      match t_encode y with
      | Some e => (d, Some (Err ("failed to encode request: " ++ e)))
      | None =>
          match t_response y with
          | inr e => (d, Some (Err ("failed to decode response: " ++ e)))
          | inl resp =>
              if negb (String.eqb (r_Error resp) "") then (d, Some (Err (r_Error resp)))
              else match t_wait y with
                   | Some e => (d, Some (Err e))
                   | None => UnmarshalResponse resp action d
                   end
          end
      end
  end.

Definition Request (y : client_try) (t : SSHTransport) (n : network) (action : WebSocketAction) (d : dest)
    : SSHTransport * network * dest * option error :=
  let '(t, n, e) := if has (t_client t) then (t, n, None) else connect (y_dial y) t n in
  match e with
  | Some e => (t, n, d, Some (Err e))
  | None =>
      let '(n, e) := createSessionWithTimeout (t_client t) "timeout creating session" (y_session y) n in
      match e with
      | Some e => (t, n, d, Some (Err e))
      | None => let '(d, e) := exchange (y_rest y) action d in (t, n, d, e)
      end
  end.

Fixpoint RequestWithRetry (retries k : nat) (tries : nat → client_try) (t : SSHTransport) (n : network)
    (action : WebSocketAction) (d : dest) : SSHTransport * network * dest * option error :=
  let '(t, n, d, e) := Request (tries k) t n action d in
  match e, retries with
  | Some e', S retries =>
      if isConnectionError e' then
        let '(t, n) := Close t n in RequestWithRetry retries (S k) tries t n action d
      else (t, n, d, e)
  | _, _ => (t, n, d, e)
  end.

(** ** A system *)

Record System := {
  Host : string; Port : string;
  s_client : option nat;
  s_agentVersion : Version;
  s_transport : option SSHTransport;
}.

Definition set_client (s : System) (c : option nat) (v : Version) (t : option SSHTransport) : System := {|
  Host := Host s; Port := Port s; s_client := c; s_agentVersion := v; s_transport := t |}.

(** [config] is the outcome of [createSSHClientConfig], or [None] when there is one. *)
Definition ensureSSHTransport (config : option string) (s : System) : System * option string :=
  match s_transport s, config with
  | None, Some e => (s, Some e)
  | tr, _ =>
      let t := match tr with
               | Some t => t
               | None => NewSSHTransport {| c_Host := Host s; c_Port := Port s; c_Config := true;
                                            c_AgentVersion := zero_version; c_Timeout := 4 * Second |}
               end in
      let t := if has (s_client s) then SetAgentVersion (SetClient t (s_client s)) (s_agentVersion s) else t in
      (set_client s (s_client s) (s_agentVersion s) (Some t), None)
  end.

(** The part of [request] behind the WebSocket. *)
Definition request_over_ssh (config : option string) (tries : nat → client_try) (s : System) (n : network)
    (action : WebSocketAction) (d : dest) : System * network * dest * option error :=
  let '(s, e) := ensureSSHTransport config s in
  match e, s_transport s with
  | Some e, _ => (s, n, d, Some (Err e))
  | None, None => (s, n, d, None)                     (* not reached *)
  | None, Some t =>
      let '(t, n, d, e) := RequestWithRetry 1 0 tries t n action d in
      (set_client s (GetClient t) (GetAgentVersion t) (Some t), n, d, e)
  end.

Definition closeSSHConnection (s : System) (n : network) : System * network :=
  let '(t, n) := match s_transport s with
                 | Some t => let '(t, n) := Close t n in (Some t, n)
                 | None => (None, n)
                 end in
  (set_client s None (s_agentVersion s) t, close_client (s_client s) n).

Definition reset_smart (n : network) : network := {|
  next := next n; opened := opened n; late_sessions := late_sessions n; smart_resets := S (smart_resets n) |}.

(** A dial that fails leaves no client. *)
Definition createSSHClient (config : option string) (d : dial_t) (s : System) (n : network)
    : System * network * option string :=
  match config with
  | Some e => (s, n, Some e)
  | None =>
      match dial d (Host s) (Port s) n with
      | (n, inr e) => (set_client s None (s_agentVersion s) (s_transport s), n, Some e)
      | (n, inl (c, server)) => (set_client s (Some c) (version_of server) (s_transport s), reset_smart n, None)
      end
  end.

(** One attempt of [runSSHOperation]; the operation gives an error and whether it may be
    retried. *)
Record poll_try := {
  p_config : option string; p_dial : dial_t; p_session : session_outcome; p_operation : option (bool * string) }.

Fixpoint runSSHOperation (retries k : nat) (down : bool) (tries : nat → poll_try) (s : System) (n : network)
    : System * network * option string :=
  let y := tries k in
  let '(s, n, e) := if negb (has (s_client s)) || down then createSSHClient (p_config y) (p_dial y) s n else (s, n, None) in
  match e with
  | Some e => (s, n, Some e)
  | None =>
      let '(n, e) := createSessionWithTimeout (s_client s) "timeout" (p_session y) n in
      match e, retries with
      | Some e, O => (s, n, Some e)
      | Some _, S retries => let '(s, n) := closeSSHConnection s n in runSSHOperation retries (S k) down tries s n
      | None, _ =>
          match p_operation y with
          | None => (s, n, None)
          | Some (false, e) => (s, n, Some e)
          | Some (true, e) =>
              let '(s, n) := closeSSHConnection s n in
              match retries with
              | O => (s, n, Some e)
              | S retries => runSSHOperation retries (S k) down tries s n
              end
          end
      end
  end.

(** ** Requests are those of [Transport] *)








(** ** Which client a request leaves *)

Definition fresh (n : network) : Prop := ∀ c, c ∈ opened n → (c < next n)%nat.













(** ** Connections that nothing points to *)

(** Every open connection is the system's client. *)
Definition owned (s : System) (n : network) : Prop :=
  opened n ⊆ match s_client s with Some c => {[c]} | None => ∅ end.
Definition t_owned (t : SSHTransport) (n : network) : Prop :=
  opened n ⊆ match t_client t with Some c => {[c]} | None => ∅ end.

Lemma createSession_opened c text o n : opened (createSessionWithTimeout c text o n).1 = opened n.
Proof. by destruct c, o as [| |[]]. Qed.

Lemma Request_owned y t n action d :
  t_owned t n → let '(t', n', _, _) := Request y t n action d in t_owned t' n'.
Proof.
  intros Hn. unfold Request. destruct (if has (t_client t) then _ else _) as [[t1 n1] e1] eqn:E.
  assert (t_owned t1 n1) as H1.
  { destruct (has (t_client t)) eqn:Eh; [by simplify_eq|]. unfold connect, dial, t_owned in *.
    destruct (t_client t) eqn:Et; [done|]. destruct (t_config t); cbn in E; [|simplify_eq; by rewrite Et].
    destruct (y_dial y _); simplify_eq; cbn; [|by rewrite Et]. set_solver. }
  destruct e1; [done|]. pose proof (createSession_opened (t_client t1) "timeout creating session" (y_session y) n1) as Ho.
  destruct (createSessionWithTimeout _ _ _ _) as [n2 e2]. unfold t_owned in *. cbn in Ho. rewrite <- Ho in H1.
  destruct e2; [done|]. by destruct (exchange _ _ _).
Qed.

Lemma RequestWithRetry_owned retries : ∀ k tries t n action d,
  t_owned t n → let '(t', n', _, _) := RequestWithRetry retries k tries t n action d in t_owned t' n'.
Proof.
  induction retries as [|retries IH]; intros k tries t n action d Hn; cbn [RequestWithRetry];
    pose proof (Request_owned (tries k) t n action d Hn) as Hr;
    destruct (Request (tries k) t n action d) as [[[t1 n1] d1] e1]; [by destruct e1|].
  destruct e1 as [e1|]; [|done]. destruct (isConnectionError e1); [|done]. cbn. apply IH.
  unfold t_owned in *. cbn. destruct (t_client t1); cbn; set_solver.
Qed.

(** A request leaves no connection behind: what is open afterwards is the system's client. *)
Lemma request_owned config tries s n action d :
  owned s n → let '(s', n', _, _) := request_over_ssh config tries s n action d in owned s' n'.
Proof.
  intros Hn. unfold request_over_ssh. destruct (ensureSSHTransport config s) as [s1 e1] eqn:E.
  assert (owned s1 n ∧ ∀ t, e1 = None → s_transport s1 = Some t → t_owned t n) as [H1 H2].
  { unfold ensureSSHTransport in E. unfold owned, t_owned in *.
    destruct (s_transport s) as [t|]; [|destruct config]; simplify_eq; (split; [done|]); intros ? ?; try done;
      cbn; intros [= <-]; destruct (s_client s); cbn; set_solver. }
  destruct e1; [done|]. destruct (s_transport s1) as [t|] eqn:Et; [|done]. specialize (H2 t eq_refl eq_refl).
  pose proof (RequestWithRetry_owned 1 0 tries t n action d H2) as Hr.
  by destruct (RequestWithRetry 1 0 tries t n action d) as [[[t' n'] d'] e'].
Qed.

Lemma closeSSH_owned s n : owned s n → owned (closeSSHConnection s n).1 (closeSSHConnection s n).2.
Proof.
  intros Hn. unfold closeSSHConnection, Close, owned in *. destruct (s_transport s) as [t|]; cbn;
    [destruct (t_client t)|]; destruct (s_client s); cbn; set_solver.
Qed.

(** Nor does a poll of a system that is not down. *)
Lemma poll_owned retries : ∀ k tries s n,
  owned s n → let '(s', n', _) := runSSHOperation retries k false tries s n in owned s' n'.
Proof.
  induction retries as [|retries IH]; intros k tries s n Hn; cbn [runSSHOperation]; rewrite orb_false_r;
    destruct (if negb (has (s_client s)) then _ else _) as [[s1 n1] e1] eqn:E;
    (assert (owned s1 n1) as H1;
     [destruct (s_client s) eqn:Es; cbn in E; [by simplify_eq|]; unfold createSSHClient, dial, owned in *; rewrite Es in Hn;
      destruct (p_config _); [simplify_eq; by rewrite Es|]; destruct (p_dial _ _); simplify_eq; cbn; set_solver|]);
    (destruct e1; [done|]); pose proof (createSession_opened (s_client s1) "timeout" (p_session (tries k)) n1) as Ho;
    destruct (createSessionWithTimeout _ _ _ _) as [n2 e2]; cbn in Ho;
    (assert (owned s1 n2) as H2 by (unfold owned in *; by rewrite Ho));
    pose proof (closeSSH_owned s1 n2 H2) as Hcl; destruct (closeSSHConnection s1 n2) as [s3 n3]; cbn in Hcl.
  - destruct e2; [done|]. by destruct (p_operation _) as [[[] ?]|].
  - destruct e2; [by apply IH|]. destruct (p_operation _) as [[[] ?]|]; [by apply IH|done..].
Qed.

(** Each connection that a poll opens allows a fetch of SMART data that had failed to be tried again:
    as many resets as connections. *)
Lemma poll_resets retries : ∀ k down tries s n,
  let '(_, n', _) := runSSHOperation retries k down tries s n in
  (next n ≤ next n')%nat ∧ (smart_resets n' - smart_resets n = next n' - next n)%nat ∧ (smart_resets n ≤ smart_resets n')%nat.
Proof.
  induction retries as [|retries IH]; intros k down tries s n; cbn [runSSHOperation];
    destruct (if negb _ || down then _ else _) as [[s1 n1] e1] eqn:E;
    (assert (next n ≤ next n1 ∧ smart_resets n1 - smart_resets n = next n1 - next n ∧ smart_resets n ≤ smart_resets n1)%nat as H1;
     [destruct (negb _ || down); [unfold createSSHClient, dial in E|]; repeat case_match; simplify_eq; cbn in *; lia|]);
    (destruct e1; [done|]);
    (assert (∀ n2 e2, createSessionWithTimeout (s_client s1) "timeout" (p_session (tries k)) n1 = (n2, e2) →
       next n2 = next n1 ∧ smart_resets n2 = smart_resets n1) as H2
       by (unfold createSessionWithTimeout; intros; repeat case_match; by simplify_eq));
    destruct (createSessionWithTimeout _ _ _ _) as [n2 e2]; destruct (H2 _ _ eq_refl) as [E1 E2];
    (assert (∀ s3 n3, closeSSHConnection s1 n2 = (s3, n3) → next n3 = next n1 ∧ smart_resets n3 = smart_resets n1) as H3
       by (unfold closeSSHConnection, Close, close_client; intros; repeat case_match; simplify_eq; cbn; auto));
    destruct (closeSSHConnection s1 n2) as [s3 n3]; destruct (H3 _ _ eq_refl) as [E3 E4].
  - destruct e2; [rewrite E1, E2; lia|]. destruct (p_operation _) as [[[] ?]|]; lia.
  - specialize (IH (S k) down tries s3 n3). destruct (runSSHOperation _ _ _ _ _ _) as [[s4 n4] e4].
    destruct e2; [lia|]. destruct (p_operation _) as [[[] ?]|]; lia.
Qed.

(** ** Systems that are down *)

(** A poll that reaches an agent and gets nothing from it: the operation fails, or no session
    comes in either attempt. *)
Definition unanswered (s : System) (tries : nat → poll_try) : Prop :=
  (∀ k, p_config (tries k) = None ∧ ∃ v, p_dial (tries k) (address (Host s) (Port s)) = inl v) ∧
  ((p_session (tries 0%nat) = Session ∧ ∃ e, p_operation (tries 0%nat) = Some (false, e)) ∨
   ∀ k, p_session (tries k) ≠ Session).

Lemma session_missing c o n :
  o ≠ Session → ∃ n' e, createSessionWithTimeout (Some c) "timeout" o n = (n', Some e) ∧ next n' = next n ∧ opened n' = opened n.
Proof. intros Ho. destruct o as [| |[]]; [done|..]; repeat eexists. Qed.

Lemma unanswered_poll s n tries :
  unanswered s tries → s_transport s = None → fresh n →
  let '(s', n', e) := runSSHOperation 1 0 true tries s n in
  Host s' = Host s ∧ Port s' = Port s ∧ s_transport s' = None ∧ fresh n' ∧ e ≠ None ∧
  size (opened n') = S (size (opened n)).
Proof.
  intros [Hd Hcase] Ht Hf.
  assert (next n ∉ opened n) as Hnew by (intros ?%Hf; lia).
  assert (size (opened n ∪ {[next n]}) = S (size (opened n))) as Hsize.
  { rewrite size_union by set_solver. rewrite size_singleton. lia. }
  destruct (Hd 0%nat) as [Hc0 [v0 Hd0]], (Hd 1%nat) as [Hc1 [v1 Hd1]].
  cbn [runSSHOperation]. rewrite orb_true_r. unfold createSSHClient at 1, dial. rewrite Hc0, Hd0. cbn [s_client set_client].
  destruct Hcase as [[Hs [e He]]|Hs].
  - rewrite Hs, He. cbn. split_and!; try done. intros c. cbn. rewrite elem_of_union, elem_of_singleton.
    intros [?%Hf| ->]; lia.
  - match goal with |- context [createSessionWithTimeout (Some (next n)) "timeout" _ ?m] =>
      destruct (session_missing (next n) (p_session (tries 0%nat)) m (Hs 0%nat)) as (n1&e1&->&Hn1&Ho1) end.
    cbn in Hn1, Ho1. unfold closeSSHConnection. cbn [s_transport set_client s_client]. rewrite Ht. cbn [close_client s_client set_client].
    cbn [runSSHOperation]. rewrite orb_true_r. unfold createSSHClient, dial. cbn [Host Port set_client]. rewrite Hc1, Hd1.
    cbn [s_client set_client next opened late_sessions].
    match goal with |- context [createSessionWithTimeout (Some (next n1)) "timeout" _ ?m] =>
      destruct (session_missing (next n1) (p_session (tries 1%nat)) m (Hs 1%nat)) as (n2&e2&->&Hn2&Ho2) end.
    cbn in Hn2, Ho2. rewrite Ho1, Hn1 in Ho2. rewrite Hn1 in Hn2.
    replace ((opened n ∪ {[next n]}) ∖ {[next n]}) with (opened n) in Ho2 by set_solver.
    split_and!; try done.
    + intros c. rewrite Ho2, Hn2. rewrite elem_of_union, elem_of_singleton. intros [?%Hf| ->]; lia.
    + rewrite Ho2, size_union by (intros c ?%Hf ->%elem_of_singleton; lia). rewrite size_singleton. lia.
Qed.

Fixpoint down_polls (ys : list (nat → poll_try)) (s : System) (n : network) : System * network :=
  match ys with
  | [] => (s, n)
  | y :: ys => let '(s, n, _) := runSSHOperation 1 0 true y s n in down_polls ys s n
  end.

(** While a system is down each poll dials, although there is a client, and the old one is not
    closed: after [m] polls of an agent that accepts connections and does not answer, [m] connections
    more are open, all but one of which the hub has lost; only the other side can close them. *)
Theorem down_polls_leak ys s n :
  Forall (unanswered s) ys → s_transport s = None → fresh n →
  size (opened (down_polls ys s n).2) = (size (opened n) + List.length ys)%nat.
Proof.
  intros Hys. revert n. assert (∃ s0, Host s0 = Host s ∧ Port s0 = Port s ∧ s0 = s) as (s0&Hh&Hp&Es) by eauto.
  rewrite <- Es in Hys. clear Es. revert s Hh Hp.
  induction Hys as [|y ys Hy _ IH]; intros s Hh Hp n Ht Hf; cbn [down_polls List.length]; [cbn; lia|].
  assert (unanswered s y) as Hy' by (unfold unanswered in *; by rewrite <- Hh, <- Hp).
  pose proof (unanswered_poll s n y Hy' Ht Hf) as H1.
  destruct (runSSHOperation 1 0 true y s n) as [[s1 n1] e1]. destruct H1 as (Hh1&Hp1&Ht1&Hf1&_&Hs1).
  rewrite IH by (congruence || done). lia.
Qed.

(** ** Versions

    Hub and agent tell each other their versions in the greeting of SSH, and both read it with the same
    function ([extractAgentVersion] of the hub, [extractHubVersion] of the agent). *)

Definition AppName : string := "bantay".
Definition greeting (version : string) : string := "SSH-2.0-" ++ AppName ++ "_" ++ version.

Definition extractHubVersion (versionString : string) : option Version :=
  Parse (match Cut versionString "_" with Some (_, after) => after | None => "" end).

Lemma greeting_version version :
  extractAgentVersion (greeting version) = Parse version ∧ extractHubVersion (greeting version) = Parse version.
Proof.
  unfold extractAgentVersion, extractHubVersion, greeting, AppName.
  assert (Cut ("SSH-2.0-" ++ "bantay" ++ "_" ++ version) "_" = Some ("SSH-2.0-bantay", version)) as ->; [|done].
  cbn. by destruct version.
Qed.

(** [common-ssh.go] *)
Definition DefaultKeyExchanges : list string := ["curve25519-sha256"].
Definition DefaultMACs : list string := ["hmac-sha2-256-etm@openssh.com"].
Definition DefaultCiphers : list string := ["chacha20-poly1305@openssh.com"].

Record ClientConfig {Key : Type} := {
  User : string; AuthKey : Key; Ciphers : list string; KeyExchanges : list string; MACs : list string;
  ClientVersion : string; Timeout : Z }.
Arguments ClientConfig : clear implicits.

(** [GetSSHKey] gives the key of the hub or an error. *)
Definition createSSHClientConfig {Key} (version : string) (GetSSHKey : Key + string) : option (ClientConfig Key) :=
  match GetSSHKey with
  | inr _ => None
  | inl privateKey => Some {|
      User := "u"; AuthKey := privateKey; Ciphers := DefaultCiphers; KeyExchanges := DefaultKeyExchanges;
      MACs := DefaultMACs; ClientVersion := greeting version; Timeout := 4 * Second |}
  end.

(** ** The requests of the hub *)

Inductive request_data := NoData | ContainerInfoRequest (id : string) | ContainerLogsRequest (id : string)
  | SystemdInfoRequest (name : string).

(** A call of [request]: the action, its data, the deadline, and what the answer is decoded into. *)
Record agent_call := {
  a_action : WebSocketAction; a_data : request_data; a_timeout : Z; a_dest : dest (V := V) }.

Definition FetchContainerInfoFromAgent (containerID : string) : agent_call := {|
  a_action := GetContainerInfo; a_data := ContainerInfoRequest containerID; a_timeout := 5 * Second; a_dest := String_ "" |}.
Definition FetchContainerLogsFromAgent (containerID : string) : agent_call := {|
  a_action := GetContainerLogs; a_data := ContainerLogsRequest containerID; a_timeout := 5 * Second; a_dest := String_ "" |}.
Definition FetchSystemdInfoFromAgent (serviceName : string) : agent_call := {|
  a_action := GetSystemdInfo; a_data := SystemdInfoRequest serviceName; a_timeout := 5 * Second; a_dest := ServiceDetails ∅ |}.
Definition RequestAgentRestart : agent_call := {|
  a_action := RestartAgent; a_data := NoData; a_timeout := 5 * Second; a_dest := Bool false |}.
Definition FetchSmartDataFromAgent : agent_call := {|
  a_action := GetSmartData; a_data := NoData; a_timeout := 60 * Second; a_dest := SmartData ∅ |}.

(** Every call asks for an answer of the type its action has, and allows the session at least the
    time the transport waits for it. *)
Lemma calls_suit (c : agent_call) :
  (∃ id, c = FetchContainerInfoFromAgent id ∨ c = FetchContainerLogsFromAgent id ∨ c = FetchSystemdInfoFromAgent id) ∨
  c = RequestAgentRestart ∨ c = FetchSmartDataFromAgent →
  suits (a_action c) (a_dest c) = true ∧ 4 * Second < a_timeout c.
Proof. unfold Second. intros [[id [->|[->| ->]]]|[->| ->]]; done. Qed.

(** A call over SSH. *)
Definition call_over_ssh (config : option string) (tries : nat → client_try) (s : System) (n : network) (c : agent_call) :=
  request_over_ssh config tries s n (a_action c) (a_dest c).
End clients.

(** ** Examples *)

Definition ex_system : System (Version := string) := {|
  Host := "fe80::1"; Port := "45876"; s_client := None; s_agentVersion := ""; s_transport := None |}.
Definition ex_net : network := {| next := 0; opened := ∅; late_sessions := 0; smart_resets := 0 |}.
Definition ex_dial (a : string * string) : string + string :=
  if String.eqb a.2 "[fe80::1]:45876" then inl (greeting "1.0.5") else inr "connection refused".

(** A poll without a session in either attempt. *)
Definition ex_poll (k : nat) : poll_try := {|
  p_config := None; p_dial := ex_dial; p_session := SessionTimeout false; p_operation := None |}.

Lemma ex_unanswered : unanswered ex_system ex_poll.
Proof. split; [|by right]. intros k. split; [done|]. exists (greeting "1.0.5"). reflexivity. Qed.

Lemma down_polls_leak_witness :
  size (opened (down_polls Some "0.0.0" [ex_poll; ex_poll; ex_poll] ex_system ex_net).2) = 3%nat.
Proof.
  rewrite (down_polls_leak Some "0.0.0" [ex_poll; ex_poll; ex_poll] ex_system ex_net).
  - reflexivity.
  - do 3 (constructor; [apply ex_unanswered|]). constructor.
  - reflexivity.
  - intros c. set_solver.
Defined.

(** The same polls of a system that is not down leave one connection. *)
Example up_polls_do_not_leak :
  opened (runSSHOperation Some "0.0.0" 1 0 false ex_poll ex_system ex_net).1.2 = {[1%nat]}.
Proof. vm_compute. reflexivity. Qed.

#[local] Existing Instance toy_codec.

Definition ex_request (k : nat) : client_try (V := Z) (Raw := toy) := {|
  y_dial := ex_dial; y_session := Session;
  y_rest := {| t_dial := None; t_session := None; t_shell := None; t_encode := None;
               t_response := if (k =? 0)%nat then inr "EOF" else
                 inl {| r_SystemData := None; r_Fingerprint := None; r_Error := ""; r_String := Some "logs";
                        r_SmartData := None; r_ServiceInfo := None; r_Data := None |};
               t_wait := None |} |}.

Definition ex_call : System (Version := string) * network * dest (V := Z) * option error :=
  call_over_ssh Some "0.0.0" None ex_request ex_system ex_net (FetchContainerLogsFromAgent "c1").

(** The first connection ends before the answer; the second gives it, and the first is closed. *)
Example retried_request :
  ex_call.1.2 = String_ "logs" ∧ ex_call.2 = None ∧ opened ex_call.1.1.2 = {[1%nat]} ∧
  s_client ex_call.1.1.1 = Some 1%nat ∧ s_agentVersion ex_call.1.1.1 = "1.0.5".
Proof. split_and!; vm_compute; reflexivity. Qed.

End SshClients.
