(* ===== verification/AgentHandlers.v ===== *)
(** * Requests at the agent ([agent/client.go], [agent/handlers.go], [agent/server.go])

    A hub that connects over the WebSocket proves itself with a signature of the
    agent's token before its requests are handled; over SSH the session itself is
    authenticated.  Also here: the token and the keys, the address to listen on
    ([agent/server.go]), the fingerprint ([agent/fingerprint.go]) and the data
    directory ([agent/data_dir.go]).

    Signatures, SHA-256 and CBOR are parameters.  The handlers behind the registry
    are modelled in other files ([AgentGather], [DockerLogs], [AgentUpdate]); here
    they are any function of the agent's state, since the theorems are about which
    requests reach them. *)

From S2P Require Import Prelude GoStrings GoText Transport.

Module AgentHandlers.
Import Transport.
Local Open Scope Z_scope.

(** ** The registry *)

(** [NewHandlerRegistry]: the actions that have a handler, by their number. *)
Definition handlers : list (Z * WebSocketAction) :=
  [(0, GetData); (1, CheckFingerprint); (2, GetContainerLogs); (3, GetContainerInfo);
   (4, GetSmartData); (5, GetSystemdInfo); (6, RestartAgent); (7, PushAgentBinary)].

(** [GetHandler] *)
Definition GetHandler (action : Z) : option WebSocketAction :=
  option_map snd (find (λ h, h.1 =? action) handlers).

Section agent.
Context {Key Sig Data Agent : Type}.
(** [pubKey.Verify] of a signature of a text. *)
Context (Verify : Key → string → Sig → bool).
(** The handler of an action: the agent after it, and its error. *)
Context (Handle : WebSocketAction → Data → Agent → Agent * option string).
(** [cbor.Unmarshal] of the data of a challenge into its signature. *)
Context (challenge : Data → option Sig).

(** ** The WebSocket client *)

Record WebSocketClient := {
  token : string;
  keys : list Key;
  conn : nat;              (* the present connection, counted from one *)
  hubVerified : bool;
  agent : Agent;
}.

Definition with_agent (c : WebSocketClient) (v : bool) (a : Agent) : WebSocketClient := {|
  token := token c; keys := keys c; conn := conn c; hubVerified := v; agent := a |}.

Definition verifySignature (c : WebSocketClient) (sig : Sig) : bool :=
  existsb (λ key, Verify key (token c) sig) (keys c).

Definition handleAuthChallenge (c : WebSocketClient) (d : Data) : WebSocketClient * option string :=
  match challenge d with
  | None => (c, Some "cbor"%string)
  | Some sig =>
      if verifySignature c sig
      then (with_agent c true (agent c), None)
      else (c, Some "invalid signature - check KEY value"%string)
  end.

(** [HandlerRegistry.Handle] behind [handleHubRequest]. *)
Definition handleHubRequest (c : WebSocketClient) (action : Z) (d : Data)
    : WebSocketClient * option string :=
  match GetHandler action with
  | None => (c, Some "unknown action"%string)
  | Some CheckFingerprint => handleAuthChallenge c d
  | Some h =>
      if negb (hubVerified c) then (c, Some "hub not verified"%string)
      else let '(a, e) := Handle h d (agent c) in (with_agent c (hubVerified c) a, e)
  end.

(** [OnMessage]: a binary message that decodes is handled. *)
Definition OnMessage (c : WebSocketClient) (binary : bool) (request : option (Z * Data))
    : WebSocketClient :=
  if negb binary then c
  else
    match request with
    | None => c
    | Some (action, d) => (handleHubRequest c action d).1
    end.

(** [Connect] when it succeeds. *)
Definition Connect (c : WebSocketClient) : WebSocketClient := {|
  token := token c; keys := keys c; conn := S (conn c); hubVerified := hubVerified c;
  agent := agent c |}.

(** ** SSH *)

(** [handleSSHRequest]: the agent and the error sent back. *)
Definition handleSSHRequest (action : Z) (d : Data) (a : Agent) : Agent * option string :=
  match GetHandler action with
  | Some CheckFingerprint => (a, Some "unsupported action"%string)
  | Some h => Handle h d a
  | None => (a, Some "unknown action"%string)
  end.

(** ** What a hub gets done *)

Inductive input :=
| IConnect
| IMessage (binary : bool) (request : option (Z * Data)).

Definition feed (c : WebSocketClient) (i : input) : WebSocketClient :=
  match i with
  | IConnect => Connect c
  | IMessage b r => OnMessage c b r
  end.

(** The input is a challenge with a signature that one of the keys verifies. *)
Definition proves (c : WebSocketClient) (i : input) : bool :=
  match i with
  | IMessage true (Some (1, d)) =>
      match challenge d with Some sig => verifySignature c sig | None => false end
  | _ => false
  end.

Definition fresh_client (tok : string) (ks : list Key) (a : Agent) : WebSocketClient := {|
  token := tok; keys := ks; conn := 0; hubVerified := false; agent := a |}.

Lemma GetHandler_fingerprint action : GetHandler action = Some CheckFingerprint ↔ action = 1.
Proof.
  unfold GetHandler, handlers. cbn [find fst].
  repeat match goal with |- context [?x =? action] => destruct (Z.eqb_spec x action) end;
    simpl; split; intros; subst; first [done|congruence|lia].
Qed.

Lemma feed_spec c i :
  token (feed c i) = token c ∧ keys (feed c i) = keys c ∧
  hubVerified (feed c i) = (hubVerified c || proves c i) ∧
  (hubVerified c = false → agent (feed c i) = agent c).
Proof.
  destruct i as [|b r]; simpl; [by rewrite orb_false_r|].
  unfold OnMessage. destruct b; simpl; [|by rewrite orb_false_r].
  destruct r as [[action d]|]; [|by rewrite orb_false_r].
  unfold handleHubRequest. destruct (GetHandler action) as [h|] eqn:Hg.
  2:{ assert (action ≠ 1) by (intros ->; done).
      destruct action as [|[]|]; simpl; rewrite ?orb_false_r; done. }
  destruct (decide (action = 1)) as [->|Hne].
  - injection Hg as <-. unfold handleAuthChallenge. destruct (challenge d) as [sig|]; simpl.
    + destruct (verifySignature c sig); simpl; by rewrite ?orb_true_r, ?orb_false_r.
    + by rewrite orb_false_r.
  - assert (h ≠ CheckFingerprint) as Hh by (intros ->; by apply GetHandler_fingerprint in Hg).
    assert (∀ (x : bool), match action with 1 => x | _ => false end = false) as ->
      by (intros x; destruct action as [|[]|]; done).
    destruct h; try done; destruct (hubVerified c) eqn:Hv; simpl; rewrite ?Hv; try done;
      destruct (Handle _ d (agent c)); done.
Qed.

(** C4: until a challenge signed with one of the agent's keys arrives, nothing a hub sends, over
    however many connections, has any effect on the agent. *)
Theorem unverified_hub_is_powerless tok ks a inputs :
  forallb (λ i, negb (proves (fresh_client tok ks a) i)) inputs = true →
  agent (fold_left feed inputs (fresh_client tok ks a)) = a.
Proof.
  set (c0 := fresh_client tok ks a). intros Hall.
  enough (∀ c, token c = token c0 → keys c = keys c0 → hubVerified c = false → agent c = a →
    agent (fold_left feed inputs c) = a) as Hgen by (by apply Hgen).
  clearbody c0. induction inputs as [|i l IH]; intros c Ht Hk Hv Ha; [done|].
  simpl in *. apply andb_true_iff in Hall as [Hi Hl].
  destruct (feed_spec c i) as (E1&E2&E3&E4).
  assert (proves c i = proves c0 i) as Hp
    by (destruct i as [|[] [[[|[]|] d]|]]; simpl; try done; unfold verifySignature; by rewrite Ht, Hk).
  apply IH; [done|congruence|congruence| |rewrite E4; done].
  rewrite E3, Hv, Hp. by destruct (proves c0 i).
Qed.
End agent.

(** A handler that counts what it did. *)
Definition ex_handle (h : WebSocketAction) (d : nat) (a : list WebSocketAction)
    : list WebSocketAction * option string := (h :: a, None).
Definition ex_verify (key : string) (text : string) (sig : nat) : bool := (sig =? 7)%nat.
Abbreviation ex_feed := (feed ex_verify ex_handle Some).

Lemma unverified_hub_is_powerless_witness :
  agent (fold_left ex_feed
    [IConnect; IMessage true (Some (7, 3%nat)); IMessage true (Some (1, 8%nat));
     IMessage true (Some (6, 0%nat))] (fresh_client "token" ["key"%string] [])) = [].
Proof.
  apply (unverified_hub_is_powerless ex_verify ex_handle Some "token" ["key"%string] []).
  reflexivity.
Defined.

(** The flag outlives the connection: after one hub proved itself, whoever answers the next
    connection can have the agent install a binary without a challenge. *)
Example verified_survives_reconnect :
  let c := fold_left ex_feed
    [IConnect; IMessage true (Some (1, 7%nat)); IConnect; IMessage true (Some (7, 0%nat))]
    (fresh_client "token" ["key"%string] []) in
  conn c = 2%nat ∧ agent c = [PushAgentBinary].
Proof. by split. Qed.

(** ** Settings *)

Section settings.
Context (GetEnv : string → option string).

Definition env (key : string) : string := default "" (GetEnv key).

(** [getToken]; [ReadFile] reads the file of the token. *)
Definition getToken (ReadFile : string → option string) : option string :=
  if negb (String.eqb (env "TOKEN") "") then Some (env "TOKEN")
  else if String.eqb (env "TOKEN_FILE") "" then None
  else option_map TrimSpace (ReadFile (env "TOKEN_FILE")).

(** [ParseKeys]; [parse] is [gossh.ParseAuthorizedKey]. *)
Fixpoint parse_lines {Key} (parse : string → option Key) (lines : list string)
    : option (list Key) :=
  match lines with
  | [] => Some []
  | l :: lines =>
      let l := TrimSpace l in
      if String.eqb l "" || HasPrefix l "#" then parse_lines parse lines
      else k ← parse l; ks ← parse_lines parse lines; Some (k :: ks)
  end.

Definition ParseKeys {Key} (parse : string → option Key) (input : string) : option (list Key) :=
  parse_lines parse (Split "010"%char input).

Definition GetNetwork (addr : string) : string :=
  if negb (String.eqb (env "NETWORK") "") then env "NETWORK"
  else if HasPrefix addr "/" then "unix" else "tcp".

Definition GetAddress (addr : string) : string :=
  let addr := if String.eqb addr "" then env "LISTEN" else addr in
  let addr := if String.eqb addr "" then env "PORT" else addr in
  if String.eqb addr "" then ":45876"
  else if negb (String.eqb (GetNetwork addr) "unix") && negb (Contains addr ":")
  then (":" ++ addr)%string else addr.

Lemma GetAddress_listens addr :
  GetAddress addr ≠ ""%string ∧
  (Contains (GetAddress addr) ":" = true ∨ GetNetwork (GetAddress addr) = "unix"%string).
Proof.
  unfold GetAddress. set (a1 := if String.eqb addr "" then env "LISTEN" else addr).
  set (a2 := if String.eqb a1 "" then env "PORT" else a1).
  destruct (String.eqb_spec a2 "") as [E|E]; [split; [done|by left]|].
  destruct (String.eqb_spec (GetNetwork a2) "unix") as [Hn|Hn]; simpl; [auto|].
  destruct (Contains a2 ":") eqn:Hc; simpl; [auto|]. split; [done|]. by left.
Qed.
End settings.

(** ** The fingerprint *)

Section fingerprint.
(** The first 24 bytes of SHA-256 in hexadecimal. *)
Context (digest : string → string).

Definition knownBadUUID : string := "03000200-0400-0500-0006-000700080009".

(** What the machine says of itself. *)
Record host := { HostID : option string; h_Hostname : string; h_CpuModel : option string }.

Definition generateFingerprint (h : host) (hostname cpuModel : string) : string :=
  let id := default "" (HostID h) in
  let fingerprint :=
    if String.eqb id "" || String.eqb id knownBadUUID then
      let hostname := if String.eqb hostname "" then h_Hostname h else hostname in
      let cpuModel := if String.eqb cpuModel "" then default "" (h_CpuModel h) else cpuModel in
      (hostname ++ cpuModel)%string
    else id in
  digest fingerprint.

Definition readFingerprint (file : option string) : option string :=
  fp ← file;
  let s := TrimSpace fp in
  if String.eqb s "" then None else Some s.

(** [GetFingerprint]: the fingerprint and the file afterwards; [dir] is whether there is a
    data directory, [written] the outcome of writing to it. *)
Definition GetFingerprint (dir written : bool) (h : host) (hostname cpuModel : string)
    (file : option string) : string * option string :=
  match (if dir then readFingerprint file else None) with
  | Some fp => (fp, file)
  | None =>
      let fp := generateFingerprint h hostname cpuModel in
      (fp, if dir && written then Some fp else file)
  end.

Definition DeleteFingerprint (file : option string) : option string := None.

(** Once a fingerprint could be saved, the agent keeps it: later runs return the same one,
    whatever became of the machine's id, name and processor, until it is deleted. *)
Theorem fingerprint_kept h1 n1 c1 file h2 n2 c2 written :
  (∀ s, TrimSpace (digest s) = digest s ∧ digest s ≠ ""%string) →
  let '(fp, file1) := GetFingerprint true true h1 n1 c1 file in
  GetFingerprint true written h2 n2 c2 file1 = (fp, file1).
Proof.
  intros Hd. unfold GetFingerprint. destruct (readFingerprint file) as [fp|] eqn:Hf.
  { by rewrite Hf. }
  assert (∃ x, generateFingerprint h1 n1 c1 = digest x) as [x ->] by (eexists; reflexivity).
  destruct (Hd x) as [Ht Hne]. cbn [andb]. unfold readFingerprint. simpl. rewrite Ht.
  by rewrite (proj2 (String.eqb_neq _ _)).
Qed.
End fingerprint.

Lemma fingerprint_kept_witness :
  let digest := λ _ : string, "00ff"%string in
  GetFingerprint digest true false
    {| HostID := Some "other"%string; h_Hostname := "b"; h_CpuModel := None |} "b" "" (Some "00ff"%string)
  = ("00ff"%string, Some "00ff"%string).
Proof.
  apply (fingerprint_kept (λ _, "00ff"%string)
    {| HostID := None; h_Hostname := "a"; h_CpuModel := None |} "a" "" None). by split.
Defined.

(** ** The data directory *)

(** What the file system answers for a path. *)
Record dir_state := {
  d_stat : option bool;       (* [Some isDir], [None] when it does not exist *)
  d_statErr : bool;           (* another error *)
  d_mkdir : bool;
  d_writable : bool;          (* now, or after it was made *)
}.

Section datadir.
Context (dirs : string → dir_state).

(** The directory exists; the boolean is the error. *)
Definition directoryExists (path : string) : bool * bool :=
  if d_statErr (dirs path) then (false, true)
  else match d_stat (dirs path) with
       | None => (false, false)
       | Some true => (true, false)
       | Some false => (false, true)
       end.

Definition isValidDataDir (path : string) (createIfNotExists : bool) : bool :=
  let '(exists_, err) := directoryExists path in
  if err then false
  else if negb exists_ then
    if negb createIfNotExists then false
    else if negb (d_mkdir (dirs path)) then false else d_writable (dirs path)
  else d_writable (dirs path).

(** The second loop tries to make a directory, also where something else is in the way. *)
Definition can_make (path : string) : bool :=
  negb (directoryExists path).1 && d_mkdir (dirs path) && d_writable (dirs path).

Definition testDataDirs (paths : list string) : option string :=
  match find (λ p, isValidDataDir p false) paths with
  | Some p => Some p
  | None => find can_make paths
  end.

(** The candidates of [GetDataDir] on systems other than Windows. *)
Definition GetDataDir (given : list string) (dataDir : string) (homeDir : option string)
    : option string :=
  match given with
  | _ :: _ => testDataDirs given
  | [] =>
      testDataDirs ((if String.eqb dataDir "" then [] else [dataDir]) ++
        "/var/lib/bantay-agent" ::
        match homeDir with Some h => [JoinPath [h; ".config"; "beszel"]] | None => [] end)
  end.

(** The directory that is used is one of the candidates and can be written to. *)
Lemma testDataDirs_writable paths p :
  testDataDirs paths = Some p → p ∈ paths ∧ d_writable (dirs p) = true.
Proof.
  unfold testDataDirs. destruct (find _ paths) as [q|] eqn:Hf.
  - intros [= ->]. apply find_some in Hf as [Hin Hv]. split; [by apply list_elem_of_In|].
    unfold isValidDataDir in Hv. by destruct (directoryExists p) as [[] []].
  - intros [Hin Hv]%find_some. split; [by apply list_elem_of_In|].
    unfold can_make in Hv. by apply andb_true_iff in Hv as [_ ?].
Qed.
End datadir.
End AgentHandlers.
