(* ===== verification/AgentSocket.v ===== *)
(** * The agent's end of the WebSocket ([agent/client.go])

    The client keeps one connection at a time: [Connect] asks the old one to close and dials.  The
    goroutine that reads an old connection may still be in a handler then, and answers over the
    client's present connection, which is another one, or none when the dial has failed.  Steps are
    those of the goroutines of the connections and of the connection manager, with a clock.  What the
    handlers do is [AgentHandlers] and [AgentSession]; the manager's events are those of
    [ConnectionManager]. *)

From S2P Require Import Prelude GoStrings GoText.

Module AgentSocket.
Local Open Scope Z_scope.

Section socket.
Context {D : Type}.                                     (* what handlers answer *)

Definition wsDeadline : Z := 70 * Second.

(** An answer to a request with a number, or, to an old hub, the data alone. *)
Inductive frame := Response (id : Z) (d : D) | Legacy (d : D) | Pong | CloseFrame (code : Z).

Record conn := {
  deadline : Z;
  closing : bool;                                       (* a close frame was written *)
  out : list frame;
}.

Inductive event := WebSocketConnect | WebSocketDisconnect.

Record client := {
  Conn : option nat;
  conns : gmap nat conn;                                (* every connection that was dialled *)
  dialled : nat;
  lastConnectAttempt : Z;
  eventChan : list event;                               (* what was sent to the manager *)
  handling : list (nat * option Z);                     (* handlers at work: connection, request *)
}.

Definition with_conns (c : client) (m : gmap nat conn) : client := {|
  Conn := Conn c; conns := m; dialled := dialled c; lastConnectAttempt := lastConnectAttempt c;
  eventChan := eventChan c; handling := handling c |}.
Definition with_handling (c : client) (h : list (nat * option Z)) : client := {|
  Conn := Conn c; conns := conns c; dialled := dialled c; lastConnectAttempt := lastConnectAttempt c;
  eventChan := eventChan c; handling := h |}.

Definition SetDeadline (t : Z) (k : conn) : conn := {| deadline := t; closing := closing k; out := out k |}.
Definition Write (f : frame) (k : conn) : conn := {|
  deadline := deadline k; closing := closing k || match f with CloseFrame _ => true | _ => false end;
  out := (out k ++ [f])%list |}.

Definition OnOpen (now : Z) (i : nat) (c : client) : client :=
  with_conns c (alter (SetDeadline (now + wsDeadline)) i (conns c)).

Definition OnPing (now : Z) (i : nat) (c : client) : client :=
  with_conns c (alter (λ k, Write Pong (SetDeadline (now + wsDeadline) k)) i (conns c)).

(** [request] is the number of a request, when the message is one; its handler starts. *)
Definition OnMessage (now : Z) (i : nat) (request : option (option Z)) (c : client) : client :=
  let c := with_conns c (alter (SetDeadline (now + wsDeadline)) i (conns c)) in
  match request with
  | Some id => with_handling c (handling c ++ [(i, id)])
  | None => c
  end.

Definition OnClose (i : nat) (c : client) : client := {|
  Conn := Conn c; conns := conns c; dialled := dialled c; lastConnectAttempt := lastConnectAttempt c;
  eventChan := eventChan c ++ [WebSocketDisconnect]; handling := handling c |}.

Definition Close (c : client) : client :=
  match Conn c with
  | Some i => with_conns c (alter (Write (CloseFrame 1000)) i (conns c))
  | None => c
  end.

(** A dial that fails leaves no connection. *)
Definition Connect (now : Z) (dial_ok : bool) (c : client) : client :=
  let c := Close c in
  if dial_ok then
    {| Conn := Some (dialled c);
       conns := <[dialled c := {| deadline := now + wsDeadline; closing := false; out := [] |}]> (conns c);
       dialled := S (dialled c); lastConnectAttempt := now; eventChan := eventChan c; handling := handling c |}
  else {| Conn := None; conns := conns c; dialled := dialled c; lastConnectAttempt := now;
          eventChan := eventChan c; handling := handling c |}.

(** [None]: the program panics, for the connection is nil. *)
Definition sendMessage (write_ok : bool) (f : frame) (c : client) : option client :=
  i ← Conn c;
  Some (if write_ok then with_conns c (alter (Write f) i (conns c)) else Close c).

Definition sendResponse (write_ok : bool) (d : D) (requestID : option Z) (c : client) : option client :=
  sendMessage write_ok (match requestID with Some id => Response id d | None => Legacy d end) c.

(** ** Runs *)

Inductive state := Running (c : client) | Crashed.

Inductive step : state → state → Prop :=
  | step_connect now ok c : step (Running c) (Running (Connect now ok c))
  | step_open now i c : step (Running c) (Running (OnOpen now i c))
  | step_ping now i c : step (Running c) (Running (OnPing now i c))
  | step_message now i request c :
      i ∈ dom (conns c) → (∀ id, (i, id) ∉ handling c) → step (Running c) (Running (OnMessage now i request c))
  | step_answer l i id l' d ok c :
      handling c = (l ++ (i, id) :: l')%list →
      step (Running c)
        (match sendResponse ok d id (with_handling c (l ++ l')) with Some c => Running c | None => Crashed end)
  | step_close i c : step (Running c) (Running (OnClose i c)).

Definition fresh : client := {|
  Conn := None; conns := ∅; dialled := 0; lastConnectAttempt := 0; eventChan := []; handling := [] |}.

(** A connection that was not asked to close is the present one, and the present one is known. *)
Record client_ok (c : client) : Prop := {
  ok_live : ∀ i k, conns c !! i = Some k → closing k = false → Conn c = Some i;
  ok_known : ∀ i, Conn c = Some i → i ∈ dom (conns c);
  ok_new : ∀ i, i ∈ dom (conns c) → (i < dialled c)%nat;
}.

(** Changing a connection without opening it again. *)
Lemma alter_ok f i c :
  (∀ k, closing (f k) = false → closing k = false) → client_ok c → client_ok (with_conns c (alter f i (conns c))).
Proof.
  intros Hf [H1 H2 H3]. split; cbn.
  - intros j k. rewrite lookup_alter_Some. intros [(->&k'&Hk&->)|[_ Hk]] Hc; eauto.
  - intros j Hj. rewrite dom_alter. auto.
  - intros j. rewrite dom_alter. auto.
Qed.

Lemma Write_closing f k : closing (Write f k) = false → closing k = false.
Proof. cbn. by intros [? _]%orb_false_iff. Qed.

Lemma Close_ok c : client_ok c → client_ok (Close c) ∧ ∀ i k, conns (Close c) !! i = Some k → closing k = true.
Proof.
  intros Hok. unfold Close. destruct (Conn c) as [i|] eqn:Ei; (split; [try by apply alter_ok; [apply Write_closing|]|]).
  - intros j k. cbn. rewrite lookup_alter_Some. intros [(->&k'&Hk&->)|[Hne Hk]]; [cbn; apply orb_true_r|].
    destruct (closing k) eqn:E; [done|]. apply (ok_live _ Hok) in Hk; [|done]. congruence.
  - done.
  - intros j k Hk. destruct (closing k) eqn:E; [done|]. apply (ok_live _ Hok) in Hk; [|done]. congruence.
Qed.

Lemma socket_step_ok c c' : client_ok c → step (Running c) (Running c') → client_ok c'.
Proof.
  intros Hok Hst. inversion Hst as [now ok ? E1 E2|now i ? E1 E2|now i ? E1 E2|now i request ? Hi Hh E1 E2|l i id l' d ok ? Hh E1 E2|i ? E1 E2]; subst.
  - destruct (Close_ok c Hok) as [Hc Hall]. unfold Connect. destruct ok.
    + destruct Hc as [_ _ H3]. split; cbn.
      * intros i k. rewrite lookup_insert_Some. intros [[<- _]|[_ Hk]] Hcl; [done|]. apply Hall in Hk. congruence.
      * intros i [= <-]. rewrite dom_insert_L. set_solver.
      * intros i. rewrite dom_insert_L, elem_of_union, elem_of_singleton. intros [->|?%H3]; lia.
    + destruct Hc as [_ _ H3]. split; cbn; [|done|done]. intros i k Hk Hcl. apply Hall in Hk. congruence.
  - by apply alter_ok.
  - apply alter_ok; [|done]. intros k Hk. apply Write_closing in Hk. done.
  - unfold OnMessage. pose proof (alter_ok (SetDeadline (now + wsDeadline)) i c ltac:(done) Hok) as [? ? ?].
    destruct request; by split.
  - assert (client_ok (with_handling c (l ++ l'))) as Hw by (destruct Hok; by split).
    unfold sendResponse, sendMessage in *. cbn in E2. destruct (Conn c) as [j|] eqn:Ej; [|done]. cbn in E2.
    destruct ok; injection E2 as <-; [|by apply Close_ok].
    apply (alter_ok _ j (with_handling c (l ++ l'))); [apply Write_closing|done].
  - destruct Hok. by split.
Qed.

(** At any time one connection at most is not being closed, and it is the one that answers are
    written to. *)
Theorem one_live_connection c :
  rtc step (Running fresh) (Running c) →
  ∀ i j k k', conns c !! i = Some k → conns c !! j = Some k' → closing k = false → closing k' = false → i = j.
Proof.
  intros Hr. assert (client_ok c) as Hok.
  { assert (∀ x y, rtc step x y → ∀ c0, x = Running c0 → client_ok c0 → match y with Running c => client_ok c | Crashed => True end) as Hgen.
    { induction 1 as [x|x y z Hxy Hyz IH]; intros c0 -> H0; [done|]. destruct y as [c1|].
      - apply (IH c1 eq_refl). by eapply socket_step_ok.
      - inversion Hyz as [|? ? ? Hs]; subst; [done|]. inversion Hs. }
    apply (Hgen _ _ Hr fresh eq_refl). split; cbn; [by intros ? ? ?%lookup_empty_Some|done|set_solver]. }
  intros i j k k' Hi Hj Hk Hk'. apply (ok_live _ Hok) in Hi, Hj; [|done..]. congruence.
Qed.
End socket.

(** ** Examples *)

Definition ex_dialled : client (D := Z) := Connect 0 true fresh.
(** A request arrives on the first connection. *)
Definition ex_asked : client (D := Z) := OnMessage Second 0 (Some (Some 5)) (OnOpen 0 0 ex_dialled).

Lemma ex_reach : rtc step (Running fresh) (Running ex_asked).
Proof.
  eapply rtc_l; [apply (step_connect 0 true)|]. eapply rtc_l; [apply (step_open 0 0)|].
  apply rtc_once, step_message; [vm_compute; eauto|]. intros id. cbn. set_solver.
Qed.

Lemma one_live_connection_witness :
  ∀ i j k k', conns ex_asked !! i = Some k → conns ex_asked !! j = Some k' → closing k = false → closing k' = false → i = j.
Proof. apply (one_live_connection ex_asked ex_reach). Defined.

(** While it is handled the client connects again: the answer goes to the other connection. *)
Example answer_on_other_connection :
  ∃ c, rtc step (Running ex_asked) (Running c) ∧
    (out <$> conns c !! 1%nat) = Some [Response 5 42] ∧ (out <$> conns c !! 0%nat) = Some [CloseFrame 1000].
Proof.
  eexists. split; [|shelve].
  eapply rtc_l; [apply (step_connect (20 * Second) true)|].
  eapply rtc_l; [apply (step_answer [] 0 (Some 5) [] 42 true); reflexivity|]. apply rtc_refl.
  Unshelve. split; vm_compute; reflexivity.
Qed.

(** The dial fails: the agent panics. *)
Example answer_without_connection_panics : rtc step (Running ex_asked) Crashed.
Proof.
  eapply rtc_l; [apply (step_connect (20 * Second) false)|].
  apply rtc_once. apply (step_answer [] 0 (Some 5) [] 42 true). reflexivity.
Qed.
End AgentSocket.
