(* ===== verification/HubSocket.v ===== *)
(** * The hub's end of an agent's WebSocket ([internal/hub/ws/ws.go], [handlers.go])

    After the upgrade the hub wraps the connection in a [WsConn], starts to read it, and asks the
    agent for its fingerprint.  When the connection ends a goroutine waits five seconds for the
    agent to come back and then puts a signal on [DownChan], on which the system's updater sets
    the system down (SystemManager.v); requests go through the request manager
    (RequestManager.v).

    The goroutines are a step relation with a clock.  [gws] is third-party: that it calls
    [OnOpen] first and [OnClose] once, after which no message is read, is how the steps are
    enabled. *)

From S2P Require Import Prelude GoStrings GoText RequestManager Transport AgentHandlers.

Module HubSocket.
Import Transport.
Section socket.
Context {V Raw : Type} `{EqDecision V}.
Context {Cod : Codec (V := V) (Raw := Raw)}.
Context (response_id : Raw → option Z) {RO : RangeOrder Z}.
Local Open Scope Z_scope.

Definition deadline : Z := 70 * Second.

(** [WsConn]; [DownChan] has room for one signal. *)
Record WsConn := {
  conn : bool;                                       (* [conn != nil] *)
  requestManager : RequestManager.RequestManager (Msg := Raw);
  DownChan : nat;
  agentLegacy : bool;                                (* older than [MinVersionAgentResponse] *)
}.

Definition with_conn (w : WsConn) (b : bool) : WsConn := {|
  conn := b; requestManager := requestManager w; DownChan := DownChan w;
  agentLegacy := agentLegacy w |}.
Definition with_manager (w : WsConn) (rm : RequestManager.RequestManager) : WsConn := {|
  conn := conn w; requestManager := rm; DownChan := DownChan w; agentLegacy := agentLegacy w |}.
Definition with_signals (w : WsConn) (n : nat) : WsConn := {|
  conn := conn w; requestManager := requestManager w; DownChan := n;
  agentLegacy := agentLegacy w |}.

Definition NewWsConnection (legacy : bool) : WsConn := {|
  conn := true; requestManager := RequestManager.NewRequestManager true; DownChan := 0;
  agentLegacy := legacy |}.

Inductive frame := CloseFrame (code : Z) (msg : string) | PingFrame.

(** [gws.Conn]: what its session stores, its deadline and what was written to it. *)
Record Conn := { session : option WsConn; conn_deadline : Z; written : list frame }.

Definition SetDeadline (c : Conn) (t : Z) : Conn := {|
  session := session c; conn_deadline := t; written := written c |}.
Definition Write (c : Conn) (f : frame) : Conn := {|
  session := session c; conn_deadline := conn_deadline c; written := written c ++ [f] |}.
Definition Store (c : Conn) (w : WsConn) : Conn := {|
  session := Some w; conn_deadline := conn_deadline c; written := written c |}.

(** ** The handler of events *)

Definition OnOpen (now : Z) (c : Conn) : Conn := SetDeadline c (now + deadline).

(** [binary] is the opcode, [len] the length of the message. *)
Definition OnMessage (now : Z) (binary : bool) (len : nat) (m : Raw) (c : Conn) : Conn :=
  let c := SetDeadline c (now + deadline) in
  if negb binary || (len =? 0)%nat then c
  else match session c with
       | None => Write c (CloseFrame 1000 "")
       | Some w =>
           Store c (with_manager w (RequestManager.handleResponse response_id (requestManager w) m))
       end.

(** The connection, and whether the goroutine of the grace period was started. *)
Definition OnClose (c : Conn) : Conn * bool :=
  match session c with
  | None => (c, false)
  | Some w => (Store c (with_conn w false), true)
  end.

(** ** Operations of the hub *)

Definition IsConnected (w : WsConn) : bool := conn w.

Definition Close (msg : string) (w : WsConn) (c : Conn) : Conn :=
  let c := if IsConnected w then Write c (CloseFrame 1000 msg) else c in
  Store c (with_manager w (RequestManager.Close (requestManager w))).

Definition Ping (now : Z) (w : WsConn) (c : Conn) : Conn * option error :=
  if negb (conn w) then (c, Some ErrConnClosed)
  else (Write (SetDeadline c (now + deadline)) PingFrame, None).

(** [handleAgentRequest] on a handler with its result; the outcome is what the request's channel
    or context gives first (a request that could not be sent is not waited for). *)
Record ResponseHandler (R : Type) := {
  Handle : AgentResponse (V := V) (Raw := Raw) → R → R * option error;
  HandleLegacy : Raw → R → R * option error }.
Arguments Handle {R}. Arguments HandleLegacy {R}.

Definition handleAgentRequest {R} (legacy : bool) (o : ws_outcome (Raw := Raw)) (h : ResponseHandler R)
    (r : R) : R * option error :=
  match o with
  | SendFails e | ContextDone e => (r, Some e)
  | Message raw =>
      if legacy then HandleLegacy h raw r
      else match decode_response raw with
           | inr e => (r, Some (Err e))
           | inl resp =>
               if negb (String.eqb (r_Error resp) "") then (r, Some (Err (r_Error resp)))
               else Handle h resp r
           end
  end.

Abbreviation fields := (gmap (list Z) V).

Definition fingerprintHandler : ResponseHandler fields := {|
  HandleLegacy rawData r :=
    match Unmarshal rawData (FingerprintResponse r) with
    | (FingerprintResponse r', None) => (r', None)
    | (FingerprintResponse r', Some e) => (r', Some (Err e))
    | (_, Some e) => (r, Some (Err e))
    | (_, None) => (r, None)
    end;
  Handle resp r :=
    match r_Fingerprint resp with
    | Some x => (x, None)
    | None => (r, Some (Err "no fingerprint data in response"))
    end |}.

(** [GetFingerprint]: the signature of the token is the hub's proof; [Sign] fails or signs. *)
Definition GetFingerprint {Sig} (Sign : string → option Sig) (token : string) (w : WsConn)
    (answer : Sig → ws_outcome (Raw := Raw)) : fields * option error :=
  if negb (IsConnected w) then (∅, Some ErrConnClosed)
  else match Sign token with
       | None => (∅, Some (Err "sign"))
       | Some sig => handleAgentRequest (agentLegacy w) (answer sig) fingerprintHandler ∅
       end.

(** ** The life of a connection *)

Inductive phase := Upgraded | Reading | Ended (at_ : Z).

(** [sleepers] are the times at which goroutines of [OnClose] wake up, [signals] those at which
    they have put a signal on [DownChan], [taken] how many the updater has received; [active] is
    the time of the last event that moved the deadline. *)
Record state := {
  clock : Z; life : phase; socket_ : Conn; sleepers : list Z; signals : list Z; taken : nat;
  active : Z }.

Definition grace : Z := 5 * Second.

(** [verifyWsConn] stores the wrapper before the connection is read. *)
Definition accepted (t : Z) (legacy : bool) : state := {|
  clock := t; life := Upgraded;
  socket_ := Store {| session := None; conn_deadline := 0; written := [] |} (NewWsConnection legacy);
  sleepers := []; signals := []; taken := 0; active := t |}.

Definition set_socket (st : state) (c : Conn) : state := {|
  clock := clock st; life := life st; socket_ := c; sleepers := sleepers st; signals := signals st;
  taken := taken st; active := active st |}.
Definition touched (st : state) (c : Conn) : state := {|
  clock := clock st; life := life st; socket_ := c; sleepers := sleepers st; signals := signals st;
  taken := taken st; active := clock st |}.

Inductive step : state → state → Prop :=
| step_time st t : clock st <= t → step st {| clock := t; life := life st; socket_ := socket_ st;
    sleepers := sleepers st; signals := signals st; taken := taken st; active := active st |}
| step_open st : life st = Upgraded →
    step st {| clock := clock st; life := Reading; socket_ := OnOpen (clock st) (socket_ st);
      sleepers := sleepers st; signals := signals st; taken := taken st; active := clock st |}
| step_message st binary len m : life st = Reading → clock st <= conn_deadline (socket_ st) →
    step st (touched st (OnMessage (clock st) binary len m (socket_ st)))
| step_requests st w rm : session (socket_ st) = Some w →          (* requests and their watchers *)
    RequestManager.step response_id (requestManager w) rm →
    step st (set_socket st (Store (socket_ st) (with_manager w rm)))
| step_ping st w c : session (socket_ st) = Some w → Ping (clock st) w (socket_ st) = (c, None) →
    step st (touched st c)
| step_close st w msg : session (socket_ st) = Some w →
    step st (set_socket st (Close msg w (socket_ st)))
| step_end st c started : life st = Reading → OnClose (socket_ st) = (c, started) →
    step st {| clock := clock st; life := Ended (clock st); socket_ := c;
      sleepers := if started then clock st + grace :: sleepers st else sleepers st;
      signals := signals st; taken := taken st; active := active st |}
| step_signal st w t ts : session (socket_ st) = Some w → sleepers st = t :: ts → t <= clock st →
    DownChan w = 0%nat →
    step st {| clock := clock st; life := life st;
      socket_ := Store (socket_ st) (with_signals w 1); sleepers := ts;
      signals := clock st :: signals st; taken := taken st; active := active st |}
| step_collected st t ts : sleepers st = t :: ts → t <= clock st →  (* the weak pointer is nil *)
    step st {| clock := clock st; life := life st; socket_ := socket_ st; sleepers := ts;
      signals := signals st; taken := taken st; active := active st |}
| step_take st w n : session (socket_ st) = Some w → DownChan w = S n →
    step st {| clock := clock st; life := life st; socket_ := Store (socket_ st) (with_signals w n);
      sleepers := sleepers st; signals := signals st; taken := S (taken st); active := active st |}.

Inductive reachable : state → Prop :=
| reachable_accepted t legacy : reachable (accepted t legacy)
| reachable_step st st' : reachable st → step st st' → reachable st'.

(** ** Invariant *)

Definition ended (p : phase) : bool := match p with Ended _ => true | _ => false end.

Record Inv (st : state) : Prop := {
  inv_session : ∃ w, session (socket_ st) = Some w ∧ conn w = negb (ended (life st)) ∧
    RequestManager.reachable response_id true (requestManager w) ∧
    (DownChan w + taken st = List.length (signals st))%nat;
  inv_signals : match life st with
    | Ended t => (List.length (sleepers st) + List.length (signals st) <= 1)%nat ∧ t <= clock st ∧
        Forall (λ s, s = t + grace) (sleepers st) ∧
        Forall (λ s, t + grace <= s <= clock st) (signals st)
    | _ => sleepers st = [] ∧ signals st = []
    end;
  inv_active : active st <= clock st ∧
    (life st = Reading → conn_deadline (socket_ st) = active st + deadline);
}.

Lemma inv_accepted t legacy : Inv (accepted t legacy).
Proof using Type.
  split; simpl; [|done|done]. eexists. split_and!; [done|done| |done]. constructor.
Qed.

Lemma inv_step st st' : Inv st → step st st' → Inv st'.
Proof using Type.
  intros [(w&Hw&Hc&Hrm&Hch) Hs [Ha Hd]]. destruct 1; simplify_eq/=.
  - (* time *) split; simpl; [by exists w| |split; [lia|done]].
    destruct (life st); [done|done|]. destruct Hs as (?&?&?&Hf). split_and!; [done|lia|done|].
    eapply Forall_impl; [exact Hf|]. simpl. lia.
  - (* open *) rewrite H in *. unfold OnOpen. split; simpl; [|done|done]. exists w. split_and!; try done.
  - (* message *) rewrite H in *. unfold touched, OnMessage. split; simpl; rewrite ?H.
    + case_match; [by exists w|]. simpl. rewrite Hw. simpl. eexists. split_and!; [done|done| |done].
      eapply RequestManager.reachable_step; [done|constructor].
    + done.
    + split; [lia|]. intros _. case_match; [done|]. simpl. by rewrite Hw.
  - (* requests *) split; simpl; [|done|done]. eexists. split_and!; [done|done| |done].
    by eapply RequestManager.reachable_step.
  - (* ping *) unfold Ping in *. destruct (conn w) eqn:Ew; simplify_eq/=.
    split; simpl; [by exists w; rewrite Ew|done|]. split; [lia|done].
  - (* close *) unfold set_socket, Close. split; simpl; [|done|].
    + eexists. split_and!; [done|done| |done]. simpl.
      eapply RequestManager.reachable_step; [done|constructor].
    + split; [done|]. intros Hr. rewrite <- (Hd Hr). by destruct (IsConnected w).
  - (* end *) unfold OnClose in *. rewrite Hw in *. simplify_eq/=. rewrite H in *.
    destruct Hs as [-> Hsig]. rewrite Hsig in *. split; simpl.
    + eexists. split_and!; [done|done|done|done].
    + split_and!; [lia|lia|by repeat constructor|constructor].
    + done.
  - (* signal *) split; simpl; [| |done].
    + eexists. split_and!; [done|done|done|]. simpl. lia.
    + rewrite H0 in Hs. destruct (life st); [by destruct Hs|by destruct Hs|].
      destruct Hs as (Hl&Ht&Hf&Hg). simpl in Hl. apply Forall_cons in Hf as [-> Hf].
      split_and!; [simpl; lia|done|done|]. apply Forall_cons. split; [lia|done].
  - (* collected *) split; simpl; [by exists w| |done].
    rewrite H in Hs. destruct (life st); [by destruct Hs|by destruct Hs|].
    destruct Hs as (Hl&Ht&Hf&Hg). simpl in Hl. apply Forall_cons in Hf as [_ Hf].
    split_and!; [lia|done|done|done].
  - (* take *) split; simpl; [|done|done]. eexists. split_and!; [done|done|done|]. simpl. lia.
Qed.

Lemma reachable_inv st : reachable st → Inv st.
Proof using Type. induction 1; [apply inv_accepted|by eapply inv_step]. Qed.

(** ** Properties *)

(** C36: the hub's end of a connection: the wrapper is always found, its request manager runs
    through the states of RequestManager.v, and it counts as connected until the connection
    ends; a system is told to go down at most once, at the earliest five seconds after that end;
    the goroutine that tells it never blocks and, unless the wrapper is collected, tells it; and
    a connection that is read has its deadline 70 seconds after it was opened, last heard or
    pinged. *)
Theorem connection_life st :
  reachable st →
  ∃ w, session (socket_ st) = Some w ∧
    RequestManager.reachable response_id true (requestManager w) ∧
    (IsConnected w = true ↔ ended (life st) = false) ∧
    (List.length (signals st) <= 1)%nat ∧
    (∀ s, s ∈ signals st → ∃ t, life st = Ended t ∧ t + grace <= s <= clock st) ∧
    (∀ t, t ∈ sleepers st → DownChan w = 0%nat ∧
       (t <= clock st → ∃ st', step st st' ∧ signals st' = [clock st] ∧ life st' = life st)) ∧
    (life st = Reading → active st <= clock st ∧
       conn_deadline (socket_ st) = active st + deadline).
Proof using Type.
  intros [(w&Hw&Hc&Hrm&Hch) Hs [Ha Hd]]%reachable_inv. exists w. unfold IsConnected.
  split_and!; [done|done|by rewrite Hc; destruct (ended _)| | | |by auto].
  - destruct (life st); [destruct Hs as [_ ->]; simpl; lia..|]. destruct Hs. lia.
  - intros s Hin. destruct (life st) as [| |t]; [destruct Hs as [_ E]..|];
      try (rewrite E in Hin; by apply elem_of_nil in Hin).
    exists t. split; [done|]. destruct Hs as (_&_&_&Hf). rewrite Forall_forall in Hf. by apply Hf.
  - intros t Hin. destruct (life st) as [| |t0] eqn:Hl; [destruct Hs as [E _]..|];
      try (rewrite E in Hin; by apply elem_of_nil in Hin).
    destruct Hs as (Hn&_). destruct (sleepers st) as [|t' [|? ?]] eqn:Hsl;
      [by apply elem_of_nil in Hin| |simpl in Hn; lia].
    apply list_elem_of_singleton in Hin as ->. simpl in Hn.
    assert (signals st = []) as Hsg by (apply nil_length_inv; lia). rewrite Hsg in Hch. simpl in Hch.
    assert (DownChan w = 0%nat) as H0 by lia. split; [done|]. intros Ht. eexists. split.
    + by eapply step_signal.
    + simpl. by rewrite Hsg.
Qed.

(** The fingerprint that the hub takes from an answer. *)
Lemma GetFingerprint_exact {Sig} (Sign : string → option Sig) token w answer x :
  agentLegacy w = false → GetFingerprint Sign token w answer = (x, None) →
  IsConnected w = true ∧ ∃ sig raw resp, Sign token = Some sig ∧ answer sig = Message raw ∧
    decode_response raw = inl resp ∧ r_Error resp = ""%string ∧ r_Fingerprint resp = Some x.
Proof using Type.
  intros Hl. unfold GetFingerprint. destruct (IsConnected w); simpl; [|done].
  destruct (Sign token) as [sig|]; [|done]. rewrite Hl. unfold handleAgentRequest.
  destruct (answer sig) as [|raw|] eqn:Ha; [done| |done].
  destruct (decode_response raw) as [resp|] eqn:Hdec; [|done].
  destruct (String.eqb_spec (r_Error resp) ""); simpl; [|done].
  destruct (r_Fingerprint resp) as [y|] eqn:Hy; [|done]. intros [= ->].
  split; [done|]. exists sig, raw, resp. by split_and!.
Qed.

(** What an agent answers arrives. *)
Lemma fingerprint_roundtrip {Sig} {CL : CodecLaws} (Sign : string → option Sig) token w sig x :
  agentLegacy w = false → IsConnected w = true → Sign token = Some sig →
  GetFingerprint Sign token w
    (λ _, Message (encode_response (newAgentResponse Marshal_bool (FingerprintResponse x)))) = (x, None).
Proof using Type.
  intros Hl Hc Hs. unfold GetFingerprint. rewrite Hc, Hs, Hl. simpl. by rewrite decode_encode.
Qed.

(** The agent accepts the signature of a hub whose key it has, for its own token. *)
Lemma hub_proves_itself {Key Sig Data Agent : Type} (Verify : Key → string → Sig → bool)
    (challenge : Data → option Sig) (Sign : string → option Sig) pub
    (c : AgentHandlers.WebSocketClient (Key := Key) (Agent := Agent)) data sig :
  (∀ text s, Sign text = Some s → Verify pub text s = true) →
  Sign (AgentHandlers.token c) = Some sig → challenge data = Some sig →
  pub ∈ AgentHandlers.keys c →
  AgentHandlers.handleAuthChallenge Verify challenge c data =
    (AgentHandlers.with_agent c true (AgentHandlers.agent c), None).
Proof using Type.
  clear. intros Hv Hs Hc Hk. unfold AgentHandlers.handleAuthChallenge. rewrite Hc.
  assert (AgentHandlers.verifySignature Verify c sig = true) as ->; [|done].
  apply existsb_exists. exists pub. split; [by apply list_elem_of_In|by apply Hv].
Qed.
End socket.

(** ** A connection that is lost *)

#[local] Existing Instance toy_codec.

Definition no_id (m : toy) : option Z := None.
Local Open Scope Z_scope.

(** Opened at time 0, lost at 10 seconds, signalled at 15. *)
Definition at_time (t : Z) (st : state (Raw := toy)) : state := {|
  clock := t; life := life st; socket_ := socket_ st; sleepers := sleepers st;
  signals := signals st; taken := taken st; active := active st |}.
Definition opened : state (Raw := toy) :=
  let st := accepted 0 false in
  {| clock := 0; life := Reading; socket_ := OnOpen 0 (socket_ st); sleepers := []; signals := [];
     taken := 0; active := 0 |}.
Definition lost : state (Raw := toy) :=
  let st := at_time (10 * Second) opened in
  {| clock := clock st; life := Ended (clock st); socket_ := (OnClose (socket_ st)).1;
     sleepers := [clock st + grace]; signals := []; taken := 0; active := active st |}.
Definition waited : state (Raw := toy) := at_time (15 * Second) lost.

Lemma waited_reachable : reachable no_id waited.
Proof.
  eapply reachable_step; [|by apply (step_time no_id lost)].
  eapply reachable_step; [|by apply (step_end no_id (at_time (10 * Second) opened) _ true)].
  eapply reachable_step; [|by apply (step_time no_id opened)].
  eapply reachable_step; [apply (reachable_accepted no_id 0 false)|by apply step_open].
Qed.

Lemma connection_life_witness :
  ∃ st', step no_id waited st' ∧ signals st' = [15 * Second].
Proof.
  destruct (connection_life no_id waited waited_reachable) as (w&_&_&_&_&_&H&_).
  destruct (H (15 * Second)) as [_ Hs]; [by apply elem_of_cons; left|].
  destruct Hs as (st'&Hst&Hsig&_); [by vm_compute|]. exists st'. split; [exact Hst|exact Hsig].
Defined.
End HubSocket.
