(* ===== verification/SelfUpdate.v ===== *)
(** * Updates from releases, and commands ([internal/ghupdate], [agent/update.go],
    [internal/hub/update.go], [internal/cmd/agent/agent.go])

    The command [update] asks for the latest release, downloads and unpacks its archive and
    puts the new program in place of the running one.  Files are a map from paths; what the
    network and the operating system answer is an argument. *)

From S2P Require Import Prelude GoStrings GoText AgentUpdate AgentHandlers.

Module SelfUpdate.
Import AgentUpdate.
Local Open Scope string_scope.

(** ** Releases *)

Record releaseAsset := { a_Name : string; DownloadUrl : string }.
Record release := { Tag : string; Body : string; Assets : list releaseAsset }.

Definition findAssetBySuffix (r : release) (suffix : string) : option releaseAsset :=
  if String.eqb suffix "" then None
  else List.find (λ a, HasSuffix (a_Name a) suffix) (Assets r).

Definition getApiURL (useMirror : bool) (owner repo : string) : string :=
  if useMirror then "https://gh.beszel.dev/repos/" ++ owner ++ "/" ++ repo ++ "/releases/latest?api=true"
  else "https://api.github.com/repos/" ++ owner ++ "/" ++ repo ++ "/releases/latest".

(** The answer of the server: its status and its body, decoded if it can be. *)
Definition FetchLatestRelease (Do : string → option (Z * option release)) (url : string) : option release :=
  let url := if String.eqb url "" then getApiURL false "henrygd" "beszel" else url in
  '(status, body) ← Do url;
  if (400 <=? status)%Z then None else body.

(** [isGlibc]: the loaders, then what [ldd] says of itself. *)
Definition isGlibc (exists_ : string → bool) (ldd : option string) : bool :=
  existsb exists_ ["/lib64/ld-linux-x86-64.so.2"; "/lib/x86_64-linux-gnu/ld-linux-x86-64.so.2";
                   "/lib/ld-linux-x86-64.so.2"] ||
  match ldd with
  | Some out => let s := ToLower out in Contains s "gnu libc" || Contains s "glibc"
  | None => false
  end.

Definition archiveSuffix (glibc : bool) (binaryName goos goarch : string) : string :=
  let base := binaryName ++ "_" ++ goos ++ "_" ++ goarch in
  if String.eqb goos "windows" then base ++ ".zip"
  else if String.eqb binaryName "bantay-agent" && String.eqb goos "linux" && String.eqb goarch "amd64" && glibc
  then base ++ "_glibc.tar.gz"
  else base ++ ".tar.gz".

Definition isCrossDeviceError (err : string) : bool := Contains err "cross-device" || Contains err "EXDEV".

(** ** Archives *)

Inductive kind := Directory | Regular | Irregular.
Record entry := { e_name : string; e_kind : kind; e_data : list Z; e_ok : bool (* the system calls work *) }.

(** Entries of a tar archive; everything but directories is written as a file. *)
Fixpoint extractTarGz (destDir : string) (l : list entry) (fs : files) : files * bool :=
  match l with
  | [] => (fs, true)
  | e :: l =>
      if negb (e_ok e) then (fs, false)
      else match e_kind e with
           | Directory => extractTarGz destDir l fs
           | _ => extractTarGz destDir l (<[JoinPath [destDir; e_name e] := e_data e]> fs)
           end
  end.

(** [None] is an error. *)
Definition extractFile (e : entry) (basePath : string) (fs : files) : option files :=
  let path := JoinPath [basePath; e_name e] in
  if negb (HasPrefix path basePath) then None
  else if negb (e_ok e) then None
  else Some (match e_kind e with Regular => <[path := e_data e]> fs | _ => fs end).
Fixpoint zip_loop (dest : string) (l : list entry) (fs : files) : files * bool :=
  match l with
  | [] => (fs, true)
  | e :: l => match extractFile e dest fs with
              | Some fs => zip_loop dest l fs
              | None => (fs, false)
              end
  end.
Definition extractZip (dest : string) (l : list entry) (fs : files) : files * bool :=
  zip_loop (Clean dest ++ "/") l fs.

(** The archive is opened by the name of the file. *)
Definition extract (open_tar open_zip : option (list entry)) (srcPath destDir : string) (fs : files)
    : files * bool :=
  if HasSuffix srcPath ".tar.gz" then
    match open_tar with Some l => extractTarGz destDir l fs | None => (fs, false) end
  else match open_zip with Some l => extractZip destDir l fs | None => (fs, false) end.

(** Whatever a zip archive holds, unpacking it changes no file outside its directory. *)
Theorem zip_stays_inside dest l fs path :
  HasPrefix path (Clean dest ++ "/") = false → (extractZip dest l fs).1 !! path = fs !! path.
Proof.
  unfold extractZip. set (base := Clean dest ++ "/"). intros Hout. revert fs.
  induction l as [|e l IH]; intros fs; [done|]. cbn [zip_loop]. unfold extractFile.
  destruct (HasPrefix (JoinPath [base; e_name e]) base) eqn:Hp; [|done]. simpl negb. cbn iota.
  destruct (e_ok e); [|done]. simpl. rewrite IH. destruct (e_kind e); try done.
  rewrite lookup_insert_ne; [done|]. intros <-. by rewrite Hp in Hout.
Qed.

(** ** Replacing the program *)

Inductive rename_result := RenOk | RenCrossDevice | RenFailed.
(** A copy: complete, or what it left. *)
Inductive copy_result := CopyOk | CopyFailed (left : option (list Z)).

Record outcome := {
  r_old : bool; (* renaming the running program *)
  r_new : rename_result; r_copy : copy_result; r_revert : bool; r_remove : bool }.

Definition old_of (path : string) : string := path ++ ".old".

(** [copyFile] to a path *)
Definition copyFile (r : copy_result) (src dst : string) (fs : files) : files * bool :=
  match r with
  | CopyOk => (match fs !! src with Some d => <[dst := d]> fs | None => fs end, true)
  | CopyFailed None => (fs, false)
  | CopyFailed (Some part) => (<[dst := part]> fs, false)
  end.

(** From the renaming on: the states of the files in order, and whether it succeeded.  The old
    program is removed in the end in every case. *)
Definition replace_exec (oldExec newExec : string) (o : outcome) (fs : files) : list files * bool :=
  let bak := old_of oldExec in
  let removed := remove_if (r_remove o) bak in
  let revert fs := if r_revert o then rename bak oldExec fs else fs in
  if negb (r_old o) then ([fs; removed fs], false)
  else
    let fs1 := rename oldExec bak fs in
    match r_new o with
    | RenOk => let fs2 := rename newExec oldExec fs1 in ([fs; fs1; fs2; removed fs2], true)
    | RenCrossDevice =>
        let '(fs2, ok) := copyFile (r_copy o) newExec oldExec fs1 in
        if ok then ([fs; fs1; fs2; removed fs2], true)
        else ([fs; fs1; fs2; revert fs2; removed (revert fs2)], false)
    | RenFailed => ([fs; fs1; revert fs1; removed (revert fs1)], false)
    end.

Lemma bak_ne path : old_of path ≠ path.
Proof.
  unfold old_of. induction path as [|a p IH]; [discriminate|]. simpl. intros H. injection H as H.
  by apply IH.
Qed.

Lemma rename_lookup from to fs d p :
  fs !! from = Some d → from ≠ to →
  rename from to fs !! p = if decide (p = to) then Some d else if decide (p = from) then None else fs !! p.
Proof.
  intros Hf Hne. unfold rename. rewrite Hf. destruct (decide (p = to)) as [->|Hp]; [by rewrite lookup_insert_eq|].
  rewrite lookup_insert_ne by done. destruct (decide (p = from)) as [->|]; [by rewrite lookup_delete_eq|].
  by rewrite lookup_delete_ne.
Qed.

(** The program is in its place, old or new, or the old one beside it. *)
Definition runs_or_kept (path : string) (old new : list Z) (fs : files) : Prop :=
  fs !! path = Some old ∨ fs !! path = Some new ∨ fs !! old_of path = Some old.

(** C33: at every moment of the replacement the old program is in its place or beside it, or the new
    one in its place; in the end the new one is there if it succeeded and the old one if it failed,
    provided that a failure can be undone. *)
Theorem replace_keeps_program path newExec old new o fs :
  fs !! path = Some old → fs !! newExec = Some new → newExec ≠ path → newExec ≠ old_of path →
  r_revert o = true →
  let '(states, ok) := replace_exec path newExec o fs in
  Forall (runs_or_kept path old new) states ∧
  ∃ fs', last states = Some fs' ∧ fs' !! path = Some (if ok then new else old).
Proof.
  intros Ho Hn Hne1 Hne2 Hr. pose proof (bak_ne path) as Hb. unfold replace_exec.
  set (bak := old_of path) in *. set (fs1 := rename path bak fs).
  assert (H1 : ∀ p, fs1 !! p = if decide (p = bak) then Some old else if decide (p = path) then None else fs !! p).
  { intros p. apply rename_lookup; [done|by symmetry]. }
  assert (Hb1 : fs1 !! bak = Some old) by (by rewrite H1, decide_True).
  assert (Hn1 : fs1 !! newExec = Some new) by (by rewrite H1, !decide_False).
  assert (Hrm : ∀ m, remove_if (r_remove o) bak m !! path = m !! path).
  { intros m. unfold remove_if. destruct (r_remove o); [|done]. by rewrite lookup_delete_ne. }
  assert (Hrev : ∀ m, m !! bak = Some old → rename bak path m !! path = Some old).
  { intros m Hm. rewrite (rename_lookup _ _ _ old) by done. by rewrite decide_True. }
  destruct (r_old o); simpl negb; cbn iota.
  2:{ split; [|eexists; split; [reflexivity|by rewrite Hrm]].
      rewrite !Forall_cons, Forall_nil. split_and!; [by left|left; by rewrite Hrm|done]. }
  destruct (r_new o).
  - set (fs2 := rename newExec path fs1).
    assert (H2 : fs2 !! path = Some new) by (unfold fs2; by rewrite (rename_lookup _ _ _ new), decide_True).
    split; [|eexists; split; [reflexivity|by rewrite Hrm]].
    rewrite !Forall_cons, Forall_nil.
    split_and!; [by left|by right; right|by right; left|right; left; by rewrite Hrm|done].
  - destruct (r_copy o) as [|part]; cbn [copyFile].
    + rewrite Hn1. split; [|eexists; split; [reflexivity|by rewrite Hrm, lookup_insert_eq]].
      rewrite !Forall_cons, Forall_nil.
      split_and!; [by left|by right; right|right; left; by rewrite lookup_insert_eq| |done].
      right; left. by rewrite Hrm, lookup_insert_eq.
    + assert (Hp : ∃ fs2, copyFile (CopyFailed part) newExec path fs1 = (fs2, false) ∧ fs2 !! bak = Some old).
      { destruct part as [p|]; (eexists; split; [reflexivity|]); [by rewrite lookup_insert_ne|done]. }
      destruct Hp as (fs2&E&Hb2). cbn [copyFile] in E. rewrite E. rewrite Hr.
      split; [|eexists; split; [reflexivity|by rewrite Hrm, Hrev]].
      rewrite !Forall_cons, Forall_nil.
      split_and!; [by left|by right; right|by right; right|left; by apply Hrev| |done].
      left. by rewrite Hrm, Hrev.
  - rewrite Hr. split; [|eexists; split; [reflexivity|by rewrite Hrm, Hrev]].
    rewrite !Forall_cons, Forall_nil.
    split_and!; [by left|by right; right|left; by apply Hrev| |done]. left. by rewrite Hrm, Hrev.
Qed.

(** ** The update *)

Record Config := { Owner : string; Repo : string; ArchiveExecutable : string; DataDir : string; UseMirror : bool }.

Definition or_default (s d : string) : string := if String.eqb s "" then d else s.

(** The first occurrence is replaced. *)
Definition Replace1 (s old new : string) : string :=
  match Cut s old with Some (x, r) => x ++ new ++ r | None => s end.

(** [downloadFile]: the address asked, its answer (status and body), and what of the body could be
    written, if the file could be created. *)
Definition downloadFile (Do : string → option (Z * list Z)) (written : option nat) (url destPath : string)
    (useMirror : bool) (fs : files) : files * bool :=
  let url := if useMirror then Replace1 url "github.com" "gh.beszel.dev" else url in
  match Do url with
  | None => (fs, false)
  | Some (status, body) =>
      if (400 <=? status)%Z then (fs, false)
      else match written with
           | None => (fs, false)
           | Some n => (<[destPath := take n body]> fs, (List.length body <=? n)%nat)
           end
  end.

(** Whether a path is a directory's or below it. *)
Definition below (dir path : string) : bool := String.eqb path dir || HasPrefix path (dir ++ "/").
Definition RemoveAll (dir : string) (fs : files) : files := filter (λ p, below dir p.1 = false) fs.

Section update.
Context {Ver : Type} (parse : string → option Ver) (LTE : Ver → Ver → bool).

Record machine := {
  TempDir : string; GOOS : string; GOARCH : string; glibc : bool;
  api : string → option (Z * option release);
  assets : string → option (Z * list Z);
  disk_room : option nat;
  tar : list Z → option (list entry); zip : list Z → option (list entry);
  Executable : option string;
  os : outcome }.

Inductive result := Updated | UpToDate | Failed | Panicked.

(** The states of the files, the last after the deferred removals. *)
Definition self_update (currentVersion : string) (c : Config) (m : machine) (fs : files) : list files * result :=
  let dataDir := or_default (DataDir c) (TempDir m) in
  let url := getApiURL (UseMirror c) (or_default (Owner c) "henrygd") (or_default (Repo c) "beszel") in
  match FetchLatestRelease (api m) url with
  | None => ([fs], Failed)
  | Some latest =>
      match parse (TrimPrefix currentVersion "v"), parse (TrimPrefix (Tag latest) "v") with
      | Some current, Some new =>
          if LTE new current then ([fs], UpToDate)
          else match findAssetBySuffix latest (archiveSuffix (glibc m) (ArchiveExecutable c) (GOOS m) (GOARCH m)) with
          | None => ([fs], Failed)
          | Some asset =>
              let releaseDir := JoinPath [dataDir; ".beszel_update"] in
              let assetPath := JoinPath [releaseDir; a_Name asset] in
              let extractDir := JoinPath [releaseDir; "extracted_" ++ a_Name asset] in
              let cleanup := RemoveAll releaseDir in
              let cleanup2 fs := cleanup (RemoveAll extractDir fs) in
              let '(fs1, ok) := downloadFile (assets m) (disk_room m) (DownloadUrl asset) assetPath (UseMirror c) fs in
              if negb ok then ([fs; fs1; cleanup fs1], Failed)
              else
                let archive := default [] (fs1 !! assetPath) in
                let '(fs2, ok) := extract (tar m archive) (zip m archive) assetPath extractDir fs1 in
                if negb ok then ([fs; fs1; fs2; cleanup2 fs2], Failed)
                else match Executable m with
                | None => ([fs; fs1; fs2; cleanup2 fs2], Failed)
                | Some oldExec =>
                    let removed := remove_if (r_remove (os m)) (old_of oldExec) in
                    let newExec := JoinPath [extractDir; ArchiveExecutable c] in
                    let found := match fs2 !! newExec, fs2 !! (newExec ++ ".exe") with
                                 | Some _, _ => Some newExec
                                 | None, Some _ => Some (newExec ++ ".exe")
                                 | None, None => None
                                 end in
                    match found with
                    | None => ([fs; fs1; fs2; removed fs2; cleanup2 (removed fs2)], Failed)
                    | Some newExec =>
                        let '(states, ok) := replace_exec oldExec newExec (os m) fs2 in
                        ([fs; fs1] ++ states ++ [cleanup2 (default fs2 (last states))],
                         if ok then Updated else Failed)%list
                    end
                end
          end
      | _, _ => ([fs], Panicked)
      end
  end.
End update.

(** ** After an update *)

(** [trySemanageRestorecon] and [HandleSELinuxContext]; [look] finds programs, [exec] runs them. *)
Definition trySemanageRestorecon (look : string → option string) (exec : list string → bool) (path : string) : bool :=
  match look "semanage", look "restorecon" with
  | Some semanage, Some restorecon =>
      (exec [semanage; "fcontext"; "-a"; "-t"; "bin_t"; path] ||
       exec [semanage; "fcontext"; "-m"; "-t"; "bin_t"; path]) && exec [restorecon; "-v"; path]
  | _, _ => false
  end.
Definition HandleSELinuxContext (getenforce : option string) (look : string → option string)
    (exec : list string → bool) (path : string) : option string :=
  match getenforce with
  | None => None
  | Some out =>
      if String.eqb (TrimSpace out) "Disabled" then None
      else if trySemanageRestorecon look exec path then None
      else match look "chcon" with
           | Some chcon => if exec [chcon; "-t"; "bin_t"; path] then None else Some "chcon failed"
           | None => Some "no SELinux tools available (semanage/restorecon or chcon)"
           end
  end.

Inductive restarter := SystemdR (cmd : string) | OpenRC (cmd : string) | OpenWRT (cmd : string) | FreeBSD (cmd : string).

Definition detectRestarter (look : string → option string) (goos : string) : option restarter :=
  match look "systemctl", look "rc-service", look "procd", look "service" with
  | Some p, _, _, _ => Some (SystemdR p)
  | None, Some p, _, _ => Some (OpenRC p)
  | None, None, Some p, _ => Some (OpenWRT p)
  | None, None, None, Some p => if String.eqb goos "freebsd" then Some (FreeBSD p) else None
  | None, None, None, None => None
  end.

(** The command that asks whether the service runs, and the one that restarts it. *)
Definition restart_commands (r : restarter) : list string * list string :=
  match r with
  | SystemdR c => ([c; "is-active"; "bantay-agent.service"], [c; "restart"; "bantay-agent.service"])
  | OpenRC c => ([c; "bantay-agent"; "status"], [c; "bantay-agent"; "restart"])
  | OpenWRT _ => (["/etc/init.d/bantay-agent"; "running"], ["/etc/init.d/bantay-agent"; "restart"])
  | FreeBSD c => ([c; "bantay-agent"; "status"], [c; "bantay-agent"; "restart"])
  end.
(** [Restart]: a service that does not run is left alone. *)
Definition Restart (exec : list string → bool) (r : restarter) : bool :=
  let '(status, restart) := restart_commands r in
  if exec status then exec restart else true.

(** The configurations with which the two programs update themselves. *)
Definition agent_config (dataDir : option string) (tmp : string) (useMirror : bool) : Config := {|
  Owner := ""; Repo := ""; ArchiveExecutable := "bantay-agent"; DataDir := default tmp dataDir;
  UseMirror := useMirror |}.
Definition hub_config (exists_ : string → bool) (tmp : string) (useMirror : bool) : Config := {|
  Owner := ""; Repo := ""; ArchiveExecutable := "beszel";
  DataDir := if exists_ "./bantay_data" then "./bantay_data" else tmp; UseMirror := useMirror |}.

(** [restartService] of the hub: the commands that are run, in order. *)
Definition restartService (look : string → option string) (exec : list string → bool) : list (list string) :=
  let try (found : option string) (status restart : list string) (next : list (list string)) :=
    match found with
    | Some _ => status :: (if exec status then [restart] else next)
    | None => next
    end in
  try (look "systemctl") ["systemctl"; "is-active"; "beszel.service"] ["systemctl"; "restart"; "beszel.service"]
    (try (look "rc-service") ["rc-service"; "beszel"; "status"] ["rc-service"; "beszel"; "restart"] []).

(** ** The agent's command line *)

Definition flagsToConvert : list string := ["key"; "listen"; "url"; "token"].
(** Old flags with one dash get a second. *)
Definition convert_flag (arg : string) : string :=
  match List.find (λ f, String.eqb arg ("-" ++ f) || HasPrefix arg ("-" ++ f ++ "=")) flagsToConvert with
  | Some _ => "-" ++ arg
  | None => arg
  end.

Section keys.
Context {Key : Type} (parse : string → option Key).

(** [loadPublicKeys]: the flag, the variable, the file. *)
Definition loadPublicKeys (flag : string) (getEnv ReadFile : string → option string) : option (list Key) :=
  if negb (String.eqb flag "") then AgentHandlers.ParseKeys parse flag
  else match getEnv "KEY" with
       | Some key => if String.eqb key "" then k ← getEnv "KEY_FILE"; c ← ReadFile k; AgentHandlers.ParseKeys parse c
                     else AgentHandlers.ParseKeys parse key
       | None => k ← getEnv "KEY_FILE"; c ← ReadFile k; AgentHandlers.ParseKeys parse c
       end.
End keys.

(** Flags with two dashes, and short ones, are left alone. *)
Lemma convert_flag_idempotent arg : convert_flag (convert_flag arg) = convert_flag arg.
Proof.
  unfold convert_flag at 2 3. destruct (List.find _ _) as [f|] eqn:E; [|unfold convert_flag; by rewrite E].
  apply List.find_some in E as [Hin E]. unfold convert_flag.
  assert (List.find (λ f, String.eqb ("-" ++ arg) ("-" ++ f) || HasPrefix ("-" ++ arg) ("-" ++ f ++ "="))
    flagsToConvert = None) as ->; [|done].
  assert (∃ rest, arg = String "-" rest) as [rest ->].
  { destruct arg as [|a rest]; [by destruct Hin as [<-|[<-|[<-|[<-|[]]]]]|].
    exists rest. f_equal. apply orb_prop in E as [E%String.eqb_eq|E]; [by injection E|].
    unfold HasPrefix in E. simpl in E. destruct (Ascii.eqb_spec a "-"); [done|].
    by destruct a as [[] [] [] [] [] [] [] []]. }
  done.
Qed.

(** ** Examples *)

Definition ex_fs : files := {["/opt/agent" := [1%Z]; "/data/new" := [2%Z]]}.
Definition ex_outcome (new : rename_result) (revert : bool) : outcome := {|
  r_old := true; r_new := new; r_copy := CopyFailed (Some []); r_revert := revert; r_remove := true |}.

Lemma replace_keeps_program_witness :
  let '(states, ok) := replace_exec "/opt/agent" "/data/new" (ex_outcome RenCrossDevice true) ex_fs in
  ok = false ∧ ∃ fs', last states = Some fs' ∧ fs' !! "/opt/agent" = Some [1%Z].
Proof.
  pose proof (replace_keeps_program "/opt/agent" "/data/new" [1%Z] [2%Z] (ex_outcome RenCrossDevice true) ex_fs
    eq_refl eq_refl ltac:(discriminate) ltac:(discriminate) eq_refl) as H.
  destruct (replace_exec "/opt/agent" "/data/new" (ex_outcome RenCrossDevice true) ex_fs) as [states ok] eqn:E.
  assert (ok = false) as -> by (by injection E as _ <-). split; [done|]. apply H.
Defined.

(** When the failure cannot be undone, the old program, which is still there under its other name,
    is removed all the same. *)
Example program_lost :
  (last (replace_exec "/opt/agent" "/data/new" (ex_outcome RenFailed false) ex_fs).1 ≫= λ fs, fs !! "/opt/agent") = None ∧
  (last (replace_exec "/opt/agent" "/data/new" (ex_outcome RenFailed false) ex_fs).1 ≫= λ fs, fs !! "/opt/agent.old") = None.
Proof. vm_compute. split; reflexivity. Qed.

Definition ex_entry (name : string) : entry := {| e_name := name; e_kind := Regular; e_data := [7%Z]; e_ok := true |}.

Lemma zip_stays_inside_witness :
  (extractZip "/data/u" [ex_entry "bantay-agent"; ex_entry "../../etc/passwd"] ex_fs).1 !! "/opt/agent" = Some [1%Z] ∧
  (extractZip "/data/u" [ex_entry "../../etc/passwd"] ex_fs).2 = false.
Proof.
  split; [|vm_compute; reflexivity].
  rewrite (zip_stays_inside "/data/u" [ex_entry "bantay-agent"; ex_entry "../../etc/passwd"] ex_fs "/opt/agent" eq_refl).
  reflexivity.
Defined.

(** A tar archive has no such check. *)
Example tar_escapes :
  (extractTarGz "/data/u" [ex_entry "../../etc/passwd"] ex_fs).1 !! "/etc/passwd" = Some [7%Z].
Proof. vm_compute. reflexivity. Qed.

(** The default repository is another project's: its hub replaces this one, and no program of the
    agent's name is there. *)
Definition ex_release : release := {|
  Tag := "v9"; Body := "";
  Assets := [{| a_Name := "beszel_linux_amd64.tar.gz"; DownloadUrl := "https://github.com/b" |};
             {| a_Name := "beszel-agent_linux_amd64.tar.gz"; DownloadUrl := "https://github.com/a" |}] |}.
Definition ex_machine (tag : string) : machine := {|
  TempDir := "/tmp"; GOOS := "linux"; GOARCH := "amd64"; glibc := false;
  api url := if String.eqb url "https://api.github.com/repos/henrygd/beszel/releases/latest"
             then Some (200%Z, Some {| Tag := tag; Body := ""; Assets := Assets ex_release |}) else None;
  assets url := Some (200%Z, [0%Z]); disk_room := Some 100%nat;
  tar _ := Some [ex_entry "beszel"]; zip _ := None; Executable := Some "/opt/agent";
  os := {| r_old := true; r_new := RenOk; r_copy := CopyOk; r_revert := true; r_remove := true |} |}.
Definition ex_parse (v : string) : option Z := if String.eqb v "latest" then None else Atoi v.

Example other_projects_program :
  let hub := self_update ex_parse Z.leb "v1" (hub_config (λ _, false) "/tmp" false) (ex_machine "v9") ex_fs in
  hub.2 = Updated ∧ (last hub.1 ≫= λ fs, fs !! "/opt/agent") = Some [7%Z] ∧
  (self_update ex_parse Z.leb "v1" (agent_config None "/tmp" false) (ex_machine "v9") ex_fs).2 = Failed.
Proof. vm_compute. split_and!; reflexivity. Qed.

Example bad_tag_panics :
  (self_update ex_parse Z.leb "v1" (agent_config None "/tmp" false) (ex_machine "latest") ex_fs).2 = Panicked.
Proof. vm_compute. reflexivity. Qed.

Example convert_flag_ex :
  map convert_flag ["-key"; "-url=http://h"; "--token"; "-k"; "-listening"] =
    ["--key"; "--url=http://h"; "--token"; "-k"; "-listening"].
Proof. reflexivity. Qed.
End SelfUpdate.
