(* ===== verification/UpdateCommands.v ===== *)
(** * The update commands, and the download of smartctl ([agent/update.go],
    [internal/hub/update.go], [agent/tools/fetchsmartctl/main.go])

    What the two programs do once [SelfUpdate] has replaced them, as the messages they print and the
    commands they run, and the tool that fetches the program for S.M.A.R.T. data that the Windows
    build embeds.  Hashes are third-party code, parameters. *)

From S2P Require Import Prelude GoStrings GoText AgentUpdate SelfUpdate.

Module UpdateCommands.
Import AgentUpdate SelfUpdate.
Local Open Scope string_scope.

Inductive message :=
| WarnPermissions | WarnOwnership | WarnSELinux (e : string) | WarnRestart | Restarted | NoInitSystem.

(** The end of an update: a fatal error, nothing newer, or the messages of what was done. *)
Inductive ending := Fatal | UpToDate | Done (l : list message).

Section after.
Variable look : string → option string.              (* [exec.LookPath] *)
Variable exec : list string → bool.                  (* whether a command succeeds *)
Variable getenforce : option string.                 (* its output *)
Variable chmod : string → bool.
Variable goos exePath : string.

Definition warn_if (b : bool) (m : message) : list message := if b then [m] else [].

Definition selinux_message : list message :=
  match HandleSELinuxContext getenforce look exec exePath with Some e => [WarnSELinux e] | None => [] end.

(** [agent.Update]; [result] is the outcome of [ghupdate.Update]. *)
Definition agent_Update (result : SelfUpdate.result) : ending :=
  match result with
  | Updated =>
      Done (warn_if (negb (chmod exePath)) WarnPermissions ++
            match look "chown" with
            | Some chown => warn_if (negb (exec [chown; "beszel:beszel"; exePath])) WarnOwnership
            | None => []
            end ++
            selinux_message ++
            match detectRestarter look goos with
            | Some r => if Restart exec r then [Restarted] else [WarnRestart]
            | None => [NoInitSystem]
            end)%list
  | Failed | Panicked => Fatal
  | _ => UpToDate
  end.

(** [hub.Update], with the commands of [restartService]. *)
Definition hub_Update (result : SelfUpdate.result) : ending * list (list string) :=
  match result with
  | Updated => (Done (warn_if (negb (chmod exePath)) WarnPermissions ++ selinux_message)%list, restartService look exec)
  | Failed | Panicked => (Fatal, [])
  | _ => (UpToDate, [])
  end.

(** No step keeps the next from being done: the last message of the agent is about its
    restart, whatever failed before. *)
Lemma agent_update_restarts l :
  agent_Update Updated = Done l →
  last l = Some (match detectRestarter look goos with
                 | Some r => if Restart exec r then Restarted else WarnRestart
                 | None => NoInitSystem end).
Proof.
  intros [= <-]. rewrite !app_assoc. by destruct (detectRestarter look goos) as [r|]; [destruct (Restart exec r)|];
    rewrite last_snoc.
Qed.

(** A command that restarts the hub's service is run only after the service was found to run. *)
Lemma hub_restarts_running l cmd :
  hub_Update Updated = (Done l, cmd) → ["systemctl"; "restart"; "beszel.service"] ∈ cmd →
  exec ["systemctl"; "is-active"; "beszel.service"] = true.
Proof.
  intros [= _ <-]. unfold restartService. destruct (look "systemctl"), (look "rc-service");
    destruct (exec ["systemctl"; "is-active"; "beszel.service"]) eqn:E1; try done;
    destruct (exec ["rc-service"; "beszel"; "status"]) eqn:E2; simpl; set_solver.
Qed.
End after.

(** A service that does not run is not restarted, and the agent says that it was. *)
Example stopped_service_restarted :
  agent_Update (λ p, if String.eqb p "systemctl" then Some "/bin/systemctl" else None) (λ _, false) None (λ _, true)
    "linux" "/opt/bantay-agent" Updated = Done [Restarted].
Proof. reflexivity. Qed.

(** The service that the installation script creates is not the one the hub looks for. *)
Definition ex_installed (cmd : list string) : bool := bool_decide (cmd = ["systemctl"; "is-active"; "beszel-hub.service"]).
Example installed_hub_not_restarted :
  (hub_Update (λ p, if String.eqb p "systemctl" then Some "/bin/systemctl" else None) ex_installed None (λ _, true)
    "/opt/beszel/beszel" Updated).2 = [["systemctl"; "is-active"; "beszel.service"]].
Proof. reflexivity. Qed.
End UpdateCommands.

(** ** The download of smartctl *)

Module FetchSmartctl.
Local Open Scope string_scope.

Abbreviation files := (gmap string (list Z)).

Section fetch.
Variable sha1 sha256 : list Z → string.               (* the hash in hexadecimal *)

(** What the network and the file system answer: the status with the body, whose copy may break off,
    and whether the calls succeed. *)
Record world := {
  w_mkdir : bool; w_request : bool; w_response : option (Z * list Z); w_open : bool; w_copied : option nat;
  w_close : bool; w_chmod : bool; w_rename : bool }.

Definition cleanSha (shaHex : string) : string := ToLower (replace_char (TrimSpace shaHex) " " "").

Inductive outcome := Fetched | AlreadyPresent | Usage | Error (e : string).

Definition downloadFile (w : world) (dest shaHex : string) (fs : files) : files * outcome :=
  if negb (w_mkdir w) then (fs, Error "create dir")
  else if negb (w_request w) then (fs, Error "new request")
  else match w_response w with
  | None => (fs, Error "http get")
  | Some (status, body) =>
      if (status <? 200)%Z || (300 <=? status)%Z then (fs, Error "unexpected HTTP status")
      else if negb (w_open w) then (fs, Error "open tmp")
      else
        let tmp := dest ++ ".tmp" in
        let removed := delete tmp fs in
        let sha := cleanSha shaHex in
        let hasher :=
          if String.eqb (TrimSpace shaHex) "" then Some None
          else if (String.length sha =? 40)%nat then Some (Some sha1)
          else if (String.length sha =? 64)%nat then Some (Some sha256) else None in
        match hasher with
        | None => (removed, Error "unsupported hash length")
        | Some hasher =>
            match w_copied w with
            | Some _ => (removed, Error "write tmp")
            | None =>
                if negb (w_close w) then (removed, Error "close tmp")
                else if match hasher with Some h => negb (String.eqb (ToLower (h body)) sha) | None => false end
                then (removed, Error "hash mismatch")
                else if negb (w_chmod w) then (removed, Error "chmod")
                else if negb (w_rename w) then (removed, Error "rename")
                else (<[dest := body]> removed, Fetched)
            end
        end
  end.

Definition main (url out sha : string) (force : bool) (w : world) (fs : files) : files * outcome :=
  if String.eqb url "" || String.eqb out "" then (fs, Usage)
  else if negb force && match fs !! out with Some d => (0 <? List.length d)%nat | None => false end then (fs, AlreadyPresent)
  else downloadFile w out sha fs.

(** A file is fetched whole and with the checksum that was given, or it is left as it was; and no
    part of a download stays behind. *)
Theorem fetch_all_or_nothing url out sha force w fs fs' r :
  fs !! (out ++ ".tmp") = None → main url out sha force w fs = (fs', r) →
  fs' !! (out ++ ".tmp") = None ∧
  match r with
  | Fetched =>
      ∃ status body, w_response w = Some (status, body) ∧ (200 ≤ status < 300)%Z ∧ fs' = <[out := body]> fs ∧
        (TrimSpace sha ≠ "" → ToLower (sha1 body) = cleanSha sha ∨ ToLower (sha256 body) = cleanSha sha)
  | _ => fs' = fs
  end.
Proof.
  intros Htmp. assert (out ++ ".tmp" ≠ out) as Hne.
  { intros E. apply (f_equal String.length) in E. rewrite string_length_app in E. simpl in E. lia. }
  unfold main, downloadFile. destruct (_ || _); [by intros [= <- <-]|]. destruct (_ && _); [by intros [= <- <-]|].
  destruct (w_mkdir w); [|by intros [= <- <-]]. destruct (w_request w); [|by intros [= <- <-]].
  destruct (w_response w) as [[status body]|]; [|by intros [= <- <-]]. cbn [negb].
  destruct ((status <? 200)%Z || (300 <=? status)%Z) eqn:Hs; [by intros [= <- <-]|].
  destruct (w_open w); [|by intros [= <- <-]]. rewrite delete_id by done. cbn [negb].
  assert (200 ≤ status < 300)%Z as Hst by (apply orb_false_iff in Hs as [?%Z.ltb_ge ?%Z.leb_gt]; lia).
  destruct (String.eqb_spec (TrimSpace sha) "") as [E|E];
    [|destruct (String.length (cleanSha sha) =? 40)%nat; [|destruct (String.length (cleanSha sha) =? 64)%nat; [|by intros [= <- <-]]]];
    (destruct (w_copied w); [by intros [= <- <-]|]); (destruct (w_close w); [|by intros [= <- <-]]); cbn [negb];
    try (match goal with |- context [String.eqb ?a ?b] => destruct (String.eqb_spec a b) as [Eh|]; [|by intros [= <- <-]] end; cbn [negb]);
    (destruct (w_chmod w); [|by intros [= <- <-]]); (destruct (w_rename w); [|by intros [= <- <-]]); intros [= <- <-];
    (split; [by rewrite lookup_insert_ne|]); exists status, body; split_and!; try done; tauto.
Qed.
End fetch.

Definition ex_world : world := {|
  w_mkdir := true; w_request := true; w_response := Some (200, [1; 2])%Z; w_open := true; w_copied := None;
  w_close := true; w_chmod := true; w_rename := true |}.
Definition ex_sha (_ : list Z) : string := "356A192B7913B04C54574D18C28D46E6395428AB".

Lemma fetch_all_or_nothing_witness :
  (main ex_sha ex_sha "u" "smartctl.exe" "356a192b7913b04c54574d18c28d46e6395428ab" false ex_world ∅).2 = Fetched ∧
  (main ex_sha ex_sha "u" "smartctl.exe" "356a192b7913b04c54574d18c28d46e6395428ab" false ex_world ∅).1 !! "smartctl.exe.tmp" = None.
Proof.
  split; [reflexivity|].
  apply (fetch_all_or_nothing ex_sha ex_sha "u" "smartctl.exe" "356a192b7913b04c54574d18c28d46e6395428ab" false ex_world ∅ _
    (main ex_sha ex_sha "u" "smartctl.exe" "356a192b7913b04c54574d18c28d46e6395428ab" false ex_world ∅).2).
  - reflexivity.
  - reflexivity.
Defined.
End FetchSmartctl.
