(* ===== verification/AgentNetwork.v ===== *)
(** * Network statistics of the agent ([agent/network.go], [GetEnv] of [agent/utils/utils.go])

    Which interfaces are watched (the [NICS] setting and the automatic filter),
    and how two readings of their byte counters become rates.  Every polling
    interval ([cacheTimeMs]) has a baseline and a delta tracker of its own.

    The readings of the operating system are arguments ([None] when it reports an
    error), so are the environment, the files of [/sys] and the clock; a time is
    in milliseconds, and [None] is Go's zero [time.Time]. *)

From S2P Require Import Prelude GoFloat GoStrings GoText Entities DeltaTracker.

(** [system.NetIoStats], the fields the agent keeps. *)
Module NetIoStats.
Local Open Scope Z_scope.
Record t := { BytesRecv : Z; BytesSent : Z; Time : option Z }.
Definition zero : t := {| BytesRecv := 0; BytesSent := 0; Time := None |}.
End NetIoStats.

Module AgentNetwork.
Import DeltaTracker.
Local Open Scope Z_scope.

(** [utils.GetEnv] over the process environment. *)
Definition GetEnv (env : gmap string string) (key : string) : option string :=
  match env !! ("BESZEL_AGENT_" ++ key)%string with
  | Some value => Some value
  | None => env !! key
  end.

(** [psutilNet.IOCountersStat], the fields the agent reads. *)
Record IOCountersStat := { Name : string; BytesSent : Z; BytesRecv : Z }.

(** ** Selection of interfaces *)

Section select.
Context {RO : RangeOrder string}.

Record NicConfig := {
  nics : gmap string unit;
  isBlacklist : bool;
  hasWildcards : bool;
}.

(** [nicsEnvVal] without its leading dash, if it has one. *)
Definition cut_dash (v : string) : bool * string :=
  match CutPrefix v "-" with Some t => (true, t) | None => (false, v) end.

Definition newNicConfig (nicsEnvVal : string) : NicConfig :=
  let '(black, list) := cut_dash nicsEnvVal in
  fold_left
    (λ cfg nic,
       let nic := TrimSpace nic in
       if String.eqb nic "" then cfg
       else {| nics := <[nic := tt]> (nics cfg); isBlacklist := isBlacklist cfg;
               hasWildcards := Contains nic "*" || hasWildcards cfg |})
    (Split comma list)
    {| nics := ∅; isBlacklist := black; hasWildcards := false |}.

(** The loop over the patterns of [isValidNic]. *)
Fixpoint match_patterns (cfg : NicConfig) (nicName : string) (l : list (string * unit)) : bool :=
  match l with
  | [] => isBlacklist cfg
  | (pattern, _) :: l' =>
      if negb (Contains pattern "*") then match_patterns cfg nicName l'
      else if Match pattern nicName then negb (isBlacklist cfg)
      else match_patterns cfg nicName l'
  end.

Definition isValidNic (nicName : string) (cfg : NicConfig) : bool :=
  if (size (nics cfg) =? 0)%nat then isBlacklist cfg
  else match nics cfg !! nicName with
       | Some _ => negb (isBlacklist cfg)
       | None =>
           if negb (hasWildcards cfg) then isBlacklist cfg
           else match_patterns cfg nicName (range_list (nics cfg))
       end.

Definition skipNetworkInterface (v : IOCountersStat) (nicCfg : option NicConfig) : bool :=
  let auto :=
    existsb (HasPrefix (Name v)) ["lo"; "docker"; "br-"; "veth"; "bond"; "cali"]
    || (BytesRecv v =? 0) || (BytesSent v =? 0) in
  match nicCfg with
  | Some cfg =>
      if negb (isValidNic (Name v) cfg) then true
      else if negb (isBlacklist cfg) then false
      else auto
  | None => auto
  end.

(** The entries a setting lists. *)
Definition entries (nicsEnvVal : string) : list string :=
  List.filter (λ e, negb (String.eqb e "")) (map TrimSpace (Split comma (cut_dash nicsEnvVal).2)).

(** An entry names an interface, or is a pattern that matches it. *)
Definition names_nic (nicName e : string) : bool :=
  String.eqb e nicName || (Contains e "*" && Match e nicName).

Lemma newNicConfig_fold l cfg :
  let cfg' := fold_left (λ cfg nic,
       let nic := TrimSpace nic in
       if String.eqb nic "" then cfg
       else {| nics := <[nic := tt]> (nics cfg); isBlacklist := isBlacklist cfg;
               hasWildcards := Contains nic "*" || hasWildcards cfg |}) l cfg in
  let es := List.filter (λ e, negb (String.eqb e "")) (map TrimSpace l) in
  (∀ e, nics cfg' !! e = Some tt ↔ nics cfg !! e = Some tt ∨ In e es) ∧
  isBlacklist cfg' = isBlacklist cfg ∧
  hasWildcards cfg' = existsb (λ e, Contains e "*") es || hasWildcards cfg.
Proof.
  revert cfg. induction l as [|x l IH]; intros cfg; simpl; [naive_solver|].
  destruct (String.eqb (TrimSpace x) "") eqn:He; simpl; [apply IH|].
  destruct (IH {| nics := <[TrimSpace x := tt]> (nics cfg); isBlacklist := isBlacklist cfg;
    hasWildcards := Contains (TrimSpace x) "*" || hasWildcards cfg |}) as (IH1&IH2&IH3).
  simpl in *. split_and!; [|done|rewrite IH3; by destruct (existsb _ _), (Contains _ _)].
  intros e. rewrite IH1, lookup_insert_Some. destruct (decide (TrimSpace x = e)); naive_solver.
Qed.

Lemma newNicConfig_spec v :
  (∀ e, nics (newNicConfig v) !! e = Some tt ↔ In e (entries v)) ∧
  isBlacklist (newNicConfig v) = HasPrefix v "-" ∧
  hasWildcards (newNicConfig v) = existsb (λ e, Contains e "*") (entries v).
Proof.
  unfold newNicConfig, entries, HasPrefix, cut_dash.
  destruct (CutPrefix v "-") as [t|]; simpl.
  - destruct (newNicConfig_fold (Split comma t)
      {| nics := ∅; isBlacklist := true; hasWildcards := false |}) as (H1&H2&H3); simpl in *.
    split_and!; [|done|by rewrite H3, orb_false_r].
    intros e. rewrite H1, lookup_empty. naive_solver.
  - destruct (newNicConfig_fold (Split comma v)
      {| nics := ∅; isBlacklist := false; hasWildcards := false |}) as (H1&H2&H3); simpl in *.
    split_and!; [|done|by rewrite H3, orb_false_r].
    intros e. rewrite H1, lookup_empty. naive_solver.
Qed.

Lemma match_patterns_spec cfg nicName l :
  match_patterns cfg nicName l =
  xorb (isBlacklist cfg) (existsb (λ '(p, _), Contains p "*" && Match p nicName) l).
Proof.
  induction l as [|[p []] l IH]; simpl; [by destruct (isBlacklist cfg)|].
  destruct (Contains p "*"); simpl; [|done].
  destruct (Match p nicName); simpl; [by destruct (isBlacklist cfg)|done].
Qed.

(** The [NICS] setting selects exactly the interfaces it means to: with a leading dash
    those that none of its entries names or matches, without one those that some entry names
    or matches, whatever order the entries are visited in. *)
Theorem isValidNic_exact (v nicName : string) :
  isValidNic nicName (newNicConfig v) =
  xorb (HasPrefix v "-") (existsb (names_nic nicName) (entries v)).
Proof.
  destruct (newNicConfig_spec v) as (Hn&Hb&Hw). unfold isValidNic. rewrite Hb, Hw.
  set (cfg := newNicConfig v) in *.
  destruct (size (nics cfg) =? 0)%nat eqn:Hs.
  { apply Nat.eqb_eq, map_size_empty_inv in Hs.
    destruct (entries v) as [|e es] eqn:He; [by destruct (HasPrefix v "-")|].
    exfalso. specialize (Hn e). rewrite Hs, lookup_empty in Hn. naive_solver. }
  destruct (nics cfg !! nicName) as [[]|] eqn:Hl.
  { apply Hn in Hl. rewrite (proj2 (existsb_exists _ _)); [by destruct (HasPrefix v "-")|].
    exists nicName. split; [done|]. unfold names_nic. by rewrite String.eqb_refl. }
  assert (∀ e, In e (entries v) → String.eqb e nicName = false) as Hne.
  { intros e He. apply String.eqb_neq. intros ->. apply Hn in He. congruence. }
  destruct (existsb (λ e, Contains e "*") (entries v)) eqn:Hst; simpl.
  - rewrite match_patterns_spec, Hb. f_equal. apply eq_true_iff_eq.
    rewrite !existsb_exists. split.
    + intros ([p []]&Hp&Hm). apply list_elem_of_In, elem_of_range_list, Hn in Hp.
      exists p. split; [done|]. unfold names_nic. by rewrite Hm, orb_true_r.
    + intros (e&He&Hm). exists (e, tt). split.
      * apply list_elem_of_In, elem_of_range_list. by apply Hn.
      * unfold names_nic in Hm. by rewrite Hne in Hm.
  - rewrite (proj1 (not_true_iff_false (existsb (names_nic nicName) (entries v)))); [by destruct (HasPrefix v "-")|].
    rewrite existsb_exists. intros (e&He&Hm). unfold names_nic in Hm.
    rewrite Hne in Hm by done. apply not_true_iff_false in Hst. apply Hst.
    apply existsb_exists. exists e. split; [done|]. by apply andb_true_iff in Hm as [? _].
Qed.

End select.

Example isValidNic_ex :
  map (λ '(v, n), isValidNic n (newNicConfig v))
    [("eth*, wlan0", "eth1"); ("eth*, wlan0", "wlan1"); ("-eth*", "eth1"); ("-eth*", "wlan0");
     ("", "eth0"); ("-", "eth0")]%string
  = [true; false; false; true; false; true].
Proof. reflexivity. Qed.

(** ** Counters *)

Abbreviation tracker_t := (DeltaTracker (K := string) (V := Z)).

(** What an [Agent] keeps for the network. *)
Record Agent := {
  netInterfaces : gmap string unit;
  netInterfaceDeltaTrackers : gmap Z tracker_t;
  netIoStats : gmap Z NetIoStats.t;
}.

(** The part of [system.Stats] that is written: [Bandwidth] and [NetworkInterfaces]. *)
Record Stats := {
  Bandwidth : Z * Z;
  NetworkInterfaces : option (gmap string (Z * Z * Z * Z));
}.

Definition tracked (a : Agent) (v : IOCountersStat) : bool :=
  match netInterfaces a !! Name v with Some _ => true | None => false end.

Section counters.
Context {RO : RangeOrder string}.

Definition initializeNetIoStats (nicsEnv : option string) (netIO : option (list IOCountersStat))
    : Agent := {|
  netInterfaces :=
    fold_left
      (λ m v, if skipNetworkInterface v (newNicConfig <$> nicsEnv) then m else <[Name v := tt]> m)
      (default [] netIO) ∅;
  netInterfaceDeltaTrackers := ∅;
  netIoStats := ∅ |}.

Definition ensureNetInterfacesInitialized (nicsEnv : option string)
    (netIO : option (list IOCountersStat)) (a : Agent) : Agent :=
  if (size (netInterfaces a) =? 0)%nat then initializeNetIoStats nicsEnv netIO else a.

Definition ensureNetworkInterfacesMap (s : Stats) : Stats :=
  {| Bandwidth := Bandwidth s; NetworkInterfaces := Some (default ∅ (NetworkInterfaces s)) |}.

Definition loadAndTickNetBaseline (a : Agent) (cacheTimeMs now : Z) : NetIoStats.t * Z :=
  let n := default NetIoStats.zero (netIoStats a !! cacheTimeMs) in
  let tick ms := ({| NetIoStats.BytesRecv := NetIoStats.BytesRecv n;
                     NetIoStats.BytesSent := NetIoStats.BytesSent n;
                     NetIoStats.Time := Some now |}, ms) in
  match NetIoStats.Time n with
  | None => tick 0
  | Some t => tick (u64 (now - t))
  end.

(** The bytes since the previous reading, per second; a counter that went down started
    again from 0. *)
Definition nic_rate (prev : option Z) (cur msElapsed : Z) : Z :=
  match prev with
  | Some prevVal =>
      let deltaBytes := if prevVal <=? cur then cur - prevVal else cur in
      u64 (deltaBytes * 1000) / msElapsed
  | None => 0
  end.

Definition upKey (n : string) : string := (n ++ "up")%string.
Definition downKey (n : string) : string := (n ++ "down")%string.

(** One interface of [sumAndTrackPerNicDeltas]. *)
Definition track_nic (msElapsed : Z) (st : tracker_t * Z * Z * Stats) (v : IOCountersStat)
    : tracker_t * Z * Z * Stats :=
  let '(tracker, totalBytesSent, totalBytesRecv, s) := st in
  let tracker := Set_ (Set_ tracker (upKey (Name v)) (BytesSent v)) (downKey (Name v)) (BytesRecv v) in
  let '(upDelta, downDelta) :=
    if 0 <? msElapsed then
      (nic_rate (Previous tracker (upKey (Name v))) (BytesSent v) msElapsed,
       nic_rate (Previous tracker (downKey (Name v))) (BytesRecv v) msElapsed)
    else (0, 0) in
  (tracker, u64 (totalBytesSent + BytesSent v), u64 (totalBytesRecv + BytesRecv v),
   {| Bandwidth := Bandwidth s;
      NetworkInterfaces :=
        Some (<[Name v := (upDelta, downDelta, BytesSent v, BytesRecv v)]>
                (default ∅ (NetworkInterfaces s))) |}).

Definition sumAndTrackPerNicDeltas (a : Agent) (cacheTimeMs msElapsed : Z)
    (netIO : list IOCountersStat) (s : Stats) : Agent * Z * Z * Stats :=
  let tracker := default NewDeltaTracker (netInterfaceDeltaTrackers a !! cacheTimeMs) in
  let '(tracker, sent, recv, s) :=
    fold_left
      (λ st v, if tracked a v then track_nic msElapsed st v else st)
      netIO (Cycle tracker, 0, 0, s) in
  ({| netInterfaces := netInterfaces a;
      netInterfaceDeltaTrackers := <[cacheTimeMs := tracker]> (netInterfaceDeltaTrackers a);
      netIoStats := netIoStats a |}, sent, recv, s).

Definition computeBytesPerSecond (msElapsed totalBytesSent totalBytesRecv : Z)
    (nis : NetIoStats.t) : Z * Z :=
  if 0 <? msElapsed then
    (u64 (u64 (totalBytesSent - NetIoStats.BytesSent nis) * 1000) / msElapsed,
     u64 (u64 (totalBytesRecv - NetIoStats.BytesRecv nis) * 1000) / msElapsed)
  else (0, 0).

(** [netIO'] is what [initializeNetIoStats] reads after an anomaly. *)
Definition applyNetworkTotals (nicsEnv : option string) (netIO' : option (list IOCountersStat))
    (a : Agent) (cacheTimeMs : Z) (s : Stats) (nis : NetIoStats.t)
    (totalBytesSent totalBytesRecv bytesSentPerSecond bytesRecvPerSecond : Z) : Agent * Stats :=
  if (10000000000 <? bytesSentPerSecond) || (10000000000 <? bytesRecvPerSecond) then
    let a := initializeNetIoStats nicsEnv netIO' in
    ({| netInterfaces := netInterfaces a;
        netInterfaceDeltaTrackers := delete cacheTimeMs (netInterfaceDeltaTrackers a);
        netIoStats := delete cacheTimeMs (netIoStats a) |},
     {| Bandwidth := (0, 0); NetworkInterfaces := NetworkInterfaces s |})
  else
    ({| netInterfaces := netInterfaces a;
        netInterfaceDeltaTrackers := netInterfaceDeltaTrackers a;
        netIoStats := <[cacheTimeMs := {| NetIoStats.BytesRecv := totalBytesRecv;
                                          NetIoStats.BytesSent := totalBytesSent;
                                          NetIoStats.Time := NetIoStats.Time nis |}]>
                        (netIoStats a) |},
     {| Bandwidth := (bytesSentPerSecond, bytesRecvPerSecond);
        NetworkInterfaces := NetworkInterfaces s |}).

(** The operating system as a poll sees it: the setting, the reading when no interface is
    known, the reading of the poll, and the one after an anomaly. *)
Record world := {
  w_nics : option string;
  w_init : option (list IOCountersStat);
  w_poll : option (list IOCountersStat);
  w_reset : option (list IOCountersStat);
}.

Definition updateNetworkStats (w : world) (now : Z) (a : Agent) (cacheTimeMs : Z) (s : Stats)
    : Agent * Stats :=
  let a := ensureNetInterfacesInitialized (w_nics w) (w_init w) a in
  let s := ensureNetworkInterfacesMap s in
  match w_poll w with
  | None => (a, s)
  | Some netIO =>
      let '(nis, msElapsed) := loadAndTickNetBaseline a cacheTimeMs now in
      let '(a, sent, recv, s) := sumAndTrackPerNicDeltas a cacheTimeMs msElapsed netIO s in
      let '(sentPs, recvPs) := computeBytesPerSecond msElapsed sent recv nis in
      applyNetworkTotals (w_nics w) (w_reset w) a cacheTimeMs s nis sent recv sentPs recvPs
  end.

(** [readLinkSpeed] and [gatherLinkSpeeds] over the files of [/sys]. *)
Definition readLinkSpeed (readFile : string → option string) (iface : string) : Z :=
  match readFile ("/sys/class/net/" ++ iface ++ "/operstate")%string with
  | None => 0
  | Some state =>
      if negb (String.eqb (TrimSpace state) "up") then 0
      else match readFile ("/sys/class/net/" ++ iface ++ "/speed")%string with
           | None => 0
           | Some data =>
               match Atoi (TrimSpace data) with
               | None => 0
               | Some v => if v <? 0 then 0 else u32 v
               end
           end
  end.

Definition gatherLinkSpeeds (readFile : string → option string) (a : Agent)
    : option (gmap string Z) :=
  if (size (netInterfaces a) =? 0)%nat then None
  else Some (fold_left (λ out '(name, _), <[name := readLinkSpeed readFile name]> out)
               (range_list (netInterfaces a)) ∅).

(** ** What a reading leaves behind *)

(** The watched interfaces of a reading, and the sums of their counters. *)
Definition watched (a : Agent) (l : list IOCountersStat) : list IOCountersStat :=
  List.filter (tracked a) l.
Definition total (f : IOCountersStat → Z) (a : Agent) (l : list IOCountersStat) : Z :=
  u64 (Zsum (map f (watched a l))).
Definition reading (a : Agent) (l : list IOCountersStat) (n : string) : option IOCountersStat :=
  List.find (λ v, String.eqb (Name v) n) (watched a l).

(** The state after the counters [l] were taken at time [t] for an interval. *)
Definition polled (a : Agent) (cacheTimeMs : Z) (l : list IOCountersStat) (t : Z) : Prop :=
  netIoStats a !! cacheTimeMs =
    Some {| NetIoStats.BytesRecv := total BytesRecv a l; NetIoStats.BytesSent := total BytesSent a l;
            NetIoStats.Time := Some t |} ∧
  ∃ tr, netInterfaceDeltaTrackers a !! cacheTimeMs = Some tr ∧
    ∀ n, current tr !! upKey n = BytesSent <$> reading a l n ∧
         current tr !! downKey n = BytesRecv <$> reading a l n.

Lemma fold_left_filter {A B} (p : B → bool) (f : A → B → A) l x :
  fold_left (λ x b, if p b then f x b else x) l x = fold_left f (List.filter p l) x.
Proof.
  revert x. induction l as [|b l IH]; intros x; simpl; [done|]. destruct (p b); simpl; apply IH.
Qed.

Lemma upKey_inj n m : upKey n = upKey m → n = m.
Proof. apply string_app_inv_r. Qed.
Lemma downKey_inj n m : downKey n = downKey m → n = m.
Proof. apply string_app_inv_r. Qed.

(** The two kinds of key never meet: their last bytes differ. *)
Lemma upKey_downKey n m : upKey n ≠ downKey m.
Proof.
  unfold upKey, downKey. change "down"%string with ("dow" ++ "n")%string.
  change "up"%string with ("u" ++ "p")%string. intros E.
  rewrite <- !string_app_assoc in E. by apply string_app_last in E.
Qed.

Definition rates (ms : Z) (prev : tracker_t) (v : IOCountersStat) : Z * Z * Z * Z :=
  if 0 <? ms then
    (nic_rate (Previous prev (upKey (Name v))) (BytesSent v) ms,
     nic_rate (Previous prev (downKey (Name v))) (BytesRecv v) ms, BytesSent v, BytesRecv v)
  else (0, 0, BytesSent v, BytesRecv v).

(** One pass over a reading without repeated names. *)
Lemma track_fold ms l tr S R s :
  NoDup (map Name l) → in_range 64 S → in_range 64 R →
  let '(tr', S', R', s') := fold_left (track_nic ms) l (tr, S, R, s) in
  previous tr' = previous tr ∧
  S' = u64 (S + Zsum (map BytesSent l)) ∧ R' = u64 (R + Zsum (map BytesRecv l)) ∧
  Bandwidth s' = Bandwidth s ∧
  (∀ n, match List.find (λ v, String.eqb (Name v) n) l with
        | Some v => current tr' !! upKey n = Some (BytesSent v) ∧
                    current tr' !! downKey n = Some (BytesRecv v) ∧
                    default ∅ (NetworkInterfaces s') !! n = Some (rates ms tr v)
        | None => current tr' !! upKey n = current tr !! upKey n ∧
                  current tr' !! downKey n = current tr !! downKey n ∧
                  default ∅ (NetworkInterfaces s') !! n = default ∅ (NetworkInterfaces s) !! n
        end).
Proof.
  revert tr S R s. induction l as [|v l IH]; intros tr S R s Hnd HS HR; cbn [fold_left map List.find Zsum foldr].
  { rewrite !Z.add_0_r, !wrap_small by done. done. }
  apply NoDup_cons in Hnd as [Hv Hnd].
  set (tr1 := Set_ (Set_ tr (upKey (Name v)) (BytesSent v)) (downKey (Name v)) (BytesRecv v)).
  assert (previous tr1 = previous tr) as Hp by done.
  destruct (track_nic ms (tr, S, R, s) v) as [[[tr1' S1] R1] s1] eqn:Ht.
  assert (tr1' = tr1 ∧ S1 = u64 (S + BytesSent v) ∧ R1 = u64 (R + BytesRecv v) ∧
    Bandwidth s1 = Bandwidth s ∧
    NetworkInterfaces s1 = Some (<[Name v := rates ms tr v]> (default ∅ (NetworkInterfaces s))))
    as (->&->&->&HB&HN).
  { unfold track_nic, rates in *. unfold Previous in *. simpl in Ht.
    destruct (0 <? ms); by simplify_eq/=. }
  specialize (IH tr1 (u64 (S + BytesSent v)) (u64 (R + BytesRecv v)) s1 Hnd).
  destruct (fold_left _ l _) as [[[tr' S'] R'] s'].
  destruct IH as (IHp&->&->&IHB&IHn); [by apply wrap_range..|].
  split_and!; [by rewrite IHp, Hp|by rewrite wrap_wrap_add, Z.add_assoc..|by rewrite IHB|].
  intros n. specialize (IHn n). destruct (String.eqb_spec (Name v) n) as [<-|Hne].
  - destruct (List.find _ l) as [v'|] eqn:Hf.
    { apply find_some in Hf as [Hin He%String.eqb_eq]. exfalso. apply Hv. rewrite <- He.
      apply list_elem_of_In. by apply in_map. }
    destruct IHn as (->&->&->). rewrite HN. unfold tr1. simpl.
    rewrite lookup_insert_ne by (intros E; symmetry in E; by apply upKey_downKey in E).
    by rewrite !lookup_insert_eq.
  - destruct (List.find _ l) as [v'|] eqn:Hf.
    + destruct IHn as (->&->&->). split_and!; [done..|]. unfold rates, Previous. by rewrite Hp.
    + destruct IHn as (->&->&->). rewrite HN. unfold tr1. simpl.
      rewrite (lookup_insert_ne _ (downKey (Name v)) (upKey n))
        by (intros E; symmetry in E; by apply upKey_downKey in E).
      rewrite (lookup_insert_ne _ (upKey (Name v)) (upKey n)) by (intros E; by apply upKey_inj in E).
      rewrite (lookup_insert_ne _ (downKey (Name v)) (downKey n))
        by (intros E; by apply downKey_inj in E).
      rewrite (lookup_insert_ne _ (upKey (Name v)) (downKey n)) by apply upKey_downKey.
      by rewrite lookup_insert_ne.
Qed.

Lemma watched_NoDup a l : NoDup (map Name l) → NoDup (map Name (watched a l)).
Proof. apply (NoDup_fmap_sublist Name). apply filter_sublist_bool. Qed.

Lemma find_none_name (l : list IOCountersStat) n :
  List.find (λ v, String.eqb (Name v) n) l = None ↔ ∀ v, In v l → Name v ≠ n.
Proof.
  split; [intros Hf v Hv; by eapply find_none in Hf as ?%String.eqb_neq|].
  induction l as [|v l IH]; intros Hl; [done|]. simpl.
  rewrite (proj2 (String.eqb_neq _ _)) by (apply Hl; by left). apply IH. intros v' Hv'.
  apply Hl. by right.
Qed.

(** The pass over a reading, as a poll uses it. *)
Lemma sumAndTrack_spec a ct ms l s :
  NoDup (map Name l) →
  ∃ tr s',
    sumAndTrackPerNicDeltas a ct ms l s =
      ({| netInterfaces := netInterfaces a;
          netInterfaceDeltaTrackers := <[ct := tr]> (netInterfaceDeltaTrackers a);
          netIoStats := netIoStats a |}, total BytesSent a l, total BytesRecv a l, s') ∧
    Bandwidth s' = Bandwidth s ∧
    (∀ n, current tr !! upKey n = BytesSent <$> reading a l n ∧
          current tr !! downKey n = BytesRecv <$> reading a l n) ∧
    (∀ n v, reading a l n = Some v →
       default ∅ (NetworkInterfaces s') !! n =
       Some (rates ms (Cycle (default NewDeltaTracker (netInterfaceDeltaTrackers a !! ct))) v)).
Proof.
  intros Hnd. unfold sumAndTrackPerNicDeltas.
  rewrite (fold_left_filter (tracked a) (track_nic ms)). fold (watched a l).
  set (tr0 := Cycle _).
  pose proof (track_fold ms (watched a l) tr0 0 0 s (watched_NoDup a l Hnd)) as Hf.
  destruct (fold_left _ _ _) as [[[tr S] R] s'].
  destruct Hf as (_&->&->&HB&Hn); [unfold in_range; lia..|].
  exists tr, s'. split_and!; [done|done| |].
  - intros n. specialize (Hn n). unfold reading. destruct (List.find _ _); simpl; [naive_solver|].
    destruct Hn as (->&->&_). done.
  - intros n v Hv. specialize (Hn n). unfold reading in Hv. rewrite Hv in Hn. naive_solver.
Qed.

(** An anomalous rate. *)
Definition anomaly (r : Z * Z) : bool := (10000000000 <? r.1) || (10000000000 <? r.2).

(** Every poll either keeps its reading or starts over. *)
Lemma poll_spec w a ct l t s :
  netInterfaces a ≠ ∅ → NoDup (map Name l) → w_poll w = Some l →
  let nis := (loadAndTickNetBaseline a ct t).1 in
  let ms := (loadAndTickNetBaseline a ct t).2 in
  let bw := computeBytesPerSecond ms (total BytesSent a l) (total BytesRecv a l) nis in
  let '(a', s') := updateNetworkStats w t a ct s in
  (∀ n v, reading a l n = Some v →
     default ∅ (NetworkInterfaces s') !! n =
     Some (rates ms (Cycle (default NewDeltaTracker (netInterfaceDeltaTrackers a !! ct))) v)) ∧
  (anomaly bw = false → Bandwidth s' = bw ∧ polled a' ct l t ∧ netInterfaces a' = netInterfaces a ∧
     ∀ ct', ct' ≠ ct → netIoStats a' !! ct' = netIoStats a !! ct' ∧
       netInterfaceDeltaTrackers a' !! ct' = netInterfaceDeltaTrackers a !! ct') ∧
  (anomaly bw = true → Bandwidth s' = (0, 0) ∧ netIoStats a' = ∅ ∧ netInterfaceDeltaTrackers a' = ∅ ∧
     netInterfaces a' = netInterfaces (initializeNetIoStats (w_nics w) (w_reset w))).
Proof.
  intros Hne Hnd Hw. unfold updateNetworkStats, ensureNetInterfacesInitialized.
  destruct (Nat.eqb_spec (size (netInterfaces a)) 0) as [?%map_size_empty_inv|_]; [done|].
  rewrite Hw.
  assert (NetIoStats.Time (loadAndTickNetBaseline a ct t).1 = Some t) as Ht.
  { unfold loadAndTickNetBaseline. by destruct (NetIoStats.Time (default _ _)). }
  destruct (loadAndTickNetBaseline a ct t) as [nis ms]. simpl in Ht. cbn [fst snd].
  destruct (sumAndTrack_spec a ct ms l (ensureNetworkInterfacesMap s) Hnd) as (tr&s'&->&HB&Hc&Hn).
  destruct (computeBytesPerSecond _ _ _ _) as [up down].
  unfold applyNetworkTotals. fold (anomaly (up, down)).
  change ((10000000000 <? up) || (10000000000 <? down)) with (anomaly (up, down)).
  destruct (anomaly (up, down)) eqn:Han; split_and!; try done; intros _.
  unfold polled. cbn [netIoStats netInterfaceDeltaTrackers netInterfaces Bandwidth].
  split_and!; [done| | |done|intros ct' ?; by rewrite !lookup_insert_ne].
  { by rewrite Ht, lookup_insert_eq. }
  exists tr. split; [by rewrite lookup_insert_eq|done].
Qed.

(** The first poll of an interval has nothing to compare with and keeps its reading. *)
Lemma first_poll w a ct l t s :
  netInterfaces a ≠ ∅ → NoDup (map Name l) → w_poll w = Some l → netIoStats a !! ct = None →
  polled (updateNetworkStats w t a ct s).1 ct l t ∧
  netInterfaces (updateNetworkStats w t a ct s).1 = netInterfaces a.
Proof.
  intros Hne Hnd Hw Hn. pose proof (poll_spec w a ct l t s Hne Hnd Hw) as Hp. simpl in Hp.
  unfold loadAndTickNetBaseline in Hp. rewrite Hn in Hp. simpl in Hp.
  destruct (updateNetworkStats _ _ _ _ _) as [a' s']. destruct Hp as (_&Hp&_).
  destruct Hp as (_&?&?&_); [done|]. done.
Qed.

(** Bytes per second between two values of a counter. *)
Definition spec_rate (p c ms : Z) : Z := (if p <=? c then c - p else c) * 1000 / ms.

Lemma nic_rate_spec p c ms :
  0 ≤ p → 0 ≤ c < 2 ^ 54 → nic_rate (Some p) c ms = spec_rate p c ms.
Proof.
  intros Hp Hc. unfold nic_rate, spec_rate. rewrite wrap_small; [done|].
  unfold in_range. destruct (Z.leb_spec p c); lia.
Qed.

Lemma polled_baseline a ct l1 t1 t2 :
  polled a ct l1 t1 → in_range 64 (t2 - t1) →
  loadAndTickNetBaseline a ct t2 =
  ({| NetIoStats.BytesRecv := total BytesRecv a l1; NetIoStats.BytesSent := total BytesSent a l1;
      NetIoStats.Time := Some t2 |}, t2 - t1).
Proof.
  intros [Hb _] Ht. unfold loadAndTickNetBaseline. rewrite Hb. simpl. by rewrite wrap_small.
Qed.

(** The counters of a reading fit in 54 bits (18 petabytes), alone and summed. *)
Definition plausible (a : Agent) (l : list IOCountersStat) : Prop :=
  Forall (λ v, 0 ≤ BytesSent v < 2 ^ 54 ∧ 0 ≤ BytesRecv v < 2 ^ 54) l ∧
  Zsum (map BytesSent (watched a l)) < 2 ^ 54 ∧ Zsum (map BytesRecv (watched a l)) < 2 ^ 54.

Lemma reading_elem a l n v : reading a l n = Some v → In v l ∧ Name v = n.
Proof.
  unfold reading. intros [Hv He%String.eqb_eq]%find_some.
  apply filter_In in Hv as [? _]. done.
Qed.

Lemma Zsum_nonneg {A} (f : A → Z) l : Forall (λ v, 0 ≤ f v) l → 0 ≤ Zsum (map f l).
Proof. induction 1; simpl; lia. Qed.

Lemma plausible_total a l :
  plausible a l →
  total BytesSent a l = Zsum (map BytesSent (watched a l)) ∧
  total BytesRecv a l = Zsum (map BytesRecv (watched a l)) ∧
  0 ≤ total BytesSent a l < 2 ^ 54 ∧ 0 ≤ total BytesRecv a l < 2 ^ 54.
Proof.
  intros (Hl&HS&HR).
  assert (Forall (λ v, 0 ≤ BytesSent v < 2 ^ 54 ∧ 0 ≤ BytesRecv v < 2 ^ 54) (watched a l)) as Hw.
  { apply Forall_forall. intros v Hv%list_elem_of_In. apply filter_In in Hv as [Hv _].
    rewrite Forall_forall in Hl. by apply Hl, list_elem_of_In. }
  assert (0 ≤ Zsum (map BytesSent (watched a l))).
  { apply Zsum_nonneg. eapply Forall_impl; [done|]. simpl. lia. }
  assert (0 ≤ Zsum (map BytesRecv (watched a l))).
  { apply Zsum_nonneg. eapply Forall_impl; [done|]. simpl. lia. }
  unfold total. rewrite !wrap_small by (unfold in_range; lia). lia.
Qed.

(** When the total of either direction goes down between two polls less than ten hours
    apart (an interface was reset, or vanished), no bandwidth is reported and every baseline of every interval is
    dropped, so that the next poll of each starts over. *)
Theorem counter_reset_detected w a ct l1 t1 l2 t2 s :
  netInterfaces a ≠ ∅ → NoDup (map Name l2) → w_poll w = Some l2 →
  polled a ct l1 t1 → 0 < t2 - t1 ≤ 36000000 → plausible a l1 → plausible a l2 →
  total BytesSent a l2 < total BytesSent a l1 ∨ total BytesRecv a l2 < total BytesRecv a l1 →
  let '(a', s') := updateNetworkStats w t2 a ct s in
  Bandwidth s' = (0, 0) ∧ netIoStats a' = ∅ ∧ netInterfaceDeltaTrackers a' = ∅ ∧
  netInterfaces a' = netInterfaces (initializeNetIoStats (w_nics w) (w_reset w)).
Proof.
  intros Hne Hnd Hw Hpl Ht H1 H2 Hdown.
  pose proof (poll_spec w a ct l2 t2 s Hne Hnd Hw) as Hp.
  rewrite (polled_baseline a ct l1 t1 t2 Hpl) in Hp by (unfold in_range; lia). simpl in Hp.
  destruct (updateNetworkStats _ _ _ _ _) as [a' s']. destruct Hp as (_&_&Hbad). apply Hbad.
  destruct (plausible_total _ _ H1) as (_&_&?&?). destruct (plausible_total _ _ H2) as (_&_&?&?).
  unfold computeBytesPerSecond, anomaly. rewrite (proj2 (Z.ltb_lt 0 (t2 - t1))) by lia. simpl.
  assert (∀ x y, 0 ≤ x < 2 ^ 54 → 0 ≤ y < 2 ^ 54 → y < x →
    10000000000 <? u64 (u64 (y - x) * 1000) / (t2 - t1) = true) as Hbig.
  { clear -Ht. intros x y Hx Hy Hlt. apply Z.ltb_lt.
    unfold wrap. rewrite Z.mul_mod_idemp_l by lia.
    replace ((y - x) * 1000) with (- ((x - y) * 1000)) by lia.
    rewrite Z_mod_nz_opp_full; [|rewrite Z.mod_small by lia; lia].
    rewrite Z.mod_small by lia.
    apply Z.lt_le_trans with (10000000001); [lia|]. apply Z.div_le_lower_bound; [lia|]. nia. }
  destruct Hdown as [Hd|Hd]; (apply Hbig in Hd; [|done..]); rewrite Hd; by rewrite ?orb_true_r.
Qed.
(** Totals that did not go down. *)
Lemma growth_exact ms S1 S2 R1 R2 tm :
  0 < ms → 0 ≤ S1 ≤ S2 → 0 ≤ R1 ≤ R2 → S2 < 2 ^ 54 → R2 < 2 ^ 54 →
  computeBytesPerSecond ms S2 R2 {| NetIoStats.BytesRecv := R1; NetIoStats.BytesSent := S1; NetIoStats.Time := tm |} =
  ((S2 - S1) * 1000 / ms, (R2 - R1) * 1000 / ms).
Proof.
  intros. unfold computeBytesPerSecond. rewrite (proj2 (Z.ltb_lt _ _)) by lia. simpl.
  rewrite !(wrap_small 64 (_ - _)) by (unfold in_range; lia).
  by rewrite !(wrap_small 64 (_ * _)) by (unfold in_range; lia).
Qed.

(** C23: two polls of one interval, with counters of at most 54 bits.  Every watched interface of the
    second reading reports the bytes per second since the first (rounded down; a counter that went
    down is taken to have restarted at 0, an interface that is new reports 0).  The bandwidth is the
    growth per second of the sums over the interfaces watched at either reading (an interface that
    appears or vanishes changes the sums by its whole counter), unless that is more than 10 GB/s in
    a direction, or a sum went down (within ten hours): then no bandwidth is reported and the
    baselines of all intervals are dropped.  Otherwise the second reading is the next baseline and
    other intervals keep theirs. *)
Theorem network_rates_exact w a ct l1 t1 l2 t2 s :
  netInterfaces a ≠ ∅ → NoDup (map Name l2) → w_poll w = Some l2 →
  polled a ct l1 t1 → 0 < t2 - t1 < 2 ^ 64 → plausible a l1 → plausible a l2 →
  let ms := t2 - t1 in
  let S1 := total BytesSent a l1 in let S2 := total BytesSent a l2 in
  let R1 := total BytesRecv a l1 in let R2 := total BytesRecv a l2 in
  let up := (S2 - S1) * 1000 / ms in let dn := (R2 - R1) * 1000 / ms in
  let '(a', s') := updateNetworkStats w t2 a ct s in
  (∀ n v, reading a l2 n = Some v →
     default ∅ (NetworkInterfaces s') !! n =
     Some (match reading a l1 n with
           | Some v1 => (spec_rate (BytesSent v1) (BytesSent v) ms,
                         spec_rate (BytesRecv v1) (BytesRecv v) ms, BytesSent v, BytesRecv v)
           | None => (0, 0, BytesSent v, BytesRecv v)
           end)) ∧
  (S1 ≤ S2 → R1 ≤ R2 → up ≤ 10 ^ 10 → dn ≤ 10 ^ 10 →
   Bandwidth s' = (up, dn) ∧ polled a' ct l2 t2 ∧
   ∀ ct', ct' ≠ ct → netIoStats a' !! ct' = netIoStats a !! ct' ∧
     netInterfaceDeltaTrackers a' !! ct' = netInterfaceDeltaTrackers a !! ct') ∧
  (S1 ≤ S2 ∧ R1 ≤ R2 ∧ (10 ^ 10 < up ∨ 10 ^ 10 < dn) ∨ ms ≤ 36000000 ∧ (S2 < S1 ∨ R2 < R1) →
   Bandwidth s' = (0, 0) ∧ netIoStats a' = ∅ ∧ netInterfaceDeltaTrackers a' = ∅).
Proof.
  intros Hne Hnd Hw Hpl Ht H1 H2. cbv zeta.
  pose proof (poll_spec w a ct l2 t2 s Hne Hnd Hw) as Hp.
  pose proof (counter_reset_detected w a ct l1 t1 l2 t2 s Hne Hnd Hw Hpl) as Hdown.
  rewrite (polled_baseline a ct l1 t1 t2 Hpl) in Hp by (unfold in_range; lia). simpl in Hp.
  destruct (plausible_total _ _ H1) as (_&_&?&?). destruct (plausible_total _ _ H2) as (_&_&?&?).
  destruct (updateNetworkStats _ _ _ _ _) as [a' s']. destruct Hp as (Hr&Hok&Hbad).
  pose proof (growth_exact (t2 - t1)) as Hg. split_and!.
  - intros n v Hv. rewrite (Hr n v Hv). f_equal. unfold rates.
    rewrite (proj2 (Z.ltb_lt _ _)) by lia.
    destruct Hpl as (_&tr&Htr&Hc). rewrite Htr. simpl. unfold Previous. simpl.
    pose proof (reading_elem _ _ _ _ Hv) as [Hin <-]. destruct (Hc (Name v)) as [-> ->].
    destruct (reading a l1 (Name v)) as [v1|] eqn:Hv1; [|done].
    change (BytesSent <$> Some v1) with (Some (BytesSent v1)).
    change (BytesRecv <$> Some v1) with (Some (BytesRecv v1)).
    apply reading_elem in Hv1 as [Hv1 _]. destruct H1 as [H1 _], H2 as [H2 _].
    rewrite Forall_forall in H1, H2. apply list_elem_of_In in Hv1, Hin.
    specialize (H1 _ Hv1). specialize (H2 _ Hin). by rewrite !nic_rate_spec by lia.
  - intros HS HR HbS HbR. rewrite Hg in Hok by lia.
    destruct Hok as (?&?&_&?); [|done]. unfold anomaly. simpl. by rewrite !(proj2 (Z.ltb_ge _ _)) by lia.
  - intros [(HS&HR&Hbig)|[Hms Hd]]; [|destruct Hdown as (?&?&?&_); [lia|done|done|done|done]].
    rewrite Hg in Hbad by lia. destruct Hbad as (?&?&?&_); [|done]. unfold anomaly. simpl.
    destruct Hbig; [rewrite (proj2 (Z.ltb_lt _ _)) by lia|rewrite orb_comm, (proj2 (Z.ltb_lt _ _)) by lia]; done.
Qed.
End counters.

(** ** Evaluated polls *)

Definition ex_nic (n : string) (s r : Z) : IOCountersStat :=
  {| Name := n; BytesSent := s; BytesRecv := r |}.
Definition ex_world (l : list IOCountersStat) : world :=
  {| w_nics := None; w_init := Some l; w_poll := Some l; w_reset := Some l |}.
Definition ex_l1 := [ex_nic "eth0" 1000 5000; ex_nic "lo" 7 7; ex_nic "wlan0" 300 400].
Definition ex_l2 := [ex_nic "eth0" 7000 5060; ex_nic "lo" 9 9; ex_nic "wlan0" 300 1000].
Definition ex_l3 := [ex_nic "eth0" 10 20; ex_nic "wlan0" 300 1000].
Definition ex_stats : Stats := {| Bandwidth := (0, 0); NetworkInterfaces := None |}.
Definition ex_agent : Agent := initializeNetIoStats None (Some ex_l1).
Definition ex_a1 : Agent := (updateNetworkStats (ex_world ex_l1) 1000 ex_agent 60000 ex_stats).1.

Ltac ex_nonempty := intros E%(f_equal (lookup "eth0"%string)); vm_compute in E; discriminate E.

Lemma ex_a1_polled : polled ex_a1 60000 ex_l1 1000.
Proof.
  apply (first_poll (ex_world ex_l1) ex_agent 60000 ex_l1 1000 ex_stats);
    [ex_nonempty|apply NoDup_ListNoDup; repeat constructor; simpl; intuition discriminate
    |reflexivity|reflexivity].
Qed.

Ltac ex_plausible :=
  split_and!; [repeat constructor; vm_compute; intuition discriminate|vm_compute; reflexivity..].

Lemma network_rates_exact_witness :
  Bandwidth (updateNetworkStats (ex_world ex_l2) 61000 ex_a1 60000 ex_stats).2 = (100, 11) ∧
  default ∅ (NetworkInterfaces (updateNetworkStats (ex_world ex_l2) 61000 ex_a1 60000 ex_stats).2)
    !! "wlan0"%string = Some (0, 10, 300, 1000).
Proof.
  pose proof (network_rates_exact (ex_world ex_l2) ex_a1 60000 ex_l1 1000 ex_l2 61000 ex_stats) as H.
  revert H. destruct (updateNetworkStats _ _ _ _ _) as [a' s']. intros H. cbn [fst snd].
  destruct H as (H1&H2&_);
    [ex_nonempty
    |apply NoDup_ListNoDup; repeat constructor; simpl; intuition discriminate
    |reflexivity|apply ex_a1_polled|lia|ex_plausible|ex_plausible|].
  split.
  - destruct H2 as [-> _]; [vm_compute; discriminate..|]. reflexivity.
  - etransitivity; [apply (H1 "wlan0"%string (ex_nic "wlan0" 300 1000)); reflexivity|reflexivity].
Defined.

Lemma counter_reset_detected_witness :
  Bandwidth (updateNetworkStats (ex_world ex_l3) 61000 ex_a1 60000 ex_stats).2 = (0, 0) ∧
  netIoStats (updateNetworkStats (ex_world ex_l3) 61000 ex_a1 60000 ex_stats).1 = ∅.
Proof.
  pose proof (counter_reset_detected (ex_world ex_l3) ex_a1 60000 ex_l1 1000 ex_l3 61000 ex_stats)
    as H.
  revert H. destruct (updateNetworkStats _ _ _ _ _) as [a' s']. intros H. cbn [fst snd].
  destruct H as (H1&H2&_);
    [ex_nonempty
    |apply NoDup_ListNoDup; repeat constructor; simpl; intuition discriminate
    |reflexivity|apply ex_a1_polled|lia|ex_plausible|ex_plausible|left; reflexivity|].
  by split.
Defined.
End AgentNetwork.
