(* ===== verification/AgentCpu.v ===== *)
(** * CPU usage of the agent ([agent/cpu.go])

    Percentages from two samples of the cumulative CPU times.  The last sample of
    every polling interval is kept; an interval polled for the first time starts
    from the sample of the default interval of 60 seconds.  [TimesStat.Total] is
    gopsutil's and a parameter, and so is the operating system. *)

From S2P Require Import Prelude GoFloat GoFloatFacts.

Module CpuMetrics.
Record t := { Total : f64; User : f64; System : f64; Iowait : f64; Steal : f64; Idle : f64 }.
Definition zero : t := {|
  Total := f64_zero; User := f64_zero; System := f64_zero; Iowait := f64_zero; Steal := f64_zero;
  Idle := f64_zero |}.
Definition all (m : t) : list f64 := [Total m; User m; System m; Iowait m; Steal m; Idle m].
End CpuMetrics.

Module AgentCpu.
Local Open Scope Z_scope.

(** [cpu.TimesStat] *)
Record TimesStat := {
  User : f64; System : f64; Idle : f64; Nice : f64; Iowait : f64; Irq : f64; Softirq : f64;
  Steal : f64; Guest : f64; GuestNice : f64;
}.
Definition zero_times : TimesStat := {|
  User := f64_zero; System := f64_zero; Idle := f64_zero; Nice := f64_zero; Iowait := f64_zero;
  Irq := f64_zero; Softirq := f64_zero; Steal := f64_zero; Guest := f64_zero;
  GuestNice := f64_zero |}.

(** The package's variables. *)
Record vars := {
  lastCpuTimes : gmap Z TimesStat;
  lastPerCoreCpuTimes : gmap Z (list TimesStat);
}.

Definition clampPercent (value : f64) : f64 := math_Min f64_100 (math_Max f64_zero value).

Section cpu.
Context {FC : FloatConv} (Total : TimesStat → f64) (linux : bool).

(** The package's [init]; the arguments are the two readings. *)
Definition init (times perCoreTimes : option (list TimesStat)) : vars := {|
  lastCpuTimes := match times with Some (t :: _) => {[60000 := t]} | _ => ∅ end;
  lastPerCoreCpuTimes :=
    match perCoreTimes with Some (t :: l) => {[60000 := t :: l]} | _ => ∅ end |}.

Definition getAllBusy (t : TimesStat) : f64 * f64 :=
  let tot := Total t in
  let tot := if linux then f64_sub (f64_sub tot (Guest t)) (GuestNice t) else tot in
  (tot, f64_sub (f64_sub tot (Idle t)) (Iowait t)).

Definition calculateBusy (t1 t2 : TimesStat) : f64 :=
  let '(t1All, t1Busy) := getAllBusy t1 in
  let '(t2All, t2Busy) := getAllBusy t2 in
  if f64_le t2All t1All || f64_le t2Busy t1Busy then f64_zero
  else clampPercent (f64_mul (f64_div (f64_sub t2Busy t1Busy) (f64_sub t2All t1All)) f64_100).

(** The share of one kind of time in the time elapsed. *)
Definition share (field : TimesStat → f64) (t1 t2 : TimesStat) (totalDelta : f64) : f64 :=
  clampPercent (f64_mul (f64_div (f64_sub (field t2) (field t1)) totalDelta) f64_100).

(** The second component is the metrics; [None] when the reading failed. *)
Definition getCpuMetrics (v : vars) (times : option (list TimesStat)) (cacheTimeMs : Z)
    : vars * option CpuMetrics.t :=
  match times with
  | None => (v, None)
  | Some [] => (v, Some CpuMetrics.zero)
  | Some (t2 :: _) =>
      let last :=
        match lastCpuTimes v !! cacheTimeMs with
        | Some _ => lastCpuTimes v
        | None => <[cacheTimeMs := default zero_times (lastCpuTimes v !! 60000)]> (lastCpuTimes v)
        end in
      let t1 := default zero_times (last !! cacheTimeMs) in
      let totalDelta := f64_sub (getAllBusy t2).1 (getAllBusy t1).1 in
      if f64_le totalDelta f64_zero then
        ({| lastCpuTimes := last; lastPerCoreCpuTimes := lastPerCoreCpuTimes v |},
         Some CpuMetrics.zero)
      else
        ({| lastCpuTimes := <[cacheTimeMs := t2]> last;
            lastPerCoreCpuTimes := lastPerCoreCpuTimes v |},
         Some {| CpuMetrics.Total := calculateBusy t1 t2;
                 CpuMetrics.User := share User t1 t2 totalDelta;
                 CpuMetrics.System := share System t1 t2 totalDelta;
                 CpuMetrics.Iowait := share Iowait t1 t2 totalDelta;
                 CpuMetrics.Steal := share Steal t1 t2 totalDelta;
                 CpuMetrics.Idle := share Idle t1 t2 totalDelta |})
  end.

(** The second component is the usage per core, [nil] ([None]) when nothing was read, and
    the third whether there was an error. *)
Definition getPerCoreCpuUsage (v : vars) (perCoreTimes : option (list TimesStat))
    (cacheTimeMs : Z) : vars * option (list Z) * bool :=
  match perCoreTimes with
  | None => (v, None, true)
  | Some [] => (v, None, false)
  | Some cores =>
      let last :=
        match lastPerCoreCpuTimes v !! cacheTimeMs with
        | Some _ => lastPerCoreCpuTimes v
        | None =>
            <[cacheTimeMs := default [] (lastPerCoreCpuTimes v !! 60000)]> (lastPerCoreCpuTimes v)
        end in
      let lastTimes := default [] (last !! cacheTimeMs) in
      ({| lastCpuTimes := lastCpuTimes v; lastPerCoreCpuTimes := <[cacheTimeMs := cores]> last |},
       Some (zip_with (λ t1 t2, f64_to_uint 8 (f64_round (calculateBusy t1 t2))) lastTimes cores),
       false)
  end.

(** ** Percentages are percentages *)

Definition percent (x : f64) : Prop :=
  f64_le f64_zero x = true ∧ f64_le x f64_100 = true ∧ valid64 x = true.

(** A sample whose times are numbers below [2^1000]. *)
Definition sane (t : TimesStat) : bool :=
  forallb moderate
    [(getAllBusy t).1; (getAllBusy t).2; User t; System t; Iowait t; Steal t; Idle t].

Lemma percent_zero : percent f64_zero.
Proof. by vm_compute. Qed.

(** The guarded quotient all the percentages are computed with. *)
Lemma ratio_percent a1 a2 b1 b2 :
  moderate a1 = true → moderate a2 = true → moderate b1 = true → moderate b2 = true →
  f64_lt a1 a2 = true →
  percent (clampPercent (f64_mul (f64_div (f64_sub b2 b1) (f64_sub a2 a1)) f64_100)).
Proof.
  intros H1 H2 H3 H4 Hlt. destruct (f64_sub_spec a2 a1 H2 H1) as (Hv&_&_&Hp).
  destruct (Hp Hlt) as (m&e&E). rewrite E in Hv |- *.
  destruct (f64_sub_spec b2 b1 H4 H3) as (Hvb&Hnb&_&_).
  destruct (f64_div_spec _ _ _ _ Hvb Hnb Hv) as [Hvd Hnd].
  rewrite f64_100_eq. destruct (f64_mul_spec _ false 7036874417766400 (-46) Hvd Hnd) as [Hvm Hnm];
    [reflexivity|]. by apply clamp_range.
Qed.

Lemma moderate_not_nan x : moderate x = true → is_nan x = false.
Proof. by destruct x. Qed.

Lemma not_le_lt x y : moderate x = true → moderate y = true → f64_le y x = false → f64_lt x y = true.
Proof. intros Hx%moderate_not_nan Hy%moderate_not_nan E. by rewrite f64_lt_negb_le, E. Qed.

Lemma calculateBusy_percent t1 t2 :
  sane t1 = true → sane t2 = true → percent (calculateBusy t1 t2).
Proof.
  unfold sane, calculateBusy. destruct (getAllBusy t1) as [a1 b1], (getAllBusy t2) as [a2 b2].
  simpl. rewrite !andb_true_iff. intros (Ha1&Hb1&_) (Ha2&Hb2&_).
  destruct (f64_le a2 a1) eqn:E; simpl; [apply percent_zero|].
  destruct (f64_le b2 b1); [apply percent_zero|]. apply ratio_percent; try done.
  by apply not_le_lt.
Qed.

(** A positive difference has a smaller subtrahend. *)
Lemma sub_pos_lt a1 a2 :
  moderate a1 = true → moderate a2 = true → f64_le (f64_sub a2 a1) f64_zero = false →
  f64_lt a1 a2 = true.
Proof.
  intros H1 H2 Hle. apply not_le_lt; [done..|]. apply not_true_iff_false. intros Hc.
  apply not_true_iff_false in Hle. apply Hle. clear Hle.
  destruct (f64_sub_spec a2 a1 H2 H1) as (_&Hn&_&_).
  destruct (f64_lt a2 a1) eqn:Hl.
  - destruct (f64_sub_spec a1 a2 H1 H2) as (_&_&_&Hp). destruct (Hp Hl) as (m&e&E).
    destruct a1 as [s1|s1| |s1 m1 e1], a2 as [s2|s2| |s2 m2 e2]; try done;
      try (destruct s1, s2; done); unfold f64_sub, SFsub in *.
    rewrite (Z.min_comm e2 e1).
    set (D := cond_Zopp s1 _ - cond_Zopp s2 _) in E.
    replace (cond_Zopp s2 _ - cond_Zopp s1 _) with (- D) by (unfold D; lia).
    unfold binary_normalize in *. destruct D as [|p|p]; simpl; [done| |].
    + destruct (binary_round_spec true p (Z.min e1 e2)) as (_&Hf&_&_).
      destruct Hf as [->|[->|(?&?&->)]]; done.
    + destruct (binary_round_spec true p (Z.min e1 e2)) as (_&Hf&_&_).
      rewrite E in Hf. destruct Hf as [?|[?|(?&?&?)]]; done.
  - assert (f64_lt a1 a2 = false) as Hl'.
    { by rewrite f64_lt_negb_le, Hc by (by apply moderate_not_nan). }
    rewrite f64_lt_negb_le in Hl by (by apply moderate_not_nan).
    apply negb_false_iff in Hl.
    assert (rank a1 = rank a2) as Hr.
    { apply f64_le_rank in Hc as (x&y&Ex&Ey&Hc), Hl as (x'&y'&E1&E2&Hl).
      rewrite Ex in E2. rewrite Ey in E1. injection E1 as <-. injection E2 as <-.
      rewrite Ex, Ey. f_equal. destruct Hc as [Hc|Hc], Hl as [Hl|Hl]; [destruct (lt3_asym _ _ Hc Hl)|congruence..]. }
    assert (a1 = a2 ∨ ∃ s s', a1 = S754_zero s ∧ a2 = S754_zero s') as [-> |(s&s'&->&->)].
    { destruct a1 as [[]|[]| |[]], a2 as [[]|[]| |[]]; simpl in Hr; simplify_eq/=; eauto;
        left; f_equal; lia. }
    + destruct a2 as [[]|[]| |s2 m2 e2]; try done. unfold f64_sub, SFsub.
      by rewrite Z.sub_diag.
    + by destruct s, s'.
Qed.

Lemma share_percent field t1 t2 :
  moderate (field t1) = true → moderate (field t2) = true →
  moderate (getAllBusy t1).1 = true → moderate (getAllBusy t2).1 = true →
  f64_le (f64_sub (getAllBusy t2).1 (getAllBusy t1).1) f64_zero = false →
  percent (share field t1 t2 (f64_sub (getAllBusy t2).1 (getAllBusy t1).1)).
Proof. intros. unfold share. apply ratio_percent; try done. by apply sub_pos_lt. Qed.

Definition sane_vars (v : vars) : Prop :=
  (∀ ct t, lastCpuTimes v !! ct = Some t → sane t = true) ∧
  (∀ ct l, lastPerCoreCpuTimes v !! ct = Some l → forallb sane l = true).

Lemma lastCpu_default v ct :
  sane_vars v → sane zero_times = true →
  sane (default zero_times
    (match lastCpuTimes v !! ct with
     | Some _ => lastCpuTimes v
     | None => <[ct := default zero_times (lastCpuTimes v !! 60000)]> (lastCpuTimes v)
     end !! ct)) = true.
Proof.
  intros [Hv _] Hz. destruct (lastCpuTimes v !! ct) as [t|] eqn:E; [rewrite E; simpl; eauto|].
  rewrite lookup_insert_eq. simpl. destruct (lastCpuTimes v !! 60000) eqn:E6; simpl; eauto.
Qed.

Lemma lastCore_default v ct :
  sane_vars v →
  forallb sane (default []
    (match lastPerCoreCpuTimes v !! ct with
     | Some _ => lastPerCoreCpuTimes v
     | None => <[ct := default [] (lastPerCoreCpuTimes v !! 60000)]> (lastPerCoreCpuTimes v)
     end !! ct)) = true.
Proof.
  intros [_ Hv]. destruct (lastPerCoreCpuTimes v !! ct) as [t|] eqn:E; [rewrite E; simpl; eauto|].
  rewrite lookup_insert_eq. simpl. destruct (lastPerCoreCpuTimes v !! 60000) eqn:E6; simpl; eauto.
Qed.

(** C24: whatever samples the operating system returns, as long as they are ordinary numbers,
    each figure of the CPU breakdown lies between 0 and 100 (never NaN or infinite), each core's
    usage is a byte of at most 100, and there are as many cores as both samples have. *)
Theorem cpu_usage_bounded v times cores ct :
  sane_vars v → sane zero_times = true →
  match times with Some l => forallb sane l = true | None => True end →
  match cores with Some l => forallb sane l = true | None => True end →
  match (getCpuMetrics v times ct).2 with
  | Some m => Forall percent (CpuMetrics.all m)
  | None => times = None
  end ∧
  match (getPerCoreCpuUsage v cores ct).1.2 with
  | Some usage => Forall (λ u, 0 ≤ u ≤ 100) usage
  | None => cores = None ∨ cores = Some []
  end ∧
  (* and the next samples start from as ordinary numbers *)
  sane_vars (getCpuMetrics v times ct).1 ∧ sane_vars (getPerCoreCpuUsage v cores ct).1.1.
Proof.
  intros Hv Hz Ht Hc. pose proof (lastCpu_default v ct Hv Hz) as H1.
  pose proof (lastCore_default v ct Hv) as H1c.
  assert (Forall percent (CpuMetrics.all CpuMetrics.zero)) as H0
    by (repeat (apply Forall_cons_2; [apply percent_zero|]); constructor).
  split_and!.
  - unfold getCpuMetrics. destruct times as [[|t2 l]|]; [exact H0| |done].
    simpl in Ht. apply andb_true_iff in Ht as [H2 _]. cbv zeta.
    set (t1 := default zero_times _) in *. destruct (f64_le _ f64_zero) eqn:Hd; [exact H0|].
    pose proof (calculateBusy_percent t1 t2 H1 H2) as Hb.
    unfold sane in H1, H2. cbn [forallb] in H1, H2. rewrite !andb_true_iff in H1, H2.
    destruct H1 as (?&?&?&?&?&?&?&_), H2 as (?&?&?&?&?&?&?&_).
    apply Forall_cons_2; [exact Hb|].
    repeat (apply Forall_cons_2; [by apply share_percent|]). constructor.
  - unfold getPerCoreCpuUsage. destruct cores as [[|c l]|]; [by right| |by left].
    cbn [fst snd]. set (lt := default [] _) in *. clearbody lt. revert lt H1c.
    generalize (c :: l) Hc. clear -FC. induction l as [|t2 l IH]; intros Hl lt Hlt;
      (destruct lt as [|t1 lt]; [constructor|]); simpl in *; [constructor|].
    apply andb_true_iff in Hl as [??], Hlt as [??]. constructor; [|by apply IH].
    destruct (calculateBusy_percent t1 t2) as (?&?&?); [done..|]. by apply round_percent.
  - destruct Hv as [Hv Hvc]. unfold getCpuMetrics. destruct times as [[|t2 l]|]; [done| |done].
    simpl in Ht. apply andb_true_iff in Ht as [H2 _]. cbv zeta.
    assert (∀ ct' t, match lastCpuTimes v !! ct with
     | Some _ => lastCpuTimes v
     | None => <[ct := default zero_times (lastCpuTimes v !! 60000)]> (lastCpuTimes v)
     end !! ct' = Some t → sane t = true) as Hlast.
    { intros ct' t. destruct (lastCpuTimes v !! ct) eqn:E; [apply Hv|].
      rewrite lookup_insert_Some. intros [[_ <-]|[_ ?]]; [|eauto].
      destruct (lastCpuTimes v !! 60000) eqn:E6; simpl; eauto. }
    destruct (f64_le _ f64_zero); (split; [|done]); cbn [fst lastCpuTimes]; [exact Hlast|].
    intros ct' t. rewrite lookup_insert_Some. intros [[_ <-]|[_ ?]]; [done|]. by eapply Hlast.
  - destruct Hv as [Hv Hvc]. unfold getPerCoreCpuUsage. destruct cores as [[|c l]|]; [done| |done].
    split; [done|]. cbn [fst lastPerCoreCpuTimes]. intros ct' l'.
    rewrite lookup_insert_Some. intros [[_ <-]|[_ Hl']]; [done|].
    destruct (lastPerCoreCpuTimes v !! ct) eqn:E; [by eapply Hvc|].
    rewrite lookup_insert_Some in Hl'. destruct Hl' as [[_ <-]|[_ ?]]; [|by eapply Hvc].
    destruct (lastPerCoreCpuTimes v !! 60000) eqn:E6; simpl; eauto.
Qed.
End cpu.

(** A machine that was idle for 15 of 20 seconds, on two cores. *)
Definition ex_times (u s i : Z) : TimesStat := {|
  User := f64_of_Z u; System := f64_of_Z s; Idle := f64_of_Z i; Nice := f64_zero;
  Iowait := f64_zero; Irq := f64_zero; Softirq := f64_zero; Steal := f64_zero;
  Guest := f64_zero; GuestNice := f64_zero |}.
Definition ex_total (t : TimesStat) : f64 := f64_add (f64_add (User t) (System t)) (Idle t).
Definition ex_vars : vars :=
  init (Some [ex_times 100 50 1000]) (Some [ex_times 60 20 500; ex_times 40 30 500]).

Lemma cpu_usage_bounded_witness :
  (getPerCoreCpuUsage ex_total true ex_vars (Some [ex_times 63 21 506; ex_times 41 30 509]) 1000).1.2
    = Some [40; 10] ∧
  match (getCpuMetrics ex_total true ex_vars (Some [ex_times 104 51 1015]) 60000).2 with
  | Some m => Forall percent (CpuMetrics.all m) ∧ CpuMetrics.Total m = f64_of_Z 25
  | None => False
  end.
Proof.
  split; [reflexivity|].
  pose proof (cpu_usage_bounded ex_total true ex_vars (Some [ex_times 104 51 1015]) None 60000) as H.
  destruct (getCpuMetrics _ _ _ _ _) as [v' [m|]] eqn:E;
    [|exfalso; vm_compute in E; discriminate E].
  split.
  - apply H; [|reflexivity|reflexivity|exact I]. split.
    + intros ct t. unfold ex_vars, init. cbn [lastCpuTimes]. rewrite lookup_singleton_Some.
      intros [_ <-]. reflexivity.
    + intros ct l. unfold ex_vars, init. cbn [lastPerCoreCpuTimes]. rewrite lookup_singleton_Some.
      intros [_ <-]. reflexivity.
  - cbn [snd]. vm_compute in E. injection E as _ <-. vm_compute. reflexivity.
Defined.
End AgentCpu.
