(* ===== verification/AgentPlatform.v ===== *)
(** * Batteries and the health file of the agent ([agent/battery/battery_linux.go],
    [agent/health/health.go])

    Batteries are read from the kernel's files; the list of batteries and whether one is readable
    are computed once.  The agent notes its connections by the time of a file, which the command
    [health] looks at in a process of its own. *)

From S2P Require Import Prelude GoStrings GoText.

Module Battery.
Local Open Scope string_scope.
Local Open Scope Z_scope.

Definition stateUnknown : Z := 0.
Definition stateEmpty : Z := 1.
Definition stateFull : Z := 2.
Definition stateCharging : Z := 3.
Definition stateDischarging : Z := 4.
Definition stateIdle : Z := 5.

Definition parseSysfsState (status : string) : Z :=
  if String.eqb status "Empty" then stateEmpty
  else if String.eqb status "Full" then stateFull
  else if String.eqb status "Charging" then stateCharging
  else if String.eqb status "Discharging" then stateDischarging
  else if String.eqb status "Not charging" then stateIdle
  else stateUnknown.

(** The files: names of a directory, and contents. *)
Record files := { ReadDir : string → option (list string); ReadFile : string → option string }.
Definition ReadStringFileOK (fs : files) (path : string) : option string := TrimSpace <$> ReadFile fs path.
Definition ReadStringFile (fs : files) (path : string) : string := default "" (ReadStringFileOK fs path).

(** The values of the functions that are called once. *)
Record once := { o_paths : option (option (list string)); o_readable : option bool }.
Definition resetBatteryState : once := {| o_paths := None; o_readable := None |}.

Definition power_supply : string := "/sys/class/power_supply".

Definition getBatteryPaths (fs : files) (o : once) : once * option (list string) :=
  match o_paths o with
  | Some r => (o, r)
  | None =>
      let r := entries ← ReadDir fs power_supply;
               Some (List.filter (λ p, String.eqb (ReadStringFile fs (JoinPath [p; "type"])) "Battery")
                       (map (λ e, JoinPath [power_supply; e]) entries)) in
      ({| o_paths := Some r; o_readable := o_readable o |}, r)
  end.

Definition capacity_readable (fs : files) (path : string) : bool :=
  match ReadStringFileOK fs (JoinPath [path; "capacity"]) with Some _ => true | None => false end.

Definition HasReadableBattery (fs : files) (o : once) : once * bool :=
  match o_readable o with
  | Some b => (o, b)
  | None =>
      let '(o, paths) := getBatteryPaths fs o in
      let b := existsb (capacity_readable fs) (default [] paths) in
      ({| o_paths := o_paths o; o_readable := Some b |}, b)
  end.

(** The sum, the number and the last known state. *)
Definition battery_step (fs : files) (st : Z * Z * Z) (path : string) : Z * Z * Z :=
  let '(total, count, state) := st in
  match ReadStringFileOK fs (JoinPath [path; "capacity"]) ≫= Atoi with
  | None => st
  | Some cap =>
      let s := parseSysfsState (ReadStringFile fs (JoinPath [path; "status"])) in
      (total + cap, count + 1, if s =? stateUnknown then state else s)
  end.

(** Percent and state; [None] is an error. *)
Definition GetBatteryStats (fs : files) (o : once) : once * option (Z * Z) :=
  let '(o, readable) := HasReadableBattery fs o in
  if negb readable then (o, None)
  else
    let '(o, paths) := getBatteryPaths fs o in
    match paths with
    | None | Some [] => (o, None)
    | Some paths =>
        let '(total, count, state) := fold_left (battery_step fs) paths (0, 0, 255) in
        (o, if (count =? 0) || (state =? 255) then None else Some (wrap 8 (Z.quot total count), state))
    end.

(** A kernel that reports capacities of 0 to 100. *)
Definition sane (fs : files) : Prop :=
  ∀ path c, (ReadStringFileOK fs (JoinPath [path; "capacity"]) ≫= Atoi) = Some c → 0 ≤ c ≤ 100.

Lemma battery_loop fs paths : ∀ total count state,
  sane fs → 0 ≤ total ≤ 100 * count → 0 ≤ state ≤ 5 ∨ state = 255 →
  let '(t, n, s) := fold_left (battery_step fs) paths (total, count, state) in
  0 ≤ t ≤ 100 * n ∧ (0 ≤ s ≤ 5 ∨ s = 255).
Proof.
  induction paths as [|p paths IH]; intros total count state Hs Ht Hst; [done|]. cbn [fold_left].
  unfold battery_step at 2. destruct (_ ≫= Atoi) as [c|] eqn:Hc; [|by apply IH].
  pose proof (Hs p c Hc). apply IH; [done|lia|].
  destruct (_ =? stateUnknown); [done|]. left. unfold parseSysfsState.
  repeat case_match; unfold stateEmpty, stateFull, stateCharging, stateDischarging, stateIdle, stateUnknown; lia.
Qed.

(** A battery is reported with a charge of 0 to 100 %, the average of all, and a known
    state. *)
Theorem battery_bounds fs o o' pct state :
  sane fs → GetBatteryStats fs o = (o', Some (pct, state)) → 0 ≤ pct ≤ 100 ∧ 0 ≤ state ≤ 5.
Proof.
  intros Hs. unfold GetBatteryStats. destruct (HasReadableBattery fs o) as [o1 []]; [|done]. simpl.
  destruct (getBatteryPaths fs o1) as [o2 [[|p paths]|]]; try done.
  pose proof (battery_loop fs (p :: paths) 0 0 255 Hs ltac:(lia) ltac:(by right)) as H.
  destruct (fold_left _ _ _) as [[t n] s]. destruct H as [Ht Hst].
  destruct (Z.eqb_spec n 0) as [|Hn]; [done|]. destruct (Z.eqb_spec s 255) as [|Hs']; [done|]. simpl.
  intros [= <- <- <-]. destruct Hst as [Hst|]; [|done].
  assert (0 ≤ Z.quot t n ≤ 100).
  { rewrite Z.quot_div_nonneg by lia. split; [apply Z.div_pos; lia|]. apply Z.div_le_upper_bound; lia. }
  split; [|done]. rewrite wrap_small by (unfold in_range; lia). done.
Qed.

(** ** Examples *)

Definition ex_files (status : string) : files := {|
  ReadDir d := Some ["AC"; "BAT0"; "BAT1"];
  ReadFile p := if String.eqb p "/sys/class/power_supply/AC/type" then Some "Mains"
                else if HasSuffix p "/type" then Some "Battery"
                else if HasSuffix p "/status" then Some status
                else if String.eqb p "/sys/class/power_supply/BAT0/capacity" then Some "81"
                else if String.eqb p "/sys/class/power_supply/BAT1/capacity" then Some "40" else None |}.

Lemma battery_bounds_witness :
  (GetBatteryStats (ex_files "Charging") resetBatteryState).2 = Some (60, stateCharging) ∧ 0 ≤ 60 ≤ 100.
Proof.
  split; [reflexivity|].
  destruct (battery_bounds (ex_files "Charging") resetBatteryState
    (GetBatteryStats (ex_files "Charging") resetBatteryState).1 60 stateCharging) as [H _]; [|reflexivity|exact H].
  intros path c H. unfold ReadStringFileOK, ex_files in H. cbn [ReadFile] in H.
  repeat (destruct (String.eqb _ _) in H || destruct (HasSuffix _ _) in H); vm_compute in H; congruence || (injection H as <-; lia).
Defined.

(** A battery whose state the kernel does not know is not reported at all. *)
Example unknown_state_unreported : (GetBatteryStats (ex_files "Unknown") resetBatteryState).2 = None.
Proof. reflexivity. Qed.
End Battery.

Module Health.
Local Open Scope string_scope.
Local Open Scope Z_scope.

(** Times of modification, in nanoseconds. *)
Abbreviation stamps := (gmap string Z).
Definition Second : Z := 1000000000.

(** What a process has of the machine: whether it is Linux, the directory of temporary files, and
    whether a file can be made. *)
Record host := { linux : bool; TempDir : string; can_create : string → bool }.

(** [updateHealthFile]: the file is created or truncated, and so modified. *)
Definition updateHealthFile (h : host) (now : Z) (path : string) (fs : stamps) : stamps * bool :=
  if can_create h path then (<[path := now]> fs, true) else (fs, false).

(** [getHealthFilePath], which every process runs when it starts. *)
Definition getHealthFilePath (h : host) (now : Z) (fs : stamps) : stamps * string :=
  let tmp := JoinPath [TempDir h; "beszel_health"] in
  if linux h then
    let fullPath := JoinPath ["/dev/shm"; "beszel_health"] in
    let '(fs, ok) := updateHealthFile h now fullPath fs in
    (fs, if ok then fullPath else tmp)
  else (fs, tmp).

Definition Check (now : Z) (path : string) (fs : stamps) : bool :=
  match fs !! path with
  | None => false
  | Some t => now - t <=? 91 * Second
  end.
Definition HealthUpdate (h : host) (now : Z) (path : string) (fs : stamps) : stamps * bool := updateHealthFile h now path fs.
Definition CleanUp (path : string) (fs : stamps) : stamps := delete path fs.

(** The command [health]: a process that starts and then checks. *)
Definition health_command (h : host) (start now : Z) (fs : stamps) : bool :=
  let '(fs, path) := getHealthFilePath h start fs in Check now path fs.

(** What the agent does with its file. *)
Inductive event := Updated (at_ : Z) | CleanedUp.
Definition run (h : host) (path : string) (evs : list event) (fs : stamps) : stamps :=
  fold_left (λ fs e, match e with Updated t => (HealthUpdate h t path fs).1 | CleanedUp => CleanUp path fs end) evs fs.

(** Where the file lies in the directory of temporary files, the command reports an agent as
    healthy exactly if its last act on the file was an update less than 91 seconds old. *)
Theorem health_check_exact h start now evs :
  linux h = false → can_create h (JoinPath [TempDir h; "beszel_health"]) = true →
  let path := JoinPath [TempDir h; "beszel_health"] in
  health_command h start now (run h path evs ∅) = true ↔
    ∃ t, last evs = Some (Updated t) ∧ now - t ≤ 91 * Second.
Proof.
  intros Hl Hc path. unfold health_command, getHealthFilePath. rewrite Hl. fold path. unfold Check.
  induction evs as [|e evs IH] using rev_ind.
  { simpl. rewrite lookup_empty. split; [done|]. by intros (t&?&_). }
  unfold run. rewrite fold_left_app, last_snoc. simpl. destruct e as [t|]; unfold HealthUpdate, updateHealthFile, CleanUp.
  - fold path in Hc. rewrite Hc. simpl. rewrite lookup_insert_eq, Z.leb_le. split; [by exists t|].
    by intros (t'&[= <-]&?).
  - rewrite lookup_delete_eq. split; [done|]. by intros (t&?&_).
Qed.

(** On Linux the start of the command itself modifies the file that it then checks: it finds the
    agent healthy even if there is none. *)
Theorem health_blind_on_linux h start now fs :
  linux h = true → can_create h "/dev/shm/beszel_health" = true → now - start ≤ 91 * Second →
  health_command h start now fs = true.
Proof.
  intros Hl Hc Ht. unfold health_command, getHealthFilePath. rewrite Hl.
  change (JoinPath ["/dev/shm"; "beszel_health"]) with "/dev/shm/beszel_health".
  unfold updateHealthFile. rewrite Hc. unfold Check. rewrite lookup_insert_eq. by apply Z.leb_le.
Qed.

Definition ex_host (l : bool) : host := {| linux := l; TempDir := "/tmp"; can_create _ := true |}.

Lemma health_check_exact_witness :
  health_command (ex_host false) 0 (200 * Second)
    (run (ex_host false) "/tmp/beszel_health" [Updated (50 * Second); Updated (120 * Second)] ∅) = true.
Proof.
  apply (health_check_exact (ex_host false) 0 (200 * Second) [Updated (50 * Second); Updated (120 * Second)]);
    [reflexivity|reflexivity|]. exists (120 * Second). split; [reflexivity|]. unfold Second. lia.
Defined.

Lemma health_blind_on_linux_witness : health_command (ex_host true) 0 (2 * Second) ∅ = true.
Proof. apply (health_blind_on_linux (ex_host true) 0 (2 * Second) ∅); [reflexivity|reflexivity|unfold Second; lia]. Defined.
End Health.
