(* ===== verification/AgentDisk.v ===== *)
(** * Filesystems and disk I/O of the agent ([agent/disk.go])

    At start the agent decides which filesystems it watches and which I/O device
    each belongs to: the root filesystem, those named in [EXTRA_FILESYSTEMS], and
    those mounted under [/extra-filesystems].  Every poll then reads their usage,
    and their I/O counters, which become rates per polling interval.

    Partitions, counters, usage, folders and the environment are arguments.  The
    functions on paths are those of Unix.  A time is in milliseconds, and 0 is Go's
    zero [time.Time].  The maps hold the structs the source points to: each
    pointer is stored under one key only. *)

From S2P Require Import Prelude GoFloat GoStrings GoText Entities.

Module AgentDisk.
Local Open Scope Z_scope.

(** [disk.PartitionStat], [disk.IOCountersStat] and [disk.UsageStat], the fields read. *)
Record PartitionStat := { Device : string; Mountpoint : string }.

Record IOCountersStat := {
  Name : string; Label : string; ReadBytes : Z; WriteBytes : Z; ReadCount : Z; WriteCount : Z;
  ReadTime : Z; WriteTime : Z; IoTime : Z; WeightedIO : Z;
}.

Record UsageStat := { Total : Z; Used : Z; UsedPercent : f64 }.

Record prevDisk := {
  readBytes : Z; writeBytes : Z; readTime : Z; writeTime : Z; ioTime : Z; weightedIO : Z;
  readCount : Z; writeCount : Z; at_ : Z;
}.

Definition prevDiskFromCounter (d : IOCountersStat) (t : Z) : prevDisk := {|
  readBytes := ReadBytes d; writeBytes := WriteBytes d; readTime := ReadTime d;
  writeTime := WriteTime d; ioTime := IoTime d; weightedIO := WeightedIO d;
  readCount := ReadCount d; writeCount := WriteCount d; at_ := t |}.

Record fsRegistrationContext := {
  filesystem : string;
  isWindows : bool;
  efPath : string;
  diskIoCounters : gmap string IOCountersStat;
}.

(** ** Names *)

Definition parseFilesystemEntry (entry : string) : string * string :=
  let entry := TrimSpace entry in
  match Cut entry "__" with
  | Some (a, b) => (TrimSpace a, TrimSpace b)
  | None => (entry, ""%string)
  end.

Definition extraFilesystemPartitionInfo (p : PartitionStat) : string * string :=
  let device := TrimSpace (Device p) in
  let '(folderDevice, customName) := parseFilesystemEntry (Base (Mountpoint p)) in
  (if String.eqb device "" then folderDevice else device, customName).

Definition isDockerSpecialMountpoint (mountpoint : string) : bool :=
  existsb (String.eqb mountpoint) ["/etc/hosts"; "/etc/resolv.conf"; "/etc/hostname"]%string.

Definition normalizeDeviceName (value : string) : string :=
  let name := Base (TrimSpace value) in
  if String.eqb name "." then "" else name.

Definition prefixRelated (a b : string) : bool :=
  if String.eqb a "" || String.eqb b "" || String.eqb a b then false
  else HasPrefix a b || HasPrefix b a.

Definition filesystemMatchesPartitionSetting (fs : string) (p : PartitionStat) : bool :=
  let fs := TrimSpace fs in
  if String.eqb fs "" then false
  else if String.eqb (Mountpoint p) fs then true
  else
    let fsName := normalizeDeviceName fs in
    let partName := normalizeDeviceName (Device p) in
    if String.eqb fsName "" || String.eqb partName "" then false
    else if String.eqb fsName partName then true
    else prefixRelated partName fsName.

Definition findPartitionByFilesystemSetting (fs : string) (partitions : list PartitionStat)
    : option PartitionStat :=
  List.find (λ p, HasSuffix (Device p) fs || String.eqb (Mountpoint p) fs) partitions.

(** ** The device of a filesystem *)

Record ioMatchCandidate := { name : string; bytes : Z; ops : Z }.

Definition candidate (d : IOCountersStat) : ioMatchCandidate := {|
  name := Name d; bytes := u64 (ReadBytes d + WriteBytes d);
  ops := u64 (ReadCount d + WriteCount d) |}.

(** [c] is preferred to [best]. *)
Definition busier (c best : ioMatchCandidate) : bool :=
  (bytes best <? bytes c)
  || ((bytes c =? bytes best) && (ops best <? ops c))
  || ((bytes c =? bytes best) && (ops c =? ops best) && String.ltb (name c) (name best)).

Definition exact_device (fs : string) (d : IOCountersStat) : bool :=
  String.eqb (normalizeDeviceName (Name d)) fs
  || (negb (String.eqb (Label d) "") && String.eqb (normalizeDeviceName (Label d)) fs).

Definition related_device (fs : string) (d : IOCountersStat) : bool :=
  prefixRelated (normalizeDeviceName (Name d)) fs
  || (negb (String.eqb (Label d) "") && prefixRelated (normalizeDeviceName (Label d)) fs).

(** The loop over the counters: a device found, or the candidates. *)
Fixpoint scan_devices (fs : string) (l : list (string * IOCountersStat))
    (candidates : list ioMatchCandidate) : string + list ioMatchCandidate :=
  match l with
  | [] => inr candidates
  | (_, d) :: l' =>
      if exact_device fs d then inl (Name d)
      else scan_devices fs l'
             (if related_device fs d then candidates ++ [candidate d] else candidates)
  end.

Definition pick (candidates : list ioMatchCandidate) : option ioMatchCandidate :=
  match candidates with
  | [] => None
  | best :: rest => Some (fold_left (λ best c, if busier c best then c else best) rest best)
  end.

Section discovery.
Context {RO : RangeOrder string}.

Definition findIoDevice (fs : string) (counters : gmap string IOCountersStat) : option string :=
  let fs := normalizeDeviceName fs in
  if String.eqb fs "" then None
  else match scan_devices fs (range_list counters) [] with
       | inl n => Some n
       | inr candidates => name <$> pick candidates
       end.

Definition mostActiveIoDevice (counters : gmap string IOCountersStat) : string :=
  name (fold_left (λ best '(_, d),
                     let c := candidate d in
                     if String.eqb (name best) "" || busier c best then c else best)
          (range_list counters) {| name := ""; bytes := 0; ops := 0 |}).

(** ** Registration *)

Definition known (counters : gmap string IOCountersStat) (key : string) : bool :=
  match counters !! key with Some _ => true | None => false end.

(** The key of [fsStats] a filesystem is tracked under. *)
Definition resolve_key (device mountpoint : string) (root : bool) (ctx : fsRegistrationContext)
    : string :=
  let key := if isWindows ctx then device else Base device in
  let counters := diskIoCounters ctx in
  if known counters key then key
  else if root then
    match findIoDevice key counters with
    | Some matchedKey => matchedKey
    | None =>
        if String.eqb (filesystem ctx) "" then key
        else default key (findIoDevice (filesystem ctx) counters)
    end
  else
    let key :=
      if HasPrefix mountpoint (efPath ctx) then
        let folderDevice := (parseFilesystemEntry (Base mountpoint)).1 in
        if String.eqb folderDevice "" then key else default key (findIoDevice folderDevice counters)
      else key in
    if known counters key then key else default key (findIoDevice key counters).

Definition new_entry (root : bool) (mountpoint customName : string) : FsStats.t :=
  FsStats.mk 0 root mountpoint customName f64_zero f64_zero 0 0 f64_zero f64_zero f64_zero
    f64_zero 0 0 0 0 zero6 zero6.

Definition registerFilesystemStats (existing : gmap string FsStats.t)
    (device mountpoint : string) (root : bool) (customName : string)
    (ctx : fsRegistrationContext) : option (string * FsStats.t) :=
  let key := resolve_key device mountpoint root ctx in
  match existing !! key with
  | Some _ => None
  | None => Some (key, new_entry root mountpoint customName)
  end.

(** The fields of [Agent] that hold filesystems. *)
Abbreviation fs_map := (gmap string FsStats.t).

(** [diskDiscovery]; the agent's map is passed along. *)
Record diskDiscovery := {
  rootMountPoint : string;
  partitions : list PartitionStat;
  usageFn : string → option UsageStat;
  ctx : fsRegistrationContext;
}.

Definition addFsStat (d : diskDiscovery) (fs : fs_map) (device mountpoint : string) (root : bool)
    (customName : string) : fs_map :=
  match registerFilesystemStats fs device mountpoint root customName (ctx d) with
  | None => fs
  | Some (key, stats) => <[key := stats]> fs
  end.

Definition root_entry (mountpoint : string) : FsStats.t := new_entry true mountpoint "".

Definition addConfiguredRootFs (d : diskDiscovery) (fs : fs_map) : fs_map * bool :=
  if String.eqb (filesystem (ctx d)) "" then (fs, false)
  else match List.find (filesystemMatchesPartitionSetting (filesystem (ctx d))) (partitions d) with
       | Some p => (addFsStat d fs (Device p) (Mountpoint p) true "", true)
       | None =>
           match findIoDevice (filesystem (ctx d)) (diskIoCounters (ctx d)) with
           | Some ioKey => (<[ioKey := root_entry (rootMountPoint d)]> fs, true)
           | None => (fs, false)
           end
       end.

Definition isRootFallbackPartition (p : PartitionStat) (rootMountPoint : string) : bool :=
  String.eqb (Mountpoint p) rootMountPoint
  || (isDockerSpecialMountpoint (Mountpoint p) && HasPrefix (Device p) "/dev").

Definition addPartitionRootFs (d : diskDiscovery) (fs : fs_map) (device mountpoint : string)
    : fs_map * bool :=
  match findIoDevice (Base device) (diskIoCounters (ctx d)) with
  | None => (fs, false)
  | Some dev => (addFsStat d fs dev mountpoint true "", true)
  end.

Definition addLastResortRootFs (d : diskDiscovery) (fs : fs_map) : fs_map :=
  let rootKey := mostActiveIoDevice (diskIoCounters (ctx d)) in
  let rootKey :=
    if negb (String.eqb rootKey "") then rootKey
    else let rootKey := Base (rootMountPoint d) in
         match fs !! rootKey with Some _ => "root"%string | None => rootKey end in
  <[rootKey := root_entry (rootMountPoint d)]> fs.

Definition addConfiguredExtraFsEntry (d : diskDiscovery) (fs : fs_map)
    (entry customName : string) : fs_map :=
  match findPartitionByFilesystemSetting entry (partitions d) with
  | Some p => addFsStat d fs (Device p) (Mountpoint p) false customName
  | None =>
      match usageFn d entry with
      | Some _ => addFsStat d fs (Base entry) entry false customName
      | None => fs
      end
  end.

Definition addConfiguredExtraFilesystems (d : diskDiscovery) (fs : fs_map)
    (extraFilesystems : string) : fs_map :=
  fold_left (λ fs e, let '(entry, customName) := parseFilesystemEntry e in
                     addConfiguredExtraFsEntry d fs entry customName)
    (Split comma extraFilesystems) fs.

Definition addPartitionExtraFs (d : diskDiscovery) (fs : fs_map) (p : PartitionStat) : fs_map :=
  if negb (String.eqb (Dir (Mountpoint p)) (efPath (ctx d))) then fs
  else let '(device, customName) := extraFilesystemPartitionInfo p in
       addFsStat d fs device (Mountpoint p) false customName.

Definition addExtraFilesystemFolders (d : diskDiscovery) (fs : fs_map) (folderNames : list string)
    : fs_map :=
  let existingMountpoints : gset string :=
    list_to_set (map (λ kv, FsStats.Mountpoint kv.2) (range_list fs)) in
  fold_left
    (λ fs folderName,
       let mountpoint := JoinPath [efPath (ctx d); folderName] in
       if decide (mountpoint ∈ existingMountpoints) then fs
       else let '(device, customName) := parseFilesystemEntry folderName in
            addFsStat d fs device mountpoint false customName)
    folderNames fs.

(** ** Pruning *)

Definition withinUsageTolerance (a b tolerance : Z) : bool :=
  if b <=? a then a - b <=? tolerance else b - a <=? tolerance.

(** A missing usage is a [nil] pointer. *)
Definition hasSameDiskUsage (a b : option UsageStat) : bool :=
  match a, b with
  | Some a, Some b =>
      if (Total a =? 0) || (Total b =? 0) then false
      else withinUsageTolerance (Total a) (Total b) (16 * 1024 * 1024)
           && withinUsageTolerance (Used a) (Used b) (16 * 1024 * 1024)
  | _, _ => false
  end.

(** An extra filesystem that mirrors the usage of the root. *)
Definition duplicate (Usage : string → option UsageStat) (rootUsage : UsageStat)
    (stats : FsStats.t) : bool :=
  negb (FsStats.Root stats)
  && match Usage (FsStats.Mountpoint stats) with
     | None => false
     | extra => hasSameDiskUsage (Some rootUsage) extra
     end.

Definition prune_step (Usage : string → option UsageStat) (rootUsage : UsageStat) (fs : fs_map)
    (kv : string * FsStats.t) : fs_map :=
  if duplicate Usage rootUsage kv.2 then delete kv.1 fs else fs.

Definition pruneDuplicateRootExtraFilesystems (Usage : string → option UsageStat) (fs : fs_map)
    : fs_map :=
  let rootMountpoint :=
    match List.find (λ kv, FsStats.Root kv.2) (range_list fs) with
    | Some (_, stats) => FsStats.Mountpoint stats
    | None => ""%string
    end in
  if String.eqb rootMountpoint "" then fs
  else match Usage rootMountpoint with
       | None => fs
       | Some rootUsage =>
           fold_left (prune_step Usage rootUsage) (range_list fs) fs
       end.

(** ** The agent's state and its start *)

Record Agent := {
  fsNames : list string;
  fsStats : fs_map;
  diskPrev : gmap Z (gmap string prevDisk);
  diskUsageCacheDuration : Z;
  lastDiskUsageUpdate : Z;
}.

Definition set_baseline (now : Z) (d : IOCountersStat) (s : FsStats.t) : FsStats.t :=
  FsStats.mk now (FsStats.Root s) (FsStats.Mountpoint s) (FsStats.Name s) (FsStats.DiskTotal s)
    (FsStats.DiskUsed s) (ReadBytes d) (WriteBytes d) (FsStats.DiskReadPs s)
    (FsStats.DiskWritePs s) (FsStats.MaxDiskReadPS s) (FsStats.MaxDiskWritePS s)
    (FsStats.DiskReadBytes s) (FsStats.DiskWriteBytes s) (FsStats.MaxDiskReadBytes s)
    (FsStats.MaxDiskWriteBytes s) (FsStats.DiskIoStats s) (FsStats.MaxDiskIoStats s).

Definition initializeDiskIoStats (now : Z) (counters : gmap string IOCountersStat) (a : Agent)
    : Agent :=
  let '(fs, names) :=
    fold_left
      (λ '(fs, names) '(device, stats),
         match counters !! device with
         | None => (fs, names)
         | Some d => (<[device := set_baseline now d stats]> fs, names ++ [device])
         end)
      (range_list (fsStats a)) (fsStats a, []) in
  {| fsNames := names; fsStats := fs; diskPrev := diskPrev a;
     diskUsageCacheDuration := diskUsageCacheDuration a;
     lastDiskUsageUpdate := lastDiskUsageUpdate a |}.

(** What the system reports when the agent starts; readings that failed are empty. *)
Record machine := {
  m_windows : bool;
  m_filesystem : option string;          (* FILESYSTEM *)
  m_extra : option string;               (* EXTRA_FILESYSTEMS *)
  m_partitions : list PartitionStat;
  m_counters : gmap string IOCountersStat;
  m_usage : string → option UsageStat;
  m_folders : option (list (string * bool)); (* entries of the folder, and whether directories *)
  m_rootMountPoint : string;
}.

(** The loop over the partitions. *)
Definition scan_partition (d : diskDiscovery) (st : fs_map * bool) (p : PartitionStat)
    : fs_map * bool :=
  let '(fs, hasRoot) := st in
  let '(fs, hasRoot) :=
    if negb hasRoot && isRootFallbackPartition p (rootMountPoint d)
    then addPartitionRootFs d fs (Device p) (Mountpoint p) else (fs, hasRoot) in
  (addPartitionExtraFs d fs p, hasRoot).

Definition discovery_of (m : machine) : diskDiscovery := {|
  rootMountPoint := m_rootMountPoint m;
  partitions :=
    if m_windows m
    then map (λ p, {| Device := TrimSuffix (Device p) "\"; Mountpoint := Mountpoint p |})
           (m_partitions m)
    else m_partitions m;
  usageFn := m_usage m;
  ctx := {| filesystem := default ""%string (m_filesystem m); isWindows := m_windows m;
            efPath := "/extra-filesystems"; diskIoCounters := m_counters m |} |}.

(** The filesystems found, before duplicates are dropped, and whether the root is thought to
    be among them. *)
Definition discover (m : machine) (fs : fs_map) : fs_map * bool :=
  let d := discovery_of m in
  let '(fs, hasRoot) := addConfiguredRootFs d fs in
  let fs := match m_extra m with
            | Some extra => addConfiguredExtraFilesystems d fs extra
            | None => fs
            end in
  let '(fs, hasRoot) := fold_left (scan_partition d) (partitions d) (fs, hasRoot) in
  let fs := match m_folders m with
            | Some folders => addExtraFilesystemFolders d fs (map fst (List.filter snd folders))
            | None => fs
            end in
  (if hasRoot then fs else addLastResortRootFs d fs, hasRoot).

Definition initializeDiskInfo (m : machine) (now : Z) (a : Agent) : Agent :=
  let fs := pruneDuplicateRootExtraFilesystems (m_usage m) (discover m (fsStats a)).1 in
  initializeDiskIoStats now (m_counters m)
    {| fsNames := fsNames a; fsStats := fs; diskPrev := diskPrev a;
       diskUsageCacheDuration := diskUsageCacheDuration a;
       lastDiskUsageUpdate := lastDiskUsageUpdate a |}.

(** [getRootMountPoint] from the environment and the files it looks at. *)
Definition getRootMountPoint (windows : bool) (systemDrive : string) (osRelease : option string)
    (sysroot runOstree : bool) : string :=
  if windows then if String.eqb systemDrive "" then "C:" else systemDrive
  else
    let immutable :=
      match osRelease with
      | None => false
      | Some content =>
          (Contains content "fedora" && Contains content "silverblue")
          || Contains content "coreos" || Contains content "flatcar"
          || Contains content "rhel-atomic" || Contains content "centos-atomic"
      end in
    if immutable && sysroot then "/sysroot"
    else if runOstree && sysroot then "/sysroot"
    else "/".

(** ** Polls *)

Definition BytesToGigabytes (b : Z) : f64 := twoDecimals (f64_div (f64_of_Z b) (f64_of_Z 1073741824)).
Definition BytesToMegabytes (b : f64) : f64 := twoDecimals (f64_div b (f64_of_Z 1048576)).

(** The part of [system.Stats] that the disk code writes. *)
Record Stats := {
  s_DiskTotal : f64; s_DiskUsed : f64; s_DiskPct : f64; s_DiskReadPs : f64; s_DiskWritePs : f64;
  s_DiskIO : Z * Z; s_DiskIoStats : arr6;
}.

Definition set_usage (total used : f64) (s : FsStats.t) : FsStats.t :=
  FsStats.mk (FsStats.Time s) (FsStats.Root s) (FsStats.Mountpoint s) (FsStats.Name s) total used
    (FsStats.TotalRead s) (FsStats.TotalWrite s) (FsStats.DiskReadPs s) (FsStats.DiskWritePs s)
    (FsStats.MaxDiskReadPS s) (FsStats.MaxDiskWritePS s) (FsStats.DiskReadBytes s)
    (FsStats.DiskWriteBytes s) (FsStats.MaxDiskReadBytes s) (FsStats.MaxDiskWriteBytes s)
    (FsStats.DiskIoStats s) (FsStats.MaxDiskIoStats s).

Definition reset_usage (s : FsStats.t) : FsStats.t :=
  FsStats.mk (FsStats.Time s) (FsStats.Root s) (FsStats.Mountpoint s) (FsStats.Name s) f64_zero
    f64_zero 0 0 (FsStats.DiskReadPs s) (FsStats.DiskWritePs s)
    (FsStats.MaxDiskReadPS s) (FsStats.MaxDiskWritePS s) (FsStats.DiskReadBytes s)
    (FsStats.DiskWriteBytes s) (FsStats.MaxDiskReadBytes s) (FsStats.MaxDiskWriteBytes s)
    (FsStats.DiskIoStats s) (FsStats.MaxDiskIoStats s).

(** The body of the loop of [updateDiskUsage]. *)
Definition usage_step (Usage : string → option UsageStat) (cacheExtraFs : bool)
    (st : fs_map * Stats) (kv : string * FsStats.t) : fs_map * Stats :=
  let '(fs, s) := st in
  let '(key, stats) := kv in
  if cacheExtraFs && negb (FsStats.Root stats) then (fs, s)
  else match Usage (FsStats.Mountpoint stats) with
       | Some d =>
           let total := BytesToGigabytes (Total d) in
           let used := BytesToGigabytes (Used d) in
           (<[key := set_usage total used stats]> fs,
            if FsStats.Root stats then
              {| s_DiskTotal := total; s_DiskUsed := used;
                 s_DiskPct := twoDecimals (UsedPercent d);
                 s_DiskReadPs := s_DiskReadPs s; s_DiskWritePs := s_DiskWritePs s;
                 s_DiskIO := s_DiskIO s; s_DiskIoStats := s_DiskIoStats s |}
            else s)
       | None => (<[key := reset_usage stats]> fs, s)
       end.

Definition updateDiskUsage (Usage : string → option UsageStat) (now : Z) (a : Agent) (s : Stats)
    : Agent * Stats :=
  let cacheExtraFs :=
    (0 <? diskUsageCacheDuration a) && negb (lastDiskUsageUpdate a =? 0)
    && (now - lastDiskUsageUpdate a <? diskUsageCacheDuration a) in
  let '(fs, s) := fold_left (usage_step Usage cacheExtraFs) (range_list (fsStats a)) (fsStats a, s) in
  ({| fsNames := fsNames a; fsStats := fs; diskPrev := diskPrev a;
      diskUsageCacheDuration := diskUsageCacheDuration a;
      lastDiskUsageUpdate := if cacheExtraFs then lastDiskUsageUpdate a else now |}, s).

(** The rates of one device between two snapshots. *)
Definition io_rate (cur prev ms : Z) : Z := u64 (u64 (cur - prev) * 1000) / ms.
Definition time_pct (cur prev ms : Z) : f64 :=
  twoDecimals (f64_mul (f64_div (f64_of_Z (u64 (cur - prev))) (f64_of_Z ms)) (f64_of_Z 100)).
Definition await (curTime prevTime curCount prevCount : Z) : f64 :=
  let delta := u64 (curCount - prevCount) in
  if 0 <? delta then twoDecimals (f64_div (f64_of_Z (u64 (curTime - prevTime))) (f64_of_Z delta))
  else f64_zero.

Definition io_stats (d : IOCountersStat) (prev : prevDisk) (ms : Z) : arr6 :=
  [# time_pct (ReadTime d) (readTime prev) ms; time_pct (WriteTime d) (writeTime prev) ms;
     time_pct (IoTime d) (ioTime prev) ms;
     await (ReadTime d) (readTime prev) (ReadCount d) (readCount prev);
     await (WriteTime d) (writeTime prev) (WriteCount d) (writeCount prev);
     time_pct (WeightedIO d) (weightedIO prev) ms].

Definition set_io (now : Z) (d : IOCountersStat) (readMb writeMb : f64) (r w : Z) (io : arr6)
    (s : FsStats.t) : FsStats.t :=
  FsStats.mk now (FsStats.Root s) (FsStats.Mountpoint s) (FsStats.Name s) (FsStats.DiskTotal s)
    (FsStats.DiskUsed s) (ReadBytes d) (WriteBytes d) readMb writeMb (FsStats.MaxDiskReadPS s)
    (FsStats.MaxDiskWritePS s) r w (FsStats.MaxDiskReadBytes s) (FsStats.MaxDiskWriteBytes s)
    io (FsStats.MaxDiskIoStats s).

(** The snapshot an interval starts from when it has none for the device. *)
Definition seed (stats : FsStats.t) (d : IOCountersStat) (now : Z) : prevDisk :=
  if FsStats.Time stats =? 0 then prevDiskFromCounter d now
  else {| readBytes := FsStats.TotalRead stats; writeBytes := FsStats.TotalWrite stats;
          readTime := ReadTime d; writeTime := WriteTime d; ioTime := IoTime d;
          weightedIO := WeightedIO d; readCount := ReadCount d; writeCount := WriteCount d;
          at_ := FsStats.Time stats |}.

Definition set_prev (ct : Z) (k : string) (p : prevDisk) (m : gmap Z (gmap string prevDisk))
    : gmap Z (gmap string prevDisk) :=
  <[ct := <[k := p]> (default ∅ (m !! ct))]> m.

(** The body of the loop of [updateDiskIo]. *)
Definition io_step (now ct : Z) (ioCounters : gmap string IOCountersStat)
    (st : Agent * Stats) (kv : string * IOCountersStat) : Agent * Stats :=
  let '(a, s) := st in
  let '(key, d) := kv in
  match fsStats a !! Name d with
  | None => (a, s)
  | Some stats =>
      let prev :=
        match default ∅ (diskPrev a !! ct) !! key with
        | Some prev => prev
        | None => seed stats d now
        end in
      let msElapsed := u64 (now - at_ prev) in
      let a := {| fsNames := fsNames a; fsStats := fsStats a;
                  diskPrev := set_prev ct key (prevDiskFromCounter d now) (diskPrev a);
                  diskUsageCacheDuration := diskUsageCacheDuration a;
                  lastDiskUsageUpdate := lastDiskUsageUpdate a |} in
      if msElapsed <? 100 then (a, s)
      else
        let r := io_rate (ReadBytes d) (readBytes prev) msElapsed in
        let w := io_rate (WriteBytes d) (writeBytes prev) msElapsed in
        let readMb := BytesToMegabytes (f64_of_Z r) in
        let writeMb := BytesToMegabytes (f64_of_Z w) in
        if f64_lt (f64_of_Z 50000) readMb || f64_lt (f64_of_Z 50000) writeMb then
          (initializeDiskIoStats now ioCounters a, s)
        else
          let io := io_stats d prev msElapsed in
          ({| fsNames := fsNames a;
              fsStats := <[Name d := set_io now d readMb writeMb r w io stats]> (fsStats a);
              diskPrev := diskPrev a;
              diskUsageCacheDuration := diskUsageCacheDuration a;
              lastDiskUsageUpdate := lastDiskUsageUpdate a |},
           if FsStats.Root stats then
             {| s_DiskTotal := s_DiskTotal s; s_DiskUsed := s_DiskUsed s;
                s_DiskPct := s_DiskPct s; s_DiskReadPs := readMb; s_DiskWritePs := writeMb;
                s_DiskIO := (r, w); s_DiskIoStats := io |}
           else s)
  end.

(** [ioCounters] is the reading for the names in [fsNames]. *)
Definition updateDiskIo (ioCounters : option (gmap string IOCountersStat)) (now ct : Z)
    (a : Agent) (s : Stats) : Agent * Stats :=
  match ioCounters with
  | None => (a, s)
  | Some io =>
      let a := {| fsNames := fsNames a; fsStats := fsStats a;
                  diskPrev := match diskPrev a !! ct with
                              | Some _ => diskPrev a
                              | None => <[ct := ∅]> (diskPrev a)
                              end;
                  diskUsageCacheDuration := diskUsageCacheDuration a;
                  lastDiskUsageUpdate := lastDiskUsageUpdate a |} in
      fold_left (io_step now ct io) (range_list io) (a, s)
  end.

(** ** The device chosen *)

Lemma ascii_compare_trans a b c :
  Ascii.compare a b = Lt → Ascii.compare b c = Lt → Ascii.compare a c = Lt.
Proof. unfold Ascii.compare. rewrite !N.compare_lt_iff. lia. Qed.

Lemma string_ltb_trans s t u :
  String.ltb s t = true → String.ltb t u = true → String.ltb s u = true.
Proof.
  unfold String.ltb. revert t u. induction s as [|a s IH]; intros [|b t] [|c u]; try done.
  simpl. destruct (Ascii.compare a b) eqn:E1, (Ascii.compare b c) eqn:E2; try done.
  - apply Ascii.compare_eq_iff in E1, E2. subst. intros H1 H2.
    assert (Ascii.compare c c = Eq) as -> by apply N.compare_refl. by apply (IH t).
  - apply Ascii.compare_eq_iff in E1. subst. by rewrite E2.
  - apply Ascii.compare_eq_iff in E2. subst. by rewrite E1.
  - by rewrite (ascii_compare_trans a b c).
Qed.

Lemma busier_trans x y z : busier x y = true → busier y z = true → busier x z = true.
Proof.
  unfold busier. rewrite !orb_true_iff, !andb_true_iff, !Z.ltb_lt, !Z.eqb_eq.
  intros [[H1|[H1 H1']]|[[H1 H1'] H1'']] [[H2|[H2 H2']]|[[H2 H2'] H2'']]; try (left; lia).
  right. split; [lia|]. by eapply string_ltb_trans.
Qed.

Lemma string_ltb_irrefl s : String.ltb s s = false.
Proof.
  unfold String.ltb. induction s as [|a s IH]; [done|]. simpl.
  by assert (Ascii.compare a a = Eq) as -> by apply N.compare_refl.
Qed.

Lemma busier_irrefl x : busier x x = false.
Proof.
  unfold busier. by rewrite Z.ltb_irrefl, Z.ltb_irrefl, string_ltb_irrefl, !andb_false_r.
Qed.

(** The best candidate is one of them, and none is busier. *)
Lemma pick_spec l b :
  pick l = Some b → In b l ∧ ∀ c, In c l → busier c b = false.
Proof.
  destruct l as [|b0 l]; [done|]. simpl. intros [= <-].
  assert (∀ l b0 (seen : list ioMatchCandidate),
    (∀ c, In c seen → busier c b0 = false) →
    let b := fold_left (λ best c, if busier c best then c else best) l b0 in
    (b = b0 ∨ In b l) ∧ ∀ c, In c seen ∨ c = b0 ∨ In c l → busier c b = false) as Hgen.
  { clear. induction l as [|x l IH]; intros b0 seen Hs; simpl.
    - split; [by left|]. intros c [?|[->|[]]]; [by apply Hs|apply busier_irrefl].
    - destruct (busier x b0) eqn:Hx.
      + destruct (IH x (b0 :: seen)) as [Hb Hc].
        { intros c Hc. destruct (busier c x) eqn:E; [|done]. exfalso.
          pose proof (busier_trans _ _ _ E Hx) as Hcb.
          destruct Hc as [<-|Hc]; [by rewrite busier_irrefl in Hcb|by rewrite Hs in Hcb]. }
        split; [intuition congruence|]. intros c ?. apply Hc. simpl. intuition congruence.
      + destruct (IH b0 (x :: seen)) as [Hb Hc].
        { intros c [<-|Hc]; [done|by apply Hs]. }
        split; [intuition congruence|]. intros c ?. apply Hc. simpl. intuition congruence. }
  destruct (Hgen l b0 []) as [Hb Hc]; [done|]. simpl in *.
  split; [intuition congruence|]. intros c ?. apply Hc. intuition congruence.
Qed.

Lemma scan_devices_spec fs l cands :
  match scan_devices fs l cands with
  | inl n => ∃ k d, In (k, d) l ∧ exact_device fs d = true ∧ n = Name d
  | inr cs => (∀ k d, In (k, d) l → exact_device fs d = false) ∧
      cs = (cands ++ map (λ kd, candidate kd.2) (List.filter (λ kd, related_device fs kd.2) l))%list
  end.
Proof.
  revert cands. induction l as [|[k d] l IH]; intros cands; simpl.
  { split; [done|by rewrite app_nil_r]. }
  destruct (exact_device fs d) eqn:He; [exists k, d; auto|].
  specialize (IH (if related_device fs d then cands ++ [candidate d] else cands)%list).
  destruct (scan_devices _ _ _) as [n|cs].
  - destruct IH as (k'&d'&?&?&?). exists k', d'. auto.
  - destruct IH as [IH ->]. split; [intros k' d' [[= <- <-]|?]; [done|by eapply IH]|].
    destruct (related_device fs d); simpl; [by rewrite <- app_assoc|done].
Qed.

(** A device of the counters. *)
Definition device_in (counters : gmap string IOCountersStat) (d : IOCountersStat) : Prop :=
  ∃ k, counters !! k = Some d.

(** A filesystem is tied to a device that bears its name or label, if there is one; otherwise
    to the device whose name or label extends or shortens its own and that has moved the most
    bytes (then made the most operations, then has the smallest name); to none only if no
    device is related at all.  The order the counters are visited in does not matter but for
    the choice between devices that bear the same name. *)
Theorem findIoDevice_spec fs counters :
  let f := normalizeDeviceName fs in
  match findIoDevice fs counters with
  | Some n => ∃ d, device_in counters d ∧ n = Name d ∧
      (exact_device f d = true ∨
       (related_device f d = true ∧
        ∀ d', device_in counters d' → exact_device f d' = false ∧
          (related_device f d' = true → busier (candidate d') (candidate d) = false)))
  | None => f = ""%string ∨
      ∀ d, device_in counters d → exact_device f d = false ∧ related_device f d = false
  end.
Proof.
  cbv zeta. unfold findIoDevice. set (f := normalizeDeviceName fs).
  destruct (String.eqb_spec f "") as [E|Hne]; [by left|].
  assert (∀ k d, In (k, d) (range_list counters) ↔ counters !! k = Some d) as Hin.
  { intros k d. by rewrite <- list_elem_of_In, elem_of_range_list. }
  pose proof (scan_devices_spec f (range_list counters) []) as Hs.
  destruct (scan_devices _ _ _) as [n|cs].
  { destruct Hs as (k&d&Hd%Hin&He&->). exists d. split; [by exists k|]. auto. }
  destruct Hs as [Hno ->]. simpl. set (cs := map _ _).
  assert (∀ c, In c cs ↔ ∃ d, device_in counters d ∧ related_device f d = true ∧ c = candidate d)
    as Hcs.
  { intros c. unfold cs. rewrite in_map_iff. split.
    - intros ([k d]&<-&[Hd Hr]%filter_In). exists d. split; [exists k; by apply Hin|done].
    - intros (d&[k Hk%Hin]&Hr&->). exists (k, d). split; [done|]. by apply filter_In. }
  assert (∀ d, device_in counters d → exact_device f d = false) as Hex.
  { intros d [k Hk%Hin]. by eapply Hno. }
  destruct (pick cs) as [b|] eqn:Hp; simpl.
  - apply pick_spec in Hp as [Hb Hmax]. apply Hcs in Hb as (d&Hd&Hr&->).
    exists d. split_and!; [done|done|]. right. split; [done|]. intros d' Hd'.
    split; [by apply Hex|]. intros Hr'. apply Hmax, Hcs. eauto.
  - right. intros d Hd. split; [by apply Hex|]. destruct (related_device f d) eqn:Hr; [|done].
    exfalso. assert (In (candidate d) cs) as Hc by (apply Hcs; eauto).
    destruct cs; [done|discriminate Hp].
Qed.

(** ** The root filesystem *)

Definition is_root (fs : fs_map) (k : string) : Prop :=
  ∃ s, fs !! k = Some s ∧ FsStats.Root s = true.

(** The root filesystems of [fs'] are those of [fs]. *)
Definition same_roots (fs fs' : fs_map) : Prop := ∀ k, is_root fs' k ↔ is_root fs k.

#[local] Instance same_roots_refl : Reflexive same_roots.
Proof. by intros fs k. Qed.
#[local] Instance same_roots_trans : Transitive same_roots.
Proof. intros a b c H1 H2 k. etrans; [apply H2|apply H1]. Qed.

Definition subkeys (fs fs' : fs_map) : Prop := ∀ k s, fs !! k = Some s → fs' !! k = Some s.

Lemma fold_left_rel {A B} (R : A → A → Prop) (f : A → B → A) l a :
  Reflexive R → Transitive R → (∀ a b, R a (f a b)) → R a (fold_left f l a).
Proof.
  intros ?? Hf. revert a. induction l as [|b l IH]; intros a; simpl; [done|].
  transitivity (f a b); auto.
Qed.

(** Registering an extra filesystem only adds an entry that is not a root. *)
Definition grows (fs fs' : fs_map) : Prop := same_roots fs fs' ∧ subkeys fs fs'.
#[local] Instance grows_refl : Reflexive grows.
Proof. intros fs. split; [reflexivity|by intros k s]. Qed.
#[local] Instance grows_trans : Transitive grows.
Proof. intros a b c [H1 H1'] [H2 H2']. split; [by transitivity b|]. intros k s ?. by apply H2', H1'. Qed.

Lemma addFsStat_extra d fs device mountpoint customName :
  grows fs (addFsStat d fs device mountpoint false customName).
Proof.
  unfold addFsStat, registerFilesystemStats.
  destruct (fs !! _) as [s|] eqn:Hk; [done|]. split.
  - intros k. unfold is_root. split.
    + intros (s&Hs&Hr). rewrite lookup_insert_Some in Hs. destruct Hs as [[_ <-]|[_ ?]]; [done|eauto].
    + intros (s&Hs&Hr). exists s. split; [|done]. rewrite lookup_insert_ne by congruence. done.
  - intros k s Hs. rewrite lookup_insert_ne by congruence. done.
Qed.

Lemma addConfiguredExtraFsEntry_grows d fs entry customName :
  grows fs (addConfiguredExtraFsEntry d fs entry customName).
Proof.
  unfold addConfiguredExtraFsEntry. repeat case_match; try done; apply addFsStat_extra.
Qed.

Lemma addConfiguredExtraFilesystems_grows d fs e : grows fs (addConfiguredExtraFilesystems d fs e).
Proof.
  unfold addConfiguredExtraFilesystems. apply fold_left_rel; [apply _..|]. intros fs' x.
  destruct (parseFilesystemEntry x). apply addConfiguredExtraFsEntry_grows.
Qed.

Lemma addPartitionExtraFs_grows d fs p : grows fs (addPartitionExtraFs d fs p).
Proof.
  unfold addPartitionExtraFs. destruct (negb _); [done|].
  destruct (extraFilesystemPartitionInfo p). apply addFsStat_extra.
Qed.

Lemma addExtraFilesystemFolders_grows d fs l : grows fs (addExtraFilesystemFolders d fs l).
Proof.
  unfold addExtraFilesystemFolders. apply fold_left_rel; [apply _..|]. intros fs' x.
  case_decide; [done|]. destruct (parseFilesystemEntry x). apply addFsStat_extra.
Qed.

(** A partition that passes for the root and whose device another entry holds. *)
Definition root_taken (d : diskDiscovery) (fs : fs_map) : Prop :=
  ∃ p dev s, In p (partitions d) ∧ isRootFallbackPartition p (rootMountPoint d) = true ∧
    findIoDevice (Base (Device p)) (diskIoCounters (ctx d)) = Some dev ∧
    fs !! resolve_key dev (Mountpoint p) true (ctx d) = Some s ∧ FsStats.Root s = false.

(** How far the search for the root has come. *)
Definition root_state (d : diskDiscovery) (st : fs_map * bool) : Prop :=
  let '(fs, hasRoot) := st in
  if hasRoot then (∃ k, ∀ k', is_root fs k' ↔ k' = k) ∨ ((∀ k, ¬ is_root fs k) ∧ root_taken d fs)
  else ∀ k, ¬ is_root fs k.

Lemma root_state_grows d fs fs' b : grows fs fs' → root_state d (fs, b) → root_state d (fs', b).
Proof.
  intros [Hr Hs]. unfold same_roots in Hr. simpl. destruct b.
  - intros [[k Hk]|[Hno (p&dev&s&?&?&?&?&?)]]; [left; exists k; intros k'; by rewrite Hr, Hk|].
    right. split; [intros k; by rewrite Hr|]. exists p, dev, s. auto 6.
  - intros Hno k. by rewrite Hr.
Qed.

Lemma insert_root fs k mountpoint :
  (∀ k, ¬ is_root fs k) → ∀ k', is_root (<[k := root_entry mountpoint]> fs) k' ↔ k' = k.
Proof.
  intros Hno k'. split.
  - intros (s&Hs&Hr). rewrite lookup_insert_Some in Hs. destruct Hs as [[<- _]|[_ ?]]; [done|].
    exfalso. apply (Hno k'). by exists s.
  - intros ->. exists (root_entry mountpoint). by rewrite lookup_insert_eq.
Qed.

Lemma scan_partition_root d st p :
  In p (partitions d) → root_state d st → root_state d (scan_partition d st p).
Proof.
  destruct st as [fs hasRoot]. intros Hp Hst. unfold scan_partition.
  destruct (negb hasRoot && isRootFallbackPartition p (rootMountPoint d)) eqn:Hf.
  - apply andb_true_iff in Hf as [->%negb_true_iff Hf]. simpl in Hst.
    unfold addPartitionRootFs.
    destruct (findIoDevice (Base (Device p)) (diskIoCounters (ctx d))) as [dev|] eqn:Hd;
      eapply root_state_grows; [apply addPartitionExtraFs_grows| |apply addPartitionExtraFs_grows|done].
    unfold addFsStat, registerFilesystemStats.
    destruct (fs !! resolve_key dev (Mountpoint p) true (ctx d)) as [s|] eqn:Hk.
    + right. split; [done|]. exists p, dev, s. split_and!; try done.
      destruct (FsStats.Root s) eqn:Hr; [|done]. exfalso. eapply Hst. by exists s.
    + left. eexists. by apply insert_root.
  - eapply root_state_grows; [apply addPartitionExtraFs_grows|done].
Qed.

Lemma addConfiguredRootFs_root d fs :
  (∀ k, fs !! k = None) → root_state d (addConfiguredRootFs d fs).
Proof.
  intros He. assert (∀ k, ¬ is_root fs k) as Hno by (intros k (s&Hs&_); congruence).
  unfold addConfiguredRootFs. destruct (String.eqb _ ""); [done|].
  destruct (List.find _ _) as [p|].
  - left. unfold addFsStat, registerFilesystemStats. rewrite He. eexists. by apply insert_root.
  - destruct (findIoDevice _ _) as [k|]; [|done]. left. exists k. by apply insert_root.
Qed.

Lemma discover_root m :
  let fs := (discover m ∅).1 in
  (∃ k, ∀ k', is_root fs k' ↔ k' = k) ∨
  ((∀ k, ¬ is_root fs k) ∧ root_taken (discovery_of m) fs).
Proof.
  cbv zeta. unfold discover. set (d := discovery_of m).
  pose proof (addConfiguredRootFs_root d ∅ ltac:(intros; apply lookup_empty)) as H1.
  destruct (addConfiguredRootFs d ∅) as [fs1 b1].
  set (fs2 := match m_extra m with Some extra => _ | None => fs1 end).
  assert (root_state d (fs2, b1)) as H2.
  { eapply root_state_grows; [|exact H1]. unfold fs2.
    destruct (m_extra m); [apply addConfiguredExtraFilesystems_grows|done]. }
  assert (root_state d (fold_left (scan_partition d) (partitions d) (fs2, b1))) as H3.
  { apply fold_left_inv; [done|]. intros st p Hp. apply scan_partition_root.
    by apply list_elem_of_In. }
  destruct (fold_left _ _ _) as [fs3 b3].
  set (fs4 := match m_folders m with Some _ => _ | None => fs3 end).
  assert (root_state d (fs4, b3)) as H4.
  { eapply root_state_grows; [|exact H3]. unfold fs4.
    destruct (m_folders m); [apply addExtraFilesystemFolders_grows|done]. }
  destruct b3; [exact H4|]. left. unfold addLastResortRootFs. eexists. by apply insert_root.
Qed.

(** Dropping duplicates keeps the roots, and everything when there is none. *)
Lemma prune_lookup Usage (fs : fs_map) rootUsage (l : list (string * FsStats.t)) :
  (∀ k s, In (k, s) l → fs !! k = Some s) →
  ∀ k s, fold_left (prune_step Usage rootUsage) l fs !! k = Some s ↔
         fs !! k = Some s ∧ ¬ (In (k, s) l ∧ duplicate Usage rootUsage s = true).
Proof.
  intros Hl k s.
  assert (∀ (l : list (string * FsStats.t)) (fs0 : fs_map),
    (∀ k s, In (k, s) l → fs !! k = Some s) → (∀ k s, fs0 !! k = Some s → fs !! k = Some s) →
    fold_left (prune_step Usage rootUsage) l fs0 !! k = Some s ↔
    fs0 !! k = Some s ∧ ¬ (In (k, s) l ∧ duplicate Usage rootUsage s = true)) as Hgen.
  { clear l Hl. induction l as [|[n st] l IH]; intros fs0 Hl H0; simpl; [naive_solver|].
    unfold prune_step at 2. simpl. destruct (duplicate Usage rootUsage st) eqn:Hd.
    - rewrite IH; [|intros; apply Hl; by right|intros k' s' ?%lookup_delete_Some; apply H0; tauto].
      rewrite lookup_delete_Some. split.
      + intros [[Hne ?] Hn]. split; [done|]. intros [[[= -> ->]|?] ?]; tauto.
      + intros [H1 H2]. split; [split; [|done]|tauto]. intros ->. apply H2.
        assert (fs !! k = Some st) as E by (apply Hl; by left).
        assert (s = st) as -> by (apply H0 in H1; congruence). tauto.
    - rewrite IH; [|intros; apply Hl; by right|done]. split.
      + intros [? Hn]. split; [done|]. intros [[[= -> ->]|?] ?]; [congruence|tauto].
      + intros [? Hn]. split; [done|]. tauto. }
  by apply Hgen.
Qed.

Lemma prune_roots Usage fs :
  same_roots fs (pruneDuplicateRootExtraFilesystems Usage fs) ∧
  ((∀ k, ¬ is_root fs k) → pruneDuplicateRootExtraFilesystems Usage fs = fs).
Proof.
  unfold pruneDuplicateRootExtraFilesystems.
  destruct (List.find _ _) as [[k0 s0]|] eqn:Hf; [|done].
  apply find_some in Hf as [Hin Hr0]. simpl in Hr0.
  apply list_elem_of_In, elem_of_range_list in Hin.
  destruct (String.eqb _ ""); [done|]. destruct (Usage _) as [u|]; [|done]. split.
  - intros k. unfold is_root. setoid_rewrite prune_lookup;
      [|intros ? ? ?%list_elem_of_In%elem_of_range_list; done].
    split; [naive_solver|]. intros (s&Hs&Hr). exists s. split; [split; [done|]|done].
    intros [_ Hd]. unfold duplicate in Hd. by rewrite Hr in Hd.
  - intros Hno. exfalso. eapply Hno. by exists s0.
Qed.

Definition baselined (now : Z) (counters : gmap string IOCountersStat) (k : string)
    (s : FsStats.t) : FsStats.t :=
  match counters !! k with Some d => set_baseline now d s | None => s end.

Lemma initializeDiskIoStats_lookup now counters a k :
  fsStats (initializeDiskIoStats now counters a) !! k =
  baselined now counters k <$> (fsStats a !! k).
Proof.
  unfold initializeDiskIoStats.
  assert (∀ (l : list (string * FsStats.t)) (fs : fs_map) names, NoDup l.*1 →
    (fold_left (λ '(fs, names) '(device, stats),
         match counters !! device with
         | None => (fs, names)
         | Some d => (<[device := set_baseline now d stats]> fs, names ++ [device])%list
         end) l (fs, names)).1 !! k =
    match list_to_map (M := gmap string FsStats.t) l !! k with
    | Some s => match counters !! k with
                | Some d => Some (set_baseline now d s) | None => fs !! k end
    | None => fs !! k
    end) as Hgen.
  { induction l as [|[n s] l IH]; intros fs names Hnd; simpl in *; [by rewrite lookup_empty|].
    apply NoDup_cons in Hnd as [Hn Hnd].
    destruct (decide (k = n)) as [->|Hne].
    - rewrite lookup_insert_eq.
      destruct (counters !! n) as [d|] eqn:Hc; rewrite IH by done;
        rewrite (not_elem_of_list_to_map_1 l n) by done; [by rewrite lookup_insert_eq|done].
    - rewrite lookup_insert_ne by done.
      destruct (counters !! n) as [d|]; rewrite IH by done; [|done].
      by rewrite lookup_insert_ne. }
  specialize (Hgen (range_list (fsStats a)) (fsStats a) [] (NoDup_fst_range_list _)).
  destruct (fold_left _ _ _) as [fs names]. simpl in *. rewrite Hgen.
  replace (list_to_map (range_list (fsStats a))) with (fsStats a).
  - unfold baselined. destruct (fsStats a !! k) as [s|] eqn:E; simpl; [|done].
    by destruct (counters !! k).
  - symmetry. etrans; [|apply list_to_map_to_list].
    apply list_to_map_proper; [apply NoDup_fst_range_list|apply range_list_perm].
Qed.

Lemma initializeDiskIoStats_roots now counters a :
  same_roots (fsStats a) (fsStats (initializeDiskIoStats now counters a)).
Proof.
  intros k. unfold is_root. rewrite initializeDiskIoStats_lookup. split.
  - intros (s&Hs&Hr). destruct (fsStats a !! k) as [s0|]; simplify_eq/=. exists s0. split; [done|].
    unfold baselined in Hr. by destruct (counters !! k).
  - intros (s&Hs&Hr). rewrite Hs. eexists. split; [done|].
    unfold baselined. by destruct (counters !! k).
Qed.

(** C15: a starting agent tracks exactly one root filesystem, except in one case: a partition
    passed for the root, but the key its device resolves to was already held by an extra
    filesystem; then there is none. *)
Theorem one_root_filesystem m now a :
  fsStats a = ∅ →
  let fs := fsStats (initializeDiskInfo m now a) in
  (∃ k, ∀ k', is_root fs k' ↔ k' = k) ∨
  ((∀ k, ¬ is_root fs k) ∧ root_taken (discovery_of m) fs).
Proof.
  intros Ha. cbv zeta. unfold initializeDiskInfo. rewrite Ha.
  pose proof (discover_root m) as Hd. cbv zeta in Hd.
  set (fs1 := (discover m ∅).1) in *.
  destruct (prune_roots (m_usage m) fs1) as [Hp Hp0].
  set (a1 := {| fsNames := fsNames a; fsStats := pruneDuplicateRootExtraFilesystems (m_usage m) fs1;
    diskPrev := diskPrev a; diskUsageCacheDuration := diskUsageCacheDuration a;
    lastDiskUsageUpdate := lastDiskUsageUpdate a |}).
  pose proof (initializeDiskIoStats_roots now (m_counters m) a1) as Hi.
  assert (∀ k, is_root (fsStats (initializeDiskIoStats now (m_counters m) a1)) k ↔ is_root fs1 k)
    as Hr by (intros k; etrans; [apply Hi|apply Hp]).
  destruct Hd as [[k Hk]|[Hno (p&dev&s&?&?&?&Hs&Hroot)]].
  - left. exists k. intros k'. by rewrite Hr, Hk.
  - right. split; [intros k; by rewrite Hr|]. exists p, dev.
    eexists. split_and!; [done..| |].
    + rewrite initializeDiskIoStats_lookup. subst a1. cbn [fsStats]. rewrite (Hp0 Hno), Hs. done.
    + unfold baselined. by destruct (m_counters m !! _).
Qed.

(** ** Rates *)

(** What the loop over the counters leaves of the device under [k]: other devices may
    reset its baseline, but not its rates. *)
Definition same_rates (s s' : FsStats.t) : Prop :=
  FsStats.DiskReadBytes s' = FsStats.DiskReadBytes s ∧
  FsStats.DiskWriteBytes s' = FsStats.DiskWriteBytes s ∧
  FsStats.DiskReadPs s' = FsStats.DiskReadPs s ∧ FsStats.DiskWritePs s' = FsStats.DiskWritePs s ∧
  FsStats.DiskIoStats s' = FsStats.DiskIoStats s ∧ FsStats.Root s' = FsStats.Root s.

Lemma same_rates_baselined now counters k s : same_rates s (baselined now counters k s).
Proof. unfold baselined. by destruct (counters !! k). Qed.

Definition keeps (ct : Z) (k : string) (a a' : Agent) : Prop :=
  default ∅ (diskPrev a' !! ct) !! k = default ∅ (diskPrev a !! ct) !! k ∧
  match fsStats a !! k with
  | Some s => ∃ s', fsStats a' !! k = Some s' ∧ same_rates s s'
  | None => fsStats a' !! k = None
  end.

Lemma keeps_refl ct k a : keeps ct k a a.
Proof. split; [done|]. destruct (fsStats a !! k); [|done]. eexists. done. Qed.

Lemma keeps_trans ct k a b c : keeps ct k a b → keeps ct k b c → keeps ct k a c.
Proof.
  intros [H1 H2] [H3 H4]. split; [congruence|].
  destruct (fsStats a !! k) as [s|]; [|by rewrite H2 in H4].
  destruct H2 as (s'&E&H2). rewrite E in H4. destruct H4 as (s''&E'&H4). exists s''.
  split; [done|]. unfold same_rates in *. intuition congruence.
Qed.

Lemma io_step_other now ct io a s k n d :
  n ≠ k → Name d = n → keeps ct k a (io_step now ct io (a, s) (n, d)).1.
Proof.
  intros Hne Hd. unfold io_step. rewrite Hd.
  destruct (fsStats a !! n) as [st|] eqn:Hst; [|apply keeps_refl].
  assert (default ∅ (set_prev ct n (prevDiskFromCounter d now) (diskPrev a) !! ct) !! k =
          default ∅ (diskPrev a !! ct) !! k) as Hp.
  { unfold set_prev. rewrite lookup_insert_eq. simpl. by rewrite lookup_insert_ne. }
  destruct (_ <? 100).
  { split; [exact Hp|]. exact (proj2 (keeps_refl ct k a)). }
  destruct (_ || _).
  - split.
    + unfold initializeDiskIoStats. destruct (fold_left _ _ _). exact Hp.
    + cbn [fst]. rewrite initializeDiskIoStats_lookup. cbn [fsStats].
      destruct (fsStats a !! k) as [s'|]; [|done]. eexists. split; [done|].
      apply same_rates_baselined.
  - split; [exact Hp|]. cbn [fst fsStats]. rewrite lookup_insert_ne by done.
    exact (proj2 (keeps_refl ct k a)).
Qed.

Lemma io_fold_other now ct io k l a s :
  (∀ n d, In (n, d) l → Name d = n ∧ n ≠ k) →
  keeps ct k a (fold_left (io_step now ct io) l (a, s)).1.
Proof.
  revert a s. induction l as [|[n d] l IH]; intros a s Hl; [apply keeps_refl|].
  cbn [fold_left].
  destruct (Hl n d) as [Hn Hk]; [by left|].
  pose proof (io_step_other now ct io a s k n d Hk Hn) as H1.
  destruct (io_step now ct io (a, s) (n, d)) as [a1 s1]. eapply keeps_trans; [exact H1|].
  apply IH. intros ???. apply Hl. by right.
Qed.

(** A reading in which every device appears under its own name. *)
Definition named (io : gmap string IOCountersStat) : Prop := ∀ k d, io !! k = Some d → Name d = k.

(** Between two readings of a device at least 100 ms apart, whose counters did not go down and
    gave at most 50,000 MB/s, the bytes read and written per second are exact (rounded down),
    whatever the other devices did and whatever order they were visited in; the second reading
    is the interval's next snapshot. *)
Theorem disk_rates_exact io now ct a s k d st prev :
  named io → io !! k = Some d → fsStats a !! k = Some st →
  default ∅ (diskPrev a !! ct) !! k = Some prev →
  let ms := now - at_ prev in
  100 ≤ ms < 2 ^ 64 →
  0 ≤ readBytes prev ≤ ReadBytes d → ReadBytes d < 2 ^ 54 →
  0 ≤ writeBytes prev ≤ WriteBytes d → WriteBytes d < 2 ^ 54 →
  let r := (ReadBytes d - readBytes prev) * 1000 / ms in
  let w := (WriteBytes d - writeBytes prev) * 1000 / ms in
  f64_lt (f64_of_Z 50000) (BytesToMegabytes (f64_of_Z r)) = false →
  f64_lt (f64_of_Z 50000) (BytesToMegabytes (f64_of_Z w)) = false →
  let a' := (updateDiskIo (Some io) now ct a s).1 in
  default ∅ (diskPrev a' !! ct) !! k = Some (prevDiskFromCounter d now) ∧
  ∃ st', fsStats a' !! k = Some st' ∧ FsStats.DiskReadBytes st' = r ∧
    FsStats.DiskWriteBytes st' = w ∧ FsStats.DiskReadPs st' = BytesToMegabytes (f64_of_Z r) ∧
    FsStats.DiskWritePs st' = BytesToMegabytes (f64_of_Z w) ∧ FsStats.Root st' = FsStats.Root st.
Proof.
  intros Hn Hd Hst Hp ms Hms Hr Hr' Hw Hw' r w Hmr Hmw. cbv zeta. unfold updateDiskIo.
  set (a0 := {| fsNames := fsNames a; fsStats := fsStats a; diskPrev := _;
    diskUsageCacheDuration := _; lastDiskUsageUpdate := _ |}).
  assert (default ∅ (diskPrev a0 !! ct) !! k = Some prev) as Hp0.
  { unfold a0. cbn [diskPrev]. destruct (diskPrev a !! ct) eqn:E; [by rewrite E|].
    by simpl in Hp; rewrite lookup_empty in Hp. }
  assert (fsStats a0 !! k = Some st) as Hst0 by exact Hst.
  clearbody a0. clear Hst Hp a.
  assert (In (k, d) (range_list io)) as Hin by (by apply list_elem_of_In, elem_of_range_list).
  apply in_split in Hin as (l1&l2&El).
  assert (NoDup (l1 ++ (k, d) :: l2)%list.*1) as Hnd by (rewrite <- El; apply NoDup_fst_range_list).
  rewrite fmap_app in Hnd. simpl in Hnd. apply NoDup_app in Hnd as (_&Hd1&Hnd2).
  apply NoDup_cons in Hnd2 as [Hd2 _].
  assert (∀ n d', In (n, d') l1 ∨ In (n, d') l2 → Name d' = n ∧ n ≠ k) as Hoth.
  { intros n d' Hl. split.
    - apply Hn. apply elem_of_range_list. rewrite El. apply list_elem_of_In, in_app_iff. simpl.
      destruct Hl; auto.
    - intros ->. destruct Hl as [Hl|Hl]; apply list_elem_of_In in Hl.
      + apply (Hd1 k); [by apply (list_elem_of_fmap_2 fst) in Hl|by left].
      + apply Hd2. by apply (list_elem_of_fmap_2 fst) in Hl. }
  rewrite El, fold_left_app. cbn [fold_left].
  pose proof (io_fold_other now ct io k l1 a0 s (λ n d' H, Hoth n d' (or_introl H))) as [K1 K2].
  destruct (fold_left _ l1 _) as [a1 s1]. cbn [fst] in K1, K2.
  rewrite Hst0 in K2. destruct K2 as (st1&E1&_&_&_&_&_&Hroot). rewrite Hp0 in K1.
  destruct (io_step now ct io (a1, s1) (k, d)) as [a2 s2] eqn:Ea2.
  pose proof (io_fold_other now ct io k l2 a2 s2 (λ n d' H, Hoth n d' (or_intror H))) as [K3 K4].
  destruct (fold_left _ l2 _) as [a3 s3]. cbn [fst] in *.
  unfold io_step in Ea2. rewrite (Hn k d Hd), E1, K1 in Ea2.
  rewrite (wrap_small 64 (now - at_ prev)) in Ea2 by (unfold in_range; lia).
  rewrite (proj2 (Z.ltb_ge _ _)) in Ea2 by lia.
  unfold io_rate in Ea2. rewrite !(wrap_small 64 (_ - _)) in Ea2 by (unfold in_range; lia).
  rewrite !(wrap_small 64 (_ * _)) in Ea2 by (unfold in_range; lia).
  fold ms in Ea2. fold r in Ea2. fold w in Ea2. rewrite Hmr, Hmw in Ea2.
  cbn [orb] in Ea2. injection Ea2 as <- <-. cbn [diskPrev fsStats] in K3, K4.
  unfold set_prev in K3. rewrite lookup_insert_eq in K3. cbn [from_option id] in K3.
  rewrite lookup_insert_eq in K3. rewrite lookup_insert_eq in K4.
  destruct K4 as (st'&->&H1&H2&H3&H4&_&H6). cbn in H1, H2, H3, H4, H6.
  split; [exact K3|]. exists st'. split_and!; congruence.
Qed.
End discovery.

(** ** Evaluated examples *)

Definition ex_io (n : string) (r w : Z) : IOCountersStat := {|
  Name := n; Label := ""; ReadBytes := r; WriteBytes := w; ReadCount := r; WriteCount := w;
  ReadTime := 0; WriteTime := 0; IoTime := 0; WeightedIO := 0 |}.
Definition ex_part (d m : string) : PartitionStat := {| Device := d; Mountpoint := m |}.

Example findIoDevice_ex :
  map (λ f, findIoDevice f {["sda" := ex_io "sda" 10 10; "sdb" := ex_io "sdb" 5 5]})
    ["/dev/sda1"; "sdb"; "sd"; "nvme0n1"]%string = [Some "sda"; Some "sdb"; Some "sda"; None]%string.
Proof. reflexivity. Qed.

Definition ex_usage (p : string) : option UsageStat :=
  if String.eqb p "/" then Some {| Total := 2 ^ 40; Used := 2 ^ 39; UsedPercent := f64_of_Z 50 |}
  else if String.eqb p "/mnt/data"
  then Some {| Total := 2 ^ 41; Used := 2 ^ 38; UsedPercent := f64_of_Z 12 |}
  else None.

Definition ex_machine (extra : option string) : machine := {|
  m_windows := false; m_filesystem := None; m_extra := extra;
  m_partitions := [ex_part "/dev/sda1" "/"; ex_part "/dev/sdb1" "/mnt/data"];
  m_counters := {["sda1" := ex_io "sda1" 10 10; "sdb1" := ex_io "sdb1" 5 5]};
  m_usage := ex_usage; m_folders := None; m_rootMountPoint := "/" |}.

Definition ex_new : Agent := {|
  fsNames := []; fsStats := ∅; diskPrev := ∅; diskUsageCacheDuration := 0;
  lastDiskUsageUpdate := 0 |}.

Lemma one_root_filesystem_witness :
  let fs := fsStats (initializeDiskInfo (ex_machine (Some "/mnt/data")) 5 ex_new) in
  ((∃ k, ∀ k', is_root fs k' ↔ k' = k) ∨
   ((∀ k, ¬ is_root fs k) ∧ root_taken (discovery_of (ex_machine (Some "/mnt/data"))) fs)) ∧
  FsStats.Root <$> fs !! "sda1"%string = Some true ∧
  FsStats.Root <$> fs !! "sdb1"%string = Some false.
Proof.
  split_and!; [|vm_compute; reflexivity..].
  apply (one_root_filesystem (ex_machine (Some "/mnt/data"%string)) 5 ex_new). reflexivity.
Defined.

(** An extra filesystem that names the root's device leaves the agent without a root: its
    usage is never reported as the system's. *)
Example root_lost :
  let fs := fsStats (initializeDiskInfo (ex_machine (Some "sda1")) 5 ex_new) in
  map (λ kv, (kv.1, FsStats.Mountpoint kv.2, FsStats.Root kv.2)) (map_to_list fs)
  = [("sda1", "/", false)]%string.
Proof. vm_compute. reflexivity. Qed.

Definition ex_polled : Agent :=
  (updateDiskIo (Some {["sda1" := ex_io "sda1" 1000 2000]}) 10000 60000
     (initializeDiskInfo (ex_machine None) 5 ex_new)
     {| s_DiskTotal := f64_zero; s_DiskUsed := f64_zero; s_DiskPct := f64_zero;
        s_DiskReadPs := f64_zero; s_DiskWritePs := f64_zero; s_DiskIO := (0, 0);
        s_DiskIoStats := zero6 |}).1.

Definition ex_second : gmap string IOCountersStat :=
  {["sda1" := ex_io "sda1" 61000 2500]}.
Definition ex_s : Stats := {|
  s_DiskTotal := f64_zero; s_DiskUsed := f64_zero; s_DiskPct := f64_zero;
  s_DiskReadPs := f64_zero; s_DiskWritePs := f64_zero; s_DiskIO := (0, 0);
  s_DiskIoStats := zero6 |}.

Lemma disk_rates_exact_witness :
  ∃ st', fsStats (updateDiskIo (Some ex_second) 70000 60000 ex_polled ex_s).1 !! "sda1"%string
         = Some st' ∧ FsStats.DiskReadBytes st' = 1000 ∧ FsStats.DiskWriteBytes st' = 8.
Proof.
  destruct (fsStats ex_polled !! "sda1"%string) as [st|] eqn:Est;
    [|exfalso; vm_compute in Est; discriminate Est].
  destruct (disk_rates_exact ex_second 70000 60000 ex_polled ex_s "sda1"
    (ex_io "sda1" 61000 2500) st (prevDiskFromCounter (ex_io "sda1" 1000 2000) 10000))
    as (_&st'&H1&H2&H3&_).
  - intros k d. unfold ex_second. rewrite lookup_singleton_Some. intros [<- <-]. reflexivity.
  - reflexivity.
  - exact Est.
  - vm_compute. reflexivity.
  - simpl. lia.
  - simpl. lia.
  - simpl. lia.
  - simpl. lia.
  - simpl. lia.
  - vm_compute. reflexivity.
  - vm_compute. reflexivity.
  - exists st'. split; [exact H1|]. split; [rewrite H2|rewrite H3]; reflexivity.
Defined.
End AgentDisk.
