(* ===== verification/AgentSensors.v ===== *)
(** * Temperatures of the agent ([agent/sensors.go])

    Which sensors are reported, the repair of odd readings, and the temperature of
    the dashboard.  Reading the sensors is third-party code that may time out or
    panic; its outcome is an argument.  The list of sensors is written and matched
    as that of network interfaces, so the model shares [AgentNetwork]'s
    definitions for the part of the code that is the same.  macOS, where names
    that are not UTF-8 are skipped, is left out. *)

From S2P Require Import Prelude GoFloat GoStrings GoText GoFmt AgentNetwork.

Module AgentSensors.
Import AgentNetwork.
Local Open Scope Z_scope.

Record SensorConfig := {
  sensors : NicConfig;              (* [sensors], [isBlacklist] and [hasWildcards] *)
  primarySensor : string;
  timeout : Z;
  skipCollection : bool;
  firstRun : bool;
}.

Section sensors.
Context {RO : RangeOrder string}.

(** [ParseDuration] is [time.ParseDuration]. *)
Definition newSensorConfigWithEnv (ParseDuration : string → option Z)
    (primarySensor sensorsEnvVal sensorsTimeout : string) (skipCollection : bool)
    : SensorConfig := {|
  sensors := newNicConfig sensorsEnvVal;
  primarySensor := primarySensor;
  timeout := if String.eqb sensorsTimeout "" then 2 * Second
             else default (2 * Second) (ParseDuration sensorsTimeout);
  skipCollection := skipCollection;
  firstRun := true |}.

Definition newSensorConfig (ParseDuration : string → option Z) (GetEnv : string → option string)
    : SensorConfig :=
  newSensorConfigWithEnv ParseDuration (default "" (GetEnv "PRIMARY_SENSOR"))
    (default "" (GetEnv "SENSORS")) (default "" (GetEnv "SENSORS_TIMEOUT"))
    (match GetEnv "SENSORS" with Some v => String.eqb v "" | None => false end).

Definition isValidSensor (sensorName : string) (config : SensorConfig) : bool :=
  if (size (nics (sensors config)) =? 0)%nat then true
  else isValidNic sensorName (sensors config).

Definition scaleTemperature (temp : f64) : f64 :=
  if f64_lt (f64_of_Z 1) temp then temp
  else
    let scaled100 := f64_mul temp (f64_of_Z 100) in
    let scaled1000 := f64_mul temp (f64_of_Z 1000) in
    if f64_le (f64_of_Z 15) scaled100 && f64_le scaled100 (f64_of_Z 95) then scaled100
    else if f64_le (f64_of_Z 15) scaled1000 && f64_le scaled1000 (f64_of_Z 95) then scaled1000
    else scaled100.

Record TemperatureStat := { SensorKey : string; Temperature : f64 }.

(** A reading after the repair of fractions. *)
Definition repaired (t : f64) : f64 :=
  if negb (f64_eq t f64_zero) && f64_lt t (f64_of_Z 1) then scaleTemperature t else t.

(** The body of the loop, over the temperatures and the dashboard's. *)
Definition temp_step (cfg : SensorConfig) (st : gmap string f64 * f64) (e : nat * TemperatureStat)
    : gmap string f64 * f64 :=
  let '(temps, dash) := st in
  let '(i, sensor) := e in
  let t := repaired (Temperature sensor) in
  if f64_le t f64_zero || f64_le (f64_of_Z 200) t then st
  else
    let sensorName :=
      match temps !! SensorKey sensor with
      | Some _ => (SensorKey sensor ++ "_" ++ print_Z (Z.of_nat i))%string
      | None => SensorKey sensor
      end in
    if negb (isValidSensor sensorName cfg) then st
    else
      (<[sensorName := twoDecimals t]> temps,
       if String.eqb (primarySensor cfg) "" then f64_max dash t
       else if String.eqb (primarySensor cfg) sensorName then t else dash).

(** What an attempt to read the sensors gives. *)
Inductive attempt := Temps (l : list TemperatureStat) | TimedOut | Panicked.

(** [getTempsWithTimeout]: only the first attempt ever has ten seconds. *)
Definition attempt_timeout (cfg : SensorConfig) : Z :=
  if firstRun cfg then 10 * Second else timeout cfg.

Definition ran (cfg : SensorConfig) : SensorConfig := {|
  sensors := sensors cfg; primarySensor := primarySensor cfg; timeout := timeout cfg;
  skipCollection := skipCollection cfg; firstRun := false |}.

(** A panic is retried once; [None] when no reading came. *)
Definition read_sensors (first second : attempt) : option (list TemperatureStat) :=
  match first with
  | Temps l => Some l
  | TimedOut => None
  | Panicked => match second with Temps l => Some l | _ => None end
  end.

(** The configuration, the dashboard's temperature and the temperatures afterwards. *)
Definition updateTemperatures (cfg : SensorConfig) (first second : attempt) (dash : f64)
    (temps : option (gmap string f64)) : SensorConfig * f64 * option (gmap string f64) :=
  if skipCollection cfg then (cfg, dash, temps)
  else
    match read_sensors first second with
    | None => (ran cfg, f64_zero, if decide (default ∅ temps = ∅) then temps else Some ∅)
    | Some [] => (ran cfg, f64_zero, temps)
    | Some l =>
        let '(m, d) := fold_left (temp_step cfg) (imap pair l) (∅, f64_zero) in
        (ran cfg, d, Some m)
    end.

(** A temperature that is reported as [t] was read, repaired, as [r]. *)
Definition reasonable (cfg : SensorConfig) (dash : f64) (name : string) (t : f64) : Prop :=
  ∃ r, t = twoDecimals r ∧ f64_lt f64_zero r = true ∧ f64_lt r (f64_of_Z 200) = true ∧
    isValidSensor name cfg = true ∧
    (primarySensor cfg = ""%string → f64_le r dash = true) ∧
    (primarySensor cfg = name → name ≠ ""%string → dash = r).

Definition temps_ok (cfg : SensorConfig) (st : gmap string f64 * f64) : Prop :=
  map_Forall (reasonable cfg st.2) st.1 ∧ f64_le f64_zero st.2 = true ∧
  f64_lt st.2 (f64_of_Z 200) = true.

Lemma temp_step_ok cfg st e :
  is_nan (repaired (Temperature e.2)) = false → temps_ok cfg st → temps_ok cfg (temp_step cfg st e).
Proof.
  destruct st as [m d], e as [i s]. unfold temp_step. cbn [fst snd]. intros Hn (Hm&Hd0&Hd1).
  set (r := repaired (Temperature s)) in *.
  destruct (f64_le r f64_zero) eqn:H0; [done|]. destruct (f64_le (f64_of_Z 200) r) eqn:H2; [done|].
  simpl. set (name := match m !! SensorKey s with Some _ => _ | None => _ end). clearbody name.
  destruct (isValidSensor name cfg) eqn:Hv; [|done]. simpl.
  assert (f64_lt f64_zero r = true) as Hr0 by (rewrite f64_lt_negb_le by done; by rewrite H0).
  assert (f64_lt r (f64_of_Z 200) = true) as Hr2 by (rewrite f64_lt_negb_le by done; by rewrite H2).
  destruct (f64_le_nan _ _ Hd0) as [_ Hdn].
  set (d' := if String.eqb (primarySensor cfg) "" then _ else _).
  assert (f64_le f64_zero d' = true ∧ f64_lt d' (f64_of_Z 200) = true) as [Hd0' Hd1'].
  { unfold d'. destruct (String.eqb _ ""); [destruct (f64_max_choice d r) as [-> | ->]; try done|];
      repeat case_match; try done; by split; [apply f64_lt_le|]. }
  split; [|done]. intros n t. simpl. destruct (decide (n = name)) as [->|Hne].
  - rewrite lookup_insert_eq. intros [= <-]. exists r. split_and!; try done; unfold d'.
    + intros ->. simpl. by apply f64_max_ub_r.
    + intros -> Hne. rewrite (proj2 (String.eqb_neq name "")) by done. by rewrite String.eqb_refl.
  - rewrite lookup_insert_ne by done. intros Hl. destruct (Hm n t Hl) as (r'&?&?&?&?&Hle&Heq).
    exists r'. split_and!; try done; unfold d'.
    + intros E. rewrite E. simpl. eapply f64_le_trans; [by apply Hle|]. by apply f64_max_ub_l.
    + intros E Hn0. rewrite (proj2 (String.eqb_neq (primarySensor cfg) "")) by congruence.
      rewrite (proj2 (String.eqb_neq _ name)) by congruence. by apply Heq.
Qed.

(** Every temperature that is reported is that of a chosen sensor and was read between 0 and
    200 degrees; the dashboard shows the highest of them, or that of the primary sensor when
    one is set and reported. *)
Theorem temperatures_reasonable cfg first second dash temps l :
  skipCollection cfg = false → read_sensors first second = Some l → l ≠ [] →
  Forall (λ s, is_nan (repaired (Temperature s)) = false) l →
  ∃ d m, updateTemperatures cfg first second dash temps = (ran cfg, d, Some m) ∧ temps_ok cfg (m, d).
Proof.
  intros Hs Hr Hne Hnan. unfold updateTemperatures. rewrite Hs, Hr.
  assert (temps_ok cfg (fold_left (temp_step cfg) (imap pair l) (∅, f64_zero))) as Hok.
  { apply fold_left_inv; [by split; [apply map_Forall_empty|]|].
    intros st [i s] Hin. apply temp_step_ok. apply elem_of_lookup_imap in Hin as (j&x&[= -> ->]&Hx).
    rewrite Forall_lookup in Hnan. by apply (Hnan j). }
  destruct (fold_left _ _ _) as [m d]. destruct l; [done|]. by exists d, m.
Qed.
End sensors.

Definition ex_cfg (s : string) : SensorConfig :=
  newSensorConfigWithEnv (λ _, None) "" s "" false.
Definition ex_sensor (k : string) (t : Z) : TemperatureStat := {|
  SensorKey := k; Temperature := f64_of_Z t |}.
Definition ex_readings : list TemperatureStat :=
  [ex_sensor "cpu" 50; ex_sensor "nvme" 300; ex_sensor "cpu" 60].

Lemma temperatures_reasonable_witness :
  ∃ d m, updateTemperatures (ex_cfg "") (Temps ex_readings) TimedOut f64_zero None =
    (ran (ex_cfg ""), d, Some m) ∧ temps_ok (ex_cfg "") (m, d) ∧
    m = {["cpu" := f64_of_Z 50; "cpu_2" := f64_of_Z 60]}.
Proof.
  destruct (temperatures_reasonable (ex_cfg "") (Temps ex_readings) TimedOut f64_zero None
    ex_readings) as (d&m&E&Hok); [reflexivity|reflexivity|done|by repeat constructor|].
  exists d, m. split; [exact E|]. split; [exact Hok|].
  assert ((updateTemperatures (ex_cfg "") (Temps ex_readings) TimedOut f64_zero None).2 =
    Some {["cpu" := f64_of_Z 50; "cpu_2" := f64_of_Z 60]}) as Hc by (vm_compute; reflexivity).
  rewrite E in Hc. by injection Hc.
Defined.

(** A second reading of the same name gets a number before the list of sensors is consulted,
    so a list with the name itself leaves it out. *)
Example whitelist_misses_second :
  (updateTemperatures (ex_cfg "cpu") (Temps ex_readings) TimedOut f64_zero None).2 =
  Some {["cpu" := f64_of_Z 50]}.
Proof. by vm_compute. Qed.
End AgentSensors.
