(* ===== verification/DockerStats.v ===== *)
(** * Container statistics of the agent ([agent/docker.go], [entities/container/container.go])

    A poll lists the containers, asks the engine for the statistics of each one
    that is not excluded, retries those that failed once, and reports what is in
    the manager's map for the containers of this poll.  CPU and network figures
    are differences between polls of the same interval.

    The goroutines of a poll do their work under one mutex, so a batch is a loop
    over the containers in some order, which is a parameter ([Schedule]).  The
    manager decodes every answer with one JSON decoder over one buffer and into
    one [ApiStats] object; both are state here: an answer that is not complete
    JSON leaves its error in the decoder, and a field that an answer lacks keeps
    the value of the answer before.  What the engine answers is an argument. *)

From S2P Require Import Prelude GoFloat GoStrings GoText GoFmt Entities DeltaTracker.

(** The order in which the goroutines of a batch get the mutex. *)
Class Schedule := {
  schedule : ∀ {A}, list A → list A;
  schedule_perm : ∀ A (l : list A), schedule l ≡ₚ l;
}.

#[export] Instance in_order : Schedule | 100 :=
  {| schedule A l := l; schedule_perm A l := reflexivity l |}.

Module DockerStats.
Import DeltaTracker.
Local Open Scope Z_scope.

Abbreviation tracker_t := (DeltaTracker (K := string) (V := Z)).

Definition maxNetworkSpeedBps : Z := 5000000000.
Definition maxMemoryUsage : Z := 100 * 1024 * 1024 * 1024 * 1024.

(** [ApiInfo], the fields used; a port is its public number and its address. *)
Record ApiInfo := {
  Id : string; Names : list string; Status : string; Image : string; HealthStatus : string;
  Ports : list (Z * string);
}.

Record ApiStats := {
  Read : Z;                               (* nanoseconds *)
  NumProcs : Z;
  Networks : gmap string (Z * Z);         (* [RxBytes], [TxBytes] *)
  TotalUsage : Z; SystemUsage : Z;
  Usage : Z; Cache : Z; InactiveFile : Z; PrivateWorkingSet : Z;
}.

(** ** Percentages and memory *)

Definition CalculateCpuPercentLinux (s : ApiStats) (prevCpuContainer prevCpuSystem : Z) : f64 :=
  let cpuDelta := u64 (TotalUsage s - prevCpuContainer) in
  let systemDelta := u64 (SystemUsage s - prevCpuSystem) in
  if (systemDelta =? 0) || (prevCpuContainer =? 0) then f64_zero
  else f64_mul (f64_div (f64_of_Z cpuDelta) (f64_of_Z systemDelta)) (f64_of_Z 100).

(** [prevRead] is [None] for the zero time: the difference is then the longest duration. *)
Definition CalculateCpuPercentWindows (s : ApiStats) (prevCpuUsage : Z) (prevRead : option Z) : f64 :=
  let possIntervals :=
    match prevRead with Some t => u64 (Read s - t) | None => 2 ^ 63 - 1 end / 100 in
  let possIntervals := u64 (possIntervals * NumProcs s) in
  let intervalsUsed := u64 (TotalUsage s - prevCpuUsage) in
  if 0 <? possIntervals
  then f64_mul (f64_div (f64_of_Z intervalsUsed) (f64_of_Z possIntervals)) (f64_of_Z 100)
  else f64_zero.

Definition calculateMemoryUsage (s : ApiStats) (isWindows : bool) : option Z :=
  if isWindows then Some (PrivateWorkingSet s)
  else
    let memCache := if InactiveFile s =? 0 then Cache s else InactiveFile s in
    let usedDelta := u64 (Usage s - memCache) in
    if (usedDelta <=? 0) || (maxMemoryUsage <? usedDelta) then None else Some usedDelta.

Definition validateCpuPercentage (cpuPct : f64) : bool := negb (f64_lt (f64_of_Z 100) cpuPct).

(** ** Texts *)

Definition DockerHealthNone : Z := 0.
Definition DockerHealthStarting : Z := 1.
Definition DockerHealthHealthy : Z := 2.
Definition DockerHealthUnhealthy : Z := 3.

Definition DockerHealthStrings : gmap string Z := {[
  "none" := DockerHealthNone; "starting" := DockerHealthStarting;
  "healthy" := DockerHealthHealthy; "unhealthy" := DockerHealthUnhealthy]}.

Definition parseDockerHealthStatus (status : string) : option Z :=
  DockerHealthStrings !! ToLower (TrimSpace status).

(** The text around the last occurrence of a byte. *)
Fixpoint cut_last (s : string) (c : ascii) : option (string * string) :=
  match s with
  | EmptyString => None
  | String a s' =>
      match cut_last s' c with
      | Some (b, t) => Some (String a b, t)
      | None => if Ascii.eqb a c then Some (""%string, s') else None
      end
  end.

Definition parseDockerStatus (status : string) : string * Z :=
  let trimmed := TrimSpace status in
  if String.eqb trimmed "" then (""%string, DockerHealthNone)
  else
    let trimmed := match Cut trimmed "About " with
                   | Some (b, t) => (b ++ t)%string
                   | None => trimmed
                   end in
    match cut_last trimmed "(" with
    | None => (trimmed, DockerHealthNone)
    | Some (before, after) =>
        if negb (HasSuffix trimmed ")") then (trimmed, DockerHealthNone)
        else
          let statusText := TrimSpace before in
          let statusText := if String.eqb statusText "" then trimmed else statusText in
          let healthText := TrimSpace (TrimSuffix after ")") in
          let healthText :=
            match Cut healthText ":" with
            | Some (b, t) =>
                let prefix := ToLower (TrimSpace b) in
                if String.eqb prefix "health" || String.eqb prefix "health status"
                then TrimSpace t else healthText
            | None => healthText
            end in
          match parseDockerHealthStatus healthText with
          | Some health => (statusText, health)
          | None => (trimmed, DockerHealthNone)
          end
    end.

Example parseDockerStatus_ex :
  map parseDockerStatus ["Up 5 minutes (healthy)"; "Up About an hour (health: starting)";
    "Exited (0)"; " "; "(unhealthy)"]%string
  = [("Up 5 minutes", 2); ("Up an hour", 1); ("Exited (0)", 0); ("", 0); ("(unhealthy)", 3)]%string.
Proof. vm_compute. reflexivity. Qed.

(** The ports, of which [sort] is some arrangement by number. *)
Definition port_text (p : Z * string) : string :=
  ((if String.eqb p.2 "0.0.0.0" || String.eqb p.2 "::" then "" else p.2 ++ ":") ++ print_Z p.1)%string.

Fixpoint dedup_ports (seen : gset Z) (l : list (Z * string)) : list (Z * string) :=
  match l with
  | [] => []
  | p :: l' =>
      if (p.1 =? 0) || bool_decide (p.1 ∈ seen) then dedup_ports seen l'
      else p :: dedup_ports ({[p.1]} ∪ seen) l'
  end.

Definition convertContainerPortsToString (sort : list (Z * string) → list (Z * string))
    (ports : list (Z * string)) : string :=
  GoText.Join (map port_text (dedup_ports ∅ (sort ports))) ", ".

(** ** State *)

Record dockerManager := {
  containerStatsMap : gmap string ContainerStats.t;
  goodDockerVersion : bool;
  dockerVersionChecked : bool;
  isWindows : bool;
  usingPodman : bool;
  podmanReported : bool;                  (* [updateSystemDetails] marked the details dirty *)
  excludeContainers : list string;
  decoderErr : bool;                      (* the decoder's sticky error *)
  apiStats : ApiStats;
  lastCpuContainer : gmap Z (gmap string Z);
  lastCpuSystem : gmap Z (gmap string Z);
  lastCpuReadTime : gmap Z (gmap string Z);
  networkSentTrackers : gmap Z tracker_t;
  networkRecvTrackers : gmap Z tracker_t;
  lastNetworkReadTime : gmap Z (gmap string Z);
}.

(** Updates of groups of fields. *)
Definition with_map (dm : dockerManager) (m : gmap string ContainerStats.t) : dockerManager := {|
  containerStatsMap := m; goodDockerVersion := goodDockerVersion dm;
  dockerVersionChecked := dockerVersionChecked dm; isWindows := isWindows dm;
  usingPodman := usingPodman dm; podmanReported := podmanReported dm;
  excludeContainers := excludeContainers dm; decoderErr := decoderErr dm;
  apiStats := apiStats dm; lastCpuContainer := lastCpuContainer dm;
  lastCpuSystem := lastCpuSystem dm; lastCpuReadTime := lastCpuReadTime dm;
  networkSentTrackers := networkSentTrackers dm; networkRecvTrackers := networkRecvTrackers dm;
  lastNetworkReadTime := lastNetworkReadTime dm |}.

Definition with_decoder (dm : dockerManager) (err : bool) (s : ApiStats) : dockerManager := {|
  containerStatsMap := containerStatsMap dm; goodDockerVersion := goodDockerVersion dm;
  dockerVersionChecked := dockerVersionChecked dm; isWindows := isWindows dm;
  usingPodman := usingPodman dm; podmanReported := podmanReported dm;
  excludeContainers := excludeContainers dm; decoderErr := err;
  apiStats := s; lastCpuContainer := lastCpuContainer dm;
  lastCpuSystem := lastCpuSystem dm; lastCpuReadTime := lastCpuReadTime dm;
  networkSentTrackers := networkSentTrackers dm; networkRecvTrackers := networkRecvTrackers dm;
  lastNetworkReadTime := lastNetworkReadTime dm |}.

Definition with_engine (dm : dockerManager) (good checked windows podman reported : bool)
    : dockerManager := {|
  containerStatsMap := containerStatsMap dm; goodDockerVersion := good;
  dockerVersionChecked := checked; isWindows := windows;
  usingPodman := podman; podmanReported := reported;
  excludeContainers := excludeContainers dm; decoderErr := decoderErr dm;
  apiStats := apiStats dm; lastCpuContainer := lastCpuContainer dm;
  lastCpuSystem := lastCpuSystem dm; lastCpuReadTime := lastCpuReadTime dm;
  networkSentTrackers := networkSentTrackers dm; networkRecvTrackers := networkRecvTrackers dm;
  lastNetworkReadTime := lastNetworkReadTime dm |}.

Definition with_tracking (dm : dockerManager) (cpu sys cread : gmap Z (gmap string Z))
    (sent recv : gmap Z tracker_t) (nread : gmap Z (gmap string Z)) : dockerManager := {|
  containerStatsMap := containerStatsMap dm; goodDockerVersion := goodDockerVersion dm;
  dockerVersionChecked := dockerVersionChecked dm; isWindows := isWindows dm;
  usingPodman := usingPodman dm; podmanReported := podmanReported dm;
  excludeContainers := excludeContainers dm; decoderErr := decoderErr dm;
  apiStats := apiStats dm; lastCpuContainer := cpu; lastCpuSystem := sys;
  lastCpuReadTime := cread; networkSentTrackers := sent; networkRecvTrackers := recv;
  lastNetworkReadTime := nread |}.

Lemma map_with_map dm m : containerStatsMap (with_map dm m) = m.
Proof. reflexivity. Qed.
Lemma map_with_decoder dm e s : containerStatsMap (with_decoder dm e s) = containerStatsMap dm.
Proof. reflexivity. Qed.
Lemma map_with_engine dm a b c d e :
  containerStatsMap (with_engine dm a b c d e) = containerStatsMap dm.
Proof. reflexivity. Qed.
Lemma map_with_tracking dm a b c d e f :
  containerStatsMap (with_tracking dm a b c d e f) = containerStatsMap dm.
Proof. reflexivity. Qed.

(** Reads the map of an updated manager. *)
Ltac dm_map :=
  rewrite ?map_with_map, ?map_with_decoder, ?map_with_engine, ?map_with_tracking,
    ?map_with_map, ?map_with_decoder, ?map_with_engine, ?map_with_tracking.

(** [m\[ct\]\[id\] = v] and [m\[ct\]\[id\]] in a map of maps. *)
Definition set2 {V} (m : gmap Z (gmap string V)) (ct : Z) (id : string) (v : V)
    : gmap Z (gmap string V) := <[ct := <[id := v]> (default ∅ (m !! ct))]> m.
Definition get2 {V} (m : gmap Z (gmap string V)) (ct : Z) (id : string) : option V :=
  default ∅ (m !! ct) !! id.
(** [for ct := range m { delete(m\[ct\], id) }] *)
Definition del2 {V} (m : gmap Z (gmap string V)) (id : string) : gmap Z (gmap string V) :=
  delete id <$> m.

(** ** Decoding *)

(** A body as the decoder meets it: it cannot be read, is not one complete JSON value, or is
    one, of which the given part fits the type ([fits]) or leaves a type error. *)
Inductive body (A : Type) :=
| Unreadable
| Malformed
| Json (v : A) (fits : bool).
Arguments Unreadable {A}. Arguments Malformed {A}. Arguments Json {A}.

(** [decode]: the decoder's error afterwards, what was decoded, and whether it succeeded. *)
Definition decode {A} (err : bool) (b : body A) : bool * option A * bool :=
  match b with
  | Unreadable => (err, None, false)
  | _ =>
      if err then (true, None, false)
      else match b with
           | Json v fits => (false, Some v, fits)
           | _ => (true, None, false)
           end
  end.

(** The statistics document; an absent field is [None]. *)
Record stats_doc := {
  d_read : option Z; d_num_procs : option Z; d_networks : option (gmap string (Z * Z));
  d_total_usage : option Z; d_system : option Z; d_usage : option Z; d_cache : option Z;
  d_inactive : option Z; d_pws : option Z;
}.

(** Decoding into an object: absent fields keep their values. *)
Definition merge (d : stats_doc) (s : ApiStats) : ApiStats := {|
  Read := default (Read s) (d_read d); NumProcs := default (NumProcs s) (d_num_procs d);
  Networks := default ∅ (d_networks d) ∪ Networks s;
  TotalUsage := default (TotalUsage s) (d_total_usage d);
  SystemUsage := default (SystemUsage s) (d_system d);
  Usage := default (Usage s) (d_usage d); Cache := default (Cache s) (d_cache d);
  InactiveFile := default (InactiveFile s) (d_inactive d);
  PrivateWorkingSet := default (PrivateWorkingSet s) (d_pws d) |}.

Definition clear_networks (s : ApiStats) : ApiStats := {|
  Read := Read s; NumProcs := NumProcs s; Networks := ∅; TotalUsage := TotalUsage s;
  SystemUsage := SystemUsage s; Usage := Usage s; Cache := Cache s;
  InactiveFile := InactiveFile s; PrivateWorkingSet := PrivateWorkingSet s |}.

(** ** One container *)

(** [ctr.Id\[:12\]] and [ctr.Names\[0\]\[1:\]]; [None] is a panic. *)
Definition IdShort (ctr : ApiInfo) : option string :=
  if (12 <=? String.length (Id ctr))%nat then Some (substring 0 12 (Id ctr)) else None.
Definition ctr_name (ctr : ApiInfo) : option string :=
  match Names ctr with String _ n :: _ => Some n | _ => None end.

(** A container as the loop over the list prepared it. *)
Record container := { idShort : string; cname : string; info : ApiInfo }.

Definition shouldExcludeContainer (dm : dockerManager) (name : string) : bool :=
  existsb (λ pattern, Match pattern name) (excludeContainers dm).

Definition sum_networks (m : gmap string (Z * Z)) : Z * Z :=
  (u64 (Zsum (map (λ kv, kv.2.2) (map_to_list m))), u64 (Zsum (map (λ kv, kv.2.1) (map_to_list m)))).

(** The rate of one direction. *)
Definition net_rate (raw ms : Z) : Z :=
  if (0 <? ms) && (0 <? raw) then
    let r := u64 (raw * 1000) / ms in if maxNetworkSpeedBps <? r then 0 else r
  else 0.

(** The tracker of an interval; a new one is kept when it is written back. *)
Definition getNetworkTracker (dm : dockerManager) (ct : Z) (isSent : bool) : tracker_t :=
  default NewDeltaTracker ((if isSent then networkSentTrackers dm else networkRecvTrackers dm) !! ct).

(** [calculateNetworkStats]: the trackers afterwards and the two rates. *)
Definition calculateNetworkStats (dm : dockerManager) (id : string) (ct now : Z)
    (networks : gmap string (Z * Z)) : tracker_t * tracker_t * Z * Z :=
  let '(total_sent, total_recv) := sum_networks networks in
  let sentTracker := Set_ (getNetworkTracker dm ct true) id total_sent in
  let recvTracker := Set_ (getNetworkTracker dm ct false) id total_recv in
  let '(sent_delta, recv_delta) :=
    match get2 (lastNetworkReadTime dm) ct id with
    | Some prevReadTime =>
        let ms := u64 (now - prevReadTime) in
        (net_rate (Delta sentTracker id) ms, net_rate (Delta recvTracker id) ms)
    | None => (0, 0)
    end in
  (sentTracker, recvTracker, sent_delta, recv_delta).

Definition BytesToMegabytes (b : f64) : f64 := twoDecimals (f64_div b (f64_of_Z 1048576)).

(** What [updateContainerStats] writes first: identity, and no figures. *)
Definition reset_entry (old : ContainerStats.t) (id status : string) (health : Z) (ports : option string)
    : ContainerStats.t :=
  ContainerStats.mk (ContainerStats.Name old) f64_zero f64_zero f64_zero f64_zero (0, 0) health
    status id (ContainerStats.Image old) (default (ContainerStats.Ports old) ports)
    (ContainerStats.CpuSystem old) (ContainerStats.CpuContainer old) (ContainerStats.PrevNet old)
    (ContainerStats.PrevReadTime old).

(** [PrevNet] and [updateContainerStatsValues]. *)
Definition updateContainerStatsValues (s : ContainerStats.t) (cpuPct : f64) (usedMemory : Z)
    (sent_delta recv_delta readTime : Z) (prevNet : Z * Z) : ContainerStats.t :=
  ContainerStats.mk (ContainerStats.Name s) (twoDecimals cpuPct)
    (BytesToMegabytes (f64_of_Z usedMemory)) (BytesToMegabytes (f64_of_Z sent_delta))
    (BytesToMegabytes (f64_of_Z recv_delta)) (sent_delta, recv_delta) (ContainerStats.Health s)
    (ContainerStats.Status s) (ContainerStats.Id s) (ContainerStats.Image s)
    (ContainerStats.Ports s) (ContainerStats.CpuSystem s) (ContainerStats.CpuContainer s) prevNet
    readTime.

Definition new_container_entry (name id image : string) : ContainerStats.t :=
  ContainerStats.mk name f64_zero f64_zero f64_zero f64_zero (0, 0) 0 "" id image "" 0 0 (0, 0) 0.

(** What the engine answers about one container: its statistics ([None] when the request
    failed), and, for Podman, the code and the document of its inspection, of which the status
    of the health is read with a decoder of its own. *)
Record answers := {
  a_stats : option (body stats_doc);
  a_inspect : option (Z * option string);
}.

(** [None] is an error. *)
Definition getPodmanContainerHealth (inspect : option (Z * option string)) : option Z :=
  resp ← inspect;
  if negb (resp.1 =? 200) then None
  else status ← resp.2; Some (default DockerHealthNone (parseDockerHealthStatus status)).

Section manager.
Context {RO : RangeOrder string} {SCH : Schedule} (sort : list (Z * string) → list (Z * string))
  (semver_major : string → option Z).

Definition health_of (dm : dockerManager) (ctr : container) (ans : answers) (health : Z) : Z :=
  if negb (String.eqb (HealthStatus (info ctr)) "") then
    default health (parseDockerHealthStatus (HealthStatus (info ctr)))
  else if usingPodman dm then default health (getPodmanContainerHealth (a_inspect ans))
  else health.

(** The container with its ports taken: [ctr.Ports = nil]. *)
Definition take_ports (ctr : container) : container := {|
  idShort := idShort ctr; cname := cname ctr;
  info := {| Id := Id (info ctr); Names := Names (info ctr); Status := Status (info ctr);
             Image := Image (info ctr); HealthStatus := HealthStatus (info ctr); Ports := [] |} |}.

(** The figures, once an answer is decoded into [res]; [false] is an error. *)
Definition record_figures (dm : dockerManager) (ctr : container) (ct now : Z)
    : dockerManager * bool :=
  let id := idShort ctr in
  let res := apiStats dm in
  let prevCpuContainer := default 0 (get2 (lastCpuContainer dm) ct id) in
  let prevCpuSystem := default 0 (get2 (lastCpuSystem dm) ct id) in
  let cpuPct :=
    if isWindows dm
    then CalculateCpuPercentWindows res prevCpuContainer (get2 (lastCpuReadTime dm) ct id)
    else CalculateCpuPercentLinux res prevCpuContainer prevCpuSystem in
  match calculateMemoryUsage res (isWindows dm) with
  | None => (dm, false)
  | Some usedMemory =>
      let dm := with_tracking dm
        (set2 (lastCpuContainer dm) ct id (TotalUsage res))
        (set2 (lastCpuSystem dm) ct id (SystemUsage res))
        (lastCpuReadTime dm) (networkSentTrackers dm) (networkRecvTrackers dm)
        (lastNetworkReadTime dm) in
      if negb (validateCpuPercentage cpuPct) then (dm, false)
      else
        let '(sentT, recvT, sent_delta, recv_delta) :=
          calculateNetworkStats dm id ct now (Networks res) in
        let dm := with_tracking dm (lastCpuContainer dm) (lastCpuSystem dm)
          (set2 (lastCpuReadTime dm) ct id (Read res))
          (<[ct := sentT]> (networkSentTrackers dm)) (<[ct := recvT]> (networkRecvTrackers dm))
          (set2 (lastNetworkReadTime dm) ct id now) in
        (with_map dm
           (alter (λ s, updateContainerStatsValues s cpuPct usedMemory sent_delta recv_delta
                          (Read res) (sum_networks (Networks res)))
              id (containerStatsMap dm)), true)
  end.

(** [updateContainerStats]: the manager, the container (whose ports may be taken) and success. *)
Definition updateContainerStats (dm : dockerManager) (ctr : container) (ct now : Z) (ans : answers)
    : dockerManager * container * bool :=
  match a_stats ans with
  | None => (dm, ctr, false)
  | Some b =>
      let '(statusText, health) := parseDockerStatus (Status (info ctr)) in
      let health := health_of dm ctr ans health in
      let id := idShort ctr in
      let old := default (new_container_entry (cname ctr) id (Image (info ctr)))
                   (containerStatsMap dm !! id) in
      let '(ports, ctr) :=
        match Ports (info ctr) with
        | [] => (None, ctr)
        | l => (Some (convertContainerPortsToString sort l), take_ports ctr)
        end in
      let dm := with_map dm (<[id := reset_entry old id statusText health ports]> (containerStatsMap dm)) in
      let res := clear_networks (apiStats dm) in
      let '(err, doc, ok) := decode (decoderErr dm) b in
      let dm := with_decoder dm err (match doc with Some d => merge d res | None => res end) in
      if negb ok then (dm, ctr, false)
      else let '(dm, ok) := record_figures dm ctr ct now in (dm, ctr, ok)
  end.

Definition deleteContainerStatsSync (dm : dockerManager) (id : string) : dockerManager :=
  with_tracking (with_map dm (delete id (containerStatsMap dm)))
    (del2 (lastCpuContainer dm) id) (del2 (lastCpuSystem dm) id) (del2 (lastCpuReadTime dm) id)
    (networkSentTrackers dm) (networkRecvTrackers dm) (del2 (lastNetworkReadTime dm) id).

(** ** The engine *)

Definition detectPodmanFromHeader (server : string) : bool := HasPrefix server "Libpod".

(** The version document: the version and the names of the components. *)
Definition version_doc : Type := string * list string.

(** The names of the components. *)
Definition detectPodmanFromVersion (v : version_doc) : bool := existsb (λ c, HasPrefix c "Podman") v.2.
Definition detectPodmanEngine (serverHeader : string) (v : version_doc) : bool :=
  detectPodmanFromHeader serverHeader || detectPodmanFromVersion v.

Definition setIsPodman (dm : dockerManager) : dockerManager :=
  if usingPodman dm then dm else with_engine dm true true (isWindows dm) true true.

Definition applyDockerVersionInfo (dm : dockerManager) (serverHeader : string) (v : version_doc)
    : dockerManager :=
  if detectPodmanEngine serverHeader v then setIsPodman dm
  else match semver_major v.1 with
       | Some major =>
           if 24 <? major
           then with_engine dm true (dockerVersionChecked dm) (isWindows dm) (usingPodman dm)
                  (podmanReported dm)
           else dm
       | None => dm
       end.

(** The answer to a version request: [None] when it failed or has another status. *)
Definition checkDockerVersion (dm : dockerManager) (ans : option (string * body version_doc))
    : dockerManager :=
  match ans with
  | None => dm
  | Some (serverHeader, b) =>
      let '(err, doc, ok) := decode (decoderErr dm) b in
      let dm := with_decoder dm err (apiStats dm) in
      match doc with
      | Some v =>
          if negb ok then dm
          else
            let dm := applyDockerVersionInfo dm serverHeader v in
            with_engine dm (goodDockerVersion dm) true (isWindows dm) (usingPodman dm)
              (podmanReported dm)
      | None => dm
      end
  end.

Definition ensureDockerVersionChecked (dm : dockerManager)
    (ans : option (string * body version_doc)) : dockerManager :=
  if dockerVersionChecked dm then dm else checkDockerVersion dm ans.

(** ** A poll *)

(** What the engine answers during a poll; statistics are asked for up to twice. *)
Record world := {
  w_list : option (string * body (list ApiInfo));
  w_version : option (string * body version_doc);
  w_first : string → answers;
  w_retry : string → answers;
  w_now : Z;
}.

Inductive poll_result :=
| Panic
| PollError
| Polled (stats : list ContainerStats.t).

(** The containers of the list that are not excluded; [None] is a panic. *)
Fixpoint prepare (dm : dockerManager) (l : list ApiInfo) : option (list container) :=
  match l with
  | [] => Some []
  | ctr :: l' =>
      id ← IdShort ctr; name ← ctr_name ctr; rest ← prepare dm l';
      Some (if shouldExcludeContainer dm name then rest
            else {| idShort := id; cname := name; info := ctr |} :: rest)
  end.

(** The goroutine of a container in the first batch. *)
Definition first_attempt (w : world) (ct : Z) (st : dockerManager * list container) (ctr : container)
    : dockerManager * list container :=
  let '(dm, failed) := st in
  let '(dm, ctr, ok) := updateContainerStats dm ctr ct (w_now w) (w_first w (idShort ctr)) in
  if ok then (dm, failed)
  else (with_map dm (delete (idShort ctr) (containerStatsMap dm)), failed ++ [ctr]).

Definition second_attempt (w : world) (ct : Z) (dm : dockerManager) (ctr : container)
    : dockerManager :=
  (updateContainerStats dm ctr ct (w_now w) (w_retry w (idShort ctr))).1.1.

Definition cycleNetworkDeltasForCacheTime (dm : dockerManager) (ct : Z) : dockerManager :=
  with_tracking dm (lastCpuContainer dm) (lastCpuSystem dm) (lastCpuReadTime dm)
    (alter Cycle ct (networkSentTrackers dm)) (alter Cycle ct (networkRecvTrackers dm))
    (lastNetworkReadTime dm).

Definition getDockerStats (dm : dockerManager) (ct : Z) (w : world) : dockerManager * poll_result :=
  match w_list w with
  | None => (dm, PollError)
  | Some (serverHeader, b) =>
      let '(err, doc, ok) := decode (decoderErr dm) b in
      let dm := with_decoder dm err (apiStats dm) in
      match doc with
      | Some l =>
          if negb ok then (dm, PollError)
          else
            let dm := if negb (usingPodman dm) && detectPodmanFromHeader serverHeader
                      then setIsPodman dm else dm in
            let dm := with_engine dm (goodDockerVersion dm) (dockerVersionChecked dm)
              (Contains serverHeader "windows") (usingPodman dm) (podmanReported dm) in
            let dm := ensureDockerVersionChecked dm (w_version w) in
            match prepare dm l with
            | None => (dm, Panic)
            | Some ctrs =>
                let validIds : gset string := list_to_set (map idShort ctrs) in
                let dm := fold_left
                  (λ dm ctr, if Contains (Status (info ctr)) "second"
                             then deleteContainerStatsSync dm (idShort ctr) else dm) ctrs dm in
                let '(dm, failed) := fold_left (first_attempt w ct) (schedule ctrs) (dm, []) in
                let dm := fold_left (second_attempt w ct) (schedule failed) dm in
                let kept := filter (λ kv, kv.1 ∈ validIds) (containerStatsMap dm) in
                let dm := with_map dm kept in
                (cycleNetworkDeltasForCacheTime dm ct, Polled (map snd (range_list kept)))
            end
      | None => (dm, PollError)
      end
  end.

(** ** What a poll reports *)

(** Every entry is stored under its own id, with figures that passed validation. *)
Definition entry_ok (id : string) (s : ContainerStats.t) : Prop :=
  ContainerStats.Id s = id ∧
  (ContainerStats.Cpu s = f64_zero ∨
   ∃ p, ContainerStats.Cpu s = twoDecimals p ∧ f64_lt (f64_of_Z 100) p = false).

Definition map_ok (dm : dockerManager) : Prop :=
  ∀ id s, containerStatsMap dm !! id = Some s → entry_ok id s.

Lemma map_ok_insert dm id s :
  map_ok dm → entry_ok id s → map_ok (with_map dm (<[id := s]> (containerStatsMap dm))).
Proof.
  intros Hm Hs id' s'. dm_map. rewrite lookup_insert_Some. intros [[<- <-]|[_ ?]]; [done|auto].
Qed.

Lemma map_ok_delete dm id :
  map_ok dm → map_ok (with_map dm (delete id (containerStatsMap dm))).
Proof. intros Hm id' s'. dm_map. rewrite lookup_delete_Some. intros [_ ?]. auto. Qed.

Lemma record_figures_spec dm ctr ct now :
  map_ok dm → containerStatsMap dm !! idShort ctr ≠ None →
  let '(dm', ok) := record_figures dm ctr ct now in
  map_ok dm' ∧ dom (containerStatsMap dm') = dom (containerStatsMap dm).
Proof.
  intros Hm Hin. unfold record_figures. destruct (calculateMemoryUsage _ _) as [mem|]; [|done].
  cbv zeta. destruct (validateCpuPercentage _) eqn:Hv; cbn [negb]; [|done].
  destruct (calculateNetworkStats _ _ _ _ _) as [[[st rt] sd] rd].
  split; unfold map_ok; dm_map.
  - intros id s. rewrite lookup_alter_Some. intros [(<-&s0&Hs0&->)|[_ Hs]]; [|by apply Hm].
    destruct (Hm _ _ Hs0) as [Hid _]. split; [done|]. right. eexists. split; [done|].
    unfold validateCpuPercentage in Hv. by apply negb_true_iff in Hv.
  - apply dom_alter_L.
Qed.

(** An attempt that got an answer leaves an entry for its container and touches no other. *)
Lemma updateContainerStats_spec dm ctr ct now ans :
  map_ok dm →
  let '(dm', ctr', ok) := updateContainerStats dm ctr ct now ans in
  map_ok dm' ∧ idShort ctr' = idShort ctr ∧
  match a_stats ans with
  | None => dm' = dm ∧ ok = false
  | Some _ => dom (containerStatsMap dm') = {[idShort ctr]} ∪ dom (containerStatsMap dm)
  end.
Proof.
  intros Hm. unfold updateContainerStats. destruct (a_stats ans) as [b|]; [|done].
  destruct (parseDockerStatus _) as [st h].
  set (old := default _ _). set (pc := match Ports (info ctr) with [] => _ | _ => _ end).
  assert (idShort pc.2 = idShort ctr) as Hpc by (unfold pc; by destruct (Ports (info ctr))).
  destruct pc as [ports ctr']. cbn [snd] in Hpc.
  set (e := reset_entry old (idShort ctr) st (health_of dm ctr ans h) ports).
  set (dm1 := with_map dm (<[idShort ctr := e]> (containerStatsMap dm))).
  assert (map_ok dm1) as Hm1.
  { apply map_ok_insert; [done|]. split; [done|by left]. }
  destruct (decode _ b) as [[err doc] ok].
  set (dm2 := with_decoder dm1 err _).
  assert (map_ok dm2) as Hm2 by exact Hm1.
  assert (dom (containerStatsMap dm2) = {[idShort ctr]} ∪ dom (containerStatsMap dm)) as Hd2.
  { subst dm2 dm1. dm_map. apply dom_insert_L. }
  destruct ok; cbn [negb]; [|done].
  pose proof (record_figures_spec dm2 ctr' ct now Hm2) as Hr.
  destruct (record_figures dm2 ctr' ct now) as [dm3 ok3].
  destruct Hr as [Hm3 Hd3].
  { rewrite Hpc. subst dm2 dm1. dm_map. by rewrite lookup_insert_eq. }
  split_and!; [done|done|congruence].
Qed.

(** After the first batch every container has an entry or is to be retried. *)
Definition settled (st : dockerManager * list container) (id : string) : Prop :=
  id ∈ dom (containerStatsMap st.1) ∨ id ∈ map idShort st.2.

Lemma first_attempt_spec w ct st ctr :
  map_ok st.1 →
  map_ok (first_attempt w ct st ctr).1 ∧
  (∀ id, settled st id ∨ id = idShort ctr → settled (first_attempt w ct st ctr) id) ∧
  (∀ id, id ∈ dom (containerStatsMap (first_attempt w ct st ctr).1) →
     id ∈ dom (containerStatsMap st.1) ∨ id = idShort ctr) ∧
  (∀ c, c ∈ (first_attempt w ct st ctr).2 → c ∈ st.2 ∨ idShort c = idShort ctr).
Proof.
  destruct st as [dm failed]. cbn [fst snd]. intros Hm. unfold first_attempt.
  pose proof (updateContainerStats_spec dm ctr ct (w_now w) (w_first w (idShort ctr)) Hm) as Hu.
  destruct (updateContainerStats _ _ _ _ _) as [[dm' ctr'] ok]. destruct Hu as (Hm'&Hid&Hd).
  destruct ok.
  - destruct (a_stats _); [|naive_solver]. split_and!; [done| | |by left].
    + intros id. unfold settled. cbn [fst snd]. set_solver.
    + cbn [fst]. set_solver.
  - split_and!.
    + by apply map_ok_delete.
    + intros id. unfold settled. cbn [fst snd]. rewrite map_app. cbn [map]. rewrite Hid.
      dm_map. rewrite dom_delete_L.
      destruct (a_stats _); [|destruct Hd as [-> _]];
        destruct (decide (id = idShort ctr)); set_solver.
    + cbn [fst]. dm_map. rewrite dom_delete_L.
      destruct (a_stats _); [|destruct Hd as [-> _]]; set_solver.
    + cbn [snd]. intros c [?|Hc]%elem_of_app; [by left|].
      apply list_elem_of_singleton in Hc as ->. by right.
Qed.

Lemma first_batch_spec w ct l st :
  map_ok st.1 →
  let st' := fold_left (first_attempt w ct) l st in
  map_ok st'.1 ∧
  (∀ id, settled st id ∨ id ∈ map idShort l → settled st' id) ∧
  (∀ id, id ∈ dom (containerStatsMap st'.1) →
     id ∈ dom (containerStatsMap st.1) ∨ id ∈ map idShort l) ∧
  (∀ c, c ∈ st'.2 → c ∈ st.2 ∨ idShort c ∈ map idShort l).
Proof.
  revert st. induction l as [|ctr l IH]; intros st Hm; cbv zeta; cbn [fold_left map].
  { split_and!; [done|set_solver|set_solver|set_solver]. }
  destruct (first_attempt_spec w ct st ctr Hm) as (H1&H2&H3&H4).
  destruct (IH (first_attempt w ct st ctr) H1) as (I1&I2&I3&I4). split_and!; [done| | |].
  - intros id Hid. apply I2. rewrite elem_of_cons in Hid. naive_solver.
  - intros id Hid. apply I3 in Hid as [Hid|Hid]; [apply H3 in Hid|]; set_solver.
  - intros c Hc. apply I4 in Hc as [Hc|Hc]; [apply H4 in Hc|]; set_solver.
Qed.

Lemma second_batch_spec w ct l dm :
  map_ok dm →
  let dm' := fold_left (second_attempt w ct) l dm in
  map_ok dm' ∧ dom (containerStatsMap dm) ⊆ dom (containerStatsMap dm') ∧
  (∀ c, c ∈ l → a_stats (w_retry w (idShort c)) ≠ None → idShort c ∈ dom (containerStatsMap dm')).
Proof.
  revert dm. induction l as [|ctr l IH]; intros dm Hm; cbv zeta; cbn [fold_left].
  { split_and!; [done|done|set_solver]. }
  pose proof (updateContainerStats_spec dm ctr ct (w_now w) (w_retry w (idShort ctr)) Hm) as Hu.
  unfold second_attempt at 2 4 6.
  destruct (updateContainerStats _ _ _ _ _) as [[dm1 ctr'] ok]. cbn [fst].
  destruct Hu as (Hm1&Hid&Hd). destruct (IH dm1 Hm1) as (I1&I2&I3).
  assert (dom (containerStatsMap dm) ⊆ dom (containerStatsMap dm1)) as Hsub.
  { destruct (a_stats _); [rewrite Hd; set_solver|by destruct Hd as [-> _]]. }
  split_and!; [done|set_solver|].
  intros c [->|Hc]%elem_of_cons Ha; [|by apply I3].
  apply I2. destruct (a_stats _); [rewrite Hd; set_solver|done].
Qed.

Lemma restart_deletes_ok l dm :
  map_ok dm →
  map_ok (fold_left (λ dm ctr, if Contains (Status (info ctr)) "second"
                               then deleteContainerStatsSync dm (idShort ctr) else dm) l dm).
Proof.
  intros Hm. apply fold_left_inv; [done|]. intros dm' ctr _ Hm'.
  destruct (Contains _ _); [|done]. intros id s. unfold deleteContainerStatsSync. dm_map.
  rewrite lookup_delete_Some. intros [_ ?]. auto.
Qed.

(** The engine's properties do not touch the map. *)
Lemma engine_map dm ans :
  containerStatsMap (ensureDockerVersionChecked dm ans) = containerStatsMap dm.
Proof.
  unfold ensureDockerVersionChecked, checkDockerVersion.
  destruct (dockerVersionChecked dm); [done|]. destruct ans as [[h b]|]; [|done].
  destruct (decode _ b) as [[err doc] ok]. destruct doc as [v|]; [|done].
  destruct ok; [|done]. simpl. unfold applyDockerVersionInfo, setIsPodman.
  repeat case_match; done.
Qed.

Lemma setIsPodman_map dm : containerStatsMap (setIsPodman dm) = containerStatsMap dm.
Proof. unfold setIsPodman. by destruct (usingPodman dm). Qed.

(** The manager as it is when the containers are prepared. *)
Definition at_list (dm : dockerManager) (w : world) (serverHeader : string) : dockerManager :=
  let dm := with_decoder dm false (apiStats dm) in
  let dm := if negb (usingPodman dm) && detectPodmanFromHeader serverHeader
            then setIsPodman dm else dm in
  ensureDockerVersionChecked
    (with_engine dm (goodDockerVersion dm) (dockerVersionChecked dm)
       (Contains serverHeader "windows") (usingPodman dm) (podmanReported dm)) (w_version w).

Lemma at_list_map dm w h : containerStatsMap (at_list dm w h) = containerStatsMap dm.
Proof.
  unfold at_list. rewrite engine_map. dm_map. case_match; [|done]. rewrite setIsPodman_map. done.
Qed.

Lemma at_list_exclude dm w h : excludeContainers (at_list dm w h) = excludeContainers dm.
Proof.
  unfold at_list, ensureDockerVersionChecked, checkDockerVersion, applyDockerVersionInfo,
    setIsPodman.
  repeat case_match; simplify_eq/=; done.
Qed.

(** What the loop over the list prepared. *)
Definition listed (dm : dockerManager) (l : list ApiInfo) (c : container) : Prop :=
  info c ∈ l ∧ IdShort (info c) = Some (idShort c) ∧ ctr_name (info c) = Some (cname c) ∧
  shouldExcludeContainer dm (cname c) = false.

Lemma prepare_spec dm l ctrs : prepare dm l = Some ctrs → ∀ c, c ∈ ctrs ↔ listed dm l c.
Proof.
  unfold listed. revert ctrs. induction l as [|i l IH]; intros ctrs; cbn [prepare].
  { intros [= <-] c. rewrite !elem_of_nil. tauto. }
  destruct (IdShort i) as [id|] eqn:Hi; [|done]. destruct (ctr_name i) as [n|] eqn:Hn; [|done].
  simpl. destruct (prepare dm l) as [rest|]; [|done]. intros [= <-] c.
  specialize (IH rest eq_refl c). destruct (shouldExcludeContainer dm n) eqn:Hx.
  - rewrite IH, elem_of_cons. naive_solver congruence.
  - rewrite !elem_of_cons, IH. split.
    + intros [->|?]; [|naive_solver]. simpl. auto.
    + intros ([E|?]&?&?&?); [|naive_solver]. left. destruct c; simplify_eq/=. congruence.
Qed.

Lemma elem_of_map {A B} (f : A → B) l y : y ∈ map f l ↔ ∃ x, x ∈ l ∧ y = f x.
Proof. rewrite list_elem_of_fmap. naive_solver. Qed.

Lemma map_schedule (l : list container) id :
  id ∈ map idShort (schedule l) ↔ id ∈ map idShort l.
Proof. by rewrite !elem_of_map; setoid_rewrite schedule_perm. Qed.

(** The statistics of a map whose entries carry their keys. *)
Lemma reported_ids (m : gmap string ContainerStats.t) :
  (∀ id s, m !! id = Some s → ContainerStats.Id s = id) →
  NoDup (map ContainerStats.Id (map snd (range_list m))) ∧
  ∀ id, id ∈ map ContainerStats.Id (map snd (range_list m)) ↔ is_Some (m !! id).
Proof.
  intros Hid. rewrite map_map.
  assert (map (λ kv, ContainerStats.Id kv.2) (range_list m) = (range_list m).*1) as ->.
  { apply map_ext_in. intros [id s] Hin%list_elem_of_In%elem_of_range_list. by apply Hid. }
  split; [apply NoDup_fst_range_list|]. intros id. rewrite list_elem_of_fmap. split.
  - intros ([id' s]&->&Hin). apply elem_of_range_list in Hin. eauto.
  - intros [s Hs]. exists (id, s). split; [done|]. by apply elem_of_range_list.
Qed.

(** C16: a poll that succeeds reports containers of this poll's list only, each at most once and
    none that is excluded; it reports every one whose second request, if it came to that, was
    answered; and no reported CPU figure comes from a percentage above 100.  This holds in
    whatever order the goroutines run, and whatever the engine answers. *)
Theorem reported_containers dm ct w serverHeader l fits dm' stats :
  map_ok dm → w_list w = Some (serverHeader, Json l fits) →
  getDockerStats dm ct w = (dm', Polled stats) →
  ∃ ctrs, (∀ c, c ∈ ctrs ↔ listed dm l c) ∧
    NoDup (map ContainerStats.Id stats) ∧
    (∀ s, s ∈ stats → ContainerStats.Id s ∈ map idShort ctrs ∧ entry_ok (ContainerStats.Id s) s) ∧
    (∀ c, c ∈ ctrs → a_stats (w_retry w (idShort c)) ≠ None →
       idShort c ∈ map ContainerStats.Id stats) ∧
    map_ok dm'.
Proof.
  intros Hm Hw. unfold getDockerStats. rewrite Hw. unfold decode.
  destruct (decoderErr dm) eqn:Hde; [done|]. destruct fits; [|done]. cbn [negb]. cbv zeta.
  fold (at_list dm w serverHeader).
  change (ensureDockerVersionChecked _ (w_version w)) with (at_list dm w serverHeader).
  assert (map_ok (at_list dm w serverHeader)) as Hm1 by (unfold map_ok; by rewrite at_list_map).
  pose proof (prepare_spec (at_list dm w serverHeader) l) as Hprep.
  unfold listed, shouldExcludeContainer in Hprep. rewrite at_list_exclude in Hprep.
  set (dm1 := at_list dm w serverHeader) in *. clearbody dm1.
  destruct (prepare dm1 l) as [ctrs|]; [|done]. specialize (Hprep ctrs eq_refl).
  set (dm2 := fold_left _ ctrs dm1).
  assert (map_ok dm2) as Hm2 by (by apply restart_deletes_ok). clearbody dm2.
  destruct (first_batch_spec w ct (schedule ctrs) (dm2, []) Hm2) as (H1&H2&H3&H4).
  destruct (fold_left (first_attempt w ct) _ _) as [dm3 failed]. cbn [fst snd] in *.
  destruct (second_batch_spec w ct (schedule failed) dm3 H1) as (I1&I2&I3).
  set (dm4 := fold_left _ (schedule failed) dm3) in *. clearbody dm4.
  set (kept := filter _ (containerStatsMap dm4)).
  assert (∀ id s, kept !! id = Some s → containerStatsMap dm4 !! id = Some s ∧ id ∈ map idShort ctrs)
    as Hk.
  { intros id s. unfold kept. rewrite map_lookup_filter_Some. cbn [fst].
    rewrite elem_of_list_to_set. tauto. }
  destruct (reported_ids kept) as [Hnd Hids].
  { intros id s [Hs _]%Hk. by destruct (I1 _ _ Hs). }
  intros [= <- <-]. exists ctrs. split_and!; [done|exact Hnd| | |].
  - intros s ([id s']&Hin&->)%elem_of_map. apply elem_of_range_list, Hk in Hin as [Hs Hin].
    destruct (I1 _ _ Hs) as [E Hok]. cbn [snd]. rewrite E. split; [done|]. split; done.
  - intros c Hc Ha. apply Hids.
    assert (idShort c ∈ dom (containerStatsMap dm4)) as [s Hs]%elem_of_dom.
    { destruct (H2 (idShort c)) as [Hd|Hd].
      - right. apply map_schedule. apply elem_of_map. eauto.
      - cbn [fst] in Hd. set_solver.
      - cbn [snd] in Hd. apply elem_of_map in Hd as (c'&Hc'&E). rewrite E in Ha |- *.
        apply I3; [|done]. by rewrite schedule_perm. }
    exists s. unfold kept. rewrite map_lookup_filter_Some. split; [done|].
    cbn [fst]. apply elem_of_list_to_set, elem_of_map. eauto.
  - intros id s. unfold cycleNetworkDeltasForCacheTime. dm_map. intros [? _]%Hk. auto.
Qed.

(** ** One bad answer *)

(** A list of containers that is not complete JSON. *)
Definition bad_list (w : world) : Prop := ∃ h, w_list w = Some (h, Malformed).

Lemma poisoned_poll dm ct w :
  decoderErr dm = true →
  ∃ dm', getDockerStats dm ct w = (dm', PollError) ∧ decoderErr dm' = true.
Proof.
  intros He. unfold getDockerStats. destruct (w_list w) as [[h b]|]; [|eauto].
  unfold decode. rewrite He. destruct b; cbn; eauto.
Qed.

(** The polls of a sequence of engine states, and their results. *)
Fixpoint polls (dm : dockerManager) (ct : Z) (ws : list world) : list poll_result :=
  match ws with
  | [] => []
  | w :: ws' => let '(dm', r) := getDockerStats dm ct w in r :: polls dm' ct ws'
  end.

(** A list that fails in another way: no answer, a body that cannot be read, or complete JSON of
    another type. *)
Definition missed_list (w : world) : Prop :=
  w_list w = None ∨ ∃ h b, w_list w = Some (h, b) ∧ (b = Unreadable ∨ ∃ v, b = Json v false).

(** C21: once the body of the list of containers is not one complete JSON value (truncated, empty
    or not JSON), that poll and every later one fail, however healthy the engine is: the decoder
    keeps its error.  The other failures of the list leave the decoder as it was, so that later
    polls are not affected: no answer, a body that cannot be read, or JSON of another type. *)
Theorem bad_answer_ends_polling dm ct w ws :
  (bad_list w → Forall (eq PollError) (polls dm ct (w :: ws))) ∧
  (missed_list w →
   ∃ dm', getDockerStats dm ct w = (dm', PollError) ∧ decoderErr dm' = decoderErr dm ∧
     polls dm ct (w :: ws) = PollError :: polls dm' ct ws).
Proof.
  split.
  - intros [h Hw]. cbn [polls].
    assert (∃ dm', getDockerStats dm ct w = (dm', PollError) ∧ decoderErr dm' = true) as (dm'&->&He).
    { unfold getDockerStats. rewrite Hw. unfold decode. destruct (decoderErr dm); cbn; eauto. }
    constructor; [done|]. revert dm' He. clear. induction ws as [|w ws IH]; intros dm He; [constructor|].
    cbn [polls]. destruct (poisoned_poll dm ct w He) as (dm'&->&He'). constructor; [done|]. by apply IH.
  - intros Hm. cbn [polls].
    assert (∃ dm', getDockerStats dm ct w = (dm', PollError) ∧ decoderErr dm' = decoderErr dm)
      as (dm'&->&He); [|by exists dm'].
    unfold getDockerStats. destruct Hm as [->|(h&b&->&[->|[v ->]])]; [eauto|cbn; eauto|].
    unfold decode. destruct (decoderErr dm); cbn; eauto.
Qed.
End manager.

(** ** Rates and ports *)

(** The rate of one direction between totals [c0] and [c1] taken [ms] apart: exact, unless the
    counter went down or more than 5 GB/s come out, when nothing is reported. *)
Lemma net_rate_spec c0 c1 ms :
  0 ≤ c0 < 2 ^ 53 → 0 ≤ c1 < 2 ^ 53 → 0 < ms ≤ 10 ^ 9 →
  net_rate (u64 (c1 - c0)) ms =
  (if c0 <=? c1 then
     let r := (c1 - c0) * 1000 / ms in if maxNetworkSpeedBps <? r then 0 else r
   else 0).
Proof.
  intros H0 H1 Hms. unfold net_rate. rewrite (proj2 (Z.ltb_lt 0 ms)) by lia. cbn [andb].
  destruct (Z.leb_spec c0 c1) as [Hle|Hlt].
  - rewrite (wrap_small 64 (c1 - c0)) by (unfold in_range; lia).
    destruct (Z.ltb_spec 0 (c1 - c0)) as [Hp|Hz].
    + by rewrite wrap_small by (unfold in_range; lia).
    + replace (c1 - c0) with 0 by lia. rewrite Z.div_0_l by lia. done.
  - assert (u64 (c1 - c0) = 2 ^ 64 - (c0 - c1)) as ->.
    { unfold wrap. replace (c1 - c0) with (- (c0 - c1)) by lia.
      rewrite Z_mod_nz_opp_full; rewrite Z.mod_small by lia; lia. }
    rewrite (proj2 (Z.ltb_lt 0 _)) by lia.
    assert (u64 ((2 ^ 64 - (c0 - c1)) * 1000) = 2 ^ 64 - (c0 - c1) * 1000) as ->.
    { unfold wrap.
      replace ((2 ^ 64 - (c0 - c1)) * 1000) with (- ((c0 - c1) * 1000) + 1000 * 2 ^ 64) by lia.
      rewrite Z_mod_plus_full, Z_mod_nz_opp_full; rewrite Z.mod_small by lia; lia. }
    cbv zeta. rewrite (proj2 (Z.ltb_lt maxNetworkSpeedBps _)); [done|].
    apply Z.lt_le_trans with (maxNetworkSpeedBps + 1); [lia|].
    apply Z.div_le_lower_bound; [lia|]. unfold maxNetworkSpeedBps. nia.
Qed.

Lemma container_network_rate dm cid ct now networks tS tR cS cR t0 :
  networkSentTrackers dm !! ct = Some tS → networkRecvTrackers dm !! ct = Some tR →
  previous tS !! cid = Some cS → previous tR !! cid = Some cR →
  get2 (lastNetworkReadTime dm) ct cid = Some t0 → 0 < now - t0 ≤ 10 ^ 9 →
  let '(s, r) := sum_networks networks in
  0 ≤ cS < 2 ^ 53 → 0 ≤ s < 2 ^ 53 → 0 ≤ cR < 2 ^ 53 → 0 ≤ r < 2 ^ 53 →
  let rate c0 c1 :=
    if c0 <=? c1 then
      let r := (c1 - c0) * 1000 / (now - t0) in if maxNetworkSpeedBps <? r then 0 else r
    else 0 in
  let '(_, _, sent, recv) := calculateNetworkStats dm cid ct now networks in
  sent = rate cS s ∧ recv = rate cR r.
Proof.
  intros HS HR HpS HpR Ht Hms. unfold calculateNetworkStats, getNetworkTracker.
  destruct (sum_networks networks) as [s r]. intros ?? ??. rewrite HS, HR, Ht.
  cbn [from_option id]. rewrite (wrap_small 64 (now - t0)) by (unfold in_range; lia).
  unfold Delta. cbn [Set_ current previous]. rewrite !lookup_insert_eq, HpS, HpR.
  cbn [num_sub uint64_numeric]. by rewrite !net_rate_spec.
Qed.

(** A list arranged by its port numbers. *)
Definition by_port (l : list (Z * string)) : Prop := StronglySorted (λ a b, a.1 ≤ b.1) l.

Lemma dedup_ports_spec l seen :
  by_port l → (∀ p q, p ∈ seen → q ∈ l → p ≤ q.1) →
  let out := map fst (dedup_ports seen l) in
  StronglySorted Z.lt out ∧
  ∀ p, p ∈ out ↔ p ∈ map fst l ∧ p ≠ 0 ∧ p ∉ seen.
Proof.
  revert seen. induction l as [|[n ip] l IH]; intros seen Hs Hseen; cbv zeta; cbn [dedup_ports map].
  { split; [constructor|set_solver]. }
  apply StronglySorted_inv in Hs as [Hs Hn]. cbn [fst] in *.
  destruct ((n =? 0) || bool_decide (n ∈ seen)) eqn:E.
  - destruct (IH seen Hs) as [I1 I2]; [intros p q ??; apply Hseen; [done|by right]|].
    split; [done|]. intros p. rewrite I2, elem_of_cons. split; [tauto|].
    intros [[->|?] [? ?]]; [|tauto]. exfalso. apply orb_true_iff in E as [E|E]; zbool; [done|].
    by apply bool_decide_eq_true in E.
  - apply orb_false_iff in E as [E1 E2]. zbool. apply bool_decide_eq_false in E2.
    destruct (IH ({[n]} ∪ seen) Hs) as [I1 I2].
    { intros p q [->%elem_of_singleton|Hp]%elem_of_union Hq.
      - rewrite Forall_forall in Hn. by apply Hn.
      - apply Hseen; [done|by right]. }
    cbn [map fst]. split.
    + constructor; [done|]. apply Forall_forall. intros p [Hp [_ Hnp]]%I2.
      apply elem_of_map in Hp as ([n' ip']&Hp&->). rewrite Forall_forall in Hn.
      specialize (Hn _ Hp). cbn [fst] in *.
      assert (n ≠ n') by (intros ->; apply Hnp, elem_of_union; left; by apply elem_of_singleton).
      lia.
    + intros p. rewrite !elem_of_cons, I2, not_elem_of_union, not_elem_of_singleton.
      destruct (decide (p = n)) as [->|]; tauto.
Qed.

(** The ports shown are the public ones, each once and in ascending order, however ports of the
    same number are arranged. *)
Lemma ports_sorted sort ports :
  (∀ l, sort l ≡ₚ l ∧ by_port (sort l)) →
  let shown := dedup_ports ∅ (sort ports) in
  convertContainerPortsToString sort ports = GoText.Join (map port_text shown) ", " ∧
  StronglySorted Z.lt (map fst shown) ∧
  ∀ p, p ∈ map fst shown ↔ p ∈ map fst ports ∧ p ≠ 0.
Proof.
  intros Hsort. destruct (Hsort ports) as [Hp Hs].
  destruct (dedup_ports_spec (sort ports) ∅ Hs) as [H1 H2]; [set_solver|].
  split_and!; [done|done|]. intros p. rewrite H2.
  assert (p ∈ map fst (sort ports) ↔ p ∈ map fst ports) as ->.
  { rewrite !elem_of_map. by setoid_rewrite Hp. }
  set_solver.
Qed.

(** ** Evaluated polls *)

Definition ex_zero : ApiStats := {|
  Read := 0; NumProcs := 0; Networks := ∅; TotalUsage := 0; SystemUsage := 0; Usage := 0;
  Cache := 0; InactiveFile := 0; PrivateWorkingSet := 0 |}.
Definition ex_dm : dockerManager := {|
  containerStatsMap := ∅; goodDockerVersion := true; dockerVersionChecked := true;
  isWindows := false; usingPodman := false; podmanReported := false;
  excludeContainers := ["tmp-*"]; decoderErr := false; apiStats := ex_zero;
  lastCpuContainer := ∅; lastCpuSystem := ∅; lastCpuReadTime := ∅; networkSentTrackers := ∅;
  networkRecvTrackers := ∅; lastNetworkReadTime := ∅ |}.
Definition ex_ctr (id name : string) : ApiInfo := {|
  Id := id; Names := [name]; Status := "Up 5 minutes (healthy)"; Image := "img";
  HealthStatus := ""; Ports := [(80, "0.0.0.0"%string)] |}.
Definition ex_doc (usage : Z) : stats_doc := {|
  d_read := Some 1; d_num_procs := None; d_networks := Some {["eth0" := (10, 20)]};
  d_total_usage := Some 5; d_system := Some 100; d_usage := Some usage; d_cache := None;
  d_inactive := None; d_pws := None |}.
(** An answer without figures, as for a container that is gone. *)
Definition ex_empty_doc : stats_doc := {|
  d_read := None; d_num_procs := None; d_networks := None; d_total_usage := None;
  d_system := None; d_usage := None; d_cache := None; d_inactive := None; d_pws := None |}.
Definition ex_answers (id : string) : answers := {|
  a_stats := Some (Json (if String.eqb id "aaaaaaaaaaaa" then ex_doc 104857600 else ex_empty_doc) true);
  a_inspect := None |}.
Definition ex_list : list ApiInfo :=
  [ex_ctr "aaaaaaaaaaaa1" "/web"; ex_ctr "bbbbbbbbbbbb2" "/gone"; ex_ctr "cccccccccccc3" "/tmp-x"].
Definition ex_w : world := {|
  w_list := Some ("Docker/27"%string, Json ex_list true); w_version := None;
  w_first := ex_answers; w_retry := ex_answers; w_now := 1000 |}.
Definition no_semver (v : string) : option Z := None.

Lemma reported_containers_witness :
  match getDockerStats (λ l, l) no_semver ex_dm 60000 ex_w with
  | (_, Polled stats) =>
      NoDup (map ContainerStats.Id stats) ∧ "aaaaaaaaaaaa"%string ∈ map ContainerStats.Id stats
  | _ => False
  end.
Proof.
  destruct (getDockerStats (λ l, l) no_semver ex_dm 60000 ex_w) as [dm' r] eqn:E.
  destruct r as [| |stats]; [exfalso; vm_compute in E; discriminate E..|].
  destruct (reported_containers (λ l, l) no_semver ex_dm 60000 ex_w "Docker/27" ex_list true dm' stats)
    as (ctrs&Hc&H1&_&H3&_).
  - intros id s. unfold ex_dm. cbn [containerStatsMap]. by rewrite lookup_empty.
  - reflexivity.
  - exact E.
  - split; [exact H1|].
    assert ({| idShort := "aaaaaaaaaaaa"; cname := "web"; info := ex_ctr "aaaaaaaaaaaa1" "/web" |} ∈ ctrs)
      as Hin.
    { apply Hc. split_and!; [by left|reflexivity..]. }
    refine (H3 _ Hin _). vm_compute. discriminate.
Defined.

(** A container whose answer has no figures is reported with those of the container before
    it: here 100 MB of memory that another container uses. *)
Example stale_figures :
  match getDockerStats (λ l, l) no_semver ex_dm 60000 ex_w with
  | (_, Polled stats) =>
      map (λ s, (ContainerStats.Name s, ContainerStats.Mem s)) stats
      = [("web", f64_of_Z 100); ("gone", f64_of_Z 100)]%string ∨
      map (λ s, (ContainerStats.Name s, ContainerStats.Mem s)) stats
      = [("gone", f64_of_Z 100); ("web", f64_of_Z 100)]%string
  | _ => False
  end.
Proof. vm_compute. first [left; reflexivity|right; reflexivity]. Qed.

Lemma bad_answer_ends_polling_witness :
  Forall (eq PollError)
    (polls (λ l, l) no_semver ex_dm 60000
       [{| w_list := Some ("Docker/27"%string, Malformed); w_version := None;
           w_first := ex_answers; w_retry := ex_answers; w_now := 0 |}; ex_w; ex_w]).
Proof. apply (bad_answer_ends_polling (λ l, l) no_semver ex_dm 60000). eexists. reflexivity. Defined.

(** A list of another type fails its poll only. *)
Example wrong_type_is_forgotten :
  let bad := {| w_list := Some ("Docker/27"%string, Json [] false); w_version := w_version ex_w;
                w_first := w_first ex_w; w_retry := w_retry ex_w; w_now := w_now ex_w |} in
  (λ r, match r with PollError => true | _ => false end) <$> polls (λ l, l) no_semver ex_dm 60000 [bad; ex_w] = [true; false].
Proof. vm_compute. reflexivity. Qed.
End DockerStats.
