(* ===== verification/DockerQueue.v ===== *)
(** * The queue of the container requests ([agent/docker.go])

    A poll starts one goroutine per container.  [queue] counts it in a wait group and, with an
    engine that answers one container at a time, waits for one of five places in a channel; the
    goroutine gives both back in [dequeue], the wait group first.  Steps are those of the loop that
    starts the goroutines and of the goroutines; the work of one, done under a mutex, is one step.
    The order of the work is the [Schedule] that the statistics are computed with: every run makes
    each container's request once, and with an old engine every order can happen. *)

From S2P Require Import Prelude GoFloat Entities DockerStats.

Module DockerQueue.
Section queue.
Context {A : Type} (goodDockerVersion : bool).

(** [make(chan struct{}, 5)] *)
Definition sem_cap : nat := 5.

(** A goroutine before its work, after it, and after [wg.Done]. *)
Inductive phase := Working | Worked | Released.
#[export] Instance phase_eq_dec : EqDecision phase.
Proof. solve_decision. Defined.

(** The loop is between two containers, inside [queue], or behind [wg.Wait]. *)
Inductive loop_pc := Looping | Queueing (ctr : A) | Waited.

Record state := {
  todo : list A;
  pc : loop_pc;
  wg : nat;
  sem : nat;                                            (* values in the channel *)
  routines : list (A * phase);
  log : list A;                                         (* the containers in the order of the work *)
}.

Inductive step : state → state → Prop :=
  | step_Add ctr l w s gs k :                           (* wg.Add(1) *)
      step {| todo := ctr :: l; pc := Looping; wg := w; sem := s; routines := gs; log := k |}
           {| todo := l; pc := Queueing ctr; wg := S w; sem := s; routines := gs; log := k |}
  | step_queue ctr l w s gs k :                         (* sem <- struct{}{}; go func *)
      (goodDockerVersion = true → s < sem_cap)%nat →
      step {| todo := l; pc := Queueing ctr; wg := w; sem := s; routines := gs; log := k |}
           {| todo := l; pc := Looping; wg := w; sem := if goodDockerVersion then S s else s;
              routines := gs ++ [(ctr, Working)]; log := k |}
  | step_work l p w s gs ctr gs' k :                    (* updateContainerStats *)
      step {| todo := l; pc := p; wg := w; sem := s; routines := gs ++ (ctr, Working) :: gs'; log := k |}
           {| todo := l; pc := p; wg := w; sem := s; routines := gs ++ (ctr, Worked) :: gs'; log := k ++ [ctr] |}
  | step_Done l p w s gs ctr gs' k :                    (* wg.Done() *)
      step {| todo := l; pc := p; wg := S w; sem := s; routines := gs ++ (ctr, Worked) :: gs'; log := k |}
           {| todo := l; pc := p; wg := w; sem := s; routines := gs ++ (ctr, Released) :: gs'; log := k |}
  | step_dequeue l p w s gs ctr gs' k :                 (* <-sem *)
      goodDockerVersion = true →
      step {| todo := l; pc := p; wg := w; sem := S s; routines := gs ++ (ctr, Released) :: gs'; log := k |}
           {| todo := l; pc := p; wg := w; sem := s; routines := gs ++ gs'; log := k |}
  | step_leave l p w s gs ctr gs' k :
      goodDockerVersion = false →
      step {| todo := l; pc := p; wg := w; sem := s; routines := gs ++ (ctr, Released) :: gs'; log := k |}
           {| todo := l; pc := p; wg := w; sem := s; routines := gs ++ gs'; log := k |}
  | step_Wait s gs k :                                  (* wg.Wait() *)
      step {| todo := []; pc := Looping; wg := 0; sem := s; routines := gs; log := k |}
           {| todo := []; pc := Waited; wg := 0; sem := s; routines := gs; log := k |}.

(** A batch starts when the batch before is counted out; its goroutines may still have to give
    their places back. *)
Definition starts (l : list A) (st : state) : Prop :=
  todo st = l ∧ pc st = Looping ∧ wg st = 0%nat ∧ log st = [] ∧
  Forall (λ g, g.2 = Released) (routines st) ∧
  sem st = (if goodDockerVersion then length (routines st) else 0%nat) ∧ (sem st ≤ sem_cap)%nat.

Definition counted (g : A * phase) : bool := match g.2 with Released => false | _ => true end.
Definition active (g : A * phase) : bool := match g.2 with Working => true | _ => false end.
Definition queueing (p : loop_pc) : list A := match p with Queueing ctr => [ctr] | _ => [] end.

(** The invariant: places taken, goroutines counted, and every container in one place. *)
Record queue_ok (l : list A) (st : state) : Prop := {
  q_sem : sem st = if goodDockerVersion then length (routines st) else 0%nat;
  q_cap : (sem st ≤ sem_cap)%nat;
  q_wg : wg st = (length (List.filter counted (routines st)) + length (queueing (pc st)))%nat;
  q_all : log st ++ (List.filter active (routines st)).*1 ++ queueing (pc st) ++ todo st ≡ₚ l;
  q_end : pc st = Waited → todo st = [] ∧ List.filter counted (routines st) = [];
}.

Lemma starts_ok l st : starts l st → queue_ok l st.
Proof.
  intros (Ht&Hp&Hw&Hl&Hg&Hs&Hc).
  assert (List.filter counted (routines st) = [] ∧ List.filter active (routines st) = []) as [H1 H2].
  { clear -Hg. induction Hg as [|[c p] gs Hp _ [IH1 IH2]]; [done|]. simpl in Hp. subst p. done. }
  split; rewrite ?Hp, ?Hw, ?Hl, ?Ht, ?H1, ?H2; done.
Qed.

Lemma queue_step_ok l st st' : queue_ok l st → step st st' → queue_ok l st'.
Proof.
  intros [Hs Hc Hw Ha He] Hst. destruct Hst; simpl in *;
    rewrite ?List.filter_app, ?length_app, ?fmap_app in *; cbn [List.filter counted active snd] in *;
    split; simpl; rewrite ?List.filter_app, ?length_app, ?fmap_app; simpl in *.
  all: try (destruct goodDockerVersion; simpl in *; try specialize (H eq_refl); lia || done).
  all: try (intros E; destruct (He E) as [Ht Hn]; try (apply app_eq_nil in Hn as [_ Hn]; done)).
  all: try (rewrite <- Ha; solve_Permutation).
  intros _. split; [done|]. apply length_zero_iff_nil. lia.
Qed.

Lemma steps_ok l st st' : queue_ok l st → rtc step st st' → queue_ok l st'.
Proof. intros Hok Hr. induction Hr; eauto using queue_step_ok. Qed.

(** ** Every run ends, with every container served once *)

Definition phase_weight (g : A * phase) : nat := match g.2 with Working => 3 | Worked => 2 | Released => 1 end.
Definition weight (st : state) : nat :=
  5 * length (todo st) + 4 * length (queueing (pc st)) + sum_list_with phase_weight (routines st) +
  match pc st with Waited => 0 | _ => 1 end.

Lemma step_weight st st' : step st st' → (weight st' < weight st)%nat.
Proof. destruct 1; unfold weight; simpl; rewrite ?sum_list_with_app; simpl; try destruct p; simpl; lia. Qed.

(** Each step brings the end nearer: a batch takes five steps for each container, one for each
    goroutine of the batch before, and one for the end. *)
Lemma steps_bounded n st st' : nsteps step n st st' → (n + weight st' ≤ weight st)%nat.
Proof. induction 1 as [|n x y z Hxy _ IH]; [lia|]. apply step_weight in Hxy. lia. Qed.

Definition finished (st : state) : Prop := pc st = Waited ∧ routines st = [].

(** No state is stuck before the end. *)
Lemma queue_progress l st : queue_ok l st → finished st ∨ ∃ st', step st st'.
Proof.
  destruct st as [td p w s [|[c ph] gs] k]; intros [Hs Hc Hw Ha He]; simpl in *.
  - destruct p as [|ctr|].
    + right. destruct td as [|ctr td]; [|eexists; constructor]. simpl in Hw. subst w. eexists. constructor.
    + right. eexists. constructor. intros E. rewrite E in Hs. unfold sem_cap. lia.
    + left. done.
  - right. destruct ph; simpl in *.
    + eexists. apply (step_work td p w s [] c gs k).
    + destruct w as [|w]; [lia|]. eexists. apply (step_Done td p w s [] c gs k).
    + destruct goodDockerVersion eqn:E; subst s.
      * eexists. by apply (step_dequeue td p w (length gs) [] c gs k).
      * eexists. by apply (step_leave td p w 0 [] c gs k).
Qed.

Lemma waited_log l st : queue_ok l st → pc st = Waited → log st ≡ₚ l.
Proof.
  intros [_ _ _ Ha He] Hp. destruct (He Hp) as [Ht Hc]. rewrite Hp, Ht in Ha. simpl in Ha. rewrite <- Ha.
  assert (List.filter active (routines st) = []) as ->; [|simpl; by rewrite app_nil_r].
  clear -Hc. induction (routines st) as [|[c []] gs IH]; simpl in *; done || auto.
Qed.

(** C37: a batch, from any state on the way: at most five goroutines hold a place when the engine
    has a good version; the batch goes on until [wg.Wait] returns and all places are given back,
    within the bound of steps; and then every container was served exactly once. *)
Theorem queue_serves l st st' n :
  starts l st → nsteps step n st st' →
  (goodDockerVersion = true → length (routines st') ≤ sem_cap)%nat ∧
  (n ≤ 5 * length l + length (routines st) + 1)%nat ∧
  (pc st' = Waited → log st' ≡ₚ l) ∧
  ∃ st'', rtc step st' st'' ∧ finished st'' ∧ log st'' ≡ₚ l ∧ sem st'' = 0%nat.
Proof.
  intros Hst Hn. assert (queue_ok l st') as Hok.
  { eapply steps_ok; [by apply starts_ok|]. apply rtc_nsteps. eauto. }
  split_and!.
  - intros E. pose proof (q_sem _ _ Hok) as Hs. pose proof (q_cap _ _ Hok). rewrite E in Hs. lia.
  - apply steps_bounded in Hn. destruct Hst as (Ht&Hp&_&_&Hg&_).
    assert (weight st = 5 * length l + length (routines st) + 1)%nat as E; [|lia].
    unfold weight. rewrite Hp, Ht. simpl. assert (sum_list_with phase_weight (routines st) = length (routines st)) as ->; [|lia].
    clear -Hg. induction Hg as [|[c p] gs Hp _ IH]; simpl in *; [done|]. subst p. simpl. lia.
  - by apply waited_log.
  - clear Hst Hn. revert Hok. induction st' as [st' IH] using (induction_ltof1 _ weight). intros Hok.
    destruct (queue_progress l st' Hok) as [Hf|[st2 Hs]].
    + exists st'. split; [apply rtc_refl|]. split; [done|]. destruct Hf as [Hp Hg]. split; [by apply waited_log|].
      pose proof (q_sem _ _ Hok) as E. rewrite Hg in E. by destruct goodDockerVersion.
    + destruct (IH st2 (step_weight _ _ Hs) (queue_step_ok l _ _ Hok Hs)) as (st3&?&?). exists st3. split; [by eapply rtc_l|done].
Qed.
End queue.

(** ** The order *)

(** The order of a batch is the order of a [Schedule]. *)
Lemma lookup_seq_all {A} (l : list A) : ∀ k x,
  length k = x → map (λ i, (k ++ l) !! i) (seq x (length l)) = map Some l.
Proof.
  induction l as [|a l IH]; intros k x Hx; [done|]. simpl. f_equal.
  - by rewrite lookup_app_r, Hx, Nat.sub_diag by lia.
  - specialize (IH (k ++ [a]) (S x)). rewrite <- IH by (rewrite length_app; simpl; lia).
    apply map_ext. intros i. by rewrite <- app_assoc.
Qed.

(** The elements at the positions [idx]. *)
Definition at_positions {A} (idx : list nat) (l : list A) : list A :=
  omap (λ o, o) (map (λ i, l !! i) idx).

Lemma omap_Some {A} (l : list A) : omap (λ o, o) (map Some l) = l.
Proof. induction l as [|a l IH]; csimpl; congruence. Qed.

Lemma at_positions_perm {A} idx (l : list A) : idx ≡ₚ seq 0 (length l) → at_positions idx l ≡ₚ l.
Proof.
  intros Hp. unfold at_positions. rewrite Hp. pose proof (lookup_seq_all l [] 0 eq_refl) as E. simpl in E.
  by rewrite E, omap_Some.
Qed.

Definition positions_schedule (idx : list nat) (n : nat) (Hidx : idx ≡ₚ seq 0 n) : Schedule.
Proof.
  refine {| schedule A l := if decide (length l = n) then at_positions idx l else l |}.
  intros A l. case_decide as E; [|done]. apply at_positions_perm. by rewrite E.
Defined.

Lemma order_schedule {A} (l k : list A) : k ≡ₚ l → ∃ S : Schedule, @schedule S A l = k.
Proof.
  intros Hp. assert (map Some k ≡ₚ map (λ i, l !! i) (seq 0 (length l))) as Hm.
  { rewrite Hp. pose proof (lookup_seq_all l [] 0 eq_refl) as E. simpl in E. by rewrite E. }
  apply Permutation_map_inv in Hm as (idx&Hk&Hidx).
  exists (positions_schedule idx (length l) (symmetry Hidx)). simpl. rewrite decide_True by done.
  unfold at_positions. by rewrite <- Hk, omap_Some.
Qed.

Definition batch {A} (l : list A) : state := {|
  todo := l; pc := Looping; wg := 0; sem := 0; routines := []; log := [] |}.

Lemma start_all {A} (l : list A) : ∀ w gs k,
  rtc (step false) {| todo := l; pc := Looping; wg := w; sem := 0; routines := gs; log := k |}
    {| todo := []; pc := Looping; wg := w + length l; sem := 0; routines := gs ++ map (λ c, (c, Working)) l; log := k |}.
Proof.
  induction l as [|c l IH]; intros w gs k; simpl; [by rewrite Nat.add_0_r, app_nil_r|].
  eapply rtc_l; [constructor|]. eapply rtc_l; [by constructor|].
  specialize (IH (S w) (gs ++ [(c, Working)]) k). rewrite <- app_assoc in IH.
  by replace (w + S (length l))%nat with (S w + length l)%nat by lia.
Qed.

Lemma work_all {A} (l : list A) : ∀ gs k,
  gs ≡ₚ map (λ c, (c, Working)) l →
  rtc (step false) {| todo := []; pc := Looping; wg := length l; sem := 0; routines := gs; log := k |}
    {| todo := []; pc := Looping; wg := 0; sem := 0; routines := []; log := k ++ l |}.
Proof.
  induction l as [|c l IH]; intros gs k Hgs; simpl in *.
  { apply Permutation_nil_r in Hgs as ->. by rewrite app_nil_r. }
  assert ((c, Working) ∈ gs) as (g1&g2&->)%list_elem_of_split by (rewrite Hgs; left).
  rewrite <- Permutation_middle in Hgs. apply Permutation_cons_inv in Hgs.
  eapply rtc_l; [apply step_work|]. eapply rtc_l; [apply step_Done|]. eapply rtc_l; [by apply step_leave|].
  specialize (IH (g1 ++ g2) (k ++ [c]) Hgs). by rewrite <- app_assoc in IH.
Qed.

(** With an old engine, where there are no places, the work can be done in every order. *)
Theorem every_order {A} (l k : list A) :
  k ≡ₚ l → ∃ st, rtc (step false) (batch l) st ∧ finished st ∧ log st = k.
Proof.
  intros Hp. exists {| todo := []; pc := Waited; wg := 0; sem := 0; routines := []; log := k |}. split; [|done].
  etransitivity; [apply start_all|]. rewrite Nat.add_0_l, app_nil_l.
  etransitivity; [|apply rtc_once, step_Wait]. rewrite <- (Permutation_length Hp).
  apply work_all. by rewrite Hp.
Qed.

(** ** Examples *)

Lemma batch_starts {A} good (l : list A) : starts good l (batch l).
Proof. split_and!; simpl; try done; [by destruct good|unfold sem_cap; lia]. Qed.

(** Two containers; the second is served first. *)
Definition ex_mid : state := {|
  todo := []; pc := Looping; wg := 2; sem := 2; routines := [(7, Working); (8, Worked)]; log := [8] |}.

Lemma queue_serves_witness :
  nsteps (step true) 5 (batch [7; 8]) ex_mid ∧
  ∃ st, rtc (step true) ex_mid st ∧ finished st ∧ log st ≡ₚ [7; 8] ∧ sem st = 0%nat.
Proof.
  assert (nsteps (step true) 5 (batch [7; 8]) ex_mid) as H.
  { eapply nsteps_l; [constructor|]. eapply nsteps_l; [constructor; unfold sem_cap; lia|].
    eapply nsteps_l; [constructor|]. eapply nsteps_l; [constructor; unfold sem_cap; lia|].
    eapply nsteps_l; [apply (step_work true [] Looping 2 2 [(7, Working)] 8 [] [])|]. constructor. }
  split; [exact H|].
  exact (proj2 (proj2 (proj2 (queue_serves true [7; 8] (batch [7; 8]) ex_mid 5 (batch_starts true _) H)))).
Defined.

Lemma every_order_witness : ∃ st, rtc (step false) (batch [1; 2; 3]) st ∧ finished st ∧ log st = [3; 1; 2].
Proof. apply (every_order [1; 2; 3] [3; 1; 2]). solve_Permutation. Defined.

(** A goroutine of a poll that did not know the version yet (0) looks at the version after
    [wg.Done], when the next poll has learned it: it takes the place of another one, and six
    goroutines ask the engine at the same time. *)
Definition ex_late : state := {|
  todo := [1; 2; 3; 4; 5; 6]; pc := Looping; wg := 0; sem := 0; routines := [(0, Released)]; log := [] |}.
Example stolen_place :
  ∃ st, rtc (step true) ex_late st ∧ length (List.filter active (routines st)) = 6%nat.
Proof.
  eexists. split; [|shelve].
  eapply rtc_l; [constructor|]. eapply rtc_l; [constructor; unfold sem_cap; lia|].
  eapply rtc_l; [apply (step_dequeue true [2; 3; 4; 5; 6] Looping 1 0 [] 0 [(1, Working)] []); reflexivity|].
  do 5 (eapply rtc_l; [constructor|]; eapply rtc_l; [constructor; unfold sem_cap; lia|]).
  apply rtc_refl. Unshelve. reflexivity.
Qed.
End DockerQueue.
