(* ===== verification/DockerLogs.v ===== *)
(** * Container logs ([getLogs] of [agent/docker.go])

    Docker multiplexes the standard streams of a container into frames: eight
    bytes of header, the last four the big-endian length, then the payload.  The
    agent recognises such streams, decodes them under two limits (a frame of at
    most 1 MB, 5 MB in all), and strips ANSI escape sequences.

    Bytes are [Z] values.  A reader is the bytes it will deliver and whether it
    then fails with an error other than the end of the file.  It is finite: the
    timeout of the HTTP client (2.1 s) covers the body, so that a body that does
    not end, even one of empty frames only, fails after the bytes that came. *)

From S2P Require Import Prelude GoStrings GoText.

Module DockerLogs.
Local Open Scope Z_scope.

Definition maxLogFrameSize : Z := 1024 * 1024.
Definition maxTotalLogSize : Z := 5 * 1024 * 1024.
Definition headerSize : nat := 8.

Record reader := { data : list Z; fails : bool }.

(** [binary.BigEndian.Uint32] *)
Definition BigEndian_Uint32 (b : list Z) : Z :=
  match b with
  | b0 :: b1 :: b2 :: b3 :: _ => b0 * 2 ^ 24 + b1 * 2 ^ 16 + b2 * 2 ^ 8 + b3
  | _ => 0
  end.

(** [reader.Peek(8)] fails when fewer bytes are left. *)
Definition detectDockerMultiplexedStream (r : reader) : bool :=
  match data r with
  | h0 :: h1 :: h2 :: h3 :: h4 :: h5 :: h6 :: h7 :: _ =>
      if negb (h0 =? 1) && negb (h0 =? 2) then false
      else if negb (h1 =? 0) || negb (h2 =? 0) || negb (h3 =? 0) then false
      else BigEndian_Uint32 [h4; h5; h6; h7] <=? maxLogFrameSize
  | _ => false
  end.

(** What a decoding returns: the text, or an error. *)
Inductive outcome := Done (logs : list Z) | Failed.

(** The loop over the frames; [None] when the fuel runs out. *)
Fixpoint decode_frames (fuel : nat) (r : reader) (totalBytesRead : Z) (builder : list Z)
    : option outcome :=
  match fuel with
  | O => None
  | S fuel =>
      if (List.length (data r) <? headerSize)%nat then
        Some (if fails r then Failed else Done builder)
      else
        let frameLen := BigEndian_Uint32 (drop 4 (data r)) in
        let rest := {| data := drop headerSize (data r); fails := fails r |} in
        if frameLen =? 0 then decode_frames fuel rest totalBytesRead builder
        else if maxLogFrameSize <? frameLen then Some Failed
        else if maxTotalLogSize <? totalBytesRead + frameLen then Some (Done builder)
        else
          let n := Z.to_nat frameLen in
          let builder := (builder ++ take n (data rest))%list in
          if (List.length (data rest) <? n)%nat then Some (if fails r then Failed else Done builder)
          else decode_frames fuel {| data := drop n (data rest); fails := fails r |}
                 (totalBytesRead + frameLen) builder
  end.

(** More iterations than the bytes of the reader allow. *)
Definition enough (r : reader) : nat := S (List.length (data r)).

Definition decodeDockerLogStream (r : reader) (multiplexed : bool) : option outcome :=
  if negb multiplexed then
    (* [io.Copy] of at most [maxTotalLogSize] bytes *)
    Some (if fails r && (Z.of_nat (List.length (data r)) <? maxTotalLogSize) then Failed
          else Done (take (Z.to_nat maxTotalLogSize) (data r)))
  else decode_frames (enough r) r 0 [].

(** ** ANSI escape sequences *)

Definition between (a lo hi : Z) : bool := (lo <=? a) && (a <=? hi).
Definition is_letter (a : Z) : bool := between a 65 90 || between a 97 122.

(** The text after a sequence that started with the escape and a bracket. *)
Fixpoint csi_end (s : list Z) : option (list Z) :=
  match s with
  | [] => None
  | a :: s' =>
      if between a 48 57 || (a =? 59) then csi_end s'
      else if is_letter a then Some s' else None
  end.

(** The text after the first bell. *)
Fixpoint osc_end (s : list Z) : option (list Z) :=
  match s with
  | [] => None
  | a :: s' => if a =? 7 then Some s' else osc_end s'
  end.

(** The text after the match of [ansiEscapePattern] at an escape, its alternatives in order. *)
Definition after_escape (s : list Z) : option (list Z) :=
  match s with
  | [] => None
  | a :: s' =>
      match (if a =? 91 then csi_end s' else None) with
      | Some t => Some t
      | None =>
          match (if a =? 93 then osc_end s' else None) with
          | Some t => Some t
          | None => if between a 64 90 || between a 92 95 then Some s' else None
          end
      end
  end.

(** [ReplaceAllString(logs, "")]; the fuel is the length of the text. *)
Fixpoint strip_fuel (fuel : nat) (s : list Z) : list Z :=
  match fuel, s with
  | S fuel, a :: s' =>
      if a =? 27 then
        match after_escape s' with
        | Some t => strip_fuel fuel t
        | None => a :: strip_fuel fuel s'
        end
      else a :: strip_fuel fuel s'
  | _, _ => []
  end.
Definition strip_ansi (s : list Z) : list Z := strip_fuel (List.length s) s.

(** [validateContainerID]: 12 to 64 hexadecimal digits. *)
Definition is_hex (a : ascii) : bool :=
  let n := Z.of_nat (nat_of_ascii a) in
  between n 48 57 || between n 65 70 || between n 97 102.

Definition validateContainerID (containerID : string) : bool :=
  let n := String.length containerID in
  (12 <=? n)%nat && (n <=? 64)%nat && forallb is_hex (list_ascii_of_string containerID).

(** [buildDockerContainerEndpoint], with the encoded query. *)
Definition buildDockerContainerEndpoint (containerID action query : string) : option string :=
  if validateContainerID containerID then
    Some ("http://localhost/containers/" ++ PathEscape containerID ++ "/" ++ action
          ++ (if String.eqb query "" then "" else "?" ++ query))%string
  else None.

(** The answer of the engine: an error, another status, or a body with its content type. *)
Inductive response :=
| NoResponse
| BadStatus
| Body (contentType : string) (r : reader).

(** [getLogs]: the requested address and, given its answer, the text ([None] on an error). *)
Definition getLogs (Do : string → response) (containerID : string) : option (list Z) :=
  endpoint ← buildDockerContainerEndpoint containerID "logs" "stderr=1&stdout=1&tail=200";
  match Do endpoint with
  | NoResponse | BadStatus => None
  | Body contentType r =>
      let multiplexed := HasSuffix contentType "multiplexed-stream" || detectDockerMultiplexedStream r in
      match decodeDockerLogStream r multiplexed with
      | Some (Done logs) => Some (if existsb (Z.eqb 27) logs then strip_ansi logs else logs)
      | _ => None
      end
  end.

(** ** The loop ends, within its limits *)

Lemma decode_frames_total fuel r total builder :
  (List.length (data r) < fuel)%nat → ∃ o, decode_frames fuel r total builder = Some o.
Proof.
  revert r total builder. induction fuel as [|fuel IH]; intros r total builder Hf; [lia|].
  simpl. destruct (List.length (data r) <? headerSize)%nat eqn:Hl; [eauto|].
  apply Nat.ltb_ge in Hl. unfold headerSize in *.
  destruct (_ =? 0); [apply IH; simpl; rewrite length_drop; lia|].
  destruct (maxLogFrameSize <? _); [eauto|].
  destruct (maxTotalLogSize <? _); [eauto|].
  destruct (List.length _ <? _)%nat; [eauto|].
  apply IH. simpl. rewrite !length_drop. lia.
Qed.

Definition bytes (l : list Z) : Prop := Forall (λ b, 0 ≤ b < 256) l.

Lemma BigEndian_range l : bytes l → 0 ≤ BigEndian_Uint32 l < 2 ^ 32.
Proof.
  intros Hl. destruct l as [|b0 [|b1 [|b2 [|b3 l]]]]; simpl; try lia.
  unfold bytes in Hl. rewrite !Forall_cons in Hl. lia.
Qed.

Lemma bytes_drop n l : bytes l → bytes (drop n l).
Proof. apply Forall_drop. Qed.

Lemma decode_frames_bound fuel r total builder logs :
  bytes (data r) → Z.of_nat (List.length builder) ≤ total ≤ maxTotalLogSize →
  decode_frames fuel r total builder = Some (Done logs) →
  Z.of_nat (List.length logs) ≤ maxTotalLogSize.
Proof.
  revert r total builder. induction fuel as [|fuel IH]; intros r total builder Hd Hb; [done|].
  simpl. destruct (List.length (data r) <? headerSize)%nat.
  { destruct (fails r); intros [= <-]. lia. }
  pose proof (BigEndian_range (drop 4 (data r)) (bytes_drop 4 _ Hd)) as Hr.
  destruct (_ =? 0); [by apply IH; [apply bytes_drop|]|].
  destruct (maxLogFrameSize <? _); [done|].
  destruct (maxTotalLogSize <? _) eqn:Et; [intros [= <-]; lia|]. zbool.
  assert (∀ (d : list Z) (k : Z), 0 ≤ k →
    Z.of_nat (List.length (builder ++ take (Z.to_nat k) d)) ≤ total + k) as Hlen.
  { intros d k Hk. rewrite length_app, length_take. lia. }
  destruct (List.length _ <? _)%nat.
  - destruct (fails r); intros [= <-]. etrans; [apply Hlen; lia|lia].
  - apply IH; [by do 2 apply bytes_drop|]. split; [apply Hlen; lia|lia].
Qed.

(** C22: decoding the log stream of a container ends whatever bytes the engine sends, and the
    text it returns is never larger than 5 MB. *)
Theorem log_stream_bounded r multiplexed :
  bytes (data r) →
  match decodeDockerLogStream r multiplexed with
  | Some (Done logs) => Z.of_nat (List.length logs) ≤ maxTotalLogSize
  | Some Failed => True
  | None => False
  end.
Proof.
  intros Hd. unfold decodeDockerLogStream. destruct multiplexed; cbn [negb].
  - destruct (decode_frames_total (enough r) r 0 []) as [o Ho]; [unfold enough; lia|].
    rewrite Ho. destruct o as [logs|]; [|done].
    eapply decode_frames_bound; [exact Hd| |exact Ho]. simpl. unfold maxTotalLogSize. lia.
  - destruct (fails r && _); [exact I|]. rewrite length_take.
    assert (0 ≤ maxTotalLogSize) by done. generalize dependent maxTotalLogSize. intros. lia.
Qed.

(** ** Round trip *)

Definition header (stream n : Z) : list Z :=
  [stream; 0; 0; 0; n / 2 ^ 24; n / 2 ^ 16 mod 256; n / 2 ^ 8 mod 256; n mod 256].

(** The frame the engine sends for a payload. *)
Definition frame (f : Z * list Z) : list Z :=
  let '(stream, payload) := f in header stream (Z.of_nat (List.length payload)) ++ payload.

Definition encode (frames : list (Z * list Z)) : list Z := List.concat (map frame frames).

Definition frame_ok (f : Z * list Z) : Prop :=
  (f.1 = 1 ∨ f.1 = 2) ∧ Z.of_nat (List.length f.2) ≤ maxLogFrameSize.

Lemma BigEndian_header stream n t :
  0 ≤ n < 2 ^ 32 → BigEndian_Uint32 (drop 4 (header stream n ++ t)) = n.
Proof.
  intros Hn. unfold header. cbn [drop app BigEndian_Uint32].
  change (2 ^ 24) with (256 * 256 * 256). change (2 ^ 16) with (256 * 256).
  change (2 ^ 8) with 256. rewrite <- !Z.div_div by lia.
  pose proof (Z.div_mod n 256 ltac:(lia)).
  pose proof (Z.div_mod (n / 256) 256 ltac:(lia)).
  pose proof (Z.div_mod (n / 256 / 256) 256 ltac:(lia)). lia.
Qed.

Lemma decode_frames_encode frames fuel total builder :
  Forall frame_ok frames →
  total = Z.of_nat (List.length builder) →
  total + Z.of_nat (List.length (List.concat (map snd frames))) ≤ maxTotalLogSize →
  (List.length (encode frames) < fuel)%nat →
  decode_frames fuel {| data := encode frames; fails := false |} total builder =
  Some (Done (builder ++ List.concat (map snd frames))%list).
Proof.
  revert fuel total builder. induction frames as [|[st payload] frames IH];
    intros fuel total builder Hok Ht Hlen Hfuel; (destruct fuel as [|fuel]; [lia|]).
  { simpl. by rewrite app_nil_r. }
  apply Forall_cons in Hok as [[_ Hsz] Hok]. cbn [fst snd] in Hsz.
  set (n := Z.of_nat (List.length payload)) in *.
  assert (encode ((st, payload) :: frames) = header st n ++ (payload ++ encode frames))%list as Henc.
  { unfold encode. cbn [map List.concat frame]. by rewrite <- app_assoc. }
  rewrite Henc in Hfuel |- *. rewrite !length_app in Hfuel.
  assert (0 ≤ n < 2 ^ 32) as Hn by (unfold maxLogFrameSize in Hsz; lia).
  assert (List.length (header st n) = 8%nat) as Hh by reflexivity.
  cbn [decode_frames data fails]. rewrite BigEndian_header by done.
  rewrite (proj2 (Nat.ltb_ge (List.length (header st n ++ _)) headerSize))
    by (rewrite length_app, Hh; unfold headerSize; lia).
  assert (drop headerSize (header st n ++ payload ++ encode frames)%list =
          (payload ++ encode frames)%list) as -> by reflexivity.
  cbn [map List.concat snd] in Hlen |- *. rewrite length_app in Hlen.
  destruct (n =? 0) eqn:E0.
  { zbool. assert (payload = []) as -> by (destruct payload; [done|simpl in *; lia]).
    cbn [app List.length] in *. rewrite IH; [done|done|done|lia|lia]. }
  zbool. rewrite (proj2 (Z.ltb_ge _ _)) by lia. rewrite (proj2 (Z.ltb_ge _ _)) by lia.
  assert (Z.to_nat n = List.length payload) as -> by lia.
  rewrite (proj2 (Nat.ltb_ge _ _)) by (rewrite length_app; lia).
  rewrite take_app_length, drop_app_length.
  rewrite IH; [by rewrite <- app_assoc|done|rewrite length_app; lia|lia|lia].
Qed.

Lemma encode_detected f frames b :
  Forall frame_ok (f :: frames) →
  detectDockerMultiplexedStream {| data := encode (f :: frames); fails := b |} = true.
Proof.
  intros [[Hs Hsz] _]%Forall_cons. destruct f as [st payload]. cbn [fst snd] in *.
  set (n := Z.of_nat (List.length payload)) in *.
  assert (0 ≤ n < 2 ^ 32) as Hn by (unfold maxLogFrameSize in Hsz; lia).
  pose proof (BigEndian_header st n [] Hn) as Hb.
  unfold detectDockerMultiplexedStream, encode. cbn [data map List.concat frame app header].
  unfold header in Hb. cbn [drop app] in Hb. fold n. rewrite Hb.
  destruct Hs as [-> | ->]; simpl; by apply Z.leb_le.
Qed.

(** The text of a container's logs is the payloads of the frames the engine sent, in order,
    whether or not the answer says that it is multiplexed. *)
Theorem log_frames_roundtrip Do containerID endpoint contentType f frames :
  buildDockerContainerEndpoint containerID "logs" "stderr=1&stdout=1&tail=200" = Some endpoint →
  Do endpoint = Body contentType {| data := encode (f :: frames); fails := false |} →
  Forall frame_ok (f :: frames) →
  let text := List.concat (map snd (f :: frames)) in
  Z.of_nat (List.length text) ≤ maxTotalLogSize → ¬ In 27 text →
  getLogs Do containerID = Some text.
Proof.
  intros He HDo Hok text Hlen Hesc. unfold getLogs. rewrite He. cbn [mbind option_bind].
  rewrite HDo. rewrite (encode_detected f frames false Hok), orb_true_r.
  unfold decodeDockerLogStream. cbn [negb].
  rewrite decode_frames_encode; [|done|done|done|unfold enough; cbn [data]; lia].
  cbn [app]. fold text. destruct (existsb (Z.eqb 27) text) eqn:E; [|done]. exfalso.
  apply existsb_exists in E as (x&Hx&<-%Z.eqb_eq). done.
Qed.
(** ** Escape sequences and addresses *)

Lemma csi_end_shorter s t : csi_end s = Some t → (List.length t < List.length s)%nat.
Proof.
  induction s as [|a s IH]; simpl; [done|].
  destruct (_ || _); [intros H%IH; lia|]. destruct (is_letter a); [|done]. intros [= <-]. lia.
Qed.

Lemma osc_end_shorter s t : osc_end s = Some t → (List.length t < List.length s)%nat.
Proof.
  induction s as [|a s IH]; simpl; [done|].
  destruct (a =? 7); [intros [= <-]; lia|]. intros H%IH. lia.
Qed.

Lemma after_escape_shorter s t : after_escape s = Some t → (List.length t < List.length s)%nat.
Proof.
  destruct s as [|a s]; simpl; [done|].
  destruct (if a =? 91 then csi_end s else None) eqn:E1.
  { intros [= <-]. destruct (a =? 91); [|done]. apply csi_end_shorter in E1. lia. }
  destruct (if a =? 93 then osc_end s else None) eqn:E2.
  { intros [= <-]. destruct (a =? 93); [|done]. apply osc_end_shorter in E2. lia. }
  destruct (_ || _); [|done]. intros [= <-]. lia.
Qed.

(** The fuel of [strip_ansi] never runs out: more makes no difference. *)
Lemma strip_fuel_enough n m s :
  (List.length s ≤ n)%nat → (List.length s ≤ m)%nat → strip_fuel n s = strip_fuel m s.
Proof.
  revert m s. induction n as [|n IH]; intros m s Hn Hm.
  { destruct s; [|simpl in *; lia]. by destruct m. }
  destruct m as [|m]; [destruct s; [done|simpl in *; lia]|].
  destruct s as [|a s]; [done|]. simpl in *.
  destruct (a =? 27); [|f_equal; apply IH; lia].
  destruct (after_escape s) as [t|] eqn:E; [|f_equal; apply IH; lia].
  apply after_escape_shorter in E. apply IH; lia.
Qed.

(** What is left is part of the text, in order. *)
Lemma strip_fuel_sublist n s : strip_fuel n s `sublist_of` s.
Proof.
  assert (∀ s t, csi_end s = Some t → t `sublist_of` s) as Hc.
  { clear. induction s as [|a s IH]; simpl; [done|]. intros t.
    destruct (_ || _); [intros ?; apply sublist_cons; auto|].
    destruct (is_letter a); [|done]. intros [= <-]. by apply sublist_cons. }
  assert (∀ s t, osc_end s = Some t → t `sublist_of` s) as Ho.
  { clear. induction s as [|a s IH]; simpl; [done|]. intros t.
    destruct (a =? 7); [intros [= <-]; by apply sublist_cons|intros ?; apply sublist_cons; auto]. }
  revert s. induction n as [|n IH]; intros s; [apply sublist_nil_l|].
  destruct s as [|a s]; [done|]. simpl. destruct (a =? 27); [|by apply sublist_skip].
  destruct (after_escape s) as [t|] eqn:E; [|by apply sublist_skip].
  etrans; [apply IH|]. apply sublist_cons. destruct s as [|b s]; [done|]. simpl in E.
  apply sublist_cons.
  destruct (if b =? 91 then csi_end s else None) eqn:E1; [|destruct (if b =? 93 then osc_end s else None) eqn:E2].
  - injection E as <-. destruct (b =? 91); [|done]. auto.
  - injection E as <-. destruct (b =? 93); [|done]. auto.
  - destruct (_ || _); [|done]. injection E as <-. done.
Qed.

(** One pass is not enough for nested sequences: what is left may be one. *)
Example strip_leaves_escape : strip_ansi [27; 27; 91; 109; 91; 109; 65] = [27; 91; 109; 65].
Proof. reflexivity. Qed.

Lemma hex_unreserved a : is_hex a = true → unreserved a = true.
Proof. destruct a as [[] [] [] [] [] [] [] []]; vm_compute; congruence. Qed.

(** A valid id goes into the address as it is: it cannot leave its path segment. *)
Lemma endpoint_exact id action query e :
  buildDockerContainerEndpoint id action query = Some e →
  e = ("http://localhost/containers/" ++ id ++ "/" ++ action
       ++ (if String.eqb query "" then "" else "?" ++ query))%string ∧
  forallb is_hex (list_ascii_of_string id) = true.
Proof.
  unfold buildDockerContainerEndpoint. destruct (validateContainerID id) eqn:Hv; [|done].
  unfold validateContainerID in Hv. apply andb_true_iff in Hv as [_ Hv]. intros [= <-].
  split; [|done].
  assert (PathEscape id = id) as ->; [|done]. clear action query.
  induction id as [|a id IH]; [done|]. simpl in Hv |- *. apply andb_true_iff in Hv as [Ha Hid].
  rewrite hex_unreserved by done. by rewrite IH.
Qed.

Definition ex_frames : list (Z * list Z) := [(1, [104; 105; 10]); (2, [33])].
Definition ex_do (e : string) : response :=
  Body "text/plain" {| data := encode ex_frames; fails := false |}.

Lemma log_frames_roundtrip_witness : getLogs ex_do "0123456789ab" = Some [104; 105; 10; 33].
Proof.
  apply (log_frames_roundtrip ex_do "0123456789ab"
    "http://localhost/containers/0123456789ab/logs?stderr=1&stdout=1&tail=200"
    "text/plain" (1, [104; 105; 10]) [(2, [33])]).
  - reflexivity.
  - reflexivity.
  - repeat constructor; try (by left); try (by right); unfold maxLogFrameSize; simpl; lia.
  - unfold maxTotalLogSize. simpl. lia.
  - simpl. intuition discriminate.
Defined.

Lemma log_stream_bounded_witness :
  match decodeDockerLogStream {| data := encode ex_frames ++ [1; 0; 0; 0; 0; 0]; fails := false |} true with
  | Some (Done logs) => Z.of_nat (List.length logs) ≤ maxTotalLogSize
  | Some Failed => True
  | None => False
  end.
Proof.
  apply (log_stream_bounded _ true). unfold bytes. cbn [data].
  repeat (apply Forall_cons_2; [vm_compute; split; [intros H; discriminate H|reflexivity]|]).
  apply Forall_nil_2.
Defined.
End DockerLogs.
