(* ===== verification/AgentSession.v ===== *)
(** * Requests to the agent ([agent/handlers.go], [agent/server.go], [getContainerInfo] of
    [agent/docker.go], [getServiceDetails] of [agent/systemd.go])

    The handlers of the actions, and the SSH sessions in which a hub sends them.  What the
    handlers ask of the collectors is an interface; container logs are those of [DockerLogs].
    The decoding of requests and the versions of hubs are arguments. *)

From S2P Require Import Prelude GoStrings GoText Transport DockerLogs AgentHandlers.

Module AgentSession.
Import Transport.
Local Open Scope string_scope.

(** ** Container details *)

(** Decoded JSON; the keys of an object are distinct. *)
Inductive json :=
  | JNull | JBool (b : bool) | JNumber (s : string) | JString (s : string) | JArray (l : list json)
  | JObject (l : list (string * json)).

Definition field (k : string) (l : list (string * json)) : option json :=
  snd <$> List.find (λ p, String.eqb p.1 k) l.
Definition object (j : json) : option (list (string * json)) :=
  match j with JObject l => Some l | _ => None end.
Definition delete_key (k : string) (l : list (string * json)) : list (string * json) :=
  List.filter (λ p, negb (String.eqb p.1 k)) l.

Inductive info_response := InfoNone | InfoBadStatus | InfoBody (doc : option (list (string * json))).

Definition without_env (v : json) : json :=
  match v with JObject c => JObject (delete_key "Env" c) | _ => v end.
Definition hide_env (info : list (string * json)) : list (string * json) :=
  map (λ p, if String.eqb p.1 "Config" then (p.1, without_env p.2) else p) info.
Definition getContainerInfo (Do : string → info_response) (containerID : string)
    : option (list (string * json)) :=
  endpoint ← DockerLogs.buildDockerContainerEndpoint containerID "json" "";
  match Do endpoint with
  | InfoBody (Some containerInfo) => Some (hide_env containerInfo)
  | _ => None
  end.

Definition config_field (k : string) (info : list (string * json)) : option json :=
  v ← field "Config" info; c ← object v; field k c.

Lemma field_delete k l : field k (delete_key k l) = None.
Proof.
  unfold field, delete_key. induction l as [|[k' v] l IH]; [done|]. simpl.
  destruct (String.eqb k' k) eqn:E; simpl; [done|]. by rewrite E.
Qed.
Lemma field_delete_ne k k' l : k' ≠ k → field k' (delete_key k l) = field k' l.
Proof.
  intros Hne. unfold field, delete_key. induction l as [|[i v] l IH]; [done|]. simpl.
  destruct (String.eqb_spec i k) as [->|]; simpl.
  - rewrite (proj2 (String.eqb_neq k k')) by congruence. exact IH.
  - destruct (String.eqb i k'); [done|exact IH].
Qed.
Lemma field_hide k info :
  field k (hide_env info) =
    if String.eqb k "Config" then without_env <$> field k info else field k info.
Proof.
  unfold field, hide_env. induction info as [|[i v] l IH]; cbn [map List.find fst snd].
  { by destruct (String.eqb k _). }
  destruct (String.eqb_spec i "Config") as [->|Hi]; cbn [fst snd].
  - destruct (String.eqb_spec "Config" k) as [<-|Hk]; [by rewrite String.eqb_refl|exact IH].
  - destruct (String.eqb_spec i k) as [->|Hk]; [|exact IH].
    by rewrite (proj2 (String.eqb_neq _ _) Hi).
Qed.

(** What is sent of a container has no environment variables, and everything else of its
    configuration and of the container. *)
Theorem container_env_hidden Do id info :
  getContainerInfo Do id = Some info →
  config_field "Env" info = None ∧
  ∃ endpoint doc, Do endpoint = InfoBody (Some doc) ∧
    (∀ k, k ≠ "Config" → field k info = field k doc) ∧
    (∀ k, k ≠ "Env" → config_field k info = config_field k doc).
Proof.
  unfold getContainerInfo. destruct (DockerLogs.buildDockerContainerEndpoint id "json" "") as [e|]; [|done]. simpl.
  destruct (Do e) as [| |[doc|]] eqn:HDo; try done. intros [= <-].
  unfold config_field. rewrite field_hide. simpl. split.
  - destruct (field "Config" doc) as [[]|]; try done. simpl. apply field_delete.
  - exists e, doc. split; [done|]. split.
    + intros k Hk. by rewrite field_hide, (proj2 (String.eqb_neq _ _) Hk).
    + intros k Hk. destruct (field "Config" doc) as [[]|]; try done. simpl. by apply field_delete_ne.
Qed.

(** ** Details of services *)

Section details.
Context {Val : Type}.

(** A property of a unit: a 64-bit number or something else. *)
Inductive variant := VUint64 (n : Z) | VOther (v : Val).

Definition servicePropNames : list string :=
  ["MainPID"; "ExecMainPID"; "TasksCurrent"; "TasksMax"; "MemoryCurrent"; "MemoryPeak"; "MemoryLimit";
   "CPUUsageNSec"; "NRestarts"; "ExecMainStartTimestampRealtime"; "Result"].

Definition unit_name (serviceName : string) : string :=
  if HasSuffix serviceName ".service" then serviceName else serviceName ++ ".service".

(** The largest number stands for no value. *)
Definition prop_value (v : variant) : option variant :=
  match v with VUint64 n => if (n =? 2 ^ 64 - 1)%Z then None else Some v | _ => Some v end.

Definition getServiceDetails (connect : bool) (props : string → option (gmap string (option variant)))
    (prop : string → string → option variant) (serviceName : string) : option (gmap string (option variant)) :=
  if negb connect then None
  else
    let unitName := unit_name serviceName in
    details ← props unitName;
    Some (fold_left (λ m p, match prop unitName p with Some v => <[p := prop_value v]> m | None => m end)
            servicePropNames details).

Lemma details_lookup f l (m : gmap string (option variant)) k :
  NoDup l →
  fold_left (λ m p, match f p with Some v => <[p := prop_value v]> m | None => m end) l m !! k =
    match (if bool_decide (k ∈ l) then f k else None) with Some v => Some (prop_value v) | None => m !! k end.
Proof using Type.
  intros Hnd. revert m. induction Hnd as [|p l Hp Hnd IH]; intros m; [by rewrite bool_decide_false by (by apply not_elem_of_nil)|].
  simpl fold_left. rewrite IH. destruct (decide (k = p)) as [->|Hne].
  - rewrite (bool_decide_false (p ∈ l)), (bool_decide_true (p ∈ p :: l)) by (done || left).
    destruct (f p); [by rewrite lookup_insert_eq|done].
  - assert (bool_decide (k ∈ p :: l) = bool_decide (k ∈ l)) as ->
      by (apply bool_decide_ext; rewrite elem_of_cons; naive_solver).
    destruct (if bool_decide _ then _ else _); [done|].
    destruct (f p); [by rewrite lookup_insert_ne|done].
Qed.
End details.
Arguments variant : clear implicits.

(** ** Handlers *)

(** What the handlers ask of the rest of the agent. *)
Record collectors {S St Sm Val : Type} := {
  gatherStats : Z → bool → S → S * St;
  dockerManager : S → bool;
  dockerLogs : string → DockerLogs.response;
  dockerInfo : string → info_response;
  smartManager : S → bool;
  refreshSmart : S → S;
  smartData : S → Sm;
  systemdManager : S → bool;
  serviceDetails : string → option (gmap string (option (variant Val)));
  pushBinary : S → S * option string; (* [AgentUpdate.Handle] on the request *)
}.
Arguments collectors : clear implicits.

Section handlers.
Context {S St Sm Val Data : Type} (co : collectors S St Sm Val).
(** Decoding of the requests' data; that of options never fails. *)
Context (options : Data → Z * bool) (containerID serviceName : Data → option string).

Inductive payload :=
  | Stats (s : St) | Text (s : list Z) | Info (l : list (string * json)) | Smart (m : Sm)
  | NoSmart | Service (m : gmap string (option (variant Val))) | Ack.

(** A handler: the state, what it sends if sending works, its error, and whether the agent exits. *)
Record handled := { h_state : S; h_sent : list payload; h_err : option string; h_exit : bool }.

Definition send (ok : bool) (s : S) (p : payload) (exit : bool) : handled :=
  if ok then {| h_state := s; h_sent := [p]; h_err := None; h_exit := exit |}
  else {| h_state := s; h_sent := []; h_err := Some "send"; h_exit := false |}.
Definition fail (s : S) (msg : string) : handled :=
  {| h_state := s; h_sent := []; h_err := Some msg; h_exit := false |}.

Definition Handle (ok : bool) (action : WebSocketAction) (d : Data) (s : S) : handled :=
  match action with
  | GetData =>
      let '(cacheTimeMs, includeDetails) := options d in
      let '(s, st) := gatherStats co cacheTimeMs includeDetails s in
      send ok s (Stats st) false
  | CheckFingerprint => fail s "handled by the client"
  | GetContainerLogs =>
      if negb (dockerManager co s) then send ok s (Text []) false
      else match containerID d with
           | None => fail s "cbor"
           | Some id => match DockerLogs.getLogs (dockerLogs co) id with
                        | Some logs => send ok s (Text logs) false
                        | None => fail s "logs"
                        end
           end
  | GetContainerInfo =>
      if negb (dockerManager co s) then send ok s (Text []) false
      else match containerID d with
           | None => fail s "cbor"
           | Some id => match getContainerInfo (dockerInfo co) id with
                        | Some info => send ok s (Info info) false
                        | None => fail s "info"
                        end
           end
  | GetSmartData =>
      if negb (smartManager co s) then send ok s NoSmart false
      else let s := refreshSmart co s in send ok s (Smart (smartData co s)) false
  | GetSystemdInfo =>
      if negb (systemdManager co s) then fail s "unsupported operation"
      else match serviceName d with
           | None => fail s "cbor"
           | Some n =>
               if String.eqb n "" then fail s "service name is required"
               else match serviceDetails co n with
                    | Some m => send ok s (Service m) false
                    | None => fail s "details"
                    end
           end
  | RestartAgent => send ok s Ack true
  | PushAgentBinary =>
      match pushBinary co s with
      | (s, None) => send ok s Ack true
      | (s, Some e) => fail s e
      end
  end.

Lemma Handle_one action d s :
  action ≠ CheckFingerprint →
  let h := Handle true action d s in
  (∃ p, h_sent h = [p] ∧ h_err h = None) ∨ (h_sent h = [] ∧ is_Some (h_err h) ∧ h_exit h = false).
Proof using Type.
  intros Hne. unfold Handle, send, fail. destruct action; try done;
    repeat (case_match; simplify_eq/=); eauto.
Qed.

(** ** SSH *)

(** What is written to a session: responses, or bare statistics in one of two encodings. *)
Inductive message := Response (p : payload) | ErrorResponse (msg : string) | Bare (cbor : bool) (st : St).

Definition handleSSHRequest (action : Z) (d : Data) (s : S) : S * list message * bool :=
  match AgentHandlers.GetHandler action with
  | Some CheckFingerprint => (s, [ErrorResponse "unsupported action"], false)
  | Some a =>
      let h := Handle true a d s in
      (h_state h, (Response <$> h_sent h) ++ match h_err h with Some e => [ErrorResponse e] | None => [] end,
       h_exit h)%list
  | None => (s, [ErrorResponse "unknown action"], false)
  end.

Definition defaultDataCacheTimeMs : Z := 60000.

(** The versions of hubs that matter: before 0.12, 0.12, and 0.13 on; one that cannot be parsed is
    the oldest. *)
Inductive hub_version := Old | Cbor | Current.
Definition legacy (v : hub_version) : bool := match v with Current => false | _ => true end.
Definition has_cbor (v : hub_version) : bool := match v with Old => false | _ => true end.

(** The versions are remembered by session, and never forgotten. *)
Definition getHubVersion (hubVersions : gmap string hub_version) (sessionId : string) (client : option hub_version)
    : gmap string hub_version * hub_version :=
  match hubVersions !! sessionId with
  | Some v => (hubVersions, v)
  | None => let v := default Old client in (<[sessionId := v]> hubVersions, v)
  end.

Definition handleLegacyStats (v : hub_version) (s : S) : S * message :=
  let '(s, st) := gatherStats co defaultDataCacheTimeMs false s in (s, Bare (has_cbor v) st).

(** [handleSession], when every write succeeds: the state, the messages, and whether the agent
    exits; a request that cannot be decoded is none. *)
Definition handleSession (v : hub_version) (request : option (Z * Data)) (s : S) : S * list message * bool :=
  let '(s, first) :=
    if legacy v then let '(s, m) := handleLegacyStats v s in (s, [m]) else (s, []) in
  match request with
  | None => let '(s, m) := handleLegacyStats v s in (s, first ++ [m], false)%list
  | Some (action, d) => let '(s, ms, e) := handleSSHRequest action d s in (s, first ++ ms, e)%list
  end.

Lemma ssh_request_one action d s : List.length (handleSSHRequest action d s).1.2 = 1%nat.
Proof using Type.
  unfold handleSSHRequest. destruct (AgentHandlers.GetHandler action) as [a|]; [|done].
  assert (a = CheckFingerprint ∨ a ≠ CheckFingerprint) as [->|Hne] by (destruct a; auto); [done|].
  assert (Hl : List.length ((Response <$> h_sent (Handle true a d s)) ++
     match h_err (Handle true a d s) with Some e => [ErrorResponse e] | None => [] end)%list = 1%nat).
  { destruct (Handle_one a d s Hne) as [(p&->&->)|(->&[e ->]&_)]; done. }
  by destruct a.
Qed.

(** C32: a session of a current hub gets exactly one message, whatever it asks; the agent exits only
    after it has acknowledged a restart or a new binary. *)
Theorem session_answers_once v request s s' ms e :
  legacy v = false → handleSession v request s = (s', ms, e) →
  List.length ms = 1%nat ∧
  (e = true → ms = [Response Ack] ∧
     ∃ action d, request = Some (action, d) ∧
       (AgentHandlers.GetHandler action = Some RestartAgent ∨
        AgentHandlers.GetHandler action = Some PushAgentBinary)).
Proof using Type.
  intros Hv. unfold handleSession. rewrite Hv. destruct request as [[action d]|].
  2:{ unfold handleLegacyStats. destruct (gatherStats co _ _ s) as [s1 st]. by intros [= <- <- <-]. }
  pose proof (ssh_request_one action d s) as Hone.
  destruct (handleSSHRequest action d s) as [[s1 ms1] e1] eqn:H. intros [= <- <- <-]. simpl in *.
  split; [done|]. intros ->. unfold handleSSHRequest in H.
  destruct (AgentHandlers.GetHandler action) as [a|] eqn:Ha; [|done].
  destruct a; unfold Handle, send, fail in H;
    simplify_eq/=; repeat (case_match; simplify_eq/=); eauto 8.
Qed.
End handlers.

(** ** Examples *)

Definition ex_doc : list (string * json) :=
  [("Id", JString "0123456789ab");
   ("Config", JObject [("Image", JString "nginx"); ("Env", JArray [JString "PASSWORD=secret"])])].
Definition ex_info (endpoint : string) : info_response :=
  if String.eqb endpoint "http://localhost/containers/0123456789ab/json" then InfoBody (Some ex_doc) else InfoNone.

Lemma container_env_hidden_witness :
  getContainerInfo ex_info "0123456789ab" =
    Some [("Id", JString "0123456789ab"); ("Config", JObject [("Image", JString "nginx")])] ∧
  config_field "Env" [("Id", JString "0123456789ab"); ("Config", JObject [("Image", JString "nginx")])] = None.
Proof. split; [reflexivity|]. by apply (container_env_hidden ex_info "0123456789ab"). Defined.

(** An agent that counts its polls. *)
Definition ex_collectors : collectors nat nat nat nat := {|
  gatherStats ct details s := (Datatypes.S s, s); dockerManager s := true; dockerLogs e := DockerLogs.NoResponse;
  dockerInfo := ex_info; smartManager s := false; refreshSmart s := s; smartData s := 0%nat;
  systemdManager s := false; serviceDetails n := None; pushBinary s := (s, None) |}.
Definition ex_session (v : hub_version) (request : option (Z * string)) (s : nat) :=
  handleSession ex_collectors (λ _, (1000, false)%Z) Some Some v request s.

Lemma session_answers_once_witness :
  ex_session Current (Some (6%Z, "")) 0 = (0%nat, [Response Ack], true) ∧
  List.length (ex_session Current (Some (3%Z, "0123456789ab")) 0).1.2 = 1%nat.
Proof.
  split; [reflexivity|].
  destruct (session_answers_once ex_collectors (λ _, (1000, false)%Z) Some Some Current
    (Some (3%Z, "0123456789ab")) 0 0 [Response (Info (hide_env ex_doc))] false eq_refl eq_refl) as [H _].
  exact H.
Defined.

(** The one-shot answer of an older hub does not end its session: the hub, which sends nothing, gets
    the statistics twice. *)
Example older_hub_gets_two : ex_session Old None 0 = (2%nat, [Bare false 0%nat; Bare false 1%nat], false).
Proof. reflexivity. Qed.
End AgentSession.
