(* ===== verification/Systemd.v ===== *)
(** * Services of the agent ([agent/systemd.go], [entities/systemd/systemd.go])

    Every ten minutes the agent asks systemd for its services and keeps their
    state, memory, CPU usage and peaks in a map by unit name; the hub's poll takes
    them when they are fresh.  What D-Bus answers is an argument; a property is a
    [uint64], something else, or an error.  The map holds the structs the source
    points to. *)

From S2P Require Import Prelude GoFloat GoFloatFacts GoStrings GoText.

Local Open Scope Z_scope.

Inductive ServiceState :=
| StatusActive | StatusInactive | StatusFailed | StatusActivating | StatusDeactivating
| StatusReloading.
Inductive ServiceSubState :=
| SubStateDead | SubStateRunning | SubStateExited | SubStateFailed | SubStateUnknown.

#[export] Instance ServiceState_eq : EqDecision ServiceState.
Proof. solve_decision. Defined.
#[export] Instance ServiceSubState_eq : EqDecision ServiceSubState.
Proof. solve_decision. Defined.

Definition ParseServiceStatus (status : string) : ServiceState :=
  if String.eqb status "active" then StatusActive
  else if String.eqb status "inactive" then StatusInactive
  else if String.eqb status "failed" then StatusFailed
  else if String.eqb status "activating" then StatusActivating
  else if String.eqb status "deactivating" then StatusDeactivating
  else if String.eqb status "reloading" then StatusReloading
  else StatusInactive.

Definition ParseServiceSubState (subState : string) : ServiceSubState :=
  if String.eqb subState "dead" then SubStateDead
  else if String.eqb subState "running" then SubStateRunning
  else if String.eqb subState "exited" then SubStateExited
  else if String.eqb subState "failed" then SubStateFailed
  else SubStateUnknown.

(** ** One service *)

Module Service.
Record t := mk {
  Name : string; State : ServiceState; Cpu : f64; Mem : Z; MemPeak : Z; Sub : ServiceSubState;
  CpuPeak : f64; PrevCpuUsage : Z; PrevReadTime : option Z;   (* nanoseconds *)
}.
Definition named (name : string) : t :=
  mk name StatusActive f64_zero 0 0 SubStateDead f64_zero 0 None.
End Service.

Module Systemd.
Import Service.

(** [int64] arithmetic. *)
Definition i64 (x : Z) : Z := (x + 2 ^ 63) `mod` 2 ^ 64 - 2 ^ 63.

Definition with_cpu (s : Service.t) (cpu peak : f64) (usage now : Z) : Service.t :=
  mk (Name s) (State s) cpu (Mem s) (MemPeak s) (Sub s) peak usage (Some now).

Definition UpdateCPUPercent (numCPU now cpuUsage : Z) (s : Service.t) : Service.t :=
  match PrevReadTime s with
  | None => with_cpu s f64_zero (CpuPeak s) cpuUsage now
  | Some prev =>
      if cpuUsage <? PrevCpuUsage s then with_cpu s f64_zero (CpuPeak s) cpuUsage now
      else
        let duration := now - prev in
        if duration <=? 0 then with_cpu s (Cpu s) (CpuPeak s) cpuUsage now
        else
          let duration := i64 (duration * numCPU) in
          let usageDelta := u64 (cpuUsage - PrevCpuUsage s) in
          let cpuPercent := f64_div (f64_of_Z usageDelta) (f64_of_Z duration) in
          let cpu := twoDecimals (f64_mul cpuPercent (f64_of_Z 100)) in
          with_cpu s cpu (if f64_lt (CpuPeak s) cpu then cpu else CpuPeak s) cpuUsage now
  end.

(** ** Names *)

Definition unescapeServiceName (name : string) : string :=
  if negb (Contains name "\x") then name else default name (unquote name).

Definition getServicePatterns (env : option string) : list string :=
  let patterns :=
    flat_map (λ pattern,
      let pattern := TrimSpace pattern in
      if String.eqb pattern "" then []
      else if HasSuffix pattern "timer" || HasSuffix pattern ".service" then [pattern]
      else [(pattern ++ ".service")%string])
      (match env with
       | Some e => if String.eqb e "" then [] else Split comma e
       | None => []
       end) in
  match patterns with [] => ["*.service"%string] | _ => patterns end.

(** ** The manager *)

Record systemdManager := {
  serviceStatsMap : gmap string Service.t;
  hasFreshStats : bool;
}.

Record UnitStatus := { u_Name : string; ActiveState : string; SubState : string }.

Definition MaxUint64 : Z := 2 ^ 64 - 1.

(** A property of a unit. *)
Inductive property := PErr | PUint64 (v : Z) | POther.

(** What D-Bus answers about the unit: interface and property to value. *)
Definition bus : Type := string → string → property.

(** The value of a property when it is a number other than the maximum. *)
Definition available (p : property) (dflt : Z) : Z :=
  match p with PUint64 v => if v =? MaxUint64 then dflt else v | _ => dflt end.

(** [updateServiceStats]; the service is [None] on an error. *)
Definition updateServiceStats (numCPU now : Z) (sm : systemdManager) (props : bus)
    (unit : UnitStatus) : systemdManager * option Service.t :=
  match props "Unit"%string "ActiveEnterTimestamp"%string with
  | PUint64 ts =>
      if (ts =? 0) || (ts =? MaxUint64) then (sm, None)
      else
        let service :=
          default (Service.named (unescapeServiceName (TrimSuffix (u_Name unit) ".service")))
            (serviceStatsMap sm !! u_Name unit) in
        let memPeak := available (props "Service"%string "MemoryPeak"%string) (MemPeak service) in
        let memUsage := available (props "Service"%string "MemoryCurrent"%string) 0 in
        let memPeak := if memPeak <? memUsage then memUsage else memPeak in
        let cpuUsage :=
          match props "Service"%string "CPUUsageNSec"%string with PUint64 v => v | _ => 0 end in
        let service :=
          Service.mk (Name service) (ParseServiceStatus (ActiveState unit)) (Cpu service) memUsage
            (if MemPeak service <? memPeak then memPeak else MemPeak service)
            (ParseServiceSubState (SubState unit)) (CpuPeak service) (PrevCpuUsage service)
            (PrevReadTime service) in
        let service := UpdateCPUPercent numCPU now cpuUsage service in
        ({| serviceStatsMap := <[u_Name unit := service]> (serviceStatsMap sm);
            hasFreshStats := hasFreshStats sm |}, Some service)
  | _ => (sm, None)
  end.

Section manager.
Context {RO : RangeOrder string}.

Definition getServiceStatsCount (sm : systemdManager) : Z := Z.of_nat (size (serviceStatsMap sm)).

Definition getFailedServiceCount (sm : systemdManager) : Z :=
  fold_left (λ count '(_, service),
               if decide (State service = StatusFailed) then u16 (count + 1) else count)
    (range_list (serviceStatsMap sm)) 0.

(** [getServiceStats(nil, false)]: what is there, which is then no longer fresh. *)
Definition take_services (sm : systemdManager) : systemdManager * list Service.t :=
  ({| serviceStatsMap := serviceStatsMap sm; hasFreshStats := false |},
   map snd (range_list (serviceStatsMap sm))).

(** [getServiceStats(conn, true)]; [units] is [None] when systemd could not be asked, [props]
    gives the properties of every unit. *)
Definition refresh_services (numCPU now : Z) (sm : systemdManager)
    (units : option (list UnitStatus)) (props : string → bus) : systemdManager * list Service.t :=
  match units with
  | None => (sm, [])
  | Some units =>
      let currentUnits : gset string := list_to_set (map u_Name units) in
      let '(sm, services) :=
        fold_left
          (λ '(sm, services) unit,
             let '(sm, service) := updateServiceStats numCPU now sm (props (u_Name unit)) unit in
             (sm, match service with Some s => services ++ [s] | None => services end)%list)
          units (sm, []) in
      ({| serviceStatsMap := filter (λ kv, kv.1 ∈ currentUnits) (serviceStatsMap sm);
          hasFreshStats := true |}, services)
  end.

(** ** Peaks *)

(** A service whose peaks are at least its present figures. *)
Definition peaks_ok (s : Service.t) : Prop :=
  0 ≤ Mem s ≤ MemPeak s ∧ f64_le f64_zero (CpuPeak s) = true ∧ f64_le (Cpu s) (CpuPeak s) = true.

Lemma f64_of_Z_finite n :
  0 < n < 2 ^ 64 → ∃ m e, f64_of_Z n = S754_finite false m e.
Proof.
  intros Hn. destruct n as [|p|]; [lia| |lia]. unfold f64_of_Z, binary_normalize.
  destruct (binary_round_spec false p 0) as (_&Hf&Hz&Hi).
  assert (Zdigits2 (Zpos p) ≤ 64).
  { apply digits2_pos_bound; lia. }
  specialize (Hz ltac:(lia)). specialize (Hi ltac:(lia)).
  destruct Hf as [?|[?|?]]; [congruence|congruence|done].
Qed.

Lemma f64_round_valid x : valid64 x = true → is_nan x = false →
  valid64 (f64_round x) = true ∧ is_nan (f64_round x) = false.
Proof.
  intros Hv Hn. destruct x as [s|s| |s m e]; [done..|]. unfold f64_round.
  destruct (0 <=? e); [done|]. case_match; [done| |done].
  destruct (binary_round_spec s p 0) as (?&Hf&_&_). split; [done|].
  destruct Hf as [->|[->|(?&?&->)]]; done.
Qed.

Lemma cpu_not_nan delta duration :
  0 < duration < 2 ^ 64 →
  is_nan (twoDecimals (f64_mul (f64_div (f64_of_Z delta) (f64_of_Z duration)) (f64_of_Z 100))) = false.
Proof.
  intros Hd. destruct (f64_of_Z_finite duration Hd) as (m&e&E).
  pose proof (f64_of_Z_valid duration) as Hv. rewrite E in Hv |- *.
  assert (is_nan (f64_of_Z delta) = false) as Hn.
  { unfold f64_of_Z, binary_normalize. destruct delta; [done| |];
      [destruct (binary_round_spec false p 0) as (_&Hf&_)|destruct (binary_round_spec true p 0) as (_&Hf&_)];
      destruct Hf as [->|[->|(?&?&->)]]; done. }
  destruct (f64_div_spec _ _ _ _ (f64_of_Z_valid delta) Hn Hv) as [Hv1 Hn1].
  change (f64_of_Z 100) with f64_100. rewrite f64_100_eq.
  destruct (f64_mul_spec _ false 7036874417766400 (-46) Hv1 Hn1 eq_refl) as [Hv2 Hn2].
  unfold twoDecimals. change (f64_of_Z 100) with f64_100. rewrite f64_100_eq.
  destruct (f64_mul_spec _ false 7036874417766400 (-46) Hv2 Hn2 eq_refl) as [Hv3 Hn3].
  destruct (f64_round_valid _ Hv3 Hn3) as [Hv4 Hn4].
  by destruct (f64_div_spec _ false 7036874417766400 (-46) Hv4 Hn4 eq_refl).
Qed.

Lemma UpdateCPUPercent_peaks numCPU now cpuUsage s :
  (∀ prev, PrevReadTime s = Some prev → (now - prev) * numCPU < 2 ^ 63) → 0 < numCPU →
  f64_le f64_zero (CpuPeak s) = true → f64_le (Cpu s) (CpuPeak s) = true →
  let s' := UpdateCPUPercent numCPU now cpuUsage s in
  Mem s' = Mem s ∧ MemPeak s' = MemPeak s ∧ f64_le f64_zero (CpuPeak s') = true ∧
  f64_le (Cpu s') (CpuPeak s') = true ∧ f64_le (CpuPeak s) (CpuPeak s') = true.
Proof.
  intros Hd Hn Hz Hc. pose proof (f64_le_nan _ _ Hz) as [_ Hpn]. cbv zeta.
  unfold UpdateCPUPercent. destruct (PrevReadTime s) as [prev|]; cbn;
    [|split_and!; auto with bantay].
  specialize (Hd _ eq_refl).
  destruct (cpuUsage <? PrevCpuUsage s); cbn; [split_and!; auto with bantay|].
  destruct (now - prev <=? 0) eqn:Hle; cbn; [split_and!; auto with bantay|]. zbool.
  assert (0 < i64 ((now - prev) * numCPU) < 2 ^ 64) as Hi.
  { unfold i64. rewrite Z.mod_small by nia. nia. }
  pose proof (cpu_not_nan (u64 (cpuUsage - PrevCpuUsage s)) _ Hi) as Hnan.
  set (cpu := twoDecimals _) in *.
  destruct (f64_lt (CpuPeak s) cpu) eqn:Hlt.
  - split_and!; [done..| |auto with bantay|auto with bantay].
    eapply f64_le_trans; [exact Hz|]. by apply f64_lt_le.
  - split_and!; [done..| |auto with bantay].
    rewrite f64_lt_negb_le in Hlt by done. by apply negb_false_iff in Hlt.
Qed.

Definition services_ok (numCPU now : Z) (sm : systemdManager) : Prop :=
  ∀ n s, serviceStatsMap sm !! n = Some s →
    peaks_ok s ∧ ∀ prev, PrevReadTime s = Some prev → (now - prev) * numCPU < 2 ^ 63.

(** Numbers on the bus are unsigned. *)
Definition bus_ok (b : bus) : Prop := ∀ i p v, b i p = PUint64 v → 0 ≤ v.

(** A unit that has been active. *)
Definition was_active (b : bus) : bool :=
  match b "Unit"%string "ActiveEnterTimestamp"%string with
  | PUint64 ts => negb ((ts =? 0) || (ts =? MaxUint64))
  | _ => false
  end.

Lemma available_nonneg b i p d : bus_ok b → 0 ≤ d → 0 ≤ available (b i p) d.
Proof.
  intros Hb Hd. unfold available. destruct (b i p) eqn:E; [done| |done].
  destruct (v =? MaxUint64); [done|]. by eapply Hb.
Qed.

Lemma updateServiceStats_spec numCPU now sm b unit :
  0 < numCPU → 0 ≤ now → services_ok numCPU now sm → bus_ok b →
  let '(sm', service) := updateServiceStats numCPU now sm b unit in
  services_ok numCPU now sm' ∧
  dom (serviceStatsMap sm') =
    (if was_active b then {[u_Name unit]} ∪ dom (serviceStatsMap sm) else dom (serviceStatsMap sm)) ∧
  (is_Some service ↔ was_active b = true) ∧
  (∀ s, service = Some s → serviceStatsMap sm' !! u_Name unit = Some s ∧
     State s = ParseServiceStatus (ActiveState unit)).
Proof.
  intros Hn Hnow Hok Hb. unfold updateServiceStats, was_active.
  assert (services_ok numCPU now sm ∧ dom (serviceStatsMap sm) = dom (serviceStatsMap sm) ∧
    (is_Some (None : option Service.t) ↔ false = true) ∧
    (∀ s, None = Some s → serviceStatsMap sm !! u_Name unit = Some s ∧
       State s = ParseServiceStatus (ActiveState unit))) as Hskip.
  { split_and!; [done|done|split; [by intros [? ?]|done]|done]. }
  destruct (b "Unit"%string "ActiveEnterTimestamp"%string) as [|ts|]; [exact Hskip| |exact Hskip].
  destruct ((ts =? 0) || (ts =? MaxUint64)); cbn [negb]; [exact Hskip|]. clear Hskip.
  set (old := default _ _).
  assert (peaks_ok old ∧ ∀ prev, PrevReadTime old = Some prev → (now - prev) * numCPU < 2 ^ 63)
    as [(Hm&Hz&Hc) Ht].
  { unfold old. destruct (serviceStatsMap sm !! u_Name unit) as [s|] eqn:E; [by eapply Hok|].
    split; [|done]. split_and!; [done..|]. cbn. by vm_compute. }
  pose proof (available_nonneg b "Service" "MemoryPeak" (MemPeak old) Hb ltac:(lia)) as Hp.
  pose proof (available_nonneg b "Service" "MemoryCurrent" 0 Hb ltac:(lia)) as Hu.
  set (peak := available (b "Service"%string "MemoryPeak"%string) _) in *.
  set (usage := available (b "Service"%string "MemoryCurrent"%string) 0) in *.
  set (s1 := Service.mk _ _ _ usage _ _ _ _ _).
  set (s2 := UpdateCPUPercent _ _ _ s1).
  destruct (UpdateCPUPercent_peaks numCPU now
    (match b "Service"%string "CPUUsageNSec"%string with PUint64 v => v | _ => 0 end) s1)
    as (E1&E2&E3&E4&_); [exact Ht|done|exact Hz|exact Hc|]. fold s2 in E1, E2, E3, E4.
  assert (State s2 = ParseServiceStatus (ActiveState unit)) as Est.
  { unfold s2, UpdateCPUPercent. by repeat case_match. }
  assert (PrevReadTime s2 = Some now) as Ept.
  { unfold s2, UpdateCPUPercent. by repeat case_match. }
  cbn [serviceStatsMap]. split_and!.
  - intros n s. cbn [serviceStatsMap]. rewrite lookup_insert_Some.
    intros [[_ <-]|[_ ?]]; [|by eapply Hok]. split.
    + split_and!; [rewrite E1; cbn; lia| |done|done]. rewrite E1, E2. cbn.
      destruct (peak <? usage) eqn:?, (MemPeak old <? _) eqn:?; zbool; lia.
    + intros prev Hprev. rewrite Ept in Hprev. injection Hprev as <-. lia.
  - apply dom_insert_L.
  - split; [done|eauto].
  - intros s [= <-]. split; [apply lookup_insert_eq|done].
Qed.

(** A refresh keeps the services systemd still lists and drops the others; it adds those that
    have been active; every returned service has the state systemd reports; and throughout,
    memory and CPU peaks are at least the present figures. *)
Theorem refresh_tracks_units numCPU now sm units props :
  0 < numCPU → 0 ≤ now → services_ok numCPU now sm → (∀ n, bus_ok (props n)) →
  let '(sm', services) := refresh_services numCPU now sm (Some units) props in
  services_ok numCPU now sm' ∧ hasFreshStats sm' = true ∧
  (∀ n, n ∈ dom (serviceStatsMap sm') ↔
     n ∈ map u_Name units ∧ (n ∈ dom (serviceStatsMap sm) ∨ was_active (props n) = true)) ∧
  (∀ s, s ∈ services → ∃ u, u ∈ units ∧ was_active (props (u_Name u)) = true ∧
     State s = ParseServiceStatus (ActiveState u)).
Proof.
  intros Hn Hnow Hok Hb. unfold refresh_services.
  assert (∀ us (st : systemdManager * list Service.t), (∀ u, u ∈ us → u ∈ units) →
    services_ok numCPU now st.1 →
    (∀ s, s ∈ st.2 → ∃ u, u ∈ units ∧ was_active (props (u_Name u)) = true ∧
       State s = ParseServiceStatus (ActiveState u)) →
    let st' := fold_left (λ '(sm, services) unit,
             let '(sm, service) := updateServiceStats numCPU now sm (props (u_Name unit)) unit in
             (sm, match service with Some s => services ++ [s] | None => services end)%list) us st in
    services_ok numCPU now st'.1 ∧
    (∀ s, s ∈ st'.2 → ∃ u, u ∈ units ∧ was_active (props (u_Name u)) = true ∧
       State s = ParseServiceStatus (ActiveState u)) ∧
    (∀ n, n ∈ dom (serviceStatsMap st'.1) ↔ n ∈ dom (serviceStatsMap st.1) ∨
       (n ∈ map u_Name us ∧ was_active (props n) = true))) as Hgen.
  { induction us as [|u us IH]; intros [sm0 ss] Hsub H0 Hs; cbv zeta; cbn [fold_left map].
    { split_and!; [done|done|set_solver]. }
    pose proof (updateServiceStats_spec numCPU now sm0 (props (u_Name u)) u Hn Hnow H0 (Hb _)) as Hu.
    destruct (updateServiceStats _ _ _ _ _) as [sm1 service]. destruct Hu as (U1&U2&U3&U4).
    destruct (IH (sm1, match service with Some s => ss ++ [s] | None => ss end)%list) as (I1&I2&I3);
      [set_solver|done| |].
    { cbn [snd]. intros s Hs'. destruct service as [s0|]; [|by apply Hs].
      apply elem_of_app in Hs' as [?|Hs']; [by apply Hs|].
      apply list_elem_of_singleton in Hs' as ->. exists u.
      split_and!; [set_solver|by apply U3|]. by apply U4. }
    split_and!; [done|done|]. intros n. rewrite I3. cbn [fst]. rewrite U2, elem_of_cons.
    destruct (was_active (props (u_Name u))) eqn:E.
    - rewrite elem_of_union, elem_of_singleton. naive_solver.
    - naive_solver. }
  destruct (Hgen units (sm, [])) as (G1&G2&G3); [done|done|set_solver|].
  destruct (fold_left _ _ _) as [sm' services]. cbn [fst snd] in *.
  split_and!; [|done| |done].
  - intros n s. cbn [serviceStatsMap]. rewrite map_lookup_filter_Some. intros [? _]. by eapply G1.
  - intros n. cbn [serviceStatsMap]. split.
    + intros [s Hs]%elem_of_dom. apply map_lookup_filter_Some in Hs as [Hs Hin].
      cbn [fst] in Hin. apply elem_of_list_to_set in Hin. apply elem_of_dom_2, G3 in Hs. tauto.
    + intros [Hin Hor]. assert (n ∈ dom (serviceStatsMap sm')) as [s Hs]%elem_of_dom
        by (apply G3; tauto).
      apply elem_of_dom. exists s. apply map_lookup_filter_Some. split; [done|].
      cbn [fst]. by apply elem_of_list_to_set.
Qed.
End manager.

(** ** Unit names *)

(** The bytes systemd leaves alone in the name of a unit, and how it writes the others. *)
Definition unit_safe (a : ascii) : bool :=
  let n := nat_of_ascii a in
  ((48 <=? n)%nat && (n <=? 58)%nat) || ((65 <=? n)%nat && (n <=? 90)%nat) ||
  ((97 <=? n)%nat && (n <=? 122)%nat) || existsb (Ascii.eqb a) ["_"; "."]%char.

Definition low_hex (n : nat) : ascii := ascii_of_nat (if (n <? 10)%nat then 48 + n else 87 + n).

Definition sd_byte (a : ascii) : string :=
  if unit_safe a then String a ""
  else let n := nat_of_ascii a in
       String "\" (String "x" (String (low_hex (n / 16)) (String (low_hex (n mod 16)) ""))).

Fixpoint sd_escape (s : string) : string :=
  match s with EmptyString => ""%string | String a s' => (sd_byte a ++ sd_escape s')%string end.

Lemma unquote_byte a t fuel r :
  (String.length (sd_byte a ++ t)%string ≤ fuel)%nat →
  (∀ f, (String.length t ≤ f)%nat → unquote_fuel f t = Some r) →
  unquote_fuel fuel (sd_byte a ++ t)%string = Some (String a r).
Proof.
  intros Hf Ht. unfold sd_byte in *. destruct (unit_safe a) eqn:Hs.
  - rewrite string_app_cons, string_app_nil in *. destruct fuel as [|fuel]; [simpl in *; lia|].
    simpl in Hf |- *. rewrite Ht by lia.
    destruct a as [[] [] [] [] [] [] [] []]; try discriminate Hs; reflexivity.
  - rewrite !string_app_cons, string_app_nil in *. destruct fuel as [|fuel]; [simpl in *; lia|].
    simpl in Hf. cbn [unquote_fuel].
    assert (escape (String "x" (String (low_hex (nat_of_ascii a / 16))
             (String (low_hex (nat_of_ascii a mod 16)) t))) = Some (String a "", t)) as E.
    { clear. destruct a as [[] [] [] [] [] [] [] []]; reflexivity. }
    change (nat_of_ascii "\" =? 34)%nat with false. change (nat_of_ascii "\" =? 10)%nat with false.
    cbn [orb]. change (Ascii.eqb "\" "\") with true. cbn iota.
    rewrite E. cbn [mbind option_bind]. rewrite Ht by lia. reflexivity.
Qed.

Lemma unquote_sd_escape s f :
  (String.length (sd_escape s) ≤ f)%nat → unquote_fuel f (sd_escape s) = Some s.
Proof.
  revert f. induction s as [|a s IH]; intros f Hf; [by destruct f|].
  cbn [sd_escape] in *. by apply unquote_byte.
Qed.

Lemma Contains_app_l s t x : Contains t x = true → Contains (s ++ t)%string x = true.
Proof.
  intros Ht. induction s as [|a s IH]; [by rewrite string_app_nil|].
  rewrite string_app_cons. simpl. by rewrite IH, orb_true_r.
Qed.

Lemma sd_escape_plain s : Contains (sd_escape s) "\x" = false → sd_escape s = s.
Proof.
  induction s as [|a s IH]; [done|]. cbn [sd_escape]. intros Hc.
  assert (Contains (sd_escape s) "\x" = false) as Hc'.
  { destruct (Contains (sd_escape s) "\x") eqn:E; [|done].
    by rewrite (Contains_app_l _ _ _ E) in Hc. }
  rewrite IH by done. unfold sd_byte in *. destruct (unit_safe a); [done|].
  rewrite !string_app_cons in Hc. simpl in Hc. discriminate Hc.
Qed.

(** Whatever bytes a service's name has, the agent reads it back from systemd's escaped
    unit name. *)
Theorem unescape_roundtrip (s : string) : unescapeServiceName (sd_escape s) = s.
Proof.
  unfold unescapeServiceName. destruct (Contains (sd_escape s) "\x") eqn:Hc; cbn [negb].
  - unfold unquote. by rewrite unquote_sd_escape.
  - by apply sd_escape_plain.
Qed.

Example unescape_ex :
  map unescapeServiceName ["systemd-fsck@dev-disk-by\x2duuid"; "plain"; "bad\xzz"; "\u00e9\x2d"]
  = ["systemd-fsck@dev-disk-by-uuid"; "plain"; "bad\xzz";
     String (ascii_of_nat 195) (String (ascii_of_nat 169) "-")]%string.
Proof. reflexivity. Qed.

(** ** An evaluated refresh *)

Definition ex_bus (n : string) : bus := λ i p,
  if String.eqb p "ActiveEnterTimestamp"
  then (if String.eqb n "new.timer" then PUint64 0 else PUint64 1000)
  else if String.eqb p "MemoryCurrent" then PUint64 4096
  else if String.eqb p "CPUUsageNSec" then PUint64 500000000
  else PErr.
Definition ex_units : list UnitStatus :=
  [{| u_Name := "ssh.service"; ActiveState := "active"; SubState := "running" |};
   {| u_Name := "new.timer"; ActiveState := "inactive"; SubState := "dead" |}].
Definition ex_sm : systemdManager := {|
  serviceStatsMap := {["old.service" := Service.named "old"]}; hasFreshStats := false |}.

Lemma refresh_tracks_units_witness :
  let '(sm', services) := refresh_services 4 10 ex_sm (Some ex_units) ex_bus in
  services_ok 4 10 sm' ∧ map Name services = ["ssh"%string] ∧
  "ssh.service"%string ∈ dom (serviceStatsMap sm') ∧ "old.service"%string ∉ dom (serviceStatsMap sm').
Proof.
  assert (services_ok 4 10 ex_sm) as Hok.
  { intros n s. unfold ex_sm. cbn [serviceStatsMap]. rewrite lookup_singleton_Some.
    intros [_ <-]. split; [vm_compute; intuition discriminate|done]. }
  pose proof (refresh_tracks_units 4 10 ex_sm ex_units ex_bus ltac:(lia) ltac:(lia) Hok) as H.
  destruct (refresh_services 4 10 ex_sm (Some ex_units) ex_bus) as [sm' services] eqn:E.
  destruct H as (H1&_&H3&_).
  { intros n i p v. unfold ex_bus. repeat case_match; intros [= <-]; lia. }
  split_and!; [exact H1|vm_compute in E; injection E as _ <-; reflexivity| |].
  - apply H3. split; [by left|right; reflexivity].
  - rewrite H3. intros [Hin _]. apply elem_of_cons in Hin as [?|Hin]; [done|].
    apply list_elem_of_singleton in Hin. done.
Defined.
End Systemd.
