(* ===== verification/SystemdWorker.v ===== *)
(** * The worker of the services ([agent/systemd.go])

    [startWorker] reads the services once and then every ten minutes, in a goroutine of its own, while
    polls take what is there.  A refresh holds the lock for one unit at a time, so that polls come in
    between; steps are those of the worker and of polls.  A refresh with polls in between leaves the
    services that it would have left without them, and what it found is reported afterwards. *)

From S2P Require Import Prelude GoFloat GoStrings GoText Entities Systemd.

Module SystemdWorker.
Import Service Systemd.
Local Open Scope Z_scope.

(** Between refreshes, with some of the units done, with the services that are gone removed. *)
Inductive worker :=
| Idle
| Updating (rest : list UnitStatus) (current : gset string)
| Cleaned.

Record state := {
  manager : systemdManager;
  isRunning : bool;
  workers : list worker;                       (* the goroutine of each [startWorker] *)
}.

(** The units that a refresh gets: over the connection it is given, [None] when that is not open, or
    over one it dials, [None] when that fails; the list of either may fail too. *)
Definition getServiceStats_units (conn dialled : option (option (list UnitStatus))) : option (list UnitStatus) :=
  match conn with Some units => units | None => mjoin dialled end.

Section worker.
Context {RO : RangeOrder string} (numCPU : Z) (props : string → bus).

(** The first refresh happens before the goroutine starts. *)
Definition startWorker (now : Z) (conn dialled : option (option (list UnitStatus))) (s : state) : state :=
  if isRunning s then s
  else {| manager := (refresh_services numCPU now (manager s) (getServiceStats_units conn dialled) props).1;
          isRunning := true; workers := workers s ++ [Idle] |}.

Definition with_fresh (sm : systemdManager) (m : gmap string Service.t) (f : bool) : systemdManager :=
  {| serviceStatsMap := m; hasFreshStats := f |}.

(** A step of the worker: the units are listed or not, one is read, those that are gone are
    removed, and the services are marked as fresh. *)
Inductive worker_step : worker * systemdManager → worker * systemdManager → Prop :=
  | step_no_units sm : worker_step (Idle, sm) (Idle, sm)
  | step_list units sm : worker_step (Idle, sm) (Updating units (list_to_set (map u_Name units)), sm)
  | step_unit now u rest current sm :
      worker_step (Updating (u :: rest) current, sm)
        (Updating rest current, (updateServiceStats numCPU now sm (props (u_Name u)) u).1)
  | step_clean current sm :
      worker_step (Updating [] current, sm)
        (Cleaned, with_fresh sm (filter (λ kv, kv.1 ∈ current) (serviceStatsMap sm)) (hasFreshStats sm))
  | step_fresh sm : worker_step (Cleaned, sm) (Idle, with_fresh sm (serviceStatsMap sm) true).

(** A poll takes the services. *)
Inductive step : worker * systemdManager → worker * systemdManager → Prop :=
  | by_worker x y : worker_step x y → step x y
  | by_poll w sm : step (w, sm) (w, (take_services sm).1).

(** ** Polls do not disturb a refresh *)

Definition same_map (sm sm' : systemdManager) : Prop := serviceStatsMap sm = serviceStatsMap sm'.

Lemma update_same_map now sm sm' b u :
  same_map sm sm' →
  same_map (updateServiceStats numCPU now sm b u).1 (updateServiceStats numCPU now sm' b u).1.
Proof.
  unfold same_map, updateServiceStats. intros E. destruct (b _ _); [done| |done].
  destruct (_ || _); [done|]. cbn [fst serviceStatsMap]. by rewrite E.
Qed.

(** Without the polls, the worker goes the same way. *)
Lemma polls_drop x y sm :
  rtc step x y → same_map x.2 sm → ∃ sm', rtc worker_step (x.1, sm) (y.1, sm') ∧ same_map y.2 sm'.
Proof.
  intros Hr. revert sm. induction Hr as [x|x y z Hxy _ IH]; intros sm Hs; [exists sm; split; [apply rtc_refl|done]|].
  destruct Hxy as [x y Hw|w sm0].
  - assert (∃ sm1, worker_step (x.1, sm) (y.1, sm1) ∧ same_map y.2 sm1) as (sm1&H1&H2).
    { destruct Hw; cbn in *; [by eexists; split; [constructor|]..| | |].
      - eexists. split; [constructor|]. by apply update_same_map.
      - eexists. split; [constructor|]. unfold same_map in *. cbn. by rewrite Hs.
      - eexists. split; [constructor|]. unfold same_map in *. cbn. by rewrite Hs. }
    destruct (IH sm1 H2) as (sm'&?&?). exists sm'. split; [by eapply rtc_l|done].
  - apply (IH sm). exact Hs.
Qed.

(** The units of a refresh with the times at which they are read. *)
Definition read_units (us : list (UnitStatus * Z)) (sm : systemdManager) : systemdManager :=
  fold_left (λ sm ut, (updateServiceStats numCPU ut.2 sm (props (u_Name ut.1)) ut.1).1) us sm.

Lemma read_units_now now units : ∀ sm ss,
  read_units (map (λ u, (u, now)) units) sm =
  (fold_left (λ '(sm, services) unit,
     let '(sm, service) := updateServiceStats numCPU now sm (props (u_Name unit)) unit in
     (sm, match service with Some s => services ++ [s] | None => services end)%list) units (sm, ss)).1.
Proof.
  induction units as [|u units IH]; intros sm ss; [done|].
  cbn. destruct (updateServiceStats numCPU now sm (props (u_Name u)) u) as [sm1 service]. apply IH.
Qed.

(** A refresh of the worker alone, from the list of the units on. *)
Definition in_refresh (units : list UnitStatus) (sm0 : systemdManager) (w : worker) (sm : systemdManager) : Prop :=
  match w with
  | Idle => True
  | Updating rest current =>
      current = list_to_set (map u_Name units) ∧
      ∃ read, map fst read ++ rest = units ∧ same_map sm (read_units read sm0)
  | Cleaned =>
      ∃ read, map fst read = units ∧
        serviceStatsMap sm = filter (λ kv, kv.1 ∈ (list_to_set (map u_Name units) : gset string)) (serviceStatsMap (read_units read sm0))
  end.

Lemma refresh_steps units sm0 w sm w' sm' :
  in_refresh units sm0 w sm → w ≠ Idle → step (w, sm) (w', sm') → w' ≠ Idle → in_refresh units sm0 w' sm'.
Proof.
  intros Hin Hi Hst Hi'. inversion Hst as [? ? Hw|]; subst; [|destruct w'; cbn in *; naive_solver].
  inversion Hw; subst; try done; cbn in *.
  - destruct Hin as [-> (read&Hu&Hm)]. split; [done|]. exists (read ++ [(u, now)]). split.
    + by rewrite map_app, <- app_assoc.
    + unfold read_units. rewrite fold_left_app. cbn. by apply update_same_map.
  - destruct Hin as [-> (read&Hu&Hm)]. exists read. rewrite app_nil_r in Hu. split; [done|]. cbn. by rewrite Hm.
Qed.

(** The steps from a list of units to the end of its refresh. *)
Inductive refresh_run (units : list UnitStatus) (sm0 : systemdManager) : worker * systemdManager → Prop :=
  | run_list : refresh_run units sm0 (Updating units (list_to_set (map u_Name units)), sm0)
  | run_step w sm w' sm' : refresh_run units sm0 (w, sm) → w ≠ Idle → step (w, sm) (w', sm') →
      refresh_run units sm0 (w', sm').

(** The steps of the worker that are left of its refresh. *)
Definition steps_left (w : worker) : nat :=
  match w with Idle => 0 | Updating rest _ => length rest + 2 | Cleaned => 1 end.

Lemma steps_left_down x y : worker_step x y → x.1 ≠ Idle → S (steps_left y.1) = steps_left x.1.
Proof. destruct 1; done. Qed.

Lemma refresh_ends w : ∀ sm, ∃ sm', nsteps worker_step (steps_left w) (w, sm) (Idle, sm').
Proof.
  assert (∀ sm, ∃ sm', nsteps worker_step 1 (Cleaned, sm) (Idle, sm')) as Hc.
  { intros sm. eexists. apply nsteps_once, step_fresh. }
  destruct w as [|rest current|]; [eexists; constructor| |done]. cbn [steps_left].
  induction rest as [|u rest IH]; intros sm.
  - destruct (Hc (with_fresh sm (filter (λ kv, kv.1 ∈ current) (serviceStatsMap sm)) (hasFreshStats sm))) as [sm' H'].
    exists sm'. eapply nsteps_l; [apply step_clean|exact H'].
  - destruct (IH (updateServiceStats numCPU 0 sm (props (u_Name u)) u).1) as [sm' H'].
    exists sm'. eapply nsteps_l; [apply step_unit|exact H'].
Qed.

(** C39: a refresh with polls in between: the worker needs two steps more than there are units left,
    whatever polls do; and it ends with the services marked fresh and with those that the refresh
    alone leaves, the units being read at times of their own. *)
Theorem refresh_with_polls units sm0 w sm :
  refresh_run units sm0 (w, sm) →
  (steps_left w ≤ length units + 2)%nat ∧
  (∀ y, w ≠ Idle → step (w, sm) y → y.1 = w ∨ S (steps_left y.1) = steps_left w) ∧
  (∃ sm', nsteps worker_step (steps_left w) (w, sm) (Idle, sm')) ∧
  (w = Idle → hasFreshStats sm = true ∧
    ∃ read, map fst read = units ∧
      serviceStatsMap sm = filter (λ kv, kv.1 ∈ (list_to_set (map u_Name units) : gset string))
        (serviceStatsMap (read_units read sm0))).
Proof.
  intros Hr.
  assert (∀ x, refresh_run units sm0 x → x.1 ≠ Idle → in_refresh units sm0 x.1 x.2) as Hin.
  { clear. intros x Hx. induction Hx as [|w sm w' sm' Hx IH Hi Hst]; intros Hi'.
    - split; [done|]. by exists [].
    - by eapply refresh_steps; [apply IH|..]. }
  split_and!.
  - destruct w as [|rest current|]; cbn; [lia| |lia]. destruct (Hin _ Hr) as (_&read&<-&_); [done|].
    rewrite length_app. lia.
  - intros y Hi Hst. inversion Hst as [? ? Hw|]; subst; [right|by left]. by apply (steps_left_down _ _ Hw).
  - apply refresh_ends.
  - intros ->. inversion Hr as [|w' sm1 ? ? Hx Hi Hst]; subst. specialize (Hin _ Hx Hi).
    inversion Hst as [? ? Hw|]; subst; [|done]. by inversion Hw; subst.
Qed.

(** When all are read at one time, that is [refresh_services]. *)
Lemma refresh_at_once now units sm0 :
  serviceStatsMap (refresh_services numCPU now sm0 (Some units) props).1 =
  filter (λ kv, kv.1 ∈ (list_to_set (map u_Name units) : gset string))
    (serviceStatsMap (read_units (map (λ u, (u, now)) units) sm0)).
Proof.
  unfold refresh_services. rewrite (read_units_now now units sm0 []). by destruct (fold_left _ units (sm0, [])).
Qed.

(** One worker however often it is started. *)
Lemma one_worker now conn dialled s :
  (length (workers s) = if isRunning s then 1 else 0)%nat →
  let s' := startWorker now conn dialled s in
  isRunning s' = true ∧ length (workers s') = 1%nat ∧ startWorker now conn dialled s' = s'.
Proof.
  intros Hw. unfold startWorker. destruct (isRunning s) eqn:E; cbn; [by rewrite E|].
  rewrite length_app, Hw. done.
Qed.
End worker.

(** ** An example *)

(** A poll comes between the two units. *)
Lemma refresh_with_polls_witness : ∃ sm,
  refresh_run 4 ex_bus ex_units ex_sm (Idle, sm) ∧ hasFreshStats sm = true ∧
  ∃ read, map fst read = ex_units ∧
    serviceStatsMap sm = filter (λ kv, kv.1 ∈ (list_to_set (map u_Name ex_units) : gset string))
      (serviceStatsMap (read_units 4 ex_bus read ex_sm)).
Proof.
  assert (∃ sm, refresh_run 4 ex_bus ex_units ex_sm (Idle, sm)) as [sm H].
  { eexists. eapply run_step; [| |apply by_worker, step_fresh]; [|done].
    eapply run_step; [| |apply by_worker, step_clean]; [|done].
    eapply run_step; [| |apply by_worker, (step_unit 4 ex_bus 12)]; [|done].
    eapply run_step; [| |apply by_poll]; [|done].
    eapply run_step; [| |apply by_worker, (step_unit 4 ex_bus 10)]; [|done]. apply run_list. }
  exists sm. split; [exact H|]. exact (proj2 (proj2 (proj2 (refresh_with_polls 4 ex_bus ex_units ex_sm Idle sm H))) eq_refl).
Defined.
End SystemdWorker.
