(* ===== verification/AgentSystem.v ===== *)
(** * The agent's answer to a poll ([agent/agent.go], [agent/agent_cache.go], [agent/system.go])

    A poll names its interval; an answer not older than half of it is sent again,
    otherwise the collectors run: processors ([AgentCpu]), memory, disks
    ([AgentDisk]), interfaces ([AgentNetwork]), temperatures ([AgentSensors]),
    containers ([DockerStats]) and services ([Systemd]).  The operating system is
    one record of readings per poll.  An answer is a struct behind a pointer that
    the cache and earlier answers share, so answers live in a heap; it points in turn
    to the structs of filesystems, containers, services and details, which later
    polls update, so an answer has the keys of these structs, not their contents.

    Batteries, GPUs and ZFS are platform code: their readings are arguments. *)

From S2P Require Import Prelude GoFloat GoStrings GoText Entities DeltaTracker AgentNetwork.
From S2P Require Import AgentCpu AgentDisk AgentSensors DockerStats Systemd.

Module AgentSystem.
Local Open Scope Z_scope.

(** ** Memory *)

(** [mem.VirtualMemoryStat], the fields the agent reads. *)
Record VirtualMemoryStat := {
  Total : Z; Free : Z; Used : Z; UsedPercent : f64; Cached : Z; Buffers : Z; Shared : Z;
  SwapTotal : Z; SwapFree : Z; SwapCached : Z;
}.

(** The part of [system.Stats] about memory. *)
Record MemStats := {
  m_Mem : f64; m_MemUsed : f64; m_MemPct : f64; m_MemBuffCache : f64; m_MemZfsArc : f64;
  m_Swap : f64; m_SwapUsed : f64;
}.

Definition cacheBuff_of (v : VirtualMemoryStat) : Z :=
  let cacheBuff := u64 (u64 (Cached v + Buffers v) - Shared v) in
  if cacheBuff <=? 0 then u64 (u64 (Total v - Free v) - Used v) else cacheBuff.

Definition pct_of (used total : Z) : f64 :=
  f64_mul (f64_div (f64_of_Z used) (f64_of_Z total)) (f64_of_Z 100).

(** Used memory and its share, after the [htop] setting and the ARC; [arc] is the size of the
    ZFS cache when it is monitored, 0 when it could not be read. *)
Definition used_of (memCalc : string) (arc : option Z) (v : VirtualMemoryStat) : Z * f64 * option Z :=
  let '(used, pct) :=
    if String.eqb memCalc "htop" then
      let used := u64 (Total v - u64 (Free v + cacheBuff_of v)) in (used, pct_of used (Total v))
    else (Used v, UsedPercent v) in
  match arc with
  | Some arcSize =>
      if (0 <? arcSize) && (arcSize <? used)
      then (used - arcSize, pct_of (used - arcSize) (Total v), Some arcSize)
      else (used, pct, None)
  | None => (used, pct, None)
  end.

Definition memory (memCalc : string) (arc : option Z) (v : VirtualMemoryStat) : MemStats :=
  let '(used, pct, zfs) := used_of memCalc arc v in
  {| m_Mem := AgentDisk.BytesToGigabytes (Total v);
     m_MemUsed := AgentDisk.BytesToGigabytes used;
     m_MemPct := twoDecimals pct;
     m_MemBuffCache := AgentDisk.BytesToGigabytes (cacheBuff_of v);
     m_MemZfsArc := match zfs with Some a => AgentDisk.BytesToGigabytes a | None => f64_zero end;
     m_Swap := AgentDisk.BytesToGigabytes (SwapTotal v);
     m_SwapUsed := AgentDisk.BytesToGigabytes (u64 (u64 (SwapTotal v - SwapFree v) - SwapCached v)) |}.

Definition no_memory : MemStats := {|
  m_Mem := f64_zero; m_MemUsed := f64_zero; m_MemPct := f64_zero; m_MemBuffCache := f64_zero;
  m_MemZfsArc := f64_zero; m_Swap := f64_zero; m_SwapUsed := f64_zero |}.

(** ** One round of the collectors *)

(** What the operating system answers during a poll; [None] is an error, and for the GPUs and
    the containers that there is no manager. *)
Record readings := {
  r_now : Z;                                        (* milliseconds *)
  r_battery : option (Z * Z);
  r_times : option (list AgentCpu.TimesStat);
  r_cores : option (list AgentCpu.TimesStat);
  r_load : option (f64 * f64 * f64);
  r_memory : option VirtualMemoryStat;
  r_arc : Z;                                        (* 0 when it cannot be read *)
  r_usage : string → option AgentDisk.UsageStat;
  r_io : option (gmap string AgentDisk.IOCountersStat);
  r_net : AgentNetwork.world;
  r_files : string → option string;
  r_temps : AgentSensors.attempt * AgentSensors.attempt;
  r_gpus : option (gmap string GPUData.t);
  r_uptime : Z;
  r_connection : Z;
  r_docker : DockerStats.world;
}.

(** [system.CombinedData] as the agent has it, with pointers: [extra] is [Stats.ExtraFs], a map
    to structs of [fsStats]; containers are known by their identifiers and services by their
    names; [details] says that [Details] points to the agent's. *)
Record answer := {
  stats : Stats.t;
  extra : gmap string string;
  info : Info.t;
  containers : list string;
  services : list string;
  details : bool;
}.

(** The agent; answers are in a heap, and the cache has their addresses. *)
Record Agent := {
  memCalc : string;
  zfs : bool;
  cpu : AgentCpu.vars;
  disk : AgentDisk.Agent;
  net : AgentNetwork.Agent;
  sensorConfig : AgentSensors.SensorConfig;
  docker : option DockerStats.dockerManager;
  systemd : option Systemd.systemdManager;
  systemInfo : Info.t;
  systemDetails : Details.t;
  detailsDirty : bool;
  cache : gmap Z (nat * Z);
  heap : gmap nat answer;
}.

(** The body of the loop over the GPUs: temperatures, the dashboard's, the highest one, and the
    highest usage. *)
Definition gpu_step (primarySensor : string) (st : gmap string f64 * f64 * f64 * f64)
    (kv : string * GPUData.t) : gmap string f64 * f64 * f64 * f64 :=
  let '(temps, dash, highest, pct) := st in
  let gpu := kv.2 in
  let t := GPUData.Temperature gpu in
  let '(temps, dash, highest) :=
    if f64_lt f64_zero t then
      (<[GPUData.Name gpu := t]> temps,
       (if String.eqb primarySensor (GPUData.Name gpu) then t else dash),
       (if f64_lt highest t then t else highest))
    else (temps, dash, highest) in
  (temps, dash, highest, f64_max pct (GPUData.Usage gpu)).

(** The temperatures, the dashboard's and the GPU usage after the GPUs were added. *)
Definition add_gpus {RO : RangeOrder string} (primarySensor : string)
    (gpus : option (gmap string GPUData.t)) (temps : option (gmap string f64)) (dash pct : f64)
    : option (gmap string f64) * f64 * f64 :=
  match gpus with
  | None => (temps, dash, pct)
  | Some m =>
      if decide (m = ∅) then (temps, dash, f64_zero)
      else
        let '(temps, dash, highest, pct) :=
          fold_left (gpu_step primarySensor) (range_list m)
            (default ∅ temps, dash, f64_zero, f64_zero) in
        (Some temps, if f64_eq dash f64_zero then highest else dash, pct)
  end.

(** ** Details of the host *)

(** Lines as [bufio.Scanner] gives them (of less than 64 KiB). *)
Definition drop_cr (l : string) : string :=
  if HasSuffix l (String "013" "") then String.substring 0 (String.length l - 1) l else l.
Definition scan_lines (file : string) : list string :=
  let l := Split "010" file in
  map drop_cr (if String.eqb (List.last l EmptyString) EmptyString then removelast l else l).

Fixpoint trim_char (c : ascii) (s : string) : string :=
  match s with
  | String a s' => if Ascii.eqb a c then trim_char c s' else s
  | EmptyString => EmptyString
  end.
(** [strings.Trim] with one character. *)
Definition Trim1 (c : ascii) (s : string) : string :=
  String.rev (trim_char c (String.rev (trim_char c s))).

(** [getOsPrettyName], from the content of [/etc/os-release]. *)
Definition getOsPrettyName (file : option string) : option string :=
  match file with
  | None => None
  | Some content =>
      head (omap (λ line, Trim1 "034" <$> CutPrefix line "PRETTY_NAME=") (scan_lines content))
  end.

(** [zfs.ARCSize] on Linux, from the content of [/proc/spl/kstat/zfs/arcstats]. *)
Definition ARCSize (file : option string) : option Z :=
  match file with
  | None => None
  | Some content =>
      match head (filter (λ line, HasPrefix line "size" = true) (scan_lines content)) with
      | Some line => match Fields line !! 2%nat with Some f => ParseUint 64 f | None => None end
      | None => None
      end
  end.

Record HostInfo := { OperatingSystem : string; KernelVersion : string; NCPU : Z; MemTotal : Z }.
Definition no_host : HostInfo :=
  {| OperatingSystem := ""; KernelVersion := ""; NCPU := 0; MemTotal := 0 |}.

(** What the host answers when the agent starts; failed reads are empty or [None]. *)
Record host := {
  h_version : string;                (* [bantay.Version] *)
  h_info : HostInfo;                 (* what [GetHostInfo] gives *)
  h_hostname : string;
  h_arch : option string; h_goarch : string;
  h_platform : string; h_platform_version : string; h_kernel : string;
  h_release : option string;
  h_models : option (list string);
  h_cores : Z; h_threads : Z;
  h_memory : option Z;
  h_arc : option Z;
}.

Definition Linux : Z := 0.
Definition Darwin : Z := 1.
Definition Windows : Z := 2.
Definition Freebsd : Z := 3.

(** [strings.Replace(s, old, "", 1)] *)
Definition remove_first (s old : string) : string :=
  match Cut s old with Some (x, y) => x +:+ y | None => s end.

(** [Os], [OsName] and [Kernel], which macOS leaves as it was. *)
Definition os_details (h : host) (hostInfo : HostInfo) (kernel : string) : Z * string * string :=
  let platform := h_platform h in
  if String.eqb platform "darwin" then (Darwin, "macOS " +:+ h_platform_version h, kernel)
  else if Contains platform "indows" then
    (Windows, remove_first platform "Microsoft ", h_platform_version h)
  else if String.eqb platform "freebsd" then
    (Freebsd, default "FreeBSD"%string (getOsPrettyName (h_release h)), h_kernel h)
  else
    (Linux,
     (if String.eqb (OperatingSystem hostInfo) ""
      then default platform (getOsPrettyName (h_release h)) else OperatingSystem hostInfo),
     (if String.eqb (KernelVersion hostInfo) "" then h_kernel h else KernelVersion hostInfo)).

(** Cores and threads. *)
Definition cpu_counts (h : host) (hostInfo : HostInfo) : Z * Z :=
  let threads := if NCPU hostInfo =? 0 then h_threads h else NCPU hostInfo in
  (if (0 <? threads) && (threads <? h_cores h) then threads else h_cores h, threads).

Definition set_version (i : Info.t) (v : string) : Info.t := {|
  Info.Hostname := Info.Hostname i; Info.KernelVersion := Info.KernelVersion i;
  Info.Cores := Info.Cores i; Info.Threads := Info.Threads i; Info.CpuModel := Info.CpuModel i;
  Info.Uptime := Info.Uptime i; Info.Cpu := Info.Cpu i; Info.MemPct := Info.MemPct i;
  Info.DiskPct := Info.DiskPct i; Info.Bandwidth := Info.Bandwidth i;
  Info.AgentVersion := v; Info.Podman := Info.Podman i;
  Info.GpuPct := Info.GpuPct i; Info.DashboardTemp := Info.DashboardTemp i; Info.Os := Info.Os i;
  Info.BandwidthBytes := Info.BandwidthBytes i; Info.LoadAvg := Info.LoadAvg i;
  Info.ConnectionType := Info.ConnectionType i; Info.ExtraFsPct := Info.ExtraFsPct i;
  Info.Services := Info.Services i; Info.Battery := Info.Battery i;
  Info.LinkSpeeds := Info.LinkSpeeds i; Info.MemTotal := Info.MemTotal i;
  Info.DiskSize := Info.DiskSize i |}.

(** [refreshSystemDetails] *)
Definition refreshSystemDetails (h : host) (a : Agent) : Agent :=
  let d := systemDetails a in
  let '(podman, hostInfo) :=
    match docker a with
    | Some dm => (DockerStats.usingPodman dm, h_info h)
    | None => (Details.Podman d, no_host)
    end in
  let '(os, osName, kernel) := os_details h hostInfo (Details.Kernel d) in
  let '(cores, threads) := cpu_counts h hostInfo in
  {| memCalc := memCalc a; zfs := (match h_arc h with Some _ => true | None => zfs a end);
     cpu := cpu a; disk := disk a; net := net a; sensorConfig := sensorConfig a;
     docker := docker a; systemd := systemd a;
     systemInfo := set_version (systemInfo a) (h_version h);
     systemDetails := {|
       Details.Hostname := h_hostname h; Details.Kernel := kernel; Details.Cores := cores;
       Details.Threads := threads;
       Details.CpuModel := (match h_models h with Some (m :: _) => m | _ => Details.CpuModel d end);
       Details.Os := os; Details.OsName := osName; Details.Arch := default (h_goarch h) (h_arch h);
       Details.Podman := podman;
       Details.MemoryTotal :=
         (if MemTotal hostInfo =? 0 then default 0 (h_memory h) else MemTotal hostInfo);
       Details.SmartInterval := Details.SmartInterval d |};
     detailsDirty := detailsDirty a; cache := cache a; heap := heap a |}.

Section poll.
Context {RO : RangeOrder string} {FC : FloatConv} {Sch : Schedule}.
Context (Total_ : AgentCpu.TimesStat → f64) (linux : bool).
Context (sort : list (Z * string) → list (Z * string)) (semver_major : string → option Z).

Definition zero_disk : AgentDisk.Stats := {|
  AgentDisk.s_DiskTotal := f64_zero; AgentDisk.s_DiskUsed := f64_zero;
  AgentDisk.s_DiskPct := f64_zero; AgentDisk.s_DiskReadPs := f64_zero;
  AgentDisk.s_DiskWritePs := f64_zero; AgentDisk.s_DiskIO := (0, 0);
  AgentDisk.s_DiskIoStats := zero6 |}.
Definition zero_net : AgentNetwork.Stats := {|
  AgentNetwork.Bandwidth := (0, 0); AgentNetwork.NetworkInterfaces := None |}.

(** [getSystemStats] *)
Definition getSystemStats (r : readings) (cacheTimeMs : Z) (a : Agent) : Agent * Stats.t :=
  let '(cpu1, metrics) := AgentCpu.getCpuMetrics Total_ linux (cpu a) (r_times r) cacheTimeMs in
  let '(cpu2, cores, _) := AgentCpu.getPerCoreCpuUsage Total_ linux cpu1 (r_cores r) cacheTimeMs in
  let load := default (f64_zero, f64_zero, f64_zero) (r_load r) in
  let mem := match r_memory r with
             | Some v => memory (memCalc a) (if zfs a then Some (r_arc r) else None) v | None => no_memory end in
  let '(disk1, ds) := AgentDisk.updateDiskUsage (r_usage r) (r_now r) (disk a) zero_disk in
  let '(disk2, ds) := AgentDisk.updateDiskIo (r_io r) (r_now r) cacheTimeMs disk1 ds in
  let '(net1, ns) := AgentNetwork.updateNetworkStats (r_net r) (r_now r) (net a) cacheTimeMs zero_net in
  let '(cfg, dash, temps) :=
    AgentSensors.updateTemperatures (sensorConfig a) (r_temps r).1 (r_temps r).2
      (Info.DashboardTemp (systemInfo a)) None in
  let '(temps, dash, gpuPct) :=
    add_gpus (AgentSensors.primarySensor cfg) (r_gpus r) temps dash (Info.GpuPct (systemInfo a)) in
  let battery := default (0, 0) (r_battery r) in
  let bandwidth := AgentNetwork.Bandwidth ns in
  let total := match metrics with Some m => twoDecimals (CpuMetrics.Total m) | None => f64_zero end in
  let stats := {|
    Stats.Cpu := total; Stats.MaxCpu := f64_zero; Stats.Mem := m_Mem mem;
    Stats.MaxMem := f64_zero; Stats.MemUsed := m_MemUsed mem; Stats.MemPct := m_MemPct mem;
    Stats.MemBuffCache := m_MemBuffCache mem; Stats.MemZfsArc := m_MemZfsArc mem;
    Stats.Swap := m_Swap mem; Stats.SwapUsed := m_SwapUsed mem;
    Stats.DiskTotal := AgentDisk.s_DiskTotal ds; Stats.DiskUsed := AgentDisk.s_DiskUsed ds;
    Stats.DiskPct := AgentDisk.s_DiskPct ds; Stats.DiskReadPs := AgentDisk.s_DiskReadPs ds;
    Stats.DiskWritePs := AgentDisk.s_DiskWritePs ds; Stats.MaxDiskReadPs := f64_zero;
    Stats.MaxDiskWritePs := f64_zero; Stats.NetworkSent := f64_zero;
    Stats.NetworkRecv := f64_zero; Stats.MaxNetworkSent := f64_zero;
    Stats.MaxNetworkRecv := f64_zero; Stats.Temperatures := temps; Stats.ExtraFs := None;
    Stats.GPU := match r_gpus r with Some m => if decide (m = ∅) then None else Some m
                                   | None => None end;
    Stats.Bandwidth := bandwidth; Stats.MaxBandwidth := (0, 0); Stats.LoadAvg := load;
    Stats.Battery := battery; Stats.NetworkInterfaces := AgentNetwork.NetworkInterfaces ns;
    Stats.DiskIO := AgentDisk.s_DiskIO ds; Stats.MaxDiskIO := (0, 0);
    Stats.CpuBreakdown :=
      option_map (λ m, map twoDecimals [CpuMetrics.User m; CpuMetrics.System m;
        CpuMetrics.Iowait m; CpuMetrics.Steal m; CpuMetrics.Idle m]) metrics;
    Stats.CpuCoresUsage := cores; Stats.DiskIoStats := AgentDisk.s_DiskIoStats ds;
    Stats.MaxDiskIoStats := zero6 |} in
  let i := systemInfo a in
  let info := {|
    Info.Hostname := Info.Hostname i; Info.KernelVersion := Info.KernelVersion i;
    Info.Cores := Info.Cores i; Info.Threads := Details.Threads (systemDetails a);
    Info.CpuModel := Info.CpuModel i; Info.Uptime := r_uptime r; Info.Cpu := total;
    Info.MemPct := m_MemPct mem; Info.DiskPct := AgentDisk.s_DiskPct ds;
    Info.Bandwidth := Info.Bandwidth i; Info.AgentVersion := Info.AgentVersion i;
    Info.Podman := Info.Podman i; Info.GpuPct := gpuPct; Info.DashboardTemp := dash;
    Info.Os := Info.Os i; Info.BandwidthBytes := u64 (bandwidth.1 + bandwidth.2);
    Info.LoadAvg := load; Info.ConnectionType := r_connection r;
    Info.ExtraFsPct := Info.ExtraFsPct i; Info.Services := Info.Services i;
    Info.Battery := battery;
    Info.LinkSpeeds := AgentNetwork.gatherLinkSpeeds (r_files r) net1;
    Info.MemTotal := m_Mem mem; Info.DiskSize := AgentDisk.s_DiskTotal ds |} in
  ({| memCalc := memCalc a; zfs := zfs a; cpu := cpu2; disk := disk2; net := net1; sensorConfig := cfg;
      docker := docker a; systemd := systemd a; systemInfo := info;
      systemDetails := systemDetails a; detailsDirty := detailsDirty a; cache := cache a;
      heap := heap a |}, stats).

(** ** The cache *)

(** [Get]: the address of the answer and whether it is fresh; [None] when there is no entry. *)
Definition Get (now : Z) (a : Agent) (cacheTimeMs : Z) : option nat * bool :=
  match cache a !! cacheTimeMs with
  | None => (None, false)
  | Some (p, lastUpdate) => (Some p, now - lastUpdate <? cacheTimeMs / 2)
  end.

Definition with_cache (a : Agent) (c : gmap Z (nat * Z)) (h : gmap nat answer)
    : Agent := {|
  memCalc := memCalc a; zfs := zfs a; cpu := cpu a; disk := disk a; net := net a;
  sensorConfig := sensorConfig a; docker := docker a; systemd := systemd a;
  systemInfo := systemInfo a; systemDetails := systemDetails a; detailsDirty := detailsDirty a;
  cache := c; heap := h |}.

Definition with_managers (a : Agent) (d : option DockerStats.dockerManager)
    (sd : option Systemd.systemdManager) : Agent := {|
  memCalc := memCalc a; zfs := zfs a; cpu := cpu a; disk := disk a; net := net a;
  sensorConfig := sensorConfig a; docker := d; systemd := sd; systemInfo := systemInfo a;
  systemDetails := systemDetails a; detailsDirty := detailsDirty a; cache := cache a;
  heap := heap a |}.

Definition with_details (a : Agent) (d : Details.t) (dirty : bool) : Agent := {|
  memCalc := memCalc a; zfs := zfs a; cpu := cpu a; disk := disk a; net := net a;
  sensorConfig := sensorConfig a; docker := docker a; systemd := systemd a;
  systemInfo := systemInfo a; systemDetails := d; detailsDirty := dirty; cache := cache a;
  heap := heap a |}.

Definition updateSystemDetails (f : Details.t → Details.t) (a : Agent) : Agent :=
  with_details a (f (systemDetails a)) true.

(** ** An answer *)

Definition defaultDataCacheTimeMs : Z := 60000.

(** The extra filesystems of an answer, by the names shown, and the share of each that is used. *)
Definition extra_step (st : gmap string string * gmap string f64) (kv : string * FsStats.t)
    : gmap string string * gmap string f64 :=
  let '(fs, pcts) := st in
  let '(name, stats) := kv in
  if negb (FsStats.Root stats) && f64_lt f64_zero (FsStats.DiskTotal stats) then
    let key := if String.eqb (FsStats.Name stats) "" then name else FsStats.Name stats in
    let pct := twoDecimals (f64_mul (f64_div (FsStats.DiskUsed stats) (FsStats.DiskTotal stats))
                              (f64_of_Z 100)) in
    (<[key := name]> fs, <[key := pct]> pcts)
  else st.

Definition extra_filesystems (fs : gmap string FsStats.t) : gmap string string * gmap string f64 :=
  fold_left extra_step (range_list fs) (∅, ∅).

(** What the extra filesystems of an answer are when it is encoded. *)
Definition extra_shown (a : Agent) (d : answer) : gmap string FsStats.t :=
  omap (λ name, AgentDisk.fsStats (disk a) !! name) (extra d).

Definition set_info (i : Info.t) (pcts : gmap string f64) (services : option (list Z)) : Info.t := {|
  Info.Hostname := Info.Hostname i; Info.KernelVersion := Info.KernelVersion i;
  Info.Cores := Info.Cores i; Info.Threads := Info.Threads i; Info.CpuModel := Info.CpuModel i;
  Info.Uptime := Info.Uptime i; Info.Cpu := Info.Cpu i; Info.MemPct := Info.MemPct i;
  Info.DiskPct := Info.DiskPct i; Info.Bandwidth := Info.Bandwidth i;
  Info.AgentVersion := Info.AgentVersion i; Info.Podman := Info.Podman i;
  Info.GpuPct := Info.GpuPct i; Info.DashboardTemp := Info.DashboardTemp i; Info.Os := Info.Os i;
  Info.BandwidthBytes := Info.BandwidthBytes i; Info.LoadAvg := Info.LoadAvg i;
  Info.ConnectionType := Info.ConnectionType i; Info.ExtraFsPct := Some pcts;
  Info.Services := services; Info.Battery := Info.Battery i; Info.LinkSpeeds := Info.LinkSpeeds i;
  Info.MemTotal := Info.MemTotal i; Info.DiskSize := Info.DiskSize i |}.

Definition mark_podman (d : Details.t) : Details.t :=
  Details.mk (Details.Hostname d) (Details.Kernel d) (Details.Cores d) (Details.Threads d)
    (Details.CpuModel d) (Details.Os d) (Details.OsName d) (Details.Arch d) true
    (Details.MemoryTotal d) (Details.SmartInterval d).

(** The containers; an error leaves none, and Podman found by this poll changes the details.
    (A panic would end the process.) *)
Definition gather_containers (r : readings) (ct : Z) (a : Agent) : Agent * list string :=
  match docker a with
  | None => (a, [])
  | Some dm =>
      let '(dm', res) := DockerStats.getDockerStats sort semver_major dm ct (r_docker r) in
      let a := with_managers a (Some dm') (systemd a) in
      let a := if DockerStats.usingPodman dm' && negb (DockerStats.usingPodman dm)
               then updateSystemDetails mark_podman a else a in
      (a, match res with DockerStats.Polled l => map ContainerStats.Id l | _ => [] end)
  end.

(** The services: their counts and, when fresh, themselves, with the default interval only. *)
Definition gather_services (ct : Z) (a : Agent) (services : option (list Z))
    : Agent * option (list Z) * list string :=
  match systemd a with
  | Some sm =>
      if ct =? defaultDataCacheTimeMs then
        let totalCount := u16 (Systemd.getServiceStatsCount sm) in
        let services :=
          if 0 <? totalCount then Some [totalCount; Systemd.getFailedServiceCount sm] else services in
        if Systemd.hasFreshStats sm then
          let '(sm, l) := Systemd.take_services sm in
          (with_managers a (docker a) (Some sm), services, map Service.Name l)
        else (a, services, [])
      else (a, services, [])
  | None => (a, services, [])
  end.

(** [attachSystemDetails]: the answer is the struct itself, or a copy with the details. *)
Definition attachSystemDetails (a : Agent) (data : answer) (cacheTimeMs : Z)
    (includeRequested : bool) : Agent * answer * bool :=
  if negb includeRequested &&
     (negb (cacheTimeMs =? defaultDataCacheTimeMs) || negb (detailsDirty a))
  then (a, data, true)
  else
    (with_details a (systemDetails a) false,
     {| stats := stats data; extra := extra data; info := info data;
        containers := containers data; services := services data; details := true |}, false).

(** What the collectors give: the agent afterwards and the struct that goes to the cache. *)
Definition collect (r : readings) (cacheTimeMs : Z) (a : Agent) : Agent * answer :=
  let '(a, stats) := getSystemStats r cacheTimeMs a in
  let info := systemInfo a in
  let '(a, containers) := gather_containers r cacheTimeMs a in
  let '(a, counts, services) := gather_services cacheTimeMs a (Info.Services info) in
  let '(fs, pcts) := extra_filesystems (AgentDisk.fsStats (disk a)) in
  (a, {| stats := stats; extra := fs; info := set_info info pcts counts;
         containers := containers; services := services; details := false |}).

Definition no_answer : answer := {|
  stats := Stats.zero; extra := ∅; info := Info.zero; containers := []; services := [];
  details := false |}.

(** [gatherStats]: the answer, and its address unless it is a copy. *)
Definition gatherStats (r : readings) (a : Agent) (cacheTimeMs : Z) (includeDetails : bool)
    : Agent * answer * option nat :=
  let '(p, isCached) := Get (r_now r) a cacheTimeMs in
  match p, isCached with
  | Some p, true =>
      (a, default no_answer (heap a !! p), Some p)
  | _, _ =>
      let p := default (fresh (dom (heap a))) p in
      let '(a, data) := collect r cacheTimeMs a in
      let a := with_cache a (<[cacheTimeMs := (p, r_now r)]> (cache a)) (<[p := data]> (heap a)) in
      let '(a, data, shared) := attachSystemDetails a data cacheTimeMs includeDetails in
      (a, data, if shared then Some p else None)
  end.

(** ** Memory figures *)

(** A consistent reading. *)
Definition sane_memory (v : VirtualMemoryStat) : Prop :=
  0 ≤ Free v ∧ 0 ≤ Cached v ∧ 0 ≤ Buffers v ∧ 0 ≤ Shared v < Cached v + Buffers v ∧
  Free v + Cached v + Buffers v ≤ Total v < 2 ^ 64 ∧ 0 ≤ Used v ≤ Total v.

(** For a consistent reading nothing wraps: cache and buffers are their sum less shared
    memory, and the used memory (all that is not free nor cache, in [htop]'s way) splits
    exactly into the reported part and the part of the ZFS cache, within the total. *)
Theorem memory_exact memCalc arc v :
  sane_memory v →
  cacheBuff_of v = Cached v + Buffers v - Shared v ∧
  let '(used, pct, zfs) := used_of memCalc arc v in
  0 ≤ used ≤ Total v ∧
  used + default 0 zfs =
    (if String.eqb memCalc "htop" then Total v - Free v - (Cached v + Buffers v - Shared v)
     else Used v).
Proof.
  intros (?&?&?&?&?&?).
  assert (cacheBuff_of v = Cached v + Buffers v - Shared v) as Hc.
  { unfold cacheBuff_of. rewrite (wrap_small 64 (Cached v + Buffers v)) by (unfold in_range; lia).
    rewrite wrap_small by (unfold in_range; lia).
    by rewrite (proj2 (Z.leb_gt _ _)) by lia. }
  split; [done|]. unfold used_of. rewrite Hc.
  rewrite (wrap_small 64 (Free v + _)) by (unfold in_range; lia).
  rewrite (wrap_small 64 (Total v - _)) by (unfold in_range; lia).
  destruct (String.eqb memCalc "htop"); (destruct arc as [arcSize|]; [|simpl; lia]);
    destruct (Z.ltb_spec 0 arcSize); simpl; try lia;
    match goal with |- context [?x <? ?y] => destruct (Z.ltb_spec x y) end; simpl; lia.
Qed.

(** ** The cache *)

Definition cache_ok (a : Agent) : Prop :=
  (∀ ct p t, cache a !! ct = Some (p, t) → is_Some (heap a !! p)) ∧
  (∀ ct ct' p t t', cache a !! ct = Some (p, t) → cache a !! ct' = Some (p, t') → ct = ct').

(** What is the same before and after a collector. *)
Definition keeps (a a' : Agent) : Prop :=
  cache a' = cache a ∧ heap a' = heap a ∧ systemInfo a' = systemInfo a.

Lemma gather_containers_keeps r ct a a' l : gather_containers r ct a = (a', l) → keeps a a'.
Proof.
  unfold gather_containers. destruct (docker a); [|by intros [= <- _]].
  destruct (DockerStats.getDockerStats _ _ _ _ _). case_match; by intros [= <- _].
Qed.

Lemma gather_services_keeps ct a svc a' svc' l :
  gather_services ct a svc = (a', svc', l) → keeps a a'.
Proof.
  unfold gather_services. destruct (systemd a); [|by intros [= <- _]].
  destruct (_ =? _); [|by intros [= <- _]]. destruct (Systemd.hasFreshStats _); [|by intros [= <- _]].
  destruct (Systemd.take_services _). by intros [= <- _].
Qed.

Lemma collect_cache r ct a :
  cache (collect r ct a).1 = cache a ∧ heap (collect r ct a).1 = heap a ∧
  details (collect r ct a).2 = false.
Proof.
  unfold collect, getSystemStats.
  destruct (AgentCpu.getCpuMetrics _ _ _ _ _). destruct (AgentCpu.getPerCoreCpuUsage _ _ _ _ _) as [[? ?] ?].
  destruct (AgentDisk.updateDiskUsage _ _ _ _). destruct (AgentDisk.updateDiskIo _ _ _ _ _).
  destruct (AgentNetwork.updateNetworkStats _ _ _ _ _).
  destruct (AgentSensors.updateTemperatures _ _ _ _ _) as [[? ?] ?].
  destruct (add_gpus _ _ _ _ _) as [[? ?] ?]. cbn [systemInfo docker systemd].
  destruct (gather_containers _ _ _) as [b1 cs] eqn:E1.
  destruct (gather_services _ _ _) as [[b2 ?] ?] eqn:E2.
  apply gather_containers_keeps in E1 as (?&?&_). apply gather_services_keeps in E2 as (?&?&_).
  destruct (extra_filesystems _). simpl in *. split_and!; congruence.
Qed.

(** The part of an answer that is kept. *)
Definition without_details (d : answer) : answer := {|
  stats := stats d; extra := extra d; info := info d; containers := containers d;
  services := services d; details := false |}.

Lemma attach_spec a data ct inc :
  details data = false →
  let '(a', d, _) := attachSystemDetails a data ct inc in
  cache a' = cache a ∧ heap a' = heap a ∧ without_details d = data ∧ systemInfo a' = systemInfo a ∧
  details d = inc || (ct =? defaultDataCacheTimeMs) && detailsDirty a.
Proof.
  intros Hd. unfold attachSystemDetails.
  destruct inc, (ct =? defaultDataCacheTimeMs), (detailsDirty a); simpl; split_and!; try done;
    destruct data; simpl in *; by subst.
Qed.

Lemma gather_fresh r a ct inc :
  (Get (r_now r) a ct).2 = false → cache_ok a →
  let '(a', d, _) := gatherStats r a ct inc in
  ∃ p, cache a' = <[ct := (p, r_now r)]> (cache a) ∧ heap a' = <[p := without_details d]> (heap a) ∧
    (∀ ct' t', cache a !! ct' = Some (p, t') → ct' = ct).
Proof.
  intros Hg [Hc1 Hc2]. unfold gatherStats. destruct (Get (r_now r) a ct) as [p c] eqn:E.
  simpl in Hg. subst c.
  set (q := default (fresh (dom (heap a))) p).
  assert (∀ ct' t', cache a !! ct' = Some (q, t') → ct' = ct) as Hq.
  { intros ct' t' Hl. unfold Get in E. subst q. destruct (cache a !! ct) as [[p' t]|] eqn:Hct;
      simplify_eq/=; [by eapply Hc2|].
    apply Hc1 in Hl. apply elem_of_dom in Hl. by apply is_fresh in Hl. }
  assert (match p with Some _ => false | None => false end = false) as _ by (by destruct p).
  destruct (collect_cache r ct a) as (E1&E2&E3).
  destruct (collect r ct a) as [a1 data]. cbn [fst snd] in *.
  pose proof (attach_spec (with_cache a1 (<[ct := (q, r_now r)]> (cache a1)) (<[q := data]> (heap a1)))
    data ct inc E3) as Ha.
  destruct p; cbn [default] in q; subst q;
  destruct (attachSystemDetails _ _ _ _) as [[a2 d] sh]; destruct Ha as (->&->&Hd&_);
    simpl; rewrite Hd, E1, E2; eauto.
Qed.

Lemma gather_cached r a ct inc p t d :
  cache a !! ct = Some (p, t) → heap a !! p = Some d → r_now r - t < ct / 2 →
  gatherStats r a ct inc = (a, d, Some p).
Proof.
  intros Hc Hh Ht. unfold gatherStats, Get. rewrite Hc, (proj2 (Z.ltb_lt _ _)) by lia. by rewrite Hh.
Qed.

Lemma gather_ok r a ct inc : cache_ok a → cache_ok (gatherStats r a ct inc).1.1.
Proof.
  intros Ha. destruct (Get (r_now r) a ct).2 eqn:Hg.
  - unfold gatherStats, Get in *. destruct (cache a !! ct) as [[p t]|]; simpl in *; [|done].
    by rewrite Hg.
  - pose proof (gather_fresh r a ct inc Hg Ha) as Hf.
    destruct (gatherStats r a ct inc) as [[a' d] sh]. destruct Hf as (p&E1&E2&Hp).
    destruct Ha as [Hc1 Hc2]. unfold cache_ok. simpl. rewrite E1, E2. split.
    + intros ct' p' t'. rewrite lookup_insert_Some. intros [[<- [= <- <-]]|[_ Hl]].
      * rewrite lookup_insert_eq. eauto.
      * destruct (decide (p' = p)) as [->|Hne]; [rewrite lookup_insert_eq; eauto|].
        rewrite lookup_insert_ne by done. eauto.
    + intros c1 c2 p' t1 t2. rewrite !lookup_insert_Some.
      intros [[<- [= <- <-]]|[_ H1]] [[<- Hp2]|[_ H2]]; [done|symmetry; eauto| |eauto].
      injection Hp2 as <- <-. eauto.
Qed.

Definition poll_ : Type := readings * Z * bool.
Definition polls (a : Agent) (l : list poll_) : Agent :=
  fold_left (λ a '(r, ct, inc), (gatherStats r a ct inc).1.1) l a.

Lemma gather_other r a ct inc ct' :
  cache_ok a → ct' ≠ ct →
  let a' := (gatherStats r a ct' inc).1.1 in
  cache a' !! ct = cache a !! ct ∧
  ∀ p t, cache a !! ct = Some (p, t) → heap a' !! p = heap a !! p.
Proof.
  intros Ha Hne. cbv zeta. destruct (Get (r_now r) a ct').2 eqn:Hg.
  - unfold gatherStats, Get in *. destruct (cache a !! ct') as [[p t]|]; simpl in *; [|done].
    by rewrite Hg.
  - pose proof (gather_fresh r a ct' inc Hg Ha) as Hf.
    destruct (gatherStats r a ct' inc) as [[a' d] sh]. destruct Hf as (p&E1&E2&Hp). simpl.
    rewrite E1, E2, lookup_insert_ne by done. split; [done|]. intros q t Hq.
    rewrite lookup_insert_ne; [done|]. intros ->. apply Hne. symmetry. by eapply Hp.
Qed.

(** An answer is sent again, the same struct and without running a collector, to every poll
    of the same interval within half of it, whatever polls of other intervals come in between;
    also when the poll asks for the details, which are then missing. *)
Theorem answer_reused r a ct inc l r' inc' :
  cache_ok a → (Get (r_now r) a ct).2 = false → Forall (λ '(_, ct', _), ct' ≠ ct) l →
  r_now r' - r_now r < ct / 2 →
  let '(a1, d, _) := gatherStats r a ct inc in
  ∃ p, gatherStats r' (polls a1 l) ct inc' = (polls a1 l, without_details d, Some p).
Proof.
  intros Ha Hg Hl Ht. pose proof (gather_fresh r a ct inc Hg Ha) as Hf.
  pose proof (gather_ok r a ct inc Ha) as Hok.
  destruct (gatherStats r a ct inc) as [[a1 d] sh]. destruct Hf as (p&E1&E2&_). simpl in Hok.
  assert (cache a1 !! ct = Some (p, r_now r)) as Hc by (by rewrite E1, lookup_insert_eq).
  assert (heap a1 !! p = Some (without_details d)) as Hh by (by rewrite E2, lookup_insert_eq).
  clear E1 E2 Hg Ha. exists p. revert a1 Hok Hc Hh.
  induction l as [|[[r0 ct0] inc0] l IH]; intros a1 Hok Hc Hh.
  - by apply gather_cached with (r_now r).
  - apply Forall_cons in Hl as [Hne Hl]. simpl.
    destruct (gather_other r0 a1 ct inc0 ct0 Hok Hne) as [E1 E2].
    apply IH; [done|by apply gather_ok|by rewrite E1|by rewrite (E2 _ _ Hc)].
Qed.

(** ** The polls of this hub *)

(** [interval] of the hub's system manager, and the interval of its realtime worker. *)
Definition hub_interval : Z := 5000.
Definition realtime_interval : Z := 1000.

(** A poll of the system's updater, or of the realtime worker, which never asks for details. *)
Definition hub_poll (p : readings * option bool) : poll_ :=
  match p with
  | (r, Some inc) => (r, u16 hub_interval, inc)
  | (r, None) => (r, u16 realtime_interval, false)
  end.

Definition no_services (d : answer) : Prop := services d = [] ∧ Info.Services (info d) = None.

Definition bare (a : Agent) : Prop :=
  Info.Services (systemInfo a) = None ∧ 
  map_Forall (λ _ d, no_services d ∧ details d = false) (heap a).

Lemma collect_bare r ct a :
  ct ≠ defaultDataCacheTimeMs → Info.Services (systemInfo a) = None →
  Info.Services (systemInfo (collect r ct a).1) = None ∧ no_services (collect r ct a).2.
Proof.
  intros Hct Hs. unfold collect, getSystemStats.
  destruct (AgentCpu.getCpuMetrics _ _ _ _ _). destruct (AgentCpu.getPerCoreCpuUsage _ _ _ _ _) as [[? ?] ?].
  destruct (AgentDisk.updateDiskUsage _ _ _ _). destruct (AgentDisk.updateDiskIo _ _ _ _ _).
  destruct (AgentNetwork.updateNetworkStats _ _ _ _ _).
  destruct (AgentSensors.updateTemperatures _ _ _ _ _) as [[? ?] ?].
  destruct (add_gpus _ _ _ _ _) as [[? ?] ?]. cbn [systemInfo docker systemd].
  destruct (gather_containers _ _ _) as [b1 cs] eqn:E1. apply gather_containers_keeps in E1 as (_&_&E1).
  unfold gather_services. rewrite (proj2 (Z.eqb_neq _ _) Hct).
  destruct (systemd b1); destruct (extra_filesystems _);
    (split; [simpl; rewrite E1|split]; done).
Qed.

Lemma gather_bare r a ct inc :
  ct ≠ defaultDataCacheTimeMs → bare a →
  let '(a', d, _) := gatherStats r a ct inc in
  bare a' ∧ no_services d ∧ (inc = false → details d = false).
Proof.
  intros Hct [Hs Hh]. unfold gatherStats. destruct (Get (r_now r) a ct) as [p c].
  assert (∀ q, let '(a1, data) := collect r ct a in
    let '(a2, d, _) := attachSystemDetails (with_cache a1 (<[ct := (q, r_now r)]> (cache a1))
      (<[q := data]> (heap a1))) data ct inc in
    bare a2 ∧ no_services d ∧ (inc = false → details d = false)) as Hnew.
  { intros q. destruct (collect_cache r ct a) as (_&E2&E3).
    destruct (collect_bare r ct a Hct Hs) as [Hi Hn]. destruct (collect r ct a) as [a1 data].
    cbn [fst snd] in *.
    pose proof (attach_spec (with_cache a1 (<[ct := (q, r_now r)]> (cache a1)) (<[q := data]> (heap a1)))
      data ct inc E3) as Ha.
    destruct (attachSystemDetails _ _ _ _) as [[a2 d] sh]. destruct Ha as (_&Eh&Hd&Ei&Edet).
    split; [split|split].
    - by rewrite Ei.
    - rewrite Eh. simpl. apply map_Forall_insert_2; [done|]. by rewrite E2.
    - rewrite <- Hd in Hn. destruct Hn. by split.
    - intros ->. rewrite Edet, (proj2 (Z.eqb_neq _ _) Hct). done. }
  destruct p as [p|]; [destruct c|].
  - split; [done|]. destruct (heap a !! p) as [d|] eqn:E; simpl; [|done].
    destruct (Hh p d E) as [? ?]. auto.
  - specialize (Hnew p). destruct (collect r ct a) as [a1 data]. simpl in *.
    by destruct (attachSystemDetails _ _ _ _) as [[a2 d] sh].
  - specialize (Hnew (fresh (dom (heap a)))). destruct (collect r ct a) as [a1 data]. simpl in *.
    by destruct (attachSystemDetails _ _ _ _) as [[a2 d] sh].
Qed.

(** The answers to a sequence of polls. *)
Fixpoint answers (a : Agent) (l : list poll_) : list (bool * answer) :=
  match l with
  | [] => []
  | (r, ct, inc) :: l =>
      let '(a, d, _) := gatherStats r a ct inc in (inc, d) :: answers a l
  end.

(** C25: an agent polled by this hub never reports its services, nor details that changed: the
    hub's intervals are five seconds and one, and the agent attaches both only to answers of
    an interval of a minute. *)
Theorem hub_polls_lack_services a l :
  bare a →
  Forall (λ '(inc, d), no_services d ∧ (inc = false → details d = false))
    (answers a (map hub_poll l)).
Proof.
  revert a. induction l as [|[r o] l IH]; intros a Ha; [constructor|]. cbn [map answers].
  assert (∃ ct inc, hub_poll (r, o) = (r, ct, inc) ∧ ct ≠ defaultDataCacheTimeMs) as (ct&inc&E&Hct).
  { unfold hub_poll. by destruct o as [inc|]; eexists _, _. }
  rewrite E. pose proof (gather_bare r a ct inc Hct Ha) as Hg.
  destruct (gatherStats r a ct inc) as [[a' d] sh]. destruct Hg as (Ha'&Hn&Hd).
  constructor; [done|]. by apply IH.
Qed.
End poll.

(** ** Examples *)

Example pretty_name :
  getOsPrettyName (Some (String.concat (String "010" "")
    ["NAME=x"; "PRETTY_NAME=" +:+ String "034" ("Debian 12" +:+ String "034" ""); ""]%string))
  = Some "Debian 12"%string.
Proof. vm_compute. reflexivity. Qed.

Definition ex_mem (shared : Z) : VirtualMemoryStat := {|
  Total := 16 * 2 ^ 30; Free := 2 ^ 30; Used := 7 * 2 ^ 30; UsedPercent := f64_of_Z 43;
  Cached := 7 * 2 ^ 30; Buffers := 2 ^ 30; Shared := shared; SwapTotal := 0; SwapFree := 0;
  SwapCached := 0 |}.

Lemma memory_exact_witness :
  cacheBuff_of (ex_mem 1000) = 8 * 2 ^ 30 - 1000 ∧
  (used_of "htop" (Some (2 ^ 30)) (ex_mem 1000)).1.1 = 6 * 2 ^ 30 + 1000 ∧
  (used_of "htop" (Some (2 ^ 30)) (ex_mem 1000)).2 = Some (2 ^ 30).
Proof.
  destruct (memory_exact "htop" (Some (2 ^ 30)) (ex_mem 1000)) as [H1 H2].
  { unfold sane_memory. simpl. lia. }
  split; [exact H1|]. split; vm_compute; reflexivity.
Defined.

(** More shared memory than cache and buffers: the difference wraps, and since it is unsigned
    the guard that should repair it never sees a negative number. *)
Example cache_wraps : cacheBuff_of (ex_mem (9 * 2 ^ 30)) = 2 ^ 64 - 2 ^ 30.
Proof. vm_compute. reflexivity. Qed.

Definition ex_conv : FloatConv := {| conv_oob _ _ := 0 |}.
Definition ex_sort (l : list (Z * string)) : list (Z * string) := l.

Definition ex_io (read : Z) : AgentDisk.IOCountersStat := {|
  AgentDisk.Name := "sdb1"; AgentDisk.Label := ""; AgentDisk.ReadBytes := read;
  AgentDisk.WriteBytes := 0; AgentDisk.ReadCount := 0; AgentDisk.WriteCount := 0;
  AgentDisk.ReadTime := 0; AgentDisk.WriteTime := 0; AgentDisk.IoTime := 0;
  AgentDisk.WeightedIO := 0 |}.

Definition ex_readings (now read : Z) : readings := {|
  r_now := now; r_battery := None; r_times := None; r_cores := None; r_load := None;
  r_memory := Some (ex_mem 1000); r_arc := 0;
  r_usage := λ _, Some {| AgentDisk.Total := 2 ^ 33; AgentDisk.Used := 2 ^ 32;
                          AgentDisk.UsedPercent := f64_of_Z 50 |};
  r_io := Some {["sdb1" := ex_io read]}%string;
  r_net := {| AgentNetwork.w_nics := None; AgentNetwork.w_init := None;
              AgentNetwork.w_poll := None; AgentNetwork.w_reset := None |};
  r_files := λ _, None;
  r_temps := (AgentSensors.TimedOut, AgentSensors.TimedOut); r_gpus := None; r_uptime := 0;
  r_connection := 2;
  r_docker := DockerStats.ex_w |}.

Definition ex_sd : Systemd.systemdManager := {|
  Systemd.serviceStatsMap := {["ssh"%string := Service.named "ssh"]}; Systemd.hasFreshStats := true |}.

Definition ex_agent : Agent := {|
  memCalc := ""; zfs := false;
  cpu := {| AgentCpu.lastCpuTimes := ∅; AgentCpu.lastPerCoreCpuTimes := ∅ |};
  disk := {| AgentDisk.fsNames := ["sdb1"%string];
             AgentDisk.fsStats := {["sdb1"%string := FsStats.mk 0 false "/mnt/data" "" f64_zero
               f64_zero 0 0 f64_zero f64_zero f64_zero f64_zero 0 0 0 0 zero6 zero6]};
             AgentDisk.diskPrev := ∅; AgentDisk.diskUsageCacheDuration := 0;
             AgentDisk.lastDiskUsageUpdate := 0 |};
  net := {| AgentNetwork.netInterfaces := ∅; AgentNetwork.netInterfaceDeltaTrackers := ∅;
            AgentNetwork.netIoStats := ∅ |};
  sensorConfig := AgentSensors.ex_cfg EmptyString;
  docker := Some DockerStats.ex_dm; systemd := Some ex_sd; systemInfo := Info.zero;
  systemDetails := Details.mk "host" "6.1" 4 8 "cpu" 0 "Debian" "amd64" false 0 0;
  detailsDirty := true; cache := ∅; heap := ∅ |}.

Local Notation ex_gather := (gatherStats (FC := ex_conv) (λ _, f64_zero) true ex_sort (λ _, None)).
Definition ex_first : Agent * answer * option nat := ex_gather (ex_readings 10000 0) ex_agent 5000 false.

Lemma answer_reused_witness :
  let a1 := polls (FC := ex_conv) (λ _, f64_zero) true ex_sort (λ _, None) ex_first.1.1
              [(ex_readings 10500 1000, 1000, false)] in
  ∃ p, ex_gather (ex_readings 12000 9000) a1 5000 true = (a1, without_details ex_first.1.2, Some p).
Proof.
  pose proof (answer_reused (FC := ex_conv) (λ _, f64_zero) true ex_sort (λ _, None)
    (ex_readings 10000 0) ex_agent 5000 false [(ex_readings 10500 1000, 1000, false)]
    (ex_readings 12000 9000) true) as H.
  unfold ex_first. destruct (ex_gather (ex_readings 10000 0) ex_agent 5000 false) as [[a1 d] sh].
  apply H.
  - split; intros *; simpl; by rewrite lookup_empty.
  - reflexivity.
  - by repeat constructor.
  - reflexivity.
Defined.

(** The answer sent again has pointers to filesystems that another interval's poll has measured
    since: it reads 2 MB per second for a device that was idle when the answer was made. *)
Example reused_answer_drifts :
  let a1 := ex_first.1.1 in
  let a2 := polls (FC := ex_conv) (λ _, f64_zero) true ex_sort (λ _, None) a1
              [(ex_readings 10500 1000, 1000, false); (ex_readings 11500 2001000, 1000, false)] in
  let '(a3, d, p) := ex_gather (ex_readings 12000 2001000) a2 5000 false in
  d = ex_first.1.2 ∧ p = ex_first.2 ∧
  FsStats.DiskReadBytes <$> extra_shown a1 d !! "sdb1"%string = Some 0 ∧
  FsStats.DiskReadBytes <$> extra_shown a3 d !! "sdb1"%string = Some 2000000.
Proof. vm_compute. split_and!; reflexivity. Qed.

(** Details the hub asks for are missing when the answer was made for a poll without them. *)
Example requested_details_missing :
  details (ex_gather (ex_readings 12000 0) ex_first.1.1 5000 true).1.2 = false ∧
  details (ex_gather (ex_readings 12000 0) ex_agent 5000 true).1.2 = true.
Proof. vm_compute. split; reflexivity. Qed.

Lemma hub_polls_lack_services_witness :
  let l := [(ex_readings 10000 0, Some false); (ex_readings 11000 0, None);
            (ex_readings 15000 0, Some false)] in
  Forall (λ '(inc, d), no_services d ∧ (inc = false → details d = false))
    (answers (FC := ex_conv) (λ _, f64_zero) true ex_sort (λ _, None) ex_agent (map hub_poll l)) ∧
  length (answers (FC := ex_conv) (λ _, f64_zero) true ex_sort (λ _, None) ex_agent
    (map hub_poll l)) = 3%nat ∧
  (* the same agent, asked with the default interval *)
  services (ex_gather (ex_readings 10000 0) ex_agent 60000 false).1.2 = ["ssh"%string].
Proof.
  split; [|split; vm_compute; reflexivity].
  apply (hub_polls_lack_services (FC := ex_conv) (λ _, f64_zero) true ex_sort (λ _, None) ex_agent).
  split; [reflexivity|]. intros k d. simpl. by rewrite lookup_empty.
Defined.
End AgentSystem.
