(* ===== verification/BatteryDarwin.v ===== *)
(** * Batteries on macOS ([agent/battery/battery_darwin.go])

    The batteries are the property list that [ioreg] prints, which a library reads.  The percentage and
    the value of the first use are computed alike on Windows ([BatteryWindows]). *)

From S2P Require Import Prelude GoFloat GoFloatFacts GoStrings GoText AgentPlatform.
Import Battery.

Local Open Scope Z_scope.

(** [uint8(float64(current) / float64(full) * 100)] *)
Definition battery_percent `{FloatConv} (current full : Z) : Z :=
  f64_to_uint 8 (f64_mul (f64_div (f64_of_Z current) (f64_of_Z full)) f64_100).

(** A value computed at its first use. *)
Definition OnceValue {A} (f : A) (o : option A) : option A * A :=
  match o with Some a => (o, a) | None => (Some f, f) end.

Module Darwin.

Record macBattery := {
  CurrentCapacity : Z; MaxCapacity : Z; FullyCharged : bool; IsCharging : bool; ExternalConnected : bool }.

(** The command [ioreg] prints text or fails; the library for property lists reads it. *)
Section mac.
Context `{FloatConv}.
Variable Unmarshal : string → option (list macBattery).

Definition readMacBatteries (ioreg : option string) : option (list macBattery) :=
  out ← ioreg;
  if String.eqb out EmptyString then Some [] else Unmarshal out.

Definition HasReadableBattery (ioreg : option string) (o : option bool) : option bool * bool :=
  OnceValue (existsb (λ bat, 0 <? MaxCapacity bat) (default [] (readMacBatteries ioreg))) o.

Definition mac_state (bat : macBattery) : Z :=
  if negb (ExternalConnected bat) then stateDischarging
  else if IsCharging bat then stateCharging
  else if CurrentCapacity bat =? 0 then stateEmpty
  else if negb (FullyCharged bat) then stateIdle
  else stateFull.

(** [int] has 64 bits. *)
Definition int64 (x : Z) : Z := (x + 2 ^ 63) `mod` 2 ^ 64 - 2 ^ 63.

Definition mac_step (st : Z * Z * Z) (bat : macBattery) : Z * Z * Z :=
  let '(totalCapacity, totalCharge, batteryState) := st in
  if MaxCapacity bat =? 0 then st
  else (int64 (totalCapacity + MaxCapacity bat),
        int64 (totalCharge + Z.min (CurrentCapacity bat) (MaxCapacity bat)), mac_state bat).

(** [ioreg] runs twice when the first question was not asked before. *)
Definition GetBatteryStats (first second : option string) (o : option bool) : option bool * option (Z * Z) :=
  let '(o, readable) := HasReadableBattery first o in
  (o, if negb readable then None
      else match default [] (readMacBatteries second) with
           | [] => None
           | batteries =>
               let '(totalCapacity, totalCharge, batteryState) := fold_left mac_step batteries (0, 0, 255) in
               if (totalCapacity =? 0) || (batteryState =? 255) then None
               else Some (battery_percent totalCharge totalCapacity, batteryState)
           end).

(** Capacities as the system reports them, in percent or in mAh. *)
Definition mac_sane (bats : list macBattery) : Prop :=
  (∀ bat, bat ∈ bats → 0 ≤ CurrentCapacity bat ∧ 0 ≤ MaxCapacity bat) ∧
  Zsum (MaxCapacity <$> bats) < 2 ^ 53.

Lemma int64_small x : - 2 ^ 63 ≤ x < 2 ^ 63 → int64 x = x.
Proof. intros. unfold int64. rewrite Z.mod_small by lia. lia. Qed.

Lemma mac_state_range bat : 0 ≤ mac_state bat ≤ 5.
Proof. unfold mac_state, stateDischarging, stateCharging, stateEmpty, stateIdle, stateFull. repeat case_match; lia. Qed.

Lemma mac_sum_nonneg bats :
  (∀ bat, bat ∈ bats → 0 ≤ CurrentCapacity bat ∧ 0 ≤ MaxCapacity bat) → 0 ≤ Zsum (MaxCapacity <$> bats).
Proof.
  induction bats as [|b bats IH]; intros Hb; csimpl; [lia|].
  destruct (Hb b ltac:(left)). specialize (IH ltac:(intros; apply Hb; by right)). lia.
Qed.

Lemma mac_sum_pos bats b :
  (∀ bat, bat ∈ bats → 0 ≤ CurrentCapacity bat ∧ 0 ≤ MaxCapacity bat) → b ∈ bats →
  MaxCapacity b ≤ Zsum (MaxCapacity <$> bats).
Proof.
  intros Hb [l1 [l2 ->]]%list_elem_of_split. rewrite fmap_app, fmap_cons, Zsum_app. cbn [Zsum foldr].
  pose proof (mac_sum_nonneg l1 ltac:(intros; apply Hb; set_solver)).
  pose proof (mac_sum_nonneg l2 ltac:(intros; apply Hb; set_solver)). unfold Zsum in *. lia.
Qed.

(** The totals are the sums, without the batteries of no capacity. *)
Lemma mac_loop bats : ∀ cap charge state,
  (∀ bat, bat ∈ bats → 0 ≤ CurrentCapacity bat ∧ 0 ≤ MaxCapacity bat) →
  0 ≤ charge ≤ cap → cap + Zsum (MaxCapacity <$> bats) < 2 ^ 53 → 0 ≤ state ≤ 5 ∨ state = 255 ∧ cap = 0 →
  ∃ charge' state',
    fold_left mac_step bats (cap, charge, state) = (cap + Zsum (MaxCapacity <$> bats), charge', state') ∧
    0 ≤ charge' ≤ cap + Zsum (MaxCapacity <$> bats) ∧
    (0 ≤ state' ≤ 5 ∨ state' = 255 ∧ cap + Zsum (MaxCapacity <$> bats) = 0).
Proof.
  induction bats as [|bat bats IH]; intros cap charge state Hb Hc Hs Hst; csimpl in *.
  { exists charge, state. rewrite Z.add_0_r. done. }
  destruct (Hb bat ltac:(left)) as [Hcur Hmax].
  assert (∀ b, b ∈ bats → 0 ≤ CurrentCapacity b ∧ 0 ≤ MaxCapacity b) as Hb' by (intros; apply Hb; by right).
  pose proof (mac_sum_nonneg bats Hb').
  destruct (Z.eqb_spec (MaxCapacity bat) 0) as [E|].
  - rewrite E, Z.add_0_l in *. by apply IH.
  - rewrite !int64_small by lia. rewrite Z.add_assoc. apply IH; [done|lia|lia|].
    left. apply mac_state_range.
Qed.

Lemma mac_bounds first second o o' pct state :
  mac_sane (default [] (readMacBatteries second)) →
  GetBatteryStats first second o = (o', Some (pct, state)) → 0 ≤ pct ≤ 100 ∧ 0 ≤ state ≤ 5.
Proof.
  intros [Hb Hsum]. unfold GetBatteryStats. destruct (HasReadableBattery first o) as [o1 []]; [|done].
  cbn [negb]. destruct (default [] (readMacBatteries second)) as [|bat bats]; [done|].
  destruct (mac_loop (bat :: bats) 0 0 255 Hb ltac:(lia) Hsum ltac:(by right)) as (c&s&->&Hc&Hs).
  set (cap := 0 + _) in *. destruct (Z.eqb_spec cap 0); [done|]. destruct (Z.eqb_spec s 255); [done|].
  intros [= <- <- <-]. destruct Hs as [Hs|[]]; [|done]. split; [|done]. apply percent_of_whole; lia.
Qed.

(** A charge of 0 to 100 % of what the batteries hold together is reported whenever one of them
    has a capacity. *)
Lemma mac_reports first second :
  mac_sane (default [] (readMacBatteries second)) →
  existsb (λ bat, 0 <? MaxCapacity bat) (default [] (readMacBatteries first)) = true →
  existsb (λ bat, 0 <? MaxCapacity bat) (default [] (readMacBatteries second)) = true →
  (GetBatteryStats first second None).2 ≠ None.
Proof.
  intros [Hb Hsum] Hf Hx. unfold GetBatteryStats, HasReadableBattery, OnceValue. rewrite Hf. cbn [negb snd].
  destruct (default [] (readMacBatteries second)) as [|bat bats] eqn:E; [done|].
  destruct (mac_loop (bat :: bats) 0 0 255 Hb ltac:(lia) Hsum ltac:(by right)) as (c&s&->&Hc&Hs).
  apply existsb_exists in Hx as (b&Hin&Hpos%Z.ltb_lt). apply list_elem_of_In in Hin.
  pose proof (mac_sum_pos _ b Hb Hin). set (cap := 0 + _) in *.
  destruct (Z.eqb_spec cap 0); [lia|]. destruct (Z.eqb_spec s 255); [lia|done].
Qed.
End mac.
End Darwin.

(** ** An example *)

(** The two batteries of a report. *)
Definition ex_mac (out : string) : option (list Darwin.macBattery) :=
  Some [Darwin.Build_macBattery 5 0 false false true; Darwin.Build_macBattery 4210 5000 false true true].
Example mac_example :
  (Darwin.GetBatteryStats ex_mac (Some "<plist>"%string) (Some "<plist>"%string) None).2 = Some (84, stateCharging) ∧
  (Darwin.GetBatteryStats ex_mac (Some ""%string) (Some "<plist>"%string) None).2 = None.
Proof. split; vm_compute; reflexivity. Qed.
