(* ===== verification/BatteryWindows.v ===== *)
(** * Batteries on Windows ([agent/battery/battery_windows.go])

    Batteries are numbered: each is found and asked by a row of system calls, whose answers are the
    parameter here, and the loop over the numbers ends at the first that the system says does not
    exist.  The loop is run with fuel; [win_loop_returns] says when it ends, and [win_loop_ends] how much
    fuel is enough. *)

From S2P Require Import Prelude GoFloat GoFloatFacts GoStrings GoText AgentPlatform BatteryDarwin.
Import Battery.

Local Open Scope Z_scope.

Module Windows.

Record batteryInformation := {
  Capabilities : Z; Technology : Z; DesignedCapacity : Z; FullChargedCapacity : Z;
  DefaultAlert1 : Z; DefaultAlert2 : Z; CriticalBias : Z; CycleCount : Z }.
Record batteryStatus := { PowerState : Z; Capacity : Z; Voltage : Z; Rate : Z }.

(** The error numbers of the system, and the errors of the package. *)
Inductive winErr := Errno (n : Z) | errNotFound | TagNotReturned | CapacityUnknown.
#[export] Instance winErr_eq_dec : EqDecision winErr.
Proof. solve_decision. Defined.

Definition EINVAL : Z := 536870951.                (* of the numbers Go adds, from 2^29 on *)
Definition InvalidHandle : Z := 2 ^ 64 - 1.

(** What a system call returns, [r1] and [errno]. *)
Definition answer : Type := Z * Z.

Definition setupDiSetup (r : answer) : Z + winErr :=
  let '(r1, errno) := r in
  if r1 =? InvalidHandle then inr (Errno (if errno =? 0 then EINVAL else errno)) else inl r1.

Definition setupDiCall (r : answer) : Z :=
  let '(r1, errno) := r in
  if r1 =? 0 then if errno =? 0 then EINVAL else errno else 0.

Definition readWinBatteryState (powerState : Z) : Z :=
  if negb (Z.land powerState 4 =? 0) then stateCharging
  else if negb (Z.land powerState 8 =? 0) then stateEmpty
  else if negb (Z.land powerState 2 =? 0) then stateDischarging
  else if negb (Z.land powerState 1 =? 0) then stateFull
  else stateUnknown.

(** The answers of the system during one reading of a battery; an [inr] is an error number. *)
Record calls := {
  GetClassDevs : answer;
  EnumDeviceInterfaces : Z → Z → answer;             (* device list, number *)
  DetailSize : answer * Z;                           (* with the size it asks for *)
  Detail : answer;
  CreateFile : Z + Z;
  QueryTag : Z + Z;
  QueryInformation : Z → batteryInformation + Z;     (* by the tag *)
  QueryStatus : Z → batteryStatus + Z;
}.

Inductive reading := Read (full current state : Z) | Failed (e : winErr) | Panicked.
Inductive handle_event := OpenList (h : Z) | CloseList (h : Z) | OpenFile (h : Z) | CloseFile (h : Z).

(** From the open device on. *)
Definition queryBattery (w : calls) : reading :=
  match QueryTag w with
  | inr _ => Failed TagNotReturned
  | inl tag =>
      if tag =? 0 then Failed TagNotReturned
      else match QueryInformation w tag with
           | inr e => Failed (Errno e)
           | inl bi =>
               match QueryStatus w tag with
               | inr e => Failed (Errno e)
               | inl bs => if Capacity bs =? 4294967295 then Failed CapacityUnknown
                           else Read (FullChargedCapacity bi) (Capacity bs) (readWinBatteryState (PowerState bs))
               end
           end
  end.

(** From the open device list on; the path of the device starts at the third 16-bit word. *)
Definition openBattery (w : calls) (hdev idx : Z) : list handle_event * reading :=
  let errno := setupDiCall (EnumDeviceInterfaces w hdev idx) in
  if errno =? 259 then ([], Failed errNotFound)
  else if negb (errno =? 0) then ([], Failed (Errno errno))
  else
    let '(r, cbRequired) := DetailSize w in
    let errno := setupDiCall r in
    if negb (errno =? 0) && negb (errno =? 122) then ([], Failed (Errno errno))
    else if cbRequired / 2 <? 1 then ([], Panicked)
    else
      let errno := setupDiCall (Detail w) in
      if negb (errno =? 0) then ([], Failed (Errno errno))
      else if cbRequired / 2 <? 3 then ([], Panicked)
      else match CreateFile w with
           | inr e => ([], Failed (Errno e))
           | inl h => ([OpenFile h; CloseFile h], queryBattery w)
           end.

Definition winBatteryGet (w : calls) (idx : Z) : list handle_event * reading :=
  match setupDiSetup (GetClassDevs w) with
  | inr e => ([], Failed e)
  | inl hdev =>
      let '(evs, r) := openBattery w hdev idx in (OpenList hdev :: evs ++ [CloseList hdev], r)
  end.

Definition HasReadableBattery (w : calls) (o : option bool) : option bool * bool :=
  OnceValue (match (winBatteryGet w 0).2 with Read full _ _ => 0 <? full | _ => false end) o.

(** One turn of the loop; [None] ends it. *)
Definition win_turn (st : Z * Z * Z) (r : reading) : option (Z * Z * Z) :=
  match r with
  | Failed errNotFound | Panicked => None
  | Failed _ => Some st
  | Read full current state =>
      let '(totalFull, totalCurrent, _) := st in
      if full =? 0 then Some st
      else Some (wrap 32 (totalFull + full), wrap 32 (totalCurrent + Z.min current full), state)
  end.

(** The loop; [w i] are the answers in its turn [i].  [None]: the fuel did not last. *)
Fixpoint win_loop (fuel : nat) (w : nat → calls) (i : nat) (st : Z * Z * Z) : option (Z * Z * Z * bool) :=
  match fuel with
  | O => None
  | S fuel =>
      let r := (winBatteryGet (w i) (Z.of_nat i)).2 in
      match win_turn st r with
      | Some st => win_loop fuel w (S i) st
      | None => Some (st, match r with Panicked => true | _ => false end)
      end
  end.

Inductive outcome := Stats (percent state : Z) | Unsupported | NoCapacity | Panics | Runs.

Definition GetBatteryStats `{FloatConv} (fuel : nat) (first : calls) (w : nat → calls) (o : option bool) :
  option bool * outcome :=
  let '(o, readable) := HasReadableBattery first o in
  (o, if negb readable then Unsupported
      else match win_loop fuel w 0 (0, 0, 255) with
           | None => Runs
           | Some (_, true) => Panics
           | Some (totalFull, totalCurrent, batteryState, false) =>
               if (totalFull =? 0) || (batteryState =? 255) then NoCapacity
               else Stats (battery_percent totalCurrent totalFull) batteryState
           end).

(** *** The loop *)

Definition reading_at (w : nat → calls) (i : nat) : reading := (winBatteryGet (w i) (Z.of_nat i)).2.
Definition stops (r : reading) : bool := match r with Failed errNotFound | Panicked => true | _ => false end.

Lemma win_turn_stops st r : win_turn st r = None ↔ stops r = true.
Proof.
  destruct r as [full cur s|[]|]; simpl; try done. destruct st as [[? ?] ?]. by destruct (full =? 0).
Qed.

(** Without an end among the answers no number of turns is enough. *)
Lemma win_loop_runs fuel w : ∀ i st,
  (∀ j, (i ≤ j)%nat → stops (reading_at w j) = false) → win_loop fuel w i st = None.
Proof.
  induction fuel as [|fuel IH]; intros i st Hs; [done|]. cbn [win_loop]. fold (reading_at w i).
  destruct (win_turn st (reading_at w i)) eqn:E.
  - apply IH. intros j ?. apply Hs. lia.
  - apply win_turn_stops in E. by rewrite Hs in E by lia.
Qed.

(** The totals over the answers of [n] turns. *)
Definition win_totals (rs : list reading) (st : Z * Z * Z) : Z * Z * Z :=
  fold_left (λ st r, default st (win_turn st r)) rs st.

(** With the first end in turn [i + n], the loop makes [n + 1] turns and leaves with the totals. *)
Lemma win_loop_ends w n : ∀ fuel i st,
  stops (reading_at w (i + n)) = true → (∀ j, (i ≤ j < i + n)%nat → stops (reading_at w j) = false) → (n < fuel)%nat →
  win_loop fuel w i st =
    Some (win_totals (reading_at w <$> seq i n) st,
          match reading_at w (i + n) with Panicked => true | _ => false end).
Proof.
  induction n as [|n IH]; intros fuel i st He Hs Hf; (destruct fuel as [|fuel]; [lia|]);
    cbn [win_loop]; fold (reading_at w i).
  - rewrite Nat.add_0_r in He. rewrite (proj2 (win_turn_stops st _) He), Nat.add_0_r. done.
  - destruct (win_turn st (reading_at w i)) as [st'|] eqn:E.
    + rewrite IH; [|by rewrite Nat.add_succ_comm|intros; apply Hs; lia|lia].
      rewrite Nat.add_succ_comm. cbn [seq fmap list_fmap win_totals fold_left]. by rewrite E.
    + apply win_turn_stops in E. by rewrite Hs in E by lia.
Qed.

Lemma win_loop_more fuel w k : ∀ i st r, win_loop fuel w i st = Some r → win_loop (fuel + k) w i st = Some r.
Proof.
  induction fuel as [|fuel IH]; intros i st r; [done|]. cbn [win_loop Nat.add].
  destruct (win_turn st _); [apply IH|done].
Qed.

(** The loop comes to an end exactly when a number is answered with the end of the list, or the
    program panics. *)
Theorem win_loop_returns w st :
  (∃ fuel r, win_loop fuel w 0 st = Some r) ↔ ∃ n, stops (reading_at w n) = true.
Proof.
  split.
  - intros (fuel&r&Hr). assert (∀ k i st, win_loop k w i st ≠ None → ∃ n, stops (reading_at w n) = true) as Hk.
    { induction k as [|k IH]; intros i st'; [done|]. cbn [win_loop]. fold (reading_at w i).
      destruct (win_turn st' (reading_at w i)) eqn:E; [apply IH|]. intros _. exists i. by eapply win_turn_stops. }
    apply (Hk fuel 0%nat st). by rewrite Hr.
  - intros (n&Hn). induction n as [n IH] using lt_wf_ind.
    destruct (List.find (λ m, stops (reading_at w m)) (seq 0 n)) as [m|] eqn:E.
    + apply find_some in E as [Hm%in_seq ?]. apply (IH m); [lia|done].
    + exists (S n). eexists. apply (win_loop_ends w n (S n) 0 st Hn); [|lia].
      intros j Hj. apply (find_none _ _ E j), in_seq. lia.
Qed.

(** *** What is reported *)

(** The capacities the system gives: 32-bit numbers, of a sum that fits in 32 bits. *)
Definition fullOf (r : reading) : Z := match r with Read full _ _ => full | _ => 0 end.
Definition reading_ok (r : reading) : Prop :=
  match r with Read full current state => 0 ≤ full ∧ 0 ≤ current ∧ 0 ≤ state ≤ 5 | _ => True end.

Lemma readWinBatteryState_range p : 0 ≤ readWinBatteryState p ≤ 5.
Proof.
  unfold readWinBatteryState, stateCharging, stateEmpty, stateDischarging, stateFull, stateUnknown.
  repeat case_match; lia.
Qed.

Lemma fulls_nonneg rs : Forall reading_ok rs → 0 ≤ Zsum (fullOf <$> rs).
Proof. induction 1 as [|[] rs ? ? IH]; csimpl; simpl in *; lia. Qed.

Lemma win_totals_bounds rs : ∀ full current state,
  Forall reading_ok rs → 0 ≤ current ≤ full → full + Zsum (fullOf <$> rs) < 2 ^ 32 →
  0 ≤ state ≤ 5 ∨ state = 255 ∧ full = 0 →
  ∃ current' state',
    win_totals rs (full, current, state) = (full + Zsum (fullOf <$> rs), current', state') ∧
    0 ≤ current' ≤ full + Zsum (fullOf <$> rs) ∧
    (0 ≤ state' ≤ 5 ∨ state' = 255 ∧ full + Zsum (fullOf <$> rs) = 0).
Proof.
  induction rs as [|r rs IH]; intros full current state Hrs Hc Hsum Hst; csimpl in *.
  { exists current, state. rewrite Z.add_0_r. done. }
  apply Forall_cons in Hrs as [Hr Hrs]. pose proof (fulls_nonneg rs Hrs).
  unfold win_totals. cbn [fold_left]. fold (win_totals rs).
  destruct r as [f c s|e|]; cbn [win_turn fullOf] in *.
  - simpl in Hr. destruct (Z.eqb_spec f 0) as [->|]; cbn [default].
    + rewrite Z.add_0_l in *. by apply IH.
    + rewrite !wrap_small by (unfold in_range; lia). rewrite Z.add_assoc. apply IH; [done|lia|lia|]. left. lia.
  - rewrite Z.add_0_l in *. destruct e; by apply IH.
  - rewrite Z.add_0_l in *. by apply IH.
Qed.

(** A system that lists [n] batteries and then says that there are no more. *)
Definition lists (w : nat → calls) (n : nat) : Prop :=
  reading_at w n = Failed errNotFound ∧ (∀ j, (j < n)%nat → stops (reading_at w j) = false) ∧
  Forall reading_ok (reading_at w <$> seq 0 n) ∧ Zsum (fullOf <$> (reading_at w <$> seq 0 n)) < 2 ^ 32.

(** The whole call, on a system that lists its batteries: it returns, after one turn per battery
    and one more, and reports the charge of all batteries together when one has a capacity. *)
Theorem win_reports `{FloatConv} fuel first w o n :
  lists w n → (n < fuel)%nat → (HasReadableBattery first o).2 = true →
  (GetBatteryStats fuel first w o).2 =
    (if Zsum (fullOf <$> (reading_at w <$> seq 0 n)) =? 0 then NoCapacity
     else let '(full, current, state) := win_totals (reading_at w <$> seq 0 n) (0, 0, 255) in
          Stats (battery_percent current full) state) ∧
  ∀ pct state, (GetBatteryStats fuel first w o).2 = Stats pct state → 0 ≤ pct ≤ 100 ∧ 0 ≤ state ≤ 5.
Proof.
  intros (He&Hs&Hok&Hsum) Hf Hr. unfold GetBatteryStats. destruct (HasReadableBattery first o) as [o' b].
  simpl in Hr. subst b. cbn [negb snd].
  rewrite (win_loop_ends w n fuel 0 (0, 0, 255)); [|by rewrite Nat.add_0_l, He|intros; apply Hs; lia|done]. rewrite Nat.add_0_l, He.
  destruct (win_totals_bounds _ 0 0 255 Hok ltac:(lia) Hsum ltac:(by right)) as (c&st&E&Hc&Hst).
  rewrite E, Z.add_0_l in *. set (sum := Zsum _) in *.
  destruct (Z.eqb_spec sum 0); [done|]. destruct (Z.eqb_spec st 255); [lia|]. cbn [orb].
  split; [done|]. intros ?? [= <- <-]. split; [apply percent_of_whole; lia|lia].
Qed.

(** A system whose list of devices cannot be opened any more: the call does not return. *)
Theorem win_hangs `{FloatConv} first w o errno :
  (HasReadableBattery first o).2 = true → (∀ i, GetClassDevs (w i) = (InvalidHandle, errno)) →
  ∀ fuel, (GetBatteryStats fuel first w o).2 = Runs.
Proof.
  intros Hr Hw fuel. unfold GetBatteryStats. destruct (HasReadableBattery first o) as [o' b].
  simpl in Hr. subst b. cbn [negb snd]. rewrite win_loop_runs; [done|]. intros j _.
  unfold reading_at, winBatteryGet. by rewrite Hw.
Qed.

(** *** Handles *)

(** Handles are closed in the reverse order of their opening. *)
Fixpoint nested (evs : list handle_event) (open : list (bool * Z)) : bool :=
  match evs, open with
  | [], [] => true
  | OpenList h :: evs, _ => nested evs ((false, h) :: open)
  | OpenFile h :: evs, _ => nested evs ((true, h) :: open)
  | CloseList h :: evs, (false, h') :: open | CloseFile h :: evs, (true, h') :: open => (h =? h') && nested evs open
  | _, _ => false
  end.

(** Every device list and every device that was opened is closed again, on every path, errors
    and panics included. *)
Lemma win_handles_closed w idx : nested (winBatteryGet w idx).1 [] = true.
Proof.
  unfold winBatteryGet. destruct (setupDiSetup _) as [hdev|]; [|done].
  assert ((openBattery w hdev idx).1 = [] ∨ ∃ h, (openBattery w hdev idx).1 = [OpenFile h; CloseFile h]) as Hevs.
  { unfold openBattery. destruct (DetailSize w) as [r cb]. repeat case_match; eauto. }
  destruct (openBattery w hdev idx) as [evs r]. simpl in Hevs.
  destruct Hevs as [->|[h ->]]; simpl; by rewrite !Z.eqb_refl.
Qed.

(** *** The state *)

Lemma land_pow2 p k : 0 ≤ k → negb (Z.land p (2 ^ k) =? 0) = Z.testbit p k.
Proof.
  intros Hk. destruct (Z.testbit p k) eqn:E.
  - apply negb_true_iff, Z.eqb_neq. intros H0. assert (Z.testbit (Z.land p (2 ^ k)) k = false) as H by (by rewrite H0, Z.bits_0).
    by rewrite Z.land_spec, E, Z.pow2_bits_true in H.
  - apply negb_false_iff, Z.eqb_eq. apply Z.bits_inj'. intros n Hn. rewrite Z.land_spec, Z.bits_0.
    destruct (Z.eq_dec n k) as [->|]; [by rewrite E|]. rewrite Z.pow2_bits_false by lia. apply andb_false_r.
Qed.

(** Charging before critical before discharging before online, as the bits 2, 3, 1 and 0 say. *)
Lemma readWinBatteryState_bits p :
  readWinBatteryState p =
    if Z.testbit p 2 then stateCharging else if Z.testbit p 3 then stateEmpty
    else if Z.testbit p 1 then stateDischarging else if Z.testbit p 0 then stateFull else stateUnknown.
Proof.
  rewrite <- !land_pow2 by lia. done.
Qed.
End Windows.

(** ** Examples *)

Module Examples.
Import Windows.
Local Existing Instance zero_float_conv.

Definition ex_info (full : Z) : batteryInformation := {|
  Capabilities := 2147483648; Technology := 1; DesignedCapacity := full; FullChargedCapacity := full;
  DefaultAlert1 := 0; DefaultAlert2 := 0; CriticalBias := 0; CycleCount := 0 |}.

(** A laptop with the batteries [bats], of full capacity, charge and power state each. *)
Definition ex_calls (bats : list (Z * Z * Z)) (i : nat) : calls := {|
  GetClassDevs := (77, 0);
  EnumDeviceInterfaces _ _ := if (i <? List.length bats)%nat then (1, 0) else (0, 259);
  DetailSize := (0, 122, 120);
  Detail := (1, 0);
  CreateFile := inl 78; QueryTag := inl 1;
  QueryInformation _ := match bats !! i with Some (full, _, _) => inl (ex_info full) | None => inr 31 end;
  QueryStatus _ := match bats !! i with
                   | Some (_, cur, p) => inl {| PowerState := p; Capacity := cur; Voltage := 12000; Rate := 0 |}
                   | None => inr 31
                   end |}.

Definition ex_bats : list (Z * Z * Z) := [(50000, 41000, 2); (0, 0, 0); (24000, 6000, 4)].

Lemma win_reports_witness :
  (GetBatteryStats 9 (ex_calls ex_bats 0) (ex_calls ex_bats) None).2 = Stats 63 stateCharging ∧ 0 ≤ 63 ≤ 100.
Proof.
  destruct (win_reports 9 (ex_calls ex_bats 0) (ex_calls ex_bats) None 3) as [H1 H2]; [|lia|reflexivity|].
  - split_and!; [reflexivity| | |vm_compute; reflexivity].
    + intros j Hj. do 3 (destruct j as [|j]; [reflexivity|]). lia.
    + repeat constructor; vm_compute; intuition discriminate.
  - rewrite H1. split; [vm_compute; reflexivity|]. apply (H2 63 stateCharging). rewrite H1. vm_compute. reflexivity.
Defined.

(** The list of devices can no longer be opened (1722, the RPC server is not available). *)
Definition ex_broken : calls := {|
  GetClassDevs := (InvalidHandle, 1722); EnumDeviceInterfaces _ _ := (0, 6); DetailSize := (0, 6, 0);
  Detail := (0, 6); CreateFile := inr 6; QueryTag := inr 6; QueryInformation _ := inr 6; QueryStatus _ := inr 6 |}.

Lemma win_hangs_witness :
  ∀ fuel, (GetBatteryStats fuel (ex_calls ex_bats 0) (λ _, ex_broken) None).2 = Runs.
Proof. apply (win_hangs _ _ _ 1722); [reflexivity|]. intros _. reflexivity. Defined.

(** A battery without a capacity in the first place hides the one behind it, although the loop
    would skip it. *)
Example ghost_hides_battery :
  (GetBatteryStats 9 (ex_calls [(0, 0, 0); (50000, 41000, 2)] 0) (ex_calls [(0, 0, 0); (50000, 41000, 2)]) None).2 = Unsupported ∧
  (GetBatteryStats 9 (ex_calls [(50000, 41000, 2); (0, 0, 0)] 0) (ex_calls [(50000, 41000, 2); (0, 0, 0)]) None).2 = Stats 82 stateDischarging.
Proof. split; vm_compute; reflexivity. Qed.

(** An unknown full capacity, [0xffffffff], is not told from a known one: the sum wraps, and the
    two batteries together are charged to 160 %. *)
Example unknown_full_capacity :
  (GetBatteryStats 9 (ex_calls [(50000, 50000, 1); (4294967295, 30000, 1)] 0)
     (ex_calls [(50000, 50000, 1); (4294967295, 30000, 1)]) None).2 = Stats 160 stateFull.
Proof. vm_compute. reflexivity. Qed.
End Examples.
