(* ===== verification/BatteryOS.v ===== *)
(** * The battery package and the agent's report ([agent/battery], [agent/system.go])

    The package has one interface for the three systems, [BatteryPlatform]; what it promises to the
    agent, [BatteryLaws], holds for Linux, macOS and Windows, and gives the range of the battery's
    figures in the agent's report. *)

From S2P Require Import Prelude GoFloat GoFloatFacts GoStrings GoText Entities AgentPlatform.
From S2P Require Import AgentCpu AgentDisk AgentNetwork AgentSensors AgentSystem BatteryDarwin BatteryWindows.
Import Battery.

Local Open Scope Z_scope.

(** ** The package *)

(** What the agent uses of the package: a reading, with the value that is kept of the first use. *)
Class BatteryPlatform (Sys Once : Type) := {
  battery_sane : Sys → Prop;
  battery_reads : Sys → Once → Z * Z → Prop;
}.

Class BatteryLaws (Sys Once : Type) `{BatteryPlatform Sys Once} := {
  battery_range s o pct state :
    battery_sane s → battery_reads s o (pct, state) → 0 ≤ pct ≤ 100 ∧ 0 ≤ state ≤ 5 }.

#[export] Instance linux_batteries : BatteryPlatform files once := {|
  battery_sane := sane; battery_reads fs o r := (Battery.GetBatteryStats fs o).2 = Some r |}.
#[export] Instance linux_laws : BatteryLaws files once.
Proof.
  split. intros fs o pct state Hs Hr. simpl in Hr. destruct (Battery.GetBatteryStats fs o) as [o' r] eqn:E.
  simpl in Hr. subst r. by eapply battery_bounds.
Qed.

Section mac.
Context `{FloatConv}.
Variable Unmarshal : string → option (list Darwin.macBattery).

(** The output of [ioreg] at the first question and at the second. *)
Definition mac_batteries : BatteryPlatform (option string * option string) (option bool) := {|
  battery_sane s := Darwin.mac_sane (default [] (Darwin.readMacBatteries Unmarshal s.2));
  battery_reads s o r := (Darwin.GetBatteryStats Unmarshal s.1 s.2 o).2 = Some r |}.
Lemma mac_laws : @BatteryLaws _ _ mac_batteries.
Proof.
  split. intros [x y] o pct state Hs Hr. simpl in *.
  destruct (Darwin.GetBatteryStats Unmarshal x y o) as [o' r] eqn:E. simpl in Hr. subst r.
  by eapply Darwin.mac_bounds.
Qed.
End mac.

Section windows.
Context `{FloatConv}.

(** The answers at the first question, and in each turn of the loop. *)
#[export] Instance windows_batteries : BatteryPlatform (Windows.calls * (nat → Windows.calls)) (option bool) := {|
  battery_sane s := ∃ n, Windows.lists s.2 n;
  battery_reads s o r := ∃ fuel, (Windows.GetBatteryStats fuel s.1 s.2 o).2 = Windows.Stats r.1 r.2 |}.
#[export] Instance windows_laws : BatteryLaws (Windows.calls * (nat → Windows.calls)) (option bool).
Proof.
  split. intros [first w] o pct state [n Hn] [fuel Hr]. simpl in *.
  assert ((Windows.HasReadableBattery first o).2 = true) as Hread.
  { unfold Windows.GetBatteryStats in Hr. by destruct (Windows.HasReadableBattery first o) as [? []]. }
  apply (proj2 (Windows.win_reports (fuel + S n) first w o n Hn ltac:(lia) Hread) pct state).
  rewrite <- Hr. unfold Windows.GetBatteryStats in *. destruct (Windows.HasReadableBattery first o) as [? b]. simpl in *.
  subst b. cbn [negb] in *. destruct (Windows.win_loop fuel w 0 (0, 0, 255)) as [r|] eqn:E; [|done].
  by rewrite (Windows.win_loop_more _ _ _ _ _ _ E).
Qed.
End windows.

(** ** The agent's report *)

(** A report takes the reading over, or has 0 and 0 without one. *)
Lemma report_in_range {RO : RangeOrder string} `{FloatConv} {Sys Once} {P : BatteryPlatform Sys Once} {L : BatteryLaws Sys Once}
    (Total_ : AgentCpu.TimesStat → f64) (linux : bool) (s : Sys) (o : Once)
    (r : AgentSystem.readings) (cacheTimeMs : Z) (a : AgentSystem.Agent) :
  battery_sane s → (∀ x, AgentSystem.r_battery r = Some x → battery_reads s o x) →
  let '(a', stats) := AgentSystem.getSystemStats Total_ linux r cacheTimeMs a in
  Info.Battery (AgentSystem.systemInfo a') = Stats.Battery stats ∧
  0 ≤ (Stats.Battery stats).1 ≤ 100 ∧ 0 ≤ (Stats.Battery stats).2 ≤ 5.
Proof.
  intros Hs Hr. unfold AgentSystem.getSystemStats.
  destruct (AgentCpu.getCpuMetrics _ _ _ _ _) as [cpu1 metrics].
  destruct (AgentCpu.getPerCoreCpuUsage _ _ _ _ _) as [[cpu2 cores] ?].
  destruct (AgentDisk.updateDiskUsage _ _ _ _) as [disk1 ds].
  destruct (AgentDisk.updateDiskIo _ _ _ _ _) as [disk2 ds'].
  destruct (AgentNetwork.updateNetworkStats _ _ _ _ _) as [net1 ns].
  destruct (AgentSensors.updateTemperatures _ _ _ _ _) as [[cfg dash] temps].
  destruct (AgentSystem.add_gpus _ _ _ _ _) as [[temps' dash'] gpuPct].
  cbn. split; [done|]. destruct (AgentSystem.r_battery r) as [[pct state]|] eqn:E; [|simpl; lia].
  exact (battery_range s o pct state Hs (Hr _ eq_refl)).
Qed.

(** What the agent runs on, with the answers of the operating system and the value that is kept. *)
Inductive platform :=
| OnLinux (fs : files) (o : once)
| OnMac (first second : option string) (o : option bool)
| OnWindows (first : Windows.calls) (turns : nat → Windows.calls) (o : option bool).

Section platforms.
Context {RO : RangeOrder string} `{FloatConv} (Unmarshal : string → option (list Darwin.macBattery)).

(** What the package of the platform reads. *)
Definition platform_reads (p : platform) (x : Z * Z) : Prop :=
  match p with
  | OnLinux fs o => (Battery.GetBatteryStats fs o).2 = Some x
  | OnMac first second o => (Darwin.GetBatteryStats Unmarshal first second o).2 = Some x
  | OnWindows first turns o => ∃ fuel, (Windows.GetBatteryStats fuel first turns o).2 = Windows.Stats x.1 x.2
  end.

(** Capacities in their range, without overflow, and on Windows a list of batteries that ends. *)
Definition platform_sane (p : platform) : Prop :=
  match p with
  | OnLinux fs _ => sane fs
  | OnMac _ second _ => Darwin.mac_sane (default [] (Darwin.readMacBatteries Unmarshal second))
  | OnWindows _ turns _ => ∃ n, Windows.lists turns n
  end.

(** C40: on Linux, macOS and Windows, the charge and the state in an agent's report are those of no battery,
    0 and 0, or a percentage of at most 100 and a state that has a name.  It holds when the platform is
    sane ([platform_sane]): on Linux the kernel gives capacities of 0 to 100, on macOS capacities are not
    negative and add up to less than 2^53, on Windows the list of batteries ends and full capacities are
    known and add up to less than 2^32; a Windows battery of unknown full capacity can lead to a report
    of 160 % ([unknown_full_capacity]). *)
Theorem reported_battery (Total_ : AgentCpu.TimesStat → f64) (linux : bool) (p : platform)
    (r : AgentSystem.readings) (cacheTimeMs : Z) (a : AgentSystem.Agent) :
  platform_sane p → (∀ x, AgentSystem.r_battery r = Some x → platform_reads p x) →
  let '(a', stats) := AgentSystem.getSystemStats Total_ linux r cacheTimeMs a in
  Info.Battery (AgentSystem.systemInfo a') = Stats.Battery stats ∧
  0 ≤ (Stats.Battery stats).1 ≤ 100 ∧ 0 ≤ (Stats.Battery stats).2 ≤ 5.
Proof.
  intros Hs Hr. destruct p as [fs o|first second o|first turns o]; simpl in Hs.
  - exact (report_in_range Total_ linux fs o r cacheTimeMs a Hs Hr).
  - exact (report_in_range (P := mac_batteries Unmarshal) (L := mac_laws Unmarshal) Total_ linux
      (first, second) o r cacheTimeMs a Hs Hr).
  - exact (report_in_range Total_ linux (first, turns) o r cacheTimeMs a Hs Hr).
Qed.
End platforms.

(** ** An example *)

Module ReportExample.
Import Windows BatteryWindows.Examples.
Local Existing Instance zero_float_conv.

Definition ex_agent_readings : AgentSystem.readings :=
  let r := AgentSystem.ex_readings 1000 4096 in {|
  AgentSystem.r_now := AgentSystem.r_now r; AgentSystem.r_battery := Some (63, stateCharging);
  AgentSystem.r_times := None; AgentSystem.r_cores := None; AgentSystem.r_load := None;
  AgentSystem.r_memory := AgentSystem.r_memory r; AgentSystem.r_arc := 0; AgentSystem.r_usage := AgentSystem.r_usage r;
  AgentSystem.r_io := AgentSystem.r_io r; AgentSystem.r_net := AgentSystem.r_net r; AgentSystem.r_files := AgentSystem.r_files r;
  AgentSystem.r_temps := AgentSystem.r_temps r; AgentSystem.r_gpus := None; AgentSystem.r_uptime := 0;
  AgentSystem.r_connection := 2; AgentSystem.r_docker := AgentSystem.r_docker r |}.

Lemma reported_battery_witness :
  let stats := (AgentSystem.getSystemStats (λ _, f64_zero) true ex_agent_readings 5000 AgentSystem.ex_agent).2 in
  Stats.Battery stats = (63, stateCharging) ∧ 0 ≤ (Stats.Battery stats).1 ≤ 100.
Proof.
  pose proof (reported_battery (λ _, None) (λ _, f64_zero) true
    (OnWindows (ex_calls ex_bats 0) (ex_calls ex_bats) None) ex_agent_readings 5000 AgentSystem.ex_agent) as H.
  destruct (AgentSystem.getSystemStats _ _ ex_agent_readings 5000 _) as [a stats] eqn:E. destruct H as (_&H&_).
  - exists 3%nat. split_and!; [reflexivity| | |vm_compute; reflexivity].
    + intros j Hj. do 3 (destruct j as [|j]; [reflexivity|]). lia.
    + repeat constructor; vm_compute; intuition discriminate.
  - intros x [= <-]. exists 9%nat. vm_compute. reflexivity.
  - split; [|exact H]. change stats with (a, stats).2. rewrite <- E. vm_compute. reflexivity.
Defined.
End ReportExample.
