(* ===== verification/SmartRaw.v ===== *)
(** * Raw values of SMART attributes ([internal/entities/smart/smart.go])

    [smartctl] reports the raw value of an attribute as a number and as a text, and
    drives put annotations into either: [7344 (253d 8h)], [0h+0m+0.000s].  The decoder
    tries an integer in Go's syntax, then the hours before an [h], then the first run
    of digits.  [strconv.ParseUint] with base 0 and [strconv.ParseFloat] are modelled
    in full, with underscores, prefixes and correct rounding. *)

From S2P Require Import Prelude GoFloat GoStrings GoText.

Module SmartRaw.
Local Open Scope string_scope.
Local Open Scope Z_scope.

(** ** [strconv] *)

Definition is_digit (a : ascii) : bool :=
  match digit_val a with Some _ => true | None => false end.

(** A digit of any base up to 36. *)
Definition digit36 (a : ascii) : option Z :=
  match digit_val a with
  | Some d => Some d
  | None =>
      let n := Z.of_nat (nat_of_ascii (lower_ascii a)) in
      if (97 <=? n) && (n <=? 122) then Some (n - 87) else None
  end.

(** What the previous character was, for [underscoreOK]. *)
Inductive previous := Start | Digit | Underscore | Other.

Fixpoint underscore_loop (hex : bool) (i : previous) (s : string) : bool :=
  match s with
  | EmptyString => match i with Underscore => false | _ => true end
  | String a s' =>
      if is_digit a || (hex && match hex_val a with Some _ => true | None => false end)
      then underscore_loop hex Digit s'
      else if Ascii.eqb a "_" then
        match i with Digit => underscore_loop hex Underscore s' | _ => false end
      else match i with Underscore => false | _ => underscore_loop hex Other s' end
  end.

Definition cut_sign (s : string) : bool * string :=
  match s with
  | String a t =>
      if Ascii.eqb a "-" then (true, t) else if Ascii.eqb a "+" then (false, t) else (false, s)
  | EmptyString => (false, s)
  end.

Definition underscoreOK (s : string) : bool :=
  let s := (cut_sign s).2 in
  match s with
  | String "0" (String p t) =>
      let p := lower_ascii p in
      if Ascii.eqb p "b" || Ascii.eqb p "o" || Ascii.eqb p "x"
      then underscore_loop (Ascii.eqb p "x") Digit t else underscore_loop false Start s
  | _ => underscore_loop false Start s
  end.

(** The digits of a base, underscores left out; the boolean says that there were some. *)
Fixpoint read_base (base : Z) (s : string) (n : Z) (under : bool) : option (Z * bool) :=
  match s with
  | EmptyString => Some (n, under)
  | String a s' =>
      if Ascii.eqb a "_" then read_base base s' n true
      else d ← digit36 a; if base <=? d then None else read_base base s' (n * base + d) under
  end.

(** The base that a prefix asks for, and the digits after it. *)
Definition base_prefix (s : string) : Z * string :=
  match s with
  | String "0" t =>
      match t with
      | String p (String c r) =>
          let p := lower_ascii p in
          if Ascii.eqb p "b" then (2, String c r)
          else if Ascii.eqb p "o" then (8, String c r)
          else if Ascii.eqb p "x" then (16, String c r)
          else (8, t)
      | _ => (8, t)
      end
  | _ => (10, s)
  end.

(** [strconv.ParseUint(s, 0, w)] *)
Definition ParseUint0 (w : Z) (s : string) : option Z :=
  if String.eqb s "" then None
  else
    let '(base, t) := base_prefix s in
    '(n, under) ← read_base base t 0 false;
    if under && negb (underscoreOK s) then None
    else if n <? 2 ^ w then Some n else None.

(** The mantissa of a number: its digits, how many stand after the point, whether there were
    digits and underscores, and the rest of the text. *)
Record mantissa := { m_value : Z; m_frac : Z; m_dot : bool; m_digits : bool; m_under : bool }.

Fixpoint read_mantissa (base : Z) (s : string) (m : mantissa) : mantissa * string :=
  match s with
  | EmptyString => (m, "")
  | String a s' =>
      if Ascii.eqb a "_" then
        read_mantissa base s' {| m_value := m_value m; m_frac := m_frac m; m_dot := m_dot m;
                                 m_digits := m_digits m; m_under := true |}
      else if Ascii.eqb a "." then
        if m_dot m then (m, s)
        else read_mantissa base s' {| m_value := m_value m; m_frac := m_frac m; m_dot := true;
                                      m_digits := m_digits m; m_under := m_under m |}
      else
        match (if base =? 16 then Z.of_nat <$> hex_val a else digit_val a) with
        | Some d =>
            read_mantissa base s' {| m_value := m_value m * base + d;
              m_frac := if m_dot m then m_frac m + 1 else m_frac m; m_dot := m_dot m;
              m_digits := true; m_under := m_under m |}
        | None => (m, s)
        end
  end.

(** The digits of an exponent, which stop counting at 10000. *)
Fixpoint read_exponent (s : string) (e : Z) (under : bool) : Z * bool * string :=
  match s with
  | EmptyString => (e, under, "")
  | String a s' =>
      if Ascii.eqb a "_" then read_exponent s' e true
      else match digit_val a with
           | Some d => read_exponent s' (if e <? 10000 then e * 10 + d else e) under
           | None => (e, under, s)
           end
  end.

(** The number nearest to [n / d], [d] positive: 64 bits of the quotient and a sticky bit. *)
Definition round_ratio (neg : bool) (n d : Z) : f64 :=
  let s := Z.max 0 (66 + Z.log2 d - Z.log2 n) in
  let q := n * 2 ^ s / d in
  let sticky := if n * 2 ^ s `mod` d =? 0 then 0 else 1 in
  let m := 2 * q + sticky in
  binary_normalize 53 1024 (if neg then - m else m) (- s - 1) neg.

Definition nearest_number (neg : bool) (base m e : Z) : f64 :=
  if 0 <=? e then binary_normalize 53 1024 ((if neg then - m else m) * base ^ e) 0 neg
  else round_ratio neg m (base ^ (- e)).
Definition round_number (neg : bool) (base m e : Z) : option f64 :=
  let x := nearest_number neg base m e in
  match x with S754_infinity _ => None | _ => Some x end.

(** [strconv.ParseFloat(s, 64)], with what a number is rounded to; [None] is a syntax error or
    what [round] says. *)
Definition parse_float (round : bool → Z → Z → Z → option f64) (s : string) : option f64 :=
  let '(neg, t) := cut_sign s in
  let l := ToLower t in
  if String.eqb l "inf" || String.eqb l "infinity" then Some (S754_infinity neg)
  else if String.eqb (ToLower s) "nan" then Some S754_nan
  else
    let '(base, t) :=
      match t with
      | String "0" (String p (String c r)) =>
          if Ascii.eqb (lower_ascii p) "x" then (16, String c r) else (10, t)
      | _ => (10, t)
      end in
    let '(m, r) := read_mantissa base t {| m_value := 0; m_frac := 0; m_dot := false;
                                           m_digits := false; m_under := false |} in
    if negb (m_digits m) then None
    else
      let ebase := if base =? 16 then 2 else 10 in
      let frac := if base =? 16 then 4 * m_frac m else m_frac m in
      let finish e under rest :=
        if negb (String.eqb rest "") || (under && negb (underscoreOK s)) then None
        else if m_value m =? 0 then Some (S754_zero neg)
        else round neg ebase (m_value m) (e - frac) in
      match r with
      | String c r' =>
          if Ascii.eqb (lower_ascii c) (if base =? 16 then "p" else "e") then
            let '(esign, r') := cut_sign r' in
            match r' with
            | String c1 _ =>
                if is_digit c1 then
                  let '(e, under, rest) := read_exponent r' 0 false in
                  finish (if esign then - e else e) (m_under m || under) rest
                else None
            | EmptyString => None
            end
          else None
      | EmptyString => if base =? 16 then None else finish 0 (m_under m) ""
      end.

(** The result where errors are checked: a number out of range is an error. *)
Definition ParseFloat : string → option f64 := parse_float round_number.
(** The number where the error is ignored: zero on a syntax error, an infinity out of range. *)
Definition ParseFloat_any (s : string) : f64 :=
  default f64_zero (parse_float (λ neg base m e, Some (nearest_number neg base m e)) s).

(** ** Raw values *)

(** The first run of digits that is a 64-bit number. *)
Fixpoint scan_digits (s run : string) : option Z :=
  match s with
  | EmptyString => ParseUint 64 run
  | String a s' =>
      if is_digit a then scan_digits s' (run ++ String a "")
      else match ParseUint 64 run with
           | Some n => Some n
           | None => scan_digits s' ""
           end
  end.

Section raw.
Context `{FloatConv}.

(** The hours before the first [h], unless the text starts with it. *)
Definition parse_hours (value : string) : option Z :=
  match Cut value "h" with
  | Some (before, _) =>
      if String.eqb before "" then None
      else
        let hoursPart := TrimSpace before in
        if String.eqb hoursPart "" then None
        else x ← ParseFloat hoursPart; Some (f64_to_uint 64 x)
  | None => None
  end.

Definition ParseSmartRawValueString (value : string) : option Z :=
  let value := TrimSpace value in
  if String.eqb value "" then None
  else
    match ParseUint0 64 value with
    | Some n => Some n
    | None =>
        match parse_hours value with
        | Some n => Some n
        | None => scan_digits value ""
        end
    end.

(** [strconv.Unquote] of a text that starts with a double quote. *)
Definition Unquote (s : string) : option string :=
  match s with
  | String _ t =>
      if HasSuffix t (String "034" "") then unquote (String.substring 0 (String.length t - 1) t)
      else None
  | EmptyString => None
  end.

(** [SmartRawValue.UnmarshalJSON] *)
Definition SmartRawValue_UnmarshalJSON (data : string) : option Z :=
  let trimmed := TrimSpace data in
  if String.eqb trimmed "" || String.eqb trimmed "null" then Some 0
  else if HasPrefix trimmed (String "034" "") then
    valueStr ← Unquote trimmed; Some (default 0 (ParseSmartRawValueString valueStr))
  else
    match ParseUint0 64 trimmed with
    | Some n => Some n
    | None => Some (default 0 (ParseSmartRawValueString trimmed))
    end.

Record RawValue := { Value : Z; String_ : string }.

(** [RawValue.UnmarshalJSON]; [value] is the JSON text of the number, empty when it is
    missing. *)
Definition RawValue_UnmarshalJSON (value str : string) : option RawValue :=
  v ← (if String.eqb value "" then Some 0 else SmartRawValue_UnmarshalJSON value);
  Some {| Value := default v (ParseSmartRawValueString str); String_ := str |}.
End raw.

(** ** Annotated numbers *)

(** A decimal number as it is printed: without leading zeros. *)
Definition numeral (ds : string) (n : Z) : Prop :=
  parse_digits ds 0 = Some n ∧ ds ≠ "" ∧ (HasPrefix ds "0" = true → ds = "0").

(** What may follow it: nothing, a space and any text, or an [h] and any text. *)
Definition annotation (t : string) : Prop :=
  t = "" ∨ ∃ a r, t = String a r ∧ (a = " " ∨ a = "h")%char.

Lemma digit_val_bounds a d : digit_val a = Some d → 0 ≤ d < 10.
Proof. unfold digit_val. case_match eqn:E; [|done]. intros [= <-]. zbool. lia. Qed.

(** Two facts that hold of every digit, by evaluation over all characters. *)
Lemma digit_ascii a d :
  digit_val a = Some d →
  is_space a = false ∧ Ascii.eqb a "_" = false ∧ Ascii.eqb a "." = false ∧
  Ascii.eqb "h" a = false ∧ lower_ascii a = a ∧ Ascii.eqb a "-" = false ∧ Ascii.eqb a "+" = false.
Proof.
  destruct a as [[] [] [] [] [] [] [] []]; vm_compute; intros Hd; try discriminate Hd;
    split_and!; reflexivity.
Qed.

Lemma digits_trim ds t acc n :
  parse_digits ds acc = Some n → trim_right (ds ++ t) = ds ++ trim_right t.
Proof.
  revert acc. induction ds as [|a ds IH]; intros acc; [done|].
  rewrite string_app_cons. simpl.
  destruct (digit_val a) as [d|] eqn:Hd; simpl; [|done]. intros Hn. rewrite (IH _ Hn).
  apply digit_ascii in Hd as (Hs&_). rewrite Hs, string_app_cons. by destruct (ds ++ trim_right t).
Qed.

Lemma digits_TrimSpace ds t n :
  numeral ds n → TrimSpace (ds ++ t) = ds ++ trim_right t.
Proof.
  intros (Hp&Hne&_). unfold TrimSpace.
  rewrite <- (digits_trim ds t 0 n Hp). f_equal. destruct ds as [|a ds]; [done|]. rewrite string_app_cons. simpl in *.
  destruct (digit_val a) as [d|] eqn:Hd; simpl in Hp; [|done].
  by destruct (digit_ascii a d Hd) as (->&_).
Qed.

Lemma annotation_trim t : annotation t → annotation (trim_right t).
Proof.
  intros [->|(a&r&->&Ha)]; [by left|]. simpl. destruct (trim_right r) as [|b r'] eqn:E.
  - destruct Ha as [->| ->]; [by left|]. right. exists "h"%char, "". split; [done|by right].
  - right. exists a, (String b r'). auto.
Qed.

(** ** Integers *)

Lemma read_base_digits base ds t acc n u :
  base = 10 → parse_digits ds acc = Some n →
  read_base base (ds ++ t) acc u = read_base base t n u.
Proof.
  intros ->. revert acc. induction ds as [|a ds IH]; intros acc; [by intros [= ->]|].
  rewrite string_app_cons. cbn [parse_digits read_base]. destruct (digit_val a) as [d|] eqn:Hd; simpl; [|done].
  pose proof (digit_val_bounds a d Hd). destruct (digit_ascii a d Hd) as (_&->&_).
  unfold digit36. rewrite Hd. simpl. rewrite (proj2 (Z.leb_gt _ _)) by lia. apply IH.
Qed.

Lemma read_base_annotation base a r n u :
  base ≤ 10 → (a = " " ∨ a = "h")%char → read_base base (String a r) n u = None.
Proof.
  intros Hb [->| ->]; [done|]. cbn [read_base]. change (digit36 "h") with (Some 17). simpl.
  by rewrite (proj2 (Z.leb_le _ _)) by lia.
Qed.

Lemma base_prefix_digits ds t n :
  numeral ds n → ds ≠ "0" → base_prefix (ds ++ t) = (10, ds ++ t).
Proof.
  intros (Hp&Hne&H0) Hz. destruct ds as [|a ds]; [done|]. rewrite string_app_cons.
  destruct (Ascii.eqb_spec "0" a) as [<-|Ha].
  - exfalso. apply Hz, H0. done.
  - destruct a as [[] [] [] [] [] [] [] []]; try reflexivity. by destruct Ha.
Qed.

Lemma ParseUint0_numeral ds t n :
  numeral ds n → n < 2 ^ 64 → annotation t →
  ParseUint0 64 (ds ++ t) = if String.eqb t "" then Some n else None.
Proof.
  intros Hn Hlt Ht. unfold ParseUint0.
  destruct (String.eqb_spec (ds ++ t) "") as [E|_].
  { destruct Hn as (_&Hne&_). by destruct ds. }
  destruct (decide (ds = "0")) as [->|Hz].
  - destruct Hn as (Hp&_). injection Hp as <-. destruct Ht as [->|(a&r&->&Ha)]; [done|].
    replace (base_prefix ("0" ++ String a r)) with (8, String a r).
    + rewrite read_base_annotation by (done || lia). done.
    + destruct Ha as [->| ->]; by destruct r.
  - rewrite (base_prefix_digits ds t n Hn Hz). destruct Hn as (Hp&_).
    rewrite (read_base_digits 10 ds t 0 n false eq_refl Hp).
    destruct Ht as [->|(a&r&->&Ha)].
    + simpl. by rewrite (proj2 (Z.ltb_lt _ _)) by lia.
    + rewrite read_base_annotation by (done || lia). done.
Qed.

(** ** Hours *)

Lemma read_mantissa_digits ds t acc n m :
  parse_digits ds acc = Some n → m_dot m = false → m_value m = acc → ds ≠ "" ∨ m_digits m = true →
  read_mantissa 10 (ds ++ t) m =
  read_mantissa 10 t {| m_value := n; m_frac := m_frac m; m_dot := false; m_digits := true;
                        m_under := m_under m |}.
Proof.
  revert acc m. induction ds as [|a ds IH]; intros acc m Hp Hdot Hv Hd.
  - destruct Hd as [?|Hd]; [done|]. injection Hp as <-. rewrite string_app_nil. f_equal.
    destruct m; simpl in *; by subst.
  - rewrite string_app_cons. simpl in Hp. destruct (digit_val a) as [d|] eqn:Ha; simpl in Hp; [|done].
    cbn [read_mantissa]. destruct (digit_ascii a d Ha) as (_&->&->&_).
    change (10 =? 16) with false. rewrite Ha, Hdot, Hv.
    erewrite IH; [|exact Hp|done|done|by right]. done.
Qed.

Lemma digits_start ds t n :
  numeral ds n → cut_sign (ds ++ t) = (false, ds ++ t) ∧
  ∃ a r, ToLower (ds ++ t) = String a r ∧ is_digit a = true.
Proof.
  intros (Hp&Hne&_). destruct ds as [|a ds]; [done|]. rewrite string_app_cons. simpl in *.
  destruct (digit_val a) as [d|] eqn:Ha; simpl in Hp; [|done].
  destruct (digit_ascii a d Ha) as (_&_&_&_&El&->&->). split; [done|].
  rewrite El. exists a, (ToLower (ds ++ t)). split; [done|]. unfold is_digit. by rewrite Ha.
Qed.

Lemma digits_not_named ds t n name :
  numeral ds n → name ∈ ["inf"; "infinity"; "nan"] → String.eqb (ToLower (ds ++ t)) name = false.
Proof.
  intros Hn Hname. destruct (digits_start ds t n Hn) as (_&a&r&->&Ha).
  apply String.eqb_neq. intros <-. repeat (apply elem_of_cons in Hname as [?|Hname]; [by simplify_eq|]). by apply not_elem_of_nil in Hname.
Qed.

Lemma float_base ds t n :
  numeral ds n → annotation t →
  match ds ++ t with
  | String "0" (String p (String c r)) =>
      if Ascii.eqb (lower_ascii p) "x" then (16, String c r) else (10, ds ++ t)
  | _ => (10, ds ++ t)
  end = (10, ds ++ t).
Proof.
  intros Hn Ht. destruct (decide (ds = "0")) as [->|Hz].
  - destruct Ht as [->|(a&r&->&[->| ->])]; [done|by destruct r..].
  - destruct Hn as (_&Hne&H0). destruct ds as [|a ds]; [done|]. rewrite string_app_cons.
    destruct (Ascii.eqb_spec "0" a) as [<-|Ha]; [by destruct Hz; apply H0|].
    destruct a as [[] [] [] [] [] [] [] []]; try reflexivity. by destruct Ha.
Qed.

Lemma ParseFloat_numeral ds t n :
  numeral ds n → n < 2 ^ 53 → t = "" ∨ (∃ r, t = String " " r) →
  ParseFloat (ds ++ t) = if String.eqb t "" then Some (f64_of_Z n) else None.
Proof.
  intros Hn Hlt Ht.
  assert (annotation t) as Han by (destruct Ht as [->|[r ->]]; [by left|right; eauto]).
  unfold ParseFloat, parse_float. destruct (digits_start ds t n Hn) as [-> _].
  rewrite !(digits_not_named ds t n) by (done || set_solver). cbn [orb].
  rewrite (float_base ds t n Hn Han). destruct Hn as (Hp&Hne&_).
  assert (0 ≤ n) as H0 by (by apply (parse_digits_mono ds 0)).
  rewrite (read_mantissa_digits ds t 0 n) by (done || by left).
  destruct Ht as [->|[r ->]]; [|done]. simpl.
  destruct (Z.eqb_spec n 0) as [->|Hnz]; [done|].
  unfold round_number, nearest_number. simpl. rewrite Z.mul_1_r. fold (f64_of_Z n).
  pose proof (f64_trunc_of_Z n ltac:(lia)) as Htr. by destruct (f64_of_Z n).
Qed.

Lemma Cut_digits ds t acc n :
  parse_digits ds acc = Some n →
  Cut (ds ++ t) "h" = (λ '(b, r), (ds ++ b, r)) <$> Cut t "h".
Proof.
  revert acc. induction ds as [|a ds IH]; intros acc.
  - intros _. rewrite !string_app_nil. by destruct (Cut t "h") as [[b r]|].
  - rewrite string_app_cons. cbn [parse_digits Cut CutPrefix].
    destruct (digit_val a) as [d|] eqn:Ha; [|done].
    intros Hp. destruct (digit_ascii a d Ha) as (_&_&_&Eh&_). rewrite Eh, (IH _ Hp).
    by destruct (Cut t "h") as [[b r]|].
Qed.

Lemma parse_hours_numeral `{FloatConv} ds t n :
  numeral ds n → n < 2 ^ 53 → annotation t →
  parse_hours (ds ++ t) = Some n ∨ parse_hours (ds ++ t) = None.
Proof.
  intros Hn Hlt Ht. unfold parse_hours. rewrite (Cut_digits ds t 0 n) by apply Hn.
  destruct (Cut t "h") as [[b r]|] eqn:Hc; simpl; [|by right].
  case_match; [by right|]. rewrite (digits_TrimSpace ds b n Hn).
  case_match; [by right|].
  assert (b = "" ∨ ∃ b', b = String " " b') as Hb.
  { destruct Ht as [->|(a&r'&->&[->| ->])]; [done| |].
    - simpl in Hc. destruct (Cut r' "h") as [[b' r'']|]; simplify_eq/=. right. eauto.
    - simpl in Hc. simplify_eq. by left. }
  assert (trim_right b = "" ∨ ∃ b', trim_right b = String " " b') as Hb'.
  { destruct Hb as [->|[b' ->]]; [by left|]. simpl. destruct (trim_right b'); [by left|right; eauto]. }
  assert (0 ≤ n) by (destruct Hn as (Hp&_); by apply (parse_digits_mono ds 0)).
  rewrite (ParseFloat_numeral ds _ n Hn Hlt Hb'). case_match; simpl; [|by right].
  left. by rewrite f64_to_uint_of_Z by lia.
Qed.

Lemma scan_digits_run ds t acc n run :
  parse_digits ds acc = Some n → scan_digits (ds ++ t) run = scan_digits t (run ++ ds).
Proof.
  revert acc run. induction ds as [|a ds IH]; intros acc run.
  - intros _. rewrite string_app_nil. f_equal. clear. induction run as [|b run IH]; [done|].
    by rewrite string_app_cons, <- IH.
  - rewrite string_app_cons. simpl. destruct (digit_val a) as [d|] eqn:Ha; simpl; [|done].
    intros Hp. unfold is_digit. rewrite Ha, (IH _ _ Hp), string_app_assoc. done.
Qed.

(** A number below 2^53 printed in decimal is recovered exactly from a raw value, whatever
    annotation follows it after a space or an [h]. *)
Theorem raw_value_annotated `{FloatConv} ds n t :
  numeral ds n → n < 2 ^ 53 → annotation t → ParseSmartRawValueString (ds ++ t) = Some n.
Proof.
  intros Hn Hlt Ht. unfold ParseSmartRawValueString. rewrite (digits_TrimSpace ds t n Hn).
  apply annotation_trim in Ht. revert Ht. generalize (trim_right t). clear t. intros t Ht.
  destruct (String.eqb_spec (ds ++ t) "") as [E|_]; [destruct Hn as (_&?&_); by destruct ds|].
  rewrite (ParseUint0_numeral ds t n Hn) by (done || lia).
  destruct (String.eqb_spec t "") as [->|Hne]; [done|].
  destruct (parse_hours_numeral ds t n Hn Hlt Ht) as [->| ->]; [done|].
  destruct Ht as [->|(a&r&->&Ha)]; [done|]. destruct Hn as (Hp&Hds&_).
  rewrite (scan_digits_run ds _ 0 n "" Hp), string_app_nil. simpl.
  assert (is_digit a = false) as -> by (by destruct Ha as [->| ->]).
  unfold ParseUint. destruct (String.eqb_spec ds ""); [done|]. rewrite Hp. simpl.
  by rewrite (proj2 (Z.ltb_lt _ _)) by lia.
Qed.

Definition ex_conv : FloatConv := {| conv_oob _ _ := 0 |}.

Example ParseFloat_ex :
  ParseFloat "0.1" = Some (S754_finite false 7205759403792794 (-56)) ∧
  ParseFloat "-1_2.5e+1" = Some (f64_of_Z (-125)) ∧
  ParseFloat "0x1.8p1" = Some (f64_of_Z 3) ∧
  ParseFloat "1e309" = None ∧ ParseFloat "5e-324" = Some (S754_finite false 1 (-1074)) ∧
  ParseFloat "1e" = None ∧ ParseFloat "_1" = None ∧ ParseFloat "" = None ∧
  ParseFloat "1.7976931348623158e308" = Some (S754_finite false (2 ^ 53 - 1)%positive 971) ∧
  ParseFloat_any "-1e309" = S754_infinity true ∧ ParseFloat_any "[N/A]" = f64_zero.
Proof. vm_compute. split_and!; reflexivity. Qed.

Example raw_ex :
  map (ParseSmartRawValueString (H := ex_conv))
    ["7344 (253d 8h)"; "0h+0m+0.000s"; "12.9h"; "0x10"; "39 (Min/Max 20/45)"; "n/a"; "0100";
     "99999999999999999999 7"]
  = [Some 7344; Some 0; Some 12; Some 16; Some 39; None; Some 64; Some 7].
Proof. vm_compute. reflexivity. Qed.

Lemma raw_value_annotated_witness :
  ParseSmartRawValueString (H := ex_conv) ("7344" ++ " (253d 8h)") = Some 7344 ∧
  ParseSmartRawValueString (H := ex_conv) ("12" ++ "h+5m+1.2s") = Some 12.
Proof.
  split; apply raw_value_annotated; try (by split_and!); try lia; right; eauto.
Defined.
End SmartRaw.
