(* ===== verification/SensorsWindows.v ===== *)
(** * Temperatures on Windows ([agent/sensors_windows.go])

    With [LHM=true] the agent unpacks a small program for the sensors from its own executable into a
    temporary directory, starts it, and asks it for the temperatures by a line on its input; the
    program answers with lines [name|value] and an empty line.  The model has the files of that
    directory, the process, and the lines that wait in its output; the outcomes of the system calls,
    the lines that are printed, and the temperatures of [gopsutil] are arguments, one record per
    call.  [reachable] are the states after any number of calls. *)

From S2P Require Import Prelude GoFloat GoStrings GoText AgentNetwork AgentSensors SmartRaw.
Import AgentSensors.

Local Open Scope string_scope.
Local Open Scope Z_scope.

(** ** The embedded directory *)

Module Lhm.

Inductive node := File (data : string) | Dir (entries : list (string * node)).

(** [filepath.Join] of a directory and a name of the embedded directory. *)
Definition join (dir name : string) : string := (dir ++ "\" ++ name)%string.

Abbreviation disk := (gmap string string).

Inductive copied := Copied (d : disk) | CopyFailed (d : disk).

Section copy.
Variable MkdirAll WriteFile : string → bool.            (* whether the call succeeds, by its path *)

Fixpoint copy_node (destPath : string) (n : node) (d : disk) {struct n} : copied :=
  match n with
  | File data => if WriteFile destPath then Copied (<[destPath := data]> d) else CopyFailed d
  | Dir entries =>
      if negb (MkdirAll destPath) then CopyFailed d
      else (fix copy_entries (es : list (string * node)) (d : disk) : copied :=
              match es with
              | [] => Copied d
              | (name, n) :: es =>
                  match copy_node (join destPath name) n d with
                  | Copied d => copy_entries es d
                  | CopyFailed d => CopyFailed d
                  end
              end) entries d
  end.

(** The directory at [srcPath] is [entries]. *)
Definition copyEmbeddedDir (entries : list (string * node)) (destPath : string) (d : disk) : copied :=
  copy_node destPath (Dir entries) d.
End copy.

(** ** The process *)

(** The waiting lines, and whether the output ended after them: [Some true] with an error. *)
Record Scanner := { pending : list string; ended : option bool }.

Record lhmProcess := {
  cmd : bool;                                            (* a started process *)
  stdin : bool; stdout : bool;                           (* open pipes *)
  scanner : option Scanner;
  isRunning : bool;
  stoppedNoSensors : bool;
  consecutiveNoSensors : Z;                              (* 8 bits *)
  execPath : string;
  tempDir : string;
}.

(** The files, and the number of processes of the program that are alive. *)
Record machine := { files : disk; alive : nat }.

(** What happens during one call. *)
Record call := {
  c_MkdirAll : string → bool; c_WriteFile : string → bool; c_stat_denied : bool;
  c_StdinPipe : bool; c_StdoutPipe : bool; c_Start : bool;
  c_write : bool;                                        (* the command reaches the process *)
  c_printed : list string; c_ended : option bool;        (* what it prints then, and how that ends *)
  c_gopsutil : list TemperatureStat * bool;              (* [true]: with an error *)
}.

Inductive lhmErr := InitFailed | NotAvailable | StartFailed | SendFailed | ScanFailed | Gopsutil.
Inductive answer := Returned (temps : list TemperatureStat) (err : option lhmErr) | Blocked.

Definition cleanupProcess (l : lhmProcess) (m : machine) : lhmProcess * machine :=
  ({| cmd := false; stdin := false; stdout := false; scanner := None; isRunning := false;
      stoppedNoSensors := false; consecutiveNoSensors := 0; execPath := execPath l; tempDir := tempDir l |},
   {| files := files m; alive := if cmd l then pred (alive m) else alive m |}).

(** [os.RemoveAll] *)
Definition RemoveAll (dir : string) (d : disk) : disk :=
  filter (λ p, negb (HasPrefix p.1 (dir ++ "\")) = true) d.

Definition cleanup (l : lhmProcess) (m : machine) : lhmProcess * machine :=
  let '(l, m) := cleanupProcess l m in
  (l, if String.eqb (tempDir l) "" then m
      else {| files := RemoveAll (tempDir l) (files m); alive := alive m |}).

(** A process needs its executable. *)
Definition starts (c : call) (l : lhmProcess) (m : machine) : bool :=
  c_StdinPipe c && c_StdoutPipe c && bool_decide (is_Some (files m !! execPath l)) && c_Start c.

Definition startProcess (c : call) (l : lhmProcess) (m : machine) : lhmProcess * machine * bool :=
  let '(l, m) := cleanupProcess l m in
  if starts c l m then
    ({| cmd := true; stdin := true; stdout := true; scanner := Some {| pending := []; ended := None |};
        isRunning := true; stoppedNoSensors := stoppedNoSensors l;
        consecutiveNoSensors := consecutiveNoSensors l; execPath := execPath l; tempDir := tempDir l |},
     {| files := files m; alive := S (alive m) |}, true)
  else (l, m, false).

Definition isSome {A} (o : option A) : bool := match o with Some _ => true | None => false end.

(** One line of the answer. *)
Definition parse_line (line : string) : option TemperatureStat :=
  match Split "|" line with
  | [n; v] =>
      let name := TrimSpace n in
      value ← SmartRaw.ParseFloat (TrimSpace v);
      if String.eqb name "" || f64_le value f64_zero || f64_lt (f64_of_Z 150) value then None
      else Some {| SensorKey := name; Temperature := value |}
  | _ => None
  end.

(** The lines up to an empty one; [None]: the lines end before. *)
Fixpoint scan_lines (lines : list string) (temps : list TemperatureStat)
    : list TemperatureStat * option (list string) :=
  match lines with
  | [] => (temps, None)
  | line :: lines =>
      let line := TrimSpace line in
      if String.eqb line "" then (temps, Some lines)
      else scan_lines lines (match parse_line line with Some t => (temps ++ [t])%list | None => temps end)
  end.

Definition with_scanner (l : lhmProcess) (s : Scanner) (running : bool) (none : Z) : lhmProcess := {|
  cmd := cmd l; stdin := stdin l; stdout := stdout l; scanner := Some s; isRunning := running;
  stoppedNoSensors := stoppedNoSensors l; consecutiveNoSensors := none;
  execPath := execPath l; tempDir := tempDir l |}.

Definition stopped (l : lhmProcess) : lhmProcess := {|
  cmd := cmd l; stdin := stdin l; stdout := stdout l; scanner := scanner l; isRunning := isRunning l;
  stoppedNoSensors := true; consecutiveNoSensors := consecutiveNoSensors l;
  execPath := execPath l; tempDir := tempDir l |}.

Definition fallback (c : call) : answer :=
  Returned (c_gopsutil c).1 (if (c_gopsutil c).2 then Some Gopsutil else None).

(** From the open scanner on. *)
Definition askProcess (c : call) (l : lhmProcess) (s : Scanner) (m : machine) : lhmProcess * machine * answer :=
  let none := consecutiveNoSensors l in
  if negb (c_write c) then (with_scanner l s false none, m, Returned [] (Some SendFailed))
  else
    let ending := match ended s with Some e => Some e | None => c_ended c end in
    let lines := match ended s with Some _ => pending s | None => (pending s ++ c_printed c)%list end in
    let '(temps, rest) := scan_lines lines [] in
    let s := {| pending := default [] rest; ended := ending |} in
    match rest, ending with
    | None, None => (with_scanner l s true none, m, Blocked)
    | None, Some true => (with_scanner l s false none, m, Returned temps (Some ScanFailed))
    | _, _ =>
        match temps with
        | [] =>
            let none := wrap 8 (none + 1) in
            let l := with_scanner l s true none in
            let '(l, m) := if 3 <=? none then cleanup (stopped l) m else (l, m) in
            (l, m, fallback c)
        | _ => (with_scanner l s true 0, m, Returned temps None)
        end
    end.

Section env.
Variable useLHM : bool.

Definition getTemps (c : call) (l : lhmProcess) (m : machine) : lhmProcess * machine * answer :=
  if negb useLHM || stoppedNoSensors l then (l, m, fallback c)
  else
    let '(l, m, ok) :=
      if negb (isRunning l) || negb (stdin l) || negb (isSome (scanner l)) then startProcess c l m
      else (l, m, true) in
    if negb ok then (l, m, Returned [] (Some StartFailed))
    else match scanner l with
         | None => (l, m, Blocked)                        (* not reached *)
         | Some s => askProcess c l s m
         end.

Variable TempDir : string.
Variable lhmFs : list (string * node).                    (* the embedded lhm/bin/Release/net48 *)

Definition newlhmProcess (c : call) (m : machine) : machine * option lhmProcess :=
  let destDir := join TempDir "beszel" in
  let execPath := join destDir "beszel_lhm.exe" in
  if negb (c_MkdirAll c destDir) then (m, None)
  else
    let '(d, ok) :=
      if bool_decide (is_Some (files m !! execPath)) || c_stat_denied c then (files m, true)
      else match copyEmbeddedDir (c_MkdirAll c) (c_WriteFile c) lhmFs destDir (files m) with
           | Copied d => (d, true)
           | CopyFailed d => (d, false)
           end in
    let m := {| files := d; alive := alive m |} in
    if negb ok then (m, None)
    else
      let l := {| cmd := false; stdin := false; stdout := false; scanner := None; isRunning := false;
                  stoppedNoSensors := false; consecutiveNoSensors := 0; execPath := execPath; tempDir := destDir |} in
      let '(l, m, ok) := startProcess c l m in
      (m, if ok then Some l else None).

(** [beszelLhm], [beszelLhmOnce] and the machine *)
Record state := { beszelLhm : option lhmProcess; onceDone : bool; host : machine }.

Definition getSensorTemps (c : call) (s : state) : state * answer :=
  if negb useLHM then (s, fallback c)
  else
    let '(s, failed) :=
      if onceDone s then (s, false)
      else let '(m, l) := newlhmProcess c (host s) in
           ({| beszelLhm := l; onceDone := true; host := m |}, negb (isSome l)) in
    if failed then (s, Returned [] (Some InitFailed))
    else match beszelLhm s with
         | None => (s, Returned [] (Some NotAvailable))
         | Some l =>
             let '(l, m, r) := getTemps c l (host s) in
             ({| beszelLhm := Some l; onceDone := true; host := m |}, r)
         end.

(** ** States *)

Definition exe_path : string := join (join TempDir "beszel") "beszel_lhm.exe".

Record lhm_ok (l : lhmProcess) (m : machine) : Prop := {
  ok_running : isRunning l = true → cmd l = true ∧ stdin l = true ∧ stdout l = true ∧ isSome (scanner l) = true;
  ok_stopped : stoppedNoSensors l = false;
  ok_count : 0 ≤ consecutiveNoSensors l ≤ 2;
  ok_alive : alive m = if cmd l then 1%nat else 0%nat;
  ok_exec : execPath l = exe_path;
  ok_temp : tempDir l = join TempDir "beszel";
}.

Definition state_ok (s : state) : Prop :=
  match beszelLhm s with
  | Some l => onceDone s = true ∧ lhm_ok l (host s)
  | None => alive (host s) = 0%nat
  end.

(** Any number of calls; in between other programs change the files. *)
Inductive reachable : state → Prop :=
  | reach_init d : reachable {| beszelLhm := None; onceDone := false; host := {| files := d; alive := 0 |} |}
  | reach_call c s : reachable s → reachable (getSensorTemps c s).1
  | reach_files d s : reachable s →
      reachable {| beszelLhm := beszelLhm s; onceDone := onceDone s;
                   host := {| files := d; alive := alive (host s) |} |}.

Lemma startProcess_ok c l m l' m' ok :
  alive m = (if cmd l then 1%nat else 0%nat) → execPath l = exe_path → tempDir l = join TempDir "beszel" →
  startProcess c l m = (l', m', ok) → lhm_ok l' m' ∧ isRunning l' = ok ∧ cmd l' = ok ∧ files m' = files m.
Proof.
  intros Ha He Ht. unfold startProcess, cleanupProcess. destruct (starts _ _ _); intros [= <- <- <-];
    (split; [|done]); split; simpl; try done; try lia; rewrite Ha; by destruct (cmd l).
Qed.

Lemma cleanup_ok l m :
  alive m = (if cmd l then 1%nat else 0%nat) → execPath l = exe_path → tempDir l = join TempDir "beszel" →
  lhm_ok (cleanup l m).1 (cleanup l m).2 ∧ isRunning (cleanup l m).1 = false.
Proof.
  intros Ha He Ht. unfold cleanup, cleanupProcess. cbn [fst snd].
  split; [|done]. split; simpl; try done; try lia.
  rewrite Ht. destruct (String.eqb _ _); simpl; rewrite Ha; by destruct (cmd l).
Qed.

Lemma askProcess_ok c l s m :
  lhm_ok l m → isRunning l = true → lhm_ok (askProcess c l s m).1.1 (askProcess c l s m).1.2.
Proof.
  intros Hok Hr. destruct (ok_running _ _ Hok Hr) as (Hc&Hi&Ho&_).
  assert (∀ s b n, 0 ≤ n ≤ 2 → lhm_ok (with_scanner l s b n) m) as Hw.
  { intros. destruct Hok. split; simpl; auto. }
  assert (0 ≤ consecutiveNoSensors l ≤ 2) as Hn by apply Hok.
  unfold askProcess. destruct (c_write c); [|by apply Hw]. cbn [negb].
  destruct (scan_lines _ _) as [temps rest]. set (s' := Build_Scanner _ _). set (ending := match ended s with Some _ => _ | None => _ end).
  assert (∀ l' m' a, match temps with
    | [] => let none := wrap 8 (consecutiveNoSensors l + 1) in
            let l := with_scanner l s' true none in
            let '(l, m) := if 3 <=? none then cleanup (stopped l) m else (l, m) in (l, m, fallback c)
    | _ => (with_scanner l s' true 0, m, Returned temps None) end = (l', m', a) → lhm_ok l' m') as Hend.
  { destruct temps; [|intros ??? [= <- <- <-]; by apply Hw]. cbv zeta.
    rewrite wrap_small by (unfold in_range; lia). intros l' m' a. destruct (Z.leb_spec 3 (consecutiveNoSensors l + 1)).
    - destruct (cleanup_ok (stopped (with_scanner l s' true (consecutiveNoSensors l + 1))) m) as [Hcl _]; [apply Hok..|].
      destruct (cleanup _ m) as [l1 m1]. intros [= <- <- <-]. done.
    - intros [= <- <- <-]. apply Hw. lia. }
  destruct rest as [rest|]; [|destruct ending as [[]|]; try by apply Hw].
  all: destruct (match temps with [] => _ | _ => _ end) as [[l' m'] a] eqn:E; simpl; by eapply Hend.
Qed.

Lemma getTemps_ok c l m :
  lhm_ok l m → lhm_ok (getTemps c l m).1.1 (getTemps c l m).1.2.
Proof.
  intros Hok. unfold getTemps. destruct (negb useLHM || stoppedNoSensors l); [done|].
  destruct (negb (isRunning l) || negb (stdin l) || negb (isSome (scanner l))) eqn:E.
  - destruct (startProcess c l m) as [[l' m'] ok] eqn:Es.
    apply startProcess_ok in Es as (Hok'&Hr&_); [|apply Hok..].
    destruct ok; [|done]. cbn [negb]. destruct (scanner l'); [by apply askProcess_ok|done].
  - apply orb_false_iff in E as [[Hr%negb_false_iff _]%orb_false_iff _]. cbn [negb].
    destruct (scanner l); [by apply askProcess_ok|done].
Qed.

(** What holds between calls: one process at most is alive, and it is the one that is known;
    its pipes are open while it counts as running; the mark for a program without sensors is
    never set, and the empty answers never reach three. *)
Theorem lhm_invariant s : reachable s → state_ok s.
Proof.
  induction 1 as [d|c s Hs IH|d s Hs IH]; [done| |].
  - unfold getSensorTemps. destruct useLHM; [|done]. cbn [negb].
    destruct (onceDone s) eqn:Ho.
    + unfold state_ok in IH |- *. destruct (beszelLhm s) as [l|] eqn:El; [|cbn; by rewrite El].
      destruct IH as [_ IH]. pose proof (getTemps_ok c l (host s) IH) as Hg.
      destruct (getTemps c l (host s)) as [[l' m'] r]. done.
    + assert (alive (host s) = 0%nat) as Ha.
      { unfold state_ok in IH. destruct (beszelLhm s); [destruct IH; congruence|done]. }
      unfold newlhmProcess. destruct (c_MkdirAll _ _); [|done]. cbn [negb].
      destruct (if _ || _ then (files (host s), true) else _) as [d []]; [|done]. cbn [negb].
      destruct (startProcess _ _ _) as [[l m] ok] eqn:Es. apply startProcess_ok in Es as (Hok&Hr&Hc&_); [|done..].
      destruct ok; simpl.
      * pose proof (getTemps_ok c l m Hok). by destruct (getTemps c l m) as [[l' m'] r].
      * pose proof (ok_alive _ _ Hok) as E. by rewrite Hc in E.
  - unfold state_ok in *. simpl. destruct (beszelLhm s); [|done]. destruct IH as [? IH]. split; [done|].
    destruct IH. by split.
Qed.

(** ** Answers *)

Definition lhm_temp (t : TemperatureStat) : Prop :=
  SensorKey t ≠ "" ∧ f64_le (Temperature t) f64_zero = false ∧ f64_lt (f64_of_Z 150) (Temperature t) = false.

Lemma parse_line_ok line t : parse_line line = Some t → lhm_temp t.
Proof.
  unfold parse_line. destruct (Split "|" line) as [|n [|v [|]]]; try done.
  destruct (SmartRaw.ParseFloat (TrimSpace v)) as [value|]; [simpl|done].
  destruct (String.eqb_spec (TrimSpace n) ""); [done|].
  destruct (f64_le value f64_zero) eqn:?; [done|]. destruct (f64_lt _ value) eqn:?; [done|].
  intros [= <-]. done.
Qed.

(** The lines before the first blank one are read, those that are no sensor left out. *)
Lemma scan_lines_spec lines rest temps :
  Forall (λ l, TrimSpace l ≠ "") lines →
  scan_lines (lines ++ "" :: rest) temps = ((temps ++ omap (λ l, parse_line (TrimSpace l)) lines)%list, Some rest).
Proof.
  intros Hl. revert temps. induction Hl as [|l lines Hl _ IH]; intros temps; csimpl.
  { by rewrite app_nil_r. }
  rewrite (proj2 (String.eqb_neq _ _) Hl), IH. destruct (parse_line _); [|done].
  by rewrite <- app_assoc.
Qed.

Lemma scan_lines_temps lines : ∀ temps, Forall lhm_temp temps → Forall lhm_temp (scan_lines lines temps).1.
Proof.
  induction lines as [|l lines IH]; intros temps Ht; simpl; [done|].
  destruct (String.eqb _ _); [done|]. apply IH. destruct (parse_line _) eqn:E; [|done].
  apply Forall_app. split; [done|]. by apply Forall_singleton, (parse_line_ok (TrimSpace l)).
Qed.

(** The program is asked and answers with sensors: they are returned, and the count of empty
    answers starts again. *)
Lemma askProcess_answers c l s m lines rest :
  c_write c = true → ended s = None → (pending s ++ c_printed c)%list = (lines ++ "" :: rest)%list →
  Forall (λ l, TrimSpace l ≠ "") lines → omap (λ l, parse_line (TrimSpace l)) lines ≠ [] →
  askProcess c l s m =
    (with_scanner l {| pending := rest; ended := c_ended c |} true 0, m,
     Returned (omap (λ l, parse_line (TrimSpace l)) lines) None).
Proof.
  intros Hw He Hp Hl Hne. unfold askProcess. rewrite Hw, He, Hp, scan_lines_spec by done. cbn [negb app default].
  by destruct (omap _ lines).
Qed.

(** Without sensors in the answer, [gopsutil] is asked instead. *)
Lemma askProcess_empty c l s m lines rest :
  c_write c = true → ended s = None → (pending s ++ c_printed c)%list = (lines ++ "" :: rest)%list →
  Forall (λ l, TrimSpace l ≠ "") lines → omap (λ l, parse_line (TrimSpace l)) lines = [] →
  0 ≤ consecutiveNoSensors l ≤ 2 →
  askProcess c l s m =
    (let none := consecutiveNoSensors l + 1 in
     let l := with_scanner l {| pending := rest; ended := c_ended c |} true none in
     let '(l, m) := if 3 <=? none then cleanup (stopped l) m else (l, m) in (l, m, fallback c)).
Proof.
  intros Hw He Hp Hl Hne Hn. unfold askProcess. rewrite Hw, He, Hp, scan_lines_spec by done. cbn [negb app default].
  rewrite Hne. cbv zeta. rewrite wrap_small by (unfold in_range; lia). by destruct (c_ended c) as [[]|].
Qed.

(** ** A program without sensors *)

Lemma join_not_empty dir name : String.eqb (join dir name) "" = false.
Proof. by destruct dir. Qed.

Lemma RemoveAll_exe d : RemoveAll (join TempDir "beszel") d !! exe_path = None.
Proof.
  unfold RemoveAll. apply map_lookup_filter_None_2. right. intros x _. cbn [fst].
  assert (HasPrefix exe_path (join TempDir "beszel" ++ "\")%string = true) as ->; [|done].
  apply HasPrefix_spec. exists "beszel_lhm.exe". unfold exe_path. unfold join at 1.
  by rewrite string_app_assoc.
Qed.

Fixpoint run (cs : list call) (s : state) : state * list answer :=
  match cs with
  | [] => (s, [])
  | c :: cs => let '(s, r) := getSensorTemps c s in let '(s, rs) := run cs s in (s, r :: rs)
  end.

(** The program is stopped, and its executable is gone. *)
Definition gone (s : state) : Prop :=
  ∃ l, beszelLhm s = Some l ∧ onceDone s = true ∧ isRunning l = false ∧ stoppedNoSensors l = false ∧
       files (host s) !! execPath l = None.

Lemma gone_call c s :
  useLHM = true → gone s →
  (getSensorTemps c s).2 = Returned [] (Some StartFailed) ∧ gone (getSensorTemps c s).1.
Proof.
  intros Hu (l&Hl&Ho&Hr&Hs&Hf). unfold getSensorTemps. rewrite Hu, Ho, Hl. cbn [negb].
  unfold getTemps. rewrite Hu, Hs, Hr. cbn [negb orb].
  unfold startProcess, starts, cleanupProcess. cbn. rewrite Hf. rewrite andb_false_r. cbn.
  split; [done|]. eexists. split_and!; done.
Qed.

(** The third empty answer in a row: [gopsutil] is asked this time, and since the mark that
    should keep it that way is cleared by the cleanup, which also removes the executable, every later call
    fails to start the program and reports no temperature. *)
Theorem lhm_gives_up s l sc c lines rest cs :
  useLHM = true → reachable s → beszelLhm s = Some l → isRunning l = true → scanner l = Some sc →
  consecutiveNoSensors l = 2 → c_write c = true → ended sc = None →
  (pending sc ++ c_printed c)%list = (lines ++ "" :: rest)%list → Forall (λ l, TrimSpace l ≠ "") lines →
  omap (λ l, parse_line (TrimSpace l)) lines = [] →
  (getSensorTemps c s).2 = fallback c ∧
  Forall (λ r, r = Returned [] (Some StartFailed)) (run cs (getSensorTemps c s).1).2.
Proof.
  intros Hu Hreach Hl Hr Hsc Hn Hw He Hp Hlines Hno.
  pose proof (lhm_invariant s Hreach) as Hok. unfold state_ok in Hok. rewrite Hl in Hok. destruct Hok as [Ho Hok].
  destruct (ok_running _ _ Hok Hr) as (Hc&Hi&_).
  assert ((getSensorTemps c s).2 = fallback c ∧ gone (getSensorTemps c s).1) as [H1 H2].
  { unfold getSensorTemps. rewrite Hu, Ho, Hl. cbn [negb]. unfold getTemps.
    rewrite Hu, (ok_stopped _ _ Hok), Hr, Hi, Hsc. cbn [negb orb isSome]. rewrite Hsc.
    rewrite (askProcess_empty c l sc (host s) lines rest) by (done || lia). cbv zeta. rewrite Hn. cbn [Z.add Z.leb].
    unfold cleanup, cleanupProcess. cbn [stopped with_scanner tempDir]. rewrite (ok_temp _ _ Hok), join_not_empty.
    split; [done|]. eexists. split_and!; [done..|]. cbn. rewrite (ok_exec _ _ Hok). apply RemoveAll_exe. }
  split; [done|]. clear -Hu H2. revert H2. generalize ((getSensorTemps c s).1). clear s.
  induction cs as [|c' cs IH]; intros s Hg; [by constructor|]. cbn [run].
  destruct (gone_call c' s Hu Hg) as [Ha Hg']. destruct (getSensorTemps c' s) as [s' r]. simpl in *.
  specialize (IH s' Hg'). destruct (run cs s') as [s'' rs]. by constructor.
Qed.

(** A first call that fails is the last: the program is never started afterwards. *)
Lemma lhm_never_retried cs s :
  useLHM = true → onceDone s = true → beszelLhm s = None →
  Forall (λ r, r = Returned [] (Some NotAvailable)) (run cs s).2.
Proof.
  intros Hu Ho Hl. induction cs as [|c cs IH]; [by constructor|]. cbn [run].
  unfold getSensorTemps. rewrite Hu, Ho, Hl. cbn [negb].
  destruct (run cs s) as [s' rs]. by constructor.
Qed.
End env.

(** ** The copy *)

(** The files of a directory and their data, in the order of the copy. *)
Fixpoint files_of (destPath : string) (n : node) : list (string * string) :=
  match n with
  | File data => [(destPath, data)]
  | Dir entries => List.concat (map (λ e, files_of (join destPath e.1) e.2) entries)
  end.

Definition write_all (fs : list (string * string)) (d : disk) : disk :=
  fold_left (λ d f, <[f.1 := f.2]> d) fs d.

Section node_ind.
Variable P : node → Prop.
Hypothesis HF : ∀ data, P (File data).
Hypothesis HD : ∀ entries, Forall (λ e, P e.2) entries → P (Dir entries).
Fixpoint node_ind' (n : node) : P n :=
  match n with
  | File data => HF data
  | Dir entries => HD entries ((fix go (es : list (string * node)) : Forall (λ e, P e.2) es :=
      match es with [] => Forall_nil_2 _ | e :: es => Forall_cons_2 _ e es (node_ind' e.2) (go es) end) entries)
  end.
End node_ind.

(** A copy that succeeds has written every file of the directory, and nothing else. *)
Lemma copy_node_spec Mk Wr n : ∀ dest d d', copy_node Mk Wr dest n d = Copied d' → d' = write_all (files_of dest n) d.
Proof.
  induction n as [data|entries IH] using node_ind'; intros dest d d'; simpl.
  - destruct (Wr dest); by intros [= <-].
  - destruct (Mk dest); [|done]. simpl. revert d. induction IH as [|[name n] es Hn _ IHes]; intros d; simpl in *.
    { by intros [= <-]. }
    destruct (copy_node Mk Wr (join dest name) n d) as [d1|] eqn:E; [|done].
    unfold write_all. rewrite fold_left_app. apply Hn in E. subst d1. apply IHes.
Qed.

(** It succeeds when every directory can be made and every file written. *)
Lemma copy_node_succeeds Mk Wr n : ∀ dest d,
  (∀ p, Mk p = true) → (∀ p, Wr p = true) → ∃ d', copy_node Mk Wr dest n d = Copied d'.
Proof.
  intros dest d HM HW. revert dest d. induction n as [data|entries IH] using node_ind'; intros dest d; simpl.
  - rewrite HW. eauto.
  - rewrite HM. simpl. revert d. induction IH as [|[name n] es Hn _ IHes]; intros d; simpl in *; [eauto|].
    destruct (Hn (join dest name) d) as [d1 ->]. apply IHes.
Qed.

Lemma write_all_lookup fs : ∀ d p, is_Some (d !! p) ∨ p ∈ fs.*1 → is_Some (write_all fs d !! p).
Proof.
  induction fs as [|[q data] fs IH]; intros d p Hp; csimpl in *; [set_solver|].
  unfold write_all. cbn [fold_left fst snd]. apply IH.
  destruct (decide (p = q)) as [->|]; [left; by rewrite lookup_insert_eq|]. rewrite lookup_insert_ne by done.
  set_solver.
Qed.

(** The first call on a machine where nothing fails: the executable is unpacked and runs. *)
Theorem lhm_starts TempDir lhmFs c d :
  (∀ p, c_MkdirAll c p = true) → (∀ p, c_WriteFile c p = true) → c_stat_denied c = false →
  c_StdinPipe c = true → c_StdoutPipe c = true → c_Start c = true →
  "beszel_lhm.exe" ∈ lhmFs.*1 → (∀ es, ("beszel_lhm.exe", Dir es) ∉ lhmFs) →
  ∃ l m, newlhmProcess TempDir lhmFs c {| files := d; alive := 0 |} = (m, Some l) ∧
    isRunning l = true ∧ alive m = 1%nat ∧ is_Some (files m !! exe_path TempDir).
Proof.
  intros HM HW Hd Hi Ho Hs Hin Hdir. unfold newlhmProcess. rewrite HM, Hd, orb_false_r. cbn [negb files].
  assert (∃ d', (if bool_decide (is_Some (d !! exe_path TempDir)) then (d, true)
      else match copyEmbeddedDir (c_MkdirAll c) (c_WriteFile c) lhmFs (join TempDir "beszel") d with
           | Copied d => (d, true) | CopyFailed d => (d, false) end) = (d', true) ∧ is_Some (d' !! exe_path TempDir)) as (d'&E&Hex).
  { case_bool_decide as Hex; [by exists d|]. unfold copyEmbeddedDir.
    destruct (copy_node_succeeds (c_MkdirAll c) (c_WriteFile c) (Dir lhmFs) (join TempDir "beszel") d HM HW) as [d' E].
    rewrite E. exists d'. split; [done|]. apply copy_node_spec in E. subst d'. apply write_all_lookup. right.
    apply list_elem_of_fmap in Hin as ([name n]&Hname&Hin). simpl in Hname. subst name.
    destruct n as [data|es]; [|by destruct (Hdir es)]. cbn [files_of].
    apply list_elem_of_fmap. exists (exe_path TempDir, data). split; [done|].
    apply list_elem_of_In, in_concat. eexists. split; [apply in_map, list_elem_of_In, Hin|].
    by left. }
  unfold exe_path in E, Hex |- *. rewrite E. cbn [negb]. unfold startProcess, starts, cleanupProcess. cbn.
  rewrite Hi, Ho, Hs, bool_decide_true by done. cbn. by eauto 10.
Qed.
End Lhm.

(** ** Attempts under the lock

    The agent reads the sensors in a goroutine and waits for it, with the lock held, no longer than a
    timeout ([getTempsWithTimeout]); a goroutine that is late goes on without the lock. *)

Module Attempts.
Record t := { waiting : bool; inside : nat }.

Inductive step : t → t → Prop :=
  | Begin a : waiting a = false → step a {| waiting := true; inside := S (inside a) |}
  | Answered a n : waiting a = true → inside a = S n → step a {| waiting := false; inside := n |}
  | TimedOut a : waiting a = true → step a {| waiting := false; inside := inside a |}
  | Late a n : inside a = S n → (waiting a = true → n ≠ 0%nat) → step a {| waiting := waiting a; inside := n |}.

Inductive step_in_time : t → t → Prop :=
  | in_time a b : step a b → (waiting a = true → waiting b = false → inside b = pred (inside a)) → step_in_time a b.

Definition start : t := {| waiting := false; inside := 0 |}.

(** As long as no attempt is late, one goroutine at most is at the sensors. *)
Lemma alone_in_time a : rtc step_in_time start a → (inside a = if waiting a then 1 else 0)%nat.
Proof.
  intros Hr. remember start as s eqn:Hs.
  assert (inside s = if waiting s then 1 else 0)%nat as H0 by (by subst s). clear Hs.
  induction Hr as [a|a b c [? ? Hst Ht] _ IH]; [done|]. apply IH. clear IH.
  inversion Hst as [? Hw|? n Hw Hn|? Hw|? n Hn Hl]; subst; simpl in *.
  - by rewrite Hw in H0; rewrite H0.
  - rewrite Hw, Hn in H0. lia.
  - specialize (Ht Hw eq_refl). rewrite Hw in H0. lia.
  - destruct (waiting a0); [|lia]. specialize (Hl eq_refl). lia.
Qed.

(** After one timeout, two can be there at the same time. *)
Lemma not_alone_after_timeout : rtc step start {| waiting := true; inside := 2 |}.
Proof.
  eapply rtc_l; [apply Begin; reflexivity|]. eapply rtc_l; [apply TimedOut; reflexivity|].
  eapply rtc_l; [apply Begin; reflexivity|]. apply rtc_refl.
Qed.
End Attempts.

(** ** Examples *)

Module Examples.
Import Lhm.

Definition ex_temp : string := "C:\Temp".
Definition ex_fs : list (string * node) := [("beszel_lhm.exe", File "MZ"); ("x64", Dir [("lib.dll", File "MZ2")])].
Definition ex_call (printed : list string) : call := {|
  c_MkdirAll _ := true; c_WriteFile _ := true; c_stat_denied := false; c_StdinPipe := true; c_StdoutPipe := true;
  c_Start := true; c_write := true; c_printed := printed; c_ended := None; c_gopsutil := ([ex_sensor "acpi" 30], false) |}.
Definition ex_empty : state := {| beszelLhm := None; onceDone := false; host := {| files := ∅; alive := 0 |} |}.
Definition ex_run (cs : list (list string)) : list answer := (run true ex_temp ex_fs (map ex_call cs) ex_empty).2.
Definition ex_state (cs : list (list string)) : state := (run true ex_temp ex_fs (map ex_call cs) ex_empty).1.

(** Sensors are read, one of no value and one too hot left out. *)
Example lhm_reads :
  ex_run [["CPU|55"; "GPU | 61"; "Core"; "Disk|151"; ""]] =
    [Returned [ex_sensor "CPU" 55; ex_sensor "GPU" 61] None].
Proof. vm_compute. reflexivity. Qed.

(** A value that is no number is none of the values that are left out. *)
Example nan_is_read : parse_line "CPU|NaN" = Some {| SensorKey := "CPU"; Temperature := S754_nan |}.
Proof. vm_compute. reflexivity. Qed.

(** An answer without its empty line is waited for. *)
Example unfinished_answer_blocks : ex_run [["CPU|55"]] = [Blocked].
Proof. vm_compute. reflexivity. Qed.

Lemma ex_reachable cs : ∀ s, reachable true ex_temp ex_fs s → reachable true ex_temp ex_fs (run true ex_temp ex_fs cs s).1.
Proof.
  induction cs as [|c cs IH]; intros s Hs; [done|]. cbn [run].
  pose proof (reach_call true ex_temp ex_fs c s Hs) as Hc. destruct (getSensorTemps _ _ _ c s) as [s' r].
  specialize (IH s' Hc). by destruct (run _ _ _ cs s').
Qed.

Lemma lhm_invariant_witness :
  state_ok ex_temp (ex_state [["CPU|55"; ""]; [""]]) ∧ alive (host (ex_state [["CPU|55"; ""]; [""]])) = 1%nat.
Proof.
  split; [|reflexivity]. apply (lhm_invariant true ex_temp ex_fs). apply ex_reachable. apply reach_init.
Defined.

Lemma lhm_gives_up_witness :
  (getSensorTemps true ex_temp ex_fs (ex_call [""]) (ex_state [[""]; [""]])).2 = Returned [ex_sensor "acpi" 30] None ∧
  Forall (λ r, r = Returned [] (Some StartFailed))
    (run true ex_temp ex_fs [ex_call ["CPU|55"; ""]; ex_call ["CPU|55"; ""]]
      (getSensorTemps true ex_temp ex_fs (ex_call [""]) (ex_state [[""]; [""]])).1).2.
Proof.
  refine (lhm_gives_up true ex_temp ex_fs (ex_state [[""]; [""]])
    {| cmd := true; stdin := true; stdout := true; scanner := Some {| pending := []; ended := None |}; isRunning := true;
       stoppedNoSensors := false; consecutiveNoSensors := 2; execPath := exe_path ex_temp; tempDir := join ex_temp "beszel" |}
    {| pending := []; ended := None |} (ex_call [""]) [] []
    [ex_call ["CPU|55"; ""]; ex_call ["CPU|55"; ""]] _ _ _ _ _ _ _ _ _ _ _); try reflexivity.
  - apply ex_reachable, reach_init.
  - constructor.
Defined.

Lemma lhm_starts_witness :
  ∃ l m, newlhmProcess ex_temp ex_fs (ex_call []) {| files := ∅; alive := 0 |} = (m, Some l) ∧
    isRunning l = true ∧ alive m = 1%nat ∧ is_Some (files m !! exe_path ex_temp).
Proof.
  apply (lhm_starts ex_temp ex_fs (ex_call []) ∅); try reflexivity.
  - left.
  - intros es [?|[?|?%elem_of_nil]%elem_of_cons]%elem_of_cons; done.
Defined.
End Examples.
