(* ===== verification/SmartDevices.v ===== *)
(** * The agent's SMART devices ([agent/smart.go], [agent/emmc_linux.go], [agent/mdraid_linux.go])

    Which devices the agent asks for their health: those that [smartctl] finds, eMMC
    and RAID devices found in [/sys], and those the user configured.  A scan merges
    them, keeps what was learnt about a device before, and forgets the data of devices
    that are gone.  Devices are structs behind pointers; every pointer is in one list
    only, so a device is a position in the list. *)

From S2P Require Import Prelude GoStrings GoText.

(** [smart.SmartAttribute] and [smart.SmartData] *)
Module SmartAttribute.
Record t := mk {
  ID : Z; Name : string; Value : Z; Worst : Z; Threshold : Z; RawValue : Z; RawString : string;
  WhenFailed : string;
}.
(** An attribute with a name and a raw value, and one with a text too. *)
Definition raw (name : string) (v : Z) : t := mk 0 name 0 0 0 v "" "".
Definition text (name : string) (v : Z) (s : string) : t := mk 0 name 0 0 0 v s "".
End SmartAttribute.

Module SmartData.
Record t := mk {
  ModelName : string; SerialNumber : string; FirmwareVersion : string; Capacity : Z;
  SmartStatus : string; DiskName : string; DiskType : string; Temperature : Z;
  Attributes : list SmartAttribute.t;
}.
Definition zero : t := mk "" "" "" 0 "" "" "" 0 [].
End SmartData.

Module DeviceInfo.
Record t := mk {
  Name : string; Type_ : string; InfoName : string; Protocol : string;
  typeVerified : bool; parserType : string;
}.
#[export] Instance eq_dec : EqDecision t.
Proof. solve_decision. Defined.

Definition with_type (d : t) (ty : string) (verified : bool) (parser : string) : t :=
  mk (Name d) ty (InfoName d) (Protocol d) verified parser.
Definition with_name (d : t) (n : string) : t :=
  mk n (Type_ d) (InfoName d) (Protocol d) (typeVerified d) (parserType d).
End DeviceInfo.

Module SmartDevices.
Import DeviceInfo.

(** [deviceKey] *)
Definition deviceKey : Type := string * string.
Definition makeDeviceKey (name deviceType : string) : deviceKey := (name, deviceType).
Definition key_of (d : DeviceInfo.t) : deviceKey := makeDeviceKey (Name d) (Type_ d).

Definition normalizeParserType (value : string) : string :=
  let v := ToLower (TrimSpace value) in
  if String.eqb v "nvme" || String.eqb v "sntasmedia" || String.eqb v "sntrealtek" then "nvme"
  else if String.eqb v "sat" || String.eqb v "ata" then "sat"
  else if String.eqb v "scsi" then "scsi"
  else v.

(** ** Configuration *)

(** The entries of [SMART_DEVICES]; [None] is an error. *)
Fixpoint parse_entries (entries : list string) : option (list DeviceInfo.t) :=
  match entries with
  | [] => Some []
  | entry :: rest =>
      let entry := TrimSpace entry in
      if String.eqb entry "" then parse_entries rest
      else
        let '(name, devType) :=
          match Cut entry ":" with
          | Some (n, ty) => (TrimSpace n, ToLower (TrimSpace ty))
          | None => (TrimSpace entry, ""%string)
          end in
        if String.eqb name "" then None
        else l ← parse_entries rest; Some (mk name devType "" "" false "" :: l)
  end.

Definition parseConfiguredDevices (separator : option string) (config : string)
    : option (list DeviceInfo.t) :=
  let splitChar := default "" separator in
  let splitChar := if String.eqb splitChar "" then ","%string else splitChar in
  l ← parse_entries (SplitBy config splitChar);
  match l with [] => None | _ => Some l end.

(** [refreshExcludedDevices], with the value of [EXCLUDE_SMART]. *)
Definition refreshExcludedDevices (rawValue : option string) : gset string :=
  list_to_set (List.filter (λ e, negb (String.eqb e ""))
    (map TrimSpace (Split "," (default "" rawValue)))).

(** ** Merging *)

Definition named (d : DeviceInfo.t) : bool := negb (String.eqb (Name d) "").

(** The number of devices with a name. *)
Definition count_name (l : list DeviceInfo.t) (n : string) : nat :=
  List.length (List.filter (λ d, named d && String.eqb (Name d) n) l).

(** [buildUniqueNameIndex], as positions in the list. *)
Fixpoint positions (l : list DeviceInfo.t) (p : DeviceInfo.t → bool) (i : nat) : list nat :=
  match l with
  | [] => []
  | d :: l => if p d then i :: positions l p (S i) else positions l p (S i)
  end.
Definition uniqueByName (l : list DeviceInfo.t) (n : string) : option nat :=
  if (count_name l n =? 1)%nat
  then head (positions l (λ d, named d && String.eqb (Name d) n) 0) else None.

(** The last device with a key. *)
Definition lastByKey (l : list DeviceInfo.t) (k : deviceKey) : option nat :=
  last (positions l (λ d, named d && bool_decide (key_of d = k)) 0).

Definition preserveVerifiedType (target : DeviceInfo.t) (prev : option DeviceInfo.t) : DeviceInfo.t :=
  match prev with
  | Some p => if typeVerified p then with_type target (Type_ p) true (parserType p) else target
  | None => target
  end.

Definition applyConfiguredMetadata (e c : DeviceInfo.t) : DeviceInfo.t :=
  let e :=
    if negb (String.eqb (Type_ c) "") && negb (typeVerified e) then
      let newType := TrimSpace (Type_ c) in with_type e newType false (normalizeParserType newType)
    else e in
  mk (Name e) (Type_ e)
    (if String.eqb (InfoName c) "" then InfoName e else InfoName c)
    (if String.eqb (Protocol c) "" then Protocol e else Protocol c)
    (typeVerified e) (parserType e).

(** What was known of a device: by its key, or by its name when that is unambiguous. *)
Definition previous (existing : list DeviceInfo.t) (d : DeviceInfo.t) : option DeviceInfo.t :=
  match lastByKey existing (key_of d) with
  | Some i => existing !! i
  | None => i ← uniqueByName existing (Name d); existing !! i
  end.

(** A scanned device with what was verified about it. *)
Definition merge_scanned (existing : list DeviceInfo.t) (d : DeviceInfo.t) : DeviceInfo.t :=
  preserveVerifiedType d (previous existing d).

(** A configured device that was not scanned. *)
Definition merge_new (existing : list DeviceInfo.t) (d : DeviceInfo.t) : DeviceInfo.t :=
  match previous existing d with
  | Some p => preserveVerifiedType d (Some p)
  | None => if String.eqb (Type_ d) "" then d
            else with_type d (Type_ d) (typeVerified d) (normalizeParserType (Type_ d))
  end.

(** [deviceIndex] keeps the keys that devices had when they were added; the index by name is
    that of the scanned devices. *)
Record merging := {
  finalDevices : list DeviceInfo.t;
  deviceIndex : gmap deviceKey nat;
}.

Definition add_device (m : merging) (d : DeviceInfo.t) : merging := {|
  finalDevices := finalDevices m ++ [d];
  deviceIndex := <[key_of d := List.length (finalDevices m)]> (deviceIndex m) |}.

Definition alter_device (m : merging) (i : nat) (c : DeviceInfo.t) : merging := {|
  finalDevices := alter (λ e, applyConfiguredMetadata e c) i (finalDevices m);
  deviceIndex := deviceIndex m |}.

(** One configured device. *)
Definition merge_configured (existing : list DeviceInfo.t) (byName : string → option nat)
    (m : merging) (c : DeviceInfo.t) : merging :=
  if negb (named c) then m
  else match deviceIndex m !! key_of c with
       | Some i => alter_device m i c
       | None =>
           match byName (Name c) with
           | Some i => alter_device m i c
           | None => add_device m (merge_new existing c)
           end
       end.

Definition mergeDeviceLists (existing scanned configured : list DeviceInfo.t) : list DeviceInfo.t :=
  match scanned, configured with
  | [], [] => existing
  | _, _ =>
      let m := fold_left add_device
                 (map (merge_scanned existing) (List.filter named scanned))
                 {| finalDevices := []; deviceIndex := ∅ |} in
      finalDevices (fold_left (merge_configured existing (uniqueByName (finalDevices m))) configured m)
  end.

(** ** The device list and its data *)

Definition filterExcludedDevices (excluded : gset string) (devices : list DeviceInfo.t)
    : list DeviceInfo.t :=
  if decide (excluded = ∅) then devices
  else List.filter (λ d, named d && negb (bool_decide (Name d ∈ excluded))) devices.

(** The data is that of a device of the list. *)
Definition backed (devices : list DeviceInfo.t) (data : SmartData.t) : bool :=
  if String.eqb (SmartData.DiskType data) "" then
    (count_name devices (SmartData.DiskName data) =? 1)%nat
  else existsb (λ d, named d &&
    bool_decide (key_of d = makeDeviceKey (SmartData.DiskName data) (SmartData.DiskType data))) devices.

Record SmartManager := {
  SmartDataMap : gmap string SmartData.t;
  SmartDevices : list DeviceInfo.t;
  lastScanTime : option Z;            (* [None] before the first scan *)
  smartctlPath : string;
  excludedDevices : gset string;
}.

Definition with_data (sm : SmartManager) (m : gmap string SmartData.t) : SmartManager := {|
  SmartDataMap := m; SmartDevices := SmartDevices sm; lastScanTime := lastScanTime sm;
  smartctlPath := smartctlPath sm; excludedDevices := excludedDevices sm |}.

Definition updateSmartDevices (sm : SmartManager) (devices : list DeviceInfo.t) : SmartManager := {|
  SmartDataMap := filter (λ kv, backed devices kv.2 = true) (SmartDataMap sm);
  SmartDevices := devices; lastScanTime := lastScanTime sm; smartctlPath := smartctlPath sm;
  excludedDevices := excludedDevices sm |}.

(** ** Merging keeps devices and what was verified *)

Lemma elem_of_positions l p k i :
  i ∈ positions l p k ↔ (k ≤ i)%nat ∧ ∃ d, l !! (i - k)%nat = Some d ∧ p d = true.
Proof.
  revert k. induction l as [|d l IH]; intros k; simpl.
  - rewrite elem_of_nil. split; [done|]. intros [_ (x&E&_)]. done.
  - assert (i ∈ positions l p (S k) ↔ (S k ≤ i)%nat ∧ ∃ x, (d :: l) !! (i - k)%nat = Some x ∧ p x = true)
      as Htl.
    { rewrite IH. split; intros [Hle (x&E&Hx)]; (split; [done|]); exists x; (split; [|done]).
      - by replace (i - k)%nat with (S (i - S k)) by lia.
      - by replace (i - k)%nat with (S (i - S k)) in E by lia. }
    destruct (p d) eqn:Hp; [rewrite elem_of_cons|]; rewrite Htl; split.
    + intros [->|[? ?]]; [rewrite Nat.sub_diag; eauto|split; [lia|done]].
    + intros [Hle (x&E&Hx)]. destruct (decide (i = k)) as [->|?]; [by left|right].
      split; [lia|eauto].
    + intros [? ?]. split; [lia|done].
    + intros [Hle (x&E&Hx)]. destruct (decide (i = k)) as [->|?].
      * rewrite Nat.sub_diag in E. injection E as <-. congruence.
      * split; [lia|eauto].
Qed.

Lemma uniqueByName_spec l n i :
  uniqueByName l n = Some i → ∃ d, l !! i = Some d ∧ Name d = n.
Proof.
  unfold uniqueByName. case_match; [|done]. intros Hh.
  assert (i ∈ positions l (λ d, named d && String.eqb (Name d) n) 0) as Hi.
  { destruct (positions _ _ _); simplify_eq/=. apply list_elem_of_here. }
  apply elem_of_positions in Hi as [_ (d&Hd&Hb)]. rewrite Nat.sub_0_r in Hd.
  apply andb_true_iff in Hb as [_ Hb%String.eqb_eq]. eauto.
Qed.

Lemma apply_keeps e c :
  Name (applyConfiguredMetadata e c) = Name e ∧
  (typeVerified e = true →
   typeVerified (applyConfiguredMetadata e c) = true ∧
   Type_ (applyConfiguredMetadata e c) = Type_ e ∧
   parserType (applyConfiguredMetadata e c) = parserType e).
Proof.
  unfold applyConfiguredMetadata.
  destruct (String.eqb (Type_ c) ""), (typeVerified e) eqn:Hv; simpl; (split; [done|]);
    intros ?; split_and!; done.
Qed.

Lemma preserve_name d p : Name (preserveVerifiedType d p) = Name d.
Proof. unfold preserveVerifiedType. destruct p as [p|]; [by destruct (typeVerified p)|done]. Qed.

Lemma merge_new_name existing d : Name (merge_new existing d) = Name d.
Proof.
  unfold merge_new. destruct (previous existing d); [apply preserve_name|].
  by destruct (String.eqb (Type_ d) "").
Qed.

(** A device that carries on another one. *)
Definition carries (d f : DeviceInfo.t) : Prop :=
  Name f = Name d ∧
  (typeVerified d = true → typeVerified f = true ∧ Type_ f = Type_ d ∧ parserType f = parserType d).

Lemma carries_apply d f c : carries d f → carries d (applyConfiguredMetadata f c).
Proof.
  intros [Hn Hv]. destruct (apply_keeps f c) as [Hn' Hv']. split; [by rewrite Hn'|].
  intros H1. destruct (Hv H1) as (H2&H3&H4). destruct (Hv' H2) as (?&H5&H6). split_and!; congruence.
Qed.

Definition index_ok (m : merging) : Prop :=
  ∀ k i, deviceIndex m !! k = Some i → ∃ f, finalDevices m !! i = Some f ∧ Name f = k.1.

Record merged (base : list DeviceInfo.t) (names : list string) (m : merging) : Prop := {
  merged_index : index_ok m;
  merged_base : ∀ i d, base !! i = Some d → ∃ f, finalDevices m !! i = Some f ∧ carries d f;
  merged_new : ∀ i f, finalDevices m !! i = Some f →
    (List.length base ≤ i)%nat → Name f ∈ names;
  merged_all : ∀ n, n ∈ names → n ∈ map Name (finalDevices m);
}.

Lemma index_ok_add m d : index_ok m → index_ok (add_device m d).
Proof.
  intros Hm k i. unfold add_device. simpl. rewrite lookup_insert_Some. intros [[<- <-]|[_ Hk]].
  - exists d. split; [|done]. by rewrite lookup_app_r, Nat.sub_diag by lia.
  - destruct (Hm k i Hk) as (f&Hf&?). exists f. split; [|done]. by apply lookup_app_l_Some.
Qed.

Lemma scanned_merged l m :
  index_ok m → index_ok (fold_left add_device l m) ∧
  finalDevices (fold_left add_device l m) = finalDevices m ++ l.
Proof.
  revert m. induction l as [|d l IH]; intros m Hm; simpl; [by rewrite app_nil_r|].
  destruct (IH (add_device m d) (index_ok_add m d Hm)) as [? ->]. split; [done|].
  simpl. by rewrite <- app_assoc.
Qed.

Lemma merged_alter base names m i c f :
  merged base names m → finalDevices m !! i = Some f → Name f = Name c →
  merged base (Name c :: names) (alter_device m i c).
Proof.
  intros [Hx Hb Hnew Hall] Hf Hn.
  assert (∀ j g, alter (λ e, applyConfiguredMetadata e c) i (finalDevices m) !! j = Some g →
    ∃ e, finalDevices m !! j = Some e ∧ Name g = Name e) as Hback.
  { intros j g. destruct (decide (i = j)) as [<-|Hne].
    - rewrite list_lookup_alter_eq. rewrite fmap_Some. intros (e&He&->). exists e.
      split; [done|apply apply_keeps].
    - rewrite list_lookup_alter_ne by done. eauto. }
  assert (∀ j e, finalDevices m !! j = Some e → ∃ g,
    alter (λ e, applyConfiguredMetadata e c) i (finalDevices m) !! j = Some g ∧ Name g = Name e ∧
    (∀ d, carries d e → carries d g)) as Hfwd.
  { intros j e He. destruct (decide (i = j)) as [<-|Hne].
    - rewrite list_lookup_alter_eq, He. eexists. split; [done|]. split; [apply apply_keeps|].
      intros d. apply carries_apply.
    - rewrite list_lookup_alter_ne by done. eauto. }
  split; simpl.
  - intros k j Hk. destruct (Hx k j Hk) as (e&He&Hek). destruct (Hfwd j e He) as (g&Hg&Hge&_).
    exists g. split; [done|congruence].
  - intros j d Hd. destruct (Hb j d Hd) as (e&He&Hc). destruct (Hfwd j e He) as (g&Hg&_&Hcg). eauto.
  - intros j g Hg Hle. destruct (Hback j g Hg) as (e&He&->). right. by eapply Hnew.
  - intros n [->|Hin]%elem_of_cons.
    + destruct (Hfwd i f Hf) as (g&Hg&Hge&_). rewrite <- Hn, <- Hge.
      apply list_elem_of_fmap. exists g. split; [done|]. by eapply list_elem_of_lookup_2.
    + apply Hall, list_elem_of_fmap in Hin as (e&->&He). apply list_elem_of_lookup in He as [j He].
      destruct (Hfwd j e He) as (g&Hg&Hge&_). rewrite <- Hge. apply list_elem_of_fmap.
      exists g. split; [done|]. by eapply list_elem_of_lookup_2.
Qed.

Lemma merged_add base names m d :
  merged base names m → merged base (Name d :: names) (add_device m d).
Proof.
  intros [Hx Hb Hnew Hall]. split; [by apply index_ok_add|..]; simpl.
  - intros i e He. destruct (Hb i e He) as (f&Hf&?). exists f. split; [|done].
    by apply lookup_app_l_Some.
  - intros i f Hi Hle. apply lookup_app_Some in Hi as [Hi|[? Hi]].
    + right. by eapply Hnew.
    + apply list_lookup_singleton_Some in Hi as [_ <-]. left.
  - intros n. rewrite map_app, elem_of_app, elem_of_cons. intros [->|Hin]; [right; left|left; auto].
Qed.

Lemma merge_configured_merged existing base names m c :
  merged base names m → named c = true →
  merged base (Name c :: names) (merge_configured existing (uniqueByName base) m c).
Proof.
  intros Hm Hc. unfold merge_configured. rewrite Hc. simpl.
  destruct (deviceIndex m !! key_of c) as [i|] eqn:Hk.
  - destruct (merged_index _ _ _ Hm _ _ Hk) as (f&Hf&Hn). by apply merged_alter with f.
  - destruct (uniqueByName base (Name c)) as [i|] eqn:Hu.
    + apply uniqueByName_spec in Hu as (d&Hd&Hn).
      destruct (merged_base _ _ _ Hm i d Hd) as (f&Hf&[Hfn _]). apply merged_alter with f; congruence.
    + rewrite <- (merge_new_name existing c). by apply merged_add.
Qed.

Lemma configured_merged existing base configured names m :
  merged base names m →
  merged base (rev (map Name (List.filter named configured)) ++ names)
    (fold_left (merge_configured existing (uniqueByName base)) configured m).
Proof.
  revert names m. induction configured as [|c l IH]; intros names m Hm; simpl; [done|].
  destruct (named c) eqn:Hc.
  - simpl. rewrite <- app_assoc. simpl. by apply IH, merge_configured_merged.
  - unfold merge_configured at 2. rewrite Hc. by apply IH.
Qed.

(** A scan that finds or is given devices lists every scanned device in its place and every
    configured one, and no others; a scanned device that was verified before, found by name and
    type or by a name that only one device had, keeps its type and parser, whatever the
    configuration says. *)
Theorem merge_keeps_verified existing scanned configured :
  scanned ++ configured ≠ [] →
  let final := mergeDeviceLists existing scanned configured in
  let scanned := List.filter named scanned in
  (∀ i d, scanned !! i = Some d → ∃ f, final !! i = Some f ∧ Name f = Name d ∧
     ∀ p, previous existing d = Some p → typeVerified p = true →
       typeVerified f = true ∧ Type_ f = Type_ p ∧ parserType f = parserType p) ∧
  (∀ n, n ∈ map Name (List.filter named configured) → n ∈ map Name final) ∧
  (∀ i f, final !! i = Some f → (List.length scanned ≤ i)%nat →
     Name f ∈ map Name (List.filter named configured)).
Proof.
  intros Hne. cbv zeta.
  set (base := map (merge_scanned existing) (List.filter named scanned)).
  set (m := fold_left add_device base {| finalDevices := []; deviceIndex := ∅ |}).
  assert (mergeDeviceLists existing scanned configured =
    finalDevices (fold_left (merge_configured existing (uniqueByName (finalDevices m))) configured m))
    as -> by (destruct scanned, configured; done).
  destruct (scanned_merged base {| finalDevices := []; deviceIndex := ∅ |}) as [Hx Hfin];
    [by intros ???|]. fold m in Hx, Hfin. simpl in Hfin.
  assert (merged base [] m) as Hm.
  { split; [done|..].
    - intros i d Hd. rewrite Hfin. exists d. split_and!; [done..|by intros].
    - intros i f Hf Hle. rewrite Hfin in Hf. apply lookup_lt_Some in Hf. lia.
    - intros n. by rewrite elem_of_nil. }
  rewrite Hfin. apply (configured_merged existing base configured) in Hm. rewrite app_nil_r in Hm.
  destruct Hm as [_ Hb Hnew Hall]. split_and!.
  - intros i d Hd. destruct (Hb i (merge_scanned existing d)) as (f&Hf&[Hn Hv]).
    { subst base. by rewrite list_lookup_fmap, Hd. }
    exists f. split; [done|]. split; [by rewrite Hn; apply preserve_name|].
    intros p Hp Hpv. unfold merge_scanned in Hv. rewrite Hp in Hv. simpl in Hv. rewrite Hpv in Hv.
    by apply Hv.
  - intros n Hn. apply Hall. by apply list_elem_of_In, in_rev, list_elem_of_In in Hn.
  - intros i f Hf Hle. subst base. rewrite length_map in Hnew.
    by apply (Hnew i f Hf), list_elem_of_In, in_rev, list_elem_of_In in Hle.
Qed.

(** ** Examples *)

Definition ex_dev (name ty : string) (verified : bool) (parser : string) : DeviceInfo.t :=
  mk name ty "" "" verified parser.

Lemma merge_keeps_verified_witness :
  let final := mergeDeviceLists [ex_dev "/dev/sda" "sat+megaraid" true "sat"]
                 [ex_dev "/dev/sda" "scsi" false ""; ex_dev "/dev/sdb" "scsi" false ""]
                 [ex_dev "/dev/sda" "nvme" false ""; ex_dev "/dev/sdb" "sat" false "";
                  ex_dev "/dev/sdc" "" false ""] in
  (∃ f, final !! 0%nat = Some f ∧ Type_ f = "sat+megaraid"%string ∧ parserType f = "sat"%string) ∧
  map (λ d, (Name d, Type_ d, parserType d)) final =
    [("/dev/sda", "sat+megaraid", "sat"); ("/dev/sdb", "sat", "sat"); ("/dev/sdc", "", "")]%string.
Proof.
  cbv zeta. split; [|vm_compute; reflexivity].
  destruct (merge_keeps_verified [ex_dev "/dev/sda" "sat+megaraid" true "sat"]
    [ex_dev "/dev/sda" "scsi" false ""; ex_dev "/dev/sdb" "scsi" false ""]
    [ex_dev "/dev/sda" "nvme" false ""; ex_dev "/dev/sdb" "sat" false "";
     ex_dev "/dev/sdc" "" false ""]) as (H1&_); [discriminate|].
  destruct (H1 0%nat (ex_dev "/dev/sda" "scsi" false "")) as (f&Hf&_&Hv); [reflexivity|].
  exists f. split; [exact Hf|].
  destruct (Hv (ex_dev "/dev/sda" "sat+megaraid" true "sat")) as (_&?&?);
    [vm_compute; reflexivity|reflexivity|]. by split.
Defined.

Example parseConfiguredDevices_ex :
  (map (λ d, (Name d, Type_ d)) <$> parseConfiguredDevices None " /dev/sda:SAT, ,/dev/nvme0 ")
    = Some [("/dev/sda", "sat"); ("/dev/nvme0", "")]%string ∧
  parseConfiguredDevices None ":sat" = None ∧ parseConfiguredDevices (Some ";"%string) "; ;" = None.
Proof. vm_compute. split_and!; reflexivity. Qed.
End SmartDevices.
