(* ===== verification/PollRecords.v ===== *)
(** * The records of a poll ([internal/hub/systems/system.go], [system_smart.go])

    What the hub writes when a system answers: the statistics, the containers and services, the
    details, and the system's own row at the end, all in one transaction.  SMART devices are
    saved one by one.  The database is the tables that are written; which writes fail is an
    argument, and PocketBase's transactions are the class [Transactions] with its laws. *)

From S2P Require Import Prelude GoFloat GoStrings GoText Entities SystemData Systemd SmartDevices.

Module PollRecords.
Local Open Scope string_scope.

(** ** Tables *)

Record statsRow {A : Type} := mkStats { st_system : string; st_stats : A; st_type : string }.
Arguments statsRow : clear implicits.

Record containerRow := {
  k_system : string; k_name : string; k_image : string; k_ports : string; k_status : string;
  k_health : Z; k_cpu : f64; k_memory : f64; k_net : Z; k_updated : Z }.
Record serviceRow := {
  s_system : string; s_name : string; s_state : ServiceState; s_sub : ServiceSubState;
  s_cpu : f64; s_cpuPeak : f64; s_memory : Z; s_memPeak : Z; s_updated : Z }.
Record detailsRow := { d_details : Details.t; d_updated : Z }.
Record systemRow := { y_status : string; y_info : Info.t }.
Record deviceRow := {
  v_system : string; v_name : string; v_model : string; v_state : string; v_capacity : Z; v_temp : Z;
  v_firmware : string; v_serial : string; v_type : string; v_hours : Z; v_cycles : Z;
  v_attributes : list SmartAttribute.t }.

Record DB := mkDB {
  system_stats : list (statsRow Stats.t);
  container_stats : list (statsRow (list ContainerStats.t));
  containers : gmap string containerRow;
  systemd_services : gmap string serviceRow;
  system_details : gmap string detailsRow;
  systems : gmap string systemRow;
  smart_devices : gmap string deviceRow }.

(** The statements of the transaction of a poll; the update of the details is one that panics when it
    fails, for its result is used before its error is looked at. *)
Inductive statement :=
  | SystemStats | ContainerRows | ContainerStatsRow | ServiceRows | DetailsUpdate | DetailsInsert | SystemRow.
#[export] Instance statement_eq : EqDecision statement.
Proof. solve_decision. Defined.

Inductive result := Saved | Failed (s : statement) | Panicked | NoRecord | CommitFailed.
#[export] Instance result_eq : EqDecision result.
Proof. solve_decision. Defined.

(** [RunInTransaction] of PocketBase: a body that ends in an error or a panic is rolled back; one that
    succeeds is committed, unless the commit fails. *)
Class Transactions := { RunInTransaction : (DB → DB * result) → DB → DB * result }.
Class TransactionsLaws `{Transactions} := {
  tx_rollback : ∀ body d, (body d).2 ≠ Saved → RunInTransaction body d = (d, (body d).2);
  tx_commit : ∀ body d, (body d).2 = Saved →
    RunInTransaction body d = body d ∨ RunInTransaction body d = (d, CommitFailed);
}.

Section poll.
Context {FC : FloatConv} (now : Z) {Tx : Transactions} {TxL : TransactionsLaws}.

(** A statement that inserts rows, and updates those whose id exists. *)
Definition upsert {A} (rows : list (string * A)) (m : gmap string A) : gmap string A :=
  fold_left (λ m p, <[p.1 := p.2]> m) rows m.

Definition container_row (systemId : string) (c : ContainerStats.t) : string * containerRow :=
  (ContainerStats.Id c, {|
     k_system := systemId; k_name := ContainerStats.Name c; k_image := ContainerStats.Image c;
     k_ports := ContainerStats.Ports c; k_status := ContainerStats.Status c;
     k_health := ContainerStats.Health c; k_cpu := ContainerStats.Cpu c;
     k_memory := ContainerStats.Mem c; k_net := SystemData.netBytes c; k_updated := now |}).
Definition createContainerRecords (data : list ContainerStats.t) (systemId : string) (d : DB) : DB :=
  mkDB (system_stats d) (container_stats d) (upsert (container_row systemId <$> data) (containers d))
    (systemd_services d) (system_details d) (systems d) (smart_devices d).

Definition service_row (systemId : string) (s : Service.t) : string * serviceRow :=
  (SystemData.makeStableHashId [systemId; Service.Name s], {|
     s_system := systemId; s_name := Service.Name s; s_state := Service.State s;
     s_sub := Service.Sub s; s_cpu := Service.Cpu s; s_cpuPeak := Service.CpuPeak s;
     s_memory := Service.Mem s; s_memPeak := Service.MemPeak s; s_updated := now |}).
Definition createSystemdStatsRecords (data : list Service.t) (systemId : string) (d : DB) : DB :=
  mkDB (system_stats d) (container_stats d) (containers d)
    (upsert (service_row systemId <$> data) (systemd_services d)) (system_details d) (systems d)
    (smart_devices d).

(** An update, and an insert where it changes no row: both leave the row. *)
Definition createSystemDetailsRecord (data : Details.t) (systemId : string) (d : DB) : DB :=
  mkDB (system_stats d) (container_stats d) (containers d) (systemd_services d)
    (<[systemId := {| d_details := data; d_updated := now |}]> (system_details d)) (systems d)
    (smart_devices d).

Definition add_system_stats (id : string) (s : Stats.t) (d : DB) : DB :=
  mkDB (system_stats d ++ [mkStats _ id s "1m"])%list (container_stats d) (containers d)
    (systemd_services d) (system_details d) (systems d) (smart_devices d).
Definition add_container_stats (id : string) (l : list ContainerStats.t) (d : DB) : DB :=
  mkDB (system_stats d) (container_stats d ++ [mkStats _ id l "1m"])%list (containers d)
    (systemd_services d) (system_details d) (systems d) (smart_devices d).
Definition set_up (id : string) (i : Info.t) (d : DB) : DB :=
  mkDB (system_stats d) (container_stats d) (containers d) (systemd_services d) (system_details d)
    (<[id := {| y_status := "up"; y_info := i |}]> (systems d)) (smart_devices d).

(** ** The transaction *)

Definition CombinedData : Type := CombinedData.t Service.t.

(** The statements of a poll in their order, with their effects. *)
Definition plan (d : DB) (id : string) (data : CombinedData) : list (statement * (DB → DB)) :=
  [(SystemStats, add_system_stats id (CombinedData.Stats data))] ++
  match CombinedData.Containers data with
  | [] => []
  | c :: _ =>
      (if String.eqb (ContainerStats.Id c) "" then []
       else [(ContainerRows, createContainerRecords (CombinedData.Containers data) id)]) ++
      [(ContainerStatsRow, add_container_stats id (CombinedData.Containers data))]
  end ++
  match CombinedData.SystemdServices data with
  | [] => []
  | l => [(ServiceRows, createSystemdStatsRecords l id)]
  end ++
  match CombinedData.Details data with
  | None => []
  | Some x =>
      match system_details d !! id with
      | Some _ => [(DetailsUpdate, createSystemDetailsRecord x id)]
      | None => [(DetailsUpdate, λ d, d); (DetailsInsert, createSystemDetailsRecord x id)]
      end
  end ++
  [(SystemRow, set_up id (CombinedData.Info data))]%list.

Fixpoint run_plan (fails : statement → bool) (l : list (statement * (DB → DB))) (d : DB) : DB * result :=
  match l with
  | [] => (d, Saved)
  | (s, f) :: l =>
      if fails s then (d, match s with DetailsUpdate => Panicked | _ => Failed s end)
      else run_plan fails l (f d)
  end.

(** [createRecords]: a system without a record is an error (and is removed from the manager). *)
Definition create_records (fails : statement → bool) (id : string) (data : CombinedData) (d : DB) : DB * result :=
  match systems d !! id with
  | None => (d, NoRecord)
  | Some _ => RunInTransaction (run_plan fails (plan d id data)) d
  end.

Lemma run_plan_saved fails l : ∀ d d',
  run_plan fails l d = (d', Saved) ↔
  d' = fold_left (λ d p, p.2 d) l d ∧ Forall (λ p, fails p.1 = false) l.
Proof using Type.
  clear. induction l as [|[s f] l IH]; intros d d'; cbn [run_plan fold_left].
  { split; [by intros [= <-]|by intros [-> _]]. }
  rewrite Forall_cons. simpl fst. destruct (fails s).
  - split; [destruct s; discriminate|]. intros (_&?&_). discriminate.
  - rewrite IH. simpl. naive_solver.
Qed.

(** The last row of an id, if a list has one. *)
Definition last_row {A} (id : string) (rows : list (string * A)) : option A :=
  last (omap (λ p, if String.eqb p.1 id then Some p.2 else None) rows).

Lemma upsert_lookup {A} (rows : list (string * A)) m id :
  upsert rows m !! id = match last_row id rows with Some r => Some r | None => m !! id end.
Proof using Type.
  clear. unfold upsert. induction rows as [|[k r] rows IH] using rev_ind; [done|].
  rewrite fold_left_app. unfold last_row. rewrite omap_app. simpl.
  destruct (String.eqb_spec k id) as [->|Hne].
  - by rewrite lookup_insert_eq, last_snoc.
  - rewrite lookup_insert_ne, app_nil_r by done. exact IH.
Qed.

(** What a poll leaves, table by table. *)
Definition after_poll (id : string) (data : CombinedData) (d : DB) : DB :=
  let cs := CombinedData.Containers data in
  let has := match cs with c :: _ => negb (String.eqb (ContainerStats.Id c) "") | [] => false end in
  mkDB (system_stats d ++ [mkStats _ id (CombinedData.Stats data) "1m"])
    (match cs with [] => container_stats d | _ => container_stats d ++ [mkStats _ id cs "1m"] end)
    (if has then upsert (container_row id <$> cs) (containers d) else containers d)
    (upsert (service_row id <$> CombinedData.SystemdServices data) (systemd_services d))
    (match CombinedData.Details data with
     | Some x => <[id := {| d_details := x; d_updated := now |}]> (system_details d)
     | None => system_details d
     end)
    (<[id := {| y_status := "up"; y_info := CombinedData.Info data |}]> (systems d))
    (smart_devices d).

Lemma plan_effect d id data : fold_left (λ d p, p.2 d) (plan d id data) d = after_poll id data d.
Proof using Type.
  unfold plan, after_poll. destruct (CombinedData.Containers data) as [|c cs];
    [|destruct (String.eqb _ "")]; destruct (CombinedData.SystemdServices data);
    destruct (CombinedData.Details data); try destruct (system_details d !! id); reflexivity.
Qed.

Lemma run_plan_failed fails l : ∀ d, (run_plan fails l d).2 ≠ Saved →
  ∃ s, s ∈ l.*1 ∧ fails s = true ∧
    (run_plan fails l d).2 = match s with DetailsUpdate => Panicked | _ => Failed s end.
Proof using Type.
  clear. induction l as [|[s f] l IH]; intros d; cbn [run_plan fmap list_fmap fst]; [done|].
  destruct (fails s) eqn:E.
  - intros _. exists s. split_and!; [by left|done|done].
  - intros (s'&?&?&?)%IH. exists s'. split_and!; [by right|done|done].
Qed.

(** C31: the records of a poll, with PocketBase's transactions.  A poll that is saved leaves, in every
    table: one more record of statistics with the system's figures; one more record of container
    statistics when the answer has containers; a row for every container, by its id, provided that
    the first container has an id (otherwise the rows of containers are as they were); a row for
    every service, by the 32-bit hash of system and name; the details of the system when the answer
    has them; the system's row up, with its information.  Of rows with the same id the last one
    counts, also when they are another system's ([service_ids_collide]); rows with other ids, and
    the SMART devices, are as they were.  A poll that is not saved leaves the whole database as it
    was, and has a reason: no record, a statement that failed, or the commit. *)
Theorem poll_records_atomic fails id data d d' r :
  create_records fails id data d = (d', r) →
  let cs := CombinedData.Containers data in
  (r = Saved → is_Some (systems d !! id) ∧
     Forall (λ p, fails p.1 = false) (plan d id data) ∧
     system_stats d' = (system_stats d ++ [mkStats _ id (CombinedData.Stats data) "1m"])%list ∧
     container_stats d' =
       (if bool_decide (cs = []) then container_stats d else container_stats d ++ [mkStats _ id cs "1m"])%list ∧
     (∀ k, containers d' !! k =
        match (if bool_decide (from_option ContainerStats.Id "" (head cs) = "") then None
               else last_row k (container_row id <$> cs)) with
        | Some row => Some row | None => containers d !! k end) ∧
     (∀ k, systemd_services d' !! k =
        match last_row k (service_row id <$> CombinedData.SystemdServices data) with
        | Some row => Some row | None => systemd_services d !! k end) ∧
     system_details d' = match CombinedData.Details data with
                         | Some x => <[id := {| d_details := x; d_updated := now |}]> (system_details d)
                         | None => system_details d end ∧
     systems d' = <[id := {| y_status := "up"; y_info := CombinedData.Info data |}]> (systems d) ∧
     smart_devices d' = smart_devices d) ∧
  (r ≠ Saved → d' = d ∧
     (r = NoRecord ∧ systems d !! id = None ∨ r = CommitFailed ∨
      ∃ s, s ∈ (plan d id data).*1 ∧ fails s = true ∧
           r = match s with DetailsUpdate => Panicked | _ => Failed s end)).
Proof using TxL.
  intros Hc. cbv zeta. unfold create_records in Hc.
  destruct (systems d !! id) as [row|] eqn:Hrow; [|injection Hc as <- <-; split; [done|auto]].
  destruct (decide ((run_plan fails (plan d id data) d).2 = Saved)) as [Hs|Hf].
  - destruct (tx_commit _ _ Hs) as [E|E]; rewrite E in Hc; [|injection Hc as <- <-; split; [done|auto]].
    rewrite Hc in Hs. simpl in Hs. subst r. split; [intros _|done].
    apply run_plan_saved in Hc as [-> Hok]. rewrite plan_effect. unfold after_poll.
    split_and!; try done; cbn [container_stats containers systemd_services].
    + by destruct (CombinedData.Containers data).
    + intros k. destruct (CombinedData.Containers data) as [|c cs]; [done|]. simpl head. cbn [from_option].
      destruct (String.eqb_spec (ContainerStats.Id c) "") as [E'|E']; cbn [negb];
        [by rewrite bool_decide_eq_true_2|rewrite bool_decide_eq_false_2 by done]. apply upsert_lookup.
    + intros k. apply upsert_lookup.
  - rewrite (tx_rollback _ _ Hf) in Hc. injection Hc as <- <-. split; [done|]. intros _. split; [done|].
    right. right. exact (run_plan_failed _ _ _ Hf).
Qed.

(** The row of the system, whose change sets off the alerts, is the last to be written. *)
Lemma system_row_last d id data : fst <$> last (plan d id data) = Some SystemRow.
Proof using Type. unfold plan. rewrite !app_assoc, last_snoc. done. Qed.
End poll.

(** ** SMART devices *)

Definition hub_attribute (a : SmartAttribute.t) : SystemData.SmartAttribute := {|
  SystemData.ID := SmartAttribute.ID a; SystemData.Name := SmartAttribute.Name a;
  SystemData.Value := SmartAttribute.Value a; SystemData.Worst := SmartAttribute.Worst a;
  SystemData.Threshold := SmartAttribute.Threshold a; SystemData.RawValue := SmartAttribute.RawValue a;
  SystemData.RawString := SmartAttribute.RawString a; SystemData.WhenFailed := SmartAttribute.WhenFailed a |}.

Section smart.
Context {RO : RangeOrder string}.
(** Whether looking up a row fails for another reason than its absence, and whether saving it fails. *)
Context (find_fails save_fails : string → bool).

Definition device_id (sys deviceKey : string) : string := SystemData.makeStableHashId [sys; deviceKey].

Definition device_row (sys deviceKey : string) (device : SmartData.t) : deviceRow :=
  let '(powerOnHours, powerCycles) :=
    SystemData.extractPowerMetrics (hub_attribute <$> SmartData.Attributes device) in
  {| v_system := sys;
     v_name := if String.eqb (SmartData.DiskName device) "" then deviceKey else SmartData.DiskName device;
     v_model := SmartData.ModelName device; v_state := SmartData.SmartStatus device;
     v_capacity := SmartData.Capacity device; v_temp := SmartData.Temperature device;
     v_firmware := SmartData.FirmwareVersion device; v_serial := SmartData.SerialNumber device;
     v_type := SmartData.DiskType device; v_hours := powerOnHours; v_cycles := powerCycles;
     v_attributes := SmartData.Attributes device |}.

Definition upsertSmartDeviceRecord (sys deviceKey : string) (device : SmartData.t) (d : DB) : option DB :=
  let recordID := device_id sys deviceKey in
  if find_fails recordID || save_fails recordID then None
  else Some (mkDB (system_stats d) (container_stats d) (containers d) (systemd_services d)
               (system_details d) (systems d)
               (<[recordID := device_row sys deviceKey device]> (smart_devices d))).

(** The loop stops at the first error; what was saved before stays. *)
Fixpoint save_loop (sys : string) (l : list (string * SmartData.t)) (d : DB) : DB * bool :=
  match l with
  | [] => (d, true)
  | (k, device) :: l =>
      match upsertSmartDeviceRecord sys k device d with
      | None => (d, false)
      | Some d => save_loop sys l d
      end
  end.
Definition saveSmartDevices (collection_ok : bool) (sys : string) (smartData : gmap string SmartData.t) (d : DB)
    : DB * bool :=
  match range_list smartData with
  | [] => (d, true)
  | l => if collection_ok then save_loop sys l d else (d, false)
  end.

Lemma save_loop_saved sys l : ∀ d d',
  save_loop sys l d = (d', true) →
  smart_devices d' = upsert ((λ p, (device_id sys p.1, device_row sys p.1 p.2)) <$> l) (smart_devices d) ∧
  system_stats d' = system_stats d ∧ systems d' = systems d.
Proof using Type.
  clear RO. induction l as [|[k dev] l IH]; intros d d'; simpl; [by intros [= <-]|].
  unfold upsertSmartDeviceRecord. destruct (_ || _); [done|]. intros H. apply IH in H as (->&->&->). done.
Qed.

(** When every device is saved, each has its row, and rows of other ids stay; no two devices of
    the batch may share an id. *)
Theorem smart_rows_exact sys smartData d d' :
  saveSmartDevices true sys smartData d = (d', true) →
  (∀ k k' x x', smartData !! k = Some x → smartData !! k' = Some x' → device_id sys k = device_id sys k' → k = k') →
  (∀ k x, smartData !! k = Some x → smart_devices d' !! device_id sys k = Some (device_row sys k x)) ∧
  (∀ id, (∀ k, is_Some (smartData !! k) → device_id sys k ≠ id) → smart_devices d' !! id = smart_devices d !! id).
Proof using Type.
  intros H Hinj. set (rows := (λ p, (device_id sys p.1, device_row sys p.1 p.2)) <$> range_list smartData).
  assert (Hd : smart_devices d' = upsert rows (smart_devices d)).
  { unfold saveSmartDevices in H. unfold rows. destruct (range_list smartData) eqn:E; [by injection H as <-|].
    apply save_loop_saved in H. apply H. }
  assert (Hrow : ∀ id r, last_row id rows = Some r → ∃ k x, smartData !! k = Some x ∧ device_id sys k = id ∧
    r = device_row sys k x).
  { intros id r Hl. apply last_Some_elem_of in Hl. apply list_elem_of_omap in Hl as ([i r']&Hin&Hi).
    apply list_elem_of_fmap in Hin as ([k x]&[= -> ->]&Hin%elem_of_range_list). exists k, x. simpl in *.
    destruct (String.eqb_spec (device_id sys k) id); [|done]. by injection Hi as <-. }
  rewrite Hd. split.
  - intros k x Hk. rewrite upsert_lookup. destruct (last_row (device_id sys k) rows) as [r|] eqn:Hl.
    + destruct (Hrow _ _ Hl) as (k'&x'&Hk'&Hi&->). pose proof (Hinj _ _ _ _ Hk' Hk Hi) as ->. by simplify_eq.
    + exfalso. apply last_None in Hl. assert (device_row sys k x ∈ ([] : list deviceRow)) as Hn; [|by apply elem_of_nil in Hn].
      rewrite <- Hl. apply list_elem_of_omap. exists (device_id sys k, device_row sys k x). simpl.
      rewrite String.eqb_refl. split; [|done]. apply list_elem_of_fmap. exists (k, x). split; [done|].
      by apply elem_of_range_list.
  - intros id Hid. rewrite upsert_lookup. destruct (last_row id rows) as [r|] eqn:Hl; [|done].
    destruct (Hrow _ _ Hl) as (k&x&Hk&Hi&_). by destruct (Hid k ltac:(by eexists)).
Qed.
End smart.

(** ** The first poll *)

(** [getJitter], in milliseconds: [rand] is below the width of the range. *)
Definition interval : Z := 5000.
Definition getJitter (rand : Z → Z) : Z :=
  (interval * 51 / 100 + rand (interval * (95 - 51) / 100))%Z.

Lemma getJitter_bounds rand :
  (∀ n, (0 < n → 0 ≤ rand n < n)%Z) → (2550 ≤ getJitter rand < 4750)%Z.
Proof.
  intros Hr. unfold getJitter, interval. specialize (Hr (5000 * (95 - 51) / 100)%Z).
  change (5000 * 51 / 100)%Z with 2550%Z. change (5000 * (95 - 51) / 100)%Z with 2200%Z in *. lia.
Qed.

(** ** Examples *)

Definition ex_conv : FloatConv := {| conv_oob _ _ := 0%Z |}.
Definition ex_db : DB :=
  mkDB [] [] ∅ ∅ ∅ {["sys1" := {| y_status := "pending"; y_info := Info.zero |}]} ∅.
Definition ex_container (id name : string) : ContainerStats.t :=
  ContainerStats.mk name f64_zero f64_zero f64_zero f64_zero (100, 50)%Z 0 "Up" id "img" "" 0 0 (0, 0)%Z 0.
Definition ex_data : CombinedData := {|
  CombinedData.Stats := Stats.zero; CombinedData.Info := Info.zero;
  CombinedData.Containers := [ex_container "c1" "web"; ex_container "c2" "db"];
  CombinedData.SystemdServices := [Service.named "ssh"];
  CombinedData.Details := Some (SystemData.details_of Info.zero f64_zero) |}.
(** A database that keeps what a body leaves when it succeeds. *)
#[local] Instance ex_tx : Transactions := {|
  RunInTransaction body d := match body d with (d', Saved) => (d', Saved) | (_, r) => (d, r) end |}.
#[local] Instance ex_tx_laws : TransactionsLaws.
Proof. split; intros body d; simpl; destruct (body d) as [d' []]; simpl; auto; done. Qed.

Definition ex_poll (fails : statement → bool) : DB * result :=
  create_records (FC := ex_conv) 1000 fails "sys1" ex_data ex_db.

(** A poll that is saved, and one whose last statement fails. *)
Lemma poll_records_atomic_witness :
  ((ex_poll (λ _, false)).2 = Saved ∧
   k_net <$> containers (ex_poll (λ _, false)).1 !! "c2" = Some 150%Z ∧
   length (container_stats (ex_poll (λ _, false)).1) = 1%nat) ∧
  ex_poll (λ s, bool_decide (s = SystemRow)) = (ex_db, Failed SystemRow).
Proof.
  split.
  - destruct (poll_records_atomic (FC := ex_conv) 1000 (λ _, false) "sys1" ex_data ex_db
      (ex_poll (λ _, false)).1 (ex_poll (λ _, false)).2 (surjective_pairing _)) as [H _].
    destruct H as (_&_&_&Hcs&Hc&_); [reflexivity|]. rewrite Hcs, (Hc "c2"). split_and!; vm_compute; reflexivity.
  - destruct (poll_records_atomic (FC := ex_conv) 1000 (λ s, bool_decide (s = SystemRow)) "sys1" ex_data ex_db
      (ex_poll (λ s, bool_decide (s = SystemRow))).1 (ex_poll (λ s, bool_decide (s = SystemRow))).2
      (surjective_pairing _)) as [_ H].
    destruct H as [H _]; [vm_compute; discriminate|].
    rewrite (surjective_pairing (ex_poll _)), H. f_equal.
Defined.

(** A failed update of the details brings the hub down, for the result that it asks for the number
    of rows does not exist. *)
Example details_update_panics :
  (ex_poll (λ s, match s with DetailsUpdate => true | _ => false end)).2 = Panicked.
Proof. reflexivity. Qed.

(** The ids of services have 32 bits: those of two systems can be the same, and the polls of the
    systems then take the row from each other. *)
Example service_ids_collide :
  SystemData.makeStableHashId ["0nk5e9jtazb31zv"; "ssh"] = SystemData.makeStableHashId ["5tdldwpftfp80y4"; "ssh"].
Proof. vm_compute. reflexivity. Qed.
End PollRecords.
