(* ===== verification/Migrations.v ===== *)
(** * The database at its first start ([internal/migrations])

    Two migrations prepare the database of a new hub: a snapshot of its collections (module
    [Schema]) and the first settings and accounts (module [FirstRun]).

    The snapshot is data that PocketBase imports; the theorems compare it with the code that
    reads and writes the collections, whose models are in the other files: the values that a
    field may have with those the code handles, the rules of the collections with those that
    the hub sets at every start, ids with the limits of their fields. *)

From Stdlib Require Import Ascii.
From S2P Require Import Prelude GoFloat GoStrings GoText Entities LongerRecords Retention SystemAlerts SystemData SystemManager HubAccess CollectionRules AdminUsers PollRecords.

Module Schema.

(** ** Fields and collections *)

Inductive field_type :=
  | Text (autogeneratePattern pattern : string) (min max : Z) (primaryKey : bool)
  | Relation (collectionId : string) (cascadeDelete : bool) (minSelect maxSelect : Z)
  | Select (maxSelect : Z) (values : list string)
  | Number (min max : option Z) (onlyInt : bool)
  | Bool
  | Autodate (onCreate onUpdate : bool)
  | Date (min max : string)
  | Json (maxSize : Z)
  | Password (cost : Z) (pattern : string) (min max : Z)
  | Email.

Record field := mkField {
  f_name : string; f_id : string; f_required : bool; f_hidden : bool; f_system : bool;
  f_presentable : bool; f_type : field_type }.

(** [CREATE INDEX name ON table (columns) WHERE condition] *)
Record index := mkIndex {
  i_unique : bool; i_name : string; i_table : string; i_columns : list string; i_where : string }.

Record collection := {
  c_id : string; c_name : string; c_type : string; c_system : bool;
  listRule : option string; viewRule : option string; createRule : option string;
  updateRule : option string; deleteRule : option string; authRule : option string;
  manageRule : option string; fields : list field; indexes : list index }.

(** The rule of records that belong to a user. *)
Definition own : option string :=
  Some (CollectionRules.authenticatedRule ++ " && user = @request.auth.id")%string.

(** ** The snapshot *)

Local Open Scope Z_scope.

Definition alerts_collection : collection := {|
  c_id := "elngm8x1l60zi2v"; c_name := "alerts"; c_type := "base"; c_system := false;
  listRule := own; viewRule := None; createRule := own; updateRule := own; deleteRule := own;
  authRule := None; manageRule := None;
  fields := [
    mkField "id" "text3208210256" true false true false (Text "[a-z0-9]{15}" "^[a-z0-9]+$" 15
      15 true);
    mkField "user" "hn5ly3vi" true false false false (Relation "_pb_users_auth_" true 0 1);
    mkField "system" "g5sl3jdg" true false false false (Relation "2hz5ncl8tizk5nx" true 0 1);
    mkField "name" "zj3ingrv" true false false false (Select 1 ["Status"; "CPU"; "Memory";
      "Disk"; "Temperature"; "Bandwidth"; "GPU"; "LoadAvg1"; "LoadAvg5"; "LoadAvg15";
      "Battery"]);
    mkField "value" "o2ablxvn" false false false false (Number None None false);
    mkField "min" "fstdehcq" false false false false (Number None (Some 60) true);
    mkField "triggered" "6hgdf6hs" false false false false Bool;
    mkField "created" "autodate2990389176" false false false false (Autodate true false);
    mkField "updated" "autodate3332085495" false false false false (Autodate true true)];
  indexes := [mkIndex true "idx_MnhEt21L5r" "alerts" ["user"; "system"; "name"] ""] |}.

Definition alerts_history_collection : collection := {|
  c_id := "pbc_1697146157"; c_name := "alerts_history"; c_type := "base"; c_system := false;
  listRule := own; viewRule := None; createRule := None; updateRule := None; deleteRule := own;
  authRule := None; manageRule := None;
  fields := [
    mkField "id" "text3208210256" true false true false (Text "[a-z0-9]{15}" "^[a-z0-9]+$" 15
      15 true);
    mkField "user" "relation2375276105" true false false false (Relation "_pb_users_auth_"
      true 0 1);
    mkField "system" "relation3377271179" true false false false (Relation "2hz5ncl8tizk5nx"
      true 0 1);
    mkField "alert_id" "text2466471794" false false false false (Text "" "" 0 0 false);
    mkField "name" "text1579384326" true false false false (Text "" "" 0 0 false);
    mkField "value" "number494360628" false false false false (Number None None false);
    mkField "created" "autodate2990389176" false false false false (Autodate true false);
    mkField "resolved" "date2276568630" false false false false (Date "" "")];
  indexes := [mkIndex false "idx_YdGnup5aqB" "alerts_history" ["user"] "";
    mkIndex false "idx_taLet9VdME" "alerts_history" ["created"] ""] |}.

Definition container_stats_collection : collection := {|
  c_id := "juohu4jipgc13v7"; c_name := "container_stats"; c_type := "base"; c_system := false;
  listRule := None; viewRule := None; createRule := None; updateRule := None; deleteRule :=
  None; authRule := None; manageRule := None;
  fields := [
    mkField "id" "text3208210256" true false true false (Text "[a-z0-9]{15}" "^[a-z0-9]+$" 15
      15 true);
    mkField "system" "hutcu6ps" true false false false (Relation "2hz5ncl8tizk5nx" true 0 1);
    mkField "stats" "r39hhnil" true false false false (Json 2000000);
    mkField "type" "vo7iuj96" true false false false (Select 1 ["1m"; "10m"; "20m"; "120m";
      "480m"]);
    mkField "created" "autodate2990389176" false false false false (Autodate true false);
    mkField "updated" "autodate3332085495" false false false false (Autodate true true)];
  indexes := [mkIndex false "idx_d87OiXGZD8" "container_stats" ["system"; "type"; "created"] ""] |}.

Definition fingerprints_collection : collection := {|
  c_id := "pbc_3663931638"; c_name := "fingerprints"; c_type := "base"; c_system := false;
  listRule := None; viewRule := None; createRule := None; updateRule := None; deleteRule :=
  None; authRule := None; manageRule := None;
  fields := [
    mkField "id" "text3208210256" true false true false (Text "[a-z0-9]{9}" "^[a-z0-9]+$" 9 15
      true);
    mkField "system" "relation3377271179" true false false false (Relation "2hz5ncl8tizk5nx"
      true 0 1);
    mkField "token" "text1597481275" true false false false (Text "[a-zA-Z9-9]{20}" "" 9 255
      false);
    mkField "fingerprint" "text4228609354" false false false false (Text "" "" 9 255 false);
    mkField "updated" "autodate3332085495" false false false false (Autodate true true)];
  indexes := [mkIndex false "idx_p9qZlu26po" "fingerprints" ["token"] "";
    mkIndex true "idx_ngboulGMYw" "fingerprints" ["system"] ""] |}.

Definition system_stats_collection : collection := {|
  c_id := "ej9oowivz8b2mht"; c_name := "system_stats"; c_type := "base"; c_system := false;
  listRule := None; viewRule := None; createRule := None; updateRule := None; deleteRule :=
  None; authRule := None; manageRule := None;
  fields := [
    mkField "id" "text3208210256" true false true false (Text "[a-z0-9]{15}" "^[a-z0-9]+$" 15
      15 true);
    mkField "system" "h9sg148r" true false false false (Relation "2hz5ncl8tizk5nx" true 0 1);
    mkField "stats" "azftn0be" true false false false (Json 2000000);
    mkField "type" "m1ekhli3" true false false false (Select 1 ["1m"; "10m"; "20m"; "120m";
      "480m"]);
    mkField "created" "autodate2990389176" false false false false (Autodate true false);
    mkField "updated" "autodate3332085495" false false false false (Autodate true true)];
  indexes := [mkIndex false "idx_GxIee0j" "system_stats" ["system"; "type"; "created"] ""] |}.

Definition user_settings_collection : collection := {|
  c_id := "4afacsdnlu8q8r2"; c_name := "user_settings"; c_type := "base"; c_system := false;
  listRule := own; viewRule := None; createRule := own; updateRule := own; deleteRule := None;
  authRule := None; manageRule := None;
  fields := [
    mkField "id" "text3208210256" true false true false (Text "[a-z0-9]{15}" "^[a-z0-9]+$" 15
      15 true);
    mkField "user" "d5vztyxa" true false false false (Relation "_pb_users_auth_" true 0 1);
    mkField "settings" "xcx4qgqq" false false false false (Json 2000000);
    mkField "created" "autodate2990389176" false false false false (Autodate true false);
    mkField "updated" "autodate3332085495" false false false false (Autodate true true)];
  indexes := [mkIndex true "idx_30Lwgf2" "user_settings" ["user"] ""] |}.

Definition systems_collection : collection := {|
  c_id := "2hz5ncl8tizk5nx"; c_name := "systems"; c_type := "base"; c_system := false;
  listRule := None; viewRule := None; createRule := None; updateRule := None; deleteRule :=
  None; authRule := None; manageRule := None;
  fields := [
    mkField "id" "text3208210256" true false true false (Text "[a-z0-9]{15}" "^[a-z0-9]+$" 15
      15 true);
    mkField "name" "7xloxkwk" true false false false (Text "" "" 0 0 false);
    mkField "status" "waj7seaf" false false false false (Select 1 ["up"; "down"; "paused";
      "pending"]);
    mkField "host" "ve781smf" true false false false (Text "" "" 0 0 false);
    mkField "port" "pij0k2jk" false false false false (Text "" "" 0 0 false);
    mkField "info" "qoq64ntl" false false false false (Json 2000000);
    mkField "users" "jcarjnjj" true false false false (Relation "_pb_users_auth_" true 0
      2147483647);
    mkField "created" "autodate2990389176" false false false false (Autodate true false);
    mkField "updated" "autodate3332085495" false false false false (Autodate true true)];
  indexes := [mkIndex false "idx_systems_status" "systems" ["status"] ""] |}.

Definition users_collection : collection := {|
  c_id := "_pb_users_auth_"; c_name := "users"; c_type := "auth"; c_system := false;
  listRule := (Some "id = @request.auth.id"); viewRule := (Some "id = @request.auth.id");
  createRule := None; updateRule := None; deleteRule := None; authRule := (Some
  "verified=true"); manageRule := None;
  fields := [
    mkField "id" "text3208210256" true false true false (Text "[a-z0-9]{15}" "^[a-z0-9]+$" 15
      15 true);
    mkField "password" "password901924565" true true true false (Password 10 "" 8 0);
    mkField "tokenKey" "text2504183744" true true true false (Text "[a-zA-Z0-9_]{50}" "" 30 60
      false);
    mkField "email" "email3885137012" true false true false Email;
    mkField "emailVisibility" "bool1547992806" false false true false Bool;
    mkField "verified" "bool256245529" false false true false Bool;
    mkField "username" "text4166911607" false false false false (Text "users[0-9]{6}"
      "^[\w][\w\.\-]*$" 3 150 false);
    mkField "role" "qkbp58ae" false false false false (Select 1 ["user"; "admin"; "readonly"]);
    mkField "created" "autodate2990389176" false false false false (Autodate true false);
    mkField "updated" "autodate3332085495" false false false false (Autodate true true)];
  indexes := [mkIndex true "__pb_users_auth__username_idx" "users" ["username COLLATE NOCASE"] "";
    mkIndex true "__pb_users_auth__email_idx" "users" ["email"] "`email` != ''";
    mkIndex true "__pb_users_auth__tokenKey_idx" "users" ["tokenKey"] ""] |}.

Definition containers_collection : collection := {|
  c_id := "pbc_1864144027"; c_name := "containers"; c_type := "base"; c_system := false;
  listRule := None; viewRule := None; createRule := None; updateRule := None; deleteRule :=
  None; authRule := None; manageRule := None;
  fields := [
    mkField "id" "text3208210256" true false true false (Text "[a-f0-9]{6}" "^[a-f0-9]+$" 6 12
      true);
    mkField "system" "relation3377271179" false false false false (Relation "2hz5ncl8tizk5nx"
      false 0 1);
    mkField "name" "text1579384326" false false false false (Text "" "" 0 0 false);
    mkField "status" "text2063623452" false false false false (Text "" "" 0 0 false);
    mkField "health" "number3470402323" false false false false (Number None None false);
    mkField "cpu" "number3128971310" false false false false (Number (Some 0) (Some 100)
      false);
    mkField "memory" "number3933025333" false false false false (Number (Some 0) None false);
    mkField "net" "number4075427327" false false false false (Number None None false);
    mkField "image" "text3309110367" false false false false (Text "" "" 0 0 false);
    mkField "ports" "text2308952269" false false false false (Text "" "" 0 0 false);
    mkField "updated" "number3332085495" true false false false (Number None None true)];
  indexes := [mkIndex false "idx_JxWirjdhyO" "containers" ["updated"] "";
    mkIndex false "idx_r3Ja0rs102" "containers" ["system"] ""] |}.

Definition systemd_services_collection : collection := {|
  c_id := "pbc_3494996990"; c_name := "systemd_services"; c_type := "base"; c_system := false;
  listRule := None; viewRule := None; createRule := None; updateRule := None; deleteRule :=
  None; authRule := None; manageRule := None;
  fields := [
    mkField "id" "text3208210256" true false true false (Text "[a-z0-9]{10}" "^[a-z0-9]+$" 6
      10 true);
    mkField "name" "text1579384326" false false false false (Text "" "" 0 0 false);
    mkField "system" "relation3377271179" false false false false (Relation "2hz5ncl8tizk5nx"
      true 0 1);
    mkField "state" "number2063623452" false false false false (Number None None true);
    mkField "sub" "number1476559580" false false false false (Number None None true);
    mkField "cpu" "number3128971310" false false false false (Number None None false);
    mkField "cpuPeak" "number1052053287" false false false false (Number None None false);
    mkField "memory" "number3933025333" false false false false (Number None None false);
    mkField "memPeak" "number1828797201" false false false false (Number None None false);
    mkField "updated" "number3332085495" false false false false (Number None None false)];
  indexes := [mkIndex false "idx_4Z7LuLNdQb" "systemd_services" ["system"] "";
    mkIndex false "idx_pBp1fF837e" "systemd_services" ["updated"] ""] |}.

Definition quiet_hours_collection : collection := {|
  c_id := "pbc_451525641"; c_name := "quiet_hours"; c_type := "base"; c_system := false;
  listRule := own; viewRule := own; createRule := own; updateRule := own; deleteRule := own;
  authRule := None; manageRule := None;
  fields := [
    mkField "id" "text3208210256" true false true false (Text "[a-z0-9]{10}" "^[a-z0-9]+$" 10
      10 true);
    mkField "user" "relation2375276105" false false false false (Relation "_pb_users_auth_"
      true 0 1);
    mkField "system" "relation3377271179" false false false false (Relation "2hz5ncl8tizk5nx"
      true 0 1);
    mkField "type" "select2844932856" true false false false (Select 1 ["one-time"; "daily"]);
    mkField "start" "date2675529103" true false false false (Date "" "");
    mkField "end" "date16528305" true false false false (Date "" "")];
  indexes := [mkIndex false "idx_q0iKnRP9v8" "quiet_hours" ["user"; "system"] "";
    mkIndex false "idx_6T7ljT7FJd" "quiet_hours" ["type"; "end"] ""] |}.

Definition smart_devices_collection : collection := {|
  c_id := "pbc_2571630677"; c_name := "smart_devices"; c_type := "base"; c_system := false;
  listRule := None; viewRule := None; createRule := None; updateRule := None; deleteRule :=
  None; authRule := None; manageRule := None;
  fields := [
    mkField "id" "text3208210256" true false true false (Text "[a-z0-9]{10}" "^[a-z0-9]+$" 10
      10 true);
    mkField "system" "relation3377271179" true false false false (Relation "2hz5ncl8tizk5nx"
      true 0 1);
    mkField "name" "text1579384326" false false false false (Text "" "" 0 0 false);
    mkField "model" "text3616895705" false false false false (Text "" "" 0 0 false);
    mkField "state" "text2744374011" false false false false (Text "" "" 0 0 false);
    mkField "capacity" "number3051925876" false false false false (Number None None false);
    mkField "temp" "number190023114" false false false false (Number None None false);
    mkField "firmware" "text3589068740" false false false false (Text "" "" 0 0 false);
    mkField "serial" "text3547646428" false false false false (Text "" "" 0 0 false);
    mkField "type" "text2363381545" false false false false (Text "" "" 0 0 false);
    mkField "hours" "number1234567890" false false false false (Number None None true);
    mkField "cycles" "number0987654321" false false false false (Number None None true);
    mkField "attributes" "json832282224" false false false false (Json 0);
    mkField "updated" "autodate3332085495" false false false false (Autodate true true)];
  indexes := [mkIndex false "idx_DZ9yhvgl44" "smart_devices" ["system"] ""] |}.

Definition system_details_collection : collection := {|
  c_id := "pbc_3116237454"; c_name := "system_details"; c_type := "base"; c_system := false;
  listRule := None; viewRule := None; createRule := None; updateRule := None; deleteRule :=
  None; authRule := None; manageRule := None;
  fields := [
    mkField "id" "text3208210256" true false true false (Text "[a-z0-9]{15}" "^[a-z0-9]+$" 15
      15 true);
    mkField "system" "relation3377271179" true false false false (Relation "2hz5ncl8tizk5nx"
      true 0 1);
    mkField "hostname" "text3847340049" false false false false (Text "" "" 0 0 false);
    mkField "os" "number1789936913" false false false false (Number None None false);
    mkField "os_name" "text2818598173" false false false false (Text "" "" 0 0 false);
    mkField "kernel" "text1574083243" false false false false (Text "" "" 0 0 false);
    mkField "cpu" "text3128971310" false false false false (Text "" "" 0 0 false);
    mkField "arch" "text4161937994" false false false false (Text "" "" 0 0 false);
    mkField "cores" "number4245036687" false false false false (Number None None false);
    mkField "threads" "number1871592925" false false false false (Number None None false);
    mkField "memory" "number3933025333" false false false false (Number None None false);
    mkField "podman" "bool2200265312" false false false false Bool;
    mkField "updated" "autodate3332085495" false false false false (Autodate true true)];
  indexes := [] |}.

Definition universal_tokens_collection : collection := {|
  c_id := "pbc_3383022248"; c_name := "universal_tokens"; c_type := "base"; c_system := false;
  listRule := None; viewRule := None; createRule := None; updateRule := None; deleteRule :=
  None; authRule := None; manageRule := None;
  fields := [
    mkField "id" "text3208210256" true false true false (Text "[a-z0-9]{10}" "^[a-z0-9]+$" 10
      10 true);
    mkField "user" "relation2375276105" true false false false (Relation "_pb_users_auth_"
      true 0 1);
    mkField "token" "text1597481275" false false false false (Text "" "" 0 0 false);
    mkField "created" "autodate2990389176" false false false false (Autodate true false)];
  indexes := [mkIndex false "idx_iaD9Y2Lgbl" "universal_tokens" ["token"] "";
    mkIndex true "idx_wdR0A4PbRG" "universal_tokens" ["user"] ""] |}.
Definition snapshot : list collection :=
  [alerts_collection; alerts_history_collection; container_stats_collection;
   fingerprints_collection; system_stats_collection; user_settings_collection;
   systems_collection; users_collection; containers_collection; systemd_services_collection;
   quiet_hours_collection; smart_devices_collection; system_details_collection;
   universal_tokens_collection].

(** ** Reading the snapshot *)

Definition field_of (c : collection) (name : string) : option field :=
  find (λ f, String.eqb (f_name f) name) (fields c).

(** The values of a select field. *)
Definition select_values (c : collection) (name : string) : list string :=
  match f_type <$> field_of c name with Some (Select _ vs) => vs | _ => [] end.

(** The collections with a relation to another: whether the relation cascades. *)
Definition relations_to (target : collection) : list (string * string * bool) :=
  c ← snapshot; f ← fields c;
  match f_type f with
  | Relation id cascade _ _ =>
      if String.eqb id (c_id target) then [(c_name c, f_name f, cascade)] else []
  | _ => []
  end.

(** The columns that are unique together. *)
Definition unique_columns (c : collection) : list (list string) :=
  i_columns <$> List.filter i_unique (indexes c).

Example cascades_ex :
  List.filter (λ r, negb r.2) (relations_to systems_collection) = [("containers", "system", false)] ∧
  forallb snd (relations_to users_collection) = true ∧
  (relations_to users_collection).*1 =
    [("alerts", "user"); ("alerts_history", "user"); ("user_settings", "user");
     ("systems", "users"); ("quiet_hours", "user"); ("universal_tokens", "user")].
Proof. by vm_compute. Qed.

(** What the code takes for unique: one alert of a name for a user and a system, one fingerprint
    for a system, one record of settings and one token for a user. *)
Example unique_ex :
  (unique_columns <$> [alerts_collection; fingerprints_collection; user_settings_collection;
     universal_tokens_collection]) =
  [[["user"; "system"; "name"]]; [["system"]]; [["user"]]; [["user"]]].
Proof. by vm_compute. Qed.

(** ** Values *)

(** The alert names that the hub evaluates on a system's data; [Status] is evaluated on its
    changes of status. *)
Definition metric_alerts : list string :=
  List.filter (λ n, negb (String.eqb n "Status")) (select_values alerts_collection "name").

Lemma add_sample_count {RO : RangeOrder string} (s : SystemAlerts.SystemAlertStats.t) (a : SystemAlerts.SystemAlertData) :
  SystemAlerts.SystemAlertStats.GPU s ≠ ∅ →
  SystemAlerts.count (SystemAlerts.add_sample s a) =
    (if bool_decide (SystemAlerts.name a ∈ metric_alerts) then (SystemAlerts.count a +u8 1)%go else SystemAlerts.count a).
Proof.
  intros Hg. change metric_alerts with ["CPU"; "Memory"; "Disk"; "Temperature"; "Bandwidth"; "GPU";
    "LoadAvg1"; "LoadAvg5"; "LoadAvg15"; "Battery"].
  unfold SystemAlerts.add_sample, SystemAlerts.metric.
  rewrite (bool_decide_eq_false_2 (SystemAlerts.SystemAlertStats.GPU s = ∅)) by done.
  repeat match goal with
  | |- context [String.eqb (SystemAlerts.name a) ?x] =>
      destruct (String.eqb_spec (SystemAlerts.name a) x) as [E|]; [rewrite E; by vm_compute bool_decide|]
  end.
  rewrite bool_decide_eq_false_2; [done|]. rewrite !not_elem_of_cons. split_and!; try done.
  apply not_elem_of_nil.
Qed.

Definition stats_types : list string := ["1m"; "10m"; "20m"; "120m"; "480m"].

Lemma stats_types_spec c :
  c ∈ [system_stats_collection; container_stats_collection] → select_values c "type" = stats_types.
Proof. rewrite !elem_of_cons, elem_of_nil. by intros [->|[->|[]]]. Qed.

Lemma retention_types : Retention.recordType <$> Retention.recordData = stats_types.
Proof. done. Qed.

(** C35: the values that the schema allows are those that the code handles: every type of
    statistics has one retention and the types that are condensed are allowed; an alert is
    sampled exactly when its name is an allowed one other than Status; the states of a system
    are the four of the manager. *)
Theorem schema_agrees {RO : RangeOrder string} :
  (∀ c, c ∈ [system_stats_collection; container_stats_collection] → ∀ t,
     t ∈ select_values c "type" ↔
     ∃ rd, rd ∈ Retention.recordData ∧ Retention.recordType rd = t ∧
       ∀ rd', rd' ∈ Retention.recordData → Retention.recordType rd' = t → rd' = rd) ∧
  (∀ c rd, c ∈ [system_stats_collection; container_stats_collection] →
     rd ∈ LongerRecords.longerRecordData →
     LongerRecords.shorterType rd ∈ select_values c "type" ∧
     LongerRecords.longerType rd ∈ select_values c "type") ∧
  (∀ (s : SystemAlerts.SystemAlertStats.t) (a : SystemAlerts.SystemAlertData), SystemAlerts.SystemAlertStats.GPU s ≠ ∅ →
     SystemAlerts.count (SystemAlerts.add_sample s a) =
       (if bool_decide (SystemAlerts.name a ∈ select_values alerts_collection "name" ∧ SystemAlerts.name a ≠ "Status")
        then (SystemAlerts.count a +u8 1)%go else SystemAlerts.count a)) ∧
  select_values systems_collection "status" =
    [SystemManager.up; SystemManager.down; SystemManager.paused; SystemManager.pending].
Proof.
  split_and!; [| | |done].
  - intros c Hc t. rewrite (stats_types_spec c Hc), <- retention_types, list_elem_of_fmap.
    split; [|naive_solver]. intros (rd&->&Hrd). exists rd. split_and!; [done..|].
    intros rd' Hrd' E. revert Hrd Hrd' E. unfold Retention.recordData.
    rewrite !elem_of_cons, !elem_of_nil. intros Hrd Hrd' E. destruct_or?; by simplify_eq.
  - intros c rd Hc Hrd. rewrite (stats_types_spec c Hc). revert Hrd.
    unfold LongerRecords.longerRecordData. rewrite !elem_of_cons, elem_of_nil.
    intros Hrd. destruct_or?; simplify_eq; simpl; unfold stats_types; rewrite !elem_of_cons; tauto.
  - intros s a Hg. rewrite (add_sample_count s a Hg). unfold metric_alerts.
    erewrite bool_decide_ext; [done|]. rewrite list_elem_of_In, filter_In, <- list_elem_of_In.
    by rewrite negb_true_iff, String.eqb_neq.
Qed.

(** No record of statistics that fits the schema outlives thirty days. *)
Theorem stats_age_bounded {DB Blob : Type} `{RetentionDBLaws DB Blob} now (db db' : DB) c r :
  (∀ c r, r ∈ r_stats db c → row_type r ∈ stats_types) →
  Retention.deleteOldSystemStats now db = (db', true) → r ∈ r_stats db' c →
  now - 30 * 24 * Hour <= row_created r.
Proof.
  intros Hty Hdel Hr. apply (Retention.deleteOldSystemStats_exact now db db' c r Hdel) in Hr as [Hin Hr].
  apply Hty in Hin. rewrite <- retention_types, list_elem_of_fmap in Hin.
  destruct Hin as (rd&Ht&Hrd). specialize (Hr rd Hrd Ht).
  assert (Retention.retention rd <= 30 * 24 * Hour); [|lia]. revert Hrd.
  unfold Retention.recordData. rewrite !elem_of_cons, elem_of_nil.
  intros Hrd. destruct_or?; simplify_eq; by vm_compute.
Qed.

(** ** Ids *)

Lemma hex_aux_length fuel n acc :
  (String.length (SystemData.hex_aux fuel n acc) ≤ fuel + String.length acc)%nat.
Proof.
  revert n acc. induction fuel as [|fuel IH]; intros n acc; simpl; [lia|].
  case_match; simpl; [lia|]. etrans; [apply IH|]. simpl. lia.
Qed.

(** The ids of services and devices are shorter than the schema asks of those of devices (ten
    characters); they are saved without validation. *)
Lemma device_ids_short l : (String.length (SystemData.makeStableHashId l) ≤ 8)%nat.
Proof.
  etrans; [apply (hex_aux_length 8)|]. done.
Qed.

Example device_id_field :
  f_type <$> field_of smart_devices_collection "id" =
    Some (Text "[a-z0-9]{10}" "^[a-z0-9]+$" 10 10 true).
Proof. done. Qed.

(** ** Rules *)

(** A request to a record of any collection: besides what [CollectionRules] looks at, whether
    the record belongs to the account ([user]) or is the account, and whether it comes from a
    sign-in by OAuth2. *)
Record request := {
  q_base : CollectionRules.rule_request; q_owner : bool; q_self : bool; q_oauth2 : bool }.

Inductive rule_condition :=
  | Base (a : CollectionRules.condition) | Owner | Self | OAuth2.
Definition rule_text (a : rule_condition) : string :=
  match a with
  | Base a => CollectionRules.condition_text a
  | Owner => "user = @request.auth.id"
  | Self => "id = @request.auth.id"
  | OAuth2 => "@request.context = 'oauth2'"
  end.
Definition rule_holds (q : request) (a : rule_condition) : Prop :=
  match a with
  | Base a => CollectionRules.holds (q_base q) a
  | Owner => q_owner q = true
  | Self => q_self q = true
  | OAuth2 => q_oauth2 q = true
  end.

(** Rules that join conditions are read as conjunctions. *)
Definition reads_rules (allows : string → request → Prop) : Prop :=
  ∀ (l : list rule_condition) q, l ≠ [] →
    allows (GoText.Join (rule_text <$> l) " && ") q ↔ Forall (rule_holds q) l.

(** The database after the import: PocketBase has given each collection its rules. *)
Definition rules_of (c : collection) : CollectionRules.collectionRules := {|
  CollectionRules.list := listRule c; CollectionRules.view := viewRule c;
  CollectionRules.create := createRule c; CollectionRules.update := updateRule c;
  CollectionRules.delete := deleteRule c |}.
Definition imported (d : gmap string CollectionRules.Collection) : Prop :=
  ∀ c, c ∈ snapshot → ∃ c', d !! c_name c = Some c' ∧ CollectionRules.has_rules c' (rules_of c).

(** Who may do what. *)
Definition permitted (env : gmap string string) (name : string) (op : CollectionRules.operation)
    (q : request) : Prop :=
  if bool_decide (name ∈ CollectionRules.guarded_collections) then
    is_Some (CollectionRules.q_auth (q_base q)) ∧
    (HubAccess.getEnv env "SHARE_ALL_SYSTEMS" ≠ "true" → CollectionRules.q_member (q_base q) = true) ∧
    (CollectionRules.writes op = true →
       from_option HubAccess.auth_role "" (CollectionRules.q_auth (q_base q)) ≠ "readonly")
  else if String.eqb name "users" then
    (CollectionRules.writes op = false ∧ q_self q = true) ∨
    (op = CollectionRules.Create ∧ HubAccess.getEnv env "USER_CREATION" = "true" ∧ q_oauth2 q = true)
  else is_Some (CollectionRules.q_auth (q_base q)) ∧ q_owner q = true.

(** The collections of users' own records have no other rule than [own]. *)
Lemma own_rules c c' op r :
  c ∈ snapshot → c_name c ∉ CollectionRules.guarded_collections → c_name c ≠ "users" →
  CollectionRules.has_rules c' (rules_of c) → CollectionRules.rule_of op c' = Some r →
  r = GoText.Join (rule_text <$> [Base CollectionRules.Authenticated; Owner]) " && ".
Proof.
  intros Hc Hg Hu (H1&H2&H3&H4&H5) Hr.
  assert (∀ x, x ∈ [listRule c; viewRule c; createRule c; updateRule c; deleteRule c] →
    x = own ∨ x = None) as Hx.
  { unfold snapshot in Hc. rewrite !elem_of_cons, elem_of_nil in Hc.
    destruct_or? Hc; subst c;
      first [by exfalso; apply Hg, (bool_decide_unpack _); vm_compute
            |by exfalso
            |intros x Hx; rewrite !elem_of_cons, elem_of_nil in Hx; destruct_or? Hx; subst x; tauto]. }
  assert (Some r ∈ [listRule c; viewRule c; createRule c; updateRule c; deleteRule c]) as Hin.
  { rewrite <- Hr. rewrite !elem_of_cons.
    destruct op; simpl; rewrite ?H1, ?H2, ?H3, ?H4, ?H5; simpl; tauto. }
  destruct (Hx _ Hin) as [[= ->]|]; [by vm_compute|done].
Qed.

Lemma own_allows allows q r :
  reads_rules allows →
  r = GoText.Join (rule_text <$> [Base CollectionRules.Authenticated; Owner]) " && " →
  allows r q → is_Some (CollectionRules.q_auth (q_base q)) ∧ q_owner q = true.
Proof.
  intros Hal -> Ha. apply Hal in Ha; [|done]. apply Forall_cons_1 in Ha as [H1 H2%Forall_inv].
  by split.
Qed.

(** The rules of [users]: the account itself, and new ones by OAuth2. *)
Lemma users_rules allows env u u' op r q :
  reads_rules allows → CollectionRules.has_rules u (rules_of users_collection) →
  CollectionRules.has_rules u' {| CollectionRules.list := CollectionRules.ListRule u;
    CollectionRules.view := CollectionRules.ViewRule u;
    CollectionRules.create := if String.eqb (HubAccess.getEnv env "USER_CREATION") "true"
                              then Some "@request.context = 'oauth2'" else None;
    CollectionRules.update := CollectionRules.UpdateRule u;
    CollectionRules.delete := CollectionRules.DeleteRule u |} →
  CollectionRules.rule_of op u' = Some r → allows r q →
  (CollectionRules.writes op = false ∧ q_self q = true) ∨
  (op = CollectionRules.Create ∧ HubAccess.getEnv env "USER_CREATION" = "true" ∧ q_oauth2 q = true).
Proof.
  intros Hal (H1&H2&H3&H4&H5) (E1&E2&E3&E4&E5) Hr Ha. simpl in *.
  assert (∀ a, r = rule_text a → rule_holds q a) as Hone.
  { intros a ->. apply (Hal [a] q) in Ha; [|done]. by apply Forall_inv in Ha. }
  destruct op; simpl in Hr; [left|left|right|exfalso|exfalso]; rewrite ?E1, ?E2, ?E3, ?E4, ?E5 in Hr.
  - rewrite H1 in Hr. injection Hr as <-. split; [done|]. by apply (Hone Self).
  - rewrite H2 in Hr. injection Hr as <-. split; [done|]. by apply (Hone Self).
  - destruct (String.eqb_spec (HubAccess.getEnv env "USER_CREATION") "true"); [|done].
    injection Hr as <-. split_and!; [done|done|]. by apply (Hone OAuth2).
  - by rewrite H4 in Hr.
  - by rewrite H5 in Hr.
Qed.

(** The rules that [CollectionRules] reads are rules here. *)
Lemma reads_base allows ow se oa :
  reads_rules allows →
  CollectionRules.reads_conjunctions (λ r b, allows r (Build_request b ow se oa)).
Proof.
  intros Hal l b Hl. specialize (Hal (Base <$> l) (Build_request b ow se oa)).
  rewrite <- list_fmap_compose, Forall_fmap in Hal. apply Hal. by destruct l.
Qed.

(** C34: on a hub whose collections were made by the migration, after a successful start every
    rule of every collection is passed only by those who may: users of the system (or any, when
    all systems are shared) and for writes not read-only ones for systems and their data,
    the owner for alerts, their history, settings, quiet hours and tokens, the account itself
    for users, and a sign-in by OAuth2 for new users if that is enabled. *)
Theorem hub_rules_protect saved allows env d d' c :
  reads_rules allows → imported d →
  CollectionRules.setCollectionAuthSettings saved env d = (d', true) → c ∈ snapshot →
  ∃ c', d' !! c_name c = Some c' ∧
    ∀ op r q, CollectionRules.rule_of op c' = Some r → allows r q → permitted env (c_name c) op q.
Proof.
  intros Hal Himp Hset Hc. unfold permitted. case_bool_decide as Hg.
  { destruct (CollectionRules.guarded_rules saved (λ r b, allows r (Build_request b false false false))
      env d d' (c_name c) (reads_base _ _ _ _ Hal) Hset Hg) as (c'&Hc'&_).
    exists c'. split; [done|]. intros op r [b ow se oa] Hr Ha.
    destruct (CollectionRules.guarded_rules saved _ env d d' (c_name c)
      (reads_base allows ow se oa Hal) Hset Hg) as (c''&Hc''&H). simplify_eq. by eapply H. }
  destruct (CollectionRules.settings_spec saved env d d' Hset) as (_&Hout&u&u'&Hu&Hu'&Hru).
  destruct (Himp c Hc) as (c0&Hc0&Hr0). destruct (String.eqb_spec (c_name c) "users") as [E|E].
  - rewrite E in Hc0 |- *. simplify_eq. exists u'. split; [done|]. intros op r q Hr Ha.
    assert (c = users_collection) as ->.
    { revert Hc E. unfold snapshot. rewrite !elem_of_cons, elem_of_nil. intros Hc E.
      by destruct_or? Hc; subst c. }
    apply (users_rules allows env u u' op r q); done.
  - exists c0. split.
    + rewrite Hout; [done..|]. intros Esu. revert Hc Esu. unfold snapshot.
      rewrite !elem_of_cons, elem_of_nil. intros Hc. by destruct_or? Hc; subst c.
    + intros op r q Hr Ha. eapply own_allows; [done| |exact Ha]. by eapply own_rules.
Qed.

(** *** A concrete hub *)

Lemma rule_text_inj a a' r r' :
  (rule_text a ++ r)%string = (rule_text a' ++ r')%string → a = a' ∧ r = r'.
Proof.
  intros E. assert (a = a') as <-.
  { destruct a as [[]| | |], a' as [[]| | |]; try done; unfold rule_text,
      CollectionRules.condition_text, CollectionRules.authenticatedRule, CollectionRules.notReadonly in E;
      rewrite ?string_app_assoc, !string_app_cons in E; discriminate E. }
  split; [done|]. by apply string_app_inv_l in E.
Qed.

(** Rules are read as the conditions whose texts they join. *)
Definition allows_joined (r : string) (q : request) : Prop :=
  ∃ l, l ≠ [] ∧ GoText.Join (rule_text <$> l) " && " = r ∧ Forall (rule_holds q) l.

Lemma allows_joined_reads : reads_rules allows_joined.
Proof.
  intros l q Hl. unfold allows_joined. split.
  - intros (l'&Hl'&E&H). by apply (CollectionRules.Join_inj _ _ _ rule_text_inj) in E as ->.
  - intros H. by exists l.
Qed.

Definition plain (c : collection) : CollectionRules.Collection :=
  CollectionRules.with_rules CollectionRules.blank (rules_of c).
Definition fresh_db : gmap string CollectionRules.Collection :=
  <["_superusers" := CollectionRules.blank]> (list_to_map ((λ c, (c_name c, plain c)) <$> snapshot)).
Definition started_db : gmap string CollectionRules.Collection :=
  (CollectionRules.setCollectionAuthSettings (λ _, true) ∅ fresh_db).1.

Lemma fresh_db_imported : imported fresh_db.
Proof.
  intros c Hc. exists (plain c). split; [|done]. unfold fresh_db.
  rewrite lookup_insert_ne.
  - apply elem_of_list_to_map_1; [|by apply (list_elem_of_fmap_2 (λ c, (c_name c, plain c)))].
    rewrite <- list_fmap_compose. by apply (bool_decide_unpack _).
  - revert Hc. unfold snapshot. rewrite !elem_of_cons, elem_of_nil. intros Hc.
    by destruct_or? Hc; subst c.
Qed.

Lemma started_db_ok :
  CollectionRules.setCollectionAuthSettings (λ _, true) ∅ fresh_db = (started_db, true).
Proof.
  unfold started_db.
  rewrite (surjective_pairing (CollectionRules.setCollectionAuthSettings _ _ _)) at 1. by f_equal.
Qed.

Lemma hub_rules_protect_witness :
  ∃ c', started_db !! "alerts" = Some c' ∧
    ∀ op r q, CollectionRules.rule_of op c' = Some r → allows_joined r q →
      permitted ∅ "alerts" op q.
Proof.
  apply (hub_rules_protect (λ _, true) allows_joined ∅ fresh_db started_db alerts_collection
    allows_joined_reads fresh_db_imported started_db_ok).
  apply elem_of_cons. by left.
Defined.

(** The rule of alerts asks for the owner and not for a user of the alert's system: an account
    may create alerts on systems that it cannot see. *)
Example alert_on_foreign_system q :
  is_Some (CollectionRules.q_auth (q_base q)) → q_owner q = true →
  CollectionRules.q_member (q_base q) = false →
  ∃ r, CollectionRules.CreateRule <$> started_db !! "alerts" = Some (Some r) ∧ allows_joined r q.
Proof.
  intros Ha Ho _. eexists. split; [by vm_compute|].
  exists [Base CollectionRules.Authenticated; Owner]. split_and!; [done|by vm_compute|].
  by repeat constructor.
Qed.
End Schema.

(** ** The first settings and accounts ([initial-settings.go]) *)

Module FirstRun.
Import AdminUsers.

(** What the migration sets of the settings. *)
Record Settings := { AppName : string; HideControls : bool; MinLevel : Z }.
Definition initial : Settings := {|
  AppName := "Bantay"; HideControls := true; MinLevel := 4 |}.

Section migration.
Context {DB : Type} {UDB : UsersDB DB} {UDBL : UsersDBLaws DB} {RO : RangeOrder string}.
Context (ParseAddress : string → bool).

(** The migration: [saved] is whether the settings were saved, [random] the random password.
    An error undoes it, since PocketBase runs a migration in a transaction; the accounts are
    saved with the hooks of the hub, which are bound before it starts. *)
Definition migrate (saved : bool) (env : gmap string string) (random : string) (d : DB) : option DB :=
  if negb saved then None
  else
    let email := HubAccess.getEnv env "USER_EMAIL" in
    let password := HubAccess.getEnv env "USER_PASSWORD" in
    let didProvideUserDetails := negb (String.eqb email "") && negb (String.eqb password "") in
    let superEmail := if String.eqb email "" then TempAdminEmail else email in
    let superPassword := if String.eqb password "" then random else password in
    let withUser :=
      if didProvideUserDetails then
        match create_record d (mkUser "" email "" "" true password "") with
        | inl (d, _) => Some d
        | inr _ => None
        end
      else Some d in
    d ← withUser;
    match insertSuperuser d superEmail superPassword with
    | inl d => Some d
    | inr _ => None
    end.

(** A hub that has just been installed has no accounts. *)
Definition empty_db (d : DB) : Prop := users d = ∅ ∧ superusers d = ∅.

(** The accounts of a new hub. *)
Lemma migrate_accounts saved env random d d' :
  empty_db d → migrate saved env random d = Some d' →
  let email := HubAccess.getEnv env "USER_EMAIL" in
  let password := HubAccess.getEnv env "USER_PASSWORD" in
  (∃ id, superusers d' = {[id := if String.eqb email "" then TempAdminEmail else email]}) ∧
  (if negb (String.eqb email "") && negb (String.eqb password "")
   then ∃ u, users d' = {[u_id u := u]} ∧ u_email u = email ∧ u_role u = "user" ∧ u_verified u = true
   else users d' = ∅).
Proof using UDBL.
  intros [Hu Hs]. unfold migrate. destruct saved; simpl; [|done].
  set (email := HubAccess.getEnv env "USER_EMAIL"). set (pw := HubAccess.getEnv env "USER_PASSWORD").
  intros Hm. apply bind_Some in Hm as (d1&H1&H2).
  destruct (insertSuperuser d1 _ _) as [d2|] eqn:Hi; [|done]. injection H2 as ->.
  apply insertSuperuser_spec in Hi as (Eu&id&_&Es).
  destruct (negb (String.eqb email "") && negb (String.eqb pw "")).
  - unfold create_record in H1. destruct (insertRow d _) as [[d2 u]|] eqn:Hr; [|done].
    injection H1 as ->. apply insertRow_spec in Hr as (_&(E1&_&E2&E3&_)&Eu1&Es1). split.
    + exists id. by rewrite Es, Es1, Hs.
    + exists u. rewrite Eu, Eu1, Hu. by split_and!.
  - injection H1 as ->. split; [|by rewrite Eu, Hu]. exists id. by rewrite Es, Hs.
Qed.

(** Without an address the hub waits for its first user: the form is open. *)
Lemma first_user_open saved env random d d' body :
  empty_db d → migrate saved env random d = Some d' → HubAccess.getEnv env "USER_EMAIL" = "" →
  is_Some (countUsers d') → is_Some (superuserRows d') →
  (CreateFirstUser body d').2 ≠ Forbidden "Forbidden".
Proof using UDBL.
  intros He Hm Hem [n Hn] [l Hl]. destruct (migrate_accounts _ _ _ _ _ He Hm) as [[id Hs] Hu].
  rewrite Hem in Hs, Hu. simpl in Hs, Hu. unfold CreateFirstUser. rewrite Hn, Hl.
  apply countUsers_spec in Hn. rewrite Hu, map_size_empty in Hn. subst n. simpl.
  apply superuserRows_spec in Hl. rewrite Hs, map_to_list_singleton in Hl.
  apply Permutation_singleton_r in Hl as ->. rewrite String.eqb_refl. simpl.
  destruct body as [[em pw]|]; [|done]. by repeat case_match.
Qed.

(** With an address and no password nobody gets in: there is no user, the form is closed, and
    the superuser has a random password. *)
Lemma address_alone_locks_out saved env random d d' body :
  empty_db d → migrate saved env random d = Some d' →
  HubAccess.getEnv env "USER_EMAIL" ∉ [""; TempAdminEmail] →
  HubAccess.getEnv env "USER_PASSWORD" = "" →
  users d' = ∅ ∧ success (CreateFirstUser body d').2 = false.
Proof using UDBL.
  intros He Hm Hem Hpw. apply not_elem_of_cons in Hem as [Hne Htmp%not_elem_of_cons].
  destruct (migrate_accounts _ _ _ _ _ He Hm) as [[id Hs] Hu].
  rewrite (proj2 (String.eqb_neq _ _) Hne) in Hs, Hu. rewrite Hpw in Hu. simpl in Hu.
  split; [done|]. destruct (success _) eqn:E; [|done].
  destruct (CreateFirstUser_spec body d' _ _ (surjective_pairing _) E) as (_&[tmp Ht]&_).
  rewrite Hs in Ht. apply (f_equal (λ m, m !! id)) in Ht.
  rewrite lookup_singleton_eq in Ht. symmetry in Ht. apply lookup_singleton_Some in Ht.
  by destruct Ht, Htmp.
Qed.

(** A hub that is set up with [USER_EMAIL] and [USER_PASSWORD] has one user and no
    administrator, and nothing that the handlers of accounts do gives it one: the form for the
    first user is closed, and the other requests need an administrator. *)
Theorem provisioned_hub_has_no_admin saved env random d d' :
  empty_db d → migrate saved env random d = Some d' →
  HubAccess.getEnv env "USER_EMAIL" ≠ "" → HubAccess.getEnv env "USER_PASSWORD" ≠ "" →
  (∃ u, users d' = {[u_id u := u]} ∧ u_email u = HubAccess.getEnv env "USER_EMAIL") ∧
  (∀ body, success (CreateFirstUser body d').2 = false) ∧
  (∀ d1, rtc (admin_step ParseAddress) d' d1 → d1 = d' ∧ ∀ id, ¬ is_admin d1 id).
Proof using UDBL.
  intros He Hm Hem Hpw. destruct (migrate_accounts _ _ _ _ _ He Hm) as [_ Hu].
  rewrite (proj2 (String.eqb_neq _ _) Hem), (proj2 (String.eqb_neq _ _) Hpw) in Hu. simpl in Hu.
  destruct Hu as (u&Hu&Ee&Er&_). assert (∀ id, ¬ is_admin d' id) as Hno.
  { intros id (v&Hv&Hr). rewrite Hu in Hv. apply lookup_singleton_Some in Hv as [_ <-].
    by rewrite Er in Hr. }
  split_and!.
  - by exists u.
  - intros body. destruct (success _) eqn:Hs; [|done].
    destruct (CreateFirstUser_spec body d' _ _ (surjective_pairing _) Hs) as (Hempty&_).
    rewrite Hu in Hempty. by apply map_non_empty_singleton in Hempty.
  - intros d1 Hst. inversion Hst as [|? ? ? Hstep _]; subst; [done|].
    destruct Hstep as [d0 actor q Ha]. by destruct (Hno actor).
Qed.
End migration.

(** *** A concrete hub *)

#[local] Existing Instance mem_users.
#[local] Existing Instance mem_users_laws.

Definition new_hub : mem := {| m_users := ∅; m_super := ∅; m_fails := false |}.
Definition provisioning : gmap string string :=
  {["USER_EMAIL" := "a@b.c"; "USER_PASSWORD" := "secret12"]}.
Definition provisioned : mem := default new_hub (migrate true provisioning "r4nd0m" new_hub).

Lemma provisioned_hub_has_no_admin_witness :
  ∃ u, users provisioned = {[u_id u := u]} ∧ u_email u = "a@b.c".
Proof.
  destruct (provisioned_hub_has_no_admin accepts true provisioning "r4nd0m" new_hub provisioned)
    as [H _].
  - split; [by vm_compute|done].
  - unfold provisioned. destruct (migrate true provisioning "r4nd0m" new_hub) eqn:E; [done|].
    by vm_compute in E.
  - by vm_compute.
  - by vm_compute.
  - exact H.
Defined.

Example provisioned_ex :
  roles provisioned = {["0" := "user"]} ∧ (map_to_list (m_super provisioned)).*2 = ["a@b.c"] ∧
  (CreateFirstUser (Some ("d@e.f", "secret12")) provisioned).2 = Forbidden "Forbidden".
Proof. by vm_compute. Qed.

(** Without the variables the first user is created in the dashboard. *)
Example first_user_ex :
  let d := default new_hub (migrate true ∅ "r4nd0m" new_hub) in
  (map_to_list (m_super d)).*2 = [TempAdminEmail] ∧
  (CreateFirstUser (Some ("d@e.f", "secret12")) d).2 = Status "msg" "User created" ∧
  roles (CreateFirstUser (Some ("d@e.f", "secret12")) d).1 = {["0" := "admin"]}.
Proof. by vm_compute. Qed.
End FirstRun.
