(* ===== verification/SmartHealth.v ===== *)
(** * Health of eMMC and RAID devices ([agent/emmc_common.go], [agent/emmc_linux.go],
      [agent/mdraid_linux.go])

    Linux shows the wear of eMMC devices and the state of software RAID arrays in
    files under [/sys]; the agent reads them and stores them like SMART data. *)

From S2P Require Import Prelude GoStrings GoText GoFmt SmartDevices.

Module SmartHealth.
Import DeviceInfo SmartDevices.
Local Open Scope string_scope.
Local Open Scope Z_scope.

(** The file system: contents, existence and directories ([None] is an error). *)
Record sysfs := {
  ReadFile : string → option string;
  Exists : string → bool;
  ReadDir : string → option (list string);
}.

Section health.
Context (fs : sysfs).

(** [utils.ReadStringFileOK], [utils.ReadStringFile] and [utils.ReadUintFile] *)
Definition ReadStringFileOK (path : string) : option string := TrimSpace <$> ReadFile fs path.
Definition ReadStringFile (path : string) : string := default "" (ReadStringFileOK path).
Definition ReadUintFile (path : string) : option Z := s ← ReadStringFileOK path; ParseUint 64 s.

Definition all_digits (s : string) : bool :=
  forallb (λ a, match digit_val a with Some _ => true | None => false end) (list_ascii_of_string s).

(** A prefix and a number. *)
Definition numbered (prefix name : string) : bool :=
  match CutPrefix name prefix with
  | Some suffix => negb (String.eqb suffix "") && all_digits suffix
  | None => false
  end.

(** The capacity of a block device whose directory is given. *)
Definition block_capacity (dir : string) : option Z :=
  sizeStr ← ReadStringFileOK (JoinPath [dir; "size"]);
  sectors ← ParseUint 64 sizeStr;
  if sectors =? 0 then None
  else
    let logicalBlockSize :=
      match ReadStringFileOK (JoinPath [dir; "queue"; "logical_block_size"]) with
      | Some s => match ParseUint 64 s with
                  | Some p => if 0 <? p then p else 512
                  | None => 512
                  end
      | None => 512
      end in
    Some (u64 (sectors * logicalBlockSize)).

(** The data of a key, created when it is missing. *)
Definition entry (sm : SmartManager) (key : string) : SmartData.t :=
  default SmartData.zero (SmartDataMap sm !! key).

(** ** RAID arrays *)

Record mdraidHealth := {
  level : string; arrayState : string; degraded : Z; raidDisks : Z; syncAction : string;
  syncCompleted : string; syncSpeed : string; mismatchCnt : Z; md_capacity : Z;
}.

Definition isMdraidBlockName (name : string) : bool := numbered "md" name.

Definition mdDir (name : string) : string := JoinPath ["/sys"; "block"; name; "md"].

Definition scanMdraidDevices : list DeviceInfo.t :=
  match ReadDir fs "/sys/block" with
  | None => []
  | Some entries =>
      map (λ name, let devPath := JoinPath ["/dev"; name] in
             mk devPath "mdraid" (devPath ++ " [mdraid]") "MD" false "")
        (List.filter (λ name, isMdraidBlockName name && Exists fs (JoinPath [mdDir name; "array_state"]))
           entries)
  end.

Definition readMdraidBlockCapacityBytes (blockName : string) : option Z :=
  block_capacity (JoinPath ["/sys"; "block"; blockName]).

Definition readMdraidHealth (blockName : string) : option mdraidHealth :=
  if negb (isMdraidBlockName blockName) then None
  else
    let f name := JoinPath [mdDir blockName; name] in
    arrayState ← ReadStringFileOK (f "array_state");
    Some {| level := ReadStringFile (f "level"); arrayState := arrayState;
            degraded := default 0 (ReadUintFile (f "degraded"));
            raidDisks := default 0 (ReadUintFile (f "raid_disks"));
            syncAction := ReadStringFile (f "sync_action");
            syncCompleted := ReadStringFile (f "sync_completed");
            syncSpeed := ReadStringFile (f "sync_speed");
            mismatchCnt := default 0 (ReadUintFile (f "mismatch_cnt"));
            md_capacity := default 0 (readMdraidBlockCapacityBytes blockName) |}.

Definition one_of (l : list string) (s : string) : bool := existsb (String.eqb s) l.

Definition mdraidSmartStatus (h : mdraidHealth) : string :=
  let state := ToLower (TrimSpace (arrayState h)) in
  let sync := ToLower (TrimSpace (syncAction h)) in
  if one_of ["inactive"; "faulty"; "broken"; "stopped"] state then "FAILED"
  else if one_of ["resync"; "recover"; "reshape"] sync then "WARNING"
  else if 0 <? degraded h then "FAILED"
  else if one_of ["check"; "repair"] sync then "WARNING"
  else if one_of ["clean"; "active"; "active-idle"; "write-pending"; "read-auto"; "readonly"] state
  then "PASSED"
  else "UNKNOWN".

Definition text_attr (name s : string) : list SmartAttribute.t :=
  if String.eqb s "" then [] else [SmartAttribute.text name 0 s].
Definition count_attr (name : string) (v : Z) : list SmartAttribute.t :=
  if 0 <? v then [SmartAttribute.raw name v] else [].

Definition mdraid_attributes (h : mdraidHealth) : list SmartAttribute.t :=
  text_attr "ArrayState" (arrayState h) ++ text_attr "RaidLevel" (level h) ++
  count_attr "RaidDisks" (raidDisks h) ++ count_attr "Degraded" (degraded h) ++
  text_attr "SyncAction" (syncAction h) ++ text_attr "SyncCompleted" (syncCompleted h) ++
  text_attr "SyncSpeed" (syncSpeed h) ++ count_attr "MismatchCount" (mismatchCnt h).

(** [collectMdraidHealth]; [None] when the device is not an array. *)
Definition collectMdraidHealth (sm : SmartManager) (d : DeviceInfo.t)
    : option (SmartManager * DeviceInfo.t) :=
  let base := Base (Name d) in
  if String.eqb (Name d) "" || (negb (isMdraidBlockName base) && negb (EqualFold (Type_ d) "mdraid"))
  then None
  else
    h ← readMdraidHealth base;
    let key := "mdraid:" ++ base in
    let old := entry sm key in
    let data := SmartData.mk
      (if String.eqb (level h) "" then "Linux MD RAID" else "Linux MD RAID (" ++ level h ++ ")")
      (SmartData.SerialNumber old) (SmartData.FirmwareVersion old) (md_capacity h)
      (mdraidSmartStatus h) (JoinPath ["/dev"; base]) "mdraid" (SmartData.Temperature old)
      (mdraid_attributes h) in
    Some (with_data sm (<[key := data]> (SmartDataMap sm)),
          with_type d "mdraid" (typeVerified d) (parserType d)).

(** ** eMMC *)

Definition isEmmcBlockName (name : string) : bool := numbered "mmcblk" name.

(** [strconv.ParseUint(s, 16, 8)] *)
Fixpoint parse_hex (s : string) (acc : Z) : option Z :=
  match s with
  | EmptyString => Some acc
  | String a s' => d ← hex_val a; parse_hex s' (acc * 16 + Z.of_nat d)
  end.

Definition parseHexOrDecByte (s : string) : option Z :=
  let s := TrimSpace s in
  if String.eqb s "" then None
  else
    match (if HasPrefix s "0x" || HasPrefix s "0X" then Some (String.substring 2 (String.length s - 2) s)
           else None) with
    | Some h => if String.eqb h "" then None
                else n ← parse_hex h 0; if n <? 256 then Some n else None
    | None => ParseUint 8 s
    end.

(** Two bytes, one of which may be unreadable and is then zero. *)
Definition parseHexBytePair (s : string) : option (Z * Z) :=
  match Fields s with
  | f0 :: f1 :: _ =>
      match parseHexOrDecByte f0, parseHexOrDecByte f1 with
      | None, None => None
      | a, b => Some (default 0 a, default 0 b)
      end
  | _ => None
  end.

Definition emmcSmartStatus (preEOL : Z) : string :=
  if preEOL =? 1 then "PASSED" else if preEOL =? 2 then "WARNING"
  else if preEOL =? 3 then "FAILED" else "UNKNOWN".

Definition hex_char (n : Z) : ascii := ascii_of_nat (Z.to_nat (if n <? 10 then 48 + n else 87 + n)).

(** [fmt.Sprintf("0x%02x", v)] for a byte *)
Definition hex_byte (v : Z) : string :=
  "0x" ++ String (hex_char (v / 16)) (String (hex_char (v `mod` 16)) "").

Definition emmcPreEOLString (preEOL : Z) : string :=
  if preEOL =? 1 then "0x01 (normal)" else if preEOL =? 2 then "0x02 (warning)"
  else if preEOL =? 3 then "0x03 (urgent)" else hex_byte preEOL.

Definition emmcLifeTimeString (v : Z) : string :=
  if v =? 0 then "0x00 (not reported)"
  else if v <=? 10 then
    hex_byte v ++ " (" ++ print_Z ((v - 1) * 10) ++ "-" ++ print_Z (v * 10) ++ "% used)"
  else if v =? 11 then "0x0b (>100% used)"
  else hex_byte v.

Record emmcHealth := {
  model : string; serial : string; revision : string; capacity : Z; preEOL : Z; lifeA : Z; lifeB : Z;
}.

Definition readHexByteFile (path : string) : option Z := ReadStringFileOK path ≫= parseHexOrDecByte.

Definition readLifeTime (deviceDir : string) : option (Z * Z) :=
  match ReadStringFileOK (JoinPath [deviceDir; "life_time"]) with
  | Some content => parseHexBytePair content
  | None =>
      match readHexByteFile (JoinPath [deviceDir; "device_life_time_est_typ_a"]),
            readHexByteFile (JoinPath [deviceDir; "device_life_time_est_typ_b"]) with
      | None, None => None
      | a, b => Some (default 0 a, default 0 b)
      end
  end.

Definition readBlockCapacityBytes (blockName : string) : option Z :=
  block_capacity (JoinPath ["/sys"; "class"; "block"; blockName]).

Definition deviceDir (blockName : string) : string :=
  JoinPath ["/sys"; "class"; "block"; blockName; "device"].

Definition readEmmcHealth (blockName : string) : option emmcHealth :=
  if negb (isEmmcBlockName blockName) then None
  else
    let f name := JoinPath [deviceDir blockName; name] in
    match readHexByteFile (f "pre_eol_info"), readLifeTime (deviceDir blockName) with
    | None, None => None
    | pre, life =>
        Some {| model := ReadStringFile (f "name"); serial := ReadStringFile (f "serial");
                revision := ReadStringFile (f "prv");
                capacity := default 0 (readBlockCapacityBytes blockName);
                preEOL := default 0 pre; lifeA := (default (0, 0) life).1;
                lifeB := (default (0, 0) life).2 |}
    end.

Definition hasEmmcHealthFiles (dir : string) : bool :=
  match ReadDir fs dir with
  | Some entries => existsb (one_of ["pre_eol_info"; "life_time"; "device_life_time_est_typ_a";
                                     "device_life_time_est_typ_b"]) entries
  | None => false
  end.

Definition scanEmmcDevices : list DeviceInfo.t :=
  match ReadDir fs "/sys/class/block" with
  | None => []
  | Some entries =>
      map (λ name, let devPath := JoinPath ["/dev"; name] in
             mk devPath "emmc" (devPath ++ " [eMMC]") "MMC" false "")
        (List.filter (λ name, isEmmcBlockName name && hasEmmcHealthFiles (deviceDir name)) entries)
  end.

Definition emmc_attributes (h : emmcHealth) : list SmartAttribute.t :=
  [SmartAttribute.text "PreEOLInfo" (preEOL h) (emmcPreEOLString (preEOL h));
   SmartAttribute.text "DeviceLifeTimeEstA" (lifeA h) (emmcLifeTimeString (lifeA h));
   SmartAttribute.text "DeviceLifeTimeEstB" (lifeB h) (emmcLifeTimeString (lifeB h))].

(** [collectEmmcHealth]; [None] when the device is not an eMMC. *)
Definition collectEmmcHealth (sm : SmartManager) (d : DeviceInfo.t)
    : option (SmartManager * DeviceInfo.t) :=
  let base := Base (Name d) in
  if String.eqb (Name d) "" ||
     (negb (isEmmcBlockName base) && negb (EqualFold (Type_ d) "emmc") && negb (EqualFold (Type_ d) "mmc"))
  then None
  else
    h ← readEmmcHealth base;
    let key := if String.eqb (serial h) "" then JoinPath ["/dev"; base] else serial h in
    let data := SmartData.mk (model h) (serial h) (revision h) (capacity h)
      (emmcSmartStatus (preEOL h)) (JoinPath ["/dev"; base]) "emmc" 0 (emmc_attributes h) in
    Some (with_data sm (<[key := data]> (SmartDataMap sm)),
          with_type d "emmc" (typeVerified d) (parserType d)).
End health.

(** ** Scanned devices keep their data *)

Definition no_slash (s : string) : bool :=
  forallb (λ a, negb (Ascii.eqb a slash)) (list_ascii_of_string s).

Lemma Split_no_slash s : no_slash s = true → Split slash s = [s].
Proof.
  unfold no_slash. induction s as [|a s IH]; [done|]. cbn [list_ascii_of_string forallb Split].
  rewrite andb_true_iff, negb_true_iff. intros [-> Hs]. by rewrite (IH Hs).
Qed.

Lemma digits_no_slash s : all_digits s = true → no_slash s = true.
Proof.
  unfold all_digits, no_slash. induction (list_ascii_of_string s) as [|a l IH]; [done|]. simpl.
  rewrite !andb_true_iff. intros [Ha Hl]. split; [|auto].
  destruct a as [[] [] [] [] [] [] [] []]; try reflexivity; discriminate Ha.
Qed.

Lemma no_slash_app s t : no_slash (s ++ t) = no_slash s && no_slash t.
Proof.
  unfold no_slash. induction s as [|a s IH]; [done|]. rewrite string_app_cons.
  cbn [list_ascii_of_string forallb]. by rewrite IH, andb_assoc.
Qed.

Lemma numbered_plain prefix name :
  no_slash prefix = true → numbered prefix name = true →
  no_slash name = true ∧ ∃ t, name = prefix ++ t.
Proof.
  unfold numbered. intros Hp. destruct (CutPrefix name prefix) as [t|] eqn:Hc; [|done].
  apply CutPrefix_spec in Hc as ->. rewrite andb_true_iff. intros [_ Ht%digits_no_slash].
  split; [by rewrite no_slash_app, Hp, Ht|eauto].
Qed.

(** The path of a numbered device and its name. *)
Lemma device_path prefix name :
  prefix ∈ ["md"; "mmcblk"] → numbered prefix name = true →
  JoinPath ["/dev"; name] = "/dev/" ++ name ∧ Base ("/dev/" ++ name) = name.
Proof.
  rewrite !elem_of_cons, elem_of_nil. intros Hp Hn. assert (no_slash name = true ∧ ∃ t, name = prefix ++ t) as (Hs&t&Ht).
  { apply numbered_plain; [|done]. by destruct Hp as [->|[->|[]]]. }
  assert (∃ t', name = String "m" t') as [t' Hm].
  { rewrite Ht. destruct Hp as [->|[->|[]]]; rewrite string_app_cons; eauto. }
  assert (Split slash ("/dev/" ++ name) = [""; "dev"; name]) as Hsp.
  { change (Split slash ("/dev/" ++ name)) with ("" :: "dev" :: Split slash name).
    by rewrite (Split_no_slash name Hs). }
  split.
  - transitivity (Clean ("/dev/" ++ name)); [by rewrite Hm|]. unfold Clean. rewrite Hsp.
    change (HasPrefix ("/dev/" ++ name) "/") with true. by rewrite Hm; destruct t'.
  - unfold Base. rewrite Hsp. by rewrite Hm.
Qed.

Lemma backed_by devices d data :
  d ∈ devices → named d = true → SmartData.DiskType data ≠ "" →
  key_of d = (SmartData.DiskName data, SmartData.DiskType data) → backed devices data = true.
Proof.
  intros Hd Hn Ht Hk. unfold backed. rewrite (proj2 (String.eqb_neq _ _) Ht).
  apply existsb_exists. exists d. split; [by apply list_elem_of_In|].
  rewrite Hn. simpl. by apply bool_decide_eq_true_2.
Qed.

(** The health of an array or eMMC that a scan found is stored under the device's own path
    and type, so that no later scan that still finds the device drops it; the device keeps its
    name, and data of other devices is not touched. *)
Theorem health_survives_scans fs sm d sm' d' devices :
  (d ∈ scanMdraidDevices fs ∧ collectMdraidHealth fs sm d = Some (sm', d')) ∨
  (d ∈ scanEmmcDevices fs ∧ collectEmmcHealth fs sm d = Some (sm', d')) →
  d' ∈ devices →
  Name d' = Name d ∧
  ∃ k data, SmartDataMap sm' = <[k := data]> (SmartDataMap sm) ∧
    SmartData.DiskName data = Name d ∧
    SmartDataMap (updateSmartDevices sm' devices) !! k = Some data.
Proof.
  intros Hor Hin.
  assert (∃ k data, sm' = with_data sm (<[k := data]> (SmartDataMap sm)) ∧
    d' = with_type d (SmartData.DiskType data) (typeVerified d) (parserType d) ∧ named d = true ∧
    SmartData.DiskType data ≠ "" ∧ SmartData.DiskName data = Name d)
    as (k&data&->&->&Hnd&Hty&Hn).
  { destruct Hor as [[Hd Hc]|[Hd Hc]].
    - unfold scanMdraidDevices in Hd. destruct (ReadDir fs _) as [l|]; [|by apply not_elem_of_nil in Hd].
      apply list_elem_of_fmap in Hd as (name&->&Hl).
      apply list_elem_of_In, filter_In in Hl as [_ [Hnum _]%andb_true_iff].
      unfold collectMdraidHealth in Hc. simpl in Hc.
      destruct (device_path "md" name) as [E1 E2]; [set_solver|done|].
      rewrite E1, E2 in Hc. case_match; [done|]. destruct (readMdraidHealth fs name) as [h|]; [|done].
      simplify_eq/=. eexists _, _. split; [done|]. unfold named. simpl. rewrite E1. by split_and!.
    - unfold scanEmmcDevices in Hd. destruct (ReadDir fs _) as [l|]; [|by apply not_elem_of_nil in Hd].
      apply list_elem_of_fmap in Hd as (name&->&Hl).
      apply list_elem_of_In, filter_In in Hl as [_ [Hnum _]%andb_true_iff].
      unfold collectEmmcHealth in Hc. simpl in Hc.
      destruct (device_path "mmcblk" name) as [E1 E2]; [set_solver|done|].
      rewrite E1, E2 in Hc. case_match; [done|]. destruct (readEmmcHealth fs name) as [h|]; [|done].
      simplify_eq/=. eexists _, _. split; [done|]. unfold named. simpl. rewrite E1. by split_and!. }
  split; [done|]. exists k, data. split_and!; [done..|]. simpl.
  apply map_lookup_filter_Some. split; [by rewrite lookup_insert_eq|].
  apply (backed_by _ _ data Hin Hnd Hty). unfold key_of. simpl. by rewrite Hn.
Qed.

Definition ex_fs : sysfs := {|
  ReadFile := λ p,
    if String.eqb p "/sys/block/md0/md/array_state" then Some "clean
"
    else if String.eqb p "/sys/block/md0/md/level" then Some "raid1
"
    else if String.eqb p "/sys/block/md0/md/degraded" then Some "1
"
    else if String.eqb p "/sys/block/md0/md/sync_action" then Some "recover
"
    else if String.eqb p "/sys/block/md0/size" then Some "2048
"
    else if String.eqb p "/sys/class/block/mmcblk0/device/life_time" then Some "0x03 0x0b
"
    else None;
  Exists := λ p, String.eqb p "/sys/block/md0/md/array_state";
  ReadDir := λ p,
    if String.eqb p "/sys/block" then Some ["md0"; "sda"]
    else if String.eqb p "/sys/class/block" then Some ["mmcblk0"; "mmcblk0p1"]
    else if String.eqb p "/sys/class/block/mmcblk0/device" then Some ["name"; "life_time"]
    else None |}.

Definition ex_sm : SmartManager := {|
  SmartDataMap := ∅; SmartDevices := []; lastScanTime := None; smartctlPath := "";
  excludedDevices := ∅ |}.
Definition ex_md : DeviceInfo.t := mk "/dev/md0" "mdraid" "/dev/md0 [mdraid]" "MD" false "".

Lemma health_survives_scans_witness :
  scanMdraidDevices ex_fs = [ex_md] ∧
  ∃ sm' k data, collectMdraidHealth ex_fs ex_sm ex_md = Some (sm', ex_md) ∧
    SmartDataMap (updateSmartDevices sm' [ex_md]) !! k = Some data ∧
    SmartData.DiskName data = "/dev/md0".
Proof.
  split; [vm_compute; reflexivity|].
  destruct (collectMdraidHealth ex_fs ex_sm ex_md) as [[sm' d']|] eqn:E;
    [|vm_compute in E; discriminate E].
  assert (d' = ex_md) as -> by (vm_compute in E; injection E as _ <-; reflexivity).
  destruct (health_survives_scans ex_fs ex_sm ex_md sm' ex_md [ex_md]) as (_&k&data&_&Hn&Hl).
  - left. split; [|exact E]. vm_compute. left.
  - left.
  - exists sm', k, data. by split_and!.
Defined.

(** What is stored. *)
Example health_ex :
  (λ r, (λ d, (SmartData.ModelName d, SmartData.SmartStatus d, SmartData.Capacity d))
     <$> SmartDataMap r.1 !! "mdraid:md0") <$> collectMdraidHealth ex_fs ex_sm ex_md
  = Some (Some ("Linux MD RAID (raid1)", "WARNING", 1048576)) ∧
  map Name (scanEmmcDevices ex_fs) = ["/dev/mmcblk0"] ∧
  (λ h, (preEOL h, emmcLifeTimeString (lifeA h), emmcLifeTimeString (lifeB h)))
    <$> readEmmcHealth ex_fs "mmcblk0" = Some (0, "0x03 (20-30% used)", "0x0b (>100% used)").
Proof. vm_compute. split_and!; reflexivity. Qed.
End SmartHealth.
