(* ===== verification/SmartCollect.v ===== *)
(** * Collecting SMART data ([agent/smart.go])

    The agent runs [smartctl] on every device, decodes its output with one of three
    parsers, and keeps the data by serial number.  Output is abstract: what decoding it
    into each of the three structs gives is a parameter, as are the results of commands.
    Sleeping disks must not be woken, so every command that is run is recorded. *)

From S2P Require Import Prelude GoFloat GoStrings GoText SmartRaw SmartDevices SmartHealth.

(** The structs [smartctl]'s output is decoded into, the fields that are read. *)
Module SmartInfoForSata.
Record attribute := {
  ID : Z; Name : string; Value : Z; Worst : Z; Thresh : Z; WhenFailed : string;
  Raw : SmartRaw.RawValue;
}.
Record t := {
  Device_Name : string; Device_Type : string; ModelName : string; SerialNumber : string;
  FirmwareVersion : string; UserCapacity : Z; ScsiVendor : string; ScsiProduct : string;
  Passed : bool; Table : list attribute;
  (* pages of [ata_device_statistics]: number and entries; [None] when absent or undecodable *)
  AtaDeviceStatistics : option (list (Z * list (string * option Z)));
  Temperature : Z;
}.
End SmartInfoForSata.

Module SmartInfoForNvme.
Record log := {
  CriticalWarning : Z; Temperature : Z; AvailableSpare : Z; AvailableSpareThreshold : Z;
  PercentageUsed : Z; DataUnitsRead : Z; DataUnitsWritten : Z; HostReads : Z; HostWrites : Z;
  ControllerBusyTime : Z; PowerCycles : Z; PowerOnHours : Z; UnsafeShutdowns : Z;
  MediaErrors : Z; NumErrLogEntries : Z; WarningTempTime : Z; CriticalCompTime : Z;
}.
Record t := {
  Device_Name : string; Device_Type : string; ModelName : string; SerialNumber : string;
  FirmwareVersion : string; UserCapacity : Z; NVMeTotalCapacity : Z; Passed : bool;
  Log : log;
}.
End SmartInfoForNvme.

Module SmartInfoForScsi.
Record counter := {
  TotalErrorsCorrected : Z; CorrectionAlgorithmInvocations : Z; GigabytesProcessed : string;
  TotalUncorrectedErrors : Z;
}.
Record t := {
  Device_Name : string; Device_Type : string; ScsiVendor : string; ScsiProduct : string;
  ScsiModelName : string; ScsiRevision : string; SerialNumber : string; UserCapacity : Z;
  Temperature : Z; Passed : bool; Hours : Z; Minutes : Z; StartStopCycles : Z;
  LoadUnloadCycles : Z; StartStopSpecified : Z; LoadUnloadSpecified : Z; GrownDefectList : Z;
  Read : counter; Write : counter; Verify : counter;
}.
End SmartInfoForScsi.

Module SmartCollect.
Import DeviceInfo SmartDevices.
Local Open Scope string_scope.
Local Open Scope Z_scope.

(** Decoding: [None] is an error.  The hints are the JSON texts of the three sections that tell
    the kinds of devices apart, empty when a section is missing. *)
Class Smartctl := {
  Output : Type;
  nvme_of : Output → option SmartInfoForNvme.t;
  sata_of : Output → option SmartInfoForSata.t;
  scsi_of : Output → option SmartInfoForScsi.t;
  hints_of : Output → option (string * string * string);   (* NVMe, ATA, SCSI *)
}.

Section collect.
Context `{Smartctl} `{FloatConv}.

(** On macOS, the NVMe devices of [system_profiler], by controller; [None] elsewhere. *)
Context (darwin : option (list (list (string * Z)))).

(** ** Kinds of output *)

Definition hasJSONValue (raw : string) : bool :=
  let trimmed := TrimSpace raw in negb (String.eqb trimmed "") && negb (String.eqb trimmed "null").

Definition detectSmartOutputType (output : Output) : string :=
  match hints_of output with
  | None => ""
  | Some (nvme, ata, scsi) =>
      if hasJSONValue nvme then "nvme" else if hasJSONValue ata then "sat"
      else if hasJSONValue scsi then "scsi" else "sat"
  end.

Definition isVirtualDeviceFromStrings (fields : list string) : bool :=
  existsb (λ f, containsAny (ToUpper f) ["IET"; "VIRTUAL"; "QEMU"; "VBOX"; "VMWARE"; "MSFT"]) fields.

Definition isVirtualDevice (d : SmartInfoForSata.t) : bool :=
  isVirtualDeviceFromStrings [ToUpper (SmartInfoForSata.ScsiVendor d);
    ToUpper (SmartInfoForSata.ScsiProduct d); ToUpper (SmartInfoForSata.ModelName d)].
Definition isVirtualDeviceNvme (d : SmartInfoForNvme.t) : bool :=
  isVirtualDeviceFromStrings [ToUpper (SmartInfoForNvme.ModelName d)].
Definition isVirtualDeviceScsi (d : SmartInfoForScsi.t) : bool :=
  isVirtualDeviceFromStrings [ToUpper (SmartInfoForScsi.ScsiVendor d);
    ToUpper (SmartInfoForScsi.ScsiProduct d); ToUpper (SmartInfoForScsi.ScsiModelName d)].

Definition getSmartStatus (temperature : Z) (passed : bool) : string :=
  if passed then "PASSED" else if 0 <? temperature then "FAILED" else "UNKNOWN".

(** ** SATA *)

(** The entries of a page, then of the next page with the number. *)
Fixpoint find_entry (entryName : string) (minValue maxValue : Z) (l : list (string * option Z))
    : option (option Z) :=
  match l with
  | [] => None
  | (n, v) :: l =>
      if EqualFold n entryName then
        Some (match v with
              | Some x => if (x <? minValue) || (maxValue <? x) then None else Some x
              | None => None
              end)
      else find_entry entryName minValue maxValue l
  end.

Fixpoint find_page (entryNumber : Z) (entryName : string) (minValue maxValue : Z)
    (pages : list (Z * list (string * option Z))) : option Z :=
  match pages with
  | [] => None
  | (number, l) :: pages =>
      if negb (number =? entryNumber) then find_page entryNumber entryName minValue maxValue pages
      else match find_entry entryName minValue maxValue l with
           | Some r => r
           | None => find_page entryNumber entryName minValue maxValue pages
           end
  end.

Definition findAtaDeviceStatisticsValue (d : SmartInfoForSata.t) (entryNumber : Z)
    (entryName : string) (minValue maxValue : Z) : option Z :=
  match SmartInfoForSata.AtaDeviceStatistics d with
  | None => None
  | Some pages => find_page entryNumber entryName minValue maxValue pages
  end.

Definition sata_attribute (a : SmartInfoForSata.attribute) : SmartAttribute.t :=
  let raw := SmartInfoForSata.Raw a in
  SmartAttribute.mk (SmartInfoForSata.ID a) (SmartInfoForSata.Name a) (SmartInfoForSata.Value a)
    (SmartInfoForSata.Worst a) (SmartInfoForSata.Thresh a)
    (default (SmartRaw.Value raw) (SmartRaw.ParseSmartRawValueString (SmartRaw.String_ raw)))
    (SmartRaw.String_ raw) (SmartInfoForSata.WhenFailed a).

Definition sata_data (d : SmartInfoForSata.t) : SmartData.t :=
  let temperature := SmartInfoForSata.Temperature d in
  SmartData.mk (SmartInfoForSata.ModelName d) (SmartInfoForSata.SerialNumber d)
    (SmartInfoForSata.FirmwareVersion d) (SmartInfoForSata.UserCapacity d)
    (getSmartStatus temperature (SmartInfoForSata.Passed d))
    (SmartInfoForSata.Device_Name d) (SmartInfoForSata.Device_Type d)
    (if temperature =? 0
     then match findAtaDeviceStatisticsValue d 5 "Current Temperature" 0 255 with
          | Some t => u8 t
          | None => temperature
          end
     else temperature)
    (map sata_attribute (SmartInfoForSata.Table d)).

(** A parser: the serial number and the data of an output it accepts. *)
Definition accept {A} (serial : A → string) (virtual : A → bool) (data : A → SmartData.t)
    (d : option A) : option (string * SmartData.t) :=
  match d with
  | None => None
  | Some d => if String.eqb (serial d) "" || virtual d then None else Some (serial d, data d)
  end.

Definition store (sm : SmartManager) (r : option (string * SmartData.t)) : SmartManager * bool :=
  match r with
  | None => (sm, false)
  | Some (key, data) => (with_data sm (<[key := data]> (SmartDataMap sm)), true)
  end.

Definition accept_sata (output : Output) : option (string * SmartData.t) :=
  accept SmartInfoForSata.SerialNumber isVirtualDevice sata_data (sata_of output).

Definition parseSmartForSata (sm : SmartManager) (output : Output) : SmartManager * bool :=
  store sm (accept_sata output).

(** ** SCSI *)

Fixpoint remove_char (c : ascii) (s : string) : string :=
  match s with
  | EmptyString => ""
  | String a s' => if Ascii.eqb a c then remove_char c s' else String a (remove_char c s')
  end.

Definition parseScsiGigabytesProcessed (value : string) : Z :=
  if String.eqb value "" then -1 else default (-1) (ParseInt 64 (remove_char "," value)).

Definition counter_attributes (prefix : string) (c : SmartInfoForScsi.counter) : list SmartAttribute.t :=
  let gigabytes := parseScsiGigabytesProcessed (SmartInfoForScsi.GigabytesProcessed c) in
  [SmartAttribute.raw (prefix ++ "TotalErrorsCorrected") (SmartInfoForScsi.TotalErrorsCorrected c);
   SmartAttribute.raw (prefix ++ "TotalUncorrectedErrors") (SmartInfoForScsi.TotalUncorrectedErrors c);
   SmartAttribute.raw (prefix ++ "CorrectionAlgorithmInvocations")
     (SmartInfoForScsi.CorrectionAlgorithmInvocations c)] ++
  (if 0 <=? gigabytes then [SmartAttribute.raw (prefix ++ "GigabytesProcessed") gigabytes] else []).

Definition scsi_data (d : SmartInfoForScsi.t) : SmartData.t :=
  SmartData.mk (SmartInfoForScsi.ScsiModelName d) (SmartInfoForScsi.SerialNumber d)
    (SmartInfoForScsi.ScsiRevision d) (SmartInfoForScsi.UserCapacity d)
    (getSmartStatus (SmartInfoForScsi.Temperature d) (SmartInfoForScsi.Passed d))
    (SmartInfoForScsi.Device_Name d) (SmartInfoForScsi.Device_Type d)
    (SmartInfoForScsi.Temperature d)
    ([SmartAttribute.raw "PowerOnHours" (SmartInfoForScsi.Hours d);
      SmartAttribute.raw "PowerOnMinutes" (SmartInfoForScsi.Minutes d);
      SmartAttribute.raw "GrownDefectList" (SmartInfoForScsi.GrownDefectList d);
      SmartAttribute.raw "StartStopCycles" (SmartInfoForScsi.StartStopCycles d);
      SmartAttribute.raw "LoadUnloadCycles" (SmartInfoForScsi.LoadUnloadCycles d);
      SmartAttribute.raw "StartStopSpecified" (SmartInfoForScsi.StartStopSpecified d);
      SmartAttribute.raw "LoadUnloadSpecified" (SmartInfoForScsi.LoadUnloadSpecified d)] ++
     counter_attributes "Read" (SmartInfoForScsi.Read d) ++
     counter_attributes "Write" (SmartInfoForScsi.Write d) ++
     counter_attributes "Verify" (SmartInfoForScsi.Verify d)).

Definition accept_scsi (output : Output) : option (string * SmartData.t) :=
  accept SmartInfoForScsi.SerialNumber isVirtualDeviceScsi scsi_data (scsi_of output).

Definition parseSmartForScsi (sm : SmartManager) (output : Output) : SmartManager * bool :=
  store sm (accept_scsi output).

(** ** NVMe *)

Definition lookupDarwinNvmeCapacity (serial : string) : Z :=
  let found := fold_left (λ (m : gmap string Z) '(s, n),
      if negb (String.eqb s "") && (0 <? n) then <[s := n]> m else m)
    (List.concat (default [] darwin)) ∅ in
  default 0 (found !! serial).

Definition nvme_attributes (l : SmartInfoForNvme.log) : list SmartAttribute.t :=
  [SmartAttribute.raw "CriticalWarning" (SmartInfoForNvme.CriticalWarning l);
   SmartAttribute.raw "Temperature" (SmartInfoForNvme.Temperature l);
   SmartAttribute.raw "AvailableSpare" (SmartInfoForNvme.AvailableSpare l);
   SmartAttribute.raw "AvailableSpareThreshold" (SmartInfoForNvme.AvailableSpareThreshold l);
   SmartAttribute.raw "PercentageUsed" (SmartInfoForNvme.PercentageUsed l);
   SmartAttribute.raw "DataUnitsRead" (SmartInfoForNvme.DataUnitsRead l);
   SmartAttribute.raw "DataUnitsWritten" (SmartInfoForNvme.DataUnitsWritten l);
   SmartAttribute.raw "HostReads" (SmartInfoForNvme.HostReads l);
   SmartAttribute.raw "HostWrites" (SmartInfoForNvme.HostWrites l);
   SmartAttribute.raw "ControllerBusyTime" (SmartInfoForNvme.ControllerBusyTime l);
   SmartAttribute.raw "PowerCycles" (SmartInfoForNvme.PowerCycles l);
   SmartAttribute.raw "PowerOnHours" (SmartInfoForNvme.PowerOnHours l);
   SmartAttribute.raw "UnsafeShutdowns" (SmartInfoForNvme.UnsafeShutdowns l);
   SmartAttribute.raw "MediaErrors" (SmartInfoForNvme.MediaErrors l);
   SmartAttribute.raw "NumErrLogEntries" (SmartInfoForNvme.NumErrLogEntries l);
   SmartAttribute.raw "WarningTempTime" (SmartInfoForNvme.WarningTempTime l);
   SmartAttribute.raw "CriticalCompTime" (SmartInfoForNvme.CriticalCompTime l)].

Definition nvme_capacity (d : SmartInfoForNvme.t) : Z :=
  let c := SmartInfoForNvme.UserCapacity d in
  let c := if c =? 0 then SmartInfoForNvme.NVMeTotalCapacity d else c in
  match darwin with
  | Some _ => if c =? 0 then lookupDarwinNvmeCapacity (SmartInfoForNvme.SerialNumber d) else c
  | None => c
  end.

Definition nvme_data (d : SmartInfoForNvme.t) : SmartData.t :=
  let temperature := SmartInfoForNvme.Temperature (SmartInfoForNvme.Log d) in
  SmartData.mk (SmartInfoForNvme.ModelName d) (SmartInfoForNvme.SerialNumber d)
    (SmartInfoForNvme.FirmwareVersion d) (nvme_capacity d)
    (getSmartStatus temperature (SmartInfoForNvme.Passed d))
    (SmartInfoForNvme.Device_Name d) (SmartInfoForNvme.Device_Type d) temperature
    (nvme_attributes (SmartInfoForNvme.Log d)).

Definition accept_nvme (output : Output) : option (string * SmartData.t) :=
  accept SmartInfoForNvme.SerialNumber isVirtualDeviceNvme nvme_data (nvme_of output).

Definition parseSmartForNvme (sm : SmartManager) (output : Output) : SmartManager * bool :=
  store sm (accept_nvme output).
(** ** Choosing a parser *)

Inductive parser := Nvme | Sat | Scsi.
#[export] Instance parser_eq : EqDecision parser.
Proof. solve_decision. Defined.

Definition parser_name (p : parser) : string :=
  match p with Nvme => "nvme" | Sat => "sat" | Scsi => "scsi" end.
Definition parsers : list parser := [Nvme; Sat; Scsi].

Definition accepts (p : parser) (output : Output) : option (string * SmartData.t) :=
  match p with
  | Nvme => accept_nvme output | Sat => accept_sata output | Scsi => accept_scsi output
  end.

Definition Parse (p : parser) (sm : SmartManager) (output : Output) : SmartManager * bool :=
  match p with
  | Nvme => parseSmartForNvme sm output
  | Sat => parseSmartForSata sm output
  | Scsi => parseSmartForScsi sm output
  end.

(** The parser of the device's type first, then the others in their order. *)
Definition selectedParsers (deviceType : string) : list parser :=
  let first := List.filter (λ p, String.eqb (parser_name p) deviceType) parsers in
  first ++ List.filter (λ p, negb (bool_decide (p ∈ first))) parsers.

(** The type is set when it is empty or is the same but for case. *)
Definition adopt_type (d : DeviceInfo.t) (ty : string) : DeviceInfo.t :=
  if String.eqb (Type_ d) "" || EqualFold (Type_ d) ty
  then with_type d ty (typeVerified d) (parserType d) else d.

(** The type to try first, and the device with what detection found. *)
Definition detect_type (d : DeviceInfo.t) (output : Output) : string * DeviceInfo.t :=
  let deviceType := normalizeParserType (parserType d) in
  let deviceType := if String.eqb deviceType "" then normalizeParserType (Type_ d) else deviceType in
  let d :=
    if String.eqb (parserType d) "" &&
       (String.eqb deviceType "nvme" || String.eqb deviceType "sat" || String.eqb deviceType "scsi")
    then with_type d (Type_ d) (typeVerified d) deviceType else d in
  if String.eqb deviceType "" || negb (typeVerified d) then
    let structureType := detectSmartOutputType output in
    let '(deviceType, d) :=
      if String.eqb deviceType structureType then (deviceType, d)
      else (structureType, with_type d (Type_ d) false structureType) in
    (deviceType, adopt_type d structureType)
  else (deviceType, d).

Fixpoint try_parsers (l : list parser) (sm : SmartManager) (d : DeviceInfo.t) (output : Output)
    : SmartManager * DeviceInfo.t * bool :=
  match l with
  | [] => (sm, with_type d (Type_ d) false (parserType d), false)
  | p :: l =>
      let '(sm, hasData) := Parse p sm output in
      if hasData then
        let d := adopt_type (with_type d (Type_ d) (typeVerified d) (parser_name p)) (parser_name p) in
        (sm, with_type d (Type_ d) true (parserType d), true)
      else try_parsers l sm d output
  end.

Definition parseSmartOutput (sm : SmartManager) (d : DeviceInfo.t) (output : Output)
    : SmartManager * DeviceInfo.t * bool :=
  let '(deviceType, d) := detect_type d output in
  try_parsers (selectedParsers deviceType) sm d output.

(** ** Commands *)

Definition smartctlArgs (d : DeviceInfo.t) (includeStandby : bool) : list string :=
  let deviceType := ToLower (Type_ d) in
  let effectiveType := if String.eqb (ToLower (parserType d)) "" then deviceType
                       else ToLower (parserType d) in
  (if negb (String.eqb deviceType "") && negb (String.eqb deviceType "scsi") &&
      negb (String.eqb deviceType "ata") then ["-d"; Type_ d] else []) ++
  ["-a"; "--json=c"] ++
  (if String.eqb effectiveType "sat" || String.eqb effectiveType "ata" then ["-l"; "devstat"] else []) ++
  (if includeStandby then ["-n"; "standby"] else []) ++ [Name d].

Definition hasDataForDevice (sm : SmartManager) (deviceName : string) : bool :=
  existsb (λ kv, String.eqb (SmartData.DiskName kv.2) deviceName) (map_to_list (SmartDataMap sm)).

Definition isNvmeControllerPath (path : string) : bool := SmartHealth.numbered "nvme" (Base path).

Definition isExcludedDevice (sm : SmartManager) (deviceName : string) : bool :=
  bool_decide (deviceName ∈ excludedDevices sm).

(** An error of a command: an exit status, or another failure. *)
Inductive cmd_error := ExitStatus (n : Z) | Failed.

(** The result of the [n]th command that is run on a device. *)
Definition runner : Type := nat → list string → Output * option cmd_error.

Definition exclude (sm : SmartManager) (path : string) : SmartManager := {|
  SmartDataMap := SmartDataMap sm; SmartDevices := SmartDevices sm;
  lastScanTime := lastScanTime sm; smartctlPath := smartctlPath sm;
  excludedDevices := {[path]} ∪ excludedDevices sm |}.

(** The first command, and a second one when a disk of which nothing is known sleeps; [None]
    when a sleeping disk is left alone. *)
Definition run_smartctl (run : runner) (d : DeviceInfo.t) (hasExistingData : bool)
    : option (Output * option cmd_error) * list (list string) :=
  let args := smartctlArgs d hasExistingData in
  match run 0%nat args with
  | (_, Some (ExitStatus 2)) =>
      if hasExistingData then (None, [args])
      else let args' := smartctlArgs d false in (Some (run 1%nat args'), [args; args'])
  | r => (Some r, [args])
  end.

(** What a collection leaves: the manager, the device, whether it failed, and the commands. *)
Record collected := {
  c_sm : SmartManager; c_dev : DeviceInfo.t; c_ok : bool; c_cmds : list (list string);
}.

(** The namespace of a controller that did not answer. *)
Definition try_namespace (run : runner) (sm : SmartManager) (d : DeviceInfo.t)
    (cmds : list (list string)) : collected :=
  let controllerPath := Name d in
  let namespacePath := controllerPath ++ "n1" in
  if isExcludedDevice sm namespacePath
  then {| c_sm := sm; c_dev := d; c_ok := false; c_cmds := cmds |}
  else
    let d := with_name d namespacePath in
    let args := smartctlArgs d false in
    let '(output, _) := run (List.length cmds) args in
    let '(sm, d, ok) := parseSmartOutput sm d output in
    {| c_sm := if ok then exclude sm controllerPath else sm; c_dev := d; c_ok := ok;
       c_cmds := (cmds ++ [args])%list |}.

Definition CollectSmart (fs : SmartHealth.sysfs) (run : runner) (sm : SmartManager) (d : DeviceInfo.t)
    : collected :=
  if isExcludedDevice sm (Name d)
  then {| c_sm := sm; c_dev := d; c_ok := false; c_cmds := [] |}
  else match SmartHealth.collectMdraidHealth fs sm d with
  | Some (sm, d) => {| c_sm := sm; c_dev := d; c_ok := true; c_cmds := [] |}
  | None =>
  match SmartHealth.collectEmmcHealth fs sm d with
  | Some (sm, d) => {| c_sm := sm; c_dev := d; c_ok := true; c_cmds := [] |}
  | None =>
      if String.eqb (smartctlPath sm) ""
      then {| c_sm := sm; c_dev := d; c_ok := false; c_cmds := [] |}
      else
        let hasExistingData := hasDataForDevice sm (Name d) in
        match run_smartctl run d hasExistingData with
        | (None, cmds) => {| c_sm := sm; c_dev := d; c_ok := true; c_cmds := cmds |}
        | (Some (output, err), cmds) =>
            let '(sm, d, ok) := parseSmartOutput sm d output in
            if negb ok && (match err with Some _ => true | None => false end) &&
               isNvmeControllerPath (Name d)
            then try_namespace run sm d cmds
            else {| c_sm := sm; c_dev := d; c_ok := ok; c_cmds := cmds |}
        end
  end end.

(** ** Scans and refreshes *)

(** What [smartctl --scan] gives: an error, nothing usable, or devices. *)
Inductive scan_result := ScanFailed | NoScan | Scanned (l : list (string * string * string * string)).

Definition parseScan (l : list (string * string * string * string)) : list DeviceInfo.t :=
  map (λ '(name, ty, infoName, protocol), mk name ty infoName protocol false "") l.

Record scan_world := {
  s_now : Z;                                    (* milliseconds *)
  s_devices : option string;                    (* [SMART_DEVICES] *)
  s_separator : option string;
  s_scan : scan_result;
}.

Definition set_scanned (sm : SmartManager) (now : Z) : SmartManager := {|
  SmartDataMap := SmartDataMap sm; SmartDevices := SmartDevices sm; lastScanTime := Some now;
  smartctlPath := smartctlPath sm; excludedDevices := excludedDevices sm |}.

(** [ScanDevices]: the manager and whether it succeeded. *)
Definition ScanDevices (fs : SmartHealth.sysfs) (w : scan_world) (force : bool) (sm : SmartManager)
    : SmartManager * bool :=
  if negb force && match lastScanTime sm with
                   | Some t => s_now w - t <? 30 * 60 * 1000
                   | None => false
                   end
  then (sm, true)
  else
    let sm := set_scanned sm (s_now w) in
    match (match s_devices w with
           | None => Some []
           | Some raw =>
               let config := TrimSpace raw in
               if String.eqb config "" then None else parseConfiguredDevices (s_separator w) config
           end) with
    | None => (sm, false)
    | Some configured =>
        let scanned :=
          if String.eqb (smartctlPath sm) "" then []
          else match s_scan w with Scanned l => parseScan l | _ => [] end in
        let scanned := (scanned ++ SmartHealth.scanEmmcDevices fs ++ SmartHealth.scanMdraidDevices fs)%list in
        let final := filterExcludedDevices (excludedDevices sm)
                       (mergeDeviceLists (SmartDevices sm) scanned configured) in
        (updateSmartDevices sm final, match final with [] => false | _ => true end)
    end.

(** [Refresh]: every device of the list in turn, with its own commands. *)
Fixpoint collect_all (fs : SmartHealth.sysfs) (run : nat → runner) (i n : nat) (sm : SmartManager)
    : SmartManager * bool * list (list string) :=
  match n with
  | O => (sm, true, [])
  | S n =>
      match SmartDevices sm !! i with
      | None => (sm, true, [])
      | Some d =>
          let c := CollectSmart fs (run i) sm d in
          let sm := {| SmartDataMap := SmartDataMap (c_sm c);
                       SmartDevices := <[i := c_dev c]> (SmartDevices (c_sm c));
                       lastScanTime := lastScanTime (c_sm c);
                       smartctlPath := smartctlPath (c_sm c);
                       excludedDevices := excludedDevices (c_sm c) |} in
          let '(sm, ok, cmds) := collect_all fs run (S i) n sm in
          (sm, c_ok c && ok, (c_cmds c ++ cmds)%list)
      end
  end.

(** [resolveRefreshError] *)
Definition resolveRefreshError (scanOk collectOk : bool) (sm : SmartManager) : bool :=
  if bool_decide (SmartDevices sm = []) && negb scanOk then false
  else negb (bool_decide (SmartDataMap sm = ∅)).

Definition Refresh (fs : SmartHealth.sysfs) (w : scan_world) (run : nat → runner)
    (forceScan : bool) (sm : SmartManager) : SmartManager * bool * list (list string) :=
  let '(sm, scanOk) := ScanDevices fs w false sm in
  let '(sm, collectOk, cmds) := collect_all fs run 0 (List.length (SmartDevices sm)) sm in
  (sm, resolveRefreshError scanOk collectOk sm, cmds).

Definition GetCurrentData (sm : SmartManager) : gmap string SmartData.t := SmartDataMap sm.
(** ** A wrong hint does not matter *)

Lemma Parse_accepts p sm output : Parse p sm output = store sm (accepts p output).
Proof. by destruct p. Qed.

Lemma adopt_fields d ty :
  Name (adopt_type d ty) = Name d ∧ parserType (adopt_type d ty) = parserType d.
Proof. unfold adopt_type. by destruct (_ || _). Qed.

Lemma detect_name d output : Name (detect_type d output).2 = Name d.
Proof.
  unfold detect_type. repeat (case_match; simplify_eq/=); rewrite ?(proj1 (adopt_fields _ _)); done.
Qed.

Lemma elem_of_selectedParsers ty p : p ∈ selectedParsers ty.
Proof.
  unfold selectedParsers.
  set (first := List.filter (λ p, String.eqb (parser_name p) ty) parsers). apply elem_of_app.
  destruct (decide (p ∈ first)) as [Hp|Hp]; [by left|right].
  apply list_elem_of_In, filter_In. split; [destruct p; simpl; auto|].
  by rewrite bool_decide_eq_false_2.
Qed.

Lemma try_parsers_spec l sm d output :
  let '(sm', d', ok) := try_parsers l sm d output in
  Name d' = Name d ∧ typeVerified d' = ok ∧
  if ok then ∃ p key data, p ∈ l ∧ accepts p output = Some (key, data) ∧ parserType d' = parser_name p ∧
          sm' = with_data sm (<[key := data]> (SmartDataMap sm))
  else sm' = sm ∧ ∀ p, p ∈ l → accepts p output = None.
Proof.
  revert sm d. induction l as [|p l IH]; intros sm d; simpl.
  - split_and!; try done. intros p Hp. by apply not_elem_of_nil in Hp.
  - rewrite Parse_accepts. destruct (accepts p output) as [[key data]|] eqn:Ha; simpl.
    + destruct (adopt_fields (with_type d (Type_ d) (typeVerified d) (parser_name p)) (parser_name p))
        as [E1 E2].
      split_and!; [by rewrite E1|done|]. exists p, key, data. split_and!; [left|done|by rewrite E2|done].
    + specialize (IH sm d). destruct (try_parsers l sm d output) as [[sm' d'] ok].
      destruct IH as (?&?&IH). split_and!; [done..|]. destruct ok.
      * destruct IH as (q&key&data&?&?). exists q, key, data. split; [by right|done].
      * destruct IH as [-> IH]. split; [done|]. intros q [->|?]%elem_of_cons; auto.
Qed.

(** Output is parsed exactly when one of the three parsers accepts it, whatever was known or
    detected of the device's type; the device is verified exactly then, with the parser that
    was used, and the data of a rejected output is not stored. *)
Theorem parser_always_found sm d output :
  let '(sm', d', ok) := parseSmartOutput sm d output in
  (ok = true ↔ ∃ p, is_Some (accepts p output)) ∧ typeVerified d' = ok ∧ Name d' = Name d ∧
  if ok then ∃ p key data, accepts p output = Some (key, data) ∧ parserType d' = parser_name p ∧
          SmartDataMap sm' = <[key := data]> (SmartDataMap sm)
  else sm' = sm.
Proof.
  unfold parseSmartOutput. pose proof (detect_name d output) as Hname.
  destruct (detect_type d output) as [ty d1]. simpl in Hname.
  pose proof (try_parsers_spec (selectedParsers ty) sm d1 output) as Hspec.
  destruct (try_parsers _ _ _ _) as [[sm' d'] ok]. destruct Hspec as (Hn&Hv&Hok).
  split; [|split; [done|split; [congruence|]]].
  - destruct ok.
    + destruct Hok as (p&key&data&_&Ha&_). split; [|done]. intros _. exists p. by rewrite Ha.
    + destruct Hok as [_ Hno]. split; [done|]. intros (p&[x Hx]).
      rewrite Hno in Hx by apply elem_of_selectedParsers. done.
  - destruct ok; [|by destruct Hok]. destruct Hok as (p&key&data&_&Ha&Hp&->). by exists p, key, data.
Qed.

(** ** Sleeping disks *)

Lemma parse_name sm d output : Name (parseSmartOutput sm d output).1.2 = Name d.
Proof.
  unfold parseSmartOutput. pose proof (detect_name d output) as Hname.
  destruct (detect_type d output) as [ty d1]. simpl in Hname.
  pose proof (try_parsers_spec (selectedParsers ty) sm d1 output) as Hspec.
  destruct (try_parsers _ _ _ _) as [[sm' d'] ok]. destruct Hspec as (Hn&_). simpl. congruence.
Qed.

Definition keeps_asleep (d : DeviceInfo.t) (args : list string) : Prop :=
  ∃ pre, args = (pre ++ ["-n"; "standby"; Name d])%list.

Lemma standby_args d : keeps_asleep d (smartctlArgs d true).
Proof.
  unfold smartctlArgs, keeps_asleep. eexists. rewrite !app_assoc. rewrite <- (app_assoc _ _ [Name d]).
  reflexivity.
Qed.

Lemma run_smartctl_known run d :
  let args := smartctlArgs d true in
  (run_smartctl run d true = (None, [args]) ∧ (run 0%nat args).2 = Some (ExitStatus 2)) ∨
  (run_smartctl run d true = (Some (run 0%nat args), [args]) ∧
   (run 0%nat args).2 ≠ Some (ExitStatus 2)).
Proof.
  cbv zeta. unfold run_smartctl. destruct (run 0%nat (smartctlArgs d true)) as [out [[n|]|]]; [|by right..].
  destruct (decide (n = 2)) as [->|Hn]; [by left|right]. split; [|by intros [= ?]].
  destruct n as [|q|q]; try done. destruct q as [q|q|]; try done. by destruct q.
Qed.

(** A disk whose data is known is not woken: every command that is run on it asks not to,
    and when the disk sleeps its data, and what is known of the device, stay as they are.
    (The namespace of an NVMe controller, which has no standby, is the exception.) *)
Theorem asleep_not_woken fs run sm d :
  hasDataForDevice sm (Name d) = true → isNvmeControllerPath (Name d) = false →
  let c := CollectSmart fs run sm d in
  Forall (keeps_asleep d) (c_cmds c) ∧
  (c_cmds c ≠ [] → (run 0%nat (smartctlArgs d true)).2 = Some (ExitStatus 2) →
   c_sm c = sm ∧ c_dev c = d ∧ c_ok c = true ∧ c_cmds c = [smartctlArgs d true]).
Proof.
  intros Hd Hnv. cbv zeta. unfold CollectSmart.
  destruct (isExcludedDevice sm (Name d)); [done|].
  destruct (SmartHealth.collectMdraidHealth fs sm d) as [[? ?]|]; [done|].
  destruct (SmartHealth.collectEmmcHealth fs sm d) as [[? ?]|]; [done|].
  destruct (String.eqb (smartctlPath sm) ""); [done|]. rewrite Hd.
  assert (Forall (keeps_asleep d) [smartctlArgs d true]) as Hall
    by (repeat constructor; apply standby_args).
  destruct (run_smartctl_known run d) as [[-> E]|[-> E]]; [done|].
  destruct (run 0%nat (smartctlArgs d true)) as [out err]. pose proof (parse_name sm d out) as Hn.
  destruct (parseSmartOutput sm d out) as [[sm' d'] ok]. simpl in *. by rewrite Hn, Hnv, andb_false_r.
Qed.

(** ** Scans *)

Definition scan_due (w : scan_world) (force : bool) (sm : SmartManager) : bool :=
  force || match lastScanTime sm with
           | Some t => negb (s_now w - t <? 30 * 60 * 1000)
           | None => true
           end.

Lemma filterExcluded_spec ex l : Forall (λ d, Name d ∉ ex) (filterExcludedDevices ex l).
Proof.
  unfold filterExcludedDevices. apply Forall_forall. intros d. case_decide as He.
  - intros _. rewrite He. set_solver.
  - intros Hd%list_elem_of_In. apply filter_In in Hd as [_ [_ Hb]%andb_true_iff].
    by apply negb_true_iff, bool_decide_eq_false in Hb.
Qed.

Lemma update_consistent sm l :
  let sm' := updateSmartDevices sm l in
  map_Forall (λ _ data, backed (SmartDevices sm') data = true) (SmartDataMap sm') ∧
  SmartDataMap sm' ⊆ SmartDataMap sm.
Proof.
  split; [|apply map_filter_subseteq]. intros k data Hk. simpl in *.
  by apply map_lookup_filter_Some in Hk as [_ ?].
Qed.

Lemma update_none sm : SmartDataMap (updateSmartDevices sm []) = ∅.
Proof.
  simpl. apply map_empty. intros k. apply map_lookup_filter_None. right. intros data _. simpl.
  unfold backed. by destruct (String.eqb _ "").
Qed.

(** A scan that is not due changes nothing; after one that succeeds no listed device is
    excluded, and the data that is left is old data of listed devices; one that fails leaves
    devices and data as they were, or none of both. *)
Theorem scan_consistent fs w force sm :
  let '(sm', ok) := ScanDevices fs w force sm in
  if negb (scan_due w force sm) then sm' = sm ∧ ok = true
  else if ok then
    Forall (λ d, Name d ∉ excludedDevices sm') (SmartDevices sm') ∧
    map_Forall (λ _ data, backed (SmartDevices sm') data = true) (SmartDataMap sm') ∧
    SmartDataMap sm' ⊆ SmartDataMap sm
  else
    (SmartDevices sm' = SmartDevices sm ∧ SmartDataMap sm' = SmartDataMap sm) ∨
    (SmartDevices sm' = [] ∧ SmartDataMap sm' = ∅).
Proof.
  unfold ScanDevices, scan_due.
  replace (negb (force || _)) with (negb force && match lastScanTime sm with
    | Some t => s_now w - t <? 30 * 60 * 1000 | None => false end)
    by (destruct force, (lastScanTime sm); simpl; rewrite ?negb_involutive; done).
  destruct (negb force && _); [done|].
  set (sm1 := set_scanned sm (s_now w)).
  destruct (match s_devices w with None => _ | Some _ => _ end) as [configured|]; [|by left].
  set (final := filterExcludedDevices _ _).
  destruct final as [|d l] eqn:Hf.
  - right. split; [done|apply update_none].
  - rewrite <- Hf. destruct (update_consistent sm1 final). split_and!; try done.
    subst final. apply filterExcluded_spec.
Qed.
End collect.

(** ** Runs *)

Record ex_output := {
  o_nvme : option SmartInfoForNvme.t; o_sata : option SmartInfoForSata.t;
  o_scsi : option SmartInfoForScsi.t; o_hints : option (string * string * string);
}.
Definition ex_smartctl : Smartctl := {|
  Output := ex_output; nvme_of := o_nvme; sata_of := o_sata; scsi_of := o_scsi;
  hints_of := o_hints |}.

(** What [smartctl] reports of a SATA disk, which it says to be of type [sat]. *)
Definition ex_sata : SmartInfoForSata.t := {|
  SmartInfoForSata.Device_Name := "/dev/sda"; SmartInfoForSata.Device_Type := "sat";
  SmartInfoForSata.ModelName := "ST4000"; SmartInfoForSata.SerialNumber := "Z1";
  SmartInfoForSata.FirmwareVersion := "1"; SmartInfoForSata.UserCapacity := 4000;
  SmartInfoForSata.ScsiVendor := ""; SmartInfoForSata.ScsiProduct := "";
  SmartInfoForSata.Passed := true;
  SmartInfoForSata.Table :=
    [{| SmartInfoForSata.ID := 9; SmartInfoForSata.Name := "Power_On_Hours";
        SmartInfoForSata.Value := 90; SmartInfoForSata.Worst := 90; SmartInfoForSata.Thresh := 0;
        SmartInfoForSata.WhenFailed := "";
        SmartInfoForSata.Raw := {| SmartRaw.Value := 281474976717944;
                                   SmartRaw.String_ := "7352 (40 33 0)" |} |}];
  SmartInfoForSata.AtaDeviceStatistics := Some [(5, [("Current Temperature", Some 31)])];
  SmartInfoForSata.Temperature := 0 |}.

Definition ex_out : ex_output := {|
  o_nvme := None; o_sata := Some ex_sata; o_scsi := None; o_hints := Some ("", "{}", "null") |}.
Definition ex_nofs : SmartHealth.sysfs := {|
  SmartHealth.ReadFile := λ _, None; SmartHealth.Exists := λ _, false;
  SmartHealth.ReadDir := λ _, None |}.

(** Commands find the disk awake, or asleep. *)
Definition ex_run : nat → runner (H := ex_smartctl) := λ _ _ _, (ex_out, None).
Definition ex_asleep : nat → runner (H := ex_smartctl) := λ _ _ args,
  (ex_out, if bool_decide ("standby" ∈ args) then Some (ExitStatus 2) else None).

Definition ex_world (minutes : Z) (ty : string) : scan_world := {|
  s_now := minutes * 60000; s_devices := None; s_separator := None;
  s_scan := Scanned [("/dev/sda", ty, "/dev/sda", "ATA")] |}.
Definition ex_sm : SmartManager := {|
  SmartDataMap := ∅; SmartDevices := []; lastScanTime := None; smartctlPath := "smartctl";
  excludedDevices := ∅ |}.

Definition ex_refresh (w : scan_world) run sm :=
  Refresh (H := ex_smartctl) (H0 := SmartRaw.ex_conv) None ex_nofs w run false sm.
Definition ex_known (ty : string) : SmartManager := (ex_refresh (ex_world 0 ty) ex_run ex_sm).1.1.

Example refresh_ex :
  (λ d, (SmartData.DiskType d, SmartData.Temperature d, SmartAttribute.RawValue <$> head (SmartData.Attributes d)))
    <$> SmartDataMap (ex_known "scsi") !! "Z1" = Some ("sat", 31, Some 7352) ∧
  map (λ d, (Type_ d, parserType d, typeVerified d)) (SmartDevices (ex_known "scsi"))
    = [("scsi", "sat", true)].
Proof. vm_compute. split; reflexivity. Qed.

Lemma asleep_not_woken_witness :
  let d := mk "/dev/sda" "sat" "/dev/sda" "ATA" true "sat" in
  let c := CollectSmart (H := ex_smartctl) (H0 := SmartRaw.ex_conv) None ex_nofs (ex_asleep 0)
             (ex_known "sat") d in
  c_cmds c = [["-d"; "sat"; "-a"; "--json=c"; "-l"; "devstat"; "-n"; "standby"; "/dev/sda"]] ∧
  Forall (keeps_asleep d) (c_cmds c) ∧ c_ok c = true.
Proof.
  cbv zeta. destruct (asleep_not_woken (H := ex_smartctl) (H0 := SmartRaw.ex_conv) None ex_nofs
    (ex_asleep 0) (ex_known "sat") (mk "/dev/sda" "sat" "/dev/sda" "ATA" true "sat")) as [H1 H2];
    [vm_compute; reflexivity..|].
  split; [vm_compute; reflexivity|]. split; [exact H1|].
  apply H2; [vm_compute; discriminate|vm_compute; reflexivity].
Defined.

(** A scan calls a SATA disk [scsi] and its output says [sat]: the next scan, half an hour
    later, finds no device for its data and drops it, and the disk is then woken.  A disk that
    the scan calls [sat] is left asleep. *)
Example scan_wakes_disk :
  let cmds ty := (ex_refresh (ex_world 31 ty) ex_asleep (ex_known ty)).2 in
  map (λ args, bool_decide ("standby" ∈ args)) (cmds "scsi") = [false] ∧
  map (λ args, bool_decide ("standby" ∈ args)) (cmds "sat") = [true].
Proof. vm_compute. split; reflexivity. Qed.
End SmartCollect.
