(* ===== verification/Gpu.v ===== *)
(** * GPU statistics ([agent/gpu.go])

    Collectors add samples to an accumulator per GPU; a poll reports the average since the last
    poll of its interval, from the difference to a snapshot.  Which collectors run is chosen by
    priority, with one per vendor.  The collectors' parsers are in [GpuParse]. *)

From S2P Require Import Prelude GoFloat GoFloatFacts GoFloatExact GoStrings GoText Entities AgentDisk.
Import GPUData.

Module Gpu.

(** ** Accumulators and snapshots *)

Record gpuSnapshot := {
  s_count : Z; s_usage : f64; s_power : f64; s_powerPkg : f64; s_engines : option (gmap string f64) }.

(** Maps that are nil have no entries. *)
Record GPUManager := mkManager {
  GpuDataMap : gmap string GPUData.t;
  lastAvgData : gmap string GPUData.t;
  lastSnapshots : gmap Z (gmap string gpuSnapshot) }.

Section poll.
Context `{FC : FloatConv} {RO : RangeOrder string}.

Definition snapshot (gm : GPUManager) (cacheKey : Z) (id : string) : option gpuSnapshot :=
  lastSnapshots gm !! cacheKey ≫= λ m, m !! id.

Definition countGPUNames (gm : GPUManager) : gmap string Z :=
  fold_left (λ m p, <[Name p.2 := (default 0 (m !! Name p.2) + 1)%Z]> m) (range_list (GpuDataMap gm)) ∅.

(** A [uint32] difference. *)
Definition calculateDeltaCount (currentCount : Z) (last : option gpuSnapshot) : Z :=
  match last with
  | Some s => wrap 32 (currentCount - s_count s)
  | None => currentCount
  end.

Definition calculateDeltas (gpu : GPUData.t) (last : option gpuSnapshot) : f64 * f64 * f64 :=
  match last with
  | Some s => (f64_sub (Usage gpu) (s_usage s), f64_sub (Power gpu) (s_power s),
               f64_sub (PowerPkg gpu) (s_powerPkg s))
  | None => (Usage gpu, Power gpu, PowerPkg gpu)
  end.

(** The averages per engine, and the highest. *)
Definition calculateIntelGPUUsage (engines : gmap string f64) (last : option gpuSnapshot) (deltaCount : Z)
    : gmap string f64 * f64 :=
  let prev name :=
    match last ≫= s_engines with Some m => Some (default f64_zero (m !! name)) | None => None end in
  let '(avg, highest) :=
    fold_left (λ st p,
      let deltaEngine := match prev p.1 with Some x => f64_sub p.2 x | None => p.2 end in
      let a := f64_div deltaEngine (f64_of_Z deltaCount) in
      (<[p.1 := twoDecimals a]> st.1, f64_max st.2 a)) (range_list engines) (∅, f64_zero) in
  (avg, twoDecimals highest).

Definition calculateGPUAverage (gm : GPUManager) (id : string) (gpu : GPUData.t) (cacheKey : Z)
    : GPUManager * GPUData.t :=
  let last := snapshot gm cacheKey id in
  let currentCount := f64_to_uint 32 (Count gpu) in
  let deltaCount := calculateDeltaCount currentCount last in
  if (deltaCount =? 0)%Z then
    (gm, if f64_eq (Temperature gpu) f64_zero && f64_eq (MemoryUsed gpu) f64_zero
         then GPUData.named (Name gpu)
         else default (GPUData.named "") (lastAvgData gm !! id))
  else
    let '(deltaUsage, deltaPower, deltaPowerPkg) := calculateDeltas gpu last in
    let avg x := twoDecimals (f64_div x (f64_of_Z deltaCount)) in
    let gpuAvg :=
      match Engines gpu with
      | Some engines =>
          let '(e, u) := calculateIntelGPUUsage engines last deltaCount in
          GPUData.mk (Name gpu) (Temperature gpu) (MemoryUsed gpu) (MemoryTotal gpu) u
            (avg deltaPower) (Count gpu) (Some e) (avg deltaPowerPkg)
      | None =>
          GPUData.mk (Name gpu) (Temperature gpu) (MemoryUsed gpu) (MemoryTotal gpu)
            (avg deltaUsage) (avg deltaPower) (Count gpu) None (PowerPkg gpu)
      end in
    (mkManager (GpuDataMap gm) (<[id := gpuAvg]> (lastAvgData gm)) (lastSnapshots gm), gpuAvg).

Definition updateInstantaneousValues (gpuAvg gpu : GPUData.t) : GPUData.t :=
  GPUData.mk (Name gpuAvg) (twoDecimals (Temperature gpu)) (twoDecimals (MemoryUsed gpu))
    (twoDecimals (MemoryTotal gpu)) (Usage gpuAvg) (Power gpuAvg) (Count gpuAvg) (Engines gpuAvg)
    (PowerPkg gpuAvg).

Definition storeSnapshot (gm : GPUManager) (id : string) (gpu : GPUData.t) (cacheKey : Z) : GPUManager :=
  let s := {| s_count := f64_to_uint 32 (Count gpu); s_usage := Usage gpu; s_power := Power gpu;
              s_powerPkg := PowerPkg gpu; s_engines := Engines gpu |} in
  mkManager (GpuDataMap gm) (lastAvgData gm)
    (<[cacheKey := <[id := s]> (default ∅ (lastSnapshots gm !! cacheKey))]> (lastSnapshots gm)).

Definition with_name (g : GPUData.t) (name : string) : GPUData.t :=
  GPUData.mk name (Temperature g) (MemoryUsed g) (MemoryTotal g) (Usage g) (Power g) (Count g)
    (Engines g) (PowerPkg g).

(** The body of the loop over the GPUs. *)
Definition poll_one (cacheKey : Z) (nameCounts : gmap string Z)
    (st : GPUManager * gmap string GPUData.t) (p : string * GPUData.t)
    : GPUManager * gmap string GPUData.t :=
  let '(gm, out) := st in
  let '(id, gpu) := p in
  let '(gm, gpuAvg) := calculateGPUAverage gm id gpu cacheKey in
  let gpuAvg := updateInstantaneousValues gpuAvg gpu in
  let gm := storeSnapshot gm id gpu cacheKey in
  let gpuAvg := if (1 <? default 0 (nameCounts !! Name gpu))%Z
                then with_name gpuAvg (Name gpu ++ " " ++ id) else gpuAvg in
  (gm, <[id := gpuAvg]> out).

Definition initializeSnapshots (gm : GPUManager) (cacheKey : Z) : GPUManager :=
  match lastSnapshots gm !! cacheKey with
  | Some _ => gm
  | None => mkManager (GpuDataMap gm) (lastAvgData gm) (<[cacheKey := ∅]> (lastSnapshots gm))
  end.

Definition GetCurrentData (gm : GPUManager) (cacheKey : Z) : GPUManager * gmap string GPUData.t :=
  let gm := initializeSnapshots gm cacheKey in
  let nameCounts := countGPUNames gm in
  fold_left (poll_one cacheKey nameCounts) (range_list (GpuDataMap gm)) (gm, ∅).

(** ** Samples *)

(** What a collector reports of a GPU: state and amounts that are summed. *)
Record sample := {
  o_name : string; o_temp : f64; o_used : f64; o_total : f64; o_usage : f64; o_power : f64 }.

(** The steps of the parsers: a new GPU gets an entry, then the sample is added. *)
Definition add_gpu_sample (gm : GPUManager) (id : string) (o : sample) : GPUManager :=
  let g := default (GPUData.named (o_name o)) (GpuDataMap gm !! id) in
  mkManager
    (<[id := GPUData.mk (Name g) (o_temp o) (o_used o) (o_total o) (f64_add (Usage g) (o_usage o))
               (f64_add (Power g) (o_power o)) (f64_add (Count g) (f64_of_Z 1)) (Engines g) (PowerPkg g)]>
       (GpuDataMap gm)) (lastAvgData gm) (lastSnapshots gm).

(** ** Lemmas on a poll *)

Lemma average_frame gm id gpu k gm' g :
  calculateGPUAverage gm id gpu k = (gm', g) →
  GpuDataMap gm' = GpuDataMap gm ∧ lastSnapshots gm' = lastSnapshots gm ∧
  ∀ i, i ≠ id → lastAvgData gm' !! i = lastAvgData gm !! i.
Proof using Type.
  unfold calculateGPUAverage. destruct (_ =? 0)%Z; [by intros [= <- <-]|].
  destruct (calculateDeltas gpu _) as [[u p] pp]. intros [= <- <-]. simpl.
  split_and!; try done. intros i Hi. by rewrite lookup_insert_ne.
Qed.

Lemma store_snapshot gm id gpu k k' i :
  snapshot (storeSnapshot gm id gpu k) k' i =
    if decide (k' = k ∧ i = id) then
      Some {| s_count := f64_to_uint 32 (Count gpu); s_usage := Usage gpu; s_power := Power gpu;
              s_powerPkg := PowerPkg gpu; s_engines := Engines gpu |}
    else snapshot gm k' i.
Proof using Type.
  clear RO. unfold snapshot, storeSnapshot. simpl. case_decide as E.
  - destruct E as [-> ->]. rewrite lookup_insert_eq. simpl. by rewrite lookup_insert_eq.
  - destruct (decide (k' = k)) as [->|Hk]; [|by rewrite lookup_insert_ne].
    rewrite lookup_insert_eq. simpl. rewrite lookup_insert_ne by (intros ->; tauto).
    by destruct (lastSnapshots gm !! k).
Qed.

Lemma init_snapshot gm k k' i : snapshot (initializeSnapshots gm k) k' i = snapshot gm k' i.
Proof using Type.
  clear RO FC. unfold initializeSnapshots, snapshot. destruct (lastSnapshots gm !! k) eqn:E; [done|].
  simpl. destruct (decide (k' = k)) as [->|]; [by rewrite lookup_insert_eq, E|by rewrite lookup_insert_ne].
Qed.

(** One GPU of the loop: what it reports, and the snapshot it leaves; the others are as before. *)
Lemma poll_loop k names l : ∀ gm out gm' out',
  NoDup l.*1 → fold_left (poll_one k names) l (gm, out) = (gm', out') →
  GpuDataMap gm' = GpuDataMap gm ∧
  (∀ id gpu, (id, gpu) ∈ l → ∃ g, out' !! id = Some g ∧
     Usage g = Usage (calculateGPUAverage gm id gpu k).2 ∧
     Power g = Power (calculateGPUAverage gm id gpu k).2 ∧
     Engines g = Engines (calculateGPUAverage gm id gpu k).2 ∧
     PowerPkg g = PowerPkg (calculateGPUAverage gm id gpu k).2 ∧
     Temperature g = twoDecimals (Temperature gpu) ∧ MemoryUsed g = twoDecimals (MemoryUsed gpu)) ∧
  (∀ k' i, snapshot gm' k' i =
     match (list_to_map l : gmap string GPUData.t) !! i with
     | Some gpu => if decide (k' = k) then
         Some {| s_count := f64_to_uint 32 (Count gpu); s_usage := Usage gpu; s_power := Power gpu;
                 s_powerPkg := PowerPkg gpu; s_engines := Engines gpu |} else snapshot gm k' i
     | None => snapshot gm k' i
     end) ∧
  (∀ i, i ∉ l.*1 → lastAvgData gm' !! i = lastAvgData gm !! i ∧ out' !! i = out !! i).
Proof using Type.
  induction l as [|[id gpu] l IH]; intros gm out gm' out' Hnd.
  { simpl. intros [= <- <-]. split_and!; try done. intros ? ? H. by apply elem_of_nil in H. }
  rewrite fmap_cons in Hnd. apply NoDup_cons in Hnd as [Hno Hnd]. cbn [fold_left]. intros Hf.
  destruct (poll_one k names (gm, out) (id, gpu)) as [gm1 out1] eqn:H1.
  destruct (IH _ _ _ _ Hnd Hf) as (Hm&Hin&Hsn&Hout). unfold poll_one in H1.
  destruct (calculateGPUAverage gm id gpu k) as [gm0 g0] eqn:Havg.
  injection H1 as <- <-. destruct (average_frame _ _ _ _ _ _ Havg) as (Hmap&Hsnap&Hlast).
  split_and!.
  - rewrite Hm. exact Hmap.
  - intros i gp [[= -> ->]|Hi]%elem_of_cons.
    + destruct (Hout id Hno) as [_ ->]. rewrite lookup_insert_eq, Havg. eexists. split; [done|].
      by destruct (1 <? _)%Z.
    + assert (i ≠ id) as Hne by (intros ->; apply Hno, list_elem_of_fmap; by exists (id, gp)).
      destruct (Hin i gp Hi) as (g&Hg&Hu&Hp&He&Hk&Ht). exists g.
      assert ((calculateGPUAverage (storeSnapshot gm0 id gpu k) i gp k).2 =
        (calculateGPUAverage gm i gp k).2) as E.
      { unfold calculateGPUAverage. rewrite store_snapshot, decide_False by naive_solver.
        unfold snapshot. rewrite Hsnap. simpl. rewrite Hlast by done.
        destruct (_ =? 0)%Z; [done|]. by destruct (calculateDeltas _ _) as [[? ?] ?]. }
      rewrite E in Hu, Hp, He, Hk. done.
  - intros k' i. rewrite Hsn, store_snapshot. simpl list_to_map.
    destruct (decide (i = id)) as [->|Hne].
    + rewrite lookup_insert_eq. rewrite (not_elem_of_list_to_map_1 _ _ Hno).
      destruct (decide (k' = k)) as [->|Hk]; [by rewrite decide_True by done|].
      rewrite decide_False by naive_solver. unfold snapshot. by rewrite Hsnap.
    + rewrite lookup_insert_ne by done. rewrite decide_False by naive_solver.
      unfold snapshot. by rewrite Hsnap.
  - intros i [Hne Hi]%not_elem_of_cons. destruct (Hout i Hi) as [-> ->]. simpl.
    rewrite Hlast by done. by rewrite lookup_insert_ne.
Qed.

(** ** Runs of samples and polls *)

(** What a sample adds to the sums of a GPU, whatever collector it comes from: usage, power and
    package power if they were read, and the engines of an Intel GPU. *)
Record contribution := {
  c_usage : option f64; c_power : option f64; c_powerPkg : option f64;
  c_engines : option (gmap string f64) }.

(** The values that are not summed, as a collector leaves them. *)
Record instant := { i_name : string; i_temp : f64; i_used : f64; i_total : f64 }.

Definition plus (x : f64) (o : option f64) : f64 := match o with Some y => f64_add x y | None => x end.
Definition add_engines (m : option (gmap string f64)) (o : option (gmap string f64)) : option (gmap string f64) :=
  match o with
  | None => m
  | Some es => Some (fold_left (λ m p, <[p.1 := f64_add (default f64_zero (m !! p.1)) p.2]> m)
                       (range_list es) (default ∅ m))
  end.

Definition set_instant (v : instant) (g : GPUData.t) : GPUData.t :=
  GPUData.mk (i_name v) (i_temp v) (i_used v) (i_total v) (Usage g) (Power g) (Count g) (Engines g) (PowerPkg g).
Definition add_contribution (c : contribution) (g : GPUData.t) : GPUData.t :=
  GPUData.mk (Name g) (Temperature g) (MemoryUsed g) (MemoryTotal g) (plus (Usage g) (c_usage c))
    (plus (Power g) (c_power c)) (f64_add (Count g) (f64_of_Z 1)) (add_engines (Engines g) (c_engines c))
    (plus (PowerPkg g) (c_powerPkg c)).

(** A sample of a GPU, new or known; an entry that is made, or its values set, without a sample; a
    poll of an interval. *)
Inductive event :=
| Sample (id : string) (v : instant) (c : contribution)
| Touch (id : string) (v : instant)
| Poll (cacheKey : Z).

Definition update_entry (gm : GPUManager) (id : string) (f : GPUData.t → GPUData.t) : GPUManager :=
  mkManager (<[id := f (default (GPUData.named "") (GpuDataMap gm !! id))]> (GpuDataMap gm))
    (lastAvgData gm) (lastSnapshots gm).

Definition step (gm : GPUManager) (e : event) : GPUManager :=
  match e with
  | Sample id v c => update_entry gm id (λ g, set_instant v (add_contribution c g))
  | Touch id v => update_entry gm id (set_instant v)
  | Poll k => (GetCurrentData gm k).1
  end.
Definition run (evs : list event) : GPUManager := fold_left step evs (mkManager ∅ ∅ ∅).

(** The sample of [add_gpu_sample] is such an event. *)
Lemma add_gpu_sample_event gm id o :
  let g := default (GPUData.named (o_name o)) (GpuDataMap gm !! id) in
  add_gpu_sample gm id o =
  step gm (Sample id {| i_name := Name g; i_temp := o_temp o; i_used := o_used o; i_total := o_total o |}
    {| c_usage := Some (o_usage o); c_power := Some (o_power o); c_powerPkg := None; c_engines := None |}).
Proof using Type. unfold add_gpu_sample, step, update_entry. by destruct (GpuDataMap gm !! id). Qed.

(** What the polls of an interval are to know of a GPU: whether it has an entry, its samples so far,
    and those it had at the last poll that found the entry. *)
Record view := { v_in : bool; v_all : list contribution; v_snap : option (list contribution) }.
Definition view_step (k : Z) (id : string) (w : view) (e : event) : view :=
  match e with
  | Sample i _ c => if decide (i = id) then {| v_in := true; v_all := v_all w ++ [c]; v_snap := v_snap w |} else w
  | Touch i _ => if decide (i = id) then {| v_in := true; v_all := v_all w; v_snap := v_snap w |} else w
  | Poll k' => if decide (k' = k ∧ v_in w = true)
               then {| v_in := true; v_all := v_all w; v_snap := Some (v_all w) |} else w
  end.
Definition view_of (k : Z) (id : string) (evs : list event) : view :=
  fold_left (view_step k id) evs {| v_in := false; v_all := []; v_snap := None |}.

(** The samples since the last poll of the interval. *)
Definition since (k : Z) (id : string) (evs : list event) : list contribution :=
  let w := view_of k id evs in drop (length (default [] (v_snap w))) (v_all w).

(** The sum as the accumulator forms it, sample by sample. *)
Definition fsum (l : list f64) : f64 := fold_left f64_add l f64_zero.

(** What a sum grew by since the last poll: the difference of the sums, or the sum itself before the
    first poll. *)
Definition grown (f : contribution → option f64) (w : view) : f64 :=
  match v_snap w with
  | Some old => f64_sub (fsum (omap f (v_all w))) (fsum (omap f old))
  | None => fsum (omap f (v_all w))
  end.

Definition engine (e : string) (c : contribution) : option f64 := c_engines c ≫= λ m, m !! e.
Definition has_engines (l : list contribution) : bool :=
  existsb (λ c, bool_decide (is_Some (c_engines c))) l.
(** For an engine, the first poll that knew engines counts. *)
Definition engine_grown (e : string) (w : view) : f64 :=
  match v_snap w with
  | Some old => if has_engines old then f64_sub (fsum (omap (engine e) (v_all w))) (fsum (omap (engine e) old))
                else fsum (omap (engine e) (v_all w))
  | None => fsum (omap (engine e) (v_all w))
  end.

(** *** Sums *)

Lemma omap_snoc {A B} (f : A → option B) l x :
  omap f (l ++ [x]) = omap f l ++ match f x with Some y => [y] | None => [] end.
Proof using Type. clear. rewrite omap_app. simpl. by destruct (f x). Qed.

Lemma length_omap_le {A B} (f : A → option B) l : (length (omap f l) ≤ length l)%nat.
Proof using Type.
  clear. induction l as [|x l IH]; [done|].
  change (omap f (x :: l)) with (match f x with Some y => y :: omap f l | None => omap f l end).
  destruct (f x); simpl; lia.
Qed.

Lemma fsum_snoc f l (c : contribution) : fsum (omap f (l ++ [c])) = plus (fsum (omap f l)) (f c).
Proof using Type.
  clear. rewrite omap_snoc. unfold fsum. rewrite fold_left_app. by destruct (f c).
Qed.

(** The engines' sums. *)
Definition engine_sums (l : list contribution) : option (gmap string f64) :=
  fold_left (λ m c, add_engines m (c_engines c)) l None.

Lemma engine_sums_snoc l c : engine_sums (l ++ [c]) = add_engines (engine_sums l) (c_engines c).
Proof using Type. clear FC. unfold engine_sums. by rewrite fold_left_app. Qed.

Lemma fold_engines l : ∀ (m : gmap string f64) e, NoDup l.*1 →
  fold_left (λ m (p : string * f64), <[p.1 := f64_add (default f64_zero (m !! p.1)) p.2]> m) l m !! e =
  match (list_to_map l : gmap string f64) !! e with
  | Some x => Some (f64_add (default f64_zero (m !! e)) x) | None => m !! e end.
Proof using Type.
  clear. induction l as [|[e' x] l IH]; intros m e Hnd; simpl; [by rewrite lookup_empty|].
  apply NoDup_cons in Hnd as [Hno Hnd]. rewrite IH by done.
  destruct (decide (e = e')) as [->|Hne].
  - rewrite lookup_insert_eq, (not_elem_of_list_to_map_1 _ _ Hno). by rewrite lookup_insert_eq.
  - by rewrite !lookup_insert_ne.
Qed.

Lemma range_list_map (m : gmap string f64) : list_to_map (range_list m) = m.
Proof using Type.
  clear FC. apply map_eq. intros e. apply option_eq. intros x.
  rewrite <- elem_of_list_to_map by apply NoDup_fst_range_list. by rewrite elem_of_range_list.
Qed.

Lemma has_engines_snoc l c : has_engines (l ++ [c]) = has_engines l || bool_decide (is_Some (c_engines c)).
Proof using Type. clear. unfold has_engines. rewrite existsb_app. simpl. by rewrite orb_false_r. Qed.

Lemma engine_sums_spec l :
  match engine_sums l with
  | None => has_engines l = false ∧ ∀ e, omap (engine e) l = []
  | Some m => has_engines l = true ∧
      ∀ e, m !! e = match omap (engine e) l with [] => None | vs => Some (fsum vs) end
  end.
Proof using Type.
  clear FC. induction l as [|c l IH] using rev_ind; [done|]. rewrite engine_sums_snoc.
  rewrite !has_engines_snoc.
  assert (∀ e, omap (engine e) (l ++ [c]) = omap (engine e) l ++
    match c_engines c ≫= (λ m, m !! e) with Some y => [y] | None => [] end) as Ho by (intros e; by rewrite omap_snoc).
  unfold add_engines. destruct (c_engines c) as [es|]; simpl in Ho |- *.
  - rewrite orb_true_r. split; [done|]. intros e. rewrite Ho, fold_engines by apply NoDup_fst_range_list.
    rewrite range_list_map. destruct (engine_sums l) as [m|]; destruct IH as [_ IH]; simpl.
    + rewrite (IH e). destruct (es !! e) as [x|]; [|by rewrite app_nil_r].
      destruct (omap (engine e) l) as [|y ys]; [done|]. simpl. f_equal.
      unfold fsum. simpl. by rewrite fold_left_app.
    + rewrite lookup_empty, (IH e). by destruct (es !! e).
  - rewrite orb_false_r. destruct (engine_sums l); destruct IH as [-> IH]; (split; [done|]); intros e;
      rewrite Ho, app_nil_r; apply IH.
Qed.

(** Whole percents add up exactly. *)
Lemma fsum_whole us :
  Forall (λ u, 0 ≤ u ≤ 100)%Z us → (Z.of_nat (length us) ≤ 2 ^ 32)%Z →
  fsum (f64_of_Z <$> us) = f64_of_Z (Zsum us).
Proof using Type.
  clear. induction us as [|u us IH] using rev_ind; intros Hu Hn; [done|].
  rewrite length_app in Hn. simpl in Hn. apply Forall_app in Hu as [Hu H1%Forall_inv].
  unfold fsum in *. rewrite fmap_app, fold_left_app, Zsum_app. simpl. rewrite IH by (done || lia).
  apply Zsum_bounds in Hu. rewrite f64_add_Z by lia. f_equal. lia.
Qed.

Lemma grown_whole f w us vs :
  omap f (v_all w) = f64_of_Z <$> (us ++ vs) → omap f (default [] (v_snap w)) = f64_of_Z <$> us →
  Forall (λ u, 0 ≤ u ≤ 100)%Z (us ++ vs) → (Z.of_nat (length (us ++ vs)) ≤ 2 ^ 32)%Z →
  grown f w = f64_of_Z (Zsum vs).
Proof using Type.
  clear. intros Ha Hs Hu Hn. pose proof Hu as [H1 H2]%Forall_app.
  pose proof Hn as Hn'. rewrite length_app in Hn'. pose proof (Zsum_bounds _ _ _ H1) as B1.
  pose proof (Zsum_bounds _ _ _ H2) as B2. unfold grown. rewrite Ha, fsum_whole, Zsum_app by done.
  destruct (v_snap w) as [old|]; simpl in Hs.
  - rewrite Hs, fsum_whole by (done || lia). rewrite f64_sub_Z by lia. f_equal. lia.
  - by destruct us.
Qed.

(** *** Invariant *)

Definition gpu_holds (l : list contribution) (g : GPUData.t) : Prop :=
  Usage g = fsum (omap c_usage l) ∧ Power g = fsum (omap c_power l) ∧
  PowerPkg g = fsum (omap c_powerPkg l) ∧ Count g = f64_of_Z (Z.of_nat (length l)) ∧
  Engines g = engine_sums l.

Definition snap_of (l : list contribution) : gpuSnapshot := {|
  s_count := Z.of_nat (length l); s_usage := fsum (omap c_usage l); s_power := fsum (omap c_power l);
  s_powerPkg := fsum (omap c_powerPkg l); s_engines := engine_sums l |}.

Record inv (evs : list event) (gm : GPUManager) : Prop := {
  inv_gpu : ∀ k id, let w := view_of k id evs in
    match GpuDataMap gm !! id with
    | Some g => v_in w = true ∧ gpu_holds (v_all w) g
    | None => v_in w = false ∧ v_all w = []
    end;
  inv_snap : ∀ k id, snapshot gm k id = snap_of <$> v_snap (view_of k id evs) }.

Lemma view_snoc k id evs e : view_of k id (evs ++ [e]) = view_step k id (view_of k id evs) e.
Proof using Type. clear. unfold view_of. by rewrite fold_left_app. Qed.

Lemma view_bounds k id evs :
  let w := view_of k id evs in
  (length (v_all w) ≤ length evs)%nat ∧
  v_all w = default [] (v_snap w) ++ since k id evs.
Proof using Type.
  clear FC RO. unfold since. induction evs as [|e evs [IH1 IH2]] using rev_ind; [done|]. cbv zeta in *.
  rewrite length_app. simpl. rewrite view_snoc. destruct (view_of k id evs) as [i a sn]. simpl in *.
  assert (∀ c, a ++ [c] = default [] sn ++ drop (length (default [] sn)) (a ++ [c])) as Hc.
  { intros c. rewrite IH2 at 1 2. by rewrite <- app_assoc, drop_app_length. }
  destruct e as [i' v c|i' v|k']; simpl; case_decide; simpl; rewrite ?length_app; simpl;
    split; try lia; try done.
  by rewrite drop_ge, app_nil_r.
Qed.

Lemma count_exact n : (0 ≤ n < 2 ^ 32)%Z → f64_to_uint 32 (f64_of_Z n) = n.
Proof using Type.
  clear RO. intros Hn. unfold f64_to_uint. rewrite f64_trunc_of_Z by lia.
  by rewrite (proj2 (Z.leb_le 0 n)), (proj2 (Z.ltb_lt n (2 ^ 32))) by lia.
Qed.

Lemma holds_sample l g c v :
  (Z.of_nat (length l) < 2 ^ 32)%Z → gpu_holds l g → gpu_holds (l ++ [c]) (set_instant v (add_contribution c g)).
Proof using Type.
  clear FC. intros Hl (Hu&Hp&Hk&Hc&He). unfold gpu_holds.
  cbn [set_instant add_contribution Usage Power PowerPkg Count Engines].
  rewrite !fsum_snoc, engine_sums_snoc, Hu, Hp, Hk, Hc, He, length_app. cbn [length].
  split_and!; try done. rewrite f64_add_Z by lia. f_equal. lia.
Qed.

Lemma holds_new name : gpu_holds [] (GPUData.named name).
Proof using Type. clear FC. by split_and!. Qed.

Lemma inv_poll evs gm k :
  (Z.of_nat (length evs) < 2 ^ 32)%Z → inv evs gm → inv (evs ++ [Poll k]) (GetCurrentData gm k).1.
Proof using Type.
  intros Hlen [Hg Hs]. unfold GetCurrentData.
  set (gm1 := initializeSnapshots gm k). set (names := countGPUNames gm1).
  assert (Hmap : GpuDataMap gm1 = GpuDataMap gm)
    by (unfold gm1, initializeSnapshots; by destruct (lastSnapshots gm !! k)).
  destruct (fold_left _ _ _) as [gm' out'] eqn:Hf. simpl.
  destruct (poll_loop k names _ gm1 ∅ gm' out' (NoDup_fst_range_list _) Hf) as (Hm&_&Hsn&_).
  assert (Hltm : ∀ i, (list_to_map (range_list (GpuDataMap gm1)) : gmap string GPUData.t) !! i =
    GpuDataMap gm !! i).
  { intros i. rewrite <- Hmap. apply option_eq. intros g.
    rewrite <- elem_of_list_to_map by apply NoDup_fst_range_list. by rewrite elem_of_range_list. }
  split.
  - intros k' i. cbv zeta. rewrite Hm, Hmap, view_snoc. specialize (Hg k' i). cbv zeta in Hg. simpl.
    case_decide as Hd; [|done]. simpl. destruct (GpuDataMap gm !! i); [split; [done|apply Hg]|].
    destruct Hd as [_ Hd], Hg as [Hg _]. congruence.
  - intros k' i. rewrite Hsn, Hltm, view_snoc. unfold gm1. rewrite init_snapshot, Hs.
    specialize (Hg k' i). cbv zeta in Hg. simpl. destruct (view_bounds k' i evs) as [Hb _].
    destruct (GpuDataMap gm !! i) as [g|].
    + destruct Hg as [Hin (Hu&Hp&Hk&Hc&He)]. destruct (decide (k' = k)) as [->|Hne].
      * rewrite decide_True by done. simpl. unfold snap_of. by rewrite Hu, Hp, Hk, Hc, He, count_exact by lia.
      * rewrite decide_False by naive_solver. done.
    + destruct Hg as [Hin _]. rewrite decide_False by (rewrite Hin; naive_solver). done.
Qed.

Lemma inv_entry evs gm id f e :
  (∀ k, view_step k id (view_of k id evs) e =
     {| v_in := true; v_all := v_all (view_step k id (view_of k id evs) e); v_snap := v_snap (view_of k id evs) |}) →
  (∀ k i, i ≠ id → view_step k i (view_of k i evs) e = view_of k i evs) →
  (∀ k g, gpu_holds (v_all (view_of k id evs)) g → gpu_holds (v_all (view_step k id (view_of k id evs) e)) (f g)) →
  inv evs gm → inv (evs ++ [e]) (update_entry gm id f).
Proof using Type.
  clear FC. intros Hsame Hother Hf [Hg Hs]. split.
  - intros k i. cbv zeta. rewrite view_snoc. unfold update_entry. simpl. specialize (Hg k i). cbv zeta in Hg.
    destruct (decide (i = id)) as [->|Hne].
    + rewrite lookup_insert_eq, Hsame. simpl. split; [done|]. apply Hf.
      destruct (GpuDataMap gm !! id) as [g|]; simpl; [apply Hg|]. destruct Hg as [_ ->]. apply holds_new.
    + rewrite lookup_insert_ne, Hother by done. exact Hg.
  - intros k i. rewrite view_snoc. change (snapshot (update_entry gm id f) k i) with (snapshot gm k i). rewrite Hs.
    destruct (decide (i = id)) as [->|Hne]; [by rewrite Hsame|by rewrite Hother].
Qed.

Lemma run_inv evs : (Z.of_nat (length evs) ≤ 2 ^ 32)%Z → inv evs (run evs).
Proof using Type.
  induction evs as [|e evs IH] using rev_ind; intros Hlen.
  { split; simpl; intros; by rewrite ?lookup_empty. }
  rewrite length_app in Hlen. simpl in Hlen. specialize (IH ltac:(lia)).
  unfold run in *. rewrite fold_left_app. simpl.
  destruct e as [id v c|id v|k]; simpl; [apply inv_entry|apply inv_entry|apply inv_poll]; try done; try lia.
  - intros k. simpl. by rewrite decide_True.
  - intros k i Hne. simpl. by rewrite decide_False.
  - intros k g Hg. simpl. rewrite decide_True by done. destruct (view_bounds k id evs) as [Hb _].
    apply holds_sample; [lia|done].
  - intros k. simpl. by rewrite decide_True.
  - intros k i Hne. simpl. by rewrite decide_False.
  - intros k g Hg. simpl. rewrite decide_True by done. exact Hg.
Qed.

(** The fold over the engines. *)
Lemma engine_fold (f : string → f64 → f64) (l : list (string * f64)) : NoDup l.*1 →
  let r := fold_left (λ st p, (<[p.1 := twoDecimals (f p.1 p.2)]> st.1, f64_max st.2 (f p.1 p.2))) l
             ((∅ : gmap string f64), f64_zero) in
  r.2 = fold_left f64_max ((λ p, f p.1 p.2) <$> l) f64_zero ∧
  ∀ e, r.1 !! e = (λ x, twoDecimals (f e x)) <$> (list_to_map l : gmap string f64) !! e.
Proof using Type.
  clear. induction l as [|[e x] l IH] using rev_ind; intros Hnd; [by split|].
  rewrite fmap_app in Hnd. apply NoDup_app in Hnd as (Hnd&Hno&_).
  destruct (IH Hnd) as [IH1 IH2]. cbv zeta in *. rewrite fmap_app, !fold_left_app.
  destruct (fold_left _ l _) as [m h]. simpl in *. split; [by rewrite IH1|]. intros e'.
  rewrite list_to_map_app, list_to_map_cons, list_to_map_nil, insert_empty.
  destruct (decide (e' = e)) as [->|Hne].
  - rewrite lookup_insert_eq, lookup_union_r, lookup_singleton_eq; [done|].
    apply not_elem_of_list_to_map_1. intros Hin. apply (Hno e Hin). by left.
  - rewrite lookup_insert_ne, IH2 by done. f_equal. symmetry. rewrite lookup_union_l; [done|].
    by rewrite lookup_singleton_ne.
Qed.

Lemma intel_usage engines last n :
  let prev e := match last ≫= s_engines with Some m => Some (default f64_zero (m !! e)) | None => None end in
  let avg e x := f64_div (match prev e with Some y => f64_sub x y | None => x end) (f64_of_Z n) in
  let r := calculateIntelGPUUsage engines last n in
  r.2 = twoDecimals (fold_left f64_max ((λ p, avg p.1 p.2) <$> range_list engines) f64_zero) ∧
  ∀ e, r.1 !! e = (λ x, twoDecimals (avg e x)) <$> engines !! e.
Proof using Type.
  clear FC. cbv zeta. unfold calculateIntelGPUUsage.
  pose proof (engine_fold (λ e x, f64_div (match (match last ≫= s_engines with
    Some m => Some (default f64_zero (m !! e)) | None => None end) with Some y => f64_sub x y | None => x end)
    (f64_of_Z n)) (range_list engines) (NoDup_fst_range_list _)) as [H1 H2]. cbv zeta in H1, H2.
  destruct (fold_left _ (range_list engines) _) as [m h]. simpl in *. split; [by rewrite H1|].
  intros e. rewrite H2. by rewrite range_list_map.
Qed.

Lemma poll_reports evs k id :
  (Z.of_nat (length evs) < 2 ^ 32)%Z → since k id evs ≠ [] →
  ∃ gpu g, let w := view_of k id evs in
    gpu_holds (v_all w) gpu ∧ (GetCurrentData (run evs) k).2 !! id = Some g ∧
    let n := Z.of_nat (length (since k id evs)) in
    let last := snap_of <$> v_snap w in
    let '(du, dp, dk) := calculateDeltas gpu last in
    let avg x := twoDecimals (f64_div x (f64_of_Z n)) in
    Power g = avg dp ∧
    match Engines gpu with
    | Some es => Engines g = Some (calculateIntelGPUUsage es last n).1 ∧
                 Usage g = (calculateIntelGPUUsage es last n).2 ∧ PowerPkg g = avg dk
    | None => Engines g = None ∧ Usage g = avg du
    end.
Proof using Type.
  intros Hlen Hne. destruct (run_inv evs ltac:(lia)) as [Hg Hs]. set (gm := run evs) in *. clearbody gm.
  destruct (view_bounds k id evs) as [Hb Hall]. specialize (Hg k id). specialize (Hs k id). cbv zeta in *.
  destruct (GpuDataMap gm !! id) as [gpu|] eqn:Hgpu.
  2:{ destruct Hg as [_ Hg]. rewrite Hg in Hall. by destruct (default _ _). }
  destruct Hg as [Hin Hh]. unfold GetCurrentData. set (gm1 := initializeSnapshots gm k).
  set (names := countGPUNames gm1).
  assert (Hmap : GpuDataMap gm1 = GpuDataMap gm)
    by (unfold gm1, initializeSnapshots; by destruct (lastSnapshots gm !! k)).
  destruct (fold_left _ _ _) as [gm' out'] eqn:Hf. simpl.
  destruct (poll_loop k names _ gm1 ∅ gm' out' (NoDup_fst_range_list _) Hf) as (_&Ho&_&_).
  destruct (Ho id gpu) as (g&Hout&Hu&Hp&He&Hk&_); [by rewrite elem_of_range_list, Hmap|].
  exists gpu, g. split; [done|]. split; [done|].
  assert (calculateDeltaCount (f64_to_uint 32 (Count gpu)) (snap_of <$> v_snap (view_of k id evs)) =
    Z.of_nat (length (since k id evs))) as Hn.
  { destruct Hh as (_&_&_&Hc&_). rewrite Hc, count_exact by lia. apply (f_equal length) in Hall.
    rewrite length_app in Hall. destruct (v_snap _) as [old|]; simpl in *; [|lia].
    rewrite wrap_small by (unfold in_range; lia). lia. }
  assert (0 < Z.of_nat (length (since k id evs)))%Z by (destruct (since k id evs); [done|simpl; lia]).
  unfold calculateGPUAverage, gm1 in Hu, Hp, He, Hk. rewrite init_snapshot, Hs, Hn in Hu, Hp, He, Hk.
  rewrite (proj2 (Z.eqb_neq _ 0)) in Hu, Hp, He, Hk by lia.
  destruct (calculateDeltas gpu _) as [[du dp] dk].
  destruct (Engines gpu) as [es|]; [destruct (calculateIntelGPUUsage _ _ _)|]; simpl in *; auto.
Qed.

(** C30: a poll reports, for every GPU that had a sample since the last poll of the same interval,
    whatever collectors it comes from and whatever other intervals were polled meanwhile (fewer
    than 2^32 events): with [n] the number of those samples, the power is what the power of the
    samples grew by, divided by [n]; for a GPU without engines so is the usage; for one with
    engines (Intel) each engine's average is so, the usage is the highest of them, and so is the
    package power.  All are rounded to two decimals, and growth is the difference of the floating
    sums that the accumulator and the snapshot hold.  When the usages are whole percents it is
    exact: the usage of a GPU without engines is the mean of the samples since the poll. *)
Theorem gpu_average_exact evs k id :
  (Z.of_nat (length evs) < 2 ^ 32)%Z → since k id evs ≠ [] →
  let w := view_of k id evs in
  let n := f64_of_Z (Z.of_nat (length (since k id evs))) in
  ∃ g, (GetCurrentData (run evs) k).2 !! id = Some g ∧
    Power g = twoDecimals (f64_div (grown c_power w) n) ∧
    (if has_engines (v_all w) then
       PowerPkg g = twoDecimals (f64_div (grown c_powerPkg w) n) ∧
       ∃ avgs : gmap string f64,
         (∀ e, avgs !! e = if bool_decide (omap (engine e) (v_all w) = []) then None
                           else Some (f64_div (engine_grown e w) n)) ∧
         Engines g = Some (twoDecimals <$> avgs) ∧
         ∃ l, l ≡ₚ map_to_list avgs ∧ Usage g = twoDecimals (fold_left f64_max l.*2 f64_zero)
     else Engines g = None ∧ Usage g = twoDecimals (f64_div (grown c_usage w) n)) ∧
    (∀ us vs, has_engines (v_all w) = false →
       omap c_usage (v_all w) = f64_of_Z <$> (us ++ vs) → omap c_usage (default [] (v_snap w)) = f64_of_Z <$> us →
       Forall (λ u, 0 ≤ u ≤ 100)%Z (us ++ vs) →
       Usage g = twoDecimals (f64_div (f64_of_Z (Zsum vs)) n)).
Proof using Type.
  intros Hlen Hne. cbv zeta. destruct (poll_reports evs k id Hlen Hne) as (gpu&g&Hh&Hout&Hr).
  cbv zeta in Hr. destruct (view_bounds k id evs) as [Hb _]. set (w := view_of k id evs) in *.
  assert (calculateDeltas gpu (snap_of <$> v_snap w) = (grown c_usage w, grown c_power w, grown c_powerPkg w)) as Hd.
  { destruct Hh as (Hu&Hp&Hk&_). unfold grown, calculateDeltas. rewrite Hu, Hp, Hk. by destruct (v_snap w). }
  rewrite Hd in Hr. destruct Hr as [Hpow Hr]. exists g. split; [done|]. split; [done|].
  destruct Hh as (_&_&_&_&HE). pose proof (engine_sums_spec (v_all w)) as Hes. rewrite HE in Hr.
  destruct (engine_sums (v_all w)) as [es|].
  - destruct Hes as [-> Hes]. destruct Hr as (He&Hu&Hk). split; [|done]. split; [done|].
    set (n := Z.of_nat (length (since k id evs))) in *.
    destruct (intel_usage es (snap_of <$> v_snap w) n) as [I1 I2]. cbv zeta in I1, I2.
    set (avg := λ e x, f64_div (match (match (snap_of <$> v_snap w) ≫= s_engines with
      Some m => Some (default f64_zero (m !! e)) | None => None end) with Some y => f64_sub x y | None => x end)
      (f64_of_Z n)).
    exists (map_imap (λ e x, Some (avg e x)) es). split_and!.
    + intros e. rewrite map_lookup_imap, Hes. destruct (omap (engine e) (v_all w)) as [|y ys] eqn:El; [done|].
      simpl. f_equal. unfold avg, engine_grown. rewrite El. f_equal. destruct (v_snap w) as [old|]; [|done].
      simpl. pose proof (engine_sums_spec old) as Hold. destruct (engine_sums old) as [m|]; destruct Hold as [-> Ho]; [|done].
      rewrite (Ho e). by destruct (omap (engine e) old).
    + rewrite He. f_equal. apply map_eq. intros e. rewrite I2, lookup_fmap, map_lookup_imap. by destruct (es !! e).
    + exists ((λ p, (p.1, avg p.1 p.2)) <$> range_list es). split.
      * apply NoDup_Permutation; [|apply NoDup_map_to_list|].
        -- apply NoDup_fmap_2_strong; [|apply (NoDup_fmap_1 fst), NoDup_fst_range_list].
           intros [e1 x1] [e2 x2] H1 H2 [= -> _]. apply elem_of_range_list in H1, H2. congruence.
        -- intros [e x]. rewrite elem_of_map_to_list, map_lookup_imap, list_elem_of_fmap. split.
           ++ intros ([e' y]&[= -> ->]&Hy%elem_of_range_list). by rewrite Hy.
           ++ intros Hx. destruct (es !! e) as [y|] eqn:Ey; [|done]. injection Hx as <-.
              exists (e, y). split; [done|]. by apply elem_of_range_list.
      * rewrite Hu, I1. by rewrite <- list_fmap_compose.
  - destruct Hes as [-> _]. destruct Hr as [He Hu]. split; [done|]. intros us vs _ Ha Hs Hp.
    rewrite Hu. do 2 f_equal. eapply grown_whole; [exact Ha|exact Hs|exact Hp|].
    pose proof (f_equal length Ha) as HL. rewrite length_fmap in HL. rewrite <- HL.
    pose proof (length_omap_le c_usage (v_all w)). lia.
Qed.
End poll.

(** ** Which collectors run *)

Inductive collectorSource :=
  | NVTop | NVML | NvidiaSMI | IntelGpuTop | AmdSysfs | DrmFdinfo | RocmSMI | Macmon | Powermetrics.
#[export] Instance collectorSource_eq_dec : EqDecision collectorSource.
Proof. solve_decision. Defined.

Definition source_name (c : collectorSource) : string :=
  match c with
  | NVTop => "nvtop" | NVML => "nvml" | NvidiaSMI => "nvidia-smi" | IntelGpuTop => "intel_gpu_top"
  | AmdSysfs => "amd_sysfs" | DrmFdinfo => "drm_fdinfo" | RocmSMI => "rocm-smi" | Macmon => "macmon"
  | Powermetrics => "powermetrics"
  end.
Definition all_sources : list collectorSource :=
  [NVTop; NVML; NvidiaSMI; IntelGpuTop; AmdSysfs; DrmFdinfo; RocmSMI; Macmon; Powermetrics].

(** The source of a name, if it is a valid one. *)
Definition isValidCollectorSource (name : string) : option collectorSource :=
  List.find (λ c, String.eqb (source_name c) name) all_sources.

Definition parseCollectorPriority (value : string) : list collectorSource :=
  omap (λ raw, isValidCollectorSource (TrimSpace (ToLower raw))) (Split "," value).

Record gpuCapabilities := {
  hasNvidiaSmi : bool; hasRocmSmi : bool; hasAmdSysfs : bool; hasDrmFdinfo : bool;
  hasTegrastats : bool; hasIntelGpuTop : bool; hasNvtop : bool; hasMacmon : bool;
  hasPowermetrics : bool }.

(** Which tools the search path has; those of macOS are looked up only there. *)
Definition discoverGpuCapabilities (lookPath lookPathHomebrew : string → bool)
    (darwin amdSysfs drmFdinfo : bool) : gpuCapabilities := {|
  hasNvidiaSmi := lookPath "nvidia-smi"; hasRocmSmi := lookPath "rocm-smi"; hasAmdSysfs := amdSysfs;
  hasDrmFdinfo := drmFdinfo; hasTegrastats := lookPath "tegrastats";
  hasIntelGpuTop := lookPath "intel_gpu_top"; hasNvtop := lookPath "nvtop";
  hasMacmon := darwin && lookPathHomebrew "macmon"; hasPowermetrics := darwin && lookPath "powermetrics" |}.

Definition hasAnyGpuCollector (c : gpuCapabilities) : bool :=
  hasNvidiaSmi c || hasRocmSmi c || hasAmdSysfs c || hasDrmFdinfo c || hasTegrastats c ||
  hasIntelGpuTop c || hasNvtop c || hasMacmon c || hasPowermetrics c.

(** [collectorDefinitions]: the vendor group, whether the tool is there, and whether it starts. *)
Definition group (c : collectorSource) : string :=
  match c with
  | NVML | NvidiaSMI => "nvidia" | IntelGpuTop => "intel" | AmdSysfs | RocmSMI => "amd"
  | Macmon | Powermetrics => "apple" | DrmFdinfo | NVTop => ""
  end.
Definition is_available (caps : gpuCapabilities) (c : collectorSource) : bool :=
  match c with
  | NVML => true | NvidiaSMI => hasNvidiaSmi caps | IntelGpuTop => hasIntelGpuTop caps
  | AmdSysfs => hasAmdSysfs caps | DrmFdinfo => hasDrmFdinfo caps | RocmSMI => hasRocmSmi caps
  | NVTop => hasNvtop caps | Macmon => hasMacmon caps | Powermetrics => hasPowermetrics caps
  end.

Section select.
(** Whether NVML can be initialized. *)
Context (nvml_ok : bool) (caps : gpuCapabilities).

Definition starts (c : collectorSource) : bool := match c with NVML => nvml_ok | _ => true end.

(** The loop, with the groups selected so far: what is started, in order, and for nvtop the
    sources to fall back to. *)
Fixpoint start_loop (selectedGroups : list string) (priorities : list collectorSource)
    : list collectorSource * option (list collectorSource) :=
  match priorities with
  | [] => ([], None)
  | source :: rest =>
      let skip := start_loop selectedGroups rest in
      let started g := let '(l, fb) := start_loop (g :: selectedGroups) rest in (source :: l, fb) in
      if negb (is_available caps source) then skip
      else match source with
      | NVTop => match selectedGroups with [] => ([NVTop], Some rest) | _ => skip end
      | DrmFdinfo => match selectedGroups with [] => started "drm_fdinfo" | _ => skip end
      | _ => if bool_decide (group source ∈ selectedGroups) then skip
             else if starts source then started (group source) else skip
      end
  end.

Definition startCollectorsByPriority (priorities : list collectorSource)
    : list collectorSource * option (list collectorSource) := start_loop [] priorities.

Definition resolveLegacyCollectorPriority (getEnv : string → option string) : list collectorSource :=
  let is_true k := match getEnv k with Some v => String.eqb v "true" | None => false end in
  let priorities :=
    (if hasNvidiaSmi caps && negb (hasTegrastats caps)
     then if is_true "NVML" then [NVML; NvidiaSMI] else [NvidiaSMI] else []) ++
    (if hasRocmSmi caps then if is_true "AMD_SYSFS" then [AmdSysfs] else [RocmSMI]
     else if hasAmdSysfs caps then [AmdSysfs] else []) ++
    (if hasIntelGpuTop caps then [IntelGpuTop] else []) ++
    (if hasDrmFdinfo caps then [DrmFdinfo] else []) in
  match priorities with
  | [] => if hasNvtop caps then [NVTop] else []
  | _ => priorities
  end.

(** [NewGPUManager]: nothing, an error, or what runs. *)
Inductive manager := NoManager | ManagerError (msg : string) | Tegra | Running (l : list collectorSource).

Definition NewGPUManager (getEnv : string → option string) : manager :=
  let start l msg :=
    match (startCollectorsByPriority l).1 with [] => ManagerError msg | l => Running l end in
  let noGPU := "no GPU found - see https://beszel.dev/guide/gpu" in
  if match getEnv "SKIP_GPU" with Some v => String.eqb v "true" | None => false end then NoManager
  else if hasTegrastats caps then Tegra
  else
    let auto := if hasAnyGpuCollector caps
                then start (resolveLegacyCollectorPriority getEnv) noGPU else ManagerError noGPU in
    match getEnv "GPU_COLLECTOR" with
    | Some config =>
        if String.eqb (TrimSpace config) "" then auto
        else start (parseCollectorPriority config) "no configured GPU collectors are available"
    | None => auto
    end.

(** The name a started source is remembered by. *)
Definition key (c : collectorSource) : string :=
  match group c with "" => source_name c | g => g end.

Lemma start_loop_spec l : ∀ sel started fb,
  start_loop sel l = (started, fb) →
  NoDup (key <$> started) ∧ (∀ c, c ∈ started → c ∈ l ∧ is_available caps c = true ∧ starts c = true) ∧
  (∀ c, c ∈ started → key c ∉ sel) ∧
  (NVTop ∈ started → sel = [] ∧ started = [NVTop]) ∧
  (NVTop ∉ started → ∀ c, c ∈ l → group c ≠ "" → is_available caps c = true → starts c = true →
     group c ∈ sel ∨ group c ∈ key <$> started).
Proof using Type.
  induction l as [|src l IH]; intros sel started fb; cbn [start_loop].
  { intros [= <- <-]. split_and!; [constructor|..]; intros; by (set_solver || done). }
  assert (Hskip : ∀ sel started fb, start_loop sel l = (started, fb) →
    (group src ≠ "" → is_available caps src = true → starts src = true → group src ∈ sel) →
    NoDup (key <$> started) ∧
    (∀ c, c ∈ started → c ∈ src :: l ∧ is_available caps c = true ∧ starts c = true) ∧
    (∀ c, c ∈ started → key c ∉ sel) ∧ (NVTop ∈ started → sel = [] ∧ started = [NVTop]) ∧
    (NVTop ∉ started → ∀ c, c ∈ src :: l → group c ≠ "" → is_available caps c = true → starts c = true →
       group c ∈ sel ∨ group c ∈ key <$> started)).
  { intros sel' st' fb' H Hg. destruct (IH _ _ _ H) as (H1&H2&H3&H4&H5). split_and!; try done.
    - intros c Hc. destruct (H2 c Hc) as (?&?&?). split_and!; [by right|done|done].
    - intros Hn c [->|Hc]%elem_of_cons Hgc Ha Hs; [left; by apply Hg|by apply H5]. }
  assert (Hstart : ∀ g sel started fb,
    (let '(l', fb') := start_loop (g :: sel) l in (src :: l', fb')) = (started, fb) →
    src ≠ NVTop → key src = g → (group src ≠ "" → group src = g) → g ∉ sel →
    is_available caps src = true → starts src = true →
    NoDup (key <$> started) ∧
    (∀ c, c ∈ started → c ∈ src :: l ∧ is_available caps c = true ∧ starts c = true) ∧
    (∀ c, c ∈ started → key c ∉ sel) ∧ (NVTop ∈ started → sel = [] ∧ started = [NVTop]) ∧
    (NVTop ∉ started → ∀ c, c ∈ src :: l → group c ≠ "" → is_available caps c = true → starts c = true →
       group c ∈ sel ∨ group c ∈ key <$> started)).
  { intros g sel' st' fb' H Hnv Hk Hg Hno Ha Hs. destruct (start_loop (g :: sel') l) as [l' fb''] eqn:E.
    injection H as <- <-. destruct (IH _ _ _ E) as (H1&H2&H3&H4&H5). split_and!.
    - rewrite fmap_cons. constructor; [|done]. intros (c&Hc&Hin)%list_elem_of_fmap.
      apply (H3 c Hin). rewrite <- Hc, Hk. left.
    - intros c [->|Hc]%elem_of_cons; [by split_and!; [left|..]|].
      destruct (H2 c Hc) as (?&?&?). split_and!; [by right|done|done].
    - intros c [->|Hc]%elem_of_cons; [by rewrite Hk|]. intros Hin. apply (H3 c Hc). by right.
    - intros [Heq|Hin]%elem_of_cons; [by destruct Hnv|]. by destruct (H4 Hin).
    - intros Hn c [->|Hc]%elem_of_cons Hgc Hac Hsc.
      + right. rewrite fmap_cons, Hk, (Hg Hgc). left.
      + rewrite fmap_cons. destruct (H5 ltac:(intros ?; apply Hn; by right) c Hc Hgc Hac Hsc)
          as [[->|?]%elem_of_cons|?]; [right; rewrite Hk; left|by left|right; by right]. }
  destruct (is_available caps src) eqn:Ha; simpl negb; cbn iota; [|intros H; apply (Hskip _ _ _ H); congruence].
  destruct src; try (case_bool_decide as Hb;
    [intros H; by apply (Hskip _ _ _ H)|]; destruct (starts _) eqn:Hst; intros H;
    [by apply (Hstart _ _ _ _ H)|apply (Hskip _ _ _ H); congruence]).
  - destruct sel as [|g sel]; [|intros H; by apply (Hskip _ _ _ H)]. intros [= <- <-].
    split_and!; [apply NoDup_singleton| |intros ? _; by apply not_elem_of_nil|done|].
    + intros c ->%list_elem_of_singleton. by split_and!; [left|..].
    + intros Hn. destruct Hn. by left.
  - destruct sel as [|g sel]; intros H; [|by apply (Hskip _ _ _ H)].
    apply (Hstart _ _ _ _ H); try done. by apply not_elem_of_nil.
Qed.

(** The collectors that are started are requested and available, at most one per vendor, and
    a vendor with one that starts has one; nvtop runs only alone. *)
Theorem one_collector_per_vendor l started fb :
  startCollectorsByPriority l = (started, fb) →
  NoDup (key <$> started) ∧ (∀ c, c ∈ started → c ∈ l ∧ is_available caps c = true ∧ starts c = true) ∧
  (NVTop ∈ started → started = [NVTop]) ∧
  (NVTop ∉ started → ∀ c, c ∈ l → group c ≠ "" → is_available caps c = true → starts c = true →
     ∃ c', c' ∈ started ∧ group c' = group c).
Proof using Type.
  intros H. destruct (start_loop_spec _ _ _ _ H) as (H1&H2&_&H4&H5). split_and!; try done.
  - intros Hn. by destruct (H4 Hn).
  - intros Hn c Hc Hg Ha Hs. destruct (H5 Hn c Hc Hg Ha Hs) as [?%elem_of_nil|Hin]; [done|].
    apply list_elem_of_fmap in Hin as (c'&E&Hin). exists c'. split; [done|].
    by destruct c, c'.
Qed.
End select.

(** ** Examples *)

Definition ex_conv : FloatConv := {| conv_oob _ _ := 0%Z |}.
Definition ex_instant : instant := {|
  i_name := "RTX"; i_temp := f64_of_Z 50; i_used := f64_of_Z 100; i_total := f64_of_Z 4000 |}.
Definition ex_sample (u : Z) : event := Sample "0" ex_instant
  {| c_usage := Some (f64_of_Z u); c_power := Some (f64_of_Z 30); c_powerPkg := None; c_engines := None |}.
(** Two intervals are polled in turn. *)
Definition ex_events : list event :=
  [ex_sample 10; Poll 60000; ex_sample 20; Poll 1000; ex_sample 40].

Lemma gpu_average_exact_witness :
  ∃ g, (GetCurrentData (FC := ex_conv) (run (FC := ex_conv) ex_events) 60000).2 !! "0" = Some g ∧
    Usage g = twoDecimals (f64_div (f64_of_Z 60) (f64_of_Z 2)) ∧ Usage g = f64_of_Z 30.
Proof.
  destruct (gpu_average_exact (FC := ex_conv) ex_events 60000 "0") as (g&Hg&_&_&H);
    [simpl; lia|discriminate|].
  exists g. split; [exact Hg|].
  assert (Usage g = twoDecimals (f64_div (f64_of_Z 60) (f64_of_Z 2))) as E.
  { apply (H [10%Z] [20; 40]%Z); [reflexivity..|]. repeat constructor; lia. }
  split; [exact E|]. rewrite E. vm_compute. reflexivity.
Defined.

(** An Intel GPU: the usage is that of its busiest engine. *)
Example intel_busiest :
  let s r v := Sample "i0" ex_instant {| c_usage := None; c_power := Some (f64_of_Z 4); c_powerPkg := Some (f64_of_Z 9);
    c_engines := Some {["Render" := f64_of_Z r; "Video" := f64_of_Z v]} |} in
  (g ← (GetCurrentData (FC := ex_conv) (run (FC := ex_conv) [s 90 90; Poll 60000; s 10 40; s 20 60]%Z) 60000).2 !! "i0";
   Some (Usage g)) = Some (f64_of_Z 50).
Proof. vm_compute. reflexivity. Qed.

Definition ex_caps : gpuCapabilities := {|
  hasNvidiaSmi := true; hasRocmSmi := true; hasAmdSysfs := true; hasDrmFdinfo := true;
  hasTegrastats := false; hasIntelGpuTop := false; hasNvtop := true; hasMacmon := false;
  hasPowermetrics := false |}.

Lemma one_collector_per_vendor_witness :
  let started := [NvidiaSMI; AmdSysfs] in
  startCollectorsByPriority false ex_caps [NVML; NvidiaSMI; AmdSysfs; RocmSMI; DrmFdinfo; NVTop] =
    (started, None) ∧
  NoDup (key <$> started).
Proof.
  split; [reflexivity|].
  destruct (one_collector_per_vendor false ex_caps
    [NVML; NvidiaSMI; AmdSysfs; RocmSMI; DrmFdinfo; NVTop] [NvidiaSMI; AmdSysfs] None eq_refl) as [H _].
  exact H.
Defined.

(** By default drm_fdinfo does not run beside a collector of a vendor; listed first it does, and
    the same card is reported twice. *)
Example fdinfo_first :
  NewGPUManager false ex_caps (λ _, None) = Running [NvidiaSMI; RocmSMI] ∧
  NewGPUManager false ex_caps (λ k, if String.eqb k "GPU_COLLECTOR" then Some "drm_fdinfo, AMD_sysfs" else None)
    = Running [DrmFdinfo; AmdSysfs].
Proof. vm_compute. split; reflexivity. Qed.

(** nvtop, tried first, falls back to the collectors after it. *)
Example nvtop_fallback :
  startCollectorsByPriority false ex_caps [NVTop; NVML; RocmSMI] = ([NVTop], Some [NVML; RocmSMI]) ∧
  startCollectorsByPriority false ex_caps [NVML; RocmSMI] = ([RocmSMI], None).
Proof. vm_compute. split; reflexivity. Qed.
End Gpu.
