(* ===== verification/GpuParse.v ===== *)
(** * GPU collectors that run a command ([agent/gpu.go], [gpu_intel.go], [gpu_nvtop.go],
    [gpu_darwin.go])

    A collector runs a tool, parses its output into samples and runs it again.  A run of a
    command is a record of its output and errors; the tables of [encoding/json] are
    arguments.  Lines are those of [bufio.Scanner], below 64 KiB. *)

From S2P Require Import Prelude GoFloat GoStrings GoText Entities AgentDisk AgentSystem SmartRaw Gpu.
Import GPUData Gpu.

Module GpuParse.
Local Open Scope string_scope.

(** ** Accumulators *)

(** [gm.GpuDataMap[id]], created with a name where it is missing, and changed in place. *)
Definition with_gpus (gm : GPUManager) (m : gmap string GPUData.t) : GPUManager :=
  mkManager m (lastAvgData gm) (lastSnapshots gm).
Definition update_gpu (gm : GPUManager) (id : string) (new : GPUData.t) (f : GPUData.t → GPUData.t)
    : GPUManager :=
  with_gpus gm (<[id := f (default new (GpuDataMap gm !! id))]> (GpuDataMap gm)).

Definition incr (count : f64) : f64 := f64_add count (f64_of_Z 1).

(** ** A run of a command *)

Record command := {
  c_start : option string; (* an error to start it *)
  c_lines : list string;
  c_scan : option string;
  c_wait : option string; (* its exit status, if it is an error *)
}.

Definition errNoValidData : string := "no valid GPU data found".

Section collect.
Context (parse : GPUManager → string → GPUManager * bool).

Fixpoint parse_lines (gm : GPUManager) (lines : list string) : GPUManager * bool :=
  match lines with
  | [] => (gm, true)
  | line :: rest => let '(gm, ok) := parse gm line in if ok then parse_lines gm rest else (gm, false)
  end.

(** [collect]: the error, if any. *)
Definition collect (gm : GPUManager) (c : command) : GPUManager * option string :=
  match c_start c with
  | Some err => (gm, Some err)
  | None =>
      let '(gm, ok) := parse_lines gm (c_lines c) in
      if negb ok then (gm, Some errNoValidData)
      else (gm, match c_scan c with Some err => Some ("scanner error: " ++ err) | None => c_wait c end)
  end.
End collect.

(** ** Loops

    A loop consumes a list of runs, the run of a collector for each; it ends by itself, or it
    still runs when the list ends.  Its waits are in milliseconds. *)

Definition retryWaitTime : Z := 5000.
Definition maxFailureRetries : Z := 5.

Section loops.
Context {S A : Type} (run_once : S → A → S * option string).

Record loop := { l_gm : S; l_stopped : bool; l_waits : list Z }.

Definition after (w : list Z) (l : loop) : loop :=
  {| l_gm := l_gm l; l_stopped := l_stopped l; l_waits := w ++ l_waits l |}.

(** [gpuCollector.start] *)
Fixpoint start (gm : S) (runs : list A) : loop :=
  match runs with
  | [] => {| l_gm := gm; l_stopped := false; l_waits := [] |}
  | r :: runs =>
      let '(gm, err) := run_once gm r in
      match err with
      | Some e => if String.eqb e errNoValidData then {| l_gm := gm; l_stopped := true; l_waits := [] |}
                  else after [retryWaitTime] (start gm runs)
      | None => start gm runs
      end
  end.

(** A loop that stops after too many failures: whether a success resets their number, and what it
    waits after a success and after a failure. *)
Fixpoint retry_loop (reset : bool) (ok_wait fail_wait : list Z) (failures : Z) (gm : S)
    (runs : list A) : loop :=
  match runs with
  | [] => {| l_gm := gm; l_stopped := false; l_waits := [] |}
  | r :: runs =>
      let '(gm, err) := run_once gm r in
      match err with
      | Some _ =>
          let failures := (failures + 1)%Z in
          if (maxFailureRetries <? failures)%Z then {| l_gm := gm; l_stopped := true; l_waits := [] |}
          else after fail_wait (retry_loop reset ok_wait fail_wait failures gm runs)
      | None =>
          after ok_wait (retry_loop reset ok_wait fail_wait (if reset then 0 else failures)%Z gm runs)
      end
  end.

Definition startIntelCollector : S → list A → loop := retry_loop false [] [retryWaitTime] 0.
Definition startRocmSmiCollector (pollInterval : Z) : S → list A → loop :=
  retry_loop false [pollInterval] [pollInterval] 0.

(** [startNvtopCollector]: with a fallback the first failure calls it, and its loop is over. *)
Fixpoint nvtop_with_fallback (gm : S) (runs : list A) : loop :=
  match runs with
  | [] => {| l_gm := gm; l_stopped := false; l_waits := [] |}
  | r :: runs =>
      let '(gm, err) := run_once gm r in
      match err with
      | Some _ => {| l_gm := gm; l_stopped := true; l_waits := [] |}
      | None => nvtop_with_fallback gm runs
      end
  end.
Definition startNvtopCollector (onFailure : bool) (gm : S) (runs : list A) : loop :=
  if onFailure then nvtop_with_fallback gm runs else retry_loop false [] [retryWaitTime] 0 gm runs.

(** How many runs fail. *)
Fixpoint count_failures (gm : S) (runs : list A) : Z :=
  match runs with
  | [] => 0
  | r :: runs => let '(gm, err) := run_once gm r in
                 ((if err then 1 else 0) + count_failures gm runs)%Z
  end.

Lemma count_failures_nonneg runs : ∀ gm, (0 ≤ count_failures gm runs)%Z.
Proof using Type.
  induction runs as [|r runs IH]; intros gm; simpl; [done|]. destruct (run_once gm r) as [gm' []];
    specialize (IH gm'); lia.
Qed.

(** A loop that does not reset its number of failures ends with the sixth of its life, however many
    runs succeed in between. *)
Lemma retry_lifetime okw fw runs : ∀ failures gm,
  (failures ≤ maxFailureRetries)%Z →
  l_stopped (retry_loop false okw fw failures gm runs) =
    (maxFailureRetries <? failures + count_failures gm runs)%Z.
Proof using Type.
  induction runs as [|r runs IH]; intros failures gm Hf; cbn [retry_loop count_failures].
  { cbn [l_stopped]. symmetry. apply Z.ltb_ge. lia. }
  destruct (run_once gm r) as [gm' [e|]]; pose proof (count_failures_nonneg runs gm').
  - destruct (Z.ltb_spec maxFailureRetries (failures + 1)) as [Hlt|Hge]; cbn [l_stopped after].
    + symmetry. apply Z.ltb_lt. lia.
    + rewrite IH by lia. f_equal. lia.
  - cbn [l_stopped after]. rewrite IH by lia. f_equal.
Qed.
End loops.
Arguments loop : clear implicits.

(** ** nvidia-smi *)

Definition mebibytesInAMegabyte : f64 := f64_div (f64_of_Z 1024) (f64_of_Z 1000).
Definition milliwattsInAWatt : f64 := f64_of_Z 1000.

Definition nvidia_line (st : GPUManager * bool) (line : string) : GPUManager * bool :=
  match SplitBy (TrimSpace line) ", " with
  | id :: name :: temp :: used :: total :: usage :: power :: _ =>
      (add_gpu_sample st.1 id {|
         o_name := TrimSuffix (TrimPrefix name "NVIDIA ") " Laptop GPU";
         o_temp := SmartRaw.ParseFloat_any temp;
         o_used := f64_div (SmartRaw.ParseFloat_any used) mebibytesInAMegabyte;
         o_total := f64_div (SmartRaw.ParseFloat_any total) mebibytesInAMegabyte;
         o_usage := SmartRaw.ParseFloat_any usage; o_power := SmartRaw.ParseFloat_any power |}, true)
  | _ => st
  end.
Definition parseNvidiaData (gm : GPUManager) (output : string) : GPUManager * bool :=
  fold_left nvidia_line (AgentSystem.scan_lines output) (gm, false).

(** ** rocm-smi *)

Record RocmSmiJson := {
  r_ID : string; r_Name : string; r_Temperature : string; r_MemoryUsed : string;
  r_MemoryTotal : string; r_Usage : string; r_PowerPackage : string; r_PowerSocket : string }.

Section rocm.
Context {RO : RangeOrder string} (Unmarshal : string → option (gmap string RocmSmiJson)).

Definition rocm_sample (v : RocmSmiJson) : sample := {|
  o_name := r_Name v;
  o_temp := SmartRaw.ParseFloat_any (r_Temperature v);
  o_used := AgentDisk.BytesToMegabytes (SmartRaw.ParseFloat_any (r_MemoryUsed v));
  o_total := AgentDisk.BytesToMegabytes (SmartRaw.ParseFloat_any (r_MemoryTotal v));
  o_usage := SmartRaw.ParseFloat_any (r_Usage v);
  o_power := SmartRaw.ParseFloat_any (if String.eqb (r_PowerPackage v) "" then r_PowerSocket v
                             else r_PowerPackage v) |}.

Definition parseAmdData (gm : GPUManager) (output : string) : GPUManager * bool :=
  match Unmarshal output with
  | None => (gm, false)
  | Some info =>
      match range_list info with
      | [] => (gm, false)
      | l => (fold_left (λ gm p, add_gpu_sample gm (r_ID p.2) (rocm_sample p.2)) l gm, true)
      end
  end.
End rocm.

(** ** tegrastats

    The expressions of [getJetsonParser], as matchers at a position and a search for the
    leftmost; their repetitions are followed by characters they do not match. *)

Fixpoint span (p : ascii → bool) (s : string) : string * string :=
  match s with
  | String a s' => if p a then let '(x, r) := span p s' in (String a x, r) else ("", s)
  | EmptyString => ("", "")
  end.
Fixpoint find_match {A} (m : string → option A) (s : string) : option A :=
  match m s with
  | Some x => Some x
  | None => match s with String _ s' => find_match m s' | EmptyString => None end
  end.
Definition many (p : ascii → bool) (s : string) : option (string * string) :=
  let '(x, r) := span p s in if String.eqb x "" then None else Some (x, r).
Definition digits := many SmartRaw.is_digit.
(** [\s] *)
Definition re_space (a : ascii) : bool :=
  Ascii.eqb a " " || Ascii.eqb a "009" || Ascii.eqb a "010" || Ascii.eqb a "012" || Ascii.eqb a "013".

Definition ramPattern (s : string) : option (string * string) :=
  s ← CutPrefix s "RAM "; '(used, s) ← digits s; s ← CutPrefix s "/"; '(total, s) ← digits s;
  _ ← CutPrefix s "MB"; Some (used, total).
Definition gr3dPattern (s : string) : option string :=
  s ← CutPrefix s "GR3D_FREQ "; '(x, s) ← digits s; _ ← CutPrefix s "%"; Some x.
Definition tempPattern (s : string) : option string :=
  s ← match CutPrefix s "tj" with Some r => Some r | None => CutPrefix s "GPU" end;
  s ← CutPrefix s "@"; '(x, s) ← digits s;
  let '(dot, s) := match CutPrefix s "." with Some r => (".", r) | None => ("", s) end in
  let '(y, s) := span SmartRaw.is_digit s in
  _ ← CutPrefix s "C"; Some (x ++ dot ++ y).
Definition powerPattern (s : string) : option string :=
  match match CutPrefix s "GPU_SOC" with Some r => Some r | None => CutPrefix s "CPU_GPU_CV" end with
  | Some s => '(_, s) ← many re_space s; '(x, s) ← digits s; _ ← CutPrefix s "mW"; Some x
  | None =>
      s ← CutPrefix s "VDD_SYS_GPU"; '(_, s) ← many re_space s; '(x, s) ← digits s;
      s ← CutPrefix s "/"; _ ← digits s; Some x
  end.

Definition set_mem (g : GPUData.t) (used total : f64) : GPUData.t :=
  GPUData.mk (Name g) (Temperature g) used total (Usage g) (Power g) (Count g) (Engines g) (PowerPkg g).
Definition set_temp (g : GPUData.t) (t : f64) : GPUData.t :=
  GPUData.mk (Name g) t (MemoryUsed g) (MemoryTotal g) (Usage g) (Power g) (Count g) (Engines g) (PowerPkg g).
Definition add_usage (g : GPUData.t) (u : f64) : GPUData.t :=
  GPUData.mk (Name g) (Temperature g) (MemoryUsed g) (MemoryTotal g) (f64_add (Usage g) u) (Power g)
    (Count g) (Engines g) (PowerPkg g).
Definition add_power (g : GPUData.t) (p : f64) : GPUData.t :=
  GPUData.mk (Name g) (Temperature g) (MemoryUsed g) (MemoryTotal g) (Usage g) (f64_add (Power g) p)
    (Count g) (Engines g) (PowerPkg g).
Definition counted (g : GPUData.t) : GPUData.t :=
  GPUData.mk (Name g) (Temperature g) (MemoryUsed g) (MemoryTotal g) (Usage g) (Power g)
    (incr (Count g)) (Engines g) (PowerPkg g).
Definition on_some {A} (o : option A) (f : GPUData.t → A → GPUData.t) (g : GPUData.t) : GPUData.t :=
  match o with Some x => f g x | None => g end.

(** The entry that [getJetsonParser] makes, and the parser it returns. *)
Definition jetson_init (gm : GPUManager) : GPUManager :=
  with_gpus gm (<["0" := GPUData.named "GPU"]> (GpuDataMap gm)).
Definition jetson_update (output : string) (g : GPUData.t) : GPUData.t :=
  let g := on_some (find_match ramPattern output)
             (λ g p, set_mem g (SmartRaw.ParseFloat_any p.1) (SmartRaw.ParseFloat_any p.2)) g in
  let g := on_some (find_match gr3dPattern output) (λ g x, add_usage g (SmartRaw.ParseFloat_any x)) g in
  let g := on_some (find_match tempPattern output) (λ g x, set_temp g (SmartRaw.ParseFloat_any x)) g in
  let g := on_some (find_match powerPattern output)
             (λ g x, add_power g (f64_div (SmartRaw.ParseFloat_any x) milliwattsInAWatt)) g in
  counted g.
Definition getJetsonParser (gm : GPUManager) (output : string) : GPUManager * bool :=
  (update_gpu gm "0" (GPUData.named "GPU") (jetson_update output), true).

(** ** nvtop *)

Record nvtopSnapshot := {
  n_name : string; n_temp : option string; n_power : option string; n_util : option string;
  n_memTotal : option string; n_memUsed : option string }.

Definition parseNvtopNumber (raw : string) : f64 :=
  SmartRaw.ParseFloat_any (TrimSuffix (TrimSuffix (TrimSuffix (TrimSpace raw) "C") "W") "%").

Definition rename (name : string) (g : GPUData.t) : GPUData.t :=
  GPUData.mk name (Temperature g) (MemoryUsed g) (MemoryTotal g) (Usage g) (Power g) (Count g)
    (Engines g) (PowerPkg g).
Definition nvtop_update (s : nvtopSnapshot) (g : GPUData.t) : GPUData.t :=
  let mb x := AgentDisk.BytesToMegabytes (parseNvtopNumber x) in
  let g := rename (n_name s) g in
  let g := on_some (n_temp s) (λ g x, set_temp g (parseNvtopNumber x)) g in
  let g := on_some (n_memUsed s) (λ g x, set_mem g (mb x) (MemoryTotal g)) g in
  let g := on_some (n_memTotal s) (λ g x, set_mem g (MemoryUsed g) (mb x)) g in
  let g := on_some (n_util s) (λ g x, add_usage g (parseNvtopNumber x)) g in
  let g := on_some (n_power s) (λ g x, add_power g (parseNvtopNumber x)) g in
  counted g.

Section nvtop.
Context {RO : RangeOrder string}.

Definition index_id (i : nat) : string := "n" ++ print_nat i.

(** A slot of a device name that this batch has not used. *)
Definition free_slot (usedIDs : list string) (name : string) (p : string * GPUData.t) : bool :=
  HasPrefix p.1 "n" && negb (bool_decide (p.1 ∈ usedIDs)) && String.eqb (Name p.2) name.
Definition nvtop_slot (gm : GPUManager) (usedIDs : list string) (i : nat) (name : string) : string :=
  match GpuDataMap gm !! index_id i with
  | Some existing =>
      if negb (String.eqb (Name existing) "") && negb (String.eqb (Name existing) name) then
        match List.find (free_slot usedIDs name) (range_list (GpuDataMap gm)) with
        | Some p => p.1
        | None => index_id i
        end
      else index_id i
  | None => index_id i
  end.

Fixpoint nvtop_loop (gm : GPUManager) (usedIDs : list string) (i : nat) (snapshots : list nvtopSnapshot)
    : GPUManager * list string :=
  match snapshots with
  | [] => (gm, usedIDs)
  | s :: rest =>
      if String.eqb (n_name s) "" then nvtop_loop gm usedIDs (S i) rest
      else
        let id := nvtop_slot gm usedIDs i (n_name s) in
        nvtop_loop (update_gpu gm id (GPUData.named (n_name s)) (nvtop_update s)) (id :: usedIDs) (S i) rest
  end.
(** The batch is valid if it has used a slot. *)
Definition updateNvtopSnapshots (gm : GPUManager) (snapshots : list nvtopSnapshot) : GPUManager * bool :=
  let '(gm, used) := nvtop_loop gm [] 0 snapshots in
  (gm, match used with [] => false | _ => true end).

Definition parseNvtopData (gm : GPUManager) (decoded : option (list nvtopSnapshot)) : GPUManager * bool :=
  match decoded with
  | None | Some [] => (gm, false)
  | Some l => updateNvtopSnapshots gm l
  end.

(** A run of nvtop: the batches decoded, and the error that ends them (none at the end of the
    output). *)
Record nvtop_run := { v_start : option string; v_batches : list (list nvtopSnapshot); v_err : option string }.

Definition collectNvtopStats (gm : GPUManager) (r : nvtop_run) : GPUManager * option string :=
  match v_start r with
  | Some err => (gm, Some err)
  | None =>
      let '(gm, foundValid) :=
        fold_left (λ st b, let '(gm, ok) := updateNvtopSnapshots st.1 b in (gm, st.2 || ok))
          (v_batches r) (gm, false) in
      (gm, match v_err r with
           | Some err => Some err
           | None => if foundValid then None else Some errNoValidData
           end)
  end.

(** *** Slots when the order of the devices changes *)

(** The slot of every device: slots are named, a name has one slot, and the first [n] exist. *)
Definition slots_of (m : gmap string GPUData.t) (n : nat) (slot : string → string) : Prop :=
  (∀ id g, m !! id = Some g → HasPrefix id "n" = true → Name g ≠ "" ∧ slot (Name g) = id) ∧
  (∀ i, (i < n)%nat → is_Some (m !! index_id i)).

Lemma nvtop_update_name s g : Name (nvtop_update s g) = n_name s.
Proof using Type.
  unfold nvtop_update. by destruct (n_temp s), (n_memUsed s), (n_memTotal s), (n_util s), (n_power s).
Qed.
Lemma index_id_prefix i : HasPrefix (index_id i) "n" = true.
Proof using Type. done. Qed.

Lemma nvtop_slot_known gm used n i slot name g :
  slots_of (GpuDataMap gm) n slot → (i < n)%nat → name ≠ "" →
  GpuDataMap gm !! slot name = Some g → Name g = name → HasPrefix (slot name) "n" = true →
  slot name ∉ used → nvtop_slot gm used i name = slot name.
Proof using Type.
  intros [Hs Hn] Hi Hne Hg Hname Hp Hu. unfold nvtop_slot. destruct (Hn i Hi) as [e He]. rewrite He.
  destruct (Hs _ _ He (index_id_prefix i)) as [Hne' Hsl].
  destruct (String.eqb_spec (Name e) "") as [|_]; [done|].
  destruct (String.eqb_spec (Name e) name) as [<-|Hd]; [done|]. simpl.
  destruct (List.find _ _) as [[id g']|] eqn:Hf.
  - apply List.find_some in Hf as [Hin Hfr]. apply list_elem_of_In in Hin. apply elem_of_range_list in Hin.
    unfold free_slot in Hfr. apply andb_prop in Hfr as [[Hp' _]%andb_prop Hn'%String.eqb_eq].
    simpl in *. destruct (Hs _ _ Hin Hp') as [_ Hsl']. by rewrite Hn' in Hsl'.
  - apply List.find_none with (x := (slot name, g)) in Hf.
    2:{ apply list_elem_of_In, elem_of_range_list. done. }
    unfold free_slot in Hf. simpl in Hf. by rewrite Hp, bool_decide_false, Hname, String.eqb_refl in Hf.
Qed.

Lemma slots_update gm n slot id g s :
  slots_of (GpuDataMap gm) n slot → GpuDataMap gm !! id = Some g → Name g = n_name s →
  slots_of (GpuDataMap (update_gpu gm id (GPUData.named (n_name s)) (nvtop_update s))) n slot.
Proof using Type.
  intros [Hs Hn] Hg Hname. split; unfold update_gpu; simpl; rewrite Hg; simpl.
  - intros id' g' H Hp. destruct (decide (id' = id)) as [->|Hne].
    + rewrite lookup_insert_eq in H. injection H as <-. rewrite nvtop_update_name, <- Hname. by apply Hs.
    + rewrite lookup_insert_ne in H by done. by apply Hs.
  - intros i Hi. destruct (decide (index_id i = id)) as [->|]; [by rewrite lookup_insert_eq|].
    rewrite lookup_insert_ne by done. by apply Hn.
Qed.

Lemma nvtop_loop_known slot n l : ∀ gm used i,
  slots_of (GpuDataMap gm) n slot → (i + length l ≤ n)%nat →
  NoDup (n_name <$> l) → Forall (λ s, n_name s ≠ "") l →
  (∀ s, s ∈ l → HasPrefix (slot (n_name s)) "n" = true ∧ slot (n_name s) ∉ used ∧
     ∃ g, GpuDataMap gm !! slot (n_name s) = Some g ∧ Name g = n_name s) →
  ∀ id, GpuDataMap (nvtop_loop gm used i l).1 !! id =
    match List.find (λ s, String.eqb (slot (n_name s)) id) l with
    | Some s => nvtop_update s <$> GpuDataMap gm !! id
    | None => GpuDataMap gm !! id
    end.
Proof using Type.
  induction l as [|s l IH]; intros gm used i Hs Hlen Hnd Hne Hk id; [done|].
  rewrite fmap_cons in Hnd. apply NoDup_cons in Hnd as [Hno Hnd].
  apply Forall_cons in Hne as [Hs0 Hne]. simpl in Hlen.
  destruct (Hk s ltac:(left)) as (Hp&Hu&g&Hg&Hname). cbn [nvtop_loop List.find].
  destruct (String.eqb_spec (n_name s) "") as [|_]; [done|].
  rewrite (nvtop_slot_known gm used n i slot (n_name s) g) by (done || lia).
  assert (Hinj : ∀ t, t ∈ l → slot (n_name t) ≠ slot (n_name s)).
  { intros t Ht E. destruct (Hk t ltac:(by right)) as (_&_&g'&Hg'&Hname'). rewrite E, Hg in Hg'.
    injection Hg' as <-. apply Hno. apply list_elem_of_fmap. exists t. split; congruence. }
  rewrite IH with (i := S i); clear IH.
  - destruct (String.eqb_spec (slot (n_name s)) id) as [<-|Hd].
    + destruct (List.find _ l) as [t|] eqn:Hf.
      { apply List.find_some in Hf as [Hin%list_elem_of_In He%String.eqb_eq]. by destruct (Hinj t Hin). }
      unfold update_gpu. simpl. by rewrite lookup_insert_eq, Hg.
    + unfold update_gpu. simpl. by rewrite lookup_insert_ne.
  - by eapply slots_update.
  - lia.
  - done.
  - done.
  - intros t Ht. destruct (Hk t ltac:(by right)) as (Hp'&Hu'&g'&Hg'&Hname'). split_and!; [done| |].
    + apply not_elem_of_cons. split; [by apply Hinj|done].
    + exists g'. unfold update_gpu. simpl. rewrite lookup_insert_ne by (symmetry; by apply Hinj). done.
Qed.

(** When nvtop lists its devices in another order, every sample is added to the slot of its
    device and to no other. *)
Theorem nvtop_reorder_safe gm slot l :
  slots_of (GpuDataMap gm) (length l) slot →
  NoDup (n_name <$> l) → Forall (λ s, n_name s ≠ "") l →
  (∀ s, s ∈ l → HasPrefix (slot (n_name s)) "n" = true ∧
     ∃ g, GpuDataMap gm !! slot (n_name s) = Some g ∧ Name g = n_name s) →
  ∀ id, GpuDataMap (updateNvtopSnapshots gm l).1 !! id =
    match List.find (λ s, String.eqb (slot (n_name s)) id) l with
    | Some s => nvtop_update s <$> GpuDataMap gm !! id
    | None => GpuDataMap gm !! id
    end.
Proof using Type.
  intros Hs Hnd Hne Hk id. unfold updateNvtopSnapshots.
  pose proof (nvtop_loop_known slot (length l) l gm [] 0 Hs ltac:(lia) Hnd Hne) as H.
  destruct (nvtop_loop gm [] 0 l) as [gm' used]. apply H. intros s Hin.
  destruct (Hk s Hin) as [? ?]. split_and!; [done|by apply not_elem_of_nil|done].
Qed.
End nvtop.

(** ** intel_gpu_top *)

Record intelGpuStats := { PowerGPU : f64; PowerPkg_ : f64; Engines_ : gmap string f64 }.

Section intel.
Context {RO : RangeOrder string}.

Definition updateIntelFromStats (gm : GPUManager) (s : intelGpuStats) : GPUManager :=
  let new := GPUData.mk "GPU" f64_zero f64_zero f64_zero f64_zero f64_zero f64_zero (Some ∅) f64_zero in
  update_gpu gm "i0" new (λ g,
    let engines := default ∅ (Engines g) in
    let engines := fold_left (λ m p, <[p.1 := f64_add (default f64_zero (m !! p.1)) p.2]> m)
                     (range_list (Engines_ s)) engines in
    GPUData.mk (Name g) (Temperature g) (MemoryUsed g) (MemoryTotal g) (Usage g)
      (f64_add (Power g) (PowerGPU s)) (incr (Count g)) (Some engines) (f64_add (PowerPkg g) (PowerPkg_ s))).

(** [strings.TrimRightFunc] with digits and slashes *)
Fixpoint trim_index (s : string) : string :=
  match s with
  | EmptyString => ""
  | String a s' =>
      let t := trim_index s' in
      if String.eqb t "" && (SmartRaw.is_digit a || Ascii.eqb a "/") then "" else String a t
  end.
Definition friendly (key : string) : option string :=
  if String.eqb key "RCS" then Some "Render/3D"
  else if String.eqb key "BCS" then Some "Blitter"
  else if String.eqb key "VCS" then Some "Video"
  else if String.eqb key "VECS" then Some "VideoEnhance"
  else if String.eqb key "CCS" then Some "Compute"
  else None.

(** The columns of a table: the engines with their names, the column of the GPU's power (negative
    where there is none), and how many columns stand before the engines. *)
Record columns := {
  engineNames : list string; friendlyNames : list string; powerIndex : Z; preEngineCols : nat }.

Definition parseIntelHeaders (header1 header2 : string) : columns :=
  let h2 := Fields header2 in
  let engines := omap (λ col, let key := trim_index col in pair key <$> friendly key) (Fields header1) in
  let n := length engines in
  let pre := if (0 <? n)%nat then (length h2 - 3 * n)%nat else 0%nat in
  let power := if (0 <? n)%nat
    then match list_find (λ h, EqualFold h "gpu" = true) (take (Nat.min (length h2) pre) h2) with
         | Some (i, _) => Z.of_nat i
         | None => -1
         end%Z
    else (-1)%Z in
  {| engineNames := engines.*1; friendlyNames := engines.*2; powerIndex := power; preEngineCols := pre |}.

(** A row: an index out of range panics. *)
Inductive row := RowPanic | RowError | Row (s : intelGpuStats).

Definition power_of (fields : list string) (i : nat) : f64 :=
  default f64_zero (fields !! i ≫= SmartRaw.ParseFloat).

(** The amounts of the engines, from column [base] on. *)
Fixpoint engine_loop (fields : list string) (base : nat) (names : list string) (m : gmap string f64)
    : gmap string f64 :=
  match names with
  | [] => m
  | f :: names =>
      let m := match fields !! base with
               | Some x => <[f := f64_add (default f64_zero (m !! f))
                                    (default f64_zero (SmartRaw.ParseFloat x))]> m
               | None => <[f := f64_zero]> m
               end in
      engine_loop fields (base + 3) names m
  end.

Definition parseIntelData (line : string) (c : columns) : row :=
  let fields := Fields line in
  let n := length (engineNames c) in
  if (length fields =? 0)%nat then RowError
  else if (length fields <? preEngineCols c + 3 * n)%nat then RowError
  else
    let i := Z.to_nat (powerIndex c) in
    let has := (0 <=? powerIndex c)%Z && (i <? length fields)%nat in
    if has && negb (S i <? length fields)%nat then RowPanic
    else if negb (n <=? length (friendlyNames c))%nat then RowPanic
    else Row {| PowerGPU := if has then power_of fields i else f64_zero;
                PowerPkg_ := if has then power_of fields (S i) else f64_zero;
                Engines_ := engine_loop fields (preEngineCols c) (take n (friendlyNames c)) ∅ |}.

(** The variables of [collectIntelStats]. *)
Record scan := { header1 : string; cols : columns; hadDataRow : bool; skippedFirst : bool }.
Definition scan_init : scan := {|
  header1 := ""; hadDataRow := false; skippedFirst := false;
  cols := {| engineNames := []; friendlyNames := []; powerIndex := 0; preEngineCols := 0 |} |}.

Inductive scan_end := ScanPanic | ScanError | ScanDone (st : scan).

Fixpoint intel_scan (gm : GPUManager) (st : scan) (lines : list string) : GPUManager * scan_end :=
  match lines with
  | [] => (gm, ScanDone st)
  | raw :: rest =>
      let line := TrimSpace raw in
      if String.eqb line "" then intel_scan gm st rest
      else if HasPrefix line "Freq" then
        intel_scan gm {| header1 := line; cols := cols st; hadDataRow := hadDataRow st;
                         skippedFirst := skippedFirst st |} rest
      else if HasPrefix line "req" then
        intel_scan gm {| header1 := header1 st; cols := parseIntelHeaders (header1 st) line;
                         hadDataRow := hadDataRow st; skippedFirst := skippedFirst st |} rest
      else if negb (skippedFirst st) then
        intel_scan gm {| header1 := header1 st; cols := cols st; hadDataRow := hadDataRow st;
                         skippedFirst := true |} rest
      else match parseIntelData line (cols st) with
           | RowPanic => (gm, ScanPanic)
           | RowError => (gm, ScanError)
           | Row s => intel_scan (updateIntelFromStats gm s)
                        {| header1 := header1 st; cols := cols st; hadDataRow := true;
                           skippedFirst := true |} rest
           end
  end.

(** Arguments of the command. *)
Definition intel_args (getEnv : string → option string) : list string :=
  ["-s"; "3300"; "-l"] ++
  match getEnv "INTEL_GPU_DEVICE" with
  | Some dev => if String.eqb dev "" then [] else ["-d"; dev]
  | None => []
  end.

(** [None] is a panic. *)
Definition collectIntelStats (gm : GPUManager) (c : command) : option (GPUManager * option string) :=
  match c_start c with
  | Some err => Some (gm, Some err)
  | None =>
      let '(gm, e) := intel_scan gm scan_init (c_lines c) in
      match e with
      | ScanPanic => None
      | ScanError => Some (gm, Some errNoValidData)
      | ScanDone st =>
          Some (gm, match c_scan c with
                    | Some err => Some err
                    | None => if hadDataRow st then c_wait c else Some errNoValidData
                    end)
      end
  end.

(** *** Indexes *)

(** Columns that come from headers. *)
Definition columns_ok (c : columns) : Prop :=
  length (friendlyNames c) = length (engineNames c) ∧
  ((powerIndex c < 0)%Z ∨ (Z.to_nat (powerIndex c) + 1 < preEngineCols c + 3 * length (engineNames c))%nat).

Lemma headers_ok h1 h2 : columns_ok (parseIntelHeaders h1 h2).
Proof using Type.
  clear RO. unfold columns_ok, parseIntelHeaders. cbn [engineNames friendlyNames powerIndex preEngineCols].
  rewrite !length_fmap. split; [done|].
  set (n := length (omap _ _)). destruct (Nat.ltb_spec 0 n) as [Hn|Hn]; [|left; lia].
  destruct (list_find _ _) as [[i x]|] eqn:Hf; [right|left; lia].
  apply list_find_Some in Hf as (Hi%lookup_lt_Some&_). rewrite length_take in Hi. lia.
Qed.

Lemma columns_no_panic line c : columns_ok c → parseIntelData line c ≠ RowPanic.
Proof using Type.
  clear RO. intros [Hf Hp]. unfold parseIntelData. destruct (_ =? 0)%nat; [done|].
  destruct (Nat.ltb_spec (length (Fields line)) (preEngineCols c + 3 * length (engineNames c))); [done|].
  rewrite Hf, Nat.leb_refl. simpl negb. cbn iota.
  destruct (Z.leb_spec 0 (powerIndex c)); cbn [andb]; [|done]. destruct Hp as [|Hp]; [lia|].
  destruct (Nat.ltb_spec (Z.to_nat (powerIndex c)) (length (Fields line))); cbn [andb]; [|done].
  by destruct (Nat.ltb_spec (S (Z.to_nat (powerIndex c))) (length (Fields line))); [|lia].
Qed.

(** Headers before the second row of data. *)
Fixpoint headers_first (skipped : bool) (lines : list string) : bool :=
  match lines with
  | [] => true
  | raw :: rest =>
      let line := TrimSpace raw in
      if String.eqb line "" || HasPrefix line "Freq" then headers_first skipped rest
      else if HasPrefix line "req" then true
      else if skipped then false else headers_first true rest
  end.

Lemma intel_scan_safe lines : ∀ gm st,
  columns_ok (cols st) ∨ headers_first (skippedFirst st) lines = true →
  (intel_scan gm st lines).2 ≠ ScanPanic.
Proof using Type.
  induction lines as [|raw lines IH]; intros gm st H; [done|]. cbn [intel_scan headers_first] in *.
  destruct (String.eqb (TrimSpace raw) ""); [by apply IH|]. simpl orb in H.
  destruct (HasPrefix _ "Freq"); [by apply IH|].
  destruct (HasPrefix _ "req"); [apply IH; left; apply headers_ok|].
  destruct (skippedFirst st); simpl negb; cbn iota; [|by apply IH].
  destruct H as [H|]; [|done]. destruct (parseIntelData _ _) eqn:E; [|done|apply IH; by left].
  by destruct (columns_no_panic (TrimSpace raw) (cols st)).
Qed.

(** No row that intel_gpu_top prints can make the collector read past its end, if the headers
    stand before the second row. *)
Theorem intel_rows_in_range gm c :
  headers_first false (c_lines c) = true → is_Some (collectIntelStats gm c).
Proof using Type.
  intros H. unfold collectIntelStats. destruct (c_start c); [done|].
  pose proof (intel_scan_safe (c_lines c) gm scan_init (or_intror H)) as Hs.
  destruct (intel_scan _ _ _) as [gm' [| |st]]; [done|done|by eexists].
Qed.
End intel.

(** ** macOS *)

Definition appleGPUID : string := "0".
Definition apple_gpu : GPUData.t := GPUData.named "Apple GPU".

(** What [startPowermetricsCollector] and [startMacmonCollector] do first. *)
Definition ensure_apple (gm : GPUManager) : GPUManager :=
  match GpuDataMap gm !! appleGPUID with
  | Some _ => gm
  | None => with_gpus gm (<[appleGPUID := apple_gpu]> (GpuDataMap gm))
  end.

(** The idle residency and the power, if the lines have them. *)
Definition powermetrics_line (st : option f64 * option f64) (raw : string) : option f64 * option f64 :=
  let line := TrimSpace raw in
  let first p := head (Fields (TrimPrefix line p)) in
  let or_old (x old : option f64) := match x with Some v => Some v | None => old end in
  if HasPrefix line "GPU idle residency:" then
    (or_old (first "GPU idle residency:" ≫= λ f, SmartRaw.ParseFloat (TrimSuffix f "%")) st.1, st.2)
  else if HasPrefix line "GPU Power:" then
    (st.1, or_old (first "GPU Power:" ≫= SmartRaw.ParseFloat) st.2)
  else st.

Definition parsePowermetricsData (gm : GPUManager) (output : string) : GPUManager * bool :=
  match fold_left powermetrics_line (AgentSystem.scan_lines output) (None, None) with
  | (None, None) => (gm, false)
  | (idle, power) =>
      (update_gpu gm appleGPUID apple_gpu (λ g,
         let g := on_some idle (λ g x, add_usage g (f64_sub (f64_of_Z 100) x)) g in
         let g := on_some power (λ g x, add_power g (f64_div x milliwattsInAWatt)) g in
         counted g), true)
  end.

(** The output of a run, or its error. *)
Definition collectPowermetrics (gm : GPUManager) (out : string + string) : GPUManager * option string :=
  match out with
  | inl err => (gm, Some err)
  | inr out => let '(gm, ok) := parsePowermetricsData gm out in
               (gm, if ok then None else Some errNoValidData)
  end.

Definition startPowermetricsCollector (gm : GPUManager) (runs : list (string + string)) : loop GPUManager :=
  retry_loop collectPowermetrics true [2000%Z] [retryWaitTime] 0 (ensure_apple gm) runs.

Record macmonSample := { GPUPower : f64; GPURAMPower : f64; GPUUsage : list f64; GPUTempAvg : f64 }.

Definition parseMacmonLine (gm : GPUManager) (decoded : option macmonSample) : GPUManager * bool :=
  match decoded with
  | None => (gm, false)
  | Some s =>
      let usage := match GPUUsage s with
                   | _ :: u :: _ => if f64_le u (f64_of_Z 1) then f64_mul u (f64_of_Z 100) else u
                   | _ => f64_zero
                   end in
      if f64_eq usage f64_zero && f64_eq (GPUPower s) f64_zero && f64_eq (GPUTempAvg s) f64_zero
      then (gm, false)
      else (update_gpu gm appleGPUID apple_gpu (λ g,
              counted (add_power (add_usage (set_temp g (GPUTempAvg s)) usage)
                         (f64_add (GPUPower s) (GPURAMPower s)))), true)
  end.

Section macmon.
Context (Unmarshal : string → option macmonSample).

Definition collectMacmonPipe (gm : GPUManager) (c : command) : GPUManager * option string :=
  match c_start c with
  | Some err => (gm, Some err)
  | None =>
      let '(gm, hadSample) :=
        fold_left (λ st raw,
          let line := TrimSpace raw in
          if String.eqb line "" then st
          else let '(gm, ok) := parseMacmonLine st.1 (Unmarshal line) in (gm, st.2 || ok))
          (c_lines c) (gm, false) in
      (gm, match c_scan c with
           | Some err => Some err
           | None => if hadSample then c_wait c else Some errNoValidData
           end)
  end.

Definition startMacmonCollector (gm : GPUManager) (runs : list command) : loop GPUManager :=
  retry_loop collectMacmonPipe true [retryWaitTime] [retryWaitTime] 0 (ensure_apple gm) runs.
End macmon.

(** ** Collectors as events

    Whatever a collector does to the accumulators is a run of samples and touches, the events of
    [Gpu.step] for which the averages are proved. *)

Definition collects (e : event) : Prop := match e with Poll _ => False | _ => True end.
(** A change of an entry that takes a sample. *)
Definition is_sample (f : GPUData.t → GPUData.t) : Prop :=
  ∀ g, ∃ v c, f g = GPUData.mk (i_name v) (i_temp v) (i_used v) (i_total v) (plus (Usage g) (c_usage c))
    (plus (Power g) (c_power c)) (incr (Count g)) (Engines g) (PowerPkg g) ∧
    c_powerPkg c = None ∧ c_engines c = None.

(** A sample is found by the values it leaves and by what it added, if anything. *)
Ltac sample_with g' u p :=
  exists {| i_name := Name g'; i_temp := Temperature g'; i_used := MemoryUsed g'; i_total := MemoryTotal g' |},
    {| c_usage := u; c_power := p; c_powerPkg := None; c_engines := None |}; repeat split.

Section events.
Context `{FC : FloatConv} {RO : RangeOrder string}.

Definition sampled (gm gm' : GPUManager) : Prop :=
  ∃ evs, Forall collects evs ∧ gm' = fold_left step evs gm.

#[export] Instance sampled_preorder : PreOrder sampled.
Proof using Type.
  split; [by exists []|]. intros x y z (e1&H1&->) (e2&H2&->). exists (e1 ++ e2)%list.
  split; [by apply Forall_app|by rewrite fold_left_app].
Qed.

Lemma sampled_step gm e : collects e → sampled gm (step gm e).
Proof using Type. intros H. exists [e]. auto. Qed.

Lemma sampled_fold {A} (f : GPUManager → A → GPUManager) l :
  (∀ gm x, sampled gm (f gm x)) → ∀ gm, sampled gm (fold_left f l gm).
Proof using Type.
  intros Hf. induction l as [|x l IH]; intros gm; simpl; [done|]. etrans; [apply Hf|apply IH].
Qed.

Lemma sampled_update gm id name f : is_sample f → sampled gm (update_gpu gm id (GPUData.named name) f).
Proof using Type.
  intros Hf. destruct (Hf (default (GPUData.named name) (GpuDataMap gm !! id))) as (v&c&Hfg&Hk&He).
  assert (update_gpu gm id (GPUData.named name) f = step gm (Sample id v c)) as ->; [|by apply sampled_step].
  unfold update_gpu. rewrite Hfg. unfold step, update_entry, add_contribution. rewrite Hk, He.
  by destruct (GpuDataMap gm !! id).
Qed.

Lemma sampled_new gm id name : GpuDataMap gm !! id = None →
  sampled gm (with_gpus gm (<[id := GPUData.named name]> (GpuDataMap gm))).
Proof using Type.
  intros E. assert (with_gpus gm (<[id := GPUData.named name]> (GpuDataMap gm)) =
    step gm (Touch id {| i_name := name; i_temp := f64_zero; i_used := f64_zero; i_total := f64_zero |})) as ->;
    [|by apply sampled_step]. unfold step, update_entry. by rewrite E.
Qed.

Lemma add_sampled gm id o : sampled gm (add_gpu_sample gm id o).
Proof using Type. pose proof (add_gpu_sample_event gm id o) as E. cbv zeta in E. rewrite E. by apply sampled_step. Qed.

Lemma nvidia_sampled gm output : sampled gm (parseNvidiaData gm output).1.
Proof using Type.
  unfold parseNvidiaData. generalize false. revert gm.
  induction (AgentSystem.scan_lines output) as [|line ls IH]; intros gm b; simpl; [done|].
  etrans; [|rewrite (surjective_pairing (nvidia_line (gm, b) line)); apply IH].
  unfold nvidia_line. repeat case_match; simpl; try done. apply add_sampled.
Qed.

Lemma rocm_sampled Unmarshal gm output : sampled gm (parseAmdData Unmarshal gm output).1.
Proof using Type.
  unfold parseAmdData. destruct (Unmarshal output) as [info|]; [|done].
  destruct (range_list info) as [|p l]; [done|]. apply (sampled_fold (λ gm p, _) (p :: l)).
  intros. apply add_sampled.
Qed.

Lemma jetson_is_sample output : is_sample (jetson_update output).
Proof using Type.
  intros g. unfold jetson_update. set (g' := counted _).
  sample_with g' (SmartRaw.ParseFloat_any <$> find_match gr3dPattern output)
    ((λ x, f64_div (SmartRaw.ParseFloat_any x) milliwattsInAWatt) <$> find_match powerPattern output).
  unfold g'. by destruct (find_match ramPattern output), (find_match gr3dPattern output),
    (find_match tempPattern output), (find_match powerPattern output).
Qed.
Lemma jetson_sampled gm output : sampled gm (getJetsonParser gm output).1.
Proof using Type. apply sampled_update, jetson_is_sample. Qed.

Lemma nvtop_is_sample s : is_sample (nvtop_update s).
Proof using Type.
  intros g. unfold nvtop_update. set (g' := counted _).
  sample_with g' (parseNvtopNumber <$> n_util s) (parseNvtopNumber <$> n_power s).
  unfold g'. by destruct (n_temp s), (n_memUsed s), (n_memTotal s), (n_util s), (n_power s).
Qed.
Lemma nvtop_loop_sampled l : ∀ gm used i, sampled gm (nvtop_loop gm used i l).1.
Proof using Type.
  induction l as [|s l IH]; intros gm used i; simpl; [done|].
  destruct (String.eqb _ _); [apply IH|]. etrans; [apply sampled_update, (nvtop_is_sample s)|apply IH].
Qed.
Lemma nvtop_sampled gm l : sampled gm (updateNvtopSnapshots gm l).1.
Proof using Type.
  unfold updateNvtopSnapshots. pose proof (nvtop_loop_sampled l gm [] 0) as H. by destruct (nvtop_loop gm [] 0 l).
Qed.

Lemma intel_event gm s :
  let g := default (GPUData.named "GPU") (GpuDataMap gm !! "i0") in
  updateIntelFromStats gm s =
  step gm (Sample "i0"
    {| i_name := Name g; i_temp := Temperature g; i_used := MemoryUsed g; i_total := MemoryTotal g |}
    {| c_usage := None; c_power := Some (PowerGPU s); c_powerPkg := Some (PowerPkg_ s); c_engines := Some (Engines_ s) |}).
Proof using Type. unfold updateIntelFromStats, update_gpu, step, update_entry. by destruct (GpuDataMap gm !! "i0"). Qed.
Lemma intel_sampled gm s : sampled gm (updateIntelFromStats gm s).
Proof using Type. pose proof (intel_event gm s) as E. cbv zeta in E. rewrite E. by apply sampled_step. Qed.

Lemma apple_sampled gm : sampled gm (ensure_apple gm).
Proof using Type.
  unfold ensure_apple. destruct (GpuDataMap gm !! appleGPUID) eqn:E; [done|]. by apply sampled_new.
Qed.
Lemma powermetrics_sampled gm output : sampled gm (parsePowermetricsData gm output).1.
Proof using Type.
  unfold parsePowermetricsData. destruct (fold_left _ _ _) as [idle power].
  assert (Hs : sampled gm (update_gpu gm appleGPUID apple_gpu (λ g,
    counted (on_some power (λ g x, add_power g (f64_div x milliwattsInAWatt))
      (on_some idle (λ g x, add_usage g (f64_sub (f64_of_Z 100) x)) g))))).
  { apply sampled_update. intros g. set (g' := counted _).
    sample_with g' ((λ x, f64_sub (f64_of_Z 100) x) <$> idle) ((λ x, f64_div x milliwattsInAWatt) <$> power).
    unfold g'. by destruct idle, power. }
  by destruct idle, power.
Qed.
Lemma macmon_sampled gm decoded : sampled gm (parseMacmonLine gm decoded).1.
Proof using Type.
  unfold parseMacmonLine. destruct decoded as [s|]; [|done]. destruct (_ && _); [done|]. cbn [fst].
  apply sampled_update. intros g. match goal with |- context [add_usage _ ?x] => generalize x; intros u end.
  set (g' := counted _). by sample_with g' (Some u) (Some (f64_add (GPUPower s) (GPURAMPower s))).
Qed.
End events.

(** ** Examples *)

Definition ex_gm : GPUManager := mkManager ∅ ∅ ∅.
Definition ex_lines (l : list string) : command :=
  {| c_start := None; c_lines := l; c_scan := None; c_wait := None |}.

Example nvidia_ex :
  let r := parseNvidiaData ex_gm "0, NVIDIA GeForce RTX 3050 Ti Laptop GPU, 48, 1024, 4096, 26.3, [N/A]" in
  r.2 = true ∧
  (λ g, (Name g, twoDecimals (MemoryUsed g), Power g, Count g)) <$> GpuDataMap r.1 !! "0" =
    Some ("GeForce RTX 3050 Ti", f64_of_Z 1000, f64_zero, f64_of_Z 1).
Proof. vm_compute. split; reflexivity. Qed.

Example jetson_ex :
  let out := "RAM 4300/30698MB GR3D_FREQ 45% cpu@50C tj@52.5C VDD_GPU_SOC 2000mW VDD_SYS_GPU 1/2" in
  let g := jetson_update out (GPUData.named "GPU") in
  MemoryUsed g = f64_of_Z 4300 ∧ MemoryTotal g = f64_of_Z 30698 ∧ Usage g = f64_of_Z 45 ∧
  Temperature g = f64_div (f64_of_Z 105) (f64_of_Z 2) ∧ Power g = f64_of_Z 2.
Proof. vm_compute. by split_and!. Qed.

Definition ex_h1 : string := "Freq MHz IRQ RC6 Power W IMC MiB/s RCS/0 VCS/1 VCS/2".
Definition ex_h2 : string := " req act /s % gpu pkg rd wr % se wa % se wa % se wa".
Definition ex_intel : command :=
  ex_lines [ex_h1; ex_h2; "226 223 338 58 9.00 9.69 1820 965 0 0 0 0 0 0 0 0 0";
            "189 187 412 67 1.50 2.50 1950 823 8.50 2 1 15.00 1 0 22.00 0 1"].

(** Both video engines count as one. *)
Example intel_ex :
  (r ← collectIntelStats ex_gm ex_intel; g ← GpuDataMap r.1 !! "i0"; m ← Engines g;
   Some (r.2, Power g, Count g, m !! "Video")) =
    Some (None, f64_div (f64_of_Z 3) (f64_of_Z 2), f64_of_Z 1, Some (f64_of_Z 37)).
Proof. vm_compute. reflexivity. Qed.

Lemma intel_rows_in_range_witness :
  headers_first false (c_lines ex_intel) = true ∧ is_Some (collectIntelStats ex_gm ex_intel).
Proof. split; [reflexivity|]. apply (intel_rows_in_range ex_gm ex_intel). reflexivity. Defined.

(** Two rows of one field before the headers: the field after the first is read. *)
Example intel_short_row : collectIntelStats ex_gm (ex_lines ["waiting"; "waiting"]) = None.
Proof. reflexivity. Qed.

(** Five failures long ago, and one now. *)
Example rocm_gives_up :
  let run (gm : GPUManager) (ok : bool) := (gm, if ok then None else Some "exit status 1") in
  let runs := (replicate 5 false ++ replicate 100 true ++ [false])%list in
  l_stopped (startRocmSmiCollector run 4300 ex_gm runs) = true ∧
  l_stopped (retry_loop run true [2000%Z] [retryWaitTime] 0 ex_gm runs) = false.
Proof. vm_compute. repeat split; reflexivity. Qed.

Definition ex_slots (l : list string) : GPUManager :=
  mkManager (list_to_map (imap (λ i n, (index_id i, GPUData.named n)) l)) ∅ ∅.
Definition ex_snap (name : string) (util : string) : nvtopSnapshot := {|
  n_name := name; n_temp := None; n_power := None; n_util := Some util; n_memTotal := None;
  n_memUsed := None |}.
Definition ex_usage (gm : GPUManager) (id : string) : option (string * f64 * f64) :=
  (λ g, (Name g, Usage g, Count g)) <$> GpuDataMap gm !! id.

Definition ex_reordered : list nvtopSnapshot := [ex_snap "B" "20%"; ex_snap "A" "10%"].
Definition ex_slot (name : string) : string := if String.eqb name "A" then "n0" else "n1".

Lemma nvtop_reorder_safe_witness :
  GpuDataMap (updateNvtopSnapshots (ex_slots ["A"; "B"]) ex_reordered).1 !! "n0" =
    nvtop_update (ex_snap "A" "10%") <$> GpuDataMap (ex_slots ["A"; "B"]) !! "n0".
Proof.
  assert (Hs : slots_of (GpuDataMap (ex_slots ["A"; "B"])) 2 ex_slot).
  { split.
    - intros id g H Hp. apply elem_of_list_to_map_2 in H.
      vm_compute in H. set_unfold in H. destruct H as [[= -> ->]|[[= -> ->]|[]]]; by vm_compute.
    - intros [|[|i]] Hi; [by eexists|by eexists|lia]. }
  rewrite (nvtop_reorder_safe (ex_slots ["A"; "B"]) ex_slot ex_reordered Hs).
  - reflexivity.
  - repeat constructor; set_solver.
  - repeat constructor; done.
  - intros s Hin. set_unfold in Hin. destruct Hin as [->|[->|[]]]; (split; [done|]; by eexists).
Defined.

(** A device that is new in the batch takes the slot that another device of the batch has used: the
    slot gets both samples, and the name of the second. *)
Example nvtop_slot_taken :
  let gm := (updateNvtopSnapshots (ex_slots ["A"; "B"]) [ex_snap "B" "20%"; ex_snap "C" "90%"]).1 in
  ex_usage gm "n1" = Some ("C", f64_of_Z 110, f64_of_Z 2).
Proof. vm_compute. repeat split; reflexivity. Qed.
End GpuParse.
