(* ===== verification/GpuSysfs.v ===== *)
(** * GPU collectors that read files and a library ([agent/gpu_amd_linux.go],
    [gpu_drm_fdinfo_linux.go], [gpu_nvml.go], [gpu_nvml_linux.go])

    The kernel's files are a record of reads; what the NVML library answers is an argument. *)

From S2P Require Import Prelude GoFloat GoFloatFacts GoStrings GoText Entities AgentDisk AgentSystem SmartRaw Gpu GpuParse.
Import GPUData Gpu GpuParse.

Module GpuSysfs.
Local Open Scope string_scope.

(** The bytes of the first read of a file with a buffer, whole files, matches of a pattern and
    links. *)
Record files := {
  first_read : string → nat → option string;
  ReadFile : string → option string;
  Glob : string → list string;
  Readlink : string → option string;
}.

Section fs.
Context (fs : files).

Definition ReadStringFileLimited (path : string) (maxSize : nat) : option string :=
  TrimSpace <$> first_read fs path maxSize.

(** [readSysfsFloat]: the number and whether there was no error. *)
Definition readSysfsFloat (path : string) : f64 * bool :=
  match ReadStringFileLimited path 64 with
  | None => (f64_zero, false)
  | Some val => (SmartRaw.ParseFloat_any val, bool_decide (is_Some (SmartRaw.ParseFloat val)))
  end.

Definition reads_as (path : string) (v : string) : bool :=
  match ReadStringFileLimited path 64 with Some x => String.eqb x v | None => false end.

(** ** AMD cards *)

Definition hasAmdSysfs : bool :=
  existsb (λ vendorPath, reads_as vendorPath "0x1002" &&
             bool_decide (is_Some (ReadStringFileLimited (JoinPath [Dir vendorPath; "gpu_busy_percent"]) 64)))
    (Glob fs "/sys/class/drm/card*/device/vendor").

Definition isAmdGpu (cardPath : string) : bool := reads_as (JoinPath [cardPath; "device/vendor"]) "0x1002".

(** *** Names *)

Record name_cache := { hits : gmap string string; misses : gset string }.

Definition normalizeHexID (id : string) : string := TrimPrefix (ToLower (TrimSpace id)) "0x".
Definition cacheKeyForAmdgpu (deviceID revisionID : string) : string :=
  if String.eqb revisionID "" then deviceID else deviceID ++ ":" ++ revisionID.

(** A line of [amdgpu.ids]: device, revision and name. *)
Definition ids_line (raw : string) : option (string * string * string) :=
  let line := TrimSpace raw in
  if String.eqb line "" || HasPrefix line "#" then None
  else
    '(dev, rest) ← Cut line ","; '(rev, product) ← Cut rest ",";
    Some (normalizeHexID dev, normalizeHexID rev, TrimSpace product).

Fixpoint ids_loop (deviceID revisionID byDevice : string) (lines : list string) : option (string * bool) :=
  match lines with
  | [] => if String.eqb byDevice "" then None else Some (byDevice, false)
  | raw :: rest =>
      match ids_line raw with
      | None => ids_loop deviceID revisionID byDevice rest
      | Some (dev, rev, productName) =>
          if String.eqb dev "" || String.eqb productName "" || negb (String.eqb dev deviceID)
          then ids_loop deviceID revisionID byDevice rest
          else
            let byDevice := if String.eqb byDevice "" then productName else byDevice in
            if negb (String.eqb revisionID "") && String.eqb rev revisionID then Some (productName, true)
            else ids_loop deviceID revisionID byDevice rest
      end
  end.
(** The name and whether it is that of the revision. *)
Definition lookupAmdgpuNameInFile (deviceID revisionID filePath : string) : option (string * bool) :=
  content ← ReadFile fs filePath; ids_loop deviceID revisionID "" (AgentSystem.scan_lines content).

Definition cache_keys (deviceID revisionID : string) : list string :=
  cacheKeyForAmdgpu deviceID revisionID :: (if String.eqb revisionID "" then [] else [deviceID]).

(** The name, or whether a lookup is known to fail. *)
Definition getCachedAmdgpuName (c : name_cache) (deviceID revisionID : string) : string + bool :=
  let keys := cache_keys deviceID revisionID in
  match head (omap (λ k, hits c !! k) keys) with
  | Some name => inl name
  | None => inr (forallb (λ k, bool_decide (k ∈ misses c)) keys)
  end.

Definition normalizeAmdgpuName (name : string) : string := TrimSuffix (TrimSuffix name " Graphics") " Series".

Definition cacheAmdgpuName (c : name_cache) (deviceID revisionID name : string) (exact : bool) : name_cache :=
  let name := normalizeAmdgpuName name in
  {| hits := <[deviceID := name]>
       (if exact && negb (String.eqb revisionID "")
        then <[cacheKeyForAmdgpu deviceID revisionID := name]> (hits c) else hits c);
     misses := misses c |}.
Definition cacheMissingAmdgpuName (c : name_cache) (deviceID revisionID : string) : name_cache :=
  {| hits := hits c;
     misses := (if String.eqb revisionID "" then ∅ else {[cacheKeyForAmdgpu deviceID revisionID]}) ∪
               ({[deviceID]} ∪ misses c) |}.

(** The part of [getAmdGpuName] that has a device and a revision. *)
Definition resolve_name (c : name_cache) (id revision : string) : name_cache * string :=
  let fallback := "AMD GPU (" ++ id ++ ")" in
  match getCachedAmdgpuName c id revision with
  | inl name => (c, name)
  | inr true => (c, fallback)
  | inr false =>
      match lookupAmdgpuNameInFile id revision "/usr/share/libdrm/amdgpu.ids" with
      | Some (name, exact) => (cacheAmdgpuName c id revision name exact, normalizeAmdgpuName name)
      | None => (cacheMissingAmdgpuName c id revision, fallback)
      end
  end.

Definition getAmdGpuName (c : name_cache) (devicePath : string) : name_cache * string :=
  match ReadStringFileLimited (JoinPath [devicePath; "product_name"]) 128 with
  | Some prod => (c, prod)
  | None =>
      match ReadStringFileLimited (JoinPath [devicePath; "device"]) 64 with
      | None => (c, "AMD GPU")
      | Some deviceID =>
          let revision := match ReadStringFileLimited (JoinPath [devicePath; "revision"]) 64 with
                          | Some rev => normalizeHexID rev | None => "" end in
          resolve_name c (normalizeHexID deviceID) revision
      end
  end.

(** *** Samples *)

Definition hwmon_step (st : f64 * f64) (hwmonDir : string) : f64 * f64 :=
  let '(temp, power) := st in
  let '(t, t_ok) := readSysfsFloat (JoinPath [hwmonDir; "temp1_input"]) in
  let temp := if t_ok then f64_div t (f64_of_Z 1000) else temp in
  let '(p, p_ok) := readSysfsFloat (JoinPath [hwmonDir; "power1_average"]) in
  let '(p, p_ok) := if p_ok then (p, true) else readSysfsFloat (JoinPath [hwmonDir; "power1_input"]) in
  (temp, if p_ok then f64_add power (f64_div p (f64_of_Z 1000000)) else power).

Definition updateAmdGpuData (st : GPUManager * name_cache) (cardPath : string)
    : (GPUManager * name_cache) * bool :=
  let '(gm, cache) := st in
  let devicePath := JoinPath [cardPath; "device"] in
  let id := Base cardPath in
  let read f := readSysfsFloat (JoinPath [devicePath; f]) in
  let '(usage, usage_ok) := read "gpu_busy_percent" in
  let '(memUsed, used_ok) := read "mem_info_vram_used" in
  let '(memTotal, _) := read "mem_info_vram_total" in
  let '(gttUsed, gu_ok) := read "mem_info_gtt_used" in
  let '(gttTotal, gt_ok) := read "mem_info_gtt_total" in
  let gtt := gu_ok && f64_lt f64_zero gttUsed && gt_ok in
  let memUsed := if gtt then f64_add memUsed gttUsed else memUsed in
  let memTotal := if gtt then f64_add memTotal gttTotal else memTotal in
  let '(temp, power) := fold_left hwmon_step (Glob fs (JoinPath [devicePath; "hwmon/hwmon*"]))
                          (f64_zero, f64_zero) in
  if negb usage_ok && negb used_ok && f64_eq temp f64_zero then ((gm, cache), false)
  else
    let '(cache, gpu) :=
      match GpuDataMap gm !! id with
      | Some gpu => (cache, gpu)
      | None => let '(cache, name) := getAmdGpuName cache devicePath in (cache, GPUData.named name)
      end in
    let gpu := if usage_ok then add_usage gpu usage else gpu in
    let gpu := set_mem gpu (AgentDisk.BytesToMegabytes memUsed) (AgentDisk.BytesToMegabytes memTotal) in
    let gpu := counted (add_power (set_temp gpu temp) power) in
    ((with_gpus gm (<[id := gpu]> (GpuDataMap gm)), cache), true).

(** One round over the cards. *)
Definition amd_round (paths : list string) (st : GPUManager * name_cache)
    : (GPUManager * name_cache) * option string :=
  let '(st, hasData) := fold_left (λ a p, let '(st, ok) := updateAmdGpuData a.1 p in (st, a.2 || ok))
                          paths (st, false) in
  (st, if hasData then None else Some errNoValidData).

Definition amd_paths : list string :=
  List.filter (λ card, negb (Contains (Base card) "-" || negb (isAmdGpu card))) (Glob fs "/sys/class/drm/card*").
End fs.

(** [collectAmdStats]: the cards are those of the start, the files those of each round. *)
Definition collectAmdStats (fs0 : files) (st : GPUManager * name_cache) (rounds : list files)
    : loop (GPUManager * name_cache) :=
  match amd_paths fs0 with
  | [] => {| l_gm := st; l_stopped := true; l_waits := [] |}
  | paths => retry_loop (λ st fs, amd_round fs paths st) true [3000%Z] [retryWaitTime] 0 st rounds
  end.

(** *** The cache of names *)

Section cache.
Context (fs : files).

(** The name without a cache. *)
Definition name_of (p : string * string) : string :=
  match lookupAmdgpuNameInFile fs p.1 p.2 "/usr/share/libdrm/amdgpu.ids" with
  | Some (name, _) => normalizeAmdgpuName name
  | None => "AMD GPU (" ++ p.1 ++ ")"
  end.

(** What the cache knows of the devices of a machine is true of them. *)
Definition cache_ok (Q : list (string * string)) (c : name_cache) : Prop :=
  ∀ p k, p ∈ Q → k ∈ cache_keys p.1 p.2 →
    (∀ n, hits c !! k = Some n → name_of p = n) ∧
    (k ∈ misses c → name_of p = "AMD GPU (" ++ p.1 ++ ")").

Lemma resolve_name_ok Q c p :
  (∀ q k, q ∈ Q → k ∈ cache_keys p.1 p.2 → k ∈ cache_keys q.1 q.2 → q = p) → p ∈ Q →
  cache_ok Q c →
  (resolve_name fs c p.1 p.2).2 = name_of p ∧ cache_ok Q (resolve_name fs c p.1 p.2).1.
Proof using Type.
  intros Hd Hp Hc. unfold resolve_name, getCachedAmdgpuName.
  destruct (head (omap _ _)) as [n|] eqn:Hh.
  { split; [|done]. assert (n ∈ omap (λ k, hits c !! k) (cache_keys p.1 p.2)) as Hin
      by (destruct (omap _ _); simplify_eq/=; left).
    apply list_elem_of_omap in Hin as (k&Hk&Hn). symmetry. by apply (Hc p k). }
  destruct (forallb _ _) eqn:Hf.
  { split; [|done]. simpl in Hf. apply andb_prop in Hf as [Hf _]. apply bool_decide_eq_true in Hf.
    symmetry. eapply (Hc p); [done| |exact Hf]. left. }
  assert (Hkeys : p.1 ∈ cache_keys p.1 p.2 ∧ (p.2 ≠ "" → cacheKeyForAmdgpu p.1 p.2 ∈ cache_keys p.1 p.2)).
  { unfold cache_keys, cacheKeyForAmdgpu. destruct (String.eqb_spec p.2 ""); set_solver. }
  destruct Hkeys as [Hk1 Hk2].
  assert (name_of p = name_of p) as E by done. unfold name_of at 2 in E.
  destruct (lookupAmdgpuNameInFile _ _ _ _) as [[n ex]|]; (split; [by rewrite E|]); intros q k Hq Hk;
    destruct (Hc q k Hq Hk) as [Hh' Hm']; (split; [intros n' Hn'|intros Hin]); simpl in *; try done; try (by apply Hh').
  - rewrite lookup_insert_Some in Hn'. destruct Hn' as [[<- <-]|[_ Hn']]; [by rewrite (Hd q p.1 Hq Hk1 Hk), E|].
    destruct (String.eqb_spec p.2 "") as [|Hr]; [rewrite andb_false_r in Hn'; by apply Hh'|].
    destruct ex; [|by apply Hh']. simpl in Hn'. rewrite lookup_insert_Some in Hn'.
    destruct Hn' as [[<- <-]|[_ Hn']]; [by rewrite (Hd q _ Hq (Hk2 Hr) Hk), E|by apply Hh'].
  - by apply Hm'.
  - destruct (String.eqb_spec p.2 "") as [|Hr].
    + apply elem_of_union in Hin as [?%elem_of_empty|[->%elem_of_singleton|?]%elem_of_union]; [done| |by apply Hm'].
      by rewrite (Hd q p.1 Hq Hk1 Hk), E.
    + apply elem_of_union in Hin as [->%elem_of_singleton|[->%elem_of_singleton|?]%elem_of_union];
        [by rewrite (Hd q _ Hq (Hk2 Hr) Hk), E|by rewrite (Hd q p.1 Hq Hk1 Hk), E|by apply Hm'].
Qed.

(** The names of cards asked for one after the other. *)
Fixpoint resolve_all (c : name_cache) (l : list (string * string)) : list string :=
  match l with
  | [] => []
  | p :: l => let '(c, n) := resolve_name fs c p.1 p.2 in n :: resolve_all c l
  end.

(** No two devices share a key of the cache. *)
Definition keys_disjoint (Q : list (string * string)) : Prop :=
  ∀ p q k, p ∈ Q → q ∈ Q → k ∈ cache_keys p.1 p.2 → k ∈ cache_keys q.1 q.2 → q = p.

Lemma resolve_all_ok Q l : ∀ c,
  keys_disjoint Q → cache_ok Q c → (∀ p, p ∈ l → p ∈ Q) → resolve_all c l = name_of <$> l.
Proof using Type.
  induction l as [|p l IH]; intros c Hd Hc Hsub; [done|]. cbn [resolve_all].
  destruct (resolve_name_ok Q c p) as [Hn Hc']; [|by apply Hsub; left|done|].
  { intros q k Hq Hk1 Hk2. apply (Hd p q k); [apply Hsub; left|done..]. }
  destruct (resolve_name fs c p.1 p.2) as [c' n]. simpl in *. rewrite Hn. f_equal.
  apply IH; [done|done|]. intros q Hq. apply Hsub. by right.
Qed.

(** With no two cards that differ but share a device, every card's name is the one that the
    file gives its device and revision, whichever cards were named before. *)
Theorem amd_cache_transparent l :
  keys_disjoint l → resolve_all {| hits := ∅; misses := ∅ |} l = name_of <$> l.
Proof using Type.
  intros Hd. apply (resolve_all_ok l l); [done| |done]. intros p k _ _.
  split; [intros n Hn|intros Hn]; simpl in Hn; [by rewrite lookup_empty in Hn|set_solver].
Qed.
End cache.

(** ** DRM clients *)

(** [strconv.ParseUint(s, 10, 64)] with its error ignored *)
Definition ParseUint_any (s : string) : Z :=
  if String.eqb s "" then 0%Z
  else match parse_digits s 0 with Some n => Z.min n (2 ^ 64 - 1) | None => 0%Z end.

Definition parseFdinfoNs (s : string) : Z :=
  let s := TrimSpace s in
  ParseUint_any (match Cut s " " with Some (x, _) => if String.eqb x "" then s else x | None => s end).

Record fdinfo := { f_pdev : string; f_driver : string; f_engines : option (gmap string Z) }.

Definition add_ns (m : gmap string Z) (engine : string) (ns : Z) : gmap string Z :=
  <[engine := u64 (default 0%Z (m !! engine) + ns)]> m.

Definition fdinfo_line (st : fdinfo) (line : string) : fdinfo :=
  if negb (HasPrefix line "drm-") then st
  else match Cut line ":" with
  | None => st
  | Some (key, rest) =>
      let val := TrimSpace rest in
      if String.eqb key "drm-driver" then
        {| f_pdev := f_pdev st; f_driver := val; f_engines := f_engines st |}
      else if String.eqb key "drm-pdev" then
        {| f_pdev := val; f_driver := f_driver st; f_engines := f_engines st |}
      else if HasPrefix key "drm-engine-" && negb (HasPrefix key "drm-engine-capacity-") then
        {| f_pdev := f_pdev st; f_driver := f_driver st;
           f_engines := Some (add_ns (default ∅ (f_engines st)) (TrimPrefix key "drm-engine-")
                                (parseFdinfoNs val)) |}
      else st
  end.
(** From the content of the file, if it can be opened. *)
Definition parseDrmFdinfo (content : option string) : fdinfo :=
  let none := {| f_pdev := ""; f_driver := ""; f_engines := None |} in
  match content with
  | None => none
  | Some c => fold_left fdinfo_line (AgentSystem.scan_lines c) none
  end.

Record fdinfoSnapshot := { cards : gmap string (gmap string Z); timestamp : Z }.

Section fdinfo.
Context {RO : RangeOrder string} (fs : files).

Definition gather_one (m : gmap string (gmap string Z)) (path : string) : gmap string (gmap string Z) :=
  let f := parseDrmFdinfo (ReadFile fs path) in
  let engines := range_list (default ∅ (f_engines f)) in
  if String.eqb (f_pdev f) "" || match engines with [] => true | _ => false end then m
  else <[f_pdev f := fold_left (λ d p, add_ns d p.1 p.2) engines (default ∅ (m !! f_pdev f))]> m.
Definition gatherFdinfoSnapshot (now : Z) : fdinfoSnapshot :=
  {| cards := fold_left gather_one (Glob fs "/proc/[0-9]*/fdinfo/[0-9]*") ∅; timestamp := now |}.

Definition vendorLabel (vendor : string) : string :=
  if String.eqb vendor "0x8086" then "Intel"
  else if String.eqb vendor "0x1002" then "AMD"
  else if String.eqb vendor "0x10de" then "NVIDIA"
  else if String.eqb vendor "0x14e4" then "Broadcom"
  else "Unknown".

(** The cards, without their connectors. *)
Definition drm_cards : list string :=
  List.filter (λ card, negb (Contains (Base card) "-")) (Glob fs "/sys/class/drm/card[0-9]*").
Definition hasDrmFdinfo : bool := match drm_cards with [] => false | _ => true end.

Definition is_card (pdev card : string) : bool :=
  match Readlink fs (JoinPath [card; "device"]) with
  | None => false
  | Some dev => HasSuffix dev ("/" ++ pdev) || String.eqb (Base dev) pdev
  end.

Definition getDrmGpuName (pdev : string) : string :=
  match List.find (is_card pdev) drm_cards with
  | None => "GPU (" ++ pdev ++ ")"
  | Some card =>
      let read f := default "" (ReadStringFileLimited fs (JoinPath [card; f]) 64) in
      vendorLabel (read "device/vendor") ++ " GPU (" ++ normalizeHexID (read "device/device") ++ ")"
  end.

Definition readDrmCardTemp (pdev : string) : f64 :=
  let hwmons := mjoin ((λ card, Glob fs (JoinPath [card; "device/hwmon/hwmon*"])) <$>
                         List.filter (is_card pdev) drm_cards) in
  default f64_zero (head (omap (λ h, let '(t, ok) := readSysfsFloat fs (JoinPath [h; "temp1_input"]) in
                                      if ok : bool then Some (f64_div t (f64_of_Z 1000)) else None) hwmons)).

(** The share of the interval that an engine was busy. *)
Definition engine_pct (intervalNs curNs prevNs : Z) : f64 :=
  f64_div (f64_mul (f64_of_Z (curNs - prevNs)) (f64_of_Z 100)) (f64_of_Z intervalNs).

Definition busy_step (intervalNs : Z) (prevEngines : gmap string Z) (maxBusyPct : f64) (p : string * Z) : f64 :=
  let prevNs := default 0%Z (prevEngines !! p.1) in
  if (p.2 <=? prevNs)%Z then maxBusyPct
  else let pct := engine_pct intervalNs p.2 prevNs in if f64_lt maxBusyPct pct then pct else maxBusyPct.

Definition maxBusy (intervalNs : Z) (prevEngines curEngines : gmap string Z) : f64 :=
  let m := fold_left (busy_step intervalNs prevEngines) (range_list curEngines) f64_zero in
  if f64_lt (f64_of_Z 100) m then f64_of_Z 100 else m.

Definition applyFdinfoDelta (gm : GPUManager) (prev cur : fdinfoSnapshot) : GPUManager :=
  let intervalNs := u64 (timestamp cur - timestamp prev) in
  if (intervalNs =? 0)%Z then gm
  else fold_left (λ gm p,
    match cards prev !! p.1 with
    | None => gm
    | Some prevEngines =>
        update_gpu gm p.1 (GPUData.named (getDrmGpuName p.1)) (λ g,
          let g := counted (add_usage g (maxBusy intervalNs prevEngines p.2)) in
          let t := readDrmCardTemp p.1 in
          if f64_lt f64_zero t then set_temp g t else g)
    end) (range_list (cards cur)) gm.
End fdinfo.

(** [collectDrmFdinfoStats], over the files and times of its rounds: the previous snapshot is
    forgotten while there are no clients. *)
Definition fdinfo_round `{RO : RangeOrder string} (st : GPUManager * option fdinfoSnapshot) (r : files * Z)
    : GPUManager * option fdinfoSnapshot :=
  let cur := gatherFdinfoSnapshot r.1 r.2 in
  match range_list (cards cur) with
  | [] => (st.1, None)
  | _ => (match st.2 with Some prev => applyFdinfoDelta r.1 st.1 prev cur | None => st.1 end, Some cur)
  end.
Definition collectDrmFdinfoStats `{RO : RangeOrder string} (gm : GPUManager) (rounds : list (files * Z))
    : GPUManager := (fold_left fdinfo_round rounds (gm, None)).1.

Section busy.
Context {RO : RangeOrder string}.

Lemma f64_le_lt_trans x y z : f64_le x y = true → f64_lt y z = true → f64_lt x z = true.
Proof using Type.
  clear RO. intros ??. f64_order. do 2 eexists. split_and!; [done..|]. simpl in *. naive_solver lia.
Qed.

Lemma busy_loop i prev l : ∀ m,
  f64_le f64_zero m = true →
  let r := fold_left (busy_step i prev) l m in
  f64_le m r = true ∧
  (∀ e c, (e, c) ∈ l → (default 0 (prev !! e) < c)%Z → f64_lt r (engine_pct i c (default 0%Z (prev !! e))) = false) ∧
  (r = m ∨ ∃ e c, (e, c) ∈ l ∧ (default 0 (prev !! e) < c)%Z ∧ r = engine_pct i c (default 0%Z (prev !! e))).
Proof using Type.
  clear RO. induction l as [|[e c] l IH]; intros m Hm; cbn [fold_left].
  { split_and!; [|set_solver|by left]. apply f64_le_refl, (f64_le_nan _ _ Hm). }
  set (m' := busy_step i prev m (e, c)).
  assert (Hm' : f64_le m m' = true ∧ ((default 0 (prev !! e) < c)%Z →
    f64_lt m' (engine_pct i c (default 0%Z (prev !! e))) = false) ∧
    (m' = m ∨ (default 0 (prev !! e) < c)%Z ∧ m' = engine_pct i c (default 0%Z (prev !! e)))).
  { unfold m', busy_step. simpl. destruct (Z.leb_spec c (default 0%Z (prev !! e))).
    - split_and!; [|lia|by left]. apply f64_le_refl, (f64_le_nan _ _ Hm).
    - destruct (f64_lt m _) eqn:E.
      + split_and!; [by apply f64_lt_le| |by right]. intros _. apply f64_le_not_lt, f64_le_refl, (f64_lt_nan _ _ E).
      + split_and!; [|done|by left]. apply f64_le_refl, (f64_le_nan _ _ Hm). }
  destruct Hm' as (H1&H2&H3). destruct (IH m') as (I1&I2&I3); [by eapply f64_le_trans|].
  split_and!.
  - by eapply f64_le_trans.
  - intros e' c' [[= -> ->]|Hin]%elem_of_cons Hlt; [|by apply I2].
    apply not_true_iff_false. intros E. pose proof (f64_le_lt_trans _ _ _ I1 E) as X.
    by rewrite (H2 Hlt) in X.
  - destruct I3 as [->|(e'&c'&?&?&?)]; [|right; exists e', c'; split_and!; try done; by right].
    destruct H3 as [->|[? ->]]; [by left|]. right. exists e, c. split_and!; try done. left.
Qed.

(** The usage that an interval adds is the share of the busiest engine, and never leaves
    0 to 100 %, whatever the counters of the clients did. *)
Theorem fdinfo_usage_bounded i prev cur :
  let x := maxBusy i prev cur in
  f64_le f64_zero x = true ∧ f64_le x (f64_of_Z 100) = true ∧
  (∀ e c, cur !! e = Some c → (default 0 (prev !! e) < c)%Z →
     x = f64_of_Z 100 ∨ f64_lt x (engine_pct i c (default 0%Z (prev !! e))) = false) ∧
  (x = f64_zero ∨ x = f64_of_Z 100 ∨
   ∃ e c, cur !! e = Some c ∧ (default 0 (prev !! e) < c)%Z ∧ x = engine_pct i c (default 0%Z (prev !! e))).
Proof using Type.
  unfold maxBusy. destruct (busy_loop i prev (range_list cur) f64_zero eq_refl) as (H1&H2&H3).
  set (m := fold_left _ _ _) in *. destruct (f64_lt (f64_of_Z 100) m) eqn:E.
  - split_and!; [done|done|by left|right; by left].
  - split_and!; [done| | |].
    + pose proof (f64_lt_negb_le (f64_of_Z 100) m eq_refl (proj2 (f64_le_nan _ _ H1))) as X.
      rewrite E in X. by destruct (f64_le m _).
    + intros e c He Hlt. right. apply H2; [|done]. by apply elem_of_range_list.
    + destruct H3 as [->|(e&c&Hin&?&?)]; [by left|]. right. right. exists e, c.
      split_and!; [|done|done]. by apply elem_of_range_list.
Qed.
End busy.

(** ** NVML

    What the library answers about a device: nothing stands for an error. *)
Record nvml_device := {
  d_bus : option string; (* the bytes of the bus id *)
  d_name : option string; (* the name, which the library ends with a NUL *)
  d_util : option Z;
  d_temp : option Z;
  d_mem : option (Z * Z); (* used and total *)
  d_power : option Z;
}.

(** [init]: the devices with a handle, and their bus ids. *)
Definition bus_id (d : nvml_device) : string :=
  match d_bus d with
  | None => ""
  | Some b => ToLower (match Cut b (String "000" "") with Some (x, _) => x | None => b end)
  end.
Definition nvml_init (handles : list (option nvml_device)) : list nvml_device * list string :=
  fold_left (λ st h, match h with Some d => (st.1 ++ [d], st.2 ++ [bus_id d])%list | None => st end)
    handles ([], []).

Definition isGPUActive (fs : files) (bdf : string) : bool :=
  match TrimSpace <$> ReadFile fs (JoinPath ["/sys/bus/pci/devices"; bdf; "power/runtime_status"]) with
  | None => true
  | Some status =>
      (String.eqb status "active" || String.eqb status "resuming") &&
      match head (Glob fs (JoinPath ["/sys/bus/pci/devices"; bdf; "drm/card*/device/power_state"])) with
      | None => true
      | Some m => match ReadFile fs m with
                  | Some pstate => String.eqb (TrimSpace pstate) "D0"
                  | None => true
                  end
      end
  end.

Definition suspended (g : GPUData.t) : GPUData.t :=
  GPUData.mk (Name g) f64_zero f64_zero (MemoryTotal g) (Usage g) (Power g) (Count g) (Engines g) (PowerPkg g).

Definition nvml_megabytes (bytes : Z) : f64 :=
  f64_div (f64_div (f64_div (f64_of_Z bytes) (f64_of_Z 1024)) (f64_of_Z 1024)) mebibytesInAMegabyte.

Definition nvml_sample (d : nvml_device) (util : Z) (g : GPUData.t) : GPUData.t :=
  let g := if (0 <? util)%Z then
             match d_mem d with
             | Some (used, total) =>
                 if (0 <? total)%Z then set_mem g (nvml_megabytes used) (nvml_megabytes total) else g
             | None => g
             end
           else g in
  let g := set_temp g (f64_of_Z (default 0%Z (d_temp d))) in
  let g := add_usage g (f64_of_Z util) in
  counted (add_power g (f64_div (f64_of_Z (default 0%Z (d_power d))) (f64_of_Z 1000))).

(** One device of [collect], with its place and bus id. *)
Definition nvml_one (fs : files) (gm : GPUManager) (i : nat) (d : nvml_device) (bdf : string) : GPUManager :=
  let id := print_nat i in
  match match GpuDataMap gm !! id with
        | Some g => Some g
        | None => (λ n, GPUData.named (TrimSuffix (TrimPrefix n "NVIDIA ") " Laptop GPU")) <$> d_name d
        end with
  | None => gm
  | Some g =>
      let g := if negb (String.eqb bdf "") && negb (isGPUActive fs bdf) then suspended g
               else match d_util d with
                    | None => suspended g
                    | Some util => nvml_sample d util g
                    end in
      with_gpus gm (<[id := g]> (GpuDataMap gm))
  end.

(** [collect]; an index out of range panics. *)
Fixpoint nvml_loop (fs : files) (gm : GPUManager) (i : nat) (devices : list nvml_device) (bdfs : list string)
    : option GPUManager :=
  match devices with
  | [] => Some gm
  | d :: devices => bdf ← bdfs !! i; nvml_loop fs (nvml_one fs gm i d bdf) (S i) devices bdfs
  end.
Definition nvml_collect (fs : files) (gm : GPUManager) (c : list nvml_device * list string) : option GPUManager :=
  nvml_loop fs gm 0 c.1 c.2.

Lemma nvml_init_lengths handles :
  length (nvml_init handles).1 = length (nvml_init handles).2.
Proof.
  unfold nvml_init. apply (fold_left_inv _ (λ st, length st.1 = length st.2)); [done|].
  intros [ds bs] [d|] ? H; simpl in *; [|done]. rewrite !length_app. simpl. lia.
Qed.

Lemma nvml_loop_safe fs devices : ∀ gm i bdfs,
  (i + length devices ≤ length bdfs)%nat → is_Some (nvml_loop fs gm i devices bdfs).
Proof.
  induction devices as [|d ds IH]; intros gm i bdfs H; [by eexists|]. simpl in *.
  destruct (lookup_lt_is_Some_2 bdfs i) as [b ->]; [lia|]. simpl. apply IH. lia.
Qed.

Lemma nvml_collect_safe fs gm handles : is_Some (nvml_collect fs gm (nvml_init handles)).
Proof. apply nvml_loop_safe. rewrite nvml_init_lengths. lia. Qed.

Section suspend.
Context `{FC : FloatConv} {RO : RangeOrder string}.

(** A GPU that NVML finds suspended since the last poll of an interval is reported with zero
    usage and power at the next, not with the average it had before. *)
Theorem suspended_reports_zero fs gm k i d bdf g s :
  GpuDataMap gm !! print_nat i = Some g → snapshot gm k (print_nat i) = Some s →
  s_count s = f64_to_uint 32 (Count g) →
  (bdf ≠ "" ∧ isGPUActive fs bdf = false ∨ d_util d = None) →
  ∃ out, (GetCurrentData (nvml_one fs gm i d bdf) k).2 !! print_nat i = Some out ∧
    Usage out = f64_zero ∧ Power out = f64_zero ∧ Temperature out = twoDecimals f64_zero.
Proof using Type.
  intros Hg Hs Hc Hsus. set (id := print_nat i) in *.
  assert (E : nvml_one fs gm i d bdf = with_gpus gm (<[id := suspended g]> (GpuDataMap gm))).
  { unfold nvml_one. fold id. rewrite Hg. do 2 f_equal. destruct Hsus as [[Hb Ha]| ->].
    - rewrite Ha, (proj2 (String.eqb_neq _ _) Hb). done.
    - by destruct (_ && _). }
  rewrite E. unfold GetCurrentData. set (gm0 := with_gpus gm _). set (gm1 := initializeSnapshots gm0 k).
  assert (Hmap : GpuDataMap gm1 = GpuDataMap gm0)
    by (unfold gm1, initializeSnapshots; by destruct (lastSnapshots gm0 !! k)).
  destruct (fold_left _ _ _) as [gm' out'] eqn:Hf. simpl.
  destruct (poll_loop k _ _ gm1 ∅ gm' out' (NoDup_fst_range_list _) Hf) as (_&Hin&_).
  destruct (Hin id (suspended g)) as (out&Hout&Hu&Hp&_&_&Ht&_).
  { rewrite elem_of_range_list, Hmap. simpl. by rewrite lookup_insert_eq. }
  exists out. split; [done|]. rewrite Hu, Hp, Ht. unfold calculateGPUAverage, gm1. rewrite init_snapshot.
  change (snapshot gm0 k id) with (snapshot gm k id). rewrite Hs. cbn [calculateDeltaCount].
  rewrite Hc. change (Count (suspended g)) with (Count g). by rewrite Z.sub_diag.
Qed.
End suspend.

(** ** Collectors as events

    These collectors too do nothing to the accumulators but take samples and set values
    ([GpuParse.sampled]). *)

Section events.
Context `{FC : FloatConv} {RO : RangeOrder string}.

Lemma amd_sampled fs gm cache cardPath :
  sampled gm (updateAmdGpuData fs (gm, cache) cardPath).1.1.
Proof using Type.
  unfold updateAmdGpuData. destruct (readSysfsFloat _ _) as [usage uok]. destruct (readSysfsFloat _ _) as [used ok].
  destruct (readSysfsFloat _ _) as [total ?]. destruct (readSysfsFloat _ _) as [gu ?].
  destruct (readSysfsFloat _ _) as [gt ?]. destruct (fold_left _ _ _) as [temp power].
  destruct (negb uok && _ && _); [done|]. set (id := Base cardPath).
  assert (Hs : ∀ name f, is_sample f → ∀ g, default (GPUData.named name) (GpuDataMap gm !! id) = g →
    sampled gm (with_gpus gm (<[id := f g]> (GpuDataMap gm)))).
  { intros name f Hf g <-. exact (sampled_update gm id name f Hf). }
  match goal with |- context [set_mem _ ?x ?y] => generalize x y; intros mu mt end.
  set (f := λ g, counted (add_power (set_temp (set_mem (if uok then add_usage g usage else g) mu mt) temp) power)).
  assert (is_sample f) as Hf.
  { intros g. set (g' := f g). sample_with g' (if uok then Some usage else None) (Some power).
    unfold g', f. by destruct uok. }
  destruct (GpuDataMap gm !! id) as [g|] eqn:E.
  - by apply (Hs "" f Hf g).
  - destruct (getAmdGpuName fs cache _) as [c name]. by apply (Hs name f Hf).
Qed.

Lemma fdinfo_sampled fs gm prev cur : sampled gm (applyFdinfoDelta fs gm prev cur).
Proof using Type.
  unfold applyFdinfoDelta. destruct (_ =? 0)%Z; [done|]. apply sampled_fold. intros gm' [card engines].
  destruct (cards prev !! _) as [old|]; [|done]. apply sampled_update. intros g. cbv zeta.
  destruct (f64_lt f64_zero (readDrmCardTemp fs _)); [set (g' := set_temp _ _)|set (g' := counted _)];
  sample_with g' (Some (maxBusy (u64 (timestamp cur - timestamp prev)) old engines)) (@None f64).
Qed.

Lemma nvml_sampled fs gm i d bdf : sampled gm (nvml_one fs gm i d bdf).
Proof using Type.
  unfold nvml_one. set (id := print_nat i).
  destruct (match GpuDataMap gm !! id with Some g => Some g | None => _ end) as [g|] eqn:E; [|done].
  assert (Hg : ∃ name, default (GPUData.named name) (GpuDataMap gm !! id) = g).
  { destruct (GpuDataMap gm !! id); [simplify_eq; by exists ""|]. destruct (d_name d); simplify_eq/=. by eexists. }
  destruct Hg as [name Hg].
  assert (Hsus : sampled gm (with_gpus gm (<[id := suspended g]> (GpuDataMap gm)))).
  { assert (with_gpus gm (<[id := suspended g]> (GpuDataMap gm)) =
      step gm (Touch id {| i_name := Name g; i_temp := f64_zero; i_used := f64_zero; i_total := MemoryTotal g |})) as ->;
      [|by apply sampled_step].
    subst g. unfold step, update_entry, suspended. by destruct (GpuDataMap gm !! id). }
  destruct (negb _ && _); [done|]. destruct (d_util d) as [util|]; [|done]. subst g.
  apply (sampled_update gm id name (nvml_sample d util)). intros g. set (g' := nvml_sample d util g).
  sample_with g' (Some (f64_of_Z util)) (Some (f64_div (f64_of_Z (default 0%Z (d_power d))) (f64_of_Z 1000))).
  unfold g', nvml_sample. destruct (0 <? util)%Z; [|done]. destruct (d_mem d) as [[used total]|]; [|done].
  by destruct (0 <? total)%Z.
Qed.
End events.

(** ** Examples *)

Definition ex_ids : string :=
  "# device, revision, name" ++ String "010" "67DF, C7, AMD Radeon RX 480 Graphics" ++
  String "010" "67DF, E7, AMD Radeon RX 580 Series" ++ String "010" "73BF, C1, AMD Radeon RX 6800 XT".
Definition ex_fd : string :=
  "drm-driver: i915" ++ String "010" "drm-client-id: 7" ++ String "010" "drm-pdev: 0000:00:02.0" ++
  String "010" "drm-engine-capacity-video: 2" ++ String "010" "drm-engine-render: 9000000 ns".
Definition ex_files : files := {|
  first_read p n := None;
  ReadFile p := if String.eqb p "/usr/share/libdrm/amdgpu.ids" then Some ex_ids
                else if HasPrefix p "/proc/" then Some ex_fd
                else if HasSuffix p "runtime_status" then Some "suspended" else None;
  Glob p := if HasPrefix p "/proc/" then ["/proc/10/fdinfo/5"; "/proc/10/fdinfo/6"] else [];
  Readlink p := None |}.

Lemma amd_cache_transparent_witness :
  resolve_all ex_files {| hits := ∅; misses := ∅ |} [("67df", "e7"); ("73bf", ""); ("67df", "e7"); ("1", "0")] =
    ["AMD Radeon RX 580"; "AMD Radeon RX 6800 XT"; "AMD Radeon RX 580"; "AMD GPU (1)"].
Proof.
  rewrite (amd_cache_transparent ex_files); [vm_compute; reflexivity|].
  intros p q k Hp Hq Hk Hk'. repeat (apply elem_of_cons in Hp as [->|Hp]); try (by apply elem_of_nil in Hp);
    repeat (apply elem_of_cons in Hq as [->|Hq]); try (by apply elem_of_nil in Hq); try reflexivity;
    exfalso; revert Hk Hk'; vm_compute; set_solver.
Defined.

(** Two cards of one device and different revisions: the second is given the name of the first. *)
Example amd_revisions_confused :
  resolve_all ex_files {| hits := ∅; misses := ∅ |} [("67df", "c7"); ("67df", "e7")] =
    ["AMD Radeon RX 480"; "AMD Radeon RX 480"] ∧
  name_of ex_files ("67df", "e7") = "AMD Radeon RX 580".
Proof. vm_compute. split; reflexivity. Qed.

(** Two descriptors of one client are counted twice. *)
Example one_client_counted_twice :
  (cards (gatherFdinfoSnapshot ex_files 0) !! "0000:00:02.0" ≫= λ m, m !! "render") = Some 18000000%Z.
Proof. vm_compute. reflexivity. Qed.

Definition ex_nvml : nvml_device := {|
  d_bus := Some "0000:01:00.0"; d_name := Some "NVIDIA RTX A500 Laptop GPU"; d_util := Some 40%Z;
  d_temp := Some 50%Z; d_mem := Some (1073741824, 4294967296)%Z; d_power := Some 9000%Z |}.
Definition ex_awake : files := {|
  first_read _ _ := None; ReadFile _ := None; Glob _ := []; Readlink _ := None |}.
(** A sample, a poll, and the GPU falls asleep. *)
Definition ex_polled : GPUManager :=
  (GetCurrentData (FC := Gpu.ex_conv) (nvml_one ex_awake (mkManager ∅ ∅ ∅) 0 ex_nvml "0000:01:00.0") 60000).1.

Lemma suspended_reports_zero_witness :
  Usage <$> (GetCurrentData (FC := Gpu.ex_conv) ex_polled 60000).2 !! "0" = Some (f64_of_Z 40) ∧
  Usage <$> (GetCurrentData (FC := Gpu.ex_conv) (nvml_one ex_files ex_polled 0 ex_nvml "0000:01:00.0") 60000).2 !! "0" =
    Some f64_zero.
Proof.
  split; [vm_compute; reflexivity|].
  destruct (GpuDataMap ex_polled !! "0") as [g|] eqn:Hg; [|exfalso; vm_compute in Hg; discriminate Hg].
  destruct (snapshot ex_polled 60000 "0") as [s|] eqn:Hs; [|exfalso; vm_compute in Hs; discriminate Hs].
  destruct (suspended_reports_zero (FC := Gpu.ex_conv) ex_files ex_polled 60000 0 ex_nvml "0000:01:00.0" g s)
    as (out&Hout&Hu&_).
  - exact Hg.
  - exact Hs.
  - assert (Hs' : s_count <$> snapshot ex_polled 60000 "0" = Some 1%Z) by (vm_compute; reflexivity).
    assert (Hg' : f64_to_uint (H := Gpu.ex_conv) 32 ∘ Count <$> GpuDataMap ex_polled !! "0" = Some 1%Z)
      by (vm_compute; reflexivity).
    rewrite Hs in Hs'. rewrite Hg in Hg'. simpl in Hs', Hg'. congruence.
  - left. split; [discriminate|reflexivity].
  - change (print_nat 0) with "0" in Hout. rewrite Hout. simpl. by rewrite Hu.
Defined.
End GpuSysfs.
