(* ===== verification/AgentStart.v ===== *)
(** * Start of the agent ([internal/cmd/agent/agent.go], [agent/agent.go] and the constructors)

    The command line is read, then the agent is constructed: its directory, its settings from
    the environment and its collectors, each of which may be switched off, be missing or, for
    containers, stop the program.  Then it listens and dials (ConnectionManager.v).

    The environment, the file system, the search of programs, [time.ParseDuration], [url.Parse]
    and the parser of flags are arguments. *)

From Stdlib Require Import Ascii.
From S2P Require Import Prelude GoStrings GoText GoFmt AgentNetwork AgentHandlers SelfUpdate DockerStats Systemd SmartDevices SmartHealth Gpu.

Module AgentStart.
Local Open Scope Z_scope.
Local Open Scope string_scope.

(** What becomes of a component: the program exits, it is switched off or missing, or it runs. *)
Inductive init (A : Type) := Exits | Off | On (a : A).
Arguments Exits {A}. Arguments Off {A}. Arguments On {A}.

(** The parts of a URL that the agent reads. *)
Record URL := { Scheme : string; Host : string; Path : string }.

(** The machine the agent starts on. *)
Record machine := {
  env : gmap string string;
  stat : string → bool;                     (* [os.Stat] succeeds *)
  ReadFile : string → option string;
  LookPath : string → option string;
  ParseDuration : string → option Z;
  ParseURL : string → option URL;
  Getuid : Z;
  GOOS : string; GOARCH : string;
}.

Definition GetEnv (m : machine) (key : string) : option string := AgentNetwork.GetEnv (env m) key.

Section start.
Context (m : machine).

Definition set_to (key value : string) : bool :=
  match GetEnv m key with Some v => String.eqb v value | None => false end.

(** ** Containers ([newDockerManager]) *)

Definition getDockerHost : string :=
  let socks := ["/var/run/docker.sock"; "/run/user/" ++ print_Z (Getuid m) ++ "/podman/podman.sock"] in
  "unix://" ++ default "/var/run/docker.sock" (find (stat m) socks).

(** [None]: containers are not wanted. *)
Definition docker_host : option string :=
  match GetEnv m "DOCKER_HOST" with
  | Some h => if String.eqb h "" then None else Some h
  | None => Some getDockerHost
  end.

Definition dockerTimeoutMs : Z := 2100.

(** The network and the address that the transport dials. *)
Definition docker_dial (u : URL) : option (string * string) :=
  if String.eqb (Scheme u) "unix" then Some ("unix", Path u)
  else if existsb (String.eqb (Scheme u)) ["tcp"; "http"; "https"] then Some ("tcp", Host u)
  else None.

Definition docker_timeout : option Z :=
  match GetEnv m "DOCKER_TIMEOUT" with
  | Some t => ParseDuration m t
  | None => Some (dockerTimeoutMs * Millisecond)
  end.

Definition docker_excludes : list string :=
  match GetEnv m "EXCLUDE_CONTAINERS" with
  | Some s => if String.eqb s "" then []
              else List.filter (λ p, negb (String.eqb p "")) (map TrimSpace (Split "," s))
  | None => []
  end.

Record dockerClient := {
  d_network : string; d_addr : string; d_timeout : Z; d_userAgent : string }.

Definition no_figures : DockerStats.ApiStats := {|
  DockerStats.Read := 0; DockerStats.NumProcs := 0; DockerStats.Networks := ∅;
  DockerStats.TotalUsage := 0; DockerStats.SystemUsage := 0; DockerStats.Usage := 0;
  DockerStats.Cache := 0; DockerStats.InactiveFile := 0; DockerStats.PrivateWorkingSet := 0 |}.

Definition fresh_docker : DockerStats.dockerManager := {|
  DockerStats.containerStatsMap := ∅; DockerStats.goodDockerVersion := false;
  DockerStats.dockerVersionChecked := false; DockerStats.isWindows := false;
  DockerStats.usingPodman := false; DockerStats.podmanReported := false;
  DockerStats.excludeContainers := docker_excludes; DockerStats.decoderErr := false;
  DockerStats.apiStats := no_figures; DockerStats.lastCpuContainer := ∅;
  DockerStats.lastCpuSystem := ∅; DockerStats.lastCpuReadTime := ∅;
  DockerStats.networkSentTrackers := ∅; DockerStats.networkRecvTrackers := ∅;
  DockerStats.lastNetworkReadTime := ∅ |}.

(** [version] is the engine's answer to the first question for its version. *)
Definition newDockerManager (semver_major : string → option Z)
    (version : option (string * DockerStats.body DockerStats.version_doc))
    : init (dockerClient * DockerStats.dockerManager) :=
  match docker_host with
  | None => Off
  | Some h =>
      match ParseURL m h with
      | None => Exits
      | Some u =>
          match docker_dial u with
          | None => Exits
          | Some (network, addr) =>
              match docker_timeout with
              | None => Exits
              | Some t =>
                  On ({| d_network := network; d_addr := addr; d_timeout := t;
                         d_userAgent := "Docker-Client/" |},
                      DockerStats.checkDockerVersion semver_major fresh_docker version)
              end
          end
      end
  end.

(** ** Services ([newSystemdManager]) *)

Definition isSystemdAvailable : bool :=
  existsb (stat m) ["/run/systemd/system"; "/run/dbus/system_bus_socket"; "/var/run/dbus/system_bus_socket"] ||
  match ReadFile m "/proc/1/comm" with
  | Some data => String.eqb (TrimSpace data) "systemd"
  | None => false
  end.

(** [connected] is whether the bus answers; the manager has its patterns. *)
Definition newSystemdManager (connected : bool) : option (list string) :=
  if set_to "SKIP_SYSTEMD" "true" then None
  else if negb isSystemdAvailable then None
  else if connected then Some (Systemd.getServicePatterns (GetEnv m "SERVICE_PATTERNS")) else None.

(** ** SMART ([NewSmartManager]) *)

Definition LookPathHomebrew (file : string) : option string :=
  match LookPath m file with
  | Some p => Some p
  | None =>
      let homebrewPath :=
        if String.eqb (GOOS m) "darwin" then JoinPath ["/opt"; "homebrew"; "bin"; file]
        else if String.eqb (GOOS m) "linux"
        then JoinPath ["/home"; "linuxbrew"; ".linuxbrew"; "bin"; file]
        else "" in
      if negb (String.eqb homebrewPath "") && stat m homebrewPath then Some homebrewPath else None
  end.

(** [embedded] is the program that Windows builds carry. *)
Definition detectSmartctl (embedded : option string) : option string :=
  let location := "C:\Program Files\smartmontools\bin\smartctl.exe" in
  let windows :=
    if String.eqb (GOOS m) "windows" then
      match (if String.eqb (GOARCH m) "amd64" then embedded else None) with
      | Some p => Some p
      | None => if stat m location then Some location else None
      end
    else None in
  match windows with Some p => Some p | None => LookPathHomebrew "smartctl" end.

Definition with_path (path : string) : SmartDevices.SmartManager := {|
  SmartDevices.SmartDataMap := ∅; SmartDevices.SmartDevices := [];
  SmartDevices.lastScanTime := None; SmartDevices.smartctlPath := path;
  SmartDevices.excludedDevices := SmartDevices.refreshExcludedDevices (GetEnv m "EXCLUDE_SMART") |}.

(** Without smartctl the manager is kept for eMMC and RAID devices. *)
Definition NewSmartManager (embedded : option string) (fs : SmartHealth.sysfs)
    : option SmartDevices.SmartManager :=
  match detectSmartctl embedded with
  | Some path => Some (with_path path)
  | None =>
      if String.eqb (GOOS m) "linux" &&
         ((0 <? List.length (SmartHealth.scanEmmcDevices fs))%nat ||
          (0 <? List.length (SmartHealth.scanMdraidDevices fs))%nat)
      then Some (with_path "") else None
  end.

(** ** The agent ([NewAgent]) *)

Inductive log_level := LevelInfo | LevelDebug | LevelWarn | LevelError.

Definition LOG_LEVEL : log_level :=
  match GetEnv m "LOG_LEVEL" with
  | Some l =>
      let l := ToLower l in
      if String.eqb l "debug" then LevelDebug
      else if String.eqb l "warn" then LevelWarn
      else if String.eqb l "error" then LevelError else LevelInfo
  | None => LevelInfo
  end.

(** Durations that do not parse are ignored; that of SMART must be positive too. *)
Definition diskUsageCacheDuration : Z := default 0 (v ← GetEnv m "DISK_USAGE_CACHE"; ParseDuration m v).
Definition SmartInterval : Z :=
  match v ← GetEnv m "SMART_INTERVAL"; ParseDuration m v with
  | Some d => if (0 <? d)%Z then d else 0
  | None => 0
  end.

(** What the constructors of the components find. *)
Record findings := {
  f_dataDir : option string;
  f_semver : string → option Z;
  f_version : option (string * DockerStats.body DockerStats.version_doc);
  f_bus : bool; f_embedded : option string; f_sysfs : SmartHealth.sysfs;
  f_nvml : bool; f_gpus : Gpu.gpuCapabilities;
}.

Record Agent := {
  a_dataDir : string; a_memCalc : string; a_diskUsageCache : Z; a_level : log_level;
  a_docker : option (dockerClient * DockerStats.dockerManager); a_smartInterval : Z;
  a_systemd : option (list string); a_smart : option SmartDevices.SmartManager;
  a_gpu : Gpu.manager }.

(** [None]: the program exits.  The directory, the services, SMART and GPUs may be missing; the
    state of disks, networks and sensors is that of their files. *)
Definition NewAgent (f : findings) : option Agent :=
  let agent docker := {|
    a_dataDir := default "" (f_dataDir f); a_memCalc := default "" (GetEnv m "MEM_CALC");
    a_diskUsageCache := diskUsageCacheDuration; a_level := LOG_LEVEL; a_docker := docker;
    a_smartInterval := SmartInterval; a_systemd := newSystemdManager (f_bus f);
    a_smart := NewSmartManager (f_embedded f) (f_sysfs f);
    a_gpu := Gpu.NewGPUManager (f_nvml f) (f_gpus f) (GetEnv m) |} in
  match newDockerManager (f_semver f) (f_version f) with
  | Exits => None
  | Off => Some (agent None)
  | On d => Some (agent (Some d))
  end.

(** ** The WebSocket client *)

Record Options := { Addr : string; InsecureSkipVerify : bool; Header : list (string * string) }.
Record Client := { hubURL : URL; token : string; options : option Options }.

Definition newWebSocketClient : option Client :=
  h ← GetEnv m "HUB_URL";
  u ← ParseURL m h;
  t ← AgentHandlers.getToken (GetEnv m) (ReadFile m);
  Some {| hubURL := u; token := t; options := None |}.

(** [nanos] is the clock. *)
Definition getUserAgent (nanos : Z) : string :=
  let uaWindows := "Windows NT 11.0; Win64; x64" in
  let uaMac := "Macintosh; Intel Mac OS X 14_0_0" in
  "Mozilla/5.0 (" ++ (if (nanos mod 2 =? 0)%Z then uaWindows else uaMac) ++
  ") AppleWebKit/537.36 (KHTML, like Gecko) Chrome/124.0.0.0 Safari/537.36".

(** [URLString] is [URL.String]; the client is changed, since its URL is. *)
Definition getOptions (URLString : URL → string) (version : string) (nanos : Z) (c : Client)
    : Client * Options :=
  match options c with
  | Some o => (c, o)
  | None =>
      let u := {| Scheme := if String.eqb (Scheme (hubURL c)) "https" then "wss" else "ws";
                  Host := Host (hubURL c);
                  Path := JoinPath [Path (hubURL c); "api/bantay/agent-connect"] |} in
      let o := {| Addr := URLString u; InsecureSkipVerify := true;
                  Header := [("User-Agent", getUserAgent nanos); ("X-Token", token c);
                             ("X-Beszel", version)] |} in
      ({| hubURL := u; token := token c; options := Some o |}, o)
  end.

(** ** The SSH server ([StartServer]) *)

Inductive removal := Removed | NotExist | RemoveFails.
Inductive server := ServerError (msg : string) | Serving (network addr version : string).

Definition StartServer (running : bool) (network addr version : string) (socket_file : removal)
    (listens : bool) : server :=
  if set_to "DISABLE_SSH" "true" then ServerError "SSH disabled"
  else if running then ServerError "server already started"
  else
    let stale := match socket_file with RemoveFails => true | _ => false end in
    if String.eqb network "unix" && stale then ServerError "remove"
    else if negb listens then ServerError "listen"
    else Serving network addr ("SSH-2.0-bantay_" ++ version).

(** Whether a client's key is admitted; terminals never are. *)
Definition PublicKeyHandler {Key} (KeysEqual : Key → Key → bool) (keys : list Key) (key : Key) : bool :=
  existsb (KeysEqual key) keys.
End start.

(** ** The command line *)

Record flags := {
  fl_key : string; fl_listen : string; fl_url : string; fl_token : string; fl_china : bool;
  fl_version : bool; fl_help : bool }.

(** What the program is to do; [BadFlags] is the exit of the parser of flags. *)
Inductive command :=
  | HealthCheck | Fingerprint (sub : string) | BadFlags | ShowVersion | ShowHelp
  | UpdateAgent (mirror : bool) | RunAgent (opts : flags) (env : gmap string string).

Definition arg (args : list string) (i : nat) : string := default "" (args !! i).

Definition setenv (key value : string) (env : gmap string string) : gmap string string :=
  if String.eqb value "" then env else <[key := value]> env.

(** [parse]; [pflag] parses the arguments after the program's name. *)
Definition parse (pflag : list string → option flags) (args : list string) (env : gmap string string)
    : command :=
  let subcommand := arg args 1 in
  if String.eqb subcommand "health" then HealthCheck
  else if String.eqb subcommand "fingerprint" then Fingerprint (arg args 2)
  else match pflag (tail (map SelfUpdate.convert_flag args)) with
       | None => BadFlags
       | Some f =>
           if fl_version f then ShowVersion
           else if fl_help f || String.eqb subcommand "help" then ShowHelp
           else if String.eqb subcommand "update" then UpdateAgent (fl_china f)
           else RunAgent f (setenv "TOKEN" (fl_token f) (setenv "HUB_URL" (fl_url f) env))
       end.

(** [handleFingerprint]: what is printed ([None] for an error) and the file afterwards.
    [removable] is whether the file, if any, can be removed. *)
Inductive fp_result := Prints (s : string) | Usage | Fatal.
Definition handleFingerprint (digest : string → string) (dataDir : option string) (written removable : bool)
    (h : AgentHandlers.host) (sub : string) (file : option string) : fp_result * option string :=
  if String.eqb sub "" || String.eqb sub "view" then
    let '(fp, file) := AgentHandlers.GetFingerprint digest (bool_decide (is_Some dataDir)) written h "" "" file in
    (Prints fp, file)
  else if existsb (String.eqb sub) ["help"; "-h"; "--help"] then (Usage, file)
  else if String.eqb sub "reset" then
    match dataDir with
    | None => (Fatal, file)
    | Some _ =>
        if removable
        then (Prints "Fingerprint reset. A new one will be generated on next start.",
              AgentHandlers.DeleteFingerprint file)
        else (Fatal, file)
    end
  else (Fatal, file).

(** [main] for a command that runs the agent: the keys, the address, the agent, its start. *)
Inductive run (Key : Type) :=
  | NoKeys | ExitsAtStart | Started (keys : list Key) (addr network : string) (a : Agent).
Arguments NoKeys {Key}. Arguments ExitsAtStart {Key}. Arguments Started {Key}.
Definition main {Key} (parse_key : string → option Key) (m : machine) (f : findings) (opts : flags) : run Key :=
  match SelfUpdate.loadPublicKeys parse_key (fl_key opts) (GetEnv m) (ReadFile m) with
  | None => NoKeys
  | Some keys =>
      let addr := AgentHandlers.GetAddress (GetEnv m) (fl_listen opts) in
      match NewAgent m f with
      | None => ExitsAtStart
      | Some a => Started keys addr (AgentHandlers.GetNetwork (GetEnv m) addr) a
      end
  end.

(** ** Properties *)

(** Containers are wanted, and the address or the timeout cannot be used. *)
Definition docker_unusable (m : machine) : Prop :=
  ∃ h, docker_host m = Some h ∧
    ((∀ u, ParseURL m h = Some u → Scheme u ∉ ["unix"; "tcp"; "http"; "https"]) ∨
     ∃ t, GetEnv m "DOCKER_TIMEOUT" = Some t ∧ ParseDuration m t = None).

Lemma docker_dial_Some u : is_Some (docker_dial u) ↔ Scheme u ∈ ["unix"; "tcp"; "http"; "https"].
Proof.
  unfold docker_dial. rewrite elem_of_cons.
  destruct (String.eqb_spec (Scheme u) "unix") as [E|E]; [split; eauto|].
  destruct (existsb _ _) eqn:Hx.
  - split; [|eauto]. intros _. right. apply existsb_exists in Hx as (x&Hin&->%String.eqb_eq).
    by apply list_elem_of_In.
  - split; [by intros [? ?]|]. intros [?|Hin]; [done|]. apply not_true_iff_false in Hx.
    destruct Hx. apply existsb_exists. exists (Scheme u). split; [by apply list_elem_of_In|].
    apply String.eqb_refl.
Qed.

Lemma docker_timeout_None m :
  docker_timeout m = None ↔ ∃ t, GetEnv m "DOCKER_TIMEOUT" = Some t ∧ ParseDuration m t = None.
Proof.
  unfold docker_timeout. destruct (GetEnv m "DOCKER_TIMEOUT") as [t|]; [|naive_solver].
  split; [eauto|]. intros (t'&[= <-]&?). done.
Qed.

(** The three ends of the construction. *)
Lemma newDockerManager_spec m sv v :
  match newDockerManager m sv v with
  | Exits => docker_unusable m
  | Off => docker_host m = None
  | On (c, _) => ¬ docker_unusable m ∧ ∃ h u, docker_host m = Some h ∧ ParseURL m h = Some u ∧
      docker_dial u = Some (d_network c, d_addr c) ∧ docker_timeout m = Some (d_timeout c)
  end.
Proof.
  unfold newDockerManager, docker_unusable. destruct (docker_host m) as [h|]; [|done].
  destruct (ParseURL m h) as [u|] eqn:Hu; [|by exists h; split; [done|left; rewrite Hu]].
  pose proof (docker_dial_Some u) as Hd. destruct (docker_dial u) as [[n a]|] eqn:Hdial.
  2: { exists h. split; [done|]. left. rewrite Hu. intros ? [= <-] Hin%Hd. by destruct Hin. }
  pose proof (docker_timeout_None m) as Ht. destruct (docker_timeout m) as [t|].
  2: { exists h. split; [done|]. right. by apply Ht. }
  split; [|by exists h, u]. intros (?&[= <-]&[Hs|Hs%Ht]); [|done].
  apply (Hs u Hu), Hd. by eexists.
Qed.

Lemma NewAgent_docker m f :
  match NewAgent m f with
  | None => docker_unusable m
  | Some a => ¬ docker_unusable m ∧
      match a_docker a with
      | None => docker_host m = None
      | Some (c, _) => ∃ h u, docker_host m = Some h ∧ ParseURL m h = Some u ∧
          docker_dial u = Some (d_network c, d_addr c) ∧ docker_timeout m = Some (d_timeout c)
      end
  end.
Proof.
  unfold NewAgent. pose proof (newDockerManager_spec m (f_semver f) (f_version f)) as H.
  destruct (newDockerManager m _ _) as [| |[c d]]; simpl; [done| |done]. split; [|done].
  intros (h&Hh&_). congruence.
Qed.

(** The agent is constructed unless containers are wanted and their address or timeout cannot
    be used; without [DOCKER_HOST] it dials the first of Docker's and Podman's sockets that
    exists, and Docker's when none does, with a timeout of 2.1 seconds unless another is set; a
    setting for SMART that is no positive duration counts as none. *)
Theorem agent_start_exact m f :
  (∀ p, ParseURL m ("unix://" ++ p) = Some {| Scheme := "unix"; Host := ""; Path := p |}) →
  (NewAgent m f = None ↔ docker_unusable m) ∧
  ∀ a, NewAgent m f = Some a →
    (a_docker a = None ↔ GetEnv m "DOCKER_HOST" = Some "") ∧
    (∀ c d, a_docker a = Some (c, d) → GetEnv m "DOCKER_HOST" = None →
       d_network c = "unix" ∧
       d_addr c = (if stat m "/var/run/docker.sock" then "/var/run/docker.sock"
                   else if stat m ("/run/user/" ++ print_Z (Getuid m) ++ "/podman/podman.sock")
                   then "/run/user/" ++ print_Z (Getuid m) ++ "/podman/podman.sock"
                   else "/var/run/docker.sock") ∧
       (GetEnv m "DOCKER_TIMEOUT" = None → d_timeout c = 2100 * Millisecond)) ∧
    a_smartInterval a = SmartInterval m ∧ (0 <= a_smartInterval a)%Z.
Proof.
  intros HU. pose proof (NewAgent_docker m f) as H. split.
  { destruct (NewAgent m f); [|done]. split; [done|]. by destruct H. }
  intros a Ha. rewrite Ha in H. destruct H as [_ H]. split_and!.
  - unfold docker_host in H.
    destruct (a_docker a) as [[c d]|]; (split; [intros E; try done|intros E; try done]).
    + rewrite E in H. by destruct H as (h&u&?&_).
    + destruct (GetEnv m "DOCKER_HOST") as [h|]; [|done].
      destruct (String.eqb_spec h "") as [E2|]; [by rewrite E2|done].
  - intros c d Hd Hno. rewrite Hd in H. destruct H as (h&u&Hh&Hu&Hdial&Ht).
    unfold docker_host in Hh. rewrite Hno in Hh. injection Hh as <-. unfold getDockerHost in Hu.
    rewrite HU in Hu. injection Hu as <-. injection Hdial as E1 E2. split_and!; [done| |].
    + rewrite <- E2. simpl. by repeat case_match.
    + intros Hn. unfold docker_timeout in Ht. rewrite Hn in Ht. by injection Ht as <-.
  - unfold NewAgent in Ha. repeat case_match; by simplify_eq/=.
  - assert (a_smartInterval a = SmartInterval m) as ->.
    { unfold NewAgent in Ha. repeat case_match; by simplify_eq/=. }
    unfold SmartInterval. destruct (_ ≫= _) as [x|]; [destruct (Z.ltb_spec 0 x)|]; lia.
Qed.

(** A second call gives the same options and leaves the address alone. *)
Lemma getOptions_once URLString version n1 n2 c :
  let '(c1, o1) := getOptions URLString version n1 c in
  getOptions URLString version n2 c1 = (c1, o1).
Proof. unfold getOptions. by destruct (options c) eqn:Ho; [rewrite Ho|]. Qed.

Lemma PublicKeyHandler_spec {Key} (KeysEqual : Key → Key → bool) keys key :
  (∀ a b, KeysEqual a b = true ↔ a = b) → PublicKeyHandler KeysEqual keys key = true ↔ key ∈ keys.
Proof.
  intros He. unfold PublicKeyHandler. rewrite existsb_exists, list_elem_of_In.
  setoid_rewrite He. naive_solver.
Qed.

(** ** A concrete machine *)

Definition ex_url (s : string) : option URL :=
  match CutPrefix s "unix://" with
  | Some p => Some {| Scheme := "unix"; Host := ""; Path := p |}
  | None => None
  end.
Definition ex_machine (e : gmap string string) : machine := {|
  env := e; stat := String.eqb "/run/user/1000/podman/podman.sock"; ReadFile := λ _, None;
  LookPath := λ _, None; ParseDuration := λ _, None; ParseURL := ex_url; Getuid := 1000;
  GOOS := "linux"; GOARCH := "amd64" |}.
Definition ex_findings : findings := {|
  f_dataDir := None; f_semver := λ _, None; f_version := None; f_bus := false; f_embedded := None;
  f_sysfs := {| SmartHealth.ReadFile := λ _, None; SmartHealth.Exists := λ _, false;
                SmartHealth.ReadDir := λ _, None |};
  f_nvml := false; f_gpus := Gpu.ex_caps |}.

Lemma ex_url_unix p : ex_url ("unix://" ++ p) = Some {| Scheme := "unix"; Host := ""; Path := p |}.
Proof. done. Qed.

Lemma agent_start_exact_witness :
  NewAgent (ex_machine {["DOCKER_HOST" := "ftp://x"]}) ex_findings = None.
Proof.
  apply (agent_start_exact (ex_machine {["DOCKER_HOST" := "ftp://x"]}) ex_findings ex_url_unix).
  exists "ftp://x". split; [reflexivity|]. left. intros u Hu. by vm_compute in Hu.
Defined.

Example podman_found :
  (λ a, fst <$> a_docker a) <$> NewAgent (ex_machine ∅) ex_findings =
  Some (Some {| d_network := "unix"; d_addr := "/run/user/1000/podman/podman.sock";
                d_timeout := 2100000000; d_userAgent := "Docker-Client/" |}).
Proof. by vm_compute. Qed.

(** The flags for the address of the hub and the token set variables without the agent's prefix,
    and a variable with the prefix is preferred: the flags are then ignored. *)
Definition ex_flags (l : list string) : option flags := Some {|
  fl_key := ""; fl_listen := ""; fl_url := "https://new"; fl_token := ""; fl_china := false;
  fl_version := false; fl_help := false |}.
Example flag_ignored :
  match parse ex_flags ["agent"; "--url"; "https://new"] {["BESZEL_AGENT_HUB_URL" := "https://old"]} with
  | RunAgent f e => fl_url f = "https://new" ∧ GetEnv (ex_machine e) "HUB_URL" = Some "https://old"
  | _ => False
  end.
Proof. by vm_compute. Qed.
End AgentStart.
